(* ===== verification/_CoqProject ===== *)
-Q . S2P
Prelude.v
Datetime.v
PyValue.v
Json.v
Digest.v
Sql.v
PyText.v
GitHubHttp.v
Jcs.v
Signatures.v
Manifest.v
Attestation.v
Timing.v
Watchdog.v
GateStore.v
GateStoreFacts.v
GateStoreInv.v
GateStoreProps.v
Allocation.v
AllocationLedger.v
LedgerFacts.v
LedgerProps.v
AllocationBroker.v
BrokerProps.v
Protocol.v
Coordinator.v
CoordinatorProps.v
JitPilot.v
PilotChecks.v
LocalApproval.v
WorkerAuthority.v
ApprovalProps.v
AutoDispatch.v
WorkerState.v
OutboundWorker.v
PilotWorker.v
WorkerService.v
WorkerProps.v
PilotDispatch.v
Registry.v
Admission.v
SigningRequest.v
CheckDelivery.v
Observability.v
Operator.v
CanaryBoundary.v
HostSecurity.v
RunnerBoundary.v
Bakeoff.v
GitHubAdapter.v
BootstrapBoundary.v
RepositoryProfile.v
CanaryState.v
CanaryRuntime.v
CanaryProps.v
