(* ===== verification/Prelude.v ===== *)
(** * self-hosted-ci: a verification library

    The program decides on which machine the checks of a pull request run and
    what may be published about them.  A local host holds the authority to run
    one job at a time on a disposable runner; GitHub-hosted runners are the
    fallback.  This library models the Python package src/github_automation and
    proves the rules its parts keep towards each other.

    ** The parts and how they meet

    - A pull request head is approved on the host (LocalApproval; AutoDispatch
      plans which heads), claimed by a worker, reserved at the allocation broker
      (AllocationBroker over AllocationLedger), dispatched to GitHub as a
      protocol or pilot package (Protocol, JitPilot), observed, signed
      (Allocation, Signatures), finalized, watched to its end and proved clean
      (Coordinator, JitPilot, AllocationBroker).
    - Which result counts is decided by the gate store (GateStore): one winner
      per generation of a head, chosen under a lease, delivered once through an
      outbox.  The watchdog (Watchdog over Timing) reconciles deadlines; its
      decisions are what the gate store is asked to do.
    - Local success needs an attestation whose keys come from a signed manifest
      chain (Manifest, Attestation over Signatures and Jcs).

    ** Files

    Foundations: Prelude (exceptions, the result type, the state and error
    monad, atomicity, fuel, strings), Datetime (datetime on microseconds since
    year 1), PyValue (JSON values, dictionaries, ==), Json (json.dumps and
    json.loads), PyText (text functions, uuid, base64), Digest (SHA-256), Sql
    (tables with keys as finite maps), Jcs (canonical JSON of crypto.py).

    Components, with the source they model under src/github_automation/:
    - Signatures, Manifest, Attestation: crypto.py.
    - Timing: timing.py.  Watchdog: watchdog.py.
    - GateStore (the operations, named as the methods of gatestore.py),
      GateStoreFacts (what one call changes), GateStoreInv (the well-formedness
      invariant), GateStoreProps (the theorems).
    - Allocation, AllocationLedger, LedgerFacts, LedgerProps: runner_jit.py.
    - AllocationBroker, BrokerProps: runner_jit_broker.py.
    - Protocol: github.py.
    - Coordinator, CoordinatorProps: coordinator.py.
    - JitPilot: jit_pilot.py.
    - LocalApproval, ApprovalProps: local_approval.py.
    - AutoDispatch: pr_autodispatch.py, and its plan against the approval store.
    - GitHubHttp: what both App clients share.  WorkerAuthority:
      worker_authority.py.  PilotChecks: pilot_checks.py.
    - WorkerState, OutboundWorker, PilotWorker: outbound_worker.py, its database
      of requests, the canary's worker and the pilot's.  WorkerService: the
      process scripts/host/outbound-coordinator-worker.py runs, which serves the
      pilot worker over the approval store (LocalApproval) and the gate checks
      (PilotChecks).  WorkerProps: theorems about the worker.  PilotDispatch: the
      dispatches of a request over the whole life of its row.
    - Registry: registry.py.  Admission: inventory.py, policy.py and
      authority_boundary.py.  SigningRequest: approval.py.  CheckDelivery:
      check_delivery.py.  Observability: observability.py.  Operator: operator.py
      and health_snapshot.py.
    - CanaryBoundary: canary_boundary.py.  HostSecurity: host_security.py, with
      the part of configparser it reads wsl.conf with.  RunnerBoundary:
      runner_boundary.py, which decides over both.  Bakeoff: bakeoff.py.
    - GitHubAdapter: github_adapter.py, the transports Protocol and CheckDelivery
      run over.  BootstrapBoundary: bootstrap_boundary.py.  RepositoryProfile:
      repository_profile.py and the process it supervises.
    - CanaryState: canary_worker.py, the durable state of a canary matrix.
      CanaryRuntime: its runtime, execute, recover and the production fence.
      CanaryProps: the theorems about both.

    ** How code is translated

    A method of a stateful class is a computation [M St A]: a state goes in, a
    result or an exception and the state reached come out; an exception does not
    undo work, [transaction] does, where the source has BEGIN IMMEDIATE and
    ROLLBACK.  A SQLite table is a finite map from its key columns, or a list
    where insertion order matters; 64-bit binding of integers is written out.
    Checks are made in the order of the source and raise its exception class.
    What the package calls but does not contain is a class with operations, and
    laws where the code relies on them: the digest and the signature scheme
    ([Digest], [KeyLibrary]), GARM and the live verifier ([Driver]), GitHub, the
    signer, the clock ([Adapters], [PilotOps], [PilotGitHubReader],
    [WorkerGitHubClient], [ApprovalHost], [HTTPTransport], [JobLog], [PollClock]),
    the files of the host ([EvidenceRoot], [ProfileHost]), the disk, the host and
    the driver of a canary matrix ([CanaryDisk], [CanaryHost], [CanaryDriver]).
    Every such class has a concrete instance on which the theorems are applied.
    [Sha256] is SHA-256 itself.  The worker is written against the promises of its parts,
    [WorkSource], [WorkerBroker], [WorkerGitHub], [WorkerHost], [BrokerProcess],
    which the approval store, the broker's command line and the App clients of
    this library implement; [DispatchLog] adds that only the dispatch dispatches.

    ** What the theorems show

    - Gate store: one immutable winner, one outbox message for a terminal
      generation, every call fenced by the live lease, rollback, attestation
      nonces used once, and a refinement: every call is at most one step of the
      machine new, open, selected, terminal.
    - Ledger and broker: well-formed rows, a lifecycle that only moves forward,
      one job per allocation, transitions that refine the lifecycle machine,
      signed contents equal to the reserved ones; admission only of the signed
      context while the runner is being disabled, denials that change nothing,
      recovery that converges, waits that end.
    - Crypto: what is signed verifies, key states only move forward, a positive
      decision agrees with the current authority.
    - Protocol and coordinator: a valid package carries one kind of authority,
      the hosted fallback is always valid, receipts are exact, and an outbound
      dispatch has one of a few traces, with at most one dispatch.
    - GitHub adapter: no credential leaves the requests of its own authority, a
      minted token is of one repository and two permissions and bounded in time,
      and the HTTP transport keeps the promises a delivery is proved over.
    - Approvals: one active approval of a head under any interleaving of
      processes, settled approvals final, durable ones never requeued, what
      [approve] and [poll] report is so, polling ends; the plan's meaning.
    - GitHub Apps: the worker's App sends only permitted requests of its
      repository; a published success rests on evidence in the job log, which is
      read the same however it is cut into chunks.
    - Worker: a completed run whose approval has been revoked, has failed or has
      expired meanwhile is never settled; every cycle of the service fails.  A
      request is dispatched at most once, and once more at most for every cycle
      that finds it in the phase discard-reporting; a run that reaches the bound.
    - Watchdog: decisions respect a recorded winner, effects are fenced and
      performed once, and once more at most for each pass that raised or died
      between performing and recording.
    - Admission and operation: local CI only under the complete policy, bounded
      signing requests, a Check Run delivered effectively once, redaction that
      leaves no match of the secret patterns, an audit log in which any change
      costs a hash collision between two of the records compared, rollouts that take each step in order and only when
      it is verified, snapshots healthy only within their lifetime.
    - Host boundary: it is enabled only when the pinned reviewer signed it, every
      artifact and the network policy are on the host as measured, and a clean
      proof of each canary scenario stands under an authorization that permits
      nothing but the canaries; the runner manager is selected by recomputing
      every score, in whatever order the candidates are listed.  The inert
      material is installed only over two fresh observations of an inert host and
      the pinned manifest, file by file.
    - Repository profile: only the pinned script of the pinned profile is run, on
      the image and the base workflow it names; every signal that arrives reaches
      its process group, unless the group refused one and the call raised, the
      host's own handlers are put back, and a cancelled run ends only when that
      group is gone.
    - Canary matrix: at most six scenarios are ever started of one scope, each
      under an authorization the pinned key signed; a run that returns leaves
      every scenario proven and the lane closed; production is let through only
      over closed and clean matrices with the units found stopped.

    ** Fuel

    Loops that wait carry fuel, and exhaustion is the exception [OUT_OF_FUEL]
    of its own.  [observation_fuel] (the turns the deadline of the hook leaves),
    302 turns for the cleanup wait (600 s at 2 s and two more), [monitor_fuel]
    (timeout over poll interval and two more), [observation_turns] and one turn
    more than there are pending approvals are proved to be enough where the clock moves
    as the sleeps say.  [listener_turns] (the 90 s of the wait for the listener at
    250 ms, and two more) is a bound of the same kind that no theorem needs to be
    enough.

    ** Not modelled

    The processes around the package (agent_operator.py, the other scripts, the
    runner image), and of canary_worker.py the live adapter and driver
    (LiveCanaryDispatchAdapter, BrokerCanaryScenarioDriver), which are
    [CanaryDriver] here.  Floats do not occur in the documents; times are integers of microseconds; lone
    surrogates in text are refused where Python keeps them. *)

From stdpp Require Export prelude strings list.
From Stdlib Require Export ZArith Lia.
From Stdlib Require Export Ascii.
#[export] Set Warnings "-clear-no-such-hyp".

#[global] Open Scope Z_scope.

(** ** Python exceptions

    The exception classes the modelled modules raise, with the message the
    source passes.  [Builtin] classes first, then one group per module. *)
Inductive exn_class :=
  | ValueError | TypeError | KeyError | OverflowError | RuntimeError | AttributeError
  | StopIteration | OSError | UnboundLocalError | IndexError
  | IntegrityError                                   (* sqlite3 *)
  | InjectedFault                                    (* raised by a fault hook *)
  | GateStoreError | ConflictError | FencedError | ReplayError
  | ControlFailure | LateEvidence                    (* gatestore.py *)
  | CryptoContractError | CanonicalizationError | SignatureContractError
  | ManifestContractError | AttestationContractError (* crypto.py *)
  | RunnerJitError | RunnerJitTemporalError | ApprovalExpired
  | AllocationClaimExpired | InvalidLifecycleTransition (* runner_jit.py *)
  | ReservePartialFailure                            (* coordinator.py *)
  | JobStartedDenial                                 (* runner_jit_broker.py *)
  | RegistryError                                    (* registry.py *)
  | AutoDispatchError                                (* pr_autodispatch.py *)
  | CheckDeliveryError | CheckEvidenceConflict | AmbiguousCheckWrite
                                                     (* check_delivery.py *)
  | JitPilotError                                    (* jit_pilot.py *)
  | LocalApprovalError                               (* local_approval.py *)
  | ApprovalContractError                            (* approval.py *)
  | WorkerAuthorityError | WorkerTransportError      (* worker_authority.py *)
  | GateCheckError                                   (* pilot_checks.py *)
  | WorkerError                                      (* outbound_worker.py *)
  | GitHubAdapterError | GitHubHTTPError             (* github_adapter.py *)
  | HostSecurityError | RepositoryProfileError | RunnerBoundaryError
  | CanaryBoundaryError | BootstrapBoundaryError | BakeoffError
  | GitHubControlFailure | ProtocolFailure | WorkflowJobPending
                                                     (* github.py *)
  | CoordinatorUnavailable | ReserveDefinitelyUnavailable (* coordinator.py *)
  | KeyboardInterrupt
  | CanaryRuntimeError | CanaryRebootRequired.        (* canary_worker.py *)

#[export] Instance exn_class_eq_dec : EqDecision exn_class.
Proof. solve_decision. Defined.

Record exn := Exn { exn_cls : exn_class; exn_msg : string }.

#[export] Instance exn_eq_dec : EqDecision exn.
Proof. solve_decision. Defined.

(** A loop whose fuel ran out: no exception of the source. *)
Definition OUT_OF_FUEL : exn := Exn RuntimeError "out of fuel".

(** ** Fallible computations *)

Inductive result (A : Type) :=
  | Ok (a : A)
  | Raise (e : exn).
Arguments Ok {_} _.
Arguments Raise {_} _.

#[export] Instance result_eq_dec `{EqDecision A} : EqDecision (result A).
Proof. solve_decision. Defined.

#[export] Instance result_ret : MRet result := @Ok.
#[export] Instance result_bind : MBind result := λ A B f r,
  match r with Ok a => f a | Raise e => Raise e end.
#[export] Instance result_fmap : FMap result := λ A B f r,
  match r with Ok a => Ok (f a) | Raise e => Raise e end.

Definition is_ok {A} (r : result A) : bool :=
  match r with Ok _ => true | Raise _ => false end.

Definition throw {A} (c : exn_class) (msg : string) : result A := Raise (Exn c msg).

(** [check b c msg]: the source's [if b: raise c(msg)]. *)
Definition check (b : bool) (c : exn_class) (msg : string) : result unit :=
  if b then throw c msg else Ok tt.

(** ** Stateful computations

    A computation keeps the state it has reached also when it raises, as a
    Python method does; [transaction] is what undoes the work. *)
Definition M (St A : Type) : Type := St → result A * St.

Section state_monad.
Context {St : Type}.

#[export] Instance M_ret : MRet (M St) := λ A a s, (Ok a, s).
#[export] Instance M_bind : MBind (M St) := λ A B f m s,
  match m s with
  | (Ok a, s') => f a s'
  | (Raise e, s') => (Raise e, s')
  end.
#[export] Instance M_fmap : FMap (M St) := λ A B f m s,
  match m s with
  | (Ok a, s') => (Ok (f a), s')
  | (Raise e, s') => (Raise e, s')
  end.

Definition lift {A} (r : result A) : M St A := λ s, (r, s).
Definition get : M St St := λ s, (Ok s, s).
Definition gets {A} (f : St → A) : M St A := λ s, (Ok (f s), s).
Definition modify (f : St → St) : M St unit := λ s, (Ok tt, f s).
Definition raise {A} (c : exn_class) (msg : string) : M St A := lift (throw c msg).
Definition raise_if (b : bool) (c : exn_class) (msg : string) : M St unit :=
  lift (check b c msg).

(** [try: m], with the exception as a value, and the bare [raise]. *)
Definition attempt {A} (m : M St A) : M St (result A) := λ s, let '(r, s') := m s in (Ok r, s').
Definition reraise {A} (e : exn) : M St A := λ s, (Raise e, s).

(** [except] over the classes [p]; running out of fuel is not an exception to
    catch.  [finally]: its own exception replaces the one under way. *)
Definition catching {A} (p : exn_class → bool) (m : M St A) (h : exn → M St A) : M St A := λ s,
  match m s with
  | (Raise e, s') =>
      if p (exn_cls e) && negb (bool_decide (e = OUT_OF_FUEL)) then h e s' else (Raise e, s')
  | (Ok a, s') => (Ok a, s')
  end.
Definition finally {A} (m : M St A) (f : M St unit) : M St A := λ s,
  let '(r, s1) := m s in
  match f s1 with
  | (Ok _, s2) => (r, s2)
  | (Raise e, s2) => (Raise e, s2)
  end.

(** [BEGIN IMMEDIATE; body; COMMIT], with [ROLLBACK] and re-raise on any
    exception of the body. *)
Definition transaction {A} (m : M St A) : M St A := λ s,
  match m s with
  | (Ok a, s') => (Ok a, s')
  | (Raise e, _) => (Raise e, s)
  end.
End state_monad.

(** ** Inversion of successful runs *)

Section inversion.
Context {St : Type}.

Lemma bind_ok {A B} (m : M St A) (k : A → M St B) s b s' :
  (m ≫= k) s = (Ok b, s') ↔ ∃ a s1, m s = (Ok a, s1) ∧ k a s1 = (Ok b, s').
Proof.
  unfold mbind, M_bind. split.
  - destruct (m s) as [[a|e] s1] eqn:E; [eauto | discriminate].
  - by intros (a & s1 & -> & ?).
Qed.

Lemma ret_ok {A} (a b : A) (s s' : St) :
  (mret a : M St A) s = (Ok b, s') ↔ a = b ∧ s = s'.
Proof. unfold mret, M_ret. split; [by intros [= -> ->] | by intros [-> ->]]. Qed.

Lemma lift_ok {A} (r : result A) b (s s' : St) :
  lift r s = (Ok b, s') ↔ r = Ok b ∧ s = s'.
Proof. unfold lift. split; [by intros [= -> ->] | by intros [-> ->]]. Qed.

Lemma get_ok (s b s' : St) : get s = (Ok b, s') ↔ b = s ∧ s' = s.
Proof. unfold get. split; [by intros [= -> ->] | by intros [-> ->]]. Qed.

Lemma gets_ok {A} (f : St → A) s b s' : gets f s = (Ok b, s') ↔ b = f s ∧ s' = s.
Proof. unfold gets. split; [by intros [= -> ->] | by intros [-> ->]]. Qed.

Lemma modify_ok (f : St → St) s u s' : modify f s = (Ok u, s') ↔ s' = f s.
Proof. unfold modify. destruct u. split; [by intros [= ->] | by intros ->]. Qed.

Lemma raise_ok {A} c msg (b : A) (s s' : St) : raise c msg s = (Ok b, s') ↔ False.
Proof. unfold raise, lift, throw. split; [discriminate | done]. Qed.

Lemma raise_if_ok t c msg u (s s' : St) :
  raise_if t c msg s = (Ok u, s') ↔ t = false ∧ s' = s.
Proof.
  unfold raise_if, lift, check. destruct u, t; split; naive_solver.
Qed.

Lemma transaction_ok {A} (m : M St A) s b s' :
  transaction m s = (Ok b, s') ↔ m s = (Ok b, s').
Proof. unfold transaction. destruct (m s) as [[?|?] ?]; naive_solver. Qed.

Lemma transaction_ok_1 {A} (m : M St A) s b s' :
  transaction m s = (Ok b, s') → m s = (Ok b, s').
Proof. apply transaction_ok. Qed.

(** A transaction that raises leaves the store as it found it. *)
Lemma transaction_raise {A} (m : M St A) s e s' :
  transaction m s = (Raise e, s') → s' = s.
Proof. unfold transaction. destruct (m s) as [[?|?] ?]; naive_solver. Qed.
End inversion.

Lemma result_bind_ok {A B} (r : result A) (k : A → result B) b :
  (r ≫= k) = Ok b ↔ ∃ a, r = Ok a ∧ k a = Ok b.
Proof. unfold mbind, result_bind. destruct r; naive_solver. Qed.

Lemma result_ret_ok {A} (a b : A) : (mret a : result A) = Ok b ↔ a = b.
Proof. unfold mret, result_ret. naive_solver. Qed.

Lemma check_ok t c msg u : check t c msg = Ok u ↔ t = false.
Proof. unfold check, throw. destruct u, t; naive_solver. Qed.

Lemma throw_ok {A} c msg (a : A) : throw c msg = Ok a ↔ False.
Proof. unfold throw. naive_solver. Qed.

(** ** Evaluation, one step at a time *)

Section evaluation.
Context {St : Type}.

Lemma eval_lift {A B} (r : result A) (k : A → M St B) s a : r = Ok a → (lift r ≫= k) s = k a s.
Proof. by intros ->. Qed.

Lemma eval_lift_raise {A B} (r : result A) (k : A → M St B) s e :
  r = Raise e → (lift r ≫= k) s = (Raise e, s).
Proof. by intros ->. Qed.

Lemma eval_get {B} (k : St → M St B) s : (get ≫= k) s = k s s.
Proof. done. Qed.

Lemma eval_ret {A B} (a : A) (k : A → M St B) s : ((mret a : M St A) ≫= k) s = k a s.
Proof. done. Qed.

Lemma eval_modify {B} f (k : unit → M St B) s : (modify f ≫= k) s = k tt (f s).
Proof. done. Qed.

Lemma eval_pass {B} b c msg (k : unit → M St B) s :
  b = false → (raise_if b c msg ≫= k) s = k tt s.
Proof. by intros ->. Qed.

Lemma eval_stop {B} b c msg (k : unit → M St B) s :
  b = true → (raise_if b c msg ≫= k) s = (Raise (Exn c msg), s).
Proof. by intros ->. Qed.

Lemma eval_run {A B} (m : M St A) (k : A → M St B) s a s' :
  m s = (Ok a, s') → (m ≫= k) s = k a s'.
Proof. intros E. unfold mbind, M_bind. by rewrite E. Qed.

Lemma eval_run_raise {A B} (m : M St A) (k : A → M St B) s e s' :
  m s = (Raise e, s') → (m ≫= k) s = (Raise e, s').
Proof. intros E. unfold mbind, M_bind. by rewrite E. Qed.

Lemma eval_assoc {A B C} (m : M St A) (k : A → M St B) (l : B → M St C) s :
  ((m ≫= k) ≫= l) s = (m ≫= λ a, k a ≫= l) s.
Proof. unfold mbind, M_bind. by destruct (m s) as [[a|e] s']. Qed.

Lemma eval_transaction {A} (m : M St A) s a s' : m s = (Ok a, s') → transaction m s = (Ok a, s').
Proof. unfold transaction. by intros ->. Qed.

Lemma eval_transaction_raise {A} (m : M St A) s e s' :
  m s = (Raise e, s') → transaction m s = (Raise e, s).
Proof. unfold transaction. by intros ->. Qed.
End evaluation.

(** ** Atomicity

    A computation is [atomic] when raising undoes its work; it is [readonly]
    when it never touches the state. *)
Section atomicity.
Context {St : Type}.

Definition atomic {A} (m : M St A) : Prop := ∀ s e s', m s = (Raise e, s') → s' = s.
Definition readonly {A} (m : M St A) : Prop := ∀ s r s', m s = (r, s') → s' = s.

Lemma readonly_lift {A} (r : result A) : readonly (lift r).
Proof. by intros s r' s' [= _ ->]. Qed.

Lemma readonly_raise_if b c msg : readonly (raise_if b c msg).
Proof. apply readonly_lift. Qed.

Lemma readonly_ret {A} (a : A) : readonly (mret a).
Proof. by intros s r' s' [= _ ->]. Qed.

Lemma readonly_bind {A B} (m : M St A) (k : A → M St B) :
  readonly m → (∀ a, readonly (k a)) → readonly (m ≫= k).
Proof.
  intros Hm Hk s r s' E. unfold mbind, M_bind in E. destruct (m s) as [[a|e] s1] eqn:Em.
  - apply Hm in Em as ->. by apply Hk in E.
  - injection E as _ <-. by apply Hm in Em.
Qed.

Lemma readonly_if {A} (b : bool) (m n : M St A) : readonly m → readonly n → readonly (if b then m else n).
Proof. by destruct b. Qed.

Lemma atomic_readonly {A} (m : M St A) : readonly m → atomic m.
Proof. intros Hm s e s' E. by apply Hm in E. Qed.

Lemma atomic_transaction {A} (m : M St A) : atomic (transaction m).
Proof. intros s e s' E. by apply transaction_raise in E. Qed.

Lemma atomic_bind {A B} (m : M St A) (k : A → M St B) :
  readonly m → (∀ a, atomic (k a)) → atomic (m ≫= k).
Proof.
  intros Hm Hk s e s' E. unfold mbind, M_bind in E. destruct (m s) as [[a|e'] s1] eqn:Em.
  - apply Hm in Em as ->. by apply Hk in E.
  - injection E as _ <-. by apply Hm in Em.
Qed.

Lemma atomic_fmap {A B} (f : A → B) (m : M St A) : atomic m → atomic (f <$> m).
Proof.
  intros Hm s e s' E. unfold fmap, M_fmap in E. destruct (m s) as [[a|e'] s1] eqn:Em; [done|].
  injection E as -> <-. eauto.
Qed.

Lemma fmap_ok {A B} (f : A → B) (m : M St A) s b s' :
  (f <$> m) s = (Ok b, s') ↔ ∃ a, m s = (Ok a, s') ∧ f a = b.
Proof. unfold fmap, M_fmap. destruct (m s) as [[a|e] s1]; naive_solver. Qed.
End atomicity.

(** ** Fuel

    What is not a loop never runs out of fuel. *)
Lemma result_bind_fuel {B C} (r : result B) (k : B → result C) :
  r ≠ Raise OUT_OF_FUEL → (∀ b, k b ≠ Raise OUT_OF_FUEL) → (r ≫= k) ≠ Raise OUT_OF_FUEL.
Proof. destruct r; [intros _ H; apply H|]. intros Hr _ [= ->]. by apply Hr. Qed.
Lemma check_fuel b c msg : c ≠ RuntimeError → check b c msg ≠ Raise OUT_OF_FUEL.
Proof. intros Hc. unfold check, throw, OUT_OF_FUEL. destruct b; congruence. Qed.
Lemma throw_fuel {A} c msg : c ≠ RuntimeError → throw (A := A) c msg ≠ Raise OUT_OF_FUEL.
Proof. intros Hc. unfold throw, OUT_OF_FUEL. congruence. Qed.

Section fuel.
Context {St : Type}.
Definition fueled {A} (m : M St A) : Prop := ∀ s, (m s).1 ≠ Raise OUT_OF_FUEL.

Lemma fueled_bind {A B} (m : M St A) (k : A → M St B) : fueled m → (∀ a, fueled (k a)) → fueled (m ≫= k).
Proof.
  intros Hm Hk s. specialize (Hm s). unfold mbind, M_bind. destruct (m s) as [[a|e] s1]; cbn in *; [apply Hk|].
  congruence.
Qed.
Lemma fueled_lift {A} (r : result A) : r ≠ Raise OUT_OF_FUEL → fueled (lift r).
Proof. by intros Hr s. Qed.
Lemma fueled_ret {A} (a : A) : fueled (mret a).
Proof. done. Qed.
Lemma fueled_get : fueled get.
Proof. done. Qed.
Lemma fueled_modify f : fueled (modify f).
Proof. done. Qed.
Lemma fueled_raise_if b c msg : c ≠ RuntimeError → fueled (raise_if b c msg).
Proof. intros Hc. by apply fueled_lift, check_fuel. Qed.
Lemma fueled_transaction {A} (m : M St A) : fueled m → fueled (transaction m).
Proof. intros Hm s. specialize (Hm s). unfold transaction. by destruct (m s) as [[a|e] s1]. Qed.
End fuel.

(** ** Movement

    [moves R m]: whatever state [m] starts in and however it ends, the state it
    reaches is [R]-related to the one it started in. *)
Section movement.
Context {St : Type} (R : relation St) `{!PreOrder R}.
Definition moves {A} (m : M St A) : Prop := ∀ s, R s (m s).2.

Lemma moves_bind {A B} (m : M St A) (k : A → M St B) : moves m → (∀ a, moves (k a)) → moves (m ≫= k).
Proof.
  intros Hm Hk s. specialize (Hm s). unfold mbind, M_bind. destruct (m s) as [[a|e] s1]; cbn in *; [|done].
  etrans; [done | apply Hk].
Qed.
Lemma moves_fmap {A B} (f : A → B) (m : M St A) : moves m → moves (f <$> m).
Proof. intros Hm s. specialize (Hm s). unfold fmap, M_fmap. by destruct (m s) as [[a|e] s1]. Qed.
Lemma moves_lift {A} (r : result A) : moves (lift r).
Proof. by intros s. Qed.
Lemma moves_reraise {A} e : moves (reraise (A := A) e).
Proof. by intros s. Qed.
Lemma moves_ret {A} (a : A) : moves (mret a).
Proof. by intros s. Qed.
Lemma moves_raise {A} c msg : moves (raise (A := A) c msg).
Proof. apply moves_lift. Qed.
Lemma moves_raise_if b c msg : moves (raise_if b c msg).
Proof. apply moves_lift. Qed.
Lemma moves_if {A} (b : bool) (m n : M St A) : moves m → moves n → moves (if b then m else n).
Proof. by destruct b. Qed.
Lemma moves_attempt {A} (m : M St A) : moves m → moves (attempt m).
Proof. intros Hm s. specialize (Hm s). unfold attempt. by destruct (m s). Qed.
Lemma moves_catching {A} p (m : M St A) h : moves m → (∀ e, moves (h e)) → moves (catching p m h).
Proof.
  intros Hm Hh s. specialize (Hm s). unfold catching. destruct (m s) as [[a|e] s1]; cbn in *; [done|].
  destruct (_ && _); [|done]. etrans; [done | apply Hh].
Qed.
Lemma moves_finally {A} (m : M St A) f : moves m → moves f → moves (finally m f).
Proof.
  intros Hm Hf s. specialize (Hm s). unfold finally. destruct (m s) as [r s1]; cbn in *.
  specialize (Hf s1). destruct (f s1) as [[?|e] s2]; cbn in *; by etrans.
Qed.
Lemma moves_transaction {A} (m : M St A) : moves m → moves (transaction m).
Proof. intros Hm s. specialize (Hm s). unfold transaction. by destruct (m s) as [[a|e] s1]. Qed.
Lemma moves_gets {A} (f : St → A) : moves (gets f).
Proof. by intros s. Qed.
(** A bind from one state. *)
Lemma moves_from_bind {A B} (m : M St A) (k : A → M St B) s :
  R s (m s).2 → (∀ a s', m s = (Ok a, s') → R s' (k a s').2) → R s ((m ≫= k) s).2.
Proof.
  intros Hm Hk. unfold mbind, M_bind. destruct (m s) as [[a|e] s1] eqn:E; cbn in *; [|done]. etrans; [done|by apply Hk].
Qed.
End movement.
Lemma moves_weaken {St A} (R R' : relation St) (m : M St A) : (∀ s s', R s s' → R' s s') → moves R m → moves R' m.
Proof. intros Hw Hm s. apply Hw, Hm. Qed.

(** ** Tactics *)

(** [monad_inv] decomposes every hypothesis that says a monadic program
    returned normally into facts about its steps. *)
Ltac monad_step :=
  match goal with
  | H : (mbind _ _) _ = (Ok _, _) |- _ =>
      apply bind_ok in H; destruct H as (? & ? & ? & ?)
  | H : fmap _ _ _ = (Ok _, _) |- _ => apply fmap_ok in H; destruct H as (? & ? & ?)
  | H : (mret _) _ = (Ok _, _) |- _ => apply ret_ok in H; destruct H as [? ?]
  | H : transaction _ _ = (Ok _, _) |- _ => apply transaction_ok_1 in H
  | H : lift _ _ = (Ok _, _) |- _ => apply lift_ok in H; destruct H as [? ?]
  | H : get _ = (Ok _, _) |- _ => apply get_ok in H; destruct H as [? ?]
  | H : gets _ _ = (Ok _, _) |- _ => apply gets_ok in H; destruct H as [? ?]
  | H : modify _ _ = (Ok _, _) |- _ => apply modify_ok in H
  | H : raise _ _ _ = (Ok _, _) |- _ => by apply raise_ok in H
  | H : raise_if _ _ _ _ = (Ok _, _) |- _ => apply raise_if_ok in H; destruct H as [? ?]
  | H : mbind _ _ = Ok _ |- _ => apply result_bind_ok in H; destruct H as (? & ? & ?)
  | H : mret _ = Ok _ |- _ => apply result_ret_ok in H
  | H : check _ _ _ = Ok _ |- _ => apply check_ok in H
  | H : throw _ _ = Ok _ |- _ => by apply throw_ok in H
  | H : Ok _ = Ok _ |- _ => injection H as H
  | H : Raise _ = Ok _ |- _ => discriminate H
  | H : Some _ = Some _ |- _ => injection H as H
  | H : None = Some _ |- _ => discriminate H
  end.
Ltac monad_inv := repeat (monad_step; simplify_eq).

(** Boolean guards as the source writes them, turned into propositions. *)
Ltac bool_inv :=
  repeat match goal with
  | H : orb _ _ = false |- _ => apply orb_false_iff in H; destruct H
  | H : andb _ _ = true |- _ => apply andb_true_iff in H; destruct H
  | H : negb _ = false |- _ => apply negb_false_iff in H
  | H : negb _ = true |- _ => apply negb_true_iff in H
  | H : bool_decide _ = true |- _ => apply bool_decide_eq_true in H
  | H : bool_decide _ = false |- _ => apply bool_decide_eq_false in H
  | H : Z.ltb _ _ = true |- _ => apply Z.ltb_lt in H
  | H : Z.ltb _ _ = false |- _ => apply Z.ltb_ge in H
  | H : Z.leb _ _ = true |- _ => apply Z.leb_le in H
  | H : Z.leb _ _ = false |- _ => apply Z.leb_gt in H
  | H : Z.eqb _ _ = true |- _ => apply Z.eqb_eq in H
  | H : Z.eqb _ _ = false |- _ => apply Z.eqb_neq in H
  end.

(** Case analysis on the scrutinee of a [match] or [if] in a hypothesis. *)
Ltac case_in H :=
  match type of H with
  | context [match ?x with _ => _ end] => let E := fresh "E" in destruct x eqn:E
  end.

(** Both at once, for a run that returned normally: one goal per path. *)
Ltac run_inv :=
  repeat first
    [ progress monad_inv
    | match goal with
      | H : match ?x with _ => _ end = Ok _ |- _ => let E := fresh "E" in destruct x eqn:E
      | H : match ?x with _ => _ end = Some _ |- _ => let E := fresh "E" in destruct x eqn:E
      | H : match ?x with _ => _ end _ = (Ok _, _) |- _ => let E := fresh "E" in destruct x eqn:E
      end ].

(** ** Strings *)

Lemma str_nil_app (t : string) : EmptyString +:+ t = t.
Proof. done. Qed.
Lemma str_cons_app a (s t : string) : String a s +:+ t = String a (s +:+ t).
Proof. done. Qed.
Lemma str_app_assoc (a b c : string) : (a +:+ b) +:+ c = a +:+ (b +:+ c).
Proof. induction a as [|x a IH]; [done|]. rewrite !str_cons_app. by rewrite IH. Qed.
Lemma str_app_nil (a : string) : a +:+ EmptyString = a.
Proof. induction a as [|x a IH]; [done|]. rewrite str_cons_app. by rewrite IH. Qed.

(** Right-nested appends, with literal prefixes pushed out. *)
Ltac str_norm := repeat (rewrite str_app_assoc || rewrite str_cons_app || rewrite str_nil_app).

(** [s] holds no [c]. *)
Fixpoint lacks (c : ascii) (s : string) : bool :=
  match s with
  | EmptyString => true
  | String c' s => negb (Ascii.eqb c c') && lacks c s
  end.

Lemma lacks_app c s t : lacks c (s +:+ t) = lacks c s && lacks c t.
Proof.
  induction s as [|a s IH]; [done|]. rewrite str_cons_app. simpl. by rewrite IH, andb_assoc.
Qed.

(** A separator that one side does not hold splits in one way: from the left
    and from the right. *)
Lemma sep_inj_l c a b a' b' :
  lacks c a = true → lacks c a' = true →
  a +:+ String c b = a' +:+ String c b' → a = a' ∧ b = b'.
Proof.
  revert a'. induction a as [|x a IH]; intros [|y a']; rewrite ?str_cons_app, ?str_nil_app; cbn [lacks].
  - by intros _ _ [= ->].
  - intros _ Hy [= -> ?]. by rewrite Ascii.eqb_refl in Hy.
  - intros Hx _ [= -> ?]. by rewrite Ascii.eqb_refl in Hx.
  - intros [_ Hx]%andb_true_iff [_ Hy]%andb_true_iff [= -> E].
    by destruct (IH a' Hx Hy E) as [-> ->].
Qed.

Lemma sep_inj_r c a b a' b' :
  lacks c b = true → lacks c b' = true →
  a +:+ String c b = a' +:+ String c b' → a = a' ∧ b = b'.
Proof.
  assert (∀ z t, lacks c (z +:+ String c t) = true → False) as Hno.
  { intros z t. rewrite lacks_app. cbn [lacks]. rewrite Ascii.eqb_refl. by rewrite andb_false_r. }
  revert a'. induction a as [|x a IH]; intros [|y a']; rewrite ?str_cons_app, ?str_nil_app.
  - by intros _ _ [= ->].
  - intros Hb _ [= -> ->]. by apply Hno in Hb.
  - intros _ Hb' [= -> <-]. by apply Hno in Hb'.
  - intros Hb Hb' [= -> E]. by destruct (IH a' Hb Hb' E) as [-> ->].
Qed.

Create HintDb ci discriminated.
Create Rewrite HintDb ci.

#[export] Hint Resolve readonly_lift readonly_raise_if readonly_ret readonly_bind readonly_if
  atomic_transaction atomic_bind atomic_fmap : ci.

Create HintDb moves discriminated.
#[export] Hint Resolve moves_bind moves_fmap moves_lift moves_reraise moves_ret moves_raise moves_raise_if moves_if
  moves_attempt moves_catching moves_finally moves_transaction moves_gets : moves.
#[export] Hint Extern 0 (PreOrder _) => exact _ : moves.
(** Steps through a method: its binds, its matches, and what it calls. *)
Ltac moving := repeat
  match goal with
  | |- moves _ (mbind _ _) => apply moves_bind; [exact _| |intros ?]
  | |- moves _ (match _ with _ => _ end) => case_match
  | |- moves _ _ => solve [eauto 3 with moves]
  end.

Create HintDb fuel discriminated.
#[export] Hint Resolve fueled_lift fueled_ret fueled_get fueled_modify fueled_raise_if fueled_transaction
  result_bind_fuel check_fuel throw_fuel : fuel.
#[export] Hint Extern 1 (_ ≠ RuntimeError) => discriminate : fuel.
#[export] Hint Extern 1 (Ok _ ≠ Raise _) => discriminate : fuel.
