(* ===== verification/Datetime.v ===== *)
(** * Python's [datetime] as the repository uses it

    Instants and durations are integers of microseconds, instants counted
    from 0001-01-01T00:00:00 UTC (year 1 to 9999, the range of the class).
    The calendar follows CPython's [_ord2ymd]; [isoformat], [fromisoformat]
    (the extended calendar form [YYYY-MM-DD[*HH[:MM[:SS[.f..]]]][+HH:MM]]; the
    week-date and basic forms are refused) and the text conversions
    [_timestamp], [_parse_timestamp], [_stamp] of gatestore.py,
    local_approval.py and runner_jit.py are built on it.

    Main facts: the text of an instant parses back to it, and comparing two
    texts as strings (SQLite's BINARY collation) compares the instants. *)

From S2P Require Import Prelude.

(** ** Calendar *)

Definition is_leap (y : Z) : bool :=
  (y mod 4 =? 0) && (negb (y mod 100 =? 0) || (y mod 400 =? 0)).

Definition days_before_year (y : Z) : Z :=
  let p := y - 1 in p * 365 + p / 4 - p / 100 + p / 400.

Definition days_in_month (y m : Z) : Z :=
  match m with
  | 2 => if is_leap y then 29 else 28
  | 4 | 6 | 9 | 11 => 30
  | _ => 31
  end.

(** [_DAYS_BEFORE_MONTH], with the leap day added after February. *)
Definition days_before_month (leap : bool) (m : Z) : Z :=
  match m with
  | 1 => 0 | 2 => 31 | 3 => 59 | 4 => 90 | 5 => 120 | 6 => 151
  | 7 => 181 | 8 => 212 | 9 => 243 | 10 => 273 | 11 => 304 | _ => 334
  end + (if (2 <? m) && leap then 1 else 0).

(** [date.toordinal() - 1]: days since 0001-01-01. *)
Definition ymd2day (y m d : Z) : Z :=
  days_before_year y + days_before_month (is_leap y) m + (d - 1).

(** The month and day of the [n]-th day (from 0) of a year. *)
Definition month_day (leap : bool) (n : Z) : Z * Z :=
  let m := (n + 50) / 32 in
  let m := if n <? days_before_month leap m then m - 1 else m in
  (m, n - days_before_month leap m + 1).

(** [date.fromordinal(n + 1)]. *)
Definition day2ymd (n : Z) : Z * Z * Z :=
  let n400 := n / 146097 in let n := n mod 146097 in
  let n100 := n / 36524 in let n := n mod 36524 in
  let n4 := n / 1461 in let n := n mod 1461 in
  let n1 := n / 365 in let n := n mod 365 in
  let y := n400 * 400 + 1 + n100 * 100 + n4 * 4 + n1 in
  if (n1 =? 4) || (n100 =? 4) then (y - 1, 12, 31)
  else
    let leap := (n1 =? 3) && (negb (n4 =? 24) || (n100 =? 3)) in
    let '(m, d) := month_day leap n in (y, m, d).

(** ** Instants, time zones and durations *)

Definition US_SECOND : Z := 1000000.
Definition US_DAY : Z := 86400 * US_SECOND.
Definition MAX_INSTANT : Z := 315537897600000000.    (* exclusive *)

Definition seconds (n : Z) : Z := n * US_SECOND.
Definition minutes (n : Z) : Z := n * 60 * US_SECOND.
Definition hours (n : Z) : Z := n * 3600 * US_SECOND.
Definition days (n : Z) : Z := n * US_DAY.

Definition valid_instant (t : Z) : Prop := 0 ≤ t < MAX_INSTANT.
#[export] Instance valid_instant_dec t : Decision (valid_instant t).
Proof. unfold valid_instant. apply _. Defined.

Inductive tzinfo := UTC | FixedOffset (offset : Z).
#[export] Instance tzinfo_eq_dec : EqDecision tzinfo.
Proof. solve_decision. Defined.

(** A [datetime] object: naive (wall clock only) or aware, represented by its
    time zone and its UTC instant. *)
Inductive datetime :=
  | Naive (wall : Z)
  | Aware (tz : tzinfo) (instant : Z).
#[export] Instance datetime_eq_dec : EqDecision datetime.
Proof. solve_decision. Defined.

Definition utc (t : Z) : datetime := Aware UTC t.

(** Ordering two [datetime]s raises when one is naive and the other aware. *)
Definition dt_compare (a b : datetime) : result comparison :=
  match a, b with
  | Naive x, Naive y => Ok (x ?= y)
  | Aware _ x, Aware _ y => Ok (x ?= y)
  | _, _ => throw TypeError "can't compare offset-naive and offset-aware datetimes"
  end.

(** [t + d]; leaving the supported years raises. *)
Definition dt_add (t d : Z) : result Z :=
  if decide (valid_instant (t + d)) then Ok (t + d)
  else throw OverflowError "date value out of range".

(** ** Fixed-width decimal text *)

Definition digit_char (d : Z) : Ascii.ascii := Ascii.ascii_of_N (Z.to_N (48 + d)).
Definition char_digit (c : Ascii.ascii) : option Z :=
  let n := Z.of_N (Ascii.N_of_ascii c) in
  if (48 <=? n) && (n <=? 57) then Some (n - 48) else None.

Fixpoint digits (k : nat) (n : Z) : string :=
  match k with
  | O => ""
  | S k => String (digit_char ((n / 10 ^ Z.of_nat k) mod 10)) (digits k n)
  end.

Fixpoint take_digits (k : nat) (s : string) : option (Z * string) :=
  match k with
  | O => Some (0, s)
  | S k =>
      match s with
      | String c s' =>
          match char_digit c, take_digits k s' with
          | Some d, Some (n, rest) => Some (d * 10 ^ Z.of_nat k + n, rest)
          | _, _ => None
          end
      | EmptyString => None
      end
  end.

Definition expect (c : Ascii.ascii) (s : string) : option string :=
  match s with
  | String c' s' => if Ascii.eqb c c' then Some s' else None
  | EmptyString => None
  end.

(** [s.replace(pat, rep)] for a non-empty [pat]. *)
Fixpoint replace_from (pat rep : string) (skip : nat) (s : string) : string :=
  match s with
  | EmptyString => EmptyString
  | String c s' =>
      match skip with
      | S k => replace_from pat rep k s'
      | O =>
          if String.prefix pat s
          then rep +:+ replace_from pat rep (String.length pat - 1) s'
          else String c (replace_from pat rep 0 s')
      end
  end.
Definition str_replace (pat rep s : string) : string := replace_from pat rep 0 s.

(** ** ISO 8601 text *)

(** The fields of a UTC instant. *)
Definition date_text (t : Z) : string :=
  let '(y, m, d) := day2ymd (t / US_DAY) in
  digits 4 y +:+ "-" +:+ digits 2 m +:+ "-" +:+ digits 2 d.

Definition clock_text (t : Z) : string :=
  let s := t mod US_DAY / US_SECOND in
  digits 2 (s / 3600) +:+ ":" +:+ digits 2 (s / 60 mod 60) +:+ ":" +:+ digits 2 (s mod 60).

(** [value.isoformat(timespec="seconds")] and ["microseconds"] of a UTC
    instant. *)
Definition isoformat_seconds (t : Z) : string :=
  date_text t +:+ "T" +:+ clock_text t +:+ "+00:00".
Definition isoformat_microseconds (t : Z) : string :=
  date_text t +:+ "T" +:+ clock_text t +:+ "." +:+ digits 6 (t mod US_SECOND) +:+ "+00:00".

(** The fraction after the dot: its digits, cut to six and padded. *)
Fixpoint fraction_go (k : nat) (s : string) : Z * string :=
  match s with
  | String c s' =>
      match char_digit c with
      | Some d =>
          match k with
          | O => fraction_go O s'
          | S k => let '(n, rest) := fraction_go k s' in (d * 10 ^ Z.of_nat k + n, rest)
          end
      | None => (0, s)
      end
  | EmptyString => (0, EmptyString)
  end.
Definition parse_fraction (s : string) : option (Z * string) :=
  match s with
  | String c _ => match char_digit c with Some _ => Some (fraction_go 6 s) | None => None end
  | EmptyString => None
  end.

(** HH[:MM[:SS[.f..]]]: the time of day in microseconds, and the rest. *)
Definition parse_clock (s : string) : option (Z * string) :=
  '(h, s) ← take_digits 2 s;
  if negb (h <? 24) then None else
  match expect ":"%char s with
  | None => Some (hours h, s)
  | Some s =>
    '(mi, s) ← take_digits 2 s;
    if negb (mi <? 60) then None else
    match expect ":"%char s with
    | None => Some (hours h + minutes mi, s)
    | Some s =>
      '(sec, s) ← take_digits 2 s;
      if negb (sec <? 60) then None else
      let base := hours h + minutes mi + seconds sec in
      match expect "."%char s with
      | None => Some (base, s)
      | Some s => '(us, s) ← parse_fraction s; Some (base + us, s)
      end
    end
  end.

(** The UTC offset: nothing, or [+HH:MM] / [-HH:MM]. *)
Definition parse_offset (s : string) : option (option tzinfo) :=
  let field (sign : Z) (s : string) :=
    '(h, s) ← take_digits 2 s; s ← expect ":"%char s; '(mi, s) ← take_digits 2 s;
    if bool_decide (s = "") && (h <? 24) && (mi <? 60) then
      let off := sign * (hours h + minutes mi) in
      Some (Some (if off =? 0 then UTC else FixedOffset off))
    else None in
  match s with
  | EmptyString => Some None
  | String "+"%char s => field 1 s
  | String "-"%char s => field (-1) s
  | _ => None
  end.

(** YYYY-MM-DD: the day number, and the rest. *)
Definition parse_date (s : string) : option (Z * string) :=
  '(y, s) ← take_digits 4 s; s ← expect "-"%char s;
  '(m, s) ← take_digits 2 s; s ← expect "-"%char s;
  '(d, s) ← take_digits 2 s;
  if (1 <=? y) && (1 <=? m) && (m <=? 12) && (1 <=? d) && (d <=? days_in_month y m)
  then Some (ymd2day y m d, s) else None.

Definition parse_iso (s : string) : option datetime :=
  '(day, s) ← parse_date s;
  match s with
  | EmptyString => Some (Naive (days day))
  | String _ s =>
      '(us, s) ← parse_clock s;
      tz ← parse_offset s;
      Some match tz with
           | None => Naive (days day + us)
           | Some UTC => Aware UTC (days day + us)
           | Some (FixedOffset off) => Aware (FixedOffset off) (days day + us - off)
           end
  end.

Definition fromisoformat (s : string) : result datetime :=
  match parse_iso s with
  | Some t => Ok t
  | None => throw ValueError ("Invalid isoformat string: " +:+ s)
  end.

(** ** Texts of the repository *)

(** The text before the offset, to the second. *)
Definition stamp_body (t : Z) : string := date_text t +:+ "T" +:+ clock_text t.

(** gatestore.py and observability.py: [_timestamp] of an aware datetime. *)
Definition timestamp_text (t : Z) : string :=
  str_replace "+00:00" "Z" (isoformat_microseconds t).
(** local_approval.py: [_stamp]. *)
Definition stamp_text (t : Z) : string :=
  str_replace "+00:00" "Z" (isoformat_seconds t).

(** gatestore.py [_parse_timestamp]: read a text back as a UTC instant.  A
    naive text, which Python would read in the host's zone, is read as UTC:
    the host runs in UTC. *)
Definition parse_timestamp (value : string) : result Z :=
  t ← fromisoformat (str_replace "Z" "+00:00" value);
  Ok match t with Aware _ i => i | Naive w => w end.

Definition valid_date (y m d : Z) : Prop :=
  1 ≤ y ∧ 1 ≤ m ≤ 12 ∧ 1 ≤ d ≤ days_in_month y m.

Definition lex (c d : comparison) : comparison := match c with Eq => d | _ => c end.

(** Every day of a year has a month and a day of month: checked on the 365 or
    366 days of both kinds of year. *)
Definition month_day_ok (leap : bool) (n : Z) : bool :=
  let '(m, d) := month_day leap n in
  (1 <=? m) && (m <=? 12) && (1 <=? d)
  && (d <=? days_in_month (if leap then 4 else 1) m)
  && (days_before_month leap m + (d - 1) =? n).


(** ** The calendar is a bijection *)

Lemma days_before_year_succ y :
  days_before_year (y + 1) = days_before_year y + (if is_leap y then 366 else 365).
Proof.
  unfold days_before_year, is_leap. replace (y + 1 - 1) with y by lia.
  destruct (y mod 4 =? 0) eqn:H4, (y mod 100 =? 0) eqn:H100, (y mod 400 =? 0) eqn:H400;
    simpl; bool_inv; Z.to_euclidean_division_equations; lia.
Qed.

Lemma days_before_year_mono y y' : y ≤ y' → days_before_year y ≤ days_before_year y'.
Proof. unfold days_before_year. intros. Z.to_euclidean_division_equations; lia. Qed.

Lemma month_day_all (leap : bool) n :
  0 ≤ n < (if leap then 366 else 365) → month_day_ok leap n = true.
Proof.
  intros Hn.
  assert (Hall : forallb (month_day_ok leap) (seqZ 0 (if leap then 366 else 365)) = true)
    by (destruct leap; reflexivity).
  rewrite forallb_forall in Hall. apply Hall, list_elem_of_In, elem_of_seqZ.
  destruct leap; lia.
Qed.

(** Which year kind a valid date has decides only the length of February. *)
Lemma days_in_month_leap y (leap : bool) m :
  is_leap y = leap → days_in_month y m = days_in_month (if leap then 4 else 1) m.
Proof. intros <-. unfold days_in_month. destruct (is_leap y); reflexivity. Qed.

Lemma month_day_spec y n m d :
  1 ≤ y → 0 ≤ n < (if is_leap y then 366 else 365) →
  month_day (is_leap y) n = (m, d) →
  valid_date y m d ∧ ymd2day y m d = days_before_year y + n.
Proof.
  intros Hy Hn Hmd. pose proof (month_day_all _ _ Hn) as H.
  unfold month_day_ok in H. rewrite Hmd in H. bool_inv.
  unfold valid_date, ymd2day. rewrite (days_in_month_leap y (is_leap y)) by done. lia.
Qed.

(** [day2ymd] inverts [ymd2day] and yields a valid date. *)
Lemma day2ymd_spec n y m d :
  0 ≤ n → day2ymd n = (y, m, d) → valid_date y m d ∧ ymd2day y m d = n.
Proof.
  intros Hn. unfold day2ymd.
  set (n400 := n / 146097). set (r400 := n mod 146097).
  set (n100 := r400 / 36524). set (r100 := r400 mod 36524).
  set (n4 := r100 / 1461). set (r4 := r100 mod 1461).
  set (n1 := r4 / 365). set (r1 := r4 mod 365).
  assert (Hb : n = 146097 * n400 + r400 ∧ r400 = 36524 * n100 + r100 ∧
               r100 = 1461 * n4 + r4 ∧ r4 = 365 * n1 + r1 ∧
               0 ≤ n400 ∧ 0 ≤ n100 ≤ 4 ∧ 0 ≤ n4 ≤ 24 ∧ 0 ≤ n1 ≤ 4 ∧ 0 ≤ r1 < 365 ∧
               0 ≤ r400 < 146097 ∧ 0 ≤ r100 < 36524 ∧ 0 ≤ r4 < 1461).
  { unfold n400, r400, n100, r100, n4, r4, n1, r1.
    Z.to_euclidean_division_equations; lia. }
  clearbody n400 r400 n100 r100 n4 r4 n1 r1.
  destruct ((n1 =? 4) || (n100 =? 4)) eqn:Hend.
  - intros [= <- <- <-].
    set (y' := n400 * 400 + 1 + n100 * 100 + n4 * 4 + n1 - 1).
    assert (Hlast : 1 ≤ y' ∧ days_before_year y' + 365 = n ∧ is_leap y' = true).
    { apply orb_true_iff in Hend. unfold y', days_before_year, is_leap.
      rewrite !andb_true_iff, orb_true_iff, negb_true_iff, !Z.eqb_eq, Z.eqb_neq.
      destruct Hend as [Hend|Hend]; apply Z.eqb_eq in Hend; subst.
      - assert (r4 = 1460 ∧ n4 ≤ 23) by lia. split_and!.
        + lia.
        + Z.to_euclidean_division_equations; lia.
        + Z.to_euclidean_division_equations; lia.
        + left. Z.to_euclidean_division_equations; lia.
      - assert (n4 = 0 ∧ n1 = 0) as [-> ->] by lia. split_and!.
        + lia.
        + Z.to_euclidean_division_equations; lia.
        + Z.to_euclidean_division_equations; lia.
        + right. Z.to_euclidean_division_equations; lia. }
    destruct Hlast as (Hy & Hlast & Hleap). unfold valid_date, ymd2day.
    rewrite Hleap. change (days_before_month true 12) with 335.
    change (days_in_month y' 12) with 31. clearbody y'. lia.
  - set (y' := n400 * 400 + 1 + n100 * 100 + n4 * 4 + n1) in *.
    apply orb_false_iff in Hend as [H1 H100]. apply Z.eqb_neq in H1, H100.
    assert (Hy : days_before_year y' + r1 = n ∧
      is_leap y' = (n1 =? 3) && (negb (n4 =? 24) || (n100 =? 3))).
    { unfold y', days_before_year, is_leap. split.
      - Z.to_euclidean_division_equations; lia.
      - apply Bool.eq_iff_eq_true.
        rewrite !andb_true_iff, !orb_true_iff, !negb_true_iff, !Z.eqb_eq, !Z.eqb_neq.
        Z.to_euclidean_division_equations; lia. }
    destruct Hy as [Hy Hleap]. rewrite <- Hleap.
    destruct (month_day (is_leap y') r1) as [m' d'] eqn:Hmd. intros [= <- <- <-].
    eapply month_day_spec in Hmd; [by rewrite Hy in Hmd | lia |].
    destruct (is_leap y'); lia.
Qed.

(** ** Fixed-width decimal text parses back *)

Lemma char_digit_char d : 0 ≤ d < 10 → char_digit (digit_char d) = Some d.
Proof.
  intros Hd. assert (d ∈ seqZ 0 10) as Hin by (apply elem_of_seqZ; lia).
  revert d Hd Hin. clear. intros d _.
  assert (Hall : Forall (λ d, char_digit (digit_char d) = Some d) (seqZ 0 10))
    by (cbn; repeat constructor).
  rewrite Forall_forall in Hall. auto.
Qed.

Lemma mod_pow_succ n k :
  (n / 10 ^ Z.of_nat k) mod 10 * 10 ^ Z.of_nat k + n mod 10 ^ Z.of_nat k
  = n mod 10 ^ Z.of_nat (S k).
Proof.
  rewrite Nat2Z.inj_succ, Z.pow_succ_r by lia.
  assert (0 < 10 ^ Z.of_nat k) by (apply Z.pow_pos_nonneg; lia).
  rewrite (Z.mul_comm 10), Z.rem_mul_r by lia. lia.
Qed.

Lemma take_digits_digits k n s :
  take_digits k (digits k n +:+ s) = Some (n mod 10 ^ Z.of_nat k, s).
Proof.
  induction k as [|k IH].
  - cbn [digits take_digits]. by rewrite str_nil_app, Z.mod_1_r.
  - cbn [digits]. rewrite str_cons_app. cbn [take_digits].
    rewrite char_digit_char by (apply Z.mod_pos_bound; lia).
    rewrite IH. by rewrite mod_pow_succ.
Qed.

Lemma take_digits_small k n s :
  0 ≤ n < 10 ^ Z.of_nat k → take_digits k (digits k n +:+ s) = Some (n, s).
Proof. intros. by rewrite take_digits_digits, Z.mod_small. Qed.

Lemma fraction_go_digits k n s :
  fraction_go 0 s = (0, s) →
  fraction_go k (digits k n +:+ s) = (n mod 10 ^ Z.of_nat k, s).
Proof.
  intros Hs. induction k as [|k IH].
  - cbn [digits]. by rewrite str_nil_app, Hs, Z.mod_1_r.
  - cbn [digits]. rewrite str_cons_app. cbn [fraction_go].
    rewrite char_digit_char by (apply Z.mod_pos_bound; lia).
    rewrite IH. by rewrite mod_pow_succ.
Qed.

(** ** Characters a text does not contain *)

Lemma lacks_digits c k n : char_digit c = None → lacks c (digits k n) = true.
Proof.
  intros Hc. induction k as [|k IH]; [done|]. cbn [digits lacks]. rewrite IH, andb_true_r.
  destruct (Ascii.eqb_spec c (digit_char ((n / 10 ^ Z.of_nat k) mod 10))) as [->|]; [|done].
  by rewrite char_digit_char in Hc by (apply Z.mod_pos_bound; lia).
Qed.

Lemma replace_skip c pat rep s t :
  lacks c s = true →
  str_replace (String c pat) rep (s +:+ t) = s +:+ str_replace (String c pat) rep t.
Proof.
  unfold str_replace. induction s as [|a s IH]; [done|]. simpl. intros H.
  apply andb_true_iff in H as [Ha H]. apply negb_true_iff in Ha.
  rewrite !str_cons_app. cbn [replace_from String.prefix].
  destruct (ascii_dec c a) as [->|]; [by rewrite Ascii.eqb_refl in Ha|].
  by rewrite IH.
Qed.

Lemma lacks_body c t :
  char_digit c = None → lacks c "-T:" = true → lacks c (stamp_body t) = true.
Proof.
  intros Hc Hsep. unfold stamp_body, date_text, clock_text.
  destruct (day2ymd _) as [[y m] d]. rewrite !lacks_app, !lacks_digits by done.
  cbn [lacks] in *. bool_inv.
  repeat match goal with H : Ascii.eqb c _ = false |- _ => rewrite H; clear H end. done.
Qed.

(** ** The text of an instant *)

Lemma replace_offset s :
  lacks "+" s = true → str_replace "+00:00" "Z" (s +:+ "+00:00") = s +:+ "Z".
Proof. intros Hs. by rewrite replace_skip. Qed.

Lemma timestamp_text_eq t :
  timestamp_text t = stamp_body t +:+ "." +:+ digits 6 (t mod US_SECOND) +:+ "Z".
Proof.
  unfold timestamp_text, isoformat_microseconds.
  transitivity (str_replace "+00:00" "Z"
    ((stamp_body t +:+ "." +:+ digits 6 (t mod US_SECOND)) +:+ "+00:00")).
  { unfold stamp_body. by rewrite !str_app_assoc. }
  rewrite replace_offset; [by rewrite !str_app_assoc|].
  by rewrite !lacks_app, lacks_body, lacks_digits.
Qed.

Lemma stamp_text_eq t : stamp_text t = stamp_body t +:+ "Z".
Proof.
  unfold stamp_text, isoformat_seconds.
  transitivity (str_replace "+00:00" "Z" (stamp_body t +:+ "+00:00")).
  { unfold stamp_body. by rewrite !str_app_assoc. }
  rewrite replace_offset; [done|]. by apply lacks_body.
Qed.

(** ** Round trip *)

Lemma day_range t : valid_instant t → 0 ≤ t / US_DAY < 3652059.
Proof. unfold valid_instant, MAX_INSTANT, US_DAY, US_SECOND. intros. Z.to_euclidean_division_equations; lia. Qed.

Lemma year_range n y m d :
  0 ≤ n < 3652059 → day2ymd n = (y, m, d) → valid_date y m d ∧ y ≤ 9999 ∧ ymd2day y m d = n.
Proof.
  intros Hn H. destruct (day2ymd_spec n y m d) as [Hv Hd]; [lia|done|].
  split_and!; [done| |done].
  destruct (Z.le_gt_cases y 9999) as [|Hy]; [done|exfalso].
  pose proof (days_before_year_mono 10000 y ltac:(lia)) as Hm.
  change (days_before_year 10000) with 3652059 in Hm.
  revert Hd. unfold ymd2day. destruct Hv as (_ & Hv & ?).
  assert (0 ≤ days_before_month (is_leap y) m); [|lia].
  unfold days_before_month. repeat case_match; lia.
Qed.

Lemma parse_date_text t s :
  valid_instant t → parse_date (date_text t +:+ s) = Some (t / US_DAY, s).
Proof.
  intros Ht%day_range. unfold date_text, parse_date.
  destruct (day2ymd (t / US_DAY)) as [[y m] d] eqn:E.
  destruct (year_range _ _ _ _ Ht E) as ((Hy & Hm & Hd) & Hy' & <-).
  assert (days_in_month y m ≤ 31) by (unfold days_in_month; repeat case_match; lia).
  str_norm. rewrite take_digits_small by (cbn; lia). cbn -[take_digits digits String.append].
  rewrite take_digits_small by (cbn; lia). cbn -[take_digits digits String.append].
  rewrite take_digits_small by (cbn; lia). cbn -[take_digits digits String.append].
  rewrite !(proj2 (Z.leb_le _ _)) by lia. done.
Qed.

(** The clock text followed by an offset, with and without a fraction. *)
Lemma clock_fields t (s := t mod US_DAY / US_SECOND) :
  0 ≤ s / 3600 < 24 ∧ 0 ≤ s / 60 mod 60 < 60 ∧ 0 ≤ s mod 60 < 60 ∧ 0 ≤ t mod US_SECOND < 1000000 ∧
  hours (s / 3600) + minutes (s / 60 mod 60) + seconds (s mod 60) + t mod US_SECOND = t mod US_DAY.
Proof.
  subst s. unfold hours, minutes, seconds, US_DAY, US_SECOND.
  Z.to_euclidean_division_equations; lia.
Qed.

Lemma parse_clock_text t s :
  parse_clock (clock_text t +:+ s) =
  let base := t mod US_DAY - t mod US_SECOND in
  match expect "."%char s with
  | None => Some (base, s)
  | Some s => '(us, s) ← parse_fraction s; Some (base + us, s)
  end.
Proof.
  destruct (clock_fields t) as (Hh & Hm & Hs & Hu & Ht).
  unfold clock_text, parse_clock. set (sc := t mod US_DAY / US_SECOND) in *.
  replace (t mod US_DAY - t mod US_SECOND)
    with (hours (sc / 3600) + minutes (sc / 60 mod 60) + seconds (sc mod 60)) by lia.
  str_norm.
  rewrite take_digits_small by (cbn; lia). cbn -[take_digits digits String.append expect].
  rewrite (proj2 (Z.ltb_lt _ 24)) by lia. cbn -[take_digits digits String.append].
  rewrite take_digits_small by (cbn; lia). cbn -[take_digits digits String.append expect].
  rewrite (proj2 (Z.ltb_lt _ 60)) by lia. cbn -[take_digits digits String.append].
  rewrite take_digits_small by (cbn; lia). cbn -[take_digits digits String.append expect parse_fraction].
  rewrite (proj2 (Z.ltb_lt _ 60)) by lia. done.
Qed.

Lemma parse_offset_utc : parse_offset "+00:00" = Some (Some UTC).
Proof. reflexivity. Qed.

Lemma parse_iso_microseconds t :
  valid_instant t → parse_iso (isoformat_microseconds t) = Some (utc t).
Proof.
  intros Ht. unfold parse_iso, isoformat_microseconds. rewrite parse_date_text by done.
  cbn -[parse_clock parse_offset String.append digits].
  str_norm. rewrite parse_clock_text.
  destruct (clock_fields t) as (_ & _ & _ & Hu & _).
  str_norm.
  cbn -[parse_fraction digits parse_offset String.append].
  assert (parse_fraction (digits 6 (t mod US_SECOND) +:+ "+00:00") = Some (t mod US_SECOND, "+00:00")) as ->.
  { unfold parse_fraction. cbn [digits]. rewrite str_cons_app, char_digit_char by (apply Z.mod_pos_bound; lia).
    rewrite <- str_cons_app. fold (digits 6 (t mod US_SECOND)).
    rewrite fraction_go_digits by done. by rewrite Z.mod_small by (cbn; lia). }
  cbn -[days parse_offset]. rewrite parse_offset_utc. cbn -[days]. unfold utc. do 2 f_equal. unfold days.
  pose proof (Z.div_mod t US_DAY ltac:(done)). lia.
Qed.

Lemma parse_iso_seconds t :
  valid_instant t → parse_iso (isoformat_seconds t) = Some (utc (t - t mod US_SECOND)).
Proof.
  intros Ht. unfold parse_iso, isoformat_seconds. rewrite parse_date_text by done.
  cbn -[parse_clock parse_offset String.append digits].
  str_norm. rewrite parse_clock_text.
  cbn -[days Z.sub parse_offset]. rewrite parse_offset_utc. cbn -[days Z.sub]. unfold utc. do 2 f_equal. unfold days.
  pose proof (Z.div_mod t US_DAY ltac:(done)). lia.
Qed.

Lemma replace_Z s : lacks "Z" s = true → str_replace "Z" "+00:00" (s +:+ "Z") = s +:+ "+00:00".
Proof. intros Hs. by rewrite replace_skip. Qed.

Lemma unreplace_timestamp t :
  str_replace "Z" "+00:00" (timestamp_text t) = isoformat_microseconds t.
Proof.
  rewrite timestamp_text_eq. rewrite <- !str_app_assoc. rewrite replace_Z.
  - unfold isoformat_microseconds, stamp_body. by rewrite !str_app_assoc.
  - by rewrite !lacks_app, lacks_body, lacks_digits.
Qed.

Lemma unreplace_stamp t : str_replace "Z" "+00:00" (stamp_text t) = isoformat_seconds t.
Proof.
  rewrite stamp_text_eq, replace_Z by by apply lacks_body.
  unfold isoformat_seconds, stamp_body. by rewrite !str_app_assoc.
Qed.

Lemma parse_timestamp_text t : valid_instant t → parse_timestamp (timestamp_text t) = Ok t.
Proof.
  intros Ht. unfold parse_timestamp, fromisoformat.
  by rewrite unreplace_timestamp, parse_iso_microseconds.
Qed.

Lemma parse_stamp_text t :
  valid_instant t → parse_timestamp (stamp_text t) = Ok (t - t mod US_SECOND).
Proof.
  intros Ht. unfold parse_timestamp, fromisoformat.
  by rewrite unreplace_stamp, parse_iso_seconds.
Qed.

Lemma timestamp_text_inj t u :
  valid_instant t → valid_instant u → timestamp_text t = timestamp_text u → t = u.
Proof.
  intros Ht Hu E. apply parse_timestamp_text in Ht, Hu. rewrite E in Ht. congruence.
Qed.

(** ** Text order is time order *)

Lemma compare_app a b s t :
  String.length a = String.length b →
  String.compare (a +:+ s) (b +:+ t) = lex (String.compare a b) (String.compare s t).
Proof.
  revert b. induction a as [|x a IH]; intros [|y b]; try discriminate.
  - done.
  - intros [= H]. rewrite !str_cons_app. cbn. by destruct (Ascii.compare x y); [apply IH| |].
Qed.

Lemma length_digits k n : String.length (digits k n) = k.
Proof. induction k; [done|]. cbn. by rewrite IHk. Qed.

Lemma digit_char_compare d e :
  0 ≤ d < 10 → 0 ≤ e < 10 → Ascii.compare (digit_char d) (digit_char e) = (d ?= e).
Proof.
  intros Hd He. unfold Ascii.compare, digit_char.
  rewrite !N_ascii_embedding by lia. rewrite Z2N.inj_compare by lia.
  destruct (Z.compare_spec d e); [subst; apply Z.compare_refl|..]; [apply Z.compare_lt_iff; lia|apply Z.compare_gt_iff; lia].
Qed.

Lemma lex_radix r a1 b1 a2 b2 :
  0 ≤ b1 < r → 0 ≤ b2 < r → lex (a1 ?= a2) (b1 ?= b2) = (a1 * r + b1 ?= a2 * r + b2).
Proof.
  intros H1 H2. unfold lex. symmetry.
  destruct (Z.compare_spec a1 a2) as [->|?|?].
  - destruct (Z.compare_spec b1 b2); [subst; apply Z.compare_refl|apply Z.compare_lt_iff; lia|apply Z.compare_gt_iff; lia].
  - apply Z.compare_lt_iff. nia.
  - apply Z.compare_gt_iff. nia.
Qed.

Lemma compare_digits k n m :
  String.compare (digits k n) (digits k m) = (n mod 10 ^ Z.of_nat k ?= m mod 10 ^ Z.of_nat k).
Proof.
  induction k as [|k IH]; [by rewrite !Z.mod_1_r|].
  cbn [digits String.compare]. rewrite digit_char_compare by (apply Z.mod_pos_bound; lia).
  rewrite <- !mod_pow_succ, IH.
  assert (0 < 10 ^ Z.of_nat k) by (apply Z.pow_pos_nonneg; lia).
  rewrite <- lex_radix by (apply Z.mod_pos_bound; lia). by destruct ((n / _) mod 10 ?= _).
Qed.

Lemma compare_field k n m s t :
  0 ≤ n < 10 ^ Z.of_nat k → 0 ≤ m < 10 ^ Z.of_nat k →
  String.compare (digits k n +:+ s) (digits k m +:+ t) = lex (n ?= m) (String.compare s t).
Proof.
  intros Hn Hm. rewrite compare_app by (by rewrite !length_digits).
  by rewrite compare_digits, !Z.mod_small.
Qed.

Lemma compare_cons c s t : String.compare (String c s) (String c t) = String.compare s t.
Proof. cbn. unfold Ascii.compare. by rewrite N.compare_refl. Qed.

(** The day of the year of a valid date: in range, and increasing with the
    month. *)
Lemma day_of_year_range y m d :
  valid_date y m d →
  0 ≤ days_before_month (is_leap y) m + (d - 1) < (if is_leap y then 366 else 365).
Proof.
  intros (? & Hm & Hd). revert Hd. unfold days_in_month, days_before_month.
  destruct (is_leap y); repeat case_match; lia.
Qed.

Lemma day_of_year_mono y m1 d1 m2 d2 :
  valid_date y m1 d1 → valid_date y m2 d2 → m1 < m2 →
  days_before_month (is_leap y) m1 + d1 - 1 < days_before_month (is_leap y) m2 + d2 - 1.
Proof.
  intros (_ & H1 & Hd1) (_ & H2 & Hd2) Hlt. revert Hd1 Hd2.
  unfold days_in_month, days_before_month.
  assert (Hm : ∀ m, 1 ≤ m ≤ 12 → m = 1 ∨ m = 2 ∨ m = 3 ∨ m = 4 ∨ m = 5 ∨ m = 6 ∨ m = 7 ∨
    m = 8 ∨ m = 9 ∨ m = 10 ∨ m = 11 ∨ m = 12) by lia.
  apply Hm in H1, H2. clear Hm.
  destruct (is_leap y); destruct_or!; subst; cbn; lia.
Qed.

(** [compare_cases]: close [(a ?= b) = c] goals from linear facts. *)
Ltac compare_cases :=
  first [apply Z.compare_eq_iff; lia | apply Z.compare_lt_iff; lia | apply Z.compare_gt_iff; lia].

(** Dates compare as their day numbers. *)
Lemma date_compare y1 m1 d1 y2 m2 d2 :
  valid_date y1 m1 d1 → valid_date y2 m2 d2 →
  lex (y1 ?= y2) (lex (m1 ?= m2) (d1 ?= d2)) = (ymd2day y1 m1 d1 ?= ymd2day y2 m2 d2).
Proof.
  intros H1 H2. unfold lex, ymd2day. symmetry.
  pose proof (day_of_year_range _ _ _ H1). pose proof (day_of_year_range _ _ _ H2).
  destruct (Z.compare_spec y1 y2) as [->|Hy|Hy].
  - destruct (Z.compare_spec m1 m2) as [->|Hm|Hm].
    + destruct (Z.compare_spec d1 d2); compare_cases.
    + pose proof (day_of_year_mono _ _ _ _ _ H1 H2 Hm). compare_cases.
    + pose proof (day_of_year_mono _ _ _ _ _ H2 H1 Hm). compare_cases.
  - pose proof (days_before_year_succ y1). pose proof (days_before_year_mono (y1 + 1) y2).
    destruct (is_leap y1), (is_leap y2); compare_cases.
  - pose proof (days_before_year_succ y2). pose proof (days_before_year_mono (y2 + 1) y1).
    destruct (is_leap y1), (is_leap y2); compare_cases.
Qed.

Lemma date_text_compare t u s1 s2 :
  valid_instant t → valid_instant u →
  String.compare (date_text t +:+ s1) (date_text u +:+ s2)
  = lex (t / US_DAY ?= u / US_DAY) (String.compare s1 s2).
Proof.
  intros Ht%day_range Hu%day_range. unfold date_text.
  destruct (day2ymd (t / US_DAY)) as [[y1 m1] d1] eqn:E1.
  destruct (day2ymd (u / US_DAY)) as [[y2 m2] d2] eqn:E2.
  destruct (year_range _ _ _ _ Ht E1) as (V1 & Hy1 & <-).
  destruct (year_range _ _ _ _ Hu E2) as (V2 & Hy2 & <-).
  rewrite <- date_compare by done.
  destruct V1 as (? & ? & ?), V2 as (? & ? & ?).
  assert (days_in_month y1 m1 ≤ 31 ∧ days_in_month y2 m2 ≤ 31)
    by (unfold days_in_month; split; repeat case_match; lia).
  str_norm. rewrite !compare_field by (cbn; lia).
  rewrite !compare_cons, !compare_field by (cbn; lia).
  rewrite !compare_cons, !compare_field by (cbn; lia).
  by destruct (y1 ?= y2), (m1 ?= m2).
Qed.

Lemma second_of v : v / US_SECOND = v / US_DAY * 86400 + v mod US_DAY / US_SECOND.
Proof. unfold US_DAY, US_SECOND. Z.to_euclidean_division_equations; lia. Qed.

Lemma second_of_day_range v : 0 ≤ v mod US_DAY / US_SECOND < 86400.
Proof. unfold US_DAY, US_SECOND. Z.to_euclidean_division_equations; lia. Qed.

Lemma clock_compare a b :
  0 ≤ a < 86400 → 0 ≤ b < 86400 →
  (a ?= b) = lex (a / 3600 ?= b / 3600) (lex (a / 60 mod 60 ?= b / 60 mod 60) (a mod 60 ?= b mod 60)).
Proof.
  intros Ha Hb.
  rewrite (lex_radix 60), (lex_radix 3600) by (Z.to_euclidean_division_equations; lia).
  f_equal; Z.to_euclidean_division_equations; lia.
Qed.

Lemma body_compare t u s1 s2 :
  valid_instant t → valid_instant u →
  String.compare (stamp_body t +:+ s1) (stamp_body u +:+ s2)
  = lex (t / US_SECOND ?= u / US_SECOND) (String.compare s1 s2).
Proof.
  intros Ht Hu. unfold stamp_body. str_norm. rewrite date_text_compare by done.
  rewrite compare_cons. unfold clock_text.
  destruct (clock_fields t) as (? & ? & ? & ? & _), (clock_fields u) as (? & ? & ? & ? & _).
  str_norm. rewrite !compare_field by (cbn; lia).
  rewrite !compare_cons, !compare_field by (cbn; lia).
  rewrite !compare_cons, !compare_field by (cbn; lia).
  set (a := t mod US_DAY / US_SECOND) in *. set (b := u mod US_DAY / US_SECOND) in *.
  rewrite (second_of t), (second_of u). fold a b.
  rewrite <- (lex_radix 86400 _ a _ b) by (apply second_of_day_range).
  rewrite (clock_compare a b) by (apply second_of_day_range).
  by destruct (t / US_DAY ?= u / US_DAY), (a / 3600 ?= b / 3600), (a / 60 mod 60 ?= b / 60 mod 60).
Qed.

(** Comparing texts compares instants; to the second for [_stamp]. *)
Lemma timestamp_text_compare t u :
  valid_instant t → valid_instant u →
  String.compare (timestamp_text t) (timestamp_text u) = (t ?= u).
Proof.
  intros Ht Hu. rewrite !timestamp_text_eq, body_compare by done. str_norm.
  rewrite compare_cons, compare_field by (apply Z.mod_pos_bound; done).
  replace (lex (t mod US_SECOND ?= u mod US_SECOND) (String.compare "Z" "Z"))
    with (t mod US_SECOND ?= u mod US_SECOND) by (by destruct (t mod US_SECOND ?= u mod US_SECOND)).
  rewrite (lex_radix US_SECOND) by (apply Z.mod_pos_bound; done).
  f_equal; unfold US_SECOND; Z.to_euclidean_division_equations; lia.
Qed.

Lemma stamp_text_compare t u :
  valid_instant t → valid_instant u →
  String.compare (stamp_text t) (stamp_text u) = (t / US_SECOND ?= u / US_SECOND).
Proof.
  intros Ht Hu. rewrite !stamp_text_eq, body_compare by done.
  by destruct (t / US_SECOND ?= u / US_SECOND).
Qed.

(** ** Examples *)

Example day2ymd_2026 : day2ymd (ymd2day 2026 8 26) = (2026, 8, 26).
Proof. reflexivity. Qed.
Example iso_2026 :
  isoformat_microseconds (ymd2day 2026 8 26 * US_DAY + hours 12 + 5) = "2026-08-26T12:00:00.000005+00:00".
Proof. reflexivity. Qed.
Example from_iso_offset :
  parse_iso "2026-08-26T12:00:00.25+02:00" = Some (Aware (FixedOffset (hours 2)) (ymd2day 2026 8 26 * US_DAY + hours 10 + 250000)).
Proof. reflexivity. Qed.
