(* ===== verification/PyValue.v ===== *)
(** * Python values as JSON carries them

    [pyval] is the domain of the [Mapping[str, Any]] documents the modules
    exchange: [None], [bool], [int], [str] (as its UTF-8 bytes), [list] and
    [dict] with string keys in insertion order.  Floats are outside the domain:
    no document of the protocol carries one, and reading one is an error here.
    [py_eq] is Python's [==], for which [True == 1] and dict order is
    irrelevant.  The membership and shape tests the validators repeat
    ([set(d) == {...}], [isinstance(v, int) and not isinstance(v, bool)],
    regular expressions over fixed character classes) are boolean functions. *)

From S2P Require Import Prelude.

#[local] Set Warnings "-register-all".

Inductive pyval :=
  | VNone
  | VBool (b : bool)
  | VInt (n : Z)
  | VStr (s : string)
  | VList (l : list pyval)
  | VDict (d : list (string * pyval)).

(** Induction that sees through the lists. *)
Section pyval_induction.
Context (P : pyval → Prop).
Hypothesis Pnone : P VNone.
Hypothesis Pbool : ∀ b, P (VBool b).
Hypothesis Pint : ∀ n, P (VInt n).
Hypothesis Pstr : ∀ s, P (VStr s).
Hypothesis Plist : ∀ l, Forall P l → P (VList l).
Hypothesis Pdict : ∀ d, Forall (λ kv, P kv.2) d → P (VDict d).

Fixpoint pyval_ind' (v : pyval) : P v :=
  match v with
  | VNone => Pnone
  | VBool b => Pbool b
  | VInt n => Pint n
  | VStr s => Pstr s
  | VList l => Plist l ((fix go l : Forall P l :=
      match l with [] => Forall_nil_2 _ | x :: l => Forall_cons_2 _ _ _ (pyval_ind' x) (go l) end) l)
  | VDict d => Pdict d ((fix go d : Forall (λ kv, P kv.2) d :=
      match d with [] => Forall_nil_2 _ | kv :: d => Forall_cons_2 _ _ _ (pyval_ind' kv.2) (go d) end) d)
  end.
End pyval_induction.

#[export] Instance pyval_eq_dec : EqDecision pyval.
Proof.
  refine (fix go (v w : pyval) : Decision (v = w) :=
    match v, w with
    | VNone, VNone => left _
    | VBool a, VBool b => cast_if (decide (a = b))
    | VInt a, VInt b => cast_if (decide (a = b))
    | VStr a, VStr b => cast_if (decide (a = b))
    | VList a, VList b =>
        cast_if (let _ : EqDecision pyval := go in decide (a = b))
    | VDict a, VDict b =>
        cast_if (let _ : EqDecision pyval := go in decide (a = b))
    | _, _ => right _
    end); clear go; abstract congruence.
Defined.

(** ** Dictionaries *)

Definition dict := list (string * pyval).

(** [d.get(k)] as an option, [d.get(k)] with its [None] default, [d[k]]. *)
Fixpoint dlookup (k : string) (d : dict) : option pyval :=
  match d with
  | [] => None
  | (k', v) :: d => if decide (k = k') then Some v else dlookup k d
  end.
Definition dget (k : string) (d : dict) : pyval := default VNone (dlookup k d).
Definition ditem (k : string) (d : dict) : result pyval :=
  match dlookup k d with Some v => Ok v | None => throw KeyError k end.

(** [d[k] = v] and [d | e]: an existing key keeps its place. *)
Fixpoint dset (k : string) (v : pyval) (d : dict) : dict :=
  match d with
  | [] => [(k, v)]
  | (k', v') :: d => if decide (k = k') then (k, v) :: d else (k', v') :: dset k v d
  end.
Definition dmerge (d e : dict) : dict := foldl (λ d kv, dset kv.1 kv.2 d) d e.
Definition dremove (k : string) (d : dict) : dict := filter (λ kv, kv.1 ≠ k) d.
Definition dkeys (d : dict) : list string := d.*1.

(** [set(a) == set(b)] and [set(a) <= set(b)]. *)
Definition subset_of (a b : list string) : bool := forallb (λ x, bool_decide (x ∈ b)) a.
Definition same_set (a b : list string) : bool := subset_of a b && subset_of b a.

(** ** Equality *)

Fixpoint py_eq (v w : pyval) : bool :=
  match v, w with
  | VNone, VNone => true
  | VBool a, VBool b => Bool.eqb a b
  | VBool a, VInt n | VInt n, VBool a => Z.b2z a =? n
  | VInt a, VInt b => a =? b
  | VStr a, VStr b => bool_decide (a = b)
  | VList a, VList b =>
      (fix go (a b : list pyval) : bool :=
         match a, b with
         | [], [] => true
         | x :: a, y :: b => py_eq x y && go a b
         | _, _ => false
         end) a b
  | VDict a, VDict b =>
      (length a =? length b)%nat &&
      (fix go (a : list (string * pyval)) : bool :=
         match a with
         | [] => true
         | (k, x) :: a =>
             match dlookup k b with Some y => py_eq x y | None => false end && go a
         end) a
  | _, _ => false
  end.

Lemma py_eq_str v s : py_eq v (VStr s) = true ↔ v = VStr s.
Proof. destruct v; cbn; try done. rewrite bool_decide_eq_true. naive_solver. Qed.
Lemma py_eq_none v : py_eq v VNone = true ↔ v = VNone.
Proof. by destruct v. Qed.

(** Documents: every dict has distinct keys, as a Python dict has. *)
Fixpoint wf_pyval (v : pyval) : Prop :=
  match v with
  | VList l => (fix go l := match l with [] => True | x :: l => wf_pyval x ∧ go l end) l
  | VDict d =>
      NoDup (d.*1) ∧
      (fix go d := match d with [] => True | kv :: d => wf_pyval kv.2 ∧ go d end) d
  | _ => True
  end.

(** ** Type and shape tests *)

Definition is_none (v : pyval) : bool := match v with VNone => true | _ => false end.
(** [v is True] *)
Definition is_true (v : pyval) : bool := match v with VBool true => true | _ => false end.
(** [isinstance(v, int) and not isinstance(v, bool)] *)
Definition is_plain_int (v : pyval) : bool := match v with VInt _ => true | _ => false end.
(** ... [and v >= 1] *)
Definition is_positive_int (v : pyval) : bool := match v with VInt n => 1 <=? n | _ => false end.
Definition is_str_where (p : string → bool) (v : pyval) : bool :=
  match v with VStr s => p s | _ => false end.
(** The text of a string. *)
Definition text_of (v : pyval) : option string := match v with VStr s => Some s | _ => None end.
Definition nonempty (s : string) : bool := negb (bool_decide (s = "")).
Definition is_nonempty_str : pyval → bool := is_str_where nonempty.
(** [bool(v)] *)
Definition py_truthy (v : pyval) : bool :=
  match v with
  | VNone => false
  | VBool b => b
  | VInt n => negb (n =? 0)
  | VStr s => nonempty s
  | VList l => negb (bool_decide (l = []))
  | VDict d => negb (bool_decide (d = []))
  end.

(** ** Regular expressions over character classes *)

Definition in_range (lo hi : ascii) (c : ascii) : bool :=
  (N_of_ascii lo <=? N_of_ascii c)%N && (N_of_ascii c <=? N_of_ascii hi)%N.
Definition is_digit : ascii → bool := in_range "0" "9".
Definition is_lower_hex (c : ascii) : bool := is_digit c || in_range "a" "f" c.
Definition is_alnum (c : ascii) : bool := is_digit c || in_range "a" "z" c || in_range "A" "Z" c.
(** [A-Za-z0-9_.-] *)
Definition is_name_char (c : ascii) : bool :=
  is_alnum c || bool_decide (c ∈ ["_"; "."; "-"]%char).

Fixpoint all_chars (p : ascii → bool) (s : string) : bool :=
  match s with EmptyString => true | String c s => p c && all_chars p s end.

(** [p{n}], [p+] and [p{lo,hi}] matched against the whole string. *)
Definition match_exactly (n : nat) (p : ascii → bool) (s : string) : bool :=
  (String.length s =? n)%nat && all_chars p s.
Definition match_some (p : ascii → bool) (s : string) : bool := nonempty s && all_chars p s.
Definition match_between (lo hi : nat) (p : ascii → bool) (s : string) : bool :=
  (lo <=? String.length s)%nat && (String.length s <=? hi)%nat && all_chars p s.

Definition is_sha1 : string → bool := match_exactly 40 is_lower_hex.
Definition is_sha256 : string → bool := match_exactly 64 is_lower_hex.
(** [[1-9][0-9]*] *)
Definition is_canonical_positive (s : string) : bool :=
  match s with
  | String c s => in_range "1" "9" c && all_chars is_digit s
  | EmptyString => false
  end.

(** [s] cut at the first [c]: [s.split(c, 1)] as a pair. *)
Fixpoint split_at (c : ascii) (s : string) : option (string * string) :=
  match s with
  | EmptyString => None
  | String a s =>
      if Ascii.eqb a c then Some ("", s)
      else '(l, r) ← split_at c s; Some (String a l, r)
  end.

(** [[A-Za-z0-9_.-]+/[A-Za-z0-9_.-]+]: the class holds no slash, so the first
    slash is the separator. *)
Definition is_repository (s : string) : bool :=
  match split_at "/" s with
  | Some (owner, name) => match_some is_name_char owner && match_some is_name_char name
  | None => false
  end.

(** ** Decimal text of integers: [str(n)] *)

From Stdlib Require Import DecimalString DecimalZ.

Definition str_of_Z (n : Z) : string := NilZero.string_of_int (Z.to_int n).

Lemma lacks_uint c u :
  in_range "0" "9" c = false → lacks c (NilEmpty.string_of_uint u) = true.
Proof.
  intros Hc. assert (∀ d s, is_digit d = true → lacks c s = true → lacks c (String d s) = true) as Hd.
  { intros d s Hdig Hs. cbn. rewrite Hs, andb_true_r.
    destruct (Ascii.eqb_spec c d) as [->|]; [|done]. unfold is_digit in Hdig. congruence. }
  induction u; [done|..]; apply Hd; done.
Qed.

(** The decimal text holds digits and a minus sign only. *)
Lemma lacks_str_of_Z c n :
  in_range "0" "9" c = false → c ≠ "-"%char → lacks c (str_of_Z n) = true.
Proof.
  intros Hc Hm. assert (∀ u, lacks c (NilZero.string_of_uint u) = true) as Hu.
  { intros u. unfold NilZero.string_of_uint. destruct u; try by apply lacks_uint.
    cbn. destruct (Ascii.eqb_spec c "0") as [->|]; done. }
  unfold str_of_Z. destruct (Z.to_int n) as [u|u]; cbn; [done|].
  rewrite Hu. destruct (Ascii.eqb_spec c "-") as [->|]; done.
Qed.

(** ** Lookup after assignment and merge *)

Lemma dlookup_dset k k' v d : dlookup k (dset k' v d) = if decide (k = k') then Some v else dlookup k d.
Proof.
  induction d as [|[k0 v0] d IH]; cbn; [done|].
  destruct (decide (k' = k0)) as [->|]; cbn; [by repeat case_decide|].
  rewrite IH. repeat case_decide; congruence.
Qed.

Lemma dget_dset k k' v d : dget k (dset k' v d) = if decide (k = k') then v else dget k d.
Proof. unfold dget. rewrite dlookup_dset. by case_decide. Qed.
Lemma dkeys_dset k v d : k ∈ dkeys d → dkeys (dset k v d) = dkeys d.
Proof.
  unfold dkeys. induction d as [|[k' v'] d IH]; cbn; [by intros ?%not_elem_of_nil|].
  intros Hk. case_decide as E; [by subst|]. cbn. rewrite IH; [done|]. apply elem_of_cons in Hk as [->|]; done.
Qed.
Lemma dlookup_dmerge_fresh k d e : (k ∉ e.*1) → dlookup k (dmerge d e) = dlookup k d.
Proof.
  revert d. induction e as [|[k' v] e IH]; [done|]. cbn. intros d Hk.
  rewrite not_elem_of_cons in Hk. destruct Hk as [Hne Hk]. fold (dmerge (dset k' v d) e).
  rewrite IH by done. rewrite dlookup_dset. by rewrite decide_False.
Qed.

Lemma dlookup_dmerge_head k v d e : (k ∉ e.*1) → dlookup k (dmerge d ((k, v) :: e)) = Some v.
Proof.
  intros Hk. cbn. fold (dmerge (dset k v d) e). rewrite dlookup_dmerge_fresh by done.
  rewrite dlookup_dset. by rewrite decide_True.
Qed.
