(* ===== verification/Json.v ===== *)
(** * [json.dumps] and [json.loads]

    The canonical text of a document ([sort_keys=True],
    [separators=(",", ":")], [ensure_ascii=False]: observability.canonical_json,
    gatestore._canonical) and the JSON reader the modules use on texts they
    stored or received.  The printer is parameterised by the key order, which
    crypto.canonicalize_jcs instantiates differently (UTF-16 code units).

    Main fact: reading a canonical text gives the document back, up to the
    order of the keys, so equal texts mean equal documents. *)

From S2P Require Import Prelude PyValue.
From Stdlib Require Import DecimalString DecimalZ.

(** ** Printing *)

Definition hex_char (n : N) : ascii :=
  ascii_of_N (if (n <? 10)%N then 48 + n else 87 + n).

(** One character of a string literal: the quote, the backslash and the C0
    controls are escaped. *)
Definition escape_char (c : ascii) : string :=
  let n := N_of_ascii c in
  if (n =? 34)%N then "\" +:+ String c EmptyString
  else if (n =? 92)%N then "\\"
  else if (n =? 8)%N then "\b"
  else if (n =? 9)%N then "\t"
  else if (n =? 10)%N then "\n"
  else if (n =? 12)%N then "\f"
  else if (n =? 13)%N then "\r"
  else if (n <? 32)%N then "\u00" +:+ String (hex_char (n / 16)) (String (hex_char (n mod 16)) EmptyString)
  else String c EmptyString.

Definition quote_char : ascii := ascii_of_N 34.

Fixpoint escape (s : string) : string :=
  match s with
  | EmptyString => EmptyString
  | String c s => escape_char c +:+ escape s
  end.
Definition quote (s : string) : string :=
  String quote_char (escape s +:+ String quote_char EmptyString).

Fixpoint join_comma (l : list string) : string :=
  match l with
  | [] => ""
  | [x] => x
  | x :: l => x +:+ "," +:+ join_comma l
  end.

Section printer.
Context (key_leb : string → string → bool).

Fixpoint insert_key {A} (kv : string * A) (d : list (string * A)) : list (string * A) :=
  match d with
  | [] => [kv]
  | kv' :: d => if key_leb kv.1 kv'.1 then kv :: kv' :: d else kv' :: insert_key kv d
  end.
Definition sort_keys {A} (d : list (string * A)) : list (string * A) :=
  foldr insert_key [] d.

Definition print_member (kv : string * string) : string := quote kv.1 +:+ ":" +:+ kv.2.
Definition print_array (l : list string) : string := "[" +:+ join_comma l +:+ "]".
Definition print_object (d : list (string * string)) : string :=
  "{" +:+ join_comma (print_member <$> d) +:+ "}".

Fixpoint json_print (v : pyval) : string :=
  match v with
  | VNone => "null"
  | VBool true => "true"
  | VBool false => "false"
  | VInt n => str_of_Z n
  | VStr s => quote s
  | VList l => print_array (List.map json_print l)
  | VDict d => print_object (sort_keys (List.map (λ kv, (kv.1, json_print kv.2)) d))
  end.

(** The document with its keys in printing order, at every level. *)
Fixpoint normal (v : pyval) : pyval :=
  match v with
  | VList l => VList (List.map normal l)
  | VDict d => VDict (sort_keys (List.map (λ kv, (kv.1, normal kv.2)) d))
  | _ => v
  end.
End printer.

(** Keys in code point order, which is the byte order of UTF-8. *)
Definition json_dumps : pyval → string := json_print String.leb.

(** ** Reading *)

Definition is_space (c : ascii) : bool :=
  bool_decide (N_of_ascii c ∈ [32; 9; 10; 13]%N).
Fixpoint skip_space (s : string) : string :=
  match s with
  | String c s' => if is_space c then skip_space s' else s
  | EmptyString => EmptyString
  end.

Definition hex_digit (c : ascii) : option N :=
  let n := N_of_ascii c in
  if is_digit c then Some (n - 48)%N
  else if in_range "a" "f" c then Some (n - 87)%N
  else if in_range "A" "F" c then Some (n - 55)%N
  else None.

(** The code unit after a backslash-u: four hexadecimal digits. *)
Definition take_hex4 (s : string) : option (N * string) :=
  match s with
  | String a (String b (String c (String d s))) =>
      a ← hex_digit a; b ← hex_digit b; c ← hex_digit c; d ← hex_digit d;
      Some (((a * 16 + b) * 16 + c) * 16 + d, s)%N
  | _ => None
  end.

Definition utf8_encode (cp : N) : string :=
  let cont n := ascii_of_N (128 + n mod 64)%N in
  if (cp <? 128)%N then String (ascii_of_N cp) EmptyString
  else if (cp <? 2048)%N then
    String (ascii_of_N (192 + cp / 64)%N) (String (cont cp) EmptyString)
  else if (cp <? 65536)%N then
    String (ascii_of_N (224 + cp / 4096)%N)
      (String (cont (cp / 64)%N) (String (cont cp) EmptyString))
  else
    String (ascii_of_N (240 + cp / 262144)%N) (String (cont (cp / 4096)%N)
      (String (cont (cp / 64)%N) (String (cont cp) EmptyString))).

Definition is_high_surrogate (u : N) : bool := (55296 <=? u)%N && (u <? 56320)%N.
Definition is_low_surrogate (u : N) : bool := (56320 <=? u)%N && (u <? 57344)%N.

(** What follows a backslash.  A lone surrogate, which Python keeps in the
    [str] and UTF-8 cannot carry, is refused. *)
Definition take_escape (s : string) : option (string * string) :=
  match s with
  | String c s =>
      let n := N_of_ascii c in
      if (n =? 34)%N || (n =? 92)%N || (n =? 47)%N then Some (String c EmptyString, s)
      else if (n =? 98)%N then Some (String (ascii_of_N 8) EmptyString, s)
      else if (n =? 102)%N then Some (String (ascii_of_N 12) EmptyString, s)
      else if (n =? 110)%N then Some (String (ascii_of_N 10) EmptyString, s)
      else if (n =? 114)%N then Some (String (ascii_of_N 13) EmptyString, s)
      else if (n =? 116)%N then Some (String (ascii_of_N 9) EmptyString, s)
      else if (n =? 117)%N then
        '(u, s) ← take_hex4 s;
        if is_high_surrogate u then
          match s with
          | String b (String c' s) =>
              if Ascii.eqb b "\" && Ascii.eqb c' "u" then
                '(u', s) ← take_hex4 s;
                if is_low_surrogate u'
                then Some (utf8_encode (65536 + (u - 55296) * 1024 + (u' - 56320))%N, s)
                else None
              else None
          | _ => None
          end
        else if is_low_surrogate u then None
        else Some (utf8_encode u, s)
      else None
  | EmptyString => None
  end.

(** The body of a string literal, up to and including the closing quote; [rec]
    reads on. *)
Definition string_step (rec : string → option (string * string)) (s : string)
    : option (string * string) :=
  match s with
  | String c s =>
      let n := N_of_ascii c in
      if (n =? 34)%N then Some (EmptyString, s)
      else if (n =? 92)%N then
        '(e, s) ← take_escape s; '(t, s) ← rec s; Some (e +:+ t, s)
      else if (n <? 32)%N then None
      else '(t, s) ← rec s; Some (String c t, s)
  | EmptyString => None
  end.
Fixpoint take_string (fuel : nat) (s : string) : option (string * string) :=
  match fuel with
  | O => None
  | S fuel => string_step (take_string fuel) s
  end.

(** The longest run of digits. *)
Fixpoint take_uint (s : string) : Decimal.uint * string :=
  match s with
  | String c s' =>
      match uint_of_char c (Some Decimal.Nil) with
      | Some _ =>
          let '(d, rest) := take_uint s' in
          match uint_of_char c (Some d) with Some d' => (d', rest) | None => (Decimal.Nil, s) end
      | None => (Decimal.Nil, s)
      end
  | EmptyString => (Decimal.Nil, EmptyString)
  end.

(** An optional minus, then [0] or a digit string that does not start with [0].
    A fraction or an exponent would make a float: what is
    left then fails to parse. *)
Definition take_number (s : string) : option (Z * string) :=
  let signed (neg : bool) (s : string) :=
    let '(d, rest) := take_uint s in
    match d with
    | Decimal.Nil => None
    | Decimal.D0 Decimal.Nil => Some (0, rest)
    | Decimal.D0 _ => None
    | _ => Some (Z.of_int (if neg then Decimal.Neg d else Decimal.Pos d), rest)
    end in
  match s with
  | String c s' => if Ascii.eqb c "-" then signed true s' else signed false s
  | EmptyString => None
  end.

Fixpoint strip_prefix (p s : string) : option string :=
  match p, s with
  | EmptyString, _ => Some s
  | String a p, String b s => if Ascii.eqb a b then strip_prefix p s else None
  | _, EmptyString => None
  end.

(** [null], [true], [false]. *)
Definition take_constant (s : string) : option (pyval * string) :=
  match strip_prefix "null" s with
  | Some s => Some (VNone, s)
  | None =>
      match strip_prefix "true" s with
      | Some s => Some (VBool true, s)
      | None => s ← strip_prefix "false" s; Some (VBool false, s)
      end
  end.

Fixpoint take_value (fuel : nat) (s : string) : option (pyval * string) :=
  match fuel with
  | O => None
  | S fuel =>
      match skip_space s with
      | String c s' =>
          if Ascii.eqb c quote_char then
            '(t, s) ← take_string (S (String.length s')) s'; Some (VStr t, s)
          else if Ascii.eqb c "[" then
            match skip_space s' with
            | String c' s'' =>
                if Ascii.eqb c' "]" then Some (VList [], s'')
                else '(l, s) ← take_elements fuel s'; Some (VList l, s)
            | EmptyString => None
            end
          else if Ascii.eqb c "{" then
            match skip_space s' with
            | String c' s'' =>
                if Ascii.eqb c' "}" then Some (VDict [], s'')
                else '(d, s) ← take_members fuel s'; Some (VDict d, s)
            | EmptyString => None
            end
          else
            match take_constant (String c s') with
            | Some r => Some r
            | None => '(n, s) ← take_number (String c s'); Some (VInt n, s)
            end
      | EmptyString => None
      end
  end
with take_elements (fuel : nat) (s : string) : option (list pyval * string) :=
  match fuel with
  | O => None
  | S fuel =>
      '(v, s) ← take_value fuel s;
      match skip_space s with
      | String c s =>
          if Ascii.eqb c "," then '(l, s) ← take_elements fuel s; Some (v :: l, s)
          else if Ascii.eqb c "]" then Some ([v], s)
          else None
      | EmptyString => None
      end
  end
with take_members (fuel : nat) (s : string) : option (dict * string) :=
  match fuel with
  | O => None
  | S fuel =>
      match skip_space s with
      | String q s =>
          if Ascii.eqb q quote_char then
            '(k, s) ← take_string (S (String.length s)) s;
            match skip_space s with
            | String c s =>
                if Ascii.eqb c ":" then
                  '(v, s) ← take_value fuel s;
                  match skip_space s with
                  | String c s =>
                      if Ascii.eqb c "," then
                        '(d, s) ← take_members fuel s; Some ((k, v) :: d, s)
                      else if Ascii.eqb c "}" then Some ([(k, v)], s)
                      else None
                  | EmptyString => None
                  end
                else None
            | EmptyString => None
            end
          else None
      | EmptyString => None
      end
  end.

(** A duplicated key: the last value wins, at the place of the first. *)
Fixpoint dedup (v : pyval) : pyval :=
  match v with
  | VList l => VList (List.map dedup l)
  | VDict d => VDict (dmerge [] (List.map (λ kv, (kv.1, dedup kv.2)) d))
  | _ => v
  end.

Definition json_parse (s : string) : option pyval :=
  '(v, s) ← take_value (S (String.length s)) s;
  if bool_decide (skip_space s = "") then Some v else None.

Definition json_loads (s : string) : result pyval :=
  match json_parse s with
  | Some v => Ok (dedup v)
  | None => throw ValueError "invalid JSON"
  end.


(** ** Sorting by key *)

Section sort_facts.
Context (key_leb : string → string → bool).

Lemma insert_key_perm {A} (kv : string * A) d : insert_key key_leb kv d ≡ₚ kv :: d.
Proof.
  induction d as [|kv' d IH]; [done|]. cbn. case_match; [done|].
  rewrite IH. apply Permutation_swap.
Qed.

Lemma sort_keys_perm {A} (d : list (string * A)) : sort_keys key_leb d ≡ₚ d.
Proof. induction d as [|kv d IH]; [done|]. cbn. by rewrite insert_key_perm, IH. Qed.

Lemma insert_key_map {A B} (f : A → B) kv d :
  insert_key key_leb (prod_map id f kv) (prod_map id f <$> d)
  = prod_map id f <$> insert_key key_leb kv d.
Proof.
  induction d as [|[k' v'] d IH]; [done|]. destruct kv as [k v]. cbn in *. unfold id in *.
  destruct (key_leb k k'); [done|]. cbn. by rewrite <- IH.
Qed.

Lemma sort_keys_map {A B} (f : A → B) d :
  sort_keys key_leb (prod_map id f <$> d) = prod_map id f <$> sort_keys key_leb d.
Proof.
  induction d as [|kv d IH]; [done|].
  change (insert_key key_leb (prod_map id f kv) (sort_keys key_leb (prod_map id f <$> d))
    = prod_map id f <$> insert_key key_leb kv (sort_keys key_leb d)).
  by rewrite IH, insert_key_map.
Qed.

Lemma json_print_dict d :
  json_print key_leb (VDict d)
  = print_object (prod_map id (json_print key_leb) <$> sort_keys key_leb d).
Proof. rewrite <- sort_keys_map. reflexivity. Qed.

Lemma normal_dict d :
  normal key_leb (VDict d) = VDict (prod_map id (normal key_leb) <$> sort_keys key_leb d).
Proof. rewrite <- sort_keys_map. reflexivity. Qed.
End sort_facts.

(** ** Reading back what was printed *)

Lemma string_step_char rec c t :
  string_step rec (escape_char c +:+ t) = '(u, r) ← rec t; Some (String c u, r).
Proof.
  destruct c as [[] [] [] [] [] [] [] []]; vm_compute; by destruct (rec t) as [[]|].
Qed.

Lemma take_string_escape fuel s rest :
  (String.length s < fuel)%nat →
  take_string fuel (escape s +:+ String quote_char rest) = Some (s, rest).
Proof.
  revert fuel. induction s as [|c s IH]; intros [|fuel] Hf; cbn [String.length] in Hf; try lia.
  - done.
  - cbn [escape take_string]. rewrite str_app_assoc, string_step_char, IH by lia. done.
Qed.

Lemma str_length_app a b : String.length (a +:+ b) = (String.length a + String.length b)%nat.
Proof. induction a as [|c a IH]; [done|]. rewrite str_cons_app. cbn. by rewrite IH. Qed.

Lemma escape_length s : (String.length s ≤ String.length (escape s))%nat.
Proof.
  induction s as [|c s IH]; [done|]. cbn [escape]. rewrite str_length_app. cbn.
  enough (1 ≤ String.length (escape_char c))%nat by lia.
  unfold escape_char. repeat case_match; rewrite ?str_length_app; cbn; lia.
Qed.

Lemma take_string_quote s rest :
  take_string (S (String.length (escape s +:+ String quote_char rest)))
    (escape s +:+ String quote_char rest) = Some (s, rest).
Proof. apply take_string_escape. rewrite str_length_app. pose proof (escape_length s). cbn. lia. Qed.

(** What may follow a value inside a text. *)
Definition no_digit (s : string) : Prop :=
  match s with String c _ => uint_of_char c (Some Decimal.Nil) = None | EmptyString => True end.

Lemma take_uint_print d rest :
  no_digit rest → take_uint (NilEmpty.string_of_uint d +:+ rest) = (d, rest).
Proof.
  intros Hr. induction d; cbn [NilEmpty.string_of_uint]; rewrite ?str_cons_app, ?str_nil_app;
    [|cbn; by rewrite IHd..].
  destruct rest as [|c rest]; [done|]. cbn in Hr |- *. by rewrite Hr.
Qed.

Lemma unorm_D0 u : Decimal.unorm (Decimal.D0 u) = Decimal.D0 u → u = Decimal.Nil.
Proof.
  unfold Decimal.unorm. cbn. destruct (Decimal.nzhead u) eqn:E.
  - congruence.
  - by apply DecimalFacts.nzhead_nonzero in E.
  - discriminate. - discriminate. - discriminate. - discriminate. - discriminate.
  - discriminate. - discriminate. - discriminate. - discriminate.
Qed.

Lemma to_int_norm n : Decimal.norm (Z.to_int n) = Z.to_int n.
Proof. by rewrite <- DecimalZ.to_of, DecimalZ.of_to. Qed.

Lemma take_number_print n rest :
  no_digit rest → take_number (str_of_Z n +:+ rest) = Some (n, rest).
Proof.
  intros Hr. unfold str_of_Z. pose proof (to_int_norm n) as Hnorm.
  pose proof (DecimalZ.of_to n) as Hn. destruct (Z.to_int n) as [u|u]; cbn in Hnorm |- *.
  - injection Hnorm as Hu.
    assert (NilZero.string_of_uint u = NilEmpty.string_of_uint u) as ->
      by (destruct u; [discriminate Hu|done..]).
    pose proof (take_uint_print u rest Hr) as Ht.
    destruct u; [discriminate Hu|..]; cbn [NilEmpty.string_of_uint] in *; rewrite str_cons_app in *;
      unfold take_number;
      cbn [Ascii.eqb Bool.eqb andb]; rewrite ?Ht.
    all: try (cbn; by rewrite <- Hn).
    apply unorm_D0 in Hu. subst u. cbn. by rewrite <- Hn.
  - assert (Hu : Decimal.nzhead u = u ∧ u ≠ Decimal.Nil)
      by (destruct (Decimal.nzhead u) eqn:E; [discriminate Hnorm|..]; by injection Hnorm as <-).
    destruct Hu as [Hu Hnil].
    assert (NilZero.string_of_uint u = NilEmpty.string_of_uint u) as -> by by destruct u.
    rewrite str_cons_app. cbn. rewrite take_uint_print by done.
    destruct u; try done; try (by rewrite <- Hn).
    by apply DecimalFacts.nzhead_nonzero in Hu.
Qed.

Lemma str_of_Z_inj n m : str_of_Z n = str_of_Z m → n = m.
Proof.
  intros E. pose proof (take_number_print n "" I) as Hn. pose proof (take_number_print m "" I) as Hm.
  rewrite E in Hn. congruence.
Qed.

(** A text that starts a value: no space, and not a closing bracket. *)
Definition value_start (s : string) : Prop :=
  match s with
  | String c _ => is_space c = false ∧ c ≠ "]"%char ∧ c ≠ "}"%char
  | EmptyString => False
  end.

Lemma value_start_app s t : value_start s → value_start (s +:+ t).
Proof. by destruct s. Qed.

Lemma skip_space_start s : value_start s → skip_space s = s.
Proof. destruct s as [|c s]; [done|]. cbn. by intros [-> _]. Qed.

(** The characters an integer's text can start with. *)
Definition number_start (c : ascii) : bool := is_digit c || Ascii.eqb c "-".

Lemma str_of_Z_start n : ∃ c s, str_of_Z n = String c s ∧ number_start c = true.
Proof.
  unfold str_of_Z. destruct (Z.to_int n) as [u|u]; [|by eexists _, _].
  destruct u; by eexists _, _.
Qed.

Lemma take_value_number fuel c s :
  number_start c = true →
  take_value (S fuel) (String c s) = '(n, r) ← take_number (String c s); Some (VInt n, r).
Proof.
  intros Hc. destruct c as [[] [] [] [] [] [] [] []]; try discriminate Hc; reflexivity.
Qed.

Lemma number_value_start c s : number_start c = true → value_start (String c s).
Proof. intros Hc. destruct c as [[] [] [] [] [] [] [] []]; by try discriminate Hc. Qed.

Lemma take_value_quote fuel s rest :
  take_value (S fuel) (quote s +:+ rest) = Some (VStr s, rest).
Proof.
  unfold quote. rewrite str_cons_app, str_app_assoc, str_cons_app, str_nil_app.
  change (take_value (S fuel) (String quote_char ?x)) with
    ('(t, s) ← take_string (S (String.length x)) x; Some (VStr t, s)).
  by rewrite take_string_quote.
Qed.

Lemma take_value_array fuel s :
  value_start s →
  take_value (S fuel) (String "[" s) = '(l, r) ← take_elements fuel s; Some (VList l, r).
Proof.
  intros Hs. pose proof (skip_space_start s Hs) as Hk. destruct s as [|c s]; [done|].
  destruct Hs as (_ & Hc & _). apply Ascii.eqb_neq in Hc.
  change (match skip_space (String c s) with
    | String c' s'' =>
        if Ascii.eqb c' "]" then Some (VList [], s'')
        else '(l, s) ← take_elements fuel (String c s); Some (VList l, s)
    | EmptyString => None
    end = '(l, r) ← take_elements fuel (String c s); Some (VList l, r)).
  by rewrite Hk, Hc.
Qed.

Lemma take_value_object fuel s :
  value_start s →
  take_value (S fuel) (String "{" s) = '(d, r) ← take_members fuel s; Some (VDict d, r).
Proof.
  intros Hs. pose proof (skip_space_start s Hs) as Hk. destruct s as [|c s]; [done|].
  destruct Hs as (_ & _ & Hc). apply Ascii.eqb_neq in Hc.
  change (match skip_space (String c s) with
    | String c' s'' =>
        if Ascii.eqb c' "}" then Some (VDict [], s'')
        else '(d, s) ← take_members fuel (String c s); Some (VDict d, s)
    | EmptyString => None
    end = '(d, r) ← take_members fuel (String c s); Some (VDict d, r)).
  by rewrite Hk, Hc.
Qed.

Lemma skip_comma s : skip_space (String "," s) = String "," s.
Proof. reflexivity. Qed.

Section round_trip.
Context (key_leb : string → string → bool).
Abbreviation print := (json_print key_leb).
Abbreviation norm := (normal key_leb).

Lemma print_value_start v : value_start (print v).
Proof.
  destruct v as [|[]|n|s|l|d]; try done.
  destruct (str_of_Z_start n) as (c & s & E & Hc). cbn [json_print]. rewrite E.
  by apply number_value_start.
Qed.

Definition reads (v : pyval) : Prop := ∀ fuel rest,
  no_digit rest → (String.length (print v) < fuel)%nat →
  take_value fuel (print v +:+ rest) = Some (norm v, rest).

Lemma join_cons x y l : join_comma (x :: y :: l) = x +:+ String "," (join_comma (y :: l)).
Proof. reflexivity. Qed.

Lemma take_elements_join v l fuel rest :
  Forall reads (v :: l) →
  (S (String.length (join_comma (print <$> v :: l))) < fuel)%nat →
  take_elements fuel (join_comma (print <$> v :: l) +:+ String "]" rest)
  = Some (norm <$> v :: l, rest).
Proof.
  revert v fuel. induction l as [|w l IH]; intros v [|fuel] Hl Hf; try lia;
    apply Forall_cons in Hl as [Hv Hl].
  - change (join_comma (print <$> [v])) with (print v) in *. cbn [take_elements].
    rewrite Hv by (done || lia). done.
  - specialize (IH w fuel Hl). rewrite !fmap_cons in *.
    rewrite join_cons, str_length_app in Hf. cbn [String.length] in Hf.
    rewrite join_cons, str_app_assoc, str_cons_app. cbn [take_elements].
    rewrite Hv by (done || lia). cbn -[take_elements join_comma fmap skip_space]. rewrite skip_comma. cbn -[take_elements join_comma fmap].
    by rewrite IH by lia.
Qed.

Definition members (d : dict) : list string := print_member <$> (prod_map id print <$> d).

Lemma print_member_app k v s :
  print_member (prod_map id print (k, v)) +:+ s
  = String quote_char (escape k +:+ String quote_char (String ":" (print v +:+ s))).
Proof. unfold print_member, quote. cbn. by str_norm. Qed.

Lemma take_members_step fuel k s :
  take_members (S fuel) (String quote_char (escape k +:+ String quote_char (String ":" s))) =
  '(v, s) ← take_value fuel s;
  match skip_space s with
  | String c s =>
      if Ascii.eqb c "," then '(d, s) ← take_members fuel s; Some ((k, v) :: d, s)
      else if Ascii.eqb c "}" then Some ([(k, v)], s)
      else None
  | EmptyString => None
  end.
Proof.
  set (x := escape k +:+ String quote_char (String ":" s)).
  change (take_members (S fuel) (String quote_char x)) with
    ('(k, s) ← take_string (S (String.length x)) x;
     match skip_space s with
     | String c s =>
         if Ascii.eqb c ":" then
           '(v, s) ← take_value fuel s;
           match skip_space s with
           | String c s =>
               if Ascii.eqb c "," then
                 '(d, s) ← take_members fuel s; Some ((k, v) :: d, s)
               else if Ascii.eqb c "}" then Some ([(k, v)], s)
               else None
           | EmptyString => None
           end
         else None
     | EmptyString => None
     end).
  subst x. by rewrite take_string_quote.
Qed.

Lemma take_members_join kv d fuel rest :
  Forall (λ kv, reads kv.2) (kv :: d) →
  (S (String.length (join_comma (members (kv :: d)))) < fuel)%nat →
  take_members fuel (join_comma (members (kv :: d)) +:+ String "}" rest)
  = Some (prod_map id norm <$> kv :: d, rest).
Proof.
  assert (Hlen : ∀ k v, (String.length (print v) < String.length (print_member (prod_map id print (k, v))))%nat).
  { intros. rewrite <- (str_app_nil (print_member _)), print_member_app.
    cbn [String.length]. rewrite str_length_app. cbn [String.length]. rewrite str_app_nil. lia. }
  revert kv fuel. induction d as [|kv' d IH]; intros [k v] [|fuel] Hl Hf; try lia;
    apply Forall_cons in Hl as [Hv Hl]; cbn in Hv.
  - change (join_comma (members [(k, v)])) with (print_member (prod_map id print (k, v))) in *.
    rewrite print_member_app, take_members_step, Hv; [done..|]. pose proof (Hlen k v). lia.
  - specialize (IH kv' fuel Hl). unfold members in *. rewrite !fmap_cons in *.
    rewrite join_cons, str_length_app in Hf. cbn [String.length] in Hf. pose proof (Hlen k v).
    rewrite join_cons, str_app_assoc, str_cons_app, print_member_app, take_members_step.
    rewrite Hv by (done || lia). cbn -[take_members join_comma fmap skip_space]. rewrite skip_comma. cbn -[take_members join_comma fmap].
    by rewrite IH by lia.
Qed.
End round_trip.

Lemma join_comma_head x l : ∃ t, join_comma (x :: l) = x +:+ t.
Proof. destruct l; [exists ""; by rewrite str_app_nil|by eexists]. Qed.

Section reading.
Context (key_leb : string → string → bool).

Lemma take_value_print v : reads key_leb v.
Proof.
  induction v as [|b|n|s|l IH|d IH] using pyval_ind'; intros [|fuel] rest Hr Hf; try lia.
  - reflexivity.
  - by destruct b.
  - cbn [json_print]. destruct (str_of_Z_start n) as (c & s & E & Hc).
    pose proof (take_number_print n rest Hr) as Ht. rewrite E, str_cons_app in *.
    by rewrite take_value_number, Ht.
  - cbn [json_print]. apply take_value_quote.
  - cbn [json_print] in *. unfold print_array in *. destruct l as [|v l]; [done|].
    change (List.map (json_print key_leb)) with (fmap (M:=list) (json_print key_leb)) in *.
    rewrite !str_length_app in Hf. cbn [String.length] in Hf.
    str_norm. rewrite take_value_array.
    + by rewrite take_elements_join by (done || lia).
    + pose proof (print_value_start key_leb v) as Hs. rewrite fmap_cons.
      destruct (join_comma_head (json_print key_leb v) (json_print key_leb <$> l)) as [t ->].
      by apply value_start_app, value_start_app.
  - rewrite json_print_dict in *. rewrite normal_dict. unfold print_object in *.
    assert (Hs : Forall (λ kv, reads key_leb kv.2) (sort_keys key_leb d))
      by (by rewrite sort_keys_perm).
    destruct (sort_keys key_leb d) as [|kv d']; [done|].
    rewrite !str_length_app in Hf. cbn [String.length] in Hf. fold (members key_leb (kv :: d')) in *.
    str_norm. rewrite take_value_object.
    + by rewrite take_members_join by (done || lia).
    + destruct kv as [k v]. unfold members. rewrite !fmap_cons.
      match goal with |- context [join_comma (?x :: ?l)] => destruct (join_comma_head x l) as [t ->] end.
      rewrite str_app_assoc. by rewrite print_member_app.
Qed.

Lemma json_parse_print v : json_parse (json_print key_leb v) = Some (normal key_leb v).
Proof.
  unfold json_parse. pose proof (take_value_print v (S (String.length (json_print key_leb v))) "") as H.
  rewrite str_app_nil in H. by rewrite H by (done || lia).
Qed.

(** Equal texts mean the same document up to key order. *)
Lemma json_print_inj v w :
  json_print key_leb v = json_print key_leb w → normal key_leb v = normal key_leb w.
Proof. intros E. pose proof (json_parse_print v) as H. rewrite E, json_parse_print in H. congruence. Qed.

(** ** Documents with distinct keys survive [dedup] *)

Lemma dset_new k v d : k ∉ d.*1 → dset k v d = d ++ [(k, v)].
Proof.
  induction d as [|[k' v'] d IH]; [done|]. cbn. rewrite not_elem_of_cons. intros [Hk Hd].
  rewrite decide_False by done. by rewrite IH.
Qed.

Lemma dmerge_app d e : NoDup ((d ++ e).*1) → dmerge d e = d ++ e.
Proof.
  revert d. induction e as [|[k v] e IH]; intros d Hd; cbn.
  - by rewrite app_nil_r.
  - rewrite fmap_app, fmap_cons in Hd. apply NoDup_app in Hd as (Hd1 & Hd2 & Hd3).
    rewrite dset_new.
    + fold (dmerge (d ++ [(k, v)]) e). rewrite IH; [by rewrite <- app_assoc|].
      rewrite <- app_assoc. cbn. rewrite fmap_app, fmap_cons. by apply NoDup_app.
    + intros Hk. apply (Hd2 k Hk). left.
Qed.

Lemma keys_map {A B} (f : A → B) (d : list (string * A)) : (prod_map id f <$> d).*1 = d.*1.
Proof. rewrite <- list_fmap_compose. by apply list_fmap_ext. Qed.

Lemma dedup_normal v : wf_pyval v → dedup (normal key_leb v) = normal key_leb v.
Proof.
  induction v as [|b|n|s|l IH|d IH] using pyval_ind'; try done; intros Hwf.
  - cbn. f_equal. induction IH as [|v l Hv _ IHl]; [done|]. destruct Hwf as [Hwf Hl].
    cbn. by rewrite Hv, IHl.
  - destruct Hwf as [Hnd Hwf]. rewrite normal_dict. cbn [dedup]. f_equal.
    change (dmerge [] (prod_map id dedup <$> (prod_map id (normal key_leb) <$> sort_keys key_leb d))
      = prod_map id (normal key_leb) <$> sort_keys key_leb d).
    assert (Hd : Forall (λ kv, dedup (normal key_leb kv.2) = normal key_leb kv.2) d).
    { clear Hnd. induction IH as [|kv d Hv _ IHd]; constructor; destruct Hwf; auto. }
    rewrite <- (sort_keys_perm key_leb d) in Hd.
    rewrite dmerge_app by (rewrite app_nil_l, !keys_map; by rewrite sort_keys_perm).
    rewrite app_nil_l, <- list_fmap_compose.
    induction Hd as [|[k v] d' Hv _ IHd]; [done|]. cbn in *. by rewrite IHd, Hv.
Qed.

Lemma json_loads_print v :
  wf_pyval v → json_loads (json_print key_leb v) = Ok (normal key_leb v).
Proof. intros Hwf. unfold json_loads. by rewrite json_parse_print, dedup_normal. Qed.

(** Looking a key up is insensitive to the order. *)
Lemma dlookup_perm k d e : NoDup (d.*1) → d ≡ₚ e → dlookup k d = dlookup k e.
Proof.
  intros Hnd Hp. induction Hp as [|[k' v] d e Hp IH|[k1 v1] [k2 v2] d|d e f Hp IH1 _ IH2]; [done|..].
  - cbn in *. apply NoDup_cons in Hnd as [_ Hnd]. case_decide; [done|]. by apply IH.
  - cbn in *. apply NoDup_cons in Hnd as [Hk _]. rewrite not_elem_of_cons in Hk.
    destruct Hk. repeat case_decide; congruence.
  - rewrite IH1 by done. apply IH2. by rewrite <- Hp.
Qed.

Lemma dlookup_map (f : pyval → pyval) k (d : dict) :
  dlookup k (prod_map id f <$> d) = f <$> dlookup k d.
Proof. induction d as [|[k' v] d IH]; [done|]. cbn. unfold id. by case_decide. Qed.

Lemma dlookup_normal k d d' :
  NoDup (d.*1) → normal key_leb (VDict d) = VDict d' →
  dlookup k d' = normal key_leb <$> dlookup k d.
Proof.
  intros Hnd. rewrite normal_dict. intros [= <-].
  pose proof (dlookup_map (normal key_leb) k (sort_keys key_leb d)) as ->.
  f_equal. apply dlookup_perm; [by rewrite sort_keys_perm|]. apply sort_keys_perm.
Qed.
(** Reading an object text back: the same keys, each with its value's normal
    form, whatever the values are. *)
Lemma json_loads_object d :
  NoDup (d.*1) → ∃ doc, json_loads (json_print key_leb (VDict d)) = Ok (VDict doc) ∧
    ∀ k, dlookup k doc = (λ v, dedup (normal key_leb v)) <$> dlookup k d.
Proof.
  intros Hnd. unfold json_loads. rewrite json_parse_print, normal_dict. cbn [dedup].
  set (e := prod_map id (normal key_leb) <$> sort_keys key_leb d).
  assert (He : e.*1 = (sort_keys key_leb d).*1) by apply keys_map.
  exists (prod_map id dedup <$> e). split.
  - do 2 f_equal. change (List.map (λ kv : string * pyval, (kv.1, dedup kv.2)) e) with (prod_map id dedup <$> e).
    rewrite dmerge_app; [by rewrite app_nil_l|]. rewrite app_nil_l, keys_map, He. by rewrite sort_keys_perm.
  - intros k. rewrite (dlookup_map dedup k e). unfold e.
    pose proof (dlookup_map (normal key_leb) k (sort_keys key_leb d)) as ->.
    rewrite <- (dlookup_perm k d (sort_keys key_leb d)); [by destruct (dlookup k d)|done|].
    by rewrite sort_keys_perm.
Qed.
End reading.

#[export] Hint Resolve json_loads_print : ci.

(** ** Examples *)

Example dumps_example :
  json_dumps (VDict [("b", VList [VInt (-7); VNone]); ("a", VStr "x\y")])
  = "{" +:+ quote "a" +:+ ":" +:+ quote "x\y" +:+ "," +:+ quote "b" +:+ ":[-7,null]}".
Proof. reflexivity. Qed.
Example loads_example :
  json_loads (json_dumps (VDict [("b", VList [VInt (-7); VNone]); ("a", VStr "x\y"); ("c", VDict [])]))
  = Ok (VDict [("a", VStr "x\y"); ("b", VList [VInt (-7); VNone]); ("c", VDict [])]).
Proof. vm_compute. reflexivity. Qed.
