(* ===== verification/Digest.v ===== *)
(** * [hashlib.sha256(...).hexdigest()]

    The class [Digest] is what the modules rely on: a function from bytes to 64
    lowercase hexadecimal digits.  Nothing assumes that it is injective: where a
    module compares digests, the theorems speak of digests.  The instance is
    SHA-256 itself, on 32-bit words as [N]. *)

From S2P Require Import Prelude PyValue.

Class Digest := {
  sha256_hex : string → string;
  sha256_hex_shape s : is_sha256 (sha256_hex s) = true;
}.

(** ** SHA-256 *)

#[local] Open Scope N_scope.

Definition mask32 : N := 0xffffffff.
Definition add32 (a b : N) : N := N.land (a + b) mask32.
Definition rotr (n x : N) : N :=
  N.lor (N.shiftr x n) (N.land (N.shiftl x (32 - n)) mask32).
Definition not32 (x : N) : N := N.lxor x mask32.
Definition xor3 (a b c : N) : N := N.lxor a (N.lxor b c).

(** The first 32 bits of the fraction of a root: of the cube roots of the first
    64 primes for the rounds, of the square roots of the first 8 for the initial
    state. *)
Fixpoint root_bits (k : N) (n r : N) (i : nat) : N :=
  let r := if (r + 2 ^ N.of_nat i) ^ k <=? n then r + 2 ^ N.of_nat i else r in
  match i with O => r | S i => root_bits k n r i end.
Definition root_fraction (k p : N) : N := N.land (root_bits k (p * 2 ^ (32 * k)) 0 37) mask32.

Definition is_prime (n : nat) : bool :=
  forallb (λ d, negb (n mod d =? 0)%nat) (seq 2 (n - 2)).
Definition primes : list N := N.of_nat <$> List.filter is_prime (seq 2 310).

Definition round_constants : list N := Eval vm_compute in root_fraction 3 <$> primes.
Definition initial_hash : list N := Eval vm_compute in root_fraction 2 <$> take 8 primes.

(** The padded message: the bytes, 0x80, zeros, and the bit length in 8 bytes. *)
Definition bytes_of (s : string) : list N := N_of_ascii <$> String.list_ascii_of_string s.
Fixpoint be_bytes (k : nat) (n : N) : list N :=
  match k with O => [] | S k => be_bytes k (n / 256) ++ [n mod 256] end.
Definition padded (s : string) : list N :=
  let m := bytes_of s in
  let l := length m in
  m ++ 0x80 :: replicate (63 - (l + 8) mod 64)%nat 0 ++ be_bytes 8 (8 * N.of_nat l).

Fixpoint words (l : list N) : list N :=
  match l with
  | a :: b :: c :: d :: l => ((a * 256 + b) * 256 + c) * 256 + d :: words l
  | _ => []
  end.

(** The message schedule, newest word first. *)
Definition schedule_step (w : list N) : list N :=
  let at_ i := nth i w 0 in
  let s0 := xor3 (rotr 7 (at_ 14%nat)) (rotr 18 (at_ 14%nat)) (N.shiftr (at_ 14%nat) 3) in
  let s1 := xor3 (rotr 17 (at_ 1%nat)) (rotr 19 (at_ 1%nat)) (N.shiftr (at_ 1%nat) 10) in
  add32 (add32 (at_ 15%nat) s0) (add32 (at_ 6%nat) s1) :: w.
Definition schedule (block : list N) : list N := rev (Nat.iter 48 schedule_step (rev block)).

Definition compress_round (h : list N) (kw : N * N) : list N :=
  match h with
  | [a; b; c; d; e; f; g; h] =>
      let s1 := xor3 (rotr 6 e) (rotr 11 e) (rotr 25 e) in
      let ch := N.lxor (N.land e f) (N.land (not32 e) g) in
      let t1 := add32 (add32 h s1) (add32 ch (add32 kw.1 kw.2)) in
      let s0 := xor3 (rotr 2 a) (rotr 13 a) (rotr 22 a) in
      let maj := xor3 (N.land a b) (N.land a c) (N.land b c) in
      [add32 t1 (add32 s0 maj); a; b; c; add32 d t1; e; f; g]
  | _ => h
  end.
Definition compress (h block : list N) : list N :=
  zip_with add32 h (foldl compress_round h (zip round_constants (schedule block))).

Fixpoint blocks (fuel : nat) (w : list N) : list (list N) :=
  match fuel, w with
  | S fuel, _ :: _ => take 16 w :: blocks fuel (drop 16 w)
  | _, _ => []
  end.

Definition sha256_words (s : string) : list N :=
  let w := words (padded s) in foldl compress initial_hash (blocks (length w) w).

(** ** Hexadecimal text *)

Definition hex_digit_char (n : N) : ascii := ascii_of_N (if n <? 10 then 48 + n else 87 + n).
Fixpoint hex_text (k : nat) (n : N) : string :=
  match k with
  | O => ""
  | S k => hex_text k (n / 16) +:+ String (hex_digit_char (n mod 16)) ""
  end.

Definition hexdigest (s : string) : string := foldr (λ w t, hex_text 8 w +:+ t) "" (sha256_words s).

(** ** The shape of the text *)

Lemma all_chars_app p s t : all_chars p (s +:+ t) = all_chars p s && all_chars p t.
Proof. induction s as [|c s IH]; [done|]. rewrite str_cons_app. cbn. by rewrite IH, andb_assoc. Qed.

Lemma str_length_append s t : String.length (s +:+ t) = (String.length s + String.length t)%nat.
Proof. induction s as [|c s IH]; [done|]. rewrite str_cons_app. cbn. by rewrite IH. Qed.

Lemma hex_digit_char_hex n : n < 16 → is_lower_hex (hex_digit_char n) = true.
Proof.
  intros Hn. destruct n as [|p]; [done|].
  do 5 (destruct p as [p|p|]; try (exfalso; lia); try done).
Qed.

Lemma hex_text_shape k n :
  String.length (hex_text k n) = k ∧ all_chars is_lower_hex (hex_text k n) = true.
Proof.
  revert n. induction k as [|k IH]; [done|]. intros n. cbn [hex_text].
  rewrite str_length_append, all_chars_app. destruct (IH (n / 16)) as [-> ->]. split; [cbn; lia|].
  cbn [all_chars]. rewrite hex_digit_char_hex; [done|]. by apply N.mod_lt.
Qed.

Lemma compress_round_length h kw : length (compress_round h kw) = length h.
Proof. destruct h as [|? [|? [|? [|? [|? [|? [|? [|? [|]]]]]]]]]; done. Qed.

Lemma compress_length h block : length (compress h block) = length h.
Proof.
  unfold compress. rewrite length_zip_with.
  assert (∀ l g, length (foldl compress_round g l) = length g) as ->.
  { induction l as [|kw l IH]; [done|]. intros g. cbn. by rewrite IH, compress_round_length. }
  lia.
Qed.

Lemma sha256_words_length s : length (sha256_words s) = 8%nat.
Proof.
  unfold sha256_words.
  assert (∀ l g, length (foldl compress g l) = length g) as ->; [|done].
  induction l as [|b l IH]; [done|]. intros g. cbn. by rewrite IH, compress_length.
Qed.

Lemma hexdigest_shape s : is_sha256 (hexdigest s) = true.
Proof.
  unfold hexdigest, is_sha256, match_exactly. pose proof (sha256_words_length s) as Hl.
  assert (∀ l, String.length (foldr (λ w t, hex_text 8 w +:+ t) "" l) = (8 * length l)%nat ∧
    all_chars is_lower_hex (foldr (λ w t, hex_text 8 w +:+ t) "" l) = true) as H.
  { induction l as [|w l [IH1 IH2]]; [done|]. cbn [foldr].
    rewrite str_length_append, all_chars_app, IH1, IH2.
    destruct (hex_text_shape 8 w) as [-> ->]. split; [cbn; lia|done]. }
  destruct (H (sha256_words s)) as [-> ->]. by rewrite Hl.
Qed.

Definition Sha256 : Digest := {| sha256_hex := hexdigest; sha256_hex_shape := hexdigest_shape |}.

(** A cheap digest of the same shape, for examples: the length in decimal. *)
Definition length_digest (s : string) : string :=
  hex_text 64 (N.of_nat (String.length s)).
Lemma length_digest_shape s : is_sha256 (length_digest s) = true.
Proof.
  unfold is_sha256, match_exactly, length_digest. destruct (hex_text_shape 64 (N.of_nat (String.length s))) as [-> ->]. done.
Qed.
Definition ToyDigest : Digest := {| sha256_hex := length_digest; sha256_hex_shape := length_digest_shape |}.

Example sha256_abc :
  hexdigest "abc" = "ba7816bf8f01cfea414140de5dae2223b00361a396177a9cb410ff61f20015ad".
Proof. vm_compute. reflexivity. Qed.
