(* ===== verification/Sql.v ===== *)
(** * Tables with a primary key

    What the modules use of SQLite: a table with a primary key is a finite map
    from the key columns to the other columns.  INSERT checks the key, the UNIQUE
    columns and the CHECK and FOREIGN KEY constraints; UPDATE by primary key
    touches at most one row; ORDER BY ... DESC LIMIT 1 over one key column is
    the row with the largest value.  Python integers are bound as 64-bit. *)

From S2P Require Import Prelude.
From stdpp Require Export gmap.
#[global] Open Scope Z_scope.

(** ** Binding parameters *)

Definition in_int64 (n : Z) : bool := (- 2 ^ 63 <=? n) && (n <? 2 ^ 63).

Definition bind_ints (ns : list Z) : result unit :=
  check (negb (forallb in_int64 ns)) OverflowError "Python int too large to convert to SQLite INTEGER".

(** ** Statements *)

Section table.
Context `{Countable K} {Row : Type}.

Definition insert_row (constraints : bool) (k : K) (row : Row) (t : gmap K Row)
    : result (gmap K Row) :=
  match t !! k with
  | Some _ => throw IntegrityError "UNIQUE constraint failed"
  | None =>
      check (negb constraints) IntegrityError "constraint failed";;
      Ok (<[k := row]> t)
  end.

(** [UPDATE ... WHERE] on the primary key. *)
Definition update_row (f : Row → Row) (k : K) (t : gmap K Row) : gmap K Row := alter f k t.

Definition rowcount (k : K) (t : gmap K Row) : Z :=
  match t !! k with Some _ => 1 | None => 0 end.

(** No row of the table has this value in a UNIQUE column. *)
Definition unique_in {C} `{EqDecision C} (col : Row → C) (c : C) (t : gmap K Row) : bool :=
  forallb (λ kr, negb (bool_decide (col kr.2 = c))) (map_to_list t).

(** [SELECT * ... WHERE col=?] on a UNIQUE column. *)
Definition select_unique {C} `{EqDecision C} (col : Row → C) (c : C) (t : gmap K Row) : option Row :=
  snd <$> List.find (λ kr, bool_decide (col kr.2 = c)) (map_to_list t).

End table.

(** ** The largest value of the second key column *)

Section ordered.
Context {Row : Type}.

Definition values_of (k : string) (t : gmap (string * Z) Row) : list Z :=
  omap (λ kr : string * Z * Row, if decide (kr.1.1 = k) then Some kr.1.2 else None) (map_to_list t).

Definition max_list (l : list Z) : option Z :=
  foldr (λ g acc, Some (match acc with None => g | Some m => Z.max g m end)) None l.

(** [SELECT MAX(generation) ... WHERE logical_key=?] *)
Definition max_value (k : string) (t : gmap (string * Z) Row) : option Z :=
  max_list (values_of k t).

(** [SELECT * ... WHERE logical_key=? ORDER BY generation DESC LIMIT 1] *)
Definition latest_row (k : string) (t : gmap (string * Z) Row) : option (Z * Row) :=
  g ← max_value k t; row ← t !! (k, g); Some (g, row).

End ordered.

(** ** Lemmas *)

Lemma bind_ints_ok ns u : bind_ints ns = Ok u ↔ Forall (λ n, in_int64 n = true) ns.
Proof.
  unfold bind_ints. rewrite check_ok, negb_false_iff, forallb_forall, Forall_forall.
  by setoid_rewrite list_elem_of_In.
Qed.

Section table_facts.
Context `{Countable K} {Row : Type}.
Implicit Types t : gmap K Row.

Lemma insert_row_ok constraints k row t t' :
  insert_row constraints k row t = Ok t' ↔
  t !! k = None ∧ constraints = true ∧ t' = <[k := row]> t.
Proof.
  unfold insert_row, check, throw. destruct (t !! k) as [?|] eqn:E; [naive_solver|].
  destruct constraints; cbn; naive_solver.
Qed.

Lemma update_row_insert f k row t : t !! k = Some row → update_row f k t = <[k := f row]> t.
Proof.
  intros Hrow. apply map_eq. intros k'. unfold update_row. destruct (decide (k' = k)) as [->|Hne].
  - by rewrite lookup_alter_eq, lookup_insert_eq, Hrow.
  - by rewrite lookup_alter_ne, lookup_insert_ne.
Qed.

Lemma unique_in_true {C} `{EqDecision C} (col : Row → C) c t :
  unique_in col c t = true ↔ ∀ k r, t !! k = Some r → col r ≠ c.
Proof.
  unfold unique_in. rewrite forallb_forall. split.
  - intros Hall k r Hk. specialize (Hall (k, r)).
    rewrite <- list_elem_of_In, elem_of_map_to_list in Hall. specialize (Hall Hk). by bool_inv.
  - intros Hall [k r]. rewrite <- list_elem_of_In, elem_of_map_to_list. intros Hk.
    apply negb_true_iff, bool_decide_eq_false. eauto.
Qed.

Lemma select_unique_some {C} `{EqDecision C} (col : Row → C) c t r :
  select_unique col c t = Some r → col r = c ∧ ∃ k, t !! k = Some r.
Proof.
  unfold select_unique. intros ([k r'] & Hf & [= ->])%fmap_Some.
  apply List.find_some in Hf as [Hin Hc]. rewrite <- list_elem_of_In, elem_of_map_to_list in Hin.
  bool_inv. eauto.
Qed.

Lemma select_unique_insert {C} `{EqDecision C} (col : Row → C) k row t :
  unique_in col (col row) t = true → select_unique col (col row) (<[k := row]> t) = Some row.
Proof.
  rewrite unique_in_true. intros Hu. destruct (select_unique col (col row) (<[k:=row]> t)) as [r|] eqn:E.
  - apply select_unique_some in E as (Hc & k' & Hk).
    apply lookup_insert_Some in Hk as [[_ ->]|[_ Hk]]; [done|]. by apply Hu in Hk.
  - unfold select_unique in E. apply fmap_None in E.
    assert (Hin : (k, row) ∈ map_to_list (<[k:=row]> t))
      by (apply elem_of_map_to_list, lookup_insert_eq).
    rewrite list_elem_of_In in Hin. eapply List.find_none in E; [|exact Hin]. by bool_inv.
Qed.
End table_facts.

Section ordered_facts.
Context {Row : Type}.
Implicit Types t : gmap (string * Z) Row.

Lemma elem_of_values_of k g t : g ∈ values_of k t ↔ is_Some (t !! (k, g)).
Proof.
  unfold values_of. rewrite list_elem_of_omap. split.
  - intros ([[k' g'] r] & Hin & Hd). apply elem_of_map_to_list in Hin. cbn in Hd.
    case_decide; simplify_eq. eauto.
  - intros [r Hr]. exists (k, g, r). rewrite elem_of_map_to_list. cbn.
    rewrite decide_True by done. done.
Qed.

Lemma max_list_spec l :
  match max_list l with
  | None => l = []
  | Some m => m ∈ l ∧ ∀ g, g ∈ l → g ≤ m
  end.
Proof.
  induction l as [|x l IH]; [done|]. cbn. unfold max_list in IH.
  destruct (foldr _ None l) as [m|].
  - destruct IH as [Hin Hle]. split.
    + destruct (Z.max_spec x m) as [[_ ->]|[_ ->]]; set_solver.
    + intros g [->|Hg]%elem_of_cons; [lia|]. specialize (Hle g Hg). lia.
  - subst. split; [set_solver|]. intros g ->%list_elem_of_singleton. lia.
Qed.

Lemma max_value_spec k t :
  match max_value k t with
  | None => ∀ g, t !! (k, g) = None
  | Some m => is_Some (t !! (k, m)) ∧ ∀ g, is_Some (t !! (k, g)) → g ≤ m
  end.
Proof.
  unfold max_value. pose proof (max_list_spec (values_of k t)) as H.
  destruct (max_list _) as [m|].
  - rewrite elem_of_values_of in H. setoid_rewrite elem_of_values_of in H. done.
  - intros g. apply eq_None_not_Some. rewrite <- elem_of_values_of, H. apply not_elem_of_nil.
Qed.

Lemma max_value_some k t m :
  max_value k t = Some m ↔ is_Some (t !! (k, m)) ∧ ∀ g, is_Some (t !! (k, g)) → g ≤ m.
Proof.
  pose proof (max_value_spec k t) as H. split; [intros E; by rewrite E in H|].
  intros [Hm Hmax]. destruct (max_value k t) as [m'|].
  - destruct H as [Hm' Hle]. f_equal. apply Hmax in Hm'. apply Hle in Hm. lia.
  - destruct Hm as [? Hm]. by rewrite H in Hm.
Qed.

Lemma max_value_none k t : max_value k t = None ↔ ∀ g, t !! (k, g) = None.
Proof.
  pose proof (max_value_spec k t) as H. split; [intros E; by rewrite E in H|].
  intros Hn. destruct (max_value k t) as [m|]; [|done]. destruct H as [[? H] _]. by rewrite Hn in H.
Qed.

Lemma latest_row_some k t g r :
  latest_row k t = Some (g, r) ↔ t !! (k, g) = Some r ∧ ∀ g', is_Some (t !! (k, g')) → g' ≤ g.
Proof.
  unfold latest_row. split.
  - intros (m & Hm & H)%bind_Some. apply bind_Some in H as (r' & Hr & [= -> ->]).
    apply max_value_some in Hm as [_ Hm]. done.
  - intros [Hr Hle]. assert (max_value k t = Some g) as -> by (apply max_value_some; eauto).
    cbn. by rewrite Hr.
Qed.

Lemma latest_row_none k t : latest_row k t = None ↔ ∀ g, t !! (k, g) = None.
Proof.
  unfold latest_row. pose proof (max_value_spec k t) as H.
  destruct (max_value k t) as [m|]; cbn; [|naive_solver].
  destruct H as [[r Hr] _]. rewrite Hr. cbn. split; [done|]. intros Hn. by rewrite Hn in Hr.
Qed.
End ordered_facts.

(** [run_inv] with the statements. *)
Ltac sql_inv :=
  repeat first
    [ progress run_inv
    | match goal with
      | H : bind_ints _ = Ok _ |- _ =>
          apply bind_ints_ok in H; rewrite ?Forall_cons in H; destruct_and? H
      | H : insert_row _ _ _ _ = Ok _ |- _ => apply insert_row_ok in H; destruct H as (? & ? & ?)
      end ]; bool_inv; simplify_eq.
