(* ===== verification/PyText.v ===== *)
(** * Python's text functions

    Strings are UTF-8 bytes; [code_points], [py_len] and [stripped] give what
    [len], [str.strip] and character classes see.  [int_of_text] is [int] of a
    decimal literal, [uuid_parse] and [uuid_text] are [uuid.UUID] and [str] of
    it, and [b64_encode] and [b64_decode] are [base64.urlsafe_b64encode] and
    the validating decoder. *)

From S2P Require Import Prelude PyValue Json Datetime.
From Stdlib Require Import DecimalZ.

(** ** Hashing: membership in a set literal *)

(** [v in {a, b, ...}] hashes [v] first. *)
Definition hashable (v : pyval) : bool :=
  match v with VList _ | VDict _ => false | _ => true end.
Definition py_in_set (v : pyval) (elements : list pyval) : result bool :=
  check (negb (hashable v)) TypeError "unhashable type";;
  Ok (existsb (py_eq v) elements).
Definition text_set (l : list string) : list pyval := VStr <$> l.

(** ** Code points *)

Definition is_continuation (c : ascii) : bool :=
  (128 <=? N_of_ascii c)%N && (N_of_ascii c <? 192)%N.

Fixpoint py_len (s : string) : nat :=
  match s with
  | EmptyString => O
  | String c s => if is_continuation c then py_len s else S (py_len s)
  end.

(** The payload bits of a leading byte, and the continuation bytes added one at
    a time; a code point ends where the next leading byte is. *)
Definition lead_bits (n : N) : N :=
  if (n <? 128)%N then n
  else if (n <? 224)%N then (n - 192)%N
  else if (n <? 240)%N then (n - 224)%N
  else (n - 240)%N.

Fixpoint code_points_from (cur : N) (s : string) : list N :=
  match s with
  | EmptyString => [cur]
  | String c s =>
      let n := N_of_ascii c in
      if is_continuation c then code_points_from (cur * 64 + (n - 128))%N s
      else cur :: code_points_from (lead_bits n) s
  end.
Definition code_points (s : string) : list N :=
  match s with
  | EmptyString => []
  | String c s => code_points_from (lead_bits (N_of_ascii c)) s
  end.

(** [str.isspace], the characters [strip] removes. *)
Definition py_is_space (n : N) : bool :=
  bool_decide (n ∈ [9; 10; 11; 12; 13; 28; 29; 30; 31; 32; 133; 160; 5760; 8232; 8233; 8239; 8287; 12288]%N)
  || ((8192 <=? n)%N && (n <=? 8202)%N).

(** [s == s.strip()] *)
Definition stripped (s : string) : bool :=
  match head (code_points s), last (code_points s) with
  | Some a, Some b => negb (py_is_space a) && negb (py_is_space b)
  | _, _ => true
  end.

(** ** Numbers *)

(** [int(s)] of a digit string; CPython refuses more than 4300 digits. *)
Definition int_of_text (s : string) : result Z :=
  check (4300 <? Z.of_nat (String.length s)) ValueError "Exceeds the limit (4300 digits) for integer string conversion";;
  Ok (Z.of_uint (take_uint s).1).

Definition hex_value (c : ascii) : option Z := Z.of_N <$> hex_digit c.

(** The digits of [int(s, 16)]: single underscores may separate them. *)
Fixpoint hex_digits (acc : Z) (after_digit : bool) (s : string) : option Z :=
  match s with
  | EmptyString => if after_digit then Some acc else None
  | String c s' =>
      match hex_value c with
      | Some d => hex_digits (acc * 16 + d) true s'
      | None => if Ascii.eqb c "_" && after_digit then hex_digits acc false s' else None
      end
  end.

Definition is_ascii_space (c : ascii) : bool :=
  (N_of_ascii c <? 128)%N && py_is_space (N_of_ascii c).
Fixpoint lstrip (p : ascii → bool) (s : string) : string :=
  match s with
  | String c s' => if p c then lstrip p s' else s
  | EmptyString => EmptyString
  end.
Fixpoint rstrip (p : ascii → bool) (s : string) : string :=
  match s with
  | String c s' =>
      match rstrip p s' with
      | EmptyString => if p c then EmptyString else String c EmptyString
      | t => String c t
      end
  | EmptyString => EmptyString
  end.
Definition strip (p : ascii → bool) (s : string) : string := rstrip p (lstrip p s).

(** [int(s, 16)] of ASCII text: spaces around, a sign, a 0x prefix. *)
Definition int_base16 (s : string) : option Z :=
  let unsigned (s : string) :=
    match s with
    | String "0" (String "x" s') | String "0" (String "X" s') =>
        match s' with
        | String "_" s'' => hex_digits 0 false s''
        | _ => hex_digits 0 false s'
        end
    | _ => hex_digits 0 false s
    end%char in
  match strip is_ascii_space s with
  | String "+"%char s => unsigned s
  | String "-"%char s => Z.opp <$> unsigned s
  | s => unsigned s
  end.

(** ** [uuid.UUID] *)

Definition is_brace (c : ascii) : bool := bool_decide (c ∈ ["{"; "}"]%char).

Definition uuid_parse (s : string) : result Z :=
  let hex := str_replace "-" "" (strip is_brace (str_replace "uuid:" "" (str_replace "urn:" "" s))) in
  check (negb (py_len hex =? 32)%nat) ValueError "badly formed hexadecimal UUID string";;
  match int_base16 hex with
  | None => throw ValueError "invalid literal for int() with base 16"
  | Some n =>
      check (negb ((0 <=? n) && (n <? 2 ^ 128))) ValueError "int is out of range (need a 128-bit value)";;
      Ok n
  end.

(** The [k] low hexadecimal digits of [n]. *)
Fixpoint hex_of_Z (k : nat) (n : Z) : string :=
  match k with
  | O => ""
  | S k => String (hex_char (Z.to_N (n / 16 ^ Z.of_nat k mod 16))) (hex_of_Z k n)
  end.

Definition uuid_text (n : Z) : string :=
  hex_of_Z 8 (n / 2 ^ 96) +:+ "-" +:+ hex_of_Z 4 (n / 2 ^ 80) +:+ "-" +:+
  hex_of_Z 4 (n / 2 ^ 64) +:+ "-" +:+ hex_of_Z 4 (n / 2 ^ 48) +:+ "-" +:+ hex_of_Z 12 n.

(** [UUID.version]: only RFC 4122 values have one. *)
Definition uuid_version (n : Z) : option Z :=
  if Z.testbit n 63 && negb (Z.testbit n 62) then Some (Z.land (Z.shiftr n 76) 15) else None.

(** ** Base64, URL alphabet *)

Definition b64_char (n : N) : ascii :=
  if (n <? 26)%N then ascii_of_N (65 + n)
  else if (n <? 52)%N then ascii_of_N (71 + n)
  else if (n <? 62)%N then ascii_of_N (n - 4)
  else if (n =? 62)%N then "-" else "_".
Definition b64_value (c : ascii) : option N :=
  let n := N_of_ascii c in
  if in_range "A" "Z" c then Some (n - 65)%N
  else if in_range "a" "z" c then Some (n - 71)%N
  else if is_digit c then Some (n + 4)%N
  else if Ascii.eqb c "-" then Some 62%N
  else if Ascii.eqb c "_" then Some 63%N
  else None.

Fixpoint b64_encode (s : string) : string :=
  match s with
  | EmptyString => EmptyString
  | String a EmptyString =>
      let a := N_of_ascii a in
      String (b64_char (a / 4)) (String (b64_char (a mod 4 * 16)) "==")
  | String a (String b EmptyString) =>
      let a := N_of_ascii a in let b := N_of_ascii b in
      String (b64_char (a / 4)) (String (b64_char (a mod 4 * 16 + b / 16))
        (String (b64_char (b mod 16 * 4)) "="))
  | String a (String b (String c s)) =>
      let a := N_of_ascii a in let b := N_of_ascii b in let c := N_of_ascii c in
      String (b64_char (a / 4)) (String (b64_char (a mod 4 * 16 + b / 16))
        (String (b64_char (b mod 16 * 4 + c / 64)) (String (b64_char (c mod 64)) (b64_encode s))))
  end.

(** The bits that padding leaves over are dropped, whatever they are. *)
Fixpoint b64_decode (s : string) : option string :=
  match s with
  | EmptyString => Some EmptyString
  | String a (String b (String c (String d s))) =>
      a ← b64_value a; b ← b64_value b;
      let x := ascii_of_N (a * 4 + b / 16) in
      if Ascii.eqb c "=" then
        if Ascii.eqb d "=" && bool_decide (s = "") then Some (String x EmptyString) else None
      else
        c ← b64_value c;
        let y := ascii_of_N (b mod 16 * 16 + c / 4) in
        if Ascii.eqb d "=" then
          if bool_decide (s = "") then Some (String x (String y EmptyString)) else None
        else
          d ← b64_value d;
          rest ← b64_decode s;
          Some (String x (String y (String (ascii_of_N (c mod 4 * 64 + d)) rest)))
  | _ => None
  end.

(** ** Facts about base64 *)

Lemma b64_value_char n : (n < 64)%N → b64_value (b64_char n) = Some n.
Proof.
  intros Hn.
  assert (forallb (λ k, bool_decide (b64_value (b64_char (N.of_nat k)) = Some (N.of_nat k))) (seq 0 64) = true)
    as H by (vm_compute; reflexivity).
  rewrite forallb_forall in H. specialize (H (N.to_nat n)). rewrite N2Nat.id in H.
  apply (bool_decide_eq_true_1 (b64_value (b64_char n) = Some n)), H, in_seq. lia.
Qed.

Lemma b64_char_not_pad n : (n < 64)%N → Ascii.eqb (b64_char n) "=" = false.
Proof.
  intros Hn. destruct (Ascii.eqb_spec (b64_char n) "=") as [E|]; [|done].
  pose proof (b64_value_char n Hn) as H. by rewrite E in H.
Qed.

Lemma ascii_small c : (N_of_ascii c < 256)%N.
Proof. by destruct c as [[] [] [] [] [] [] [] []]. Qed.

(** Induction three characters at a time. *)
Lemma string_ind3 (P : string → Prop) :
  P "" → (∀ a, P (String a "")) → (∀ a b, P (String a (String b ""))) →
  (∀ a b c s, P s → P (String a (String b (String c s)))) → ∀ s, P s.
Proof.
  intros H0 H1 H2 H3. fix go 1. intros [|a [|b [|c s]]]; [done|apply H1|apply H2|]. apply H3, go.
Defined.

(** The sextets of three bytes, and the bytes put together again. *)
Lemma sextet_high a : (a < 256 → a / 4 < 64)%N.
Proof. intros Ha. zify. Z.to_euclidean_division_equations; lia. Qed.
Lemma sextet_low a : (a mod 4 * 16 < 64)%N.
Proof. zify. Z.to_euclidean_division_equations; lia. Qed.
Lemma sextet_second a b : (b < 256 → a mod 4 * 16 + b / 16 < 64)%N.
Proof. intros Hb. zify. Z.to_euclidean_division_equations; lia. Qed.
Lemma sextet_middle b : (b mod 16 * 4 < 64)%N.
Proof. zify. Z.to_euclidean_division_equations; lia. Qed.
Lemma sextet_third b c : (c < 256 → b mod 16 * 4 + c / 64 < 64)%N.
Proof. intros Hc. zify. Z.to_euclidean_division_equations; lia. Qed.
Lemma sextet_last c : (c mod 64 < 64)%N.
Proof. zify. Z.to_euclidean_division_equations; lia. Qed.
Create HintDb b64 discriminated.
#[export] Hint Resolve sextet_high sextet_low sextet_second sextet_middle sextet_third sextet_last
  ascii_small : b64.

Lemma join_first a : (a / 4 * 4 + a mod 4 * 16 / 16 = a)%N.
Proof. zify. Z.to_euclidean_division_equations; lia. Qed.
Lemma join_first' a b : (b < 256 → a / 4 * 4 + (a mod 4 * 16 + b / 16) / 16 = a)%N.
Proof. intros Hb. zify. Z.to_euclidean_division_equations; lia. Qed.
Lemma join_second a b : ((a mod 4 * 16 + b / 16) mod 16 * 16 + b mod 16 * 4 / 4 = b)%N
  ∨ (256 ≤ b)%N.
Proof. zify. Z.to_euclidean_division_equations; lia. Qed.
Lemma join_second' a b c :
  (b < 256 → c < 256 → (a mod 4 * 16 + b / 16) mod 16 * 16 + (b mod 16 * 4 + c / 64) / 4 = b)%N.
Proof. intros Hb Hc. zify. Z.to_euclidean_division_equations; lia. Qed.
Lemma join_third b c : (c < 256 → (b mod 16 * 4 + c / 64) mod 4 * 64 + c mod 64 = c)%N.
Proof. intros Hc. zify. Z.to_euclidean_division_equations; lia. Qed.

#[local] Opaque N.div N.modulo N.mul N.add b64_value b64_char.

Lemma b64_round_trip s : b64_decode (b64_encode s) = Some s.
Proof.
  induction s as [|a|a b|a b c s IH] using string_ind3; [done|..]; cbn -[Ascii.eqb];
    rewrite !b64_value_char by auto with b64; cbn -[Ascii.eqb];
    rewrite ?b64_char_not_pad, ?b64_value_char by auto with b64; cbn.
  - by rewrite join_first, ascii_N_embedding.
  - rewrite join_first' by apply ascii_small.
    destruct (join_second (N_of_ascii a) (N_of_ascii b)) as [->|]; [|by pose proof (ascii_small b); lia].
    by rewrite !ascii_N_embedding.
  - rewrite IH. cbn. rewrite join_first', join_second', join_third by apply ascii_small.
    by rewrite !ascii_N_embedding.
Qed.

(** ** Small helpers *)

(** [s[:-1]] of a string that ends with Z. *)
Fixpoint chop_z (s : string) : option string :=
  match s with
  | EmptyString => None
  | String c EmptyString => if Ascii.eqb c "Z" then Some EmptyString else None
  | String c s => String c <$> chop_z s
  end.

(** [s.lower()], of the letters A to Z. *)
Definition lower_char (c : ascii) : ascii := if in_range "A" "Z" c then ascii_of_N (N_of_ascii c + 32) else c.
Definition lower_ascii (s : string) : string := String.string_of_list_ascii (lower_char <$> String.list_ascii_of_string s).

(** [tz == timezone.utc] *)
Definition is_utc (d : datetime) : bool :=
  match d with
  | Aware UTC _ => true
  | Aware (FixedOffset o) _ => o =? 0
  | Naive _ => false
  end.
Definition instant (d : datetime) : Z := match d with Aware _ t | Naive t => t end.

(** [except p: raise c(msg)] *)
Definition rewrap {A} (p : exn_class → bool) (c : exn_class) (msg : string) (r : result A) : result A :=
  match r with
  | Ok a => Ok a
  | Raise e => if p (exn_cls e) then throw c msg else Raise e
  end.

Lemma rewrap_ok {A} p c msg (r : result A) a : rewrap p c msg r = Ok a ↔ r = Ok a.
Proof. unfold rewrap, throw. destruct r; [done|]. by case_match. Qed.

(** [value.isoformat()] of a UTC instant: the fraction only when there is one. *)
Definition isoformat (t : Z) : string :=
  if t mod US_SECOND =? 0 then isoformat_seconds t else isoformat_microseconds t.
