(* ===== verification/GitHubHttp.v ===== *)
(** * Requests to the GitHub API

    What worker_authority.py and pilot_checks.py share: the transport (a class,
    since the socket is outside), the signer of App tokens, the percent-encoding
    of a path part, the App's JSON web token, the headers, and the strict
    reading of a response.  A body is its bytes, taken as UTF-8. *)

From S2P Require Import Prelude Datetime PyValue PyText Json.
#[local] Open Scope Z_scope.

Definition API_ROOT : string := "https://api.github.com".
Definition API_VERSION : string := "2026-03-10".

Record HTTPResponse := { http_status : Z; http_body : string }.

Class HTTPTransport (G : Type) := {
  http_request : string → string → dict → option dict → M G HTTPResponse;     (* method, url, headers, JSON body *)
  http_clock : M G datetime;
  rs256_sign : string → M G string;
}.

(** [urllib.parse.quote(s, safe="")], and with its default, which keeps slashes. *)
Definition is_unreserved (c : ascii) : bool := is_alnum c || bool_decide (c ∈ ["_"; "."; "-"; "~"]%char).
Definition upper_hex (n : N) : ascii := ascii_of_N (if (n <? 10)%N then 48 + n else 55 + n).
Fixpoint quote_where (keep : ascii → bool) (s : string) : string :=
  match s with
  | EmptyString => EmptyString
  | String c s =>
      if keep c then String c (quote_where keep s)
      else let n := N_of_ascii c in
           String "%" (String (upper_hex (n / 16)) (String (upper_hex (n mod 16)) (quote_where keep s)))
  end.
Definition url_quote : string → string := quote_where is_unreserved.
Definition url_quote_path : string → string := quote_where (λ c, is_unreserved c || Ascii.eqb c "/").

(** Seconds since 1970: [int(now.timestamp())]. *)
Definition EPOCH : Z := days (ymd2day 1970 1 1).
Definition unix_time (t : Z) : Z := (t - EPOCH) / US_SECOND.

(** [urlsafe_b64encode(value).rstrip("=")] *)
Definition b64url (s : string) : string := rstrip (λ c, Ascii.eqb c "=") (b64_encode s).

(** [_app_jwt] *)
Definition jwt_header : string := json_dumps (VDict [("alg", VStr "RS256"); ("typ", VStr "JWT")]).
Definition jwt_payload (app_id now : Z) : string :=
  json_dumps (VDict [("exp", VInt (unix_time now + 540)); ("iat", VInt (unix_time now - 60)); ("iss", VStr (str_of_Z app_id))]).
Definition app_jwt {G} `{HTTPTransport G} (app_id now : Z) : M G string :=
  let signing_input := b64url jwt_header +:+ "." +:+ b64url (jwt_payload app_id now) in
  signature ← rs256_sign signing_input;
  mret (signing_input +:+ "." +:+ b64url signature).

Definition bearer_headers (agent bearer : string) : dict :=
  [("Accept", VStr "application/vnd.github+json"); ("Authorization", VStr ("Bearer " +:+ bearer));
   ("X-GitHub-Api-Version", VStr API_VERSION); ("User-Agent", VStr agent)].

(** [not path.startswith("/") or path.startswith("//") or "#" in path] *)
Definition unsafe_path (path : string) : bool :=
  match path with
  | String a s => negb (Ascii.eqb a "/") || (match s with String b _ => Ascii.eqb b "/" | EmptyString => false end)
  | EmptyString => true
  end || negb (lacks "#" path).

(** [object_pairs_hook] that refuses a repeated key, at every level. *)
Fixpoint distinct_keys (v : pyval) : bool :=
  match v with
  | VList l => forallb distinct_keys l
  | VDict d => bool_decide (NoDup (d.*1)) && forallb (λ kv, distinct_keys kv.2) d
  | _ => true
  end.
Definition loads_exact (c : exn_class) (duplicate invalid text : string) : result pyval :=
  match json_parse text with
  | Some v => check (negb (distinct_keys v)) c duplicate;; Ok v
  | None => throw c invalid
  end.
(** [json.loads], with what it raises as [c]. *)
Definition loads_or (c : exn_class) (invalid text : string) : result pyval :=
  rewrap (λ k, bool_decide (k = ValueError)) c invalid (json_loads text).
