(* ===== verification/Jcs.v ===== *)
(** * Canonical JSON for signatures (crypto.canonicalize_jcs)

    RFC 8785 text over the domain [pyval]: no floats, integers bounded by
    2^53 - 1, members in the order of the UTF-16 code units of their keys.  A
    string given as UTF-8 holds no surrogate, so [_validate_unicode] always
    passes.  The printer is the one of Json with this key order, whence the
    text determines the document up to the order of keys. *)

From S2P Require Import Prelude PyValue Json PyText.

Definition MAX_SAFE_INTEGER : Z := 2 ^ 53 - 1.

(** ** [item.encode("utf-16-be")] *)

Definition utf16_units (cp : N) : list N :=
  if (cp <? 65536)%N then [cp]
  else [55296 + (cp - 65536) / 1024; 56320 + (cp - 65536) mod 1024]%N.

(** Comparing big-endian bytes is comparing code units. *)
Fixpoint units_leb (a b : list N) : bool :=
  match a, b with
  | [], _ => true
  | _ :: _, [] => false
  | x :: a, y :: b => if (x =? y)%N then units_leb a b else (x <? y)%N
  end.

Definition utf16_leb (k l : string) : bool :=
  units_leb (code_points k ≫= utf16_units) (code_points l ≫= utf16_units).

(** ** [canonicalize_jcs] *)

Fixpoint safe_integers (v : pyval) : bool :=
  match v with
  | VInt n => Z.abs n <=? MAX_SAFE_INTEGER
  | VList l => forallb safe_integers l
  | VDict d => forallb (λ kv, safe_integers kv.2) d
  | _ => true
  end.

Definition _canonical_text (v : pyval) : result string :=
  check (negb (safe_integers v)) CanonicalizationError
    "integer exceeds I-JSON safe range; encode it as a string";;
  Ok (json_print utf16_leb v).

Definition canonicalize_jcs (v : pyval) : result string := _canonical_text v.

(** The document a canonical text reads back to. *)
Definition jcs_normal : pyval → pyval := normal utf16_leb.

(** ** Lemmas *)

Lemma canonicalize_ok v s :
  canonicalize_jcs v = Ok s ↔ safe_integers v = true ∧ s = json_print utf16_leb v.
Proof.
  unfold canonicalize_jcs, _canonical_text, check, throw.
  destruct (safe_integers v); cbn; naive_solver.
Qed.

(** Signing the same bytes is signing the same document. *)
Lemma canonicalize_inj v w s :
  canonicalize_jcs v = Ok s → canonicalize_jcs w = Ok s → jcs_normal v = jcs_normal w.
Proof.
  rewrite !canonicalize_ok. intros [_ ->] [_ E]. by apply json_print_inj.
Qed.

Lemma canonicalize_parse v s :
  wf_pyval v → canonicalize_jcs v = Ok s → json_loads s = Ok (jcs_normal v).
Proof. rewrite canonicalize_ok. intros Hwf [_ ->]. by apply json_loads_print. Qed.

Lemma safe_integers_strings d :
  Forall (λ kv : string * pyval, ∃ s, kv.2 = VStr s) d → safe_integers (VDict d) = true.
Proof.
  intros H. cbn. apply forallb_forall. intros kv Hin%list_elem_of_In.
  rewrite Forall_forall in H. destruct (H kv Hin) as [s ->]. done.
Qed.
