(* ===== verification/Signatures.v ===== *)
(** * Detached signatures (crypto.py, first half)

    Domain separation, the base64url form of a raw 64-byte signature, and
    [sign_detached] / [verify_detached] for Ed25519 and low-S P-256.  The
    signature schemes are the [cryptography] package, which the class
    [KeyLibrary] stands for; [KeyLaws] states what is documented of it: a
    signature verifies under the public key of its private key, an Ed25519
    signature has 64 bytes, and an ECDSA signature (r, s) has its components
    below the group order and stays valid as (r, order - s). *)

From S2P Require Import Prelude Datetime PyValue PyText Json Digest Jcs.

Definition ATTESTATION_DOMAIN : string := "github-automation/execution-trust-attestation/v1".
Definition KEY_MANIFEST_DOMAIN : string := "github-automation/execution-trust-key-manifest/v1".
Definition P256_ORDER : Z := 0xFFFFFFFF00000000FFFFFFFFFFFFFFFFBCE6FAADA7179E84F3B9CAC2FC632551.

(** [class ...Error(CryptoContractError)] *)
Definition is_crypto_error (c : exn_class) : bool :=
  bool_decide (c ∈ [CryptoContractError; CanonicalizationError; SignatureContractError;
                    ManifestContractError; AttestationContractError]).

(** ** The key objects *)

Inductive key_kind := Ed25519Key | P256Key | OtherKey.

Class KeyLibrary := {
  public_key : Type;
  private_key : Type;
  public_kind : public_key → key_kind;
  private_kind : private_key → key_kind;
  public_of : private_key → public_key;
  public_bytes : public_key → string;
  ed25519_sign : private_key → string → string;
  ed25519_verify : public_key → string → string → bool;
  ecdsa_sign : private_key → string → Z * Z;
  ecdsa_verify : public_key → Z * Z → string → bool;
}.

Class KeyLaws {K : KeyLibrary} := {
  kind_of_public k : public_kind (public_of k) = private_kind k;
  ed25519_length k m : private_kind k = Ed25519Key → String.length (ed25519_sign k m) = 64%nat;
  ed25519_correct k m :
    private_kind k = Ed25519Key → ed25519_verify (public_of k) (ed25519_sign k m) m = true;
  ecdsa_range k m : private_kind k = P256Key →
    1 ≤ (ecdsa_sign k m).1 < P256_ORDER ∧ 1 ≤ (ecdsa_sign k m).2 < P256_ORDER;
  ecdsa_correct k m : private_kind k = P256Key → ecdsa_verify (public_of k) (ecdsa_sign k m) m = true;
  ecdsa_negate k r s m :
    ecdsa_verify k (r, s) m = true → ecdsa_verify k (r, P256_ORDER - s) m = true;
}.

(** ** Bytes of integers *)

(** [n.to_bytes(k, "big")] and [int.from_bytes(s, "big")]. *)
Fixpoint big_endian (k : nat) (n : Z) : string :=
  match k with
  | O => ""
  | S k => String (ascii_of_N (Z.to_N (n / 256 ^ Z.of_nat k mod 256))) (big_endian k n)
  end.
Definition to_bytes (k : nat) (n : Z) : result string :=
  check (negb ((0 <=? n) && (n <? 256 ^ Z.of_nat k))) OverflowError "int too big to convert";;
  Ok (big_endian k n).
Fixpoint from_bytes_acc (acc : Z) (s : string) : Z :=
  match s with
  | EmptyString => acc
  | String c s => from_bytes_acc (acc * 256 + Z.of_N (N_of_ascii c)) s
  end.
Definition from_bytes : string → Z := from_bytes_acc 0.

(** [raw[:k]] and [raw[k:]]. *)
Fixpoint take_bytes (k : nat) (s : string) : string * string :=
  match k, s with
  | S k, String c s => let '(a, b) := take_bytes k s in (String c a, b)
  | _, _ => (EmptyString, s)
  end.

(** ** Text of a signature *)

Definition is_pad (c : ascii) : bool := Ascii.eqb c "=".

(** [[A-Za-z0-9_-]] *)
Definition is_b64url (c : ascii) : bool := is_alnum c || bool_decide (c ∈ ["_"; "-"]%char).

Definition encode_base64url_raw64 (signature : string) : result string :=
  check (negb (String.length signature =? 64)%nat) SignatureContractError
    "signature must be exactly 64 raw bytes";;
  Ok (rstrip is_pad (b64_encode signature)).

Definition decode_base64url_raw64 (encoded : pyval) : result string :=
  match encoded with
  | VStr encoded =>
      check (negb (py_len encoded =? 86)%nat || negb (lacks "=" encoded)) SignatureContractError
        "signature must be unpadded base64url for 64 raw bytes";;
      check (negb (match_exactly 86 is_b64url encoded)) SignatureContractError
        "signature contains invalid base64url characters";;
      raw ← match b64_decode (encoded +:+ "==") with
            | Some raw => Ok raw
            | None => throw SignatureContractError "invalid base64url signature"
            end;
      check (negb (String.length raw =? 64)%nat) SignatureContractError
        "non-canonical signature encoding";;
      canonical ← encode_base64url_raw64 raw;
      check (negb (bool_decide (canonical = encoded))) SignatureContractError
        "non-canonical signature encoding";;
      Ok raw
  | _ => throw SignatureContractError "signature must be unpadded base64url for 64 raw bytes"
  end.

Section keys.
Context {D : Digest} {K : KeyLibrary}.

(** ** Messages *)

Definition is_ascii (s : string) : bool := all_chars (λ c, (N_of_ascii c <? 128)%N) s.

Definition domain_separated_payload (domain : string) (payload : pyval) : result string :=
  check (bool_decide (domain = "") || negb (lacks "000" domain)) CryptoContractError
    "domain must be non-empty ASCII without NUL";;
  check (negb (is_ascii domain)) CryptoContractError "domain must be ASCII";;
  body ← canonicalize_jcs payload;
  Ok (domain +:+ String "000" body).

Definition payload_digest (domain : string) (payload : pyval) : result string :=
  sha256_hex <$> domain_separated_payload domain payload.
Definition manifest_digest (payload : pyval) : result string :=
  payload_digest KEY_MANIFEST_DOMAIN payload.

Definition public_key_spki (k : public_key) : string := public_bytes k.
Definition spki_fingerprint (k : public_key) : string := sha256_hex (public_key_spki k).

(** ** Signing and verifying *)

Definition sign_detached (payload : pyval) (k : private_key) (domain : string) : result string :=
  message ← domain_separated_payload domain payload;
  raw ← match private_kind k with
        | Ed25519Key => Ok (ed25519_sign k message)
        | P256Key =>
            let '(r, s) := ecdsa_sign k message in
            let s := Z.min s (P256_ORDER - s) in
            r ← to_bytes 32 r; s ← to_bytes 32 s; Ok (r +:+ s)
        | OtherKey => throw SignatureContractError "only Ed25519 and P-256 private keys are accepted"
        end;
  encode_base64url_raw64 raw.

Definition verify_detached (payload signature : pyval) (k : public_key) (domain : string) : result unit :=
  raw ← decode_base64url_raw64 signature;
  message ← domain_separated_payload domain payload;
  match public_kind k with
  | Ed25519Key =>
      check (negb (ed25519_verify k raw message)) SignatureContractError "signature verification failed"
  | P256Key =>
      let '(r, s) := take_bytes 32 raw in
      let r := from_bytes r in let s := from_bytes s in
      check (negb ((1 <=? r) && (r <? P256_ORDER)) || negb ((1 <=? s) && (s <=? P256_ORDER / 2)))
        SignatureContractError "P-256 signature must be valid low-S P1363";;
      check (negb (ecdsa_verify k (r, s) message)) SignatureContractError "signature verification failed"
  | OtherKey => throw SignatureContractError "only Ed25519 and P-256 public keys are accepted"
  end.
End keys.

(** ** Text of a signature: facts *)

Lemma b64_char_url n : (n < 64)%N → is_b64url (b64_char n) = true.
Proof.
  intros Hn.
  assert (forallb (λ k, is_b64url (b64_char (N.of_nat k))) (seq 0 64) = true) as H by (vm_compute; reflexivity).
  rewrite forallb_forall in H. specialize (H (N.to_nat n)). rewrite N2Nat.id in H. apply H, in_seq. lia.
Qed.

#[local] Opaque N.div N.modulo N.mul N.add b64_char.

(** One byte more than a multiple of three leaves two characters and two pads. *)
Lemma b64_encode_shape s k :
  String.length s = (3 * k + 1)%nat →
  ∃ t, b64_encode s = t +:+ "==" ∧ String.length t = (4 * k + 2)%nat ∧ all_chars is_b64url t = true.
Proof.
  revert k. induction s as [|a|a b|a b c s IH] using string_ind3; intros k Hk; cbn in Hk; try lia.
  - exists (String (b64_char (N_of_ascii a / 4)) (String (b64_char (N_of_ascii a mod 4 * 16)) "")).
    split; [done|]. split; [cbn; lia|]. cbn. by rewrite !b64_char_url by auto with b64.
  - destruct k as [|k]; [lia|]. destruct (IH k) as (t & Et & Hl & Ha); [lia|].
    eexists (String _ (String _ (String _ (String _ t)))). cbn. rewrite Et.
    split; [by rewrite !str_cons_app|]. split; [lia|].
    by rewrite !b64_char_url, Ha by auto with b64.
Qed.

#[local] Transparent N.div N.modulo N.mul N.add b64_char.

Lemma b64url_facts c :
  is_b64url c = true → is_pad c = false ∧ is_continuation c = false ∧ Ascii.eqb "=" c = false.
Proof. by destruct c as [[] [] [] [] [] [] [] []]; vm_compute. Qed.

Lemma rstrip_pad_url t : all_chars is_b64url t = true → rstrip is_pad t = t.
Proof.
  induction t as [|c t IH]; [done|]. cbn [all_chars rstrip]. intros [Hc Ht]%andb_true_iff.
  rewrite (IH Ht). destruct t; [|done]. by destruct (b64url_facts c Hc) as (-> & _).
Qed.

Lemma rstrip_pads t : all_chars is_b64url t = true → rstrip is_pad (t +:+ "==") = t.
Proof.
  induction t as [|c t IH]; [done|]. rewrite str_cons_app. cbn [all_chars rstrip].
  intros [Hc Ht]%andb_true_iff. rewrite (IH Ht). destruct t; [|done].
  by destruct (b64url_facts c Hc) as (-> & _).
Qed.

Lemma py_len_url t : all_chars is_b64url t = true → py_len t = String.length t.
Proof.
  induction t as [|c t IH]; [done|]. cbn [all_chars py_len String.length].
  intros [Hc Ht]%andb_true_iff. destruct (b64url_facts c Hc) as (_ & -> & _). by rewrite IH.
Qed.

Lemma lacks_pad_url t : all_chars is_b64url t = true → lacks "=" t = true.
Proof.
  induction t as [|c t IH]; [done|]. cbn [all_chars lacks].
  intros [Hc Ht]%andb_true_iff. destruct (b64url_facts c Hc) as (_ & _ & ->). by rewrite IH.
Qed.

Lemma decode_encode_raw64 raw :
  String.length raw = 64%nat →
  ∃ text, encode_base64url_raw64 raw = Ok text ∧ decode_base64url_raw64 (VStr text) = Ok raw.
Proof.
  intros Hl. destruct (b64_encode_shape raw 21) as (t & Et & Ht & Hurl); [lia|].
  assert (encode_base64url_raw64 raw = Ok t) as Henc.
  { unfold encode_base64url_raw64. rewrite Hl. cbn. by rewrite Et, rstrip_pads. }
  exists t. split; [done|]. unfold decode_base64url_raw64.
  rewrite py_len_url, lacks_pad_url, Ht by done. unfold match_exactly. rewrite Ht, Hurl. cbn -[b64_decode].
  rewrite <- Et, b64_round_trip. cbn. rewrite Hl. cbn. rewrite Henc. cbn. by rewrite bool_decide_eq_true_2.
Qed.

(** ** Bytes of integers: facts *)

Lemma big_endian_length k n : String.length (big_endian k n) = k.
Proof. induction k as [|k IH]; [done|]. cbn. by rewrite IH. Qed.

Lemma from_big_endian k n acc rest :
  0 ≤ n →
  from_bytes_acc acc (big_endian k n +:+ rest)
  = from_bytes_acc (acc * 256 ^ Z.of_nat k + n mod 256 ^ Z.of_nat k) rest.
Proof.
  intros Hn. revert acc. induction k as [|k IH]; intros acc.
  - cbn [big_endian]. rewrite str_nil_app, Z.pow_0_r, Z.mod_1_r. f_equal. lia.
  - cbn [big_endian]. rewrite str_cons_app. cbn [from_bytes_acc]. rewrite IH. f_equal.
    pose proof (Z.mod_pos_bound (n / 256 ^ Z.of_nat k) 256 ltac:(lia)).
    rewrite N_ascii_embedding by lia. rewrite Z2N.id by lia.
    rewrite Nat2Z.inj_succ, Z.pow_succ_r by lia.
    pose proof (Z.pow_pos_nonneg 256 (Z.of_nat k)). rewrite (Z.mul_comm 256), Z.rem_mul_r by lia. ring.
Qed.

Lemma take_bytes_app s t : take_bytes (String.length s) (s +:+ t) = (s, t).
Proof.
  induction s as [|c s IH]; [by destruct t|]. rewrite str_cons_app. cbn. by rewrite IH.
Qed.

Lemma from_to_bytes k n s rest acc :
  to_bytes k n = Ok s → from_bytes_acc acc (s +:+ rest) = from_bytes_acc (acc * 256 ^ Z.of_nat k + n) rest.
Proof.
  unfold to_bytes. intros H. run_inv. subst. bool_inv. rewrite from_big_endian by lia.
  by rewrite Z.mod_small by lia.
Qed.

Lemma from_to_bytes_exact k n s : to_bytes k n = Ok s → from_bytes s = n.
Proof.
  intros H. pose proof (from_to_bytes k n s "" 0 H) as E. rewrite str_app_nil in E.
  unfold from_bytes. rewrite E. cbn. lia.
Qed.

Lemma to_bytes_length k n s : to_bytes k n = Ok s → String.length s = k.
Proof. unfold to_bytes. intros H. run_inv. subst. apply big_endian_length. Qed.

Lemma to_bytes_small n : 0 ≤ n < P256_ORDER → ∃ s, to_bytes 32 n = Ok s.
Proof.
  intros Hn. unfold to_bytes. exists (big_endian 32 n).
  assert ((0 <=? n) && (n <? 256 ^ Z.of_nat 32) = true) as ->; [|done].
  apply andb_true_iff. split; [apply Z.leb_le|apply Z.ltb_lt]; [lia|].
  eapply Z.lt_trans; [apply Hn|]. by vm_compute.
Qed.

(** ** Signing then verifying *)

Section round_trip.
Context {K : KeyLibrary} {L : KeyLaws}.

(** The message a payload is signed as determines the payload. *)
Lemma message_inj domain v w m :
  domain_separated_payload domain v = Ok m → domain_separated_payload domain w = Ok m →
  jcs_normal v = jcs_normal w.
Proof.
  unfold domain_separated_payload. intros Hv Hw.
  apply result_bind_ok in Hv as (? & Hd & Hv), Hw as (? & _ & Hw).
  apply result_bind_ok in Hv as (? & _ & Hv), Hw as (? & _ & Hw).
  apply result_bind_ok in Hv as (b & Hb & [= <-]), Hw as (b' & Hb' & [= E]).
  rewrite check_ok, orb_false_iff, negb_false_iff in Hd. destruct Hd as [_ Hd].
  apply sep_inj_l in E as [_ ->]; [|done..]. by eapply canonicalize_inj.
Qed.

Lemma detached_verifies payload k domain text :
  sign_detached payload k domain = Ok text →
  verify_detached payload (VStr text) (public_of k) domain = Ok tt.
Proof.
  unfold sign_detached. intros Hs. apply result_bind_ok in Hs as (m & Hm & Hs).
  apply result_bind_ok in Hs as (raw & Hraw & Henc).
  assert (String.length raw = 64%nat) as Hlen by (unfold encode_base64url_raw64 in Henc; run_inv; bool_inv; by apply Nat.eqb_eq).
  destruct (decode_encode_raw64 raw Hlen) as (t & Et & Hdec). rewrite Henc in Et. injection Et as <-.
  unfold verify_detached. rewrite Hdec. cbn [mbind result_bind]. rewrite Hm. cbn [mbind result_bind].
  rewrite kind_of_public. destruct (private_kind k) eqn:Hk.
  - injection Hraw as <-. by rewrite ed25519_correct.
  - destruct (ecdsa_range k m Hk) as [Hr Hs]. pose proof (ecdsa_correct k m Hk) as Hver.
    destruct (ecdsa_sign k m) as [r s]. cbn [fst snd] in *.
    apply result_bind_ok in Hraw as (rb & Hrb & Hraw). apply result_bind_ok in Hraw as (sb & Hsb & [= <-]).
    rewrite <- (to_bytes_length _ _ _ Hrb), take_bytes_app.
    rewrite (from_to_bytes_exact _ _ _ Hrb), (from_to_bytes_exact _ _ _ Hsb).
    assert (1 ≤ Z.min s (P256_ORDER - s) ≤ P256_ORDER / 2) as Hlow.
    { split; [lia|]. apply Z.div_le_lower_bound; lia. }
    assert (ecdsa_verify (public_of k) (r, Z.min s (P256_ORDER - s)) m = true) as ->.
    { destruct (Z.min_spec s (P256_ORDER - s)) as [[_ ->]|[_ ->]]; [done|]. by apply ecdsa_negate. }
    destruct (Z.leb_spec 1 r), (Z.ltb_spec r P256_ORDER); try lia.
    by destruct (Z.leb_spec 1 (Z.min s (P256_ORDER - s))), (Z.leb_spec (Z.min s (P256_ORDER - s)) (P256_ORDER / 2)); try lia.
  - done.
Qed.

(** What [sign_detached] signs with an accepted private key,
    [verify_detached] accepts under its public key and the same domain: the
    base64url text, the low-S form of the P-256 signature and its 64-byte
    P1363 layout all read back. *)
Lemma signature_verifies payload k domain text :
  sign_detached payload k domain = Ok text →
  verify_detached payload (VStr text) (public_of k) domain = Ok tt.
Proof. apply detached_verifies. Qed.
End round_trip.

(** ** A small key library that satisfies the laws

    A key is its kind and a name; signatures name the key and the length of the
    message. *)

Definition toy_ecdsa_s : Z := P256_ORDER - 5.

#[local] Instance ToyKeys : KeyLibrary := {|
  public_key := key_kind * string;
  private_key := key_kind * string;
  public_kind := fst;
  private_kind := fst;
  public_of k := k;
  public_bytes k := k.2;
  ed25519_sign k m := length_digest (k.2 +:+ m);
  ed25519_verify k raw m := bool_decide (raw = length_digest (k.2 +:+ m));
  ecdsa_sign k m := (7, toy_ecdsa_s);
  ecdsa_verify k rs m :=
    (rs.1 =? 7) && ((rs.2 =? toy_ecdsa_s) || (rs.2 =? P256_ORDER - toy_ecdsa_s));
|}.

Lemma ToyLaws : KeyLaws.
Proof.
  split; intros [kind name]; cbn -[length_digest]; try done.
  - intros m _. by apply bool_decide_eq_true.
  - intros r s m Hv. apply andb_true_iff in Hv as [-> Hv]. cbn. apply orb_true_iff in Hv.
    apply orb_true_iff. destruct Hv as [Hv|Hv]; apply Z.eqb_eq in Hv; subst s.
    + right. apply Z.eqb_refl.
    + left. apply Z.eqb_eq. lia.
Qed.

Definition sample_document : pyval := VDict [("n", VInt 3); ("a", VStr "text")].
Definition sample_key : @private_key ToyKeys := (P256Key, "key").
Definition sample_text : string := Eval vm_compute in
  match sign_detached (K := ToyKeys) sample_document sample_key KEY_MANIFEST_DOMAIN with
  | Ok t => t
  | Raise _ => ""
  end.

Lemma signature_verifies_witness :
  sign_detached (K := ToyKeys) sample_document sample_key KEY_MANIFEST_DOMAIN = Ok sample_text ∧
  verify_detached (K := ToyKeys) sample_document (VStr sample_text)
    (@public_of ToyKeys sample_key) KEY_MANIFEST_DOMAIN = Ok tt.
Proof.
  split; [vm_compute; reflexivity|].
  apply (signature_verifies (K := ToyKeys) (L := ToyLaws)). vm_compute. reflexivity.
Defined.
