(* ===== verification/Manifest.v ===== *)
(** * Key manifests (crypto.py: authenticate_manifest_chain)

    A chain of manifests signed by the offline root: generations 1, 2, ...
    without a gap, each naming the digest of its predecessor, and the states
    of the keys moving only from active over retiring to revoked.  [keys], a
    dict from [record.identity], is the list of its records in insertion
    order, with distinct identities. *)

From S2P Require Import Prelude Datetime PyValue PyText Json Digest Jcs Signatures.

Inductive Algorithm := Ed25519 | PlatformNativeP256.
Inductive KeyState := Active | Retiring | Revoked.
#[export] Instance Algorithm_eq_dec : EqDecision Algorithm.
Proof. solve_decision. Defined.
#[export] Instance KeyState_eq_dec : EqDecision KeyState.
Proof. solve_decision. Defined.

Record KeyRecord := {
  key_id : string;
  key_version : Z;
  algorithm : Algorithm;
  public_key_fingerprint : string;
  key_state : KeyState;
}.
Definition identity (k : KeyRecord) : string * Z := (key_id k, key_version k).

Fixpoint find_key (i : string * Z) (keys : list KeyRecord) : option KeyRecord :=
  match keys with
  | [] => None
  | k :: keys => if decide (identity k = i) then Some k else find_key i keys
  end.

Record AuthenticatedManifest := {
  m_payload : dict;
  m_signature : pyval;
  m_generation : Z;
  m_digest : string;
  m_keys : list KeyRecord;
}.

(** ** Times *)

Definition _require_utc (value : datetime) : result unit :=
  check (negb (is_utc value)) CryptoContractError "authoritative time must be timezone-aware UTC".

Definition _parse_utc (value : pyval) (field : string) : result Z :=
  match value with
  | VStr s =>
      match chop_z s with
      | Some s =>
          parsed ← rewrap (λ c, bool_decide (c = ValueError)) CryptoContractError ("invalid " +:+ field)
                     (fromisoformat (s +:+ "+00:00"));
          _require_utc parsed;;
          Ok (instant parsed)
      | None => throw CryptoContractError (field +:+ " must be a canonical UTC timestamp ending in Z")
      end
  | _ => throw CryptoContractError (field +:+ " must be a canonical UTC timestamp ending in Z")
  end.

(** ** One manifest *)

Definition is_key_id (s : string) : bool := match_between 1 128 is_name_char s.

Definition invalid_key {A} : result A :=
  throw ManifestContractError "invalid or duplicate manifest key entry".

Definition _algorithm (v : pyval) : result Algorithm :=
  known ← py_in_set v (text_set ["Ed25519"; "platform-native-P256"]);
  if negb known then invalid_key
  else Ok (if py_eq v (VStr "Ed25519") then Ed25519 else PlatformNativeP256).

Definition _key_state (v : pyval) : result KeyState :=
  known ← py_in_set v (text_set ["active"; "retiring"; "revoked"]);
  if negb known then invalid_key
  else Ok (if py_eq v (VStr "active") then Active
           else if py_eq v (VStr "retiring") then Retiring else Revoked).

(** The tests of one entry, in the order of the source's disjunction. *)
Definition read_key (keys : list KeyRecord) (raw : pyval) : result KeyRecord :=
  match raw with
  | VDict d =>
      check (negb (same_set (dkeys d) ["key_id"; "key_version"; "algorithm"; "public_key_fingerprint"; "state"]))
        ManifestContractError "invalid manifest key entry";;
      match dget "key_id" d, dget "key_version" d with
      | VStr kid, VInt kv =>
          (if negb (is_key_id kid) || (kv <? 1) then invalid_key else Ok tt);;
          alg ← _algorithm (dget "algorithm" d);
          match dget "public_key_fingerprint" d with
          | VStr fp =>
              (if negb (is_sha256 fp) then invalid_key else Ok tt);;
              st ← _key_state (dget "state" d);
              match find_key (kid, kv) keys with
              | Some _ => invalid_key
              | None => Ok {| key_id := kid; key_version := kv; algorithm := alg;
                              public_key_fingerprint := fp; key_state := st |}
              end
          | _ => invalid_key
          end
      | _, _ => invalid_key
      end
  | _ => throw ManifestContractError "invalid manifest key entry"
  end.

Fixpoint read_keys (keys : list KeyRecord) (raws : list pyval) : result (list KeyRecord) :=
  match raws with
  | [] => Ok keys
  | raw :: raws => k ← read_key keys raw; read_keys (keys ++ [k]) raws
  end.

Definition manifest_fields : list string :=
  ["execution_trust_key_manifest_version"; "manifest_generation"; "previous_manifest_digest";
   "issued_at"; "offline_root_public_fingerprint"; "keys"].

Definition _validate_manifest_payload (payload : dict) (root_fingerprint : string)
    : result (Z * list KeyRecord) :=
  check (negb (same_set (dkeys payload) manifest_fields)
         || negb (py_eq (dget "execution_trust_key_manifest_version" payload) (VInt 1)))
    ManifestContractError "invalid key manifest v1 payload shape";;
  generation_text ←
    match dget "manifest_generation" payload with
    | VStr s => if is_canonical_positive s then Ok s
                else throw ManifestContractError "manifest_generation must be a canonical positive string"
    | _ => throw ManifestContractError "manifest_generation must be a canonical positive string"
    end;
  check (negb (py_eq (dget "offline_root_public_fingerprint" payload) (VStr root_fingerprint)))
    ManifestContractError "manifest root fingerprint mismatch";;
  let previous := dget "previous_manifest_digest" payload in
  check (negb (is_none previous) && negb (is_str_where is_sha256 previous))
    ManifestContractError "invalid previous_manifest_digest";;
  _parse_utc (dget "issued_at" payload) "issued_at";;
  match dget "keys" payload with
  | VList (raw :: raws) =>
      keys ← read_keys [] (raw :: raws);
      generation ← int_of_text generation_text;
      Ok (generation, keys)
  | _ => throw ManifestContractError "manifest keys must be a non-empty list"
  end.

(** ** From one manifest to the next *)

Definition allowed (old new : KeyState) : bool :=
  match old with
  | Active => true
  | Retiring => bool_decide (new ∈ [Retiring; Revoked])
  | Revoked => bool_decide (new = Revoked)
  end.

Fixpoint check_kept (previous current : list KeyRecord) : result unit :=
  match previous with
  | [] => Ok tt
  | old :: previous =>
      match find_key (identity old) current with
      | None => throw ManifestContractError "manifest omitted an existing key version"
      | Some new =>
          check (negb (bool_decide (algorithm old = algorithm new)
                       && bool_decide (public_key_fingerprint old = public_key_fingerprint new)))
            ManifestContractError "immutable key metadata changed";;
          check (negb (allowed (key_state old) (key_state new)))
            ManifestContractError "key state rollback/reactivation is forbidden";;
          check_kept previous current
      end
  end.

Definition _validate_key_transition (previous current : list KeyRecord) : result unit :=
  check_kept previous current;;
  check (existsb (λ k, negb (bool_decide (key_state k = Active))
                       && negb (bool_decide (is_Some (find_key (identity k) previous)))) current)
    ManifestContractError "a newly introduced key version must be active".

(** ** The chain *)

Abbreviation AuthenticatedManifestChain := (list AuthenticatedManifest).

Section chain.
Context {D : Digest} {K : KeyLibrary}.

(** One turn of the loop. *)
Definition authenticate_manifest (root : public_key) (pinned : string)
    (previous : option AuthenticatedManifest) (envelope : dict) : result AuthenticatedManifest :=
  match same_set (dkeys envelope) ["payload"; "signature"], dget "payload" envelope with
  | true, VDict payload =>
      let signature := dget "signature" envelope in
      rewrap (λ c, is_crypto_error c || bool_decide (c = TypeError)) ManifestContractError
        "offline root signature is invalid"
        (verify_detached (VDict payload) signature root KEY_MANIFEST_DOMAIN);;
      '(generation, keys) ← _validate_manifest_payload payload pinned;
      digest ← manifest_digest (VDict payload);
      let expected_generation :=
        match previous with None => 1 | Some p => m_generation p + 1 end in
      let expected_predecessor :=
        match previous with None => VNone | Some p => VStr (m_digest p) end in
      check (negb (generation =? expected_generation)
             || negb (py_eq (dget "previous_manifest_digest" payload) expected_predecessor))
        ManifestContractError "manifest chain has a rollback, skip, conflict, or missing predecessor";;
      match previous with
      | None => Ok tt
      | Some p =>
          _validate_key_transition (m_keys p) keys;;
          now ← _parse_utc (dget "issued_at" payload) "issued_at";
          before ← _parse_utc (dget "issued_at" (m_payload p)) "issued_at";
          check (now <? before) ManifestContractError "manifest issued_at moved backwards"
      end;;
      Ok {| m_payload := payload; m_signature := signature; m_generation := generation;
            m_digest := digest; m_keys := keys |}
  | _, _ =>
      throw ManifestContractError "manifest envelope must contain only payload and detached signature"
  end.

Fixpoint authenticate_all (root : public_key) (pinned : string)
    (previous : option AuthenticatedManifest) (envelopes : list dict)
    : result (list AuthenticatedManifest) :=
  match envelopes with
  | [] => Ok []
  | envelope :: envelopes =>
      current ← authenticate_manifest root pinned previous envelope;
      rest ← authenticate_all root pinned (Some current) envelopes;
      Ok (current :: rest)
  end.

Definition authenticate_manifest_chain (envelopes : list dict) (root : public_key)
    (pinned_root_fingerprint : string) (minimum_generation : option Z) (minimum_digest : option string)
    : result AuthenticatedManifestChain :=
  check (match public_kind root with Ed25519Key => false | _ => true end)
    ManifestContractError "offline root verifier must be Ed25519";;
  check (negb (bool_decide (spki_fingerprint root = pinned_root_fingerprint)))
    ManifestContractError "offline root fingerprint mismatch";;
  authenticated ← authenticate_all root pinned_root_fingerprint None envelopes;
  match last authenticated with
  | None => throw ManifestContractError "manifest chain is unavailable"
  | Some highest =>
      match minimum_generation with
      | None => Ok tt
      | Some g =>
          check (m_generation highest <? g) ManifestContractError
            "manifest rollback below persisted highest generation";;
          match minimum_digest with
          | None => Ok tt
          | Some d =>
              match List.find (λ m, m_generation m =? g) authenticated with
              | None => throw ManifestContractError "conflicting manifest at persisted highest generation"
              | Some m => check (negb (bool_decide (m_digest m = d))) ManifestContractError
                            "conflicting manifest at persisted highest generation"
              end
          end
      end;;
      Ok authenticated
  end.

Definition current (chain : AuthenticatedManifestChain) : result AuthenticatedManifest :=
  match last chain with
  | Some m => Ok m
  | None => throw ManifestContractError "manifest chain is empty"
  end.

(** [0|[1-9][0-9]*] *)
Definition is_canonical_uint (s : string) : bool := bool_decide (s = "0") || is_canonical_positive s.

Definition at_issuance (chain : AuthenticatedManifestChain) (generation digest : string)
    : result AuthenticatedManifest :=
  check (negb (is_canonical_uint generation)) AttestationContractError
    "issuance manifest generation is not canonical";;
  g ← match chain with [] => Ok 0 | _ => int_of_text generation end;
  match List.filter (λ m, m_generation m =? g) chain with
  | [m] =>
      if bool_decide (m_digest m = digest) then Ok m
      else throw AttestationContractError "issuance manifest is not in the authenticated chain"
  | _ => throw AttestationContractError "issuance manifest is not in the authenticated chain"
  end.

Definition authorize_key_for_issuance (chain : AuthenticatedManifestChain) (kid : string) (kv : Z)
    : result KeyRecord :=
  m ← current chain;
  match find_key (kid, kv) (m_keys m) with
  | Some k =>
      if bool_decide (key_state k = Active) then Ok k
      else throw AttestationContractError "only a currently active key may sign a new proof"
  | None => throw AttestationContractError "only a currently active key may sign a new proof"
  end.
End chain.

(** ** Lemmas *)

Lemma find_key_some i keys k : find_key i keys = Some k → k ∈ keys ∧ identity k = i.
Proof.
  induction keys as [|k' keys IH]; [done|]. cbn. case_decide.
  - intros [= ->]. split; [apply list_elem_of_here|done].
  - intros [Hin Hi]%IH. split; [by apply list_elem_of_further|done].
Qed.

Lemma find_key_in k keys : k ∈ keys → is_Some (find_key (identity k) keys).
Proof.
  induction keys as [|k' keys IH]; [by intros ?%not_elem_of_nil|]. cbn. intros Hin.
  case_decide; [done|]. apply elem_of_cons in Hin as [->|Hin]; [done|auto].
Qed.

(** The order of the states: active, then retiring, then revoked. *)
Definition state_rank (s : KeyState) : nat :=
  match s with Active => 0 | Retiring => 1 | Revoked => 2 end.

Lemma allowed_rank old new : allowed old new = true ↔ (state_rank old ≤ state_rank new)%nat.
Proof. destruct old, new; cbn; split; (done || lia). Qed.

(** What a manifest keeps of a key of an earlier one. *)
Definition same_key (k k' : KeyRecord) : Prop :=
  identity k' = identity k ∧ algorithm k' = algorithm k ∧
  public_key_fingerprint k' = public_key_fingerprint k ∧
  (state_rank (key_state k) ≤ state_rank (key_state k'))%nat.

#[export] Instance same_key_preorder : PreOrder same_key.
Proof.
  split.
  - intros k. by repeat split.
  - intros a b c (I1 & A1 & F1 & R1) (I2 & A2 & F2 & R2). repeat split; (congruence || lia).
Qed.

Definition evolves (old new : list KeyRecord) : Prop :=
  (∀ i k, find_key i old = Some k → ∃ k', find_key i new = Some k' ∧ same_key k k') ∧
  (∀ i k, find_key i new = Some k → find_key i old = None → key_state k = Active).

Lemma check_kept_ok old new u :
  check_kept old new = Ok u →
  ∀ k, k ∈ old → ∃ k', find_key (identity k) new = Some k' ∧ same_key k k'.
Proof.
  induction old as [|k0 old IH]; cbn [check_kept]; intros Hc k Hin; [by apply not_elem_of_nil in Hin|].
  destruct (find_key (identity k0) new) as [k'|] eqn:Ek; [|done]. run_inv.
  apply elem_of_cons in Hin as [->|Hin]; [|eauto].
  exists k'. split; [done|]. apply find_key_some in Ek as [_ Hid].
  repeat match goal with H : negb _ = false |- _ => apply negb_false_iff in H end.
  match goal with H : allowed _ _ = true |- _ => apply allowed_rank in H end.
  bool_inv. by repeat split.
Qed.

Lemma transition_ok old new u : _validate_key_transition old new = Ok u → evolves old new.
Proof.
  unfold _validate_key_transition. intros Hv. run_inv. split.
  - intros i k Hk. apply find_key_some in Hk as [Hin <-]. eapply check_kept_ok; eauto.
  - intros i k Hk Hold. apply find_key_some in Hk as [Hin <-].
    match goal with H : existsb _ _ = false |- _ => rename H into Hex end.
    assert (¬ Exists (λ k, negb (bool_decide (key_state k = Active))
                           && negb (bool_decide (is_Some (find_key (identity k) old))) = true) new) as Hno.
    { intros He. apply Exists_exists in He as (k0 & Hk0 & Hb).
      assert (existsb (λ k, negb (bool_decide (key_state k = Active))
        && negb (bool_decide (is_Some (find_key (identity k) old)))) new = true) as Ht
        by (apply existsb_exists; exists k0; by rewrite <- list_elem_of_In).
      congruence. }
    destruct (decide (key_state k = Active)) as [|Hna]; [done|]. exfalso. apply Hno, Exists_exists.
    exists k. split; [done|]. rewrite Hold. by rewrite (bool_decide_eq_false_2 _ Hna).
Qed.

Section chain_facts.
Context {D : Digest} {K : KeyLibrary}.

(** What one turn of the loop establishes. *)
Definition authentic (root : public_key) (m : AuthenticatedManifest) : Prop :=
  verify_detached (VDict (m_payload m)) (m_signature m) root KEY_MANIFEST_DOMAIN = Ok tt ∧
  manifest_digest (VDict (m_payload m)) = Ok (m_digest m).

Definition follows (previous : option AuthenticatedManifest) (m : AuthenticatedManifest) : Prop :=
  match previous with
  | None => m_generation m = 1 ∧ dget "previous_manifest_digest" (m_payload m) = VNone
  | Some p =>
      m_generation m = m_generation p + 1 ∧
      dget "previous_manifest_digest" (m_payload m) = VStr (m_digest p) ∧
      evolves (m_keys p) (m_keys m)
  end.

Lemma authenticate_manifest_ok root pinned previous envelope m :
  authenticate_manifest root pinned previous envelope = Ok m → authentic root m ∧ follows previous m.
Proof.
  unfold authenticate_manifest. intros Hm.
  destruct (same_set _ _); [|done]. destruct (dget "payload" envelope) as [| | | | |payload]; try done.
  apply result_bind_ok in Hm as ([] & Hsig & Hm). apply rewrap_ok in Hsig.
  apply result_bind_ok in Hm as ([generation keys] & _ & Hm).
  apply result_bind_ok in Hm as (digest & Hd & Hm).
  apply result_bind_ok in Hm as (? & Hlink & Hm). rewrite check_ok, orb_false_iff, !negb_false_iff in Hlink.
  destruct Hlink as [Hgen Hpred]. apply Z.eqb_eq in Hgen.
  apply result_bind_ok in Hm as (? & Hprev & [= <-]). split; [done|].
  destruct previous as [p|]; cbn; [|by apply py_eq_none in Hpred].
  apply result_bind_ok in Hprev as (? & Ht & _). apply transition_ok in Ht. by apply py_eq_str in Hpred.
Qed.

Fixpoint linked (root : public_key) (previous : option AuthenticatedManifest)
    (ms : list AuthenticatedManifest) : Prop :=
  match ms with
  | [] => True
  | m :: ms => authentic root m ∧ follows previous m ∧ linked root (Some m) ms
  end.

Lemma authenticate_all_ok root pinned previous envelopes ms :
  authenticate_all root pinned previous envelopes = Ok ms → linked root previous ms.
Proof.
  revert previous ms. induction envelopes as [|e es IH]; intros previous ms; cbn [authenticate_all].
  - by intros [= <-].
  - intros H. apply result_bind_ok in H as (m & Hm & H). apply result_bind_ok in H as (rest & Hr & [= <-]).
    apply authenticate_manifest_ok in Hm as [Ha Hf]. cbn. eauto.
Qed.

Lemma chain_ok es root pinned mg md ms :
  authenticate_manifest_chain es root pinned mg md = Ok ms →
  linked root None ms ∧ ms ≠ [] ∧
  (∀ g, mg = Some g → ∃ m, last ms = Some m ∧ g ≤ m_generation m) ∧
  (∀ g d, mg = Some g → md = Some d → ∃ m, m ∈ ms ∧ m_generation m = g ∧ m_digest m = d).
Proof.
  unfold authenticate_manifest_chain. intros H.
  apply result_bind_ok in H as (? & _ & H). apply result_bind_ok in H as (? & _ & H).
  apply result_bind_ok in H as (ms' & Hall & H). apply authenticate_all_ok in Hall.
  destruct (last ms') as [highest|] eqn:Hlast; [|done].
  apply result_bind_ok in H as (? & Hmin & [= <-]). split; [done|].
  split; [by intros ->|]. split.
  - intros g ->. apply result_bind_ok in Hmin as (? & Hg & _). apply check_ok, Z.ltb_ge in Hg. eauto.
  - intros g d -> ->. apply result_bind_ok in Hmin as (? & _ & Hd).
    destruct (List.find _ ms') as [m|] eqn:Hf; [|done]. apply List.find_some in Hf as [Hin Hg].
    apply check_ok in Hd. bool_inv. exists m. by rewrite list_elem_of_In.
Qed.

Lemma linked_lookup root previous ms i m :
  linked root previous ms → ms !! i = Some m →
  authentic root m ∧ follows (match i with O => previous | S i => ms !! i end) m.
Proof.
  revert previous i. induction ms as [|m0 ms IH]; intros previous i; [done|].
  cbn [linked]. intros (Ha & Hf & Hl). destruct i as [|i]; cbn.
  - by intros [= <-].
  - intros Hi. destruct (IH _ _ Hl Hi) as [Hm Hfo]. split; [done|]. by destruct i.
Qed.

Lemma linked_generation root ms i m :
  linked root None ms → ms !! i = Some m → m_generation m = Z.of_nat i + 1.
Proof.
  intros Hl. revert m. induction i as [|i IH]; intros m Hi.
  - by destruct (linked_lookup _ _ _ _ _ Hl Hi) as [_ [? _]].
  - destruct (linked_lookup _ _ _ _ _ Hl Hi) as [_ Hf].
    destruct (ms !! i) as [p|] eqn:Hp; cbn in Hf.
    + destruct Hf as [-> _]. rewrite (IH p) by done. lia.
    + apply lookup_ge_None in Hp. apply lookup_lt_Some in Hi. lia.
Qed.

(** An accepted chain has no rollback, gap or fork: its manifests carry the
    generations 1, 2, ... in order, each is signed by the offline root in the
    manifest domain and names the digest of the one before it (the first names
    none), and the persisted highest generation, when there is one, is reached
    with the persisted digest. *)
Lemma chain_is_linked es root pinned mg md ms :
  authenticate_manifest_chain es root pinned mg md = Ok ms →
  ms ≠ [] ∧
  (∀ i m, ms !! i = Some m →
     m_generation m = Z.of_nat i + 1 ∧
     verify_detached (VDict (m_payload m)) (m_signature m) root KEY_MANIFEST_DOMAIN = Ok tt ∧
     manifest_digest (VDict (m_payload m)) = Ok (m_digest m) ∧
     dget "previous_manifest_digest" (m_payload m) =
       match i with O => VNone | S i => match ms !! i with Some p => VStr (m_digest p) | None => VNone end end) ∧
  (∀ g d, mg = Some g → md = Some d → ∃ m, m ∈ ms ∧ m_generation m = g ∧ m_digest m = d) ∧
  (∀ g, mg = Some g → ∃ m, last ms = Some m ∧ g ≤ m_generation m).
Proof.
  intros H. apply chain_ok in H as (Hl & Hne & Hg & Hd). split; [done|]. split; [|by split].
  intros i m Hi. destruct (linked_lookup _ _ _ _ _ Hl Hi) as [[Hs Hdg] Hf].
  split; [by eapply linked_generation|]. repeat split; [done..|].
  destruct i as [|i]; [by destruct Hf|]. destruct (ms !! i) as [p|]; [by destruct Hf as (_ & ? & _)|by destruct Hf].
Qed.

(** C20: Along an accepted chain a key, once introduced, is never dropped, keeps
    its algorithm and fingerprint and only moves from active over retiring to
    revoked; and it is active in the first manifest after which it is known. *)
Theorem key_states_monotone es root pinned mg md ms i j mi mj key :
  authenticate_manifest_chain es root pinned mg md = Ok ms →
  ms !! i = Some mi → ms !! j = Some mj → (i ≤ j)%nat →
  (∀ k, find_key key (m_keys mi) = Some k → ∃ k', find_key key (m_keys mj) = Some k' ∧ same_key k k') ∧
  (∀ k', j = S i → find_key key (m_keys mi) = None → find_key key (m_keys mj) = Some k' →
     key_state k' = Active).
Proof.
  intros H Hi Hj Hij. apply chain_ok in H as (Hl & _).
  assert (∀ n p m, ms !! n = Some p → ms !! S n = Some m → evolves (m_keys p) (m_keys m)) as Hstep.
  { intros n p m Hp Hm. destruct (linked_lookup _ _ _ _ _ Hl Hm) as [_ Hf].
    rewrite Hp in Hf. by destruct Hf as (_ & _ & ?). }
  split; [|by intros k' -> Hn Hk'; destruct (Hstep _ _ _ Hi Hj) as [_ Hnew]; eauto].
  intros k Hk. revert mj Hj. induction Hij as [|j Hij IH]; intros mj Hj.
  - exists k. split; [congruence|reflexivity].
  - destruct (lookup_lt_is_Some_2 ms j) as [p Hp]; [apply lookup_lt_Some in Hj; lia|].
    destruct (IH p Hp) as (k1 & Hk1 & Hs1). destruct (Hstep _ _ _ Hp Hj) as [Hkeep _].
    destruct (Hkeep _ _ Hk1) as (k2 & Hk2 & Hs2). exists k2. split; [done|]. by transitivity k1.
Qed.
End chain_facts.

(** ** A chain of two manifests

    Signed with the small key library: the first key retires in the second
    manifest, which introduces another. *)

Definition sample_root : @private_key ToyKeys := (Ed25519Key, "offline-root").
Definition sample_fingerprint (name : string) : string := length_digest name.

Definition sample_key_entry (name : string) (state : string) : pyval :=
  VDict [("key_id", VStr name); ("key_version", VInt 1); ("algorithm", VStr "Ed25519");
         ("public_key_fingerprint", VStr (sample_fingerprint name)); ("state", VStr state)].

Definition sample_manifest (generation : string) (previous : pyval) (issued : string)
    (keys : list pyval) : dict :=
  [("execution_trust_key_manifest_version", VInt 1);
   ("manifest_generation", VStr generation);
   ("previous_manifest_digest", previous);
   ("issued_at", VStr issued);
   ("offline_root_public_fingerprint", VStr (sample_fingerprint "offline-root"));
   ("keys", VList keys)].

Definition ok_or {A} (default : A) (r : result A) : A :=
  match r with Ok a => a | Raise _ => default end.

Definition sample_sign (payload : dict) (k : @private_key ToyKeys) (domain : string) : dict :=
  [("payload", VDict payload);
   ("signature", VStr (ok_or "" (sign_detached (K := ToyKeys) (VDict payload) k domain)))].

Definition sample_first : dict :=
  sample_manifest "1" VNone "2026-01-01T00:00:00Z" [sample_key_entry "alpha" "active"].
Definition sample_first_digest : string :=
  Eval vm_compute in ok_or "" (manifest_digest (D := ToyDigest) (VDict sample_first)).
Definition sample_second : dict :=
  sample_manifest "2" (VStr sample_first_digest) "2026-02-01T00:00:00Z"
    [sample_key_entry "alpha" "retiring"; sample_key_entry "second" "active"].
Definition sample_second_digest : string :=
  Eval vm_compute in ok_or "" (manifest_digest (D := ToyDigest) (VDict sample_second)).

Definition sample_envelopes : list dict :=
  [sample_sign sample_first sample_root KEY_MANIFEST_DOMAIN;
   sample_sign sample_second sample_root KEY_MANIFEST_DOMAIN].

Definition sample_authenticate : result AuthenticatedManifestChain :=
  authenticate_manifest_chain (D := ToyDigest) (K := ToyKeys) sample_envelopes sample_root
    (sample_fingerprint "offline-root") (Some 2) (Some sample_second_digest).
Definition sample_chain : AuthenticatedManifestChain := Eval vm_compute in ok_or [] sample_authenticate.

Lemma sample_authenticate_ok : sample_authenticate = Ok sample_chain.
Proof. vm_compute. reflexivity. Qed.

Definition sample_manifest_at (i : nat) : AuthenticatedManifest :=
  default {| m_payload := []; m_signature := VNone; m_generation := 0; m_digest := ""; m_keys := [] |}
    (sample_chain !! i).

Lemma chain_is_linked_witness :
  sample_authenticate = Ok sample_chain ∧ sample_chain ≠ [].
Proof.
  split; [apply sample_authenticate_ok|].
  exact (proj1 (chain_is_linked (D := ToyDigest) (K := ToyKeys) sample_envelopes sample_root
    (sample_fingerprint "offline-root") (Some 2) (Some sample_second_digest) sample_chain
    sample_authenticate_ok)).
Defined.

Lemma key_states_monotone_witness :
  ∃ k k', find_key ("alpha", 1) (m_keys (sample_manifest_at 0)) = Some k ∧
    find_key ("alpha", 1) (m_keys (sample_manifest_at 1)) = Some k' ∧ same_key k k' ∧
    key_state k' = Retiring.
Proof.
  destruct (key_states_monotone (D := ToyDigest) (K := ToyKeys) sample_envelopes sample_root
    (sample_fingerprint "offline-root") (Some 2) (Some sample_second_digest) sample_chain
    0 1 (sample_manifest_at 0) (sample_manifest_at 1) ("alpha", 1)
    sample_authenticate_ok) as [Hkeep _]; [reflexivity|reflexivity|lia|].
  destruct (Hkeep _ eq_refl) as (k' & Hk' & Hs). eexists _, k'. repeat split; try done; try apply Hs.
  by injection Hk' as <-.
Defined.
