(* ===== verification/Attestation.v ===== *)
(** * Attestations (crypto.py: verify_attestation_authority)

    A proof of current authority for one exact pull-request head: the payload
    contract, the key it is signed by (active when issued, not revoked now,
    issued before a retirement), the comparison with freshly observed facts,
    and the nonce store that ties an attestation to one gate generation.

    The caller's target and inventory observation are typed values, so the
    source's [isinstance] tests on them hold by construction. *)

From S2P Require Import Prelude Datetime PyValue PyText Json Digest Jcs Signatures Manifest.
From stdpp Require Import gmap.
#[local] Open Scope Z_scope.

Record ExactAttestationTarget := {
  repository_id : string;
  repository : string;
  pr_number : Z;
  head_sha : string;
  head_generation : string;
  local_gate_generation : Z;
}.

Definition reject {A} (msg : string) : result A := throw AttestationContractError msg.
Definition reject_if (b : bool) (msg : string) : result unit := check b AttestationContractError msg.

Definition validate (t : ExactAttestationTarget) : result unit :=
  reject_if (negb (is_canonical_uint (repository_id t))) "target repository_id is not canonical";;
  reject_if (negb (is_repository (repository t))) "target repository name is invalid";;
  reject_if (pr_number t <? 1) "target PR number is invalid";;
  reject_if (negb (is_sha1 (head_sha t))) "target head SHA is invalid";;
  reject_if (negb (is_canonical_uint (head_generation t))) "target head generation is not canonical";;
  reject_if (local_gate_generation t <? 1) "local gate generation is invalid".

Record AttestationAuthorityDecision := {
  valid : bool;
  d_boundary : string;
  proof_role : string;
  decision_id : string;
  d_attestation_id : string;
  d_envelope_digest : string;
  request_linkage_hash : string;
  nonce_binding_outcome : string;
}.

(** ** Sorted sets of source identifiers *)

Fixpoint strictly_sorted (l : list string) : bool :=
  match l with
  | a :: (b :: _) as l => String.ltb a b && strictly_sorted l
  | _ => true
  end.

(** [status], [missing]: complete with none missing, or partial with a sorted
    set of non-empty names. *)
Definition valid_inventory (status : string) (missing : list string) : bool :=
  bool_decide (status ∈ ["complete"; "partial"]) &&
  forallb nonempty missing && strictly_sorted missing &&
  negb (bool_decide (status = "complete") && negb (bool_decide (missing = []))) &&
  negb (bool_decide (status = "partial") && bool_decide (missing = [])).

(** A list of strings, when every element is one. *)
Definition string_list (v : pyval) : option (list string) :=
  match v with
  | VList l => mapM (λ x, match x with VStr s => Some s | _ => None end) l
  | _ => None
  end.

(** ** The payload *)

Definition attestation_fields : list string :=
  ["attestation_schema_version"; "execution_trust_policy_version";
   "execution_trust_attestation_authority_version"; "execution_trust_key_manifest_version";
   "key_manifest_generation_at_issuance"; "key_manifest_digest_at_issuance"; "attestation_id";
   "algorithm"; "key_id"; "key_version"; "public_key_fingerprint"; "repository_id";
   "repository"; "pr_number"; "head_sha"; "head_generation"; "inventory_guard_status";
   "missing_source_ids"; "effective_writer_inventory_hash";
   "inventory_guard_freshness_policy_version"; "inventory_observed_at_at_issuance";
   "issued_at"; "expires_at"; "nonce"; "request_linkage_hash"].

(** [for field in fields: if test(payload[field]): raise ...] *)
Fixpoint each_field (fields : list string) (payload : dict) (bad : pyval → bool)
    (message : string → string) : result unit :=
  match fields with
  | [] => Ok tt
  | f :: fields =>
      reject_if (bad (dget f payload)) (message f);; each_field fields payload bad message
  end.

Definition is_version_one (v : pyval) : bool := match v with VInt n => n =? 1 | _ => false end.

Definition is_b64url_43 : string → bool := match_exactly 43 is_b64url.

(** [_decode_nonce], and the same test inside the payload check. *)
Definition _decode_nonce (value : string) : result string :=
  match b64_decode (value +:+ "=") with
  | Some raw =>
      reject_if (negb (String.length raw =? 32)%nat) "nonce must encode exactly 256 bits";; Ok raw
  | None => reject "invalid nonce"
  end.

Definition _attestation_uuid (v : pyval) : result unit :=
  match v with
  | VStr s =>
      n ← rewrap (λ c, bool_decide (c = ValueError)) AttestationContractError "invalid attestation_id" (uuid_parse s);
      reject_if (negb (bool_decide (uuid_version n = Some 7)) || negb (bool_decide (uuid_text n = s)))
        "attestation_id must be a canonical UUIDv7"
  | _ => reject "invalid attestation_id"
  end.

Definition _attestation_inventory (status missing : pyval) : result unit :=
  known ← py_in_set status (text_set ["complete"; "partial"]);
  match known, status, string_list missing with
  | true, VStr status, Some missing =>
      reject_if (negb (valid_inventory status missing)) "invalid inventory guard status/missing set"
  | _, _, _ => reject "invalid inventory guard status/missing set"
  end.

Definition MAX_ATTESTATION_TTL : Z := minutes 90.

Definition _validate_attestation_payload (payload : dict) : result (Z * Z) :=
  let item f := dget f payload in
  reject_if (negb (same_set (dkeys payload) attestation_fields)) "invalid exact-SHA attestation v1 payload shape";;
  each_field ["attestation_schema_version"; "execution_trust_policy_version";
      "execution_trust_attestation_authority_version"; "execution_trust_key_manifest_version";
      "inventory_guard_freshness_policy_version"] payload
    (λ v, negb (is_version_one v)) (λ f, "unsupported " +:+ f);;
  each_field ["key_manifest_generation_at_issuance"; "repository_id"; "head_generation"] payload
    (λ v, negb (is_str_where is_canonical_uint v)) (λ f, f +:+ " must be a canonical unsigned string");;
  each_field ["key_manifest_digest_at_issuance"; "public_key_fingerprint";
      "effective_writer_inventory_hash"; "request_linkage_hash"] payload
    (λ v, negb (is_str_where is_sha256 v)) (λ f, "invalid " +:+ f);;
  _attestation_uuid (item "attestation_id");;
  known ← py_in_set (item "algorithm") (text_set ["Ed25519"; "platform-native-P256"]);
  reject_if (negb known) "invalid attestation algorithm";;
  reject_if (negb (is_str_where is_key_id (item "key_id"))) "invalid key_id";;
  reject_if (negb (is_positive_int (item "key_version"))) "invalid key_version";;
  reject_if (negb (is_str_where is_repository (item "repository"))) "invalid exact repository";;
  reject_if (negb (is_positive_int (item "pr_number"))) "invalid pr_number";;
  reject_if (negb (is_str_where is_sha1 (item "head_sha"))) "invalid head_sha";;
  _attestation_inventory (item "inventory_guard_status") (item "missing_source_ids");;
  match item "nonce" with
  | VStr nonce =>
      reject_if (negb (is_b64url_43 nonce)) "nonce must be canonical unpadded base64url";;
      _decode_nonce nonce;;
      Ok tt
  | _ => reject "nonce must be canonical unpadded base64url"
  end;;
  _parse_utc (item "inventory_observed_at_at_issuance") "inventory_observed_at_at_issuance";;
  issued_at ← _parse_utc (item "issued_at") "issued_at";
  expires_at ← _parse_utc (item "expires_at") "expires_at";
  reject_if (negb (issued_at <? expires_at) || (MAX_ATTESTATION_TTL <? expires_at - issued_at))
    "attestation validity must be positive and at most 90 minutes";;
  Ok (issued_at, expires_at).

Section attestation.
Context {D : Digest} {K : KeyLibrary}.

(** ** The proof and its key *)

Definition payload_text (f : string) (payload : dict) : string :=
  match dget f payload with VStr s => s | _ => "" end.
Definition payload_identity (payload : dict) : string * Z :=
  (payload_text "key_id" payload, match dget "key_version" payload with VInt n => n | _ => 0 end).

Definition algorithm_matches (algorithm : pyval) (k : public_key) : option Algorithm :=
  match algorithm, public_kind k with
  | VStr "Ed25519", Ed25519Key => Some Ed25519
  | VStr "platform-native-P256", P256Key => Some PlatformNativeP256
  | _, _ => None
  end.

(** The first manifest after the issuance in which the key is no longer active. *)
Definition retirement (chain : AuthenticatedManifestChain) (issuance : AuthenticatedManifest)
    (i : string * Z) : result AuthenticatedManifest :=
  match List.find (λ m, (m_generation issuance <? m_generation m) &&
      match find_key i (m_keys m) with
      | Some k => negb (bool_decide (key_state k = Active))
      | None => false
      end) chain with
  | Some m => Ok m
  | None => throw StopIteration ""
  end.

Definition verify_attestation (envelope : dict) (chain : AuthenticatedManifestChain)
    (public_keys : string * Z → option public_key) (now : datetime) : result dict :=
  match same_set (dkeys envelope) ["payload"; "signature"], dget "payload" envelope with
  | true, VDict payload =>
      let signature := dget "signature" envelope in
      '(issued_at, expires_at) ← _validate_attestation_payload payload;
      _require_utc now;;
      reject_if ((instant now <? issued_at) || negb (instant now <? expires_at))
        "attestation is not yet valid or is expired";;
      let i := payload_identity payload in
      issuance ← at_issuance chain (payload_text "key_manifest_generation_at_issuance" payload)
                   (payload_text "key_manifest_digest_at_issuance" payload);
      m ← current chain;
      issued_record ← match find_key i (m_keys issuance) with
        | Some k => if bool_decide (key_state k = Active) then Ok k
                    else reject "key was not active in the authenticated issuance manifest"
        | None => reject "key was not active in the authenticated issuance manifest"
        end;
      current_record ← match find_key i (m_keys m) with
        | Some k => if bool_decide (key_state k = Revoked)
                    then reject "key is currently revoked or unknown" else Ok k
        | None => reject "key is currently revoked or unknown"
        end;
      key ← match public_keys i with
        | Some key => Ok key
        | None => reject "public verifier key is unavailable"
        end;
      reject_if (match algorithm_matches (dget "algorithm" payload) key with
                 | Some a => negb (bool_decide (algorithm issued_record = a))
                             || negb (bool_decide (algorithm current_record = a))
                 | None => true
                 end) "attestation algorithm/key mismatch";;
      let fingerprint := spki_fingerprint key in
      reject_if (negb (bool_decide (Manifest.public_key_fingerprint issued_record = fingerprint))
                 || negb (bool_decide (Manifest.public_key_fingerprint current_record = fingerprint)))
        "manifest public-key fingerprint mismatch";;
      reject_if (negb (py_eq (dget "public_key_fingerprint" payload) (VStr fingerprint)))
        "attestation public-key fingerprint mismatch";;
      manifest_time ← _parse_utc (dget "issued_at" (m_payload issuance)) "issued_at";
      reject_if (issued_at <? manifest_time) "proof predates its issuance manifest";;
      (if bool_decide (key_state current_record = Retiring) then
         r ← retirement chain issuance i;
         retired_at ← _parse_utc (dget "issued_at" (m_payload r)) "issued_at";
         reject_if (negb (issued_at <? retired_at)) "retiring key proof was not issued before the transition"
       else Ok tt);;
      rewrap (λ c, is_crypto_error c || bool_decide (c = TypeError)) AttestationContractError
        "attestation signature is invalid"
        (verify_detached (VDict payload) signature key ATTESTATION_DOMAIN);;
      Ok payload
  | _, _ => reject "attestation envelope must contain only payload and signature"
  end.

Definition attestation_envelope_digest (envelope : dict) : result string :=
  sha256_hex <$> canonicalize_jcs (VDict envelope).
End attestation.

(** ** The nonce store *)

Record NonceBinding := {
  nb_attestation_id : string;
  nb_nonce_hash : string;
  nb_logical_key : string;
  nb_generation : Z;
  nb_expected_head_generation : string;
  nb_envelope_digest : string;
}.
#[export] Instance NonceBinding_eq_dec : EqDecision NonceBinding.
Proof. solve_decision. Defined.

Record NonceBindingStore := MkNonceStore {
  _by_attestation : gmap string NonceBinding;
  _by_nonce : gmap string NonceBinding;
}.
Definition empty_store : NonceBindingStore := MkNonceStore ∅ ∅.

Definition generation_mismatch (existing binding : NonceBinding) : bool :=
  bool_decide (nb_logical_key existing = nb_logical_key binding) &&
  (negb (nb_generation existing =? nb_generation binding) ||
   negb (bool_decide (nb_expected_head_generation existing = nb_expected_head_generation binding))).

Definition bind (binding : NonceBinding) : M NonceBindingStore string :=
  raise_if (bool_decide (nb_attestation_id binding = "") || bool_decide (nb_nonce_hash binding = "")
            || bool_decide (nb_logical_key binding = ""))
    AttestationContractError "nonce binding identity fields are required";;
  s ← get;
  let existing :=
    match _by_attestation s !! nb_attestation_id binding with
    | Some b => Some b
    | None => _by_nonce s !! nb_nonce_hash binding
    end in
  match existing with
  | None =>
      modify (λ s, MkNonceStore (<[nb_attestation_id binding := binding]> (_by_attestation s))
                                (<[nb_nonce_hash binding := binding]> (_by_nonce s)));;
      mret "bound"
  | Some existing =>
      if decide (existing = binding) then mret "idempotent"
      else if generation_mismatch existing binding then mret "generation_mismatch"
      else mret "replay"
  end.

Definition require (binding : NonceBinding) : M NonceBindingStore string :=
  s ← get;
  match _by_attestation s !! nb_attestation_id binding, _by_nonce s !! nb_nonce_hash binding with
  | Some existing, Some nonce_existing =>
      if decide (existing = binding ∧ nonce_existing = binding) then mret "idempotent"
      else if generation_mismatch existing binding then mret "generation_mismatch"
      else mret "replay"
  | _, _ => mret "unbound"
  end.

(** ** The whole predicate at one gate *)

Record InventoryObservation := {
  inventory_status : string;
  inventory_missing_source_ids : list string;
  inventory_semantic_hash : string;
  inventory_observed_at : datetime;
}.

Definition exact_expected (t : ExactAttestationTarget) (o : InventoryObservation) : dict :=
  [("repository_id", VStr (repository_id t));
   ("repository", VStr (repository t));
   ("pr_number", VInt (pr_number t));
   ("head_sha", VStr (head_sha t));
   ("head_generation", VStr (head_generation t));
   ("inventory_guard_status", VStr (inventory_status o));
   ("missing_source_ids", VList (VStr <$> inventory_missing_source_ids o));
   ("effective_writer_inventory_hash", VStr (inventory_semantic_hash o))].

Fixpoint compare_exact (expected payload : dict) : result unit :=
  match expected with
  | [] => Ok tt
  | (f, v) :: expected =>
      reject_if (negb (py_eq (dget f payload) v)) ("current authority mismatch: " +:+ f);;
      compare_exact expected payload
  end.

Section authority.
Context {D : Digest} {K : KeyLibrary}.

Definition nonce_binding (payload envelope : dict) (t : ExactAttestationTarget) : result NonceBinding :=
  envelope_hash ← attestation_envelope_digest envelope;
  nonce ← _decode_nonce (payload_text "nonce" payload);
  Ok {|
    nb_attestation_id := payload_text "attestation_id" payload;
    nb_nonce_hash := sha256_hex nonce;
    nb_logical_key := repository_id t +:+ ":" +:+ str_of_Z (pr_number t) +:+ ":" +:+ head_sha t;
    nb_generation := local_gate_generation t;
    nb_expected_head_generation := head_generation t;
    nb_envelope_digest := envelope_hash;
  |}.

Definition decision_payload (boundary : string) (b : NonceBinding) (observed_at : Z) : pyval :=
  VDict [("boundary", VStr boundary);
         ("attestation_id", VStr (nb_attestation_id b));
         ("envelope_digest", VStr (nb_envelope_digest b));
         ("local_gate_generation", VInt (nb_generation b));
         ("inventory_observed_at", VStr (isoformat observed_at))].

(** What the gate checks before it touches the nonce store. *)
Definition check_authority (envelope : dict) (chain : AuthenticatedManifestChain)
    (public_keys : string * Z → option public_key) (t : ExactAttestationTarget)
    (o : InventoryObservation) (now : datetime) (boundary : string) : result dict :=
  reject_if (negb (bool_decide (boundary ∈ ["pre-dispatch"; "pre-claim"; "pre-marker"; "local-success"])))
    "unknown current-authority boundary";;
  validate t;;
  _require_utc now;;
  _require_utc (inventory_observed_at o);;
  let age := instant now - instant (inventory_observed_at o) in
  reject_if ((age <? 0) || (minutes 5 <? age)) "current inventory observation is not fresh";;
  reject_if (negb (valid_inventory (inventory_status o) (inventory_missing_source_ids o))
             || negb (is_sha256 (inventory_semantic_hash o)))
    "current inventory observation is invalid";;
  payload ← verify_attestation envelope chain public_keys now;
  compare_exact (exact_expected t o) payload;;
  Ok payload.

Definition verify_attestation_authority (envelope : dict) (chain : AuthenticatedManifestChain)
    (public_keys : string * Z → option public_key) (t : ExactAttestationTarget)
    (o : InventoryObservation) (now : datetime) (boundary : string)
    : M NonceBindingStore AttestationAuthorityDecision :=
  payload ← lift (check_authority envelope chain public_keys t o now boundary);
  binding ← lift (nonce_binding payload envelope t);
  outcome ← (if bool_decide (boundary = "pre-dispatch") then bind binding else require binding);
  raise_if (negb (bool_decide (outcome ∈ ["bound"; "idempotent"]))) AttestationContractError
    ("attestation nonce rejected: " +:+ outcome);;
  body ← lift (canonicalize_jcs (decision_payload boundary binding (instant (inventory_observed_at o))));
  mret {|
    valid := true;
    d_boundary := boundary;
    proof_role := "current_authority_for_success";
    decision_id := sha256_hex body;
    d_attestation_id := nb_attestation_id binding;
    d_envelope_digest := nb_envelope_digest binding;
    request_linkage_hash := payload_text "request_linkage_hash" payload;
    nonce_binding_outcome := outcome;
  |}.
End authority.

(** ** What an accepted attestation establishes *)

Section attestation_facts.
Context {D : Digest} {K : KeyLibrary}.

Record Verified (envelope : dict) (chain : AuthenticatedManifestChain)
    (public_keys : string * Z → option public_key) (now : Z) (payload : dict) : Prop := {
  v_payload : dget "payload" envelope = VDict payload;
  v_window : ∃ issued expires, _parse_utc (dget "issued_at" payload) "issued_at" = Ok issued ∧
    _parse_utc (dget "expires_at" payload) "expires_at" = Ok expires ∧
    issued ≤ now < expires ∧ expires ≤ issued + MAX_ATTESTATION_TTL;
  v_key : ∃ issuance m k k' key,
    issuance ∈ chain ∧ last chain = Some m ∧
    find_key (payload_identity payload) (m_keys issuance) = Some k ∧ key_state k = Active ∧
    find_key (payload_identity payload) (m_keys m) = Some k' ∧ key_state k' ≠ Revoked ∧
    public_keys (payload_identity payload) = Some key ∧
    Manifest.public_key_fingerprint k = spki_fingerprint key ∧
    Manifest.public_key_fingerprint k' = spki_fingerprint key ∧
    verify_detached (VDict payload) (dget "signature" envelope) key ATTESTATION_DOMAIN = Ok tt ∧
    (key_state k' = Retiring → ∃ r issued retired,
       retirement chain issuance (payload_identity payload) = Ok r ∧
       _parse_utc (dget "issued_at" payload) "issued_at" = Ok issued ∧
       _parse_utc (dget "issued_at" (m_payload r)) "issued_at" = Ok retired ∧ issued < retired);
}.

Lemma reject_if_ok b msg u : reject_if b msg = Ok u ↔ b = false.
Proof. apply check_ok. Qed.

Lemma payload_window payload issued expires :
  _validate_attestation_payload payload = Ok (issued, expires) →
  _parse_utc (dget "issued_at" payload) "issued_at" = Ok issued ∧
  _parse_utc (dget "expires_at" payload) "expires_at" = Ok expires ∧
  issued < expires ≤ issued + MAX_ATTESTATION_TTL.
Proof.
  unfold _validate_attestation_payload. intros H.
  repeat (apply result_bind_ok in H as (? & ? & H)). injection H as <- <-.
  match goal with H : reject_if (_ || (MAX_ATTESTATION_TTL <? _)) _ = Ok _ |- _ =>
    apply reject_if_ok in H end.
  bool_inv. repeat split; (done || lia).
Qed.

Lemma at_issuance_ok (chain : AuthenticatedManifestChain) g d m :
  at_issuance chain g d = Ok m → m ∈ chain ∧ m_digest m = d.
Proof.
  unfold at_issuance. intros H. apply result_bind_ok in H as (? & _ & H).
  apply result_bind_ok in H as (n & _ & H).
  destruct (List.filter _ chain) as [|m' [|]] eqn:E; try done. case_bool_decide; [|done].
  injection H as ->. split; [|done]. rewrite list_elem_of_In.
  assert (In m (List.filter (λ m, m_generation m =? n) chain)) as Hin by (rewrite E; by left).
  by apply filter_In in Hin as [? _].
Qed.

Lemma verify_attestation_ok envelope chain public_keys now payload :
  verify_attestation envelope chain public_keys now = Ok payload →
  Verified envelope chain public_keys (instant now) payload.
Proof.
  unfold verify_attestation. intros H. destruct (same_set _ _); [|done].
  destruct (dget "payload" envelope) as [| | | | |p] eqn:Hp; try done.
  apply result_bind_ok in H as ([issued expires] & Hv & H). apply payload_window in Hv as (Hi & He & Hw).
  apply result_bind_ok in H as (? & _ & H).
  apply result_bind_ok in H as (? & Hnow & H). apply reject_if_ok in Hnow.
  apply result_bind_ok in H as (issuance & Hiss & H). apply at_issuance_ok in Hiss as [Hin _].
  apply result_bind_ok in H as (m & Hm & H).
  assert (last chain = Some m) as Hlast by (unfold current in Hm; destruct (last chain); [by injection Hm as ->|done]).
  apply result_bind_ok in H as (k & Hk & H). apply result_bind_ok in H as (k' & Hk' & H).
  apply result_bind_ok in H as (key & Hkey & H). apply result_bind_ok in H as (? & _ & H).
  apply result_bind_ok in H as (? & Hfp & H). apply reject_if_ok in Hfp.
  apply result_bind_ok in H as (? & _ & H). apply result_bind_ok in H as (mt & _ & H).
  apply result_bind_ok in H as (? & _ & H). apply result_bind_ok in H as (? & Hret & H).
  apply result_bind_ok in H as ([] & Hsig & [= <-]). apply rewrap_ok in Hsig.
  destruct (find_key _ (m_keys issuance)) as [ki|] eqn:Eki; [|done].
  destruct (bool_decide (key_state ki = Active)) eqn:Ea; [|done].
  injection Hk as ->. destruct (find_key _ (m_keys m)) as [kc|] eqn:Ekc; [|done].
  destruct (bool_decide (key_state kc = Revoked)) eqn:Er; [done|]. injection Hk' as ->.
  destruct (public_keys (payload_identity p)) as [key'|] eqn:Epk; [|done]. injection Hkey as ->.
  bool_inv. split; [done|exists issued, expires; repeat split; (done || lia)|].
  exists issuance, m, k, k', key. repeat (split; [done|]).
  intros Hr. rewrite bool_decide_eq_true_2 in Hret by done.
  apply result_bind_ok in Hret as (r & Hr' & Hret). apply result_bind_ok in Hret as (ra & Hra & Hret).
  apply reject_if_ok in Hret. bool_inv. exists r, issued, ra. done.
Qed.

(** For an authenticated chain the search for the manifest that retired a
    key always finds one, so [next] never raises: a key that was active in the
    issuance manifest and is retiring now left the active state in a later
    manifest of the chain. *)
Lemma retirement_exists es root pinned mg md chain issuance m i k k' :
  authenticate_manifest_chain es root pinned mg md = Ok chain →
  issuance ∈ chain → last chain = Some m →
  find_key i (m_keys issuance) = Some k → key_state k = Active →
  find_key i (m_keys m) = Some k' → key_state k' = Retiring →
  ∃ r kr, retirement chain issuance i = Ok r ∧ r ∈ chain ∧ m_generation issuance < m_generation r ∧
    find_key i (m_keys r) = Some kr ∧ key_state kr ≠ Active.
Proof.
  intros Hc Hin Hlast Hk Ha Hk' Hr. apply chain_ok in Hc as (Hl & _).
  apply list_elem_of_lookup in Hin as [a Hia]. rewrite last_lookup in Hlast.
  pose proof (linked_generation _ _ _ _ Hl Hia) as Hga.
  pose proof (linked_generation _ _ _ _ Hl Hlast) as Hgm.
  assert (a ≠ pred (length chain)) as Hne by (intros ->; simplify_eq; congruence).
  apply lookup_lt_Some in Hia as Hlt.
  set (p := λ m, (m_generation issuance <? m_generation m) && match find_key i (m_keys m) with
    | Some k => negb (bool_decide (key_state k = Active)) | None => false end).
  assert (p m = true) as Hpm.
  { unfold p. rewrite Hk', Hr. cbn. rewrite andb_true_r. apply Z.ltb_lt. lia. }
  unfold retirement. fold p. destruct (List.find p chain) as [r|] eqn:Hf.
  - apply List.find_some in Hf as [Hin Hp]. unfold p in Hp. apply andb_true_iff in Hp as [Hg Hs].
    destruct (find_key i (m_keys r)) as [kr|] eqn:Hkr; [|done]. bool_inv.
    exists r, kr. rewrite list_elem_of_In. done.
  - apply list_elem_of_lookup_2 in Hlast. rewrite list_elem_of_In in Hlast.
    by rewrite (List.find_none _ _ Hf m Hlast) in Hpm.
Qed.
End attestation_facts.

(** ** The nonce store: facts *)

(** The two indexes describe one set of bindings. *)
Definition coherent (s : NonceBindingStore) : Prop :=
  (∀ i b, _by_attestation s !! i = Some b → nb_attestation_id b = i ∧ _by_nonce s !! nb_nonce_hash b = Some b) ∧
  (∀ n b, _by_nonce s !! n = Some b → nb_nonce_hash b = n ∧ _by_attestation s !! nb_attestation_id b = Some b).

Definition stored (b : NonceBinding) (s : NonceBindingStore) : Prop :=
  _by_attestation s !! nb_attestation_id b = Some b.

(** What a call of the store can do: nothing, or add one binding whose
    attestation and nonce are both new. *)
Definition store_step (s s' : NonceBindingStore) : Prop :=
  s' = s ∨ ∃ b, _by_attestation s !! nb_attestation_id b = None ∧ _by_nonce s !! nb_nonce_hash b = None ∧
    s' = MkNonceStore (<[nb_attestation_id b := b]> (_by_attestation s))
                      (<[nb_nonce_hash b := b]> (_by_nonce s)).

Lemma store_step_coherent s s' : store_step s s' → coherent s → coherent s'.
Proof.
  intros [->|(b & Ha & Hn & ->)] [H1 H2]; [done|]. split; cbn.
  - intros i c [[<- <-]|[Hi Hc]]%lookup_insert_Some; [by rewrite lookup_insert_eq|].
    apply H1 in Hc as [<- Hc]. split; [done|]. rewrite lookup_insert_ne; [done|]. intros E. by rewrite E, Hc in Hn.
  - intros n c [[<- <-]|[Hi Hc]]%lookup_insert_Some; [by rewrite lookup_insert_eq|].
    apply H2 in Hc as [<- Hc]. split; [done|]. rewrite lookup_insert_ne; [done|]. intros E. by rewrite E, Hc in Ha.
Qed.

Lemma store_step_stored b s s' : store_step s s' → stored b s → stored b s'.
Proof.
  intros [->|(c & Ha & _ & ->)] Hb; [done|]. unfold stored in *. cbn.
  rewrite lookup_insert_ne; [done|]. intros E. by rewrite E, Hb in Ha.
Qed.

Definition accepted (o : string) : Prop := o = "bound" ∨ o = "idempotent".

Lemma bind_ok_inv b s o s' :
  bind b s = (Ok o, s') → store_step s s' ∧ (coherent s → accepted o → stored b s').
Proof.
  unfold bind, store_step. intros H. apply bind_ok in H as (? & s0 & [_ ->]%raise_if_ok & H).
  apply bind_ok in H as (? & ? & [-> ->]%get_ok & H).
  match type of H with context [match ?x with Some _ => _ | None => modify _;; _ end] =>
    destruct x as [c|] eqn:E end.
  - assert (s' = s) as -> by (repeat case_match; by apply ret_ok in H as [_ <-]).
    split; [by left|]. intros [H1 H2] Hacc. destruct (decide (c = b)) as [->|].
    + unfold stored. destruct (_by_attestation s !! nb_attestation_id b) eqn:Ea; [congruence|].
      apply H2 in E as [_ E]. congruence.
    + case_match; apply ret_ok in H as [<- _]; by destruct Hacc.
  - apply bind_ok in H as (? & ? & ->%modify_ok & [<- <-]%ret_ok).
    destruct (_by_attestation s !! nb_attestation_id b) eqn:Ea; [done|].
    split; [right; eauto|]. intros _ _. unfold stored. cbn. apply lookup_insert_eq.
Qed.

Lemma require_ok_inv b s o s' :
  require b s = (Ok o, s') → s' = s ∧ (accepted o → stored b s).
Proof.
  unfold require. intros H. apply bind_ok in H as (? & ? & [-> ->]%get_ok & H).
  destruct (_by_attestation s !! nb_attestation_id b) as [c|] eqn:Ea;
    [destruct (_by_nonce s !! nb_nonce_hash b) as [d|] eqn:En|];
    [|apply ret_ok in H as [<- <-]; split; [done|]; by intros []..].
  case_decide as Hd; [apply ret_ok in H as [_ <-]; destruct Hd as [-> _]; done|].
  case_match; apply ret_ok in H as [<- <-]; (split; [done|]; by intros []).
Qed.

(** Two stored bindings that share the attestation or the nonce are equal. *)
Lemma stored_unique b b' s :
  coherent s → stored b s → stored b' s →
  nb_attestation_id b = nb_attestation_id b' ∨ nb_nonce_hash b = nb_nonce_hash b' → b = b'.
Proof.
  unfold stored. intros [H1 _] Hb Hb' [E|E]; [rewrite E in Hb; congruence|].
  apply H1 in Hb as [_ Hb]. apply H1 in Hb' as [_ Hb']. rewrite E in Hb. congruence.
Qed.

Section authority_facts.
Context {D : Digest} {K : KeyLibrary}.

(** One gate: the call of the authority predicate, accepted with a decision. *)
Definition gate (envelope : dict) (chain : AuthenticatedManifestChain)
    (public_keys : string * Z → option public_key) (t : ExactAttestationTarget)
    (o : InventoryObservation) (now : datetime) (boundary : string)
    (s : NonceBindingStore) (d : AttestationAuthorityDecision) (s' : NonceBindingStore) : Prop :=
  verify_attestation_authority envelope chain public_keys t o now boundary s = (Ok d, s').

Lemma gate_inv envelope chain keys t o now boundary s d s' :
  gate envelope chain keys t o now boundary s d s' →
  ∃ payload b, check_authority envelope chain keys t o now boundary = Ok payload ∧
    nonce_binding payload envelope t = Ok b ∧ store_step s s' ∧ (coherent s → stored b s') ∧
    (boundary ≠ "pre-dispatch" → s' = s ∧ stored b s) ∧
    d_attestation_id d = nb_attestation_id b ∧ d_envelope_digest d = nb_envelope_digest b ∧
    valid d = true.
Proof.
  unfold gate, verify_attestation_authority. intros H.
  apply bind_ok in H as (payload & ? & [Hp ->]%lift_ok & H).
  apply bind_ok in H as (b & ? & [Hb ->]%lift_ok & H).
  apply bind_ok in H as (out & s1 & Hout & H).
  apply bind_ok in H as (? & ? & [Hacc ->]%raise_if_ok & H).
  apply bind_ok in H as (body & ? & [_ ->]%lift_ok & [<- <-]%ret_ok).
  exists payload, b. split; [done|]. split; [done|].
  assert (accepted out) as Ha.
  { bool_inv. unfold accepted. set_solver. }
  destruct (bool_decide (boundary = "pre-dispatch")) eqn:Hbd; bool_inv.
  - apply bind_ok_inv in Hout as [Hs Hst]. split; [done|]. split; [auto|]. done.
  - apply require_ok_inv in Hout as [-> Hst]. split; [by left|]. split; [auto|]. auto.
Qed.

(** A nonce, like an attestation, authorises one gate tuple only.  If over
    any sequence of store operations two gate calls are accepted, both from a
    coherent store, and the two proofs share the attestation id or the nonce,
    then they bind the same logical key, generation, expected head generation
    and envelope: a replay for another target, generation or envelope is never
    accepted, at any boundary. *)
Lemma one_proof_one_gate env1 env2 chain1 chain2 keys1 keys2 t1 t2 o1 o2 now1 now2 bd1 bd2
    s s1 s2 s' d1 d2 p1 p2 b1 b2 :
  coherent s →
  gate env1 chain1 keys1 t1 o1 now1 bd1 s d1 s1 →
  rtc store_step s1 s2 →
  gate env2 chain2 keys2 t2 o2 now2 bd2 s2 d2 s' →
  check_authority env1 chain1 keys1 t1 o1 now1 bd1 = Ok p1 →
  check_authority env2 chain2 keys2 t2 o2 now2 bd2 = Ok p2 →
  nonce_binding p1 env1 t1 = Ok b1 → nonce_binding p2 env2 t2 = Ok b2 →
  nb_attestation_id b1 = nb_attestation_id b2 ∨ nb_nonce_hash b1 = nb_nonce_hash b2 →
  b1 = b2 ∧ coherent s'.
Proof.
  intros Hcoh H1 Hrtc H2 Hp1 Hp2 Hb1 Hb2 Hsame.
  apply gate_inv in H1 as (p1' & b1' & Hp1' & Hb1' & Hs1 & Hst1 & _).
  apply gate_inv in H2 as (p2' & b2' & Hp2' & Hb2' & Hs2 & Hst2 & _).
  assert (p1' = p1) as -> by congruence. assert (p2' = p2) as -> by congruence.
  assert (b1' = b1) as -> by congruence. assert (b2' = b2) as -> by congruence.
  pose proof (store_step_coherent _ _ Hs1 Hcoh) as Hc1.
  assert (coherent s2 ∧ stored b1 s2) as [Hc2 Hb12].
  { specialize (Hst1 Hcoh). clear -Hrtc Hc1 Hst1. induction Hrtc as [|s1 s2 s3 Hstep _ IH]; [done|].
    apply IH; eauto using store_step_coherent, store_step_stored. }
  split; [|by eapply store_step_coherent].
  apply (stored_unique b1 b2 s'); eauto using store_step_coherent, store_step_stored.
Qed.

Lemma compare_exact_ok expected payload u :
  compare_exact expected payload = Ok u →
  ∀ f v, (f, v) ∈ expected → py_eq (dget f payload) v = true.
Proof.
  induction expected as [|[f0 v0] expected IH]; cbn [compare_exact]; intros H f v Hin.
  - by apply not_elem_of_nil in Hin.
  - apply result_bind_ok in H as (? & Hf & H). apply reject_if_ok, negb_false_iff in Hf.
    apply elem_of_cons in Hin as [[= -> ->]|Hin]; [done|eauto].
Qed.

(** What a gate decision certifies: a proof signed by a key that was active
    when the proof was issued and is not revoked now, inside its window of at
    most 90 minutes and an inventory observation at most five minutes old, and
    naming exactly the repository, pull request, head and generation of the
    fresh target; at every boundary after pre-dispatch the binding was already
    recorded and the store is left as it was. *)
Lemma authority_is_current envelope chain keys t o now boundary s d s' :
  gate envelope chain keys t o now boundary s d s' →
  ∃ payload b,
    Verified envelope chain keys (instant now) payload ∧
    dget "repository_id" payload = VStr (repository_id t) ∧
    dget "repository" payload = VStr (repository t) ∧
    py_eq (dget "pr_number" payload) (VInt (pr_number t)) = true ∧
    dget "head_sha" payload = VStr (head_sha t) ∧
    dget "head_generation" payload = VStr (head_generation t) ∧
    dget "effective_writer_inventory_hash" payload = VStr (inventory_semantic_hash o) ∧
    instant (inventory_observed_at o) ≤ instant now ≤ instant (inventory_observed_at o) + minutes 5 ∧
    nonce_binding payload envelope t = Ok b ∧
    (boundary ≠ "pre-dispatch" → s' = s ∧ stored b s) ∧
    (coherent s → stored b s').
Proof.
  intros H. apply gate_inv in H as (payload & b & Hp & Hb & _ & Hst & Hbd & _).
  unfold check_authority in Hp. do 4 apply result_bind_ok in Hp as (? & _ & Hp).
  apply result_bind_ok in Hp as (? & Hage & Hp). apply reject_if_ok in Hage.
  apply result_bind_ok in Hp as (? & _ & Hp). apply result_bind_ok in Hp as (p & Hv & Hp).
  apply result_bind_ok in Hp as (? & Hx & [= ->]). apply verify_attestation_ok in Hv.
  pose proof (compare_exact_ok _ _ _ Hx) as Heq. bool_inv.
  assert (∀ k f v, exact_expected t o !! k = Some (f, v) → py_eq (dget f payload) v = true) as Hk
    by (intros k f v Hkf; by eapply Heq, list_elem_of_lookup_2).
  assert (∀ k f v, exact_expected t o !! k = Some (f, VStr v) → dget f payload = VStr v) as Hs
    by (intros k f v Hkf; by eapply py_eq_str, Hk).
  exists payload, b. split; [done|]. split; [by apply (Hs 0%nat)|]. split; [by apply (Hs 1%nat)|].
  split; [by apply (Hk 2%nat)|]. split; [by apply (Hs 3%nat)|]. split; [by apply (Hs 4%nat)|].
  split; [by apply (Hs 7%nat)|]. split; [lia|]. split; [done|]. by split.
Qed.
End authority_facts.

(** ** A proof at two gates *)

Definition sample_attestation : dict :=
  [("attestation_schema_version", VInt 1); ("execution_trust_policy_version", VInt 1);
   ("execution_trust_attestation_authority_version", VInt 1);
   ("execution_trust_key_manifest_version", VInt 1);
   ("key_manifest_generation_at_issuance", VStr "1");
   ("key_manifest_digest_at_issuance", VStr sample_first_digest);
   ("attestation_id", VStr "01890a5d-ac96-774b-bcce-b302099a8057");
   ("algorithm", VStr "Ed25519"); ("key_id", VStr "alpha"); ("key_version", VInt 1);
   ("public_key_fingerprint", VStr (sample_fingerprint "alpha"));
   ("repository_id", VStr "42"); ("repository", VStr "owner/name"); ("pr_number", VInt 7);
   ("head_sha", VStr "0123456789012345678901234567890123456789"); ("head_generation", VStr "3");
   ("inventory_guard_status", VStr "partial"); ("missing_source_ids", VList [VStr "a"; VStr "b"]);
   ("effective_writer_inventory_hash", VStr (sample_fingerprint "inventory"));
   ("inventory_guard_freshness_policy_version", VInt 1);
   ("inventory_observed_at_at_issuance", VStr "2026-01-15T09:59:00Z");
   ("issued_at", VStr "2026-01-15T10:00:00Z"); ("expires_at", VStr "2026-01-15T11:30:00Z");
   ("nonce", VStr "AAAAAAAAAAAAAAAAAAAAAAAAAAAAAAAAAAAAAAAAAAA");
   ("request_linkage_hash", VStr (sample_fingerprint "request"))].

Definition sample_alpha : @private_key ToyKeys := (Ed25519Key, "alpha").
Definition sample_envelope : dict :=
  Eval vm_compute in sample_sign sample_attestation sample_alpha ATTESTATION_DOMAIN.

Definition sample_public_keys (i : string * Z) : option (@public_key ToyKeys) :=
  if bool_decide (i = ("alpha", 1)) then Some sample_alpha else None.
Definition sample_target : ExactAttestationTarget := {|
  repository_id := "42"; repository := "owner/name"; pr_number := 7;
  head_sha := "0123456789012345678901234567890123456789"; head_generation := "3";
  local_gate_generation := 5 |}.
Definition sample_now : datetime :=
  Eval vm_compute in ok_or (Naive 0) (fromisoformat "2026-01-15T10:05:00+00:00").
Definition sample_inventory : InventoryObservation := {|
  inventory_status := "partial"; inventory_missing_source_ids := ["a"; "b"];
  inventory_semantic_hash := sample_fingerprint "inventory"; inventory_observed_at := sample_now |}.

Definition sample_gate (boundary : string) (s : NonceBindingStore)
    : result AttestationAuthorityDecision * NonceBindingStore :=
  verify_attestation_authority (D := ToyDigest) (K := ToyKeys) sample_envelope sample_chain
    sample_public_keys sample_target sample_inventory sample_now boundary s.
Definition no_decision : AttestationAuthorityDecision :=
  {| valid := false; d_boundary := ""; proof_role := ""; decision_id := ""; d_attestation_id := "";
     d_envelope_digest := ""; request_linkage_hash := ""; nonce_binding_outcome := "" |}.
Definition sample_bound : NonceBindingStore := (sample_gate "pre-dispatch" empty_store).2.
Definition sample_decision (boundary : string) (s : NonceBindingStore) : AttestationAuthorityDecision :=
  ok_or no_decision (sample_gate boundary s).1.
Definition sample_binding : NonceBinding := Eval vm_compute in
  ok_or {| nb_attestation_id := ""; nb_nonce_hash := ""; nb_logical_key := ""; nb_generation := 0;
           nb_expected_head_generation := ""; nb_envelope_digest := "" |}
    (nonce_binding (D := ToyDigest) sample_attestation sample_envelope sample_target).

Lemma sample_gate_runs boundary s :
  match (sample_gate boundary s).1 with Ok _ => true | Raise _ => false end = true →
  gate (D := ToyDigest) (K := ToyKeys) sample_envelope sample_chain sample_public_keys sample_target
    sample_inventory sample_now boundary s (sample_decision boundary s) (sample_gate boundary s).2.
Proof.
  unfold gate, sample_decision, sample_gate. destruct (verify_attestation_authority _ _ _ _ _ _ _ _) as [[d|e] s']; done.
Qed.

Lemma empty_coherent : coherent empty_store.
Proof. split; intros ? ?; cbn; by rewrite lookup_empty. Qed.

Lemma retirement_exists_witness :
  ∃ r, retirement sample_chain (sample_manifest_at 0) ("alpha", 1) = Ok r.
Proof.
  edestruct (retirement_exists (D := ToyDigest) (K := ToyKeys) sample_envelopes sample_root
    (sample_fingerprint "offline-root") (Some 2) (Some sample_second_digest) sample_chain
    (sample_manifest_at 0) (sample_manifest_at 1) ("alpha", 1)) as (r & _ & Hr & _);
    [apply sample_authenticate_ok| |reflexivity..|].
  - apply (list_elem_of_lookup_2 _ 0). reflexivity.
  - by exists r.
Defined.

Lemma one_proof_one_gate_witness : sample_binding = sample_binding ∧
  coherent (sample_gate "pre-marker" sample_bound).2.
Proof.
  apply (one_proof_one_gate (D := ToyDigest) (K := ToyKeys) sample_envelope sample_envelope sample_chain
    sample_chain sample_public_keys sample_public_keys sample_target sample_target sample_inventory
    sample_inventory sample_now sample_now "pre-dispatch" "pre-marker" empty_store sample_bound sample_bound
    _ (sample_decision "pre-dispatch" empty_store) (sample_decision "pre-marker" sample_bound)
    sample_attestation sample_attestation sample_binding sample_binding);
    [apply empty_coherent|apply sample_gate_runs; vm_compute; reflexivity|apply rtc_refl|
     apply sample_gate_runs; vm_compute; reflexivity|vm_compute; reflexivity..|by left].
Defined.

Lemma authority_is_current_witness :
  ∃ payload, dget "head_sha" payload = VStr (head_sha sample_target).
Proof.
  destruct (authority_is_current (D := ToyDigest) (K := ToyKeys) sample_envelope sample_chain
    sample_public_keys sample_target sample_inventory sample_now "pre-dispatch" empty_store
    (sample_decision "pre-dispatch" empty_store) sample_bound) as (p & b & _ & _ & _ & _ & Hh & _).
  - apply sample_gate_runs. vm_compute. reflexivity.
  - by exists p.
Defined.
