(* ===== verification/Timing.v ===== *)
(** * Timing policy and failure taxonomy (github_automation/timing.py)

    The deadlines, the boundary predicates over authoritative timestamps and
    the mapping from failure classes to outcomes.  Every predicate first turns
    its arguments into UTC instants and raises on a naive timestamp. *)

From S2P Require Import Prelude Datetime.

Definition TIMING_POLICY_VERSION : Z := 1.

Record TimingPolicyV1 := {
  version : Z;
  heartbeat : Z;
  lease_ttl : Z;
  watchdog_interval : Z;
  api_tolerance : Z;
  inventory_freshness : Z;
  claim_deadline : Z;
  execution_deadline : Z;
  normal_cancel_grace : Z;
  force_cancel_verify : Z;
  dispatch_retry_backoff : list Z;
  poll_initial : Z;
  poll_cap : Z;
  reviewer_timeout : Z;
  reviewer_retry_backoff : list Z;
  reviewer_queue_alert : Z;
  reviewer_queue_max_age : Z;
  reviewer_dlq_retention : Z;
  preclaim_fallback_sla : Z;
  total_fallback_gate_sla : Z;
}.

Definition POLICY_V1 : TimingPolicyV1 := {|
  version := TIMING_POLICY_VERSION;
  heartbeat := seconds 60;
  lease_ttl := minutes 5;
  watchdog_interval := minutes 5;
  api_tolerance := minutes 2;
  inventory_freshness := minutes 5;
  claim_deadline := minutes 10;
  execution_deadline := minutes 40;
  normal_cancel_grace := seconds 90;
  force_cancel_verify := minutes 2;
  dispatch_retry_backoff := [seconds 2; seconds 8; seconds 32];
  poll_initial := seconds 15;
  poll_cap := seconds 30;
  reviewer_timeout := seconds 120;
  reviewer_retry_backoff := [seconds 30; minutes 2];
  reviewer_queue_alert := minutes 10;
  reviewer_queue_max_age := hours 24;
  reviewer_dlq_retention := days 7;
  preclaim_fallback_sla := minutes 12;
  total_fallback_gate_sla := minutes 100;
|}.

Inductive ClockAuthority := GITHUB_API | GATESTORE | DURABLE_QUEUE.

Inductive FailureClass :=
  | FUNCTIONAL_FAILURE
  | STALE_INPUT
  | INFRA_PRETEST
  | INFRA_TRANSPORT_LOSS
  | PROTOCOL_FAILURE
  | CONTROL_FAILURE
  | FALLBACK_FAILURE.

Inductive FailureOutcome :=
  | LOCAL_FINAL_FAILURE
  | FALLBACK_ONCE
  | STALE_CANCEL
  | BLOCK_ALERT
  | FALLBACK_FINAL_FAILURE
  | EVIDENCE_ONLY_FALLBACK.

#[export] Instance FailureClass_eq_dec : EqDecision FailureClass.
Proof. solve_decision. Defined.
#[export] Instance FailureOutcome_eq_dec : EqDecision FailureOutcome.
Proof. solve_decision. Defined.

(** ** Instants *)

(** The instant of an aware timestamp; moving it to UTC overflows at the ends
    of the calendar. *)
Definition _utc (value : datetime) : result Z :=
  match value with
  | Naive _ => throw ValueError "authoritative timestamps must be timezone-aware"
  | Aware _ t =>
      if decide (valid_instant t) then Ok t
      else throw OverflowError "date value out of range"
  end.

Definition deadline_from (causal_timestamp : datetime) (duration : Z) : result datetime :=
  check (duration <=? 0) ValueError "deadline duration must be positive" ;;
  t ← _utc causal_timestamp;
  utc <$> dt_add t duration.

(** ** Boundaries *)

Definition claim_is_timely (started_at : option datetime) (claim_deadline : datetime) : result bool :=
  match started_at with
  | None => Ok false
  | Some started_at => s ← _utc started_at; d ← _utc claim_deadline; Ok (s <=? d)
  end.

Definition claim_timeout_due (now claim_deadline : datetime) (timely_claim : bool) : result bool :=
  if timely_claim then Ok false
  else n ← _utc now; d ← _utc claim_deadline; Ok (d <? n).

Definition lease_is_valid (now lease_expires_at : datetime) : result bool :=
  n ← _utc now; e ← _utc lease_expires_at; Ok (n <? e).

Definition completion_is_timely (terminal_at : option datetime) (execution_deadline : datetime)
    : result bool :=
  match terminal_at with
  | None => Ok false
  | Some terminal_at => t ← _utc terminal_at; d ← _utc execution_deadline; Ok (t <=? d)
  end.

Definition execution_timeout_due (now execution_deadline : datetime) (timely_completion : bool)
    : result bool :=
  if timely_completion then Ok false
  else n ← _utc now; d ← _utc execution_deadline; Ok (d <? n).

Definition force_cancel_due (now cancel_requested_at : datetime) : result bool :=
  n ← _utc now; c ← _utc cancel_requested_at;
  due ← dt_add c (normal_cancel_grace POLICY_V1); Ok (due <=? n).

Definition force_cancel_verification_due (now force_cancel_requested_at : datetime) : result bool :=
  n ← _utc now; c ← _utc force_cancel_requested_at;
  due ← dt_add c (force_cancel_verify POLICY_V1); Ok (due <=? n).

Definition queue_alert_due (now enqueued_at : datetime) : result bool :=
  n ← _utc now; e ← _utc enqueued_at; Ok (reviewer_queue_alert POLICY_V1 <=? n - e).

Definition queue_dead_letter_due (now enqueued_at : datetime) : result bool :=
  n ← _utc now; e ← _utc enqueued_at; Ok (reviewer_queue_max_age POLICY_V1 <=? n - e).

Definition heartbeat_due (now last_heartbeat_at : datetime) : result bool :=
  n ← _utc now; l ← _utc last_heartbeat_at; Ok (heartbeat POLICY_V1 <=? n - l).

Definition watchdog_due (now last_reconciled_at : datetime) : result bool :=
  n ← _utc now; l ← _utc last_reconciled_at; Ok (watchdog_interval POLICY_V1 <=? n - l).

Definition inventory_is_fresh (now observed_at : datetime) : result bool :=
  n ← _utc now; o ← _utc observed_at;
  let age := n - o in
  Ok ((0 <=? age) && (age <=? inventory_freshness POLICY_V1)).

Definition api_tolerance_breached (now threshold_at : datetime) : result bool :=
  n ← _utc now; t ← _utc threshold_at;
  limit ← dt_add t (api_tolerance POLICY_V1); Ok (limit <? n).

Definition preclaim_fallback_sla_breached (now dispatched_at : datetime) : result bool :=
  n ← _utc now; d ← _utc dispatched_at;
  limit ← dt_add d (preclaim_fallback_sla POLICY_V1); Ok (limit <? n).

Definition total_fallback_sla_breached (now gate_started_at : datetime) : result bool :=
  n ← _utc now; g ← _utc gate_started_at;
  limit ← dt_add g (total_fallback_gate_sla POLICY_V1); Ok (limit <? n).

Definition http_ack_within_target (response_duration : Z) (durable_enqueue : bool) : bool :=
  durable_enqueue && (0 <=? response_duration) && (response_duration <? seconds 10).

(** ** Failures *)

Definition classify_failure (failure : FailureClass) (admitted : bool)
    (terminal_at execution_deadline : option datetime) : result FailureOutcome :=
  match failure with
  | FUNCTIONAL_FAILURE =>
      match admitted, terminal_at, execution_deadline with
      | true, Some terminal_at, Some execution_deadline =>
          timely ← completion_is_timely (Some terminal_at) execution_deadline;
          Ok (if timely : bool then LOCAL_FINAL_FAILURE else EVIDENCE_ONLY_FALLBACK)
      | _, _, _ => Ok BLOCK_ALERT
      end
  | STALE_INPUT => Ok STALE_CANCEL
  | INFRA_PRETEST | INFRA_TRANSPORT_LOSS => Ok FALLBACK_ONCE
  | PROTOCOL_FAILURE | CONTROL_FAILURE => Ok BLOCK_ALERT
  | FALLBACK_FAILURE => Ok FALLBACK_FINAL_FAILURE
  end.

(** ** Lemmas *)

(** An aware timestamp the calendar can hold in UTC. *)
Definition instant_of (value : datetime) (t : Z) : Prop :=
  ∃ tz, value = Aware tz t ∧ valid_instant t.

Lemma utc_instant value t : instant_of value t → _utc value = Ok t.
Proof. intros (tz & -> & Ht). cbn. by rewrite decide_True. Qed.

Lemma instant_of_utc t : valid_instant t → instant_of (utc t) t.
Proof. by exists UTC. Qed.

Lemma utc_naive w : is_ok (_utc (Naive w)) = false.
Proof. done. Qed.

#[export] Hint Resolve utc_instant instant_of_utc : ci.

Lemma dt_add_ok t d : valid_instant (t + d) → dt_add t d = Ok (t + d).
Proof. intros. unfold dt_add. by rewrite decide_True. Qed.

(** Evaluates a boundary predicate on timestamps with known instants. *)
Ltac instants :=
  repeat match goal with
  | H : instant_of ?v ?t |- context [_utc ?v] => rewrite (utc_instant v t H)
  end; cbn [mbind result_bind mret result_ret fmap result_fmap].

(** The policy's durations as numbers. *)
Ltac policy :=
  cbn [POLICY_V1 heartbeat lease_ttl watchdog_interval api_tolerance claim_deadline
    execution_deadline normal_cancel_grace force_cancel_verify reviewer_queue_alert
    reviewer_queue_max_age preclaim_fallback_sla total_fallback_gate_sla] in *;
  unfold days, hours, minutes, seconds, US_DAY, US_SECOND in *.

Lemma claim_is_timely_at s d vs vd :
  instant_of vs s → instant_of vd d → claim_is_timely (Some vs) vd = Ok (s <=? d).
Proof. intros. unfold claim_is_timely. by instants. Qed.

Lemma claim_timeout_due_at n d vn vd timely :
  instant_of vn n → instant_of vd d →
  claim_timeout_due vn vd timely = Ok (negb timely && (d <? n)).
Proof. intros. unfold claim_timeout_due. destruct timely; [done|]. by instants. Qed.

Lemma completion_is_timely_at t d vt vd :
  instant_of vt t → instant_of vd d → completion_is_timely (Some vt) vd = Ok (t <=? d).
Proof. intros. unfold completion_is_timely. by instants. Qed.

Lemma execution_timeout_due_at n d vn vd timely :
  instant_of vn n → instant_of vd d →
  execution_timeout_due vn vd timely = Ok (negb timely && (d <? n)).
Proof. intros. unfold execution_timeout_due. destruct timely; [done|]. by instants. Qed.

Lemma lease_is_valid_at n e vn ve :
  instant_of vn n → instant_of ve e → lease_is_valid vn ve = Ok (n <? e).
Proof. intros. unfold lease_is_valid. by instants. Qed.


Lemma deadline_from_at causal c duration :
  instant_of causal c → 0 < duration → valid_instant (c + duration) →
  deadline_from causal duration = Ok (utc (c + duration)).
Proof.
  intros Hc Hd Hv. unfold deadline_from. rewrite (proj2 (Z.leb_gt _ _)) by done.
  instants. by rewrite dt_add_ok.
Qed.

(** What a classification says about its inputs. *)
Lemma classify_failure_inv failure admitted terminal_at deadline o :
  classify_failure failure admitted terminal_at deadline = Ok o →
  match o with
  | FALLBACK_ONCE => failure = INFRA_PRETEST ∨ failure = INFRA_TRANSPORT_LOSS
  | LOCAL_FINAL_FAILURE =>
      failure = FUNCTIONAL_FAILURE ∧ admitted = true ∧
      ∃ d, deadline = Some d ∧ completion_is_timely terminal_at d = Ok true
  | EVIDENCE_ONLY_FALLBACK =>
      failure = FUNCTIONAL_FAILURE ∧ admitted = true ∧
      ∃ d, deadline = Some d ∧ completion_is_timely terminal_at d = Ok false
  | STALE_CANCEL => failure = STALE_INPUT
  | BLOCK_ALERT => failure = PROTOCOL_FAILURE ∨ failure = CONTROL_FAILURE ∨
      (failure = FUNCTIONAL_FAILURE ∧ (admitted = false ∨ terminal_at = None ∨ deadline = None))
  | FALLBACK_FINAL_FAILURE => failure = FALLBACK_FAILURE
  end.
Proof.
  intros H. unfold classify_failure in H.
  destruct failure; run_inv; subst; eauto 10;
    match goal with |- context [if ?b then _ else _] => destruct b end; eauto 10.
Qed.

(** ** Properties *)

(** The predicates that say a moment has come, as functions of the observation
    time and of the timestamp they count from. *)
Definition due_predicates : list (datetime → datetime → result bool) :=
  [λ now d, claim_timeout_due now d false; λ now d, execution_timeout_due now d false;
   force_cancel_due; force_cancel_verification_due; queue_alert_due; queue_dead_letter_due;
   heartbeat_due; watchdog_due; api_tolerance_breached; preclaim_fallback_sla_breached;
   total_fallback_sla_breached].

(** the claim window closes exactly once.  A deadline fixed at the causal
    transition is the causal instant plus the duration, and at any later
    observation [now] the outcome of the window is determined: with a claim
    start that is not in the future of [now], the timeout is due iff the
    deadline has passed and the claim was not timely; a claim at the deadline
    itself is timely, and no timeout is due at the deadline. *)
Lemma claim_window causal c duration vn n started :
  instant_of causal c → instant_of vn n → 0 < duration → valid_instant (c + duration) →
  (∀ vs, started = Some vs → ∃ s, instant_of vs s ∧ s ≤ n) →
  ∃ deadline timely,
    deadline_from causal duration = Ok deadline ∧
    claim_is_timely started deadline = Ok timely ∧
    claim_timeout_due vn deadline timely = Ok (negb timely && (c + duration <? n)) ∧
    (n ≤ c + duration → is_Some started → timely = true) ∧
    claim_is_timely (Some deadline) deadline = Ok true ∧
    claim_timeout_due deadline deadline false = Ok false.
Proof.
  intros Hc Hn Hd Hv Hs. set (d := c + duration) in *.
  assert (instant_of (utc d) d) as Hu by auto with ci.
  exists (utc d), (match started with Some (Aware _ s) => s <=? d | _ => false end).
  split; [by apply deadline_from_at|].
  rewrite (claim_timeout_due_at n d), (claim_timeout_due_at d d), (claim_is_timely_at d d) by done.
  rewrite Z.leb_refl, Z.ltb_irrefl. destruct started as [vs|].
  - destruct (Hs vs eq_refl) as (s & Hvs & Hle). rewrite (claim_is_timely_at s d) by done.
    destruct Hvs as (tz & -> & _). repeat split. intros; apply Z.leb_le; lia.
  - repeat split. by intros ? [? ?].
Qed.

Lemma claim_window_witness :
  ∃ deadline timely,
    deadline_from (utc 5) (claim_deadline POLICY_V1) = Ok deadline ∧
    claim_is_timely (Some (Aware (FixedOffset 60) 7)) deadline = Ok timely ∧
    claim_timeout_due (utc 9) deadline timely
    = Ok (negb timely && (5 + claim_deadline POLICY_V1 <? 9)) ∧
    (9 ≤ 5 + claim_deadline POLICY_V1 → is_Some (Some (Aware (FixedOffset 60) 7)) → timely = true) ∧
    claim_is_timely (Some deadline) deadline = Ok true ∧
    claim_timeout_due deadline deadline false = Ok false.
Proof.
  apply (claim_window (utc 5) 5 (claim_deadline POLICY_V1) (utc 9) 9).
  - by exists UTC.
  - by exists UTC.
  - done.
  - done.
  - intros vs [= <-]. exists 7. split; [by exists (FixedOffset 60)|lia].
Defined.

(** a moment that has come stays: every due predicate is monotone in the
    observation time. *)
Lemma due_monotone P vn n vn' n' vt t :
  P ∈ due_predicates → instant_of vn n → instant_of vn' n' → instant_of vt t → n ≤ n' →
  P vn vt = Ok true → P vn' vt = Ok true.
Proof.
  intros HP Hn Hn' Ht Hle. unfold due_predicates in HP. rewrite !elem_of_cons, elem_of_nil in HP.
  destruct_or? HP; subst P; cbv beta iota delta
    [claim_timeout_due execution_timeout_due force_cancel_due force_cancel_verification_due
     queue_alert_due queue_dead_letter_due heartbeat_due watchdog_due api_tolerance_breached
     preclaim_fallback_sla_breached total_fallback_sla_breached]; instants;
    unfold dt_add; repeat case_decide; cbn [mbind result_bind throw negb andb]; intros [= Hdue];
    f_equal; rewrite ?Z.leb_le, ?Z.ltb_lt in *; policy; lia.
Qed.

Lemma due_monotone_witness : watchdog_due (utc (minutes 6)) (utc 0) = Ok true.
Proof.
  apply (due_monotone watchdog_due (utc (minutes 5)) (minutes 5) (utc (minutes 6)) (minutes 6)
           (utc 0) 0); try by exists UTC.
  - unfold due_predicates. set_solver.
  - done.
  - reflexivity.
Defined.

(** a failure leads to its only permitted outcome.  A single fallback is
    for infrastructure failures and for nothing else; a failing local run is
    final iff it was admitted and its end, with a known deadline, is timely;
    a late end is evidence next to a fallback; without admission, end or
    deadline it blocks. *)
Lemma classify_failure_spec failure admitted terminal_at deadline :
  (classify_failure failure admitted terminal_at deadline = Ok FALLBACK_ONCE
     ↔ failure = INFRA_PRETEST ∨ failure = INFRA_TRANSPORT_LOSS) ∧
  (classify_failure failure admitted terminal_at deadline = Ok LOCAL_FINAL_FAILURE
     ↔ failure = FUNCTIONAL_FAILURE ∧ admitted = true ∧
       ∃ d, deadline = Some d ∧ completion_is_timely terminal_at d = Ok true) ∧
  (classify_failure failure admitted terminal_at deadline = Ok EVIDENCE_ONLY_FALLBACK
     ↔ failure = FUNCTIONAL_FAILURE ∧ admitted = true ∧ is_Some terminal_at ∧
       ∃ d, deadline = Some d ∧ completion_is_timely terminal_at d = Ok false) ∧
  (classify_failure failure admitted terminal_at deadline = Ok BLOCK_ALERT
     ↔ failure = PROTOCOL_FAILURE ∨ failure = CONTROL_FAILURE ∨
       (failure = FUNCTIONAL_FAILURE ∧ (admitted = false ∨ terminal_at = None ∨ deadline = None))).
Proof.
  destruct failure; cbn [classify_failure]; try (split_and!; naive_solver).
  destruct admitted, terminal_at as [t|], deadline as [d|]; try (split_and!; naive_solver).
  cbn -[completion_is_timely].
  destruct (completion_is_timely (Some t) d) as [[|]|e] eqn:E; cbn -[completion_is_timely];
    (split_and!; [by intuition | split..]);
    try (intros (_ & _ & d' & [= <-] & ?); congruence);
    try (intros (_ & _ & _ & d' & [= <-] & ?); congruence);
    try (intros [?|[?|(_ & [?|[?|?]])]]; congruence);
    intros [=]; eauto 10.
Qed.

(** the policy's windows fit together.  A coordinator that sends a
    heartbeat before one is due holds a valid lease; a claim timeout that is
    observed within the API tolerance of the claim deadline still meets the
    pre-claim fallback objective; and a gate whose local attempt ran out its
    execution deadline, with both grace periods of the cancellation, still has
    40 minutes for the hosted attempt within the total objective. *)
Lemma policy_windows vn n vl l :
  instant_of vn n → instant_of vl l → l ≤ n → valid_instant (l + minutes 100) →
  (heartbeat_due vn vl = Ok false →
     lease_is_valid vn (utc (l + lease_ttl POLICY_V1)) = Ok true) ∧
  (api_tolerance_breached vn (utc (l + claim_deadline POLICY_V1)) = Ok false →
     preclaim_fallback_sla_breached vn vl = Ok false) ∧
  (n ≤ l + claim_deadline POLICY_V1 + execution_deadline POLICY_V1
        + normal_cancel_grace POLICY_V1 + force_cancel_verify POLICY_V1
        + execution_deadline POLICY_V1 →
     total_fallback_sla_breached vn vl = Ok false).
Proof.
  intros Hn Hl Hle Hv.
  assert (valid_instant l) as Hl0 by (destruct Hl as (? & ? & ?); done).
  assert (∀ k, 0 ≤ k ≤ minutes 100 → valid_instant (l + k)) as Hk
    by (unfold valid_instant in *; lia).
  assert (∀ k, 0 ≤ k ≤ minutes 100 → instant_of (utc (l + k)) (l + k)) as Hi by auto with ci.
  split_and!.
  - unfold heartbeat_due. instants. intros [= H]. apply Z.leb_gt in H.
    erewrite lease_is_valid_at; [|done|by apply Hi]. f_equal. apply Z.ltb_lt.
    policy. lia.
  - unfold api_tolerance_breached, preclaim_fallback_sla_breached.
    pose proof (Hi (claim_deadline POLICY_V1) ltac:(done)) as Hc. instants.
    rewrite !dt_add_ok.
    + cbn. intros [= H]. f_equal. rewrite Z.ltb_ge in *. policy. lia.
    + by apply Hk.
    + rewrite <- Z.add_assoc. by apply Hk.
  - unfold total_fallback_sla_breached. instants. rewrite dt_add_ok by by apply Hk.
    cbn. intros H. f_equal. rewrite Z.ltb_ge. policy. lia.
Qed.

Lemma policy_windows_witness :
  lease_is_valid (utc (seconds 30)) (utc (0 + lease_ttl POLICY_V1)) = Ok true.
Proof.
  apply (policy_windows (utc (seconds 30)) (seconds 30) (utc 0) 0); try done; by exists UTC.
Defined.
