(* ===== verification/Watchdog.v ===== *)
(** * Watchdog decisions (github_automation/watchdog.py)

    [reconcile] chooses one resumable action from an observation;
    [execute_decision] carries it out through an adapter, which is an interface
    here ([ReconcileAdapter]) with the laws its docstring asks for
    ([AdapterLaws]); [RefAdapter] is a reference implementation of both. *)

From S2P Require Import Prelude Datetime PyValue Json Timing.

Inductive ActionKind :=
  | NOOP
  | FENCED
  | TAKE_OVER
  | A_BLOCK_ALERT
  | MARK_STALE_CANCEL
  | OFFER_LOCAL_FAILURE
  | SELECT_GITHUB
  | REQUEST_NORMAL_CANCEL
  | REQUEST_FORCE_CANCEL
  | VERIFY_FORCE_CANCEL
  | DISPATCH_FALLBACK
  | COMPLETE_FALLBACK_FAILURE.

#[export] Instance ActionKind_eq_dec : EqDecision ActionKind.
Proof. solve_decision. Defined.

(** [ActionKind.value] *)
Definition kind_value (k : ActionKind) : string :=
  match k with
  | NOOP => "noop"
  | FENCED => "fenced"
  | TAKE_OVER => "take_over"
  | A_BLOCK_ALERT => "block_alert"
  | MARK_STALE_CANCEL => "mark_stale_cancel"
  | OFFER_LOCAL_FAILURE => "offer_local_failure"
  | SELECT_GITHUB => "select_github"
  | REQUEST_NORMAL_CANCEL => "request_normal_cancel"
  | REQUEST_FORCE_CANCEL => "request_force_cancel"
  | VERIFY_FORCE_CANCEL => "verify_force_cancel"
  | DISPATCH_FALLBACK => "dispatch_fallback"
  | COMPLETE_FALLBACK_FAILURE => "complete_fallback_failure"
  end.

Definition CURRENT_AUTHORITY_BOUNDARIES : list string :=
  ["dispatch"; "claim"; "pre_marker_admission"; "local_success"].

Record ObservedState := {
  logical_key : string;
  generation : Z;
  owner : string;
  lease_epoch : Z;
  lease_expires_at : datetime;
  phase : string;
  winner : option string;
  state_claim_deadline : option datetime;
  state_execution_deadline : option datetime;
  job_started_at : option datetime;
  job_terminal_at : option datetime;
  job_active : bool;
  failure_class : option FailureClass;
  admission_valid : bool;
  proof_valid : bool;
  authority_boundary : option string;
  ambiguous : bool;
  stale_input : bool;
  cancel_requested_at : option datetime;
  force_cancel_requested_at : option datetime;
  fallback_dispatched : bool;
  fallback_terminal : bool;
}.

Record Decision := {
  kind : ActionKind;
  d_logical_key : string;
  d_generation : Z;
  d_owner : string;
  d_lease_epoch : Z;
  reason : string;
}.

#[export] Instance Decision_eq_dec : EqDecision Decision.
Proof. solve_decision. Defined.

(** [str(n)] of an [int], as in the f-string. *)
Definition int_text (n : Z) : string := str_of_Z n.

Definition idempotency_key (d : Decision) : string :=
  d_logical_key d +:+ ":" +:+ int_text (d_generation d) +:+ ":" +:+ kind_value (kind d).

Definition _decision (state : ObservedState) (k : ActionKind) (reason : string) : Decision := {|
  kind := k;
  d_logical_key := logical_key state;
  d_generation := generation state;
  d_owner := owner state;
  d_lease_epoch := lease_epoch state;
  reason := reason;
|}.

(** [FailureOutcome.value] and the [mapping] of [reconcile]. *)
Definition outcome_value (o : FailureOutcome) : string :=
  match o with
  | LOCAL_FINAL_FAILURE => "local_final_failure"
  | FALLBACK_ONCE => "fallback_once"
  | STALE_CANCEL => "stale_cancel"
  | BLOCK_ALERT => "block_alert"
  | FALLBACK_FINAL_FAILURE => "fallback_final_failure"
  | EVIDENCE_ONLY_FALLBACK => "evidence_only_fallback"
  end.
Definition outcome_action (o : FailureOutcome) : ActionKind :=
  match o with
  | LOCAL_FINAL_FAILURE => OFFER_LOCAL_FAILURE
  | FALLBACK_ONCE => SELECT_GITHUB
  | STALE_CANCEL => MARK_STALE_CANCEL
  | BLOCK_ALERT => A_BLOCK_ALERT
  | FALLBACK_FINAL_FAILURE => COMPLETE_FALLBACK_FAILURE
  | EVIDENCE_ONLY_FALLBACK => SELECT_GITHUB
  end.

(** ** [reconcile]

    The source is one function with early returns.  Each of the three blocks
    below is one stretch of it; a block that falls through returns [None]. *)

(** [if state.winner == "github": ...] *)
Definition reconcile_github (state : ObservedState) (now : datetime) : result Decision :=
  let say k r := Ok (_decision state k r) in
  if job_active state then
    match cancel_requested_at state with
    | None => say REQUEST_NORMAL_CANCEL "cancel_losing_local_run"
    | Some requested =>
        due ← force_cancel_due now requested;
        if negb due then say NOOP "normal_cancel_grace"
        else
          match force_cancel_requested_at state with
          | None => say REQUEST_FORCE_CANCEL "normal_cancel_stalled"
          | Some forced =>
              verify ← force_cancel_verification_due now forced;
              if verify : bool then say VERIFY_FORCE_CANCEL "verify_force_cancel"
              else say NOOP "force_cancel_verification_wait"
          end
    end
  else if negb (fallback_dispatched state) then
    say DISPATCH_FALLBACK "resume_persisted_github_winner"
  else if fallback_terminal state && bool_decide (failure_class state = Some FALLBACK_FAILURE) then
    say COMPLETE_FALLBACK_FAILURE "hosted_attempt_failed"
  else say NOOP "github_path_in_progress_or_terminal".

(** The claim window of a dispatched attempt. *)
Definition reconcile_claim (state : ObservedState) (now : datetime) : result (option Decision) :=
  match bool_decide (phase state = "LOCAL_DISPATCHED"), state_claim_deadline state with
  | true, Some deadline =>
      timely ← claim_is_timely (job_started_at state) deadline;
      if timely : bool then Ok (Some (_decision state NOOP "formal_claim_visible"))
      else
        due ← claim_timeout_due now deadline false;
        Ok (if due : bool then Some (_decision state SELECT_GITHUB "claim_timeout") else None)
  | _, _ => Ok None
  end.

(** The execution window of a running attempt. *)
Definition reconcile_execution (state : ObservedState) (now : datetime) : result (option Decision) :=
  match bool_decide (phase state = "LOCAL_RUNNING"), state_execution_deadline state with
  | true, Some deadline =>
      timely ← completion_is_timely (job_terminal_at state) deadline;
      due ← execution_timeout_due now deadline timely;
      Ok (if due : bool
          then Some (_decision state SELECT_GITHUB "execution_timeout_after_exact_job_reread")
          else None)
  | _, _ => Ok None
  end.

Definition causal_deadline (state : ObservedState) : option datetime :=
  if bool_decide (phase state = "LOCAL_DISPATCHED") then state_claim_deadline state
  else if bool_decide (phase state = "LOCAL_RUNNING") then state_execution_deadline state
  else None.

(** The lease ran out before the pending transition was due. *)
Definition lease_lost_early (state : ObservedState) (now : datetime) : result bool :=
  valid ← lease_is_valid now (lease_expires_at state);
  if valid : bool then Ok false
  else
    match causal_deadline state with
    | None => Ok true
    | Some deadline =>
        c ← dt_compare (lease_expires_at state) deadline;
        Ok (negb (bool_decide (c = Gt)))
    end.

Definition authority_invalid (state : ObservedState) : bool :=
  negb (proof_valid state) &&
  match authority_boundary state with
  | Some b => bool_decide (b ∈ CURRENT_AUTHORITY_BOUNDARIES)
  | None => false
  end.

Definition reconcile (state : ObservedState) (now : datetime) : result Decision :=
  let say k r := Ok (_decision state k r) in
  lost ← lease_lost_early state now;
  if lost : bool then say TAKE_OVER "lease_expired_before_pending_transition"
  else if ambiguous state then say A_BLOCK_ALERT "ambiguous_authoritative_state"
  else if stale_input state then say MARK_STALE_CANCEL "stale_pr_tuple"
  else if bool_decide (winner state = Some "local") then say NOOP "local_winner_terminal"
  else if bool_decide (winner state = Some "github") then reconcile_github state now
  else if authority_invalid state then say SELECT_GITHUB "current_authority_invalid"
  else
    match failure_class state with
    | Some failure =>
        outcome ← classify_failure failure (admission_valid state) (job_terminal_at state)
                    (state_execution_deadline state);
        say (outcome_action outcome) (outcome_value outcome)
    | None =>
        claim ← reconcile_claim state now;
        match claim with
        | Some d => Ok d
        | None =>
            execution ← reconcile_execution state now;
            match execution with
            | Some d => Ok d
            | None =>
                valid ← lease_is_valid now (lease_expires_at state);
                if valid : bool then say NOOP "no_transition_due"
                else say TAKE_OVER "lease_expired"
            end
        end
    end.

(** [replace(state, job_terminal_at=..., failure_class=...)] *)
Definition with_reread (state : ObservedState) (terminal_at : option datetime)
    (failure : option FailureClass) : ObservedState := {|
  logical_key := logical_key state; generation := generation state; owner := owner state;
  lease_epoch := lease_epoch state; lease_expires_at := lease_expires_at state;
  phase := phase state; winner := winner state;
  state_claim_deadline := state_claim_deadline state;
  state_execution_deadline := state_execution_deadline state;
  job_started_at := job_started_at state;
  job_terminal_at := terminal_at;
  job_active := job_active state;
  failure_class := failure;
  admission_valid := admission_valid state; proof_valid := proof_valid state;
  authority_boundary := authority_boundary state; ambiguous := ambiguous state;
  stale_input := stale_input state; cancel_requested_at := cancel_requested_at state;
  force_cancel_requested_at := force_cancel_requested_at state;
  fallback_dispatched := fallback_dispatched state; fallback_terminal := fallback_terminal state;
|}.

Definition reconcile_execution_timeout_after_reread (state : ObservedState) (now : datetime)
    (authoritative_terminal_at : option datetime)
    (authoritative_failure_class : option FailureClass) : result Decision :=
  reconcile (with_reread state authoritative_terminal_at authoritative_failure_class) now.

(** ** Execution *)

Class ReconcileAdapter (W : Type) := {
  owns_live_lease : Decision → M W bool;
  action_already_completed : string → M W bool;
  perform : Decision → M W unit;
  record_completed : string → M W unit;
}.

Definition execute_decision `{ReconcileAdapter W} (decision : Decision) : M W string :=
  if bool_decide (kind decision ∈ [NOOP; FENCED]) then mret (kind_value (kind decision))
  else
    completed ← action_already_completed (idempotency_key decision);
    if completed : bool then mret "idempotent"
    else
      fenced ← (if bool_decide (kind decision ≠ TAKE_OVER)
                then negb <$> owns_live_lease decision else mret false);
      if fenced : bool then mret (kind_value FENCED)
      else
        perform decision;;
        record_completed (idempotency_key decision);;
        mret "performed".

(** What an adapter promises: the two questions change nothing, [perform] is
    the only effect, and a recorded key stays recorded.  One that raises may have
    done its work or not. *)
Class AdapterLaws (W : Type) `{ReconcileAdapter W} (effects : W → list Decision)
    (completed : W → list string) := {
  owns_pure d w b w' : owns_live_lease d w = (b, w') → w' = w;
  completed_pure k w b w' : action_already_completed k w = (Ok b, w') →
    w' = w ∧ b = bool_decide (k ∈ completed w);
  completed_raise k w e w' : action_already_completed k w = (Raise e, w') → w' = w;
  perform_effect d w r w' : perform d w = (r, w') →
    completed w' = completed w ∧ (effects w' = effects w ++ [d] ∨ (is_ok r = false ∧ effects w' = effects w));
  record_effect k w r w' : record_completed k w = (r, w') →
    effects w' = effects w ∧ (completed w' = completed w ++ [k] ∨ (is_ok r = false ∧ completed w' = completed w));
}.

(** ** A reference adapter

    The completed keys and the effects as lists, and the live owner and epoch
    of each logical key. *)
Record RefWorld := {
  live : list (string * (string * Z));
  done_keys : list string;
  performed : list Decision;
}.

Definition is_live (w : RefWorld) (d : Decision) : bool :=
  bool_decide ((d_logical_key d, (d_owner d, d_lease_epoch d)) ∈ live w).

#[export] Instance RefAdapter : ReconcileAdapter RefWorld := {|
  owns_live_lease d := gets (λ w, is_live w d);
  action_already_completed k := gets (λ w, bool_decide (k ∈ done_keys w));
  perform d := modify (λ w, {| live := live w; done_keys := done_keys w;
                               performed := performed w ++ [d] |});
  record_completed k := modify (λ w, {| live := live w; done_keys := done_keys w ++ [k];
                                        performed := performed w |});
|}.

#[export] Instance RefAdapterLaws : AdapterLaws RefWorld performed done_keys.
Proof. split; cbn; intros; unfold gets, modify in *; naive_solver. Qed.

(** ** Lemmas *)

(** One case per return of [reconcile]. *)
Ltac reconcile_cases H :=
  unfold reconcile, reconcile_github, reconcile_claim, reconcile_execution in H;
  run_inv; bool_inv.

Lemma reconcile_identity state now d :
  reconcile state now = Ok d → d = _decision state (kind d) (reason d).
Proof. intros H. reconcile_cases H; done. Qed.

Lemma causal_deadline_dispatched state :
  phase state = "LOCAL_DISPATCHED" → causal_deadline state = state_claim_deadline state.
Proof. intros E. unfold causal_deadline. by rewrite E. Qed.

(** Expiring after the causal deadline does not count as expiring early. *)
Lemma lease_outlives_deadline state vn n e vd d :
  instant_of vn n → instant_of (lease_expires_at state) e → instant_of vd d → d < e →
  causal_deadline state = Some vd → lease_lost_early state vn = Ok false.
Proof.
  intros Hn He Hd Hlt Hc. unfold lease_lost_early. rewrite (lease_is_valid_at n e) by done.
  cbn [mbind result_bind]. destruct (n <? e); [done|]. rewrite Hc.
  destruct He as (? & -> & _), Hd as (? & -> & _). cbn. by rewrite (proj2 (Z.compare_gt_iff _ _)).
Qed.

(** [reconcile] past its first guards, with no winner and a valid authority. *)
Lemma reconcile_undecided state now :
  lease_lost_early state now = Ok false → ambiguous state = false → stale_input state = false →
  winner state = None → authority_invalid state = false →
  reconcile state now =
    match failure_class state with
    | Some failure =>
        outcome ← classify_failure failure (admission_valid state) (job_terminal_at state)
                    (state_execution_deadline state);
        Ok (_decision state (outcome_action outcome) (outcome_value outcome))
    | None =>
        claim ← reconcile_claim state now;
        match claim with
        | Some d => Ok d
        | None =>
            execution ← reconcile_execution state now;
            match execution with
            | Some d => Ok d
            | None =>
                valid ← lease_is_valid now (lease_expires_at state);
                Ok (if valid : bool then _decision state NOOP "no_transition_due"
                    else _decision state TAKE_OVER "lease_expired")
            end
        end
    end.
Proof.
  intros Hl Ha Hs Hw Hauth. unfold reconcile. rewrite Hl. cbn [mbind result_bind].
  rewrite Ha, Hs, Hw, Hauth. rewrite !bool_decide_eq_false_2 by done.
  destruct (failure_class state); [done|]. destruct (reconcile_claim state now) as [[?|]|]; try done.
  cbn [mbind result_bind]. destruct (reconcile_execution state now) as [[?|]|]; try done.
  cbn [mbind result_bind]. by destruct (lease_is_valid now _) as [[|]|].
Qed.

Section execution.
Context `{AdapterLaws W effects completed}.

(** A normal run either performs the decision, fenced and recorded, or leaves
    the adapter as it is. *)
Lemma execute_decision_ok d w r w' :
  execute_decision d w = (Ok r, w') →
  (r = "performed" ∧ effects w' = effects w ++ [d] ∧
   completed w' = completed w ++ [idempotency_key d] ∧ (idempotency_key d ∉ completed w) ∧
   (kind d ∉ [NOOP; FENCED]) ∧ (kind d = TAKE_OVER ∨ (∃ w0, owns_live_lease d w = (Ok true, w0))))
  ∨ (r ≠ "performed" ∧ w' = w).
Proof.
  unfold execute_decision. case_bool_decide as Hk.
  { intros ?. monad_inv. right. destruct (kind d); (split; [|congruence]); discriminate. }
  intros Hrun. apply bind_ok in Hrun as (done & w1 & Hc & Hrun).
  apply completed_pure in Hc as [-> ->]. case_bool_decide as Hdone; [monad_inv; by right|].
  apply bind_ok in Hrun as (fenced & w1 & Hf & Hrun).
  assert (w1 = w ∧ (fenced = false → kind d = TAKE_OVER ∨ (∃ w0, owns_live_lease d w = (Ok true, w0))))
    as [-> Hlive].
  { case_bool_decide as Ht.
    - unfold fmap, M_fmap in Hf. destruct (owns_live_lease d w) as [[b|e] w0] eqn:Ho; [|done].
      injection Hf as <- <-. apply owns_pure in Ho as Hw. subst w0.
      split; [done|]. destruct b; [eauto | done].
    - monad_inv. split; [done|]. intros _. destruct (decide (kind d = TAKE_OVER)); [by left|naive_solver]. }
  destruct fenced; [monad_inv; by right|].
  apply bind_ok in Hrun as ([] & w1 & Hp & Hrun). apply bind_ok in Hrun as ([] & w2 & Hr & Hrun).
  monad_inv. left. apply perform_effect in Hp as [Hc [He|[? _]]]; [|done]. apply record_effect in Hr as [He' [Hc'|[? _]]]; [|done].
  rewrite He', Hc', He, Hc. auto 10.
Qed.

(** A run that raises may have performed its decision, recorded or not. *)
Lemma execute_decision_raise d w e w' :
  execute_decision d w = (Raise e, w') →
  (effects w' = effects w ∨ effects w' = effects w ++ [d]) ∧
  (completed w' = completed w ∨ completed w' = completed w ++ [idempotency_key d]).
Proof.
  unfold execute_decision. case_bool_decide as Hk; [done|]. unfold mbind at 1, M_bind at 1.
  destruct (action_already_completed _ w) as [[done|e1] w1] eqn:Hc.
  2: { apply completed_raise in Hc as ->. intros [= _ <-]. by split; left. }
  apply completed_pure in Hc as [-> ->]. case_bool_decide; [done|]. unfold mbind at 1, M_bind at 1.
  set (fence := if bool_decide (kind d ≠ TAKE_OVER) then negb <$> owns_live_lease d else mret false).
  assert (∀ r w1, fence w = (r, w1) → w1 = w) as Hown.
  { intros r w1. unfold fence. case_bool_decide; [|by intros [= _ <-]]. unfold fmap, M_fmap. destruct (owns_live_lease d w) as [[b|e1] w2] eqn:Ho;
      apply owns_pure in Ho as ->; by intros [= _ <-]. }
  destruct (fence w) as [[fenced|e1] w1]; specialize (Hown _ _ eq_refl) as ->; [|by intros [= _ <-]; split; left].
  destruct fenced; [done|]. unfold mbind at 1, M_bind at 1. destruct (perform d w) as [[[]|e1] w1] eqn:Hp.
  2: { apply perform_effect in Hp as [Hc Hp]. intros [= _ <-]. rewrite Hc. split; [|by left]. destruct Hp as [?|[_ ?]]; [by right|by left]. }
  apply perform_effect in Hp as [Hc [He|[? _]]]; [|done]. unfold mbind, M_bind.
  destruct (record_completed _ w1) as [[[]|e1] w2] eqn:Hr; [done|]. apply record_effect in Hr as [He' Hr]. intros [= _ <-].
  rewrite He', He. split; [by right|]. rewrite <- Hc. destruct Hr as [?|[_ ?]]; [by right|by left].
Qed.

(** Watchdog passes over time, each ending in any way, the death of the process at
    a call of the adapter included; between them, changes of the world that are not
    the watchdog's (leases, clocks).  [raised] are the decisions of the passes that
    did not return. *)
Inductive history : W → list Decision → W → Prop :=
  | history_start w : history w [] w
  | history_execute w raised w1 w2 d r :
      history w raised w1 → execute_decision d w1 = (r, w2) → history w (if is_ok r then raised else raised ++ [d]) w2
  | history_world w raised w1 w2 :
      history w raised w1 → effects w2 = effects w1 → completed w2 = completed w1 → history w raised w2.

(** How often the transition with a key occurs. *)
Definition times (k : string) (l : list Decision) : nat := length (filter (λ d, idempotency_key d = k) l).
Lemma times_snoc k l d : times k (l ++ [d]) = (times k l + if decide (idempotency_key d = k) then 1 else 0)%nat.
Proof. unfold times. rewrite filter_app, length_app, filter_cons, filter_nil. by case_decide. Qed.
(** Each performance but one is of a pass that raised; the one is recorded. *)
Definition accounted (raised : list Decision) (w : W) : Prop :=
  ∀ k, (times k (effects w) ≤ times k raised + if decide (k ∈ completed w) then 1 else 0)%nat.

Lemma accounted_execute d w r w' raised : execute_decision d w = (r, w') → accounted raised w →
  accounted (if is_ok r then raised else raised ++ [d]) w'.
Proof.
  intros Hrun Hw k. specialize (Hw k). destruct r as [r|e]; cbn [is_ok].
  - apply execute_decision_ok in Hrun as [(_ & He & Hc & Hk & _)|[_ ->]]; [|done]. rewrite He, Hc, times_snoc.
    repeat case_decide; set_solver by lia.
  - apply execute_decision_raise in Hrun as [He Hc]. rewrite times_snoc.
    destruct He as [->| ->], Hc as [->| ->]; rewrite ?times_snoc; repeat case_decide; set_solver by lia.
Qed.
Lemma accounted_history w raised w' : history w raised w' → accounted [] w → accounted raised w'.
Proof.
  induction 1 as [|w raised w1 w2 d r _ IH Hr|w raised w1 w2 _ IH He Hc]; [done|..]; intros Hw.
  - eauto using accounted_execute.
  - intros k. rewrite He, Hc. by apply IH.
Qed.
End execution.

(** ** Properties *)

(** the recorded winner confines the watchdog.  Under a local winner no
    decision selects, dispatches, cancels or offers anything; under a GitHub
    winner no local result is offered and GitHub is not selected again; and
    without a winner nothing is cancelled and no fallback is dispatched. *)
Lemma reconcile_respects_winner state now d :
  reconcile state now = Ok d →
  (winner state = Some "local" →
     kind d ∈ [NOOP; TAKE_OVER; A_BLOCK_ALERT; MARK_STALE_CANCEL]) ∧
  (winner state = Some "github" → kind d ∉ [OFFER_LOCAL_FAILURE; SELECT_GITHUB]) ∧
  (winner state ≠ Some "github" →
     kind d ∉ [REQUEST_NORMAL_CANCEL; REQUEST_FORCE_CANCEL; VERIFY_FORCE_CANCEL; DISPATCH_FALLBACK]).
Proof.
  intros H. reconcile_cases H; subst; cbn [kind _decision];
    try (match goal with o : FailureOutcome |- _ => destruct o end; cbn [outcome_action]);
    split_and!; intros; try congruence; set_solver.
Qed.

(** A dispatched attempt that nobody has claimed, with a lease until [expires]
    and a claim deadline ten minutes in. *)
Definition dispatched_state (expires : Z) : ObservedState := {|
  logical_key := "k"; generation := 1; owner := "coordinator-1"; lease_epoch := 1;
  lease_expires_at := utc expires; phase := "LOCAL_DISPATCHED"; winner := None;
  state_claim_deadline := Some (utc (minutes 10)); state_execution_deadline := None;
  job_started_at := None; job_terminal_at := None; job_active := false; failure_class := None;
  admission_valid := false; proof_valid := true; authority_boundary := None; ambiguous := false;
  stale_input := false; cancel_requested_at := None; force_cancel_requested_at := None;
  fallback_dispatched := false; fallback_terminal := false |}.

Definition local_won_state : ObservedState := {|
  logical_key := "k"; generation := 1; owner := "coordinator-1"; lease_epoch := 1;
  lease_expires_at := utc (minutes 5); phase := "TERMINAL"; winner := Some "local";
  state_claim_deadline := None; state_execution_deadline := None;
  job_started_at := None; job_terminal_at := None; job_active := true;
  failure_class := Some INFRA_TRANSPORT_LOSS;
  admission_valid := false; proof_valid := false; authority_boundary := Some "claim"; ambiguous := false;
  stale_input := false; cancel_requested_at := None; force_cancel_requested_at := None;
  fallback_dispatched := false; fallback_terminal := false |}.

Lemma reconcile_respects_winner_witness :
  NOOP ∈ [NOOP; TAKE_OVER; A_BLOCK_ALERT; MARK_STALE_CANCEL].
Proof.
  refine (proj1 (reconcile_respects_winner local_won_state (utc 0)
    (_decision local_won_state NOOP "local_winner_terminal") _) _); reflexivity.
Defined.

Ltac late_end :=
  match goal with Hc : completion_is_timely _ _ = Ok ?b |- _ => destruct b; [done|] end; eauto 10.

(** GitHub is selected only with cause.  A decision to select GitHub means
    that nothing is ambiguous or stale, no winner is recorded, and one of: the
    authority proof is invalid at a current boundary; a trusted class says an
    infrastructure failure or an admitted test failure that ended late; no
    timely claim is visible and the claim deadline has passed; no timely end is
    visible and the execution deadline has passed. *)
Lemma select_github_justified state now d :
  reconcile state now = Ok d → kind d = SELECT_GITHUB →
  ambiguous state = false ∧ stale_input state = false ∧
  winner state ≠ Some "local" ∧ winner state ≠ Some "github" ∧
  (authority_invalid state = true ∨
   (failure_class state = Some INFRA_PRETEST ∨ failure_class state = Some INFRA_TRANSPORT_LOSS) ∨
   (failure_class state = Some FUNCTIONAL_FAILURE ∧ admission_valid state = true ∧
    ∃ deadline, state_execution_deadline state = Some deadline ∧
      completion_is_timely (job_terminal_at state) deadline = Ok false) ∨
   (∃ deadline, phase state = "LOCAL_DISPATCHED" ∧ state_claim_deadline state = Some deadline ∧
      claim_is_timely (job_started_at state) deadline = Ok false ∧
      claim_timeout_due now deadline false = Ok true) ∨
   (∃ deadline, phase state = "LOCAL_RUNNING" ∧ state_execution_deadline state = Some deadline ∧
      completion_is_timely (job_terminal_at state) deadline = Ok false ∧
      execution_timeout_due now deadline false = Ok true)).
Proof.
  intros H Hk. reconcile_cases H; try discriminate Hk; subst; split_and!; try done.
  - by left.
  - right. match goal with o : FailureOutcome |- _ => destruct o; try discriminate Hk end;
      match goal with Hc : classify_failure _ _ _ _ = _ |- _ => apply classify_failure_inv in Hc end;
      naive_solver.
  - right; right; right; left; eauto 10.
  - do 4 right; late_end.
  - do 4 right; late_end.
  - do 4 right; late_end.
Qed.

Lemma select_github_justified_witness :
  ambiguous (dispatched_state (minutes 20)) = false.
Proof.
  apply (select_github_justified (dispatched_state (minutes 20)) (utc (minutes 11))
           (_decision (dispatched_state (minutes 20)) SELECT_GITHUB "claim_timeout")); reflexivity.
Defined.

(** a visible timely result is offered before a timeout is considered.
    When the exact job, read again, ended in an admitted test failure by the
    execution deadline, the decision offers the local failure, however late the
    watchdog looks; and a timely end of any other kind never leads to a
    selection by timeout. *)
Lemma timely_result_offered state now vt t vd d failure dec :
  instant_of vt t → instant_of vd d → t ≤ d →
  lease_lost_early state now = Ok false →
  ambiguous state = false → stale_input state = false →
  winner state = None → authority_invalid state = false → admission_valid state = true →
  phase state = "LOCAL_RUNNING" → state_execution_deadline state = Some vd →
  reconcile_execution_timeout_after_reread state now (Some vt) (Some FUNCTIONAL_FAILURE)
    = Ok (_decision state OFFER_LOCAL_FAILURE "local_final_failure") ∧
  (reconcile_execution_timeout_after_reread state now (Some vt) failure = Ok dec →
   failure ≠ Some INFRA_PRETEST → failure ≠ Some INFRA_TRANSPORT_LOSS → kind dec ≠ SELECT_GITHUB).
Proof.
  intros Ht Hd Hle Hlost Ha Hs Hw Hauth Hadm Hph Hdl.
  pose proof (completion_is_timely_at t d vt vd Ht Hd) as Hc.
  rewrite (proj2 (Z.leb_le _ _) Hle) in Hc.
  unfold reconcile_execution_timeout_after_reread. rewrite !reconcile_undecided by done.
  cbn [failure_class job_terminal_at state_execution_deadline admission_valid with_reread].
  rewrite Hdl, Hadm. split.
  - unfold classify_failure. by rewrite Hc.
  - destruct failure as [failure|]; intros H.
    + run_inv. destruct x; intros; cbn [kind _decision outcome_action]; try discriminate;
        match goal with Hf : classify_failure _ _ _ _ = _ |- _ => apply classify_failure_inv in Hf as Hinv end;
        first [destruct Hinv; congruence | destruct Hinv as (_ & _ & ? & ? & ?); congruence].
    + unfold reconcile_claim, reconcile_execution in H.
      cbn [phase state_execution_deadline job_terminal_at with_reread] in H.
      rewrite Hph, Hdl, Hc in H. run_inv; intros; repeat case_match; done.
Qed.

(** An admitted attempt that runs, with an execution deadline after forty minutes. *)
Definition running_state : ObservedState := {|
  logical_key := "k"; generation := 1; owner := "coordinator-1"; lease_epoch := 1;
  lease_expires_at := utc (minutes 60); phase := "LOCAL_RUNNING"; winner := None;
  state_claim_deadline := None; state_execution_deadline := Some (utc (minutes 40));
  job_started_at := None; job_terminal_at := None; job_active := false; failure_class := None;
  admission_valid := true; proof_valid := true; authority_boundary := None; ambiguous := false;
  stale_input := false; cancel_requested_at := None; force_cancel_requested_at := None;
  fallback_dispatched := false; fallback_terminal := false |}.

Lemma timely_result_offered_witness :
  reconcile_execution_timeout_after_reread running_state (utc (minutes 50)) (Some (utc (minutes 40)))
    (Some FUNCTIONAL_FAILURE) = Ok (_decision running_state OFFER_LOCAL_FAILURE "local_final_failure").
Proof.
  apply (timely_result_offered running_state (utc (minutes 50)) (utc (minutes 40)) (minutes 40)
    (utc (minutes 40)) (minutes 40) None (_decision running_state NOOP "")); try done; by exists UTC.
Defined.

(** a lease that outlives the claim deadline is never taken over.  From the
    moment such a lease has expired, a dispatched attempt whose claim is
    visible keeps its dead owner (the decision is a no-op), and one without a
    claim leads to a selection in the name of the dead owner, which an adapter
    that knows the lease is gone refuses without any change. *)
Lemma late_lease_not_taken_over `{AdapterLaws W effects completed}
    state vn n ve e vd d timely (w : W) :
  instant_of vn n → instant_of ve e → instant_of vd d → d < e → e ≤ n →
  lease_expires_at state = ve → phase state = "LOCAL_DISPATCHED" →
  state_claim_deadline state = Some vd →
  ambiguous state = false → stale_input state = false → winner state = None →
  authority_invalid state = false → failure_class state = None →
  claim_is_timely (job_started_at state) vd = Ok timely →
  (∀ dec, owns_live_lease dec w = (Ok false, w)) →
  (∀ k, action_already_completed k w = (Ok false, w)) →
  ∃ dec, reconcile state vn = Ok dec ∧ kind dec ≠ TAKE_OVER ∧
    dec = _decision state (if timely then NOOP else SELECT_GITHUB)
            (if timely then "formal_claim_visible" else "claim_timeout") ∧
    execute_decision dec w = (Ok (if timely then "noop" else "fenced"), w).
Proof.
  intros Hn He Hd Hde Hen Hle Hph Hcd Ha Hs Hw Hauth Hf Hclaim Hown Hcomp.
  exists (_decision state (if timely then NOOP else SELECT_GITHUB)
            (if timely then "formal_claim_visible" else "claim_timeout")). split.
  - rewrite reconcile_undecided by (done || (eapply lease_outlives_deadline; try done;
      [by rewrite Hle | by rewrite causal_deadline_dispatched])).
    rewrite Hf. unfold reconcile_claim. rewrite Hph, Hcd, Hclaim. cbn [mbind result_bind].
    rewrite bool_decide_eq_true_2 by done. destruct timely; [done|].
    rewrite (claim_timeout_due_at n d) by done. cbn [mbind result_bind negb andb].
    by rewrite (proj2 (Z.ltb_lt _ _)) by lia.
  - destruct timely; (split; [done|]; split; [done|]); [done|].
    unfold execute_decision, mbind, M_bind, fmap, M_fmap. cbn [kind _decision].
    rewrite bool_decide_eq_false_2, Hcomp by set_solver.
    by rewrite bool_decide_eq_true_2, Hown by done.
Qed.

Lemma late_lease_not_taken_over_witness :
  ∃ dec, reconcile (dispatched_state (minutes 15)) (utc (days 1)) = Ok dec ∧ kind dec ≠ TAKE_OVER ∧
    dec = _decision (dispatched_state (minutes 15)) SELECT_GITHUB "claim_timeout" ∧
    execute_decision dec {| live := []; done_keys := []; performed := [] |}
    = (Ok "fenced", {| live := []; done_keys := []; performed := [] |}).
Proof.
  apply (late_lease_not_taken_over (dispatched_state (minutes 15)) (utc (days 1)) (days 1)
    (utc (minutes 15)) (minutes 15) (utc (minutes 10)) (minutes 10) false); try done; by exists UTC.
Defined.

(** A selection, and a world in which its owner is live. *)
Definition select_decision : Decision :=
  _decision (dispatched_state (minutes 15)) SELECT_GITHUB "claim_timeout".
Definition owned_world : RefWorld :=
  {| live := [("k", ("coordinator-1", 1))]; done_keys := []; performed := [] |}.
Definition after_select : RefWorld := (execute_decision select_decision owned_world).2.

(** the idempotency key identifies the transition: equal keys belong to
    the same logical key, generation and kind, whatever characters the logical
    key holds. *)
Lemma idempotency_key_identifies d1 d2 :
  idempotency_key d1 = idempotency_key d2 →
  d_logical_key d1 = d_logical_key d2 ∧ d_generation d1 = d_generation d2 ∧ kind d1 = kind d2.
Proof.
  assert (∀ k, lacks ":" (kind_value k) = true) as Hk by by intros [].
  assert (∀ n, lacks ":" (str_of_Z n) = true) as Hz by (intros; by apply lacks_str_of_Z).
  assert (∀ k n v, k +:+ ":" +:+ n +:+ ":" +:+ v = (k +:+ String ":" n) +:+ String ":" v) as Hre
    by (intros; by str_norm).
  unfold idempotency_key, int_text. rewrite !Hre. intros E.
  apply sep_inj_r in E as [E Ekind]; [|done..].
  apply sep_inj_r in E as [-> Egen]; [|done..]. apply str_of_Z_inj in Egen.
  split_and!; [done..|]. destruct (kind d1), (kind d2); done.
Qed.

Lemma idempotency_key_identifies_witness :
  d_logical_key select_decision = d_logical_key (_decision (dispatched_state (minutes 20)) SELECT_GITHUB "") ∧
  d_generation select_decision = d_generation (_decision (dispatched_state (minutes 20)) SELECT_GITHUB "") ∧
  kind select_decision = kind (_decision (dispatched_state (minutes 20)) SELECT_GITHUB "").
Proof. apply (idempotency_key_identifies select_decision); reflexivity. Defined.

(** C25: each transition, that is each (logical key, generation, kind), is performed
    at most once, and at most once more for each pass over it that raised, since a
    pass performs before it records.  So it is along any sequence of watchdog passes,
    each of which may return, raise or die at any call of the adapter, interleaved
    with any changes of leases and clocks. *)
Theorem performed_once `{AdapterLaws W effects completed} (w w' : W) raised k generation kd :
  effects w = [] → history (effects := effects) (completed := completed) w raised w' →
  let same d := d_logical_key d = k ∧ d_generation d = generation ∧ kind d = kd in
  (length (filter same (effects w')) ≤ 1 + length (filter same raised))%nat.
Proof.
  intros Hw Hh same. set (key := k +:+ ":" +:+ int_text generation +:+ ":" +:+ kind_value kd).
  assert (∀ l, length (filter same l) = times key l) as Hsame.
  { intros l. unfold times. f_equal. apply list_filter_iff. intros d. split.
    - intros (<- & <- & <-). done.
    - exact (idempotency_key_identifies d {| kind := kd; d_logical_key := k; d_generation := generation; d_owner := ""; d_lease_epoch := 0; reason := "" |}). }
  rewrite !Hsame. pose proof (accounted_history _ _ _ Hh) as Ha. specialize (Ha ltac:(intros ?; rewrite Hw; apply Nat.le_0_l) key).
  case_decide; lia.
Qed.

Lemma performed_once_witness :
  performed after_select = [select_decision] ∧
  (execute_decision select_decision after_select).1 = Ok "idempotent" ∧
  (length (filter (λ d, d_logical_key d = "k" ∧ d_generation d = 1%Z ∧ kind d = SELECT_GITHUB) (performed after_select)) ≤ 1)%nat.
Proof.
  split; [reflexivity|]. split; [reflexivity|].
  apply (performed_once (effects := performed) (completed := done_keys) owned_world after_select [] "k" 1 SELECT_GITHUB); [reflexivity|].
  apply (history_execute owned_world [] owned_world after_select select_decision (Ok "performed")); [|reflexivity].
  apply history_start.
Defined.

(** An adapter whose record is lost performs a transition again. *)
Definition LossyAdapter : ReconcileAdapter RefWorld := {|
  owns_live_lease := @owns_live_lease _ RefAdapter;
  action_already_completed := @action_already_completed _ RefAdapter;
  perform := @perform _ RefAdapter;
  record_completed _ := raise OSError "lost";
|}.
Example performed_again :
  let w := (@execute_decision _ LossyAdapter select_decision owned_world).2 in
  performed (@execute_decision _ RefAdapter select_decision w).2 = [select_decision; select_decision].
Proof. reflexivity. Qed.

(** every effect is fenced.  A normal run that changes the effects has
    performed this very decision, once; the adapter had just confirmed the
    live lease, or the decision is the takeover itself; the key was not
    completed before and is completed after. *)
Lemma effect_is_fenced `{AdapterLaws W effects completed} d (w w' : W) r :
  execute_decision d w = (Ok r, w') → effects w' ≠ effects w →
  r = "performed" ∧ effects w' = effects w ++ [d] ∧
  (kind d = TAKE_OVER ∨ (∃ w0, owns_live_lease d w = (Ok true, w0))) ∧
  (idempotency_key d ∉ completed w) ∧ idempotency_key d ∈ completed w'.
Proof.
  intros [(-> & He & Hc & Hk & _ & Hl)|[_ ->]]%execute_decision_ok; [|done].
  intros _. rewrite Hc. split_and!; try done. set_solver.
Qed.

Lemma effect_is_fenced_witness : idempotency_key select_decision ∈ done_keys after_select.
Proof.
  apply (effect_is_fenced (effects := performed) (completed := done_keys)
    select_decision owned_world after_select "performed"); [reflexivity|discriminate].
Defined.

(** the cancellation ladder of a losing local run.  While the run is
    active under a GitHub winner, the decision is determined by the two recorded
    requests: first a normal cancel; nothing for its 90 seconds of grace; then a
    forced cancel; nothing for two minutes; then its verification. *)
Lemma cancellation_ladder state vn n :
  instant_of vn n → lease_lost_early state vn = Ok false →
  ambiguous state = false → stale_input state = false →
  winner state = Some "github" → job_active state = true →
  (cancel_requested_at state = None →
     kind <$> reconcile state vn = Ok REQUEST_NORMAL_CANCEL) ∧
  (∀ vc c, cancel_requested_at state = Some vc → instant_of vc c →
     valid_instant (c + seconds 90) →
     (n < c + seconds 90 → kind <$> reconcile state vn = Ok NOOP) ∧
     (c + seconds 90 ≤ n → force_cancel_requested_at state = None →
        kind <$> reconcile state vn = Ok REQUEST_FORCE_CANCEL) ∧
     (∀ vf f, c + seconds 90 ≤ n → force_cancel_requested_at state = Some vf → instant_of vf f →
        valid_instant (f + minutes 2) →
        kind <$> reconcile state vn = Ok (if f + minutes 2 <=? n then VERIFY_FORCE_CANCEL else NOOP))).
Proof.
  intros Hn Hl Ha Hs Hw Hact. unfold reconcile. rewrite Hl. cbn [mbind result_bind].
  rewrite Ha, Hs, Hw, bool_decide_eq_false_2, bool_decide_eq_true_2 by done.
  unfold reconcile_github. rewrite Hact. split; [by intros ->|].
  intros vc c -> Hc Hv. unfold force_cancel_due, force_cancel_verification_due.
  instants. rewrite dt_add_ok by done. cbn [mbind result_bind]. split_and!.
  - intros Hlt. by rewrite (proj2 (Z.leb_gt _ _)).
  - intros Hle ->. by rewrite (proj2 (Z.leb_le _ _)).
  - intros vf f Hle -> Hf Hvf. rewrite (proj2 (Z.leb_le _ _)) by done. cbn [negb].
    instants. rewrite dt_add_ok by done. cbn [mbind result_bind].
    change (force_cancel_verify POLICY_V1) with (minutes 2). by destruct (_ <=? _).
Qed.

Lemma cancellation_ladder_witness :
  kind <$> reconcile
    {| logical_key := "k"; generation := 1; owner := "coordinator-1"; lease_epoch := 1;
       lease_expires_at := utc (minutes 60); phase := "FALLBACK"; winner := Some "github";
       state_claim_deadline := None; state_execution_deadline := None;
       job_started_at := None; job_terminal_at := None; job_active := true; failure_class := None;
       admission_valid := false; proof_valid := true; authority_boundary := None; ambiguous := false;
       stale_input := false; cancel_requested_at := Some (utc 0);
       force_cancel_requested_at := Some (utc (minutes 2));
       fallback_dispatched := false; fallback_terminal := false |} (utc (minutes 4))
  = Ok VERIFY_FORCE_CANCEL.
Proof.
  refine (proj2 (proj2 (proj2 (cancellation_ladder _ (utc (minutes 4)) (minutes 4) _ _ _ _ _ _)
    (utc 0) 0 _ _ _)) (utc (minutes 2)) (minutes 2) _ _ _ _); try done; by exists UTC.
Defined.
