(* ===== verification/GateStore.v ===== *)
(** * The GateStore (github_automation/gatestore.py)

    The transactional single-winner store: heads, gates, nonce bindings,
    admissions and the outbox, as five tables keyed by their primary keys, and
    one definition per method of the class.  Every method is a transaction over
    the whole store ([transaction]: commit or roll back); the clock reading, the
    fault hook and the fresh UUID of a call are its environment. *)

From S2P Require Import Prelude Datetime PyValue Json Digest Sql.
From stdpp Require Import sorting.
#[local] Open Scope Z_scope.

(** ** Rows *)

Inductive Winner := Local | Github.
Inductive ResultKind := Success | FunctionalFailure.
Inductive OutboxState := Pending | Delivered.

#[export] Instance Winner_eq_dec : EqDecision Winner.
Proof. solve_decision. Defined.
#[export] Instance ResultKind_eq_dec : EqDecision ResultKind.
Proof. solve_decision. Defined.
#[export] Instance OutboxState_eq_dec : EqDecision OutboxState.
Proof. solve_decision. Defined.

(** The texts the CHECK constraints allow. *)
Definition winner_text (w : Winner) : string := match w with Local => "local" | Github => "github" end.
Definition result_text (r : ResultKind) : string :=
  match r with Success => "success" | FunctionalFailure => "functional_failure" end.

Record HeadRow := { hd_sha : string; hd_generation : Z }.

Record GateRow := {
  g_head_generation : Z;
  g_base_sha : string;
  g_tested_merge_sha : string;
  g_owner : string;
  g_lease_epoch : Z;
  g_lease_expires_at : string;
  g_check_run_id : Z;
  g_winner : option Winner;
  g_result_kind : option ResultKind;
  g_evidence_digest : option string;
  g_terminal_json : option string;
  g_created_at : string;
  g_updated_at : string;
}.

Record NonceRow := {
  nb_logical_key : string;
  nb_generation : Z;
  nb_head_generation : Z;
  nb_envelope_digest : string;
  nb_target_digest : string;
  nb_bound_at : string;
}.

Record AdmissionRow := {
  ad_admission_id : string;
  ad_admission_digest : string;
  ad_marker_core_digest : string;
  ad_marker_digest : string;
  ad_authority_json : string;
  ad_execution_json : string;
  ad_started_at : string;
  ad_execution_deadline : string;
}.

Record OutboxRow := {
  ob_logical_key : string;
  ob_generation : Z;
  ob_winner : Winner;
  ob_evidence_digest : string;
  ob_check_run_id : Z;
  ob_payload_json : string;
  ob_state : OutboxState;
  ob_attempts : Z;
  ob_created_at : string;
  ob_delivered_at : option string;
}.

Record Store := MkStore {
  heads : gmap (string * Z) HeadRow;
  gates : gmap (string * Z) GateRow;
  nonce_bindings : gmap (string * string) NonceRow;
  admissions : gmap (string * Z) AdmissionRow;
  outbox : gmap string OutboxRow;
}.

(** The database [_initialize] creates. *)
Definition _initialize : Store := MkStore ∅ ∅ ∅ ∅ ∅.

Definition set_heads f (s : Store) :=
  MkStore (f (heads s)) (gates s) (nonce_bindings s) (admissions s) (outbox s).
Definition set_gates f (s : Store) :=
  MkStore (heads s) (f (gates s)) (nonce_bindings s) (admissions s) (outbox s).
Definition set_nonces f (s : Store) :=
  MkStore (heads s) (gates s) (f (nonce_bindings s)) (admissions s) (outbox s).
Definition set_admissions f (s : Store) :=
  MkStore (heads s) (gates s) (nonce_bindings s) (f (admissions s)) (outbox s).
Definition set_outbox f (s : Store) :=
  MkStore (heads s) (gates s) (nonce_bindings s) (admissions s) (f (outbox s)).

(** ** Results *)

Record Gate := {
  logical_key : string;
  generation : Z;
  head_generation : Z;
  owner : string;
  lease_epoch : Z;
  lease_expires_at : Z;
  base_sha : string;
  tested_merge_sha : string;
  check_run_id : Z;
  winner : option Winner;
  result_kind : option ResultKind;
  evidence_digest : option string;
}.

Record Admission := {
  admission_id : string;
  admission_digest : string;
  marker_digest : string;
  started_at : Z;
  execution_deadline : Z;
}.

Record Completion := {
  status : string;
  c_winner : Winner;
  c_result_kind : ResultKind;
  c_evidence_digest : string;
  outbox_key : string;
}.

(** ** The environment of a call *)

Record Env := {
  clock : datetime;
  fault_hook : string → option exn;
  uuid4 : string;
}.

Definition _utc (value : datetime) : result Z :=
  match value with
  | Naive _ => throw ValueError "timestamps must be timezone-aware"
  | Aware _ t =>
      if decide (valid_instant t) then Ok t
      else throw OverflowError "date value out of range"
  end.

Definition _timestamp (value : datetime) : result string := timestamp_text <$> _utc value.

Definition _parse_timestamp (value : string) : result Z := parse_timestamp value.

Definition _now (env : Env) : result Z := _utc (clock env).

Definition _fault (env : Env) (stage : string) : M Store unit :=
  match fault_hook env stage with
  | None => mret tt
  | Some e => lift (Raise e)
  end.

Section digest.
Context `{Digest}.

Definition _canonical (value : dict) : string := json_dumps (VDict value).
Definition _digest (value : dict) : string := sha256_hex (_canonical value).

(** ** Reading rows *)

Definition _gate_from_row (k : string) (g : Z) (row : GateRow) : result Gate :=
  expires ← _parse_timestamp (g_lease_expires_at row);
  Ok {|
    logical_key := k;
    generation := g;
    head_generation := g_head_generation row;
    owner := g_owner row;
    lease_epoch := g_lease_epoch row;
    lease_expires_at := expires;
    base_sha := g_base_sha row;
    tested_merge_sha := g_tested_merge_sha row;
    check_run_id := g_check_run_id row;
    winner := g_winner row;
    result_kind := g_result_kind row;
    evidence_digest := g_evidence_digest row;
  |}.

Definition _admission_from_row (row : AdmissionRow) : result Admission :=
  started ← _parse_timestamp (ad_started_at row);
  deadline ← _parse_timestamp (ad_execution_deadline row);
  Ok {|
    admission_id := ad_admission_id row;
    admission_digest := ad_admission_digest row;
    marker_digest := ad_marker_digest row;
    started_at := started;
    execution_deadline := deadline;
  |}.

(** [TypeError: 'NoneType' object is not subscriptable] when a row is absent. *)
Definition the_row {A} (row : option A) : result A :=
  match row with
  | Some r => Ok r
  | None => throw TypeError "'NoneType' object is not subscriptable"
  end.

Definition _gate (k : string) (g : Z) : M Store Gate :=
  lift (bind_ints [g]);;
  s ← get;
  row ← lift (the_row (gates s !! (k, g)));
  lift (_gate_from_row k g row).

(** ** [observe_head] *)

Definition observe_head (repository_id : string) (pr_number : Z) (head_sha : string) : M Store Z :=
  raise_if (negb (nonempty repository_id) || (pr_number <=? 0) || negb (nonempty head_sha))
    ValueError "repository_id, positive pr_number and head_sha are required";;
  transaction (
    lift (bind_ints [pr_number]);;
    s ← get;
    match heads s !! (repository_id, pr_number) with
    | None =>
        t ← lift (insert_row true (repository_id, pr_number)
                    {| hd_sha := head_sha; hd_generation := 1 |} (heads s));
        modify (set_heads (λ _, t));;
        mret 1
    | Some row =>
        if bool_decide (hd_sha row = head_sha) then mret (hd_generation row)
        else
          let generation := hd_generation row + 1 in
          lift (bind_ints [generation; pr_number]);;
          modify (set_heads (update_row
            (λ _, {| hd_sha := head_sha; hd_generation := generation |}) (repository_id, pr_number)));;
          mret generation
    end).

(** ** [acquire] *)

Definition new_gate_row (head_generation : Z) (base_sha tested_merge_sha owner : string)
    (check_run_id : Z) (expires now : Z) : GateRow := {|
  g_head_generation := head_generation;
  g_base_sha := base_sha;
  g_tested_merge_sha := tested_merge_sha;
  g_owner := owner;
  g_lease_epoch := 1;
  g_lease_expires_at := timestamp_text expires;
  g_check_run_id := check_run_id;
  g_winner := None;
  g_result_kind := None;
  g_evidence_digest := None;
  g_terminal_json := None;
  g_created_at := timestamp_text now;
  g_updated_at := timestamp_text now;
|}.

(** UPDATE gates SET owner, lease_epoch, lease_expires_at, updated_at *)
Definition set_lease (owner : string) (epoch expires now : Z) (r : GateRow) : GateRow := {|
  g_head_generation := g_head_generation r;
  g_base_sha := g_base_sha r;
  g_tested_merge_sha := g_tested_merge_sha r;
  g_owner := owner;
  g_lease_epoch := epoch;
  g_lease_expires_at := timestamp_text expires;
  g_check_run_id := g_check_run_id r;
  g_winner := g_winner r;
  g_result_kind := g_result_kind r;
  g_evidence_digest := g_evidence_digest r;
  g_terminal_json := g_terminal_json r;
  g_created_at := g_created_at r;
  g_updated_at := timestamp_text now;
|}.

Definition same_tuple (head_generation : Z) (base_sha tested_merge_sha : string) (r : GateRow) : bool :=
  (g_head_generation r =? head_generation)
  && bool_decide (g_base_sha r = base_sha)
  && bool_decide (g_tested_merge_sha r = tested_merge_sha).

Definition insert_gate (k : string) (generation : Z) (row : GateRow) : M Store unit :=
  lift (bind_ints [generation; g_head_generation row; g_lease_epoch row; g_check_run_id row]);;
  s ← get;
  t ← lift (insert_row ((0 <? generation) && (0 <? g_head_generation row) && (0 <? g_lease_epoch row))
              (k, generation) row (gates s));
  modify (set_gates (λ _, t)).

Definition acquire (env : Env) (k : string) (head_generation : Z) (base_sha tested_merge_sha owner : string)
    (check_run_id lease_ttl : Z) : M Store Gate :=
  now ← lift (_now env);
  expires ← lift (dt_add now lease_ttl);
  raise_if (lease_ttl <=? 0) ValueError "lease_ttl must be positive";;
  transaction (
    s ← get;
    let latest := latest_row k (gates s) in
    generation ←
      match latest with
      | Some (generation, row) =>
          if same_tuple head_generation base_sha tested_merge_sha row then
            expiry ← lift (_parse_timestamp (g_lease_expires_at row));
            let lease_live := now <? expiry in
            let other := negb (bool_decide (g_owner row = owner)) in
            raise_if (other && lease_live) ConflictError "generation already has a live owner";;
            raise_if (bool_decide (is_Some (g_winner row)) && other) ConflictError
              "terminal generation cannot be reacquired by another owner";;
            let epoch := if other || negb lease_live then g_lease_epoch row + 1
                         else g_lease_epoch row in
            lift (bind_ints [epoch; generation]);;
            modify (set_gates (update_row (set_lease owner epoch expires now) (k, generation)));;
            mret generation
          else
            insert_gate k (generation + 1)
              (new_gate_row head_generation base_sha tested_merge_sha owner check_run_id expires now);;
            mret (generation + 1)
      | None =>
          insert_gate k 1
            (new_gate_row head_generation base_sha tested_merge_sha owner check_run_id expires now);;
          mret 1
      end;
    _gate k generation).

(** ** [_owned]: the fence *)

Definition _owned (k : string) (g : Z) (owner : string) (lease_epoch now : Z) : M Store GateRow :=
  s ← get;
  raise_if (negb (bool_decide (max_value k (gates s) = Some g))) FencedError "generation is not current";;
  lift (bind_ints [g]);;
  match gates s !! (k, g) with
  | None => raise FencedError "owner or lease epoch is stale"
  | Some row =>
      raise_if (negb (bool_decide (g_owner row = owner)) || negb (g_lease_epoch row =? lease_epoch))
        FencedError "owner or lease epoch is stale";;
      expiry ← lift (_parse_timestamp (g_lease_expires_at row));
      raise_if (expiry <=? now) FencedError "lease expired";;
      mret row
  end.

(** ** [heartbeat] *)

Definition heartbeat (env : Env) (k : string) (g : Z) (owner : string) (lease_epoch lease_ttl : Z)
    : M Store Gate :=
  now ← lift (_now env);
  transaction (
    row ← _owned k g owner lease_epoch now;
    expires ← lift (dt_add now lease_ttl);
    modify (set_gates (update_row
      (λ r, set_lease (g_owner r) (g_lease_epoch r) expires now r) (k, g)));;
    lift (_gate_from_row k g (set_lease (g_owner row) (g_lease_epoch row) expires now row))).

(** ** [bind_attestation_nonce] *)

Definition nonce_tuple (r : NonceRow) : string * Z * Z * string * string :=
  (nb_logical_key r, nb_generation r, nb_head_generation r, nb_envelope_digest r, nb_target_digest r).

Definition bind_attestation_nonce (env : Env) (attestation_id nonce_hash k : string)
    (g expected_head_generation : Z) (envelope_digest : string) (target : option dict) : M Store string :=
  now ← lift (_now env);
  let target_digest := _digest (default [] target) in
  let candidate := (k, g, expected_head_generation, envelope_digest, target_digest) in
  transaction (
    lift (bind_ints [g]);;
    s ← get;
    let gate := gates s !! (k, g) in
    raise_if (match gate with
              | None => true
              | Some row => negb (g_head_generation row =? expected_head_generation)
              end) FencedError "head generation expectation does not match GateStore";;
    match nonce_bindings s !! (attestation_id, nonce_hash) with
    | Some existing =>
        if bool_decide (nonce_tuple existing = candidate) then mret "idempotent"
        else raise ReplayError "nonce is already bound to another gate tuple"
    | None =>
        lift (bind_ints [g; expected_head_generation]);;
        t ← lift (insert_row true (attestation_id, nonce_hash)
                    {| nb_logical_key := k;
                       nb_generation := g;
                       nb_head_generation := expected_head_generation;
                       nb_envelope_digest := envelope_digest;
                       nb_target_digest := target_digest;
                       nb_bound_at := timestamp_text now |} (nonce_bindings s));
        modify (set_nonces (λ _, t));;
        mret "bound"
    end).

(** ** [create_local_admission_after_pre_marker_verify] *)

Definition execution_record (child_run_id child_job_id : Z)
    (tested_merge_sha canonical_command_digest wrapper_digest : string) : dict :=
  [("child_run_id", VInt child_run_id);
   ("child_job_id", VInt child_job_id);
   ("tested_merge_sha", VStr tested_merge_sha);
   ("canonical_command_digest", VStr canonical_command_digest);
   ("wrapper_digest", VStr wrapper_digest)].

Definition marker_core (k : string) (g : Z) (execution : dict) (started_at : string) : dict :=
  dmerge [("logical_key", VStr k); ("generation", VInt g)]
    (execution ++ [("started_at", VStr started_at)]).

Definition admission_record (k : string) (g : Z) (gate : GateRow) (owner : string) (lease_epoch : Z)
    (authority execution verifier_decision : dict) (deadline marker_core_digest : string) : dict :=
  [("logical_key", VStr k);
   ("generation", VInt g);
   ("head_generation", VInt (g_head_generation gate));
   ("owner", VStr owner);
   ("lease_epoch", VInt lease_epoch);
   ("authority", VDict authority);
   ("execution", VDict execution);
   ("verifier_decision", VDict verifier_decision);
   ("execution_deadline", VStr deadline);
   ("marker_core_digest", VStr marker_core_digest)].

(** The row of a new admission: the marker is bound to the admission digest,
    which is bound to the digest of the marker core. *)
Definition new_admission_row (env : Env) (k : string) (g : Z) (gate : GateRow) (owner : string)
    (lease_epoch : Z) (authority execution verifier_decision : dict) (deadline : string) (now : Z)
    : AdmissionRow :=
  let core := marker_core k g execution (timestamp_text now) in
  let core_digest := _digest core in
  let digest := _digest (admission_record k g gate owner lease_epoch authority execution
                           verifier_decision deadline core_digest) in
  {| ad_admission_id := uuid4 env;
     ad_admission_digest := digest;
     ad_marker_core_digest := core_digest;
     ad_marker_digest := _digest (dmerge core
       [("admission_id", VStr (uuid4 env)); ("admission_digest", VStr digest)]);
     ad_authority_json := _canonical (dmerge authority [("verifier_decision", VDict verifier_decision)]);
     ad_execution_json := _canonical execution;
     ad_started_at := timestamp_text now;
     ad_execution_deadline := deadline |}.

(** INSERT INTO admissions, with its three UNIQUE columns and the foreign key. *)
Definition insert_admission (k : string) (g : Z) (row : AdmissionRow) : M Store unit :=
  lift (bind_ints [g]);;
  s ← get;
  t ← lift (insert_row
              (unique_in ad_admission_id (ad_admission_id row) (admissions s)
               && unique_in ad_admission_digest (ad_admission_digest row) (admissions s)
               && unique_in ad_marker_digest (ad_marker_digest row) (admissions s)
               && bool_decide (is_Some (gates s !! (k, g))))
              (k, g) row (admissions s));
  modify (set_admissions (λ _, t)).

Definition pre_marker_valid (verifier_decision : dict) : bool :=
  is_true (dget "valid" verifier_decision)
  && py_eq (dget "boundary" verifier_decision) (VStr "pre-marker").

Definition create_local_admission_after_pre_marker_verify (env : Env) (k : string) (g : Z)
    (owner : string) (lease_epoch : Z) (verifier_decision authority : dict)
    (child_run_id child_job_id : Z) (tested_merge_sha canonical_command_digest wrapper_digest : string)
    (execution_deadline : datetime) : M Store Admission :=
  now ← lift (_now env);
  raise_if (negb (pre_marker_valid verifier_decision)) ControlFailure
    "admission requires a successful current pre-marker decision";;
  let execution := execution_record child_run_id child_job_id tested_merge_sha
                     canonical_command_digest wrapper_digest in
  transaction (
    gate ← _owned k g owner lease_epoch now;
    raise_if (bool_decide (is_Some (g_winner gate))
              || negb (bool_decide (g_tested_merge_sha gate = tested_merge_sha)))
      FencedError "generation already decided or tested merge mismatched";;
    lift (bind_ints [g]);;
    s ← get;
    let authority_json := _canonical (dmerge authority [("verifier_decision", VDict verifier_decision)]) in
    match admissions s !! (k, g) with
    | Some existing =>
        differs ←
          (if negb (bool_decide (ad_authority_json existing = authority_json))
              || negb (bool_decide (ad_execution_json existing = _canonical execution))
           then mret true
           else
             deadline ← lift (_timestamp execution_deadline);
             mret (negb (bool_decide (ad_execution_deadline existing = deadline))));
        raise_if differs ConflictError
          "immutable admission already exists with different authority/execution";;
        lift (_admission_from_row existing)
    | None =>
        deadline ← lift (_timestamp execution_deadline);
        let row := new_admission_row env k g gate owner lease_epoch authority execution
                     verifier_decision deadline now in
        insert_admission k g row;;
        _fault env "after_admission_insert";;
        _fault env "after_marker_insert";;
        s ← get;
        found ← lift (the_row (select_unique ad_admission_id (uuid4 env) (admissions s)));
        lift (_admission_from_row found)
    end).

Definition _require_admission (k : string) (g : Z) (admission_id admission_digest : string)
    : M Store AdmissionRow :=
  lift (bind_ints [g]);;
  s ← get;
  match admissions s !! (k, g) with
  | None => raise ControlFailure "missing, forged or mismatched local admission"
  | Some row =>
      raise_if (negb (bool_decide (ad_admission_id row = admission_id))
                || negb (bool_decide (ad_admission_digest row = admission_digest)))
        ControlFailure "missing, forged or mismatched local admission";;
      mret row
  end.

(** ** [_complete]: the one way to a terminal generation *)

Definition _outbox_key (k : string) (g : Z) (winner : Winner) (evidence_digest : string) : string :=
  k +:+ ":" +:+ str_of_Z g +:+ ":" +:+ winner_text winner +:+ ":" +:+ evidence_digest.

Definition set_terminal (winner : Winner) (result : ResultKind) (digest json : string) (now : Z)
    (r : GateRow) : GateRow := {|
  g_head_generation := g_head_generation r;
  g_base_sha := g_base_sha r;
  g_tested_merge_sha := g_tested_merge_sha r;
  g_owner := g_owner r;
  g_lease_epoch := g_lease_epoch r;
  g_lease_expires_at := g_lease_expires_at r;
  g_check_run_id := g_check_run_id r;
  g_winner := Some winner;
  g_result_kind := Some result;
  g_evidence_digest := Some digest;
  g_terminal_json := Some json;
  g_created_at := g_created_at r;
  g_updated_at := timestamp_text now;
|}.

Definition completion_payload (k : string) (g : Z) (winner : Winner) (result : ResultKind)
    (digest : string) (evidence : dict) : dict :=
  [("logical_key", VStr k);
   ("generation", VInt g);
   ("winner", VStr (winner_text winner));
   ("result_kind", VStr (result_text result));
   ("evidence_digest", VStr digest);
   ("evidence", VDict evidence)].

Definition new_outbox_row (k : string) (g : Z) (winner : Winner) (digest : string) (check_run_id : Z)
    (payload : string) (now : Z) : OutboxRow := {|
  ob_logical_key := k;
  ob_generation := g;
  ob_winner := winner;
  ob_evidence_digest := digest;
  ob_check_run_id := check_run_id;
  ob_payload_json := payload;
  ob_state := Pending;
  ob_attempts := 0;
  ob_created_at := timestamp_text now;
  ob_delivered_at := None;
|}.

Definition insert_outbox (key : string) (row : OutboxRow) : M Store unit :=
  lift (bind_ints [ob_generation row; ob_check_run_id row]);;
  s ← get;
  t ← lift (insert_row (bool_decide (is_Some (gates s !! (ob_logical_key row, ob_generation row))))
              key row (outbox s));
  modify (set_outbox (λ _, t)).

Definition _complete (env : Env) (k : string) (g : Z) (winner : Winner) (result : ResultKind)
    (evidence : dict) (now : Z) : M Store Completion :=
  let evidence_json := _canonical evidence in
  let digest := sha256_hex evidence_json in
  lift (bind_ints [g]);;
  s ← get;
  gate ← lift (the_row (gates s !! (k, g)));
  raise_if (bool_decide (is_Some (g_winner gate)) && negb (bool_decide (g_winner gate = Some winner)))
    FencedError ("winner is already " +:+ from_option winner_text "None" (g_winner gate));;
  let key := _outbox_key k g winner digest in
  match g_result_kind gate with
  | Some persisted =>
      if bool_decide (persisted = result) && bool_decide (g_evidence_digest gate = Some digest)
      then mret {| status := "idempotent"; c_winner := winner; c_result_kind := result;
                   c_evidence_digest := digest; outbox_key := key |}
      else raise ConflictError "terminal generation already has different evidence"
  | None =>
      modify (set_gates (update_row (set_terminal winner result digest evidence_json now) (k, g)));;
      _fault env "after_winner";;
      _fault env "after_terminal";;
      let payload := _canonical (completion_payload k g winner result digest evidence) in
      insert_outbox key (new_outbox_row k g winner digest (g_check_run_id gate) payload now);;
      _fault env "after_outbox";;
      mret {| status := "committed"; c_winner := winner; c_result_kind := result;
              c_evidence_digest := digest; outbox_key := key |}
  end.

Definition complete_local_success_if_authorized (env : Env) (k : string) (g : Z) (owner : string)
    (lease_epoch : Z) (admission_id admission_digest : string) (evidence : dict)
    (attestation_valid : bool) (attestation_expires_at : datetime) : M Store Completion :=
  now ← lift (_now env);
  expired ← (if negb attestation_valid then mret true
             else expires ← lift (_utc attestation_expires_at); mret (expires <=? now));
  raise_if expired FencedError "current attestation is invalid or expired at transaction time";;
  transaction (
    _owned k g owner lease_epoch now;;
    _require_admission k g admission_id admission_digest;;
    _complete env k g Local Success evidence now).

Definition expected_execution (child_run_id child_job_id : Z)
    (tested_merge_sha canonical_command_digest : string) : dict :=
  [("child_run_id", VInt child_run_id);
   ("child_job_id", VInt child_job_id);
   ("tested_merge_sha", VStr tested_merge_sha);
   ("canonical_command_digest", VStr canonical_command_digest)].

Definition is_functional_failure (evidence : dict) : bool :=
  py_eq (dget "kind" evidence) (VStr "FUNCTIONAL_FAILURE")
  && negb (py_eq (dget "conclusion" evidence) (VStr "success")).

Definition complete_local_failure_if_current (env : Env) (k : string) (g : Z) (owner : string)
    (lease_epoch : Z) (admission_id admission_digest : string) (evidence : dict)
    (terminal_at : datetime) (child_run_id child_job_id : Z)
    (tested_merge_sha canonical_command_digest : string) : M Store Completion :=
  now ← lift (_now env);
  transaction (
    _owned k g owner lease_epoch now;;
    admission ← _require_admission k g admission_id admission_digest;
    document ← lift (json_loads (ad_execution_json admission));
    let expected := expected_execution child_run_id child_job_id tested_merge_sha
                      canonical_command_digest in
    execution ← lift (match document with
                      | VDict d => Ok d
                      | _ => throw AttributeError "get"
                      end);
    raise_if (existsb (λ kv, negb (py_eq (dget kv.1 execution) kv.2)) expected) ControlFailure
      "failure evidence does not match immutable admission execution";;
    raise_if (negb (is_functional_failure evidence)) ControlFailure
      "only terminal functional failure evidence is accepted";;
    terminal ← lift (_utc terminal_at);
    deadline ← lift (_parse_timestamp (ad_execution_deadline admission));
    raise_if (deadline <? terminal) LateEvidence
      "terminal evidence is later than the persisted deadline";;
    let normalized := dmerge evidence (("terminal_at", VStr (timestamp_text terminal)) :: expected) in
    _complete env k g Local FunctionalFailure normalized now).

(** UPDATE gates SET winner='github', updated_at *)
Definition set_github (now : Z) (r : GateRow) : GateRow := {|
  g_head_generation := g_head_generation r;
  g_base_sha := g_base_sha r;
  g_tested_merge_sha := g_tested_merge_sha r;
  g_owner := g_owner r;
  g_lease_epoch := g_lease_epoch r;
  g_lease_expires_at := g_lease_expires_at r;
  g_check_run_id := g_check_run_id r;
  g_winner := Some Github;
  g_result_kind := g_result_kind r;
  g_evidence_digest := g_evidence_digest r;
  g_terminal_json := g_terminal_json r;
  g_created_at := g_created_at r;
  g_updated_at := timestamp_text now;
|}.

Definition select_github_winner (env : Env) (k : string) (g : Z) (owner : string) (lease_epoch : Z)
    : M Store string :=
  now ← lift (_now env);
  transaction (
    gate ← _owned k g owner lease_epoch now;
    match g_winner gate with
    | None =>
        modify (set_gates (update_row (set_github now) (k, g)));;
        _fault env "after_winner";;
        mret "selected"
    | Some Github => mret "idempotent"
    | Some Local => raise FencedError "winner is already local"
    end).

Definition complete_hosted_winner (env : Env) (k : string) (g : Z) (owner : string) (lease_epoch : Z)
    (evidence : dict) (hosted_predicate_valid : bool) : M Store Completion :=
  now ← lift (_now env);
  raise_if (negb hosted_predicate_valid) ControlFailure "hosted conclusion predicate failed";;
  transaction (
    gate ← _owned k g owner lease_epoch now;
    raise_if (negb (bool_decide (g_winner gate = Some Github))) FencedError
      "GitHub must be the immutable selected winner";;
    let result := if py_eq (dget "conclusion" evidence) (VStr "success")
                  then Success else FunctionalFailure in
    _complete env k g Github result evidence now).

(** ** The outbox *)

(** ORDER BY created_at, outbox_key *)
Definition outbox_before (a b : string * OutboxRow) : Prop :=
  match String.compare (ob_created_at a.2) (ob_created_at b.2) with
  | Lt => True
  | Eq => String.leb a.1 b.1 = true
  | Gt => False
  end.
#[export] Instance outbox_before_dec a b : Decision (outbox_before a b).
Proof. unfold outbox_before. destruct (String.compare _ _); apply _. Defined.

Definition pending_outbox (s : Store) : result (list (string * OutboxRow * pyval)) :=
  let rows := merge_sort outbox_before
    (List.filter (λ kr, bool_decide (ob_state kr.2 = Pending)) (map_to_list (outbox s))) in
  mapM (λ kr : string * OutboxRow, payload ← json_loads (ob_payload_json kr.2); Ok (kr, payload)) rows.

Definition set_delivered (now : Z) (r : OutboxRow) : OutboxRow := {|
  ob_logical_key := ob_logical_key r;
  ob_generation := ob_generation r;
  ob_winner := ob_winner r;
  ob_evidence_digest := ob_evidence_digest r;
  ob_check_run_id := ob_check_run_id r;
  ob_payload_json := ob_payload_json r;
  ob_state := Delivered;
  ob_attempts := ob_attempts r + 1;
  ob_created_at := ob_created_at r;
  ob_delivered_at := Some (timestamp_text now);
|}.

Definition mark_outbox_delivered (env : Env) (key observed_evidence_digest : string) : M Store string :=
  now ← lift (_now env);
  transaction (
    s ← get;
    match outbox s !! key with
    | None => raise ControlFailure "unknown outbox item"
    | Some row =>
        raise_if (negb (bool_decide (ob_evidence_digest row = observed_evidence_digest))) ConflictError
          "Check Run evidence marker differs from committed evidence";;
        if bool_decide (ob_state row = Delivered) then mret "idempotent"
        else
          modify (set_outbox (update_row (set_delivered now) key));;
          mret "delivered"
    end).

Definition add_attempt (r : OutboxRow) : OutboxRow := {|
  ob_logical_key := ob_logical_key r;
  ob_generation := ob_generation r;
  ob_winner := ob_winner r;
  ob_evidence_digest := ob_evidence_digest r;
  ob_check_run_id := ob_check_run_id r;
  ob_payload_json := ob_payload_json r;
  ob_state := ob_state r;
  ob_attempts := ob_attempts r + 1;
  ob_created_at := ob_created_at r;
  ob_delivered_at := ob_delivered_at r;
|}.

Definition record_outbox_attempt (key : string) : M Store unit :=
  transaction (
    s ← get;
    modify (set_outbox (update_row add_attempt key));;
    raise_if (negb (rowcount key (outbox s) =? 1)) ControlFailure "unknown outbox item").

(** ** Reads *)

Definition get_gate (s : Store) (k : string) (g : option Z) : result (option Gate) :=
  match g with
  | None =>
      match latest_row k (gates s) with
      | None => Ok None
      | Some (g, row) => Some <$> _gate_from_row k g row
      end
  | Some g =>
      bind_ints [g];;
      match gates s !! (k, g) with
      | None => Ok None
      | Some row => Some <$> _gate_from_row k g row
      end
  end.

Definition get_admission (s : Store) (k : string) (g : Z) : result (option Admission) :=
  bind_ints [g];;
  match admissions s !! (k, g) with
  | None => Ok None
  | Some row => Some <$> _admission_from_row row
  end.

(** ** Calls and executions *)

Inductive Call :=
  | ObserveHead (repository_id : string) (pr_number : Z) (head_sha : string)
  | Acquire (k : string) (head_generation : Z) (base_sha tested_merge_sha owner : string)
      (check_run_id lease_ttl : Z)
  | Heartbeat (k : string) (g : Z) (owner : string) (lease_epoch lease_ttl : Z)
  | BindNonce (attestation_id nonce_hash k : string) (g expected_head_generation : Z)
      (envelope_digest : string) (target : option dict)
  | CreateAdmission (k : string) (g : Z) (owner : string) (lease_epoch : Z)
      (verifier_decision authority : dict) (child_run_id child_job_id : Z)
      (tested_merge_sha canonical_command_digest wrapper_digest : string) (execution_deadline : datetime)
  | CompleteSuccess (k : string) (g : Z) (owner : string) (lease_epoch : Z)
      (admission_id admission_digest : string) (evidence : dict) (attestation_valid : bool)
      (attestation_expires_at : datetime)
  | CompleteFailure (k : string) (g : Z) (owner : string) (lease_epoch : Z)
      (admission_id admission_digest : string) (evidence : dict) (terminal_at : datetime)
      (child_run_id child_job_id : Z) (tested_merge_sha canonical_command_digest : string)
  | SelectGithub (k : string) (g : Z) (owner : string) (lease_epoch : Z)
  | CompleteHosted (k : string) (g : Z) (owner : string) (lease_epoch : Z) (evidence : dict)
      (hosted_predicate_valid : bool)
  | MarkDelivered (key observed_evidence_digest : string)
  | RecordAttempt (key : string).

Inductive Reply :=
  | RInt (n : Z) | RGate (g : Gate) | RText (s : string) | RAdmission (a : Admission)
  | RCompletion (c : Completion) | RUnit.

Definition run (env : Env) (c : Call) : M Store Reply :=
  match c with
  | ObserveHead r p h => RInt <$> observe_head r p h
  | Acquire k h b t o c l => RGate <$> acquire env k h b t o c l
  | Heartbeat k g o e l => RGate <$> heartbeat env k g o e l
  | BindNonce a n k g h d t => RText <$> bind_attestation_nonce env a n k g h d t
  | CreateAdmission k g o e v a r j t c w d =>
      RAdmission <$> create_local_admission_after_pre_marker_verify env k g o e v a r j t c w d
  | CompleteSuccess k g o e i d ev v x =>
      RCompletion <$> complete_local_success_if_authorized env k g o e i d ev v x
  | CompleteFailure k g o e i d ev ta r j t c =>
      RCompletion <$> complete_local_failure_if_current env k g o e i d ev ta r j t c
  | SelectGithub k g o e => RText <$> select_github_winner env k g o e
  | CompleteHosted k g o e ev v => RCompletion <$> complete_hosted_winner env k g o e ev v
  | MarkDelivered key d => RText <$> mark_outbox_delivered env key d
  | RecordAttempt key => (λ _, RUnit) <$> record_outbox_attempt key
  end.

(** One call of one coordinator, whatever its clock, faults and outcome.
    BEGIN IMMEDIATE serialises the transactions, so an execution of any number
    of coordinators is a sequence of steps. *)
Inductive step (s s' : Store) : Prop :=
  | step_call env c r : run env c s = (r, s') → step s s'.

Definition reachable (s : Store) : Prop := rtc step _initialize s.

End digest.
