(* ===== verification/GateStoreFacts.v ===== *)
(** * What one call does to the GateStore

    [change] is the abstract transition relation of the store: the ten ways a
    committed transaction may alter it, each with the conditions under which it
    may.  [run_change] shows that every call, whatever its arguments, clock and
    faults, is one of them; the invariants are then proved on [change]. *)

From S2P Require Import Prelude Datetime PyValue Json Digest Sql GateStore.
#[local] Open Scope Z_scope.

(** ** The fence *)

Record owned (s : Store) (k : string) (g : Z) (owner : string) (epoch now : Z) (row : GateRow) : Prop := {
  owned_current : max_value k (gates s) = Some g;
  owned_row : gates s !! (k, g) = Some row;
  owned_owner : g_owner row = owner;
  owned_epoch : g_lease_epoch row = epoch;
  owned_live : ∃ expiry, _parse_timestamp (g_lease_expires_at row) = Ok expiry ∧ now < expiry;
}.

Lemma _owned_ok k g owner epoch now s row s' :
  _owned k g owner epoch now s = (Ok row, s') ↔ s' = s ∧ owned s k g owner epoch now row ∧ in_int64 g = true.
Proof.
  split.
  - unfold _owned. intros Hr. sql_inv. split; [done|]. split; [split; eauto|done].
  - intros (-> & [Hmax Hrow Ho He (e & Hp & Hl)] & Hg). unfold _owned, mbind, M_bind, get, raise_if, lift.
    rewrite bool_decide_eq_true_2 by done. cbn.
    unfold bind_ints. cbn. rewrite Hg. cbn. rewrite Hrow. cbn.
    rewrite bool_decide_eq_true_2, He, Z.eqb_refl by done. cbn. rewrite Hp. cbn.
    rewrite (proj2 (Z.leb_gt _ _)) by done. done.
Qed.

Ltac owned_inv :=
  match goal with Ho : _owned _ _ _ _ _ _ = (Ok _, _) |- _ =>
    apply _owned_ok in Ho as (-> & Hown & ?) end.

Section digest.
Context `{Digest}.

(** ** Abstract transitions *)

Inductive change (s s' : Store) : Prop :=
  | change_none : s' = s → change s s'
  | change_head r p row :
      match heads s !! (r, p) with
      | None => hd_generation row = 1
      | Some old => hd_generation row = hd_generation old + 1 ∧ hd_sha row ≠ hd_sha old
      end →
      s' = set_heads (<[(r, p) := row]>) s → change s s'
  | change_new_gate k g head base merge owner check expires now :
      match latest_row k (gates s) with
      | None => g = 1
      | Some (g', row) => g = g' + 1 ∧ same_tuple head base merge row = false
      end →
      gates s !! (k, g) = None → 0 < g → 0 < head → now < expires →
      valid_instant expires → in_int64 g = true →
      s' = set_gates (<[(k, g) := new_gate_row head base merge owner check expires now]>) s →
      change s s'
  | change_lease k g row owner epoch expires now :
      max_value k (gates s) = Some g → gates s !! (k, g) = Some row →
      (∃ expiry, _parse_timestamp (g_lease_expires_at row) = Ok expiry ∧
        ((owner = g_owner row ∧ epoch = g_lease_epoch row ∧ now < expiry) ∨
         (epoch = g_lease_epoch row + 1 ∧ expiry ≤ now ∧ now < expires ∧
          (g_winner row = None ∨ owner = g_owner row)))) →
      valid_instant expires →
      s' = set_gates (<[(k, g) := set_lease owner epoch expires now row]>) s → change s s'
  | change_nonce a n row :
      nonce_bindings s !! (a, n) = None →
      (∃ gate, gates s !! (nb_logical_key row, nb_generation row) = Some gate ∧
         g_head_generation gate = nb_head_generation row) →
      s' = set_nonces (<[(a, n) := row]>) s → change s s'
  | change_admission k g owner epoch now gate row env authority execution decision deadline :
      owned s k g owner epoch now gate → g_winner gate = None →
      pre_marker_valid decision = true →
      admissions s !! (k, g) = None →
      (∀ kg r, admissions s !! kg = Some r → ad_admission_id r ≠ ad_admission_id row) →
      valid_instant now → valid_instant deadline →
      row = new_admission_row env k g gate owner epoch authority execution decision
              (timestamp_text deadline) now →
      s' = set_admissions (<[(k, g) := row]>) s → change s s'
  | change_github k g owner epoch now row :
      owned s k g owner epoch now row → g_winner row = None →
      s' = set_gates (<[(k, g) := set_github now row]>) s → change s s'
  | change_complete k g owner epoch now row winner result evidence :
      owned s k g owner epoch now row → g_result_kind row = None →
      match winner with
      | Github => g_winner row = Some Github
      | Local => (g_winner row = None ∨ g_winner row = Some Local) ∧
          ∃ admission, admissions s !! (k, g) = Some admission ∧
            (result = FunctionalFailure → ∃ terminal deadline evidence0 expected,
               _parse_timestamp (ad_execution_deadline admission) = Ok deadline ∧ terminal ≤ deadline ∧
               valid_instant terminal ∧ ("terminal_at" ∉ expected.*1) ∧
               evidence = dmerge evidence0 (("terminal_at", VStr (timestamp_text terminal)) :: expected))
      end →
      outbox s !! _outbox_key k g winner (_digest evidence) = None →
      s' = set_outbox (<[_outbox_key k g winner (_digest evidence) :=
              new_outbox_row k g winner (_digest evidence) (g_check_run_id row)
                (_canonical (completion_payload k g winner result (_digest evidence) evidence)) now]>)
            (set_gates (<[(k, g) := set_terminal winner result (_digest evidence)
                                      (_canonical evidence) now row]>) s) →
      change s s'
  | change_delivered key row now :
      outbox s !! key = Some row → ob_state row = Pending →
      s' = set_outbox (<[key := set_delivered now row]>) s → change s s'
  | change_attempt key row :
      outbox s !! key = Some row →
      s' = set_outbox (<[key := add_attempt row]>) s → change s s'.

(** ** Helpers *)

Lemma set_heads_update f rp row s :
  heads s !! rp = Some row → set_heads (update_row f rp) s = set_heads (<[rp := f row]>) s.
Proof. intros Hrow. unfold set_heads. by rewrite (update_row_insert f _ row). Qed.

Lemma set_gates_update f kg row s :
  gates s !! kg = Some row → set_gates (update_row f kg) s = set_gates (<[kg := f row]>) s.
Proof. intros Hrow. unfold set_gates. by rewrite (update_row_insert f _ row). Qed.

Lemma set_outbox_update f key row s :
  outbox s !! key = Some row → set_outbox (update_row f key) s = set_outbox (<[key := f row]>) s.
Proof. intros Hrow. unfold set_outbox. by rewrite (update_row_insert f _ row). Qed.

(** A call that raises leaves the store as it found it. *)
Lemma run_raise env c s e s' : run env c s = (Raise e, s') → s' = s.
Proof.
  revert s e s'. change (atomic (run env c)).
  destruct c; cbn [run]; apply atomic_fmap;
    unfold observe_head, acquire, heartbeat, bind_attestation_nonce,
      create_local_admission_after_pre_marker_verify, complete_local_success_if_authorized,
      complete_local_failure_if_current, select_github_winner, complete_hosted_winner,
      mark_outbox_delivered, record_outbox_attempt; eauto 20 with ci.
Qed.

(** ** One lemma per method *)

Lemma _utc_valid value t : _utc value = Ok t → valid_instant t.
Proof. unfold _utc. destruct value; [done|]. case_decide; naive_solver. Qed.

Lemma _timestamp_ok value t :
  _timestamp value = Ok t → ∃ i, valid_instant i ∧ t = timestamp_text i.
Proof.
  unfold _timestamp, fmap, result_fmap. destruct (_utc value) eqn:E; [|done].
  apply _utc_valid in E. naive_solver.
Qed.

Lemma dt_add_valid t d u : dt_add t d = Ok u → u = t + d ∧ valid_instant u.
Proof. unfold dt_add, throw. case_decide; naive_solver. Qed.

Lemma the_row_ok {A} (o : option A) a : the_row o = Ok a ↔ o = Some a.
Proof. unfold the_row, throw. destruct o; naive_solver. Qed.

Lemma _gate_ok k g s gate s' :
  _gate k g s = (Ok gate, s') →
  s' = s ∧ ∃ row, gates s !! (k, g) = Some row ∧ _gate_from_row k g row = Ok gate.
Proof.
  unfold _gate. intros Hr. sql_inv. split; [done|].
  match goal with Hr : the_row _ = Ok _ |- _ => apply the_row_ok in Hr end. eauto.
Qed.

Lemma insert_gate_ok k g row s u s' :
  insert_gate k g row s = (Ok u, s') →
  gates s !! (k, g) = None ∧ 0 < g ∧ 0 < g_head_generation row ∧ in_int64 g = true ∧
  s' = set_gates (<[(k, g) := row]>) s.
Proof. unfold insert_gate. intros Hr. sql_inv. done. Qed.

Lemma observe_head_change r p h s n s' : observe_head r p h s = (Ok n, s') → change s s'.
Proof.
  unfold observe_head. intros Hr. sql_inv.
  - by apply change_none.
  - erewrite set_heads_update by eassumption. eapply change_head; [|reflexivity].
    match goal with E : heads _ !! _ = _ |- _ => rewrite E end. split; [done|]. cbn. congruence.
  - eapply change_head; [|reflexivity]. match goal with E : heads _ !! _ = _ |- _ => rewrite E end. done.
Qed.

(** The two refusals of [acquire] leave two cases: the caller's own live lease
    with its epoch, or an expired lease with the next epoch. *)
Lemma lease_choice row o now expiry :
  negb (bool_decide (g_owner row = o)) && (now <? expiry) = false →
  bool_decide (is_Some (g_winner row)) && negb (bool_decide (g_owner row = o)) = false →
  let epoch := if negb (bool_decide (g_owner row = o)) || negb (now <? expiry)
               then g_lease_epoch row + 1 else g_lease_epoch row in
  (now < expiry ∧ g_owner row = o ∧ epoch = g_lease_epoch row) ∨
  (expiry ≤ now ∧ (g_winner row = None ∨ g_owner row = o) ∧ epoch = g_lease_epoch row + 1).
Proof.
  destruct (Z.ltb_spec now expiry); case_bool_decide; cbn; rewrite ?andb_false_r, ?andb_true_r;
    try done; intros _ Hw.
  - by left.
  - right. auto.
  - right. bool_inv. apply eq_None_not_Some in Hw. auto.
Qed.

Lemma acquire_change env k h b m o c l s gate s' :
  acquire env k h b m o c l s = (Ok gate, s') → change s s'.
Proof.
  unfold acquire. intros Hr. sql_inv;
    repeat match goal with
    | Hg : _gate _ _ _ = _ |- _ => apply _gate_ok in Hg as [-> _]
    | Hi : insert_gate _ _ _ _ = _ |- _ => apply insert_gate_ok in Hi as (? & ? & ? & ? & ->)
    | Hd : dt_add _ _ = _ |- _ => apply dt_add_valid in Hd as [-> ?]
    end.
  - match goal with E : latest_row _ _ = _ |- _ => apply latest_row_some in E as [Hrow Hmax] end.
    erewrite set_gates_update by eassumption.
    eapply change_lease; [by apply max_value_some; eauto|eassumption| |eassumption|reflexivity].
    eexists. split; [eassumption|].
    match goal with Hc : _ && (_ <? _) = false, Hw : bool_decide _ && _ = false |- _ =>
      destruct (lease_choice _ _ _ _ Hc Hw) as [(? & <- & ->)|(? & [?|<-] & ->)] end;
      [by left|right..]; split_and!; (done || lia || (left; done) || (right; done)).
  - match goal with |- context [new_gate_row _ _ _ _ _ (?now + _) _] =>
      apply (change_new_gate _ _ k (z + 1) h b m o c (now + l) now) end; try done; [|lia].
    match goal with E : latest_row _ _ = _ |- _ => by rewrite E end.
  - match goal with |- context [new_gate_row _ _ _ _ _ (?now + _) _] =>
      apply (change_new_gate _ _ k 1 h b m o c (now + l) now) end; try done; [|lia].
    match goal with E : latest_row _ _ = _ |- _ => by rewrite E end.
Qed.

Lemma heartbeat_change env k g o e l s gate s' :
  heartbeat env k g o e l s = (Ok gate, s') → change s s'.
Proof.
  unfold heartbeat. intros Hr. sql_inv.
  match goal with Ho : _owned _ _ _ _ _ _ = _ |- _ => apply _owned_ok in Ho as (-> & Hown & _) end.
  match goal with Hd : dt_add _ _ = _ |- _ => apply dt_add_valid in Hd as [-> ?] end.
  destruct Hown as [Hmax Hrow Ho He (expiry & Hp & Hl)].
  erewrite set_gates_update by eassumption.
  eapply change_lease; [eassumption|eassumption| |eassumption|reflexivity]. eauto 10.
Qed.

Lemma bind_nonce_change env a n k g h d t s x s' :
  bind_attestation_nonce env a n k g h d t s = (Ok x, s') → change s s'.
Proof.
  unfold bind_attestation_nonce. intros Hr. sql_inv; [by apply change_none|].
  eapply change_nonce; [eassumption| |reflexivity].
  match goal with Hg : match gates ?s !! ?kg with _ => _ end = false |- _ =>
    destruct (gates s !! kg) as [gate|] eqn:Eg; [|done] end.
  bool_inv. exists gate. cbn. done.
Qed.


Lemma _fault_ok env stage s u s' : _fault env stage s = (Ok u, s') → s' = s.
Proof. unfold _fault. intros Hr. sql_inv; done. Qed.

Lemma insert_admission_ok k g row s u s' :
  insert_admission k g row s = (Ok u, s') →
  admissions s !! (k, g) = None ∧
  unique_in ad_admission_id (ad_admission_id row) (admissions s) = true ∧
  s' = set_admissions (<[(k, g) := row]>) s.
Proof. unfold insert_admission. intros Hr. sql_inv. done. Qed.

Lemma create_admission_change env k g o e v a r j t c w d s ad s' :
  create_local_admission_after_pre_marker_verify env k g o e v a r j t c w d s = (Ok ad, s') →
  change s s'.
Proof.
  unfold create_local_admission_after_pre_marker_verify. intros Hr. sql_inv; owned_inv;
    try by apply change_none.
  repeat match goal with
  | Hf : _fault _ _ _ = _ |- _ => apply _fault_ok in Hf as ->
  | Hi : insert_admission _ _ _ _ = _ |- _ => apply insert_admission_ok in Hi as (? & Hu & ->)
  | Ht : _timestamp _ = Ok _ |- _ => apply _timestamp_ok in Ht as (deadline & Hdl & ->)
  | Hn : _now _ = Ok _ |- _ => apply _utc_valid in Hn
  end.
  rewrite unique_in_true in Hu.
  refine (change_admission _ _ k g o e _ _ _ env a _ v deadline Hown _ _ _ _ _ Hdl eq_refl eq_refl);
    [by apply eq_None_not_Some|assumption|assumption|exact Hu|assumption].
Qed.

Lemma insert_outbox_ok key row s u s' :
  insert_outbox key row s = (Ok u, s') →
  outbox s !! key = None ∧ s' = set_outbox (<[key := row]>) s.
Proof. unfold insert_outbox. intros Hr. sql_inv. done. Qed.

Lemma _require_admission_ok k g i d s row s' :
  _require_admission k g i d s = (Ok row, s') →
  s' = s ∧ admissions s !! (k, g) = Some row ∧ ad_admission_id row = i ∧ ad_admission_digest row = d.
Proof. unfold _require_admission. intros Hr. sql_inv. done. Qed.

Lemma compatible_winner (o : option Winner) w :
  bool_decide (is_Some o) && negb (bool_decide (o = Some w)) = false → o = None ∨ o = Some w.
Proof. destruct o as [w'|]; [|by left]. repeat case_bool_decide; naive_solver. Qed.

(** [_complete] behind the fence: the persisted outcome again, or a commit. *)
Lemma _complete_ok env k g w res ev now s c s' row :
  gates s !! (k, g) = Some row →
  _complete env k g w res ev now s = (Ok c, s') →
  (g_winner row = None ∨ g_winner row = Some w) ∧
  c_winner c = w ∧ c_result_kind c = res ∧ c_evidence_digest c = _digest ev ∧
  outbox_key c = _outbox_key k g w (_digest ev) ∧
  ((status c = "idempotent" ∧ s' = s ∧ g_result_kind row = Some res ∧
    g_evidence_digest row = Some (_digest ev)) ∨
   (status c = "committed" ∧ g_result_kind row = None ∧
    outbox s !! _outbox_key k g w (_digest ev) = None ∧
    s' = set_outbox (<[_outbox_key k g w (_digest ev) :=
              new_outbox_row k g w (_digest ev) (g_check_run_id row)
                (_canonical (completion_payload k g w res (_digest ev) ev)) now]>)
            (set_gates (<[(k, g) := set_terminal w res (_digest ev) (_canonical ev) now row]>) s))).
Proof.
  intros Hrow. unfold _complete. fold (_digest ev). intros Hr. sql_inv;
  match goal with Hg : the_row _ = Ok ?x |- _ =>
    apply the_row_ok in Hg; assert (x = row) as -> by congruence end;
  match goal with Hw : _ && _ = false |- _ => apply compatible_winner in Hw end;
  cbn [c_winner c_result_kind c_evidence_digest outbox_key status];
  repeat match goal with
  | Hf : _fault _ _ _ = _ |- _ => apply _fault_ok in Hf as ->
  | Hi : insert_outbox _ _ _ = _ |- _ => apply insert_outbox_ok in Hi as (? & ->)
  end; split_and!; try done; [by left; auto|right].
  by erewrite set_gates_update by eassumption.
Qed.

(** A completion behind the fence is a [change], given what its winner needs. *)
Lemma complete_change env k g o e w res ev now s c s' row :
  owned s k g o e now row →
  match w with
  | Github => g_winner row = Some Github
  | Local => ∃ admission, admissions s !! (k, g) = Some admission ∧
      (res = FunctionalFailure → ∃ terminal deadline evidence0 expected,
         _parse_timestamp (ad_execution_deadline admission) = Ok deadline ∧ terminal ≤ deadline ∧
         valid_instant terminal ∧ ("terminal_at" ∉ expected.*1) ∧
         ev = dmerge evidence0 (("terminal_at", VStr (timestamp_text terminal)) :: expected))
  end →
  _complete env k g w res ev now s = (Ok c, s') → change s s'.
Proof.
  intros Ho Hw Hr. pose proof (owned_row _ _ _ _ _ _ _ Ho) as Hrow.
  apply (_complete_ok _ _ _ _ _ _ _ _ _ _ row Hrow) in Hr as
    (Hwin & _ & _ & _ & _ & [(_ & -> & _)|(_ & Hres & Hout & ->)]); [by apply change_none|].
  eapply change_complete; [exact Ho|done| |done|reflexivity]. destruct w; [|done]. split; [done|].
  exact Hw.
Qed.

Lemma complete_success_change env k g o e i d ev v x s c s' :
  complete_local_success_if_authorized env k g o e i d ev v x s = (Ok c, s') → change s s'.
Proof.
  unfold complete_local_success_if_authorized. intros Hr. sql_inv; owned_inv.
  match goal with Ha : _require_admission _ _ _ _ _ = _ |- _ =>
    apply _require_admission_ok in Ha as (-> & Had & _) end.
  eapply (complete_change _ _ _ _ _ Local); [eassumption| |eassumption]. by eexists.
Qed.

Lemma complete_failure_change env k g o e i d ev ta r j t c s cm s' :
  complete_local_failure_if_current env k g o e i d ev ta r j t c s = (Ok cm, s') → change s s'.
Proof.
  unfold complete_local_failure_if_current. intros Hr. sql_inv; owned_inv.
  match goal with Ha : _require_admission _ _ _ _ _ = _ |- _ =>
    apply _require_admission_ok in Ha as (-> & Had & _) end.
  match goal with Hu : GateStore._utc _ = Ok _ |- _ => apply _utc_valid in Hu end.
  eapply (complete_change _ _ _ _ _ Local); [eassumption| |eassumption].
  eexists. split; [eassumption|]. intros _. eexists _, _, _, _. split_and!; [eassumption..| |reflexivity].
  cbn. set_solver.
Qed.

Lemma select_github_change env k g o e s x s' :
  select_github_winner env k g o e s = (Ok x, s') → change s s'.
Proof.
  unfold select_github_winner. intros Hr. sql_inv; owned_inv; [by apply change_none|].
  match goal with Hf : _fault _ _ _ = _ |- _ => apply _fault_ok in Hf as -> end.
  erewrite set_gates_update by apply Hown. by eapply change_github.
Qed.

Lemma complete_hosted_change env k g o e ev v s c s' :
  complete_hosted_winner env k g o e ev v s = (Ok c, s') → change s s'.
Proof.
  unfold complete_hosted_winner. intros Hr. sql_inv; owned_inv.
  eapply (complete_change _ _ _ _ _ Github); eauto.
Qed.

Lemma mark_delivered_change env key d s x s' :
  mark_outbox_delivered env key d s = (Ok x, s') → change s s'.
Proof.
  unfold mark_outbox_delivered. intros Hr. sql_inv; [by apply change_none|].
  erewrite set_outbox_update by eassumption. eapply change_delivered; [eassumption| |reflexivity].
  by destruct (ob_state _).
Qed.

Lemma record_attempt_change key s x s' :
  record_outbox_attempt key s = (Ok x, s') → change s s'.
Proof.
  unfold record_outbox_attempt. intros Hr. sql_inv. unfold rowcount in *.
  match goal with Hc : context [outbox ?s !! key] |- _ =>
    destruct (outbox s !! key) as [row|] eqn:Erow; [|done] end.
  erewrite set_outbox_update by eassumption. by eapply change_attempt.
Qed.

(** ** Every call is a transition *)

Lemma run_change env c s r s' : run env c s = (r, s') → change s s'.
Proof.
  destruct r as [r|e]; [|by intros ->%run_raise; apply change_none].
  destruct c; cbn [run]; intros (a & Ha & _)%fmap_ok; eauto using observe_head_change, acquire_change,
    heartbeat_change, bind_nonce_change, create_admission_change, complete_success_change,
    complete_failure_change, select_github_change, complete_hosted_change, mark_delivered_change,
    record_attempt_change.
Qed.

Lemma step_change s s' : step s s' → change s s'.
Proof. intros [env c r Hr]. by eapply run_change. Qed.
End digest.

