(* ===== verification/GateStoreInv.v ===== *)
(** * Invariants of the GateStore

    [grows]: what every execution preserves of what is already there (rows are
    never deleted, the identity of a gate is fixed, epochs increase, winners,
    results, admissions and nonce bindings are immutable).  [wf]: what holds in
    every reachable store (a terminal gate has its evidence and its outbox
    message, a message has its terminal gate, a local winner has its admission).
    Both are proved on the abstract transitions of GateStoreFacts. *)

From S2P Require Import Prelude Datetime PyValue Json Digest Sql GateStore GateStoreFacts.
#[local] Open Scope Z_scope.

(** ** Growth *)

(** A value, once there, stays. *)
Definition keeps {A} (o o' : option A) : Prop := ∀ a, o = Some a → o' = Some a.

Record row_grows (r r' : GateRow) : Prop := {
  rg_head_generation : g_head_generation r' = g_head_generation r;
  rg_base : g_base_sha r' = g_base_sha r;
  rg_merge : g_tested_merge_sha r' = g_tested_merge_sha r;
  rg_check_run : g_check_run_id r' = g_check_run_id r;
  rg_created : g_created_at r' = g_created_at r;
  rg_epoch : g_lease_epoch r ≤ g_lease_epoch r';
  rg_owner : g_owner r' ≠ g_owner r → g_lease_epoch r < g_lease_epoch r';
  rg_winner : keeps (g_winner r) (g_winner r');
  rg_result : keeps (g_result_kind r) (g_result_kind r');
  rg_digest : is_Some (g_result_kind r) → g_evidence_digest r' = g_evidence_digest r;
  rg_json : is_Some (g_result_kind r) → g_terminal_json r' = g_terminal_json r;
}.

Record message_grows (o o' : OutboxRow) : Prop := {
  mg_key : ob_logical_key o' = ob_logical_key o;
  mg_generation : ob_generation o' = ob_generation o;
  mg_winner : ob_winner o' = ob_winner o;
  mg_digest : ob_evidence_digest o' = ob_evidence_digest o;
  mg_check_run : ob_check_run_id o' = ob_check_run_id o;
  mg_payload : ob_payload_json o' = ob_payload_json o;
  mg_created : ob_created_at o' = ob_created_at o;
  mg_attempts : ob_attempts o ≤ ob_attempts o';
  mg_delivered : ob_state o = Delivered →
    ob_state o' = Delivered ∧ ob_delivered_at o' = ob_delivered_at o;
}.

Record head_grows (h h' : HeadRow) : Prop := {
  hg_generation : hd_generation h ≤ hd_generation h';
  hg_sha : hd_sha h' ≠ hd_sha h → hd_generation h < hd_generation h';
}.

(** Every row of [t] is still in [t'], related by [R]. *)
Definition table_grows {K A} `{Countable K} (R : relation A) (t t' : gmap K A) : Prop :=
  ∀ k r, t !! k = Some r → ∃ r', t' !! k = Some r' ∧ R r r'.

Record grows (s s' : Store) : Prop := {
  grows_heads : table_grows head_grows (heads s) (heads s');
  grows_gates : table_grows row_grows (gates s) (gates s');
  grows_nonces : nonce_bindings s ⊆ nonce_bindings s';
  grows_admissions : admissions s ⊆ admissions s';
  grows_outbox : table_grows message_grows (outbox s) (outbox s');
}.

#[export] Instance row_grows_preorder : PreOrder row_grows.
Proof.
  split; [intros r; split; unfold keeps; done|].
  intros r1 r2 r3 H1 H2. destruct H1 as [], H2 as []. split; try congruence; try lia.
  - intros Hne. destruct (decide (g_owner r2 = g_owner r1)); [|specialize (rg_owner0 n); lia].
    assert (g_owner r3 ≠ g_owner r2) as Hne' by congruence. specialize (rg_owner1 Hne'). lia.
  - intros w Hw. eauto.
  - intros w Hw. eauto.
  - intros Hr. rewrite rg_digest1, rg_digest0; [done..|].
    destruct Hr as [x Hr]. apply rg_result0 in Hr. by eexists.
  - intros Hr. rewrite rg_json1, rg_json0; [done..|].
    destruct Hr as [x Hr]. apply rg_result0 in Hr. by eexists.
Qed.

#[export] Instance message_grows_preorder : PreOrder message_grows.
Proof.
  split; [intros r; split; done|].
  intros r1 r2 r3 H1 H2. destruct H1 as [], H2 as []. split; try congruence; try lia.
  intros Hd. destruct (mg_delivered0 Hd) as [Hd2 ?]. destruct (mg_delivered1 Hd2). split; congruence.
Qed.

#[export] Instance head_grows_preorder : PreOrder head_grows.
Proof.
  split; [intros r; split; done|].
  intros r1 r2 r3 H1 H2. destruct H1 as [], H2 as []. split; [lia|]. intros Hne.
  destruct (decide (hd_sha r2 = hd_sha r1)); [|specialize (hg_sha0 n); lia].
  assert (hd_sha r3 ≠ hd_sha r2) as Hne' by congruence. specialize (hg_sha1 Hne'). lia.
Qed.

#[export] Instance table_grows_preorder `{Countable K} {A} (R : relation A) `{!PreOrder R} :
  PreOrder (table_grows (K := K) R).
Proof.
  split; [by intros t k r Hr; exists r|].
  intros t1 t2 t3 H1 H2 k r Hr. destruct (H1 k r Hr) as (r2 & Hr2 & ?).
  destruct (H2 k r2 Hr2) as (r3 & Hr3 & ?). exists r3. split; [done|]. by transitivity r2.
Qed.

#[export] Instance grows_preorder : PreOrder grows.
Proof.
  split; [by split|]. intros s1 s2 s3 [] []. split; by etransitivity.
Qed.

Lemma table_grows_update `{Countable K} {A} (R : relation A) `{!PreOrder R} (t : gmap K A) k r r' :
  t !! k = Some r → R r r' → table_grows R t (<[k := r']> t).
Proof.
  intros Hr HR k' x Hx. destruct (decide (k = k')) as [<-|Hne].
  - exists r'. rewrite lookup_insert_eq. split; [done|]. by simplify_eq.
  - exists x. by rewrite lookup_insert_ne.
Qed.

Lemma table_grows_insert `{Countable K} {A} (R : relation A) `{!PreOrder R} (t : gmap K A) k r :
  t !! k = None → table_grows R t (<[k := r]> t).
Proof.
  intros Hr k' x Hx. exists x. rewrite lookup_insert_ne by congruence. done.
Qed.

Lemma set_lease_grows owner epoch expires now r :
  owner = g_owner r ∧ epoch = g_lease_epoch r ∨ epoch = g_lease_epoch r + 1 →
  row_grows r (set_lease owner epoch expires now r).
Proof. intros Hle. split; unfold keeps; cbn; try done; destruct Hle as [[-> ->]| ->]; intros; (done || lia). Qed.

Lemma set_github_grows now r : g_winner r = None → row_grows r (set_github now r).
Proof. intros Hw. split; unfold keeps; cbn; try done. by rewrite Hw. Qed.

Lemma set_terminal_grows w res d j now r :
  g_winner r = None ∨ g_winner r = Some w → g_result_kind r = None →
  row_grows r (set_terminal w res d j now r).
Proof.
  intros Hw Hr. split; unfold keeps; cbn; try done.
  - destruct Hw as [-> | ->]; [done|]. by intros ? [= <-].
  - by rewrite Hr.
  - rewrite Hr. by intros [? ?].
  - rewrite Hr. by intros [? ?].
Qed.

Section digest.
Context `{Digest}.

Lemma change_grows s s' : change s s' → grows s s'.
Proof.
  intros Hc. destruct Hc as [->|r p row Hrow ->|k g head base merge owner check expires now _ Hnone _ _ _ _ _ ->
    |k g row owner epoch expires now _ Hrow (expiry & _ & Hl) _ ->|a n row Hnone _ ->
    |k g owner epoch now gate row env au ex de dl _ _ _ Hnone _ _ _ _ ->|k g owner epoch now row Ho Hw ->
    |k g owner epoch now row w res ev Ho Hres Hw Hnone ->|key row now Hrow Hst ->|key row Hrow ->];
    [reflexivity|split; cbn; try reflexivity..].
  - destruct (heads s !! (r, p)) as [old|] eqn:E; [|by apply table_grows_insert; [apply _|]].
    destruct Hrow as [Hg Hsha]. eapply table_grows_update; [apply _|exact E|]. split; intros; lia.
  - by apply table_grows_insert; [apply _|].
  - eapply table_grows_update; [apply _|exact Hrow|]. apply set_lease_grows. tauto.
  - by apply insert_subseteq.
  - by apply insert_subseteq.
  - eapply table_grows_update; [apply _|apply Ho|]. by apply set_github_grows.
  - eapply table_grows_update; [apply _|apply Ho|]. apply set_terminal_grows; [|done].
    destruct w; [by apply Hw|by right].
  - by apply table_grows_insert; [apply _|].
  - eapply table_grows_update; [apply _|exact Hrow|]. split; unfold keeps; cbn; try done; [lia|congruence].
  - eapply table_grows_update; [apply _|exact Hrow|]. split; unfold keeps; cbn; try done. lia.
Qed.

Lemma step_grows s s' : step s s' → grows s s'.
Proof. intros Hs. by apply change_grows, step_change. Qed.

Lemma steps_grow s s' : rtc step s s' → grows s s'.
Proof. induction 1 as [|s1 s2 s3 Hs _ IH]; [done|]. etransitivity; [by apply step_grows|done]. Qed.

(** ** Well-formed stores *)

Definition is_stamp (text : string) : Prop := ∃ t, valid_instant t ∧ text = timestamp_text t.

(** What a local result rests on: the admission of the generation and, for a
    failure, an end recorded in the evidence that is not after its deadline. *)
Definition local_basis (s : Store) (kg : string * Z) (res : ResultKind) (ev : dict) : Prop :=
  ∃ a, admissions s !! kg = Some a ∧
    (res = FunctionalFailure → ∃ terminal deadline,
       _parse_timestamp (ad_execution_deadline a) = Ok deadline ∧ terminal ≤ deadline ∧
       valid_instant terminal ∧ dlookup "terminal_at" ev = Some (VStr (timestamp_text terminal))).

(** The message of a terminal gate. *)
Record message_for (k : string) (g : Z) (row : GateRow) (w : Winner) (res : ResultKind) (ev : dict)
    (o : OutboxRow) : Prop := {
  mf_logical_key : ob_logical_key o = k;
  mf_generation : ob_generation o = g;
  mf_winner : ob_winner o = w;
  mf_digest : ob_evidence_digest o = _digest ev;
  mf_check_run : ob_check_run_id o = g_check_run_id row;
  mf_payload : ob_payload_json o = _canonical (completion_payload k g w res (_digest ev) ev);
}.

Record gate_wf (s : Store) (kg : string * Z) (row : GateRow) : Prop := {
  gw_generation : 0 < kg.2;
  gw_head : 0 < g_head_generation row;
  gw_epoch : 0 < g_lease_epoch row;
  gw_lease : is_stamp (g_lease_expires_at row);
  gw_previous : kg.2 = 1 ∨ is_Some (gates s !! (kg.1, kg.2 - 1));
  gw_open : g_result_kind row = None →
    g_winner row ≠ Some Local ∧ g_evidence_digest row = None ∧ g_terminal_json row = None;
  gw_terminal res : g_result_kind row = Some res → ∃ w ev o,
    g_winner row = Some w ∧ g_evidence_digest row = Some (_digest ev) ∧
    g_terminal_json row = Some (_canonical ev) ∧
    outbox s !! _outbox_key kg.1 kg.2 w (_digest ev) = Some o ∧
    message_for kg.1 kg.2 row w res ev o ∧
    (w = Local → local_basis s kg res ev);
}.

Record message_wf (s : Store) (key : string) (o : OutboxRow) : Prop := {
  mw_gate : ∃ row res, gates s !! (ob_logical_key o, ob_generation o) = Some row ∧
    g_result_kind row = Some res ∧ g_winner row = Some (ob_winner o) ∧
    g_evidence_digest row = Some (ob_evidence_digest o);
  mw_key : key = _outbox_key (ob_logical_key o) (ob_generation o) (ob_winner o) (ob_evidence_digest o);
  mw_attempts : 0 ≤ ob_attempts o;
  mw_delivered : ob_state o = Delivered ↔ is_Some (ob_delivered_at o);
}.

Record admission_wf (s : Store) (kg : string * Z) (a : AdmissionRow) : Prop := {
  aw_gate : is_Some (gates s !! kg);
  aw_started : is_stamp (ad_started_at a);
  aw_deadline : is_stamp (ad_execution_deadline a);
  aw_unique kg' a' : admissions s !! kg' = Some a' → ad_admission_id a' = ad_admission_id a → kg' = kg;
}.

Definition nonce_wf (s : Store) (row : NonceRow) : Prop :=
  ∃ gate, gates s !! (nb_logical_key row, nb_generation row) = Some gate ∧
    g_head_generation gate = nb_head_generation row.

Record wf (s : Store) : Prop := {
  wf_heads : map_Forall (λ _ h, 0 < hd_generation h) (heads s);
  wf_gates : map_Forall (gate_wf s) (gates s);
  wf_nonces : map_Forall (λ _, nonce_wf s) (nonce_bindings s);
  wf_admissions : map_Forall (admission_wf s) (admissions s);
  wf_outbox : map_Forall (message_wf s) (outbox s);
}.

(** *** Growth preserves what a row needs of the rest of the store *)

Lemma gates_grow s s' kg : grows s s' → is_Some (gates s !! kg) → is_Some (gates s' !! kg).
Proof. intros Hg [r Hr]. destruct (grows_gates _ _ Hg kg r Hr) as (r' & ? & _). eauto. Qed.

Lemma message_for_grows k g row w res ev o o' :
  message_grows o o' → message_for k g row w res ev o → message_for k g row w res ev o'.
Proof. intros [] []. split; congruence. Qed.

Lemma gate_wf_grows s s' kg row : grows s s' → gate_wf s kg row → gate_wf s' kg row.
Proof.
  intros Hg []. split; try done.
  - destruct gw_previous0; [by left|right]. by eapply gates_grow.
  - intros res Hres. destruct (gw_terminal0 res Hres) as (w & ev & o & ? & ? & ? & Ho & Hm & Hl).
    destruct (grows_outbox _ _ Hg _ _ Ho) as (o' & Ho' & Hmg). exists w, ev, o'.
    split_and!; try done; [by eapply message_for_grows|].
    intros Hw. destruct (Hl Hw) as (a & Ha & Hf). exists a. split; [|done].
    by eapply lookup_weaken, grows_admissions.
Qed.

Lemma message_wf_grows s s' key o : grows s s' → message_wf s key o → message_wf s' key o.
Proof.
  intros Hg [(row & res & Hrow & Hres & Hw & Hd) ? ? ?]. split; try done.
  destruct (grows_gates _ _ Hg _ _ Hrow) as (row' & Hrow' & Hrg). exists row', res.
  split_and!; [done|by apply (rg_result _ _ Hrg)|by apply (rg_winner _ _ Hrg)|].
  by rewrite (rg_digest _ _ Hrg).
Qed.

Lemma nonce_wf_grows s s' row : grows s s' → nonce_wf s row → nonce_wf s' row.
Proof.
  intros Hg (gate & Hgate & Hh). destruct (grows_gates _ _ Hg _ _ Hgate) as (gate' & Hgate' & Hrg).
  exists gate'. split; [done|]. by rewrite (rg_head_generation _ _ Hrg).
Qed.

Lemma wf_initialize : wf _initialize.
Proof. split; apply map_Forall_empty. Qed.

(** *** New and updated rows *)

Lemma set_lease_wf s kg owner epoch expires now row :
  gate_wf s kg row → g_lease_epoch row ≤ epoch → valid_instant expires →
  gate_wf s kg (set_lease owner epoch expires now row).
Proof.
  intros [] He Hv. split; cbn; try done; [lia|by exists expires|].
  intros res Hres. destruct (gw_terminal0 res Hres) as (w & ev & o & ? & ? & ? & ? & [] & ?).
  exists w, ev, o. by split_and!.
Qed.

Lemma new_gate_wf s k g head base merge owner check expires now :
  match latest_row k (gates s) with None => g = 1 | Some (g', row) => g = g' + 1 ∧ same_tuple head base merge row = false end →
  0 < g → 0 < head → valid_instant expires →
  gate_wf s (k, g) (new_gate_row head base merge owner check expires now).
Proof.
  intros Hl Hg Hh Hv. split; cbn; try done; [by exists expires|].
  destruct (latest_row k (gates s)) as [[g' row]|] eqn:E; [right|by left].
  destruct Hl as [-> _]. apply latest_row_some in E as [E _].
  replace (g' + 1 - 1) with g' by lia. by eexists.
Qed.

Lemma set_github_wf s kg now row :
  gate_wf s kg row → g_winner row = None → gate_wf s kg (set_github now row).
Proof.
  intros [] Hw. split; cbn; try done.
  - intros Hn. destruct (gw_open0 Hn) as (? & ? & ?). done.
  - intros res Hres. destruct (gw_terminal0 res Hres) as (w & ? & ? & ? & _). congruence.
Qed.

(** *** Every transition preserves well-formedness *)

Section preservation.
Context (s s' : Store) (Hg : grows s s') (Hwf : wf s).

Lemma heads_kept : heads s' = heads s → map_Forall (λ _ h, 0 < hd_generation h) (heads s').
Proof. intros ->. apply Hwf. Qed.

Lemma gates_kept : gates s' = gates s → map_Forall (gate_wf s') (gates s').
Proof. intros ->. eapply map_Forall_impl; [apply Hwf|]. intros; by eapply gate_wf_grows. Qed.

Lemma gates_updated kg row :
  gates s' = <[kg := row]> (gates s) → gate_wf s' kg row → map_Forall (gate_wf s') (gates s').
Proof.
  intros -> Hrow. apply map_Forall_insert_2; [done|].
  eapply map_Forall_impl; [apply Hwf|]. intros; by eapply gate_wf_grows.
Qed.

Lemma nonces_kept : nonce_bindings s' = nonce_bindings s → map_Forall (λ _, nonce_wf s') (nonce_bindings s').
Proof. intros ->. eapply map_Forall_impl; [apply Hwf|]. intros; by eapply nonce_wf_grows. Qed.

Lemma admissions_kept : admissions s' = admissions s → map_Forall (admission_wf s') (admissions s').
Proof.
  intros E. rewrite E. eapply map_Forall_impl; [apply Hwf|]. intros kg' a [].
  split; [by eapply gates_grow|done..|]. by rewrite E.
Qed.

Lemma outbox_kept : outbox s' = outbox s → map_Forall (message_wf s') (outbox s').
Proof. intros ->. eapply map_Forall_impl; [apply Hwf|]. intros; by eapply message_wf_grows. Qed.

Lemma outbox_updated key o :
  outbox s' = <[key := o]> (outbox s) → message_wf s' key o → map_Forall (message_wf s') (outbox s').
Proof.
  intros -> Ho. apply map_Forall_insert_2; [done|].
  eapply map_Forall_impl; [apply Hwf|]. intros; by eapply message_wf_grows.
Qed.
End preservation.

Ltac unchanged :=
  first [ eapply heads_kept; eassumption || reflexivity | eapply gates_kept; eassumption || reflexivity
        | eapply nonces_kept; eassumption || reflexivity
        | eapply admissions_kept; eassumption || reflexivity
        | eapply outbox_kept; eassumption || reflexivity ].

Lemma wf_gate_row s kg row : wf s → gates s !! kg = Some row → gate_wf s kg row.
Proof. intros Hwf Hrow. by eapply (wf_gates _ Hwf). Qed.

Lemma new_admission_wf s kg row s' :
  wf s → grows s s' → s' = set_admissions (<[kg := row]>) s →
  is_Some (gates s !! kg) → is_stamp (ad_started_at row) → is_stamp (ad_execution_deadline row) →
  (∀ kg' r, admissions s !! kg' = Some r → ad_admission_id r ≠ ad_admission_id row) →
  map_Forall (admission_wf s') (admissions s').
Proof.
  intros Hwf Hg -> Hgate Hst Hdl Hu. apply map_Forall_insert_2.
  - split; [by eapply gates_grow|done..|].
    cbn. intros kg' a' [[<- <-]|[Hne Ha']]%lookup_insert_Some; [done|]. intros Hid. by destruct (Hu _ _ Ha').
  - intros kg' a Ha. destruct (wf_admissions _ Hwf kg' a Ha). split; [by eapply gates_grow|done..|].
    cbn. intros kg'' a' [[<- <-]|[Hne Ha']]%lookup_insert_Some Hid; [|by eapply aw_unique0].
    by destruct (Hu _ _ Ha).
Qed.

(** Committing a result: the gate and its message, each for the other. *)
Lemma complete_wf s k g owner epoch now row w res ev s' :
  wf s → grows s s' → owned s k g owner epoch now row →
  (w = Local → local_basis s (k, g) res ev) →
  s' = set_outbox (<[_outbox_key k g w (_digest ev) :=
              new_outbox_row k g w (_digest ev) (g_check_run_id row)
                (_canonical (completion_payload k g w res (_digest ev) ev)) now]>)
            (set_gates (<[(k, g) := set_terminal w res (_digest ev) (_canonical ev) now row]>) s) →
  wf s'.
Proof.
  intros Hwf Hg Ho Hl ->. pose proof (wf_gate_row _ _ _ Hwf (owned_row _ _ _ _ _ _ _ Ho)) as Hrow.
  eapply gate_wf_grows in Hrow; [|exact Hg]. destruct Hrow.
  split; [unchanged| |unchanged|unchanged|].
  - eapply gates_updated; [exact Hg|exact Hwf|reflexivity|].
    split; try done. intros res' [= <-]. eexists w, ev, _. split_and!; try done; cbn.
    + apply lookup_insert_eq.
    + done.
  - eapply outbox_updated; [exact Hg|exact Hwf|reflexivity|].
    split; try done; cbn; [|by split; [|intros [? ?]]].
    eexists _, res. split_and!; [apply lookup_insert_eq|done..].
Qed.

Lemma change_wf s s' : change s s' → wf s → wf s'.
Proof.
  intros Hc Hwf. pose proof (change_grows s s' Hc) as Hg.
  destruct Hc as [->|r p row Hrow ->|k g head base merge owner check expires now Hl Hnone ? ? ? ? ? ->
    |k g row owner epoch expires now _ Hrow (expiry & _ & Hl) ? ->|a n row Hnone ? ->
    |k g owner epoch now gate row env au ex de dl Ho ? ? Hnone Hu ? ? -> ->|k g owner epoch now row Ho Hw ->
    |k g owner epoch now row w res ev Ho Hres Hw Hnone ?|key row now Hrow Hst ->|key row Hrow ->];
    [done|..].
  - split; [|unchanged..]. apply map_Forall_insert_2; [|apply Hwf].
    destruct (heads s !! (r, p)) as [old|] eqn:E; [|lia].
    apply (wf_heads _ Hwf) in E. lia.
  - split; [unchanged| |unchanged..]. eapply gates_updated; [exact Hg|exact Hwf|reflexivity|].
    eapply gate_wf_grows; [exact Hg|]. by apply new_gate_wf.
  - split; [unchanged| |unchanged..]. eapply gates_updated; [exact Hg|exact Hwf|reflexivity|].
    eapply gate_wf_grows; [exact Hg|]. apply set_lease_wf; [by apply wf_gate_row|lia|done].
  - split; [unchanged|unchanged| |unchanged..]. apply map_Forall_insert_2.
    + by eapply nonce_wf_grows.
    + eapply map_Forall_impl; [apply Hwf|]. intros; by eapply nonce_wf_grows.
  - split; [unchanged..| |unchanged]. eapply (new_admission_wf s (k, g)); [done|done|reflexivity|eexists; apply Ho| | |done].
    + by exists now.
    + by exists dl.
  - split; [unchanged| |unchanged..]. eapply gates_updated; [exact Hg|exact Hwf|reflexivity|].
    eapply gate_wf_grows; [exact Hg|]. apply set_github_wf; [apply wf_gate_row; [done|apply Ho]|done].
  - eapply complete_wf; try done. intros ->. destruct Hw as [_ (ad & Had & Hf)]. exists ad.
    split; [done|]. intros Hr. destruct (Hf Hr) as (t & d & ev0 & ex & ? & ? & ? & Hnin & ->).
    exists t, d. split_and!; try done. by apply dlookup_dmerge_head.
  - split; [unchanged..|]. eapply outbox_updated; [exact Hg|exact Hwf|reflexivity|].
    eapply message_wf_grows; [exact Hg|]. apply (wf_outbox _ Hwf) in Hrow as [].
    split; cbn; try done; lia.
  - split; [unchanged..|]. eapply outbox_updated; [exact Hg|exact Hwf|reflexivity|].
    eapply message_wf_grows; [exact Hg|]. apply (wf_outbox _ Hwf) in Hrow as [].
    split; cbn; try done; lia.
Qed.

Lemma reachable_wf s : reachable s → wf s.
Proof.
  intros Hr. unfold reachable in Hr. pose proof wf_initialize as Hw.
  induction Hr as [|s1 s2 s3 Hs _ IH]; [done|]. by eapply IH, change_wf, Hw; apply step_change.
Qed.
End digest.
