(* ===== verification/GateStoreProps.v ===== *)
(** * Properties of the GateStore

    Safety over executions (single winner, exactly one outbox message, fencing
    of stale coordinators, single-use nonces, immutable admissions), functional
    behaviour of the operations (acquisition, retried completion, delivery) and
    the refinement to a machine of phases. *)

From S2P Require Import Prelude Datetime PyValue Json Digest Sql GateStore GateStoreFacts GateStoreInv.
From stdpp Require Import sorting.
#[local] Open Scope Z_scope.

Section digest.
Context `{Digest}.

(** ** Calls that present a lease *)

Definition credentials (c : Call) : option (string * Z * string * Z) :=
  match c with
  | Heartbeat k g o e _ | CreateAdmission k g o e _ _ _ _ _ _ _ _
  | CompleteSuccess k g o e _ _ _ _ _ | CompleteFailure k g o e _ _ _ _ _ _ _ _
  | SelectGithub k g o e | CompleteHosted k g o e _ _ => Some (k, g, o, e)
  | _ => None
  end.

Lemma run_owned env c k g o e s r s' :
  credentials c = Some (k, g, o, e) → run env c s = (Ok r, s') →
  ∃ now row, _now env = Ok now ∧ owned s k g o e now row.
Proof.
  intros Hc Hr. destruct c; try discriminate Hc; injection Hc as -> -> -> ->;
    cbn [run] in Hr; apply fmap_ok in Hr as (a & Hr & _);
    unfold heartbeat, create_local_admission_after_pre_marker_verify,
      complete_local_success_if_authorized, complete_local_failure_if_current,
      select_github_winner, complete_hosted_winner in Hr;
    sql_inv; owned_inv; eauto.
Qed.

(** What an execution leaves of a gate it found. *)
Lemma gate_later s s' kg row :
  rtc step s s' → gates s !! kg = Some row → ∃ row', gates s' !! kg = Some row' ∧ row_grows row row'.
Proof. intros Hs%steps_grow Hrow. by apply (grows_gates _ _ Hs). Qed.

(** ** Safety over executions *)

(** C6: a generation has a single winner.  Whatever any number of coordinators
    do, with any clocks, arguments, faults and crashes: once a winner is
    recorded it never changes, nor does a result with its evidence digest and
    text, and the gate keeps its head generation, base, merge and check run. *)
Theorem single_winner s s' k g row w :
  rtc step s s' → gates s !! (k, g) = Some row → g_winner row = Some w →
  ∃ row', gates s' !! (k, g) = Some row' ∧ g_winner row' = Some w ∧
    g_check_run_id row' = g_check_run_id row ∧
    g_head_generation row' = g_head_generation row ∧
    g_base_sha row' = g_base_sha row ∧ g_tested_merge_sha row' = g_tested_merge_sha row ∧
    (∀ res, g_result_kind row = Some res →
       g_result_kind row' = Some res ∧ g_evidence_digest row' = g_evidence_digest row ∧
       g_terminal_json row' = g_terminal_json row).
Proof.
  intros Hs Hrow Hw. destruct (gate_later _ _ _ _ Hs Hrow) as (row' & Hrow' & []).
  exists row'. split_and!; eauto 10.
Qed.

(** C7: exactly one outbox message per terminal generation, and none for an
    open one.  In every reachable store a generation has a result iff it has a
    message; any two of its messages are the same row; and the message carries
    the recorded winner, evidence digest and check run, and as payload the
    canonical text of the committed evidence. *)
Theorem outbox_exactly_once s k g row :
  reachable s → gates s !! (k, g) = Some row →
  (is_Some (g_result_kind row) ↔
     ∃ key o, outbox s !! key = Some o ∧ ob_logical_key o = k ∧ ob_generation o = g) ∧
  (∀ key1 o1 key2 o2,
     outbox s !! key1 = Some o1 → ob_logical_key o1 = k → ob_generation o1 = g →
     outbox s !! key2 = Some o2 → ob_logical_key o2 = k → ob_generation o2 = g → key1 = key2) ∧
  (∀ res, g_result_kind row = Some res → ∃ w ev o,
     g_winner row = Some w ∧ g_evidence_digest row = Some (_digest ev) ∧
     g_terminal_json row = Some (_canonical ev) ∧
     outbox s !! _outbox_key k g w (_digest ev) = Some o ∧ message_for k g row w res ev o).
Proof.
  intros Hwf%reachable_wf Hrow. pose proof (wf_gate_row _ _ _ Hwf Hrow) as Hg. split_and!.
  - split.
    + intros [res Hres]. destruct (gw_terminal _ _ _ Hg res Hres) as (w & ev & o & _ & _ & _ & Ho & Hm & _).
      destruct Hm. eauto 10.
    + intros (key & o & Ho & <- & <-). apply (wf_outbox _ Hwf) in Ho as [(row' & res & Hrow' & Hres & _) _ _ _].
      assert (row' = row) as -> by congruence. by eexists.
  - intros key1 o1 key2 o2 H1 Hk1 Hg1 H2 Hk2 Hg2.
    apply (wf_outbox _ Hwf) in H1 as [(r1 & ? & Hr1 & _ & Hw1 & Hd1) -> _ _].
    apply (wf_outbox _ Hwf) in H2 as [(r2 & ? & Hr2 & _ & Hw2 & Hd2) -> _ _].
    subst. rewrite Hk2, Hg2, Hr1 in Hr2. congruence.
  - intros res Hres. destruct (gw_terminal _ _ _ Hg res Hres) as (w & ev & o & ? & ? & ? & ? & ? & _).
    eauto 10.
Qed.

(** only the current lease holder acts.  A call that presents an owner and
    an epoch and returns normally found, at its own clock reading, the latest
    generation of the logical key, held by that owner in that epoch, with an
    unexpired lease. *)
Lemma calls_are_fenced env c k g o e s r s' :
  credentials c = Some (k, g, o, e) → run env c s = (Ok r, s') →
  ∃ now row expiry, _now env = Ok now ∧
    max_value k (gates s) = Some g ∧ gates s !! (k, g) = Some row ∧
    g_owner row = o ∧ g_lease_epoch row = e ∧
    _parse_timestamp (g_lease_expires_at row) = Ok expiry ∧ now < expiry.
Proof.
  intros Hc Hr. destruct (run_owned _ _ _ _ _ _ _ _ _ Hc Hr) as (now & row & Hn & [Hm Hrow Ho He (x & ? & ?)]).
  exists now, row, x. done.
Qed.

(** C9: a coordinator that lost its lease stays fenced.  Once the owner of a
    generation has changed, every call that presents the old owner with an
    epoch it could have held raises and leaves the store unchanged, at any
    later time. *)
Theorem stale_owner_fenced env c s1 s2 s3 k g row1 row2 e r s' :
  rtc step s1 s2 → rtc step s2 s3 →
  gates s1 !! (k, g) = Some row1 → e ≤ g_lease_epoch row1 →
  gates s2 !! (k, g) = Some row2 → g_owner row2 ≠ g_owner row1 →
  credentials c = Some (k, g, g_owner row1, e) → run env c s3 = (r, s') →
  is_ok r = false ∧ s' = s3.
Proof.
  intros H12 H23 H1 He H2 Hne Hc Hr. destruct r as [r|x]; [exfalso|by apply run_raise in Hr].
  destruct (run_owned _ _ _ _ _ _ _ _ _ Hc Hr) as (now & row & _ & Ho).
  destruct (gate_later _ _ _ _ H12 H1) as (r2 & E2 & G12). assert (r2 = row2) as -> by congruence.
  destruct (gate_later _ _ _ _ H23 H2) as (row3 & E3 & G23).
  pose proof (owned_row _ _ _ _ _ _ _ Ho). assert (row3 = row) as -> by congruence.
  pose proof (owned_epoch _ _ _ _ _ _ _ Ho) as Hep. pose proof (rg_owner _ _ G12 Hne).
  pose proof (rg_epoch _ _ G23). lia.
Qed.

(** a call that raises has no effect, wherever in its transaction the
    fault, the fence or a constraint stopped it. *)
Lemma failed_call_rolls_back env c s e s' : run env c s = (Raise e, s') → s' = s.
Proof. apply run_raise. Qed.

(** a local result rests on its admission.  In every reachable store a
    generation won locally is terminal and has an admission; if it failed, the
    recorded evidence carries a terminal time that is not after the admission's
    persisted deadline. *)
Lemma local_win_admitted s k g row :
  reachable s → gates s !! (k, g) = Some row → g_winner row = Some Local →
  ∃ res ev a, g_result_kind row = Some res ∧ g_terminal_json row = Some (_canonical ev) ∧
    admissions s !! (k, g) = Some a ∧
    (res = FunctionalFailure → ∃ terminal deadline,
       _parse_timestamp (ad_execution_deadline a) = Ok deadline ∧ terminal ≤ deadline ∧
       dlookup "terminal_at" ev = Some (VStr (timestamp_text terminal))).
Proof.
  intros Hwf%reachable_wf Hrow Hw. pose proof (wf_gate_row _ _ _ Hwf Hrow) as Hg.
  destruct (g_result_kind row) as [res|] eqn:Hres; [|by destruct (gw_open _ _ _ Hg Hres)].
  destruct (gw_terminal _ _ _ Hg res Hres) as (w & ev & o & Hw' & _ & Hj & _ & _ & Hl).
  assert (w = Local) as -> by congruence. destruct (Hl eq_refl) as (a & Ha & Hf).
  exists res, ev, a. split_and!; try done. intros Hr. destruct (Hf Hr) as (t & d & ? & ? & _ & ?). eauto.
Qed.

(** a nonce serves one gate tuple.  If binding an attestation nonce
    succeeds and, after any execution, binding it succeeds again, then both
    calls name the same key, generation, head generation and envelope, and the
    same target digest, and the second changes nothing. *)
Lemma nonce_single_use env1 env2 a n k1 g1 h1 d1 t1 k2 g2 h2 d2 t2 s s1 s2 s3 r1 r2 :
  bind_attestation_nonce env1 a n k1 g1 h1 d1 t1 s = (Ok r1, s1) → rtc step s1 s2 →
  bind_attestation_nonce env2 a n k2 g2 h2 d2 t2 s2 = (Ok r2, s3) →
  k1 = k2 ∧ g1 = g2 ∧ h1 = h2 ∧ d1 = d2 ∧ _digest (default [] t1) = _digest (default [] t2) ∧
  r2 = "idempotent" ∧ s3 = s2.
Proof.
  intros H1 Hs%steps_grow H2.
  assert (∃ row, nonce_bindings s1 !! (a, n) = Some row ∧
    nonce_tuple row = (k1, g1, h1, d1, _digest (default [] t1))) as (row & Hrow & Ht).
  { unfold bind_attestation_nonce in H1. sql_inv; [by eexists|].
    eexists. split; [apply lookup_insert_eq|done]. }
  eapply lookup_weaken in Hrow; [|apply grows_nonces, Hs].
  unfold bind_attestation_nonce in H2. sql_inv; try congruence.
  match goal with Hx : nonce_tuple row = (k2, _, _, _, _) |- _ => rewrite Ht in Hx; by injection Hx end.
Qed.
(** ** Operations *)

Lemma max_value_insert (k : string) (g : Z) (t : gmap (string * Z) GateRow) row :
  (∀ g', is_Some (t !! (k, g')) → g' ≤ g) → max_value k (<[(k, g) := row]> t) = Some g.
Proof.
  intros Hmax. apply max_value_some. split; [rewrite lookup_insert_eq; by eexists|].
  intros g' [r [[? ?]|[_ Hr]]%lookup_insert_Some]; [by simplify_eq|]. apply Hmax. by eexists.
Qed.

Lemma fresh_generation (k : string) (t : gmap (string * Z) GateRow) :
  match latest_row k t with
  | None => ∀ g', is_Some (t !! (k, g')) → g' ≤ 1
  | Some (g, _) => ∀ g', is_Some (t !! (k, g')) → g' ≤ g + 1
  end.
Proof.
  destruct (latest_row k t) as [[g r]|] eqn:E.
  - apply latest_row_some in E as [_ E]. intros g' Hg'. apply E in Hg'. lia.
  - intros g' [x Hx]. by rewrite (proj1 (latest_row_none k t) E g') in Hx.
Qed.

(** The row a granted lease leaves is owned until it expires. *)
Lemma granted_owned s k g o row expires later :
  max_value k (gates s) = Some g → gates s !! (k, g) = Some row → g_owner row = o →
  g_lease_expires_at row = timestamp_text expires → valid_instant expires → later < expires →
  owned s k g o (g_lease_epoch row) later row.
Proof.
  intros Hm Hr Ho He Hv Hl. split; try done. exists expires. split; [|done].
  rewrite He. by apply parse_timestamp_text.
Qed.

Lemma _gate_from_row_ok k g row gate :
  _gate_from_row k g row = Ok gate →
  logical_key gate = k ∧ generation gate = g ∧ head_generation gate = g_head_generation row ∧
  owner gate = g_owner row ∧ lease_epoch gate = g_lease_epoch row ∧
  base_sha gate = g_base_sha row ∧ tested_merge_sha gate = g_tested_merge_sha row ∧
  winner gate = g_winner row ∧ _parse_timestamp (g_lease_expires_at row) = Ok (lease_expires_at gate).
Proof. unfold _gate_from_row. intros Hr. run_inv. done. Qed.

Lemma same_tuple_true h b m row :
  same_tuple h b m row = true →
  g_head_generation row = h ∧ g_base_sha row = b ∧ g_tested_merge_sha row = m.
Proof. unfold same_tuple. intros. bool_inv. done. Qed.

(** The gate read back from a row with lease until [expires] in a store where
    its generation is the latest. *)
Lemma granted_gate s k g row gate expires :
  gates s !! (k, g) = Some row → _gate_from_row k g row = Ok gate →
  (∀ g', is_Some (gates s !! (k, g')) → g' ≤ g) →
  g_lease_expires_at row = timestamp_text expires → valid_instant expires →
  logical_key gate = k ∧ owner gate = g_owner row ∧ head_generation gate = g_head_generation row ∧
  base_sha gate = g_base_sha row ∧ tested_merge_sha gate = g_tested_merge_sha row ∧
  lease_expires_at gate = expires ∧
  (∀ later, later < expires →
     ∃ r, owned s k g (g_owner row) (g_lease_epoch row) later r) ∧
  generation gate = g ∧ lease_epoch gate = g_lease_epoch row ∧ winner gate = g_winner row.
Proof.
  intros Hrow Hgate Hmax He Hv.
  apply _gate_from_row_ok in Hgate as (-> & -> & -> & -> & -> & -> & -> & -> & Hp).
  rewrite He in Hp. unfold _parse_timestamp in Hp. rewrite parse_timestamp_text in Hp by done.
  injection Hp as ->. split_and!; try done. intros later Hl. exists row.
  eapply granted_owned; try done. apply max_value_some. eauto.
Qed.

Ltac granted Hmax :=
  match goal with
  | Hrow' : gates _ !! _ = Some ?row, Hgate : _gate_from_row _ _ ?row = Ok _ |- _ =>
      let Hr := fresh "Hr" in
      pose proof Hrow' as Hr; cbn in Hr; rewrite lookup_insert_eq in Hr; injection Hr as <-;
      edestruct granted_gate as (-> & -> & -> & -> & -> & -> & Hown & -> & -> & ->);
        [exact Hrow'|exact Hgate| |reflexivity|done|];
      [ let Hg := fresh "Hg" in
        intros g' [? Hg]; cbn in Hg; apply lookup_insert_Some in Hg as [[? _]|[_ Hg]];
        [simplify_eq; lia|]; apply Hmax; by eexists
      | eexists; split; [eassumption|]; split_and!; try done ]
  end.

(** what acquiring grants.  A successful [acquire] returns the latest
    generation, with the requested tuple, owned by the caller: until the
    returned expiry every fence check with the returned epoch passes.  The
    generation is new (with epoch 1 and no winner) iff the tuple is not the
    latest one's; otherwise it keeps its winner, and the epoch moves by one iff
    the lease had expired, in which case a terminal generation has not changed
    hands. *)
Lemma acquire_grants env k h b m o c ttl s gate s' :
  acquire env k h b m o c ttl s = (Ok gate, s') →
  ∃ now, _now env = Ok now ∧
    logical_key gate = k ∧ owner gate = o ∧ head_generation gate = h ∧ base_sha gate = b ∧
    tested_merge_sha gate = m ∧ lease_expires_at gate = now + ttl ∧
    (∀ later, later < now + ttl →
       ∃ row, owned s' k (generation gate) o (lease_epoch gate) later row) ∧
    match latest_row k (gates s) with
    | None => generation gate = 1 ∧ lease_epoch gate = 1 ∧ winner gate = None
    | Some (g, row) =>
        if same_tuple h b m row then
          generation gate = g ∧ winner gate = g_winner row ∧
          ∃ expiry, _parse_timestamp (g_lease_expires_at row) = Ok expiry ∧
            ((now < expiry ∧ g_owner row = o ∧ lease_epoch gate = g_lease_epoch row) ∨
             (expiry ≤ now ∧ (g_winner row = None ∨ g_owner row = o) ∧
              lease_epoch gate = g_lease_epoch row + 1))
        else generation gate = g + 1 ∧ lease_epoch gate = 1 ∧ winner gate = None
    end.
Proof.
  unfold acquire. pose proof (fresh_generation k (gates s)) as Hfresh. intros Hr. sql_inv;
    repeat match goal with
    | Hg : _gate _ _ _ = _ |- _ => apply _gate_ok in Hg as (-> & row' & Hrow' & Hgate)
    | Hi : insert_gate _ _ _ _ = _ |- _ => apply insert_gate_ok in Hi as (? & ? & ? & ? & ->)
    | Hd : dt_add _ _ = _ |- _ => apply dt_add_valid in Hd as [-> ?]
    end.
  - apply latest_row_some in E as [Erow Emax].
    erewrite set_gates_update in Hrow' |- * by exact Erow.
    match goal with Hs : same_tuple _ _ _ _ = true |- _ => apply same_tuple_true in Hs as (<- & <- & <-) end.
    match goal with Hc : _ && (_ <? _) = false, Hw : bool_decide _ && _ = false |- _ =>
      pose proof (lease_choice _ _ _ _ Hc Hw) end.
    granted Emax. eexists. split; [eassumption|done].
  - granted Hfresh.
  - granted Hfresh.
Qed.
(** what acquiring refuses.  For the latest tuple of a reachable store, a
    caller who is not the owner gets a [ConflictError], and no effect, while
    the lease is live, and at any time once a winner is recorded. *)
Lemma acquire_refuses env k h b m o c ttl s g row now :
  reachable s → _now env = Ok now → 0 < ttl → valid_instant (now + ttl) →
  latest_row k (gates s) = Some (g, row) → same_tuple h b m row = true → g_owner row ≠ o →
  (∃ expiry, _parse_timestamp (g_lease_expires_at row) = Ok expiry ∧ now < expiry) ∨ is_Some (g_winner row) →
  ∃ msg, acquire env k h b m o c ttl s = (Raise (Exn ConflictError msg), s).
Proof.
  intros Hwf%reachable_wf Hnow Httl Hv Hl Ht Ho Hbusy. pose proof Hl as Hrow.
  apply latest_row_some in Hrow as [Hrow _].
  destruct (gw_lease _ _ _ (wf_gate_row _ _ _ Hwf Hrow)) as (e & He & Etext).
  assert (_parse_timestamp (g_lease_expires_at row) = Ok e) as Hp
    by (rewrite Etext; by apply parse_timestamp_text).
  assert (g_owner row ≠ o → negb (bool_decide (g_owner row = o)) = true) as Hother
    by (intros; by rewrite bool_decide_eq_false_2).
  unfold acquire. rewrite (eval_lift _ _ _ now) by done.
  rewrite (eval_lift _ _ _ (now + ttl)) by (unfold dt_add; by rewrite decide_True).
  rewrite eval_pass by (by apply Z.leb_gt).
  destruct (now <? e) eqn:Hlive; eexists; eapply eval_transaction_raise;
    rewrite eval_get; cbv zeta; apply eval_run_raise with (s' := s);
    rewrite Hl, Ht, (eval_lift _ _ _ e) by done; cbv zeta.
  - rewrite eval_stop; [done|]. by rewrite Hother, Hlive.
  - rewrite eval_pass by (by rewrite Hlive, andb_false_r).
    rewrite eval_stop; [done|]. rewrite Hother, andb_true_r by done. apply bool_decide_eq_true.
    destruct Hbusy as [(x & Hx & Hlt)|]; [|done]. apply Z.ltb_ge in Hlive.
    assert (x = e) by congruence. lia.
Qed.

(** one admission per generation.  If creating an admission succeeds and,
    after any execution, creating one for the same generation succeeds again,
    the second call returns the very same admission and changes nothing. *)
Lemma admission_unique env1 env2 k g o1 e1 v1 a1 r1 j1 t1 c1 w1 d1 o2 e2 v2 a2 r2 j2 t2 c2 w2 d2
    s s1 s2 s3 ad1 ad2 :
  create_local_admission_after_pre_marker_verify env1 k g o1 e1 v1 a1 r1 j1 t1 c1 w1 d1 s = (Ok ad1, s1) →
  rtc step s1 s2 →
  create_local_admission_after_pre_marker_verify env2 k g o2 e2 v2 a2 r2 j2 t2 c2 w2 d2 s2 = (Ok ad2, s3) →
  ad2 = ad1 ∧ s3 = s2.
Proof.
  intros H1 Hs%steps_grow H2.
  assert (∃ row, admissions s1 !! (k, g) = Some row ∧ _admission_from_row row = Ok ad1) as (row & Hrow & Had).
  { unfold create_local_admission_after_pre_marker_verify in H1. sql_inv; owned_inv; eauto.
    match goal with Hf : the_row _ = Ok _ |- _ => apply the_row_ok in Hf end.
    repeat match goal with
    | Hf : _fault _ _ _ = _ |- _ => apply _fault_ok in Hf as ->
    | Hi : insert_admission _ _ _ _ = _ |- _ => apply insert_admission_ok in Hi as (? & Hu & ->)
    end.
    pose proof (select_unique_insert ad_admission_id (k, g) _ _ Hu) as Hfound.
    match goal with Hf : select_unique _ _ _ = Some ?r |- _ =>
      pose proof (eq_trans (eq_sym Hf) Hfound) as [= ->] end.
    eexists. split; [apply lookup_insert_eq|done]. }
  eapply lookup_weaken in Hrow; [|apply grows_admissions, Hs].
  unfold create_local_admission_after_pre_marker_verify in H2. sql_inv; owned_inv; try congruence.
  all: split; congruence.
Qed.

(** head generations order the observed heads.  Two observations of one
    pull request, with any execution between them, return generations that do
    not decrease, and that increase strictly when the head changed; and
    observing the current head again changes nothing. *)
Lemma observe_head_monotone r p h1 h2 s s1 s2 s3 n1 n2 :
  observe_head r p h1 s = (Ok n1, s1) → rtc step s1 s2 → observe_head r p h2 s2 = (Ok n2, s3) →
  n1 ≤ n2 ∧ (h1 ≠ h2 → n1 < n2) ∧ (s2 = s1 → h1 = h2 → n2 = n1 ∧ s3 = s2).
Proof.
  intros H1 Hs%steps_grow H2.
  assert (∃ row, heads s1 !! (r, p) = Some row ∧ hd_sha row = h1 ∧ hd_generation row = n1)
    as (row & Hrow & <- & <-).
  { unfold observe_head in H1. sql_inv; [by eexists|..]; eexists; cbn.
    - unfold update_row. rewrite lookup_alter_eq. split; [by match goal with E : heads _ !! _ = _ |- _ => rewrite E end|done].
    - by rewrite lookup_insert_eq. }
  destruct (grows_heads _ _ Hs _ _ Hrow) as (row' & Hrow' & [Hg Hsha]).
  unfold observe_head in H2. sql_inv; try congruence.
  - split_and!; [done|intros; apply Hsha; congruence|]. intros -> _. split; congruence.
  - split_and!; [lia|lia|]. intros ->. assert (row' = row) as -> by congruence. congruence.
Qed.
(** ** Completion again *)

Lemma owned_int64 k g o e now s row s' : _owned k g o e now s = (Ok row, s') → in_int64 g = true.
Proof. intros Hr. apply _owned_ok in Hr as (_ & _ & Hg). done. Qed.

(** [_complete] on a terminal generation: the same outcome is acknowledged,
    another one refused. *)
Lemma _complete_terminal env k g w res ev now s row :
  in_int64 g = true → gates s !! (k, g) = Some row → g_winner row = None ∨ g_winner row = Some w →
  is_Some (g_result_kind row) →
  _complete env k g w res ev now s =
    (if bool_decide (g_result_kind row = Some res ∧ g_evidence_digest row = Some (_digest ev))
     then Ok {| status := "idempotent"; c_winner := w; c_result_kind := res;
                c_evidence_digest := _digest ev; outbox_key := _outbox_key k g w (_digest ev) |}
     else throw ConflictError "terminal generation already has different evidence", s).
Proof.
  intros Hg Hrow Hw [res' Hres]. unfold _complete. fold (_digest ev).
  assert (bind_ints [g] = Ok tt) as Hb by (apply bind_ints_ok; by constructor).
  rewrite (eval_lift _ _ _ tt Hb), eval_get, (eval_lift _ _ _ row) by (by rewrite Hrow).
  rewrite eval_pass by (destruct Hw as [-> | ->]; by repeat case_bool_decide). cbv zeta. rewrite Hres.
  destruct (decide (res' = res)) as [->|Hne].
  - rewrite (bool_decide_eq_true_2 (res = res)) by done. cbn [andb].
    destruct (decide (g_evidence_digest row = Some (_digest ev))) as [Hd|Hd].
    + by rewrite !bool_decide_eq_true_2.
    + rewrite !bool_decide_eq_false_2; [done| |done]. tauto.
  - rewrite (bool_decide_eq_false_2 (res' = res)) by done. cbn [andb].
    rewrite bool_decide_eq_false_2; [done|]. intros [[= ?] _]. done.
Qed.

(** retrying a completion is safe.  After a committed local success, a
    retry by the lease holder with the same evidence, while the attestation is
    valid, acknowledges the same completion without any effect; with evidence
    of another digest it is refused without any effect. *)
Lemma success_retry env env' k g o e i d ev ev' v x x' t' s s' c now' row' :
  complete_local_success_if_authorized env k g o e i d ev v x s = (Ok c, s') →
  _now env' = Ok now' → owned s' k g o e now' row' → GateStore._utc x' = Ok t' → now' < t' →
  complete_local_success_if_authorized env' k g o e i d ev true x' s'
    = (Ok {| status := "idempotent"; c_winner := c_winner c; c_result_kind := c_result_kind c;
             c_evidence_digest := c_evidence_digest c; outbox_key := outbox_key c |}, s') ∧
  (_digest ev' ≠ _digest ev →
   complete_local_success_if_authorized env' k g o e i d ev' true x' s'
     = (throw ConflictError "terminal generation already has different evidence", s')).
Proof.
  intros Hr Hn Hown' Hx Hlt. unfold complete_local_success_if_authorized in Hr. sql_inv; owned_inv.
  match goal with Ha : _require_admission _ _ _ _ _ = _ |- _ =>
    apply _require_admission_ok in Ha as (-> & Had & Hi & Hd) end.
  match goal with Hc : _complete _ _ _ _ _ _ _ _ = _ |- _ =>
    eapply _complete_ok in Hc as (Hwin & -> & -> & -> & -> & Hcases); [|apply Hown] end.
  destruct (owned_row _ _ _ _ _ _ _ Hown').
  assert (∀ a, admissions s' !! (k, g) = Some a → ad_admission_id a = i ∧ ad_admission_digest a = d) as Hadm.
  { intros a Ha. destruct Hcases as [(_ & -> & _)|(_ & _ & _ & ->)]; cbn in Ha; naive_solver. }
  assert (∃ a, admissions s' !! (k, g) = Some a) as [a Ha].
  { destruct Hcases as [(_ & -> & _)|(_ & _ & _ & ->)]; eauto. }
  assert ((g_winner row' = None ∨ g_winner row' = Some Local) ∧
    g_result_kind row' = Some Success ∧ g_evidence_digest row' = Some (_digest ev)) as (Hw' & Hr' & Hd').
  { pose proof (owned_row _ _ _ _ _ _ _ Hown') as Hrow'. pose proof (owned_row _ _ _ _ _ _ _ Hown).
    destruct Hcases as [(_ & -> & ? & ?)|(_ & _ & _ & ->)]; [naive_solver|].
    cbn in Hrow'. rewrite lookup_insert_eq in Hrow'. injection Hrow' as <-. auto. }
  assert (∀ ev0, complete_local_success_if_authorized env' k g o e i d ev0 true x' s' =
    transaction (_complete env' k g Local Success ev0 now') s') as Heval.
  { intros ev0. unfold complete_local_success_if_authorized.
    rewrite (eval_lift _ _ _ now' Hn). cbn [negb]. rewrite eval_assoc, (eval_lift _ _ _ t' Hx), eval_ret.
    rewrite eval_pass by (apply Z.leb_gt; lia). unfold transaction.
    rewrite (eval_run _ _ _ row' s') by (by apply _owned_ok).
    rewrite (eval_run _ _ _ a s'); [done|]. unfold _require_admission.
    rewrite (eval_lift _ _ _ tt) by (apply bind_ints_ok; by constructor). rewrite eval_get, Ha.
    destruct (Hadm a Ha) as [<- <-]. by rewrite eval_pass by (by rewrite !bool_decide_eq_true_2). }
  rewrite !Heval. unfold transaction.
  rewrite !(_complete_terminal _ _ _ _ _ _ _ _ row') by (done || apply Hown').
  rewrite (bool_decide_eq_true_2 (_ ∧ g_evidence_digest row' = Some (_digest ev))) by done.
  split; [done|]. intros Hne. rewrite bool_decide_eq_false_2; [done|]. intros [_ ?]. congruence.
Qed.
(** ** The outbox *)

Lemma lacks_colon_sha d : is_sha256 d = true → lacks ":" d = true.
Proof.
  unfold is_sha256, match_exactly. intros [_ Hd]%andb_true_iff.
  induction d as [|c d IH]; [done|]. cbn [lacks all_chars] in *. apply andb_true_iff in Hd as [Hc Hd].
  rewrite IH by done. destruct (Ascii.eqb_spec ":" c) as [<-|]; [by vm_compute in Hc|done].
Qed.

(** outbox keys do not collide.  For digests of the right shape, equal
    keys belong to the same logical key, generation, winner and digest, even
    if the logical keys contain colons. *)
Lemma outbox_key_identifies k1 g1 w1 d1 k2 g2 w2 d2 :
  is_sha256 d1 = true → is_sha256 d2 = true →
  _outbox_key k1 g1 w1 d1 = _outbox_key k2 g2 w2 d2 → k1 = k2 ∧ g1 = g2 ∧ w1 = w2 ∧ d1 = d2.
Proof.
  intros Hd1%lacks_colon_sha Hd2%lacks_colon_sha.
  assert (∀ n, lacks ":" (str_of_Z n) = true) as Hz by (intros; by apply lacks_str_of_Z).
  assert (∀ w, lacks ":" (winner_text w) = true) as Hw by by intros [].
  assert (∀ k g w d, _outbox_key k g w d =
    ((k +:+ String ":" (str_of_Z g)) +:+ String ":" (winner_text w)) +:+ String ":" d) as Hre.
  { intros. unfold _outbox_key. by str_norm. }
  rewrite !Hre. intros E.
  apply sep_inj_r in E as [E ->]; [|done..]. apply sep_inj_r in E as [E Ew]; [|done..].
  apply sep_inj_r in E as [-> Eg]; [|done..]. apply str_of_Z_inj in Eg.
  split_and!; [done..| |done]. by destruct w1, w2.
Qed.

(** a message is delivered once, against the committed evidence.  If
    marking a message delivered succeeds, the observed digest is the committed
    one, and any later success for the same message is idempotent, with the
    same digest and without effect. *)
Lemma delivered_once env1 env2 key d1 d2 s s1 s2 s3 r1 r2 :
  mark_outbox_delivered env1 key d1 s = (Ok r1, s1) → rtc step s1 s2 →
  mark_outbox_delivered env2 key d2 s2 = (Ok r2, s3) →
  (∃ o, outbox s !! key = Some o ∧ ob_evidence_digest o = d1) ∧
  r2 = "idempotent" ∧ d2 = d1 ∧ s3 = s2.
Proof.
  intros H1 Hs%steps_grow H2.
  assert (∃ o o1, outbox s !! key = Some o ∧ ob_evidence_digest o = d1 ∧
    outbox s1 !! key = Some o1 ∧ ob_evidence_digest o1 = d1 ∧ ob_state o1 = Delivered)
    as (o & o1 & Ho & Hd & Ho1 & Hd1 & Hst).
  { unfold mark_outbox_delivered in H1. sql_inv; [by eexists _, _|].
    match goal with E : outbox ?s !! key = Some ?o |- _ => exists o, (set_delivered x o) end.
    cbn. unfold update_row. rewrite lookup_alter_eq.
    split_and!; try done. by match goal with E : outbox _ !! key = _ |- _ => rewrite E end. }
  split; [by exists o|]. destruct (grows_outbox _ _ Hs _ _ Ho1) as (o2 & Ho2 & Hm).
  destruct (mg_delivered _ _ Hm Hst) as [Hst2 _]. pose proof (mg_digest _ _ Hm).
  unfold mark_outbox_delivered in H2. sql_inv; try congruence. split_and!; congruence.
Qed.

Lemma mapM_ok {A B} (f : A → result B) (g : A → B) l :
  (∀ x, x ∈ l → f x = Ok (g x)) → mapM f l = Ok (g <$> l).
Proof.
  induction l as [|x l IH]; [done|]. intros Hf. cbn. rewrite Hf by set_solver. cbn.
  rewrite IH by (intros; apply Hf; set_solver). done.
Qed.

Lemma fmap_pair_fst {A B} (f : A → B) l : ((λ x, (x, f x)) <$> l).*1 = l.
Proof. induction l as [|x l IH]; [done|]. cbn. by rewrite IH. Qed.

Lemma NoDup_fst_filter {A B} (p : A * B → bool) (l : list (A * B)) :
  NoDup (l.*1) → NoDup ((List.filter p l).*1).
Proof.
  induction l as [|[a b] l IH]; [done|]. cbn. intros [Ha Hl]%NoDup_cons.
  destruct (p (a, b)); [|by apply IH]. cbn. apply NoDup_cons. split; [|by apply IH].
  intros (x & Hx & Hin)%list_elem_of_fmap. apply Ha. rewrite list_elem_of_In, filter_In in Hin.
  apply list_elem_of_fmap. exists x. split; [done|]. by apply list_elem_of_In, Hin.
Qed.

(** The payload of a message as a reader sees it. *)
Definition payload_fields (o : OutboxRow) (payload : pyval) : Prop :=
  ∃ doc, payload = VDict doc ∧
    dlookup "logical_key" doc = Some (VStr (ob_logical_key o)) ∧
    dlookup "generation" doc = Some (VInt (ob_generation o)) ∧
    dlookup "winner" doc = Some (VStr (winner_text (ob_winner o))) ∧
    dlookup "evidence_digest" doc = Some (VStr (ob_evidence_digest o)).

Lemma payload_read k g row w res ev o :
  message_for k g row w res ev o →
  ∃ payload, json_loads (ob_payload_json o) = Ok payload ∧ payload_fields o payload.
Proof.
  intros [<- <- <- Hd _ ->].
  destruct (json_loads_object String.leb (completion_payload (ob_logical_key o) (ob_generation o)
    (ob_winner o) res (_digest ev) ev)) as (doc & Hload & Hkeys).
  { cbn. repeat (apply NoDup_cons; split; [set_solver|]). apply NoDup_nil_2. }
  exists (VDict doc). split; [exact Hload|]. exists doc. rewrite Hd. split_and!; [done|by rewrite Hkeys..].
Qed.

Lemma reachable_payload s key o :
  reachable s → outbox s !! key = Some o →
  ∃ payload, json_loads (ob_payload_json o) = Ok payload ∧ payload_fields o payload.
Proof.
  intros Hwf%reachable_wf Ho. pose proof Ho as Ho'.
  apply (wf_outbox _ Hwf) in Ho' as [(row & res & Hrow & Hres & Hw & Hd) Hkey _ _].
  destruct (gw_terminal _ _ _ (wf_gate_row _ _ _ Hwf Hrow) res Hres)
    as (w & ev & o' & Hw' & Hd' & _ & Ho' & Hm & _).
  assert (o' = o) as -> by (cbn in Ho'; congruence). by eapply payload_read.
Qed.

(** the pending messages can all be read.  In a reachable store
    [pending_outbox] succeeds; it returns each pending message once and no
    other, and every payload decodes to a document with the key, generation,
    winner and evidence digest of its row. *)
Lemma pending_outbox_complete s :
  reachable s → ∃ l, pending_outbox s = Ok l ∧
    (∀ key o, (key, o) ∈ l.*1 ↔ outbox s !! key = Some o ∧ ob_state o = Pending) ∧
    NoDup (l.*1.*1) ∧
    Forall (λ kp, payload_fields kp.1.2 kp.2) l.
Proof.
  intros Hr. set (pay := λ kr : string * OutboxRow, match json_loads (ob_payload_json kr.2) with Ok p => p | Raise _ => VNone end).
  set (rows := merge_sort outbox_before
    (List.filter (λ kr, bool_decide (ob_state kr.2 = Pending)) (map_to_list (outbox s)))).
  assert (Hp : rows ≡ₚ List.filter (λ kr, bool_decide (ob_state kr.2 = Pending)) (map_to_list (outbox s)))
    by apply merge_sort_Permutation.
  assert (Hin : ∀ key o, (key, o) ∈ rows ↔ outbox s !! key = Some o ∧ ob_state o = Pending).
  { intros key o. rewrite Hp, list_elem_of_In, filter_In, <- list_elem_of_In, elem_of_map_to_list.
    cbn. by rewrite bool_decide_eq_true. }
  assert (Hpay : ∀ kr, kr ∈ rows → json_loads (ob_payload_json kr.2) = Ok (pay kr) ∧ payload_fields kr.2 (pay kr)).
  { intros [key o] [Ho _]%Hin. destruct (reachable_payload _ _ _ Hr Ho) as (p & Hl & Hf).
    unfold pay. cbn. by rewrite Hl. }
  exists ((λ kr, (kr, pay kr)) <$> rows). split_and!.
  - unfold pending_outbox. fold rows. apply mapM_ok. intros kr Hkr. by rewrite (proj1 (Hpay kr Hkr)).
  - intros key o. by rewrite fmap_pair_fst, <- Hin.
  - rewrite fmap_pair_fst, Hp. apply NoDup_fst_filter, NoDup_fst_map_to_list.
  - apply Forall_fmap, Forall_forall. intros kr Hkr. by apply Hpay.
Qed.
(** ** Refinement: the machine of phases *)

(** What the store promises of a generation: it is open; or GitHub has been
    selected; or it is terminal with a winner and a result. *)
Inductive Phase :=
  | Open
  | HostedSelected
  | Terminal (w : Winner) (res : ResultKind).

Definition phase_of (row : GateRow) : Phase :=
  match g_winner row, g_result_kind row with
  | Some w, Some res => Terminal w res
  | Some Github, None => HostedSelected
  | _, _ => Open
  end.
Definition phases (s : Store) : gmap (string * Z) Phase := phase_of <$> gates s.

(** The generation [g] of [k] is the latest. *)
Definition current (p : gmap (string * Z) Phase) (k : string) (g : Z) : Prop :=
  ∀ g', is_Some (p !! (k, g')) → g' ≤ g.

Inductive phase_step (p p' : gmap (string * Z) Phase) : Prop :=
  | phase_stutter : p' = p → phase_step p p'
  | phase_new k g :
      p !! (k, g) = None → g = 1 ∨ is_Some (p !! (k, g - 1)) → current p k g →
      p' = <[(k, g) := Open]> p → phase_step p p'
  | phase_select k g :
      p !! (k, g) = Some Open → current p k g →
      p' = <[(k, g) := HostedSelected]> p → phase_step p p'
  | phase_local k g res :
      p !! (k, g) = Some Open → current p k g →
      p' = <[(k, g) := Terminal Local res]> p → phase_step p p'
  | phase_hosted k g res :
      p !! (k, g) = Some HostedSelected → current p k g →
      p' = <[(k, g) := Terminal Github res]> p → phase_step p p'.

Lemma phases_insert s k g row : phases (set_gates (<[(k, g) := row]>) s) = <[(k, g) := phase_of row]> (phases s).
Proof. unfold phases. cbn. by rewrite fmap_insert. Qed.

Lemma phases_outbox f s : phases (set_outbox f s) = phases s.
Proof. done. Qed.

Lemma phases_lookup s kg : phases s !! kg = phase_of <$> gates s !! kg.
Proof. apply lookup_fmap. Qed.

Lemma current_max s k g : max_value k (gates s) = Some g → current (phases s) k g.
Proof.
  intros [_ Hmax]%max_value_some g'. rewrite phases_lookup, fmap_is_Some. apply Hmax.
Qed.

(** C8: the store implements the machine of phases.  Every call of every
    coordinator, in every reachable store, is at most one step of it: a new
    generation opens next to the latest one; the latest open generation is
    decided for GitHub, or ends locally; a selected one ends hosted; and a
    terminal generation, or one that is not the latest, never moves. *)
Theorem step_refines_phases s s' :
  reachable s → step s s' → phase_step (phases s) (phases s').
Proof.
  intros Hwf%reachable_wf Hc%step_change.
  destruct Hc as [->|r p row Hrow ->|k g head base merge owner check expires now Hl Hnone ? ? ? ? ? ->
    |k g row owner epoch expires now _ Hrow _ ? ->|a n row Hnone ? ->
    |k g owner epoch now gate row env au ex de dl Ho ? ? Hnone Hu ? ? -> ->|k g owner epoch now row Ho Hw ->
    |k g owner epoch now row w res ev Ho Hres Hw Hnone ->|key row now Hrow Hst ->|key row Hrow ->];
    try by apply phase_stutter.
  - eapply phase_new; [| | |apply phases_insert].
    + by rewrite phases_lookup, Hnone.
    + destruct (latest_row k (gates s)) as [[g' row]|] eqn:E; [right|by left].
      destruct Hl as [-> _]. apply latest_row_some in E as [E _].
      rewrite phases_lookup. replace (g' + 1 - 1) with g' by lia. rewrite E. by eexists.
    + pose proof (fresh_generation k (gates s)) as Hfresh. intros g' Hg'.
      rewrite phases_lookup, fmap_is_Some in Hg'.
      destruct (latest_row k (gates s)) as [[g0 row]|]; [destruct Hl as [-> _]|subst g]; by apply Hfresh.
  - apply phase_stutter. rewrite phases_insert. apply insert_id. by rewrite phases_lookup, Hrow.
  - pose proof (owned_row _ _ _ _ _ _ _ Ho) as Hrow.
    assert (g_result_kind row = None) as Hres.
    { destruct (g_result_kind row) as [res|] eqn:E; [|done].
      destruct (gw_terminal _ _ _ (wf_gate_row _ _ _ Hwf Hrow) res E) as (? & ? & ? & ? & _). congruence. }
    eapply phase_select; [|apply current_max, Ho|rewrite phases_insert; unfold phase_of at 1; cbn].
    + rewrite phases_lookup, Hrow. cbn. unfold phase_of. by rewrite Hw.
    + by rewrite Hres.
  - pose proof (owned_row _ _ _ _ _ _ _ Ho) as Hrow.
    rewrite phases_outbox, phases_insert.
    destruct w.
    + eapply phase_local; [|apply current_max, Ho|done]. rewrite phases_lookup, Hrow. cbn. unfold phase_of.
      rewrite Hres. destruct (gw_open _ _ _ (wf_gate_row _ _ _ Hwf Hrow) Hres) as [Hnl _].
      destruct Hw as [[-> | Hw] _]; done.
    + eapply phase_hosted; [|apply current_max, Ho|done]. rewrite phases_lookup, Hrow. cbn. unfold phase_of.
      by rewrite Hres, Hw.
Qed.

(** ** A gap *)

(** a heartbeat may end the caller's own lease.  [acquire] refuses a
    lease of non-positive length; [heartbeat] accepts one: the call succeeds
    and returns a gate whose lease is already over, and from then on every
    fence check of that owner and epoch fails. *)
Lemma heartbeat_accepts_any_ttl env k g o e ttl s now row :
  _now env = Ok now → owned s k g o e now row → in_int64 g = true →
  ttl ≤ 0 → valid_instant (now + ttl) →
  (∃ msg, acquire env k (g_head_generation row) (g_base_sha row) (g_tested_merge_sha row) o
            (g_check_run_id row) ttl s = (Raise (Exn ValueError msg), s)) ∧
  ∃ gate s', heartbeat env k g o e ttl s = (Ok gate, s') ∧ lease_expires_at gate = now + ttl ∧
    ∀ later row', now ≤ later → ¬ owned s' k g o e later row'.
Proof.
  intros Hn Ho Hg Httl Hv. split.
  - unfold acquire. rewrite (eval_lift _ _ _ now Hn).
    rewrite (eval_lift _ _ _ (now + ttl)) by (unfold dt_add; by rewrite decide_True).
    rewrite eval_stop by (by apply Z.leb_le). by eexists.
  - set (row1 := set_lease (g_owner row) (g_lease_epoch row) (now + ttl) now row).
    assert (Hp : _parse_timestamp (g_lease_expires_at row1) = Ok (now + ttl)) by by apply parse_timestamp_text.
    eexists _, (set_gates (<[(k, g) := row1]>) s). split; [|split].
    + unfold heartbeat. rewrite (eval_lift _ _ _ now Hn). apply eval_transaction.
      rewrite (eval_run _ _ _ row s) by (by apply _owned_ok).
      rewrite (eval_lift _ _ _ (now + ttl)) by (unfold dt_add; by rewrite decide_True).
      rewrite eval_modify. erewrite set_gates_update by apply Ho.
      unfold lift, _gate_from_row. fold row1. rewrite Hp. reflexivity.
    + done.
    + intros later row' Hle [_ Hrow' _ _ (x & Hx & Hlt)]. cbn in Hrow'.
      rewrite lookup_insert_eq in Hrow'. injection Hrow' as <-.
      rewrite Hp in Hx. injection Hx as <-. lia.
Qed.
End digest.

(** ** Witnesses: two short executions *)

#[local] Existing Instance ToyDigest.

Definition exec (s : Store) (ec : Env * Call) : Store := (run ec.1 ec.2 s).2.
Definition trace (l : list (Env * Call)) (s : Store) : Store := foldl exec s l.

Lemma exec_step s ec : step s (exec s ec).
Proof. destruct ec as [env c]. apply (step_call _ _ env c (run env c s).1), surjective_pairing. Qed.

Lemma trace_steps l s : rtc step s (trace l s).
Proof.
  revert s. induction l as [|ec l IH]; intros s; [apply rtc_refl|].
  eapply rtc_l; [apply exec_step|apply IH].
Qed.

Definition env_at (t : Z) : Env := {| clock := utc t; fault_hook := λ _, None; uuid4 := "u1" |}.
Definition crash_at (stage : string) (t : Z) : Env :=
  {| clock := utc t; uuid4 := "u1";
     fault_hook := λ st, if decide (st = stage) then Some (Exn InjectedFault stage) else None |}.

Definition acquire_call (o : string) : Call := Acquire "k" 1 "b" "m" o 7 (minutes 5).
Definition evidence_ok : dict := [("conclusion", VStr "success")].

(** Coordinator A acquires; its lease runs out; B takes over, selects GitHub and
    completes the hosted attempt. *)
Definition store_a : Store := trace [(env_at 0, acquire_call "A")] _initialize.
Definition store_b : Store := trace [(env_at (minutes 6), acquire_call "B")] store_a.
Definition store_selected : Store := trace [(env_at (minutes 7), SelectGithub "k" 1 "B" 2)] store_b.
Definition hosted_call : Call := CompleteHosted "k" 1 "B" 2 evidence_ok true.
Definition store_hosted : Store := trace [(env_at (minutes 8), hosted_call)] store_selected.

(** Coordinator A admits a local attempt, which fails in time. *)
Definition decision_ok : dict := [("valid", VBool true); ("boundary", VStr "pre-marker")].
Definition admit_call : Call :=
  CreateAdmission "k" 1 "A" 1 decision_ok [] 11 12 "m" "cmd" "wrap" (utc (minutes 4)).
Definition store_admitted : Store := trace [(env_at 1, admit_call)] store_a.
Definition the_digest : string :=
  from_option ad_admission_digest "" (admissions store_admitted !! ("k", 1)).
Definition store_failed : Store :=
  trace [(env_at 2, CompleteFailure "k" 1 "A" 1 "u1" the_digest
           [("kind", VStr "FUNCTIONAL_FAILURE")] (utc 2) 11 12 "m" "cmd")] store_admitted.
Definition success_env : Env := env_at 2.
Definition store_success : Store :=
  trace [(success_env, CompleteSuccess "k" 1 "A" 1 "u1" the_digest evidence_ok true (utc (minutes 1)))]
    store_admitted.

Definition gate_in (s : Store) : GateRow :=
  default (new_gate_row 0 "" "" "" 0 0 0) (gates s !! ("k", 1)).

Lemma trace_reachable l s : reachable s → reachable (trace l s).
Proof. unfold reachable. intros Hs. etransitivity; [exact Hs|apply trace_steps]. Qed.

Lemma store_hosted_reachable : reachable store_hosted.
Proof. do 4 apply trace_reachable. apply rtc_refl. Qed.

Lemma store_failed_reachable : reachable store_failed.
Proof. do 3 apply trace_reachable. apply rtc_refl. Qed.

Lemma single_winner_witness :
  ∃ row', gates store_hosted !! ("k", 1) = Some row' ∧ g_winner row' = Some Github.
Proof.
  destruct (single_winner store_selected store_hosted "k" 1 (gate_in store_selected) Github)
    as (row' & Hrow' & Hw & _).
  - apply (trace_steps [(env_at (minutes 8), hosted_call)]).
  - vm_compute. reflexivity.
  - vm_compute. reflexivity.
  - exists row'. split; [exact Hrow'|exact Hw].
Defined.

Lemma outbox_exactly_once_witness :
  is_Some (g_result_kind (gate_in store_hosted)) ∧ size (outbox store_hosted) = 1%nat ∧
  ∃ key o, outbox store_hosted !! key = Some o ∧ ob_logical_key o = "k" ∧ ob_generation o = 1.
Proof.
  split; [eexists; vm_compute; reflexivity|]. split; [vm_compute; reflexivity|].
  apply (proj1 (outbox_exactly_once store_hosted "k" 1 (gate_in store_hosted)
    store_hosted_reachable ltac:(vm_compute; reflexivity))).
  eexists. vm_compute. reflexivity.
Defined.

Lemma calls_are_fenced_witness : ∃ row, gates store_selected !! ("k", 1) = Some row ∧ g_owner row = "B".
Proof.
  destruct (calls_are_fenced (env_at (minutes 8)) hosted_call "k" 1 "B" 2 store_selected
    (default RUnit (match (run (env_at (minutes 8)) hosted_call store_selected).1 with Ok r => Some r | _ => None end))
    store_hosted) as (now & row & x & _ & _ & Hrow & Ho & _).
  - reflexivity.
  - vm_compute. reflexivity.
  - exists row. split; [exact Hrow|exact Ho].
Defined.

Lemma stale_owner_fenced_witness :
  is_ok (run (env_at 1) (SelectGithub "k" 1 "A" 1) store_selected).1 = false.
Proof.
  apply (stale_owner_fenced (env_at 1) (SelectGithub "k" 1 "A" 1) store_a store_b store_selected "k" 1
    (gate_in store_a) (gate_in store_b) 1 _ (run (env_at 1) (SelectGithub "k" 1 "A" 1) store_selected).2).
  - apply (trace_steps [(env_at (minutes 6), acquire_call "B")]).
  - apply (trace_steps [(env_at (minutes 7), SelectGithub "k" 1 "B" 2)]).
  - vm_compute. reflexivity.
  - vm_compute. discriminate.
  - vm_compute. reflexivity.
  - vm_compute. discriminate.
  - reflexivity.
  - apply surjective_pairing.
Defined.

Lemma failed_call_rolls_back_witness :
  (run (crash_at "after_outbox" (minutes 8)) hosted_call store_selected).2 = store_selected.
Proof.
  apply (failed_call_rolls_back (crash_at "after_outbox" (minutes 8)) hosted_call store_selected
    (Exn InjectedFault "after_outbox")).
  vm_compute. reflexivity.
Defined.

Lemma local_win_admitted_witness :
  is_Some (admissions store_failed !! ("k", 1)) ∧
  g_result_kind (gate_in store_failed) = Some FunctionalFailure.
Proof.
  destruct (local_win_admitted store_failed "k" 1 (gate_in store_failed) store_failed_reachable)
    as (res & ev & a & Hres & _ & Ha & _).
  - vm_compute. reflexivity.
  - vm_compute. reflexivity.
  - split; [exists a; exact Ha|]. vm_compute. reflexivity.
Defined.

Definition nonce_call (k : string) : Call := BindNonce "att" "nonce" k 1 1 "env" None.
Definition store_bound : Store := trace [(env_at 1, nonce_call "k")] store_a.

Lemma nonce_single_use_witness :
  (bind_attestation_nonce (env_at 5) "att" "nonce" "k" 1 1 "env" (Some []) store_bound).2 = store_bound.
Proof.
  apply (nonce_single_use (env_at 1) (env_at 5) "att" "nonce" "k" 1 1 "env" None "k" 1 1 "env" (Some [])
    store_a store_bound store_bound _ "bound" "idempotent").
  - vm_compute. reflexivity.
  - apply rtc_refl.
  - vm_compute. reflexivity.
Defined.

Definition gate_of (r : result Reply) : Gate :=
  match r with
  | Ok (RGate g) => g
  | _ => {| logical_key := ""; generation := 0; head_generation := 0; owner := ""; lease_epoch := 0;
            lease_expires_at := 0; base_sha := ""; tested_merge_sha := ""; check_run_id := 0;
            winner := None; result_kind := None; evidence_digest := None |}
  end.

Lemma acquire_grants_witness :
  owner (gate_of (run (env_at (minutes 6)) (acquire_call "B") store_a).1) = "B" ∧
  lease_epoch (gate_of (run (env_at (minutes 6)) (acquire_call "B") store_a).1) = 2.
Proof.
  destruct (acquire_grants (env_at (minutes 6)) "k" 1 "b" "m" "B" 7 (minutes 5) store_a
    (gate_of (run (env_at (minutes 6)) (acquire_call "B") store_a).1) store_b) as (now & _ & _ & Ho & _).
  - vm_compute. reflexivity.
  - split; [exact Ho|]. vm_compute. reflexivity.
Defined.

Lemma store_a_reachable : reachable store_a.
Proof. apply trace_reachable. apply rtc_refl. Qed.

Lemma acquire_refuses_witness :
  ∃ msg, acquire (env_at 3) "k" 1 "b" "m" "B" 7 (minutes 5) store_a = (Raise (Exn ConflictError msg), store_a).
Proof.
  apply (acquire_refuses (env_at 3) "k" 1 "b" "m" "B" 7 (minutes 5) store_a 1 (gate_in store_a) 3).
  - exact store_a_reachable.
  - vm_compute. reflexivity.
  - done.
  - vm_compute. split; [discriminate|reflexivity].
  - vm_compute. reflexivity.
  - vm_compute. reflexivity.
  - vm_compute. discriminate.
  - left. exists (minutes 5). split; vm_compute; reflexivity.
Defined.

Definition admission_of (r : result Reply) : Admission :=
  match r with
  | Ok (RAdmission a) => a
  | _ => {| admission_id := ""; admission_digest := ""; marker_digest := ""; started_at := 0;
            execution_deadline := 0 |}
  end.
Definition first_admission : Admission := admission_of (run (env_at 1) admit_call store_a).1.

Lemma admission_unique_witness :
  (run (env_at 9) admit_call store_admitted).2 = store_admitted.
Proof.
  apply (admission_unique (env_at 1) (env_at 9) "k" 1 "A" 1 decision_ok [] 11 12 "m" "cmd" "wrap"
    (utc (minutes 4)) "A" 1 decision_ok [] 11 12 "m" "cmd" "wrap" (utc (minutes 4))
    store_a store_admitted store_admitted _ first_admission first_admission).
  - vm_compute. reflexivity.
  - apply rtc_refl.
  - vm_compute. reflexivity.
Defined.

Lemma observe_head_monotone_witness : 1 < 2.
Proof.
  apply (observe_head_monotone "r" 3 "h1" "h2" _initialize
    (observe_head "r" 3 "h1" _initialize).2 (observe_head "r" 3 "h1" _initialize).2
    (observe_head "r" 3 "h2" (observe_head "r" 3 "h1" _initialize).2).2 1 2).
  - vm_compute. reflexivity.
  - apply rtc_refl.
  - vm_compute. reflexivity.
  - discriminate.
Defined.

Definition completion_of (r : result Reply) : Completion :=
  match r with
  | Ok (RCompletion c) => c
  | _ => {| status := ""; c_winner := Local; c_result_kind := Success; c_evidence_digest := "";
            outbox_key := "" |}
  end.
Definition success_call : Call :=
  CompleteSuccess "k" 1 "A" 1 "u1" the_digest evidence_ok true (utc (minutes 1)).
Definition first_completion : Completion := completion_of (run (env_at 2) success_call store_admitted).1.

Lemma store_success_owned : owned store_success "k" 1 "A" 1 5 (gate_in store_success).
Proof.
  split; try (vm_compute; reflexivity). exists (minutes 5). split; [vm_compute; reflexivity|done].
Qed.

Lemma success_retry_witness :
  complete_local_success_if_authorized (env_at 5) "k" 1 "A" 1 "u1" the_digest evidence_ok true
    (utc (minutes 1)) store_success
  = (Ok {| status := "idempotent"; c_winner := c_winner first_completion;
           c_result_kind := c_result_kind first_completion;
           c_evidence_digest := c_evidence_digest first_completion;
           outbox_key := outbox_key first_completion |}, store_success).
Proof.
  apply (success_retry (H := ToyDigest) (env_at 2) (env_at 5) "k" 1 "A" 1 "u1" the_digest evidence_ok
    evidence_ok true (utc (minutes 1)) (utc (minutes 1)) (minutes 1) store_admitted store_success
    first_completion 5 (gate_in store_success)).
  - vm_compute. reflexivity.
  - vm_compute. reflexivity.
  - exact store_success_owned.
  - vm_compute. reflexivity.
  - done.
Defined.

Lemma outbox_key_identifies_witness :
  _outbox_key "a:1" 2 Local (sha256_hex "x") ≠ _outbox_key "a" 1 Local (sha256_hex "x").
Proof.
  intros E. destruct (outbox_key_identifies "a:1" 2 Local (sha256_hex "x") "a" 1 Local (sha256_hex "x")
    (sha256_hex_shape "x") (sha256_hex_shape "x") E) as [Hk _]. discriminate Hk.
Defined.

Definition hosted_key : string := _outbox_key "k" 1 Github (_digest evidence_ok).
Definition store_delivered : Store :=
  trace [(env_at (minutes 9), MarkDelivered hosted_key (_digest evidence_ok))] store_hosted.

Lemma delivered_once_witness :
  (mark_outbox_delivered (env_at (minutes 10)) hosted_key (_digest evidence_ok) store_delivered).2
  = store_delivered.
Proof.
  apply (delivered_once (env_at (minutes 9)) (env_at (minutes 10)) hosted_key (_digest evidence_ok)
    (_digest evidence_ok) store_hosted store_delivered store_delivered _ "delivered" "idempotent").
  - vm_compute. reflexivity.
  - apply rtc_refl.
  - vm_compute. reflexivity.
Defined.

Lemma pending_outbox_complete_witness :
  ∃ l, pending_outbox store_hosted = Ok l ∧ Forall (λ kp, payload_fields kp.1.2 kp.2) l ∧
    size (outbox store_hosted) = 1%nat.
Proof.
  destruct (pending_outbox_complete store_hosted store_hosted_reachable) as (l & Hl & _ & _ & Hf).
  exists l. split; [exact Hl|]. split; [exact Hf|]. vm_compute. reflexivity.
Defined.

Lemma store_selected_reachable : reachable store_selected.
Proof. do 3 apply trace_reachable. apply rtc_refl. Qed.

Lemma step_refines_phases_witness :
  phase_step (phases store_selected) (phases store_hosted) ∧
  phases store_selected !! ("k", 1) = Some HostedSelected ∧
  phases store_hosted !! ("k", 1) = Some (Terminal Github Success).
Proof.
  split; [|split; vm_compute; reflexivity].
  apply (step_refines_phases store_selected store_hosted).
  - exact store_selected_reachable.
  - apply (exec_step store_selected (env_at (minutes 8), hosted_call)).
Defined.

Lemma heartbeat_accepts_any_ttl_witness :
  ∃ gate s', heartbeat (env_at 9) "k" 1 "A" 1 (- seconds 0) store_a = (Ok gate, s') ∧
    lease_expires_at gate = 9.
Proof.
  destruct (heartbeat_accepts_any_ttl (env_at 9) "k" 1 "A" 1 (- seconds 0) store_a 9 (gate_in store_a))
    as (_ & gate & s' & Hr & He & _).
  - vm_compute. reflexivity.
  - split; try (vm_compute; reflexivity). exists (minutes 5). split; [vm_compute; reflexivity|done].
  - vm_compute. reflexivity.
  - vm_compute. discriminate.
  - vm_compute. split; [discriminate|reflexivity].
  - exists gate, s'. split; [exact Hr|exact He].
Defined.
