(* ===== verification/Allocation.v ===== *)
(** * Signed runner allocations (runner_jit.py: the payload contract)

    What a signed allocation and the reservation that precedes it may be:
    exact fields, content-derived labels, a single ephemeral job and a short
    claim window.  [validate_allocation_payload] keeps the order of the
    source's checks, so the first failing one decides the error. *)

From S2P Require Import Prelude Datetime PyValue PyText Json Digest Jcs Signatures.

Definition ALLOCATION_DOMAIN (version : pyval) : result string :=
  if py_eq version (VInt 1) then Ok "self-hosted-ci/runner-jit-allocation/v1"
  else if py_eq version (VInt 2) then Ok "self-hosted-ci/runner-jit-allocation/v2"
  else throw KeyError "runner_allocation_version".
Definition MAX_APPROVAL_TTL : Z := minutes 5.
Definition MAX_ALLOCATION_CLAIM_TTL : Z := minutes 15.
Definition CLAIM_SKEW : Z := seconds 30.
Definition TERMINAL_OUTCOMES : list string :=
  ["success"; "failure"; "cancel"; "timeout"; "force-cancel"; "reboot"].

(** [class ...(RunnerJitTemporalError)] *)
Definition is_temporal_error (c : exn_class) : bool :=
  bool_decide (c ∈ [RunnerJitTemporalError; ApprovalExpired; AllocationClaimExpired]).

Definition deny {A} (msg : string) : result A := throw RunnerJitError msg.
Definition deny_if (b : bool) (msg : string) : result unit := check b RunnerJitError msg.
Definition deny_late (b : bool) (msg : string) : result unit := check b RunnerJitTemporalError msg.

(** ** Character classes *)

(** [OWNER/REPO/.github/workflows/FILE@refs/heads/BRANCH] *)
Definition is_branch_char (c : ascii) : bool := is_name_char c || Ascii.eqb c "/".
Definition is_workflow_ref (s : string) : bool :=
  match
    '(owner, s) ← split_at "/" s; '(name, s) ← split_at "/" s;
    s ← strip_prefix ".github/workflows/" s; '(file, s) ← split_at "@" s;
    branch ← strip_prefix "refs/heads/" s; Some (owner, name, file, branch)
  with
  | Some (owner, name, file, branch) =>
      match_some is_name_char owner && match_some is_name_char name &&
      match_some is_name_char file && match_some is_branch_char branch
  | None => false
  end.

Definition is_label : string → bool := match_between 1 63 is_name_char.
(** [[^*\r\n]{1,100}], in code points. *)
Definition is_runner_group (s : string) : bool :=
  (1 <=? py_len s)%nat && (py_len s <=? 100)%nat && lacks "*" s &&
  lacks (ascii_of_N 13) s && lacks (ascii_of_N 10) s.
Definition is_nonce : string → bool := match_exactly 43 is_b64url.
(** [[A-Za-z0-9_. -]{1,100}] *)
Definition is_job_name : string → bool := match_between 1 100 (λ c, is_name_char c || Ascii.eqb c " ").
Definition is_transient_label (s : string) : bool :=
  match strip_prefix "wsl-jit-" s with
  | Some t => match_exactly 32 is_lower_hex t
  | None => false
  end.

Definition _validate_uuid (value : pyval) (field : string) : result string :=
  match value with
  | VStr s =>
      n ← rewrap (λ c, bool_decide (c = ValueError)) RunnerJitError
            (field +:+ " must be a canonical UUID") (uuid_parse s);
      deny_if (negb (bool_decide (uuid_text n = s))) (field +:+ " must be a lowercase canonical UUID");;
      Ok s
  | _ => deny (field +:+ " must be a UUID string")
  end.

Definition _parse_time (value : pyval) (field : string) : result Z :=
  match value with
  | VStr s =>
      match chop_z s with
      | Some s =>
          parsed ← rewrap (λ c, bool_decide (c = ValueError)) RunnerJitError (field +:+ " is invalid")
                     (fromisoformat (s +:+ "+00:00"));
          deny_if (negb (is_utc parsed) || negb (instant parsed mod US_SECOND =? 0))
            (field +:+ " must use whole UTC seconds");;
          Ok (instant parsed)
      | None => deny (field +:+ " must be canonical UTC RFC3339")
      end
  | _ => deny (field +:+ " must be canonical UTC RFC3339")
  end.

(** ** The fields *)

Definition LEGACY_RESERVATION_FIELDS : list string :=
  ["allocation_reservation_version"; "allocation_id"; "repository_id"; "repository"; "head_sha";
   "workflow_ref"; "job_name"; "authority_kind"; "runner_group"; "scale_set_name"; "labels";
   "image_fingerprint"; "nonce"; "issued_at"; "expires_at"; "max_jobs"; "ephemeral"].
Definition RESERVATION_V2_FIELDS : list string :=
  list_difference LEGACY_RESERVATION_FIELDS ["issued_at"; "expires_at"]
  ++ ["pr_number"; "base_sha"; "approval_issued_at"; "approval_expires_at"].

Definition legacy_required : list string :=
  ["runner_allocation_version"; "allocation_id"; "repository_id"; "repository"; "head_sha"; "tested_sha";
   "dispatch_sha"; "workflow_ref"; "run_id"; "run_attempt"; "job_id"; "job_name"; "authority_kind";
   "runner_group"; "scale_set_name"; "labels"; "image_fingerprint"; "nonce"; "issued_at"; "expires_at";
   "max_jobs"; "ephemeral"].
Definition v2_required : list string :=
  list_difference legacy_required ["expires_at"]
  ++ ["pr_number"; "base_sha"; "approval_issued_at"; "approval_expires_at"; "claim_deadline"].

Section allocation.
Context {D : Digest}.

(** The label of an allocation: derived from its identifier and nonce. *)
Definition scale_set_text (allocation_id nonce : string) : result string :=
  body ← canonicalize_jcs (VDict [("allocation_id", VStr allocation_id); ("nonce", VStr nonce)]);
  Ok ("wsl-jit-" +:+ (take_bytes 32 (sha256_hex body)).1).

Definition allocation_scale_set_name (payload : dict) : result string :=
  allocation_id ← _validate_uuid (dget "allocation_id" payload) "allocation_id";
  match dget "nonce" payload with
  | VStr nonce =>
      deny_if (negb (is_nonce nonce)) "nonce must be 32 bytes encoded as unpadded base64url";;
      scale_set_text allocation_id nonce
  | _ => deny "nonce must be 32 bytes encoded as unpadded base64url"
  end.

(** ** The payload *)

(** Identity of the job: everything before the labels. *)
Definition check_pr_binding (payload : dict) : result unit :=
  deny_if (negb (is_positive_int (dget "pr_number" payload))) "pr_number must be a positive integer";;
  deny_if (negb (is_str_where is_sha1 (dget "base_sha" payload))) "base_sha must be lowercase full SHA-1".

Definition check_job_identity (payload : dict) : result unit :=
  let item f := dget f payload in
  _validate_uuid (item "allocation_id") "allocation_id";;
  deny_if (negb (is_str_where is_canonical_positive (item "repository_id")))
    "repository_id must be a canonical positive integer string";;
  deny_if (negb (is_str_where is_repository (item "repository"))) "repository is invalid";;
  deny_if (negb (is_str_where is_sha1 (item "head_sha"))) "head_sha must be lowercase full SHA-1";;
  (if py_eq (item "runner_allocation_version") (VInt 2) then check_pr_binding payload else Ok tt);;
  deny_if (negb (is_str_where is_sha1 (item "tested_sha"))) "tested_sha must be lowercase full SHA-1";;
  deny_if (negb (is_str_where is_sha1 (item "dispatch_sha"))) "dispatch_sha must be lowercase full SHA-1";;
  deny_if (negb (is_str_where is_workflow_ref (item "workflow_ref")))
    "workflow_ref must identify a default-branch workflow";;
  deny_if (negb (is_str_where is_canonical_positive (item "run_id")))
    "run_id must be a canonical positive integer string";;
  deny_if (negb (is_str_where is_canonical_positive (item "job_id")))
    "job_id must be a canonical positive integer string";;
  deny_if (negb (is_positive_int (item "run_attempt"))) "run_attempt must be a positive integer";;
  deny_if (negb (is_str_where (λ s, stripped s && is_job_name s) (item "job_name"))) "job_name is invalid".

Definition check_authority_kind (payload : dict) : result unit :=
  let kind := dget "authority_kind" payload in
  let group := dget "runner_group" payload in
  if py_eq kind (VStr "personal-repository") then
    deny_if (negb (is_none group)) "personal repository allocations cannot use a runner group"
  else if py_eq kind (VStr "organization-runner-group") then
    deny_if (negb (is_str_where (λ s, stripped s && is_runner_group s) group))
      "organization allocations require an exact selected runner group"
  else deny "authority_kind is invalid".

Definition check_labels (payload : dict) : result unit :=
  let labels := dget "labels" payload in
  expected ← allocation_scale_set_name payload;
  deny_if (negb (py_eq (dget "scale_set_name" payload) (VStr expected))
           || negb (is_str_where is_transient_label (dget "scale_set_name" payload))
           || negb (py_eq labels (VList [VStr expected]))
           || negb (match labels with VList l => forallb (is_str_where is_label) l | _ => false end))
    "labels must select exactly the allocation-derived transient scale set".

Definition check_single_use (payload : dict) : result unit :=
  let item f := dget f payload in
  deny_if (negb (is_str_where is_sha256 (item "image_fingerprint"))) "image_fingerprint must be lowercase SHA-256";;
  deny_if (negb (is_str_where is_nonce (item "nonce"))) "nonce must be 32 bytes encoded as unpadded base64url";;
  deny_if (negb (py_eq (item "max_jobs") (VInt 1)) || negb (is_true (item "ephemeral")))
    "allocations must be ephemeral and limited to exactly one job".

(** The windows; the result is the instant from which and the one until which
    the allocation may be claimed. *)
Definition claim_window (payload : dict) : result (Z * Z) :=
  let item f := dget f payload in
  issued ← _parse_time (item "issued_at") "issued_at";
  if py_eq (item "runner_allocation_version") (VInt 1) then
    deadline ← _parse_time (item "expires_at") "expires_at";
    deny_late ((deadline <=? issued) || (MAX_APPROVAL_TTL <? deadline - issued))
      "legacy allocation lifetime must be positive and at most five minutes";;
    Ok (issued, deadline)
  else
    approval_issued ← _parse_time (item "approval_issued_at") "approval_issued_at";
    approval_expires ← _parse_time (item "approval_expires_at") "approval_expires_at";
    deny_late ((approval_expires <=? approval_issued) || (MAX_APPROVAL_TTL <? approval_expires - approval_issued))
      "approval lifetime must be positive and at most five minutes";;
    deadline ← _parse_time (item "claim_deadline") "claim_deadline";
    deny_late ((deadline <=? issued) || (MAX_ALLOCATION_CLAIM_TTL <? deadline - issued))
      "allocation claim lifetime must be positive and at most fifteen minutes";;
    Ok (issued, deadline).

Definition check_version (payload : dict) : result unit :=
  let version := dget "runner_allocation_version" payload in
  let legacy := py_eq version (VInt 1) in
  known ← py_in_set version [VInt 1; VInt 2];
  deny_if (negb known || negb (same_set (dkeys payload) (if legacy then legacy_required else v2_required)))
    (if legacy then "allocation payload requires exact v1 fields"
     else "allocation payload requires exact versioned fields").

Definition validate_allocation_payload (payload : dict) (now : datetime) : result unit :=
  check_version payload;;
  check_job_identity payload;;
  check_authority_kind payload;;
  check_labels payload;;
  check_single_use payload;;
  deny_late (negb (is_utc now)) "now must be timezone-aware UTC";;
  '(issued, deadline) ← claim_window payload;
  earliest ← dt_add issued (- CLAIM_SKEW);
  check ((instant now <? earliest) || (deadline <=? instant now)) AllocationClaimExpired
    "allocation claim deadline is not currently valid";;
  canonicalize_jcs (VDict payload);;
  Ok tt.

(** ** The reservation *)

(** The allocation a reservation would become, completed with fixed values for
    what is not known yet. *)
Definition synthetic_completion (synthetic : dict) : dict :=
  dmerge synthetic
    [("runner_allocation_version", VInt 1); ("run_id", VStr "1"); ("run_attempt", VInt 1);
     ("job_id", VStr "1"); ("dispatch_sha", dget "head_sha" synthetic);
     ("tested_sha", dget "head_sha" synthetic)].

(** [d[new] = d.pop(old)] *)
Definition drename (old new : string) (d : dict) : dict := dset new (dget old d) (dremove old d).

Definition validate_allocation_reservation (reservation : dict) (now : datetime) : result unit :=
  let version := dget "allocation_reservation_version" reservation in
  let expected := if py_eq version (VInt 1) then LEGACY_RESERVATION_FIELDS else RESERVATION_V2_FIELDS in
  known ← py_in_set version [VInt 1; VInt 2];
  deny_if (negb known || negb (same_set (dkeys reservation) expected))
    "allocation reservation requires exact versioned fields";;
  let synthetic := dremove "allocation_reservation_version" reservation in
  synthetic ←
    (if py_eq version (VInt 2) then
       check_pr_binding synthetic;;
       Ok (drename "approval_expires_at" "expires_at"
            (drename "approval_issued_at" "issued_at"
              (dremove "base_sha" (dremove "pr_number" synthetic))))
     else Ok synthetic);
  match validate_allocation_payload (synthetic_completion synthetic) now with
  | Raise e => if is_temporal_error (exn_cls e) then throw ApprovalExpired (exn_msg e) else Raise e
  | Ok u => Ok u
  end.

(** The fields a signed allocation shares with its reservation. *)
Definition dynamic_fields (version : pyval) : list string :=
  ["runner_allocation_version"; "run_id"; "run_attempt"; "job_id"; "dispatch_sha"; "tested_sha"; "claim_deadline"]
  ++ (if py_eq version (VInt 2) then ["issued_at"] else []).

Definition reservation_projection (payload : dict) : result dict :=
  let version := dget "runner_allocation_version" payload in
  let projected := filter (λ kv, kv.1 ∉ dynamic_fields version) payload in
  v ← ditem "runner_allocation_version" payload;
  Ok (dset "allocation_reservation_version" v projected).

(** ** Signing *)

Context {K : KeyLibrary}.

Definition sign_allocation (payload : dict) (k : private_key) (now : datetime) : result dict :=
  validate_allocation_payload payload now;;
  domain ← ALLOCATION_DOMAIN (dget "runner_allocation_version" payload);
  signature ← sign_detached (VDict payload) k domain;
  Ok [("payload", VDict payload); ("signer_fingerprint", VStr (spki_fingerprint (public_of k)));
      ("signature", VStr signature)].

Definition is_value_error (c : exn_class) : bool :=
  bool_decide (c ∈ [ValueError; CryptoContractError; CanonicalizationError; SignatureContractError;
                    ManifestContractError; AttestationContractError; RunnerJitError]) || is_temporal_error c.

Definition verify_allocation (envelope : dict) (k : public_key) (pinned : string) (now : datetime) : result dict :=
  deny_if (negb (same_set (dkeys envelope) ["payload"; "signer_fingerprint"; "signature"]))
    "allocation envelope requires exact fields";;
  deny_if (negb (is_sha256 pinned) || negb (py_eq (dget "signer_fingerprint" envelope) (VStr pinned))
           || negb (bool_decide (spki_fingerprint k = pinned)))
    "allocation signer does not match the pinned Ed25519 key";;
  match dget "payload" envelope with
  | VDict payload =>
      validate_allocation_payload payload now;;
      rewrap is_value_error RunnerJitError "allocation signature is invalid"
        (domain ← ALLOCATION_DOMAIN (dget "runner_allocation_version" payload);
         verify_detached (VDict payload) (dget "signature" envelope) k domain);;
      Ok payload
  | _ => deny "allocation payload must be an object"
  end.
End allocation.

(** ** What an accepted allocation is *)

Section allocation_facts.
Context {D : Digest}.

Lemma deny_if_ok b msg u : deny_if b msg = Ok u ↔ b = false.
Proof. apply check_ok. Qed.
Lemma deny_late_ok b msg u : deny_late b msg = Ok u ↔ b = false.
Proof. apply check_ok. Qed.

Lemma negb_str_where p v : negb (is_str_where p v) = false → ∃ s, v = VStr s ∧ p s = true.
Proof. destruct v; cbn; try done. rewrite negb_false_iff. eauto. Qed.

Lemma py_eq_singleton v s : py_eq v (VList [VStr s]) = true ↔ v = VList [VStr s].
Proof.
  destruct v as [| | | |l|]; cbn; try done. destruct l as [|x [|]]; cbn; try done.
  - rewrite andb_true_r, py_eq_str. naive_solver.
  - rewrite andb_false_r. naive_solver.
Qed.

Lemma validate_uuid_ok v field s : _validate_uuid v field = Ok s → v = VStr s.
Proof.
  destruct v; cbn; try done. intros H. apply result_bind_ok in H as (n & _ & H).
  by apply result_bind_ok in H as (? & _ & [= <-]).
Qed.

(** A payload of version 1 has its five minutes; one of version 2 has fifteen, names
    the pull request and the base it was approved for, and carries the five minutes
    in which the approval was valid. *)
Definition parsed (payload : dict) (field : string) (t : Z) : Prop := _parse_time (dget field payload) field = Ok t.
Record legacy_payload (payload : dict) (issued deadline : Z) : Prop := {
  lp_version : py_eq (dget "runner_allocation_version" payload) (VInt 1) = true;
  lp_fields : same_set (dkeys payload) legacy_required = true;
  lp_deadline : parsed payload "expires_at" deadline;
  lp_claim : issued < deadline ≤ issued + MAX_APPROVAL_TTL;
}.
Record versioned_payload (payload : dict) (issued deadline : Z) : Prop := {
  vp_version : py_eq (dget "runner_allocation_version" payload) (VInt 2) = true;
  vp_fields : same_set (dkeys payload) v2_required = true;
  vp_deadline : parsed payload "claim_deadline" deadline;
  vp_claim : issued < deadline ≤ issued + MAX_ALLOCATION_CLAIM_TTL;
  vp_approval : ∃ from until, parsed payload "approval_issued_at" from ∧ parsed payload "approval_expires_at" until ∧
                  from < until ≤ from + MAX_APPROVAL_TTL;
  vp_bound : is_positive_int (dget "pr_number" payload) = true ∧ is_str_where is_sha1 (dget "base_sha" payload) = true;
}.

Lemma check_version_ok payload u : check_version payload = Ok u → let version := dget "runner_allocation_version" payload in
  (py_eq version (VInt 1) = true ∧ same_set (dkeys payload) legacy_required = true) ∨
  (py_eq version (VInt 1) = false ∧ py_eq version (VInt 2) = true ∧ same_set (dkeys payload) v2_required = true).
Proof.
  unfold check_version, py_in_set. intros (known & (h & _ & [= <-])%result_bind_ok & H%deny_if_ok)%result_bind_ok. cbn [existsb] in H.
  rewrite orb_false_iff, !negb_false_iff, orb_false_r in H. destruct H as [Hk Hf].
  destruct (py_eq _ (VInt 1)); [by left|right]. by split_and!.
Qed.
Lemma claim_window_ok payload issued deadline :
  check_version payload = Ok tt → check_job_identity payload = Ok tt → claim_window payload = Ok (issued, deadline) →
  parsed payload "issued_at" issued ∧ (legacy_payload payload issued deadline ∨ versioned_payload payload issued deadline).
Proof.
  unfold claim_window. intros Hv Hj H. apply result_bind_ok in H as (i & Hi & H).
  destruct (check_version_ok _ _ Hv) as [[H1 Hf]|(H1 & H2 & Hf)]; rewrite H1 in H.
  - apply result_bind_ok in H as (d & Hd & H). apply result_bind_ok in H as (? & Hc & [= <- <-]).
    apply deny_late_ok in Hc. bool_inv. split; [done|left]. constructor; try done. lia.
  - apply result_bind_ok in H as (a & Ha & H). apply result_bind_ok in H as (e & He & H). apply result_bind_ok in H as (? & Hw & H).
    apply result_bind_ok in H as (d & Hd & H). apply result_bind_ok in H as (? & Hc & [= <- <-]).
    apply deny_late_ok in Hc, Hw. bool_inv. split; [done|right]. constructor; try done; [lia|exists a, e; split_and!; [done|done|lia|lia]|].
    unfold check_job_identity, check_pr_binding in Hj. rewrite H2 in Hj.
    do 4 apply result_bind_ok in Hj as (? & _ & Hj). apply result_bind_ok in Hj as (? & Hb & _).
    apply result_bind_ok in Hb as (? & Hp%deny_if_ok%negb_false_iff & Hs%deny_if_ok%negb_false_iff). by split.
Qed.

Lemma validate_ok payload now u :
  validate_allocation_payload payload now = Ok u →
  ∃ issued deadline,
    claim_window payload = Ok (issued, deadline) ∧ issued - CLAIM_SKEW ≤ instant now < deadline ∧
    is_utc now = true ∧ check_version payload = Ok tt ∧
    (∃ b, canonicalize_jcs (VDict payload) = Ok b) ∧
    check_job_identity payload = Ok tt ∧ check_authority_kind payload = Ok tt ∧
    check_labels payload = Ok tt ∧ check_single_use payload = Ok tt.
Proof.
  unfold validate_allocation_payload. intros H.
  apply result_bind_ok in H as ([] & H0 & H). apply result_bind_ok in H as ([] & H1 & H).
  apply result_bind_ok in H as ([] & H2 & H). apply result_bind_ok in H as ([] & H3 & H).
  apply result_bind_ok in H as ([] & H4 & H). apply result_bind_ok in H as (? & Hu & H).
  apply deny_late_ok in Hu. apply result_bind_ok in H as ([issued deadline] & Hw & H).
  apply result_bind_ok in H as (earliest & He & H). apply result_bind_ok in H as (? & Hn & H).
  apply result_bind_ok in H as (b & Hb & _). apply check_ok in Hn. bool_inv.
  unfold dt_add in He. case_decide; [|done]. injection He as <-.
  exists issued, deadline. split; [done|]. split; [lia|]. split; [done|]. eauto 10.
Qed.

Lemma check_labels_ok payload u :
  check_labels payload = Ok u →
  ∃ allocation_id nonce name,
    dget "allocation_id" payload = VStr allocation_id ∧ dget "nonce" payload = VStr nonce ∧
    scale_set_text allocation_id nonce = Ok name ∧
    dget "scale_set_name" payload = VStr name ∧ dget "labels" payload = VList [VStr name].
Proof.
  unfold check_labels, allocation_scale_set_name. intros H.
  apply result_bind_ok in H as (name & Hn & H). apply result_bind_ok in Hn as (aid & Ha & Hn).
  apply validate_uuid_ok in Ha. destruct (dget "nonce" payload) as [| | |nonce| |] eqn:En; try done.
  apply result_bind_ok in Hn as (? & _ & Hn). apply deny_if_ok in H.
  rewrite !orb_false_iff, !negb_false_iff in H. destruct H as [[[H _] Hl] _].
  apply py_eq_str in H. apply py_eq_singleton in Hl. by exists aid, nonce, name.
Qed.

(** C19: An allocation that passes validation is what the broker relies on: its
    only label is the scale-set name derived from its identifier and nonce, it
    is ephemeral and limited to one job, and it is claimed inside its window, which
    opens 30 seconds before it was issued. It is of version 1, with exactly the
    fields of version 1 and at most five minutes from its issue to its expiry, or of
    version 2, with exactly the fields of version 2, at most fifteen minutes from
    its issue to its claim deadline, a pull request, a base commit and an approval
    that was valid for at most five minutes. *)
Theorem valid_allocation payload now :
  validate_allocation_payload payload now = Ok tt →
  ∃ issued deadline allocation_id nonce name,
    parsed payload "issued_at" issued ∧ issued - CLAIM_SKEW ≤ instant now < deadline ∧
    (legacy_payload payload issued deadline ∨ versioned_payload payload issued deadline) ∧
    dget "allocation_id" payload = VStr allocation_id ∧ dget "nonce" payload = VStr nonce ∧
    scale_set_text allocation_id nonce = Ok name ∧
    dget "scale_set_name" payload = VStr name ∧ dget "labels" payload = VList [VStr name] ∧
    dget "ephemeral" payload = VBool true ∧ py_eq (dget "max_jobs" payload) (VInt 1) = true.
Proof.
  intros H. apply validate_ok in H as (issued & deadline & Hw & Hn & _ & Hv & _ & Hj & _ & Hl & Hs).
  apply claim_window_ok in Hw as [Hi Hd]; [|done..]. apply check_labels_ok in Hl as (aid & nonce & name & ? & ? & ? & ? & ?).
  unfold check_single_use in Hs. do 2 apply result_bind_ok in Hs as (? & _ & Hs). apply deny_if_ok in Hs.
  rewrite orb_false_iff, !negb_false_iff in Hs. destruct Hs as [Hm He].
  exists issued, deadline, aid, nonce, name. repeat (split; [done|]). split; [|done].
  destruct (dget "ephemeral" payload) as [|[]| | | |]; done.
Qed.

(** Version 1 or 2, and the domain its signature is made in. *)
Lemma validate_domain payload now u :
  validate_allocation_payload payload now = Ok u →
  ∃ domain, ALLOCATION_DOMAIN (dget "runner_allocation_version" payload) = Ok domain.
Proof.
  unfold validate_allocation_payload, check_version, ALLOCATION_DOMAIN. intros H.
  apply result_bind_ok in H as (? & H & _). apply result_bind_ok in H as (known & Hk & H).
  unfold py_in_set in Hk. apply result_bind_ok in Hk as (? & _ & [= <-]). apply deny_if_ok in H.
  cbn [existsb] in H. rewrite orb_false_iff, negb_false_iff, orb_false_r in H. destruct H as [Hv _].
  destruct (py_eq _ (VInt 1)); [by eexists|]. cbn in Hv. rewrite Hv. by eexists.
Qed.

(** Signing and verifying an allocation agree: what [sign_allocation]
    returns at an instant, [verify_allocation] accepts at that instant under
    the signer's public key and fingerprint, and gives the same payload. *)
Lemma signed_allocation_verifies {K : KeyLibrary} {L : KeyLaws} payload k now envelope :
  sign_allocation payload k now = Ok envelope →
  verify_allocation envelope (public_of k) (spki_fingerprint (public_of k)) now = Ok payload.
Proof.
  unfold sign_allocation. intros H. apply result_bind_ok in H as ([] & Hv & H).
  apply result_bind_ok in H as (domain & Hdom & H). apply result_bind_ok in H as (text & Hs & [= <-]).
  set (fingerprint := spki_fingerprint (public_of k)).
  set (envelope := [("payload", VDict payload); ("signer_fingerprint", VStr fingerprint); ("signature", VStr text)]).
  assert (dget "payload" envelope = VDict payload ∧ dget "signer_fingerprint" envelope = VStr fingerprint ∧
    dget "signature" envelope = VStr text ∧
    same_set (dkeys envelope) ["payload"; "signer_fingerprint"; "signature"] = true)
    as (Hp & Hf & Ht & Hk) by done.
  assert (is_sha256 fingerprint = true) as Hsha by apply sha256_hex_shape.
  unfold verify_allocation. fold fingerprint.
  rewrite Hk, Hsha, Hf, (proj2 (py_eq_str _ _) eq_refl), bool_decide_eq_true_2 by done.
  cbn [negb orb deny_if check mbind result_bind]. rewrite Hp, Hv, Ht, Hdom. cbn [mbind result_bind].
  by rewrite (detached_verifies _ _ _ _ Hs).
Qed.
End allocation_facts.

(** ** An allocation *)

Definition result_or {A} (default : A) (r : result A) : A := match r with Ok a => a | Raise _ => default end.

Definition sample_time (text : string) : datetime := result_or (Naive 0) (fromisoformat text).
Definition sample_nonce : string := "AAAAAAAAAAAAAAAAAAAAAAAAAAAAAAAAAAAAAAAAAAA".
Definition sample_id : string := "0f0e0d0c-0b0a-4908-8706-050403020100".
Definition sample_name : string :=
  Eval vm_compute in result_or "" (scale_set_text (D := ToyDigest) sample_id sample_nonce).

Definition sample_shared : dict :=
  [("allocation_id", VStr sample_id); ("repository_id", VStr "42"); ("repository", VStr "owner/name");
   ("head_sha", VStr "0123456789012345678901234567890123456789");
   ("workflow_ref", VStr "owner/name/.github/workflows/ci.yml@refs/heads/main");
   ("job_name", VStr "unit tests"); ("authority_kind", VStr "personal-repository"); ("runner_group", VNone);
   ("scale_set_name", VStr sample_name); ("labels", VList [VStr sample_name]);
   ("image_fingerprint", VStr (length_digest "image")); ("nonce", VStr sample_nonce);
   ("max_jobs", VInt 1); ("ephemeral", VBool true); ("pr_number", VInt 7);
   ("base_sha", VStr "abcdefabcdefabcdefabcdefabcdefabcdefabcd");
   ("approval_issued_at", VStr "2026-01-15T10:00:00Z"); ("approval_expires_at", VStr "2026-01-15T10:05:00Z")].
Definition sample_reservation : dict := ("allocation_reservation_version", VInt 2) :: sample_shared.
Definition sample_payload : dict :=
  sample_shared ++
  [("runner_allocation_version", VInt 2); ("run_id", VStr "1001"); ("run_attempt", VInt 1); ("job_id", VStr "2002");
   ("dispatch_sha", VStr "0123456789012345678901234567890123456789");
   ("tested_sha", VStr "9999999999999999999999999999999999999999");
   ("issued_at", VStr "2026-01-15T10:02:00Z"); ("claim_deadline", VStr "2026-01-15T10:17:00Z")].
Definition sample_reserved_at : datetime := Eval vm_compute in sample_time "2026-01-15T10:01:00+00:00".
Definition sample_signed_at : datetime := Eval vm_compute in sample_time "2026-01-15T10:02:00+00:00".

Definition sample_signer : @private_key ToyKeys := (Ed25519Key, "broker").
Definition sample_envelope : dict :=
  Eval vm_compute in result_or [] (sign_allocation (D := ToyDigest) (K := ToyKeys) sample_payload sample_signer sample_signed_at).

Lemma valid_allocation_witness :
  validate_allocation_payload (D := ToyDigest) sample_payload sample_signed_at = Ok tt ∧
  ∃ issued deadline name, versioned_payload sample_payload issued deadline ∧ dget "labels" sample_payload = VList [VStr name].
Proof.
  assert (validate_allocation_payload (D := ToyDigest) sample_payload sample_signed_at = Ok tt) as Hv
    by (vm_compute; reflexivity).
  split; [exact Hv|].
  destruct (valid_allocation (D := ToyDigest) sample_payload sample_signed_at Hv)
    as (issued & deadline & aid & nonce & name & _ & _ & Hd & _ & _ & _ & _ & Hl & _).
  exists issued, deadline, name. split; [|exact Hl]. destruct Hd as [[Hv1 _ _ _]|Hd]; [discriminate Hv1|exact Hd].
Defined.

Lemma signed_allocation_verifies_witness :
  verify_allocation (D := ToyDigest) (K := ToyKeys) sample_envelope (@public_of ToyKeys sample_signer)
    (spki_fingerprint (D := ToyDigest) (K := ToyKeys) (@public_of ToyKeys sample_signer)) sample_signed_at
  = Ok sample_payload.
Proof.
  apply (signed_allocation_verifies (D := ToyDigest) (K := ToyKeys) (L := ToyLaws)).
  vm_compute. reflexivity.
Defined.
