(* ===== verification/AllocationLedger.v ===== *)
(** * The allocation ledger (runner_jit.py: SqliteAllocationLedger)

    The durable rows of the runner allocations and the append-only table of
    their outcomes.  Every operation runs under the ledger's lock in one
    IMMEDIATE transaction, so an operation is a function of the whole state.
    The INTEGER columns that the code only ever sets to 0 or 1 are booleans.
    [outcomes] is in the order of its AUTOINCREMENT sequence. *)

From S2P Require Import Prelude Datetime PyValue PyText Json Digest Jcs Signatures Sql Allocation.
From stdpp Require Import sorting.
#[local] Open Scope Z_scope.

Definition LEDGER_SCHEMA_VERSION : Z := 3.
Definition OUTCOME_CAUSES : list string :=
  ["success"; "job-failure"; "job-cancelled"; "job-timeout"; "worker-error"; "cancel-not-converged";
   "claim-expired"; "claim-state-conflict"; "claim-not-observed"; "garm-timeout"; "garm-runtime-erofs";
   "superseded-head"; "superseded-base"; "superseded-merge"; "pr-closed"; "stale-merge-ref"].
Definition DELAY_BUCKETS : list string := ["before-deadline"; "0-60s"; "1-5m"; ">5m"; "unknown"].

(** ** Rows *)

Inductive LedgerState := Reserved | Issued | Claimed | Running | Terminal | RecoveryRequired | Cleaned.
#[export] Instance LedgerState_eq_dec : EqDecision LedgerState.
Proof. solve_decision. Defined.
Definition state_text (s : LedgerState) : string :=
  match s with
  | Reserved => "reserved" | Issued => "issued" | Claimed => "claimed" | Running => "running"
  | Terminal => "terminal" | RecoveryRequired => "recovery_required" | Cleaned => "cleaned"
  end.

Record AllocationRow := {
  binding_digest : string;
  row_payload_digest : string;
  state : LedgerState;
  outcome : option string;
  jobs_started : Z;
  cleanup_complete : bool;
  issued_at : option string;
  expires_at : option string;
  claim_deadline : option string;
  recovery_required : bool;
  cleanup_pending : bool;
  cleanup_idempotency_key : option string;
  cleanup_evidence_digest : option string;
  payload_json : option string;
  scale_set_name : option string;
  garm_scale_set_id : option string;
  reservation_json : option string;
}.
#[export] Instance AllocationRow_eq_dec : EqDecision AllocationRow.
Proof. solve_decision. Defined.

Record OutcomeRow := {
  event_key : string;
  cause_code : string;
  oc_allocation_id : option string;
  oc_run_id : option string;
  oc_job_id : option string;
  oc_repository : option string;
  oc_pr_number : option Z;
  oc_head_sha : option string;
  prior_ledger_state : option string;
  oc_issued_at : option string;
  oc_claim_deadline : option string;
  occurred_at : string;
  oc_delay_bucket : string;
  executed : bool;
  success : bool;
}.

Record Ledger := MkLedger {
  user_version : Z;
  outcome_retention_days : Z;
  allocations : gmap string AllocationRow;
  outcomes : list OutcomeRow;
}.

Definition set_allocations f (s : Ledger) :=
  MkLedger (user_version s) (outcome_retention_days s) (f (allocations s)) (outcomes s).
Definition set_outcomes f (s : Ledger) :=
  MkLedger (user_version s) (outcome_retention_days s) (allocations s) (f (outcomes s)).

Record AllocationRecord := {
  r_allocation_id : string;
  r_state : LedgerState;
  r_outcome : option string;
  r_jobs_started : Z;
  r_cleanup_complete : bool;
  r_issued_at : Z;
  r_expires_at : Z;
  r_claim_deadline : Z;
  r_recovery_required : bool;
  r_cleanup_pending : bool;
  r_cleanup_idempotency_key : option string;
  r_cleanup_evidence_digest : option string;
}.

(** ** Column values *)

Definition int_of (v : pyval) : option Z := match v with VInt n => Some n | _ => None end.
(** [d.get(k, d.get(k'))] *)
Definition get_or (k k' : string) (d : dict) : pyval :=
  match dlookup k d with Some v => v | None => dget k' d end.
Definition of_text (o : option string) : pyval := match o with Some s => VStr s | None => VNone end.
(** [not text] of a nullable column. *)
Definition truthy (o : option string) : bool := match o with Some s => nonempty s | None => false end.
(** [a or b] of nullable columns. *)
Definition text_or (a b : option string) : option string := if truthy a then a else b.

Section ledger.
Context {D : Digest}.

(** ** Outcome events *)

(** [now.replace(microsecond=0).isoformat()] with Z: the text to the second. *)
Definition stamp (now : datetime) : string := stamp_text (instant now).

Definition cutoff (retention : Z) (now : datetime) : result string :=
  t ← dt_add (instant now) (- days retention); Ok (stamp_text t).

(** [DELETE FROM allocation_outcomes WHERE occurred_at < ?] *)
Definition prune (limit : string) (l : list OutcomeRow) : list OutcomeRow :=
  filter (λ r, String.ltb (occurred_at r) limit = false) l.

Definition delay_bucket (claim_deadline : option string) (now : datetime) : result string :=
  match claim_deadline with
  | None => Ok "unknown"
  | Some text =>
      deadline ← _parse_time (VStr text) "claim_deadline";
      match now with
      | Naive _ => throw TypeError "can't subtract offset-naive and offset-aware datetimes"
      | Aware _ t =>
          let late := t - deadline in
          Ok (if late <? 0 then "before-deadline" else if late <? seconds 60 then "0-60s"
              else if late <? seconds 300 then "1-5m" else ">5m")
      end
  end.

Definition event_fields : list string :=
  ["event_key"; "cause_code"; "allocation_id"; "run_id"; "job_id"; "repository"; "pr_number"; "head_sha";
   "prior_ledger_state"; "issued_at"; "claim_deadline"; "delay_bucket"; "executed"; "success"].

Definition is_event_key : string → bool :=
  match_between 1 200 (λ c, is_name_char c || Ascii.eqb c ":").

(** [v is not None and (not isinstance(v, str) or not pattern.fullmatch(v))] *)
Definition bad_optional (p : pyval → bool) (v : pyval) : bool := negb (is_none v) && negb (p v).

(** [cause not in OUTCOME_CAUSES or bucket not in DELAY_BUCKETS], negated. *)
Definition known_codes (cause bucket : pyval) : result bool :=
  known ← py_in_set cause (text_set OUTCOME_CAUSES);
  match known with
  | true => py_in_set bucket (text_set DELAY_BUCKETS)
  | false => Ok false
  end.

(** The whitelist of an event; its [now], a datetime, is a separate argument. *)
Definition read_event (event : dict) (now : datetime) : result OutcomeRow :=
  let item f := dget f event in
  deny_if (negb (same_set (dkeys event) event_fields)) "outcome event fields are not exact";;
  match item "event_key" with
  | VStr key =>
      deny_if (negb (is_event_key key)) "outcome event key is invalid";;
      codes_known ← known_codes (item "cause_code") (item "delay_bucket");
      match codes_known, item "cause_code", item "delay_bucket" with
      | true, VStr cause, VStr bucket =>
          match item "executed", item "success" with
          | VBool executed, VBool success =>
              deny_if (success && (negb executed || negb (bool_decide (cause = "success"))))
                "successful outcome identity is invalid";;
              (if is_none (item "allocation_id") then Ok ""
               else _validate_uuid (item "allocation_id") "allocation_id");;
              deny_if (bad_optional (is_str_where is_canonical_positive) (item "run_id")) "outcome run_id is invalid";;
              deny_if (bad_optional (is_str_where is_canonical_positive) (item "job_id")) "outcome job_id is invalid";;
              deny_if (bad_optional (is_str_where is_repository) (item "repository")) "outcome repository is invalid";;
              deny_if (bad_optional is_positive_int (item "pr_number")) "outcome PR is invalid";;
              deny_if (bad_optional (is_str_where is_sha1) (item "head_sha")) "outcome head SHA is invalid";;
              state_known ← py_in_set (item "prior_ledger_state")
                (VNone :: text_set ["reserved"; "issued"; "claimed"; "running"; "terminal"; "recovery_required";
                                    "cleaned"; "absent"]);
              deny_if (negb state_known) "outcome prior ledger state is invalid";;
              deny_if (negb (is_utc now)) "outcome now must be UTC";;
              (if is_none (item "issued_at") then Ok 0 else _parse_time (item "issued_at") "issued_at");;
              (if is_none (item "claim_deadline") then Ok 0 else _parse_time (item "claim_deadline") "claim_deadline");;
              Ok {| event_key := key; cause_code := cause;
                    oc_allocation_id := text_of (item "allocation_id"); oc_run_id := text_of (item "run_id");
                    oc_job_id := text_of (item "job_id"); oc_repository := text_of (item "repository");
                    oc_pr_number := int_of (item "pr_number"); oc_head_sha := text_of (item "head_sha");
                    prior_ledger_state := text_of (item "prior_ledger_state");
                    oc_issued_at := text_of (item "issued_at"); oc_claim_deadline := text_of (item "claim_deadline");
                    occurred_at := stamp now; oc_delay_bucket := bucket;
                    executed := executed; success := success |}
          | _, _ => deny "outcome booleans are invalid"
          end
      | _, _, _ => deny "outcome cause or delay bucket is invalid"
      end
  | _ => deny "outcome event key is invalid"
  end.

(** The columns a repetition of an event must agree on. *)
Definition stable (r : OutcomeRow) :=
  (cause_code r, oc_allocation_id r, oc_run_id r, oc_job_id r, oc_repository r, oc_pr_number r, oc_head_sha r,
   executed r, success r).

Definition append_outcome (event : dict) (now : datetime) : M Ledger bool :=
  row ← lift (read_event event now);
  s ← get;
  limit ← lift (cutoff (outcome_retention_days s) now);
  match List.find (λ r, bool_decide (event_key r = event_key row)) (prune limit (outcomes s)) with
  | Some existing =>
      if decide (stable existing = stable row) then mret false
      else raise RunnerJitError "outcome event key was reused with different content"
  | None =>
      transaction (
        modify (set_outcomes (prune limit));;
        lift (bind_ints (option_list (oc_pr_number row)));;
        modify (set_outcomes (λ l, l ++ [row]));;
        mret true)
  end.

Definition has_outcome_cause (s : Ledger) (allocation_id : string) (causes : list string) : bool :=
  existsb (λ r, bool_decide (oc_allocation_id r = Some allocation_id) && bool_decide (cause_code r ∈ causes))
    (outcomes s).

(** [outcomes] and [read_outcomes], which differ in how they open the file. *)
Definition outcomes_since (s : Ledger) (since now : datetime) : result (list OutcomeRow) :=
  deny_if (negb (is_utc since) || negb (is_utc now) || (instant now <? instant since)) "outcome window is invalid";;
  Ok (filter (λ r, String.ltb (occurred_at r) (stamp since) = false) (outcomes s)).

(** ** Opening the ledger *)

Definition cleanup_key (allocation_id payload_digest : string) : result string :=
  sha256_hex <$> canonicalize_jcs (VDict
    [("allocation_id", VStr allocation_id); ("payload_digest", VStr payload_digest);
     ("operation", VStr "reboot-cleanup-v1")]).

Definition set_recovery (key : option string) (r : AllocationRow) : AllocationRow := {|
  binding_digest := binding_digest r; row_payload_digest := row_payload_digest r;
  state := RecoveryRequired; outcome := Some "reboot"; jobs_started := jobs_started r;
  cleanup_complete := cleanup_complete r; issued_at := issued_at r; expires_at := expires_at r;
  claim_deadline := claim_deadline r; recovery_required := true; cleanup_pending := true;
  cleanup_idempotency_key := key; cleanup_evidence_digest := cleanup_evidence_digest r;
  payload_json := payload_json r; scale_set_name := scale_set_name r;
  garm_scale_set_id := garm_scale_set_id r; reservation_json := reservation_json r |}.

(** The key of two strings never fails to canonicalize. *)
Definition fence_claimed (allocation_id : string) (r : AllocationRow) : AllocationRow :=
  if decide (state r = Claimed)
  then set_recovery (match cleanup_key allocation_id (row_payload_digest r) with
                     | Ok k => Some k | Raise _ => None end) r
  else r.

(** [__init__] on the database [disk], at the host's time [now]. *)
Definition open_ledger (disk : Ledger) (retention : Z) (now : datetime) : result Ledger :=
  deny_if (negb ((1 <=? retention) && (retention <=? 365))) "outcome retention must be between 1 and 365 days";;
  deny_if (LEDGER_SCHEMA_VERSION <? user_version disk) "allocation ledger schema is newer than this binary";;
  limit ← cutoff retention now;
  Ok {| user_version := LEDGER_SCHEMA_VERSION;
        outcome_retention_days := retention;
        allocations := if user_version disk <? 3 then map_imap (λ k r, Some (fence_claimed k r)) (allocations disk)
                       else allocations disk;
        outcomes := prune limit (outcomes disk) |}.

(** ** Admission, reservation, finalisation *)

Definition _digests (payload : dict) : result (string * string) :=
  body ← canonicalize_jcs (VDict payload);
  nonce ← ditem "nonce" payload;
  binding ← canonicalize_jcs (VDict [("nonce", nonce)]);
  Ok (sha256_hex binding, sha256_hex body).

Definition new_row (binding payload : string) (st : LedgerState) (issued expires : pyval) (deadline : option string)
    (body name reservation : option string) : AllocationRow := {|
  binding_digest := binding; row_payload_digest := payload; state := st; outcome := None;
  jobs_started := 0; cleanup_complete := false; issued_at := text_of issued; expires_at := text_of expires;
  claim_deadline := deadline; recovery_required := false; cleanup_pending := false;
  cleanup_idempotency_key := None; cleanup_evidence_digest := None;
  payload_json := body; scale_set_name := name; garm_scale_set_id := None; reservation_json := reservation |}.

Definition id_of (payload : dict) : string := default "" (text_of (dget "allocation_id" payload)).

Definition insert_allocation (k : string) (row : AllocationRow) : M Ledger unit :=
  s ← get;
  t ← lift (insert_row (unique_in binding_digest (binding_digest row) (allocations s)) k row (allocations s));
  modify (set_allocations (λ _, t)).

Context {K : KeyLibrary}.

Definition admit_allocation (envelope : dict) (key : public_key) (pinned : string) (now : datetime) : M Ledger string :=
  payload ← lift (verify_allocation envelope key pinned now);
  '(binding, digest) ← lift (_digests payload);
  body ← lift (canonicalize_jcs (VDict payload));
  transaction (
    s ← get;
    match allocations s !! id_of payload with
    | Some row =>
        if decide (binding_digest row = binding ∧ row_payload_digest row = digest) then mret "idempotent"
        else raise RunnerJitError "allocation_id replayed with different content"
    | None =>
        match select_unique binding_digest binding (allocations s) with
        | Some _ => raise RunnerJitError "allocation binding replay detected"
        | None =>
            insert_allocation (id_of payload)
              (new_row binding digest Issued (dget "issued_at" payload)
                 (get_or "approval_expires_at" "expires_at" payload)
                 (text_of (get_or "claim_deadline" "expires_at" payload))
                 (Some body) (text_of (dget "scale_set_name" payload)) None);;
            mret "issued"
        end
    end).

Definition reserve (reservation : dict) (now : datetime) : M Ledger string :=
  lift (validate_allocation_reservation reservation now);;
  '(binding, digest) ← lift (_digests reservation);
  body ← lift (canonicalize_jcs (VDict reservation));
  transaction (
    s ← get;
    match allocations s !! id_of reservation with
    | Some row =>
        if decide (binding_digest row = binding ∧ reservation_json row = Some body) then mret "idempotent"
        else raise RunnerJitError "allocation reservation replayed with different content"
    | None =>
        match select_unique binding_digest binding (allocations s) with
        | Some _ => raise RunnerJitError "allocation reservation nonce replay detected"
        | None =>
            insert_allocation (id_of reservation)
              (new_row binding digest Reserved (get_or "approval_issued_at" "issued_at" reservation)
                 (get_or "approval_expires_at" "expires_at" reservation) None
                 None (text_of (dget "scale_set_name" reservation)) (Some body));;
            mret "reserved"
        end
    end).

Definition set_finalized (digest body : string) (issued deadline : option string) (r : AllocationRow) : AllocationRow := {|
  binding_digest := binding_digest r; row_payload_digest := digest;
  state := Issued; outcome := outcome r; jobs_started := jobs_started r;
  cleanup_complete := cleanup_complete r; issued_at := issued; expires_at := expires_at r;
  claim_deadline := deadline; recovery_required := recovery_required r; cleanup_pending := cleanup_pending r;
  cleanup_idempotency_key := cleanup_idempotency_key r; cleanup_evidence_digest := cleanup_evidence_digest r;
  payload_json := Some body; scale_set_name := scale_set_name r;
  garm_scale_set_id := garm_scale_set_id r; reservation_json := reservation_json r |}.

(** [json.loads(row[1]) if row[1] else None] *)
Definition stored_reservation (row : AllocationRow) : result pyval :=
  if truthy (reservation_json row) then json_loads (default "" (reservation_json row)) else Ok VNone.

Definition finalize (envelope : dict) (key : public_key) (pinned : string) (now : datetime) : M Ledger string :=
  payload ← lift (verify_allocation envelope key pinned now);
  body ← lift (canonicalize_jcs (VDict payload));
  let digest := sha256_hex body in
  transaction (
    s ← get;
    match allocations s !! id_of payload with
    | None => raise RunnerJitError "signed allocation has no prior reservation"
    | Some row =>
        match payload_json row with
        | Some stored =>
            if decide (stored = body) then mret "idempotent"
            else raise RunnerJitError "allocation was finalized with different content"
        | None =>
            reservation ← lift (stored_reservation row);
            projection ← lift (reservation_projection payload);
            raise_if (negb (bool_decide (state row = Reserved)) || negb (py_eq (VDict projection) reservation))
              RunnerJitError "signed allocation crossed its immutable reservation";;
            modify (set_allocations (update_row (set_finalized digest body (text_of (dget "issued_at" payload))
              (text_of (get_or "claim_deadline" "expires_at" payload))) (id_of payload)));;
            mret "issued"
        end
    end).

(** ** Reading documents back, and the scale set *)

Definition stored_document (column : AllocationRow → option string) (what : string) (s : Ledger)
    (allocation_id : string) : result dict :=
  let text := allocations s !! allocation_id ≫= column in
  deny_if (negb (truthy text)) ("allocation " +:+ what +:+ " is absent");;
  value ← json_loads (default "" text);
  match value with VDict d => Ok d | _ => deny ("allocation " +:+ what +:+ " is invalid") end.

Definition payload : Ledger → string → result dict := stored_document payload_json "payload".
Definition reservation : Ledger → string → result dict := stored_document reservation_json "reservation".

Definition set_scale_set (scale_set_id : string) (r : AllocationRow) : AllocationRow := {|
  binding_digest := binding_digest r; row_payload_digest := row_payload_digest r;
  state := state r; outcome := outcome r; jobs_started := jobs_started r;
  cleanup_complete := cleanup_complete r; issued_at := issued_at r; expires_at := expires_at r;
  claim_deadline := claim_deadline r; recovery_required := recovery_required r; cleanup_pending := cleanup_pending r;
  cleanup_idempotency_key := cleanup_idempotency_key r; cleanup_evidence_digest := cleanup_evidence_digest r;
  payload_json := payload_json r; scale_set_name := scale_set_name r;
  garm_scale_set_id := Some scale_set_id; reservation_json := reservation_json r |}.

Definition bind_scale_set (allocation_id scale_set_id name : string) : M Ledger string :=
  raise_if (negb (is_canonical_positive scale_set_id)) RunnerJitError
    "GARM scale-set ID must be a canonical positive integer string";;
  s ← get;
  match allocations s !! allocation_id with
  | None => raise RunnerJitError "unknown allocation"
  | Some row =>
      raise_if (negb (bool_decide (scale_set_name row = Some name))) RunnerJitError
        "scale-set name crossed allocation binding";;
      match garm_scale_set_id row with
      | Some bound =>
          if decide (bound = scale_set_id) then mret "idempotent"
          else raise RunnerJitError "allocation is already bound to a different scale set"
      | None =>
          modify (set_allocations (update_row (set_scale_set scale_set_id) allocation_id));;
          mret "bound"
      end
  end.

Definition scale_set_binding (s : Ledger) (allocation_id : string) : result (string * string) :=
  match allocations s !! allocation_id with
  | Some row =>
      deny_if (negb (truthy (scale_set_name row)) || negb (truthy (garm_scale_set_id row)))
        "allocation has no durable scale-set binding";;
      Ok (default "" (scale_set_name row), default "" (garm_scale_set_id row))
  | None => deny "allocation has no durable scale-set binding"
  end.

Definition string_le (a b : string) : Prop := String.leb a b = true.
#[local] Instance string_le_dec : RelDecision string_le.
Proof. intros a b. unfold string_le. apply _. Defined.

Definition recoverable_allocation_ids (s : Ledger) : list string :=
  merge_sort string_le (filter (λ kr, cleanup_complete kr.2 = false) (map_to_list (allocations s))).*1.

(** ** The lifecycle *)

Inductive Action := AdmitJob | Finish | Cleanup | Recover | AckRecoveryCleanup.
#[export] Instance Action_eq_dec : EqDecision Action.
Proof. solve_decision. Defined.
Definition action_text (a : Action) : string :=
  match a with
  | AdmitJob => "admit-job" | Finish => "finish" | Cleanup => "cleanup" | Recover => "recover"
  | AckRecoveryCleanup => "ack-recovery-cleanup"
  end.
(** [action in allowed] *)
Definition read_action (text : string) : result Action :=
  match List.find (λ a, bool_decide (action_text a = text)) [AdmitJob; Finish; Cleanup; Recover; AckRecoveryCleanup] with
  | Some a => Ok a
  | None => deny "unknown lifecycle action"
  end.

(** The keyword arguments of [transition]. *)
Record TransitionArgs := {
  t_now : option datetime;
  t_outcome : option string;
  t_normal_cancel_attempted : bool;
  t_cleanup_idempotency_key : option string;
  t_cleanup_evidence : option dict;
}.

(** The three timestamps of a row. *)
Definition row_times (r : AllocationRow) : result (Z * Z * Z) :=
  match issued_at r, expires_at r with
  | Some issued_text, Some expires_text =>
      issued ← _parse_time (VStr issued_text) "issued_at";
      expires ← _parse_time (VStr expires_text) "expires_at";
      deadline ← _parse_time (of_text (text_or (claim_deadline r) (expires_at r))) "claim_deadline";
      Ok (issued, expires, deadline)
  | _, _ => deny "allocation lease timestamps are absent"
  end.

Definition record_of (allocation_id : string) (r : AllocationRow) (times : Z * Z * Z) : AllocationRecord :=
  let '(issued, expires, deadline) := times in {|
    r_allocation_id := allocation_id; r_state := state r; r_outcome := outcome r;
    r_jobs_started := jobs_started r; r_cleanup_complete := cleanup_complete r;
    r_issued_at := issued; r_expires_at := expires; r_claim_deadline := deadline;
    r_recovery_required := recovery_required r; r_cleanup_pending := cleanup_pending r;
    r_cleanup_idempotency_key := cleanup_idempotency_key r;
    r_cleanup_evidence_digest := cleanup_evidence_digest r |}.

(** The columns the final UPDATE writes. *)
Definition set_lifecycle (st : LedgerState) (oc : option string) (jobs : Z) (cleaned recovery pending : bool)
    (key evidence : option string) (r : AllocationRow) : AllocationRow := {|
  binding_digest := binding_digest r; row_payload_digest := row_payload_digest r;
  state := st; outcome := oc; jobs_started := jobs; cleanup_complete := cleaned;
  issued_at := issued_at r; expires_at := expires_at r; claim_deadline := claim_deadline r;
  recovery_required := recovery; cleanup_pending := pending;
  cleanup_idempotency_key := key; cleanup_evidence_digest := evidence;
  payload_json := payload_json r; scale_set_name := scale_set_name r;
  garm_scale_set_id := garm_scale_set_id r; reservation_json := reservation_json r |}.

Definition invalid_transition {A} (r : AllocationRow) (a : Action) : result A :=
  throw InvalidLifecycleTransition
    ("invalid lifecycle transition: " +:+ state_text (state r) +:+ "->" +:+ action_text a).

(** Each action on a row: the row it becomes, or [None] when the call is an
    idempotent repetition that writes nothing. *)
Definition admit_job (args : TransitionArgs) (times : Z * Z * Z) (r : AllocationRow) : result (option AllocationRow) :=
  let '(issued, _, deadline) := times in
  if negb (bool_decide (state r = Issued)) then invalid_transition r AdmitJob else
  let now := match t_now args with Some d => instant d | None => 0 end in
  earliest ← dt_add issued (- CLAIM_SKEW);
  check ((now <? earliest) || (deadline <=? now)) AllocationClaimExpired
    "allocation claim deadline expired before job admission";;
  if jobs_started r =? 0 then
    Ok (Some (set_lifecycle Running (outcome r) 1 (cleanup_complete r) (recovery_required r) (cleanup_pending r)
      (cleanup_idempotency_key r) (cleanup_evidence_digest r) r))
  else invalid_transition r AdmitJob.

Definition is_terminal_outcome (o : option string) : bool :=
  match o with Some o => bool_decide (o ∈ TERMINAL_OUTCOMES) | None => false end.

Definition finish_job (args : TransitionArgs) (r : AllocationRow) : result (option AllocationRow) :=
  if bool_decide (state r = Running) && (jobs_started r =? 1) && is_terminal_outcome (t_outcome args)
     && (negb (bool_decide (t_outcome args = Some "force-cancel")) || t_normal_cancel_attempted args)
  then Ok (Some (set_lifecycle Terminal (t_outcome args) (jobs_started r) (cleanup_complete r) (recovery_required r)
         (cleanup_pending r) (cleanup_idempotency_key r) (cleanup_evidence_digest r) r))
  else invalid_transition r Finish.

Definition clean_up (r : AllocationRow) : result (option AllocationRow) :=
  if bool_decide (state r = Terminal) && (jobs_started r =? 1) && is_terminal_outcome (outcome r)
  then Ok (Some (set_lifecycle Cleaned (outcome r) (jobs_started r) true (recovery_required r) (cleanup_pending r)
         (cleanup_idempotency_key r) (cleanup_evidence_digest r) r))
  else if bool_decide (state r = Cleaned) then Ok None
  else invalid_transition r Cleanup.

Definition recover_row (allocation_id : string) (r : AllocationRow) : result (option AllocationRow) :=
  if bool_decide (state r ∈ [Reserved; Issued; Running]) && bool_decide (jobs_started r ∈ [0; 1]) then
    key ← cleanup_key allocation_id (row_payload_digest r);
    Ok (Some (set_lifecycle RecoveryRequired (Some "reboot") (jobs_started r) (cleanup_complete r) true true
      (Some key) (cleanup_evidence_digest r) r))
  else if bool_decide (state r = RecoveryRequired) && bool_decide (outcome r = Some "reboot") then Ok None
  else invalid_transition r Recover.

Definition removed_fields : list string :=
  ["registration_removed"; "workspace_removed"; "token_removed"; "container_removed"; "allocation_removed"].
Definition evidence_fields : list string :=
  ["allocation_id"; "cleanup_idempotency_key"; "jobs_started"] ++ removed_fields ++ ["orphan_registrations"].

(** The evidence names this allocation and its key, repeats its job count and
    certifies that everything is gone. *)
Definition valid_cleanup_evidence (allocation_id : string) (r : AllocationRow) (key : option string)
    (evidence : dict) : bool :=
  same_set (dkeys evidence) evidence_fields && bool_decide (key = cleanup_idempotency_key r) &&
  py_eq (dget "allocation_id" evidence) (VStr allocation_id) &&
  py_eq (dget "cleanup_idempotency_key" evidence) (of_text (cleanup_idempotency_key r)) &&
  py_eq (dget "jobs_started" evidence) (VInt (jobs_started r)) &&
  py_eq (dget "orphan_registrations" evidence) (VInt 0) &&
  forallb (λ f, is_true (dget f evidence)) removed_fields.

Definition ack_recovery (allocation_id : string) (args : TransitionArgs) (r : AllocationRow)
    : result (option AllocationRow) :=
  match t_cleanup_evidence args with
  | None => deny "recovery cleanup acknowledgement evidence is invalid"
  | Some evidence =>
      deny_if (negb (valid_cleanup_evidence allocation_id r (t_cleanup_idempotency_key args) evidence))
        "recovery cleanup acknowledgement evidence is invalid";;
      digest ← sha256_hex <$> canonicalize_jcs (VDict evidence);
      if bool_decide (state r = RecoveryRequired) && recovery_required r && cleanup_pending r then
        Ok (Some (set_lifecycle Cleaned (outcome r) (jobs_started r) true false false (cleanup_idempotency_key r)
          (Some digest) r))
      else if bool_decide (state r = Cleaned) && bool_decide (outcome r = Some "reboot")
              && bool_decide (cleanup_evidence_digest r = Some digest) then Ok None
      else deny "recovery cleanup acknowledgement conflicts with durable state"
  end.

Definition lifecycle_step (allocation_id : string) (a : Action) (args : TransitionArgs) (times : Z * Z * Z)
    (r : AllocationRow) : result (option AllocationRow) :=
  match a with
  | AdmitJob => admit_job args times r
  | Finish => finish_job args r
  | Cleanup => clean_up r
  | Recover => recover_row allocation_id r
  | AckRecoveryCleanup => ack_recovery allocation_id args r
  end.

Definition transition (allocation_id action : string) (args : TransitionArgs) : M Ledger AllocationRecord :=
  a ← lift (read_action action);
  raise_if (bool_decide (a = AdmitJob) && match t_now args with Some d => negb (is_utc d) | None => true end)
    RunnerJitError "admit-job requires a timezone-aware UTC now";;
  transaction (
    s ← get;
    match allocations s !! allocation_id with
    | None => raise RunnerJitError "unknown allocation"
    | Some r =>
        times ← lift (row_times r);
        next ← lift (lifecycle_step allocation_id a args times r);
        match next with
        | None => mret (record_of allocation_id r times)
        | Some r' =>
            modify (set_allocations (update_row (λ _, r') allocation_id));;
            mret (record_of allocation_id r' times)
        end
    end).

(** [get] *)
Definition get_record (s : Ledger) (allocation_id : string) : result AllocationRecord :=
  match allocations s !! allocation_id with
  | None => deny "unknown allocation"
  | Some r => times ← row_times r; Ok (record_of allocation_id r times)
  end.
End ledger.
