(* ===== verification/LedgerFacts.v ===== *)
(** * The allocation ledger: invariant and properties

    What every sequence of ledger operations preserves: rows are well formed
    for their state, identities are immutable, the state only moves forward,
    a nonce and an allocation are used once. *)

From S2P Require Import Prelude Datetime PyValue PyText Json Digest Jcs Signatures Sql Allocation AllocationLedger.
From stdpp Require Import sorting.
#[local] Open Scope Z_scope.

#[local] Arguments cleanup_key : simpl never.
#[local] Arguments is_terminal_outcome : simpl never.

Section facts.
Context {D : Digest} {K : KeyLibrary}.

(** ** Operations as steps *)

Inductive LedgerCall :=
  | CAppend (event : dict) (now : datetime)
  | CAdmit (envelope : dict) (key : public_key) (pinned : string) (now : datetime)
  | CReserve (reservation : dict) (now : datetime)
  | CFinalize (envelope : dict) (key : public_key) (pinned : string) (now : datetime)
  | CBind (allocation_id scale_set_id name : string)
  | CTransition (allocation_id action : string) (args : TransitionArgs).

Definition run_call (c : LedgerCall) : M Ledger unit :=
  match c with
  | CAppend event now => append_outcome event now;; mret tt
  | CAdmit envelope key pinned now => admit_allocation envelope key pinned now;; mret tt
  | CReserve reservation now => reserve reservation now;; mret tt
  | CFinalize envelope key pinned now => finalize envelope key pinned now;; mret tt
  | CBind allocation_id scale_set_id name => bind_scale_set allocation_id scale_set_id name;; mret tt
  | CTransition allocation_id action args => transition allocation_id action args;; mret tt
  end.

(** A call that returned; one that raised leaves the ledger as it was
    ([ledger_call_atomic]). *)
Definition ledger_step (s s' : Ledger) : Prop := ∃ c, run_call c s = (Ok tt, s').

Lemma reserve_atomic reservation now : atomic (reserve reservation now).
Proof.
  unfold reserve. apply atomic_bind; [apply readonly_lift|]. intros p.
  apply atomic_bind; [apply readonly_lift|]. intros [b d].
  apply atomic_bind; [apply readonly_lift|]. intros ?. apply atomic_transaction.
Qed.

Lemma bind_scale_set_atomic k g name : atomic (bind_scale_set k g name).
Proof.
  unfold bind_scale_set. apply atomic_bind; [apply readonly_raise_if|]. intros ?.
  apply atomic_bind; [by intros ? ? ? [= _ ->]|]. intros s0.
  case_match; [|apply atomic_readonly, readonly_lift].
  apply atomic_bind; [apply readonly_raise_if|]. intros ?. case_match.
  - case_match; apply atomic_readonly; [apply readonly_ret|apply readonly_lift].
  - intros s e s' Hrun. unfold mbind, M_bind, modify in Hrun. done.
Qed.

Lemma transition_atomic k action args : atomic (transition k action args).
Proof.
  unfold transition. apply atomic_bind; [apply readonly_lift|]. intros ?.
  apply atomic_bind; [apply readonly_raise_if|]. intros ?. apply atomic_transaction.
Qed.

Lemma ledger_call_atomic c : atomic (run_call c).
Proof.
  assert (∀ A (m : M Ledger A), atomic m → atomic (m;; mret tt)) as Hseq.
  { intros A m Hm s e s' H. unfold mbind, M_bind in H. destruct (m s) as [[a|e'] s1] eqn:E; [done|].
    injection H as _ <-. by eapply Hm. }
  destruct c; cbn [run_call]; apply Hseq.
  - unfold append_outcome. apply atomic_bind; [apply readonly_lift|]. intros row.
    apply atomic_bind; [by intros ? ? ? [= _ ->]|]. intros s0.
    apply atomic_bind; [apply readonly_lift|]. intros limit. case_match.
    + case_match; apply atomic_readonly; [apply readonly_ret|apply readonly_lift].
    + apply atomic_transaction.
  - unfold admit_allocation. apply atomic_bind; [apply readonly_lift|]. intros p.
    apply atomic_bind; [apply readonly_lift|]. intros [b d].
    apply atomic_bind; [apply readonly_lift|]. intros ?. apply atomic_transaction.
  - apply reserve_atomic.
  - unfold finalize. apply atomic_bind; [apply readonly_lift|]. intros p.
    apply atomic_bind; [apply readonly_lift|]. intros ?. apply atomic_transaction.
  - apply bind_scale_set_atomic.
  - apply transition_atomic.
Qed.

(** ** How one row changes *)

(** The state machine of the allocations. *)
Inductive moves : LedgerState → LedgerState → Prop :=
  | m_finalize : moves Reserved Issued
  | m_admit : moves Issued Running
  | m_finish : moves Running Terminal
  | m_cleanup : moves Terminal Cleaned
  | m_recover st : st ∈ [Reserved; Issued; Running] → moves st RecoveryRequired
  | m_ack : moves RecoveryRequired Cleaned.

(** Rows that differ at most in the lifecycle columns, the payload, filled in
    by finalisation, and the scale set. *)
Record same_identity (r r' : AllocationRow) : Prop := {
  si_binding : binding_digest r' = binding_digest r;
  si_name : scale_set_name r' = scale_set_name r;
  si_reservation : reservation_json r' = reservation_json r;
  si_expires : expires_at r' = expires_at r;
  si_payload : ∀ b, payload_json r = Some b → payload_json r' = Some b;
  si_scale_set : ∀ g, garm_scale_set_id r = Some g → garm_scale_set_id r' = Some g;
}.

#[local] Instance same_identity_preorder : PreOrder same_identity.
Proof.
  split; [by split|]. intros a b c [] []. split; try congruence; eauto.
Qed.

(** What a row is in each state. *)
Definition fresh_lifecycle (r : AllocationRow) : Prop :=
  outcome r = None ∧ cleanup_complete r = false ∧ recovery_required r = false ∧ cleanup_pending r = false.

Definition wf_row (k : string) (r : AllocationRow) : Prop :=
  match state r with
  | Reserved => fresh_lifecycle r ∧ jobs_started r = 0 ∧ payload_json r = None ∧ is_Some (reservation_json r)
  | Issued => fresh_lifecycle r ∧ jobs_started r = 0 ∧ is_Some (payload_json r)
  | Claimed => False
  | Running => fresh_lifecycle r ∧ jobs_started r = 1 ∧ is_Some (payload_json r)
  | Terminal =>
      is_terminal_outcome (outcome r) = true ∧ jobs_started r = 1 ∧ is_Some (payload_json r) ∧
      cleanup_complete r = false ∧ recovery_required r = false ∧ cleanup_pending r = false
  | RecoveryRequired =>
      outcome r = Some "reboot" ∧ jobs_started r ∈ [0; 1] ∧ cleanup_complete r = false ∧
      recovery_required r = true ∧ cleanup_pending r = true ∧
      ∃ key, cleanup_key k (row_payload_digest r) = Ok key ∧ cleanup_idempotency_key r = Some key
  | Cleaned =>
      is_terminal_outcome (outcome r) = true ∧ jobs_started r ∈ [0; 1] ∧ cleanup_complete r = true ∧
      recovery_required r = false ∧ cleanup_pending r = false ∧
      (jobs_started r = 0 → outcome r = Some "reboot" ∧ is_Some (cleanup_evidence_digest r))
  end.

(** One operation on one row. *)
Record row_step (k : string) (r r' : AllocationRow) : Prop := {
  rs_identity : same_identity r r';
  rs_state : state r' = state r ∨ moves (state r) (state r');
  rs_lifecycle : state r' = state r →
    outcome r' = outcome r ∧ jobs_started r' = jobs_started r ∧ cleanup_complete r' = cleanup_complete r ∧
    cleanup_evidence_digest r' = cleanup_evidence_digest r ∧ row_payload_digest r' = row_payload_digest r;
  rs_outcome : wf_row k r → ∀ o, outcome r = Some o → outcome r' = Some o;
  rs_jobs : wf_row k r → jobs_started r ≤ jobs_started r';
  rs_wf : wf_row k r → wf_row k r';
}.

Lemma row_step_refl k r : row_step k r r.
Proof. split; [reflexivity|by left|done|eauto|done|done]. Qed.

(** Stated over all actions: the row a transition writes.  An action only
    rewrites the lifecycle columns, so identity is immediate; what is left is
    the new state's well-formedness. *)
Lemma lifecycle_row k r st oc jobs cleaned recovery pending key evidence :
  moves (state r) st →
  (∀ o, wf_row k r → outcome r = Some o → oc = Some o) →
  (wf_row k r → jobs_started r ≤ jobs) →
  (wf_row k r → wf_row k (set_lifecycle st oc jobs cleaned recovery pending key evidence r)) →
  row_step k r (set_lifecycle st oc jobs cleaned recovery pending key evidence r) ∧
  moves (state r) (state (set_lifecycle st oc jobs cleaned recovery pending key evidence r)).
Proof.
  intros Hm Ho Hj Hwf. split; [|done]. split; cbn; [by split|by right| |auto|auto|auto].
  intros E. exfalso. rewrite E in Hm. inversion Hm as [| | | |st' Hin|]; try congruence. set_solver.
Qed.

Lemma lifecycle_step_row k a args times r r' :
  lifecycle_step k a args times r = Ok (Some r') → row_step k r r' ∧ moves (state r) (state r').
Proof.
  destruct a; cbn [lifecycle_step]; intros H.
  - unfold admit_job in H. destruct times as [[issued ?] deadline].
    destruct (bool_decide (state r = Issued)) eqn:Es; cbn [negb] in H; [|done].
    apply result_bind_ok in H as (? & _ & H). apply result_bind_ok in H as (? & _ & H).
    destruct (jobs_started r =? 0) eqn:Ej; [|done]. injection H as <-. bool_inv.
    apply lifecycle_row; [rewrite Es; constructor|done|lia|].
    unfold wf_row, fresh_lifecycle. rewrite Es. cbn. tauto.
  - unfold finish_job in H. match type of H with (if ?b then _ else _) = _ => destruct b eqn:Eb end; [|done].
    injection H as <-. rewrite !andb_true_iff, bool_decide_eq_true in Eb. destruct Eb as [[[Es Ej] Et] _].
    apply lifecycle_row; [rewrite Es; constructor| |done|]; unfold wf_row, fresh_lifecycle; rewrite Es; cbn.
    + intros o [[Hn _] _]. congruence.
    + tauto.
  - unfold clean_up in H. match type of H with (if ?b then _ else _) = _ => destruct b eqn:Eb end;
      [|by case_match]. injection H as <-. rewrite !andb_true_iff, bool_decide_eq_true in Eb.
    destruct Eb as [[Es Ej] Et]. apply Z.eqb_eq in Ej.
    apply lifecycle_row; [rewrite Es; constructor|done|done|].
    unfold wf_row. rewrite Es. cbn. rewrite Ej. intros (? & _ & _ & _ & ? & ?).
    split; [done|]. split; [set_solver|]. by repeat split.
  - unfold recover_row in H. match type of H with (if ?b then _ else _) = _ => destruct b eqn:Eb end;
      [|by case_match]. apply result_bind_ok in H as (key & Hkey & [= <-]).
    rewrite andb_true_iff, !bool_decide_eq_true in Eb. destruct Eb as [Es Ej].
    assert (wf_row k r → fresh_lifecycle r) as Hfresh.
    { unfold wf_row. rewrite !elem_of_cons in Es.
      by destruct Es as [Es|[Es|[Es|Es%not_elem_of_nil]]]; [rewrite Es; tauto..|]. }
    apply lifecycle_row; [by constructor| |done|].
    + intros o Hwf. destruct (Hfresh Hwf) as [Hn _]. congruence.
    + intros Hwf. destruct (Hfresh Hwf) as (_ & Hc & _). unfold wf_row. cbn.
      repeat (split; [done|]). by exists key.
  - unfold ack_recovery in H. destruct (t_cleanup_evidence args) as [evidence|]; [|done].
    apply result_bind_ok in H as (? & _ & H). apply result_bind_ok in H as (digest & _ & H).
    match type of H with (if ?b then _ else _) = _ => destruct b eqn:Eb end; [|by case_match].
    injection H as <-. rewrite !andb_true_iff, bool_decide_eq_true in Eb. destruct Eb as [[Es _] _].
    apply lifecycle_row; [rewrite Es; constructor|done|done|].
    unfold wf_row. rewrite Es. cbn. intros (Ho & Hj & _). rewrite Ho.
    split; [reflexivity|]. by repeat (split; [done|]).
Qed.

(** The timestamps are not among the lifecycle columns. *)
Lemma lifecycle_step_times k a args times r r' :
  lifecycle_step k a args times r = Ok (Some r') → row_times r' = row_times r.
Proof.
  destruct a; cbn [lifecycle_step];
    unfold admit_job, finish_job, clean_up, recover_row, ack_recovery, invalid_transition, deny;
    intros H; run_inv; done.
Qed.

Lemma set_scale_set_row k g r : garm_scale_set_id r = None → row_step k r (set_scale_set g r).
Proof.
  intros Hg. split; cbn; [split; cbn; try done; by rewrite Hg|by left|done|eauto|done|done].
Qed.

Lemma set_finalized_row k digest body issued deadline r :
  state r = Reserved → payload_json r = None → row_step k r (set_finalized digest body issued deadline r).
Proof.
  intros Hs Hp. split; cbn; rewrite ?Hs; [|right; constructor|done|eauto|done|].
  - split; cbn; try done. by rewrite Hp.
  - unfold wf_row. rewrite Hs. cbn. unfold fresh_lifecycle. cbn. intros (Hf & Hj & _). eauto.
Qed.

(** ** How the table changes *)

Inductive table_change (t : gmap string AllocationRow) : gmap string AllocationRow → Prop :=
  | tc_same : table_change t t
  | tc_update k r r' : t !! k = Some r → row_step k r r' → table_change t (<[k := r']> t)
  | tc_insert k r :
      t !! k = None → wf_row k r → state r ∈ [Reserved; Issued] →
      (∀ k0 r0, t !! k0 = Some r0 → binding_digest r0 ≠ binding_digest r) →
      table_change t (<[k := r]> t).

Lemma insert_allocation_ok k row s u s' :
  insert_allocation k row s = (Ok u, s') →
  allocations s !! k = None ∧ (∀ k0 r0, allocations s !! k0 = Some r0 → binding_digest r0 ≠ binding_digest row) ∧
  s' = set_allocations (insert k row) s.
Proof.
  unfold insert_allocation. intros H. apply bind_ok in H as (? & ? & [-> ->]%get_ok & H).
  apply bind_ok in H as (t & ? & [Ht <-]%lift_ok & ->%modify_ok).
  apply insert_row_ok in Ht as (Hn & Hu & ->). rewrite unique_in_true in Hu. by repeat split.
Qed.

Lemma append_outcome_allocations event now s b s' :
  append_outcome event now s = (Ok b, s') → allocations s' = allocations s.
Proof.
  unfold append_outcome. intros H. monad_inv. case_match; [case_match; by monad_inv|]. by monad_inv.
Qed.

Lemma admit_change envelope key pinned now s o s' :
  admit_allocation envelope key pinned now s = (Ok o, s') → table_change (allocations s) (allocations s').
Proof.
  unfold admit_allocation. intros H. apply bind_ok in H as (p & ? & [_ <-]%lift_ok & H).
  apply bind_ok in H as ([b d] & ? & [_ <-]%lift_ok & H). apply bind_ok in H as (body & ? & [_ <-]%lift_ok & H).
  apply transaction_ok_1 in H. apply bind_ok in H as (? & ? & [-> ->]%get_ok & H).
  destruct (allocations s !! id_of p) as [row|] eqn:E; [case_match; [|by apply raise_ok in H]|].
  { apply ret_ok in H as [_ <-]. constructor. }
  destruct (select_unique _ _ _); [by apply raise_ok in H|].
  apply bind_ok in H as (? & ? & Hi & [_ <-]%ret_ok). apply insert_allocation_ok in Hi as (_ & Hu & ->).
  cbn. apply tc_insert; [done| |set_solver|done]. unfold wf_row, fresh_lifecycle. cbn. eauto 10.
Qed.

Lemma reserve_change reservation now s o s' :
  reserve reservation now s = (Ok o, s') → table_change (allocations s) (allocations s').
Proof.
  unfold reserve. intros H. apply bind_ok in H as (p & ? & [_ <-]%lift_ok & H).
  apply bind_ok in H as ([b d] & ? & [_ <-]%lift_ok & H). apply bind_ok in H as (body & ? & [_ <-]%lift_ok & H).
  apply transaction_ok_1 in H. apply bind_ok in H as (? & ? & [-> ->]%get_ok & H).
  destruct (allocations s !! id_of reservation) as [row|] eqn:E; [case_match; [|by apply raise_ok in H]|].
  { apply ret_ok in H as [_ <-]. constructor. }
  destruct (select_unique _ _ _); [by apply raise_ok in H|].
  apply bind_ok in H as (? & ? & Hi & [_ <-]%ret_ok). apply insert_allocation_ok in Hi as (_ & Hu & ->).
  cbn. apply tc_insert; [done| |set_solver|done]. unfold wf_row, fresh_lifecycle. cbn. eauto 10.
Qed.

(** What a finalisation that wrote established. *)
Lemma finalize_inv envelope key pinned now s o s' :
  finalize envelope key pinned now s = (Ok o, s') →
  ∃ p body, verify_allocation envelope key pinned now = Ok p ∧ canonicalize_jcs (VDict p) = Ok body ∧
    ((o = "idempotent" ∧ s' = s ∧ ∃ r, allocations s !! id_of p = Some r ∧ payload_json r = Some body) ∨
     (o = "issued" ∧ ∃ r reservation projection,
        allocations s !! id_of p = Some r ∧ state r = Reserved ∧ payload_json r = None ∧
        stored_reservation r = Ok reservation ∧ reservation_projection p = Ok projection ∧
        py_eq (VDict projection) reservation = true ∧
        s' = set_allocations (insert (id_of p) (set_finalized (sha256_hex body) body
               (text_of (dget "issued_at" p)) (text_of (get_or "claim_deadline" "expires_at" p)) r)) s)).
Proof.
  unfold finalize. intros H. apply bind_ok in H as (p & ? & [Hp <-]%lift_ok & H).
  apply bind_ok in H as (body & ? & [Hb <-]%lift_ok & H). exists p, body. split; [done|]. split; [done|].
  apply transaction_ok_1 in H. apply bind_ok in H as (? & ? & [-> ->]%get_ok & H).
  destruct (allocations s !! id_of p) as [r|] eqn:E; [|by apply raise_ok in H].
  destruct (payload_json r) as [stored|] eqn:Ep.
  - case_decide; [|by apply raise_ok in H]. subst. apply ret_ok in H as [<- <-]. left. eauto.
  - apply bind_ok in H as (res & ? & [Hr <-]%lift_ok & H). apply bind_ok in H as (proj & ? & [Hj <-]%lift_ok & H).
    apply bind_ok in H as (? & ? & [Hc ->]%raise_if_ok & H).
    apply bind_ok in H as (? & ? & ->%modify_ok & [<- <-]%ret_ok). bool_inv. right. split; [done|].
    exists r, res, proj. repeat (split; [done|]). unfold set_allocations. f_equal. by apply update_row_insert.
Qed.

Lemma bind_scale_set_change k g name s o s' :
  bind_scale_set k g name s = (Ok o, s') → table_change (allocations s) (allocations s').
Proof.
  unfold bind_scale_set. intros H. apply bind_ok in H as (? & ? & [_ ->]%raise_if_ok & H).
  apply bind_ok in H as (? & ? & [-> ->]%get_ok & H).
  destruct (allocations s !! k) as [r|] eqn:E; [|by apply raise_ok in H].
  apply bind_ok in H as (? & ? & [_ ->]%raise_if_ok & H).
  destruct (garm_scale_set_id r) eqn:Eg.
  - case_decide; [|by apply raise_ok in H]. apply ret_ok in H as [_ <-]. constructor.
  - apply bind_ok in H as (? & ? & ->%modify_ok & [_ <-]%ret_ok). cbn.
    rewrite (update_row_insert _ _ _ _ E). eapply tc_update; [done|]. by apply set_scale_set_row.
Qed.

(** What a transition that returned established. *)
Lemma transition_inv k action args s rec s' :
  transition k action args s = (Ok rec, s') →
  ∃ a r times, read_action action = Ok a ∧ allocations s !! k = Some r ∧ row_times r = Ok times ∧
    (a = AdmitJob → ∃ now, t_now args = Some now ∧ is_utc now = true) ∧
    ((lifecycle_step k a args times r = Ok None ∧ s' = s ∧ rec = record_of k r times) ∨
     (∃ r', lifecycle_step k a args times r = Ok (Some r') ∧
        s' = set_allocations (insert k r') s ∧ rec = record_of k r' times)).
Proof.
  unfold transition. intros H. apply bind_ok in H as (a & ? & [Ha <-]%lift_ok & H).
  apply bind_ok in H as (? & ? & [Hn ->]%raise_if_ok & H). apply transaction_ok_1 in H.
  apply bind_ok in H as (? & ? & [-> ->]%get_ok & H).
  destruct (allocations s !! k) as [r|] eqn:E; [|by apply raise_ok in H].
  apply bind_ok in H as (times & ? & [Ht <-]%lift_ok & H). apply bind_ok in H as (next & ? & [Hs <-]%lift_ok & H).
  exists a, r, times. repeat (split; [done|]). split.
  - intros ->. rewrite bool_decide_eq_true_2 in Hn by done. destruct (t_now args) as [d|]; [|done].
    apply negb_false_iff in Hn. eauto.
  - destruct next as [r'|]; [right|left].
    + apply bind_ok in H as (? & ? & ->%modify_ok & [<- <-]%ret_ok). exists r'. split; [done|]. split; [|done].
      unfold set_allocations. f_equal. by apply (update_row_insert (λ _, r')) in E.
    + by apply ret_ok in H as [<- <-].
Qed.

Lemma call_change c s s' : run_call c s = (Ok tt, s') → table_change (allocations s) (allocations s').
Proof.
  intros H. destruct c; cbn [run_call] in H; apply bind_ok in H as (? & ? & H & [_ <-]%ret_ok).
  - apply append_outcome_allocations in H as ->. constructor.
  - by eapply admit_change.
  - by eapply reserve_change.
  - apply finalize_inv in H as (p & body & _ & _ & [(_ & -> & _)|(_ & r & res & proj & Hr & Hs & Hp & _ & _ & _ & ->)]);
      [constructor|]. cbn. eapply tc_update; [done|]. by apply set_finalized_row.
  - by eapply bind_scale_set_change.
  - apply transition_inv in H as (a & r & times & _ & Hr & _ & _ & [(_ & -> & _)|(r' & Hs & -> & _)]); [constructor|].
    cbn. eapply tc_update; [done|]. by eapply lifecycle_step_row.
Qed.

(** ** The invariant *)

Record wf_ledger (s : Ledger) : Prop := {
  wl_rows : ∀ k r, allocations s !! k = Some r → wf_row k r;
  wl_binding : ∀ k1 k2 r1 r2, allocations s !! k1 = Some r1 → allocations s !! k2 = Some r2 →
    binding_digest r1 = binding_digest r2 → k1 = k2;
}.

Lemma table_change_wf s s' : table_change (allocations s) (allocations s') → wf_ledger s → wf_ledger s'.
Proof.
  intros Hc [Hrows Hb]. inversion Hc as [E|k r r' Hr Hstep E|k r Hr Hwf _ Hu E].
  - split; rewrite <- E; eauto.
  - assert (binding_digest r' = binding_digest r) as Hbd by (by destruct Hstep as [[] _ _ _ _ _]).
    split; rewrite <- E.
    + intros k0 r0 [[<- <-]|[_ H0]]%lookup_insert_Some; [|eauto]. apply Hstep. eauto.
    + intros k1 k2 r1 r2 [[<- <-]|[? H1]]%lookup_insert_Some [[<- <-]|[? H2]]%lookup_insert_Some; [done|..];
        rewrite ?Hbd; eauto.
  - split; rewrite <- E.
    + intros k0 r0 [[<- <-]|[_ H0]]%lookup_insert_Some; eauto.
    + intros k1 k2 r1 r2 [[<- <-]|[? H1]]%lookup_insert_Some [[<- <-]|[? H2]]%lookup_insert_Some Heq; eauto.
      * by edestruct Hu. * by edestruct Hu.
Qed.

Definition fresh_ledger (retention : Z) : Ledger := MkLedger LEDGER_SCHEMA_VERSION retention ∅ [].
Definition reachable_ledger (s : Ledger) : Prop := ∃ retention, rtc ledger_step (fresh_ledger retention) s.

Lemma steps_wf s s' : rtc ledger_step s s' → wf_ledger s → wf_ledger s'.
Proof.
  induction 1 as [|s1 s2 s3 [c Hc] _ IH]; [done|]. intros Hwf. apply IH.
  eapply table_change_wf; [by eapply call_change|done].
Qed.

Lemma reachable_ledger_wf s : reachable_ledger s → wf_ledger s.
Proof.
  intros [retention Hr]. eapply steps_wf; [done|]. split; intros *; cbn; by rewrite lookup_empty.
Qed.

(** What a row keeps and gains over any sequence of operations. *)
Record row_evolves (k : string) (r r' : AllocationRow) : Prop := {
  re_identity : same_identity r r';
  re_path : rtc moves (state r) (state r');
  re_outcome : ∀ o, outcome r = Some o → outcome r' = Some o;
  re_jobs : jobs_started r ≤ jobs_started r';
  re_final : state r' = state r →
    outcome r' = outcome r ∧ jobs_started r' = jobs_started r ∧
    cleanup_evidence_digest r' = cleanup_evidence_digest r;
}.

(** The machine only moves forward. *)
Definition state_rank (st : LedgerState) : nat :=
  match st with
  | Reserved => 0 | Issued => 1 | Claimed => 2 | Running => 3 | Terminal => 4 | RecoveryRequired => 5 | Cleaned => 6
  end.

Lemma moves_rank st st' : moves st st' → (state_rank st < state_rank st')%nat.
Proof. intros []; cbn; try lia. set_unfold. destruct H as [->|[->|[->|[]]]]; cbn; lia. Qed.

Lemma path_rank st st' : rtc moves st st' → (state_rank st ≤ state_rank st')%nat.
Proof. induction 1 as [|? ? ? H%moves_rank]; lia. Qed.

Lemma row_evolves_step k r r1 r2 :
  wf_row k r → row_step k r r1 → row_evolves k r1 r2 → row_evolves k r r2.
Proof.
  intros Hwf [Hi Hs Hl Ho Hj Hw] [Hi2 Hp Ho2 Hj2 Hf2]. split.
  - by etransitivity.
  - destruct Hs as [<-|Hm]; [done|]. by eapply rtc_l.
  - eauto.
  - etransitivity; eauto.
  - intros E. destruct Hs as [Hs|Hm%moves_rank].
    + destruct (Hl Hs) as (<- & <- & _ & <- & _). apply Hf2. congruence.
    + apply path_rank in Hp. rewrite E in Hp. lia.
Qed.

Lemma row_evolves_refl k r : row_evolves k r r.
Proof. split; [reflexivity|apply rtc_refl|eauto|done|done]. Qed.

Lemma ledger_evolves s s' k r :
  wf_ledger s → rtc ledger_step s s' → allocations s !! k = Some r →
  ∃ r', allocations s' !! k = Some r' ∧ row_evolves k r r'.
Proof.
  intros Hwf Hsteps. revert r. induction Hsteps as [s|s1 s2 s3 [c Hc] _ IH]; intros r Hr.
  - exists r. split; [done|apply row_evolves_refl].
  - apply call_change in Hc. pose proof (table_change_wf _ _ Hc Hwf) as Hwf2.
    assert (∃ r1, allocations s2 !! k = Some r1 ∧ row_step k r r1) as (r1 & Hr1 & Hs).
    { inversion Hc as [E|k0 r0 r0' Hr0 Hstep E|k0 r0 Hr0 _ _ _ E].
      - exists r. split; [congruence|apply row_step_refl].
      - destruct (decide (k0 = k)) as [->|Hne].
        + rewrite lookup_insert_eq. exists r0'. split; [done|]. congruence.
        + rewrite lookup_insert_ne by done. exists r. split; [done|apply row_step_refl].
      - rewrite lookup_insert_ne by (intros ->; congruence). exists r. split; [done|apply row_step_refl]. }
    destruct (IH Hwf2 r1 Hr1) as (r' & Hr' & He). exists r'. split; [done|].
    eapply row_evolves_step; [exact (wl_rows _ Hwf _ _ Hr)|done|done].
Qed.
End facts.
