(* ===== verification/LedgerProps.v ===== *)
(** * The allocation ledger: what it guarantees

    Stated of the ledger's operations over any sequence of calls from a fresh
    database, with a worked example (one reservation, finalised, run, cleaned)
    that the witnesses evaluate. *)

From S2P Require Import Prelude Datetime PyValue PyText Json Digest Jcs Signatures Manifest Sql Allocation AllocationLedger LedgerFacts.
#[local] Open Scope Z_scope.

Section props.
Context {D : Digest} {K : KeyLibrary}.

(** C4: The invariant of the ledger: in every reachable state each row is well
    formed for its state (a reserved or issued allocation has started no job, a
    running or terminal one exactly one, recovery is pending exactly in
    recovery_required and under the derived idempotency key, cleaned rows carry
    a terminal outcome), and no two allocations share a nonce binding. *)
Theorem ledger_invariant s k r :
  reachable_ledger s → allocations s !! k = Some r →
  wf_row k r ∧ 0 ≤ jobs_started r ≤ 1 ∧ (cleanup_complete r = true ↔ state r = Cleaned) ∧
  (∀ k' r', allocations s !! k' = Some r' → binding_digest r' = binding_digest r → k' = k).
Proof.
  intros Hs%reachable_ledger_wf Hr. destruct Hs as [Hrows Hb]. pose proof (Hrows _ _ Hr) as Hwf.
  split; [done|]. repeat split; try (intros; by eapply Hb).
  1,2: unfold wf_row in Hwf; destruct (state r); destruct_and? Hwf; set_unfold; lia.
  - intros Hc. unfold wf_row, fresh_lifecycle in Hwf. destruct (state r); destruct_and? Hwf; (congruence || done).
  - intros Hc. unfold wf_row in Hwf. rewrite Hc in Hwf. tauto.
Qed.

(** C5: The history of an allocation.  Over any sequence of operations its row
    is never removed; nonce binding, label, reservation and approval expiry are
    immutable, the payload and the scale set once written too; the state moves
    along the edges of the machine only, so never backwards, a recorded outcome
    stays, and a cleaned allocation stays cleaned. *)
Theorem allocation_history s s' k r :
  reachable_ledger s → rtc ledger_step s s' → allocations s !! k = Some r →
  ∃ r', allocations s' !! k = Some r' ∧ same_identity r r' ∧ rtc moves (state r) (state r') ∧
    (state_rank (state r) ≤ state_rank (state r'))%nat ∧
    (∀ o, outcome r = Some o → outcome r' = Some o) ∧ jobs_started r ≤ jobs_started r' ∧
    (state r = Cleaned → state r' = Cleaned ∧ outcome r' = outcome r).
Proof.
  intros Hs%reachable_ledger_wf Hst Hr. destruct (ledger_evolves _ _ _ _ Hs Hst Hr) as (r' & Hr' & [Hi Hp Ho Hj Hf]).
  exists r'. repeat (split; [done|]). split; [by apply path_rank|]. repeat (split; [done|]).
  intros Hc. assert (state r' = Cleaned) as Hc'.
  { rewrite Hc in Hp. inversion Hp as [|? ? ? Hm]; [done|]. inversion Hm as [| | | |st Hin|]. set_solver. }
  split; [done|]. by apply Hf; congruence.
Qed.

(** An allocation admits one job.  Once admit-job has returned for it, over
    any sequence of operations its row counts exactly one started job and every
    later admit-job raises. *)
Lemma one_job_per_allocation s s1 s2 k args args' rec :
  reachable_ledger s →
  transition k "admit-job" args s = (Ok rec, s1) →
  rtc ledger_step s1 s2 →
  (∃ r, allocations s2 !! k = Some r ∧ jobs_started r = 1) ∧
  (∀ rec' s3, transition k "admit-job" args' s2 ≠ (Ok rec', s3)).
Proof.
  intros Hs Ht Hsteps.
  assert (ledger_step s s1) as Hstep.
  { exists (CTransition k "admit-job" args). cbn. by rewrite (eval_run _ _ _ _ _ Ht). }
  assert (reachable_ledger s1) as Hs1.
  { destruct Hs as [ret Hs]. exists ret. by eapply rtc_r. }
  apply reachable_ledger_wf in Hs1.
  apply transition_inv in Ht as (a & r & times & [= <-] & Hr & _ & _ & [(Hn & _ & _)|(r' & Hl & -> & _)]).
  { cbn in Hn. unfold admit_job in Hn. destruct times as [[? ?] ?]. case_match; [done|].
    apply result_bind_ok in Hn as (? & _ & Hn). apply result_bind_ok in Hn as (? & _ & Hn). by case_match. }
  assert (state r' = Running ∧ jobs_started r' = 1) as [Hrun Hj].
  { cbn in Hl. unfold admit_job in Hl. destruct times as [[? ?] ?]. case_match; [done|].
    apply result_bind_ok in Hl as (? & _ & Hl). apply result_bind_ok in Hl as (? & _ & Hl).
    case_match; [|done]. by injection Hl as <-. }
  destruct (ledger_evolves _ s2 k r' Hs1 Hsteps (lookup_insert_eq _ _ _)) as (r2 & Hr2 & [_ Hp _ Hj2 _]).
  assert (wf_ledger s2) as Hs2 by (by eapply steps_wf).
  assert (state r2 ≠ Issued) as Hni.
  { intros E. apply path_rank in Hp. rewrite Hrun, E in Hp. cbn in Hp. lia. }
  split.
  - exists r2. split; [done|]. pose proof (wl_rows _ Hs2 _ _ Hr2) as Hwf. unfold wf_row in Hwf.
    destruct (state r2); destruct_and? Hwf; set_unfold; lia.
  - intros rec' s3 Ht. apply transition_inv in Ht as (a & r0 & times' & [= <-] & Hr0 & _ & _ & Ht).
    assert (r0 = r2) as -> by congruence.
    assert (lifecycle_step k AdmitJob args' times' r2 = invalid_transition r2 AdmitJob) as E.
    { cbn. unfold admit_job. destruct times' as [[? ?] ?]. by rewrite bool_decide_eq_false_2. }
    rewrite E in Ht. by destruct Ht as [(? & _)|(? & ? & _)].
Qed.

(** The edge each action takes, and where it is an idempotent repetition. *)
Definition edge (a : Action) (st st' : LedgerState) : Prop :=
  match a with
  | AdmitJob => st = Issued ∧ st' = Running
  | Finish => st = Running ∧ st' = Terminal
  | Cleanup => st = Terminal ∧ st' = Cleaned
  | Recover => st ∈ [Reserved; Issued; Running] ∧ st' = RecoveryRequired
  | AckRecoveryCleanup => st = RecoveryRequired ∧ st' = Cleaned
  end.
Definition settled (a : Action) (st : LedgerState) : Prop :=
  match a with
  | AdmitJob | Finish => False
  | Cleanup | AckRecoveryCleanup => st = Cleaned
  | Recover => st = RecoveryRequired
  end.

Lemma lifecycle_step_edge k a args times r next :
  lifecycle_step k a args times r = Ok next →
  match next with
  | Some r' => edge a (state r) (state r') ∧ row_step k r r'
  | None => settled a (state r)
  end.
Proof.
  intros H. destruct next as [r'|].
  - split; [|by eapply lifecycle_step_row]. apply lifecycle_step_row in H as Hm. destruct Hm as [_ Hm].
    destruct a; cbn in H |- *.
    + unfold admit_job in H. destruct times as [[? ?] ?]. case_match eqn:E; [done|]. bool_inv.
      do 2 apply result_bind_ok in H as (? & _ & H). case_match; [|done]. by injection H as <-.
    + unfold finish_job in H. case_match eqn:E; [|done]. rewrite !andb_true_iff, bool_decide_eq_true in E.
      injection H as <-. cbn. tauto.
    + unfold clean_up in H. case_match eqn:E; [|by case_match]. rewrite !andb_true_iff, bool_decide_eq_true in E.
      injection H as <-. cbn. tauto.
    + unfold recover_row in H. case_match eqn:E; [|by case_match]. rewrite andb_true_iff, !bool_decide_eq_true in E.
      apply result_bind_ok in H as (? & _ & [= <-]). cbn. tauto.
    + unfold ack_recovery in H. destruct (t_cleanup_evidence args); [|done].
      do 2 apply result_bind_ok in H as (? & _ & H). case_match eqn:E; [|by case_match].
      rewrite !andb_true_iff, bool_decide_eq_true in E. injection H as <-. cbn. tauto.
  - destruct a; cbn in H |- *.
    + unfold admit_job in H. destruct times as [[? ?] ?]. case_match; [done|].
      do 2 apply result_bind_ok in H as (? & _ & H). by case_match.
    + unfold finish_job in H. by case_match.
    + unfold clean_up in H. case_match; [done|]. case_match eqn:E; [|done]. by bool_inv.
    + unfold recover_row in H. case_match; [by apply result_bind_ok in H as (? & _ & ?)|].
      case_match eqn:E; [|done]. rewrite andb_true_iff, !bool_decide_eq_true in E. tauto.
    + unfold ack_recovery in H. destruct (t_cleanup_evidence args); [|done].
      do 2 apply result_bind_ok in H as (? & _ & H). case_match; [done|]. case_match eqn:E; [|done].
      rewrite !andb_true_iff, !bool_decide_eq_true in E. tauto.
Qed.

(** [transition] implements the state machine: a call that returns either
    takes the edge of its action on exactly one row and reports the new state,
    or is the repetition of a cleanup, recovery or acknowledgement that has
    already happened and leaves the ledger untouched. *)
Lemma transition_refines_machine s s' k action args rec :
  transition k action args s = (Ok rec, s') →
  ∃ a r, read_action action = Ok a ∧ allocations s !! k = Some r ∧ outcomes s' = outcomes s ∧
    ((edge a (state r) (r_state rec) ∧ ∃ r', allocations s' = <[k := r']> (allocations s) ∧
        state r' = r_state rec ∧ same_identity r r' ∧ get_record s' k = Ok rec) ∨
     (settled a (state r) ∧ s' = s ∧ r_state rec = state r ∧ get_record s k = Ok rec)).
Proof.
  intros H. apply transition_inv in H as (a & r & times & Ha & Hr & Ht & _ & Hc). exists a, r.
  split; [done|]. split; [done|]. destruct Hc as [(Hl & -> & ->)|(r' & Hl & -> & ->)].
  - split; [done|]. right. apply lifecycle_step_edge in Hl. split; [done|]. split; [done|].
    destruct times as [[? ?] ?]. split; [done|]. unfold get_record. by rewrite Hr, Ht.
  - split; [done|]. left. pose proof (lifecycle_step_times _ _ _ _ _ _ Hl) as Hrt.
    apply lifecycle_step_edge in Hl as [He Hs]. destruct times as [[i e] d].
    split; [done|]. exists r'. split; [done|]. split; [done|]. split; [apply Hs|].
    unfold get_record. cbn. rewrite lookup_insert_eq.
    by rewrite Hrt, Ht.
Qed.

Lemma print_object_nonempty d : nonempty (json_print utf16_leb (VDict d)) = true.
Proof. done. Qed.

Lemma stored_payload s k r body p :
  allocations s !! k = Some r → payload_json r = Some body → canonicalize_jcs (VDict p) = Ok body →
  wf_pyval (VDict p) → ∃ d, payload s k = Ok d ∧ VDict d = jcs_normal (VDict p).
Proof.
  intros Hr Hp Hb Hwf. pose proof (canonicalize_parse _ _ Hwf Hb) as Hparse.
  apply canonicalize_ok in Hb as [_ ->].
  exists (sort_keys utf16_leb (List.map (λ kv, (kv.1, jcs_normal kv.2)) p)). split; [|done].
  unfold payload, stored_document. rewrite Hr. cbn [mbind option_bind]. rewrite Hp.
  cbn [truthy default]. rewrite print_object_nonempty. cbn [negb deny_if check mbind result_bind].
  unfold default, id. cbn. unfold jcs_normal in Hparse. cbn in Hparse. by rewrite Hparse.
Qed.

(** Finalisation honours the reservation.  When [finalize] turns a
    reservation into an issued allocation, the row was reserved and the signed
    payload, its run-time fields apart, equals the stored reservation; the
    payload then reads back as signed, and over any later sequence of operations
    a finalisation of the same allocation can only return idempotently, for the
    same canonical payload. *)
Lemma finalize_honours_reservation s s' envelope key pinned now :
  reachable_ledger s →
  finalize envelope key pinned now s = (Ok "issued", s') →
  ∃ p r reservation projection,
    verify_allocation envelope key pinned now = Ok p ∧ allocations s !! id_of p = Some r ∧
    state r = Reserved ∧ stored_reservation r = Ok reservation ∧
    reservation_projection p = Ok projection ∧ py_eq (VDict projection) reservation = true ∧
    (wf_pyval (VDict p) → ∃ d, payload s' (id_of p) = Ok d ∧ VDict d = jcs_normal (VDict p)) ∧
    (∀ s2 envelope' key' pinned' now' p' o s3, rtc ledger_step s' s2 →
       finalize envelope' key' pinned' now' s2 = (Ok o, s3) →
       verify_allocation envelope' key' pinned' now' = Ok p' → id_of p' = id_of p →
       o = "idempotent" ∧ s3 = s2 ∧ canonicalize_jcs (VDict p') = canonicalize_jcs (VDict p)).
Proof.
  intros Hs%reachable_ledger_wf Hf. pose proof Hf as Hcall. apply finalize_inv in Hf as (p & body & Hp & Hb & Hf).
  destruct Hf as [[? _]|(_ & r & res & proj & Hr & Hst & Hpj & Hres & Hproj & Heq & ->)]; [done|].
  exists p, r, res, proj. repeat (split; [done|]).
  set (r' := set_finalized _ _ _ _ r). split.
  - intros Hwf. eapply (stored_payload _ _ r'); try done. cbn. by rewrite lookup_insert_eq.
  - intros s2 envelope' key' pinned' now' p' o s3 Hsteps Hf' Hp' Hid.
    assert (wf_ledger (set_allocations (insert (id_of p) r') s)) as Hs'.
    { eapply table_change_wf; [|exact Hs]. cbn. eapply tc_update; [done|]. by apply set_finalized_row. }
    destruct (ledger_evolves _ s2 (id_of p) r' Hs' Hsteps) as (r2 & Hr2 & [[_ _ _ _ Hpay _] _ _ _ _]).
    { cbn. by rewrite lookup_insert_eq. }
    specialize (Hpay body eq_refl).
    apply finalize_inv in Hf' as (p2 & body2 & Hp2 & Hb2 & Hf'). assert (p2 = p') as -> by congruence.
    rewrite Hid in Hf'. destruct Hf' as [(-> & -> & r3 & Hr3 & Hpj3)|(_ & r3 & ? & ? & Hr3 & _ & Hpj3 & _)].
    + split; [done|]. split; [done|]. congruence.
    + congruence.
Qed.

Lemma ack_when_cleaned k args r next evidence digest :
  state r = Cleaned → ack_recovery k args r = Ok next → t_cleanup_evidence args = Some evidence →
  (sha256_hex <$> canonicalize_jcs (VDict evidence)) = Ok digest →
  next = None ∧ cleanup_evidence_digest r = Some digest.
Proof.
  intros Hc Hl Hev Hdig. unfold ack_recovery in Hl. rewrite Hev in Hl.
  apply result_bind_ok in Hl as (? & _ & Hl). apply result_bind_ok in Hl as (d & Hd & Hl).
  assert (d = digest) as -> by congruence. rewrite Hc in Hl.
  rewrite bool_decide_eq_false_2, (bool_decide_eq_true_2 (Cleaned = Cleaned)) in Hl by done. cbn [andb] in Hl.
  case_match eqn:E; [|done]. rewrite andb_true_iff, !bool_decide_eq_true in E. destruct E as [_ E].
  split; [congruence|done].
Qed.

(** A recovered allocation is cleaned on evidence.  An acknowledgement
    returns only for evidence that names the allocation and its idempotency
    key, repeats its job count, and certifies that registration, workspace,
    token, container and allocation are gone with no orphan left; the row is
    then cleaned with the digest of that evidence, and over any later sequence
    of operations an acknowledgement with other evidence is refused. *)
Lemma recovery_acknowledged_on_evidence s s' k args rec :
  reachable_ledger s →
  transition k "ack-recovery-cleanup" args s = (Ok rec, s') →
  ∃ r r' evidence digest,
    allocations s !! k = Some r ∧ t_cleanup_evidence args = Some evidence ∧
    valid_cleanup_evidence k r (t_cleanup_idempotency_key args) evidence = true ∧
    (sha256_hex <$> canonicalize_jcs (VDict evidence)) = Ok digest ∧
    allocations s' !! k = Some r' ∧ state r' = Cleaned ∧ outcome r' = Some "reboot" ∧
    cleanup_evidence_digest r' = Some digest ∧ r_state rec = Cleaned ∧
    (∀ s2 args' rec' s3 evidence' digest', rtc ledger_step s' s2 →
       transition k "ack-recovery-cleanup" args' s2 = (Ok rec', s3) →
       t_cleanup_evidence args' = Some evidence' →
       (sha256_hex <$> canonicalize_jcs (VDict evidence')) = Ok digest' → digest' = digest ∧ s3 = s2).
Proof.
  intros Hs Ht. assert (ledger_step s s') as Hstep.
  { exists (CTransition k "ack-recovery-cleanup" args). cbn. by rewrite (eval_run _ _ _ _ _ Ht). }
  assert (wf_ledger s') as Hs'.
  { apply reachable_ledger_wf. destruct Hs as [ret Hs]. exists ret. by eapply rtc_r. }
  apply reachable_ledger_wf in Hs.
  apply transition_inv in Ht as (a & r & times & [= <-] & Hr & _ & _ & Ht).
  assert (∃ evidence digest, t_cleanup_evidence args = Some evidence ∧
    valid_cleanup_evidence k r (t_cleanup_idempotency_key args) evidence = true ∧
    (sha256_hex <$> canonicalize_jcs (VDict evidence)) = Ok digest ∧
    ∃ r', allocations s' !! k = Some r' ∧ state r' = Cleaned ∧ outcome r' = Some "reboot" ∧
      cleanup_evidence_digest r' = Some digest ∧ r_state rec = Cleaned)
    as (evidence & digest & Hev & Hval & Hdig & r' & Hr' & Hc & Ho & Hd & Hrec).
  { pose proof (wl_rows _ Hs _ _ Hr) as Hwf. destruct times as [[i e] d].
    destruct Ht as [(Hl & -> & ->)|(r' & Hl & -> & ->)]; cbn in Hl; unfold ack_recovery in Hl;
      destruct (t_cleanup_evidence args) as [evidence|]; try done;
      apply result_bind_ok in Hl as (? & Hval & Hl); apply deny_if_ok, negb_false_iff in Hval;
      apply result_bind_ok in Hl as (digest & Hdig & Hl); exists evidence, digest; (do 3 (split; [done|])).
    - case_match; [done|]. case_match eqn:E; [|done]. rewrite !andb_true_iff, !bool_decide_eq_true in E.
      destruct E as [[? ?] ?]. exists r. by repeat split.
    - case_match eqn:E; [|by case_match]. rewrite !andb_true_iff, bool_decide_eq_true in E.
      destruct E as [[Es _] _]. injection Hl as <-. eexists. cbn. rewrite lookup_insert_eq.
      unfold wf_row in Hwf. rewrite Es in Hwf. destruct Hwf as [Ho _]. by repeat split. }
  exists r, r', evidence, digest. repeat (split; [done|]).
  intros s2 args' rec' s3 evidence' digest' Hsteps Ht2 Hev' Hdig'.
  destruct (ledger_evolves _ s2 k r' Hs' Hsteps Hr') as (r2 & Hr2 & [_ Hp _ _ Hfin]).
  assert (state r2 = Cleaned) as Hc2.
  { rewrite Hc in Hp. inversion Hp as [|? ? ? Hm]; [done|]. inversion Hm as [| | | |st Hin|]. set_solver. }
  destruct Hfin as (_ & _ & Hd2); [congruence|].
  apply transition_inv in Ht2 as (a & r0 & times' & [= <-] & Hr0 & _ & _ & Ht2).
  assert (r0 = r2) as -> by congruence.
  destruct Ht2 as [(Hl & -> & _)|(r3 & Hl & -> & _)];
    destruct (ack_when_cleaned _ _ _ _ _ _ Hc2 Hl Hev' Hdig') as [Hn Hd3]; [|done].
  split; [congruence|done].
Qed.

(** ** The outcome table *)

Definition distinct_keys (s : Ledger) : Prop := NoDup (event_key <$> outcomes s).

Lemma prune_sublist limit l : prune limit l `sublist_of` l.
Proof. apply sublist_filter. Qed.

Lemma append_distinct event now s b s' :
  append_outcome event now s = (Ok b, s') → distinct_keys s → distinct_keys s'.
Proof.
  unfold append_outcome, distinct_keys. intros H Hnd. apply bind_ok in H as (row & ? & [_ <-]%lift_ok & H).
  apply bind_ok in H as (? & ? & [-> ->]%get_ok & H). apply bind_ok in H as (limit & ? & [_ <-]%lift_ok & H).
  destruct (List.find _ _) as [e|] eqn:Hf; [case_decide; [by apply ret_ok in H as [_ <-]|by apply raise_ok in H]|].
  apply transaction_ok_1 in H. apply bind_ok in H as (? & ? & ->%modify_ok & H).
  apply bind_ok in H as (? & ? & [_ <-]%lift_ok & H). apply bind_ok in H as (? & ? & ->%modify_ok & [_ <-]%ret_ok).
  cbn. rewrite fmap_app. apply NoDup_app. split; [|split; [|apply NoDup_singleton]].
  - eapply sublist_NoDup; [exact Hnd|]. by apply fmap_sublist, prune_sublist.
  - intros z (r & -> & Hr)%list_elem_of_fmap Heq%list_elem_of_singleton.
    rewrite list_elem_of_In in Hr. pose proof (List.find_none _ _ Hf _ Hr) as Hne. cbn in Hne. by apply bool_decide_eq_false in Hne.
Qed.

Lemma call_outcomes c s s' :
  run_call c s = (Ok tt, s') → (∀ event now, c ≠ CAppend event now) → outcomes s' = outcomes s.
Proof.
  intros H Hc. destruct c; cbn [run_call] in H; apply bind_ok in H as (? & ? & H & [_ <-]%ret_ok).
  - by destruct (Hc event now).
  - unfold admit_allocation, insert_allocation in H. run_inv; done.
  - unfold reserve, insert_allocation in H. run_inv; done.
  - apply finalize_inv in H as (p & body & _ & _ & [(_ & -> & _)|(_ & r & res & proj & H)]); [done|].
    by destruct_and! H; subst.
  - unfold bind_scale_set in H. run_inv; done.
  - apply transition_inv in H as (a & r & times & _ & _ & _ & _ & [(_ & -> & _)|(r' & _ & -> & _)]); done.
Qed.

Lemma call_distinct c s s' : run_call c s = (Ok tt, s') → distinct_keys s → distinct_keys s'.
Proof.
  intros H. destruct c as [event now| | | | |].
  2-6: apply call_outcomes in H; [|done]; unfold distinct_keys; by rewrite H.
  cbn in H. apply bind_ok in H as (? & ? & H & [_ <-]%ret_ok). by eapply append_distinct.
Qed.

Lemma reachable_distinct s : reachable_ledger s → distinct_keys s.
Proof.
  intros [retention Hr]. assert (distinct_keys (fresh_ledger retention)) as H0 by apply NoDup_nil_2.
  induction Hr as [|s1 s2 s3 [c Hc] _ IH]; [done|]. apply IH. by eapply call_distinct.
Qed.

Lemma find_unique (l : list OutcomeRow) k r :
  NoDup (event_key <$> l) → r ∈ l → event_key r = k →
  List.find (λ r, bool_decide (event_key r = k)) l = Some r.
Proof.
  intros Hnd Hin Hk. destruct (List.find _ l) as [r'|] eqn:Hf.
  - apply List.find_some in Hf as [Hin' Hk']. bool_inv. f_equal.
    rewrite <- list_elem_of_In in Hin'. apply list_elem_of_lookup in Hin as [i Hi], Hin' as [j Hj].
    assert (i = j) as ->; [|congruence]. eapply (NoDup_lookup _ _ _ k Hnd); rewrite list_lookup_fmap.
    + by rewrite Hi; cbn; rewrite Hk. + by rewrite Hj; cbn; rewrite Hk'.
  - rewrite list_elem_of_In in Hin. pose proof (List.find_none _ _ Hf _ Hin) as Hn. cbn in Hn. by apply bool_decide_eq_false in Hn.
Qed.

(** An outcome event is recorded once: event keys are unique in the table
    of a reachable ledger, and repeating an event that is still retained either
    reports that nothing changed, when its stable columns agree, or raises;
    either way the ledger is as it was. *)
Lemma outcome_recorded_once s event now row existing limit :
  reachable_ledger s →
  read_event event now = Ok row →
  existing ∈ outcomes s → event_key existing = event_key row →
  cutoff (outcome_retention_days s) now = Ok limit → String.ltb (occurred_at existing) limit = false →
  append_outcome event now s =
    (if decide (stable existing = stable row) then (Ok false, s)
     else (Raise (Exn RunnerJitError "outcome event key was reused with different content"), s)).
Proof.
  intros Hs%reachable_distinct Hrow Hin Hkey Hcut Hold. unfold append_outcome.
  rewrite (eval_lift _ _ _ _ Hrow), eval_get, (eval_lift _ _ _ _ Hcut).
  rewrite (find_unique (prune limit (outcomes s)) (event_key row) existing).
  - by case_decide.
  - eapply sublist_NoDup; [exact Hs|]. by apply fmap_sublist, prune_sublist.
  - apply list_elem_of_filter. done.
  - done.
Qed.
End props.

(** ** An allocation from its reservation to its cleanup *)

#[local] Existing Instance ToyDigest.
#[local] Existing Instance ToyKeys.

Definition sample_public : @public_key ToyKeys := @public_of ToyKeys sample_signer.
Definition sample_pinned : string := spki_fingerprint (D := ToyDigest) (K := ToyKeys) sample_public.
Definition no_args : TransitionArgs :=
  {| t_now := None; t_outcome := None; t_normal_cancel_attempted := false;
     t_cleanup_idempotency_key := None; t_cleanup_evidence := None |}.
Definition admit_args : TransitionArgs :=
  {| t_now := Some sample_signed_at; t_outcome := None; t_normal_cancel_attempted := false;
     t_cleanup_idempotency_key := None; t_cleanup_evidence := None |}.

Definition after {A} (m : M Ledger A) (s : Ledger) : Ledger := (m s).2.
Definition returns {A} (m : M Ledger A) (s : Ledger) : bool := is_ok (m s).1.

Definition ledger0 : Ledger := fresh_ledger 30.
Definition ledger1 : Ledger := Eval vm_compute in after (reserve sample_reservation sample_reserved_at) ledger0.
Definition ledger2 : Ledger := Eval vm_compute in after (finalize sample_envelope sample_public sample_pinned sample_signed_at) ledger1.
Definition ledger3 : Ledger := Eval vm_compute in after (transition sample_id "admit-job" admit_args) ledger2.
Definition ledger4 : Ledger := Eval vm_compute in after (transition sample_id "recover" no_args) ledger3.

Definition sample_cleanup_key : string :=
  Eval vm_compute in default "" (allocations ledger4 !! sample_id ≫= cleanup_idempotency_key).
Definition sample_evidence : dict :=
  [("allocation_id", VStr sample_id); ("cleanup_idempotency_key", VStr sample_cleanup_key); ("jobs_started", VInt 1);
   ("registration_removed", VBool true); ("workspace_removed", VBool true); ("token_removed", VBool true);
   ("container_removed", VBool true); ("allocation_removed", VBool true); ("orphan_registrations", VInt 0)].
Definition ack_args : TransitionArgs :=
  {| t_now := None; t_outcome := None; t_normal_cancel_attempted := false;
     t_cleanup_idempotency_key := Some sample_cleanup_key; t_cleanup_evidence := Some sample_evidence |}.
Definition ledger5 : Ledger := Eval vm_compute in after (transition sample_id "ack-recovery-cleanup" ack_args) ledger4.

Definition sample_event : dict :=
  [("event_key", VStr "allocation:1"); ("cause_code", VStr "success"); ("allocation_id", VStr sample_id);
   ("run_id", VStr "1001"); ("job_id", VNone); ("repository", VStr "owner/name"); ("pr_number", VInt 7);
   ("head_sha", VNone); ("prior_ledger_state", VStr "terminal"); ("issued_at", VNone); ("claim_deadline", VNone);
   ("delay_bucket", VStr "unknown"); ("executed", VBool true); ("success", VBool true)].
Definition ledger6 : Ledger := Eval vm_compute in after (append_outcome sample_event sample_signed_at) ledger5.
Definition sample_row : OutcomeRow :=
  {| event_key := "allocation:1"; cause_code := "success"; oc_allocation_id := Some sample_id;
     oc_run_id := Some "1001"; oc_job_id := None; oc_repository := Some "owner/name"; oc_pr_number := Some 7;
     oc_head_sha := None; prior_ledger_state := Some "terminal"; oc_issued_at := None; oc_claim_deadline := None;
     occurred_at := "2026-01-15T10:02:00Z"; oc_delay_bucket := "unknown"; executed := true; success := true |}.

Definition row_at (s : Ledger) : AllocationRow :=
  default (new_row "" "" Reserved VNone VNone None None None None) (allocations s !! sample_id).
Definition record_at (s : Ledger) (action : string) (args : TransitionArgs) : AllocationRecord :=
  result_or (record_of sample_id (row_at s) (0, 0, 0)) (transition sample_id action args s).1.

Lemma returns_run {A} (m : M Ledger A) s :
  returns m s = true → ∃ a, m s = (Ok a, after m s).
Proof. unfold returns, after. destruct (m s) as [[a|e] s']; [eauto|done]. Qed.

Lemma runs_step c s : returns (run_call c) s = true → ledger_step s (after (run_call c) s).
Proof. intros (u & Hr)%returns_run. exists c. by destruct u. Qed.

Lemma steps_to_3 : reachable_ledger ledger2 ∧ ledger_step ledger2 ledger3.
Proof.
  split.
  - exists 30. apply (rtc_l _ _ ledger1); [|apply (rtc_l _ _ ledger2); [|apply rtc_refl]].
    + exists (CReserve sample_reservation sample_reserved_at). vm_compute. reflexivity.
    + exists (CFinalize sample_envelope sample_public sample_pinned sample_signed_at). vm_compute. reflexivity.
  - exists (CTransition sample_id "admit-job" admit_args). vm_compute. reflexivity.
Qed.

Lemma reach1 : reachable_ledger ledger1.
Proof.
  exists 30. apply rtc_once. exists (CReserve sample_reservation sample_reserved_at). vm_compute. reflexivity.
Qed.
Lemma reach4 : reachable_ledger ledger4.
Proof.
  destruct steps_to_3 as [[ret H] H3]. exists ret. eapply rtc_r; [eapply rtc_r; [exact H|exact H3]|].
  exists (CTransition sample_id "recover" no_args). vm_compute. reflexivity.
Qed.
Lemma reach6 : reachable_ledger ledger6.
Proof.
  destruct reach4 as [ret H]. exists ret. eapply rtc_r; [eapply rtc_r; [exact H|]|].
  - instantiate (1 := ledger5). exists (CTransition sample_id "ack-recovery-cleanup" ack_args). vm_compute. reflexivity.
  - exists (CAppend sample_event sample_signed_at). vm_compute. reflexivity.
Qed.

Lemma ledger_invariant_witness : cleanup_complete (row_at ledger6) = true ↔ state (row_at ledger6) = Cleaned.
Proof.
  exact (proj1 (proj2 (proj2 (ledger_invariant (D := ToyDigest) (K := ToyKeys) ledger6 sample_id (row_at ledger6) reach6
    ltac:(vm_compute; reflexivity))))).
Defined.

Lemma allocation_history_witness :
  ∃ r', allocations ledger3 !! sample_id = Some r' ∧ same_identity (row_at ledger2) r'.
Proof.
  destruct (allocation_history (D := ToyDigest) (K := ToyKeys) ledger2 ledger3 sample_id (row_at ledger2)
    (proj1 steps_to_3) (rtc_once _ _ (proj2 steps_to_3)) ltac:(vm_compute; reflexivity)) as (r' & Hr' & Hi & _).
  exists r'. exact (conj Hr' Hi).
Defined.

Lemma one_job_per_allocation_witness :
  ∃ r, allocations ledger3 !! sample_id = Some r ∧ jobs_started r = 1.
Proof.
  exact (proj1 (one_job_per_allocation (D := ToyDigest) (K := ToyKeys) ledger2 ledger3 ledger3 sample_id
    admit_args admit_args (record_at ledger2 "admit-job" admit_args) (proj1 steps_to_3)
    ltac:(vm_compute; reflexivity) (rtc_refl _ _))).
Defined.

Lemma transition_refines_machine_witness :
  ∃ a r, read_action "recover" = Ok a ∧ allocations ledger3 !! sample_id = Some r.
Proof.
  destruct (transition_refines_machine (D := ToyDigest) ledger3 ledger4 sample_id "recover" no_args
    (record_at ledger3 "recover" no_args) ltac:(vm_compute; reflexivity)) as (a & r & Ha & Hr & _).
  exists a, r. exact (conj Ha Hr).
Defined.

Lemma finalize_honours_reservation_witness :
  ∃ p projection, verify_allocation sample_envelope sample_public sample_pinned sample_signed_at = Ok p ∧
    reservation_projection p = Ok projection.
Proof.
  destruct (finalize_honours_reservation (D := ToyDigest) (K := ToyKeys) ledger1 ledger2 sample_envelope sample_public
    sample_pinned sample_signed_at reach1 ltac:(vm_compute; reflexivity))
    as (p & r & res & proj & Hp & _ & _ & _ & Hj & _).
  exists p, proj. exact (conj Hp Hj).
Defined.

Lemma recovery_acknowledged_on_evidence_witness :
  ∃ r' digest, allocations ledger5 !! sample_id = Some r' ∧ cleanup_evidence_digest r' = Some digest.
Proof.
  destruct (recovery_acknowledged_on_evidence (D := ToyDigest) (K := ToyKeys) ledger4 ledger5 sample_id ack_args
    (record_at ledger4 "ack-recovery-cleanup" ack_args) reach4 ltac:(vm_compute; reflexivity))
    as (r & r' & ev & digest & _ & _ & _ & _ & Hr' & _ & _ & Hd & _).
  exists r', digest. exact (conj Hr' Hd).
Defined.

Lemma outcome_recorded_once_witness :
  append_outcome sample_event sample_signed_at ledger6 = (Ok false, ledger6).
Proof.
  rewrite (outcome_recorded_once (D := ToyDigest) (K := ToyKeys) ledger6 sample_event sample_signed_at sample_row sample_row
    "2025-12-16T10:02:00Z").
  - rewrite decide_True by done. reflexivity.
  - exact reach6.
  - vm_compute. reflexivity.
  - apply (list_elem_of_lookup_2 _ 0). vm_compute. reflexivity.
  - done.
  - vm_compute. reflexivity.
  - vm_compute. reflexivity.
Defined.
