(* ===== verification/AllocationBroker.v ===== *)
(** * The allocation broker (runner_jit_broker.py: AllocationBroker)

    Create, bind, enable, admit, drain, delete: the broker drives GARM through
    a driver, GitHub through a live verifier, and records every decision in the
    ledger.  The driver, the verifier and the clock are the class [Driver] over
    an abstract outside world; the state of the broker is that world and the
    ledger.  An exception keeps what was done before it.  The loops that poll
    carry fuel; [FuelLaws] is what makes it enough. *)

From S2P Require Import Prelude Datetime PyValue PyText Json Digest Jcs Signatures Sql Allocation AllocationLedger.
#[local] Open Scope Z_scope.

Definition RUNNER_HOOK_DEADLINE_SECONDS : Z := seconds 60.
Definition RUNNER_HOOK_SAFETY_MARGIN_SECONDS : Z := seconds 5.
Definition RUNNER_DISABLE_MINIMUM_BUDGET_SECONDS : Z := seconds 5.
Definition GARM_CLEANUP_CONVERGENCE_SECONDS : Z := seconds 600.

(** ** Exceptions the broker catches *)

(** [except RunnerJitError] *)
Definition is_runner_error (c : exn_class) : bool :=
  bool_decide (c ∈ [RunnerJitError; RunnerJitTemporalError; ApprovalExpired; AllocationClaimExpired;
                    InvalidLifecycleTransition; JobStartedDenial]).
(** [except (OSError, ValueError)] *)
Definition is_os_or_value_error (c : exn_class) : bool :=
  is_runner_error c || is_value_error c || bool_decide (c = OSError).

(** ** Denials *)

Definition SIGNED_CONTEXT_FIELDS : list string :=
  ["repository_id"; "repository"; "dispatch_sha"; "tested_sha"; "workflow_ref"; "run_id"; "run_attempt";
   "job_name"; "scale_set_name"].
Definition JOB_STARTED_ERROR_CODES : list (string * list string) :=
  [("request", ["invalid-context"]); ("allocation", ["binding-unavailable"]);
   ("signed-context", ["context-mismatch"]); ("runner-claim", ["claim-not-observed"]);
   ("live-job", ["job-not-verified"]); ("ledger-claim", ["claim-expired"; "claim-state-conflict"]);
   ("runner-disable", ["disable-failed"])].

Definition codes_of (phase : string) : list string :=
  match List.find (λ pc, bool_decide (pc.1 = phase)) JOB_STARTED_ERROR_CODES with
  | Some pc => pc.2
  | None => []
  end.

(** The denial an error code stands for; its text is the code, and the phase is
    determined by it. *)
Definition job_started_denial (phase code : string) (mismatched : list string) : exn :=
  if negb (bool_decide (code ∈ codes_of phase)) then Exn ValueError "job-started diagnostic phase/code is not allowed"
  else if negb (subset_of mismatched SIGNED_CONTEXT_FIELDS)
  then Exn ValueError "job-started diagnostic field is not allowed"
  else Exn JobStartedDenial code.

(** ** Contexts and policy *)

Record JobStartedObservationPolicy := { timeout_seconds : Z; poll_interval_seconds : Z }.

Definition observation_policy (timeout poll : Z) : result JobStartedObservationPolicy :=
  deny_if ((timeout <=? 0) || (poll <=? 0)) "job-started observation timing must be positive and finite";;
  deny_if ((RUNNER_HOOK_DEADLINE_SECONDS - RUNNER_HOOK_SAFETY_MARGIN_SECONDS - RUNNER_DISABLE_MINIMUM_BUDGET_SECONDS
            <? timeout) || (timeout <? poll))
    "job-started observation timing exceeds the hook budget";;
  Ok {| timeout_seconds := timeout; poll_interval_seconds := poll |}.
Definition default_policy : JobStartedObservationPolicy :=
  {| timeout_seconds := seconds 45; poll_interval_seconds := seconds 1 |}.

Record JobStartedContext := {
  jc_repository_id : string;
  jc_repository : string;
  jc_dispatch_sha : string;
  jc_tested_sha : string;
  jc_workflow_ref : string;
  jc_run_id : string;
  jc_run_attempt : Z;
  jc_job_name : string;
  jc_runner_name : string;
  jc_scale_set_name : string;
}.

Definition context_fields : list string :=
  ["repository_id"; "repository"; "dispatch_sha"; "tested_sha"; "workflow_ref"; "run_id"; "run_attempt";
   "job_name"; "runner_name"; "scale_set_name"].

Definition context_from_mapping (value : dict) : result JobStartedContext :=
  deny_if (negb (same_set (dkeys value) context_fields)) "job-started context requires exact fields";;
  attempt ← match dget "run_attempt" value with
            | VInt n => Ok n
            | _ => deny "job-started run_attempt must be an integer"
            end;
  deny_if (negb (forallb (λ f, is_nonempty_str (dget f value)) (list_difference context_fields ["run_attempt"])))
    "job-started string fields must be non-empty";;
  let text f := default "" (text_of (dget f value)) in
  Ok {| jc_repository_id := text "repository_id"; jc_repository := text "repository";
        jc_dispatch_sha := text "dispatch_sha"; jc_tested_sha := text "tested_sha";
        jc_workflow_ref := text "workflow_ref"; jc_run_id := text "run_id"; jc_run_attempt := attempt;
        jc_job_name := text "job_name"; jc_runner_name := text "runner_name";
        jc_scale_set_name := text "scale_set_name" |}.

(** The fields of a context that the allocation signs. *)
Definition observed_context (c : JobStartedContext) : dict :=
  [("repository_id", VStr (jc_repository_id c)); ("repository", VStr (jc_repository c));
   ("dispatch_sha", VStr (jc_dispatch_sha c)); ("tested_sha", VStr (jc_tested_sha c));
   ("workflow_ref", VStr (jc_workflow_ref c)); ("run_id", VStr (jc_run_id c));
   ("run_attempt", VInt (jc_run_attempt c)); ("job_name", VStr (jc_job_name c));
   ("scale_set_name", VStr (jc_scale_set_name c))].

(** [payload[field]] for each signed field, and the fields that differ. *)
Fixpoint mismatches (observed payload : dict) : result (list string) :=
  match observed with
  | [] => Ok []
  | (f, v) :: observed =>
      expected ← ditem f payload;
      rest ← mismatches observed payload;
      Ok (if py_eq v expected then rest else f :: rest)
  end.

(** ** The outside world *)

Class Driver (G : Type) := {
  clock : G → Z;
  sleep : Z → M G unit;
  assert_no_persistent_scale_set : M G unit;
  ensure_disabled_scale_set : dict → M G string;
  bind_signed_allocation : string → dict → dict → M G unit;
  find_scale_set : string → M G (option string);
  enable_scale_set : string → string → M G unit;
  assert_runner_claim : string → string → string → dict → Z → M G unit;
  disable_scale_set : string → string → option Z → M G unit;
  drain_scale_set : string → string → M G unit;
  delete_scale_set : string → string → M G unit;
  assert_scale_set_absent : string → M G unit;
  measure_cleanup : string → string → M G dict;
  assert_runtime_empty : M G unit;
  verify_live_job : dict → JobStartedContext → Z → M G unit;
}.

(** What the broker relies on. *)
Class DriverLaws (G : Type) `{Driver G} := {
  scale_set_present : G → string → bool;
  assert_absent_ok name g g' : assert_scale_set_absent name g = (Ok tt, g') → scale_set_present g' name = false;
  assert_empty_ok g g' : assert_runtime_empty g = (Ok tt, g') → ∀ name, scale_set_present g' name = false;
}.

(** Time passes: nothing turns the clock back and sleeping takes the time asked. *)
Class FuelLaws (G : Type) `{Driver G} := {
  sleep_law d g : 0 < d → ∃ g', sleep d g = (Ok tt, g') ∧ clock g + d ≤ clock g';
  measure_time k name g : clock g ≤ clock (measure_cleanup k name g).2;
}.

Section broker.
Context {D : Digest} {K : KeyLibrary} {G : Type} {Drv : Driver G}.

Record World := MkWorld { w_ledger : Ledger; w_outside : G }.

(** A ledger operation, a driver operation. *)
Definition on_ledger {A} (m : M Ledger A) : M World A := λ w,
  let '(r, l) := m (w_ledger w) in (r, MkWorld l (w_outside w)).
Definition on_driver {A} (m : M G A) : M World A := λ w,
  let '(r, g) := m (w_outside w) in (r, MkWorld (w_ledger w) g).
Definition query {A} (f : Ledger → result A) : M World A := λ w, (f (w_ledger w), w).
Definition monotonic : M World Z := λ w, (Ok (clock (w_outside w)), w).

(** [try: m except p as exc: handler] *)
Definition try_except {A} (m : M World A) (p : exn_class → bool) (handler : exn → M World A) : M World A := λ w,
  match m w with
  | (Ok a, w') => (Ok a, w')
  | (Raise e, w') => if p (exn_cls e) then handler e w' else (Raise e, w')
  end.
Definition raise_exn {A} (e : exn) : M World A := λ w, (Raise e, w).

(** The broker's own attributes. *)
Record BrokerConfig := {
  b_public_key : public_key;
  b_pinned_fingerprint : string;
  b_policy : JobStartedObservationPolicy;
}.
Context (self : BrokerConfig).

(** ** Waiting *)

Definition observation_expired {A} : M World A :=
  raise RunnerJitError "job-started observation deadline expired".

(** Retry [observe] until it returns before the deadline.  The diagnostics of
    the last error, appended to the message, are left out. *)
Fixpoint _wait_for_observation (fuel : nat) (observe : Z → M World unit) (deadline : Z) : M World unit :=
  match fuel with
  | O => raise_exn OUT_OF_FUEL
  | S fuel =>
      now ← monotonic;
      if deadline - now <=? 0 then observation_expired else
      λ w, match observe (deadline - now) w with
      | (Ok _, w) =>
          if clock (w_outside w) <? deadline then (Ok tt, w) else observation_expired w
      | (Raise e, w) =>
          if is_os_or_value_error (exn_cls e) then
            let remaining := deadline - clock (w_outside w) in
            if 0 <? remaining then
              (on_driver (sleep (Z.min (poll_interval_seconds (b_policy self)) remaining));;
               _wait_for_observation fuel observe deadline) w
            else _wait_for_observation fuel observe deadline w
          else (Raise e, w)
      end
  end.

(** Enough turns for the time that is left. *)
Definition observation_fuel (deadline now : Z) : nat :=
  S (S (Z.to_nat ((deadline - now) / poll_interval_seconds (b_policy self)))).

Fixpoint cleanup_loop (fuel : nat) (allocation_id name : string) (deadline : Z) : M World unit :=
  match fuel with
  | O => raise_exn OUT_OF_FUEL
  | S fuel => λ w,
      match on_driver (measure_cleanup allocation_id name) w with
      | (Ok _, w) => (Ok tt, w)
      | (Raise e, w) =>
          if is_runner_error (exn_cls e) then
            if deadline <=? clock (w_outside w) then (Raise e, w)
            else (on_driver (sleep (seconds 2));; cleanup_loop fuel allocation_id name deadline) w
          else (Raise e, w)
      end
  end.

(** 600 seconds in turns of 2. *)
Definition CLEANUP_FUEL : nat := 302.

Definition _wait_for_cleanup (allocation_id name : string) : M World unit :=
  now ← monotonic;
  cleanup_loop CLEANUP_FUEL allocation_id name (now + GARM_CLEANUP_CONVERGENCE_SECONDS).

(** ** Reserve and finalize *)

Definition reserve (reservation : dict) (now : datetime) : M World dict :=
  on_driver assert_no_persistent_scale_set;;
  k ← lift (ditem "allocation_id" reservation);
  name ← lift (ditem "scale_set_name" reservation);
  on_ledger (AllocationLedger.reserve reservation now);;
  let allocation_id := id_of reservation in
  let scale_set_name := default "" (text_of name) in
  scale_set_id ← try_except
    (scale_set_id ← on_driver (ensure_disabled_scale_set reservation);
     on_ledger (bind_scale_set allocation_id scale_set_id scale_set_name);;
     mret scale_set_id)
    (λ _, true) (λ _, raise_exn (Exn ReservePartialFailure allocation_id));
  mret [("allocation_id", k); ("scale_set_id", VStr scale_set_id); ("runner_label", name);
        ("state", VStr "reserved-disabled")].

Definition finalize (envelope : dict) (now : datetime) : M World dict :=
  on_ledger (AllocationLedger.finalize envelope (b_public_key self) (b_pinned_fingerprint self) now);;
  match dget "payload" envelope with
  | VDict payload =>
      '(scale_set_name, scale_set_id) ← query (λ s, scale_set_binding s (id_of payload));
      on_driver (bind_signed_allocation scale_set_id payload envelope);;
      on_driver (enable_scale_set scale_set_id scale_set_name);;
      mret [("allocation_id", dget "allocation_id" payload); ("scale_set_id", VStr scale_set_id);
            ("runner_label", VStr scale_set_name); ("state", VStr "enabled-awaiting-claim")]
  | _ => raise TypeError "payload"
  end.

(** ** The job-started hook *)

Definition denied {A} (phase code : string) : exn → M World A := λ _, raise_exn (job_started_denial phase code []).

(** [now + timedelta(seconds=elapsed)] *)
Definition later (now : datetime) (elapsed : Z) : result datetime :=
  t ← dt_add (instant now) elapsed;
  Ok match now with Naive _ => Naive t | Aware tz _ => Aware tz t end.

Definition admit_args (now : datetime) : TransitionArgs :=
  {| t_now := Some now; t_outcome := None; t_normal_cancel_attempted := false;
     t_cleanup_idempotency_key := None; t_cleanup_evidence := None |}.

Definition job_started (allocation_id : string) (context : JobStartedContext) (now : datetime) : M World unit :=
  payload ← try_except (query (λ s, payload s allocation_id)) is_runner_error (denied "allocation" "binding-unavailable");
  mismatched ← lift (mismatches (observed_context context) payload);
  (if bool_decide (mismatched = []) then mret tt
   else raise_exn (job_started_denial "signed-context" "context-mismatch" mismatched));;
  '(scale_set_name, scale_set_id) ← try_except (query (λ s, scale_set_binding s allocation_id)) is_runner_error
    (denied "allocation" "binding-unavailable");
  started_at ← monotonic;
  let observation_deadline := started_at + timeout_seconds (b_policy self) in
  let hook_deadline := started_at + RUNNER_HOOK_DEADLINE_SECONDS - RUNNER_HOOK_SAFETY_MARGIN_SECONDS in
  let fuel := observation_fuel observation_deadline started_at in
  try_except
    (_wait_for_observation fuel
       (λ remaining, on_driver (assert_runner_claim scale_set_id scale_set_name (jc_runner_name context) payload remaining))
       observation_deadline)
    is_runner_error (denied "runner-claim" "claim-not-observed");;
  try_except
    (_wait_for_observation fuel (λ remaining, on_driver (verify_live_job payload context remaining)) observation_deadline)
    is_os_or_value_error (denied "live-job" "job-not-verified");;
  try_except
    (at_disable ← monotonic;
     on_driver (disable_scale_set scale_set_id scale_set_name (Some (hook_deadline - at_disable)));;
     after_disable ← monotonic;
     raise_if (hook_deadline <=? after_disable) RunnerJitError "job-started hook deadline expired")
    is_os_or_value_error (denied "runner-disable" "disable-failed");;
  at_admission ← monotonic;
  admitted_at ← lift (later now (at_admission - started_at));
  try_except
    (try_except
       (on_ledger (transition allocation_id "admit-job" (admit_args admitted_at));; mret tt)
       (λ c, bool_decide (c = AllocationClaimExpired)) (denied "ledger-claim" "claim-expired"))
    (λ c, bool_decide (c = InvalidLifecycleTransition)) (denied "ledger-claim" "claim-state-conflict").

(** The hook called with a mapping. *)
Definition job_started_mapping (allocation_id : string) (context : dict) (now : datetime) : M World unit :=
  c ← try_except (lift (context_from_mapping context)) is_runner_error (denied "request" "invalid-context");
  job_started allocation_id c now.

(** ** Deletion and recovery *)

Definition _delete_exact (scale_set_id scale_set_name : string) : M World unit :=
  found ← on_driver (find_scale_set scale_set_name);
  match found with
  | None => on_driver (assert_scale_set_absent scale_set_name)
  | Some _ =>
      on_driver (disable_scale_set scale_set_id scale_set_name None);;
      on_driver (drain_scale_set scale_set_id scale_set_name);;
      on_driver (delete_scale_set scale_set_id scale_set_name);;
      on_driver (assert_scale_set_absent scale_set_name)
  end.

Definition plain_args : TransitionArgs :=
  {| t_now := None; t_outcome := None; t_normal_cancel_attempted := false;
     t_cleanup_idempotency_key := None; t_cleanup_evidence := None |}.

(** [self.ledger.payload(...)], or the reservation when there is none. *)
Definition binding_document (allocation_id : string) : M World dict :=
  try_except (query (λ s, payload s allocation_id)) is_runner_error
    (λ _, query (λ s, reservation s allocation_id)).

Definition measured_fields : list string := removed_fields ++ ["orphan_registrations"].

Definition cleanup_evidence (allocation_id : string) (pending : AllocationRecord) (measured : dict) : dict :=
  dmerge [("allocation_id", VStr allocation_id);
          ("cleanup_idempotency_key", of_text (r_cleanup_idempotency_key pending));
          ("jobs_started", VInt (r_jobs_started pending))] measured.

(** The ledger's part of a recovery, by the state first read. *)
Definition settle (allocation_id scale_set_name : string) (state : LedgerState) : M World unit :=
  match state with
  | Terminal => on_ledger (transition allocation_id "cleanup" plain_args);; mret tt
  | Cleaned => mret tt
  | _ =>
      pending ← on_ledger (transition allocation_id "recover" plain_args);
      measured ← on_driver (measure_cleanup allocation_id scale_set_name);
      raise_if (negb (same_set (dkeys measured) measured_fields)) RunnerJitError
        "driver cleanup measurements are not exact";;
      on_ledger (transition allocation_id "ack-recovery-cleanup"
        {| t_now := None; t_outcome := None; t_normal_cancel_attempted := false;
           t_cleanup_idempotency_key := r_cleanup_idempotency_key pending;
           t_cleanup_evidence := Some (cleanup_evidence allocation_id pending measured) |});;
      mret tt
  end.

Definition recover (allocation_id : string) : M World dict :=
  record ← query (λ s, get_record s allocation_id);
  binding ← binding_document allocation_id;
  name ← lift (ditem "scale_set_name" binding);
  let scale_set_name := default "" (text_of name) in
  scale_set_id ← try_except
    ('(_, i) ← query (λ s, scale_set_binding s allocation_id); mret (Some i)) is_runner_error
    (λ _,
      found ← on_driver (find_scale_set scale_set_name);
      match found with
      | Some i => on_ledger (bind_scale_set allocation_id i scale_set_name);; mret (Some i)
      | None => mret None
      end);
  match scale_set_id with
  | Some i => _delete_exact i scale_set_name
  | None => on_driver (assert_scale_set_absent scale_set_name)
  end;;
  settle allocation_id scale_set_name (r_state record);;
  on_driver (assert_scale_set_absent scale_set_name);;
  mret [("allocation_id", VStr allocation_id); ("state", VStr "absent")].

Fixpoint recover_each (ids : list string) : M World (list string) :=
  match ids with
  | [] => mret []
  | i :: ids => recover i;; rest ← recover_each ids; mret (i :: rest)
  end.

Definition recover_all : M World (list string) :=
  on_driver assert_no_persistent_scale_set;;
  ids ← query (λ s, Ok (recoverable_allocation_ids s));
  recovered ← recover_each ids;
  on_driver assert_runtime_empty;;
  mret recovered.

(** ** Finish *)

Definition cleaned_result (allocation_id : string) (name : pyval) : dict :=
  [("allocation_id", VStr allocation_id); ("runner_label", name); ("state", VStr "cleaned")].

Definition finish (allocation_id : string) (outcome : string) (normal_cancel_attempted : bool) : M World dict :=
  record ← query (λ s, get_record s allocation_id);
  if negb (bool_decide (r_state record = Running)) || negb (r_jobs_started record =? 1) then
    binding ← binding_document allocation_id;
    name ← lift (ditem "scale_set_name" binding);
    recover allocation_id;;
    mret (cleaned_result allocation_id name)
  else
    on_ledger (transition allocation_id "finish"
      {| t_now := None; t_outcome := Some outcome; t_normal_cancel_attempted := normal_cancel_attempted;
         t_cleanup_idempotency_key := None; t_cleanup_evidence := None |});;
    '(scale_set_name, scale_set_id) ← query (λ s, scale_set_binding s allocation_id);
    _delete_exact scale_set_id scale_set_name;;
    _wait_for_cleanup allocation_id scale_set_name;;
    on_ledger (transition allocation_id "cleanup" plain_args);;
    mret (cleaned_result allocation_id (VStr scale_set_name)).

Definition prove_clean (allocation_id runner_label : string) : M World dict :=
  '(scale_set_name, _) ← query (λ s, scale_set_binding s allocation_id);
  raise_if (negb (bool_decide (scale_set_name = runner_label))) RunnerJitError
    "cleanup proof runner label crossed allocation binding";;
  record ← query (λ s, get_record s allocation_id);
  raise_if (negb (bool_decide (r_state record = Cleaned)) || negb (r_cleanup_complete record)) RunnerJitError
    "cleanup proof requires a cleaned allocation ledger record";;
  on_driver (assert_scale_set_absent scale_set_name);;
  on_driver assert_runtime_empty;;
  mret [("allocation_id", VStr allocation_id); ("runner_label", VStr runner_label); ("state", VStr "cleaned");
        ("scale_set_absent", VBool true); ("runtime_empty", VBool true)].
End broker.
