(* ===== verification/BrokerProps.v ===== *)
(** * The allocation broker: what it guarantees

    The waits end, a job is admitted only after every live proof and only
    against the signed context, a refused hook leaves the ledger alone, and
    what recovery or finishing reports as gone is gone.  The theorems hold for
    every driver; [ToyGarm] is the small one the witnesses run. *)

From S2P Require Import Prelude Datetime PyValue PyText Json Digest Jcs Signatures Sql Allocation AllocationLedger LedgerFacts LedgerProps AllocationBroker.
From stdpp Require Import sorting.
#[local] Open Scope Z_scope.

Section props.
Context {D : Digest} {K : KeyLibrary} {G : Type} {Drv : Driver G}.
Context (self : BrokerConfig).

(** ** Frames: which part of the world an operation touches *)

Definition keeps_ledger {A} (m : M (World (G := G)) A) : Prop := ∀ w r w', m w = (r, w') → w_ledger w' = w_ledger w.

Lemma keeps_driver {A} (m : M G A) : keeps_ledger (on_driver m).
Proof. intros w r w' H. unfold on_driver in H. destruct (m (w_outside w)). by injection H as _ <-. Qed.
Lemma keeps_query {A} (f : Ledger → result A) : keeps_ledger (query f).
Proof. by intros w r w' [= _ <-]. Qed.
Lemma keeps_lift {A} (r : result A) : keeps_ledger (lift r).
Proof. by intros w r' w' [= _ <-]. Qed.
Lemma keeps_ret {A} (a : A) : keeps_ledger (mret a).
Proof. by intros w r' w' [= _ <-]. Qed.
Lemma keeps_monotonic : keeps_ledger monotonic.
Proof. by intros w r' w' [= _ <-]. Qed.
Lemma keeps_raise_exn {A} e : keeps_ledger (raise_exn (A := A) e).
Proof. by intros w r' w' [= _ <-]. Qed.
Lemma keeps_raise_if b c msg : keeps_ledger (raise_if b c msg).
Proof. by intros w r' w' [= _ <-]. Qed.
Lemma keeps_bind {A B} (m : M World A) (k : A → M World B) :
  keeps_ledger m → (∀ a, keeps_ledger (k a)) → keeps_ledger (m ≫= k).
Proof.
  intros Hm Hk w r w' H. unfold mbind, M_bind in H. destruct (m w) as [[a|e] w1] eqn:E.
  - apply Hk in H as ->. by apply Hm in E.
  - injection H as _ <-. by apply Hm in E.
Qed.
Lemma keeps_try {A} (m : M World A) p h :
  keeps_ledger m → (∀ e, keeps_ledger (h e)) → keeps_ledger (try_except m p h).
Proof.
  intros Hm Hh w r w' H. unfold try_except in H. destruct (m w) as [[a|e] w1] eqn:E.
  - injection H as _ <-. by apply Hm in E.
  - destruct (p (exn_cls e)); [apply Hh in H as ->|injection H as _ <-]; by apply Hm in E.
Qed.
Lemma keeps_if {A} (b : bool) (m n : M World A) :
  keeps_ledger m → keeps_ledger n → keeps_ledger (if b then m else n).
Proof. by destruct b. Qed.

Create HintDb frame discriminated.
#[local] Hint Resolve keeps_driver keeps_query keeps_lift keeps_ret keeps_monotonic keeps_raise_exn keeps_raise_if
  keeps_bind keeps_try keeps_if : frame.

Lemma keeps_wait fuel observe deadline :
  (∀ t, keeps_ledger (observe t)) → keeps_ledger (_wait_for_observation self fuel observe deadline).
Proof.
  intros Ho. induction fuel as [|fuel IH]; cbn [_wait_for_observation]; [apply keeps_raise_exn|].
  apply keeps_bind; [apply keeps_monotonic|]. intros now. apply keeps_if; [by intros w r w' [= _ <-]|].
  intros w r w' H. destruct (observe (deadline - now) w) as [[u|e] w1] eqn:E; apply Ho in E.
  - destruct (clock (w_outside w1) <? deadline); [by injection H as _ <-|]. unfold observation_expired, raise, lift in H. by injection H as _ <-.
  - destruct (is_os_or_value_error (exn_cls e)); [|by injection H as _ <-].
    destruct (0 <? _); [|apply IH in H; congruence].
    assert (w_ledger w' = w_ledger w1) as ->; [|done]. eapply keeps_bind; [..|exact H]; eauto with frame.
Qed.
Lemma keeps_wait_driver fuel (m : Z → M G unit) deadline :
  keeps_ledger (_wait_for_observation self fuel (λ t, on_driver (m t)) deadline).
Proof. apply keeps_wait. intros t. apply keeps_driver. Qed.
Lemma keeps_denied {A} phase code e : keeps_ledger (denied (A := A) phase code e).
Proof. apply keeps_raise_exn. Qed.
#[local] Hint Resolve keeps_wait_driver keeps_denied : frame.

(** ** Runs that returned *)

Lemma on_ledger_ok {A} (m : M Ledger A) (w : World (G := G)) a w' :
  on_ledger m w = (Ok a, w') ↔ ∃ l, m (w_ledger w) = (Ok a, l) ∧ w' = MkWorld l (w_outside w).
Proof. unfold on_ledger. destruct (m (w_ledger w)) as [r l]. naive_solver. Qed.

Lemma on_driver_ok {A} (m : M G A) (w : World (G := G)) a w' :
  on_driver m w = (Ok a, w') ↔ ∃ g, m (w_outside w) = (Ok a, g) ∧ w' = MkWorld (w_ledger w) g.
Proof. unfold on_driver. destruct (m (w_outside w)) as [r g]. naive_solver. Qed.

Lemma query_ok {A} (f : Ledger → result A) (w : World (G := G)) a w' :
  query f w = (Ok a, w') ↔ f (w_ledger w) = Ok a ∧ w' = w.
Proof. unfold query. split; [by intros [= -> <-]|by intros [-> ->]]. Qed.

Lemma denied_ok {A} phase code e (w : World (G := G)) (a : A) w' : denied phase code e w = (Ok a, w') → False.
Proof. done. Qed.

(** A handler that only raises: the guarded body returned. *)
Lemma try_denied_ok {A} (m : M World A) p phase code (w : World (G := G)) a w' :
  try_except m p (denied phase code) w = (Ok a, w') → m w = (Ok a, w').
Proof. unfold try_except. destruct (m w) as [[?|e] w1]; [done|]. by case_match. Qed.

(** A wait that returned: the last observation returned, and before the deadline. *)
Lemma wait_ok fuel observe deadline (w w' : World) :
  _wait_for_observation self fuel observe deadline w = (Ok tt, w') →
  ∃ t w1, 0 < t ∧ observe t w1 = (Ok tt, w') ∧ clock (w_outside w') < deadline.
Proof.
  revert w. induction fuel as [|fuel IH]; intros w; cbn [_wait_for_observation]; [done|].
  intros H. apply bind_ok in H as (now & ? & [= <- <-] & H).
  destruct (deadline - clock (w_outside w) <=? 0) eqn:Ed; [done|]. bool_inv.
  destruct (observe _ w) as [[[]|e] w1] eqn:E.
  - case_match eqn:Ec; [|done]. injection H as <-. bool_inv. eauto.
  - case_match; [|done]. case_match; [|by apply IH in H].
    apply bind_ok in H as (? & w2 & _ & H). by apply IH in H.
Qed.

(** ** Termination *)

Section termination.
Context {Laws : FuelLaws G}.

(** An observation takes time and does not run out of anything itself. *)
Definition observation_advances (observe : Z → M (World (G := G)) unit) : Prop := ∀ t w,
  clock (w_outside w) ≤ clock (w_outside (observe t w).2) ∧ (observe t w).1 ≠ Raise OUT_OF_FUEL.

Lemma wait_fuel observe deadline fuel w :
  0 < poll_interval_seconds (b_policy self) → observation_advances observe →
  (observation_fuel self deadline (clock (w_outside w)) ≤ fuel)%nat →
  (_wait_for_observation self fuel observe deadline w).1 ≠ Raise OUT_OF_FUEL.
Proof.
  intros Hpoll Hobs. revert w. set (poll := poll_interval_seconds (b_policy self)) in *.
  assert (∀ r n w, r = deadline - clock (w_outside w) →
    (r ≤ 0 ∧ (1 ≤ n)%nat) ∨ (0 < r ∧ (S (S (Z.to_nat (r / poll))) ≤ n)%nat) →
    (_wait_for_observation self n observe deadline w).1 ≠ Raise OUT_OF_FUEL) as Hgen.
  2:{ intros w Hf. eapply Hgen; [done|]. unfold observation_fuel in Hf. fold poll in Hf.
      destruct (Z.le_gt_cases (deadline - clock (w_outside w)) 0); [left|right]; lia. }
  intros r n. revert r. induction n as [|n IH]; intros r w -> Hr; [lia|]. cbn [_wait_for_observation].
  unfold mbind, M_bind, monotonic. destruct (deadline - clock (w_outside w) <=? 0) eqn:Ed; [done|]. bool_inv.
  destruct (Hobs (deadline - clock (w_outside w)) w) as [Hclock Hne].
  destruct (observe _ w) as [[u|e] w1]; cbn [fst snd] in *; [by case_match|].
  case_match; [|done]. case_match eqn:Erem; bool_inv.
  - destruct (sleep_law (Z.min poll (deadline - clock (w_outside w1))) (w_outside w1)) as (g & Hs & Hg); [lia|].
    unfold on_driver. fold poll. rewrite Hs. cbn. eapply IH; [done|]. cbn.
    destruct Hr as [|[Hpos Hn]]; [lia|].
    destruct (Z.le_gt_cases (deadline - clock g) 0) as [|Hgt]; [left; lia|right]. split; [lia|].
    assert (Z.to_nat ((deadline - clock g) / poll) < Z.to_nat ((deadline - clock (w_outside w)) / poll))%nat; [|lia].
    assert ((deadline - clock g) / poll ≤ (deadline - clock (w_outside w) - poll) / poll) as Hle
      by (apply Z.div_le_mono; lia).
    assert ((deadline - clock (w_outside w) - poll) / poll = (deadline - clock (w_outside w)) / poll - 1) as E
      by (rewrite <- Z.add_opp_r, <- (Z.mul_1_l poll) at 1; rewrite <- Z.mul_opp_l, Z.div_add by lia; lia).
    assert (0 ≤ (deadline - clock g) / poll) by (apply Z.div_pos; lia). lia.
  - eapply IH; [done|]. left. lia.
Qed.

(** The broker's polling ends.  With a clock that is never turned back,
    sleeps that take the time asked and a positive poll interval, waiting for an
    observation within the fuel the broker gives returns or raises an error of
    its own: two turns more than the polls that fit into the remaining time are
    never used up.  (More fuel changes nothing.) *)
Lemma observation_terminates observe deadline w :
  0 < poll_interval_seconds (b_policy self) → observation_advances observe →
  (_wait_for_observation self (observation_fuel self deadline (clock (w_outside w))) observe deadline w).1
    ≠ Raise OUT_OF_FUEL.
Proof. intros Hp Ho. by apply wait_fuel. Qed.

(** The cleanup wait ends: 302 turns of two seconds are enough for its 600
    seconds, so [_wait_for_cleanup] returns or raises what measuring raised. *)
Lemma cleanup_terminates allocation_id name w :
  (∀ g, (measure_cleanup allocation_id name g).1 ≠ Raise OUT_OF_FUEL) →
  (_wait_for_cleanup allocation_id name w).1 ≠ Raise OUT_OF_FUEL.
Proof.
  intros Hne. unfold _wait_for_cleanup, mbind, M_bind, monotonic.
  set (deadline := clock (w_outside w) + GARM_CLEANUP_CONVERGENCE_SECONDS).
  assert (deadline - clock (w_outside w) < Z.of_nat CLEANUP_FUEL * seconds 2 - seconds 2) as Hf
    by (unfold deadline, GARM_CLEANUP_CONVERGENCE_SECONDS, CLEANUP_FUEL, seconds, US_SECOND; lia).
  assert (∀ n (w : World), deadline - clock (w_outside w) < Z.of_nat n * seconds 2 - seconds 2 →
    (cleanup_loop n allocation_id name deadline w).1 ≠ Raise OUT_OF_FUEL ∨ n = 0%nat) as Hgen.
  { clear Hf. clearbody deadline. clear w. induction n as [|n IH]; intros w Hf; [by right|]. left. cbn [cleanup_loop].
    pose proof (measure_time allocation_id name (w_outside w)) as Ht. unfold on_driver at 1.
    specialize (Hne (w_outside w)).
    destruct (measure_cleanup allocation_id name (w_outside w)) as [[d|e] g] eqn:E; cbn [fst snd] in *; [done|].
    destruct (is_runner_error (exn_cls e)); [|cbn; congruence]. cbn [w_outside].
    destruct (deadline <=? clock g) eqn:Ed; [cbn; congruence|]. bool_inv.
    destruct (sleep_law (seconds 2) g) as (g' & Hs & Hg); [unfold seconds, US_SECOND; lia|].
    unfold mbind, M_bind, on_driver. cbn [w_outside]. rewrite Hs.
    destruct (IH (MkWorld (w_ledger w) g')) as [?| ->]; [cbn; lia|done|].
    exfalso. unfold seconds, US_SECOND in *. lia. }
  by destruct (Hgen CLEANUP_FUEL w Hf).
Qed.
End termination.

(** ** What raising keeps *)

Definition keeps_on_raise {A} (m : M (World (G := G)) A) : Prop :=
  ∀ w e w', m w = (Raise e, w') → w_ledger w' = w_ledger w.

Lemma raise_bind {A B} (m : M World A) (k : A → M World B) :
  keeps_ledger m → (∀ a, keeps_on_raise (k a)) → keeps_on_raise (m ≫= k).
Proof.
  intros Hm Hk w e w' H. unfold mbind, M_bind in H. destruct (m w) as [[a|e'] w1] eqn:E.
  - apply Hk in H as ->. by apply Hm in E.
  - injection H as _ <-. by apply Hm in E.
Qed.
Lemma raise_try {A} (m : M World A) p h :
  keeps_on_raise m → (∀ e, keeps_ledger (h e)) → keeps_on_raise (try_except m p h).
Proof.
  intros Hm Hh w e w' H. unfold try_except in H. destruct (m w) as [[a|e'] w1] eqn:E; [done|].
  destruct (p (exn_cls e')); [apply Hh in H as ->|injection H as _ <-]; by eapply Hm.
Qed.
Lemma raise_seq {A} (m : M World A) : keeps_on_raise m → keeps_on_raise (m;; mret tt).
Proof.
  intros Hm w e w' H. unfold mbind, M_bind in H. destruct (m w) as [[a|e'] w1] eqn:E; [done|].
  injection H as -> <-. by eapply Hm.
Qed.
Lemma raise_on_ledger {A} (m : M Ledger A) : atomic m → keeps_on_raise (on_ledger m).
Proof.
  intros Hm w e w' H. unfold on_ledger in H. destruct (m (w_ledger w)) as [r l] eqn:E.
  injection H as -> <-. by eapply Hm.
Qed.
(** ** The job-started hook *)

(** C1: A job is admitted only against its signed context and after every live
    proof.  When the hook returns, the context agreed with the stored payload
    on every signed field; the runner's claim and the live job were observed
    before the observation deadline; the last thing done outside was disabling
    the scale set, before the hook deadline; and what changed in the ledger is
    one successful admit-job. *)
Theorem job_started_admission k context now w w' :
  job_started self k context now w = (Ok tt, w') →
  ∃ signed name id rec admitted_at,
    payload (w_ledger w) k = Ok signed ∧
    mismatches (observed_context context) signed = Ok [] ∧
    scale_set_binding (w_ledger w) k = Ok (name, id) ∧
    (∃ t g g', 0 < t ∧ assert_runner_claim id name (jc_runner_name context) signed t g = (Ok tt, g') ∧
       clock g' < clock (w_outside w) + timeout_seconds (b_policy self)) ∧
    (∃ t g g', 0 < t ∧ verify_live_job signed context t g = (Ok tt, g') ∧
       clock g' < clock (w_outside w) + timeout_seconds (b_policy self)) ∧
    (∃ t g, disable_scale_set id name (Some t) g = (Ok tt, w_outside w') ∧
       clock (w_outside w')
       < clock (w_outside w) + RUNNER_HOOK_DEADLINE_SECONDS - RUNNER_HOOK_SAFETY_MARGIN_SECONDS) ∧
    later now (clock (w_outside w') - clock (w_outside w)) = Ok admitted_at ∧
    transition k "admit-job" (admit_args admitted_at) (w_ledger w) = (Ok rec, w_ledger w').
Proof.
  unfold job_started. intros H.
  apply bind_ok in H as (signed & ? & Hp & H). apply try_denied_ok, query_ok in Hp as [Hp ->].
  apply bind_ok in H as (mismatched & ? & [Hm <-]%lift_ok & H).
  apply bind_ok in H as (? & ? & Hnil & H).
  destruct (bool_decide (mismatched = [])) eqn:Eb; [|done]. bool_inv. apply ret_ok in Hnil as [_ <-].
  apply bind_ok in H as ([name id] & ? & Hb & H). apply try_denied_ok, query_ok in Hb as [Hb ->].
  apply bind_ok in H as (t0 & ? & [= <- <-] & H).
  apply bind_ok in H as ([] & w1 & Hc & H). apply try_denied_ok in Hc.
  assert (w_ledger w1 = w_ledger w) as Hl1 by (eapply keeps_wait; [|exact Hc]; intros; apply keeps_driver).
  apply wait_ok in Hc as (tc & wc & Htc & Hc & Hcc). apply on_driver_ok in Hc as (gc & Hc & Ewc).
  apply bind_ok in H as ([] & w2 & Hv & H). apply try_denied_ok in Hv.
  assert (w_ledger w2 = w_ledger w1) as Hl2 by (eapply keeps_wait; [|exact Hv]; intros; apply keeps_driver).
  apply wait_ok in Hv as (tv & wv & Htv & Hv & Hcv). apply on_driver_ok in Hv as (gv & Hv & Ewv).
  apply bind_ok in H as (? & w3 & Hd & H). apply try_denied_ok in Hd.
  apply bind_ok in Hd as (t1 & ? & [= <- <-] & Hd). apply bind_ok in Hd as ([] & w4 & Hdis & Hd).
  apply on_driver_ok in Hdis as (gd & Hdis & ->). apply bind_ok in Hd as (t2 & ? & [= <- <-] & Hd).
  apply raise_if_ok in Hd as [Hlt ->]. cbn in Hlt. bool_inv.
  apply bind_ok in H as (t3 & ? & [= <- <-] & H). apply bind_ok in H as (at_ & ? & [Hat <-]%lift_ok & H).
  cbn [w_outside] in *.
  assert (∃ rec, transition k "admit-job" (admit_args at_) (w_ledger w2) = (Ok rec, w_ledger w') ∧
    w_outside w' = gd) as (rec & Htr & Eout).
  { apply try_denied_ok, try_denied_ok in H. apply bind_ok in H as (rec & ? & Ht & [_ <-]%ret_ok).
    apply on_ledger_ok in Ht as (l & Ht & ->). by exists rec. }
  rewrite Hl2, Hl1 in Htr. exists signed, name, id, rec, at_. subst gd mismatched.
  split; [done|]. split; [done|]. split; [done|].
  split; [exists tc, (w_outside wc), gc; subst w1; done|].
  split; [exists tv, (w_outside wv), gv; subst w2; done|].
  split; [|done]. eexists _, (w_outside w2). split; [exact Hdis|lia].
Qed.

(** A refused hook admits nothing: whatever [job_started] raises, a denial
    or not, the ledger is exactly as it was. *)
Lemma denied_hook_keeps_ledger k context now w e w' :
  job_started self k context now w = (Raise e, w') → w_ledger w' = w_ledger w.
Proof.
  revert w e w'. change (keeps_on_raise (job_started self k context now)). unfold job_started.
  apply raise_bind; [auto with frame|]. intros signed. apply raise_bind; [auto with frame|]. intros mm.
  apply raise_bind; [auto with frame|]. intros _. apply raise_bind; [auto with frame|]. intros [name id].
  apply raise_bind; [auto with frame|]. intros t0.
  do 3 (apply raise_bind; [auto 8 with frame|]; intros _).
  apply raise_bind; [auto with frame|]. intros t1. apply raise_bind; [auto with frame|]. intros at_.
  do 2 (apply raise_try; [|intros e; apply keeps_raise_exn]).
  apply raise_seq, raise_on_ledger, transition_atomic.
Qed.

(** ** Recovery *)

(** A cleanup or an acknowledgement that returned leaves a cleaned row. *)
Lemma transition_cleaned k action a args l rec l' :
  read_action action = Ok a → a = Cleanup ∨ a = AckRecoveryCleanup →
  transition k action args l = (Ok rec, l') →
  ∃ r, allocations l' !! k = Some r ∧ state r = Cleaned.
Proof.
  intros Ha Hor H. apply transition_inv in H as (a' & r & times & Ha' & Hr & _ & _ & H).
  assert (a' = a) as -> by congruence.
  destruct H as [(Hs & -> & _)|(r' & Hs & -> & _)]; apply lifecycle_step_edge in Hs.
  - exists r. split; [done|]. by destruct Hor as [-> | ->].
  - exists r'. cbn. rewrite lookup_insert_eq. split; [done|].
    destruct Hs as [He _]. by destruct Hor as [-> | ->]; destruct He.
Qed.

(** Settling a terminal row measures nothing: nothing outside is consulted
    before the row is marked cleaned. *)
Lemma terminal_settled_unmeasured k name w w' :
  settle k name Terminal w = (Ok tt, w') →
  w_outside w' = w_outside w ∧ ∃ r, allocations (w_ledger w') !! k = Some r ∧ state r = Cleaned.
Proof.
  cbn [settle]. intros H. apply bind_ok in H as (rec & w1 & H & [_ <-]%ret_ok).
  apply on_ledger_ok in H as (l & H & ->). split; [done|].
  eapply (transition_cleaned _ "cleanup" Cleanup); [reflexivity|by left|exact H].
Qed.

Lemma settle_cleaned k name r w w' :
  allocations (w_ledger w) !! k = Some r →
  settle k name (state r) w = (Ok tt, w') →
  ∃ r', allocations (w_ledger w') !! k = Some r' ∧ state r' = Cleaned.
Proof.
  intros Hr H. destruct (state r) eqn:Es; cbn [settle] in H.
  5: { apply bind_ok in H as (rec & w1 & H & [_ <-]%ret_ok). apply on_ledger_ok in H as (l & H & ->).
       eapply (transition_cleaned _ "cleanup" Cleanup); [reflexivity|by left|exact H]. }
  6: { apply ret_ok in H as [_ <-]. eauto. }
  all: apply bind_ok in H as (pending & w1 & _ & H); apply bind_ok in H as (measured & w2 & _ & H);
    apply bind_ok in H as (? & w3 & _ & H); apply bind_ok in H as (rec & w4 & H & [_ <-]%ret_ok);
    apply on_ledger_ok in H as (l & H & ->);
    (eapply (transition_cleaned _ "ack-recovery-cleanup" AckRecoveryCleanup); [reflexivity|by right|exact H]).
Qed.

Context {Laws : DriverLaws G}.

Lemma absent_ok name (w w' : World) :
  on_driver (assert_scale_set_absent name) w = (Ok tt, w') →
  w_ledger w' = w_ledger w ∧ scale_set_present (w_outside w') name = false.
Proof. intros H. apply on_driver_ok in H as (g & H & ->). split; [done|]. by apply assert_absent_ok in H. Qed.

Lemma keeps_delete_exact i name : keeps_ledger (_delete_exact (Drv := Drv) i name).
Proof.
  unfold _delete_exact. apply keeps_bind; [auto with frame|]. intros [j|]; [|auto with frame].
  do 3 (apply keeps_bind; [auto with frame|]; intros []). auto with frame.
Qed.

Lemma keeps_cleanup k name : keeps_ledger (_wait_for_cleanup (Drv := Drv) k name).
Proof.
  unfold _wait_for_cleanup. apply keeps_bind; [auto with frame|]. intros t0.
  generalize (t0 + GARM_CLEANUP_CONVERGENCE_SECONDS). intros deadline.
  induction CLEANUP_FUEL as [|n IH]; cbn [cleanup_loop]; [auto with frame|].
  intros w r w' H. destruct (on_driver (measure_cleanup k name) w) as [[m|e] w1] eqn:E; apply keeps_driver in E.
  - by injection H as _ <-.
  - destruct (is_runner_error (exn_cls e)); [|by injection H as _ <-].
    destruct (deadline <=? _); [by injection H as _ <-|].
    assert (w_ledger w' = w_ledger w1) as ->; [|done].
    eapply keeps_bind; [| |exact H]; [auto with frame|]. intros ?. exact IH.
Qed.

(** Finding the scale set again at most binds it: the row keeps its state. *)
Lemma find_or_bind_row k name (w w' : World) (o : option string) r :
  try_except ('(_, i) ← query (λ s, scale_set_binding s k); mret (Some i)) is_runner_error
    (λ _, found ← on_driver (find_scale_set name);
          match found with
          | Some i => on_ledger (bind_scale_set k i name);; mret (Some i)
          | None => mret None
          end) w = (Ok o, w') →
  allocations (w_ledger w) !! k = Some r →
  ∃ r', allocations (w_ledger w') !! k = Some r' ∧ state r' = state r.
Proof.
  unfold try_except. intros H Hr.
  destruct ((query (λ s, scale_set_binding s k) ≫= _) w) as [[a|e] w1] eqn:E.
  - injection H as -> <-. apply bind_ok in E as ([nm i] & ? & [_ ->]%query_ok & [_ <-]%ret_ok). eauto.
  - assert (w_ledger w1 = w_ledger w) as Hl.
    { eapply keeps_bind; [| |exact E]; [apply keeps_query|]. intros [? ?]. apply keeps_ret. }
    destruct (is_runner_error (exn_cls e)); [|done].
    apply bind_ok in H as (found & w2 & Hf & H). apply on_driver_ok in Hf as (g & _ & ->).
    destruct found as [i|]; [|apply ret_ok in H as [_ <-]; rewrite Hl; eauto].
    apply bind_ok in H as (o' & w3 & Hb & [_ <-]%ret_ok). apply on_ledger_ok in Hb as (l & Hb & ->).
    cbn [w_ledger] in *. rewrite Hl in Hb. unfold bind_scale_set in Hb.
    apply bind_ok in Hb as (? & ? & [_ ->]%raise_if_ok & Hb). apply bind_ok in Hb as (? & ? & [-> ->]%get_ok & Hb).
    rewrite Hr in Hb. apply bind_ok in Hb as (? & ? & [_ ->]%raise_if_ok & Hb).
    destruct (garm_scale_set_id r).
    + case_decide; [|by apply raise_ok in Hb]. apply ret_ok in Hb as [_ <-]. eauto.
    + apply bind_ok in Hb as (? & ? & ->%modify_ok & [_ <-]%ret_ok). cbn.
      rewrite (update_row_insert _ _ _ _ Hr), lookup_insert_eq. by eexists.
Qed.

Lemma binding_document_ok k (w w' : World (G := G)) d :
  binding_document k w = (Ok d, w') →
  w' = w ∧ (payload (w_ledger w) k = Ok d ∨ reservation (w_ledger w) k = Ok d).
Proof.
  unfold binding_document, try_except, query. destruct (payload (w_ledger w) k) as [p|e]; [intros [= <- <-]; auto|].
  case_match; [|done]. intros [= Hres <-]. auto.
Qed.

Lemma recover_ok k doc w w' :
  recover k w = (Ok doc, w') →
  (∃ r, allocations (w_ledger w') !! k = Some r ∧ state r = Cleaned) ∧
  ∃ binding name, (payload (w_ledger w) k = Ok binding ∨ reservation (w_ledger w) k = Ok binding) ∧
    ditem "scale_set_name" binding = Ok name ∧
    scale_set_present (w_outside w') (default "" (text_of name)) = false.
Proof.
  unfold recover. intros H. apply bind_ok in H as (record & ? & [Hrec ->]%query_ok & H).
  apply bind_ok in H as (binding & ? & [-> Hb]%binding_document_ok & H).
  apply bind_ok in H as (name & ? & [Hn <-]%lift_ok & H).
  apply bind_ok in H as (o & w1 & Hfind & H). apply bind_ok in H as (? & w2 & Hdel & H).
  apply bind_ok in H as ([] & w3 & Hset & H). apply bind_ok in H as ([] & w4 & Habs & [_ <-]%ret_ok).
  apply absent_ok in Habs as [Hl4 Hp].
  split; [|by exists binding, name]. rewrite Hl4.
  unfold get_record in Hrec. destruct (allocations (w_ledger w) !! k) as [r|] eqn:Hr; [|done].
  apply result_bind_ok in Hrec as ([[i e] d] & _ & [= <-]). cbn [record_of r_state] in Hset.
  destruct (find_or_bind_row _ _ _ _ _ _ Hfind Hr) as (r1 & Hr1 & Hs1).
  assert (w_ledger w2 = w_ledger w1) as Hl2.
  { destruct o; [by eapply keeps_delete_exact|by eapply keeps_driver]. }
  rewrite <- Hl2 in Hr1. rewrite <- Hs1 in Hset. by eapply settle_cleaned.
Qed.

(** Recovery converges.  When [recover] returns, the allocation's row is
    cleaned and the scale set that the stored payload, or else the reservation,
    names is absent. *)
Lemma recover_cleans k doc w w' :
  recover k w = (Ok doc, w') →
  (∃ r, allocations (w_ledger w') !! k = Some r ∧ state r = Cleaned) ∧
  ∃ binding name, (payload (w_ledger w) k = Ok binding ∨ reservation (w_ledger w) k = Ok binding) ∧
    ditem "scale_set_name" binding = Ok name ∧
    scale_set_present (w_outside w') (default "" (text_of name)) = false.
Proof. apply recover_ok. Qed.

(** Finishing an allocation.  When [finish] returns, the row is cleaned;
    and if the job was running, its outcome is recorded for good: the row holds
    exactly the reported outcome, which is one of the terminal ones, and
    force-cancel only after a normal cancel was attempted. *)
Lemma finish_records_outcome k oc normal doc w w' :
  reachable_ledger (w_ledger w) →
  finish k oc normal w = (Ok doc, w') →
  ∃ r r', allocations (w_ledger w) !! k = Some r ∧ allocations (w_ledger w') !! k = Some r' ∧ state r' = Cleaned ∧
    (state r = Running → outcome r' = Some oc ∧ oc ∈ TERMINAL_OUTCOMES ∧ (oc = "force-cancel" → normal = true)).
Proof.
  intros Hreach H. pose proof (reachable_ledger_wf _ Hreach) as Hwf.
  unfold finish in H. apply bind_ok in H as (record & ? & [Hrec ->]%query_ok & H).
  unfold get_record in Hrec. destruct (allocations (w_ledger w) !! k) as [r|] eqn:Hr; [|done].
  apply result_bind_ok in Hrec as ([[i e] d] & _ & [= <-]). cbn [record_of r_state r_jobs_started] in H.
  exists r. destruct (negb (bool_decide (state r = Running)) || negb (jobs_started r =? 1)) eqn:Eb.
  - apply bind_ok in H as (binding & ? & [-> _]%binding_document_ok & H).
    apply bind_ok in H as (name & ? & [_ <-]%lift_ok & H). apply bind_ok in H as (dc & w1 & H & [_ <-]%ret_ok).
    apply recover_ok in H as [(r' & Hr' & Hc) _]. exists r'. do 3 (split; [done|]). intros Hrun. exfalso.
    pose proof (wl_rows _ Hwf _ _ Hr) as Hrow. unfold wf_row in Hrow. rewrite Hrun in Hrow.
    destruct Hrow as (_ & Hj & _). rewrite Hrun, Hj in Eb. done.
  - apply bind_ok in H as (rec & w1 & Hfin & H). apply on_ledger_ok in Hfin as (l1 & Hfin & ->).
    apply bind_ok in H as ([nm j] & ? & [_ ->]%query_ok & H).
    apply bind_ok in H as ([] & w2 & Hdel & H). apply keeps_delete_exact in Hdel.
    apply bind_ok in H as ([] & w3 & Hwait & H). apply keeps_cleanup in Hwait.
    apply bind_ok in H as (rec2 & w4 & Hcl & [_ <-]%ret_ok). apply on_ledger_ok in Hcl as (l2 & Hcl & ->).
    cbn [w_ledger] in *. rewrite Hwait, Hdel in Hcl.
    assert (ledger_step (w_ledger w) l1) as Hs1.
    { eexists (CTransition k "finish" _). cbn. by rewrite (eval_run _ _ _ _ _ Hfin). }
    assert (ledger_step l1 l2) as Hs2.
    { eexists (CTransition k "cleanup" _). cbn. by rewrite (eval_run _ _ _ _ _ Hcl). }
    assert (wf_ledger l1) as Hwf1 by (eapply steps_wf; [apply rtc_once; exact Hs1|done]).
    apply transition_inv in Hfin as (a & r0 & times & [= <-] & Hr0 & _ & _ & Hfin).
    assert (r0 = r) as -> by congruence.
    destruct Hfin as [(Hl & _)|(r1 & Hl & -> & _)]; cbn in Hl; unfold finish_job in Hl; (case_match eqn:Ef; [|done]);
      [done|]. injection Hl as <-. rewrite !andb_true_iff, bool_decide_eq_true in Ef. cbn in Ef.
    destruct Ef as [[_ Hoc] Hforce].
    destruct (transition_cleaned _ "cleanup" Cleanup _ _ _ _ eq_refl (or_introl eq_refl) Hcl) as (r2 & Hr2 & Hc2).
    destruct (ledger_evolves _ l2 k (set_lifecycle Terminal (Some oc) (jobs_started r) (cleanup_complete r)
      (recovery_required r) (cleanup_pending r) (cleanup_idempotency_key r) (cleanup_evidence_digest r) r)
      Hwf1 (rtc_once _ _ Hs2)) as (r2' & Hr2' & [_ _ Ho _ _]); [cbn; apply lookup_insert_eq|]. assert (r2' = r2) as -> by congruence.
    exists r2. do 3 (split; [done|]). intros _. split; [by apply Ho|].
    split; [by apply bool_decide_eq_true in Hoc|]. intros ->. by destruct normal.
Qed.

(** ** Convergence of the whole ledger *)

(** Operations of the ledger that add no allocation. *)
Definition advances (l l' : Ledger) : Prop :=
  rtc ledger_step l l' ∧ dom (allocations l') = dom (allocations l).
#[local] Instance advances_preorder : PreOrder advances.
Proof.
  split; [by split; [apply rtc_refl|]|]. intros a b c [H1 E1] [H2 E2]. split; [by etransitivity|congruence].
Qed.
Definition advancing {A} (m : M (World (G := G)) A) : Prop :=
  ∀ w r w', m w = (r, w') → advances (w_ledger w) (w_ledger w').

Lemma advancing_keeps {A} (m : M World A) : keeps_ledger m → advancing m.
Proof. intros Hm w r w' H. apply Hm in H as ->. reflexivity. Qed.
Lemma advancing_bind {A B} (m : M World A) (k : A → M World B) :
  advancing m → (∀ a, advancing (k a)) → advancing (m ≫= k).
Proof.
  intros Hm Hk w r w' H. unfold mbind, M_bind in H. destruct (m w) as [[a|e] w1] eqn:E.
  - etransitivity; [by eapply Hm|by eapply Hk].
  - injection H as _ <-. by eapply Hm.
Qed.
Lemma advancing_try {A} (m : M World A) p h :
  advancing m → (∀ e, advancing (h e)) → advancing (try_except m p h).
Proof.
  intros Hm Hh w r w' H. unfold try_except in H. destruct (m w) as [[a|e] w1] eqn:E.
  - injection H as _ <-. by eapply Hm.
  - destruct (p (exn_cls e)); [|injection H as _ <-; by eapply Hm]. etransitivity; [by eapply Hm|by eapply Hh].
Qed.

Lemma advancing_transition k action args : advancing (on_ledger (transition k action args)).
Proof.
  intros w r w' H. unfold on_ledger in H. destruct (transition k action args (w_ledger w)) as [[rec|e] l] eqn:E;
    injection H as _ <-; cbn.
  - split; [apply rtc_once; exists (CTransition k action args); cbn; by rewrite (eval_run _ _ _ _ _ E)|].
    apply transition_inv in E as (a & r0 & times & _ & Hr0 & _ & _ & [(_ & -> & _)|(r1 & _ & -> & _)]); [done|].
    cbn. apply dom_insert_lookup_L. by eexists.
  - by apply transition_atomic in E as ->.
Qed.

Lemma advancing_bind_scale_set k i name : advancing (on_ledger (bind_scale_set k i name)).
Proof.
  intros w r w' H. unfold on_ledger in H. destruct (bind_scale_set k i name (w_ledger w)) as [[o|e] l] eqn:E;
    injection H as _ <-; cbn.
  - split; [apply rtc_once; exists (CBind k i name); cbn; by rewrite (eval_run _ _ _ _ _ E)|].
    unfold bind_scale_set in E. apply bind_ok in E as (? & ? & [_ ->]%raise_if_ok & E).
    apply bind_ok in E as (? & ? & [-> ->]%get_ok & E).
    destruct (allocations (w_ledger w) !! k) as [r0|] eqn:Hr; [|by apply raise_ok in E].
    apply bind_ok in E as (? & ? & [_ ->]%raise_if_ok & E). destruct (garm_scale_set_id r0).
    + case_decide; [|by apply raise_ok in E]. by apply ret_ok in E as [_ <-].
    + apply bind_ok in E as (? & ? & ->%modify_ok & [_ <-]%ret_ok). cbn.
      rewrite (update_row_insert _ _ _ _ Hr). apply dom_insert_lookup_L. by eexists.
  - by apply bind_scale_set_atomic in E as ->.
Qed.

Create HintDb advance discriminated.
#[local] Hint Resolve advancing_keeps advancing_transition advancing_bind_scale_set : advance.

Lemma advancing_recover k : advancing (recover k).
Proof.
  unfold recover. apply advancing_bind; [auto with advance frame|]. intros record.
  apply advancing_bind. { apply advancing_keeps. unfold binding_document. auto with frame. } intros binding.
  apply advancing_bind; [auto with advance frame|]. intros name.
  apply advancing_bind.
  { apply advancing_try.
    - apply advancing_bind; [auto with advance frame|]. intros [? ?]. auto with advance frame.
    - intros _. apply advancing_bind; [auto with advance frame|]. intros [i|]; [|auto with advance frame].
      apply advancing_bind; [auto with advance|]. intros ?. auto with advance frame. }
  intros o. apply advancing_bind. { destruct o; [apply advancing_keeps, keeps_delete_exact|auto with advance frame]. }
  intros ?. apply advancing_bind.
  { destruct (r_state record); cbn [settle]; [..|auto with advance frame];
      repeat (apply advancing_bind; [auto with advance frame|]; intros ?); auto with advance frame. }
  intros ?. apply advancing_bind; [auto with advance frame|]. intros ?. auto with advance frame.
Qed.

Lemma cleaned_stays l l' k r :
  wf_ledger l → rtc ledger_step l l' → allocations l !! k = Some r → state r = Cleaned →
  ∃ r', allocations l' !! k = Some r' ∧ state r' = Cleaned.
Proof.
  intros Hwf Hs Hr Hc. destruct (ledger_evolves _ _ _ _ Hwf Hs Hr) as (r' & Hr' & [_ Hp _ _ _]).
  exists r'. split; [done|]. rewrite Hc in Hp. inversion Hp as [|? ? ? Hm]; [done|].
  inversion Hm as [| | | |st Hin|]. set_solver.
Qed.

Lemma recover_each_ok ids w out w' :
  wf_ledger (w_ledger w) → recover_each ids w = (Ok out, w') →
  out = ids ∧ advances (w_ledger w) (w_ledger w') ∧
  ∀ k, k ∈ ids → ∃ r, allocations (w_ledger w') !! k = Some r ∧ state r = Cleaned.
Proof.
  revert w out. induction ids as [|i ids IH]; intros w out Hwf H; cbn [recover_each] in H.
  - apply ret_ok in H as [<- <-]. split; [done|]. split; [reflexivity|]. by intros k ?%not_elem_of_nil.
  - apply bind_ok in H as (doc & w1 & Hr & H). apply bind_ok in H as (rest & w2 & Hrest & [<- <-]%ret_ok).
    assert (advances (w_ledger w) (w_ledger w1)) as Ha by (by eapply advancing_recover).
    apply recover_ok in Hr as [(r & Hr & Hc) _].
    assert (wf_ledger (w_ledger w1)) as Hwf1 by (eapply steps_wf; [apply Ha|done]).
    destruct (IH _ _ Hwf1 Hrest) as (-> & Ha2 & Hall). split; [done|]. split; [by etransitivity|].
    intros k [->|Hk]%elem_of_cons; [|auto]. destruct Ha2 as [Hs _]. by eapply cleaned_stays.
Qed.

Lemma elem_recoverable l k :
  k ∈ recoverable_allocation_ids l ↔ ∃ r, allocations l !! k = Some r ∧ cleanup_complete r = false.
Proof.
  unfold recoverable_allocation_ids. rewrite merge_sort_Permutation. rewrite list_elem_of_fmap. split.
  - intros ([k' r] & -> & [Hc Hin]%list_elem_of_filter). apply elem_of_map_to_list in Hin. eauto.
  - intros (r & Hr & Hc). exists (k, r). split; [done|]. apply list_elem_of_filter. split; [done|].
    by apply elem_of_map_to_list.
Qed.

(** C2: After [recover_all] nothing is left to recover: it reports exactly the
    allocations that were not yet clean, every allocation of the ledger is
    cleaned, none remains recoverable, and no scale set is present outside. *)
Theorem recover_all_converges ids w w' :
  reachable_ledger (w_ledger w) →
  recover_all w = (Ok ids, w') →
  ids = recoverable_allocation_ids (w_ledger w) ∧
  (∀ k r, allocations (w_ledger w') !! k = Some r → state r = Cleaned) ∧
  recoverable_allocation_ids (w_ledger w') = [] ∧
  (∀ name, scale_set_present (w_outside w') name = false).
Proof.
  intros Hwf%reachable_ledger_wf H. unfold recover_all in H.
  apply bind_ok in H as (? & w1 & Hp & H). apply keeps_driver in Hp.
  apply bind_ok in H as (ids' & ? & [[= <-] ->]%query_ok & H).
  apply bind_ok in H as (out & w2 & Hrec & H). apply bind_ok in H as ([] & w3 & Hempty & [<- <-]%ret_ok).
  rewrite <- Hp in Hwf. apply recover_each_ok in Hrec as (-> & Ha & Hall); [|done].
  apply on_driver_ok in Hempty as (g & Hempty & ->). cbn [w_ledger w_outside].
  assert (∀ k r, allocations (w_ledger w2) !! k = Some r → state r = Cleaned) as Hclean.
  { intros k r Hr. destruct Ha as [Hs Hdom].
    assert (k ∈ dom (allocations (w_ledger w1))) as Hk by (rewrite <- Hdom; by eapply elem_of_dom_2).
    apply elem_of_dom in Hk as [r0 Hr0]. destruct (cleanup_complete r0) eqn:Ec.
    - assert (state r0 = Cleaned) as Hs0.
      { pose proof (wl_rows _ Hwf _ _ Hr0) as Hw. unfold wf_row, fresh_lifecycle in Hw.
        destruct (state r0); destruct_and? Hw; (congruence || done). }
      destruct (cleaned_stays _ _ _ _ Hwf Hs Hr0 Hs0) as (r' & Hr' & ?). congruence.
    - destruct (Hall k) as (r' & Hr' & ?); [apply elem_recoverable; eauto|]. congruence. }
  split; [by rewrite Hp|]. split; [done|]. split; [|by eapply assert_empty_ok].
  destruct (recoverable_allocation_ids (w_ledger w2)) as [|k l] eqn:El; [done|].
  assert (k ∈ recoverable_allocation_ids (w_ledger w2)) as Hk by (rewrite El; apply list_elem_of_here).
  apply elem_recoverable in Hk as (r & Hr & Hc). pose proof (Hclean _ _ Hr) as Hs.
  assert (wf_ledger (w_ledger w2)) as Hwf2 by (eapply steps_wf; [apply Ha|done]).
  pose proof (wl_rows _ Hwf2 _ _ Hr) as Hw. unfold wf_row in Hw. rewrite Hs in Hw. destruct_and? Hw. congruence.
Qed.

(** ** Reservation *)

Lemma reserve_inserts reservation now l o l' :
  AllocationLedger.reserve reservation now l = (Ok o, l') →
  l' = l ∨ ∃ r, allocations l' !! id_of reservation = Some r ∧ state r = Reserved ∧ cleanup_complete r = false.
Proof.
  unfold AllocationLedger.reserve. intros H. apply bind_ok in H as (p & ? & [_ <-]%lift_ok & H).
  apply bind_ok in H as ([b d] & ? & [_ <-]%lift_ok & H). apply bind_ok in H as (body & ? & [_ <-]%lift_ok & H).
  apply transaction_ok_1 in H. apply bind_ok in H as (? & ? & [-> ->]%get_ok & H).
  destruct (allocations l !! id_of reservation) as [row|] eqn:E; [case_match; [|by apply raise_ok in H]|].
  { apply ret_ok in H as [_ <-]. by left. }
  destruct (select_unique _ _ _); [by apply raise_ok in H|].
  apply bind_ok in H as (? & ? & Hi & [_ <-]%ret_ok). apply insert_allocation_ok in Hi as (_ & _ & ->).
  right. cbn. rewrite lookup_insert_eq. by eexists.
Qed.

(** C11: A reservation that failed half-way is never lost: if [reserve] raises
    and the ledger has changed, the error is the partial failure naming the
    allocation, whose row is reserved and among those recovery will clean. *)
Theorem partial_reserve_is_recoverable reservation now e w w' :
  AllocationBroker.reserve reservation now w = (Raise e, w') →
  w_ledger w' = w_ledger w ∨
  (e = Exn ReservePartialFailure (id_of reservation) ∧
   id_of reservation ∈ recoverable_allocation_ids (w_ledger w')).
Proof.
  unfold AllocationBroker.reserve. intros H.
  unfold mbind at 1, M_bind at 1 in H. destruct (on_driver assert_no_persistent_scale_set w) as [[u|e0] w1] eqn:E1;
    apply keeps_driver in E1; [|injection H as _ <-; by left].
  unfold mbind at 1, M_bind at 1 in H. destruct (lift _ w1) as [[k|e0] w2] eqn:E2; apply keeps_lift in E2;
    [|injection H as _ <-; left; congruence].
  unfold mbind at 1, M_bind at 1 in H. destruct (lift _ w2) as [[name|e0] w3] eqn:E3; apply keeps_lift in E3;
    [|injection H as _ <-; left; congruence].
  unfold mbind at 1, M_bind at 1 in H. destruct (on_ledger _ w3) as [[o|e0] w4] eqn:E4.
  2:{ injection H as _ <-. left. unfold on_ledger in E4.
      destruct (AllocationLedger.reserve reservation now (w_ledger w3)) as [r l] eqn:El. injection E4 as -> <-.
      apply reserve_atomic in El. cbn in *. congruence. }
  apply on_ledger_ok in E4 as (l & E4 & ->). cbn [w_outside] in H.
  apply reserve_inserts in E4.
  match type of H with mbind _ (try_except ?m _ _) _ = _ => assert (keeps_on_raise m) as Hm end.
  { apply raise_bind; [auto with frame|]. intros i. intros w0 e0 w0' Hb. unfold mbind, M_bind in Hb.
    destruct (on_ledger _ w0) as [[b|eb] wb] eqn:Eb; [done|]. injection Hb as _ <-.
    eapply raise_on_ledger; [|exact Eb]. apply bind_scale_set_atomic. }
  unfold mbind at 1, M_bind at 1 in H. unfold try_except in H.
  match type of H with context [?m (MkWorld l (w_outside w3))] => destruct (m (MkWorld l (w_outside w3))) as [[i|e0] w5] eqn:E5 end;
    [done|].
  apply Hm in E5. cbn in H, E5. injection H as <- <-. rewrite E5. cbn.
  destruct E4 as [->|(r & Hr & _ & Hc)]; [left; congruence|right].
  split; [done|]. apply elem_recoverable. eauto.
Qed.
End props.

(** ** A small driver *)

(** One scale set, always with id 17; a runner's claim shows from a given time
    on; measuring takes a second; creating can be made to fail. *)
Record ToyGarm := MkToy { tg_clock : Z; tg_scale : option string; tg_claim_at : Z; tg_broken : bool }.

Definition toy_set_scale (s : option string) (g : ToyGarm) : ToyGarm :=
  MkToy (tg_clock g) s (tg_claim_at g) (tg_broken g).
Definition toy_pass (d : Z) (g : ToyGarm) : ToyGarm := MkToy (tg_clock g + d) (tg_scale g) (tg_claim_at g) (tg_broken g).
Definition toy_unless {A} (b : bool) (a : A) : M ToyGarm A := λ g,
  (if b then Raise (Exn RunnerJitError "toy") else Ok a, g).
Definition toy_measured : dict :=
  [("registration_removed", VBool true); ("workspace_removed", VBool true); ("token_removed", VBool true);
   ("container_removed", VBool true); ("allocation_removed", VBool true); ("orphan_registrations", VInt 0)].

#[local] Instance ToyDriver : Driver ToyGarm := {
  clock := tg_clock;
  sleep d := modify (toy_pass d);
  assert_no_persistent_scale_set := mret tt;
  ensure_disabled_scale_set r := λ g,
    if tg_broken g then (Raise (Exn OSError "toy"), g)
    else (Ok "17", toy_set_scale (text_of (dget "scale_set_name" r)) g);
  bind_signed_allocation _ _ _ := mret tt;
  find_scale_set name := λ g, (Ok (if bool_decide (tg_scale g = Some name) then Some "17" else None), g);
  enable_scale_set _ _ := mret tt;
  assert_runner_claim _ _ _ _ _ := λ g, toy_unless (tg_clock g <? tg_claim_at g) tt g;
  disable_scale_set _ _ _ := mret tt;
  drain_scale_set _ _ := mret tt;
  delete_scale_set _ _ := modify (toy_set_scale None);
  assert_scale_set_absent name := λ g, toy_unless (bool_decide (tg_scale g = Some name)) tt g;
  measure_cleanup _ name := λ g, toy_unless (bool_decide (tg_scale g = Some name)) toy_measured (toy_pass (seconds 1) g);
  assert_runtime_empty := λ g, toy_unless (bool_decide (is_Some (tg_scale g))) tt g;
  verify_live_job _ _ _ := mret tt;
}.

#[local] Instance ToyDriverLaws : DriverLaws ToyGarm.
Proof.
  refine {| scale_set_present g name := bool_decide (tg_scale g = Some name) |}.
  - intros name g g'. cbn. unfold toy_unless. case_bool_decide as E; [done|]. intros [= <-]. by apply bool_decide_eq_false.
  - intros g g'. cbn. unfold toy_unless. case_bool_decide as E; [done|]. intros [= <-] name.
    apply bool_decide_eq_false. intros Hs. apply E. eauto.
Defined.

#[local] Instance ToyFuelLaws : FuelLaws ToyGarm.
Proof.
  split.
  - intros d g _. exists (toy_pass d g). split; [done|]. cbn. lia.
  - intros k name g. cbn. unfold toy_unless, seconds, US_SECOND. cbn; lia.
Qed.

#[local] Existing Instance ToyDigest.
#[local] Existing Instance ToyKeys.

Definition sample_broker : @BrokerConfig ToyKeys :=
  {| b_public_key := sample_public; b_pinned_fingerprint := sample_pinned; b_policy := default_policy |}.
Definition sample_context : JobStartedContext :=
  {| jc_repository_id := "42"; jc_repository := "owner/name";
     jc_dispatch_sha := "0123456789012345678901234567890123456789";
     jc_tested_sha := "9999999999999999999999999999999999999999";
     jc_workflow_ref := "owner/name/.github/workflows/ci.yml@refs/heads/main";
     jc_run_id := "1001"; jc_run_attempt := 1; jc_job_name := "unit tests"; jc_runner_name := "runner-1";
     jc_scale_set_name := sample_name |}.

(** A broker that reserved, finalised and admitted; and one whose driver is
    broken from the start. *)
Definition toy0 : ToyGarm := MkToy 0 None (seconds 3) false.
Definition world_after {A} (m : M (World (G := ToyGarm)) A) (w : World) : World := (m w).2.
Definition world_returns {A} (m : M (World (G := ToyGarm)) A) (w : World) : bool := is_ok (m w).1.
Definition world0 : World := MkWorld ledger0 toy0.
Definition world1 : World :=
  Eval vm_compute in world_after (AllocationBroker.reserve sample_reservation sample_reserved_at) world0.
Definition world2 : World :=
  Eval vm_compute in world_after (AllocationBroker.finalize sample_broker sample_envelope sample_signed_at) world1.
Definition world3 : World :=
  Eval vm_compute in world_after (job_started sample_broker sample_id sample_context sample_signed_at) world2.
Definition world4 : World := Eval vm_compute in world_after (finish sample_id "success" false) world3.

Example broker_walk :
  (world_returns (AllocationBroker.reserve sample_reservation sample_reserved_at) world0,
   world_returns (AllocationBroker.finalize sample_broker sample_envelope sample_signed_at) world1,
   world_returns (job_started sample_broker sample_id sample_context sample_signed_at) world2,
   world_returns (finish sample_id "success" false) world3, world_returns recover_all world3,
   (tg_clock (w_outside world4), tg_scale (w_outside world4)))
  = (true, true, true, true, true, (seconds 4, None)).
Proof. vm_compute. reflexivity. Qed.

Lemma reach_world3 : reachable_ledger (D := ToyDigest) (K := ToyKeys) (w_ledger world3).
Proof.
  exists 30. apply (rtc_l _ _ ledger1). { exists (CReserve sample_reservation sample_reserved_at). vm_compute. reflexivity. }
  apply (rtc_l _ _ (w_ledger world1)). { exists (CBind sample_id "17" sample_name). vm_compute. reflexivity. }
  apply (rtc_l _ _ (w_ledger world2)).
  { exists (CFinalize sample_envelope sample_public sample_pinned sample_signed_at). vm_compute. reflexivity. }
  apply rtc_once. exists (CTransition sample_id "admit-job" (admit_args sample_signed_at)). vm_compute. reflexivity.
Qed.

Definition sample_observe (t : Z) : M (World (G := ToyGarm)) unit :=
  on_driver (assert_runner_claim "17" sample_name "runner-1" [] t).

Lemma observation_terminates_witness :
  (_wait_for_observation (K := ToyKeys) sample_broker
     (observation_fuel (K := ToyKeys) sample_broker (seconds 45) (clock (w_outside world2))) sample_observe (seconds 45) world2).1
  ≠ Raise OUT_OF_FUEL.
Proof.
  apply (observation_terminates (K := ToyKeys) (G := ToyGarm) sample_broker sample_observe (seconds 45) world2).
  - vm_compute. reflexivity.
  - intros t w. split; [cbn; lia|]. cbn. unfold toy_unless. by destruct (tg_clock _ <? _).
Defined.

Lemma cleanup_terminates_witness :
  (_wait_for_cleanup (Drv := ToyDriver) sample_id sample_name world3).1 ≠ Raise OUT_OF_FUEL.
Proof.
  apply (cleanup_terminates (G := ToyGarm) sample_id sample_name world3).
  intros g. cbn. unfold toy_unless. by destruct (bool_decide _).
Defined.

Lemma job_started_admission_witness :
  ∃ signed, payload (w_ledger world2) sample_id = Ok signed ∧ mismatches (observed_context sample_context) signed = Ok [].
Proof.
  assert (job_started (D := ToyDigest) (K := ToyKeys) (Drv := ToyDriver) sample_broker sample_id sample_context
    sample_signed_at world2 = (Ok tt, world3)) as H by (vm_compute; reflexivity).
  destruct (job_started_admission (D := ToyDigest) (K := ToyKeys) (Drv := ToyDriver) sample_broker sample_id
    sample_context sample_signed_at world2 world3 H) as (signed & name & i & rec & at_ & Hp & Hm & _).
  exists signed. exact (conj Hp Hm).
Defined.

Definition denied_world : World :=
  Eval vm_compute in world_after (job_started sample_broker sample_id sample_context sample_signed_at) world4.

Lemma denied_hook_keeps_ledger_witness : w_ledger denied_world = w_ledger world4.
Proof.
  assert (job_started (D := ToyDigest) (K := ToyKeys) (Drv := ToyDriver) sample_broker sample_id sample_context
    sample_signed_at world4 = (Raise (Exn JobStartedDenial "claim-state-conflict"), denied_world)) as H
    by (vm_compute; reflexivity).
  exact (denied_hook_keeps_ledger (D := ToyDigest) (K := ToyKeys) (Drv := ToyDriver) sample_broker sample_id
    sample_context sample_signed_at world4 _ denied_world H).
Defined.

Definition recovered_world : World := Eval vm_compute in world_after recover_all world3.
Definition absent_document : dict := [("allocation_id", VStr sample_id); ("state", VStr "absent")].

Lemma recover_cleans_witness :
  ∃ r, allocations (w_ledger (world_after (recover sample_id) world3)) !! sample_id = Some r ∧ state r = Cleaned.
Proof.
  set (w' := world_after (recover sample_id) world3).
  assert (recover (D := ToyDigest) (Drv := ToyDriver) sample_id world3 = (Ok absent_document, w')) as H
    by (vm_compute; reflexivity).
  exact (proj1 (recover_cleans (D := ToyDigest) (Drv := ToyDriver) sample_id absent_document world3 w' H)).
Defined.

Lemma finish_records_outcome_witness :
  ∃ r', allocations (w_ledger world4) !! sample_id = Some r' ∧ outcome r' = Some "success".
Proof.
  assert (finish (D := ToyDigest) (Drv := ToyDriver) sample_id "success" false world3
    = (Ok (cleaned_result sample_id (VStr sample_name)), world4)) as H by (vm_compute; reflexivity).
  destruct (finish_records_outcome (D := ToyDigest) (K := ToyKeys) (Drv := ToyDriver) sample_id "success" false
    _ world3 world4 reach_world3 H) as (r & r' & Hr & Hr' & _ & Ho).
  exists r'. refine (conj Hr' (proj1 (Ho _))).
  assert (allocations (w_ledger world3) !! sample_id = Some (row_at (w_ledger world3))) as E by (vm_compute; reflexivity).
  rewrite E in Hr. injection Hr as <-. reflexivity.
Defined.

Lemma recover_all_converges_witness : recoverable_allocation_ids (w_ledger recovered_world) = [].
Proof.
  assert (recover_all (D := ToyDigest) (Drv := ToyDriver) world3 = (Ok [sample_id], recovered_world)) as H
    by (vm_compute; reflexivity).
  exact (proj1 (proj2 (proj2 (recover_all_converges (D := ToyDigest) (K := ToyKeys) (Drv := ToyDriver) [sample_id] world3
    recovered_world reach_world3 H)))).
Defined.

Definition broken_world : World := MkWorld ledger0 (MkToy 0 None 0 true).
Definition partial_world : World :=
  Eval vm_compute in world_after (AllocationBroker.reserve sample_reservation sample_reserved_at) broken_world.

Lemma partial_reserve_is_recoverable_witness : sample_id ∈ recoverable_allocation_ids (w_ledger partial_world).
Proof.
  assert (AllocationBroker.reserve (D := ToyDigest) (Drv := ToyDriver) sample_reservation sample_reserved_at broken_world
    = (Raise (Exn ReservePartialFailure sample_id), partial_world)) as H by (vm_compute; reflexivity).
  destruct (partial_reserve_is_recoverable (D := ToyDigest) (Drv := ToyDriver) sample_reservation sample_reserved_at
    _ broken_world partial_world H) as [Heq|[_ Hin]].
  - exfalso. assert (recoverable_allocation_ids (w_ledger partial_world) = [sample_id]) as E by (vm_compute; reflexivity).
    rewrite Heq in E. discriminate E.
  - exact Hin.
Defined.
