(* ===== verification/Protocol.v ===== *)
(** * The GitHub control boundary (github.py)

    The protocol package a coordinator and its child exchange, the receipts
    read from GitHub's API, the App authority, and the predicates that admit a
    claim or a hosted conclusion.  Documents are [pyval]s; the lists a
    mismatch message quotes are left out of it. *)

From stdpp Require Import gmap sorting.
From S2P Require Import Prelude Datetime PyValue PyText Json Timing Signatures.
#[local] Open Scope Z_scope.

Definition PINNED_GITHUB_API_VERSION : string := "2026-03-10".
Definition CI_GATE_NAME : string := "ci-gate".
Definition ALLOWED_CONTROL_ROLES : list string := ["coordinator"; "reconciler"].
Definition MINIMUM_APP_PERMISSIONS : gmap string string := {["metadata" := "read"; "checks" := "write"]}.

(** [class ...(GitHubContractError)] *)
Definition is_github_error (c : exn_class) : bool :=
  bool_decide (c ∈ [GitHubControlFailure; ProtocolFailure; WorkflowJobPending]).

Definition fail_protocol {A} (msg : string) : result A := throw ProtocolFailure msg.
Definition fail_if (b : bool) (msg : string) : result unit := check b ProtocolFailure msg.

(** ** Shapes *)

(** [[A-Za-z0-9][A-Za-z0-9-]{0,38}/[A-Za-z0-9._-]{1,100}] *)
Definition is_owner (s : string) : bool :=
  match s with
  | String c s => is_alnum c && match_between 0 38 (λ c, is_alnum c || Ascii.eqb c "-") s
  | EmptyString => false
  end.
Definition is_exact_repository (s : string) : bool :=
  match split_at "/" s with
  | Some (owner, name) => is_owner owner && match_between 1 100 is_name_char name
  | None => false
  end.

(** [[0-9a-f]{8}-[0-9a-f]{4}-[1-5][0-9a-f]{3}-[89ab][0-9a-f]{3}-[0-9a-f]{12}] *)
Definition first_char (p : ascii → bool) (s : string) : bool :=
  match s with String c _ => p c | EmptyString => false end.
Definition is_uuid (s : string) : bool :=
  match
    '(a, s) ← split_at "-" s; '(b, s) ← split_at "-" s; '(c, s) ← split_at "-" s; '(d, e) ← split_at "-" s;
    Some (a, b, c, d, e)
  with
  | Some (a, b, c, d, e) =>
      match_exactly 8 is_lower_hex a && match_exactly 4 is_lower_hex b &&
      match_exactly 4 is_lower_hex c && first_char (in_range "1" "5") c &&
      match_exactly 4 is_lower_hex d && first_char (λ x, bool_decide (x ∈ ["8"; "9"; "a"; "b"]%char)) d &&
      match_exactly 12 is_lower_hex e
  | None => false
  end.
Definition is_allocation_nonce : string → bool := match_exactly 43 is_b64url.
(** [wsl-jit-[0-9a-f]{32}] *)
Definition is_runner_label (s : string) : bool :=
  match strip_prefix "wsl-jit-" s with Some t => match_exactly 32 is_lower_hex t | None => false end.

Definition _positive_int (value : pyval) (field : string) : result Z :=
  match value with
  | VInt n => fail_if (n <=? 0) (field +:+ " must be a positive integer");; Ok n
  | _ => fail_protocol (field +:+ " must be a positive integer")
  end.
Definition _exact_repository (value : pyval) : result unit :=
  fail_if (negb (is_str_where is_exact_repository value)) "repository must be one exact owner/repo".
Definition _aware (value : datetime) (field : string) : result Z :=
  match value with
  | Naive _ => fail_protocol (field +:+ " must be timezone-aware")
  | Aware _ _ => _utc value
  end.
Definition _parse_time (value : pyval) (field : string) : result Z :=
  match value with
  | VStr s =>
      parsed ← rewrap (λ c, bool_decide (c = ValueError)) ProtocolFailure (field +:+ " must be an ISO-8601 timestamp")
                 (fromisoformat (str_replace "Z" "+00:00" s));
      _aware parsed field
  | _ => fail_protocol (field +:+ " must be an ISO-8601 timestamp")
  end.

(** ** Sorting a list of any values: [sorted(set(v))] *)

Definition py_number (v : pyval) : option Z :=
  match v with VBool b => Some (Z.b2z b) | VInt n => Some n | _ => None end.

(** [set(l)], in the order of first occurrence. *)
Fixpoint py_unique (l : list pyval) : list pyval :=
  match l with
  | [] => []
  | v :: l => v :: filter (λ w, py_eq v w = false) (py_unique l)
  end.

Definition string_le (s t : string) : Prop := String.leb s t = true.
#[export] Instance string_le_dec s t : Decision (string_le s t) := bool_eq_dec _ _.

(** [sorted(set(l))]: hashing needs no lists or dicts, ordering needs all
    numbers or all texts, unless there is at most one element. *)
Definition sorted_set (l : list pyval) : result (list pyval) :=
  check (negb (forallb hashable l)) TypeError "unhashable type";;
  let u := py_unique l in
  match u with
  | [] | [_] => Ok u
  | _ =>
      match mapM py_number u with
      | Some ns => Ok (VInt <$> merge_sort Z.le ns)
      | None =>
          match mapM text_of u with
          | Some ts => Ok (VStr <$> merge_sort string_le ts)
          | None => throw TypeError "'<' not supported between these instances"
          end
      end
  end.

(** ** Dispatch *)

Record DispatchRequest := { dr_repository : string; dr_workflow_id : string; dr_ref : string; dr_default_branch : string }.

Definition dispatch_request (repository workflow_id ref default_branch api_version : pyval) : result DispatchRequest :=
  _exact_repository repository;;
  fail_if (negb (is_str_where (λ s, nonempty s && lacks "/" s && negb (bool_decide (s ∈ ["."; ".."]))) workflow_id))
    "dispatch workflow_id must be one exact workflow file or ID";;
  fail_if (negb (is_nonempty_str default_branch)) "exact default branch is required";;
  fail_if (negb (py_eq ref default_branch)) "child workflow ref must be the trusted default branch";;
  fail_if (negb (py_eq api_version (VStr PINNED_GITHUB_API_VERSION))) "GitHub API version is not pinned";;
  let text v := default "" (text_of v) in
  Ok {| dr_repository := text repository; dr_workflow_id := text workflow_id; dr_ref := text ref;
        dr_default_branch := text default_branch |}.

Definition run_url (request : DispatchRequest) (run_id : Z) : string :=
  "https://api.github.com/repos/" +:+ dr_repository request +:+ "/actions/runs/" +:+ str_of_Z run_id.
Definition html_url (request : DispatchRequest) (run_id : Z) : string :=
  "https://github.com/" +:+ dr_repository request +:+ "/actions/runs/" +:+ str_of_Z run_id.

Definition parse_dispatch_response (request : DispatchRequest) (status : Z) (body : dict) : result Z :=
  fail_if (negb (status =? 200)) "dispatch must return HTTP 200";;
  fail_if (negb (same_set (dkeys body) ["workflow_run_id"; "run_url"; "html_url"]))
    "dispatch response schema must contain only workflow_run_id, run_url and html_url";;
  run_id ← _positive_int (dget "workflow_run_id" body) "workflow_run_id";
  fail_if (negb (py_eq (dget "run_url" body) (VStr (run_url request run_id))))
    "dispatch run_url is not bound to the exact repository and run";;
  fail_if (negb (py_eq (dget "html_url" body) (VStr (html_url request run_id))))
    "dispatch html_url is not bound to the exact repository and run";;
  Ok run_id.

(** ** The job of a run *)

Record ObservedWorkflowJob := {
  ow_run_id : Z;
  ow_run_attempt : Z;
  ow_job_id : Z;
  ow_job_name : string;
  ow_dispatch_sha : string;
}.

Definition job_matches (run_id : Z) (runner_label expected_job_name : string) (job : pyval) : bool :=
  match job with
  | VDict job =>
      py_eq (dget "run_id" job) (VInt run_id) && py_eq (dget "name" job) (VStr expected_job_name) &&
      match dget "labels" job with VList labels => existsb (py_eq (VStr runner_label)) labels | _ => false end
  | _ => false
  end.

Definition parse_observed_workflow_job (run_id runner_label run : pyval) (jobs : dict) (expected_job_name : pyval)
    : result ObservedWorkflowJob :=
  rid ← _positive_int run_id "workflow_run_id";
  fail_if (negb (is_str_where is_runner_label runner_label)) "runner label is not an allocation-unique label";;
  fail_if (negb (is_nonempty_str expected_job_name)) "expected workflow job name is absent";;
  let label := default "" (text_of runner_label) in
  let name := default "" (text_of expected_job_name) in
  match same_set (dkeys jobs) ["total_count"; "jobs"], py_number (dget "total_count" jobs), dget "jobs" jobs with
  | true, Some total_count, VList listed =>
      fail_if (negb (total_count =? Z.of_nat (length listed))) "workflow jobs response is incomplete";;
      match run with
      | VDict run =>
          fail_if (negb (py_eq (dget "id" run) (VInt rid))) "observed workflow job crossed the dispatch run";;
          fail_if (negb (is_str_where is_sha1 (dget "head_sha" run))) "dispatch run head SHA is invalid";;
          match List.filter (job_matches rid label name) listed with
          | [] => throw WorkflowJobPending "exact local workflow job is not visible yet"
          | [VDict job] =>
              attempt ← _positive_int (dget "run_attempt" run) "run_attempt";
              job_id ← _positive_int (dget "id" job) "workflow_job_id";
              Ok {| ow_run_id := rid; ow_run_attempt := attempt; ow_job_id := job_id; ow_job_name := name;
                    ow_dispatch_sha := default "" (text_of (dget "head_sha" run)) |}
          | _ => fail_protocol "dispatch exposed multiple jobs with the exact local identity"
          end
      | _ => fail_protocol "observed workflow job crossed the dispatch run"
      end
  | _, _, _ => fail_protocol "workflow jobs response schema is invalid"
  end.

(** ** The protocol package *)

Definition VERSION_FIELDS : list string :=
  ["protocol_version"; "timing_policy_version"; "execution_trust_policy_version";
   "execution_trust_attestation_authority_version"; "execution_trust_key_manifest_version";
   "inventory_guard_freshness_policy_version"].
Definition POSITIVE_FIELDS : list string :=
  ["repository_id"; "pr_number"; "generation"; "owner_run_id"; "owner_run_attempt"; "key_manifest_generation";
   "ci_gate_check_run_id"].
Definition SHA_FIELDS : list string := ["head_sha"; "base_sha"; "tested_merge_sha"; "tested_sha"; "check_target_sha"].
Definition _ATTESTATION_FIELDS : list string :=
  ["key_manifest_generation_at_issuance"; "key_manifest_digest_at_issuance"; "attestation_id"; "attestation_key_id";
   "attestation_key_version"; "attestation_public_key_fingerprint"; "attestation_head_generation";
   "attestation_expires_at"; "attestation_nonce_binding"; "attestation_envelope_digest";
   "attestation_request_linkage_hash"].
Definition LOCAL_RESULT_FIELDS : list string :=
  ["local_admission_id"; "local_admission_digest"; "local_evidence_id"; "local_evidence_digest"; "local_result_kind";
   "local_child_run_id"; "local_child_job_id"; "started_test_marker_digest"; "canonical_command_digest"; "terminal_at";
   "check_outbox_idempotency_key"].
Definition ALLOCATION_FIELDS : list string := ["allocation_id"; "allocation_nonce"; "runner_label"].
Definition _PROTOCOL_FIELDS : list string :=
  VERSION_FIELDS ++ POSITIVE_FIELDS ++ SHA_FIELDS ++ _ATTESTATION_FIELDS ++ LOCAL_RESULT_FIELDS ++ ALLOCATION_FIELDS ++
  ["repository"; "logical_key"; "default_branch"; "backend"; "policy_version"; "execution_trust_mode";
   "key_manifest_digest"; "inventory_guard_status"; "missing_source_ids"; "effective_writer_inventory_hash";
   "inventory_observed_at"; "claim_deadline"; "execution_deadline"].
Definition LOCAL_DIGEST_FIELDS : list string :=
  ["key_manifest_digest_at_issuance"; "attestation_public_key_fingerprint"; "attestation_envelope_digest";
   "attestation_request_linkage_hash"; "effective_writer_inventory_hash"].

(** [for field in fields: check(data[field])]; the fields are known to be there. *)
Fixpoint each_field (f : pyval → string → result unit) (fields : list string) (data : dict) : result unit :=
  match fields with
  | [] => Ok tt
  | field :: fields => f (dget field data) field;; each_field f fields data
  end.

Definition all_none (fields : list string) (data : dict) : bool := forallb (λ f, is_none (dget f data)) fields.
Definition some_none (fields : list string) (data : dict) : bool := existsb (λ f, is_none (dget f data)) fields.

(** [f"{value}"] of an integer or a text. *)
Definition py_format (v : pyval) : string :=
  match v with VInt n => str_of_Z n | VStr s => s | _ => "" end.
Definition expected_logical_key (data : dict) : string :=
  py_format (dget "repository_id" data) +:+ ":" +:+ py_format (dget "pr_number" data) +:+ ":" +:+
  py_format (dget "head_sha" data) +:+ ":ci-gate".

Definition check_binding (data : dict) : result unit :=
  each_field (λ v f, fail_if (negb (py_eq v (VInt 1))) (f +:+ " must be 1")) VERSION_FIELDS data;;
  each_field (λ v f, _positive_int v f;; Ok tt) POSITIVE_FIELDS data;;
  _exact_repository (dget "repository" data);;
  each_field (λ v f, fail_if (negb (is_str_where is_sha1 v)) (f +:+ " must be a full lowercase 40-character SHA"))
    SHA_FIELDS data;;
  fail_if (negb (py_eq (dget "tested_sha" data) (dget "tested_merge_sha" data))
           || negb (py_eq (dget "check_target_sha" data) (dget "tested_merge_sha" data)))
    "PR tested/check target SHA must equal exact synthetic merge SHA";;
  fail_if (negb (py_eq (dget "logical_key" data) (VStr (expected_logical_key data))))
    "logical_key does not bind repository/PR/head/ci-gate".

Definition check_context (data : dict) : result unit :=
  fail_if (negb (is_nonempty_str (dget "default_branch" data))) "trusted default branch is required";;
  fail_if (negb (is_str_where is_sha1 (dget "policy_version" data))) "policy_version must be an exact commit SHA";;
  fail_if (negb (is_str_where is_sha256 (dget "key_manifest_digest" data)))
    "key_manifest_digest must be lowercase SHA-256";;
  known ← py_in_set (dget "inventory_guard_status" data) (text_set ["complete"; "partial"; "unavailable"]);
  fail_if (negb known) "invalid inventory guard status";;
  match dget "missing_source_ids" data with
  | VList ids =>
      sorted_ids ← sorted_set ids;
      fail_if (negb (py_eq (VList ids) (VList sorted_ids))) "missing_source_ids must be a sorted unique list"
  | _ => fail_protocol "missing_source_ids must be a sorted unique list"
  end;;
  _parse_time (dget "claim_deadline" data) "claim_deadline";;
  _parse_time (dget "execution_deadline" data) "execution_deadline";;
  Ok tt.

Definition check_local (data : dict) : result unit :=
  fail_if (negb (is_str_where is_uuid (dget "allocation_id" data)))
    "local backend requires a reserved allocation identity";;
  fail_if (negb (is_str_where is_allocation_nonce (dget "allocation_nonce" data)))
    "local backend requires the reserved allocation nonce";;
  fail_if (negb (is_str_where is_runner_label (dget "runner_label" data)))
    "local backend requires the unique reserved runner label";;
  fail_if (negb (py_eq (dget "execution_trust_mode" data) (VStr "exact-sha-attestation")))
    "local backend requires exact-sha-attestation";;
  fail_if (some_none _ATTESTATION_FIELDS data) "local backend requires complete attestation authority fields";;
  each_field (λ v f, fail_if (negb (is_str_where is_sha256 v)) (f +:+ " must be lowercase SHA-256"))
    LOCAL_DIGEST_FIELDS data;;
  fail_if (py_eq (dget "inventory_guard_status" data) (VStr "unavailable"))
    "local backend rejects unavailable inventory".

Definition check_hosted (data : dict) : result unit :=
  fail_if (negb (all_none ALLOCATION_FIELDS data)) "hosted dispatch cannot carry local allocation authority";;
  fail_if (negb (py_eq (dget "execution_trust_mode" data) (VStr "github-hosted")))
    "github backend requires github-hosted trust mode";;
  fail_if (negb (all_none _ATTESTATION_FIELDS data)) "hosted dispatch cannot carry attestation authority";;
  fail_if (negb (all_none LOCAL_RESULT_FIELDS data)) "hosted dispatch cannot cross-bind local result fields".

(** [ProtocolPackage.from_mapping]: the values of a valid package. *)
Definition from_mapping (value : pyval) : result dict :=
  match value with
  | VDict data =>
      fail_if (negb (same_set (dkeys data) _PROTOCOL_FIELDS)) "protocol fields mismatch";;
      check_binding data;;
      check_context data;;
      (if py_eq (dget "backend" data) (VStr "local") then check_local data
       else if py_eq (dget "backend" data) (VStr "github") then check_hosted data
       else fail_protocol "backend must be local or github");;
      Ok data
  | _ => fail_protocol "protocol must be an object"
  end.

Definition tuple_fields : list string :=
  ["repository_id"; "repository"; "pr_number"; "head_sha"; "base_sha"; "tested_merge_sha"; "generation"].

Definition assert_current_tuple (values : dict) (current : dict) : result unit :=
  fail_if (existsb (λ f, negb (py_eq (dget f values) (dget f current))) tuple_fields)
    "protocol package is stale or for a different exact tuple".

Definition assert_checkout (values : dict) (git_head : string) : result unit :=
  fail_if (negb (py_eq (VStr git_head) (dget "tested_sha" values))) "checkout HEAD differs from tested_sha".

(** ** App authority *)

Record RuntimeIdentity := {
  ri_role : string;
  ri_workflow_identity : string;
  ri_workflow_ref : string;
  ri_reviewed_default_branch_code : bool;
}.

Record MintRequest := {
  mr_app_id : Z;
  mr_installation_id : Z;
  mr_repository : string;
  mr_repository_id : Z;
  mr_permissions : gmap string string;
  mr_ttl_seconds : Z;
  mr_memory_only : bool;
  mr_masked : bool;
  mr_export_to_children : bool;
  mr_persist : bool;
}.

Record AppAuthorityV1 := {
  au_owner : string;
  au_app_id : Z;
  au_app_slug : string;
  au_repository : string;
  au_repository_id : Z;
  au_installation_id : Z;
  au_control_workflow_identity : string;
  au_control_workflow_ref : string;
  au_key_fingerprint : string;
  au_key_version : Z;
  au_rotated_at : Z;
  au_permissions : gmap string string;
  au_version : Z;
  au_key_active : bool;
}.

Definition control_failure {A} (msg : string) : result A := throw GitHubControlFailure msg.
Definition control_if (b : bool) (msg : string) : result unit := check b GitHubControlFailure msg.

Definition mint (self : AppAuthorityV1) (identity : RuntimeIdentity) (request : MintRequest) : result MintRequest :=
  control_if (negb (au_key_active self)) "revoked App key cannot mint";;
  control_if (negb (bool_decide (ri_role identity ∈ ALLOWED_CONTROL_ROLES))
              || negb (bool_decide (ri_workflow_identity identity = au_control_workflow_identity self))
              || negb (bool_decide (ri_workflow_ref identity = au_control_workflow_ref self))
              || negb (ri_reviewed_default_branch_code identity))
    "runtime identity is not the pinned control plane";;
  control_if (negb (mr_app_id request =? au_app_id self)
              || negb (mr_installation_id request =? au_installation_id self)
              || negb (bool_decide (mr_repository request = au_repository self))
              || negb (mr_repository_id request =? au_repository_id self))
    "App/install/repository scope mismatch";;
  control_if (negb (bool_decide (mr_permissions request = MINIMUM_APP_PERMISSIONS)))
    "mint permissions are not exactly narrow";;
  control_if (negb ((0 <? mr_ttl_seconds request) && (mr_ttl_seconds request <=? 3600)))
    "token TTL must be in 1..3600 seconds";;
  control_if (negb (mr_memory_only request) || negb (mr_masked request) || mr_export_to_children request
              || mr_persist request)
    "token storage/export invariants violated";;
  Ok request.

Definition permits (self : AppAuthorityV1) (operation repository : string) (installation_id : Z) : bool :=
  au_key_active self && bool_decide (repository = au_repository self) && (installation_id =? au_installation_id self) &&
  bool_decide (operation ∈ ["checks:create"; "checks:update"; "metadata:read"]).

(** The fields a rotation may not change. *)
Definition pinned (a : AppAuthorityV1) :=
  (au_owner a, au_app_id a, au_app_slug a, au_repository a, au_repository_id a, au_installation_id a,
   au_control_workflow_identity a, au_control_workflow_ref a, au_permissions a, au_version a).

Definition rotated_to (self successor : AppAuthorityV1) : result AppAuthorityV1 :=
  control_if (negb (bool_decide (pinned self = pinned successor))) "rotation changed pinned App authority";;
  control_if (negb (au_key_active self) || negb (au_key_active successor))
    "rotation requires active old and new keys before switch";;
  control_if (au_key_version successor <=? au_key_version self) "rotation key_version must increase";;
  control_if (bool_decide (au_key_fingerprint successor = au_key_fingerprint self))
    "rotation must change key fingerprint";;
  control_if (au_rotated_at successor <=? au_rotated_at self) "rotation timestamp must increase";;
  Ok successor.

Definition revoked (a : AppAuthorityV1) : AppAuthorityV1 := {|
  au_owner := au_owner a; au_app_id := au_app_id a; au_app_slug := au_app_slug a; au_repository := au_repository a;
  au_repository_id := au_repository_id a; au_installation_id := au_installation_id a;
  au_control_workflow_identity := au_control_workflow_identity a; au_control_workflow_ref := au_control_workflow_ref a;
  au_key_fingerprint := au_key_fingerprint a; au_key_version := au_key_version a; au_rotated_at := au_rotated_at a;
  au_permissions := au_permissions a; au_version := au_version a; au_key_active := false |}.

(** ** Claims and hosted conclusions *)

Definition validate_ci_gate_source (event : dict) (authority : AppAuthorityV1) (check_target_sha : pyval) : bool :=
  py_eq (dget "kind" event) (VStr "check_run") && is_true (dget "explicit_custom_check" event) &&
  py_eq (dget "name" event) (VStr CI_GATE_NAME) && py_eq (dget "app_id" event) (VInt (au_app_id authority)) &&
  py_eq (dget "app_slug" event) (VStr (au_app_slug authority)) &&
  py_eq (dget "repository" event) (VStr (au_repository authority)) &&
  py_eq (dget "installation_id" event) (VInt (au_installation_id authority)) &&
  py_eq (dget "head_sha" event) check_target_sha.

(** Pairs of expected and observed values, all equal. *)
Definition all_equal (pairs : list (pyval * pyval)) : bool := forallb (λ p, py_eq p.1 p.2) pairs.

Definition hosted_gate_matches (data gate : dict) : bool :=
  all_equal [(dget "owner" gate, dget "owner_run_id" data); (dget "generation" gate, dget "generation" data);
    (dget "logical_key" gate, dget "logical_key" data); (dget "repository_id" gate, dget "repository_id" data);
    (dget "repository" gate, dget "repository" data); (dget "pr_number" gate, dget "pr_number" data);
    (dget "head_sha" gate, dget "head_sha" data); (dget "base_sha" gate, dget "base_sha" data);
    (dget "tested_merge_sha" gate, dget "tested_merge_sha" data)].

Definition hosted_times (gate hosted : dict) (now : datetime) : result (Z * Z * Z * Z) :=
  lease_expiry ← _parse_time (dget "lease_expires_at" gate) "lease_expires_at";
  terminal_at ← _parse_time (dget "terminal_at" hosted) "terminal_at";
  execution_deadline ← _parse_time (dget "execution_deadline" hosted) "execution_deadline";
  n ← _aware now "now";
  Ok (lease_expiry, terminal_at, execution_deadline, n).

Definition hosted_conclusion_allowed (data gate hosted : dict) (authority : AppAuthorityV1) (now : datetime)
    : result bool :=
  match hosted_times gate hosted now with
  | Raise e => if is_github_error (exn_cls e) then Ok false else Raise e
  | Ok (lease_expiry, terminal_at, execution_deadline, now) =>
      Ok (py_eq (dget "backend" data) (VStr "github") && py_eq (dget "winner" gate) (VStr "github") &&
          (now <? lease_expiry) && hosted_gate_matches data gate &&
          py_eq (dget "tested_sha" hosted) (dget "check_target_sha" hosted) &&
          py_eq (dget "check_target_sha" hosted) (dget "tested_merge_sha" data) &&
          py_eq (dget "canonical_command_digest" hosted) (dget "canonical_command_digest" gate) &&
          py_eq (dget "workflow_id" hosted) (dget "hosted_workflow_id" gate) &&
          py_eq (dget "workflow_ref" hosted) (dget "default_branch" data) &&
          py_eq (dget "run_id" hosted) (dget "hosted_run_id" gate) &&
          py_eq (dget "job_id" hosted) (dget "hosted_job_id" gate) &&
          is_true (dget "trustworthy_github_hosted" hosted) && (terminal_at <=? execution_deadline) &&
          match dget "check_source" hosted with
          | VDict source => validate_ci_gate_source source authority (dget "check_target_sha" data)
          | _ => false
          end)
  end.

(** ** Lemmas *)

Lemma fail_if_ok b msg u : fail_if b msg = Ok u ↔ b = false.
Proof. apply check_ok. Qed.

Lemma each_field_ok f fields data u :
  each_field f fields data = Ok u → ∀ field, field ∈ fields → f (dget field data) field = Ok tt.
Proof.
  revert u. induction fields as [|g fields IH]; cbn; intros u H field Hin; [by apply not_elem_of_nil in Hin|].
  apply result_bind_ok in H as ([] & Hg & H). apply elem_of_cons in Hin as [->|Hin]; [done|eauto].
Qed.

Lemma positive_int_ok v field n : _positive_int v field = Ok n → v = VInt n ∧ 0 < n.
Proof.
  destruct v; try discriminate. intros H. apply result_bind_ok in H as (? & H & [= <-]).
  apply fail_if_ok in H. bool_inv. done.
Qed.

Lemma str_where_ok p v : negb (is_str_where p v) = false → ∃ s, v = VStr s ∧ p s = true.
Proof. rewrite negb_false_iff. destruct v; try discriminate. eauto. Qed.

Lemma all_none_ok fields data : negb (all_none fields data) = false → ∀ f, f ∈ fields → dget f data = VNone.
Proof.
  rewrite negb_false_iff. unfold all_none. rewrite forallb_forall. intros H f Hf%list_elem_of_In.
  specialize (H f Hf). by destruct (dget f data).
Qed.

Lemma some_none_ok fields data : some_none fields data = false → ∀ f, f ∈ fields → dget f data ≠ VNone.
Proof.
  intros H f Hf E. assert (some_none fields data = true) as Ht; [|congruence]. apply existsb_exists.
  exists f. split; [by apply list_elem_of_In|]. by rewrite E.
Qed.

Lemma positive_field data f u :
  each_field (λ v f, _positive_int v f;; Ok tt) POSITIVE_FIELDS data = Ok u → f ∈ POSITIVE_FIELDS →
  ∃ n, dget f data = VInt n ∧ 0 < n.
Proof.
  intros H Hf. apply (each_field_ok _ _ _ _ H) in Hf. apply result_bind_ok in Hf as (n & Hn & _).
  exists n. by apply positive_int_ok in Hn.
Qed.

(** What the binding part of the validation establishes. *)
Record bound_package (data : dict) (repository_id pr_number : Z) (head : string) : Prop := {
  bp_repository_id : dget "repository_id" data = VInt repository_id ∧ 0 < repository_id;
  bp_pr_number : dget "pr_number" data = VInt pr_number ∧ 0 < pr_number;
  bp_head : dget "head_sha" data = VStr head ∧ is_sha1 head = true;
  bp_tested : ∃ merge, is_sha1 merge = true ∧ dget "tested_merge_sha" data = VStr merge ∧
    dget "tested_sha" data = VStr merge ∧ dget "check_target_sha" data = VStr merge;
  bp_key : dget "logical_key" data =
    VStr (str_of_Z repository_id +:+ ":" +:+ str_of_Z pr_number +:+ ":" +:+ head +:+ ":ci-gate");
}.

Lemma check_binding_ok data u :
  check_binding data = Ok u → ∃ repository_id pr_number head, bound_package data repository_id pr_number head.
Proof.
  unfold check_binding. intros H. apply result_bind_ok in H as (? & _ & H).
  apply result_bind_ok in H as (? & Hpos & H). apply result_bind_ok in H as (? & _ & H).
  apply result_bind_ok in H as (? & Hsha & H). apply result_bind_ok in H as (? & Hsame & Hkey).
  destruct (positive_field data "repository_id" _ Hpos) as (rid & Hrid & ?); [set_solver|].
  destruct (positive_field data "pr_number" _ Hpos) as (pr & Hpr & ?); [set_solver|].
  assert (∀ f, f ∈ SHA_FIELDS → ∃ s, dget f data = VStr s ∧ is_sha1 s = true) as Hs.
  { intros f Hf. apply (each_field_ok _ _ _ _ Hsha) in Hf. apply fail_if_ok in Hf. by apply str_where_ok. }
  destruct (Hs "head_sha") as (head & Hh & ?); [set_solver|].
  destruct (Hs "tested_merge_sha") as (merge & Hm & ?); [set_solver|].
  apply fail_if_ok in Hsame. apply orb_false_iff in Hsame as [Ht Hc]. rewrite Hm in Ht, Hc.
  apply negb_false_iff, py_eq_str in Ht, Hc. apply fail_if_ok, negb_false_iff, py_eq_str in Hkey.
  exists rid, pr, head. split; [done..|by exists merge|].
  rewrite Hkey. unfold expected_logical_key. by rewrite Hrid, Hpr, Hh.
Qed.

(** Which authority a package carries. *)
Definition local_authority (data : dict) : Prop :=
  dget "backend" data = VStr "local" ∧ dget "execution_trust_mode" data = VStr "exact-sha-attestation" ∧
  (∀ f, f ∈ _ATTESTATION_FIELDS ++ ALLOCATION_FIELDS → dget f data ≠ VNone) ∧
  dget "inventory_guard_status" data ≠ VStr "unavailable".
Definition hosted_authority (data : dict) : Prop :=
  dget "backend" data = VStr "github" ∧ dget "execution_trust_mode" data = VStr "github-hosted" ∧
  (∀ f, f ∈ _ATTESTATION_FIELDS ++ ALLOCATION_FIELDS ++ LOCAL_RESULT_FIELDS → dget f data = VNone).

Lemma check_local_ok data u : dget "backend" data = VStr "local" → check_local data = Ok u → local_authority data.
Proof.
  unfold check_local. intros Hb H.
  apply result_bind_ok in H as (? & (i & Hi & _)%fail_if_ok%str_where_ok & H).
  apply result_bind_ok in H as (? & (n & Hn & _)%fail_if_ok%str_where_ok & H).
  apply result_bind_ok in H as (? & (l & Hl & _)%fail_if_ok%str_where_ok & H).
  apply result_bind_ok in H as (? & Hm%fail_if_ok%negb_false_iff%py_eq_str & H).
  apply result_bind_ok in H as (? & Hat%fail_if_ok & H). apply result_bind_ok in H as (? & _ & H%fail_if_ok).
  split; [done|]. split; [done|]. split.
  - intros f [Hf|Hf]%elem_of_app; [by (eapply some_none_ok; [|exact Hf])|].
    unfold ALLOCATION_FIELDS in Hf. rewrite !elem_of_cons in Hf. destruct Hf as [->|[->|[->|Hf%not_elem_of_nil]]]; congruence.
  - intros E. rewrite E in H. done.
Qed.

Lemma check_hosted_ok data u : dget "backend" data = VStr "github" → check_hosted data = Ok u → hosted_authority data.
Proof.
  unfold check_hosted. intros Hb H. apply result_bind_ok in H as (? & Hal%fail_if_ok & H).
  apply result_bind_ok in H as (? & Hm%fail_if_ok%negb_false_iff%py_eq_str & H).
  apply result_bind_ok in H as (? & Hat%fail_if_ok & Hr%fail_if_ok).
  split; [done|]. split; [done|]. intros f. rewrite !elem_of_app. intros [Hf|[Hf|Hf]]; by (eapply all_none_ok; [|exact Hf]).
Qed.

Lemma from_mapping_ok v data :
  from_mapping v = Ok data →
  v = VDict data ∧ same_set (dkeys data) _PROTOCOL_FIELDS = true ∧
  (∃ repository_id pr_number head, bound_package data repository_id pr_number head) ∧
  (local_authority data ∨ hosted_authority data).
Proof.
  destruct v as [| | | | |d]; try discriminate. cbn [from_mapping]. intros H.
  apply result_bind_ok in H as (? & Hk%fail_if_ok%negb_false_iff & H). apply result_bind_ok in H as (? & Hb & H).
  apply result_bind_ok in H as (? & _ & H). apply result_bind_ok in H as (? & Ha & [= ->]).
  split; [done|]. split; [done|]. split; [by eapply check_binding_ok|].
  destruct (py_eq (dget "backend" data) (VStr "local")) eqn:El.
  - left. by eapply check_local_ok; [apply py_eq_str|].
  - destruct (py_eq (dget "backend" data) (VStr "github")) eqn:Eg; [|done].
    right. by eapply check_hosted_ok; [apply py_eq_str|].
Qed.

(** Logical keys are injective in the repository, the pull request and the head. *)
Lemma sha1_lacks c s : is_lower_hex c = false → is_sha1 s = true → lacks c s = true.
Proof.
  intros Hc [_ H]%andb_true_iff. induction s as [|x s IH]; [done|]. cbn in *.
  apply andb_true_iff in H as [Hx H]. rewrite (IH H), andb_true_r.
  destruct (Ascii.eqb_spec c x) as [->|]; [congruence|done].
Qed.

(** ** Properties *)

(** C22: A package that validates carries exactly one kind of authority.  Its
    fields are exactly the protocol's; its tested and check target SHAs are the
    merge SHA; a local package has every attestation and allocation field, an
    exact-sha attestation and a usable inventory; a hosted package has none of
    the attestation, allocation and local result fields.  And its logical key
    names its gate: two packages with the same key are about the same
    repository, pull request and head. *)
Theorem package_authority v data :
  from_mapping v = Ok data →
  v = VDict data ∧ same_set (dkeys data) _PROTOCOL_FIELDS = true ∧
  (local_authority data ∨ hosted_authority data) ∧
  ∃ repository_id pr_number head, bound_package data repository_id pr_number head ∧
    ∀ v' data' repository_id' pr_number' head',
      from_mapping v' = Ok data' → bound_package data' repository_id' pr_number' head' →
      dget "logical_key" data' = dget "logical_key" data →
      repository_id' = repository_id ∧ pr_number' = pr_number ∧ head' = head.
Proof.
  intros (-> & Hk & (rid & pr & head & Hb) & Ha)%from_mapping_ok. repeat (split; [done|]).
  exists rid, pr, head. split; [done|]. intros v' data' rid' pr' head' _ Hb' E.
  rewrite (bp_key _ _ _ _ Hb), (bp_key _ _ _ _ Hb') in E. injection E as E.
  assert (∀ n, lacks ":" (str_of_Z n) = true) as Hl by (intros n; by apply lacks_str_of_Z).
  revert E. str_norm. intros [H1 E]%sep_inj_l; [|done..]. revert E. str_norm. intros [H2 E]%sep_inj_l; [|done..].
  destruct (bp_head _ _ _ _ Hb) as [_ Hh]. destruct (bp_head _ _ _ _ Hb') as [_ Hh'].
  apply sep_inj_l in E as [H3 _]; [|by apply sha1_lacks..].
  split; [by apply str_of_Z_inj|]. split; [by apply str_of_Z_inj|done].
Qed.

(** A dispatch receipt is accepted exactly when it is the receipt of one
    run of the request's repository: status 200, the three fields and no other,
    a positive run id, and both URLs spelled from the repository and that id. *)
Lemma dispatch_receipt_exact request status body n :
  parse_dispatch_response request status body = Ok n ↔
  status = 200 ∧ same_set (dkeys body) ["workflow_run_id"; "run_url"; "html_url"] = true ∧ 0 < n ∧
  dget "workflow_run_id" body = VInt n ∧ dget "run_url" body = VStr (run_url request n) ∧
  dget "html_url" body = VStr (html_url request n).
Proof.
  unfold parse_dispatch_response. split.
  - intros H. apply result_bind_ok in H as (? & Hs%fail_if_ok & H). apply result_bind_ok in H as (? & Hk%fail_if_ok & H).
    apply result_bind_ok in H as (m & [Hm Hp]%positive_int_ok & H).
    apply result_bind_ok in H as (? & Hr%fail_if_ok%negb_false_iff%py_eq_str & H).
    apply result_bind_ok in H as (? & Hh%fail_if_ok%negb_false_iff%py_eq_str & [= <-]). bool_inv. done.
  - intros (-> & -> & Hn & -> & -> & ->). cbn. unfold fail_if at 1, check.
    rewrite (proj2 (Z.leb_gt n 0)) by done. cbn. rewrite !bool_decide_eq_true_2 by done. done.
Qed.

(** ** A package and a receipt *)

Definition hex_of (c : ascii) (n : nat) : string := String.string_of_list_ascii (replicate n c).
Definition sample_sha : string := hex_of "a" 40.
Definition sample_merge : string := hex_of "b" 40.
Definition sample_digest : string := hex_of "c" 64.

Definition local_package : dict :=
  ((λ f, (f, VInt 1)) <$> VERSION_FIELDS) ++ ((λ f, (f, VInt 7)) <$> POSITIVE_FIELDS) ++
  [("head_sha", VStr sample_sha); ("base_sha", VStr sample_sha); ("tested_merge_sha", VStr sample_merge);
   ("tested_sha", VStr sample_merge); ("check_target_sha", VStr sample_merge);
   ("repository", VStr "owner/name"); ("logical_key", VStr ("7:7:" +:+ sample_sha +:+ ":ci-gate"));
   ("default_branch", VStr "main"); ("backend", VStr "local"); ("policy_version", VStr sample_sha);
   ("execution_trust_mode", VStr "exact-sha-attestation"); ("key_manifest_digest", VStr sample_digest);
   ("inventory_guard_status", VStr "complete"); ("missing_source_ids", VList [VStr "apps"; VStr "teams"]);
   ("effective_writer_inventory_hash", VStr sample_digest); ("inventory_observed_at", VStr "2026-01-15T10:00:00Z");
   ("claim_deadline", VStr "2026-01-15T10:10:00Z"); ("execution_deadline", VStr "2026-01-15T10:50:00Z");
   ("allocation_id", VStr "0f0e0d0c-0b0a-4908-8706-050403020100"); ("allocation_nonce", VStr (hex_of "A" 43));
   ("runner_label", VStr ("wsl-jit-" +:+ hex_of "0" 32))] ++
  ((λ f, (f, VStr sample_digest)) <$> _ATTESTATION_FIELDS) ++ ((λ f, (f, VNone)) <$> LOCAL_RESULT_FIELDS).

Example local_package_valid : from_mapping (VDict local_package) = Ok local_package.
Proof. vm_compute. reflexivity. Qed.

Lemma package_authority_witness :
  same_set (dkeys local_package) _PROTOCOL_FIELDS = true ∧ (local_authority local_package ∨ hosted_authority local_package).
Proof.
  assert (from_mapping (VDict local_package) = Ok local_package) as H by (vm_compute; reflexivity).
  destruct (package_authority (VDict local_package) local_package H) as (_ & Hk & Ha & _). exact (conj Hk Ha).
Defined.
