(* ===== verification/Coordinator.v ===== *)
(** * The coordinator (coordinator.py)

    [outbound_local_dispatch] runs reserve, dispatch, observe, sign, finalize
    from the local host against the class [Adapters] (the broker, GitHub, the
    signer, the clock and the progress record) over an abstract outside world,
    with the hosted fallback when a reservation is known to have failed.  The
    two local variables its handler reads are part of the state, so that what
    the handler sees after an exception is what the body had assigned.  The
    hosted entry points [coordinate], [child] and [reconcile] are pure. *)

From S2P Require Import Prelude Datetime PyValue PyText Json Signatures Protocol.
#[local] Open Scope Z_scope.

Definition unavailable {A} (msg : string) : result A := throw CoordinatorUnavailable msg.
Definition unavailable_if (b : bool) (msg : string) : result unit := check b CoordinatorUnavailable msg.

(** ** Hosted entry points *)

Definition environment := list (string * string).
Fixpoint env_get (k : string) (env : environment) : option string :=
  match env with
  | [] => None
  | (k', v) :: env => if decide (k = k') then Some v else env_get k env
  end.

(** [environment.get(k)] that must be there, as JSON. *)
Definition env_json (k missing invalid : string) (env : environment) : result pyval :=
  match env_get k env with
  | Some raw =>
      fail_if (negb (nonempty raw)) missing;;
      rewrap (λ c, bool_decide (c = ValueError)) ProtocolFailure invalid (json_loads raw)
  | None => fail_protocol missing
  end.

Definition _package_from_environment (env : environment) : result dict :=
  value ← env_json "CI_GATE_PROTOCOL_PACKAGE" "CI_GATE_PROTOCOL_PACKAGE is required"
    "protocol package is not valid JSON" env;
  from_mapping value.

Definition _assert_live_tuple (package : dict) (env : environment) : result unit :=
  current ← env_json "CI_GATE_CURRENT_TUPLE" "authoritative CI_GATE_CURRENT_TUPLE is required"
    "current GitHub tuple is not valid JSON" env;
  match current with
  | VDict current =>
      fail_if (negb (same_set (dkeys current) tuple_fields)) "current GitHub tuple fields are not exact";;
      assert_current_tuple package current
  | _ => fail_protocol "current GitHub tuple fields are not exact"
  end.

Definition newline : string := String (ascii_of_N 10) "".
(** The lines appended to the file GITHUB_OUTPUT names. *)
Definition output_lines (values : dict) : string :=
  "backend=" +:+ py_format (dget "backend" values) +:+ newline +:+
  "tested_sha=" +:+ py_format (dget "tested_sha" values) +:+ newline +:+
  "logical_key=" +:+ py_format (dget "logical_key" values) +:+ newline +:+
  "generation=" +:+ py_format (dget "generation" values) +:+ newline +:+
  "runner_label=" +:+ py_format (dget "runner_label" values) +:+ newline.
Definition _write_outputs (package : dict) (env : environment) : option (string * string) :=
  match env_get "GITHUB_OUTPUT" env with
  | Some output => if nonempty output then Some (output, output_lines package) else None
  | None => None
  end.

(** The exit code and what is appended to which file. *)
Definition child (env : environment) (action : string) : result (Z * option (string * string)) :=
  package ← _package_from_environment env;
  if bool_decide (action = "validate") then
    _assert_live_tuple package env;;
    Ok (0, _write_outputs package env)
  else unavailable ("child action '" +:+ action +:+ "' requires the installed transactional control-plane adapter").

Definition enabled (env : environment) : bool :=
  bool_decide (env_get "CI_GATE_COORDINATOR_ENABLED" env = Some "true").
Definition coordinate (env : environment) : result Z :=
  unavailable_if (negb (enabled env)) "coordinator is disabled by default";;
  unavailable "hosted workflow cannot reach the local allocation broker; use the outbound local coordinator worker or dispatch GitHub-hosted".
Definition reconcile (env : environment) : result Z :=
  unavailable_if (negb (enabled env)) "reconciler is disabled by default";;
  unavailable "reconciliation requires the installed GitHub/GateStore adapter and exact external authority".

(** ** The hosted fallback *)

Definition cleared_fields : list string := _ATTESTATION_FIELDS ++ LOCAL_RESULT_FIELDS.
Definition fallback_mapping (package : dict) : dict :=
  dmerge package
    ([("backend", VStr "github"); ("execution_trust_mode", VStr "github-hosted"); ("allocation_id", VNone);
      ("allocation_nonce", VNone); ("runner_label", VNone)] ++ ((λ f, (f, VNone)) <$> cleared_fields)).
Definition github_hosted_fallback (package : dict) : result dict := from_mapping (VDict (fallback_mapping package)).

(** ** Adapters *)

Inductive Progress :=
  | PReserved (value : dict)
  | PDispatching
  | PDispatched (run_id : Z)
  | PObserved (job : ObservedWorkflowJob)
  | PAllocationWindow (issued_at claim_deadline : string)
  | PFinalizing
  | PFinalized (value : dict)
  | PRecovered
  | PDispatchAmbiguous.

Class Adapters (G : Type) := {
  broker_reserve : dict → M G dict;
  broker_finalize : dict → M G dict;
  broker_recover : pyval → M G dict;
  dispatch_package : dict → M G pyval;
  observe_exact_job : Z → pyval → M G ObservedWorkflowJob;
  signer_sign : dict → M G dict;
  utc_clock : M G Z;
  record_progress : Progress → M G unit;
}.

(** ** Outbound local dispatch *)

Section outbound.
Context {G : Type} {A : Adapters G}.
Context (package reservation resume : dict) (has_progress : bool) (claim_ttl : Z).

Definition outcome_of : Type := dict * option ObservedWorkflowJob.

Definition _assert_exact_recovery (recovered : dict) (allocation_id : pyval) : result unit :=
  unavailable_if (negb (py_eq (VDict recovered) (VDict [("allocation_id", allocation_id); ("state", VStr "absent")])))
    "exact allocation recovery did not prove absence".

Definition hosted_dispatch : M G outcome_of :=
  hosted ← lift (github_hosted_fallback package);
  dispatch_package hosted;;
  mret (hosted, None).

(** The reservation is done again only after a proved recovery. *)
Definition phase : pyval := dget "phase" resume.
Definition should_reserve : bool := is_none (dget "reserved" resume) || py_eq phase (VStr "recovered").
Definition reserve_or_resume : M G pyval :=
  if should_reserve then VDict <$> broker_reserve reservation else mret (dget "reserved" resume).

(** What a failed reservation leads to. *)
Definition reserve_failed (e : exn) : M G outcome_of :=
  if bool_decide (exn_cls e = ReserveDefinitelyUnavailable) then hosted_dispatch
  else if bool_decide (exn_cls e = ReservePartialFailure) then
    match dget "allocation_id" reservation with
    | VStr allocation_id =>
        raise_if (negb (bool_decide (exn_msg e = allocation_id))) CoordinatorUnavailable
          "partial reserve failure crossed the allocation";;
        recovered ← broker_recover (VStr allocation_id);
        lift (_assert_exact_recovery recovered (VStr allocation_id));;
        hosted_dispatch
    | _ => raise CoordinatorUnavailable "partial reserve failure crossed the allocation"
    end
  else raise CoordinatorUnavailable "allocation reserve outcome is ambiguous".

Definition reserved_fields : list string := ["allocation_id"; "scale_set_id"; "runner_label"; "state"].

(** [set(reserved) != expected or reserved["state"] != ...], for any value:
    texts and lists iterate too, but are no mapping. *)
Definition exact_reserved (reserved : pyval) : result dict :=
  match reserved with
  | VDict d =>
      unavailable_if (negb (same_set (dkeys d) reserved_fields) || negb (py_eq (dget "state" d) (VStr "reserved-disabled")))
        "allocation reserve response is not exact";;
      unavailable_if (negb (py_eq (dget "allocation_id" d) (dget "allocation_id" reservation))
                      || negb (py_eq (dget "runner_label" d) (dget "scale_set_name" reservation)))
        "allocation reserve response crossed the reservation";;
      Ok d
  | VStr _ => unavailable "allocation reserve response is not exact"
  | VList l =>
      check (negb (forallb hashable l)) TypeError "unhashable type";;
      unavailable_if (negb (forallb (λ v, existsb (py_eq v) (text_set reserved_fields)) l
                            && forallb (λ f, existsb (λ v, py_eq v f) l) (text_set reserved_fields)))
        "allocation reserve response is not exact";;
      throw TypeError "list indices must be integers or slices, not str"
  | _ => throw TypeError "object is not iterable"
  end.

(** *** The body, with the locals its handler reads *)

Record Frame := MkFrame { f_outside : G; f_ambiguous : bool; f_resumed : option pyval }.
Definition outside {B} (m : M G B) : M Frame B := λ s,
  let '(r, g) := m (f_outside s) in (r, MkFrame g (f_ambiguous s) (f_resumed s)).
Definition set_ambiguous (b : bool) : M Frame unit := modify (λ s, MkFrame (f_outside s) b (f_resumed s)).
Definition set_resumed (v : pyval) : M Frame unit := modify (λ s, MkFrame (f_outside s) (f_ambiguous s) (Some v)).
Definition step (p : Progress) : M Frame unit := if has_progress then outside (record_progress p) else mret tt.

Definition positive_receipt (v : pyval) (msg : string) : result Z :=
  match v with VInt n => unavailable_if (n <=? 0) msg;; Ok n | _ => unavailable msg end.

(** The package with the reserved allocation in it. *)
Definition local_mapping (reserved : dict) : dict :=
  dmerge package [("allocation_id", dget "allocation_id" reserved); ("allocation_nonce", dget "nonce" reservation);
                  ("runner_label", dget "runner_label" reserved)].

Definition dispatch_or_resume (protocol : dict) : M Frame Z :=
  match dget "run_id" resume with
  | VNone =>
      raise_if (py_eq phase (VStr "dispatching")) CoordinatorUnavailable
        "GitHub dispatch receipt is ambiguous; refusing redispatch";;
      step PDispatching;;
      set_ambiguous true;;
      receipt ← outside (dispatch_package protocol);
      run_id ← lift (positive_receipt receipt "GitHub dispatch receipt is invalid");
      step (PDispatched run_id);;
      set_ambiguous false;;
      mret run_id
  | resumed => lift (positive_receipt resumed "persisted GitHub dispatch receipt is invalid")
  end.

Definition version : pyval := dget "allocation_reservation_version" reservation.
Definition is_text (v : pyval) : bool := match v with VStr _ => true | _ => false end.

Definition allocation_window : M Frame (pyval * pyval) :=
  let issued := dget "allocation_issued_at" resume in
  let deadline := dget "claim_deadline" resume in
  if py_eq version (VInt 2) && (negb (is_text issued) || negb (is_text deadline)) then
    now ← outside utc_clock;
    let issued_at := now - now mod US_SECOND in
    let issued_text := str_replace "+00:00" "Z" (isoformat issued_at) in
    claim_deadline ← lift (dt_add issued_at claim_ttl);
    let deadline_text := str_replace "+00:00" "Z" (isoformat claim_deadline) in
    step (PAllocationWindow issued_text deadline_text);;
    mret (VStr issued_text, VStr deadline_text)
  else mret (issued, deadline).

Definition allocation_payload (protocol : dict) (observed : ObservedWorkflowJob) (window : pyval * pyval) : dict :=
  dmerge (dremove "allocation_reservation_version" reservation)
    ([("runner_allocation_version", version); ("run_id", VStr (str_of_Z (ow_run_id observed)));
      ("run_attempt", VInt (ow_run_attempt observed)); ("job_id", VStr (str_of_Z (ow_job_id observed)));
      ("job_name", VStr (ow_job_name observed)); ("dispatch_sha", VStr (ow_dispatch_sha observed));
      ("tested_sha", dget "tested_sha" protocol)] ++
     (if py_eq version (VInt 2) then [("issued_at", window.1); ("claim_deadline", window.2)] else [])).

Definition dispatch_body (reserved : dict) : M Frame outcome_of :=
  protocol ← lift (from_mapping (VDict (local_mapping reserved)));
  set_resumed (dget "run_id" resume);;
  run_id ← dispatch_or_resume protocol;
  observed ← outside (observe_exact_job run_id (dget "runner_label" reserved));
  raise_if (negb (ow_run_id observed =? run_id)) CoordinatorUnavailable
    "observed job is not bound to the dispatch run";;
  step (PObserved observed);;
  window ← allocation_window;
  envelope ← outside (signer_sign (allocation_payload protocol observed window));
  raise_if (py_eq phase (VStr "finalizing") && bool_decide (dlookup "finalized" resume = None)) CoordinatorUnavailable
    "allocation finalize receipt is ambiguous; refusing replay";;
  step PFinalizing;;
  finalized ← outside (broker_finalize envelope);
  raise_if (negb (py_eq (dget "allocation_id" finalized) (dget "allocation_id" reserved))
            || negb (py_eq (dget "state" finalized) (VStr "enabled-awaiting-claim"))) CoordinatorUnavailable
    "allocation finalize response is not exact";;
  step (PFinalized finalized);;
  mret (protocol, Some observed).

(** [dispatch_receipt_ambiguous or (phase == "dispatching" and resumed_run_id is None)]:
    the name [resumed_run_id] may be unbound. *)
Definition receipt_is_ambiguous : M Frame bool :=
  s ← get;
  if f_ambiguous s then mret true
  else if py_eq phase (VStr "dispatching") then
    match f_resumed s with
    | Some v => mret (is_none v)
    | None => raise UnboundLocalError "resumed_run_id"
    end
  else mret false.

Definition record_recovery : M Frame unit :=
  if has_progress then
    ambiguous ← receipt_is_ambiguous;
    step (if (ambiguous : bool) then PDispatchAmbiguous else PRecovered)
  else mret tt.

(** [except Exception]: recover, record, raise again. *)
Definition dispatch_failed {B} (reserved : dict) (e : exn) : M Frame B :=
  recovered ← outside (broker_recover (dget "allocation_id" reserved));
  lift (_assert_exact_recovery recovered (dget "allocation_id" reserved));;
  record_recovery;;
  reraise e.

Definition guarded_body (reserved : dict) : M Frame outcome_of := λ s,
  match dispatch_body reserved s with
  | (Ok a, s') => (Ok a, s')
  | (Raise e, s') => dispatch_failed reserved e s'
  end.

Definition in_frame {B} (m : M Frame B) : M G B := λ g, let '(r, s) := m (MkFrame g false None) in (r, f_outside s).

Definition dispatch_reserved (value : pyval) : M G outcome_of :=
  reserved ← lift (exact_reserved value);
  (if has_progress then record_progress (PReserved reserved) else mret tt);;
  in_frame (guarded_body reserved).

Definition outbound_local_dispatch : M G outcome_of :=
  reserved ← attempt reserve_or_resume;
  match reserved with
  | Raise e => reserve_failed e
  | Ok value => dispatch_reserved value
  end.
End outbound.
