(* ===== verification/CoordinatorProps.v ===== *)
(** * The coordinator: what an outbound dispatch does

    Stated of the adapters' event log: [Logged] is any adapters with every call
    and its result recorded, so the theorems hold for all of them.  A run is
    described by the effects it had, in order; progress records and clock
    readings are left out of that list. *)

From S2P Require Import Prelude Datetime PyValue PyText Json Signatures Protocol Coordinator.
#[local] Open Scope Z_scope.

(** ** The hosted fallback keeps everything but the authority *)

Lemma dkeys_dmerge d e : (∀ k, k ∈ e.*1 → k ∈ dkeys d) → dkeys (dmerge d e) = dkeys d.
Proof.
  unfold dmerge. revert d. induction e as [|[k v] e IH]; intros d H; cbn; [done|].
  assert (k ∈ dkeys d) as Hk by (apply H; left).
  rewrite IH; rewrite dkeys_dset by done; [done|]. intros k' Hk'. apply H. by right.
Qed.

Lemma dget_dmerge k d e :
  NoDup e.*1 → dget k (dmerge d e) = match dlookup k e with Some v => v | None => dget k d end.
Proof.
  unfold dget. revert d. induction e as [|[k' v] e IH]; intros d Hnd; [done|].
  cbn [fmap list_fmap] in Hnd. apply NoDup_cons in Hnd as [Hni Hnd]. cbn [dlookup]. case_decide as E.
  - subst. by rewrite dlookup_dmerge_head.
  - change (dmerge d ((k', v) :: e)) with (dmerge (dset k' v d) e). rewrite IH by done.
    rewrite dlookup_dset. by rewrite decide_False.
Qed.

Lemma subset_of_elem a b : subset_of a b = true ↔ ∀ x, x ∈ a → x ∈ b.
Proof.
  unfold subset_of. rewrite forallb_forall. split; intros H x Hx.
  - apply list_elem_of_In, H in Hx. by apply bool_decide_eq_true in Hx.
  - apply bool_decide_eq_true. apply H. by apply list_elem_of_In.
Qed.

Lemma each_field_agree f fields d d' :
  (∀ k, k ∈ fields → dget k d' = dget k d) → each_field f fields d' = each_field f fields d.
Proof.
  induction fields as [|k fields IH]; intros H; [done|]. cbn. rewrite (H k) by left.
  rewrite IH; [done|]. intros k' Hk'. apply H. by right.
Qed.

Definition fallback_updates : dict :=
  [("backend", VStr "github"); ("execution_trust_mode", VStr "github-hosted"); ("allocation_id", VNone);
   ("allocation_nonce", VNone); ("runner_label", VNone)] ++ ((λ f, (f, VNone)) <$> cleared_fields).

Lemma fallback_get k package :
  dget k (fallback_mapping package) = match dlookup k fallback_updates with Some v => v | None => dget k package end.
Proof. apply dget_dmerge. apply (bool_decide_unpack (NoDup fallback_updates.*1)). vm_compute. exact I. Qed.

(** The fields the fallback leaves alone. *)
Definition kept_fields : list string :=
  List.filter (λ f, bool_decide (dlookup f fallback_updates = None)) _PROTOCOL_FIELDS.

Lemma fallback_keeps k package : k ∈ kept_fields → dget k (fallback_mapping package) = dget k package.
Proof.
  intros Hk%list_elem_of_In. apply List.filter_In in Hk as [_ Hk]. apply bool_decide_eq_true in Hk.
  by rewrite fallback_get, Hk.
Qed.

Ltac in_kept := match goal with |- ?k ∈ _ => apply (bool_decide_unpack (k ∈ kept_fields)); vm_compute; exact I end.

Lemma agree_kept fields package :
  forallb (λ f, bool_decide (f ∈ kept_fields)) fields = true →
  ∀ k, k ∈ fields → dget k (fallback_mapping package) = dget k package.
Proof.
  intros H k Hk%list_elem_of_In. rewrite forallb_forall in H. apply H in Hk. apply bool_decide_eq_true in Hk.
  by apply fallback_keeps.
Qed.

Lemma fallback_binding package : check_binding (fallback_mapping package) = check_binding package.
Proof.
  unfold check_binding, expected_logical_key.
  rewrite (each_field_agree _ VERSION_FIELDS package), (each_field_agree _ POSITIVE_FIELDS package),
    (each_field_agree _ SHA_FIELDS package) by (apply agree_kept; vm_compute; reflexivity).
  rewrite !(fallback_keeps _ package) by in_kept. done.
Qed.

Lemma fallback_context package : check_context (fallback_mapping package) = check_context package.
Proof. unfold check_context. rewrite !(fallback_keeps _ package) by in_kept. done. Qed.

Lemma fallback_hosted package : check_hosted (fallback_mapping package) = Ok tt.
Proof.
  assert (∀ fields, forallb (λ f, bool_decide (dlookup f fallback_updates = Some VNone)) fields = true →
    all_none fields (fallback_mapping package) = true) as Hn.
  { intros fields H. unfold all_none. rewrite forallb_forall in *. intros f Hf. apply H in Hf.
    apply bool_decide_eq_true in Hf. by rewrite fallback_get, Hf. }
  unfold check_hosted. rewrite !Hn by (vm_compute; reflexivity). rewrite fallback_get. reflexivity.
Qed.

(** The hosted fallback of a valid package, local or not, is always a
    valid package: it carries no local authority, and it agrees with the
    original on every other field, so it is about the same gate. *)
Lemma fallback_total v package :
  from_mapping v = Ok package →
  ∃ hosted, github_hosted_fallback package = Ok hosted ∧ hosted_authority hosted ∧
    ∀ k, k ∈ kept_fields → dget k hosted = dget k package.
Proof.
  intros H. apply from_mapping_ok in H as Hok. destruct Hok as (-> & Hk & _).
  exists (fallback_mapping package). assert (github_hosted_fallback package = Ok (fallback_mapping package)) as Hf.
  { unfold github_hosted_fallback. cbn [from_mapping] in *.
    assert (dkeys (fallback_mapping package) = dkeys package) as ->.
    { apply dkeys_dmerge. apply andb_true_iff in Hk as [_ Hk]. rewrite subset_of_elem in Hk. intros k Hin. apply Hk. revert k Hin.
        apply subset_of_elem. vm_compute. reflexivity. }
    rewrite fallback_binding, fallback_context. rewrite !fallback_get.
    apply result_bind_ok in H as ([] & -> & H). apply result_bind_ok in H as ([] & -> & H).
    apply result_bind_ok in H as ([] & -> & _). rewrite fallback_hosted. reflexivity. }
  split; [done|]. split; [|intros k; apply fallback_keeps].
  unfold github_hosted_fallback in Hf. apply from_mapping_ok in Hf as (_ & _ & _ & [Hl|Hl]); [|done]. destruct Hl as [Hb _]. by rewrite fallback_get in Hb.
Qed.

(** ** The event log *)

Inductive Event :=
  | EvReserve (r : result dict)
  | EvRecover (allocation_id : pyval) (r : result dict)
  | EvDispatch (package : dict) (r : result pyval)
  | EvObserve (run_id : Z) (r : result ObservedWorkflowJob)
  | EvSign (payload : dict) (r : result dict)
  | EvFinalize (envelope : dict) (r : result dict)
  | EvClock
  | EvProgress (p : Progress).

Definition logged {G B} (m : M G B) (ev : result B → Event) : M (list Event * G) B := λ s,
  let '(r, g) := m s.2 in (r, (s.1 ++ [ev r], g)).

Definition Logged {G} (A : Adapters G) : Adapters (list Event * G) := {|
  broker_reserve d := logged (broker_reserve d) EvReserve;
  broker_finalize d := logged (broker_finalize d) (EvFinalize d);
  broker_recover k := logged (broker_recover k) (EvRecover k);
  dispatch_package d := logged (dispatch_package d) (EvDispatch d);
  observe_exact_job n label := logged (observe_exact_job n label) (EvObserve n);
  signer_sign d := logged (signer_sign d) (EvSign d);
  utc_clock := logged utc_clock (λ _, EvClock);
  record_progress p := logged (record_progress p) (λ _, EvProgress p);
|}.

(** The kinds of effects; progress and clock readings have none. *)
Inductive kind := KReserve | KRecover | KDispatch | KObserve | KSign | KFinalize.
#[local] Instance kind_eq_dec : EqDecision kind.
Proof. solve_decision. Defined.
Definition kind_of (e : Event) : option kind :=
  match e with
  | EvReserve _ => Some KReserve | EvRecover _ _ => Some KRecover | EvDispatch _ _ => Some KDispatch
  | EvObserve _ _ => Some KObserve | EvSign _ _ => Some KSign | EvFinalize _ _ => Some KFinalize
  | EvClock | EvProgress _ => None
  end.
Definition is_effect (e : Event) : bool := match kind_of e with Some _ => true | None => false end.
Definition effects (es : list Event) : list Event := List.filter is_effect es.
Definition kinds (es : list Event) : list kind := omap kind_of es.

Lemma effects_app es es' : effects (es ++ es') = effects es ++ effects es'.
Proof. apply List.filter_app. Qed.
Lemma effects_cons e es : is_effect e = true → effects (e :: es) = e :: effects es.
Proof. intros He. unfold effects. cbn. by rewrite He. Qed.
Lemma kinds_app es es' : kinds (es ++ es') = kinds es ++ kinds es'.
Proof. apply omap_app. Qed.
Lemma kinds_effects es : kinds (effects es) = kinds es.
Proof.
  induction es as [|e es IH]; [done|]. unfold kinds, effects in *. cbn. unfold is_effect at 1.
  destruct (kind_of e) eqn:E; cbn; rewrite ?E; by rewrite IH.
Qed.

(** [emits log m ks]: a run of [m] appends to the log, effects of the kinds
    [ks] when it returns and a prefix of them when it raises. *)
Section emits.
Context {St : Type} (log : St → list Event).

Definition emits {B} (m : M St B) (ks : list kind) : Prop := ∀ s r s', m s = (r, s') →
  ∃ es, log s' = log s ++ es ∧ match r with Ok _ => kinds es = ks | Raise _ => kinds es `prefix_of` ks end.

Lemma emits_bind {B C} (m : M St B) (k : B → M St C) ks ks' :
  emits m ks → (∀ b, emits (k b) ks') → emits (m ≫= k) (ks ++ ks').
Proof.
  intros Hm Hk s r s' H. unfold mbind, M_bind in H. destruct (m s) as [[b|e] s1] eqn:E; apply Hm in E as (es & El & Hes).
  - apply Hk in H as (es' & El' & Hes'). exists (es ++ es'). rewrite El', El, app_assoc. split; [done|].
    rewrite kinds_app. destruct r; [by rewrite Hes, Hes'|]. rewrite Hes. by apply prefix_app.
  - injection H as <- <-. exists es. split; [done|]. by apply prefix_app_r.
Qed.

(** A silent step first, a silent step last. *)
Lemma emits_silent {B C} (m : M St B) (k : B → M St C) ks :
  emits m [] → (∀ b, emits (k b) ks) → emits (m ≫= k) ks.
Proof. apply (emits_bind m k [] ks). Qed.
Lemma emits_last {B C} (m : M St B) (k : B → M St C) ks :
  emits m ks → (∀ b, emits (k b) []) → emits (m ≫= k) ks.
Proof. rewrite <- (app_nil_r ks) at 2. apply emits_bind. Qed.
(** A step that cannot return ends the run. *)
Lemma emits_stop {B C} (m : M St B) (k : B → M St C) ks :
  (∀ s b s', m s ≠ (Ok b, s')) → emits m ks → emits (m ≫= k) ks.
Proof.
  intros Hno Hm s r s' H. unfold mbind, M_bind in H. destruct (m s) as [[b|e] s1] eqn:E; [by apply Hno in E|].
  apply Hm in E. by injection H as <- <-.
Qed.

Lemma emits_lift {B} (r : result B) : emits (lift r) [].
Proof.
  intros s r' s' [= <- <-]. exists []. rewrite app_nil_r. split; [done|]. by destruct r.
Qed.
Lemma emits_ret {B} (b : B) : emits (mret b) [].
Proof. apply (emits_lift (Ok b)). Qed.
Lemma emits_raise_if b c msg : emits (raise_if b c msg) [].
Proof. apply emits_lift. Qed.
End emits.

(** ** The body *)

Section trace.
Context {G : Type} (A : Adapters G).
#[local] Existing Instance Logged.
Context (package reservation resume : dict) (has_progress : bool) (claim_ttl : Z).

Definition frame_log (s : Frame (G := list Event * G)) : list Event := (f_outside s).1.
#[local] Abbreviation body_emits := (emits frame_log).

Lemma emits_outside {B} (m : M G B) ev k :
  (∀ r, kinds [ev r] = k) → body_emits (outside (logged m ev)) k.
Proof.
  intros Hk s r s' H. unfold outside, logged in H. destruct (m (f_outside s).2) as [r0 g]. injection H as <- <-.
  exists [ev r0]. split; [done|]. rewrite Hk. by destruct r0.
Qed.
Lemma emits_step p : body_emits (step (A := Logged A) has_progress p) [].
Proof. unfold step. destruct has_progress; [by apply emits_outside|apply emits_ret]. Qed.
Lemma emits_set (f : Frame → Frame) : (∀ s, f_outside (f s) = f_outside s) → body_emits (modify f) [].
Proof.
  intros Hf s r s' [= <- <-]. exists []. split; [|done]. unfold frame_log. by rewrite Hf, app_nil_r.
Qed.

(** What the body does when nothing goes wrong: dispatch, unless the run is
    already known, then observe, sign, finalize.  An ambiguous receipt of an
    earlier attempt stops it at once. *)
Definition plan_of : list kind :=
  match dget "run_id" resume with
  | VNone => if py_eq (phase resume) (VStr "dispatching") then [] else [KDispatch; KObserve; KSign; KFinalize]
  | _ => [KObserve; KSign; KFinalize]
  end.

Create HintDb emit discriminated.
#[local] Hint Resolve emits_lift emits_ret emits_raise_if emits_step : emit.

Lemma emits_dispatch protocol : dget "run_id" resume = VNone →
  body_emits (dispatch_or_resume (A := Logged A) resume has_progress protocol) [KDispatch].
Proof.
  intros E. unfold dispatch_or_resume. rewrite E. apply emits_silent; [auto with emit|]. intros _.
  apply emits_silent; [auto with emit|]. intros _. apply emits_silent; [by apply emits_set|]. intros _.
  apply emits_last; [by apply emits_outside|]. intros receipt. apply emits_silent; [auto with emit|]. intros n.
  apply emits_silent; [auto with emit|]. intros _. apply emits_silent; [by apply emits_set|]. auto with emit.
Qed.

Lemma emits_window : body_emits (allocation_window (A := Logged A) reservation resume has_progress claim_ttl) [].
Proof.
  unfold allocation_window. case_match; [|auto with emit]. apply emits_silent; [by apply emits_outside|]. intros now.
  apply emits_silent; [auto with emit|]. intros d. apply emits_silent; auto with emit.
Qed.

(** What follows the run id. *)
Lemma emits_rest (k : M (Frame (G := list Event * G)) Z) protocol reserved ks :
  body_emits k ks →
  body_emits (run_id ← k;
    observed ← outside (observe_exact_job (Adapters := Logged A) run_id (dget "runner_label" reserved));
    raise_if (negb (ow_run_id observed =? run_id)) CoordinatorUnavailable
      "observed job is not bound to the dispatch run";;
    step (A := Logged A) has_progress (PObserved observed);;
    window ← allocation_window (A := Logged A) reservation resume has_progress claim_ttl;
    envelope ← outside (signer_sign (Adapters := Logged A) (allocation_payload reservation protocol observed window));
    raise_if (py_eq (phase resume) (VStr "finalizing") && bool_decide (dlookup "finalized" resume = None))
      CoordinatorUnavailable "allocation finalize receipt is ambiguous; refusing replay";;
    step (A := Logged A) has_progress PFinalizing;;
    finalized ← outside (broker_finalize (Adapters := Logged A) envelope);
    raise_if (negb (py_eq (dget "allocation_id" finalized) (dget "allocation_id" reserved))
              || negb (py_eq (dget "state" finalized) (VStr "enabled-awaiting-claim"))) CoordinatorUnavailable
      "allocation finalize response is not exact";;
    step (A := Logged A) has_progress (PFinalized finalized);;
    mret (protocol, Some observed)) (ks ++ [KObserve; KSign; KFinalize]).
Proof.
  intros Hk. apply emits_bind; [done|]. intros n.
  apply (emits_bind _ _ _ [KObserve] [KSign; KFinalize]); [by apply emits_outside|]. intros job.
  apply emits_silent; [auto with emit|]. intros _. apply emits_silent; [auto with emit|]. intros _.
  apply emits_silent; [apply emits_window|]. intros window.
  apply (emits_bind _ _ _ [KSign] [KFinalize]); [by apply emits_outside|]. intros envelope.
  apply emits_silent; [auto with emit|]. intros _. apply emits_silent; [auto with emit|]. intros _.
  apply emits_last; [by apply emits_outside|]. intros finalized.
  apply emits_silent; [auto with emit|]. intros _. apply emits_silent; auto with emit.
Qed.

Lemma emits_body reserved :
  body_emits (dispatch_body (A := Logged A) package reservation resume has_progress claim_ttl reserved) plan_of.
Proof.
  unfold dispatch_body. apply emits_silent; [auto with emit|]. intros protocol.
  apply emits_silent; [by apply emits_set|]. intros _. unfold plan_of.
  destruct (dget "run_id" resume) eqn:E; [|by apply (emits_rest _ _ _ []); unfold dispatch_or_resume; rewrite E; auto with emit..].
  destruct (py_eq (phase resume) (VStr "dispatching")) eqn:Ep.
  - unfold dispatch_or_resume. rewrite E, Ep. apply emits_stop; [done|]. intros s r s' [= <- <-].
    exists []. by rewrite app_nil_r.
  - apply (emits_rest _ _ _ [KDispatch]). by apply emits_dispatch.
Qed.

(** ** Traces of a whole dispatch *)

Definition absent_proof (allocation_id : pyval) (r : result dict) : Prop :=
  ∃ doc, r = Ok doc ∧ _assert_exact_recovery doc allocation_id = Ok tt.

(** Ending with a hosted dispatch: of the fallback package, once. *)
Inductive hosted_end : list Event → result outcome_of → Prop :=
  | he_sent hosted receipt :
      github_hosted_fallback package = Ok hosted → hosted_authority hosted →
      hosted_end [EvDispatch hosted receipt] ((λ _, (hosted, None)) <$> receipt)
  | he_invalid e : github_hosted_fallback package = Raise e → hosted_end [] (Raise e).

(** The reservation a local dispatch starts from: made now, or by an earlier
    attempt. *)
Inductive started : list Event → pyval → Prop :=
  | st_reserved d : should_reserve resume = true → started [EvReserve (Ok d)] (VDict d)
  | st_resumed : should_reserve resume = false → started [] (dget "reserved" resume).

Inductive dispatch_trace : list Event → result outcome_of → Prop :=
  | dt_unavailable e es r :
      exn_cls e = ReserveDefinitelyUnavailable → hosted_end es r →
      dispatch_trace (EvReserve (Raise e) :: es) r
  | dt_recovered e k rr es r :
      exn_cls e = ReservePartialFailure → exn_msg e = k → dget "allocation_id" reservation = VStr k →
      absent_proof (VStr k) rr → hosted_end es r →
      dispatch_trace (EvReserve (Raise e) :: EvRecover (VStr k) rr :: es) r
  | dt_unproved e k rr x :
      exn_cls e = ReservePartialFailure → dget "allocation_id" reservation = VStr k →
      dispatch_trace [EvReserve (Raise e); EvRecover (VStr k) rr] (Raise x)
  | dt_refused e x : dispatch_trace [EvReserve (Raise e)] (Raise x)
  | dt_rejected pre v x : started pre v → dispatch_trace pre (Raise x)
  | dt_done pre v reserved es protocol job :
      started pre v → exact_reserved reservation v = Ok reserved → kinds es = plan_of →
      dispatch_trace (pre ++ es) (Ok (protocol, Some job))
  | dt_failed pre v reserved es rr x :
      started pre v → exact_reserved reservation v = Ok reserved → kinds es `prefix_of` plan_of →
      (absent_proof (dget "allocation_id" reserved) rr ∨ rr = Raise x ∨ exn_cls x = CoordinatorUnavailable) →
      dispatch_trace (pre ++ es ++ [EvRecover (dget "allocation_id" reserved) rr]) (Raise x).

Definition dispatches (es : list Event) : nat := length (List.filter (λ k, bool_decide (k = KDispatch)) (kinds es)).

Lemma plan_dispatches ks : ks `prefix_of` plan_of →
  (length (List.filter (λ k, bool_decide (k = KDispatch)) ks) ≤ 1)%nat.
Proof.
  intros [rest E]. assert (length (List.filter (λ k, bool_decide (k = KDispatch)) (plan_of)) ≤ 1)%nat as H.
  { unfold plan_of. destruct (dget "run_id" resume); [case_match|..]; apply Nat.leb_le; vm_compute; reflexivity. }
  rewrite E, List.filter_app, length_app in H. lia.
Qed.

Lemma hosted_end_dispatches es r : hosted_end es r → (dispatches es ≤ 1)%nat.
Proof. by destruct 1; apply Nat.leb_le. Qed.

Lemma trace_dispatches es r : dispatch_trace es r → (dispatches es ≤ 1)%nat.
Proof.
  assert (∀ pre v es', started pre v → dispatches (pre ++ es') = dispatches es') as Hpre by (by destruct 1).
  destruct 1 as [? ? ? _ H|? ? ? ? ? _ _ _ _ H| | |pre v x H|pre v ? es ? ? H _ He|pre v ? es ? ? H _ He _].
  - by apply hosted_end_dispatches in H.
  - by apply hosted_end_dispatches in H.
  - by apply Nat.leb_le.
  - by apply Nat.leb_le.
  - by destruct H; apply Nat.leb_le.
  - rewrite (Hpre _ _ _ H). unfold dispatches. rewrite He. by apply plan_dispatches.
  - rewrite (Hpre _ _ _ H). unfold dispatches. rewrite kinds_app, List.filter_app, length_app.
    apply plan_dispatches in He. cbn [kinds omap list_omap kind_of]. cbn [List.filter]. rewrite bool_decide_eq_false_2 by done.
    cbn. lia.
Qed.

#[local] Abbreviation runs m := (∀ (s : list Event * G) r s', m s = (r, s') →
  ∃ es, s'.1 = s.1 ++ es ∧ dispatch_trace (effects es) r).

Lemma hosted_runs (s : list Event * G) r s' :
  hosted_dispatch (A := Logged A) package s = (r, s') → ∃ es, s'.1 = s.1 ++ es ∧ effects es = es ∧ hosted_end es r.
Proof.
  unfold hosted_dispatch. intros H. destruct (github_hosted_fallback package) as [hosted|e] eqn:E.
  - rewrite (eval_lift _ _ _ _ eq_refl) in H. assert (hosted_authority hosted) as Ha.
    { unfold github_hosted_fallback in E. apply from_mapping_ok in E as Hok. destruct Hok as (Eq & _ & _ & [[Hb _]|Hh]); [|done].
      injection Eq as <-. by rewrite fallback_get in Hb. }
    unfold mbind, M_bind, dispatch_package, Logged, logged in H. cbn in H.
    destruct (dispatch_package hosted s.2) as [receipt g].
    assert (hosted_end [EvDispatch hosted receipt] ((λ _, (hosted, None)) <$> receipt)) as He by (by constructor).
    destruct receipt; injection H as <- <-; eexists; (split; [cbn; reflexivity|]); by split.
  - rewrite (eval_lift_raise _ _ _ _ eq_refl) in H. injection H as <- <-. exists [].
    rewrite app_nil_r. split; [done|]. split; [done|]. by constructor.
Qed.

(** *** The handler *)

Lemma assert_recovery_raise doc k e : _assert_exact_recovery doc k = Raise e → exn_cls e = CoordinatorUnavailable.
Proof. unfold _assert_exact_recovery, unavailable_if, check, throw. case_match; [|done]. by intros [= <-]. Qed.

Lemma step_silent p (s s' : Frame) r :
  step (A := Logged A) has_progress p s = (r, s') →
  ∃ es, frame_log s' = frame_log s ++ es ∧ effects es = [].
Proof.
  unfold step. destruct has_progress.
  - unfold outside. cbn. unfold logged. destruct (record_progress p _) as [r0 g]. intros [= <- <-].
    by eexists.
  - intros [= <- <-]. exists []. by rewrite app_nil_r.
Qed.

Lemma record_recovery_silent (s s' : Frame) r :
  record_recovery (A := Logged A) resume has_progress s = (r, s') →
  ∃ es, frame_log s' = frame_log s ++ es ∧ effects es = [].
Proof.
  unfold record_recovery, receipt_is_ambiguous. intros H.
  assert (r = Ok tt ∧ s' = s ∨ (∃ p, step (A := Logged A) has_progress p s = (r, s')) ∨ s' = s) as Hc.
  { destruct has_progress; [|by injection H as <- <-; left]. rewrite eval_assoc, eval_get in H.
    destruct (f_ambiguous s); [right; left; eexists; exact H|].
    destruct (py_eq _ _); [|right; left; eexists; exact H].
    destruct (f_resumed s); [right; left; eexists; exact H|]. injection H as _ <-. by right; right. }
  destruct Hc as [[_ ->]|[[p Hp]| ->]]; [|exact (step_silent _ _ _ _ Hp)|]; exists []; by rewrite app_nil_r.
Qed.

Lemma failed_trace reserved e (s s' : Frame) (r : result outcome_of) :
  dispatch_failed (A := Logged A) resume has_progress reserved e s = (r, s') →
  ∃ x rr es, r = Raise x ∧ frame_log s' = frame_log s ++ EvRecover (dget "allocation_id" reserved) rr :: es ∧
    effects es = [] ∧
    (absent_proof (dget "allocation_id" reserved) rr ∨ rr = Raise x ∨ exn_cls x = CoordinatorUnavailable).
Proof.
  unfold dispatch_failed. intros H. unfold mbind at 1, M_bind at 1 in H. unfold outside at 1 in H. cbn in H.
  unfold logged in H. destruct (broker_recover (dget "allocation_id" reserved) (f_outside s).2) as [rr g].
  destruct rr as [doc|x].
  2:{ injection H as <- <-. exists x, (Raise x), []. repeat split; auto. }
  destruct (_assert_exact_recovery doc (dget "allocation_id" reserved)) as [[]|x] eqn:Ea.
  2:{ rewrite (eval_lift_raise _ _ _ _ eq_refl) in H. injection H as <- <-.
      exists x, (Ok doc), []. repeat split; eauto using assert_recovery_raise. }
  rewrite (eval_lift _ _ _ _ eq_refl) in H. unfold mbind, M_bind in H.
  destruct (record_recovery _ _ _) as [rr s1] eqn:Er. apply record_recovery_silent in Er as (es & Er & He).
  cbn in Er. assert (absent_proof (dget "allocation_id" reserved) (Ok doc)) as Hp by (by exists doc).
  destruct rr as [[]|x]; injection H as <- <-; eexists _, _, es; (split; [reflexivity|]);
    rewrite Er, <- app_assoc; auto.
Qed.

Lemma reserved_runs pre v (s : list Event * G) r s' :
  started pre v →
  dispatch_reserved (A := Logged A) package reservation resume has_progress claim_ttl v s = (r, s') →
  ∃ es, s'.1 = s.1 ++ es ∧ dispatch_trace (pre ++ effects es) r.
Proof.
  intros Hst H. unfold dispatch_reserved in H. destruct (exact_reserved reservation v) as [reserved|x] eqn:Ex.
  2:{ rewrite (eval_lift_raise _ _ _ _ eq_refl) in H. injection H as <- <-. exists []. rewrite !app_nil_r.
      split; [done|]. by econstructor. }
  rewrite (eval_lift _ _ _ _ eq_refl) in H. unfold mbind, M_bind in H.
  destruct (_ s) as [r1 s1] eqn:E1 in H. assert (∃ es, s1.1 = s.1 ++ es ∧ effects es = []) as (es1 & El1 & He1).
  { destruct has_progress.
    - cbn in E1. unfold logged in E1. destruct (record_progress _ _) as [? ?]. injection E1 as <- <-. by eexists.
    - injection E1 as <- <-. exists []. by rewrite app_nil_r. }
  destruct r1 as [[]|x].
  2:{ injection H as <- <-. exists es1. split; [done|]. rewrite He1, app_nil_r. by econstructor. }
  unfold in_frame in H. destruct (guarded_body _ _ _ _ _ _ _) as [r2 s2] eqn:E2. injection H as <- <-.
  unfold guarded_body in E2. destruct (dispatch_body _ _ _ _ _ _ _) as [[v0|e] s3] eqn:E3.
  - injection E2 as <- <-. assert (∃ protocol job, v0 = (protocol, Some job)) as (protocol & job & ->).
    { unfold dispatch_body in E3. apply bind_ok in E3 as (protocol & ? & _ & E3). exists protocol.
      repeat (apply bind_ok in E3 as (? & ? & _ & E3)). apply ret_ok in E3 as [<- _]. by eexists. }
    apply emits_body in E3 as (es & El & Hes). exists (es1 ++ es). unfold frame_log in El. cbn in El.
    split; [by rewrite El, El1, app_assoc|]. rewrite effects_app, He1. cbn. econstructor; [done..|by rewrite kinds_effects].
  - apply emits_body in E3 as (es & El & Hes). apply failed_trace in E2 as (x & rr & es' & -> & El' & He' & Hp).
    exists (es1 ++ es ++ EvRecover (dget "allocation_id" reserved) rr :: es'). unfold frame_log in El, El'. cbn in El.
    split; [by rewrite El', El, El1, <- !app_assoc|]. rewrite !effects_app, He1.
    assert (effects (EvRecover (dget "allocation_id" reserved) rr :: es') = [EvRecover (dget "allocation_id" reserved) rr])
      as -> by (by rewrite effects_cons, He').
    econstructor; [done..|by rewrite kinds_effects|done].
Qed.

(** C21: An outbound dispatch, run against any adapters whatever they answer,
    appends one of these traces of effects.  A hosted dispatch happens only as
    the last effect, of the validated fallback package, after the broker said
    that nothing was reserved or proved that the partial reservation is gone.  A
    local one follows an exact reservation, made now or before; its effects are
    those of the plan in order, without a second dispatch when the run is known
    or the receipt of an earlier one is ambiguous; and when it fails after that
    point its last effect is the recovery of the reserved allocation, proved or
    reported.  In every case at most one package is dispatched. *)
Theorem outbound_dispatch_trace s r s' :
  outbound_local_dispatch (A := Logged A) package reservation resume has_progress claim_ttl s = (r, s') →
  ∃ es, s'.1 = s.1 ++ es ∧ dispatch_trace (effects es) r ∧ (dispatches es ≤ 1)%nat.
Proof.
  intros H. cut (∃ es, s'.1 = s.1 ++ es ∧ dispatch_trace (effects es) r).
  { intros (es & El & Ht). exists es. split; [done|]. split; [done|]. apply trace_dispatches in Ht.
    unfold dispatches in *. by rewrite kinds_effects in Ht. }
  unfold outbound_local_dispatch, reserve_or_resume in H. unfold mbind at 1, M_bind at 1, attempt in H.
  destruct (should_reserve resume) eqn:Es.
  2:{ cbn in H. apply (reserved_runs [] _ _ _ _ (st_resumed Es)) in H. done. }
  unfold fmap, M_fmap in H. cbn in H. unfold logged in H. destruct (broker_reserve reservation s.2) as [[d|e] g].
  { apply (reserved_runs _ _ _ _ _ (st_reserved _ Es)) in H as (es & El & Ht). exists (EvReserve (Ok d) :: es).
    rewrite effects_cons by done. split; [|done]. rewrite El. cbn. by rewrite <- app_assoc. }
  unfold reserve_failed in H. case_bool_decide as Ed.
  { apply hosted_runs in H as (es & El & He & Hh). exists (EvReserve (Raise e) :: es). rewrite El. cbn [fst].
    rewrite <- app_assoc, effects_cons, He by done. split; [done|]. by constructor. }
  case_bool_decide as Ep.
  2:{ injection H as <- <-. exists [EvReserve (Raise e)]. split; [done|]. apply dt_refused. }
  destruct (dget "allocation_id" reservation) as [| | |k| |] eqn:Ek;
    try (injection H as <- <-; exists [EvReserve (Raise e)]; split; [done|]; apply dt_refused).
  destruct (bool_decide (exn_msg e = k)) eqn:Em.
  2:{ rewrite eval_stop in H by done. injection H as <- <-. exists [EvReserve (Raise e)]. split; [done|]. apply dt_refused. }
  apply bool_decide_eq_true in Em. rewrite eval_pass in H by done.
  unfold mbind at 1, M_bind at 1 in H. cbn in H. unfold logged in H. cbn [fst snd] in H.
  destruct (broker_recover (VStr k) g) as [[doc|x] g']; cbv beta iota zeta in H.
  2:{ injection H as <- <-. eexists [_; _]. cbn. rewrite <- app_assoc. split; [done|]. by apply dt_unproved. }
  destruct (_assert_exact_recovery doc (VStr k)) as [[]|x] eqn:Ea.
  2:{ rewrite (eval_lift_raise _ _ _ _ eq_refl) in H. injection H as <- <-. eexists [_; _]. cbn. rewrite <- app_assoc.
      split; [done|]. by apply dt_unproved. }
  rewrite (eval_lift _ _ _ _ eq_refl) in H. apply hosted_runs in H as (es & El & He & Hh).
  exists (EvReserve (Raise e) :: EvRecover (VStr k) (Ok doc) :: es). rewrite El. cbn [fst].
  rewrite <- !app_assoc, !effects_cons, He by done. split; [done|]. apply dt_recovered; [done..| |done]. by exists doc.
Qed.
End trace.

(** ** An unbound name *)

Section unbound.
Context {G : Type} (A : Adapters G).
Context (package reservation resume : dict) (claim_ttl : Z).

(** When a dispatch is resumed in the phase dispatching and the package
    with its reserved allocation does not validate, the handler reads a local
    variable the body never assigned: the allocation is recovered, but the error
    that caused it is lost to an UnboundLocalError, and neither recovered nor
    dispatch-ambiguous is recorded. *)
Lemma invalid_package_loses_error reserved doc e g g1 g2 :
  should_reserve resume = false → py_eq (phase resume) (VStr "dispatching") = true →
  exact_reserved reservation (dget "reserved" resume) = Ok reserved →
  from_mapping (VDict (local_mapping package reservation reserved)) = Raise e →
  record_progress (PReserved reserved) g = (Ok tt, g1) →
  broker_recover (dget "allocation_id" reserved) g1 = (Ok doc, g2) →
  _assert_exact_recovery doc (dget "allocation_id" reserved) = Ok tt →
  outbound_local_dispatch package reservation resume true claim_ttl g
    = (Raise (Exn UnboundLocalError "resumed_run_id"), g2).
Proof.
  intros Hs Hp Hx Hm Hr Hb Ha. unfold outbound_local_dispatch, reserve_or_resume. rewrite Hs.
  unfold mbind at 1, M_bind at 1, attempt. cbn [mret M_ret]. unfold dispatch_reserved.
  rewrite (eval_lift _ _ _ _ Hx), (eval_run _ _ _ _ _ Hr). unfold in_frame, guarded_body, dispatch_body.
  rewrite (eval_lift_raise _ _ _ _ Hm). unfold dispatch_failed.
  rewrite (eval_run _ _ _ doc (MkFrame g2 false None)) by (unfold outside; cbn; by rewrite Hb).
  rewrite (eval_lift _ _ _ _ Ha). unfold record_recovery, receipt_is_ambiguous.
  rewrite !eval_assoc, eval_get. cbn [f_ambiguous]. rewrite Hp. done.
Qed.
End unbound.

(** ** A run *)

Definition toy_label : string := "wsl-jit-" +:+ hex_of "0" 32.
Definition toy_allocation : string := "0f0e0d0c-0b0a-4908-8706-050403020100".
Definition toy_reservation : dict :=
  [("allocation_reservation_version", VInt 2); ("allocation_id", VStr toy_allocation);
   ("nonce", VStr (hex_of "A" 43)); ("scale_set_name", VStr toy_label)].
Definition toy_reserved : dict :=
  [("allocation_id", VStr toy_allocation); ("scale_set_id", VStr "17"); ("runner_label", VStr toy_label);
   ("state", VStr "reserved-disabled")].
Definition toy_absent : dict := [("allocation_id", VStr toy_allocation); ("state", VStr "absent")].
Definition toy_job : ObservedWorkflowJob :=
  {| ow_run_id := 99; ow_run_attempt := 1; ow_job_id := 5; ow_job_name := "local-quality"; ow_dispatch_sha := sample_sha |}.

(** Everything works, except the finalisation when the flag says so. *)
Definition ToyAdapters (finalizes : bool) : Adapters unit := {|
  broker_reserve _ := mret toy_reserved;
  broker_finalize _ :=
    if finalizes then mret [("allocation_id", VStr toy_allocation); ("state", VStr "enabled-awaiting-claim")]
    else raise RunnerJitError "no";
  broker_recover _ := mret toy_absent;
  dispatch_package _ := mret (VInt 99);
  observe_exact_job _ _ := mret toy_job;
  signer_sign p := mret [("payload", VDict p)];
  utc_clock := mret (seconds 63000000000);
  record_progress _ := mret tt;
|}.

Definition toy_run (finalizes : bool) :=
  outbound_local_dispatch (A := Logged (ToyAdapters finalizes)) local_package toy_reservation [] true (minutes 12) ([], tt).

Example toy_success : kinds (toy_run true).2.1 = [KReserve; KDispatch; KObserve; KSign; KFinalize] ∧ is_ok (toy_run true).1 = true.
Proof. vm_compute. done. Qed.

Lemma outbound_dispatch_trace_witness :
  ∃ es, (toy_run false).2.1 = es ∧ dispatch_trace local_package toy_reservation [] (effects es) (toy_run false).1 ∧
    kinds es = [KReserve; KDispatch; KObserve; KSign; KFinalize; KRecover].
Proof.
  assert (outbound_local_dispatch (A := Logged (ToyAdapters false)) local_package toy_reservation [] true (minutes 12)
    ([], tt) = ((toy_run false).1, (toy_run false).2)) as H
    by (unfold toy_run; destruct (outbound_local_dispatch _ _ _ _ _ _); reflexivity).
  destruct (outbound_dispatch_trace (ToyAdapters false) local_package toy_reservation [] true (minutes 12)
    ([], tt) (toy_run false).1 (toy_run false).2 H) as (es & El & Ht & _).
  exists es. refine (conj El (conj Ht _)). transitivity (kinds (toy_run false).2.1); [exact (f_equal kinds (eq_sym El))|]. vm_compute. reflexivity.
Defined.

Lemma fallback_total_witness : ∃ hosted, github_hosted_fallback local_package = Ok hosted ∧ hosted_authority hosted.
Proof.
  destruct (fallback_total (VDict local_package) local_package local_package_valid) as (hosted & Hf & Ha & _).
  exists hosted. exact (conj Hf Ha).
Defined.

Definition toy_resume : dict := [("phase", VStr "dispatching"); ("reserved", VDict toy_reserved)].

Lemma invalid_package_loses_error_witness :
  (outbound_local_dispatch (A := ToyAdapters true) [] toy_reservation toy_resume true 0 tt).1
  = Raise (Exn UnboundLocalError "resumed_run_id").
Proof.
  rewrite (invalid_package_loses_error (ToyAdapters true) [] toy_reservation toy_resume 0 toy_reserved toy_absent
    (Exn ProtocolFailure "protocol fields mismatch") tt tt tt); [reflexivity|vm_compute; reflexivity..].
Defined.
