(* ===== verification/JitPilot.v ===== *)
(** * The JIT pilot (jit_pilot.py)

    The pilot package, its live revalidation, and the monitor that watches one
    dispatched job to its end and has the broker finish and prove it clean.
    GitHub, the broker, the clock and the optional callbacks are the class
    [PilotOps].  The monitor's loop carries fuel. *)

From S2P Require Import Prelude Datetime PyValue PyText Json Protocol Allocation.
#[local] Open Scope Z_scope.

Definition pilot_fail {A} (msg : string) : result A := throw JitPilotError msg.
Definition pilot_if (b : bool) (msg : string) : result unit := check b JitPilotError msg.

(** [[A-Za-z0-9._/-]+] *)
Definition is_branch : string → bool := match_some is_branch_char.

(** The two groups of the pattern: repository and branch. *)
Definition pilot_workflow_ref (s : string) : option (string * string) :=
  '(owner, s) ← split_at "/" s; '(name, s) ← split_at "/" s;
  branch ← strip_prefix ".github/workflows/ci-jit-pilot-child.yml@refs/heads/" s;
  if match_some is_name_char owner && match_some is_name_char name && is_branch branch
  then Some (owner +:+ "/" +:+ name, branch) else None.

(** [v or ""] *)
Definition or_empty (v : pyval) : pyval := if py_truthy v then v else VStr "".

(** [pattern.fullmatch(v)] of a value that need not be a text. *)
Definition full_match (p : string → bool) (v : pyval) : result bool :=
  match v with VStr s => Ok (p s) | _ => throw TypeError "expected string or bytes-like object" end.

(** A text ending in Z that its own instant prints: an offset other than UTC or
    none at all does not print the same text. *)
Definition _time (value : pyval) (field : string) : result Z :=
  match value with
  | VStr s =>
      match chop_z s with
      | Some body =>
          parsed ← rewrap (λ c, bool_decide (c = ValueError)) JitPilotError (field +:+ " must be canonical UTC")
                     (fromisoformat (body +:+ "+00:00"));
          match parsed with
          | Aware UTC t =>
              pilot_if (negb (bool_decide (stamp_text t = s))) (field +:+ " must be canonical UTC seconds");; Ok t
          | _ => pilot_fail (field +:+ " must be canonical UTC seconds")
          end
      | None => pilot_fail (field +:+ " must be canonical UTC")
      end
  | _ => pilot_fail (field +:+ " must be canonical UTC")
  end.

(** ** The package *)

Definition pilot_fields : list string :=
  ["repository"; "repository_id"; "pr_number"; "base_branch"; "base_sha"; "head_sha"; "tested_merge_sha";
   "workflow_ref"; "backend"; "allocation_id"; "runner_label"; "issued_at"; "expires_at"; "jit_pilot_package_version"].

Definition check_workflow (package : dict) : result unit :=
  match dget "workflow_ref" package with
  | VStr ref =>
      match pilot_workflow_ref ref with
      | Some (repository, branch) =>
          pilot_if (negb (py_eq (VStr repository) (dget "repository" package))
                    || negb (py_eq (VStr branch) (dget "base_branch" package)))
            "pilot workflow ref crossed repository/default branch"
      | None => pilot_fail "pilot workflow ref crossed repository/default branch"
      end
  | _ => pilot_fail "pilot workflow ref crossed repository/default branch"
  end.

Definition check_backend (package : dict) : result unit :=
  let allocation_id := dget "allocation_id" package in
  let runner_label := dget "runner_label" package in
  if py_eq (dget "backend" package) (VStr "local") then
    match or_empty allocation_id with
    | VStr s =>
        n ← rewrap (λ c, bool_decide (c = ValueError)) JitPilotError "local pilot allocation ID is invalid" (uuid_parse s);
        if negb (py_eq (VStr (uuid_text n)) allocation_id)
        then pilot_fail "local pilot allocation binding is invalid"
        else matched ← full_match is_runner_label (or_empty runner_label);
             pilot_if (negb matched) "local pilot allocation binding is invalid"
    | _ => throw AttributeError "replace"
    end
  else if py_eq (dget "backend" package) (VStr "github") then
    pilot_if (negb (is_none allocation_id) || negb (is_none runner_label))
      "hosted pilot cannot carry local allocation authority"
  else pilot_fail "pilot backend must be local or github".

Definition MAX_PILOT_LIFETIME : Z := seconds 900.

Definition check_lifetime (package : dict) (now : datetime) : result unit :=
  issued ← _time (dget "issued_at" package) "issued_at";
  expires ← _time (dget "expires_at" package) "expires_at";
  match now with
  | Naive _ => pilot_fail "pilot package lifetime is invalid"
  | Aware _ now =>
      pilot_if (negb ((issued <=? now) && (now <? expires)) || (expires <=? issued)
                || (MAX_PILOT_LIFETIME <? expires - issued))
        "pilot package lifetime is invalid"
  end.

Definition validate (package : dict) (now : datetime) : result unit :=
  pilot_if (negb (py_eq (dget "jit_pilot_package_version" package) (VInt 1))) "unsupported JIT pilot package version";;
  repository ← full_match is_repository (dget "repository" package);
  pilot_if (negb repository) "pilot repository is invalid";;
  each_field (λ v f, pilot_if (negb (is_positive_int v)) (f +:+ " must be positive")) ["repository_id"; "pr_number"] package;;
  pilot_if (negb (is_str_where is_branch (dget "base_branch" package))) "pilot base branch is invalid";;
  each_field (λ v f, pilot_if (negb (is_str_where is_sha1 v)) (f +:+ " must be a full lowercase SHA"))
    ["base_sha"; "head_sha"; "tested_merge_sha"] package;;
  check_workflow package;;
  check_backend package;;
  check_lifetime package now.

(** [JitPilotPackageV1.from_mapping] *)
Definition pilot_from_mapping (value : pyval) (now : datetime) : result dict :=
  match value with
  | VDict package =>
      pilot_if (negb (same_set (dkeys package) pilot_fields)) "JIT pilot package requires exact fields";;
      validate package now;;
      Ok package
  | _ => pilot_fail "JIT pilot package requires exact fields"
  end.

(** ** Live revalidation *)

Class PilotGitHubReader (G : Type) := {
  read_repository : M G dict;
  read_branch : pyval → M G dict;
  read_pull_request : pyval → M G dict;
  read_workflow : M G dict;
}.

(** [v.get(k)] of a value known, or not, to be a mapping. *)
Definition sub (k : string) (v : pyval) : option pyval :=
  match v with VDict d => Some (dget k d) | _ => None end.
Definition same_as (o : option pyval) (v : pyval) : bool := match o with Some w => py_eq w v | None => false end.

Definition revalidate_package {G} `{PilotGitHubReader G} (package : dict) : M G unit :=
  let field k := dget k package in
  repository ← read_repository;
  raise_if (negb (py_eq (dget "id" repository) (field "repository_id"))
            || negb (py_eq (dget "full_name" repository) (field "repository"))
            || negb (py_eq (dget "default_branch" repository) (field "base_branch"))) JitPilotError
    "live repository identity crossed the pilot package";;
  branch ← read_branch (field "base_branch");
  raise_if (negb (py_eq (dget "name" branch) (field "base_branch"))
            || negb (same_as (sub "sha" (dget "commit" branch)) (field "base_sha"))) JitPilotError
    "live default branch crossed the pilot package";;
  pull ← read_pull_request (field "pr_number");
  raise_if (negb (py_eq (dget "number" pull) (field "pr_number"))
            || negb (py_eq (dget "state" pull) (VStr "open"))
            || negb (same_as (sub "sha" (dget "head" pull)) (field "head_sha"))
            || negb (same_as (sub "ref" (dget "base" pull)) (field "base_branch"))
            || negb (same_as (repo ← sub "repo" (dget "base" pull); sub "id" repo) (field "repository_id"))) JitPilotError
    "live pull request identity crossed the pilot package";;
  workflow ← read_workflow;
  raise_if (negb (py_eq (dget "path" workflow) (VStr ".github/workflows/ci-jit-pilot-child.yml"))
            || negb (py_eq (dget "state" workflow) (VStr "active"))) JitPilotError
    "live pilot workflow identity mismatch".

(** ** The terminal monitor *)

Definition TERMINAL_CONCLUSIONS : list (string * string) :=
  [("success", "success"); ("failure", "failure"); ("cancelled", "cancel"); ("timed_out", "timeout")].

(** [TERMINAL_CONCLUSIONS.get(raw, "failure")] and whether the key was there. *)
Definition terminal_conclusion (raw : pyval) : result (string * bool) :=
  check (negb (hashable raw)) TypeError "unhashable type";;
  Ok match List.find (λ kc, py_eq raw (VStr kc.1)) TERMINAL_CONCLUSIONS with
     | Some kc => (kc.2, true)
     | None => ("failure", false)
     end.

Class PilotOps (G : Type) := {
  pilot_run : Z → M G dict;
  pilot_jobs : Z → M G dict;
  pilot_finish : string → string → M G unit;
  pilot_prove_clean : string → string → M G dict;
  pilot_sleep : Z → M G unit;
  pilot_clock : G → Z;
  pilot_supersession : option (M G (option string));
  pilot_cancel_run : option (Z → M G (option bool));
  pilot_before_finish : option (string → M G unit);
}.

(** [needle in v] *)
Definition contains (needle : string) (v : pyval) : result bool :=
  match v with
  | VList l => Ok (existsb (py_eq (VStr needle)) l)
  | VDict d => Ok (bool_decide (needle ∈ dkeys d))
  | VStr s => Ok match String.index 0 needle s with Some _ => true | None => false end
  | _ => throw TypeError "argument is not iterable"
  end.

Fixpoint matching_jobs (run_id job_id : Z) (runner_label : string) (jobs : list pyval) : result (list dict) :=
  match jobs with
  | [] => Ok []
  | job :: jobs =>
      this ← match job with
             | VDict d =>
                 if py_eq (dget "id" d) (VInt job_id) && py_eq (dget "run_id" d) (VInt run_id) &&
                    py_eq (dget "name" d) (VStr "local-quality")
                 then b ← contains runner_label (default (VList []) (dlookup "labels" d)); Ok (if b : bool then [d] else [])
                 else Ok []
             | _ => Ok []
             end;
      rest ← matching_jobs run_id job_id runner_label jobs;
      Ok (this ++ rest)
  end.

(** [v.get("status") in {"queued", "in_progress"} and v.get("conclusion") is None] *)
Definition nonterminal (d : dict) : result bool :=
  known ← py_in_set (dget "status" d) (text_set ["queued"; "in_progress"]);
  Ok (known && is_none (dget "conclusion" d)).

Inductive turn :=
  | Again
  | Concluded (conclusion : string) (expected : bool)
  | Superseded (reason : string).

Section monitor.
Context {G : Type} {Ops : PilotOps G}.
Context (timeout_seconds poll_seconds : Z).
Context (allocation_id runner_label : string) (run_id job_id : Z).

Definition pilot_now : M G Z := gets pilot_clock.

Definition poll_again (deadline : Z) : M G turn :=
  now ← pilot_now;
  if deadline <=? now then mret (Concluded "timeout" true)
  else pilot_sleep poll_seconds;; mret Again.

Definition completed_job (deadline : Z) (run job : dict) : M G turn :=
  let raw := dget "conclusion" job in
  if negb (py_eq (dget "status" run) (VStr "completed")) then
    live ← lift (nonterminal run);
    raise_if (negb live) JitPilotError "terminal monitor observed an invalid run state";;
    poll_again deadline
  else
    raise_if (negb (py_eq (dget "conclusion" run) raw)) JitPilotError "pilot run and exact job conclusions diverged";;
    '(conclusion, expected) ← lift (terminal_conclusion raw);
    mret (Concluded conclusion expected).

Definition running_job (deadline : Z) (prior : option string) (run job : dict) : M G turn :=
  live ← lift (nonterminal job);
  raise_if (negb live) JitPilotError "terminal monitor observed an invalid nonterminal state";;
  live ← lift (nonterminal run);
  raise_if (negb live) JitPilotError "terminal monitor observed run completion before its exact job";;
  match prior, pilot_supersession with
  | None, Some supersession =>
      reason ← supersession;
      match reason with
      | Some reason =>
          match pilot_cancel_run with
          | None => raise JitPilotError "superseded run cancellation is unavailable"
          | Some cancel_run =>
              cancelled ← cancel_run run_id;
              if bool_decide (cancelled = Some false) then mret Again else mret (Superseded reason)
          end
      | None => poll_again deadline
      end
  | _, _ => poll_again deadline
  end.

(** One turn of [while conclusion is None]. *)
Definition observe_turn (deadline : Z) (prior : option string) : M G turn :=
  run ← pilot_run run_id;
  jobs ← pilot_jobs run_id;
  match py_eq (dget "id" run) (VInt run_id), dget "jobs" jobs with
  | true, VList listed =>
      matches ← lift (matching_jobs run_id job_id runner_label listed);
      match matches with
      | [job] =>
          if py_eq (dget "status" job) (VStr "completed") then completed_job deadline run job
          else running_job deadline prior run job
      | _ => raise JitPilotError "terminal monitor cannot prove the exact local job"
      end
  | _, _ => raise JitPilotError "terminal monitor crossed the exact run"
  end.

Fixpoint monitor_loop (fuel : nat) (deadline : Z) (prior : option string) : M G turn :=
  match fuel with
  | O => λ g, (Raise OUT_OF_FUEL, g)
  | S fuel =>
      t ← observe_turn deadline prior;
      match t with Again => monitor_loop fuel deadline prior | t => mret t end
  end.

Definition cleanup_proof : dict :=
  [("allocation_id", VStr allocation_id); ("runner_label", VStr runner_label); ("state", VStr "cleaned");
   ("scale_set_absent", VBool true); ("runtime_empty", VBool true)].

Definition check_monitor_identity : result unit :=
  n ← rewrap (λ c, bool_decide (c = ValueError)) JitPilotError "terminal monitor allocation ID is invalid"
        (uuid_parse allocation_id);
  pilot_if (negb (bool_decide (uuid_text n = allocation_id)) || negb (is_runner_label runner_label)
            || (run_id <? 1) || (job_id <? 1))
    "terminal monitor identity is invalid".

(** The conclusion, or the reason the run was superseded for. *)
Definition monitor (fuel : nat) (prior : option string) : M G (option string * option string) :=
  lift check_monitor_identity;;
  started ← pilot_now;
  t ← monitor_loop fuel (started + timeout_seconds) prior;
  match t with
  | Superseded reason => mret (None, Some reason)
  | Again => raise RuntimeError "unreachable"
  | Concluded conclusion expected =>
      match pilot_before_finish with Some before => before conclusion | None => mret tt end;;
      pilot_finish allocation_id conclusion;;
      cleanup ← pilot_prove_clean allocation_id runner_label;
      raise_if (negb (py_eq (VDict cleanup) (VDict cleanup_proof))) JitPilotError
        "pilot terminal cleanup proof is not exact";;
      raise_if (negb expected) JitPilotError "unexpected GitHub job conclusion was cleaned as failure";;
      mret (Some conclusion, prior)
  end.

(** Enough turns for the time until the deadline. *)
Definition monitor_fuel : nat := S (S (Z.to_nat (timeout_seconds / poll_seconds))).
End monitor.

(** ** Lemmas *)

Section facts.
Context {G : Type} {Ops : PilotOps G}.
Context (timeout_seconds poll_seconds : Z).
Context (allocation_id runner_label : string) (run_id job_id : Z).

Abbreviation turn_of := (observe_turn poll_seconds runner_label run_id job_id).
Abbreviation loop := (monitor_loop poll_seconds runner_label run_id job_id).

Lemma poll_again_ok deadline g t g' :
  poll_again poll_seconds deadline g = (Ok t, g') →
  (t = Concluded "timeout" true ∧ deadline ≤ pilot_clock g ∧ g' = g) ∨
  (t = Again ∧ pilot_clock g < deadline ∧ pilot_sleep poll_seconds g = (Ok tt, g')).
Proof.
  unfold poll_again, pilot_now. intros H. apply bind_ok in H as (now & ? & [-> ->]%gets_ok & H).
  case_match eqn:E; bool_inv.
  - apply ret_ok in H as [<- <-]. by left.
  - apply bind_ok in H as ([] & ? & Hs & [<- <-]%ret_ok). by right.
Qed.

(** What GitHub said when the monitor concluded: the run was read, is the exact
    one, and is over with this conclusion. *)
Definition run_concluded (c : string) (expected : bool) : Prop := ∃ g g1 run,
  pilot_run run_id g = (Ok run, g1) ∧ py_eq (dget "id" run) (VInt run_id) = true ∧
  py_eq (dget "status" run) (VStr "completed") = true ∧ terminal_conclusion (dget "conclusion" run) = Ok (c, expected).

(** Equal conclusions are the same key of the table. *)
Lemma find_conclusion_agree raw raw' :
  py_eq raw raw' = true → hashable raw' = true →
  List.find (λ kc : string * string, py_eq raw' (VStr kc.1)) TERMINAL_CONCLUSIONS
  = List.find (λ kc : string * string, py_eq raw (VStr kc.1)) TERMINAL_CONCLUSIONS.
Proof.
  intros E Hh. destruct raw' as [| | |s| |], raw as [| | |s'| |]; try done.
  cbn in E. apply bool_decide_eq_true in E as ->. done.
Qed.

Lemma terminal_agree raw raw' r :
  py_eq raw raw' = true → terminal_conclusion raw' = Ok r → terminal_conclusion raw = Ok r.
Proof.
  unfold terminal_conclusion. intros E H. apply result_bind_ok in H as (? & Hh%check_ok%negb_false_iff & H).
  rewrite (find_conclusion_agree _ _ E Hh) in H.
  assert (hashable raw = true) as Hr by (destruct raw, raw'; done). by rewrite Hr.
Qed.

Lemma turn_ok deadline prior g t g' :
  turn_of deadline prior g = (Ok t, g') →
  match t with
  | Concluded c expected => run_concluded c expected ∨ (c = "timeout" ∧ expected = true ∧ deadline ≤ pilot_clock g')
  | _ => True
  end.
Proof.
  intros H. destruct t as [|c expected|]; [done| |done]. unfold observe_turn in H.
  apply bind_ok in H as (run & g1 & Hrun & H). apply bind_ok in H as (jobs & g2 & _ & H).
  destruct (py_eq (dget "id" run) (VInt run_id)) eqn:Eid; [|by apply raise_ok in H].
  destruct (dget "jobs" jobs) as [| | | |listed|]; try by apply raise_ok in H.
  apply bind_ok in H as (matches & ? & [_ <-]%lift_ok & H).
  destruct matches as [|job [|]]; try by apply raise_ok in H.
  assert (∀ g2, poll_again poll_seconds deadline g2 = (Ok (Concluded c expected), g') →
    c = "timeout" ∧ expected = true ∧ deadline ≤ pilot_clock g') as Hpoll.
  { intros g3 Hp. apply poll_again_ok in Hp as [(E & ? & ->)|(E & _)]; [by injection E as -> ->|done]. }
  destruct (py_eq (dget "status" job) (VStr "completed")).
  - unfold completed_job in H. destruct (py_eq (dget "status" run) (VStr "completed")) eqn:Es; cbn [negb] in H.
    + apply bind_ok in H as (? & ? & [Heq ->]%raise_if_ok & H). apply negb_false_iff in Heq.
      apply bind_ok in H as ([c' e'] & ? & [Ht <-]%lift_ok & [[= <- <-] <-]%ret_ok).
      left. exists g, g1, run. repeat (split; [done|]). by eapply terminal_agree.
    + apply bind_ok in H as (live & ? & [_ <-]%lift_ok & H). apply bind_ok in H as (? & ? & [_ ->]%raise_if_ok & H).
      right. by eapply Hpoll.
  - unfold running_job in H. apply bind_ok in H as (l1 & ? & [_ <-]%lift_ok & H).
    apply bind_ok in H as (? & ? & [_ ->]%raise_if_ok & H). apply bind_ok in H as (l2 & ? & [_ <-]%lift_ok & H).
    apply bind_ok in H as (? & ? & [_ ->]%raise_if_ok & H). right.
    destruct prior; [by eapply Hpoll|]. destruct pilot_supersession as [sup|]; [|by eapply Hpoll].
    apply bind_ok in H as (reason & ? & _ & H). destruct reason; [|by eapply Hpoll].
    destruct pilot_cancel_run; [|by apply raise_ok in H].
    apply bind_ok in H as (? & ? & _ & H). case_match; by apply ret_ok in H as [? _].
Qed.

Lemma loop_ok fuel deadline prior g t g' :
  loop fuel deadline prior g = (Ok t, g') → t ≠ Again ∧ ∃ g1, turn_of deadline prior g1 = (Ok t, g').
Proof.
  revert g. induction fuel as [|fuel IH]; intros g H; [done|]. cbn [monitor_loop] in H.
  apply bind_ok in H as (t1 & g1 & Ht & H). destruct t1; [by apply IH in H|..]; apply ret_ok in H as [<- <-]; eauto.
Qed.

Lemma terminal_outcome raw c e : terminal_conclusion raw = Ok (c, e) → c ∈ ["success"; "failure"; "cancel"; "timeout"].
Proof.
  unfold terminal_conclusion. intros H. apply result_bind_ok in H as (? & _ & H).
  destruct (List.find _ _) as [kc|] eqn:Ef; injection H as <- _; [|set_solver].
  apply List.find_some in Ef as [Hin _]. cbn in Hin. destruct Hin as [<-|[<-|[<-|[<-|[]]]]]; set_solver.
Qed.

(** C26: A conclusion the monitor returns is an outcome the ledger accepts, it is
    GitHub's own word on the exact run or the passing of the deadline, the
    broker has finished the allocation with it, and the last thing done is the
    exact proof that the allocation is clean. *)
Theorem monitor_ends_clean fuel prior g c reason g' :
  monitor timeout_seconds poll_seconds allocation_id runner_label run_id job_id fuel prior g = (Ok (Some c, reason), g') →
  c ∈ TERMINAL_OUTCOMES ∧ reason = prior ∧
  (run_concluded c true ∨ (c = "timeout" ∧ ∃ g1, pilot_clock g + timeout_seconds ≤ pilot_clock g1)) ∧
  ∃ g1 g2 cleanup, pilot_finish allocation_id c g1 = (Ok tt, g2) ∧
    pilot_prove_clean allocation_id runner_label g2 = (Ok cleanup, g') ∧
    py_eq (VDict cleanup) (VDict (cleanup_proof allocation_id runner_label)) = true.
Proof.
  unfold monitor, pilot_now. intros H. apply bind_ok in H as (? & ? & [_ <-]%lift_ok & H).
  apply bind_ok in H as (started & ? & [-> ->]%gets_ok & H). apply bind_ok in H as (t & g1 & Ht & H).
  apply loop_ok in Ht as (Hne & g0 & Ht). apply turn_ok in Ht. destruct t as [|c' expected|r]; [done| |].
  2: by apply ret_ok in H as [? _].
  apply bind_ok in H as (? & g2 & _ & H). apply bind_ok in H as ([] & g3 & Hf & H).
  apply bind_ok in H as (cleanup & g4 & Hp & H). apply bind_ok in H as (? & ? & [Hc ->]%raise_if_ok & H).
  apply bind_ok in H as (? & ? & [He ->]%raise_if_ok & [[= <- <-] <-]%ret_ok). bool_inv. subst expected.
  assert (c' ∈ ["success"; "failure"; "cancel"; "timeout"]) as Hin.
  { destruct Ht as [(? & ? & ? & _ & _ & _ & Ht)|(-> & _)]; [by eapply terminal_outcome|set_solver]. }
  split; [unfold TERMINAL_OUTCOMES; set_solver|]. split; [done|]. split.
  - destruct Ht as [Ht|(-> & _ & Hd)]; [by left|right]. split; [done|]. by exists g1.
  - by exists g2, g3, cleanup.
Qed.

(** ** Termination *)

(** Reading does not turn the clock back, sleeping takes the time asked, and
    nothing the monitor calls runs out of fuel. *)
Record timed : Prop := {
  run_time n g : pilot_clock g ≤ pilot_clock (pilot_run n g).2 ∧ (pilot_run n g).1 ≠ Raise OUT_OF_FUEL;
  jobs_time n g : pilot_clock g ≤ pilot_clock (pilot_jobs n g).2 ∧ (pilot_jobs n g).1 ≠ Raise OUT_OF_FUEL;
  sleep_time d g : 0 < d → pilot_clock g + d ≤ pilot_clock (pilot_sleep d g).2 ∧ (pilot_sleep d g).1 ≠ Raise OUT_OF_FUEL;
}.

(** A step that only moves the clock forward and does not run out of fuel. *)
Definition forward {B} (m : M G B) : Prop := ∀ g, pilot_clock g ≤ pilot_clock (m g).2 ∧ (m g).1 ≠ Raise OUT_OF_FUEL.

Lemma forward_bind {B C} (m : M G B) (k : B → M G C) : forward m → (∀ b, forward (k b)) → forward (m ≫= k).
Proof.
  intros Hm Hk g. specialize (Hm g). unfold mbind, M_bind. destruct (m g) as [[b|e] g1]; cbn in *.
  - specialize (Hk b g1). destruct Hk. split; [lia|done].
  - split; [apply Hm|]. destruct Hm as [_ Hm]. intros [= ->]. by apply Hm.
Qed.
Lemma forward_raise {B} c msg : c ≠ RuntimeError → forward (raise (A := B) c msg).
Proof. intros Hc g. split; [cbn; lia|]. by intros [= ->]. Qed.
Lemma forward_ret {B} (b : B) : forward (mret b).
Proof. intros g. split; [cbn; lia|done]. Qed.
Lemma forward_raise_if b c msg : c ≠ RuntimeError → forward (raise_if b c msg).
Proof. intros Hc g. split; [cbn; lia|]. unfold raise_if, check, lift, throw, OUT_OF_FUEL. cbn. destruct b; congruence. Qed.
Lemma forward_lift {B} (r : result B) : r ≠ Raise OUT_OF_FUEL → forward (lift r).
Proof. intros Hr g. split; [cbn; lia|done]. Qed.

Lemma matching_fuel jobs : matching_jobs run_id job_id runner_label jobs ≠ Raise OUT_OF_FUEL.
Proof.
  induction jobs as [|job jobs IH]; [done|]. cbn [matching_jobs]. apply result_bind_fuel.
  - destruct job; try done. destruct (_ && _); [|done]. apply result_bind_fuel; [|done]. by destruct (default _ _).
  - intros this. by apply result_bind_fuel.
Qed.
Lemma nonterminal_fuel d : nonterminal d ≠ Raise OUT_OF_FUEL.
Proof. unfold nonterminal, py_in_set, check, throw. by destruct (hashable _). Qed.
Lemma conclusion_fuel v : terminal_conclusion v ≠ Raise OUT_OF_FUEL.
Proof. unfold terminal_conclusion, check, throw. by destruct (hashable _). Qed.

#[local] Hint Resolve forward_ret forward_raise forward_raise_if forward_lift matching_fuel nonterminal_fuel conclusion_fuel : core.

Lemma poll_again_forward deadline : timed → 0 < poll_seconds → forward (poll_again poll_seconds deadline).
Proof.
  intros Ht Hp. unfold poll_again. apply forward_bind; [intros g; split; [cbn; lia|done]|]. intros now.
  case_match; [auto|]. apply forward_bind; [|auto]. intros g. destruct (sleep_time Ht _ g Hp). split; [lia|done].
Qed.

Lemma turn_forward deadline prior :
  timed → 0 < poll_seconds → pilot_supersession = None → forward (turn_of deadline prior).
Proof.
  intros Ht Hp Hs. unfold observe_turn. apply forward_bind; [intros g; apply (run_time Ht)|]. intros run.
  apply forward_bind; [intros g; apply (jobs_time Ht)|]. intros jobs. case_match; [|auto]. case_match; try by auto.
  apply forward_bind; [auto|]. intros [|job [|]]; [by auto| |by auto]. case_match.
  - unfold completed_job. case_match.
    + apply forward_bind; [auto|]. intros live. apply forward_bind; [auto|]. intros _. by apply poll_again_forward.
    + apply forward_bind; [auto|]. intros _. apply forward_bind; [auto|]. intros [c e]. auto.
  - unfold running_job. rewrite Hs. apply forward_bind; [auto|]. intros l1. apply forward_bind; [auto|]. intros _.
    apply forward_bind; [auto|]. intros l2. apply forward_bind; [auto|]. intros _.
    destruct prior; by apply poll_again_forward.
Qed.

(** A turn that goes again has slept, before the deadline. *)
Lemma turn_again deadline prior g g' :
  timed → 0 < poll_seconds → pilot_supersession = None →
  turn_of deadline prior g = (Ok Again, g') →
  pilot_clock g < deadline ∧ pilot_clock g + poll_seconds ≤ pilot_clock g'.
Proof.
  intros Ht Hp Hs H. unfold observe_turn in H. apply bind_ok in H as (run & g1 & Hrun & H).
  apply bind_ok in H as (jobs & g2 & Hjobs & H).
  pose proof (proj1 (run_time Ht run_id g)) as H1. rewrite Hrun in H1. cbn in H1.
  pose proof (proj1 (jobs_time Ht run_id g1)) as H2. rewrite Hjobs in H2. cbn in H2.
  assert (∀ g3, pilot_clock g ≤ pilot_clock g3 → poll_again poll_seconds deadline g3 = (Ok Again, g') →
    pilot_clock g < deadline ∧ pilot_clock g + poll_seconds ≤ pilot_clock g') as Hpoll.
  { intros g3 Hg [(? & _)|(_ & ? & Hsl)]%poll_again_ok; [done|].
    pose proof (proj1 (sleep_time Ht _ g3 Hp)) as H3. rewrite Hsl in H3. cbn in H3. lia. }
  case_match; [|by apply raise_ok in H]. destruct (dget "jobs" jobs); try by apply raise_ok in H.
  apply bind_ok in H as (matches & ? & [_ <-]%lift_ok & H). destruct matches as [|job [|]]; try by apply raise_ok in H.
  destruct (py_eq (dget "status" job) _).
  - unfold completed_job in H. case_match.
    + apply bind_ok in H as (live & ? & [_ <-]%lift_ok & H). apply bind_ok in H as (? & ? & [_ ->]%raise_if_ok & H).
      eapply Hpoll; [|exact H]. lia.
    + apply bind_ok in H as (? & ? & [_ ->]%raise_if_ok & H). apply bind_ok in H as ([] & ? & _ & H).
      by apply ret_ok in H as [? _].
  - unfold running_job in H. rewrite Hs in H. apply bind_ok in H as (l1 & ? & [_ <-]%lift_ok & H).
    apply bind_ok in H as (? & ? & [_ ->]%raise_if_ok & H). apply bind_ok in H as (l2 & ? & [_ <-]%lift_ok & H).
    apply bind_ok in H as (? & ? & [_ ->]%raise_if_ok & H). eapply Hpoll; [|destruct prior; exact H]. lia.
Qed.

Lemma loop_fuel fuel deadline prior g :
  timed → 0 < poll_seconds → pilot_supersession = None →
  deadline - pilot_clock g < (Z.of_nat fuel - 1) * poll_seconds → fuel ≠ O →
  (loop fuel deadline prior g).1 ≠ Raise OUT_OF_FUEL.
Proof.
  intros Ht Hp Hs. revert g. induction fuel as [|fuel IH]; intros g Hf Hne; [done|]. cbn [monitor_loop].
  unfold mbind, M_bind. destruct (turn_of deadline prior g) as [[t|e] g1] eqn:E.
  - destruct t; [|done..]. apply turn_again in E as [Hlt Hle]; [|done..].
    assert (fuel ≠ O) by (intros ->; lia). apply IH; [|done]. nia.
  - pose proof (proj2 (turn_forward deadline prior Ht Hp Hs g)) as Hn. rewrite E in Hn. done.
Qed.

(** Without supersession the monitor's loop ends: timeout over poll interval
    plus two turns are enough. *)
Lemma monitor_terminates prior g :
  timed → 0 < poll_seconds → pilot_supersession = None →
  (loop (monitor_fuel timeout_seconds poll_seconds) (pilot_clock g + timeout_seconds) prior g).1 ≠ Raise OUT_OF_FUEL.
Proof.
  intros Ht Hp Hs. apply loop_fuel; [done..| |done]. unfold monitor_fuel. rewrite !Nat2Z.inj_succ.
  pose proof (Z.mul_succ_div_gt timeout_seconds poll_seconds Hp). nia.
Qed.

(** A superseded run whose cancellation reports that it was not accepted,
    while GitHub keeps showing it in progress, is polled for ever: each turn goes
    again without sleeping and without looking at the deadline, whatever the
    clock says. *)
Lemma refused_cancellation_spins run jobs job supersession cancel_run reason deadline g :
  pilot_run run_id g = (Ok run, g) → pilot_jobs run_id g = (Ok jobs, g) →
  py_eq (dget "id" run) (VInt run_id) = true → dget "jobs" jobs = VList [VDict job] →
  matching_jobs run_id job_id runner_label [VDict job] = Ok [job] →
  py_eq (dget "status" job) (VStr "completed") = false → nonterminal job = Ok true → nonterminal run = Ok true →
  pilot_supersession = Some supersession → supersession g = (Ok (Some reason), g) →
  pilot_cancel_run = Some cancel_run → cancel_run run_id g = (Ok (Some false), g) →
  ∀ fuel, loop fuel deadline None g = (Raise OUT_OF_FUEL, g).
Proof.
  intros Hr Hj Hid Hl Hm Hst Hn1 Hn2 Hsup Hreason Hc Hf. induction fuel as [|fuel IH]; [done|]. cbn [monitor_loop].
  rewrite (eval_run _ _ _ Again g); [exact IH|]. unfold observe_turn.
  rewrite (eval_run _ _ _ _ _ Hr), (eval_run _ _ _ _ _ Hj), Hid, Hl, (eval_lift _ _ _ _ Hm), Hst.
  unfold running_job. rewrite (eval_lift _ _ _ _ Hn1), eval_pass, (eval_lift _ _ _ _ Hn2), eval_pass by done.
  by rewrite Hsup, (eval_run _ _ _ _ _ Hreason), Hc, (eval_run _ _ _ _ _ Hf).
Qed.
End facts.

(** ** A run to watch *)

Definition toy_pilot_allocation : string := "0f0e0d0c-0b0a-4908-8706-050403020100".
Definition toy_pilot_label : string := "wsl-jit-" +:+ hex_of "0" 32.
(** The status of the run and the job at a time: over from the tenth second. *)
Definition toy_status (now : Z) : dict :=
  if now <? seconds 10 then [("status", VStr "in_progress"); ("conclusion", VNone)]
  else [("status", VStr "completed"); ("conclusion", VStr "success")].
Definition toy_pilot_job (now : Z) : dict :=
  [("id", VInt 5); ("run_id", VInt 99); ("name", VStr "local-quality"); ("labels", VList [VStr toy_pilot_label])]
  ++ toy_status now.
(** The state is the clock; the flag says whether the run is superseded, with a
    cancellation that is always refused. *)
Definition ToyPilotOps (superseded : bool) : PilotOps Z := {|
  pilot_run n := λ g, (Ok (("id", VInt n) :: toy_status g), g);
  pilot_jobs _ := λ g, (Ok [("jobs", VList [VDict (toy_pilot_job g)])], g);
  pilot_finish _ _ := mret tt;
  pilot_prove_clean a l := mret (cleanup_proof a l);
  pilot_sleep d := modify (λ g, g + d);
  pilot_clock := id;
  pilot_supersession := if superseded then Some (mret (Some "a newer commit")) else None;
  pilot_cancel_run := Some (λ _, mret (Some false));
  pilot_before_finish := None;
|}.

Example toy_pilot_run :
  monitor (Ops := ToyPilotOps false) (seconds 3600) (seconds 5) toy_pilot_allocation toy_pilot_label 99 5
    (monitor_fuel (seconds 3600) (seconds 5)) None 0 = (Ok (Some "success", None), seconds 10).
Proof. vm_compute. reflexivity. Qed.

Lemma monitor_ends_clean_witness :
  run_concluded (Ops := ToyPilotOps false) 99 "success" true ∨
  ("success" = "timeout" ∧ ∃ g1, 0 + seconds 3600 ≤ g1).
Proof.
  destruct (monitor_ends_clean (Ops := ToyPilotOps false) (seconds 3600) (seconds 5) toy_pilot_allocation
    toy_pilot_label 99 5 (monitor_fuel (seconds 3600) (seconds 5)) None 0 "success" None (seconds 10) toy_pilot_run)
    as (_ & _ & Hc & _).
  exact Hc.
Defined.

Lemma toy_timed : timed (Ops := ToyPilotOps false).
Proof. split; intros; split; cbn; (lia || done). Qed.

Lemma monitor_terminates_witness :
  (monitor_loop (Ops := ToyPilotOps false) (seconds 5) toy_pilot_label 99 5
    (monitor_fuel (seconds 3600) (seconds 5)) (0 + seconds 3600) None 0).1 ≠ Raise OUT_OF_FUEL.
Proof.
  exact (monitor_terminates (Ops := ToyPilotOps false) (seconds 3600) (seconds 5) toy_pilot_label 99 5 None 0
    toy_timed ltac:(vm_compute; reflexivity) eq_refl).
Defined.

Lemma refused_cancellation_spins_witness :
  monitor_loop (Ops := ToyPilotOps true) (seconds 5) toy_pilot_label 99 5 1000 (seconds 3) None 0 = (Raise OUT_OF_FUEL, 0).
Proof.
  refine (refused_cancellation_spins (Ops := ToyPilotOps true) (seconds 5) toy_pilot_label 99 5
    [("id", VInt 99); ("status", VStr "in_progress"); ("conclusion", VNone)] [("jobs", VList [VDict (toy_pilot_job 0)])]
    (toy_pilot_job 0) (mret (Some "a newer commit")) (λ _, mret (Some false)) "a newer commit" (seconds 3) 0
    _ _ _ _ _ _ _ _ _ _ _ _ 1000); vm_compute; reflexivity.
Defined.
