(* ===== verification/PilotChecks.v ===== *)
(** * Check Runs of the local pilot (pilot_checks.py)

    The phases a job log proves, the verdict published for each, the client of
    the gate App and the publisher that opens and closes Check Runs.  Requests
    go through [HTTPTransport]; the job log is the class [JobLog].  The theorem
    about the log says that cutting it into chunks never changes what is seen. *)

From S2P Require Import Prelude Datetime PyValue PyText Json Digest GitHubHttp.
#[local] Open Scope Z_scope.

Definition gate_fail {A} (msg : string) : result A := throw GateCheckError msg.
Definition gate_if (b : bool) (msg : string) : result unit := check b GateCheckError msg.

Definition GATE_PERMISSIONS : dict := [("checks", VStr "write"); ("metadata", VStr "read")].
Definition PROFILE_PHASES : list string := ["backend"; "frontend"; "e2e"].
Definition PHASE_CHECK_NAMES : list (string * string) :=
  [("backend", "backend lint + test"); ("frontend", "frontend lint + test")].
Definition MAX_LOG_BYTES : Z := 64 * 1024 * 1024.
Definition TERMINAL_CHECKS : list string := ["success"; "failure"; "cancelled"; "timed_out"; "stale"; "skipped"].

Record PhaseVerdict := { conclusion : string; title : string; summary : string }.
#[export] Instance PhaseVerdict_eq_dec : EqDecision PhaseVerdict.
Proof. solve_decision. Defined.

(** ** Evidence *)

(** The measurement line: an opening, 1 to 32 characters of [a-z0-9-], a
    closing.  The class holds no quote, so the phase is the longest run. *)
Definition line_open : string := "{" +:+ quote "phase" +:+ ":" +:+ String quote_char "".
Definition line_close : string := String quote_char ("," +:+ quote "memory_peak_bytes" +:+ ":").
Definition is_phase_char (c : ascii) : bool := is_digit c || in_range "a" "z" c || Ascii.eqb c "-".

Fixpoint span (p : ascii → bool) (s : string) : string * string :=
  match s with
  | String c s' => if p c then let '(a, b) := span p s' in (String c a, b) else (EmptyString, s)
  | EmptyString => (EmptyString, EmptyString)
  end.

Definition phase_here (s : string) : option string :=
  rest ← strip_prefix line_open s;
  let '(phase, rest) := span is_phase_char rest in
  if (1 <=? String.length phase)%nat && (String.length phase <=? 32)%nat
  then strip_prefix line_close rest;; Some phase else None.

(** [finditer]: a match holds one brace, at its start, so matches never overlap
    and none is hidden by the one before it. *)
Fixpoint scan (s : string) : list string :=
  option_list (phase_here s) ++ match s with String _ s' => scan s' | EmptyString => [] end.

Definition observe (observed : list string) (phase : string) : list string :=
  if bool_decide (phase ∈ PROFILE_PHASES) && bool_decide (phase ∉ observed) then observed ++ [phase] else observed.

Fixpoint drop_bytes (n : nat) (s : string) : string :=
  match n, s with
  | S n, String _ s => drop_bytes n s
  | _, _ => s
  end.
(** [buffer[-64:]] *)
Definition last64 (s : string) : string := drop_bytes (String.length s - 64) s.

Fixpoint read_chunks (chunks : list string) (observed : list string) (tail : string) (total : Z) : result (list string) :=
  match chunks with
  | [] => Ok observed
  | chunk :: chunks =>
      let total := total + Z.of_nat (String.length chunk) in
      gate_if (MAX_LOG_BYTES <? total) "job log exceeded the readable bound";;
      let buffer := tail +:+ chunk in
      read_chunks chunks (foldl observe observed (scan buffer)) (last64 buffer) total
  end.
Definition parse_phase_evidence (chunks : list string) : result (list string) := read_chunks chunks [] "" 0.

(** ** Verdicts *)

Definition check_name (phase : string) : option string :=
  snd <$> List.find (λ pn, bool_decide (pn.1 = phase)) PHASE_CHECK_NAMES.
Definition full_log (details_url : string) : string := "Full job log: " +:+ details_url.
Definition phase_quoted (phase : string) : string := "`" +:+ phase +:+ "`".

Definition verdict_passed (phase details_url : string) : PhaseVerdict := {|
  conclusion := "success"; title := phase +:+ " passed on the local runner";
  summary := "The " +:+ phase_quoted phase +:+ " phase of the reviewed Overworld CI profile completed on the self-hosted Windows runner. "
             +:+ full_log details_url |}.
Definition verdict_skipped (phase details_url : string) : PhaseVerdict := {|
  conclusion := "skipped"; title := phase +:+ " never ran";
  summary := "An earlier phase of the local run failed, so this phase was never reached. " +:+ full_log details_url |}.
Definition verdict_cancelled (phase details_url : string) : PhaseVerdict := {|
  conclusion := "cancelled"; title := phase +:+ " was cancelled";
  summary := "The local run was cancelled during the " +:+ phase_quoted phase +:+ " phase. " +:+ full_log details_url |}.
Definition verdict_timed_out (phase details_url : string) : PhaseVerdict := {|
  conclusion := "timed_out"; title := phase +:+ " timed out";
  summary := "The local run hit its time limit during the " +:+ phase_quoted phase +:+ " phase. " +:+ full_log details_url |}.
Definition verdict_failed (phase details_url : string) : PhaseVerdict := {|
  conclusion := "failure"; title := phase +:+ " failed on the local runner";
  summary := "The " +:+ phase_quoted phase +:+ " phase of the reviewed Overworld CI profile failed on the self-hosted Windows runner. "
             +:+ full_log details_url |}.

Definition verdict_for (job_conclusion phase details_url : string) (passed failed_before : bool) : PhaseVerdict :=
  if passed then verdict_passed phase details_url
  else if failed_before then verdict_skipped phase details_url
  else if bool_decide (job_conclusion ∈ ["cancelled"; "cancel"]) then verdict_cancelled phase details_url
  else if bool_decide (job_conclusion ∈ ["timed_out"; "timeout"]) then verdict_timed_out phase details_url
  else verdict_failed phase details_url.

(** One turn for each phase, with its successor in the list. *)
Fixpoint verdicts_from (job_conclusion details_url : string) (seen ordered : list string) (failed_before : bool)
    : list (string * PhaseVerdict) :=
  match ordered with
  | [] => []
  | phase :: later =>
      let passed := bool_decide (job_conclusion = "success")
                    || match later with next :: _ => bool_decide (next ∈ seen) | [] => false end in
      let rest := verdicts_from job_conclusion details_url seen later (failed_before || negb passed) in
      match check_name phase with
      | Some _ => (phase, verdict_for job_conclusion phase details_url passed failed_before) :: rest
      | None => rest
      end
  end.
Definition phase_verdicts (job_conclusion : string) (observed phases : list string) (details_url : string)
    : result (list (string * PhaseVerdict)) :=
  gate_if (negb (bool_decide (phases = PROFILE_PHASES))) "phase evidence inference requires the reviewed ordered phase list";;
  gate_if (negb (subset_of observed phases)) "job log reported a phase outside the reviewed profile";;
  Ok (verdicts_from job_conclusion details_url observed phases false).

Definition abandoned_verdicts (reason details_url : string) : list (string * PhaseVerdict) :=
  (λ pn, (pn.1, {| conclusion := "stale"; title := pn.1 +:+ " result was lost";
     summary := "The self-hosted Windows runner stopped owning this run before it could report a result (" +:+ reason
       +:+ "). Nothing was proven about this phase; dispatch the pull request again. Job log, if any: " +:+ details_url |}))
  <$> PHASE_CHECK_NAMES.
Definition superseded_verdicts (reason details_url : string) : list (string * PhaseVerdict) :=
  (λ pn, (pn.1, {| conclusion := "skipped"; title := pn.1 +:+ " was skipped because this run was superseded";
     summary := "This local run was discarded without executing stale code: " +:+ reason +:+ ". Run details: " +:+ details_url |}))
  <$> PHASE_CHECK_NAMES.

(** ** The gate App *)

Record GateAppAuthorityV1 := {
  ga_app_id : Z; ga_app_slug : string; ga_installation_id : Z; ga_repository : string; ga_repository_id : Z;
}.

Definition is_slug (v : pyval) : bool := is_str_where (match_some (λ c, is_alnum c || Ascii.eqb c "-")) v.
(** [__post_init__]; the selection and the permissions are then constants. *)
Definition gate_authority (app_id app_slug installation_id repository repository_id repository_selection permissions : pyval)
    : result GateAppAuthorityV1 :=
  match app_id, installation_id, repository_id with
  | VInt app_id, VInt installation_id, VInt repository_id =>
      gate_if ((app_id <? 1) || (installation_id <? 1) || (repository_id <? 1)) "gate App numeric identities must be positive";;
      match repository with
      | VStr repository =>
          gate_if (negb (is_repository repository)) "gate App repository is invalid";;
          gate_if (negb (py_eq repository_selection (VStr "selected"))) "gate App must use selected repositories";;
          gate_if (negb (py_eq permissions (VDict GATE_PERMISSIONS))) "gate App permissions are not exact";;
          match app_slug with
          | VStr slug =>
              gate_if (negb (is_slug (VStr slug))) "gate App slug is invalid";;
              Ok {| ga_app_id := app_id; ga_app_slug := slug; ga_installation_id := installation_id;
                    ga_repository := repository; ga_repository_id := repository_id |}
          | _ => throw TypeError "expected string or bytes-like object"
          end
      | _ => throw TypeError "expected string or bytes-like object"
      end
  | _, _, _ => gate_fail "gate App numeric identities must be positive"
  end.

Record GateToken := { gt_value : string; gt_expires_at : datetime }.

Definition _exact_sha (value : pyval) : result string :=
  match value with
  | VStr s => if is_sha1 s then Ok s else gate_fail "Check Run head SHA must be a full commit SHA"
  | _ => gate_fail "Check Run head SHA must be a full commit SHA"
  end.
Definition _exact_name (value : pyval) : result string :=
  known ← py_in_set value (text_set (snd <$> PHASE_CHECK_NAMES));
  match known, value with
  | true, VStr name => Ok name
  | _, _ => gate_fail "Check Run name is not one of the published phase names"
  end.
Definition _exact_external_id (value : string) : result string :=
  match strip_prefix "self-hosted-ci-discard:" value with
  | Some digest => if is_sha256 digest then Ok value else gate_fail "Check Run external identity is invalid"
  | None => gate_fail "Check Run external identity is invalid"
  end.
Definition _discard_external_id {D : Digest} (scope name : string) : string :=
  "self-hosted-ci-discard:" +:+ sha256_hex (scope +:+ String (ascii_of_N 0) name).

(** [astimezone(utc).isoformat()] with Z. *)
Definition gate_stamp (now : datetime) : result string :=
  match now with
  | Aware _ t => Ok (str_replace "+00:00" "Z" (isoformat t))
  | Naive _ => gate_fail "gate clock must be timezone-aware"
  end.
Definition gate_headers (bearer : string) : dict := bearer_headers "self-hosted-ci-gate/1" bearer.

(** [_json] *)
Definition gate_json (response : HTTPResponse) (expected_status : Z) : result dict :=
  gate_if (negb (http_status response =? expected_status) || negb (nonempty (http_body response))
           || (1048576 <? Z.of_nat (String.length (http_body response)))) "gate GitHub request failed";;
  value ← loads_or GateCheckError "gate GitHub response is invalid JSON" (http_body response);
  match value with VDict d => Ok d | _ => gate_fail "gate GitHub response is not an object" end.

(** [a <= b] of two datetimes. *)
Definition dt_le (a b : datetime) : result bool :=
  c ← dt_compare a b; Ok (negb (bool_decide (c = Gt))).

Section client.
Context {G : Type} {T : HTTPTransport G}.
Context (authority : GateAppAuthorityV1).

Definition gate_request (method path : string) (headers : dict) (body : option dict) : M G HTTPResponse :=
  raise_if (unsafe_path path) GateCheckError "unsafe gate GitHub API path";;
  http_request method (API_ROOT +:+ path) headers body.
Definition gate_get (method path : string) (headers : dict) (body : option dict) (status : Z) : M G dict :=
  response ← gate_request method path headers body;
  lift (gate_json response status).

Definition gate_installation : dict :=
  [("id", VInt (ga_installation_id authority)); ("app_id", VInt (ga_app_id authority));
   ("repository_selection", VStr "selected"); ("permissions", VDict GATE_PERMISSIONS)].
Definition has_values (expected value : dict) : bool := forallb (λ kv, py_eq (dget kv.1 value) kv.2) expected.

(** The token of the response. *)
Definition gate_token (token : dict) (now : datetime) : result GateToken :=
  match dget "token" token, dget "expires_at" token with
  | VStr value, VStr expires =>
      gate_if (negb (nonempty value)) "gate installation token is invalid";;
      expires_at ← rewrap (λ c, bool_decide (c = ValueError)) GateCheckError "gate token expiry is invalid"
                     (fromisoformat (str_replace "Z" "+00:00" expires));
      match expires_at with
      | Aware _ _ =>
          over ← dt_le expires_at now;
          gate_if over "gate installation token is already expired";;
          Ok {| gt_value := value; gt_expires_at := expires_at |}
      | Naive _ => gate_fail "gate installation token is already expired"
      end
  | _, _ => gate_fail "gate installation token is invalid"
  end.

(** [authenticate] *)
Definition gate_authenticate : M G GateToken :=
  now ← http_clock;
  match now with
  | Naive _ => raise GateCheckError "gate clock must be timezone-aware"
  | Aware _ t =>
      jwt ← app_jwt (ga_app_id authority) t;
      let headers := gate_headers jwt in
      app ← gate_get "GET" "/app" headers None 200;
      raise_if (negb (py_eq (dget "id" app) (VInt (ga_app_id authority)))
                || negb (py_eq (dget "slug" app) (VStr (ga_app_slug authority)))) GateCheckError "gate App identity mismatch";;
      installation ← gate_get "GET" ("/repos/" +:+ ga_repository authority +:+ "/installation") headers None 200;
      raise_if (negb (has_values gate_installation installation)) GateCheckError "gate App installation authority mismatch";;
      token ← gate_get "POST" ("/app/installations/" +:+ str_of_Z (ga_installation_id authority) +:+ "/access_tokens") headers
                (Some [("repository_ids", VList [VInt (ga_repository_id authority)]); ("permissions", VDict GATE_PERMISSIONS)])
                201;
      lift (gate_token token now)
  end.

(** [_token_json] *)
Definition gate_token_json (method path : string) (token : GateToken) (status : Z) (body : option dict) : M G dict :=
  now ← http_clock;
  over ← lift (dt_le (gt_expires_at token) now);
  raise_if over GateCheckError "gate installation token expired before use";;
  gate_get method ("/repos/" +:+ ga_repository authority +:+ path) (gate_headers (gt_value token)) body status.

Definition create_in_progress (name head_sha : pyval) (details_url summary : string) (token : GateToken)
    (external_id : option string) : M G Z :=
  exact_name ← lift (_exact_name name);
  exact_sha ← lift (_exact_sha head_sha);
  now ← http_clock;
  started ← lift (gate_stamp now);
  external ← lift (match external_id with
                   | Some id => id ← _exact_external_id id; Ok [("external_id", VStr id)]
                   | None => Ok [] end);
  value ← gate_token_json "POST" "/check-runs" token 201
    (Some ([("name", VStr exact_name); ("head_sha", VStr exact_sha); ("status", VStr "in_progress");
            ("details_url", VStr details_url); ("started_at", VStr started);
            ("output", VDict [("title", VStr (exact_name +:+ " is running on the local runner")); ("summary", VStr summary)])]
           ++ external));
  match dget "id" value with
  | VInt identifier =>
      raise_if ((identifier <? 1) || negb (py_eq (dget "head_sha" value) head_sha) || negb (py_eq (dget "name" value) name))
        GateCheckError "Check Run creation receipt is not exact";;
      mret identifier
  | _ => raise GateCheckError "Check Run creation receipt is not exact"
  end.

(** The identifiers of the rows of this App that carry the external identity. *)
Fixpoint external_matches (name head_sha external_id : string) (rows : list pyval) : result (list Z) :=
  match rows with
  | [] => Ok []
  | VDict row :: rows =>
      let own := match dget "app" row with VDict app => py_eq (dget "id" app) (VInt (ga_app_id authority)) | _ => false end in
      if py_eq (dget "name" row) (VStr name) && py_eq (dget "head_sha" row) (VStr head_sha)
         && py_eq (dget "external_id" row) (VStr external_id) && own
      then match dget "id" row with
           | VInt id =>
               gate_if (id <? 1) "reconciled Check Run identity is invalid";;
               rest ← external_matches name head_sha external_id rows; Ok (id :: rest)
           | _ => gate_fail "reconciled Check Run identity is invalid"
           end
      else external_matches name head_sha external_id rows
  | _ :: rows => external_matches name head_sha external_id rows
  end.

Definition find_by_external_id (name head_sha : pyval) (external_id : string) (token : GateToken) : M G (option Z) :=
  name ← lift (_exact_name name);
  head_sha ← lift (_exact_sha head_sha);
  external_id ← lift (_exact_external_id external_id);
  value ← gate_token_json "GET"
    ("/commits/" +:+ head_sha +:+ "/check-runs?check_name=" +:+ url_quote_path name +:+ "&filter=all&per_page=100") token 200 None;
  match dget "check_runs" value with
  | VList rows =>
      matches ← lift (external_matches name head_sha external_id rows);
      match matches with
      | [] => mret None
      | [id] => mret (Some id)
      | _ => raise GateCheckError "discard Check Run external identity is ambiguous"
      end
  | _ => raise GateCheckError "Check Run reconciliation response is invalid"
  end.

Definition conclude_check (check_run_id : pyval) (verdict : PhaseVerdict) (details_url : string) (token : GateToken)
    : M G unit :=
  raise_if (negb (bool_decide (conclusion verdict ∈ TERMINAL_CHECKS))) GateCheckError
    "Check Run conclusion is not an accepted terminal value";;
  match check_run_id with
  | VInt id =>
      raise_if (id <? 1) GateCheckError "Check Run identity must be positive";;
      now ← http_clock;
      completed ← lift (gate_stamp now);
      value ← gate_token_json "PATCH" ("/check-runs/" +:+ str_of_Z id) token 200
        (Some [("status", VStr "completed"); ("conclusion", VStr (conclusion verdict)); ("completed_at", VStr completed);
               ("details_url", VStr details_url);
               ("output", VDict [("title", VStr (title verdict)); ("summary", VStr (summary verdict))])]);
      raise_if (negb (py_eq (dget "id" value) (VInt id))
                || negb (py_eq (dget "conclusion" value) (VStr (conclusion verdict)))) GateCheckError
        "Check Run conclusion did not read back exactly"
  | _ => raise GateCheckError "Check Run identity must be positive"
  end.
End client.

(** ** The publisher *)

Class JobLog (G : Type) := { job_log : Z → M G (list string) }.

(** [except (GateCheckError, OSError)] *)
Definition is_check_error (c : exn_class) : bool := bool_decide (c = GateCheckError ∨ c = OSError).

(** [type(exc).__name__] of the classes this catches. *)
Definition check_error_name (c : exn_class) : string :=
  if bool_decide (c = OSError) then "OSError" else "GateCheckError".

Definition verdict_of (phase : string) (verdicts : list (string * PhaseVerdict)) : option PhaseVerdict :=
  snd <$> List.find (λ pv, bool_decide (pv.1 = phase)) verdicts.

Section publisher.
Context {G : Type} {T : HTTPTransport G} {L : JobLog G} {D : Digest}.
Context (authority : GateAppAuthorityV1).

Definition start_summary (phase head_sha : string) : string :=
  "The " +:+ phase_quoted phase +:+ " phase of the reviewed Overworld CI profile is running on the self-hosted Windows runner, against the exact merge of this pull request head ("
  +:+ String.substring 0 8 head_sha +:+ ").".

Fixpoint start_each (phases : list (string * string)) (head_sha details_url : string) (token : GateToken) : M G dict :=
  match phases with
  | [] => mret []
  | (phase, name) :: phases =>
      id ← create_in_progress authority (VStr name) (VStr head_sha) details_url (start_summary phase head_sha) token None;
      opened ← start_each phases head_sha details_url token;
      mret ((name, VInt id) :: opened)
  end.
(** [start] *)
Definition publisher_start (head_sha details_url : string) : M G dict :=
  token ← gate_authenticate authority;
  start_each PHASE_CHECK_NAMES head_sha details_url token.

Fixpoint apply_each (phases : list (string * string)) (checks : dict) (verdicts : list (string * PhaseVerdict))
    (details_url : string) (token : GateToken) : M G (list (string * string)) :=
  match phases with
  | [] => mret []
  | (phase, name) :: phases =>
      match dget name checks, verdict_of phase verdicts with
      | VNone, _ | _, None => apply_each phases checks verdicts details_url token
      | check_run_id, Some verdict =>
          conclude_check authority check_run_id verdict details_url token;;
          applied ← apply_each phases checks verdicts details_url token;
          mret ((name, conclusion verdict) :: applied)
      end
  end.
(** [_apply] *)
Definition publisher_apply (checks : dict) (verdicts : list (string * PhaseVerdict)) (details_url : string)
    : M G (list (string * string)) :=
  token ← gate_authenticate authority;
  apply_each PHASE_CHECK_NAMES checks verdicts details_url token.

(** The verdicts the log supports. *)
Definition read_verdicts (job_id : Z) (job_conclusion details_url : string) : M G (list (string * PhaseVerdict)) :=
  chunks ← job_log job_id;
  observed ← lift (parse_phase_evidence chunks);
  lift (phase_verdicts job_conclusion observed PROFILE_PHASES details_url).
(** [conclude] *)
Definition publisher_conclude (checks : dict) (job_id : Z) (job_conclusion details_url : string)
    : M G (list (string * string)) :=
  read ← attempt (read_verdicts job_id job_conclusion details_url);
  match read with
  | Ok verdicts => publisher_apply checks verdicts details_url
  | Raise e =>
      if is_check_error (exn_cls e)
      then publisher_apply checks
             (abandoned_verdicts ("the job log could not be read (" +:+ check_error_name (exn_cls e) +:+ ")") details_url)
             details_url
      else reraise e
  end.

(** [abandon] *)
Definition publisher_abandon (checks : dict) (reason details_url : string) : M G (list (string * string)) :=
  publisher_apply checks (abandoned_verdicts reason details_url) details_url.

Fixpoint discard_each (verdicts : list (string * PhaseVerdict)) (phases : list (string * string)) (checks : dict)
    (details_url : string) (token : GateToken) : M G unit :=
  match phases with
  | [] => mret tt
  | (phase, name) :: phases =>
      match dget name checks, verdict_of phase verdicts with
      | VInt id, Some verdict =>
          conclude_check authority (VInt id) verdict details_url token;;
          discard_each verdicts phases checks details_url token
      | _, _ => raise GateCheckError "published Check Run identity is missing"
      end
  end.
(** [discard] *)
Definition publisher_discard (checks : dict) (reason details_url : string) : M G unit :=
  token ← gate_authenticate authority;
  discard_each (superseded_verdicts reason details_url) PHASE_CHECK_NAMES checks details_url token.

Section discarded.
Context (record_pending : string → M G unit) (record_created : string → Z → M G unit) (record_completed : string → M G unit).
Context (head_sha reason details_url scope : string) (checks : dict) (completed : list string) (token : GateToken).

(** The Check Run of a phase: known, found again by its external identity, or
    opened now. *)
Definition discard_identifier (phase name : string) : M G pyval :=
  match dget name checks with
  | VNone =>
      record_pending name;;
      let external_id := _discard_external_id scope name in
      found ← find_by_external_id authority (VStr name) (VStr head_sha) external_id token;
      id ← match found with
           | Some id => mret id
           | None => create_in_progress authority (VStr name) (VStr head_sha) details_url
                       ("The " +:+ phase_quoted phase +:+ " phase was discarded before allocation.") token (Some external_id)
           end;
      record_created name id;;
      mret (VInt id)
  | known => mret known
  end.

Fixpoint publish_each (phases : list (string * string)) : M G unit :=
  match phases with
  | [] => mret tt
  | (phase, name) :: phases =>
      if bool_decide (name ∈ completed) then publish_each phases
      else
        check_run_id ← discard_identifier phase name;
        match verdict_of phase (superseded_verdicts reason details_url) with
        | Some verdict => conclude_check authority check_run_id verdict details_url token
        | None => raise KeyError phase
        end;;
        record_completed name;;
        publish_each phases
  end.
End discarded.

(** [publish_discarded] *)
Definition publish_discarded (record_pending : string → M G unit) (record_created : string → Z → M G unit)
    (record_completed : string → M G unit) (head_sha reason details_url scope : string) (checks : dict)
    (completed : list string) : M G unit :=
  token ← gate_authenticate authority;
  raise_if (negb (nonempty scope) || (512 <? py_len scope)%nat) GateCheckError "discard Check Run scope is invalid";;
  publish_each record_pending record_created record_completed head_sha reason details_url scope checks completed token
    PHASE_CHECK_NAMES.
End publisher.

(** ** Cutting the log into chunks changes nothing *)

Definition is_phase_name (p : string) : Prop := all_chars is_phase_char p = true ∧ (1 ≤ String.length p ≤ 32)%nat.
Definition marker (p : string) : string := line_open +:+ p +:+ line_close.

Lemma str_len_app a b : String.length (a +:+ b) = (String.length a + String.length b)%nat.
Proof. induction a as [|c a IH]; [done|]. rewrite str_cons_app. cbn [String.length]. by rewrite IH. Qed.

Lemma strip_prefix_iff p s r : strip_prefix p s = Some r ↔ s = p +:+ r.
Proof.
  revert s. induction p as [|c p IH]; intros s; [cbn; rewrite str_nil_app; naive_solver|].
  rewrite str_cons_app. destruct s as [|d s]; [done|]. cbn [strip_prefix].
  destruct (Ascii.eqb_spec c d) as [->|Hne]; [rewrite IH; naive_solver|naive_solver].
Qed.

Lemma span_iff p s a b :
  span p s = (a, b) ↔ s = a +:+ b ∧ all_chars p a = true ∧ match b with String c _ => p c = false | EmptyString => True end.
Proof.
  revert a b. induction s as [|c s IH]; intros a b; cbn [span].
  - split; [by intros [= <- <-]|]. intros (E & _). by destruct a, b.
  - destruct (p c) eqn:Ec.
    + destruct (span p s) as [a' b'] eqn:Es. destruct (proj1 (IH a' b') eq_refl) as (-> & Ha & Hb). split.
      * intros [= <- <-]. rewrite str_cons_app. cbn. by rewrite Ec.
      * intros (E & Hal & Hbl). destruct a as [|d a].
        { rewrite str_nil_app in E. subst b. cbn in Hbl. congruence. }
        rewrite str_cons_app in E. injection E as <- E. cbn in Hal. rewrite Ec in Hal. cbn in Hal.
        pose proof (proj2 (IH a b) (conj E (conj Hal Hbl))) as Hab. by injection Hab as -> ->.
    + split.
      * intros [= <- <-]. done.
      * intros (E & Hal & _). destruct a as [|d a]; [by rewrite str_nil_app in E; subst|].
        rewrite str_cons_app in E. injection E as <- _. cbn in Hal. by rewrite Ec in Hal.
Qed.

Lemma phase_here_iff s p : phase_here s = Some p ↔ is_phase_name p ∧ ∃ r, s = marker p +:+ r.
Proof.
  unfold phase_here, marker. split.
  - intros (rest & Hr & H)%bind_Some. apply strip_prefix_iff in Hr as ->. destruct (span is_phase_char rest) as [q rest'] eqn:Es.
    apply span_iff in Es as (-> & Hq & _). destruct (_ && _) eqn:El; [|done]. apply andb_true_iff in El as [L1 L2].
    apply bind_Some in H as (r & Hc & [= ->]). apply strip_prefix_iff in Hc as ->.
    apply Nat.leb_le in L1, L2. split; [done|]. exists r. by rewrite !str_app_assoc.
  - intros [[Hp [L1 L2]] [r ->]]. rewrite !str_app_assoc. rewrite (proj2 (strip_prefix_iff _ _ _) eq_refl). cbn [mbind option_bind].
    assert (span is_phase_char (p +:+ line_close +:+ r) = (p, line_close +:+ r)) as ->.
    { apply span_iff. split; [done|]. split; [done|]. reflexivity. }
    apply Nat.leb_le in L1, L2. rewrite L1, L2. cbn [andb].
    by rewrite (proj2 (strip_prefix_iff _ _ _) eq_refl).
Qed.

Lemma marker_length p : is_phase_name p → (String.length (marker p) ≤ 64)%nat.
Proof. intros [_ Hl]. unfold marker. rewrite !str_len_app. change (String.length line_open) with 10%nat.
  change (String.length line_close) with 22%nat. lia. Qed.

(** Two ways to cut a text: one cut is to the left of the other. *)
Lemma app_cut a b c d :
  a +:+ b = c +:+ d → (String.length a ≤ String.length c)%nat → ∃ x, c = a +:+ x ∧ b = x +:+ d.
Proof.
  revert c. induction a as [|h a IH]; intros c E Hl; [by exists c|].
  destruct c as [|k c]; [cbn in Hl; lia|]. rewrite !str_cons_app in E. injection E as <- E. cbn in Hl.
  destruct (IH c E ltac:(lia)) as (x & -> & ->). exists x. by rewrite str_cons_app.
Qed.

(** A brace opens a marker and occurs nowhere else in it. *)
Lemma marker_brace p : is_phase_name p → ∃ t, marker p = String "{" t ∧ lacks "{" t = true.
Proof.
  intros [Hp _]. eexists. split; [unfold marker, line_open; rewrite !str_app_assoc, str_cons_app, str_nil_app; reflexivity|].
  rewrite !lacks_app. assert (lacks "{" p = true) as ->; [|reflexivity].
  clear -Hp. induction p as [|c p IH]; [done|]. cbn [lacks all_chars] in *.
  apply andb_true_iff in Hp as [Hc Hp]. rewrite IH by done.
  destruct (Ascii.eqb_spec "{" c) as [<-|]; [by vm_compute in Hc|done].
Qed.

(** What is found at the positions of [a] when [b] follows. *)
Fixpoint scan_in (a b : string) : list string :=
  match a with
  | EmptyString => []
  | String _ a' => option_list (phase_here (a +:+ b)) ++ scan_in a' b
  end.

Lemma scan_app a b : scan (a +:+ b) = scan_in a b ++ scan b.
Proof.
  induction a as [|c a IH]; [done|]. cbn [scan_in]. rewrite <- app_assoc, <- IH. by rewrite str_cons_app.
Qed.
Lemma scan_alone a : scan a = scan_in a "".
Proof. rewrite <- (str_app_nil a) at 1. rewrite scan_app. cbn. by rewrite app_nil_r. Qed.

Lemma phase_here_app s t p : phase_here s = Some p → phase_here (s +:+ t) = Some p.
Proof.
  rewrite !phase_here_iff. intros [Hp [r ->]]. split; [done|]. exists (r +:+ t). by rewrite str_app_assoc.
Qed.

Lemma phase_here_long s t : (64 ≤ String.length s)%nat → phase_here (s +:+ t) = phase_here s.
Proof.
  intros Hl. destruct (phase_here s) as [p|] eqn:E; [by apply phase_here_app|].
  destruct (phase_here (s +:+ t)) as [p|] eqn:E'; [|done]. exfalso.
  apply phase_here_iff in E' as [Hp [r Er]]. pose proof (marker_length p Hp) as Hm.
  symmetry in Er. apply app_cut in Er as (x & -> & _); [|lia].
  assert (phase_here (marker p +:+ x) = Some p) as E2 by (apply phase_here_iff; eauto). congruence.
Qed.

Lemma scan_in_long a b c : (64 ≤ String.length b)%nat → scan_in a (b +:+ c) = scan_in a b.
Proof.
  intros Hb. induction a as [|x a IH]; [done|]. cbn [scan_in]. rewrite IH. f_equal. f_equal.
  rewrite <- str_app_assoc. apply phase_here_long. rewrite str_len_app. lia.
Qed.

Lemma scan_in_no_brace a b : lacks "{" a = true → scan_in a b = [].
Proof.
  induction a as [|c a IH]; [done|]. cbn [lacks]. intros [Hc Ha]%andb_true_iff. cbn [scan_in]. rewrite IH by done.
  destruct (phase_here (String c a +:+ b)) as [p|] eqn:E; [|done]. exfalso.
  apply phase_here_iff in E as [Hp [r Er]]. destruct (marker_brace p Hp) as (t & Et & _).
  rewrite Et, !str_cons_app in Er. injection Er as -> _. done.
Qed.

(** What a piece shows alone comes first in what it shows with the rest. *)
Lemma scan_in_prefix a b : ∃ l, scan_in a b = scan_in a "" ++ l.
Proof.
  induction a as [|c a [l IH]]; [by exists []|]. cbn [scan_in]. rewrite str_app_nil.
  destruct (phase_here (String c a)) as [p|] eqn:E.
  - rewrite (phase_here_app _ b p E), IH. exists l. by rewrite app_assoc.
  - destruct (phase_here (String c a +:+ b)) as [p|] eqn:E'; [|by exists l].
    exists (p :: scan_in a b). assert (scan_in a "" = []) as ->; [|done].
    apply phase_here_iff in E' as [Hp [r Er]]. apply scan_in_no_brace.
    destruct (le_lt_dec (String.length (marker p)) (String.length (String c a))) as [Hle|Hlt].
    + exfalso. symmetry in Er. apply app_cut in Er as (x & Ex & _); [|done].
      assert (phase_here (String c a) = Some p) by (apply phase_here_iff; eauto). congruence.
    + apply app_cut in Er as (x & Ex & _); [|lia]. destruct (marker_brace p Hp) as (t & Et & Ht).
      rewrite Et, str_cons_app in Ex. injection Ex as _ ->. rewrite lacks_app in Ht. by apply andb_true_iff in Ht as [? _].
Qed.

(** Seeing again what was seen changes nothing. *)
Lemma observe_elem o p q : q ∈ o → q ∈ observe o p.
Proof. unfold observe. destruct (_ && _); set_solver. Qed.
Lemma observe_fold_elem l o q : q ∈ o → q ∈ foldl observe o l.
Proof. revert o. induction l as [|p l IH]; [done|]. intros o Hq. apply IH. by apply observe_elem. Qed.
Lemma observe_all l o q : q ∈ l → q ∈ PROFILE_PHASES → q ∈ foldl observe o l.
Proof.
  revert o. induction l as [|p l IH]; intros o; [by intros ?%not_elem_of_nil|]. rewrite elem_of_cons. intros [->|Hq] Hp; [|by apply IH].
  cbn [foldl]. apply observe_fold_elem. unfold observe. rewrite bool_decide_eq_true_2 by done. case_bool_decide as Ho; cbn; [set_solver|].
  by destruct (decide (p ∈ o)).
Qed.
Lemma observe_seen l o : (∀ q, q ∈ l → q ∈ PROFILE_PHASES → q ∈ o) → foldl observe o l = o.
Proof.
  induction l as [|p l IH]; intros Hl; [done|]. cbn. assert (observe o p = o) as ->; [|by apply IH; set_solver].
  unfold observe. repeat case_bool_decide; try done. exfalso. set_solver.
Qed.

Lemma drop_bytes_app n s : ∃ h, s = h +:+ drop_bytes n s ∧ (String.length h = Nat.min n (String.length s))%nat.
Proof.
  revert s. induction n as [|n IH]; intros s; [by exists ""; destruct s|].
  destruct s as [|c s]; [by exists ""|]. destruct (IH s) as (h & E & Hl). exists (String c h). cbn [drop_bytes].
  rewrite str_cons_app, <- E. cbn. by rewrite Hl.
Qed.
Lemma last64_app s : ∃ h, s = h +:+ last64 s ∧ (h = "" ∨ String.length (last64 s) = 64%nat).
Proof.
  unfold last64. destruct (drop_bytes_app (String.length s - 64) s) as (h & E & Hl). exists h. split; [done|].
  rewrite E, str_len_app in Hl. destruct h as [|c h]; [by left|]. right.
  pose proof (f_equal String.length E) as El. rewrite str_len_app in El. cbn [String.length] in *. lia.
Qed.

Lemma drop_bytes_skip a s n : drop_bytes (String.length a + n) (a +:+ s) = drop_bytes n s.
Proof. induction a as [|c a IH]; [done|]. rewrite str_cons_app. cbn. apply IH. Qed.

Lemma last64_twice h t c : h = "" ∨ String.length t = 64%nat → last64 (h +:+ t +:+ c) = last64 (t +:+ c).
Proof.
  intros [->|Hl]; [done|]. unfold last64. rewrite !str_len_app.
  replace (String.length h + (String.length t + String.length c) - 64)%nat
    with (String.length h + (String.length t + String.length c - 64))%nat by lia.
  apply drop_bytes_skip.
Qed.

Definition seen (log : string) : list string := foldl observe [] (scan log).

(** One chunk, read after a tail. *)
Lemma chunk_step log chunk :
  foldl observe (seen log) (scan (last64 log +:+ chunk)) = seen (log +:+ chunk).
Proof.
  destruct (last64_app log) as (h & E & Hh). set (t := last64 log) in *. rewrite E. unfold seen.
  rewrite str_app_assoc, !(scan_app h), (scan_app t), (scan_alone t).
  destruct (scan_in_prefix t chunk) as (l & ->).
  assert (scan_in h (t +:+ chunk) = scan_in h t) as ->.
  { destruct Hh as [->|Hh]; [done|]. apply scan_in_long. lia. }
  rewrite <- !app_assoc, !foldl_app. f_equal. f_equal.
  apply observe_seen. intros q Hq Hp. by apply observe_all.
Qed.

Definition whole (chunks : list string) : string := foldr (λ c t, c +:+ t) "" chunks.

Lemma read_chunks_whole chunks log total :
  total = Z.of_nat (String.length log) → total ≤ MAX_LOG_BYTES →
  read_chunks chunks (seen log) (last64 log) total =
    if MAX_LOG_BYTES <? Z.of_nat (String.length (log +:+ whole chunks))
    then gate_fail "job log exceeded the readable bound" else Ok (seen (log +:+ whole chunks)).
Proof.
  revert log total. induction chunks as [|chunk chunks IH]; intros log total -> Hle; cbn [read_chunks whole foldr].
  { rewrite str_app_nil. destruct (Z.ltb_spec MAX_LOG_BYTES (Z.of_nat (String.length log))); [lia|done]. }
  unfold gate_if, check. fold (whole chunks). rewrite <- str_app_assoc.
  destruct (Z.ltb_spec MAX_LOG_BYTES (Z.of_nat (String.length log) + Z.of_nat (String.length chunk))) as [Hlt|Hge].
  - cbn [mbind result_bind]. rewrite !str_len_app. destruct (Z.ltb_spec MAX_LOG_BYTES
      (Z.of_nat (String.length log + String.length chunk + String.length (whole chunks)))); [done|lia].
  - cbn [mbind result_bind]. rewrite chunk_step. destruct (last64_app log) as (h & E & Hh).
    assert (last64 (last64 log +:+ chunk) = last64 (log +:+ chunk)) as ->.
    { rewrite E at 2. rewrite str_app_assoc. symmetry. by apply last64_twice. }
    apply IH; [rewrite str_len_app; lia|done].
Qed.

(** C31: Reading a job log in chunks, with 64 bytes carried over, sees exactly
    what one pass over the whole log would: each reviewed phase whose line is in
    the log, once, in the order of first appearance; and a log over the bound is
    refused however it is cut. *)
Theorem chunked_log_is_whole_log chunks :
  parse_phase_evidence chunks =
    if MAX_LOG_BYTES <? Z.of_nat (String.length (whole chunks))
    then gate_fail "job log exceeded the readable bound"
    else Ok (foldl observe [] (scan (whole chunks))).
Proof. exact (read_chunks_whole chunks "" 0 eq_refl ltac:(done)). Qed.

(** ** What a published success rests on *)

Lemma scan_elem s p : p ∈ scan s → ∃ a r, s = a +:+ marker p +:+ r.
Proof.
  assert (∀ s p, p ∈ option_list (phase_here s) → ∃ a r, s = a +:+ marker p +:+ r) as Hhere.
  { intros s0 p0 H. destruct (phase_here s0) as [q|] eqn:E; cbn in H; [|by apply not_elem_of_nil in H].
    apply list_elem_of_singleton in H as ->. apply phase_here_iff in E as [_ [r ->]]. by exists "", r. }
  induction s as [|c s IH]; cbn [scan]; rewrite elem_of_app; intros [H|H]; [eauto|by apply not_elem_of_nil in H|eauto|].
  destruct (IH H) as (a & r & ->). exists (String c a), r. by rewrite str_cons_app.
Qed.

Lemma observe_fold_from l o q : q ∈ foldl observe o l → q ∈ o ∨ q ∈ l.
Proof.
  revert o. induction l as [|p l IH]; intros o H; [by left|]. cbn [foldl] in H. apply IH in H as [H|H]; [|set_solver].
  unfold observe in H. destruct (_ && _); set_solver.
Qed.

Definition next_phase (phase : string) : option string :=
  match phase with "backend" => Some "frontend" | "frontend" => Some "e2e" | _ => None end%string.

Lemma verdicts_two c observed url vs :
  phase_verdicts c observed PROFILE_PHASES url = Ok vs →
  ∃ b f, vs = [("backend", verdict_for c "backend" url b false); ("frontend", verdict_for c "frontend" url f (negb b))] ∧
    b = bool_decide (c = "success") || bool_decide ("frontend" ∈ observed) ∧
    f = bool_decide (c = "success") || bool_decide ("e2e" ∈ observed).
Proof.
  intros H. apply result_bind_ok in H as (? & _ & H). apply result_bind_ok in H as (? & _ & [= <-]).
  eexists _, _. split; [reflexivity|done].
Qed.

Lemma verdict_success c phase url passed before :
  conclusion (verdict_for c phase url passed before) = "success" ↔ passed = true.
Proof. unfold verdict_for. destruct passed; [done|]. repeat case_match; done. Qed.

(** C32: From a job log exactly the two named phases get a verdict, each with a
    conclusion GitHub accepts; a phase is published as passed only if the whole
    job succeeded or the measurement line of the phase after it is in the log;
    and the second is published as never reached only after the first failed. *)
Theorem success_is_evidenced chunks observed c url vs :
  parse_phase_evidence chunks = Ok observed → phase_verdicts c observed PROFILE_PHASES url = Ok vs →
  vs.*1 = PHASE_CHECK_NAMES.*1 ∧
  (∀ phase v, (phase, v) ∈ vs → conclusion v ∈ TERMINAL_CHECKS) ∧
  (∀ phase v, (phase, v) ∈ vs → conclusion v = "success" →
     c = "success" ∨ ∃ next a r, next_phase phase = Some next ∧ whole chunks = a +:+ marker next +:+ r) ∧
  (∀ v, ("frontend", v) ∈ vs → conclusion v = "skipped" → ∃ w, ("backend", w) ∈ vs ∧ conclusion w ≠ "success").
Proof.
  intros Hp Hv. unfold parse_phase_evidence in Hp. change [] with (seen "") in Hp.
  change (read_chunks chunks (seen "") "" 0) with (read_chunks chunks (seen "") (last64 "") 0) in Hp.
  rewrite (read_chunks_whole chunks "" 0 eq_refl) in Hp by done. rewrite str_nil_app in Hp.
  destruct (_ <? _); [done|]. injection Hp as <-.
  assert (∀ q, q ∈ seen (whole chunks) → ∃ a r, whole chunks = a +:+ marker q +:+ r) as Hin.
  { intros q [Hq|Hq]%observe_fold_from; [by apply not_elem_of_nil in Hq|by apply scan_elem]. }
  apply verdicts_two in Hv as (b & f & -> & Hb & Hf). split; [done|]. split; [|split].
  - intros phase v Hv. assert (∃ p u w, v = verdict_for c phase u p w) as (p & u & w & ->) by set_solver.
    unfold verdict_for, TERMINAL_CHECKS. repeat case_match; cbn; set_solver.
  - intros phase v Hv Hs. rewrite elem_of_cons, list_elem_of_singleton in Hv.
    destruct Hv as [[= -> ->]|[= -> ->]]; apply verdict_success in Hs; subst; apply orb_true_iff in Hs as [Hs|Hs]; bool_inv;
      [by left|right|by left|right]; (destruct (Hin _ Hs) as (a & r & E); eexists _, a, r; split; [reflexivity|exact E]).
  - intros v Hv Hs. eexists. split; [apply elem_of_cons; left; reflexivity|]. rewrite verdict_success.
    intros ->. rewrite elem_of_cons, list_elem_of_singleton in Hv. destruct Hv as [[=]|[= ->]].
    unfold verdict_for in Hs. cbn in Hs. by repeat case_match.
Qed.

(** Evidence of the last phase alone, which a sequential run reaches only through
    the others, still publishes the first one as failed. *)
Example later_evidence_ignored :
  phase_verdicts "failure" ["e2e"] PROFILE_PHASES "log" =
  Ok [("backend", verdict_failed "backend" "log"); ("frontend", verdict_passed "frontend" "log")].
Proof. vm_compute. reflexivity. Qed.

Definition toy_log : list string := ["setup " +:+ line_open; "frontend" +:+ line_close +:+ "1}"].
Lemma success_is_evidenced_witness :
  parse_phase_evidence toy_log = Ok ["frontend"] ∧
  ("backend", verdict_passed "backend" "log") ∈ verdicts_from "failure" "log" ["frontend"] PROFILE_PHASES false ∧
  conclusion (verdict_passed "backend" "log") ∈ TERMINAL_CHECKS.
Proof.
  assert (parse_phase_evidence toy_log = Ok ["frontend"]) as Hp by (vm_compute; reflexivity).
  assert (phase_verdicts "failure" ["frontend"] PROFILE_PHASES "log" =
    Ok (verdicts_from "failure" "log" ["frontend"] PROFILE_PHASES false)) as Hv by (vm_compute; reflexivity).
  assert (("backend", verdict_passed "backend" "log") ∈ verdicts_from "failure" "log" ["frontend"] PROFILE_PHASES false)
    as Hin by (apply elem_of_cons; left; vm_compute; reflexivity).
  split; [exact Hp|]. split; [exact Hin|].
  exact (proj1 (proj2 (success_is_evidenced toy_log ["frontend"] "failure" "log" _ Hp Hv)) _ _ Hin).
Defined.
