(* ===== verification/LocalApproval.v ===== *)
(** * The approval store (local_approval.py)

    Durable approvals of exact pull request heads.  The database is a record of
    three tables; every statement or BEGIN IMMEDIATE block is one function of
    it, and an operation is a sequence of those over a larger state that also
    holds the gate store, the request in hand and an abstract host.  The host
    (the class [ApprovalHost]) resolves targets, builds requests, draws
    identifiers and tells the time; [others] is what other processes do to the
    database between two statements.  The clock is the default one, in UTC.

    Requests and results are stored as [json.dumps] with its ASCII output. *)

From stdpp Require Import gmap sorting.
From S2P Require Import Prelude Datetime PyValue PyText Json Digest Sql Allocation Protocol GateStore JitPilot.
#[local] Open Scope Z_scope.

Definition approval_fail {A} (msg : string) : result A := throw LocalApprovalError msg.
Definition approval_if (b : bool) (msg : string) : result unit := check b LocalApprovalError msg.

(** A text of 40 lowercase hexadecimal digits. *)
Definition is_full_sha (v : pyval) : bool := is_str_where is_sha1 v.

(** ** Targets and their resolution *)

Record ResolvedApprovalTarget := {
  tg_repository_id : string;
  tg_repository : string;
  tg_pr_number : Z;
  tg_head_sha : string;
  tg_default_branch : string;
  tg_workflow_ref : string;
  tg_base_sha : string;
  tg_tested_merge_sha : string;
}.
#[export] Instance target_eq_dec : EqDecision ResolvedApprovalTarget.
Proof. solve_decision. Defined.

(** What the resolver uses of the worker's GitHub client. *)
Class WorkerGitHubClient (G : Type) := {
  authority_repository_id : Z;
  authority_repository : string;
  authority_default_branch : string;
  authority_workflow_path : string;
  client_token : Type;
  authenticate : M G client_token;
  client_repository : client_token → M G dict;
  default_branch_head : client_token → M G string;
  client_pull_request : Z → client_token → M G dict;
  pull_request_snapshot : Z → client_token → M G dict;
  client_workflow : client_token → M G dict;
  potential_merge_commit : Z → client_token → M G string;
  merge_commit_parents : string → client_token → M G (list string);
}.

(** [pr["head"]["sha"]] *)
Definition head_sha_of (pr : dict) : result pyval :=
  head ← ditem "head" pr;
  match head with VDict head => ditem "sha" head | _ => throw TypeError "not subscriptable" end.

Section resolver.
Context {G : Type} `{Client : !WorkerGitHubClient G}.

Definition merge_of (pr : dict) (pr_number : Z) (token : client_token) : M G string :=
  match is_full_sha (dget "merge_commit_sha" pr), dget "merge_commit_sha" pr with
  | true, VStr merge => mret merge
  | _, _ => potential_merge_commit pr_number token
  end.

(** [WorkerAuthorityResolver.resolve] *)
Definition authority_resolve (repository : string) (pr_number : Z) : M G ResolvedApprovalTarget :=
  raise_if (negb (bool_decide (repository = authority_repository))) LocalApprovalError
    "repository is not the exact selected GitHub App repository";;
  token ← authenticate;
  client_repository token;;
  base ← default_branch_head token;
  pr ← client_pull_request pr_number token;
  client_workflow token;;
  merge ← merge_of pr pr_number token;
  raise_if (negb (is_sha1 merge)) LocalApprovalError "pull request lacks exact base or tested merge SHA";;
  parents ← merge_commit_parents merge token;
  head ← lift (head_sha_of pr);
  raise_if (negb (py_eq (VList (VStr <$> parents)) (VList [VStr base; head]))) LocalApprovalError
    "GitHub merge ref is stale relative to the live default branch; update the pull request branch before retrying";;
  mret {| tg_repository_id := str_of_Z authority_repository_id;
          tg_repository := authority_repository;
          tg_pr_number := pr_number;
          tg_head_sha := default "" (text_of head);
          tg_default_branch := authority_default_branch;
          tg_workflow_ref := authority_repository +:+ "/" +:+ authority_workflow_path +:+ "@refs/heads/"
                             +:+ authority_default_branch;
          tg_base_sha := base;
          tg_tested_merge_sha := merge |}.

(** [request.get("pilot_package") or request.get("protocol_package")] *)
Definition package_of (request : dict) : pyval :=
  let pilot := dget "pilot_package" request in
  if py_truthy pilot then pilot else dget "protocol_package" request.

Definition NEWER_COMMIT : string := "a newer commit superseded this pull request head".
Definition BASE_MOVED : string := "the default branch moved before this run was admitted".
Definition MERGE_CHANGED : string := "the pull request merge ref changed before this run was admitted".
Definition PR_CLOSED : string := "the pull request was closed before this run was admitted".

(** [WorkerAuthorityResolver.supersession_reason] *)
Definition authority_supersession (request : dict) : M G (option string) :=
  match package_of request with
  | VDict package =>
      match py_eq (dget "repository" package) (VStr authority_repository), dget "pr_number" package with
      | true, VInt pr_number =>
          token ← authenticate;
          client_repository token;;
          base ← default_branch_head token;
          pr ← pull_request_snapshot pr_number token;
          if negb (py_eq (dget "state" pr) (VStr "open")) then mret (Some PR_CLOSED)
          else
            head ← lift (head_sha_of pr);
            if negb (py_eq head (dget "head_sha" package)) then mret (Some NEWER_COMMIT)
            else if negb (py_eq (VStr base) (dget "base_sha" package)) then mret (Some BASE_MOVED)
            else
              merge ← merge_of pr pr_number token;
              mret (if negb (py_eq (VStr merge) (dget "tested_merge_sha" package)) then Some MERGE_CHANGED else None)
      | _, _ => raise LocalApprovalError "approval crossed repository identity"
      end
  | _ => raise LocalApprovalError "approval package is absent during revalidation"
  end.
End resolver.

(** ** The pilot request builder *)

(** [json.dumps] with its default [ensure_ascii]: what is not printable ASCII is
    written as UTF-16 code units.  The text of [json_dumps] holds such
    characters inside string literals only. *)
Definition unicode_escape (u : N) : string := "\u" +:+ hex_of_Z 4 (Z.of_N u).
Definition ascii_escape (cp : N) : string :=
  if (cp <? 127)%N then String (ascii_of_N cp) EmptyString
  else if (cp <? 65536)%N then unicode_escape cp
  else unicode_escape (55296 + (cp - 65536) / 1024)%N +:+ unicode_escape (56320 + (cp - 65536) mod 1024)%N.
Definition ensure_ascii (s : string) : string := foldr (λ cp t, ascii_escape cp +:+ t) "" (code_points s).
Definition dumps (v : pyval) : string := ensure_ascii (json_dumps v).

(** [int(s)] of a decimal identifier; the other spellings Python reads do not
    occur as repository identifiers. *)
Definition int_of_id (s : string) : result Z :=
  if match_some is_digit s then int_of_text s else throw ValueError "invalid literal for int() with base 10".

Record PilotWorkRequestBuilder := { image_fingerprint : string; authority_kind : string; runner_group : pyval }.

Definition is_group : pyval → bool := is_str_where (λ s, stripped s && is_runner_group s).

(** [PilotWorkRequestBuilder.__init__] *)
Definition pilot_builder (image_fingerprint authority_kind : string) (runner_group : pyval) : result PilotWorkRequestBuilder :=
  approval_if (negb (is_sha256 image_fingerprint)) "pilot image fingerprint must be lowercase SHA-256";;
  (if bool_decide (authority_kind = "personal-repository") then
     approval_if (negb (is_none runner_group)) "personal pilot authority cannot name a runner group"
   else if bool_decide (authority_kind = "organization-runner-group") then
     approval_if (negb (is_group runner_group)) "organization pilot authority requires an exact runner group"
   else approval_fail "pilot authority kind is invalid");;
  Ok {| image_fingerprint := image_fingerprint; authority_kind := authority_kind; runner_group := runner_group |}.

Section builder.
Context {D : Digest}.

Definition reservation_document (b : PilotWorkRequestBuilder) (target : ResolvedApprovalTarget)
    (allocation_id nonce issued expires : string) : dict :=
  [("allocation_reservation_version", VInt 2);
   ("allocation_id", VStr allocation_id);
   ("repository_id", VStr (tg_repository_id target));
   ("repository", VStr (tg_repository target));
   ("pr_number", VInt (tg_pr_number target));
   ("head_sha", VStr (tg_head_sha target));
   ("base_sha", VStr (tg_base_sha target));
   ("workflow_ref", VStr (tg_workflow_ref target));
   ("job_name", VStr "local-quality");
   ("authority_kind", VStr (authority_kind b));
   ("runner_group", runner_group b);
   ("scale_set_name", VStr "");
   ("labels", VList []);
   ("image_fingerprint", VStr (image_fingerprint b));
   ("nonce", VStr nonce);
   ("approval_issued_at", VStr issued);
   ("approval_expires_at", VStr expires);
   ("max_jobs", VInt 1);
   ("ephemeral", VBool true)].

Definition package_document (target : ResolvedApprovalTarget) (repository_id : Z)
    (allocation_id label issued expires : string) : dict :=
  [("jit_pilot_package_version", VInt 1);
   ("repository", VStr (tg_repository target));
   ("repository_id", VInt repository_id);
   ("pr_number", VInt (tg_pr_number target));
   ("base_branch", VStr (tg_default_branch target));
   ("base_sha", VStr (tg_base_sha target));
   ("head_sha", VStr (tg_head_sha target));
   ("tested_merge_sha", VStr (tg_tested_merge_sha target));
   ("workflow_ref", VStr (tg_workflow_ref target));
   ("backend", VStr "local");
   ("allocation_id", VStr allocation_id);
   ("runner_label", VStr label);
   ("issued_at", VStr issued);
   ("expires_at", VStr expires)].

(** [build], given the identifier it draws. *)
Definition pilot_build (b : PilotWorkRequestBuilder) (allocation_id : string) (target : ResolvedApprovalTarget)
    (request_id nonce : string) (now ttl : Z) : result dict :=
  expires ← dt_add now ttl;
  let issued_at := stamp_text now in
  let expires_at := stamp_text expires in
  let reservation := reservation_document b target allocation_id nonce issued_at expires_at in
  name ← allocation_scale_set_name reservation;
  let reservation := dset "labels" (VList [VStr name]) (dset "scale_set_name" (VStr name) reservation) in
  repository_id ← int_of_id (tg_repository_id target);
  let package := package_document target repository_id allocation_id name issued_at expires_at in
  pilot_from_mapping (VDict package) (utc now);;
  Ok [("request_id", VStr request_id); ("pilot_package", VDict package); ("reservation", VDict reservation)].
End builder.

(** ** Requests *)

(** [str(v)]; the text of a container is no identifier. *)
Definition py_str (v : pyval) : option string :=
  match v with
  | VNone => Some "None" | VBool true => Some "True" | VBool false => Some "False"
  | VInt n => Some (str_of_Z n) | VStr s => Some s
  | VList _ | VDict _ => None
  end.

Definition package_branch (package : dict) : pyval := 
  default (dget "default_branch" package) (dlookup "base_branch" package).

(** [_request_matches_target] *)
Definition request_matches_target (request : pyval) (target : ResolvedApprovalTarget) : bool :=
  match request with
  | VDict request =>
      match package_of request, dget "reservation" request with
      | VDict package, VDict reservation =>
          bool_decide (py_str (dget "repository_id" package) = Some (tg_repository_id target))
          && py_eq (dget "repository" package) (VStr (tg_repository target))
          && py_eq (dget "pr_number" package) (VInt (tg_pr_number target))
          && py_eq (dget "head_sha" package) (VStr (tg_head_sha target))
          && py_eq (package_branch package) (VStr (tg_default_branch target))
          && py_eq (dget "workflow_ref" reservation) (VStr (tg_workflow_ref target))
          && py_eq (dget "base_sha" package) (VStr (tg_base_sha target))
          && py_eq (dget "tested_merge_sha" package) (VStr (tg_tested_merge_sha target))
      | _, _ => false
      end
  | _ => false
  end.

Section validation.
Context {D : Digest}.

(** What the reservation must repeat of the target. *)
Definition reservation_expected (reservation : dict) (target : ResolvedApprovalTarget) (nonce : string) : dict :=
  [("repository_id", VStr (tg_repository_id target)); ("repository", VStr (tg_repository target));
   ("head_sha", VStr (tg_head_sha target)); ("workflow_ref", VStr (tg_workflow_ref target)); ("nonce", VStr nonce)]
  ++ (if py_eq (dget "allocation_reservation_version" reservation) (VInt 2)
      then [("pr_number", VInt (tg_pr_number target)); ("base_sha", VStr (tg_base_sha target))] else []).

Definition agrees (expected values : dict) : bool := forallb (λ kv, py_eq (dget kv.1 values) kv.2) expected.

Definition check_pilot_request (package reservation : dict) (target : ResolvedApprovalTarget) : result unit :=
  repository_id ← int_of_id (tg_repository_id target);
  approval_if (negb (agrees [("repository_id", VInt repository_id); ("repository", VStr (tg_repository target));
                             ("pr_number", VInt (tg_pr_number target)); ("head_sha", VStr (tg_head_sha target));
                             ("base_sha", VStr (tg_base_sha target));
                             ("tested_merge_sha", VStr (tg_tested_merge_sha target))] package))
    "pilot package crossed resolved GitHub target";;
  approval_if (negb (py_eq (dget "allocation_id" package) (dget "allocation_id" reservation))
               || negb (py_eq (dget "runner_label" package) (dget "scale_set_name" reservation)))
    "pilot package crossed reservation identity".

Definition check_protocol_request (package reservation : dict) (target : ResolvedApprovalTarget)
    (generation : Z) (nonce : string) : result unit :=
  repository_id ← int_of_id (tg_repository_id target);
  approval_if (negb (agrees [("repository_id", VInt repository_id); ("repository", VStr (tg_repository target));
                             ("pr_number", VInt (tg_pr_number target)); ("head_sha", VStr (tg_head_sha target));
                             ("generation", VInt generation)] package))
    "protocol package crossed resolved GateStore target";;
  approval_if (negb (py_eq (dget "allocation_id" package) (dget "allocation_id" reservation))
               || negb (py_eq (dget "allocation_nonce" package) (VStr nonce))
               || negb (py_eq (dget "runner_label" package) (dget "scale_set_name" reservation)))
    "protocol package crossed reservation identity".

(** [_validate_request] *)
Definition validate_request (raw : pyval) (target : ResolvedApprovalTarget) (generation : Z) (request_id nonce : string)
    (now : Z) : result dict :=
  match raw with
  | VDict raw =>
      approval_if (negb (same_set (dkeys raw) ["request_id"; "protocol_package"; "reservation"])
                   && negb (same_set (dkeys raw) ["request_id"; "pilot_package"; "reservation"]))
        "request builder must return one exact work request";;
      approval_if (negb (py_eq (dget "request_id" raw) (VStr request_id))) "authority helper crossed request identity";;
      match dget "reservation" raw with
      | VDict reservation =>
          validate_allocation_reservation reservation (utc now);;
          approval_if (negb (agrees (reservation_expected reservation target nonce) reservation))
            "reservation crossed resolved GitHub authority";;
          match dlookup "pilot_package" raw with
          | Some pilot =>
              package ← pilot_from_mapping pilot (utc now);
              check_pilot_request package reservation target;;
              Ok [("request_id", VStr request_id); ("pilot_package", VDict package);
                  ("reservation", VDict reservation)]
          | None =>
              package ← Protocol.from_mapping (dget "protocol_package" raw);
              check_protocol_request package reservation target generation nonce;;
              Ok [("request_id", VStr request_id); ("protocol_package", VDict package);
                  ("reservation", VDict reservation)]
          end
      | _ => deny "allocation reservation requires exact v1 fields"
      end
  | _ => approval_fail "request builder must return one exact work request"
  end.
End validation.

(** ** The database *)

Inductive ApprovalState := ApPending | ApClaimed | ApCompleted | ApFailed | ApExpired | ApRevoked.
#[export] Instance ApprovalState_eq_dec : EqDecision ApprovalState.
Proof. solve_decision. Defined.
Definition approval_text (s : ApprovalState) : string :=
  match s with
  | ApPending => "pending" | ApClaimed => "claimed" | ApCompleted => "completed"
  | ApFailed => "failed" | ApExpired => "expired" | ApRevoked => "revoked"
  end.
(** [state IN ('pending','claimed')] *)
Definition is_active (s : ApprovalState) : bool := bool_decide (s = ApPending ∨ s = ApClaimed).

Record ApprovalRow := {
  ap_repository : string;
  ap_pr_number : Z;
  ap_head_sha : string;
  ap_head_generation : Z;
  ap_state : ApprovalState;
  ap_request_json : string;
  ap_result_json : option string;
  ap_reason : option string;
  ap_created_at : string;
  ap_expires_at : string;
  ap_claim_until : option string;
  ap_active_key : option string;
  ap_durable : bool;
}.
#[export] Instance ApprovalRow_eq_dec : EqDecision ApprovalRow.
Proof. solve_decision. Defined.

Inductive PublicationState := PubPending | PubCreated | PubCompleted.
#[export] Instance PublicationState_eq_dec : EqDecision PublicationState.
Proof. solve_decision. Defined.

Record Approvals := MkApprovals {
  approvals : gmap string ApprovalRow;
  preflight_blocks : gmap (string * Z * string) (string * string);     (* reason, created_at *)
  discard_checks : gmap (string * string) (option Z * PublicationState);
}.
Definition no_approvals : Approvals := MkApprovals ∅ ∅ ∅.
Definition set_approvals f (s : Approvals) := MkApprovals (f (approvals s)) (preflight_blocks s) (discard_checks s).
Definition set_blocks f (s : Approvals) := MkApprovals (approvals s) (f (preflight_blocks s)) (discard_checks s).
Definition set_discards f (s : Approvals) := MkApprovals (approvals s) (preflight_blocks s) (f (discard_checks s)).

(** The columns the UPDATE statements write. *)
Definition with_state (st : ApprovalState) (reason result until key : option string) (durable : bool) (r : ApprovalRow)
    : ApprovalRow := {|
  ap_repository := ap_repository r; ap_pr_number := ap_pr_number r; ap_head_sha := ap_head_sha r;
  ap_head_generation := ap_head_generation r; ap_state := st; ap_request_json := ap_request_json r;
  ap_result_json := result; ap_reason := reason; ap_created_at := ap_created_at r; ap_expires_at := ap_expires_at r;
  ap_claim_until := until; ap_active_key := key; ap_durable := durable |}.

(** [UPDATE ... SET f WHERE request_id=? AND p], and whether a row changed. *)
Definition update_approval (p : ApprovalRow → bool) (f : ApprovalRow → ApprovalRow) (request_id : string)
    : M Approvals bool := λ s,
  match approvals s !! request_id with
  | Some row => if p row then (Ok true, set_approvals (update_row f request_id) s) else (Ok false, s)
  | None => (Ok false, s)
  end.

(** [SET state='expired',reason=?,active_key=NULL] *)
Definition expire_row (reason : string) (r : ApprovalRow) : ApprovalRow :=
  with_state ApExpired (Some reason) (ap_result_json r) (ap_claim_until r) None (ap_durable r) r.
(** [SET state='claimed',claim_until=?] *)
Definition claim_row (until : string) (r : ApprovalRow) : ApprovalRow :=
  with_state ApClaimed (ap_reason r) (ap_result_json r) (Some until) (ap_active_key r) (ap_durable r) r.
(** [SET durable=1,claim_until=?,reason=NULL] *)
Definition durable_row (until : string) (r : ApprovalRow) : ApprovalRow :=
  with_state (ap_state r) None (ap_result_json r) (Some until) (ap_active_key r) true r.
(** [SET reason=?,claim_until=?] *)
Definition retry_row (reason until : string) (r : ApprovalRow) : ApprovalRow :=
  with_state (ap_state r) (Some reason) (ap_result_json r) (Some until) (ap_active_key r) (ap_durable r) r.
(** [SET state=?,reason=?,result_json=?,claim_until=NULL,active_key=NULL] *)
Definition settle_row (st : ApprovalState) (reason result : option string) (r : ApprovalRow) : ApprovalRow :=
  with_state st reason result None None (ap_durable r) r.
(** [SET state='revoked',reason='operator-revoked',claim_until=NULL,active_key=NULL] *)
Definition revoke_row (r : ApprovalRow) : ApprovalRow :=
  with_state ApRevoked (Some "operator-revoked") (ap_result_json r) None None (ap_durable r) r.
(** [SET state='expired',reason='ttl-expired',claim_until=NULL,active_key=NULL] *)
Definition lapse_row (r : ApprovalRow) : ApprovalRow :=
  with_state ApExpired (Some "ttl-expired") (ap_result_json r) None None (ap_durable r) r.
(** [SET state='pending',claim_until=NULL] *)
Definition requeue_row (r : ApprovalRow) : ApprovalRow :=
  with_state ApPending (ap_reason r) (ap_result_json r) None (ap_active_key r) (ap_durable r) r.

(** [ORDER BY created_at DESC], and [ORDER BY created_at,request_id]. *)
Definition newer (a b : string * ApprovalRow) : Prop := String.leb (ap_created_at b.2) (ap_created_at a.2) = true.
#[export] Instance newer_dec a b : Decision (newer a b).
Proof. apply _. Defined.
Definition arrived_before (a b : string * ApprovalRow) : Prop :=
  match String.compare (ap_created_at a.2) (ap_created_at b.2) with
  | Lt => True
  | Eq => String.leb a.1 b.1 = true
  | Gt => False
  end.
#[export] Instance arrived_before_dec a b : Decision (arrived_before a b).
Proof. unfold arrived_before. destruct (String.compare _ _); apply _. Defined.

Definition rows_where (p : ApprovalRow → bool) (s : Approvals) : list (string * ApprovalRow) :=
  List.filter (λ kr, p kr.2) (map_to_list (approvals s)).

(** [WHERE repository=? AND pr_number=? AND head_sha=? AND state IN (...)] *)
Definition active_for (repository : string) (pr_number : Z) (head_sha : string) (r : ApprovalRow) : bool :=
  bool_decide (ap_repository r = repository) && bool_decide (ap_pr_number r = pr_number)
  && bool_decide (ap_head_sha r = head_sha) && is_active (ap_state r).
Definition active_row (repository : string) (pr_number : Z) (head_sha : string) (s : Approvals)
    : option (string * ApprovalRow) :=
  head (merge_sort newer (rows_where (active_for repository pr_number head_sha) s)).
Definition oldest_pending (s : Approvals) : option (string * ApprovalRow) :=
  head (merge_sort arrived_before (rows_where (λ r, bool_decide (ap_state r = ApPending)) s)).

Definition active_key_of (repository : string) (pr_number : Z) (head_sha : string) : string :=
  repository +:+ ":" +:+ str_of_Z pr_number +:+ ":" +:+ head_sha.

(** ** Statements *)

(** [now >= self._parse(text)] *)
Definition reached (now : Z) (text : string) : result bool :=
  t ← fromisoformat (str_replace "Z" "+00:00" text);
  match t with
  | Aware _ t => Ok (t <=? now)
  | Naive _ => throw TypeError "can't compare offset-naive and offset-aware datetimes"
  end.

(** The first transaction of [approve]: what is active for the head is reported,
    refused, or expired to make room. *)
Definition reconcile_active (repository : string) (pr_number : Z) (target : ResolvedApprovalTarget) (now : Z)
    : M Approvals (option (string * ApprovalState)) :=
  transaction (
    lift (bind_ints [pr_number]);;
    s ← get;
    match active_row repository pr_number (tg_head_sha target) s with
    | None => mret None
    | Some (request_id, row) =>
        existing ← lift (rewrap (λ c, bool_decide (c = ValueError)) LocalApprovalError
                           "stored active approval is invalid" (json_loads (ap_request_json row)));
        let target_matches := request_matches_target existing target in
        if ap_durable row then
          raise_if (negb target_matches) LocalApprovalError "durable approval no longer matches the resolved target";;
          mret (Some (request_id, ap_state row))
        else
          expired ← lift (reached now (ap_expires_at row));
          if expired : bool then
            changed ← update_approval (λ r, is_active (ap_state r) && negb (ap_durable r)) (expire_row "ttl-expired")
                        request_id;
            raise_if (negb changed) LocalApprovalError "approval changed while reconciling its TTL";;
            mret None
          else if target_matches then mret (Some (request_id, ap_state row))
          else if bool_decide (ap_state row = ApClaimed) then
            raise LocalApprovalError "claimed approval no longer matches the resolved target"
          else
            changed ← update_approval (λ r, bool_decide (ap_state r = ApPending) && negb (ap_durable r))
                        (expire_row "resolved-target-changed") request_id;
            raise_if (negb changed) LocalApprovalError "pending approval changed while reconciling its target";;
            mret None
    end).

(** INSERT: the primary key and the UNIQUE active key. *)
Definition insert_approval (request_id : string) (row : ApprovalRow) : M Approvals unit :=
  transaction (
    lift (bind_ints [ap_pr_number row; ap_head_generation row]);;
    s ← get;
    t ← lift (insert_row (unique_in ap_active_key (ap_active_key row) (approvals s)) request_id row (approvals s));
    modify (set_approvals (λ _, t))).

Definition new_approval (repository : string) (pr_number : Z) (head_sha : string) (generation : Z) (encoded : string)
    (now : Z) (expires : string) : ApprovalRow := {|
  ap_repository := repository; ap_pr_number := pr_number; ap_head_sha := head_sha;
  ap_head_generation := generation; ap_state := ApPending; ap_request_json := encoded; ap_result_json := None;
  ap_reason := None; ap_created_at := stamp_text now; ap_expires_at := expires; ap_claim_until := None;
  ap_active_key := Some (active_key_of repository pr_number head_sha); ap_durable := false |}.

(** What one transaction of [poll] found. *)
Inductive Polled :=
  | NothingPending
  | ExpiredOne
  | ClaimedOne (request_id : string) (row : ApprovalRow).

(** The row is as it was read, before the UPDATE. *)
Definition claim_oldest (now : Z) : M Approvals Polled :=
  transaction (
    s ← get;
    match oldest_pending s with
    | None => mret NothingPending
    | Some (request_id, row) =>
        expired ← lift (reached now (ap_expires_at row));
        if expired : bool then
          update_approval (λ _, true) (expire_row "ttl-expired") request_id;;
          mret ExpiredOne
        else
          until ← lift (dt_add now (minutes 1));
          expires ← lift (parse_timestamp (ap_expires_at row));
          update_approval (λ _, true) (claim_row (stamp_text (Z.min until expires))) request_id;;
          mret (ClaimedOne request_id row)
    end).

(** [claim] *)
Definition make_durable (request_id encoded until : string) : M Approvals unit :=
  changed ← update_approval (λ r, bool_decide (ap_state r = ApClaimed) && bool_decide (ap_request_json r = encoded))
              (durable_row until) request_id;
  raise_if (negb changed) LocalApprovalError "approval claim identity is not durable".

(** [retry] *)
Definition mark_retry (request_id reason until : string) : M Approvals unit :=
  changed ← update_approval (λ r, bool_decide (ap_state r = ApClaimed) && ap_durable r) (retry_row reason until) request_id;
  raise_if (negb changed) LocalApprovalError "durable approval cannot be retried".

(** [_set], with the states its callers pass. *)
Inductive Settlement := Complete | Fail | Expire.
Definition settled_state (t : Settlement) : ApprovalState :=
  match t with Complete => ApCompleted | Fail => ApFailed | Expire => ApExpired end.
Definition settle_approval (request_id : string) (t : Settlement) (reason : option string) (result : pyval)
    : M Approvals unit :=
  let encoded := if is_none result then None else Some (dumps result) in
  changed ← update_approval (λ r, is_active (ap_state r)) (settle_row (settled_state t) reason encoded) request_id;
  raise_if (negb changed) LocalApprovalError "approval is no longer claimable".

(** [UPDATE ... WHERE p], over the whole table, and its row count. *)
Definition update_all (p : ApprovalRow → bool) (f : ApprovalRow → ApprovalRow) : M Approvals Z := λ s,
  (Ok (Z.of_nat (length (rows_where p s))),
   set_approvals (fmap (λ r, if p r then f r else r)) s).

(** [revoke] *)
Definition revoke (repository : string) (pr_number : Z) : M Approvals dict :=
  lift (bind_ints [pr_number]);;
  changed ← update_all (λ r, bool_decide (ap_repository r = repository) && bool_decide (ap_pr_number r = pr_number)
                             && is_active (ap_state r)) revoke_row;
  mret [("repository", VStr repository); ("pr_number", VInt pr_number); ("revoked", VInt changed)].

(** The two statements of [recover_claims]. *)
Definition text_le (a b : string) : bool := String.leb a b.
Definition is_until (now : string) (o : option string) : bool :=
  match o with Some until => text_le until now | None => false end.
Definition lapse_claims (now : string) : M Approvals Z :=
  update_all (λ r, bool_decide (ap_state r = ApClaimed) && negb (ap_durable r) && text_le (ap_expires_at r) now) lapse_row.
Definition requeue_claims (now : string) : M Approvals Z :=
  update_all (λ r, bool_decide (ap_state r = ApClaimed) && negb (ap_durable r) && is_until now (ap_claim_until r)
                   && negb (text_le (ap_expires_at r) now)) requeue_row.

(** ** Preflight blocks and discarded checks *)

Definition record_preflight_block (repository pr_number head_sha reason : pyval) (now : Z) : M Approvals bool :=
  match repository, pr_number, head_sha, reason with
  | VStr repository, VInt pr_number, VStr head_sha, VStr reason =>
      raise_if (negb (is_repository repository) || (pr_number <? 1) || negb (is_sha1 head_sha) || negb (nonempty reason))
        LocalApprovalError "preflight block identity is invalid";;
      lift (bind_ints [pr_number]);;
      s ← get;
      match preflight_blocks s !! (repository, pr_number, head_sha) with
      | Some _ => mret false
      | None =>
          modify (set_blocks (insert (repository, pr_number, head_sha) (reason, stamp_text now)));;
          mret true
      end
  | _, _, _, _ => raise LocalApprovalError "preflight block identity is invalid"
  end.

Definition has_preflight_block (repository : string) (pr_number : Z) (head_sha : string) : M Approvals bool :=
  lift (bind_ints [pr_number]);;
  gets (λ s, bool_decide (is_Some (preflight_blocks s !! (repository, pr_number, head_sha)))).

Definition DISCARD_CHECKS : list string := ["backend lint + test"; "frontend lint + test"].
Definition is_scope (scope : pyval) : bool := is_str_where (λ s, nonempty s && (py_len s <=? 512)%nat) scope.

(** [_discard_identity] *)
Definition discard_identity (scope check_name : pyval) : result (string * string) :=
  match is_scope scope, scope with
  | true, VStr scope =>
      known ← py_in_set check_name (text_set DISCARD_CHECKS);
      match known, check_name with
      | true, VStr check_name => Ok (scope, check_name)
      | _, _ => approval_fail "discard Check Run identity is invalid"
      end
  | _, _ => approval_fail "discard Check Run identity is invalid"
  end.

(** The rows of a scope, by name: the names are [DISCARD_CHECKS]. *)
Definition discard_rows (scope : string) (s : Approvals) : list (string * (option Z * PublicationState)) :=
  omap (λ name, row ← discard_checks s !! (scope, name); Some (name, row)) DISCARD_CHECKS.
Definition discard_check_progress (scope : pyval) : M Approvals dict :=
  match is_scope scope, scope with
  | true, VStr scope =>
      rows ← gets (discard_rows scope);
      mret [("checks", VDict (omap (λ r : string * (option Z * PublicationState),
                                      match r.2.1 with Some id => Some (r.1, VInt id) | None => None end) rows));
            ("completed", VList ((λ r, VStr r.1) <$> List.filter (λ r, bool_decide (r.2.2 = PubCompleted)) rows))]
  | _, _ => raise LocalApprovalError "discard Check Run scope is invalid"
  end.

Definition begin_discard_check (scope check_name : pyval) : M Approvals unit :=
  key ← lift (discard_identity scope check_name);
  s ← get;
  match discard_checks s !! key with
  | Some _ => mret tt
  | None => modify (set_discards (insert key (None, PubPending)))
  end.

Definition record_discard_check (scope check_name check_run_id : pyval) : M Approvals unit :=
  key ← lift (discard_identity scope check_name);
  match is_positive_int check_run_id, check_run_id with
  | true, VInt check_run_id =>
      transaction (
        s ← get;
        match discard_checks s !! key with
        | None => raise LocalApprovalError "discard Check Run was not begun"
        | Some (recorded, _) =>
            raise_if (negb (bool_decide (recorded = None ∨ recorded = Some check_run_id))) LocalApprovalError
              "discard Check Run id changed";;
            lift (bind_ints [check_run_id]);;
            modify (set_discards (insert key (Some check_run_id, PubCreated)))
        end)
  | _, _ => raise LocalApprovalError "discard Check Run id is invalid"
  end.

Definition complete_discard_check (scope check_name : pyval) : M Approvals unit :=
  key ← lift (discard_identity scope check_name);
  s ← get;
  match discard_checks s !! key with
  | Some (Some check_run_id, PubCreated) | Some (Some check_run_id, PubCompleted) =>
      modify (set_discards (insert key (Some check_run_id, PubCompleted)))
  | _ => raise LocalApprovalError "discard Check Run completion lost its identity"
  end.

(** ** Status *)

Definition approval_document (kr : string * ApprovalRow) : dict :=
  [("request_id", VStr kr.1); ("repository", VStr (ap_repository kr.2)); ("pr_number", VInt (ap_pr_number kr.2));
   ("head_sha", VStr (ap_head_sha kr.2)); ("head_generation", VInt (ap_head_generation kr.2));
   ("state", VStr (approval_text (ap_state kr.2))); ("created_at", VStr (ap_created_at kr.2));
   ("expires_at", VStr (ap_expires_at kr.2));
   ("reason", match ap_reason kr.2 with Some r => VStr r | None => VNone end)].
Definition block_document (kb : string * Z * string * (string * string)) : dict :=
  let '(repository, pr_number, head_sha, (reason, created_at)) := kb in
  [("request_id", VStr ("preflight:" +:+ repository +:+ ":" +:+ str_of_Z pr_number +:+ ":" +:+ head_sha));
   ("repository", VStr repository); ("pr_number", VInt pr_number); ("head_sha", VStr head_sha);
   ("reason", VStr reason); ("created_at", VStr created_at);
   ("head_generation", VInt 0); ("state", VStr "failed"); ("expires_at", VStr created_at)].

Definition block_newer (a b : string * Z * string * (string * string)) : Prop :=
  String.leb b.2.2 a.2.2 = true.
#[export] Instance block_newer_dec a b : Decision (block_newer a b).
Proof. apply _. Defined.

Definition wanted {A} `{EqDecision A} (o : option A) (a : A) : bool :=
  match o with Some b => bool_decide (a = b) | None => true end.

Definition status (repository : option string) (pr_number : option Z) : M Approvals (list dict) :=
  lift (bind_ints (option_list pr_number));;
  s ← get;
  mret ((approval_document <$> merge_sort newer
           (rows_where (λ r, wanted repository (ap_repository r) && wanted pr_number (ap_pr_number r)) s))
        ++ (block_document <$> merge_sort block_newer
             (List.filter (λ kb, wanted repository kb.1.1.1 && wanted pr_number kb.1.1.2)
                (map_to_list (preflight_blocks s))))).

(** ** Operations *)

Record ApprovalWorld (G : Type) := MkApprovalWorld {
  aw_db : Approvals;
  aw_gates : Store;
  aw_current : option pyval;                 (* current_request *)
  aw_host : G;
}.
Arguments MkApprovalWorld {_} _ _ _ _.
Arguments aw_db {_} _.
Arguments aw_gates {_} _.
Arguments aw_current {_} _.
Arguments aw_host {_} _.

(** The resolver, the builder, the clock and the random sources.  They may take
    long, so other processes may use the database meanwhile: they act on the
    whole world. *)
Class ApprovalHost (G : Type) := {
  host_clock : M (ApprovalWorld G) Z;
  host_resolve : string → Z → M (ApprovalWorld G) ResolvedApprovalTarget;
  host_build : ResolvedApprovalTarget → Z → string → string → Z → Z → M (ApprovalWorld G) pyval;
  host_uuid4 : M (ApprovalWorld G) string;
  host_token : M (ApprovalWorld G) string;
  host_supersession : option (dict → M (ApprovalWorld G) (option string));
  others : M (ApprovalWorld G) unit;
}.

Inductive ApprovalReply :=
  | AlreadyActive (request_id : string) (state : ApprovalState)
  | Approved (request_id head_sha expires_at : string).

Section store.
Context {D : Digest} {G : Type} {Host : ApprovalHost G}.
Context (ttl : Z).

(** One statement or transaction, after whatever the others have done. *)
Definition statement {A} (m : M Approvals A) : M (ApprovalWorld G) A := λ w,
  let '(r, db) := m (aw_db w) in (r, MkApprovalWorld db (aw_gates w) (aw_current w) (aw_host w)).
Definition on_db {A} (m : M Approvals A) : M (ApprovalWorld G) A := others;; statement m.
Definition on_gates {A} (m : M Store A) : M (ApprovalWorld G) A := λ w,
  let '(r, g) := m (aw_gates w) in (r, MkApprovalWorld (aw_db w) g (aw_current w) (aw_host w)).
Definition set_current (c : option pyval) : M (ApprovalWorld G) unit :=
  modify (λ w, MkApprovalWorld (aw_db w) (aw_gates w) c (aw_host w)).

Definition conflicting (repository : string) (pr_number : Z) (head_sha : string) (s : Approvals)
    : option (string * ApprovalRow) := active_row repository pr_number head_sha s.

(** The handler of IntegrityError in [approve]. *)
Definition concurrent_approval (target : ResolvedApprovalTarget) (repository : string) (pr_number : Z)
    : M (ApprovalWorld G) ApprovalReply :=
  found ← on_db (gets (conflicting repository pr_number (tg_head_sha target)));
  match found with
  | Some (request_id, row) =>
      existing ← lift (json_loads (ap_request_json row));
      raise_if (negb (request_matches_target existing target)) LocalApprovalError
        "concurrent approval no longer matches the resolved target";;
      mret (AlreadyActive request_id (ap_state row))
  | None => raise LocalApprovalError "concurrent approval no longer matches the resolved target"
  end.

(** [approve] after nothing was found active: build, validate, insert. *)
Definition approve_fresh (target : ResolvedApprovalTarget) (repository : string) (pr_number generation now : Z)
    : M (ApprovalWorld G) ApprovalReply :=
  request_id ← host_uuid4;
  nonce ← host_token;
  raise_if (negb (py_len nonce =? 43)%nat) LocalApprovalError "internal nonce generation failed";;
  raw ← host_build target generation request_id nonce now ttl;
  request ← lift (validate_request raw target generation request_id nonce now);
  expires ← lift (dt_add now ttl);
  inserted ← attempt (on_db (insert_approval request_id
    (new_approval repository pr_number (tg_head_sha target) generation (dumps (VDict request)) now (stamp_text expires))));
  match inserted with
  | Ok _ => mret (Approved request_id (tg_head_sha target) (stamp_text expires))
  | Raise e => if bool_decide (exn_cls e = IntegrityError) then concurrent_approval target repository pr_number else reraise e
  end.

Definition approve (repository pr_number : pyval) : M (ApprovalWorld G) ApprovalReply :=
  match is_str_where is_repository repository, repository, is_positive_int pr_number, pr_number with
  | true, VStr repository, true, VInt pr_number =>
      now ← host_clock;
      target ← host_resolve repository pr_number;
      generation ← on_gates (observe_head (tg_repository_id target) pr_number (tg_head_sha target));
      found ← on_db (reconcile_active repository pr_number target now);
      match found with
      | Some (request_id, st) => mret (AlreadyActive request_id st)
      | None => approve_fresh target repository pr_number generation now
      end
  | false, _, _, _ => raise LocalApprovalError "repository must be one exact owner/repo"
  | _, _, _, _ => raise LocalApprovalError "PR number must be positive"
  end.

Definition complete_approval (request_id : string) (result : pyval) : M (ApprovalWorld G) unit :=
  row ← on_db (gets (λ s, approvals s !! request_id));
  match row with
  | Some row =>
      if bool_decide (ap_state row = ApCompleted) then
        raise_if (negb (bool_decide (ap_result_json row = Some (dumps result)))) LocalApprovalError
          "completed approval result identity crossed"
      else on_db (settle_approval request_id Complete None result)
  | None => on_db (settle_approval request_id Complete None result)
  end.

Definition fail_approval (request_id reason : string) : M (ApprovalWorld G) unit :=
  on_db (settle_approval request_id Fail (Some reason) VNone).

(** Whether a claimed protocol request still holds of the resolved target. *)
Definition target_changed (request : pyval) (row : ApprovalRow) (current : ResolvedApprovalTarget)
    : M (ApprovalWorld G) bool :=
  if negb (request_matches_target request current) || negb (bool_decide (tg_head_sha current = ap_head_sha row))
  then mret true
  else generation ← on_gates (observe_head (tg_repository_id current) (tg_pr_number current) (tg_head_sha current));
       mret (negb (generation =? ap_head_generation row)).

(** What a turn of [poll] does with the row it claimed: the request to return,
    or nothing when it goes on. *)
Definition consider (request_id : string) (row : ApprovalRow) : M (ApprovalWorld G) (option pyval) :=
  request ← lift (json_loads (ap_request_json row));
  pilot ← lift (contains "pilot_package" request);
  if pilot : bool then set_current (Some request);; mret (Some request)
  else
    resolved ← attempt (host_resolve (ap_repository row) (ap_pr_number row));
    match resolved with
    | Raise _ => fail_approval request_id "authority-reresolution-failed";; mret None
    | Ok current =>
        changed ← target_changed request row current;
        if changed : bool then
          on_db (settle_approval request_id Expire (Some "resolved-target-or-generation-changed") VNone);; mret None
        else set_current (Some request);; mret (Some request)
    end.

Fixpoint poll_loop (fuel : nat) (now : Z) : M (ApprovalWorld G) (option pyval) :=
  match fuel with
  | O => λ w, (Raise OUT_OF_FUEL, w)
  | S fuel =>
      found ← on_db (claim_oldest now);
      match found with
      | NothingPending => mret None
      | ExpiredOne => poll_loop fuel now
      | ClaimedOne request_id row =>
          request ← consider request_id row;
          match request with Some request => mret (Some request) | None => poll_loop fuel now end
      end
  end.

Definition poll (fuel : nat) : M (ApprovalWorld G) (option pyval) :=
  now ← host_clock;
  set_current None;;
  poll_loop fuel now.

Definition claim_approval (request_id : string) (request lease_seconds : pyval) : M (ApprovalWorld G) unit :=
  match lease_seconds with
  | VInt lease =>
      raise_if (negb ((1 <=? lease) && (lease <=? 7200))) LocalApprovalError "work-source lease is invalid";;
      now ← host_clock;
      until ← lift (dt_add now (seconds lease));
      on_db (make_durable request_id (dumps request) (stamp_text until));;
      set_current (Some request)
  | _ => raise LocalApprovalError "work-source lease is invalid"
  end.

Definition resume_approval (request_id : string) (request lease_seconds : pyval) : M (ApprovalWorld G) pyval :=
  row ← on_db (gets (λ s, approvals s !! request_id));
  match row with
  | Some row =>
      raise_if (negb (bool_decide (ap_request_json row = dumps request)) || negb (bool_decide (ap_state row = ApClaimed))
                || negb (ap_durable row)) LocalApprovalError "durable approval cannot be resumed";;
      claim_approval request_id request lease_seconds;;
      mret request
  | None => raise LocalApprovalError "durable approval cannot be resumed"
  end.

Definition retry_approval (request_id reason : string) : M (ApprovalWorld G) unit :=
  raise_if (negb (nonempty reason)) LocalApprovalError "retry reason is invalid";;
  now ← host_clock;
  on_db (mark_retry request_id reason (stamp_text now)).

Definition recover_claims : M (ApprovalWorld G) Z :=
  now ← host_clock;
  on_db (lapse_claims (stamp_text now));;
  on_db (requeue_claims (stamp_text now)).

(** [supersession_reason]: the resolver's own, or the comparison of a fresh
    resolution. *)
Definition supersession_reason (request_id : string) (request : dict) : M (ApprovalWorld G) (option string) :=
  row ← on_db (gets (λ s, approvals s !! request_id));
  raise_if (negb (bool_decide (ap_request_json <$> row = Some (dumps (VDict request))))) LocalApprovalError
    "approval revalidation crossed request identity";;
  match host_supersession with
  | Some classify => classify request
  | None =>
      match package_of request with
      | VDict package =>
          repository ← lift (ditem "repository" package);
          pr_number ← lift (ditem "pr_number" package);
          match repository, pr_number with
          | VStr repository, VInt pr_number =>
              current ← host_resolve repository pr_number;
              mret (if request_matches_target (VDict request) current then None
                    else if negb (py_eq (VStr (tg_head_sha current)) (dget "head_sha" package)) then Some NEWER_COMMIT
                    else Some BASE_MOVED)
          | _, _ => raise TypeError "not a repository and a number"
          end
      | _ => raise TypeError "'NoneType' object is not subscriptable"
      end
  end.
End store.
