(* ===== verification/WorkerAuthority.v ===== *)
(** * The worker's GitHub authority (worker_authority.py)

    The repository-scoped App of the worker and its client: one method for each
    endpoint it may call, each checking that what came back is the exact
    repository, branch, pull request, workflow or run it asked for.  Requests go
    through [HTTPTransport].  Responses are given as the dictionaries they read
    as; the root-owned key file is outside. *)

From S2P Require Import Prelude Datetime PyValue PyText Json GitHubHttp LocalApproval.
#[local] Open Scope Z_scope.

Definition authority_fail {A} (msg : string) : result A := throw WorkerAuthorityError msg.
Definition authority_if (b : bool) (msg : string) : result unit := check b WorkerAuthorityError msg.

Definition WORKER_PERMISSIONS : dict :=
  [("metadata", VStr "read"); ("contents", VStr "read"); ("pull_requests", VStr "read"); ("actions", VStr "write");
   ("administration", VStr "read")].
Definition MAX_TOKEN_TTL : Z := hours 1.
Definition MAX_SERVER_CLOCK_SKEW : Z := seconds 60.
Definition TOKEN_SAFETY_MARGIN : Z := seconds 30.

Record WorkerAppAuthorityV1 := {
  wa_app_id : Z; wa_app_slug : string; wa_installation_id : Z; wa_repository : string; wa_repository_id : Z;
  wa_repository_selection : string; wa_default_branch : string; wa_workflow_id : string; wa_workflow_path : string;
  wa_permissions : dict;
}.
#[export] Instance WorkerAppAuthorityV1_eq_dec : EqDecision WorkerAppAuthorityV1.
Proof. solve_decision. Defined.

Definition starts_with (c : ascii) (s : string) : bool := match s with String a _ => Ascii.eqb a c | EmptyString => false end.
(** A name, a dot, and yml or yaml: the part before the last such suffix. *)
Fixpoint has_suffix (suffix s : string) : bool :=
  bool_decide (s = suffix) || match s with String _ s => has_suffix suffix s | EmptyString => false end.
Definition is_workflow_file (s : string) : bool :=
  all_chars is_name_char s
  && ((has_suffix ".yml" s && (4 <? String.length s)%nat) || (has_suffix ".yaml" s && (5 <? String.length s)%nat)).

(** [__post_init__] of a value whose fields have their declared types. *)
Definition worker_authority (a : WorkerAppAuthorityV1) : result WorkerAppAuthorityV1 :=
  authority_if ((wa_app_id a <? 1) || (wa_installation_id a <? 1) || (wa_repository_id a <? 1))
    "worker App numeric identities must be positive integers";;
  authority_if (negb (is_repository (wa_repository a))) "worker App repository is invalid";;
  authority_if (negb (bool_decide (wa_repository_selection a = "selected"))) "worker App must use selected repositories";;
  authority_if (negb (py_eq (VDict (wa_permissions a)) (VDict WORKER_PERMISSIONS))) "worker App permissions are not exact";;
  authority_if (negb (match_some (λ c, is_alnum c || Ascii.eqb c "-") (wa_app_slug a))) "worker App slug is invalid";;
  authority_if (negb (JitPilot.is_branch (wa_default_branch a)) || starts_with "/" (wa_default_branch a))
    "worker default branch is invalid";;
  authority_if (negb (is_workflow_file (wa_workflow_id a))) "worker workflow ID must be one fixed workflow filename";;
  authority_if (negb (bool_decide (wa_workflow_path a = ".github/workflows/" +:+ wa_workflow_id a)))
    "worker workflow path does not match its fixed ID";;
  Ok a.

Record WorkerInstallationToken := { wt_value : string; wt_expires_at : datetime; wt_authority : WorkerAppAuthorityV1 }.

(** [assert_current] *)
Definition assert_current (token : WorkerInstallationToken) (authority : WorkerAppAuthorityV1) (now : datetime) : result unit :=
  let denied := "worker installation token is expired or crossed authority" in
  authority_if (negb (bool_decide (authority = wt_authority token))) denied;;
  match now with
  | Naive _ => authority_fail denied
  | Aware _ _ => c ← dt_compare (wt_expires_at token) now; authority_if (negb (bool_decide (c = Gt))) denied
  end.

Definition worker_headers (bearer : string) : dict := bearer_headers "self-hosted-ci-worker/1" bearer.

(** [_json] *)
Definition worker_json (response : HTTPResponse) (expected_status : Z) : result dict :=
  check ((http_status response =? 429) || (500 <=? http_status response)) WorkerTransportError
    "GitHub worker transport is temporarily unavailable";;
  authority_if (negb (http_status response =? expected_status) || negb (nonempty (http_body response))
                || (1048576 <? Z.of_nat (String.length (http_body response)))) "GitHub worker request failed";;
  value ← loads_exact WorkerAuthorityError "GitHub worker response contains duplicate keys"
            "GitHub worker response is invalid JSON" (http_body response);
  match value with VDict d => Ok d | _ => authority_fail "GitHub worker response is not an object" end.

(** [isinstance(v, str) and _SHA.fullmatch(v)], and of [str(v)]. *)
Definition is_sha_text (v : pyval) : bool := is_str_where is_sha1 v.
Definition str_is_sha (v : pyval) : bool := match py_str v with Some s => is_sha1 s | None => false end.

(** [value.get(k)] of what may be a mapping, and its [get]. *)
Definition field_of (v : pyval) (k : string) : pyval := match v with VDict d => dget k d | _ => VNone end.
Definition is_mapping (v : pyval) : bool := match v with VDict _ => true | _ => false end.
Definition holds (expected value : dict) : bool := forallb (λ kv, py_eq (dget kv.1 value) kv.2) expected.

Section client.
Context {G : Type} {T : HTTPTransport G}.
Context (authority : WorkerAppAuthorityV1).

Definition repos (path : string) : string := "/repos/" +:+ wa_repository authority +:+ path.

Definition worker_request (method path : string) (headers : dict) (body : option dict) : M G HTTPResponse :=
  raise_if (unsafe_path path) WorkerAuthorityError "unsafe worker GitHub API path";;
  http_request method (API_ROOT +:+ path) headers body.

Definition assert_token (token : WorkerInstallationToken) : M G unit :=
  now ← http_clock; lift (assert_current token authority now).

(** [_token_json] *)
Definition token_json (method path : string) (token : WorkerInstallationToken) (status : Z) (body : option dict) : M G dict :=
  assert_token token;;
  response ← worker_request method path (worker_headers (wt_value token)) body;
  lift (worker_json response status).

Definition expected_installation : dict :=
  [("id", VInt (wa_installation_id authority)); ("app_id", VInt (wa_app_id authority));
   ("repository_selection", VStr "selected"); ("permissions", VDict WORKER_PERMISSIONS)].

(** [now < expires_at <= now + MAX_TOKEN_TTL + MAX_SERVER_CLOCK_SKEW] *)
Definition token_window (now expires_at : Z) : bool :=
  (now <? expires_at) && (expires_at <=? now + MAX_TOKEN_TTL + MAX_SERVER_CLOCK_SKEW).

(** [_parse_token], at the instant [now]. *)
Definition _parse_token (value : dict) (now : Z) : result WorkerInstallationToken :=
  expires ← match dlookup "expires_at" value with
            | Some (VStr text) =>
                rewrap (λ c, bool_decide (c = ValueError)) WorkerAuthorityError "worker installation token expiry is invalid"
                  (fromisoformat (str_replace "Z" "+00:00" text))
            | _ => authority_fail "worker installation token expiry is invalid"
            end;
  let repository := match dget "repositories" value with VList [r] => r | _ => VNone end in
  match dget "token" value, expires with
  | VStr token, Aware zone expires_at =>
      authority_if (negb (nonempty token) || existsb py_is_space (code_points token)
                    || negb (py_eq (dget "permissions" value) (VDict WORKER_PERMISSIONS))
                    || negb (is_mapping repository)
                    || negb (py_eq (field_of repository "id") (VInt (wa_repository_id authority)))
                    || negb (py_eq (field_of repository "full_name") (VStr (wa_repository authority)))
                    || negb (token_window now expires_at)) "worker installation token authority mismatch";;
      Ok {| wt_value := token; wt_expires_at := Aware zone (expires_at - TOKEN_SAFETY_MARGIN); wt_authority := authority |}
  | _, _ => authority_fail "worker installation token authority mismatch"
  end.

(** [authenticate] *)
Definition worker_authenticate : M G WorkerInstallationToken :=
  now ← http_clock;
  match now with
  | Naive _ => raise WorkerAuthorityError "worker clock must be timezone-aware"
  | Aware _ t =>
      jwt ← app_jwt (wa_app_id authority) t;
      let headers := worker_headers jwt in
      response ← worker_request "GET" "/app" headers None;
      app ← lift (worker_json response 200);
      raise_if (negb (py_eq (dget "id" app) (VInt (wa_app_id authority)))
                || negb (py_eq (dget "slug" app) (VStr (wa_app_slug authority)))) WorkerAuthorityError "GitHub App identity mismatch";;
      response ← worker_request "GET" (repos "/installation") headers None;
      installation ← lift (worker_json response 200);
      raise_if (negb (holds expected_installation installation)) WorkerAuthorityError
        "GitHub App installation authority mismatch";;
      response ← worker_request "POST" ("/app/installations/" +:+ str_of_Z (wa_installation_id authority) +:+ "/access_tokens")
        headers (Some [("repository_ids", VList [VInt (wa_repository_id authority)]); ("permissions", VDict WORKER_PERMISSIONS)]);
      data ← lift (worker_json response 201);
      lift (_parse_token data t)
  end.

Definition worker_repository (token : WorkerInstallationToken) : M G dict :=
  value ← token_json "GET" (repos "") token 200 None;
  raise_if (negb (holds [("id", VInt (wa_repository_id authority)); ("full_name", VStr (wa_repository authority));
                         ("default_branch", VStr (wa_default_branch authority))] value)) WorkerAuthorityError
    "selected repository identity mismatch";;
  mret value.

Definition worker_branch_head (token : WorkerInstallationToken) : M G string :=
  value ← token_json "GET" (repos ("/branches/" +:+ url_quote (wa_default_branch authority))) token 200 None;
  match py_eq (dget "name" value) (VStr (wa_default_branch authority)), field_of (dget "commit" value) "sha" with
  | true, VStr sha =>
      raise_if (negb (is_sha1 sha)) WorkerAuthorityError "worker default branch identity mismatch";; mret sha
  | _, _ => raise WorkerAuthorityError "worker default branch identity mismatch"
  end.

(** Whether a pull request document is the one asked for. *)
Definition is_pull_request (number : Z) (value : dict) : result bool :=
  let head := dget "head" value in
  let base := dget "base" value in
  if negb (py_eq (dget "number" value) (VInt number)) then Ok false
  else
    known ← py_in_set (dget "state" value) (text_set ["open"; "closed"]);
    Ok (known && is_mapping head && str_is_sha (field_of head "sha") && is_mapping base
        && py_eq (field_of base "ref") (VStr (wa_default_branch authority)) && is_mapping (field_of base "repo")
        && py_eq (field_of (field_of base "repo") "id") (VInt (wa_repository_id authority))).

Definition worker_pull_snapshot (number : Z) (token : WorkerInstallationToken) : M G dict :=
  raise_if (number <? 1) WorkerAuthorityError "pull request number must be positive";;
  value ← token_json "GET" (repos ("/pulls/" +:+ str_of_Z number)) token 200 None;
  exact ← lift (is_pull_request number value);
  raise_if (negb exact) WorkerAuthorityError "pull request identity mismatch";;
  mret value.
Definition worker_pull_request (number : Z) (token : WorkerInstallationToken) : M G dict :=
  value ← worker_pull_snapshot number token;
  raise_if (negb (py_eq (dget "state" value) (VStr "open"))) WorkerAuthorityError "pull request identity mismatch";;
  mret value.

(** One entry of the listing: its number and head, nothing for another
    repository or branch. *)
Definition listed_pull (entry : pyval) : result (option (Z * string)) :=
  match entry with
  | VDict entry =>
      let head := dget "head" entry in
      let base := dget "base" entry in
      match dget "number" entry with
      | VInt number =>
          authority_if ((number <? 1) || negb (py_eq (dget "state" entry) (VStr "open")) || negb (is_mapping head)
                        || negb (str_is_sha (field_of head "sha")) || negb (is_mapping base))
            "open pull request entry is not exact";;
          let head_repository := field_of head "repo" in
          if negb (is_mapping head_repository)
             || negb (py_eq (field_of head_repository "id") (VInt (wa_repository_id authority)))
             || negb (is_mapping (field_of base "repo"))
             || negb (py_eq (field_of (field_of base "repo") "id") (VInt (wa_repository_id authority)))
             || negb (py_eq (field_of base "ref") (VStr (wa_default_branch authority)))
          then Ok None else Ok (Some (number, default "" (py_str (field_of head "sha"))))
      | _ => authority_fail "open pull request entry is not exact"
      end
  | _ => authority_fail "open pull request entry is invalid"
  end.
Fixpoint listed_pulls (entries : list pyval) : result (list (Z * string)) :=
  match entries with
  | [] => Ok []
  | entry :: entries =>
      this ← listed_pull entry;
      rest ← listed_pulls entries;
      Ok (option_list this ++ rest)
  end.

Definition open_pull_requests (token : WorkerInstallationToken) (limit : Z) : M G (list (Z * string)) :=
  raise_if (negb ((1 <=? limit) && (limit <=? 100))) WorkerAuthorityError "pull request page size is invalid";;
  response ← worker_request "GET" (repos ("/pulls?state=open&sort=created&direction=asc&per_page=" +:+ str_of_Z limit))
               (worker_headers (wt_value token)) None;
  assert_token token;;
  raise_if (negb (http_status response =? 200) || (4194304 <? Z.of_nat (String.length (http_body response))))
    WorkerAuthorityError "open pull request listing failed";;
  value ← lift (loads_or WorkerAuthorityError "open pull request listing is invalid JSON" (http_body response));
  match value with
  | VList entries => lift (listed_pulls entries)
  | _ => raise WorkerAuthorityError "open pull request listing is not a list"
  end.

Definition MERGE_QUERY : string :=
  "query($owner:String!,$name:String!,$number:Int!){repository(owner:$owner,name:$name){pullRequest(number:$number){potentialMergeCommit{oid}}}}".

(** [value["data"]["repository"]["pullRequest"]["potentialMergeCommit"]["oid"]] *)
Fixpoint at_path (path : list string) (v : pyval) : option pyval :=
  match path with
  | [] => Some v
  | k :: path => match v with VDict d => v ← dlookup k d; at_path path v | _ => None end
  end.

Definition worker_merge_commit (number : Z) (token : WorkerInstallationToken) : M G string :=
  raise_if (number <? 1) WorkerAuthorityError "pull request number must be positive";;
  let '(owner, name) := default ("", "") (split_at "/" (wa_repository authority)) in
  value ← token_json "POST" "/graphql" token 200
    (Some [("query", VStr MERGE_QUERY);
           ("variables", VDict [("owner", VStr owner); ("name", VStr name); ("number", VInt number)])]);
  match at_path ["data"; "repository"; "pullRequest"; "potentialMergeCommit"; "oid"] (VDict value) with
  | None => raise WorkerAuthorityError "GitHub potential merge commit response is unavailable"
  | Some (VStr oid) =>
      raise_if (negb (is_sha1 oid)) WorkerAuthorityError "GitHub potential merge commit is invalid";; mret oid
  | Some _ => raise WorkerAuthorityError "GitHub potential merge commit is invalid"
  end.

Fixpoint parent_shas (parents : list pyval) : result (list string) :=
  match parents with
  | [] => Ok []
  | parent :: parents =>
      match field_of parent "sha" with
      | VStr sha =>
          authority_if (negb (is_sha1 sha)) "GitHub merge commit parents are invalid";;
          rest ← parent_shas parents; Ok (sha :: rest)
      | _ => authority_fail "GitHub merge commit parents are invalid"
      end
  end.
Definition worker_merge_parents (sha : string) (token : WorkerInstallationToken) : M G (list string) :=
  raise_if (negb (is_sha1 sha)) WorkerAuthorityError "GitHub merge commit SHA is invalid";;
  value ← token_json "GET" (repos ("/git/commits/" +:+ sha)) token 200 None;
  match py_eq (dget "sha" value) (VStr sha), dget "parents" value with
  | true, VList parents => lift (parent_shas parents)
  | _, _ => raise WorkerAuthorityError "GitHub merge commit response is invalid"
  end.

Definition worker_workflow (token : WorkerInstallationToken) : M G dict :=
  value ← token_json "GET" (repos ("/actions/workflows/" +:+ url_quote (wa_workflow_id authority))) token 200 None;
  raise_if (negb (holds [("path", VStr (wa_workflow_path authority)); ("state", VStr "active")] value)) WorkerAuthorityError
    "fixed worker workflow identity mismatch";;
  mret value.

(** ** Dispatch, runs, cancellation *)

Definition worker_run_url (run_id : Z) : string := API_ROOT +:+ repos ("/actions/runs/" +:+ str_of_Z run_id).

Definition dispatch_exact (input_name package : string) (token : WorkerInstallationToken) : M G Z :=
  raise_if (negb (bool_decide (input_name ∈ ["protocol_package"; "pilot_package"]))) WorkerAuthorityError
    "workflow dispatch input is not supported";;
  raise_if (negb (nonempty package) || (60000 <? Z.of_nat (String.length package))) WorkerAuthorityError
    "workflow package is absent or oversized";;
  value ← token_json "POST" (repos ("/actions/workflows/" +:+ url_quote (wa_workflow_id authority) +:+ "/dispatches")) token 200
    (Some [("ref", VStr (wa_default_branch authority)); ("inputs", VDict [(input_name, VStr package)]);
           ("return_run_details", VBool true)]);
  match dget "workflow_run_id" value with
  | VInt run_id =>
      raise_if ((run_id <? 1) || negb (py_eq (dget "run_url" value) (VStr (worker_run_url run_id)))) WorkerAuthorityError
        "workflow dispatch receipt is not exact";;
      mret run_id
  | _ => raise WorkerAuthorityError "workflow dispatch receipt is not exact"
  end.
Definition worker_dispatch : string → WorkerInstallationToken → M G Z := dispatch_exact "protocol_package".
Definition dispatch_pilot (package : string) (token : WorkerInstallationToken) : M G Z :=
  raise_if (negb (bool_decide (wa_workflow_id authority = "ci-jit-pilot-child.yml"))) WorkerAuthorityError
    "pilot dispatch requires the fixed pilot workflow";;
  dispatch_exact "pilot_package" package token.

(** Whether a run document is the run asked for, of this workflow and branch. *)
Definition own_paths : list string :=
  [wa_workflow_path authority; wa_workflow_path authority +:+ "@refs/heads/" +:+ wa_default_branch authority].
Definition is_own_run (run_id : Z) (value : dict) : result bool :=
  if negb (py_eq (dget "id" value) (VInt run_id)) || negb (is_mapping (dget "repository" value))
     || negb (py_eq (field_of (dget "repository" value) "id") (VInt (wa_repository_id authority)))
  then Ok false
  else known ← py_in_set (dget "path" value) (text_set own_paths);
       Ok (known && py_eq (dget "head_branch" value) (VStr (wa_default_branch authority))).
Definition worker_run (run_id : Z) (token : WorkerInstallationToken) : M G dict :=
  raise_if (run_id <? 1) WorkerAuthorityError "run ID must be positive";;
  value ← token_json "GET" (repos ("/actions/runs/" +:+ str_of_Z run_id)) token 200 None;
  own ← lift (is_own_run run_id value);
  raise_if (negb own) WorkerAuthorityError "workflow run crossed repository authority";;
  mret value.

Definition is_completed (run : dict) : bool := py_eq (dget "status" run) (VStr "completed").
Definition was_cancelled (run : dict) : bool := py_eq (dget "conclusion" run) (VStr "cancelled").

(** The answer to the POST, when it is not a conflict with a finished run. *)
Definition cancel_receipt (response : HTTPResponse) : M G bool :=
  raise_if (negb (http_status response =? 202) || negb (bool_decide (http_body response = "" ∨ http_body response = "{}")))
    WorkerAuthorityError "exact workflow run cancellation failed";;
  mret true.
Definition cancel_run (run_id : Z) (token : WorkerInstallationToken) : M G bool :=
  run ← worker_run run_id token;
  if is_completed run then mret (was_cancelled run)
  else
    response ← worker_request "POST" (repos ("/actions/runs/" +:+ str_of_Z run_id +:+ "/cancel"))
                 (worker_headers (wt_value token)) None;
    assert_token token;;
    if http_status response =? 409 then
      terminal ← worker_run run_id token;
      if is_completed terminal then mret (was_cancelled terminal) else cancel_receipt response
    else cancel_receipt response.

Definition job_of_run (run_id : Z) (job : pyval) : bool :=
  match job with VDict job => py_eq (dget "run_id" job) (VInt run_id) | _ => false end.
(** [isinstance(v, int)]: a boolean is one. *)
Definition int_value (v : pyval) : option Z := match v with VInt n => Some n | VBool b => Some (Z.b2z b) | _ => None end.
Definition worker_jobs (run_id : Z) (token : WorkerInstallationToken) : M G dict :=
  raise_if (run_id <? 1) WorkerAuthorityError "run ID must be positive";;
  value ← token_json "GET" (repos ("/actions/runs/" +:+ str_of_Z run_id +:+ "/jobs?filter=latest&per_page=100")) token 200 None;
  raise_if (negb (same_set (dkeys value) ["total_count"; "jobs"])) WorkerAuthorityError "workflow jobs response is invalid";;
  match int_value (dget "total_count" value), dget "jobs" value with
  | Some total, VList jobs =>
      raise_if (negb (total =? Z.of_nat (length jobs)) || negb (forallb (job_of_run run_id) jobs)) WorkerAuthorityError
        "workflow jobs crossed or truncated the exact run";;
      mret value
  | _, _ => raise WorkerAuthorityError "workflow jobs response is invalid"
  end.

(** The client as the approval store's resolver uses it. *)
#[export] Instance worker_client : WorkerGitHubClient G := {|
  authority_repository_id := wa_repository_id authority;
  authority_repository := wa_repository authority;
  authority_default_branch := wa_default_branch authority;
  authority_workflow_path := wa_workflow_path authority;
  client_token := WorkerInstallationToken;
  authenticate := worker_authenticate;
  client_repository := worker_repository;
  default_branch_head := worker_branch_head;
  client_pull_request := worker_pull_request;
  pull_request_snapshot := worker_pull_snapshot;
  client_workflow := worker_workflow;
  potential_merge_commit := worker_merge_commit;
  merge_commit_parents := worker_merge_parents;
|}.
End client.

(** ** The whole client

    Its calls, as the worker makes them. *)
Inductive WorkerCall :=
  | CallAuthenticate
  | CallRepository (token : WorkerInstallationToken)
  | CallBranchHead (token : WorkerInstallationToken)
  | CallPullRequest (number : Z) (token : WorkerInstallationToken)
  | CallPullSnapshot (number : Z) (token : WorkerInstallationToken)
  | CallOpenPullRequests (token : WorkerInstallationToken) (limit : Z)
  | CallMergeCommit (number : Z) (token : WorkerInstallationToken)
  | CallMergeParents (sha : string) (token : WorkerInstallationToken)
  | CallWorkflow (token : WorkerInstallationToken)
  | CallDispatch (package : string) (token : WorkerInstallationToken)
  | CallDispatchPilot (package : string) (token : WorkerInstallationToken)
  | CallRun (run_id : Z) (token : WorkerInstallationToken)
  | CallCancel (run_id : Z) (token : WorkerInstallationToken)
  | CallJobs (run_id : Z) (token : WorkerInstallationToken).

Section calls.
Context {G : Type} {T : HTTPTransport G} (authority : WorkerAppAuthorityV1).

Definition done_with {A} (m : M G A) : M G unit := m;; mret tt.
Definition perform (call : WorkerCall) : M G unit :=
  match call with
  | CallAuthenticate => done_with (worker_authenticate authority)
  | CallRepository token => done_with (worker_repository authority token)
  | CallBranchHead token => done_with (worker_branch_head authority token)
  | CallPullRequest number token => done_with (worker_pull_request authority number token)
  | CallPullSnapshot number token => done_with (worker_pull_snapshot authority number token)
  | CallOpenPullRequests token limit => done_with (open_pull_requests authority token limit)
  | CallMergeCommit number token => done_with (worker_merge_commit authority number token)
  | CallMergeParents sha token => done_with (worker_merge_parents authority sha token)
  | CallWorkflow token => done_with (worker_workflow authority token)
  | CallDispatch package token => done_with (worker_dispatch authority package token)
  | CallDispatchPilot package token => done_with (dispatch_pilot authority package token)
  | CallRun run_id token => done_with (worker_run authority run_id token)
  | CallCancel run_id token => done_with (cancel_run authority run_id token)
  | CallJobs run_id token => done_with (worker_jobs authority run_id token)
  end.

(** The requests the App may send: it reads its own identity and the one
    repository, asks for a token of that repository and its five permissions,
    and writes nothing but a dispatch of its fixed workflow on the default
    branch and the cancellation of a run. *)
Inductive may_request : string → string → option dict → Prop :=
  | May_read_app : may_request "GET" (API_ROOT +:+ "/app") None
  | May_read_repository rest :
      rest = "" ∨ starts_with "/" rest = true → may_request "GET" (API_ROOT +:+ repos authority rest) None
  | May_ask_token :
      may_request "POST" (API_ROOT +:+ "/app/installations/" +:+ str_of_Z (wa_installation_id authority) +:+ "/access_tokens")
        (Some [("repository_ids", VList [VInt (wa_repository_id authority)]); ("permissions", VDict WORKER_PERMISSIONS)])
  | May_query owner name number :
      split_at "/" (wa_repository authority) = Some (owner, name) →
      may_request "POST" (API_ROOT +:+ "/graphql")
        (Some [("query", VStr MERGE_QUERY);
               ("variables", VDict [("owner", VStr owner); ("name", VStr name); ("number", VInt number)])])
  | May_dispatch input package :
      input = "protocol_package" ∨ input = "pilot_package" ∧ wa_workflow_id authority = "ci-jit-pilot-child.yml" →
      may_request "POST" (API_ROOT +:+ repos authority ("/actions/workflows/" +:+ url_quote (wa_workflow_id authority) +:+ "/dispatches"))
        (Some [("ref", VStr (wa_default_branch authority)); ("inputs", VDict [(input, VStr package)]);
               ("return_run_details", VBool true)])
  | May_cancel run_id :
      1 ≤ run_id → may_request "POST" (API_ROOT +:+ repos authority ("/actions/runs/" +:+ str_of_Z run_id +:+ "/cancel")) None.
End calls.
#[export] Hint Constructors may_request : moves.

(** ** The client stays within its authority *)
Section confinement.
Context {G : Type} {T : HTTPTransport G} (authority : WorkerAppAuthorityV1) (R : relation G) `{!PreOrder R}.
Hypothesis owned : split_at "/" (wa_repository authority) ≠ None.
Hypothesis sends : ∀ method url headers body, may_request authority method url body → moves R (http_request method url headers body).
Hypothesis reads_clock : moves R http_clock.
Hypothesis signs : ∀ text, moves R (rs256_sign text).

Lemma request_moves method path headers body :
  may_request authority method (API_ROOT +:+ path) body → moves R (worker_request method path headers body).
Proof. unfold worker_request. eauto 6 with moves. Qed.
Lemma assert_token_moves token : moves R (assert_token authority token).
Proof. unfold assert_token. eauto 6 with moves. Qed.
#[local] Hint Resolve request_moves assert_token_moves reads_clock : moves.
Lemma token_json_moves method path token status body :
  may_request authority method (API_ROOT +:+ path) body → moves R (token_json authority method path token status body).
Proof. unfold token_json. eauto 8 with moves. Qed.
#[local] Hint Resolve token_json_moves : moves.

Lemma read_moves path token status :
  path = "" ∨ starts_with "/" path = true → moves R (token_json authority "GET" (repos authority path) token status None).
Proof. intros Hp. apply token_json_moves. by constructor. Qed.
#[local] Hint Extern 1 (moves R (token_json _ "GET" _ _ _ _)) => apply read_moves; auto : moves.

Lemma authenticate_moves : moves R (worker_authenticate authority).
Proof.
  unfold worker_authenticate, app_jwt. moving.
  apply request_moves, May_read_repository. by right.
Qed.
Lemma snapshot_moves number token : moves R (worker_pull_snapshot authority number token).
Proof. unfold worker_pull_snapshot. moving. Qed.
Lemma run_moves run_id token : moves R (worker_run authority run_id token).
Proof. unfold worker_run. moving. Qed.
Lemma dispatch_moves input package token :
  input = "protocol_package" ∨ input = "pilot_package" ∧ wa_workflow_id authority = "ci-jit-pilot-child.yml" →
  moves R (dispatch_exact authority input package token).
Proof. intros Hi. unfold dispatch_exact. moving. Qed.
Lemma merge_commit_moves number token : moves R (worker_merge_commit authority number token).
Proof.
  unfold worker_merge_commit. destruct (split_at "/" (wa_repository authority)) as [[owner name]|] eqn:E; [|done]. cbn.
  moving.
Qed.
(** The run is read first, so its number is positive when the POST is sent. *)
Lemma cancel_moves run_id token : moves R (cancel_run authority run_id token).
Proof.
  unfold cancel_run. destruct (run_id <? 1) eqn:Hid.
  - intros s. unfold worker_run. by rewrite Hid.
  - apply Z.ltb_ge in Hid. unfold cancel_receipt. pose proof run_moves. moving.
Qed.
Lemma pilot_moves package token : moves R (dispatch_pilot authority package token).
Proof.
  unfold dispatch_pilot. case_bool_decide as Hw; cbn.
  - apply (moves_bind R); [apply (moves_lift R)|intros ?]. apply dispatch_moves. auto.
  - intros s. cbn. done.
Qed.
Lemma listing_moves token limit : moves R (open_pull_requests authority token limit).
Proof.
  unfold open_pull_requests. moving. apply request_moves, May_read_repository. by right.
Qed.
#[local] Hint Resolve pilot_moves listing_moves authenticate_moves snapshot_moves run_moves dispatch_moves merge_commit_moves cancel_moves : moves.

(** C33: whatever the client is asked to do and whatever GitHub answers, the
    App stays within its authority: between the state of the world before a call
    and after it there is nothing but permitted requests, readings of the clock
    and signatures.  [R] is any account of the world that composes, for instance
    what may be added to a log of the requests. *)
Theorem worker_confined call : moves R (perform authority call).
Proof.
  destruct call; cbn [perform]; unfold done_with, worker_repository, worker_branch_head, worker_pull_request, worker_merge_parents,
    worker_workflow, worker_dispatch, worker_jobs; moving.
Qed.
End confinement.

(** ** What the listing hands to the planner *)

(** A listing entry that is an open pull request of this repository, from a
    branch of this repository, onto the default branch. *)
Definition own_open_pull (authority : WorkerAppAuthorityV1) (entry : pyval) (number : Z) (sha : string) : Prop :=
  let repository v := field_of (field_of v "repo") "id" in
  let head := field_of entry "head" in
  let base := field_of entry "base" in
  field_of entry "number" = VInt number ∧ 1 ≤ number ∧ field_of entry "state" = VStr "open" ∧
  py_str (field_of head "sha") = Some sha ∧ is_sha1 sha = true ∧
  py_eq (repository head) (VInt (wa_repository_id authority)) = true ∧
  py_eq (repository base) (VInt (wa_repository_id authority)) = true ∧
  field_of base "ref" = VStr (wa_default_branch authority).

Section listing.
Context (authority : WorkerAppAuthorityV1).

Lemma listed_pull_ok entry o number sha :
  listed_pull authority entry = Ok o → o = Some (number, sha) ↔ own_open_pull authority entry number sha.
Proof.
  unfold listed_pull, own_open_pull. destruct entry as [| | | | |d]; try discriminate. cbn [field_of].
  destruct (dget "number" d) as [| |n| | |] eqn:En; try discriminate. cbn [field_of]. intros H.
  apply result_bind_ok in H as ([] & Hg & H). apply check_ok in Hg. bool_inv.
  unfold str_is_sha in *. destruct (py_str (field_of (dget "head" d) "sha")) as [t|] eqn:Et; [|done]. cbn in *.
  rewrite <- !py_eq_str.
  case_match; simplify_eq.
  - split; [done|]. intros (? & ? & ? & ? & ? & Hh & Hb & Hr). rewrite Hh, Hb, Hr in *.
    destruct (field_of (dget "head" d) "repo"), (field_of (dget "base" d) "repo"); done.
  - bool_inv. naive_solver.
Qed.

(** A listing that is accepted hands over exactly the pull requests of the
    repository's own branches onto its default branch. *)
Lemma listed_pulls_exact entries pulls :
  listed_pulls authority entries = Ok pulls →
  ∀ number sha, (number, sha) ∈ pulls ↔ ∃ entry, entry ∈ entries ∧ own_open_pull authority entry number sha.
Proof.
  revert pulls. induction entries as [|entry entries IH]; intros pulls H number sha; cbn in H.
  - injection H as <-. split; [by intros ?%not_elem_of_nil | by intros (? & ?%not_elem_of_nil & _)].
  - run_inv. rewrite elem_of_app, (IH _ ltac:(done)). setoid_rewrite elem_of_cons.
    match goal with E : listed_pull _ entry = Ok ?o |- _ => pose proof (listed_pull_ok _ _ number sha E) as Ho; destruct o end;
      cbn; rewrite ?elem_of_nil, ?list_elem_of_singleton; naive_solver.
Qed.
End listing.

(** ** A toy GitHub: a log of requests, and one running run *)

Definition toy_authority : WorkerAppAuthorityV1 := {|
  wa_app_id := 11; wa_app_slug := "ci-worker"; wa_installation_id := 12; wa_repository := "octo/repo"; wa_repository_id := 77;
  wa_repository_selection := "selected"; wa_default_branch := "main"; wa_workflow_id := "ci-jit-pilot-child.yml";
  wa_workflow_path := ".github/workflows/ci-jit-pilot-child.yml"; wa_permissions := WORKER_PERMISSIONS |}.
Definition toy_token : WorkerInstallationToken :=
  {| wt_value := "t"; wt_expires_at := Aware UTC (seconds 60); wt_authority := toy_authority |}.
Definition toy_run : dict :=
  [("id", VInt 5); ("repository", VDict [("id", VInt 77)]); ("path", VStr ".github/workflows/ci-jit-pilot-child.yml");
   ("head_branch", VStr "main"); ("status", VStr "in_progress")].
Definition Sent : Type := list (string * string * option dict).
#[local] Instance ToyTransport : HTTPTransport Sent := {|
  http_request method url headers body := λ log,
    (Ok (if bool_decide (method = "GET") then {| http_status := 200; http_body := json_dumps (VDict toy_run) |}
         else {| http_status := 202; http_body := "" |}), (method, url, body) :: log);
  http_clock := mret (Aware UTC 0);
  rs256_sign text := mret text;
|}.
(** What may be added to the log. *)
Definition lawful (log log' : Sent) : Prop :=
  ∃ more, log' = more ++ log ∧ Forall (λ '(method, url, body), may_request toy_authority method url body) more.
#[local] Instance lawful_preorder : PreOrder lawful.
Proof.
  split; [by intros log; exists [] |]. intros a b c (m & -> & Hm) (n & -> & Hn). exists (n ++ m).
  by rewrite <- app_assoc, Forall_app.
Qed.

Example toy_cancel : cancel_run toy_authority 5 toy_token [] =
  (Ok true, [("POST", "https://api.github.com/repos/octo/repo/actions/runs/5/cancel", None);
             ("GET", "https://api.github.com/repos/octo/repo/actions/runs/5", None)]).
Proof. vm_compute. reflexivity. Qed.

Lemma worker_confined_witness :
  lawful [] [("POST", "https://api.github.com/repos/octo/repo/actions/runs/5/cancel", None);
             ("GET", "https://api.github.com/repos/octo/repo/actions/runs/5", None)].
Proof.
  assert ((perform toy_authority (CallCancel 5 toy_token) []).2 = (cancel_run toy_authority 5 toy_token []).2) as E
    by (vm_compute; reflexivity).
  rewrite toy_cancel in E. cbn [snd] in E. rewrite <- E.
  apply (worker_confined (T := ToyTransport) toy_authority lawful).
  - vm_compute. discriminate.
  - intros method url headers body H log. exists [(method, url, body)]. split; [done|]. by apply Forall_singleton.
  - intros log. reflexivity.
  - intros text log. reflexivity.
Defined.
