(* ===== verification/ApprovalProps.v ===== *)
(** * Properties of the approval store

    [db_step] is one statement or transaction of any process on the database.
    Every step moves each row along [row_step], which carries the invariant
    (one active approval per head), the history of a row and what [approve],
    [poll] and [claim] may rely on whatever runs in between. *)

From stdpp Require Import gmap sorting.
From S2P Require Import Prelude Datetime PyValue PyText Json Digest Sql Allocation Protocol GateStore JitPilot LocalApproval.
#[local] Open Scope Z_scope.

(** ** Steps *)

Inductive db_step {D : Digest} (s s' : Approvals) : Prop :=
  | step_reconcile repository pr_number target now r :
      reconcile_active repository pr_number target now s = (r, s') → db_step s s'
  | step_insert request_id repository pr_number head generation encoded now expires r :
      is_repository repository = true →
      insert_approval request_id (new_approval repository pr_number head generation encoded now expires) s = (r, s') →
      db_step s s'
  | step_claim now r : claim_oldest now s = (r, s') → db_step s s'
  | step_durable request_id encoded until r : make_durable request_id encoded until s = (r, s') → db_step s s'
  | step_retry request_id reason until r : mark_retry request_id reason until s = (r, s') → db_step s s'
  | step_settle request_id t reason result r : settle_approval request_id t reason result s = (r, s') → db_step s s'
  | step_revoke repository pr_number r : revoke repository pr_number s = (r, s') → db_step s s'
  | step_lapse now r : lapse_claims now s = (r, s') → db_step s s'
  | step_requeue now r : requeue_claims now s = (r, s') → db_step s s'
  | step_block repository pr_number head reason now r :
      record_preflight_block repository pr_number head reason now s = (r, s') → db_step s s'
  | step_begin scope name r : begin_discard_check scope name s = (r, s') → db_step s s'
  | step_record scope name id r : record_discard_check scope name id s = (r, s') → db_step s s'
  | step_complete scope name r : complete_discard_check scope name s = (r, s') → db_step s s'.

(** ** What a step does to a row *)

Definition active (r : ApprovalRow) : Prop := is_active (ap_state r) = true.

Inductive row_step (r : ApprovalRow) : ApprovalRow → Prop :=
  | row_same : row_step r r
  | row_expire reason :
      ap_state r = ApPending ∨ (active r ∧ ap_durable r = false) → row_step r (expire_row reason r)
  | row_claim until : ap_state r = ApPending → row_step r (claim_row until r)
  | row_durable until : ap_state r = ApClaimed → row_step r (durable_row until r)
  | row_retry reason until : ap_state r = ApClaimed → ap_durable r = true → row_step r (retry_row reason until r)
  | row_settle t reason result : active r → row_step r (settle_row (settled_state t) reason result r)
  | row_revoke : active r → row_step r (revoke_row r)
  | row_lapse : ap_state r = ApClaimed → ap_durable r = false → row_step r (lapse_row r)
  | row_requeue : ap_state r = ApClaimed → ap_durable r = false → row_step r (requeue_row r).

Lemma is_active_spec s : is_active s = true ↔ s = ApPending ∨ s = ApClaimed.
Proof. unfold is_active. apply bool_decide_eq_true. Qed.

Lemma rows_where_spec p s k r : (k, r) ∈ rows_where p s ↔ approvals s !! k = Some r ∧ p r = true.
Proof.
  unfold rows_where. rewrite list_elem_of_In, List.filter_In, <- list_elem_of_In, elem_of_map_to_list. done.
Qed.

Lemma head_sorted {A} (R : relation A) `{∀ x y, Decision (R x y)} l x :
  head (merge_sort R l) = Some x → x ∈ l.
Proof.
  intros Hx. rewrite <- (merge_sort_Permutation R l). destruct (merge_sort R l); [done|].
  injection Hx as ->. set_solver.
Qed.

Lemma active_row_spec repository pr_number head s k r :
  active_row repository pr_number head s = Some (k, r) →
  approvals s !! k = Some r ∧ active r ∧
  ap_repository r = repository ∧ ap_pr_number r = pr_number ∧ ap_head_sha r = head.
Proof.
  unfold active_row. intros [Hk Hp]%head_sorted%rows_where_spec. unfold active_for in Hp.
  repeat (apply andb_true_iff in Hp as [Hp ?]). bool_inv. done.
Qed.

Lemma oldest_pending_spec s k r :
  oldest_pending s = Some (k, r) → approvals s !! k = Some r ∧ ap_state r = ApPending.
Proof. unfold oldest_pending. intros [Hk Hp]%head_sorted%rows_where_spec. by bool_inv. Qed.

(** No pending row was created earlier, and among those of the same second none has
    a smaller identifier. *)
Definition oldest (s : Approvals) (k : string) (r : ApprovalRow) : Prop :=
  approvals s !! k = Some r ∧ ap_state r = ApPending ∧
  ∀ k' r', approvals s !! k' = Some r' → ap_state r' = ApPending →
    String.compare (ap_created_at r) (ap_created_at r') = Lt ∨ (ap_created_at r = ap_created_at r' ∧ String.le k k').

Lemma arrived_before_iff a b :
  arrived_before a b ↔ String.le (ap_created_at a.2) (ap_created_at b.2) ∧ (ap_created_at a.2 = ap_created_at b.2 → String.le a.1 b.1).
Proof.
  unfold arrived_before, String.le, String.leb. destruct (String.compare (ap_created_at a.2) (ap_created_at b.2)) eqn:E.
  - apply String.compare_eq_iff in E. split; [intros H; split; [done|]; intros _; exact (Is_true_true_2 _ H)|].
    intros [_ H]. exact (Is_true_true_1 _ (H E)).
  - split; [|done]. intros _. split; [done|]. intros Heq. rewrite Heq in E.
    pose proof (String.compare_antisym (ap_created_at b.2) (ap_created_at b.2)) as Ha. by rewrite E in Ha.
  - split; [done|]. by intros [[] _].
Qed.
#[local] Instance arrived_before_trans : Transitive arrived_before.
Proof.
  intros a b c. rewrite !arrived_before_iff. intros [H1 H1'] [H2 H2']. split; [by etrans|]. intros Hac.
  assert (ap_created_at a.2 = ap_created_at b.2) as Hab by (apply (anti_symm String.le); [done|by rewrite Hac]).
  etrans; [by apply H1'|]. apply H2'. by rewrite <- Hab.
Qed.
#[local] Instance arrived_before_total : Total arrived_before.
Proof.
  intros a b. rewrite !arrived_before_iff. destruct (decide (ap_created_at a.2 = ap_created_at b.2)) as [E|E].
  - rewrite E. destruct (total String.le a.1 b.1); [left|right]; by split.
  - destruct (total String.le (ap_created_at a.2) (ap_created_at b.2)); [left|right]; split; try done; intros ?; by destruct E.
Qed.
Lemma head_least {A} (R : relation A) `{∀ x y, Decision (R x y)} `{!Transitive R, !Total R} l x :
  head (merge_sort R l) = Some x → ∀ y, y ∈ l → R x y.
Proof.
  intros Hx y Hy. rewrite <- (merge_sort_Permutation R l) in Hy. pose proof (StronglySorted_merge_sort R l) as Hs.
  destruct (merge_sort R l) as [|z l']; [done|]. injection Hx as ->. apply StronglySorted_inv in Hs as [_ Hs].
  apply elem_of_cons in Hy as [->|Hy]; [by destruct (total R x x)|]. rewrite Forall_forall in Hs. by apply Hs.
Qed.
Lemma oldest_pending_oldest s k r : oldest_pending s = Some (k, r) → oldest s k r.
Proof.
  intros H. destruct (oldest_pending_spec _ _ _ H) as [Hk Hp]. split; [done|]. split; [done|]. intros k' r' Hk' Hp'.
  unfold oldest_pending in H. pose proof (head_least _ _ _ H (k', r')) as Hl.
  assert (arrived_before (k, r) (k', r')) as Hb by (apply Hl, rows_where_spec; split; [done|by apply bool_decide_eq_true_2]).
  unfold arrived_before in Hb. cbn in Hb. destruct (String.compare (ap_created_at r) (ap_created_at r')) eqn:E; [right|by left|done].
  apply String.compare_eq_iff in E. split; [done|]. exact (Is_true_true_2 _ Hb).
Qed.

(** ** Steps are row by row *)

Definition rows_step (s s' : Approvals) : Prop := ∀ k, option_Forall2 row_step (approvals s !! k) (approvals s' !! k).

(** A new row, with an active key no other row has. *)
Definition row_added (s s' : Approvals) : Prop :=
  ∃ k repository pr_number head generation encoded now expires,
    let row := new_approval repository pr_number head generation encoded now expires in
    is_repository repository = true ∧ approvals s !! k = None ∧
    unique_in ap_active_key (ap_active_key row) (approvals s) = true ∧
    approvals s' = <[k := row]> (approvals s).

Lemma option_same (o : option ApprovalRow) : option_Forall2 row_step o o.
Proof. destruct o; constructor. constructor. Qed.
Lemma rows_same s s' : approvals s' = approvals s → rows_step s s'.
Proof. intros E k. rewrite E. apply option_same. Qed.

Lemma rows_update f k r s :
  approvals s !! k = Some r → row_step r (f r) → rows_step s (set_approvals (update_row f k) s).
Proof.
  intros Hr Hf k'. cbn. unfold update_row. destruct (decide (k' = k)) as [->|].
  - rewrite lookup_alter_eq, Hr. by constructor.
  - rewrite lookup_alter_ne by done. apply option_same.
Qed.

Lemma update_approval_cases p f k s b s' :
  update_approval p f k s = (b, s') →
  (b = Ok false ∧ s' = s) ∨
  (b = Ok true ∧ ∃ r, approvals s !! k = Some r ∧ p r = true ∧ s' = set_approvals (update_row f k) s).
Proof.
  unfold update_approval. destruct (approvals s !! k) as [r|] eqn:E; [destruct (p r) eqn:Ep|];
    intros [= <- <-]; eauto 8.
Qed.

Lemma update_checked p f k c msg s r s' :
  (∀ row, approvals s !! k = Some row → p row = true → row_step row (f row)) →
  (changed ← update_approval p f k; raise_if (negb changed) c msg) s = (r, s') → rows_step s s'.
Proof.
  intros Hf H. unfold mbind, M_bind in H. destruct (update_approval p f k s) as [b s1] eqn:E.
  apply update_approval_cases in E as [[-> ->]|(-> & row & Hk & Hp & ->)]; cbn in H; injection H as <- <-.
  - by apply rows_same.
  - eapply rows_update; eauto.
Qed.

Lemma update_all_rows p f s r s' :
  (∀ row, p row = true → row_step row (f row)) → update_all p f s = (r, s') → rows_step s s'.
Proof.
  intros Hf [= <- <-] k. cbn. rewrite lookup_fmap. destruct (approvals s !! k) as [row|]; cbn; constructor.
  destruct (p row) eqn:E; [eauto|constructor].
Qed.

(** A transaction that only updates when it returns. *)
Lemma transaction_rows {A} (m : M Approvals A) s r s' :
  (∀ a s1, m s = (Ok a, s1) → rows_step s s1) → transaction m s = (r, s') → rows_step s s'.
Proof.
  intros Hm. unfold transaction. destruct (m s) as [[a|e] s1] eqn:E; intros [= <- <-]; [eauto|by apply rows_same].
Qed.

Lemma reconcile_rows {D : Digest} repository pr_number target now s r s' :
  reconcile_active repository pr_number target now s = (r, s') → rows_step s s'.
Proof.
  apply transaction_rows. intros a s1 H. apply bind_ok in H as (? & ? & [_ <-]%lift_ok & H).
  apply bind_ok in H as (s0 & ? & [-> ->]%get_ok & H).
  destruct (active_row _ _ _ s) as [[k row]|] eqn:Er; [|apply ret_ok in H as [_ <-]; by apply rows_same].
  apply active_row_spec in Er as (Hk & Ha & _).
  apply bind_ok in H as (existing & ? & [_ <-]%lift_ok & H). destruct (ap_durable row) eqn:Ed.
  { apply bind_ok in H as (? & ? & [_ ->]%raise_if_ok & [_ <-]%ret_ok). by apply rows_same. }
  apply bind_ok in H as (expired & ? & [_ <-]%lift_ok & H). destruct expired.
  - apply bind_ok in H as (changed & s2 & Hu & H). apply bind_ok in H as (? & ? & [_ ->]%raise_if_ok & [_ <-]%ret_ok).
    apply update_approval_cases in Hu as [[_ ->]|(_ & row' & Hk' & Hp & ->)]; [by apply rows_same|].
    eapply rows_update; [done|]. apply row_expire. right. by bool_inv.
  - destruct (request_matches_target _ _); [apply ret_ok in H as [_ <-]; by apply rows_same|].
    case_match; [by apply raise_ok in H|].
    apply bind_ok in H as (changed & s2 & Hu & H). apply bind_ok in H as (? & ? & [_ ->]%raise_if_ok & [_ <-]%ret_ok).
    apply update_approval_cases in Hu as [[_ ->]|(_ & row' & Hk' & Hp & ->)]; [by apply rows_same|].
    eapply rows_update; [done|]. apply row_expire. left. by bool_inv.
Qed.

Lemma claim_oldest_ok now s p s' :
  claim_oldest now s = (Ok p, s') →
  match p with
  | NothingPending => oldest_pending s = None ∧ s' = s
  | ExpiredOne => ∃ k r, oldest_pending s = Some (k, r) ∧ reached now (ap_expires_at r) = Ok true ∧
      s' = set_approvals (update_row (expire_row "ttl-expired") k) s
  | ClaimedOne k r => oldest_pending s = Some (k, r) ∧
      ∃ zone t, fromisoformat (str_replace "Z" "+00:00" (ap_expires_at r)) = Ok (Aware zone t) ∧ now < t ∧
        s' = set_approvals (update_row (claim_row (stamp_text (Z.min (now + minutes 1) t))) k) s
  end.
Proof.
  unfold claim_oldest. intros H%transaction_ok_1. apply bind_ok in H as (s0 & ? & [-> ->]%get_ok & H).
  destruct (oldest_pending s) as [[k r]|] eqn:Eo; [|by apply ret_ok in H as [<- <-]].
  pose proof (oldest_pending_spec _ _ _ Eo) as [Hk _].
  apply bind_ok in H as (expired & ? & [He <-]%lift_ok & H).
  assert (∀ f b s1, update_approval (λ _, true) f k s = (Ok b, s1) → s1 = set_approvals (update_row f k) s) as Hu.
  { unfold update_approval. rewrite Hk. by intros ? ? ? [= _ ->]. }
  destruct expired.
  - apply bind_ok in H as (b & s1 & ->%Hu & [<- <-]%ret_ok). eauto.
  - apply bind_ok in H as (until & ? & [Ha <-]%lift_ok & H). apply bind_ok in H as (expires & ? & [Hp <-]%lift_ok & H).
    apply bind_ok in H as (b & s1 & ->%Hu & [<- <-]%ret_ok). split; [done|]. unfold parse_timestamp in Hp. unfold reached in He.
    apply result_bind_ok in Hp as (d & Hd & Hp). rewrite Hd in He. cbn [mbind result_bind] in He. destruct d as [|zone t]; [done|].
    injection He as He. injection Hp as ->. exists zone, expires. apply Z.leb_gt in He. split_and!; [done..|].
    unfold dt_add in Ha. case_decide; [|done]. by injection Ha as <-.
Qed.

Lemma claim_oldest_raise now s e s' : claim_oldest now s = (Raise e, s') → s' = s.
Proof. apply transaction_raise. Qed.

Lemma claim_rows now s r s' : claim_oldest now s = (r, s') → rows_step s s'.
Proof.
  destruct r as [p|e]; [|intros ->%claim_oldest_raise; by apply rows_same].
  intros H%claim_oldest_ok. destruct p as [| |k r].
  - destruct H as [_ ->]. by apply rows_same.
  - destruct H as (k & r & [Hk Hp]%oldest_pending_spec & _ & ->). eapply rows_update; [done|]. apply row_expire. by left.
  - destruct H as ([Hk Hp]%oldest_pending_spec & zone & t & _ & _ & ->). eapply rows_update; [done|]. by apply row_claim.
Qed.

Lemma insert_added k repository pr_number head generation encoded now expires s r s' :
  is_repository repository = true →
  insert_approval k (new_approval repository pr_number head generation encoded now expires) s = (r, s') →
  rows_step s s' ∨ row_added s s'.
Proof.
  intros Hrepo H. unfold insert_approval in H. destruct r as [u|e].
  - right. apply transaction_ok_1 in H. apply bind_ok in H as (? & ? & [_ <-]%lift_ok & H).
    apply bind_ok in H as (s0 & ? & [-> ->]%get_ok & H). apply bind_ok in H as (t & ? & [Ht <-]%lift_ok & ->%modify_ok).
    apply insert_row_ok in Ht as (Hk & Hu & ->).
    by exists k, repository, pr_number, head, generation, encoded, now, expires.
  - left. apply transaction_raise in H as ->. by apply rows_same.
Qed.

(** The statements on the other tables. *)
Definition untouched {A} (m : M Approvals A) : Prop := ∀ s r s', m s = (r, s') → approvals s' = approvals s.

Lemma untouched_bind {A B} (m : M Approvals A) (k : A → M Approvals B) : untouched m → (∀ a, untouched (k a)) → untouched (m ≫= k).
Proof.
  intros Hm Hk s r s' E. unfold mbind, M_bind in E. destruct (m s) as [[a|e] s1] eqn:Em.
  - rewrite <- (Hm _ _ _ Em). by eapply Hk.
  - injection E as _ <-. by eapply Hm.
Qed.
Lemma untouched_readonly {A} (m : M Approvals A) : readonly m → untouched m.
Proof. by intros Hm s r s' ->%Hm. Qed.
Lemma untouched_transaction {A} (m : M Approvals A) : untouched m → untouched (transaction m).
Proof.
  intros Hm s r s'. unfold transaction. destruct (m s) as [[a|e] s1] eqn:E; intros [= <- <-]; [by eapply Hm|done].
Qed.
Lemma untouched_get : untouched get.
Proof. by intros s r s' [= _ <-]. Qed.
Lemma untouched_blocks f : untouched (modify (set_blocks f)).
Proof. by intros s r s' [= _ <-]. Qed.
Lemma untouched_discards f : untouched (modify (set_discards f)).
Proof. by intros s r s' [= _ <-]. Qed.
Lemma untouched_rows {A} (m : M Approvals A) s r s' : untouched m → m s = (r, s') → rows_step s s'.
Proof. intros Hm E. apply rows_same. by eapply Hm. Qed.

Create HintDb untouched discriminated.
#[local] Hint Resolve untouched_readonly untouched_transaction untouched_get untouched_blocks untouched_discards
  readonly_lift readonly_raise_if readonly_ret : untouched.
#[local] Hint Extern 1 (untouched (raise _ _)) => apply untouched_readonly, readonly_lift : untouched.

Ltac keep :=
  repeat first
    [ progress intros | solve [eauto with untouched nocore] | apply untouched_bind | apply untouched_transaction | case_match ].

Lemma block_keeps repository pr_number head reason now : untouched (record_preflight_block repository pr_number head reason now).
Proof. unfold record_preflight_block. keep. Qed.
Lemma begin_keeps scope name : untouched (begin_discard_check scope name).
Proof. unfold begin_discard_check. keep. Qed.
Lemma record_keeps scope name id : untouched (record_discard_check scope name id).
Proof. unfold record_discard_check. keep. Qed.
Lemma complete_keeps scope name : untouched (complete_discard_check scope name).
Proof. unfold complete_discard_check. keep. Qed.

Lemma revoke_rows repository pr_number s r s' : revoke repository pr_number s = (r, s') → rows_step s s'.
Proof.
  unfold revoke, mbind, M_bind, lift. destruct (bind_ints _); cbn; [|intros [= _ <-]; by apply rows_same].
  intros [= _ <-]. eapply (update_all_rows _ revoke_row s); [|reflexivity]. cbn. intros row Hp. bool_inv. by apply row_revoke.
Qed.

Lemma step_rows {D : Digest} s s' : db_step s s' → rows_step s s' ∨ row_added s s'.
Proof.
  destruct 1 as [????? H|??????? ? ? ? H|?? H|???? H|???? H|????? H|??? H|?? H|?? H|?????? H|??? H|???? H|??? H].
  2: by eapply insert_added.
  all: left.
  - by eapply reconcile_rows.
  - by eapply claim_rows.
  - eapply update_checked; [|exact H]. cbn. intros row _ Hp. bool_inv. by apply row_durable.
  - eapply update_checked; [|exact H]. cbn. intros row _ Hp. bool_inv. by apply row_retry.
  - eapply update_checked; [|exact H]. cbn. intros row _ Hp. by apply row_settle.
  - by eapply revoke_rows.
  - eapply update_all_rows; [|exact H]. cbn. intros row Hp. bool_inv. by apply row_lapse.
  - eapply update_all_rows; [|exact H]. cbn. intros row Hp. bool_inv. by apply row_requeue.
  - eapply untouched_rows; [apply block_keeps|exact H].
  - eapply untouched_rows; [apply begin_keeps|exact H].
  - eapply untouched_rows; [apply record_keeps|exact H].
  - eapply untouched_rows; [apply complete_keeps|exact H].
Qed.

(** ** The invariant *)

Record wf_row (r : ApprovalRow) : Prop := {
  wf_repository : is_repository (ap_repository r) = true;
  wf_key : ap_active_key r =
    if is_active (ap_state r) then Some (active_key_of (ap_repository r) (ap_pr_number r) (ap_head_sha r)) else None;
  wf_pending : ap_state r = ApPending → ap_durable r = false ∧ ap_claim_until r = None;
  wf_claimed : ap_state r = ApClaimed → is_Some (ap_claim_until r);
}.

Record approvals_inv (s : Approvals) : Prop := {
  inv_rows k r : approvals s !! k = Some r → wf_row r;
  inv_unique k1 k2 r1 r2 : approvals s !! k1 = Some r1 → approvals s !! k2 = Some r2 →
    is_Some (ap_active_key r1) → ap_active_key r1 = ap_active_key r2 → k1 = k2;
}.

Lemma row_step_wf r r' : row_step r r' → wf_row r → wf_row r'.
Proof.
  intros Hs [Hr Hk Hp Hc]. unfold active in Hs. destruct Hs; [done|..]; split; cbn; try done;
    try (by destruct t); try (rewrite Hk; f_equal; match goal with H : ap_state r = _ |- _ => by rewrite H end).
  all: try (intros E; rewrite E in *; done).
  all: try (intros Hst; rewrite Hst in *; try done).
  all: try (by intros [= ]).
Qed.

Lemma row_step_key r r' key : row_step r r' → ap_active_key r' = Some key → ap_active_key r = Some key.
Proof. by destruct 1. Qed.

Lemma new_wf repository pr_number head generation encoded now expires :
  is_repository repository = true → wf_row (new_approval repository pr_number head generation encoded now expires).
Proof. by split. Qed.

Lemma step_inv {D : Digest} s s' : db_step s s' → approvals_inv s → approvals_inv s'.
Proof.
  intros Hs [Hr Hu]. apply step_rows in Hs as [Hs|(k & repo & pr & head & gen & enc & now & exp & Hrepo & Hk & Huq & E)].
  - assert (∀ k r', approvals s' !! k = Some r' → ∃ r, approvals s !! k = Some r ∧ row_step r r') as Hback.
    { intros k r' Hk. specialize (Hs k). rewrite Hk in Hs. inversion Hs; subst. eauto. }
    split.
    + intros k r' (r & Hk & Hst)%Hback. eapply row_step_wf; eauto.
    + intros k1 k2 r1 r2 (r1' & H1 & S1)%Hback (r2' & H2 & S2)%Hback [key Hkey] Eq.
      rewrite Hkey in Eq. symmetry in Eq. eapply row_step_key in Hkey; [|done]. eapply row_step_key in Eq; [|done].
      eapply Hu; [exact H1|exact H2|eauto|congruence].
  - rewrite unique_in_true in Huq. split; rewrite E.
    + intros k' r' [[<- <-]|[Hne H]]%lookup_insert_Some; [by apply new_wf|eauto].
    + intros k1 k2 r1 r2 [[<- <-]|[Hn1 H1]]%lookup_insert_Some [[<- <-]|[Hn2 H2]]%lookup_insert_Some Hsome Eq; [done|..].
      * exfalso. by eapply Huq, eq_sym.
      * exfalso. by eapply Huq.
      * by eapply Hu.
Qed.

Lemma empty_inv : approvals_inv no_approvals.
Proof. split; intros *; unfold no_approvals; cbn; by rewrite lookup_empty. Qed.

Definition db_reachable {D : Digest} (s : Approvals) : Prop := rtc db_step no_approvals s.

Lemma steps_inv {D : Digest} s s' : rtc db_step s s' → approvals_inv s → approvals_inv s'.
Proof. induction 1 as [|? ? ? H _ IH]; [done|]. intros Hi. apply IH. by eapply step_inv. Qed.
Lemma reachable_inv {D : Digest} s : db_reachable s → approvals_inv s.
Proof. intros Hs. eapply steps_inv; [exact Hs|apply empty_inv]. Qed.

(** Keys of valid repositories are read in one way. *)
Lemma split_at_eq c s l r : split_at c s = Some (l, r) → s = l +:+ String c r.
Proof.
  revert l. induction s as [|a s IH]; [done|]. intros l. cbn [split_at]. destruct (Ascii.eqb_spec a c) as [->|].
  - by intros [= <- <-].
  - intros ([l' r'] & E & [= <- <-])%bind_Some. rewrite str_cons_app. f_equal. by apply IH.
Qed.

Lemma all_chars_lacks (p : ascii → bool) c s : p c = false → all_chars p s = true → lacks c s = true.
Proof.
  intros Hc. induction s as [|a s IH]; [done|]. cbn. intros [Ha Hs]%andb_true_iff. rewrite IH by done.
  destruct (Ascii.eqb_spec c a) as [->|]; [congruence|done].
Qed.

Lemma repository_lacks_colon s : is_repository s = true → lacks ":" s = true.
Proof.
  unfold is_repository, match_some. destruct (split_at "/" s) as [[a b]|] eqn:E; [|done].
  intros [[_ Ha]%andb_true_iff [_ Hb]%andb_true_iff]%andb_true_iff. apply split_at_eq in E as ->.
  rewrite lacks_app. cbn [lacks]. by rewrite !(all_chars_lacks is_name_char).
Qed.

Lemma active_key_inj r1 p1 h1 r2 p2 h2 :
  is_repository r1 = true → is_repository r2 = true →
  active_key_of r1 p1 h1 = active_key_of r2 p2 h2 → r1 = r2 ∧ p1 = p2 ∧ h1 = h2.
Proof.
  intros H1%repository_lacks_colon H2%repository_lacks_colon E. unfold active_key_of in E.
  apply sep_inj_l in E as [-> E]; [|done..]. apply sep_inj_l in E as [E ->]; [|by apply lacks_str_of_Z..].
  by apply str_of_Z_inj in E as ->.
Qed.

(** C27: In every reachable database two active approvals, pending or claimed,
    of one repository, pull request and head are the same approval; the active
    keys of different approvals name different heads; an approval carries its
    key exactly while it is active, a pending one is neither durable nor leased,
    and a claimed one is leased. *)
Theorem one_active_approval {D : Digest} s :
  db_reachable s →
  (∀ k r, approvals s !! k = Some r → wf_row r) ∧
  (∀ k1 k2 r1 r2, approvals s !! k1 = Some r1 → approvals s !! k2 = Some r2 → active r1 → active r2 →
     ap_repository r1 = ap_repository r2 → ap_pr_number r1 = ap_pr_number r2 → ap_head_sha r1 = ap_head_sha r2 →
     k1 = k2) ∧
  (∀ k1 k2 r1 r2 key, approvals s !! k1 = Some r1 → approvals s !! k2 = Some r2 →
     ap_active_key r1 = Some key → ap_active_key r2 = Some key →
     ap_repository r1 = ap_repository r2 ∧ ap_pr_number r1 = ap_pr_number r2 ∧ ap_head_sha r1 = ap_head_sha r2).
Proof.
  intros [Hr Hu]%reachable_inv. split; [exact Hr|]. split.
  - intros k1 k2 r1 r2 H1 H2 A1 A2 E1 E2 E3. unfold active in *.
    pose proof (wf_key _ (Hr _ _ H1)) as K1. pose proof (wf_key _ (Hr _ _ H2)) as K2.
    rewrite A1 in K1. rewrite A2, <- E1, <- E2, <- E3 in K2. eapply Hu; [exact H1|exact H2|rewrite K1; eauto|congruence].
  - intros k1 k2 r1 r2 key H1 H2 K1 K2. pose proof (Hr _ _ H1) as W1. pose proof (Hr _ _ H2) as W2.
    rewrite (wf_key _ W1) in K1. rewrite (wf_key _ W2) in K2.
    destruct (is_active (ap_state r1)), (is_active (ap_state r2)); try done.
    apply active_key_inj; [apply W1|apply W2|congruence].
Qed.

(** ** History *)

(** What never changes of an approval. *)
Definition identity (r : ApprovalRow) :=
  (ap_repository r, ap_pr_number r, ap_head_sha r, ap_head_generation r, ap_request_json r, ap_created_at r,
   ap_expires_at r).

Record later (r r' : ApprovalRow) : Prop := {
  later_identity : identity r' = identity r;
  later_settled : ¬ active r → r' = r;
  later_durable : ap_durable r = true → ap_durable r' = true ∧ ap_state r' ≠ ApPending;
}.

Lemma row_step_later r r' : wf_row r → row_step r r' → later r r'.
Proof.
  intros [_ _ Hp _] Hs. assert (ap_durable r = true → ap_state r ≠ ApPending) as Hd.
  { intros E Hst. destruct (Hp Hst). congruence. }
  unfold active in Hs. destruct Hs; split; cbn; try done; try (unfold active; by intros []).
  all: try (intros Hna; exfalso; apply Hna, is_active_spec; tauto).
  all: try (intros Hd'; split; [done|]; by destruct t).
  all: try (intros Hd'; rewrite Hd' in *; naive_solver).
Qed.

Lemma later_trans r1 r2 r3 : wf_row r2 → later r1 r2 → later r2 r3 → later r1 r3.
Proof.
  intros Hw [I1 S1 D1] [I2 S2 D2]. split.
  - congruence.
  - intros Ha. specialize (S1 Ha) as ->. by apply S2.
  - intros [Hd _]%D1. by apply D2.
Qed.

Lemma step_later {D : Digest} s s' k r :
  approvals_inv s → db_step s s' → approvals s !! k = Some r → ∃ r', approvals s' !! k = Some r' ∧ later r r'.
Proof.
  intros [Hr _] Hs Hk. apply step_rows in Hs as [Hs|(k' & repo & pr & head & gen & enc & now & exp & _ & Hn & _ & E)].
  - specialize (Hs k). rewrite Hk in Hs. inversion Hs as [? r' Hst E1 E2|]; subst. exists r'. split; [done|].
    apply row_step_later; eauto.
  - exists r. rewrite E, lookup_insert_ne by congruence. split; [done|]. apply row_step_later; [eauto|constructor].
Qed.

Lemma steps_later {D : Digest} s s' k r :
  approvals_inv s → rtc db_step s s' → approvals s !! k = Some r → ∃ r', approvals s' !! k = Some r' ∧ later r r'.
Proof.
  intros Hinv Hs. revert r. induction Hs as [s|s s1 s' Hst _ IH]; intros r Hk.
  - exists r. split; [done|]. apply row_step_later; [by eapply inv_rows|constructor].
  - destruct (step_later s s1 k r Hinv Hst Hk) as (r1 & Hk1 & L1). pose proof (step_inv _ _ Hst Hinv) as Hinv1.
    destruct (IH Hinv1 r1 Hk1) as (r' & Hk' & L2). exists r'. split; [done|].
    eapply later_trans; [|exact L1|exact L2]. by eapply inv_rows.
Qed.

(** C28: Whatever the processes do, an approval is never deleted and untouched its
    head, generation, request and times; once completed, failed, expired or
    revoked its row never changes again; once durable it stays so and never
    goes back to pending. *)
Theorem approval_history {D : Digest} s s' k r :
  db_reachable s → rtc db_step s s' → approvals s !! k = Some r →
  ∃ r', approvals s' !! k = Some r' ∧ later r r'.
Proof. intros Hinv%reachable_inv. by apply steps_later. Qed.

(** ** Approving *)

Section operations.
Context {D : Digest} {G : Type} {Host : ApprovalHost G}.
Implicit Types w : ApprovalWorld G.

Lemma on_db_ok {A} (m : M Approvals A) w a w' :
  on_db m w = (Ok a, w') → ∃ w1, others w = (Ok tt, w1) ∧ m (aw_db w1) = (Ok a, aw_db w').
Proof.
  unfold on_db. intros H. apply bind_ok in H as ([] & w1 & Ho & H). exists w1. split; [done|].
  unfold statement in H. destruct (m (aw_db w1)) as [r db] eqn:E. by injection H as -> <-.
Qed.

(** The request an approval stores names the target it was approved for. *)
Definition names_target (request : dict) (target : ResolvedApprovalTarget) : Prop :=
  ∃ package reservation,
    package_of request = VDict package ∧ dget "reservation" request = VDict reservation ∧
    agrees [("repository", VStr (tg_repository target)); ("pr_number", VInt (tg_pr_number target));
            ("head_sha", VStr (tg_head_sha target))] package = true ∧
    agrees [("repository_id", VStr (tg_repository_id target)); ("repository", VStr (tg_repository target));
            ("head_sha", VStr (tg_head_sha target)); ("workflow_ref", VStr (tg_workflow_ref target))] reservation = true.

Lemma agrees_sub expected wanted values :
  (∀ kv, kv ∈ wanted → kv ∈ expected) → agrees expected values = true → agrees wanted values = true.
Proof.
  unfold agrees. rewrite !forallb_forall. intros Hs Ha kv Hin. apply Ha. rewrite <- list_elem_of_In in *. by apply Hs.
Qed.

Lemma agrees_nonempty k v values : v ≠ VNone → agrees [(k, v)] values = true → py_truthy (VDict values) = true.
Proof.
  unfold agrees. cbn. rewrite andb_true_r. destruct values; [|done]. cbn. unfold dget. cbn. by destruct v.
Qed.

Lemma validate_request_names raw target generation request_id nonce now request :
  validate_request raw target generation request_id nonce now = Ok request → names_target request target.
Proof.
  unfold validate_request. destruct raw as [| | | | |raw]; try done. intros H.
  apply result_bind_ok in H as (? & _ & H). apply result_bind_ok in H as (? & _ & H).
  destruct (dget "reservation" raw) as [| | | | |reservation]; try done.
  apply result_bind_ok in H as (? & _ & H). apply result_bind_ok in H as (? & Hres & H).
  apply check_ok, negb_false_iff in Hres.
  assert (agrees [("repository_id", VStr (tg_repository_id target)); ("repository", VStr (tg_repository target));
            ("head_sha", VStr (tg_head_sha target)); ("workflow_ref", VStr (tg_workflow_ref target))] reservation = true) as Hr.
  { eapply agrees_sub; [|exact Hres]. unfold reservation_expected. set_solver. }
  destruct (dlookup "pilot_package" raw) as [pilot|].
  - apply result_bind_ok in H as (package & _ & H). apply result_bind_ok in H as (? & Hp & [= <-]).
    unfold check_pilot_request in Hp. apply result_bind_ok in Hp as (id & _ & Hp).
    apply result_bind_ok in Hp as (? & Ha & _). apply check_ok, negb_false_iff in Ha.
    exists package, reservation. assert (py_truthy (VDict package) = true) as Ht.
    { eapply (agrees_nonempty "repository" (VStr (tg_repository target))); [done|]. eapply agrees_sub; [|exact Ha]. set_solver. }
    unfold package_of. change (dget "pilot_package" _) with (VDict package). rewrite Ht.
    repeat (split; [done|]). split; [|done]. eapply agrees_sub; [|exact Ha]. set_solver.
  - apply result_bind_ok in H as (package & _ & H). apply result_bind_ok in H as (? & Hp & [= <-]).
    unfold check_protocol_request in Hp. apply result_bind_ok in Hp as (id & _ & Hp).
    apply result_bind_ok in Hp as (? & Ha & _). apply check_ok, negb_false_iff in Ha.
    exists package, reservation. repeat (split; [done|]). split; [|done]. eapply agrees_sub; [|exact Ha]. set_solver.
Qed.

(** What an operation that reports an approval found in the database. *)
Definition reported (target : ResolvedApprovalTarget) (repository : string) (pr_number : Z) (db : Approvals)
    (reply : ApprovalReply) : Prop :=
  match reply with
  | AlreadyActive request_id st =>
      ∃ row request, approvals db !! request_id = Some row ∧ active row ∧ ap_state row = st ∧
        ap_repository row = repository ∧ ap_pr_number row = pr_number ∧ ap_head_sha row = tg_head_sha target ∧
        json_loads (ap_request_json row) = Ok request ∧ request_matches_target request target = true
  | Approved request_id head expires =>
      head = tg_head_sha target ∧
      ∃ row request, approvals db !! request_id = Some row ∧ ap_state row = ApPending ∧
        ap_repository row = repository ∧ ap_pr_number row = pr_number ∧ ap_head_sha row = head ∧
        ap_expires_at row = expires ∧ ap_request_json row = dumps (VDict request) ∧ names_target request target
  end.

Lemma reconcile_reports repository pr_number target now s k st s' :
  reconcile_active repository pr_number target now s = (Ok (Some (k, st)), s') →
  s' = s ∧ reported target repository pr_number s (AlreadyActive k st).
Proof.
  intros H%transaction_ok_1. apply bind_ok in H as (? & ? & [_ <-]%lift_ok & H).
  apply bind_ok in H as (s0 & ? & [-> ->]%get_ok & H).
  destruct (active_row _ _ _ s) as [[k' row]|] eqn:Er; [|by apply ret_ok in H as [? _]].
  apply active_row_spec in Er as (Hk & Ha & ? & ? & ?).
  apply bind_ok in H as (existing & ? & [Hl%rewrap_ok <-]%lift_ok & H).
  assert (∀ s1, request_matches_target existing target = true → (k', ap_state row) = (k, st) → s1 = s' → s1 = s →
    s' = s ∧ reported target repository pr_number s (AlreadyActive k st)) as Hdone.
  { intros s1 Hm [= -> <-] -> ->. split; [done|]. by exists row, existing. }
  destruct (ap_durable row).
  { apply bind_ok in H as (? & ? & [Hm ->]%raise_if_ok & [[= E] <-]%ret_ok). bool_inv. eapply Hdone; [done|by f_equal|done..]. }
  apply bind_ok in H as (expired & ? & [_ <-]%lift_ok & H). destruct expired.
  - apply bind_ok in H as (? & ? & _ & H). apply bind_ok in H as (? & ? & _ & [? _]%ret_ok). done.
  - destruct (request_matches_target _ _) eqn:Em; [apply ret_ok in H as [[= E] <-]; eapply Hdone; [done|by f_equal|done..]|].
    case_match; [by apply raise_ok in H|].
    apply bind_ok in H as (? & ? & _ & H). apply bind_ok in H as (? & ? & _ & [? _]%ret_ok). done.
Qed.

Lemma insert_present k row s s' : insert_approval k row s = (Ok tt, s') → approvals s' !! k = Some row.
Proof.
  intros H%transaction_ok_1. apply bind_ok in H as (? & ? & _ & H).
  apply bind_ok in H as (s0 & ? & [-> ->]%get_ok & H). apply bind_ok in H as (t & ? & [Ht <-]%lift_ok & ->%modify_ok).
  apply insert_row_ok in Ht as (_ & _ & ->). apply lookup_insert_eq.
Qed.

Lemma concurrent_reports target repository pr_number w reply w' :
  concurrent_approval target repository pr_number w = (Ok reply, w') →
  reported target repository pr_number (aw_db w') reply.
Proof.
  intros H. apply bind_ok in H as (found & w1 & (w0 & _ & [-> Hdb]%gets_ok)%on_db_ok & H).
  rewrite <- Hdb in H. destruct (conflicting _ _ _ _) as [[k row]|] eqn:Er; [|by apply raise_ok in H].
  apply bind_ok in H as (existing & ? & [Hl <-]%lift_ok & H). apply bind_ok in H as (? & ? & [Hm ->]%raise_if_ok & [<- <-]%ret_ok).
  apply active_row_spec in Er as (Hk & Ha & ? & ? & ?). bool_inv. by exists row, existing.
Qed.

Lemma attempt_ok {A} (m : M (ApprovalWorld G) A) w r w' : attempt m w = (Ok r, w') → m w = (r, w').
Proof. unfold attempt. destruct (m w). by intros [= -> ->]. Qed.

Lemma fresh_reports ttl target repository pr_number generation now w reply w' :
  approve_fresh ttl target repository pr_number generation now w = (Ok reply, w') →
  reported target repository pr_number (aw_db w') reply.
Proof.
  unfold approve_fresh. intros H. apply bind_ok in H as (request_id & ? & _ & H). apply bind_ok in H as (nonce & ? & _ & H).
  apply bind_ok in H as (? & ? & _ & H). apply bind_ok in H as (raw & ? & _ & H).
  apply bind_ok in H as (request & ? & [Hv _]%lift_ok & H). apply bind_ok in H as (expires & ? & _ & H).
  apply bind_ok in H as (inserted & w1 & Hi%attempt_ok & H). destruct inserted as [[]|e].
  - apply ret_ok in H as [<- <-]. apply on_db_ok in Hi as (w0 & _ & Hi). apply insert_present in Hi.
    split; [done|]. eexists _, request. split; [exact Hi|]. repeat (split; [done|]). by eapply validate_request_names.
  - case_match; [by eapply concurrent_reports|]. done.
Qed.

(** What [approve] reports is in the database when it returns: an active
    approval of the head that was resolved for it, whose stored request matches
    the resolved target, or a fresh pending approval whose stored request names
    it.  Whatever ran in between. *)
Lemma approve_reports ttl repository pr_number w reply w' :
  approve ttl repository pr_number w = (Ok reply, w') →
  ∃ name number target w0 w1, repository = VStr name ∧ pr_number = VInt number ∧
    is_repository name = true ∧ 1 ≤ number ∧
    host_resolve name number w0 = (Ok target, w1) ∧ reported target name number (aw_db w') reply.
Proof.
  unfold approve. intros H. destruct (is_str_where is_repository repository) eqn:Er; [|by apply raise_ok in H].
  destruct repository as [| | |name| |]; try done. destruct (is_positive_int pr_number) eqn:Ep; [|by apply raise_ok in H].
  destruct pr_number as [| |number| | |]; try done. cbn in Er, Ep. bool_inv.
  apply bind_ok in H as (now & ? & _ & H). apply bind_ok in H as (target & w1 & Ht & H).
  apply bind_ok in H as (generation & ? & _ & H). apply bind_ok in H as (found & w2 & Hf & H).
  eexists name, number, target, _, w1. repeat (split; [done|]).
  destruct found as [[k st]|]; [|by eapply fresh_reports].
  apply ret_ok in H as [<- <-]. apply on_db_ok in Hf as (w3 & _ & Hf).
  apply reconcile_reports in Hf as [-> Hr]. done.
Qed.
(** ** Polling *)

(** [poll] compared the request with a resolution made after the claim, in the world
    [v1] the claim left. *)
Definition still_approved (row : ApprovalRow) (request : pyval) (v1 w' : ApprovalWorld G) : Prop :=
  ∃ current v2 g', host_resolve (ap_repository row) (ap_pr_number row) v1 = (Ok current, v2) ∧
    request_matches_target request current = true ∧ tg_head_sha current = ap_head_sha row ∧
    observe_head (tg_repository_id current) (tg_pr_number current) (tg_head_sha current) (aw_gates v2) = (Ok (ap_head_generation row), g') ∧
    w' = MkApprovalWorld (aw_db v2) g' (Some request) (aw_host v2).
Lemma consider_ok request_id row v1 request w' :
  consider request_id row v1 = (Ok (Some request), w') →
  json_loads (ap_request_json row) = Ok request ∧
  (contains "pilot_package" request = Ok true ∧ w' = MkApprovalWorld (aw_db v1) (aw_gates v1) (Some request) (aw_host v1) ∨
   contains "pilot_package" request = Ok false ∧ still_approved row request v1 w').
Proof.
  unfold consider. intros H. apply bind_ok in H as (request' & ? & [Hl <-]%lift_ok & H).
  apply bind_ok in H as (pilot & ? & [Hp <-]%lift_ok & H). destruct pilot.
  - apply bind_ok in H as (? & ? & ->%modify_ok & [[= <-] <-]%ret_ok). split; [done|]. by left.
  - apply bind_ok in H as (resolved & w1 & Hr%attempt_ok & H). destruct resolved as [current|e].
    2: { apply bind_ok in H as (? & ? & _ & [? _]%ret_ok). done. }
    apply bind_ok in H as (changed & w2 & Hc & H). destruct changed.
    { apply bind_ok in H as (? & ? & _ & [? _]%ret_ok). done. }
    apply bind_ok in H as (? & ? & ->%modify_ok & [[= <-] <-]%ret_ok). split; [done|]. right. split; [done|].
    unfold target_changed in Hc. case_match eqn:E1; [by apply ret_ok in Hc as [? _]|].
    apply bind_ok in Hc as (generation & w3 & Hg & [Hgen <-]%ret_ok). bool_inv.
    unfold on_gates in Hg. destruct (observe_head _ _ _ _) as [r g] eqn:Eo. injection Hg as -> <-.
    subst generation. by exists current, w1, g.
Qed.

(** In the world [v] at the start of a turn the others run; the oldest pending row
    they leave, which has not expired at [now], is claimed for a minute or until it
    expires. *)
Definition claimed_at (now : Z) (request_id : string) (row : ApprovalRow) (v v1 : ApprovalWorld G) : Prop :=
  ∃ v0 zone t claimed, others v = (Ok tt, v0) ∧ oldest (aw_db v0) request_id row ∧
    fromisoformat (str_replace "Z" "+00:00" (ap_expires_at row)) = Ok (Aware zone t) ∧ now < t ∧
    v1 = MkApprovalWorld (set_approvals (λ _, <[request_id := claimed]> (approvals (aw_db v0))) (aw_db v0)) (aw_gates v0) (aw_current v0) (aw_host v0) ∧
    ap_state claimed = ApClaimed ∧ ap_claim_until claimed = Some (stamp_text (Z.min (now + minutes 1) t)).
Lemma claimed_ok now k row v v1 : on_db (claim_oldest now) v = (Ok (ClaimedOne k row), v1) → claimed_at now k row v v1.
Proof.
  unfold on_db. intros ([] & v0 & Ho & H)%bind_ok. unfold statement in H. destruct (claim_oldest now (aw_db v0)) as [r db] eqn:Ec.
  injection H as -> <-. apply claim_oldest_ok in Ec as (Hold & zone & t & He & Hlt & ->). pose proof (oldest_pending_oldest _ _ _ Hold) as Hleast.
  exists v0, zone, t, (claim_row (stamp_text (Z.min (now + minutes 1) t)) row). split_and!; try done.
  destruct Hleast as [Hk _]. unfold set_approvals. by rewrite (update_row_insert _ k row).
Qed.
(** The turns of [poll] before its last: one expired a row, or refused the one it
    had claimed. *)
Inductive turns (now : Z) : ApprovalWorld G → ApprovalWorld G → Prop :=
  | No_turn w : turns now w w
  | Expired_turn w w1 v : on_db (claim_oldest now) w = (Ok ExpiredOne, w1) → turns now w1 v → turns now w v
  | Refused_turn w k row w1 w2 v :
      claimed_at now k row w w1 → consider k row w1 = (Ok None, w2) → turns now w2 v → turns now w v.

Lemma poll_loop_ok fuel now w request w' :
  poll_loop fuel now w = (Ok (Some request), w') →
  ∃ v v1 k row, turns now w v ∧ claimed_at now k row v v1 ∧ consider k row v1 = (Ok (Some request), w').
Proof.
  revert w. induction fuel as [|fuel IH]; intros w H; [done|]. cbn [poll_loop] in H.
  apply bind_ok in H as (found & w1 & Hc & H). destruct found as [| |k row].
  - by apply ret_ok in H as [? _].
  - apply IH in H as (v & v1 & k & row & Ht & H). exists v, v1, k, row. split; [by eapply Expired_turn|done].
  - apply claimed_ok in Hc. apply bind_ok in H as (r & w2 & Hr & H). destruct r as [r|].
    + apply ret_ok in H as [[= <-] <-]. exists w, w1, k, row. split; [apply No_turn|done].
    + apply IH in H as (v & v1 & k' & row' & Ht & H). exists v, v1, k', row'. split; [by eapply Refused_turn|done].
Qed.

(** C29: a request [poll] returns is what the row stored that its last turn claimed:
    of the rows pending in the database at that turn the first created, and with
    the smallest identifier of those, not expired at the time [poll] began with,
    and claimed for a minute or until it expires.  It is in hand, and a request
    without a pilot package was compared, after the claim, with a fresh resolution
    that matched it, at the head and the generation it was approved for. *)
Theorem poll_hands_out fuel w request w' :
  poll fuel w = (Ok (Some request), w') →
  aw_current w' = Some request ∧
  ∃ now wc v v1 request_id row,
    host_clock w = (Ok now, wc) ∧ turns now (MkApprovalWorld (aw_db wc) (aw_gates wc) None (aw_host wc)) v ∧
    claimed_at now request_id row v v1 ∧ json_loads (ap_request_json row) = Ok request ∧
    (contains "pilot_package" request = Ok true ∨
     contains "pilot_package" request = Ok false ∧ still_approved row request v1 w').
Proof.
  unfold poll. intros H. apply bind_ok in H as (now & wc & Hclock & H). apply bind_ok in H as (? & ? & ->%modify_ok & H).
  apply poll_loop_ok in H as (v & v1 & k & row & Ht & Hc & H). apply consider_ok in H as (Hl & H).
  split; [by destruct H as [[_ ->]|[_ (? & ? & ? & _ & _ & _ & _ & ->)]]|]. exists now, wc, v, v1, k, row.
  split_and!; [done..|]. destruct H as [[? _]|?]; tauto.
Qed.

(** ** Termination *)

Definition is_pending (r : ApprovalRow) : bool := bool_decide (ap_state r = ApPending).
Definition pending_count (s : Approvals) : nat := length (rows_where is_pending s).

Lemma length_filter_perm {A} (p : A → bool) l l' : l ≡ₚ l' → length (List.filter p l) = length (List.filter p l').
Proof. induction 1; cbn; repeat case_match; cbn; congruence. Qed.

Lemma pending_insert k r (m : gmap string ApprovalRow) s :
  approvals s = <[k := r]> m → m !! k = None →
  pending_count s = ((if is_pending r then 1 else 0) + pending_count (set_approvals (λ _, m) s))%nat.
Proof.
  intros E Hn. unfold pending_count, rows_where. cbn. rewrite E.
  erewrite length_filter_perm by (by apply map_to_list_insert). cbn. by destruct (is_pending r).
Qed.

Lemma pending_update f k r s :
  approvals s !! k = Some r → is_pending (f r) = false →
  pending_count s = ((if is_pending r then 1 else 0) + pending_count (set_approvals (update_row f k) s))%nat.
Proof.
  intros Hk Hf.
  rewrite (pending_insert k r (delete k (approvals s)) s); [|by rewrite insert_delete_id|apply lookup_delete_eq].
  rewrite (pending_insert k (f r) (delete k (approvals s)) (set_approvals (update_row f k) s)).
  - by rewrite Hf.
  - cbn. by rewrite (update_row_insert f k r), insert_delete_eq.
  - apply lookup_delete_eq.
Qed.

Lemma claim_oldest_pending now s p s' :
  claim_oldest now s = (Ok p, s') → p ≠ NothingPending → (pending_count s' < pending_count s)%nat.
Proof.
  intros H%claim_oldest_ok Hp.
  assert (∀ k r f, oldest_pending s = Some (k, r) → is_pending (f r) = false →
    s' = set_approvals (update_row f k) s → (pending_count s' < pending_count s)%nat) as Hd.
  { intros k r f [Hk Hst]%oldest_pending_spec Hf ->. rewrite (pending_update f k r s Hk Hf).
    unfold is_pending. rewrite bool_decide_true by done. lia. }
  destruct p as [| |k r]; [done|..].
  - destruct H as (k & r & Ho & _ & ->). by eapply (Hd k r (expire_row _)).
  - destruct H as (Ho & zone & t & _ & _ & ->). by eapply (Hd k r (claim_row _)).
Qed.

Lemma settle_pending k t reason result s r s' :
  settle_approval k t reason result s = (r, s') → (pending_count s' ≤ pending_count s)%nat.
Proof.
  unfold settle_approval, mbind, M_bind. destruct (update_approval _ _ _ s) as [b s1] eqn:E. intros H.
  assert (s' = s1) as ->. { destruct b as [b|e]; cbn in H; by injection H. }
  apply update_approval_cases in E as [[_ ->]|(_ & row & Hk & _ & ->)]; [done|].
  rewrite (pending_update (settle_row (settled_state t) reason (if is_none result then None else Some (dumps result))) k row s);
    [lia|done|by destruct t].
Qed.

(** A computation that adds no pending approval and does not run out of fuel. *)
Definition drains {A} (m : M (ApprovalWorld G) A) : Prop :=
  ∀ w, (pending_count (aw_db (m w).2) ≤ pending_count (aw_db w))%nat ∧ (m w).1 ≠ Raise OUT_OF_FUEL.

Lemma drains_bind {A B} (m : M (ApprovalWorld G) A) (k : A → M (ApprovalWorld G) B) :
  drains m → (∀ a, drains (k a)) → drains (m ≫= k).
Proof.
  intros Hm Hk w. specialize (Hm w). unfold mbind, M_bind. destruct (m w) as [[a|e] w1]; cbn in *.
  - specialize (Hk a w1). split; [lia|apply Hk].
  - split; [apply Hm|]. destruct Hm as [_ Hm]. congruence.
Qed.
Lemma drains_ret {A} (a : A) : drains (mret a).
Proof. by intros w. Qed.
Lemma drains_lift {A} (r : result A) : r ≠ Raise OUT_OF_FUEL → drains (lift r).
Proof. by intros Hr w. Qed.
Lemma drains_current c : drains (set_current c).
Proof. by intros w. Qed.
Lemma drains_attempt {A} (m : M (ApprovalWorld G) A) : drains m → drains (attempt m).
Proof. intros Hm w. specialize (Hm w). unfold attempt. destruct (m w). split; [apply Hm|done]. Qed.
Lemma drains_gates {A} (m : M Store A) : (∀ g, (m g).1 ≠ Raise OUT_OF_FUEL) → drains (on_gates m).
Proof. intros Hm w. unfold on_gates. specialize (Hm (aw_gates w)). destruct (m _) as [r g]. by split. Qed.

Lemma loads_fuel text : json_loads text ≠ Raise OUT_OF_FUEL.
Proof. unfold json_loads, throw. by case_match. Qed.
Lemma contains_fuel needle v : contains needle v ≠ Raise OUT_OF_FUEL.
Proof. by destruct v. Qed.
Ltac fuel_steps :=
  repeat first [ solve [eauto with fuel nocore] | progress intros | apply fueled_transaction | apply fueled_bind
               | apply fueled_lift | apply result_bind_fuel | case_match ].
Lemma bind_ints_fuel ns : bind_ints ns ≠ Raise OUT_OF_FUEL.
Proof. by apply check_fuel. Qed.
Lemma insert_row_fuel `{Countable K} {Row} b k (row : Row) (t : gmap K Row) : insert_row b k row t ≠ Raise OUT_OF_FUEL.
Proof. unfold insert_row. fuel_steps. Qed.
#[local] Hint Resolve bind_ints_fuel insert_row_fuel : fuel.
Lemma observe_fuel repository_id pr_number head : fueled (observe_head repository_id pr_number head).
Proof. unfold observe_head. fuel_steps. Qed.

(** The other processes, and the resolver, add no pending approval. *)
Context (Hothers : drains others) (Hresolve : ∀ repository pr_number, drains (host_resolve repository pr_number)).

Lemma drains_settle k t reason result : drains (on_db (settle_approval k t reason result)).
Proof.
  apply drains_bind; [done|]. intros _ w. unfold statement. destruct (settle_approval k t reason result (aw_db w)) as [r db] eqn:E.
  pose proof (settle_pending _ _ _ _ _ _ _ E). split; [done|]. cbn.
  unfold settle_approval, mbind, M_bind in E. destruct (update_approval _ _ _ _) as [b s1] eqn:Eu.
  apply update_approval_cases in Eu as [[-> _]|[-> _]]; injection E as <- _; done.
Qed.

Lemma drains_consider k row : drains (consider k row).
Proof.
  unfold consider. apply drains_bind; [apply drains_lift, loads_fuel|]. intros request.
  apply drains_bind; [apply drains_lift, contains_fuel|]. intros [].
  - apply drains_bind; [apply drains_current|intros _; apply drains_ret].
  - apply drains_bind; [by apply drains_attempt|]. intros [current|e].
    + apply drains_bind.
      * unfold target_changed. case_match; [apply drains_ret|].
        apply drains_bind; [apply drains_gates, observe_fuel|intros g; apply drains_ret].
      * intros []; (apply drains_bind; [|intros _; apply drains_ret]); [apply drains_settle|apply drains_current].
    + apply drains_bind; [apply drains_settle|intros _; apply drains_ret].
Qed.

Lemma fromisoformat_fuel s : fromisoformat s ≠ Raise OUT_OF_FUEL.
Proof. unfold fromisoformat. fuel_steps. Qed.
Lemma update_fuel p f k : fueled (update_approval p f k).
Proof. intros s. unfold update_approval. by repeat case_match. Qed.
#[local] Hint Resolve fromisoformat_fuel update_fuel : fuel.

Lemma claim_fuel now : fueled (claim_oldest now).
Proof. unfold claim_oldest, reached, dt_add, parse_timestamp. fuel_steps. Qed.

Lemma poll_drains fuel now w :
  (pending_count (aw_db w) < fuel)%nat → (poll_loop fuel now w).1 ≠ Raise OUT_OF_FUEL.
Proof.
  revert w. induction fuel as [|fuel IH]; intros w Hf; [lia|]. cbn [poll_loop].
  unfold on_db. rewrite eval_assoc. unfold mbind at 1, M_bind at 1. pose proof (Hothers w) as [Ho Hne].
  destruct (others w) as [[[]|e] w1]; cbn in *; [|congruence].
  unfold mbind, M_bind, statement. destruct (claim_oldest now (aw_db w1)) as [r db] eqn:Ec.
  pose proof (claim_fuel now (aw_db w1)) as Hc. rewrite Ec in Hc. cbn in Hc. destruct r as [found|e]; [|intros [= ->]; by apply Hc].
  pose proof (claim_oldest_pending _ _ _ _ Ec) as Hlt. destruct found as [| |k row]; [done|..].
  - apply IH. cbn. specialize (Hlt ltac:(done)). lia.
  - specialize (Hlt ltac:(done)). set (w2 := MkApprovalWorld db _ _ _).
    pose proof (drains_consider k row w2) as [Hcd Hcf]. destruct (consider k row w2) as [[[request|]|e] w3]; cbn in *;
      [done| |by intros [= ->]]. apply IH. lia.
Qed.

(** While the others add no approval, [poll] ends: it takes at most one
    turn for each pending approval and one more. *)
Lemma poll_terminates fuel w :
  fueled host_clock → (∀ now w1, host_clock w = (Ok now, w1) → pending_count (aw_db w1) < fuel)%nat →
  (poll fuel w).1 ≠ Raise OUT_OF_FUEL.
Proof.
  intros Hclock Hf. unfold poll. unfold mbind at 1, M_bind at 1. specialize (Hclock w).
  destruct (host_clock w) as [[now|e] w1] eqn:E; cbn in *; [|intros [= ->]; by apply Hclock]. apply poll_drains. by apply (Hf now w1).
Qed.
End operations.

(** ** A toy store *)

Definition toy_merge : string := hex_of "b" 40.
Definition toy_base : string := hex_of "c" 40.
Definition toy_target : ResolvedApprovalTarget := {|
  tg_repository_id := "42"; tg_repository := "octo/repo"; tg_pr_number := 7; tg_head_sha := sample_sha;
  tg_default_branch := "main";
  tg_workflow_ref := "octo/repo/.github/workflows/ci-jit-pilot-child.yml@refs/heads/main";
  tg_base_sha := toy_base; tg_tested_merge_sha := toy_merge |}.
Definition toy_builder : PilotWorkRequestBuilder :=
  {| image_fingerprint := hex_of "d" 64; authority_kind := "personal-repository"; runner_group := VNone |}.
Definition toy_now : Z := Eval vm_compute in instant sample_reserved_at.
Definition toy_request_id : string := "11111111-2222-4333-8444-555555555555".

(** The host's state is the time. *)
#[local] Instance ToyHost : ApprovalHost Z := {|
  host_clock := gets aw_host;
  host_resolve _ _ := mret toy_target;
  host_build target generation request_id nonce now ttl :=
    lift (VDict <$> pilot_build (D := ToyDigest) toy_builder sample_id target request_id nonce now ttl);
  host_uuid4 := mret toy_request_id;
  host_token := mret sample_nonce;
  host_supersession := None;
  others := mret tt;
|}.
Definition toy_empty : ApprovalWorld Z := MkApprovalWorld no_approvals _initialize None toy_now.
Definition toy_approve : M (ApprovalWorld Z) ApprovalReply :=
  approve (D := ToyDigest) (minutes 4) (VStr "octo/repo") (VInt 7).
Definition toy_approved : ApprovalWorld Z := Eval vm_compute in (toy_approve toy_empty).2.
Definition toy_polled : ApprovalWorld Z := Eval vm_compute in (poll 2 toy_approved).2.

Example toy_approve_reply :
  toy_approve toy_empty = (Ok (Approved toy_request_id sample_sha (stamp_text (toy_now + minutes 4))), toy_approved).
Proof. vm_compute. reflexivity. Qed.
Example toy_approve_again : (toy_approve toy_approved).1 = Ok (AlreadyActive toy_request_id ApPending).
Proof. vm_compute. reflexivity. Qed.
Example toy_poll_reply : is_ok (poll 2 toy_approved).1 = true.
Proof. vm_compute. reflexivity. Qed.

Definition toy_expires : string := Eval vm_compute in stamp_text (toy_now + minutes 4).
Definition toy_encoded : string :=
  Eval vm_compute in match approvals (aw_db toy_approved) !! toy_request_id with
                     | Some r => ap_request_json r | None => "" end.
Definition toy_row : ApprovalRow := new_approval "octo/repo" 7 sample_sha 1 toy_encoded toy_now toy_expires.

(** The life of the approval: inserted, claimed, made durable. *)
Definition toy_db0 : Approvals := aw_db toy_approved.
Definition toy_db1 : Approvals := aw_db toy_polled.
Definition toy_db2 : Approvals :=
  Eval vm_compute in (make_durable toy_request_id toy_encoded (stamp_text (toy_now + hours 2)) toy_db1).2.

Lemma toy_inserted : db_step (D := ToyDigest) no_approvals toy_db0.
Proof.
  eapply (step_insert _ _ toy_request_id "octo/repo" 7 sample_sha 1 toy_encoded toy_now toy_expires (Ok tt));
    vm_compute; reflexivity.
Qed.
Lemma toy_claimed : db_step (D := ToyDigest) toy_db0 toy_db1.
Proof. eapply (step_claim _ _ toy_now (Ok (ClaimedOne toy_request_id toy_row))). vm_compute. reflexivity. Qed.
Lemma toy_made_durable : db_step (D := ToyDigest) toy_db1 toy_db2.
Proof.
  eapply (step_durable _ _ toy_request_id toy_encoded (stamp_text (toy_now + hours 2)) (Ok tt)). vm_compute. reflexivity.
Qed.
Lemma toy_reachable : db_reachable (D := ToyDigest) toy_db0.
Proof. eapply rtc_once, toy_inserted. Qed.

Lemma one_active_approval_witness :
  wf_row toy_row ∧ approvals toy_db0 !! toy_request_id = Some toy_row.
Proof.
  assert (approvals toy_db0 !! toy_request_id = Some toy_row) as H by (vm_compute; reflexivity).
  split; [|exact H]. destruct (one_active_approval (D := ToyDigest) toy_db0 toy_reachable) as [Hw _].
  exact (Hw toy_request_id toy_row H).
Defined.

Lemma approval_history_witness :
  ∃ r', approvals toy_db2 !! toy_request_id = Some r' ∧ later toy_row r' ∧ ap_durable r' = true.
Proof.
  assert (approvals toy_db0 !! toy_request_id = Some toy_row) as H by (vm_compute; reflexivity).
  assert (rtc (db_step (D := ToyDigest)) toy_db0 toy_db2) as Hs
    by (eapply rtc_l; [exact toy_claimed|]; eapply rtc_once, toy_made_durable).
  destruct (approval_history (D := ToyDigest) toy_db0 toy_db2 toy_request_id toy_row toy_reachable Hs H) as (r' & Hk & Hl).
  exists r'. split; [exact Hk|]. split; [exact Hl|]. vm_compute in Hk. injection Hk as <-. reflexivity.
Defined.

Lemma approve_reports_witness :
  ∃ target w0 w1, host_resolve (ApprovalHost := ToyHost) "octo/repo" 7 w0 = (Ok target, w1) ∧
    reported target "octo/repo" 7 (aw_db toy_approved) (Approved toy_request_id sample_sha (stamp_text (toy_now + minutes 4))).
Proof.
  destruct (approve_reports (D := ToyDigest) (Host := ToyHost) (minutes 4) (VStr "octo/repo") (VInt 7) toy_empty
    (Approved toy_request_id sample_sha (stamp_text (toy_now + minutes 4))) toy_approved toy_approve_reply)
    as (name & number & target & w0 & w1 & [= <-] & [= <-] & _ & _ & Hr & Hd).
  exists target, w0, w1. split; [exact Hr|exact Hd].
Defined.

Definition toy_request : pyval := Eval vm_compute in result_or VNone (json_loads toy_encoded).
Example toy_poll : poll (Host := ToyHost) 2 toy_approved = (Ok (Some toy_request), toy_polled).
Proof. vm_compute. reflexivity. Qed.

Lemma poll_hands_out_witness :
  aw_current toy_polled = Some toy_request ∧ ∃ v v1 request_id row, claimed_at (Host := ToyHost) toy_now request_id row v v1 ∧
    json_loads (ap_request_json row) = Ok toy_request.
Proof.
  destruct (poll_hands_out (Host := ToyHost) 2 toy_approved toy_request toy_polled toy_poll)
    as (Hcur & now & wc & v & v1 & k & row & Hclock & _ & Hc & Hl & _).
  injection Hclock as <- _. split; [exact Hcur|]. exists v, v1, k, row. split; [exact Hc|exact Hl].
Defined.

Lemma poll_terminates_witness : (poll (Host := ToyHost) 2 toy_approved).1 ≠ Raise OUT_OF_FUEL.
Proof.
  apply (poll_terminates (Host := ToyHost)); [intros w; split; [reflexivity|discriminate]..| |].
  - intros w. discriminate.
  - intros now w1 [= _ <-]. vm_compute. repeat constructor.
Defined.
