(* ===== verification/AutoDispatch.v ===== *)
(** * Automatic dispatch (pr_autodispatch.py)

    [plan] compares the open pull requests with the approvals of the store and
    lists what to revoke and what to approve.  It is pure; [Action] has one
    constructor for each of its kinds.  The second part puts the plan and the
    store together. *)

From stdpp Require Import gmap sorting.
From S2P Require Import Prelude Datetime PyValue PyText Json Digest Sql Allocation Protocol GateStore JitPilot LocalApproval ApprovalProps.
#[local] Open Scope Z_scope.

Definition ACTIVE_STATES : list string := ["pending"; "claimed"].
Definition SETTLED_STATES : list string := ["completed"; "failed"; "revoked"; "expired"].

Definition dispatch_fail {A} (msg : string) : result A := throw AutoDispatchError msg.
Definition dispatch_if (b : bool) (msg : string) : result unit := check b AutoDispatchError msg.

Record OpenPullRequest := { pull_number : Z; pull_head : string }.
#[export] Instance OpenPullRequest_eq_dec : EqDecision OpenPullRequest.
Proof. solve_decision. Defined.

(** [OpenPullRequest.__post_init__] *)
Definition open_pull_request (number head_sha : pyval) : result OpenPullRequest :=
  match is_positive_int number, number with
  | true, VInt number =>
      match is_str_where is_sha1 head_sha, head_sha with
      | true, VStr head_sha => Ok {| pull_number := number; pull_head := head_sha |}
      | _, _ => dispatch_fail "pull request head must be a full commit SHA"
      end
  | _, _ => dispatch_fail "pull request number must be positive"
  end.

Inductive Action :=
  | Revoke (pr_number : Z) (head_sha reason : string)
  | Approve (pr_number : Z) (head_sha reason : string).
#[export] Instance Action_eq_dec : EqDecision Action.
Proof. solve_decision. Defined.

(** The head of each open pull request. *)
Fixpoint heads_of (pulls : list OpenPullRequest) (heads : gmap Z string) : result (gmap Z string) :=
  match pulls with
  | [] => Ok heads
  | p :: pulls =>
      dispatch_if (bool_decide (is_Some (heads !! pull_number p))) "GitHub reported one pull request twice";;
      heads_of pulls (<[pull_number p := pull_head p]> heads)
  end.

(** One approval: its number, head and state. *)
Definition read_approval (approval : dict) : result (Z * string * string) :=
  match dget "pr_number" approval, dget "head_sha" approval, dget "state" approval with
  | VInt number, VStr head, VStr state =>
      dispatch_if ((number <? 1) || negb (is_sha1 head)) "stored approval row is not exact";;
      Ok (number, head, state)
  | _, _, _ => dispatch_fail "stored approval row is not exact"
  end.

(** The active heads of each number, in the order of the approvals, and the
    settled heads. *)
Record Standing := { active_heads : gmap Z (list string); settled_heads : gset (Z * string) }.
Definition heads_active (n : Z) (st : Standing) : list string := default [] (active_heads st !! n).

Definition note_approval (n : Z) (head state : string) (st : Standing) : Standing :=
  if bool_decide (state ∈ ACTIVE_STATES)
  then {| active_heads := <[n := heads_active n st ++ [head]]> (active_heads st); settled_heads := settled_heads st |}
  else if bool_decide (state ∈ SETTLED_STATES)
  then {| active_heads := active_heads st; settled_heads := {[(n, head)]} ∪ settled_heads st |}
  else st.
Fixpoint standing_of (approvals : list dict) (st : Standing) : result Standing :=
  match approvals with
  | [] => Ok st
  | approval :: approvals =>
      '(n, head, state) ← read_approval approval;
      standing_of approvals (note_approval n head state st)
  end.

(** [sorted(d)] *)
Definition sorted_numbers {A} (m : gmap Z A) : list Z := merge_sort Z.le (elements (dom m)).

Definition revocation (heads : gmap Z string) (st : Standing) (n : Z) : option Action :=
  match List.filter (λ h, negb (bool_decide (heads !! n = Some h))) (heads_active n st) with
  | [] => None
  | stale :: _ =>
      Some (Revoke n stale match heads !! n with None => "closed" | Some _ => "superseded by a newer commit" end)
  end.
Definition approval_action (heads : gmap Z string) (st : Standing) (n : Z) : option Action :=
  head ← heads !! n;
  if bool_decide (head ∈ heads_active n st) || bool_decide ((n, head) ∈ settled_heads st) then None
  else Some (Approve n head "new pull request head").

Definition plan (open_pull_requests : list OpenPullRequest) (approvals : list dict) : result (list Action) :=
  heads ← heads_of open_pull_requests ∅;
  st ← standing_of approvals {| active_heads := ∅; settled_heads := ∅ |};
  Ok (omap (revocation heads st) (sorted_numbers (active_heads st))
      ++ omap (approval_action heads st) (sorted_numbers heads)).

(** ** What is read *)

Definition approval_is (approvals : list dict) (n : Z) (head state : string) : Prop :=
  ∃ d, d ∈ approvals ∧ read_approval d = Ok (n, head, state).
Definition opened (pulls : list OpenPullRequest) (n : Z) (head : string) : Prop :=
  {| pull_number := n; pull_head := head |} ∈ pulls.

Lemma heads_of_ok pulls heads heads' n h :
  heads_of pulls heads = Ok heads' → heads' !! n = Some h ↔ heads !! n = Some h ∨ opened pulls n h.
Proof.
  unfold opened. revert heads. induction pulls as [|[n0 h0] pulls IH]; intros heads H.
  - injection H as ->. set_solver.
  - apply result_bind_ok in H as (? & Hc & H). apply check_ok in Hc. bool_inv. cbn in *.
    rewrite (IH _ H), lookup_insert_Some, elem_of_cons. split.
    + intros [[[-> ->]|[_ ?]]|?]; auto.
    + intros [Hn|[[= -> ->]|?]]; [left; right|by left; left|by right]. split; [|done].
      intros <-. apply eq_None_not_Some in Hc. congruence.
Qed.

Lemma standing_ok approvals st st' :
  standing_of approvals st = Ok st' →
  (∀ n h, h ∈ heads_active n st' ↔ h ∈ heads_active n st ∨ ∃ s, s ∈ ACTIVE_STATES ∧ approval_is approvals n h s) ∧
  (∀ n h, (n, h) ∈ settled_heads st' ↔ (n, h) ∈ settled_heads st ∨ ∃ s, s ∈ SETTLED_STATES ∧ approval_is approvals n h s).
Proof.
  unfold approval_is. revert st. induction approvals as [|d approvals IH]; intros st H.
  - injection H as ->. split; intros n h; (split; [by left|]); intros [?|(s & _ & d & ? & _)]; set_solver.
  - cbn [standing_of] in H. apply result_bind_ok in H as ([[n0 h0] s0] & Hd & H). destruct (IH _ H) as [IHa IHs].
    assert (∀ n h s, (∃ d', d' ∈ d :: approvals ∧ read_approval d' = Ok (n, h, s)) ↔
      (n, h, s) = (n0, h0, s0) ∨ ∃ d', d' ∈ approvals ∧ read_approval d' = Ok (n, h, s)) as Hcons.
    { intros n h s. setoid_rewrite elem_of_cons. split.
      - intros (d' & [->|?] & E); [left; congruence|eauto].
      - intros [[= -> -> ->]|(d' & ? & ?)]; eauto. }
    split; intros n h.
    + rewrite IHa. setoid_rewrite Hcons. unfold note_approval. case_bool_decide as Ha; [|case_bool_decide].
      * unfold heads_active at 1. cbn. destruct (decide (n = n0)) as [->|Hne].
        -- rewrite lookup_insert_eq. cbn. rewrite elem_of_app, list_elem_of_singleton. naive_solver.
        -- rewrite lookup_insert_ne by done. naive_solver.
      * change (heads_active n _) with (heads_active n st). unfold ACTIVE_STATES in *. naive_solver.
      * naive_solver.
    + rewrite IHs. setoid_rewrite Hcons. unfold note_approval. case_bool_decide as Ha; [|case_bool_decide as Hs].
      * cbn. assert (s0 ∉ SETTLED_STATES) by (unfold ACTIVE_STATES, SETTLED_STATES in *; set_solver). naive_solver.
      * cbn. rewrite elem_of_union, elem_of_singleton. naive_solver.
      * naive_solver.
Qed.

Lemma elem_of_sorted {A} (m : gmap Z A) n : n ∈ sorted_numbers m ↔ is_Some (m !! n).
Proof. unfold sorted_numbers. by rewrite merge_sort_Permutation, elem_of_elements, elem_of_dom. Qed.

Lemma sorted_numbers_lt {A} (m : gmap Z A) : StronglySorted Z.lt (sorted_numbers m).
Proof.
  assert (NoDup (sorted_numbers m)) as Hn.
  { unfold sorted_numbers. rewrite merge_sort_Permutation. apply NoDup_elements. }
  assert (StronglySorted Z.le (sorted_numbers m)) as Hs.
  { unfold sorted_numbers. apply (StronglySorted_merge_sort Z.le). }
  revert Hn Hs. generalize (sorted_numbers m). induction l as [|x l IH]; intros Hn Hs; [constructor|].
  apply NoDup_cons in Hn as [Hx Hn]. inversion Hs as [|? ? Hs' Hall]; subst. constructor; [auto|].
  rewrite Forall_forall in *. intros y Hy. specialize (Hall y Hy). assert (x ≠ y) by congruence. lia.
Qed.

Definition action_number (a : Action) : Z := match a with Revoke n _ _ | Approve n _ _ => n end.
Definition is_revoke (a : Action) : Prop := match a with Revoke _ _ _ => True | _ => False end.

Lemma omap_sorted (f : Z → option Action) l :
  (∀ n a, f n = Some a → action_number a = n) → StronglySorted Z.lt l →
  StronglySorted Z.lt (action_number <$> omap f l).
Proof.
  intros Hf. induction 1 as [|n l Hs IH Hall]; [constructor|]. cbn. destruct (f n) as [a|] eqn:E; [|done].
  cbn. constructor; [done|]. rewrite (Hf _ _ E), Forall_fmap, Forall_forall. intros b (m & Hm & Hb)%list_elem_of_omap.
  cbn. rewrite (Hf _ _ Hb). rewrite Forall_forall in Hall. by apply Hall.
Qed.

Lemma revocation_spec (heads : gmap Z string) st n a :
  revocation heads st n = Some a ↔
  ∃ h l, List.filter (λ h, negb (bool_decide (heads !! n = Some h))) (heads_active n st) = h :: l ∧
    a = Revoke n h match heads !! n with None => "closed" | Some _ => "superseded by a newer commit" end.
Proof. unfold revocation. case_match; naive_solver. Qed.

Lemma stale_in (heads : gmap Z string) st n h l :
  List.filter (λ h, negb (bool_decide (heads !! n = Some h))) (heads_active n st) = h :: l →
  h ∈ heads_active n st ∧ heads !! n ≠ Some h.
Proof.
  intros E. assert (In h (h :: l)) as Hin by (by left). rewrite <- E, List.filter_In, <- list_elem_of_In in Hin.
  destruct Hin as [? Hb]. by bool_inv.
Qed.

Definition no_standing : Standing := {| active_heads := ∅; settled_heads := ∅ |}.

(** A plan, by what was read: the heads and the standing behind it. *)
Lemma plan_ok pulls approvals actions :
  plan pulls approvals = Ok actions → ∃ heads st,
    (∀ n h, heads !! n = Some h ↔ opened pulls n h) ∧
    (∀ n h, h ∈ heads_active n st ↔ ∃ s, s ∈ ACTIVE_STATES ∧ approval_is approvals n h s) ∧
    (∀ n h, (n, h) ∈ settled_heads st ↔ ∃ s, s ∈ SETTLED_STATES ∧ approval_is approvals n h s) ∧
    actions = omap (revocation heads st) (sorted_numbers (active_heads st))
              ++ omap (approval_action heads st) (sorted_numbers heads).
Proof.
  intros H. apply result_bind_ok in H as (heads & Hh & H). apply result_bind_ok in H as (st & Hst & [= <-]).
  exists heads, st. apply standing_ok in Hst as [Ha Hs]. split.
  { intros n h. rewrite (heads_of_ok _ _ _ _ _ Hh), lookup_empty. naive_solver. }
  split; [|split; [|done]].
  - intros n h. rewrite Ha. split; [|by right]. by intros [[]%not_elem_of_nil|?].
  - intros n h. rewrite Hs. split; [|by right]. by intros [[]%not_elem_of_empty|?].
Qed.

Definition is_active_head (approvals : list dict) (n : Z) (h : string) : Prop :=
  ∃ s, s ∈ ACTIVE_STATES ∧ approval_is approvals n h s.
Definition is_settled_head (approvals : list dict) (n : Z) (h : string) : Prop :=
  ∃ s, s ∈ SETTLED_STATES ∧ approval_is approvals n h s.

Lemma approval_action_spec (heads : gmap Z string) st n a :
  approval_action heads st n = Some a ↔
  ∃ h, heads !! n = Some h ∧ (h ∉ heads_active n st) ∧ ((n, h) ∉ settled_heads st) ∧
    a = Approve n h "new pull request head".
Proof.
  unfold approval_action. destruct (heads !! n) as [h|]; cbn; [|naive_solver].
  repeat case_bool_decide; cbn; naive_solver.
Qed.

Lemma approves_spec pulls approvals actions n h r :
  plan pulls approvals = Ok actions →
  Approve n h r ∈ actions ↔
  opened pulls n h ∧ ¬ is_active_head approvals n h ∧ ¬ is_settled_head approvals n h ∧ r = "new pull request head".
Proof.
  intros (heads & st & Hh & Ha & Hs & ->)%plan_ok. unfold is_active_head, is_settled_head.
  rewrite <- Ha, <- Hs, <- Hh, elem_of_app, !list_elem_of_omap. setoid_rewrite approval_action_spec.
  setoid_rewrite revocation_spec. setoid_rewrite elem_of_sorted. clear. naive_solver.
Qed.

Lemma revokes_stale pulls approvals actions n h :
  plan pulls approvals = Ok actions → is_active_head approvals n h → ¬ opened pulls n h →
  ∃ h' r, Revoke n h' r ∈ actions.
Proof.
  intros (heads & st & Hh & Ha & _ & ->)%plan_ok. unfold is_active_head. rewrite <- Ha, <- Hh. clear Ha Hh. intros Hin Hne.
  setoid_rewrite elem_of_app. setoid_rewrite list_elem_of_omap. setoid_rewrite revocation_spec.
  destruct (List.filter (λ h, negb (bool_decide (heads !! n = Some h))) (heads_active n st)) as [|h' l] eqn:E.
  { exfalso. rewrite list_elem_of_In in Hin. assert (In h []) as []. rewrite <- E, List.filter_In. split; [done|].
    by rewrite bool_decide_eq_false_2. }
  exists h'. eexists. left. exists n. split; [|by eexists _, _].
  apply elem_of_sorted. unfold heads_active in Hin. destruct (active_heads st !! n); [done|].
  by apply not_elem_of_nil in Hin.
Qed.

(** C30: The plan approves exactly the open heads that have neither an active
    nor a settled approval, and revokes exactly the pull requests with an active
    approval of a head that is not their open head, naming one such head;
    revocations come first, each part by increasing number without repetition. *)
Theorem plan_spec pulls approvals actions :
  plan pulls approvals = Ok actions →
  (∀ n h r, Approve n h r ∈ actions ↔
     opened pulls n h ∧ ¬ is_active_head approvals n h ∧ ¬ is_settled_head approvals n h ∧ r = "new pull request head") ∧
  (∀ n h r, Revoke n h r ∈ actions → is_active_head approvals n h ∧ ¬ opened pulls n h) ∧
  (∀ n h, is_active_head approvals n h → ¬ opened pulls n h → ∃ h' r, Revoke n h' r ∈ actions) ∧
  ∃ revokes approves, actions = revokes ++ approves ∧ Forall is_revoke revokes ∧ Forall (λ a, ¬ is_revoke a) approves ∧
    StronglySorted Z.lt (action_number <$> revokes) ∧ StronglySorted Z.lt (action_number <$> approves).
Proof.
  intros Hp. split; [intros n h r; by apply approves_spec|]. split; [|split; [intros n h; by apply revokes_stale|]];
    apply plan_ok in Hp as (heads & st & Hh & Ha & Hs & ->).
  - intros n h r. unfold is_active_head. rewrite <- Ha, <- Hh, elem_of_app, !list_elem_of_omap.
    setoid_rewrite approval_action_spec. setoid_rewrite revocation_spec.
    intros [(m & _ & h' & l & Hf & [= -> -> _])|(m & _ & ? & _ & _ & _ & [=])]. by eapply stale_in.
  - eexists _, _. split; [done|]. split; [|split; [|split]].
    + apply Forall_forall. intros a (m & _ & (h & l & _ & ->)%revocation_spec)%list_elem_of_omap. done.
    + apply Forall_forall. intros a (m & _ & (h & _ & _ & _ & ->)%approval_action_spec)%list_elem_of_omap. cbn. tauto.
    + apply omap_sorted; [|apply sorted_numbers_lt]. by intros n a (h & l & _ & ->)%revocation_spec.
    + apply omap_sorted; [|apply sorted_numbers_lt]. by intros n a (h & _ & _ & _ & ->)%approval_action_spec.
Qed.

(** ** The plan and the store *)

Lemma read_all approvals st st' d : standing_of approvals st = Ok st' → d ∈ approvals → is_ok (read_approval d) = true.
Proof.
  revert st. induction approvals as [|d' approvals IH]; intros st H Hd; [by apply not_elem_of_nil in Hd|].
  cbn [standing_of] in H. apply result_bind_ok in H as ([[n h] s] & Hr & H).
  apply elem_of_cons in Hd as [->|Hd]; [by rewrite Hr|eauto].
Qed.
Lemma plan_read pulls approvals actions d :
  plan pulls approvals = Ok actions → d ∈ approvals → is_ok (read_approval d) = true.
Proof.
  intros H. apply result_bind_ok in H as (heads & _ & H). apply result_bind_ok in H as (st & Hst & _).
  by eapply read_all.
Qed.

(** The rows of a repository are in its status, and are read back. *)
Lemma status_lists repository s docs s' k r :
  status (Some repository) None s = (Ok docs, s') → approvals s !! k = Some r → ap_repository r = repository →
  approval_document (k, r) ∈ docs.
Proof.
  intros H Hk Hr. apply bind_ok in H as (? & ? & [_ <-]%lift_ok & H).
  apply bind_ok in H as (s0 & ? & [-> ->]%get_ok & [<- _]%ret_ok). apply elem_of_app. left.
  apply list_elem_of_fmap. exists (k, r). split; [done|]. rewrite merge_sort_Permutation. apply rows_where_spec.
  split; [done|]. cbn. by rewrite Hr, bool_decide_eq_true_2.
Qed.

Lemma read_document k r n h st :
  read_approval (approval_document (k, r)) = Ok (n, h, st) → n = ap_pr_number r ∧ h = ap_head_sha r ∧ st = approval_text (ap_state r).
Proof.
  unfold read_approval. cbn. intros H. apply result_bind_ok in H as (? & _ & [= <- <- <-]). done.
Qed.

Lemma status_approval repository s docs s' pulls actions k r :
  status (Some repository) None s = (Ok docs, s') → plan pulls docs = Ok actions →
  approvals s !! k = Some r → ap_repository r = repository →
  approval_is docs (ap_pr_number r) (ap_head_sha r) (approval_text (ap_state r)).
Proof.
  intros Hs Hp Hk Hr. pose proof (status_lists _ _ _ _ _ _ Hs Hk Hr) as Hd. exists (approval_document (k, r)).
  split; [done|]. pose proof (plan_read _ _ _ _ Hp Hd) as Hok.
  destruct (read_approval (approval_document (k, r))) as [[[n h] st]|] eqn:E; [|done].
  by apply read_document in E as (-> & -> & ->).
Qed.

Lemma active_text r : active r → approval_text (ap_state r) ∈ ACTIVE_STATES.
Proof. unfold active. rewrite is_active_spec. unfold ACTIVE_STATES. intros [->| ->]; cbn; set_solver. Qed.

(** [revoke] settles every active approval of the pull request. *)
Lemma revoke_settles repository n s reply s' k r :
  revoke repository n s = (Ok reply, s') → approvals s !! k = Some r → active r →
  ap_repository r = repository → ap_pr_number r = n → approvals s' !! k = Some (revoke_row r).
Proof.
  intros H Hk Ha Hr Hn. apply bind_ok in H as (? & ? & [_ <-]%lift_ok & H). apply bind_ok in H as (c & s1 & Hu & [_ <-]%ret_ok).
  injection Hu as _ <-. cbn. rewrite lookup_fmap, Hk. cbn. unfold active in Ha.
  by rewrite Ha, !bool_decide_eq_true_2.
Qed.

(** When one pull request has an active approval of its open head beside a
    stale one, the plan revokes the stale one and does not approve; but [revoke]
    revokes by number, so the current head is revoked with it, and from then on
    no plan against that store ever approves this head again. *)
Lemma current_head_starves {D : Digest} repository n h pulls s docs actions k_old r_old k r reply s1 :
  db_reachable s →
  status (Some repository) None s = (Ok docs, s) → plan pulls docs = Ok actions →
  approvals s !! k_old = Some r_old → active r_old → ap_repository r_old = repository → ap_pr_number r_old = n →
  approvals s !! k = Some r → active r → ap_repository r = repository → ap_pr_number r = n → ap_head_sha r = h →
  opened pulls n h → ¬ opened pulls n (ap_head_sha r_old) →
  revoke repository n s = (Ok reply, s1) →
  (∃ old reason, Revoke n old reason ∈ actions) ∧ (∀ reason, Approve n h reason ∉ actions) ∧
  ∀ s2 docs2 s2' actions2, rtc db_step s1 s2 →
    status (Some repository) None s2 = (Ok docs2, s2') → plan pulls docs2 = Ok actions2 →
    ∀ reason, Approve n h reason ∉ actions2.
Proof.
  intros Hre Hs Hp Hk0 Ha0 Hr0 Hn0 Hk Ha Hr Hn Hh Hopen Hstale Hrev.
  pose proof (status_approval _ _ _ _ _ _ _ _ Hs Hp Hk Hr) as Hcur. rewrite Hn, Hh in Hcur. split; [|split].
  - eapply revokes_stale; [exact Hp| |exact Hstale]. eexists. split; [by apply (active_text r_old)|].
    rewrite <- Hn0. by eapply status_approval.
  - intros reason (_ & Hna & _)%(approves_spec _ _ _ _ _ _ Hp). apply Hna. eexists. split; [by apply (active_text r)|done].
  - intros s2 docs2 s2' actions2 Hsteps Hs2 Hp2 reason (_ & _ & Hns & _)%(approves_spec _ _ _ _ _ _ Hp2).
    pose proof (revoke_settles _ _ _ _ _ _ _ Hrev Hk Ha Hr Hn) as Hk1.
    assert (db_step s s1) as Hst by by eapply step_revoke.
    destruct (steps_later s1 s2 k (revoke_row r)) as (r2 & Hk2 & L); [|done..|].
    { eapply step_inv; [exact Hst|]. by apply reachable_inv. }
    assert (r2 = revoke_row r) as ->. { eapply later_settled; [exact L|]. by unfold active. }
    apply Hns. exists "revoked". split; [unfold SETTLED_STATES; set_solver|]. rewrite <- Hn, <- Hh.
    by apply (status_approval _ _ _ _ _ _ _ (revoke_row r) Hs2 Hp2 Hk2).
Qed.

(** ** A pull request pushed to while its first head waits *)

Definition toy_old_row : ApprovalRow := new_approval "octo/repo" 7 toy_base 1 toy_encoded toy_now toy_expires.
Definition toy_two : Approvals := MkApprovals (<["old" := toy_old_row]> (approvals toy_db0)) ∅ ∅.
Definition toy_pulls : list OpenPullRequest := [{| pull_number := 7; pull_head := sample_sha |}].
Definition toy_docs : list dict := Eval vm_compute in result_or [] (status (Some "octo/repo") None toy_two).1.
Definition toy_actions : list Action := [Revoke 7 toy_base "superseded by a newer commit"].
Definition toy_revoked : Approvals := Eval vm_compute in (revoke "octo/repo" 7 toy_two).2.

Example toy_plan : plan toy_pulls toy_docs = Ok toy_actions.
Proof. vm_compute. reflexivity. Qed.
Example toy_fresh_plan : plan toy_pulls [] = Ok [Approve 7 sample_sha "new pull request head"].
Proof. vm_compute. reflexivity. Qed.

Lemma toy_two_reachable : db_reachable (D := ToyDigest) toy_two.
Proof.
  eapply rtc_r; [exact toy_reachable|].
  eapply (step_insert _ _ "old" "octo/repo" 7 toy_base 1 toy_encoded toy_now toy_expires (Ok tt)); vm_compute; reflexivity.
Qed.

Lemma plan_spec_witness : Revoke 7 toy_base "superseded by a newer commit" ∈ toy_actions ∧
  is_active_head toy_docs 7 toy_base.
Proof.
  assert (Revoke 7 toy_base "superseded by a newer commit" ∈ toy_actions) as H by (by left).
  split; [exact H|]. exact (proj1 (proj1 (proj2 (plan_spec toy_pulls toy_docs toy_actions toy_plan)) _ _ _ H)).
Defined.

Lemma current_head_starves_witness : Approve 7 sample_sha "new pull request head" ∉ toy_actions.
Proof.
  assert (status (Some "octo/repo") None toy_two = (Ok toy_docs, toy_two)) as Hs by (vm_compute; reflexivity).
  assert (approvals toy_two !! "old" = Some toy_old_row) as Ho by (vm_compute; reflexivity).
  assert (approvals toy_two !! toy_request_id = Some toy_row) as Hk by (vm_compute; reflexivity).
  assert (opened toy_pulls 7 sample_sha) as Hopen by (by left).
  assert (¬ opened toy_pulls 7 (ap_head_sha toy_old_row)) as Hstale
    by (unfold opened, toy_pulls; rewrite list_elem_of_singleton; intros [= E]; by vm_compute in E).
  assert (∃ reply, revoke "octo/repo" 7 toy_two = (Ok reply, toy_revoked)) as [reply Hrev]
    by (eexists; vm_compute; reflexivity).
  exact (proj1 (proj2 (current_head_starves (D := ToyDigest) "octo/repo" 7 sample_sha toy_pulls toy_two toy_docs toy_actions
    "old" toy_old_row toy_request_id toy_row reply toy_revoked toy_two_reachable Hs toy_plan Ho eq_refl eq_refl eq_refl
    Hk eq_refl eq_refl eq_refl eq_refl Hopen Hstale Hrev)) "new pull request head").
Defined.
