(* ===== verification/WorkerState.v ===== *)
(** * The worker's durable requests (WorkerState of outbound_worker.py)

    One table, requests, in the order its rows were inserted.  The request
    column is its JSON text; the progress and result columns, which only this
    class writes, are the objects they read back as.  The theorem is the life of
    a row: what a run of any of the operations may do to it. *)

From S2P Require Import Prelude PyValue PyText Json JitPilot LocalApproval.
#[local] Open Scope Z_scope.

Definition worker_fail {A} (msg : string) : result A := throw WorkerError msg.

Inductive RequestState := RqRunning | RqRetry | RqCompleting | RqDone | RqFailed.
#[export] Instance RequestState_eq_dec : EqDecision RequestState.
Proof. solve_decision. Defined.

Record RequestRow := MkRequestRow {
  rq_id : string;
  rq_state : RequestState;
  rq_result : option dict;
  rq_request : option string;
  rq_progress : dict;
  rq_lease_until : option Z;
}.

Definition Requests := list RequestRow.

Definition request_row (key : string) (t : Requests) : option RequestRow := List.find (λ r, bool_decide (rq_id r = key)) t.

(** [UPDATE requests SET f WHERE id=? AND p], and [SELECT changes()]. *)
Definition update_request (key : string) (p : RequestRow → bool) (f : RequestRow → RequestRow) : M Requests bool := λ t,
  let hit r := bool_decide (rq_id r = key) && p r in
  (Ok (existsb hit t), (λ r, if hit r then f r else r) <$> t).

Definition in_state (s : RequestState) (r : RequestRow) : bool := bool_decide (rq_state r = s).

(** [SET state=?,lease_until=?] *)
Definition with_request_state (s : RequestState) (lease : option Z) (r : RequestRow) : RequestRow :=
  MkRequestRow (rq_id r) s (rq_result r) (rq_request r) (rq_progress r) lease.
(** [SET state=?,request=?,lease_until=?] *)
Definition claim_request_row (encoded : string) (until : Z) (r : RequestRow) : RequestRow :=
  MkRequestRow (rq_id r) RqRunning (rq_result r) (Some encoded) (rq_progress r) (Some until).
(** [SET progress=?,lease_until=?] *)
Definition progress_row (progress : dict) (until : Z) (r : RequestRow) : RequestRow :=
  MkRequestRow (rq_id r) (rq_state r) (rq_result r) (rq_request r) progress (Some until).
(** [SET state=?,result=?,lease_until=NULL] *)
Definition result_row (s : RequestState) (result : dict) (r : RequestRow) : RequestRow :=
  MkRequestRow (rq_id r) s (Some result) (rq_request r) (rq_progress r) None.
(** [SET state='failed',progress=?,result=?,lease_until=NULL] *)
Definition terminal_row (progress result : dict) (r : RequestRow) : RequestRow :=
  MkRequestRow (rq_id r) RqFailed (Some result) (rq_request r) progress None.

Definition failed_result (reason : string) : dict := [("status", VStr "failed"); ("reason", VStr reason)].

(** [json.loads] of a column that may be NULL. *)
Definition loads_column (column : option string) : result pyval :=
  match column with Some text => json_loads text | None => throw TypeError "the JSON object must be str, not NoneType" end.

(** [done] *)
Definition request_done (key : string) : M Requests (option dict) :=
  row ← gets (request_row key);
  match row with
  | Some r =>
      if in_state RqCompleting r || in_state RqDone r
      then match rq_result r with
           | Some result => mret (Some result)
           | None => raise TypeError "the JSON object must be str, not NoneType"
           end
      else mret None
  | None => mret None
  end.

(** [recoverable]: the first completing request, else the first to retry. *)
Definition first_recoverable (t : Requests) : option RequestRow :=
  match List.find (in_state RqCompleting) t with Some r => Some r | None => List.find (in_state RqRetry) t end.
Definition recoverable : M Requests (option dict) :=
  row ← gets first_recoverable;
  match row with
  | None => mret None
  | Some r =>
      value ← lift (loads_column (rq_request r));
      match value with
      | VDict request => mret (Some request)
      | _ => raise WorkerError "recoverable request is invalid"
      end
  end.

Definition recover_running : M Requests Z := λ t,
  (Ok (Z.of_nat (length (List.filter (in_state RqRunning) t))),
   (λ r, if in_state RqRunning r then with_request_state RqRetry None r else r) <$> t).

(** [claim], at the time [current], with a lease in microseconds. *)
Inductive Claim := Acquired | ClaimFailed | ClaimDone | ClaimCompleting | ClaimBusy.
Definition claim_request (key : string) (request : dict) (current lease : Z) : M Requests Claim :=
  let encoded := dumps (VDict request) in
  transaction (
    row ← gets (request_row key);
    match row with
    | None => modify (λ t, t ++ [MkRequestRow key RqRunning None (Some encoded) [] (Some (current + lease))]);; mret Acquired
    | Some r =>
        match rq_state r with
        | RqFailed => mret ClaimFailed
        | RqDone => mret ClaimDone
        | RqCompleting => mret ClaimCompleting
        | RqRunning | RqRetry =>
            raise_if (match rq_request r with Some text => negb (bool_decide (text = encoded)) | None => false end)
              WorkerError "request id was reused with different contents";;
            if in_state RqRunning r && match rq_lease_until r with Some until => current <? until | None => false end
            then mret ClaimBusy
            else update_request key (λ _, true) (claim_request_row encoded (current + lease));; mret Acquired
        end
    end).

(** [progress] *)
Definition request_progress (key : string) : M Requests dict :=
  row ← gets (request_row key);
  match row with
  | Some r => mret (rq_progress r)
  | None => raise WorkerError "request state is missing"
  end.

Definition recorded_progress (progress : dict) (phase : string) (values : dict) : dict :=
  dset "phase" (VStr phase) (dmerge progress values).
(** [record], at the time [current]. *)
Definition record_request (key phase : string) (values : dict) (current : Z) : M Requests unit :=
  progress ← request_progress key;
  changed ← update_request key (in_state RqRunning)
              (progress_row (recorded_progress progress phase values) (current + 300000000));
  raise_if (negb changed) WorkerError "request progress lost its claim".

Definition finish_request (key : string) (result : dict) : M Requests unit :=
  changed ← update_request key (in_state RqRunning) (result_row RqCompleting result);
  raise_if (negb changed) WorkerError "request completion lost its claim".

Definition deliver_request (key : string) : M Requests unit :=
  changed ← update_request key (in_state RqCompleting) (λ r, with_request_state RqDone (rq_lease_until r) r);
  raise_if (negb changed) WorkerError "request result delivery lost its claim".

(** [fail] *)
Definition release_request (key : string) : M Requests unit :=
  update_request key (in_state RqRunning) (with_request_state RqRetry None);; mret tt.

(** [terminal], which asks nothing of the row's state. *)
Definition terminate_request (key phase reason : string) : M Requests unit :=
  progress ← request_progress key;
  update_request key (λ _, true)
    (terminal_row (dmerge progress [("phase", VStr phase); ("failure_reason", VStr reason)]) (failed_result reason));;
  mret tt.

Definition abort_request (key reason : string) : M Requests unit :=
  changed ← update_request key (in_state RqRunning) (result_row RqFailed (failed_result reason));
  raise_if (negb changed) WorkerError "request abort lost its claim".

(** [terminals] *)
Definition request_terminals : M Requests (list dict) :=
  gets (λ t, (λ r, dmerge (dmerge [("request_id", VStr (rq_id r))] (default [] (rq_result r)))
                     [("phase", dget "phase" (rq_progress r))]) <$> List.filter (in_state RqFailed) t).
