(* ===== verification/OutboundWorker.v ===== *)
(** * The outbound worker (outbound_worker.py)

    What the worker uses (the approval source, the local broker, GitHub, the
    signer, the clocks) as classes, the state it adds to the world, one service
    cycle with its containment of failures, and [OutboundWorker], which drives
    the coordinator of Coordinator.v with the durable request as its progress.
    [LocalBrokerCli] turns the exit codes of the broker process into the
    exceptions the worker tells apart. *)

From S2P Require Import Prelude Datetime PyValue PyText Json Digest Signatures Allocation JitPilot LocalApproval Protocol Coordinator GitHubHttp PilotChecks WorkerState.
#[local] Open Scope Z_scope.

(** ** Exceptions by class *)

(** [RunnerJitError] and its subclasses. *)
Definition is_runner_jit_error (c : exn_class) : bool :=
  is_temporal_error c || bool_decide (c ∈ [RunnerJitError; InvalidLifecycleTransition; JobStartedDenial]).
(** [except (WorkerError, RunnerJitError, GateCheckError, OSError)] *)
Definition is_contained (c : exn_class) : bool :=
  is_runner_jit_error c || bool_decide (c ∈ [WorkerError; GateCheckError; OSError]).
(** ... and with [JitPilotError]. *)
Definition is_cleanup_error (c : exn_class) : bool := is_contained c || bool_decide (c = JitPilotError).
(** [except (WorkerError, RunnerJitError, OSError)] *)
Definition is_recording_error (c : exn_class) : bool :=
  is_runner_jit_error c || bool_decide (c ∈ [WorkerError; OSError]).
(** [except (LocalApprovalError, WorkerAuthorityError, OSError)] *)
Definition is_authority_error (c : exn_class) : bool :=
  bool_decide (c ∈ [LocalApprovalError; WorkerAuthorityError; WorkerTransportError; OSError]).
Definition is_approval_error (c : exn_class) : bool := bool_decide (c = LocalApprovalError).
Definition is_worker_error (c : exn_class) : bool := bool_decide (c = WorkerError).
Definition any_exception (c : exn_class) : bool := true.

(** [type(exc).__name__] *)
Definition exn_name (c : exn_class) : string :=
  match c with
  | ValueError => "ValueError" | TypeError => "TypeError" | KeyError => "KeyError" | OverflowError => "OverflowError"
  | RuntimeError => "RuntimeError" | AttributeError => "AttributeError" | StopIteration => "StopIteration"
  | OSError => "OSError" | UnboundLocalError => "UnboundLocalError" | IndexError => "IndexError" | KeyboardInterrupt => "KeyboardInterrupt"
  | CanaryRuntimeError => "CanaryRuntimeError" | CanaryRebootRequired => "CanaryRebootRequired" | IntegrityError => "IntegrityError"
  | InjectedFault => "InjectedFault" | GateStoreError => "GateStoreError" | ConflictError => "ConflictError"
  | FencedError => "FencedError" | ReplayError => "ReplayError" | ControlFailure | GitHubControlFailure => "ControlFailure"
  | LateEvidence => "LateEvidence" | CryptoContractError => "CryptoContractError"
  | CanonicalizationError => "CanonicalizationError" | SignatureContractError => "SignatureContractError"
  | ManifestContractError => "ManifestContractError" | AttestationContractError => "AttestationContractError"
  | RunnerJitError => "RunnerJitError" | RunnerJitTemporalError => "RunnerJitTemporalError"
  | ApprovalExpired => "ApprovalExpired" | AllocationClaimExpired => "AllocationClaimExpired"
  | InvalidLifecycleTransition => "InvalidLifecycleTransition" | ReservePartialFailure => "ReservePartialFailure"
  | JobStartedDenial => "JobStartedDenial" | RegistryError => "RegistryError" | AutoDispatchError => "AutoDispatchError"
  | CheckDeliveryError => "CheckDeliveryError" | CheckEvidenceConflict => "CheckEvidenceConflict"
  | AmbiguousCheckWrite => "AmbiguousCheckWrite" | JitPilotError => "JitPilotError"
  | LocalApprovalError => "LocalApprovalError" | ApprovalContractError => "ApprovalContractError"
  | WorkerAuthorityError => "WorkerAuthorityError" | WorkerTransportError => "WorkerTransportError"
  | GateCheckError => "GateCheckError" | WorkerError => "WorkerError" | GitHubAdapterError => "GitHubAdapterError"
  | GitHubHTTPError => "GitHubHTTPError" | HostSecurityError => "HostSecurityError"
  | RepositoryProfileError => "RepositoryProfileError" | RunnerBoundaryError => "RunnerBoundaryError"
  | CanaryBoundaryError => "CanaryBoundaryError" | BootstrapBoundaryError => "BootstrapBoundaryError"
  | BakeoffError => "BakeoffError" | ProtocolFailure => "ProtocolFailure" | WorkflowJobPending => "WorkflowJobPending"
  | CoordinatorUnavailable => "CoordinatorUnavailable"
  | ReserveDefinitelyUnavailable => "ReserveDefinitelyUnavailableBeforeEffect"
  end.

(** ** What the worker uses *)

(** [WorkSource], with the clock and the revalidation of the approval store. *)
Class WorkSource (G : Type) := {
  source_poll : M G (option dict);
  source_claim : string → dict → Z → M G unit;                   (* request id, request, lease in seconds *)
  source_resume : string → dict → Z → M G dict;
  source_retry : string → string → M G unit;
  source_complete : string → dict → M G unit;
  source_fail : string → string → M G unit;
  source_supersession : option (string → dict → M G (option string));
  source_clock : M G Z;
}.

(** The broker's operations, each answering with an object; recording an
    outcome need not be there. *)
Class WorkerBroker (G : Type) := {
  wb_reserve : dict → M G dict;
  wb_finalize : dict → M G dict;
  wb_recover : pyval → M G dict;
  wb_finish : string → string → M G dict;
  wb_prove_clean : string → string → M G dict;
  wb_record_outcome : option (dict → M G dict);
}.

Class WorkerGitHub (G : Type) := {
  gh_dispatch_package : dict → M G pyval;
  gh_observe_exact_job : Z → pyval → M G ObservedWorkflowJob;
  gh_run : Z → M G dict;
  gh_jobs : Z → M G dict;
  gh_cancel_exact_run : pyval → M G bool;
}.

(** The signer, [time.time()], the coordinator's clock, [time.monotonic] and
    [time.sleep]. *)
Class WorkerHost (G : Type) := {
  host_sign : dict → M G dict;
  host_time : M G Z;
  host_utc_now : M G Z;
  host_monotonic : G → Z;
  host_sleep : Z → M G unit;
}.

(** [FileAllocationSigner.sign_allocation], whose two readings of the clock are
    [checked] and [signed]. *)
Definition file_signer_sign {D : Digest} {K : KeyLibrary} (k : private_key) (payload : dict) (checked signed : Z) : result dict :=
  validate_allocation_payload payload (utc checked);;
  sign_allocation payload k (utc signed).

(** ** The broker process *)

Class BrokerProcess (G : Type) := { run_broker : list string → option dict → M G (Z * string) }.

(** [_json]: the temporary file that carries [value] is the second argument. *)
Definition broker_json {G} `{BrokerProcess G} (args : list string) (value : option dict) : M G dict :=
  '(code, stdout) ← run_broker args value;
  if code =? 20 then raise ReserveDefinitelyUnavailable "local allocation broker is definitely unavailable"
  else if code =? 21 then
    match dget "allocation_id" (default [] value) with
    | VStr allocation_id => raise ReservePartialFailure allocation_id
    | _ => raise WorkerError "partial reserve response omitted allocation identity"
    end
  else
    raise_if (negb (code =? 0)) WorkerError "local allocation broker operation failed";;
    parsed ← lift (json_loads (if nonempty stdout then stdout else "{}"));
    match parsed with
    | VDict d => mret d
    | _ => raise WorkerError "broker response is not an object"
    end.

Definition text_argument (v : pyval) : string := match v with VStr s => s | _ => py_format v end.
#[export] Instance LocalBrokerCli {G} `{BrokerProcess G} : WorkerBroker G := {|
  wb_reserve reservation := broker_json ["reserve"; "--reservation"] (Some reservation);
  wb_finalize envelope := broker_json ["finalize"; "--envelope"] (Some envelope);
  wb_recover allocation_id := broker_json ["recover"; "--allocation-id"; text_argument allocation_id] None;
  wb_finish allocation_id outcome := broker_json ["finish"; "--allocation-id"; allocation_id; "--outcome"; outcome] None;
  wb_prove_clean allocation_id runner_label :=
    broker_json ["prove-clean"; "--allocation-id"; allocation_id; "--runner-label"; runner_label] None;
  wb_record_outcome := Some (λ value, broker_json ["record-outcome"; "--event"] (Some value));
|}.

(** ** The worker's world

    The durable table, the reason a run in this cycle was found superseded for
    (a variable the monitor's two callbacks share), and everything outside. *)
Record Worker (G : Type) := MkWorker {
  wk_requests : Requests;
  wk_reason : option string;
  wk_outside : G;
}.
Arguments MkWorker {_} _ _ _.
Arguments wk_requests {_} _.
Arguments wk_reason {_} _.
Arguments wk_outside {_} _.

Section world.
Context {G : Type}.
Definition beyond {A} (m : M G A) : M (Worker G) A := λ w,
  let '(r, g) := m (wk_outside w) in (r, MkWorker (wk_requests w) (wk_reason w) g).
Definition on_requests {A} (m : M Requests A) : M (Worker G) A := λ w,
  let '(r, t) := m (wk_requests w) in (r, MkWorker t (wk_reason w) (wk_outside w)).
Definition set_reason (reason : option string) : M (Worker G) unit :=
  modify (λ w, MkWorker (wk_requests w) reason (wk_outside w)).
End world.

Section requests.
Context {G : Type} {H : WorkerHost G}.

Definition claim_assignment (key : string) (request : dict) (lease_seconds : Z) : M (Worker G) Claim :=
  current ← beyond host_time;
  on_requests (claim_request key request current (seconds lease_seconds)).
Definition assignment_progress (key : string) : M (Worker G) dict := on_requests (request_progress key).
(** [state.record]: a missing request is found before the clock is read. *)
Definition record_phase (key phase : string) (values : dict) : M (Worker G) unit :=
  assignment_progress key;;
  current ← beyond host_time;
  on_requests (record_request key phase values current).
End requests.

(** ** One service cycle, and the containment of its failures *)

Definition first_line (reason : string) : string := default reason (fst <$> split_at ";" reason).
Definition EXPIRED : string := "the local allocation expired before the run started".

Section cycle.
Context {G : Type} {S : WorkSource G} {H : WorkerHost G}.
(** [_run_assignment] of the worker, and what [PilotWorker] cleans up first. *)
Context (run_assignment : dict → M (Worker G) dict).
Context (retire_cleanup : string → dict → dict → string → M (Worker G) unit).

(** [_retire_assignment] *)
Definition retire_assignment (key : string) (request progress : dict) (reason : string) : M (Worker G) string :=
  cleaned ← attempt (catching is_cleanup_error (retire_cleanup key request progress reason;; mret reason)
                       (λ e, mret (reason +:+ "; cleanup failed: " +:+ exn_name (exn_cls e) +:+ " (manual reconciliation required)")));
  beyond (source_fail key (match cleaned with Ok reason => reason | Raise _ => reason end));;
  lift cleaned.

(** A request the table does not hold is claimed now; one it holds must be the
    same. *)
Definition quarantine (key : string) (request : dict) : M (Worker G) unit :=
  row ← on_requests (gets (request_row key));
  match row with
  | None => claim_assignment key request 300;; mret tt
  | Some r =>
      stored ← lift (loads_column (rq_request r));
      raise_if (negb (py_eq stored (VDict request))) WorkerAuthorityError "failed assignment crossed durable request identity"
  end.

Definition failure_reason (expired : bool) (e : exn) (progress : dict) : string :=
  (if expired then EXPIRED else "assignment failed: " +:+ exn_name (exn_cls e))
  +:+ (if is_none (dget "run_id" progress) then ""
       else "; GitHub run cancellation is unavailable in this worker; manual cancellation may be required").

(** The handler of [run_once]. *)
Definition contain_failure (request : dict) (e : exn) : M (Worker G) dict :=
  match dget "request_id" request with
  | VStr key =>
      let expired := is_temporal_error (exn_cls e) in
      quarantine key request;;
      progress ← assignment_progress key;
      let reason := failure_reason expired e progress in
      let phase := if expired then "allocation-expired" else "assignment-failed" in
      retired ← attempt (retire_assignment key request progress reason);
      let reason := match retired with Ok reason => reason | Raise _ => reason end in
      on_requests (terminate_request key phase reason);;
      lift retired;;
      if expired then mret [("status", VStr "failed"); ("reason", VStr reason)] else reraise e
  | _ => reraise e
  end.

Definition next_request : M (Worker G) (option dict) :=
  recovered ← on_requests recoverable;
  match recovered with
  | Some [] | None => beyond source_poll
  | Some request => mret (Some request)
  end.

Definition run_once : M (Worker G) dict :=
  request ← next_request;
  match request with
  | None => mret [("status", VStr "idle")]
  | Some request => catching is_contained (run_assignment request) (contain_failure request)
  end.
End cycle.

(** ** [OutboundWorker] *)

Section outbound_worker.
Context {G : Type} {S : WorkSource G} {B : WorkerBroker G} {GH : WorkerGitHub G} {H : WorkerHost G}.
(** The claim deadline of a new allocation, as the coordinator has it. *)
Context (claim_ttl : Z).

(** [_WorkerProgress] *)
Definition progress_record (p : Progress) : string * dict :=
  match p with
  | PReserved value => ("reserved", [("reserved", VDict value)])
  | PDispatching => ("dispatching", [])
  | PDispatched run_id => ("dispatched", [("run_id", VInt run_id)])
  | PObserved job =>
      ("observed", [("observed", VDict [("run_id", VInt (ow_run_id job)); ("run_attempt", VInt (ow_run_attempt job));
                                        ("job_id", VInt (ow_job_id job)); ("job_name", VStr (ow_job_name job))])])
  | PAllocationWindow issued_at claim_deadline =>
      ("allocation-window", [("allocation_issued_at", VStr issued_at); ("claim_deadline", VStr claim_deadline)])
  | PFinalizing => ("finalizing", [])
  | PFinalized value => ("finalized", [("finalized", VDict value)])
  | PRecovered => ("recovered", [])
  | PDispatchAmbiguous => ("dispatch-ambiguous", [("dispatch_ambiguous", VBool true)])
  end.
Definition worker_progress (key : string) (p : Progress) : M (Worker G) unit :=
  let '(phase, values) := progress_record p in record_phase key phase values.

Definition worker_adapters (key : string) : Adapters (Worker G) := {|
  broker_reserve reservation := beyond (wb_reserve reservation);
  broker_finalize envelope := beyond (wb_finalize envelope);
  broker_recover allocation_id := beyond (wb_recover allocation_id);
  dispatch_package package := beyond (gh_dispatch_package package);
  observe_exact_job run_id label := beyond (gh_observe_exact_job run_id label);
  signer_sign payload := beyond (host_sign payload);
  utc_clock := beyond host_utc_now;
  record_progress := worker_progress key;
|}.

(** What a claim that is not an acquisition answers. *)
Definition settled_claim (key missing : string) (claim : Claim) : M (Worker G) (option dict) :=
  match claim with
  | ClaimDone | ClaimCompleting =>
      prior ← on_requests (request_done key);
      match prior with
      | None => raise WorkerError missing
      | Some prior =>
          beyond (source_complete key prior);;
          (match claim with ClaimCompleting => on_requests (deliver_request key) | _ => mret tt end);;
          mret (Some prior)
      end
  | ClaimFailed =>
      progress ← assignment_progress key;
      mret (Some [("status", VStr "failed"); ("reason", dget "failure_reason" progress)])
  | ClaimBusy => mret (Some [("status", VStr "busy"); ("request_id", VStr key)])
  | Acquired => mret None
  end.

Definition resume_or_claim (key : string) (request progress : dict) : M (Worker G) dict :=
  if py_truthy (VDict progress) then beyond (source_resume key request 7200)
  else beyond (source_claim key request 7200);; mret request.

(** The two documents of a request are objects: the approval store admits no
    other. *)
Definition as_dict (v : pyval) : result dict :=
  match v with VDict d => Ok d | _ => throw TypeError "expected a mapping" end.

(** The body of the [try]. *)
Definition dispatch_assignment (key : string) (request : dict) : M (Worker G) dict :=
  resume ← assignment_progress key;
  raise_if (is_true (dget "dispatch_ambiguous" resume)) WorkerError
    "GitHub dispatch outcome is ambiguous; manual reconciliation is required";;
  package ← lift (as_dict (dget "protocol_package" request));
  reservation ← lift (as_dict (dget "reservation" request));
  '(package, observed) ← outbound_local_dispatch (A := worker_adapters key) package reservation resume true claim_ttl;
  let result := [("status", VStr "dispatched"); ("backend", dget "backend" package);
                 ("run_id", match observed with Some job => VInt (ow_run_id job) | None => VNone end)] in
  on_requests (finish_request key result);;
  beyond (source_complete key result);;
  on_requests (deliver_request key);;
  mret result.

(** [except Exception], after the contained classes were raised again. *)
Definition withdraw (key : string) (e : exn) : M (Worker G) dict :=
  on_requests (release_request key);;
  beyond (source_fail key (exn_name (exn_cls e)));;
  reraise e.

Definition outbound_assignment (request : dict) : M (Worker G) dict :=
  match same_set (dkeys request) ["request_id"; "protocol_package"; "reservation"], dget "request_id" request with
  | true, VStr key =>
      claim ← claim_assignment key request 300;
      settled ← settled_claim key "completed request result is missing" claim;
      match settled with
      | Some answer => mret answer
      | None =>
          progress ← assignment_progress key;
          request ← resume_or_claim key request progress;
          catching (λ c, negb (is_contained c)) (dispatch_assignment key request) (withdraw key)
      end
  | _, _ => raise WorkerError "work request fields are not exact"
  end.

Definition outbound_run_once : M (Worker G) dict :=
  run_once outbound_assignment (λ _ _ _ _, mret tt).
End outbound_worker.
