(* ===== verification/PilotWorker.v ===== *)
(** * The pilot worker (PilotWorker of outbound_worker.py)

    One assignment from its claim to its proved end: package, reservation,
    dispatch, observation, Check Runs, signature, finalization, the terminal
    monitor, and the durable phases of a cancellation, which converge over later
    service cycles.  Everything it records is in the request's progress, so a
    cycle that died is resumed from the phase it had reached. *)

From S2P Require Import Prelude Datetime PyValue PyText Json Digest Allocation JitPilot LocalApproval Protocol Coordinator GitHubHttp PilotChecks WorkerState OutboundWorker.
#[local] Open Scope Z_scope.

(** The gate App's transport and the job logs, seen from the worker's world. *)
#[export] Instance worker_transport {G} `{HTTPTransport G} : HTTPTransport (Worker G) := {|
  http_request method url headers body := beyond (http_request method url headers body);
  http_clock := beyond http_clock;
  rs256_sign text := beyond (rs256_sign text);
|}.
#[export] Instance worker_job_log {G} `{JobLog G} : JobLog (Worker G) := {| job_log job_id := beyond (job_log job_id) |}.

Record PilotConfig := {
  pw_checks : option GateAppAuthorityV1;
  pw_repository : option string;
  pw_claim_ttl : Z;
  pw_cancel_timeout : Z;                 (* cancel_convergence_timeout *)
  pw_cancel_poll : Z;
}.
(** [__init__] *)
Definition pilot_config (c : PilotConfig) : result PilotConfig :=
  check ((pw_claim_ttl c <=? 0) || (minutes 15 <? pw_claim_ttl c)) ValueError "claim TTL must be in (0, 15 minutes]";;
  check (pw_cancel_timeout c <=? 0) ValueError "cancel convergence timeout must be positive";;
  check ((pw_cancel_poll c <=? 0) || (pw_cancel_timeout c <? pw_cancel_poll c)) ValueError
    "cancel convergence poll must be positive and not exceed its timeout";;
  Ok c.

(** [a or b] *)
Definition py_or (a b : pyval) : pyval := if py_truthy a then a else b.
(** [x.get(k)] of [x or {}]. *)
Definition get_or_empty (k : string) (v : pyval) : pyval := match v with VDict d => dget k d | _ => VNone end.
Definition is_dict (v : pyval) : bool := match v with VDict _ => true | _ => false end.
Definition opt_text (o : option string) : pyval := match o with Some s => VStr s | None => VNone end.

Definition CANCEL_TIMED_OUT : string := "exact workflow run cancellation exceeded its total timeout".
Definition pilot_answer (status : string) (run_id : pyval) (reason : string) : dict :=
  [("status", VStr status); ("mode", VStr "ci-jit-pilot"); ("run_id", run_id); ("reason", VStr reason)].

Definition _cause_for_reason (reason : string) : string :=
  if bool_decide (reason = NEWER_COMMIT) then "superseded-head"
  else if bool_decide (reason = BASE_MOVED) then "superseded-base"
  else if bool_decide (reason = MERGE_CHANGED) then "superseded-merge"
  else if bool_decide (reason = PR_CLOSED) then "pr-closed" else "worker-error".
(** The cause of a terminal conclusion. *)
Definition terminal_cause (conclusion : string) : string :=
  if bool_decide (conclusion = "success") then "success"
  else if bool_decide (conclusion = "failure") then "job-failure"
  else if bool_decide (conclusion ∈ ["cancelled"; "cancel"]) then "job-cancelled"
  else if bool_decide (conclusion = "timeout") then "job-timeout" else "worker-error".

Definition _cancel_time (value : pyval) (field : string) : result Z :=
  match value with
  | VStr text =>
      parsed ← rewrap (λ c, bool_decide (c = ValueError)) WorkerError (field +:+ " is not a durable timestamp")
                 (fromisoformat (str_replace "Z" "+00:00" text));
      check (negb (is_utc parsed)) WorkerError (field +:+ " is not UTC");;
      Ok (instant parsed)
  | _ => worker_fail (field +:+ " is not a durable timestamp")
  end.

(** [removesuffix("Z")], and a canonical UTC text read back. *)
Definition remove_z (s : string) : string := default s (chop_z s).
Definition read_utc (s : string) : result datetime := fromisoformat (remove_z s +:+ "+00:00").
Definition text_or_none (v : pyval) : string := default "" (py_str v).

(** [except (TypeError, ValueError)]: the contract errors are value errors. *)
Definition is_binding_error (c : exn_class) : bool :=
  is_runner_jit_error c || bool_decide (c ∈ [TypeError; ValueError; JitPilotError]).

(** The time the reservation was issued at, under either field. *)
Definition reservation_issued (reservation : dict) (absent : pyval) : pyval :=
  match dlookup "approval_issued_at" reservation with
  | Some v => v
  | None => default absent (dlookup "issued_at" reservation)
  end.

(** [_recovery_allocation_id] *)
Definition recovery_binding {D : Digest} (package_value reservation : dict) : result dict :=
  package_issued ← read_utc (text_or_none (default (VStr "") (dlookup "issued_at" package_value)));
  reservation_at ← read_utc (text_or_none (reservation_issued reservation (VStr "")));
  package ← pilot_from_mapping (VDict package_value) package_issued;
  validate_allocation_reservation reservation reservation_at;;
  Ok package.
Definition _recovery_allocation_id {D : Digest} (request : dict) : result string :=
  match dget "pilot_package" request, dget "reservation" request with
  | VDict package_value, VDict reservation =>
      package ← rewrap is_binding_error WorkerError "pilot recovery binding is invalid"
                  (recovery_binding package_value reservation);
      check (negb (py_eq (dget "backend" package) (VStr "local"))
             || negb (py_eq (dget "allocation_id" package) (dget "allocation_id" reservation))
             || negb (py_eq (dget "runner_label" package) (dget "scale_set_name" reservation))) WorkerError
        "pilot recovery binding crossed allocation identity";;
      match dget "allocation_id" package with
      | VStr allocation_id => Ok allocation_id
      | _ => worker_fail "pilot recovery binding is invalid"
      end
  | _, _ => worker_fail "pilot recovery binding is absent"
  end.

Section pilot.
Context {G : Type} {S : WorkSource G} {B : WorkerBroker G} {GH : WorkerGitHub G} {H : WorkerHost G}.
Context {T : HTTPTransport G} {L : JobLog G} {D : Digest}.
Context (config : PilotConfig).

Abbreviation Worker := (Worker G).

Definition pilot_now_seconds : M Worker Z := now ← beyond source_clock; mret (now - now mod US_SECOND).
Definition release (key : string) : M Worker unit := on_requests (release_request key).

Definition _details_url (run_id job_id : pyval) : string :=
  "https://github.com/" +:+ default "None" (pw_repository config) +:+ "/actions/runs/" +:+ py_format run_id
  +:+ "/job/" +:+ py_format job_id.

(** [_record]: the phase, and the approval's lease renewed. *)
Definition record_durable (request : dict) (key phase : string) (values : dict) : M Worker unit :=
  record_phase key phase values;;
  beyond (source_claim key request 7200).

(** ** Check Runs *)

Definition is_publication_error (c : exn_class) : bool := bool_decide (c = GateCheckError ∨ c = OSError).

(** [_open_checks]; its caller drops the identities it returns. *)
Definition _open_checks (request : dict) (key : string) (progress package : dict) (run_id job_id : Z) : M Worker unit :=
  if is_dict (dget "checks" progress) && py_truthy (dget "checks" progress) then mret tt
  else
    match pw_checks config, pw_repository config with
    | Some gate, Some _ =>
        opened ← catching is_publication_error
          (Some <$> publisher_start gate (text_or_none (dget "head_sha" package)) (_details_url (VInt run_id) (VInt job_id)))
          (λ _, mret None);
        match opened with
        | Some opened => record_durable request key "checks-open" [("checks", VDict opened)]
        | None => mret tt
        end
    | _, _ => mret tt
    end.

(** How the opened Check Runs are closed. *)
Inductive Closing :=
  | CloseDiscarded (reason : string)
  | CloseConcluded (job_id : Z) (conclusion : string)
  | CloseAbandoned (reason : string).
Definition closing_job (c : Closing) : pyval := match c with CloseConcluded job_id _ => VInt job_id | _ => VInt 0 end.

Definition apply_closing (gate : GateAppAuthorityV1) (checks : dict) (details : string) (c : Closing) : M Worker unit :=
  match c with
  | CloseDiscarded reason => publisher_discard gate checks reason details
  | CloseConcluded job_id conclusion => publisher_conclude gate checks job_id conclusion details;; mret tt
  | CloseAbandoned reason =>
      publisher_abandon gate checks (if nonempty reason then reason else "the local run ended without a result") details;;
      mret tt
  end.

(** [state.record], where a lost claim is only reported. *)
Definition try_record (key phase : string) (values : dict) : M Worker bool :=
  catching is_worker_error (record_phase key phase values;; mret true) (λ _, mret false).
Definition phase_or (progress : dict) (phase : string) : string :=
  match dget "phase" progress with VStr p => if nonempty p then p else phase | _ => phase end.

(** [_close_checks] *)
Definition _close_checks (key : string) (closing : Closing) : M Worker bool :=
  match pw_checks config with
  | None => mret true
  | Some gate =>
      found ← catching is_worker_error (Some <$> assignment_progress key) (λ _, mret None);
      match found with
      | None => mret false
      | Some progress =>
          match dget "checks" progress with
          | VDict ((_ :: _) as checks) =>
              if py_truthy (dget "checks_closed" progress) then mret true
              else
                let observed := get_or_empty "job_id" (dget "observed" progress) in
                let details := _details_url (dget "run_id" progress) (py_or observed (closing_job closing)) in
                closed ← catching is_publication_error (apply_closing gate checks details closing;; mret None)
                           (λ e, mret (Some (exn_name (exn_cls e))));
                match closed with
                | Some failure =>
                    try_record key (phase_or progress "checks-close-failed") [("checks_close_failed", VStr failure)];;
                    mret false
                | None => try_record key (phase_or progress "checks-closed") [("checks_closed", VBool true)]
                end
          | _ => mret true
          end
      end
  end.

(** ** Supersession, outcomes, recovery *)

Definition _supersession_reason (key : string) (request : dict) : M Worker (option string) :=
  match source_supersession with
  | None => mret None
  | Some revalidate =>
      reason ← beyond (revalidate key request);
      raise_if (bool_decide (reason = Some "")) WorkerError "supersession reason is invalid";;
      mret reason
  end.

Record Outcome := {
  oc_cause : string; oc_run_id : pyval; oc_job_id : pyval; oc_executed : pyval; oc_success : bool;
}.
Definition not_executed (cause : string) (run_id job_id : pyval) : Outcome :=
  {| oc_cause := cause; oc_run_id := run_id; oc_job_id := job_id; oc_executed := VBool false; oc_success := false |}.

Definition outcome_event (key occurred : string) (package progress : dict) (allocation_id : pyval) (o : Outcome) : result dict :=
  repository ← ditem "repository" package;
  pr_number ← ditem "pr_number" package;
  head_sha ← ditem "head_sha" package;
  Ok [("event_key", VStr ("request:" +:+ key +:+ ":" +:+ oc_cause o)); ("cause_code", VStr (oc_cause o));
      ("occurred_at", VStr occurred); ("allocation_id", allocation_id);
      ("run_id", py_or (oc_run_id o) (dget "run_id" progress));
      ("job_id", py_or (oc_job_id o) (get_or_empty "job_id" (dget "observed" progress)));
      ("repository", repository); ("pr_number", pr_number); ("head_sha", head_sha); ("executed", oc_executed o);
      ("success", VBool (oc_success o)); ("prior_ledger_state", VNone)].

Definition is_recorded (receipt : dict) : bool :=
  match receipt with [("recorded", VBool _)] => true | _ => false end.

(** [_record_outcome] *)
Definition _record_outcome (key : string) (request : dict) (o : Outcome) : M Worker unit :=
  package ← lift (package ← ditem "pilot_package" request; as_dict package);
  progress ← assignment_progress key;
  allocation_id ← lift (if is_none (dget "reserved" progress) then Ok VNone else ditem "allocation_id" package);
  occurred ← beyond source_clock;
  match wb_record_outcome with
  | None => mret tt
  | Some recorder =>
      event ← lift (outcome_event key (stamp_text occurred) package progress allocation_id o);
      receipt ← beyond (recorder event);
      raise_if (negb (is_recorded receipt)) WorkerError "outcome receipt is invalid"
  end.

Definition _recover_exact (allocation_id : string) : M Worker unit :=
  receipt ← beyond (wb_recover (VStr allocation_id));
  raise_if (negb (py_eq (VDict receipt) (VDict [("allocation_id", VStr allocation_id); ("state", VStr "absent")]))) WorkerError
    "pilot allocation recovery proof is not exact".
Definition recover_assignment (request : dict) : M Worker unit :=
  allocation_id ← lift (_recovery_allocation_id request);
  _recover_exact allocation_id.

(** ** Cancellation, over later cycles *)

Definition cancel_recorded (now : Z) (accepted : bool) (error : option string) : result dict :=
  next ← dt_add now (pw_cancel_poll config);
  Ok [("cancel_accepted", VBool accepted); ("cancel_last_error", opt_text error); ("cancel_next_poll_at", VStr (stamp_text next))].

(** The API call, which may be repeated: whether it was accepted, or the error. *)
Definition try_cancel (run_id : pyval) : M Worker (bool * option string) :=
  catching is_authority_error (accepted ← beyond (gh_cancel_exact_run run_id); mret (accepted, None))
    (λ e, mret (false, Some (exn_name (exn_cls e)))).

Definition _request_superseded_cancel (key reason : string) (run_id job_id : pyval) : M Worker bool :=
  now ← pilot_now_seconds;
  deadline ← lift (dt_add now (pw_cancel_timeout config));
  record_phase key "cancel-requesting"
    [("run_id", run_id); ("job_id", job_id); ("cancel_reason", VStr reason); ("cancel_requested_at", VStr (stamp_text now));
     ("cancel_deadline", VStr (stamp_text deadline))];;
  '(accepted, error) ← try_cancel run_id;
  values ← lift (cancel_recorded now accepted error);
  record_phase key "cancel-requested" values;;
  mret true.

Definition _cancel_pending (key : string) (run_id : pyval) (accepted : bool) (error : option string) : M Worker dict :=
  now ← pilot_now_seconds;
  values ← lift (cancel_recorded now accepted error);
  record_phase key "cancel-requested" values;;
  release key;;
  mret (pilot_answer "pending" run_id "exact run cancellation is converging").

(** The approval may be settled already: its owner then has the last word. *)
Definition unless_settled (m : M Worker unit) : M Worker unit := catching is_approval_error m (λ _, mret tt).

Definition retry_later (key : string) (run_id : pyval) (reason : string) : M Worker dict :=
  release key;; mret (pilot_answer "retry" run_id reason).

Definition finish_cancel_recovery (key : string) (run_id : pyval) : M Worker dict :=
  closed ← _close_checks key (CloseAbandoned CANCEL_TIMED_OUT);
  if negb closed then retry_later key run_id "cancel timeout Check Run closure remains pending"
  else
    unless_settled (beyond (source_fail key CANCEL_TIMED_OUT));;
    on_requests (abort_request key CANCEL_TIMED_OUT);;
    mret (pilot_answer "failed" run_id CANCEL_TIMED_OUT).

Definition _continue_cancel_recovery (key : string) (request progress : dict) : M Worker dict :=
  let run_id := dget "run_id" progress in
  if py_truthy (dget "cancel_recovery_complete" progress) then finish_cancel_recovery key run_id
  else
    recovered ← catching is_recording_error (recover_assignment request;; mret None) (λ e, mret (Some (exn_name (exn_cls e))));
    match recovered with
    | Some failure =>
        record_phase key "cancel-recovery-pending" [("cancel_last_error", VStr failure)];;
        retry_later key run_id "cancel timeout recovery remains pending"
    | None =>
        record_phase key "cancel-recovery-pending" [("cancel_recovery_complete", VBool true); ("cancel_last_error", VNone)];;
        finish_cancel_recovery key run_id
    end.

Definition _cancel_not_converged (key : string) (request progress : dict) : M Worker dict :=
  run_id ← lift (ditem "run_id" progress);
  record_phase key "cancel-timeout-recording" [];;
  recorded ← catching is_recording_error
    (_record_outcome key request (not_executed "cancel-not-converged" run_id (dget "job_id" progress));; mret None)
    (λ e, mret (Some (exn_name (exn_cls e))));
  match recorded with
  | Some failure =>
      record_phase key "cancel-timeout-recording" [("cancel_last_error", VStr failure)];;
      retry_later key run_id "cancel timeout outcome recording remains pending"
  | None =>
      record_phase key "cancel-recovery-pending" [];;
      progress ← assignment_progress key;
      _continue_cancel_recovery key request progress
  end.

(** The run and the job it names, as the durable progress has them. *)
Definition cancel_identity (progress : dict) : result (Z * option Z * string) :=
  match dget "run_id" progress, dget "job_id" progress, dget "cancel_reason" progress with
  | VInt run_id, job_id, VStr reason =>
      job_id ← match job_id with
               | VNone => Ok None
               | VInt job_id => check (job_id <? 1) WorkerError "durable cancellation identity is invalid";; Ok (Some job_id)
               | _ => worker_fail "durable cancellation identity is invalid"
               end;
      check ((run_id <? 1) || negb (nonempty reason)) WorkerError "durable cancellation identity is invalid";;
      Ok (run_id, job_id, reason)
  | _, _, _ => worker_fail "durable cancellation identity is invalid"
  end.

Definition known_status (d : dict) : result bool :=
  py_in_set (dget "status" d) (text_set ["queued"; "in_progress"; "completed"]).
Definition is_complete (d : dict) : bool := py_eq (dget "status" d) (VStr "completed").

Definition exact_job (run_id : Z) (job_id : option Z) (runner_label : string) (listed : list pyval) : result (option dict) :=
  match job_id with
  | None => Ok None
  | Some job_id =>
      matches ← matching_jobs run_id job_id runner_label listed;
      match matches with
      | [job] => Ok (Some job)
      | _ => worker_fail "cancel convergence cannot prove the exact local job"
      end
  end.
Definition package_label (request : dict) : result string :=
  package ← ditem "pilot_package" request;
  package ← as_dict package;
  label ← ditem "runner_label" package;
  match label with VStr label => Ok label | _ => throw TypeError "expected string or bytes-like object" end.

(** The terminal monitor over the worker's GitHub and broker, with its default
    timing, and the callbacks of its caller. *)
Definition MONITOR_TIMEOUT : Z := seconds 3600.
Definition MONITOR_POLL : Z := seconds 5.
Definition pilot_ops (supersession : option (M Worker (option string))) (cancel_run : option (Z → M Worker (option bool)))
    (before_finish : string → M Worker unit) : PilotOps Worker := {|
  pilot_run run_id := beyond (gh_run run_id);
  pilot_jobs run_id := beyond (gh_jobs run_id);
  pilot_finish allocation_id outcome := beyond (wb_finish allocation_id outcome);; mret tt;
  pilot_prove_clean allocation_id label := beyond (wb_prove_clean allocation_id label);
  pilot_sleep t := beyond (host_sleep t);
  pilot_clock w := host_monotonic (wk_outside w);
  pilot_supersession := supersession;
  pilot_cancel_run := cancel_run;
  pilot_before_finish := Some before_finish;
|}.
Definition run_monitor (ops : PilotOps Worker) (allocation_id label : string) (run_id job_id : Z)
    : M Worker (option string * option string) :=
  monitor (Ops := ops) MONITOR_TIMEOUT MONITOR_POLL allocation_id label run_id job_id (monitor_fuel MONITOR_TIMEOUT MONITOR_POLL) None.

(** Terminal without a local job, and with one. *)
Definition cancelled_unstarted (key : string) (request : dict) (reason : string) (run_id : Z) : M Worker string :=
  _record_outcome key request (not_executed (_cause_for_reason reason) (VInt run_id) VNone);;
  recover_assignment request;;
  mret "cancel".
Definition cancelled_job (key : string) (request : dict) (reason label : string) (run_id job_id : Z) : M Worker string :=
  allocation_id ← lift (_recovery_allocation_id request);
  let before (_ : string) := _record_outcome key request (not_executed (_cause_for_reason reason) (VInt run_id) (VInt job_id)) in
  '(outcome, _) ← run_monitor (pilot_ops None None before) allocation_id label run_id job_id;
  match outcome with
  | Some outcome => mret outcome
  | None => raise WorkerError "terminal cancellation unexpectedly yielded"
  end.

Definition opt_int (o : option Z) : pyval := match o with Some n => VInt n | None => VNone end.
(** The result is recorded, then given to the approval, then marked delivered. *)
Definition deliver_result (key : string) (result : dict) (complete : M Worker unit) : M Worker dict :=
  on_requests (finish_request key result);;
  complete;;
  on_requests (deliver_request key);;
  mret result.

Definition close_cancelled (key : string) (reason outcome : string) (run_id : Z) (job_id : option Z) : M Worker dict :=
  closed ← _close_checks key (CloseDiscarded reason);
  if negb closed then retry_later key (VInt run_id) "supersession Check Run publication remains pending"
  else
    let result := [("status", VStr "cancelled"); ("mode", VStr "ci-jit-pilot"); ("run_id", VInt run_id); ("job_id", opt_int job_id);
                   ("outcome", VStr outcome); ("reason", VStr reason)] in
    deliver_result key result (unless_settled (beyond (source_complete key result))).

(** The run is not over: at the deadline the cancellation is given up, before it
    a cancellation that was not accepted is asked for again. *)
Definition not_yet_cancelled (key : string) (request progress : dict) (run_id : Z) (now deadline : Z) (run : dict) (job : option dict)
    : M Worker dict :=
  run_known ← lift (known_status run);
  job_known ← lift (match job with Some job => known_status job | None => Ok true end);
  raise_if (negb run_known || negb job_known) WorkerError "cancel convergence observed an invalid state";;
  if deadline <=? now then _cancel_not_converged key request progress
  else if py_truthy (dget "cancel_accepted" progress) then _cancel_pending key (VInt run_id) true None
  else '(accepted, error) ← try_cancel (VInt run_id); _cancel_pending key (VInt run_id) accepted error.

Definition observe_run (run_id : Z) : M Worker (dict * dict) :=
  run ← beyond (gh_run run_id);
  jobs ← beyond (gh_jobs run_id);
  mret (run, jobs).

(** What the run looks like decides. *)
Definition converge (key : string) (request progress : dict) (run_id : Z) (job_id : option Z) (reason : string)
    (now deadline : Z) (run jobs : dict) : M Worker dict :=
  match py_eq (dget "id" run) (VInt run_id), dget "jobs" jobs with
  | true, VList listed =>
      label ← lift (package_label request);
      job ← lift (exact_job run_id job_id label listed);
      if is_complete run && match job with Some job => is_complete job | None => true end
      then outcome ← match job_id with
                     | None => cancelled_unstarted key request reason run_id
                     | Some job_id => cancelled_job key request reason label run_id job_id
                     end;
           close_cancelled key reason outcome run_id job_id
      else not_yet_cancelled key request progress run_id now deadline run job
  | _, _ => raise WorkerError "cancel convergence crossed the exact run"
  end.

Definition _continue_cancel_requested (key : string) (request progress : dict) : M Worker dict :=
  '(run_id, job_id, reason) ← lift (cancel_identity progress);
  now ← pilot_now_seconds;
  deadline ← lift (_cancel_time (dget "cancel_deadline" progress) "cancel_deadline");
  next_poll ← lift (_cancel_time (dget "cancel_next_poll_at" progress) "cancel_next_poll_at");
  if (now <? next_poll) && (now <? deadline)
  then release key;; mret (pilot_answer "pending" (VInt run_id) "exact run cancellation poll is not due")
  else
    observed ← catching is_authority_error (inl <$> observe_run run_id) (λ e, mret (inr (exn_name (exn_cls e))));
    match observed with
    | inr failure =>
        if deadline <=? now then _cancel_not_converged key request progress
        else _cancel_pending key (VInt run_id) (py_truthy (dget "cancel_accepted" progress)) (Some failure)
    | inl (run, jobs) => converge key request progress run_id job_id reason now deadline run jobs
    end.

(** ** An assignment found obsolete *)

Definition list_of (v : pyval) : list pyval := match v with VList l => l | _ => [] end.
Definition texts_of (v : pyval) : list string := omap text_of (list_of v).
Definition dict_of (v : pyval) : dict := match v with VDict d => d | _ => [] end.
Definition with_name (name : string) (v : pyval) : pyval :=
  VList (if existsb (py_eq (VStr name)) (list_of v) then list_of v else list_of v ++ [VStr name]).

(** The three callbacks of the publication. *)
Definition record_pending (key name : string) : M Worker unit :=
  progress ← assignment_progress key;
  record_phase key "discard-reporting" [("discard_pending", with_name name (dget "discard_pending" progress))].
Definition record_created (key name : string) (identifier : Z) : M Worker unit :=
  progress ← assignment_progress key;
  record_phase key "discard-reporting"
    [("discard_checks", VDict (dset name (VInt identifier) (dict_of (dget "discard_checks" progress))))].
Definition record_completed (key name : string) : M Worker unit :=
  progress ← assignment_progress key;
  record_phase key "discard-reporting" [("discard_completed", with_name name (dget "discard_completed" progress))].

(** Whether the publication is pending. *)
Definition publish_obsolete (key : string) (request progress : dict) (reason : string) : M Worker bool :=
  match dget "checks" progress with
  | VDict (_ :: _) => negb <$> _close_checks key (CloseDiscarded reason)
  | _ =>
      match pw_checks config, pw_repository config, dget "pilot_package" request with
      | Some gate, Some repository, VDict package =>
          catching is_publication_error
            (head_sha ← lift (ditem "head_sha" package);
             pr_number ← lift (ditem "pr_number" package);
             publish_discarded gate (record_pending key) (record_created key) (record_completed key)
               (text_or_none head_sha) reason
               ("https://github.com/" +:+ repository +:+ "/pull/" +:+ py_format pr_number) ("request:" +:+ key)
               (dict_of (dget "discard_checks" progress)) (texts_of (dget "discard_completed" progress));;
             mret false)
            (λ _, mret true)
      | _, _, _ => mret false
      end
  end.

Definition _complete_superseded (key : string) (request : dict) (reason : string) (run_id : option Z) : M Worker dict :=
  progress ← assignment_progress key;
  let exact_run := match run_id with Some run_id => VInt run_id | None => dget "run_id" progress end in
  if negb (is_none exact_run) then
    _request_superseded_cancel key reason exact_run
      (py_or (get_or_empty "job_id" (dget "observed" progress)) (dget "job_id" progress));;
    release key;;
    mret (pilot_answer "pending" exact_run "exact run cancellation was requested")
  else
    publication_pending ← publish_obsolete key request progress reason;
    _record_outcome key request (not_executed (_cause_for_reason reason) exact_run VNone);;
    (if is_none (dget "reserved" progress) then mret tt else recover_assignment request);;
    if publication_pending : bool
    then retry_later key exact_run "supersession Check Run publication remains pending"
    else
      let result := pilot_answer "cancelled" exact_run reason in
      deliver_result key result (unless_settled (beyond (source_complete key result))).

(** ** The package *)

(** The times the package and the reservation are validated at: once a run was
    dispatched, those they were issued at. *)
Definition package_times (package_value : dict) (request progress : dict) (now : datetime) : result (datetime * datetime) :=
  if is_none (dget "run_id" progress) then Ok (now, now)
  else
    match dget "issued_at" package_value with
    | VStr issued_at =>
        let canonical {A} : result A → result A :=
          rewrap (λ c, bool_decide (c = ValueError)) JitPilotError "issued_at must be canonical UTC" in
        package_now ← canonical (read_utc issued_at);
        if is_dict (dget "dispatch_package" progress) then
          reservation ← as_dict (dget "reservation" request);
          reservation_now ← canonical (read_utc (text_or_none (reservation_issued reservation VNone)));
          Ok (package_now, reservation_now)
        else Ok (package_now, now)
    | _ => throw JitPilotError "issued_at must be canonical UTC"
    end.
Definition read_package (request progress : dict) (now : datetime) : result dict :=
  package_value ← as_dict (default (dget "pilot_package" request) (dlookup "dispatch_package" progress));
  '(package_now, reservation_now) ← package_times package_value request progress now;
  (if is_dict (dget "finalized" progress) then Ok tt
   else reservation ← as_dict (dget "reservation" request); validate_allocation_reservation reservation reservation_now);;
  pilot_from_mapping (VDict package_value) package_now.
Definition _package (request progress : dict) : M Worker dict :=
  now ← beyond source_clock;
  lift (read_package request progress (utc now)).

(** A fresh package for the dispatch, its window starting now. *)
Definition issue_package (key : string) (request progress : dict) : M Worker dict :=
  if is_dict (dget "dispatch_package" progress) || negb (is_none (dget "run_id" progress)) then mret progress
  else
    now ← pilot_now_seconds;
    package ← lift (as_dict (dget "pilot_package" request));
    expires ← lift (dt_add now (minutes 15));
    let dispatch_package := dmerge package [("issued_at", VStr (stamp_text now)); ("expires_at", VStr (stamp_text expires))] in
    lift (pilot_from_mapping (VDict dispatch_package) (utc now));;
    record_phase key "package-issued" [("dispatch_package", VDict dispatch_package)];;
    assignment_progress key.
Definition prepare_package (key : string) (request : dict) : M Worker (dict * dict) :=
  progress ← assignment_progress key;
  progress ← issue_package key request progress;
  package ← _package request progress;
  mret (progress, package).

(** ** An assignment terminated before or without its run *)

(** [except Exception: state.fail; raise] *)
Definition releasing {A} (key : string) (m : M Worker A) : M Worker A :=
  catching any_exception m (λ e, release key;; reraise e).

Definition _terminal_reconcile (key : string) (request progress : dict) (reason : string) : M Worker dict :=
  allocation_id ← lift (_recovery_allocation_id request);
  record_phase key "cleanup-required" [("failure_reason", VStr reason)];;
  _close_checks key (CloseAbandoned ("the local assignment was terminated (" +:+ reason +:+ ")"));;
  (if py_truthy (VDict progress) then releasing key (_recover_exact allocation_id) else mret tt);;
  releasing key (unless_settled (beyond (source_fail key reason)));;
  on_requests (abort_request key reason);;
  _record_outcome key request (not_executed "worker-error" VNone VNone);;
  mret [("status", VStr "failed"); ("reason", VStr reason)].

(** ** The assignment *)

(** [reserve], once; the answer must be the package's allocation. *)
Definition reserve_pilot (key : string) (request reservation progress package : dict) : M Worker unit :=
  reserved ← (if py_truthy (dget "reserved" progress) then mret (dget "reserved" progress)
              else VDict <$> beyond (wb_reserve reservation));
  (if bool_decide (dlookup "reserved" progress = None)
   then record_durable request key "reserved" [("reserved", reserved)] else mret tt);;
  raise_if (negb (py_eq reserved
      (VDict [("allocation_id", dget "allocation_id" package); ("scale_set_id", get_or_empty "scale_set_id" reserved);
              ("runner_label", dget "runner_label" package); ("state", VStr "reserved-disabled")]))) WorkerError
    "pilot reserve response crossed package".

(** The dispatch, recorded before and after: a cycle that finds it recorded only
    before does not dispatch again. *)
Definition dispatch_pilot_run (key : string) (request progress : dict) : M Worker Z :=
  match dget "run_id" progress with
  | VNone =>
      raise_if (py_eq (dget "phase" progress) (VStr "dispatching") || py_truthy (dget "dispatch_ambiguous" progress)) WorkerError
        "pilot dispatch receipt is ambiguous; refusing redispatch";;
      record_durable request key "dispatching" [];;
      dispatch_package ← lift (package ← ditem "dispatch_package" progress; as_dict package);
      receipt ← beyond (gh_dispatch_package dispatch_package);
      match receipt with
      | VInt run_id =>
          raise_if (run_id <? 1) WorkerError "pilot dispatch receipt is invalid";;
          record_durable request key "dispatched" [("run_id", VInt run_id)];;
          mret run_id
      | _ => raise WorkerError "pilot dispatch receipt is invalid"
      end
  | VInt run_id => mret run_id
  | _ => raise WorkerError "pilot observation crossed dispatch identity"
  end.

Definition observed_document (job : ObservedWorkflowJob) : dict :=
  [("run_id", VInt (ow_run_id job)); ("run_attempt", VInt (ow_run_attempt job)); ("job_id", VInt (ow_job_id job));
   ("job_name", VStr (ow_job_name job)); ("dispatch_sha", VStr (ow_dispatch_sha job))].
(** The recorded observation, whose fields were written by [observed_document]. *)
Definition observed_of (d : dict) : result ObservedWorkflowJob :=
  run_id ← ditem "run_id" d; run_attempt ← ditem "run_attempt" d; job_id ← ditem "job_id" d;
  job_name ← ditem "job_name" d; dispatch_sha ← ditem "dispatch_sha" d;
  match run_id, run_attempt, job_id, job_name, dispatch_sha with
  | VInt run_id, VInt run_attempt, VInt job_id, VStr job_name, VStr dispatch_sha =>
      Ok {| ow_run_id := run_id; ow_run_attempt := run_attempt; ow_job_id := job_id; ow_job_name := job_name;
            ow_dispatch_sha := dispatch_sha |}
  | _, _, _, _, _ => throw TypeError "not an observed workflow job"
  end.
Definition observe_pilot_job (key : string) (request progress package : dict) (run_id : Z) : M Worker ObservedWorkflowJob :=
  observed ← match dget "observed" progress with
             | VDict d => lift (observed_of d)
             | _ =>
                 observed ← beyond (gh_observe_exact_job run_id (dget "runner_label" package));
                 record_durable request key "observed"
                   [("run_id", VInt run_id); ("job_id", VInt (ow_job_id observed)); ("observed", VDict (observed_document observed))];;
                 mret observed
             end;
  raise_if (negb (ow_run_id observed =? run_id) || negb (bool_decide (ow_job_name observed = "local-quality"))) WorkerError
    "pilot observation crossed dispatch identity";;
  mret observed.

Definition is_version_2 (reservation : dict) : bool := py_eq (dget "allocation_reservation_version" reservation) (VInt 2).
Definition open_window (key : string) (request reservation : dict) : M Worker dict :=
  progress ← assignment_progress key;
  if is_version_2 reservation
     && negb (is_text (dget "allocation_issued_at" progress) && is_text (dget "claim_deadline" progress))
  then
    now ← pilot_now_seconds;
    deadline ← lift (dt_add now (pw_claim_ttl config));
    record_durable request key "allocation-window"
      [("allocation_issued_at", VStr (stamp_text now)); ("claim_deadline", VStr (stamp_text deadline))];;
    assignment_progress key
  else mret progress.

Definition pilot_payload (reservation package progress : dict) (run_id : Z) (observed : ObservedWorkflowJob) : result dict :=
  version ← ditem "allocation_reservation_version" reservation;
  window ← (if is_version_2 reservation
            then issued ← ditem "allocation_issued_at" progress; deadline ← ditem "claim_deadline" progress;
                 Ok [("issued_at", issued); ("claim_deadline", deadline)]
            else Ok []);
  Ok (dmerge (dremove "allocation_reservation_version" reservation)
        ([("runner_allocation_version", version); ("run_id", VStr (str_of_Z run_id));
          ("run_attempt", VInt (ow_run_attempt observed)); ("job_id", VStr (str_of_Z (ow_job_id observed)));
          ("dispatch_sha", VStr (ow_dispatch_sha observed)); ("tested_sha", dget "tested_merge_sha" package)] ++ window)).

Definition finalize_pilot (key : string) (request reservation package progress : dict) (run_id : Z)
    (observed : ObservedWorkflowJob) : M Worker unit :=
  payload ← lift (pilot_payload reservation package progress run_id observed);
  if is_dict (dget "finalized" progress) then mret tt
  else
    envelope ← beyond (host_sign payload);
    finalized ← beyond (wb_finalize envelope);
    raise_if (negb (py_eq (dget "allocation_id" finalized) (dget "allocation_id" package))
              || negb (py_eq (dget "state" finalized) (VStr "enabled-awaiting-claim"))) WorkerError
      "pilot finalize response is not exact";;
    record_durable request key "finalized"
      [("run_id", VInt run_id); ("job_id", VInt (ow_job_id observed));
       ("observed", VDict (match dget "observed" progress with VDict d => d | _ => observed_document observed end));
       ("finalized", VDict finalized)].

(** The callbacks of the monitor.  It keeps no reason once it reports a
    conclusion: a superseded run makes it yield. *)
Definition current_supersession (key : string) (request : dict) : M Worker (option string) :=
  reason ← _supersession_reason key request;
  set_reason reason;;
  mret reason.
Definition cancel_current (key : string) (job_id run_id : Z) : M Worker (option bool) :=
  reason ← gets wk_reason;
  Some <$> _request_superseded_cancel key
    (match reason with Some reason => if nonempty reason then reason else "the local run was superseded"
                     | None => "the local run was superseded" end)
    (VInt run_id) (VInt job_id).
Definition record_terminal (key : string) (request : dict) (run_id job_id : Z) (conclusion : string) : M Worker unit :=
  _record_outcome key request {| oc_cause := terminal_cause conclusion; oc_run_id := VInt run_id; oc_job_id := VInt job_id;
    oc_executed := VNone; oc_success := bool_decide (conclusion = "success") |}.

Definition terminal_result (reason : option string) (run_id job_id : Z) (outcome : string) : dict :=
  [("status", VStr match reason with Some _ => "cancelled" | None => "completed" end); ("mode", VStr "ci-jit-pilot");
   ("run_id", VInt run_id); ("job_id", VInt job_id); ("outcome", VStr outcome)]
  ++ match reason with Some reason => [("reason", VStr reason)] | None => [] end.

(** What the monitor's word leads to. *)
Definition conclude_pilot (key : string) (run_id job_id : Z) (found : option string * option string) : M Worker dict :=
  match found with
  | (None, _) => release key;; mret (pilot_answer "pending" (VInt run_id) "exact run cancellation was requested")
  | (Some outcome, reason) =>
      closed ← _close_checks key (match reason with Some reason => CloseDiscarded reason | None => CloseConcluded job_id outcome end);
      if negb closed
      then retry_later key (VInt run_id)
             (match reason with Some _ => "supersession Check Run publication remains pending"
                              | None => "terminal Check Run publication remains pending" end)
      else
        let result := terminal_result reason run_id job_id outcome in
        let complete := beyond (source_complete key result) in
        deliver_result key result (match reason with Some _ => unless_settled complete | None => complete end)
  end.

Definition is_transport_error (c : exn_class) : bool := bool_decide (c = WorkerTransportError).
Definition watch_pilot (key : string) (request package : dict) (run_id job_id : Z) : M Worker dict :=
  let ops := pilot_ops (Some (current_supersession key request)) (Some (cancel_current key job_id))
               (record_terminal key request run_id job_id) in
  set_reason None;;
  watched ← catching is_transport_error
    (Some <$> run_monitor ops (text_or_none (dget "allocation_id" package)) (text_or_none (dget "runner_label" package)) run_id job_id)
    (λ _, mret None);
  match watched with
  | None => retry_later key (VInt run_id) "terminal GitHub observation remains pending"
  | Some found => conclude_pilot key run_id job_id found
  end.

(** The body of the [try]: reserve, dispatch, observe, open, sign, finalize,
    watch. *)
Definition drive_pilot (key : string) (request reservation progress package : dict) : M Worker dict :=
  reserve_pilot key request reservation progress package;;
  run_id ← dispatch_pilot_run key request progress;
  observed ← observe_pilot_job key request progress package run_id;
  progress ← open_window key request reservation;
  current ← assignment_progress key;
  _open_checks request key current package run_id (ow_job_id observed);;
  reason ← _supersession_reason key request;
  match reason with
  | Some reason => _complete_superseded key request reason (Some run_id)
  | None =>
      finalize_pilot key request reservation package progress run_id observed;;
      watch_pilot key request package run_id (ow_job_id observed)
  end.

(** [except Exception], after the contained classes were raised again. *)
Definition dispatch_lost (key : string) (request : dict) (allocation_id : string) (e : exn) : M Worker dict :=
  recovered ← attempt (_recover_exact allocation_id);
  record_durable request key "dispatch-ambiguous" [("dispatch_ambiguous", VBool true)];;
  beyond (source_retry key "dispatch-ambiguous");;
  release key;;
  match recovered with Raise recovery => reraise recovery | Ok _ => reraise e end.
Definition clean_up (key : string) (request : dict) (allocation_id : string) (e : exn) : M Worker dict :=
  let reason := exn_name (exn_cls e) in
  record_durable request key "cleanup-required" [("failure_reason", VStr reason)];;
  catching any_exception (_recover_exact allocation_id)
    (λ recovery, beyond (source_retry key "cleanup-required");; release key;; reraise recovery);;
  beyond (source_fail key reason);;
  on_requests (abort_request key reason);;
  reraise e.
Definition pilot_failed (key : string) (request package : dict) (e : exn) : M Worker dict :=
  let allocation_id := text_or_none (dget "allocation_id" package) in
  latest ← assignment_progress key;
  let run_id := dget "run_id" latest in
  _close_checks key (CloseAbandoned ("the self-hosted runner stopped owning this run (" +:+ exn_name (exn_cls e) +:+ ")"));;
  _record_outcome key request (not_executed "worker-error" run_id (get_or_empty "job_id" (dget "observed" latest)));;
  if negb (is_none run_id) then
    beyond (source_retry key (exn_name (exn_cls e)));; release key;; reraise e
  else if py_eq (dget "phase" latest) (VStr "dispatching") then dispatch_lost key request allocation_id e
  else clean_up key request allocation_id e.

(** The phases of a cancellation, and of a required cleanup, come first. *)
Definition continue_phase (key : string) (request progress : dict) : option (M Worker dict) :=
  match dget "phase" progress with
  | VStr phase =>
      if bool_decide (phase = "cancel-requesting") then
        Some (run_id ← lift (ditem "run_id" progress);
              '(accepted, error) ← try_cancel run_id;
              _cancel_pending key run_id accepted error)
      else if bool_decide (phase = "cancel-timeout-recording") then Some (_cancel_not_converged key request progress)
      else if bool_decide (phase = "cancel-recovery-pending") then Some (_continue_cancel_recovery key request progress)
      else if bool_decide (phase = "cancel-requested") then Some (_continue_cancel_requested key request progress)
      else if bool_decide (phase = "cleanup-required") then
        Some (_terminal_reconcile key request progress
                (match dget "failure_reason" progress with
                 | VStr reason => if nonempty reason then reason else "pre-dispatch-failure"
                 | _ => "pre-dispatch-failure" end))
      else None
  | _ => None
  end.

(** A new turn of the assignment: authority first, then the package, then the
    run itself. *)
Definition advance_pilot (key : string) (request progress : dict) : M Worker dict :=
  owned ← catching is_approval_error (inl <$> resume_or_claim key request progress) (λ e, mret (inr (exn_name (exn_cls e))));
  match owned with
  | inr failure => _terminal_reconcile key request progress failure
  | inl request =>
      reservation ← lift (reservation ← ditem "reservation" request; as_dict reservation);
      prepared ← catching (λ c, bool_decide (c = JitPilotError)) (inl <$> prepare_package key request)
                   (λ e, mret (inr (exn_name (exn_cls e))));
      match prepared with
      | inr failure =>
          progress ← assignment_progress key;
          _terminal_reconcile key request progress failure
      | inl (progress, package) =>
          catching (λ c, negb (is_contained c)) (drive_pilot key request reservation progress package)
            (pilot_failed key request package)
      end
  end.

Definition pilot_assignment (request : dict) : M Worker dict :=
  match same_set (dkeys request) ["request_id"; "pilot_package"; "reservation"], dget "request_id" request with
  | true, VStr key =>
      claim ← claim_assignment key request 7200;
      settled ← settled_claim key "completed pilot result is missing" claim;
      match settled with
      | Some answer => mret answer
      | None =>
          progress ← assignment_progress key;
          match continue_phase key request progress with
          | Some m => m
          | None =>
              reason ← _supersession_reason key request;
              match reason with
              | Some reason => _complete_superseded key request reason None
              | None => advance_pilot key request progress
              end
          end
      end
  | _, _ => raise WorkerError "pilot work request fields are not exact"
  end.

(** What [_retire_assignment] cleans up. *)
Definition pilot_retire (key : string) (request progress : dict) (reason : string) : M Worker unit :=
  _close_checks key (CloseAbandoned (first_line reason));;
  if py_truthy (VDict progress) then recover_assignment request else mret tt.

Definition pilot_run_once : M Worker dict := run_once pilot_assignment pilot_retire.
End pilot.
