(* ===== verification/WorkerService.v ===== *)
(** * The worker service (scripts/host/outbound-coordinator-worker.py)

    How the service puts the parts together: the validated configuration, the
    approval store as the worker's source, the worker's App as its GitHub, the
    job logs, [AutoDispatcher], and the turn of the serve loop.  Reading the
    configuration file, the HTTP sockets and the command line are outside. *)

From S2P Require Import Prelude Datetime PyValue PyText Json Digest JitPilot LocalApproval ApprovalProps Protocol GitHubHttp PilotChecks WorkerAuthority WorkerState OutboundWorker PilotWorker AutoDispatch.
#[local] Open Scope Z_scope.

(** ** The configuration *)

Definition required_settings : list string :=
  ["schema_version"; "mode"; "authority_kind"; "runner_group"; "app_id"; "app_slug"; "installation_id"; "repository";
   "repository_id"; "repository_selection"; "default_branch"; "workflow_id"; "workflow_path"; "permissions";
   "github_app_private_key_file"; "authority_helper_file"; "authority_manifest_file"; "authority_signer_key_file";
   "allocation_signer_key_file"; "image_fingerprint"; "gatestore_file"; "approval_store_file"; "worker_state_file";
   "broker_executable"; "approval_ttl_seconds"; "poll_seconds"; "request_timeout_seconds"].
Definition optional_settings : list string :=
  ["gate"; "auto_dispatch"; "claim_deadline_seconds"; "cancel_convergence_timeout_seconds"; "cancel_convergence_poll_seconds"].

(** [value.get(k, d)] *)
Definition dget_or (k : string) (d : pyval) (v : dict) : pyval := default d (dlookup k v).
Definition int_between (lo hi : Z) (v : pyval) : bool := match v with VInt n => (lo <=? n) && (n <=? hi) | _ => false end.

(** A runner group: 1 to 100 characters, not padded, no star, CR or LF. *)
Definition is_group_setting : pyval → bool :=
  is_str_where (λ s, stripped s && (1 <=? py_len s)%nat && (py_len s <=? 100)%nat
                     && lacks "*" s && lacks (ascii_of_N 13) s && lacks (ascii_of_N 10) s).
Definition gate_setting (value gate : dict) : result bool :=
  if negb (same_set (dkeys gate) ["app_id"; "app_slug"; "installation_id"; "private_key_file"]) then Ok false
  else Ok (is_positive_int (dget "app_id" gate) && is_positive_int (dget "installation_id" gate)
           && is_str_where (λ _, true) (dget "app_slug" gate) && is_str_where (λ _, true) (dget "private_key_file" gate)
           && negb (py_eq (dget "app_id" gate) (dget "app_id" value))
           && negb (py_eq (dget "private_key_file" gate) (dget "github_app_private_key_file" value))).
Definition auto_setting (auto : dict) : bool :=
  same_set (dkeys auto) ["enabled"; "poll_seconds"]
  && match dget "enabled" auto with VBool _ => true | _ => false end && int_between 15 3600 (dget "poll_seconds" auto).

(** [root_config], of the object the file holds. *)
Definition root_config (value : pyval) : result dict :=
  match value with
  | VDict value =>
      mode ← (if same_set (filter (λ k, k ∉ optional_settings) (dkeys value)) required_settings
                 && py_eq (dget "schema_version" value) (VInt 1)
              then py_in_set (dget "mode" value) (text_set ["ci-jit-pilot"; "ci-gate-full"]) else Ok false);
      approval_if (negb mode) "outbound worker config fields are not exact";;
      let personal := py_eq (dget "authority_kind" value) (VStr "personal-repository") in
      let organization := py_eq (dget "authority_kind" value) (VStr "organization-runner-group") in
      approval_if (personal && negb (is_none (dget "runner_group" value))
                   || organization && negb (is_group_setting (dget "runner_group" value)))
        "outbound worker runner authority is invalid";;
      known ← py_in_set (dget "authority_kind" value) (text_set ["personal-repository"; "organization-runner-group"]);
      approval_if (negb known) "outbound worker authority kind is invalid";;
      approval_if (negb (int_between 1 900 (dget_or "claim_deadline_seconds" (VInt 720) value)))
        "claim_deadline_seconds must be between one and 900 seconds";;
      let timeout := dget_or "cancel_convergence_timeout_seconds" (VInt 180) value in
      let poll := dget_or "cancel_convergence_poll_seconds" (VInt 15) value in
      approval_if (negb (match timeout with VInt n => int_between 30 900 timeout && int_between 1 n poll | _ => false end))
        "outbound worker cancel convergence timing is invalid";;
      match dget "gate" value with
      | VNone => Ok tt
      | VDict gate => exact ← gate_setting value gate; approval_if (negb exact) "outbound worker gate block is invalid"
      | _ => approval_fail "outbound worker gate block is invalid"
      end;;
      match dget "auto_dispatch" value with
      | VNone => Ok tt
      | VDict auto => approval_if (negb (auto_setting auto)) "outbound worker auto_dispatch block is invalid"
      | _ => approval_fail "outbound worker auto_dispatch block is invalid"
      end;;
      Ok value
  | _ => approval_fail "outbound worker config fields are not exact"
  end.

(** The limits [runtime] gives the pilot worker. *)
Definition setting_seconds (k : string) (d : Z) (value : dict) : Z :=
  match dget_or k (VInt d) value with VInt n => seconds n | _ => seconds d end.
Definition pilot_settings (checks : option GateAppAuthorityV1) (repository : string) (value : dict) : result PilotConfig :=
  pilot_config {|
    pw_checks := checks; pw_repository := Some repository;
    pw_claim_ttl := setting_seconds "claim_deadline_seconds" 720 value;
    pw_cancel_timeout := setting_seconds "cancel_convergence_timeout_seconds" 180 value;
    pw_cancel_poll := setting_seconds "cancel_convergence_poll_seconds" 15 value |}.

(** ** The approval store as the worker's source *)

Section source.
Context {D : Digest} {G : Type} {Host : ApprovalHost G}.

Definition request_object (v : pyval) : result dict := match v with VDict d => Ok d | _ => throw AttributeError "get" end.
(** [poll], with a turn for each pending approval and one more. *)
Definition poll_store : M (ApprovalWorld G) (option dict) :=
  w ← get;
  request ← poll (S (pending_count (aw_db w)));
  match request with
  | Some request => Some <$> lift (request_object request)
  | None => mret None
  end.

#[export] Instance approval_source : WorkSource (ApprovalWorld G) := {|
  source_poll := poll_store;
  source_claim request_id request lease := claim_approval request_id (VDict request) (VInt lease);
  source_resume request_id request lease := r ← resume_approval request_id (VDict request) (VInt lease); lift (request_object r);
  source_retry := retry_approval;
  source_complete request_id result := complete_approval request_id (VDict result);
  source_fail := fail_approval;
  source_supersession := Some supersession_reason;
  source_clock := host_clock;
|}.
End source.

(** ** The worker's App as its GitHub *)

(** [client] requests, from the world the approval store is in. *)
Definition at_host {G A} (m : M G A) : M (ApprovalWorld G) A := λ w,
  let '(r, g) := m (aw_host w) in (r, MkApprovalWorld (aw_db w) (aw_gates w) (aw_current w) g).

Class ServiceHost (G : Type) := {
  service_monotonic : G → Z;
  service_sleep : Z → M G unit;
  log_stream : string → dict → M G (list string);            (* HTTPS.stream: url, headers *)
}.

Section github.
Context {G : Type} {T : HTTPTransport G} {SH : ServiceHost G}.
Context (authority : WorkerAppAuthorityV1) (request_timeout : Z).

Abbreviation World := (ApprovalWorld G).

(** A fresh token for each call. *)
Definition authenticated {A} (m : WorkerInstallationToken → M G A) : M World A :=
  at_host (token ← worker_authenticate authority; m token).

Definition service_dispatch (package : dict) : M World pyval :=
  let encoded := dumps (VDict package) in
  VInt <$> authenticated (λ token,
    if bool_decide ("jit_pilot_package_version" ∈ dkeys package) then dispatch_pilot authority encoded token
    else worker_dispatch authority encoded token).

(** [x in {None, run_id}] *)
Definition none_or_run (run_id : Z) (v : pyval) : result bool := py_in_set v [VNone; VInt run_id].

(** One listed job: whether it is the approved one. *)
Definition is_approved_job (run_id : Z) (name label job : pyval) : result bool :=
  match job with
  | VDict job =>
      known ← none_or_run run_id (dget "run_id" job);
      Ok (known && py_eq (dget "name" job) name
          && match dget "labels" job with VList labels => existsb (py_eq label) labels | _ => false end)
  | _ => Ok false
  end.
Fixpoint approved_jobs (run_id : Z) (name label : pyval) (jobs : list pyval) : result (list dict) :=
  match jobs with
  | [] => Ok []
  | job :: jobs =>
      this ← is_approved_job run_id name label job;
      rest ← approved_jobs run_id name label jobs;
      Ok (match job with VDict d => if this : bool then [d] else [] | _ => [] end ++ rest)
  end.

(** The receipt of the one job. *)
Definition job_receipt (run_id : Z) (run job : dict) : result ObservedWorkflowJob :=
  known ← py_in_set (dget "status" job) (text_set ["queued"; "in_progress"; "completed"]);
  approval_if (negb known || negb (py_eq (dget "status" job) (VStr "completed")) && negb (is_none (dget "conclusion" job)))
    "workflow job receipt has an invalid state";;
  match dget "run_attempt" run, dget "id" job with
  | VInt attempt, VInt job_id =>
      approval_if ((attempt <? 1) || (job_id <? 1)) "workflow job receipt is invalid";;
      match dget "head_sha" run with
      | VStr sha =>
          approval_if (negb (is_sha1 sha)) "workflow dispatch SHA is invalid";;
          Ok {| ow_run_id := run_id; ow_run_attempt := attempt; ow_job_id := job_id;
                ow_job_name := default "" (text_of (dget "name" job)); ow_dispatch_sha := sha |}
      | _ => approval_fail "workflow dispatch SHA is invalid"
      end
  | _, _ => approval_fail "workflow job receipt is invalid"
  end.

Definition read_run_jobs (run_id : Z) : M World (dict * dict) :=
  authenticated (λ token, run ← worker_run authority run_id token; jobs ← worker_jobs authority run_id token; mret (run, jobs)).

(** One look: the receipt when the job is there. *)
Definition look_for_job (run_id : Z) (name label : pyval) : M World (option ObservedWorkflowJob) :=
  '(run, jobs) ← read_run_jobs run_id;
  known ← lift (none_or_run run_id (dget "id" run));
  raise_if (negb known || negb (py_eq (dget "path" run) (VStr (wa_workflow_path authority)))
            || negb (py_eq (dget "event" run) (VStr "workflow_dispatch"))) LocalApprovalError
    "workflow run crossed approved workflow";;
  match dget "jobs" jobs with
  | VList listed =>
      matches ← lift (approved_jobs run_id name label listed);
      match matches with
      | [] => mret None
      | [job] => Some <$> lift (job_receipt run_id run job)
      | _ => raise LocalApprovalError "exact approved workflow job is ambiguous"
      end
  | _ => raise LocalApprovalError "workflow jobs response is invalid"
  end.
Fixpoint wait_for_job (fuel : nat) (run_id : Z) (name label : pyval) (deadline : Z) : M World ObservedWorkflowJob :=
  match fuel with
  | O => λ w, (Raise OUT_OF_FUEL, w)
  | S fuel =>
      found ← look_for_job run_id name label;
      match found with
      | Some job => mret job
      | None =>
          now ← gets (λ w, service_monotonic (aw_host w));
          raise_if (deadline <=? now) LocalApprovalError "exact approved workflow job observation timed out";;
          at_host (service_sleep (Z.min (seconds 1) request_timeout));;
          wait_for_job fuel run_id name label deadline
      end
  end.
(** A turn for each second of the timeout, and two more. *)
Definition wait_fuel : nat := S (S (Z.to_nat (request_timeout / Z.min (seconds 1) request_timeout))).

Definition service_observe (run_id : Z) (label : pyval) : M World ObservedWorkflowJob :=
  current ← gets aw_current;
  match current with
  | None => raise LocalApprovalError "claimed approval context is absent"
  | Some request =>
      reservation ← lift (request ← request_object request; reservation ← ditem "reservation" request; as_dict reservation);
      started ← gets (λ w, service_monotonic (aw_host w));
      name ← lift (match dlookup "job_name" reservation with Some name => Ok name | None => throw KeyError "job_name" end);
      wait_for_job wait_fuel run_id name label (started + request_timeout)
  end.

Definition run_number (v : pyval) : result Z :=
  match v with VInt run_id => Ok run_id | _ => authority_fail "run ID must be positive" end.
#[export] Instance service_github : WorkerGitHub World := {|
  gh_dispatch_package := service_dispatch;
  gh_observe_exact_job := service_observe;
  gh_run run_id := authenticated (worker_run authority run_id);
  gh_jobs run_id := authenticated (worker_jobs authority run_id);
  gh_cancel_exact_run run_id := authenticated (λ token, run_id ← lift (run_number run_id); cancel_run authority run_id token);
|}.

(** [_gate_publisher]: the log is read with the dispatcher's own authority. *)
Definition log_url (job_id : Z) : string :=
  API_ROOT +:+ "/repos/" +:+ wa_repository authority +:+ "/actions/jobs/" +:+ str_of_Z job_id +:+ "/logs".
Definition service_job_log : JobLog World := {|
  job_log job_id := authenticated (λ token, log_stream (log_url job_id) (gate_headers (wt_value token)));
|}.
End github.

Definition gate_of (value : dict) : result (option GateAppAuthorityV1) :=
  match dget "gate" value with
  | VDict gate => Some <$> gate_authority (dget "app_id" gate) (dget "app_slug" gate) (dget "installation_id" gate)
                             (dget "repository" value) (dget "repository_id" value) (VStr "selected") (VDict GATE_PERMISSIONS)
  | _ => Ok None
  end.

(** ** [AutoDispatcher] *)

Section dispatcher.
Context {D : Digest} {G : Type} {Host : ApprovalHost G} {T : HTTPTransport G} {GT : HTTPTransport (ApprovalWorld G)}.
Context (ttl : Z) (authority : WorkerAppAuthorityV1) (repository : string).
Context (checks : option GateAppAuthorityV1) (record_event : option (dict → M (ApprovalWorld G) dict)).

Abbreviation World := (ApprovalWorld G).

Definition STALE_REASON : string := "the merge ref is stale; update the pull request branch before retrying".
Definition preflight_scope (number : Z) (head : string) : string :=
  "preflight:" +:+ repository +:+ ":" +:+ str_of_Z number +:+ ":" +:+ head.

(** The outcome event of a head that cannot be approved yet. *)
Definition preflight_event (number : Z) (head occurred : string) : dict :=
  [("event_key", VStr (preflight_scope number head)); ("cause_code", VStr "stale-merge-ref"); ("occurred_at", VStr occurred);
   ("allocation_id", VNone); ("run_id", VNone); ("job_id", VNone); ("repository", VStr repository);
   ("pr_number", VInt number); ("head_sha", VStr head); ("executed", VBool false); ("success", VBool false)].

Definition remember_block (number : Z) (head : string) : M World unit :=
  now ← host_clock;
  on_db (record_preflight_block (VStr repository) (VInt number) (VStr head) (VStr STALE_REASON) now);;
  mret tt.

(** The Check Runs of a head that is blocked, in steps the store remembers. *)
Definition publish_block (gate : GateAppAuthorityV1) (number : Z) (head : string) : M World unit :=
  let scope := preflight_scope number head in
  publication ← on_db (discard_check_progress (VStr scope));
  publish_discarded gate
    (λ name, on_db (begin_discard_check (VStr scope) (VStr name)))
    (λ name id, on_db (record_discard_check (VStr scope) (VStr name) (VInt id)))
    (λ name, on_db (complete_discard_check (VStr scope) (VStr name)))
    head STALE_REASON ("https://github.com/" +:+ repository +:+ "/pull/" +:+ str_of_Z number) scope
    (dict_of (dget "checks" publication)) (texts_of (dget "completed" publication)).

Definition report_block (number : Z) (head : string) : M World unit :=
  known ← on_db (has_preflight_block repository number head);
  if known : bool then mret tt
  else
    match record_event with
    | Some record =>
        now ← host_clock;
        record (preflight_event number head (stamp_text now));; mret tt
    | None => mret tt
    end;;
    match checks with Some gate => publish_block gate number head | None => mret tt end;;
    remember_block number head.

Definition apply_action (a : Action) : M World unit :=
  match a with
  | Revoke number _ _ => on_db (revoke repository number);; mret tt
  | Approve number _ _ => approve ttl (VStr repository) (VInt number);; mret tt
  end.
Definition action_kind (a : Action) : string := match a with Revoke _ _ _ => "revoke" | Approve _ _ _ => "approve" end.
Definition action_head (a : Action) : string := match a with Revoke _ head _ | Approve _ head _ => head end.
Definition action_reason (a : Action) : string := match a with Revoke _ _ reason | Approve _ _ reason => reason end.
Definition is_approval (a : Action) : bool := match a with Approve _ _ _ => true | Revoke _ _ _ => false end.

(** [except (LocalApprovalError, WorkerAuthorityError)] *)
Definition is_refusal (c : exn_class) : bool :=
  bool_decide (c ∈ [LocalApprovalError; WorkerAuthorityError; WorkerTransportError]).
Definition says_stale (e : exn) : bool := match String.index 0 "merge ref is stale" (exn_msg e) with Some _ => true | None => false end.

Definition applied_entry (a : Action) : dict :=
  [("pr", VInt (action_number a)); ("kind", VStr (action_kind a)); ("head_sha", VStr (action_head a)); ("reason", VStr (action_reason a))].
Definition blocked_entry (a : Action) (e : exn) : dict :=
  [("pr", VInt (action_number a)); ("kind", VStr (action_kind a)); ("result", VStr "blocked"); ("code", VStr (exn_name (exn_cls e)))].

(** One action: a refusal is reported, and does not stop the others. *)
Definition blocked_action (a : Action) (e : exn) : M World dict :=
  (if is_approval a && says_stale e
   then catching is_publication_error (report_block (action_number a) (action_head a)) (λ _, mret tt)
   else mret tt);;
  mret (blocked_entry a e).
Definition take_action (a : Action) : M World dict :=
  catching is_refusal (apply_action a;; mret (applied_entry a)) (blocked_action a).
Fixpoint take_actions (actions : list Action) : M World (list dict) :=
  match actions with
  | [] => mret []
  | a :: actions => this ← take_action a; rest ← take_actions actions; mret (this :: rest)
  end.

Fixpoint listed_requests (listed : list (Z * string)) : result (list OpenPullRequest) :=
  match listed with
  | [] => Ok []
  | (number, head) :: listed =>
      this ← open_pull_request (VInt number) (VStr head); rest ← listed_requests listed; Ok (this :: rest)
  end.

(** [reconcile_once] *)
Definition reconcile_once : M World dict :=
  listed ← at_host (token ← worker_authenticate authority; open_pull_requests authority token 100);
  pulls ← lift (listed_requests listed);
  approvals ← on_db (status (Some repository) None);
  actions ← lift (plan pulls approvals);
  applied ← take_actions actions;
  mret [("open_pull_requests", VInt (Z.of_nat (length listed))); ("actions", VList (VDict <$> applied))].
End dispatcher.

(** ** The service loop *)

Section service.
Context {G : Type}.
(** The store's [recover_claims], [AutoDispatcher.reconcile_once] and
    [run_once] of the configured worker. *)
Context (recover : M G Z) (dispatcher : option (M G dict)) (worker : M (Worker G) dict) (monotonic : G → Z).

(** [except (LocalApprovalError, AutoDispatchError, WorkerAuthorityError, OSError)] *)
Definition is_poll_error (c : exn_class) : bool := is_authority_error c || bool_decide (c = AutoDispatchError).

(** The poll, when it is due: its failures never stop the loop. *)
Definition dispatch_turn (auto_interval next_auto : Z) : M (Worker G) Z :=
  now ← gets (λ w, monotonic (wk_outside w));
  match dispatcher with
  | Some reconcile =>
      if next_auto <=? now then
        catching is_poll_error (beyond reconcile;; mret tt) (λ _, mret tt);;
        after ← gets (λ w, monotonic (wk_outside w));
        mret (after + auto_interval)
      else mret next_auto
  | None => mret next_auto
  end.
(** The assignment: a contained failure is reported, the others end the loop. *)
Definition worker_turn : M (Worker G) unit :=
  catching is_contained (worker;; mret tt) (λ _, mret tt).

(** One turn of [while True], without its sleep; and what precedes the loop. *)
Definition serve_turn (auto_interval next_auto : Z) : M (Worker G) Z :=
  beyond recover;;
  next_auto ← dispatch_turn auto_interval next_auto;
  worker_turn;;
  mret next_auto.
Definition service_start : M (Worker G) unit :=
  on_requests recover_running;;
  beyond recover;;
  mret tt.

Fixpoint serve (turns : nat) (auto_interval next_auto : Z) : M (Worker G) Z :=
  match turns with
  | O => mret next_auto
  | S turns => next_auto ← serve_turn auto_interval next_auto; serve turns auto_interval next_auto
  end.
End service.
