(* ===== verification/WorkerProps.v ===== *)
(** * Theorems about the worker

    The worker finishes the run of a request and then asks the approval store to
    accept its completion.  When the approval was settled otherwise meanwhile
    (revoked by the planner, failed or expired), the store refuses; the request
    stays completing, and since a cycle serves a completing request before any
    other work, every later cycle fails the same way ([revoked_completion_blocks]).
    The worker runs here over the approval store itself, not a stand-in. *)

From stdpp Require Import gmap.
From S2P Require Import Prelude Datetime PyValue PyText Json Digest GateStore JitPilot LocalApproval ApprovalProps Protocol GitHubHttp PilotChecks WorkerState OutboundWorker PilotWorker WorkerService.
#[local] Open Scope Z_scope.

(** ** A result that its approval refuses *)

Section blocked.
Context {D : Digest} {G : Type} {Host : ApprovalHost G}.
Context {B : WorkerBroker (ApprovalWorld G)} {GH : WorkerGitHub (ApprovalWorld G)} {H : WorkerHost (ApprovalWorld G)}.
Context {T : HTTPTransport (ApprovalWorld G)} {L : JobLog (ApprovalWorld G)}.
Context (config : PilotConfig).
Implicit Types w : Worker (ApprovalWorld G).

(** Only steps of the approval database. *)
Definition db_moves (g g' : ApprovalWorld G) : Prop := rtc db_step (aw_db g) (aw_db g').
#[local] Instance db_moves_preorder : PreOrder db_moves.
Proof. split; [by intros g; constructor|]. intros a b c. unfold db_moves. by etrans. Qed.
(** It answers, after such steps. *)
Definition answers {A} (m : M (ApprovalWorld G) A) : Prop := ∀ g, ∃ a g', m g = (Ok a, g') ∧ db_moves g g'.

(** The approval is settled otherwise than by the completion of its request. *)
Definition refused (key : string) (g : ApprovalWorld G) : Prop :=
  db_reachable (aw_db g) ∧ ∃ row, approvals (aw_db g) !! key = Some row ∧ ap_state row ∈ [ApFailed; ApExpired; ApRevoked].

(** The first request to serve is completing, and its approval refuses it. *)
Definition completing_first (key : string) (t : Requests) : Prop :=
  ∃ row request result, List.find (in_state RqCompleting) t = Some row ∧ rq_id row = key ∧ request_row key t = Some row ∧
    loads_column (rq_request row) = Ok (VDict request) ∧ dget "request_id" request = VStr key ∧
    same_set (dkeys request) ["request_id"; "pilot_package"; "reservation"] = true ∧ rq_result row = Some result.
Definition blocked (key : string) w : Prop := refused key (wk_outside w) ∧ completing_first key (wk_requests w).

Hypothesis others_answer : answers others.
Hypothesis clock_answers : answers host_clock.
Hypothesis time_answers : answers host_time.

Lemma refused_incomplete st : st ∈ [ApFailed; ApExpired; ApRevoked] → st ≠ ApCompleted.
Proof. intros Hs ->. repeat (apply elem_of_cons in Hs as [?|Hs]; [done|]). by apply not_elem_of_nil in Hs. Qed.
Lemma settled_inactive st : st ∈ [ApFailed; ApExpired; ApRevoked] → is_active st = false.
Proof. intros Hs. repeat (apply elem_of_cons in Hs as [->|Hs]; [done|]). by apply not_elem_of_nil in Hs. Qed.

Lemma refused_moves key g g' : db_moves g g' → refused key g → refused key g'.
Proof.
  intros Hm [Hr (row & Hk & Hs)]. split; [unfold db_reachable in *; by etrans|].
  destruct (steps_later _ _ key row (reachable_inv _ Hr) Hm Hk) as (row' & Hk' & Hl). exists row'. split; [done|].
  rewrite (later_settled _ _ Hl); [done|]. unfold active. by rewrite (settled_inactive _ Hs).
Qed.

(** A statement runs where the others have left the database. *)
Lemma on_db_answers {A} (m : M Approvals A) g :
  ∃ g1, db_moves g g1 ∧ on_db m g = statement m g1.
Proof.
  destruct (others_answer g) as ([] & g1 & E & Hm). exists g1. split; [done|]. unfold on_db. by rewrite (eval_run _ _ _ _ _ E).
Qed.

Lemma refused_settlement key result g :
  refused key g → ∃ g', on_db (settle_approval key Complete None result) g =
    (Raise (Exn LocalApprovalError "approval is no longer claimable"), g') ∧ db_moves g g'.
Proof.
  intros Hr. destruct (on_db_answers (settle_approval key Complete None result) g) as (g1 & M1 & ->).
  destruct (refused_moves _ _ _ M1 Hr) as [_ (row & Hk & Hs)]. exists g1. split; [|done].
  unfold statement, settle_approval, update_approval, mbind, M_bind. rewrite Hk, (settled_inactive _ Hs). by destruct g1.
Qed.

Lemma refused_completion key result g :
  refused key g → ∃ msg g', complete_approval key result g = (Raise (Exn LocalApprovalError msg), g') ∧ db_moves g g'.
Proof.
  intros Hr. unfold complete_approval.
  destruct (on_db_answers (gets (λ s, approvals s !! key)) g) as (g1 & M1 & E1).
  pose proof (refused_moves _ _ _ M1 Hr) as Hr1. pose proof Hr1 as [_ (row & Hk & Hs)].
  erewrite eval_run by (rewrite E1; unfold statement; cbn; reflexivity). rewrite Hk. cbn [aw_db].
  rewrite bool_decide_eq_false_2 by by apply refused_incomplete.
  destruct g1 as [db gates current host]. destruct (refused_settlement key result _ Hr1) as (g2 & E2 & M2).
  exists "approval is no longer claimable", g2. split; [exact E2|]. by etrans.
Qed.

Lemma beyond_raise {A} (m : M (ApprovalWorld G) A) w e g :
  m (wk_outside w) = (Raise e, g) → beyond m w = (Raise e, MkWorker (wk_requests w) (wk_reason w) g).
Proof. intros E. unfold beyond. by rewrite E. Qed.
Lemma beyond_answers {A} (m : M (ApprovalWorld G) A) w :
  answers m → ∃ a g, beyond m w = (Ok a, MkWorker (wk_requests w) (wk_reason w) g) ∧ db_moves (wk_outside w) g.
Proof. intros Hm. destruct (Hm (wk_outside w)) as (a & g & E & M). exists a, g. unfold beyond. by rewrite E. Qed.

Lemma claim_completing key request now lease t row :
  request_row key t = Some row → rq_state row = RqCompleting → claim_request key request now lease t = (Ok ClaimCompleting, t).
Proof.
  intros Hrow Hst. unfold claim_request. apply eval_transaction. unfold mbind, M_bind, gets. by rewrite Hrow, Hst.
Qed.
Lemma done_completing key t row result :
  request_row key t = Some row → rq_state row = RqCompleting → rq_result row = Some result →
  request_done key t = (Ok (Some result), t).
Proof. intros Hrow Hst Hres. unfold request_done, mbind, M_bind, gets. by rewrite Hrow; unfold in_state; rewrite Hst, Hres. Qed.

(** The assignment fails at the approval, with the table as it was. *)
Lemma blocked_assignment key request w row result :
  refused key (wk_outside w) → request_row key (wk_requests w) = Some row → rq_state row = RqCompleting →
  rq_result row = Some result →
  dget "request_id" request = VStr key → same_set (dkeys request) ["request_id"; "pilot_package"; "reservation"] = true →
  ∃ msg g, pilot_assignment config request w = (Raise (Exn LocalApprovalError msg), MkWorker (wk_requests w) (wk_reason w) g) ∧
    db_moves (wk_outside w) g.
Proof.
  intros Hr Hrow Hst Hres Hkey Hset. unfold pilot_assignment. rewrite Hset, Hkey.
  unfold claim_assignment. destruct (beyond_answers host_time w time_answers) as (now & g1 & E1 & M1).
  rewrite eval_assoc, (eval_run _ _ _ _ _ E1). set (w1 := MkWorker (wk_requests w) (wk_reason w) g1) in *.
  assert (∀ lease, on_requests (claim_request key request now lease) w1 = (Ok ClaimCompleting, w1)) as Hclaim.
  { intros lease. unfold on_requests. cbn. by rewrite (claim_completing _ _ _ _ _ _ Hrow Hst). }
  rewrite (eval_run _ _ _ _ _ (Hclaim _)). unfold settled_claim.
  assert (on_requests (request_done key) w1 = (Ok (Some result), w1)) as Hdone.
  { unfold on_requests. cbn. by rewrite (done_completing _ _ _ _ Hrow Hst Hres). }
  rewrite eval_assoc, (eval_run _ _ _ _ _ Hdone), eval_assoc.
  destruct (refused_completion key (VDict result) g1 (refused_moves _ _ _ M1 Hr)) as (msg & g2 & E2 & M2).
  exists msg, g2. split; [|by etrans]. by rewrite (eval_run_raise _ _ _ _ _ (beyond_raise _ w1 _ _ E2)).
Qed.

Lemma find_completing row t : List.find (in_state RqCompleting) t = Some row → rq_state row = RqCompleting.
Proof. intros [_ Hs]%List.find_some. by apply bool_decide_eq_true in Hs. Qed.

Lemma blocked_cycle key w :
  blocked key w → ∃ msg g, pilot_run_once config w = (Raise (Exn LocalApprovalError msg), MkWorker (wk_requests w) (wk_reason w) g) ∧
    db_moves (wk_outside w) g.
Proof.
  intros [Hr (row & request & result & Hfind & Hid & Hrow & Hload & Hkey & Hset & Hres)].
  destruct (blocked_assignment key request w row result Hr Hrow (find_completing _ _ Hfind) Hres Hkey Hset) as (msg & g & E & M).
  exists msg, g. split; [|done]. unfold pilot_run_once, run_once, next_request.
  assert (on_requests recoverable w = (Ok (Some request), w)) as Hrec.
  { unfold on_requests, recoverable, mbind, M_bind, gets, first_recoverable. rewrite Hfind, Hload. by destruct w. }
  rewrite eval_assoc, (eval_run _ _ _ _ _ Hrec). destruct request as [|kv request]; [done|].
  rewrite eval_ret. unfold catching. by rewrite E.
Qed.

(** ** ... and the service with it *)

Lemma release_running r : rq_id (if in_state RqRunning r then with_request_state RqRetry None r else r) = rq_id r.
Proof. by case_match. Qed.
Lemma release_completing r :
  in_state RqCompleting (if in_state RqRunning r then with_request_state RqRetry None r else r) = in_state RqCompleting r.
Proof. by destruct r as [? []]. Qed.
Lemma find_fmap {A} (p : A → bool) f (l : list A) :
  (∀ a, p (f a) = p a) → List.find p (f <$> l) = f <$> List.find p l.
Proof. intros Hp. induction l as [|a l IH]; [done|]. cbn. rewrite Hp. by destruct (p a). Qed.

Lemma completing_first_restart key t : completing_first key t → completing_first key (recover_running t).2.
Proof.
  intros (row & request & result & Hfind & Hid & Hrow & Hrest). exists row, request, result. cbn.
  assert ((if in_state RqRunning row then with_request_state RqRetry None row else row) = row) as Hsame.
  { unfold in_state. by rewrite (find_completing _ _ Hfind). }
  split; [|split; [done|split; [|done]]].
  - rewrite find_fmap by apply release_completing. rewrite Hfind. cbn. by rewrite Hsame.
  - unfold request_row. rewrite find_fmap by (intros r; by rewrite release_running). unfold request_row in Hrow.
    rewrite Hrow. cbn. by rewrite Hsame.
Qed.

Lemma recover_answers : answers recover_claims.
Proof.
  intros g. unfold recover_claims. destruct (clock_answers g) as (now & g1 & E1 & M1). rewrite (eval_run _ _ _ _ _ E1).
  destruct (on_db_answers (lapse_claims (stamp_text now)) g1) as (g2 & M2 & E2).
  set (g3 := (statement (lapse_claims (stamp_text now)) g2).2).
  rewrite (eval_run _ _ _ _ g3 E2).
  destruct (on_db_answers (requeue_claims (stamp_text now)) g3) as (g4 & M4 & E4).
  eexists _, _. split; [rewrite E4; reflexivity|]. unfold db_moves in *. cbn.
  etrans; [exact M1|]. etrans; [exact M2|]. etrans; [eapply rtc_once, (step_lapse _ _ (stamp_text now)); reflexivity|].
  etrans; [exact M4|]. eapply rtc_once, (step_requeue _ _ (stamp_text now)). reflexivity.
Qed.

Context (dispatcher : option (M (ApprovalWorld G) dict)) (monotonic : ApprovalWorld G → Z).
Hypothesis dispatcher_moves : ∀ m, dispatcher = Some m → moves db_moves m.

Lemma blocked_beyond key w g : blocked key w → db_moves (wk_outside w) g → blocked key (MkWorker (wk_requests w) (wk_reason w) g).
Proof. intros [Hr Hc] M. split; [by eapply refused_moves|done]. Qed.

Lemma dispatch_turn_blocked key auto_interval next_auto w d w' :
  blocked key w → dispatch_turn dispatcher monotonic auto_interval next_auto w = (d, w') →
  blocked key w' ∧ wk_requests w' = wk_requests w ∧ (dispatcher = None → is_ok d = true).
Proof.
  intros Hb. unfold dispatch_turn. rewrite (eval_run (gets _) _ w _ w eq_refl). destruct dispatcher as [m|] eqn:Ed.
  2: { intros [= <- <-]. done. }
  destruct (_ <=? _); [|by intros [= <- <-]].
  pose proof (dispatcher_moves m eq_refl (wk_outside w)) as Hm. destruct (m (wk_outside w)) as [r g] eqn:Er. cbn in Hm.
  unfold catching, mbind, M_bind, beyond. rewrite Er. destruct r as [a|e]; cbn.
  - intros [= <- <-]. split; [by apply blocked_beyond|done].
  - destruct (_ && _); intros [= <- <-]; (split; [by apply blocked_beyond|done]).
Qed.

(** C34: once a request is completing and its approval has been revoked, has
    failed or has expired, the service is stopped for good: however often it is
    started again, its first turn raises, the request stays first and no other
    request is served. *)
Theorem revoked_completion_blocks key w turns auto_interval next_auto :
  blocked key w →
  ∃ e w', (service_start recover_claims;; serve recover_claims dispatcher (pilot_run_once config) monotonic (S turns) auto_interval next_auto) w
            = (Raise e, w') ∧
    blocked key w' ∧ wk_requests w' = (recover_running (wk_requests w)).2 ∧ (dispatcher = None → exn_cls e = LocalApprovalError).
Proof.
  intros Hb. pose proof Hb as [Hr Hc]. unfold service_start.
  set (w1 := MkWorker (recover_running (wk_requests w)).2 (wk_reason w) (wk_outside w)).
  rewrite eval_assoc, (eval_run (on_requests recover_running) _ w _ w1 eq_refl).
  assert (blocked key w1) as Hb1 by (split; [done|by apply completing_first_restart]).
  assert (∀ w, blocked key w → wk_requests w = wk_requests w1 →
    ∃ n w', beyond recover_claims w = (Ok n, w') ∧ blocked key w' ∧ wk_requests w' = wk_requests w1) as Hrec.
  { intros w2 Hb2 E2. destruct (beyond_answers recover_claims w2 recover_answers) as (n & g & E & M).
    exists n, (MkWorker (wk_requests w2) (wk_reason w2) g). split; [done|]. split; [by apply blocked_beyond|done]. }
  destruct (Hrec w1 Hb1 eq_refl) as (n & w2 & E2 & Hb2 & R2). rewrite !eval_assoc, (eval_run _ _ _ _ _ E2), eval_ret.
  cbn [serve]. unfold serve_turn. destruct (Hrec w2 Hb2 R2) as (n3 & w3 & E3 & Hb3 & R3).
  rewrite !eval_assoc, (eval_run _ _ _ _ _ E3), !eval_assoc.
  destruct (dispatch_turn dispatcher monotonic auto_interval next_auto w3) as [d w4] eqn:E4.
  destruct (dispatch_turn_blocked key auto_interval next_auto w3 d w4 Hb3 E4) as (Hb4 & R4 & Hd).
  destruct d as [next|e].
  - rewrite (eval_run _ _ _ _ _ E4), eval_assoc. unfold worker_turn.
    destruct (blocked_cycle key w4 Hb4) as (msg & g & E5 & M5).
    set (w5 := MkWorker (wk_requests w4) (wk_reason w4) g) in *.
    assert (catching is_contained (pilot_run_once config;; mret tt) (λ _, mret tt) w4 = (Raise (Exn LocalApprovalError msg), w5)) as E6
      by (unfold catching; by rewrite (eval_run_raise _ _ _ _ _ E5)).
    rewrite (eval_run_raise _ _ _ _ _ E6). eexists _, w5. split; [done|]. split; [by apply blocked_beyond|].
    split; [|done]. subst w5. cbn [wk_requests]. by rewrite R4, R3.
  - rewrite (eval_run_raise _ _ _ _ _ E4). exists e, w4. split; [done|]. split; [done|].
    split; [by rewrite R4, R3|]. intros Hn. by specialize (Hd Hn).
Qed.
End blocked.

(** ** A toy worker over the toy store

    Its GitHub, broker and transport never answer. *)
Definition silent {A} : M (ApprovalWorld Z) A := raise OSError "unreachable".
#[local] Instance ToyWorkerHost : WorkerHost (ApprovalWorld Z) := {|
  host_sign _ := silent; host_time := gets aw_host; host_utc_now := gets aw_host; host_monotonic := aw_host;
  host_sleep _ := mret tt |}.
#[local] Instance ToyWorkerBroker : WorkerBroker (ApprovalWorld Z) := {|
  wb_reserve _ := silent; wb_finalize _ := silent; wb_recover _ := silent; wb_finish _ _ := silent;
  wb_prove_clean _ _ := silent; wb_record_outcome := None |}.
#[local] Instance ToyWorkerGitHub : WorkerGitHub (ApprovalWorld Z) := {|
  gh_dispatch_package _ := silent; gh_observe_exact_job _ _ := silent; gh_run _ := silent; gh_jobs _ := silent;
  gh_cancel_exact_run _ := silent |}.
#[local] Instance ToySilentTransport : HTTPTransport (ApprovalWorld Z) := {|
  http_request _ _ _ _ := silent; http_clock := silent; rs256_sign _ := silent |}.
#[local] Instance ToySilentLog : JobLog (ApprovalWorld Z) := {| job_log _ := silent |}.
Definition toy_config : PilotConfig :=
  {| pw_checks := None; pw_repository := None; pw_claim_ttl := minutes 12; pw_cancel_timeout := minutes 3;
     pw_cancel_poll := seconds 15 |}.

(** The operator revokes the approval while its run is ending. *)
Definition toy_revoked_db : Approvals := Eval vm_compute in (LocalApproval.revoke "octo/repo" 7 toy_db2).2.
Definition toy_ended : RequestRow :=
  MkRequestRow toy_request_id RqCompleting (Some [("status", VStr "completed")]) (Some toy_encoded) [] None.
Definition toy_waiting : RequestRow := MkRequestRow "another request" RqRetry None (Some "{}") [] None.
Definition toy_stuck : Worker (ApprovalWorld Z) :=
  MkWorker [toy_waiting; toy_ended] None (MkApprovalWorld toy_revoked_db _initialize None toy_now).

Lemma toy_revocation : db_reachable (D := ToyDigest) toy_revoked_db.
Proof.
  eapply rtc_l; [exact toy_inserted|]. eapply rtc_l; [exact toy_claimed|]. eapply rtc_l; [exact toy_made_durable|].
  eapply rtc_once, (step_revoke _ _ "octo/repo" 7 _). vm_compute. reflexivity.
Qed.

Lemma toy_blocked : blocked (D := ToyDigest) toy_request_id toy_stuck.
Proof.
  split; [split; [exact toy_revocation|]|].
  - eexists. split; [vm_compute; reflexivity|]. vm_compute. repeat constructor.
  - exists toy_ended, (match toy_request with VDict d => d | _ => [] end), [("status", VStr "completed")].
    repeat (split; [vm_compute; reflexivity|]). vm_compute. reflexivity.
Qed.

Lemma revoked_completion_blocks_witness :
  ∃ w' : Worker (ApprovalWorld Z), blocked (D := ToyDigest) toy_request_id w' ∧ wk_requests w' = [toy_waiting; toy_ended].
Proof.
  assert (answers (D := ToyDigest) (others (ApprovalHost := ToyHost))) as Ho by (intros g; exists tt, g; by repeat constructor).
  assert (answers (D := ToyDigest) (gets aw_host : M (ApprovalWorld Z) Z)) as Ht
    by (intros g; exists (aw_host g), g; by repeat constructor).
  assert (∀ m, None = Some m → moves (db_moves (D := ToyDigest)) (m : M (ApprovalWorld Z) dict)) as Hn by discriminate.
  destruct (revoked_completion_blocks (D := ToyDigest) (Host := ToyHost) (B := ToyWorkerBroker) (GH := ToyWorkerGitHub)
    (H := ToyWorkerHost) (T := ToySilentTransport) (L := ToySilentLog) toy_config Ho Ht Ht None aw_host Hn toy_request_id
    toy_stuck 3 0 0 toy_blocked) as (e & w' & _ & Hb & Hr & _).
  exists w'. split; [exact Hb|]. rewrite Hr. reflexivity.
Defined.
