(* ===== verification/PilotDispatch.v ===== *)
(** * A pilot request is dispatched at most once

    PilotWorker records the dispatch before it calls GitHub.  Whatever the calls
    outside answer, and however often the service is restarted or another
    request is served in between, a request is dispatched a second time only by
    a service cycle that found it in the phase discard-reporting, which the
    publication of a superseded head records over the phase dispatching
    ([dispatched_once]).  The exception is real: see [reopened_redispatches]. *)

From stdpp Require Import gmap.
From S2P Require Import Prelude Datetime PyValue PyText Json Digest Allocation JitPilot LocalApproval ApprovalProps Protocol Coordinator GitHubHttp PilotChecks WorkerState OutboundWorker PilotWorker.
#[local] Open Scope Z_scope.

(** ** The log of dispatches

    What the worker calls, and the one operation that dispatches. *)
Definition unsent {G} (log : G → list dict) (g g' : G) : Prop := log g' = log g.
#[export] Instance unsent_preorder {G} (log : G → list dict) : PreOrder (unsent log).
Proof. split; [done|]. intros a b c. unfold unsent. congruence. Qed.

Class DispatchLog (G : Type) {S : WorkSource G} {B : WorkerBroker G} {GH : WorkerGitHub G} {H : WorkerHost G}
    {T : HTTPTransport G} {L : JobLog G} := {
  dispatches : G → list dict;
  dispatch_logged package g :
    dispatches (gh_dispatch_package package g).2 = dispatches g ∨
    dispatches (gh_dispatch_package package g).2 = dispatches g ++ [package];
  poll_unsent : moves (unsent dispatches) source_poll;
  claim_unsent key request lease : moves (unsent dispatches) (source_claim key request lease);
  resume_unsent key request lease : moves (unsent dispatches) (source_resume key request lease);
  retry_unsent key reason : moves (unsent dispatches) (source_retry key reason);
  complete_unsent key result : moves (unsent dispatches) (source_complete key result);
  fail_unsent key reason : moves (unsent dispatches) (source_fail key reason);
  supersession_unsent m key request : source_supersession = Some m → moves (unsent dispatches) (m key request);
  source_clock_unsent : moves (unsent dispatches) source_clock;
  reserve_unsent reservation : moves (unsent dispatches) (wb_reserve reservation);
  finalize_unsent envelope : moves (unsent dispatches) (wb_finalize envelope);
  recover_unsent allocation_id : moves (unsent dispatches) (wb_recover allocation_id);
  finish_unsent allocation_id outcome : moves (unsent dispatches) (wb_finish allocation_id outcome);
  prove_clean_unsent allocation_id label : moves (unsent dispatches) (wb_prove_clean allocation_id label);
  outcome_unsent m event : wb_record_outcome = Some m → moves (unsent dispatches) (m event);
  observe_unsent run_id label : moves (unsent dispatches) (gh_observe_exact_job run_id label);
  run_unsent run_id : moves (unsent dispatches) (gh_run run_id);
  jobs_unsent run_id : moves (unsent dispatches) (gh_jobs run_id);
  cancel_unsent run_id : moves (unsent dispatches) (gh_cancel_exact_run run_id);
  sign_unsent payload : moves (unsent dispatches) (host_sign payload);
  time_unsent : moves (unsent dispatches) host_time;
  sleep_unsent t : moves (unsent dispatches) (host_sleep t);
  http_unsent method url headers body : moves (unsent dispatches) (http_request method url headers body);
  http_clock_unsent : moves (unsent dispatches) http_clock;
  rs256_unsent text : moves (unsent dispatches) (rs256_sign text);
  job_log_unsent job_id : moves (unsent dispatches) (job_log job_id);
}.
#[export] Hint Resolve poll_unsent claim_unsent resume_unsent retry_unsent complete_unsent fail_unsent supersession_unsent
  source_clock_unsent reserve_unsent finalize_unsent recover_unsent finish_unsent prove_clean_unsent outcome_unsent
  observe_unsent run_unsent jobs_unsent cancel_unsent sign_unsent time_unsent sleep_unsent http_unsent http_clock_unsent
  rs256_unsent job_log_unsent : moves.

(** ** What a row says about its dispatch *)

(** The run is known, or known to be unknown. *)
Definition bound (p : dict) : bool := negb (is_none (dget "run_id" p)) || py_truthy (dget "dispatch_ambiguous" p).
Definition in_phase (phase : string) (p : dict) : bool := bool_decide (dget "phase" p = VStr phase).
(** Dispatching, with what precedes it recorded. *)
Definition dispatching (p : dict) : bool :=
  in_phase "dispatching" p && is_dict (dget "dispatch_package" p) && bool_decide (dlookup "reserved" p ≠ None).
Definition is_settled (r : RequestRow) : bool := match rq_state r with RqRunning | RqRetry => false | _ => true end.
Definition firm (r : RequestRow) : bool := is_settled r || bound (rq_progress r).
(** No cycle may dispatch it, ... *)
Definition closed (r : RequestRow) : bool := firm r || dispatching (rq_progress r) || in_phase "cleanup-required" (rq_progress r).
(** ... unless it finds it reporting. *)
Definition spent (r : RequestRow) : bool := closed r || in_phase "discard-reporting" (rq_progress r).

(** ** Records that keep it *)

Definition harmless (kv : string * pyval) : bool :=
  (if bool_decide (kv.1 = "run_id") then negb (is_none kv.2) else true) &&
  (if bool_decide (kv.1 = "dispatch_ambiguous") then py_truthy kv.2 else true).
(** Values that leave the parts of [dispatching] alone, too. *)
Definition aside (kv : string * pyval) : bool :=
  harmless kv && negb (bool_decide (kv.1 ∈ ["phase"; "dispatch_package"; "reserved"])).

Lemma bound_dset k v p : harmless (k, v) = true → bound p = true → bound (dset k v p) = true.
Proof.
  unfold harmless, bound. cbn. rewrite !dget_dset, !andb_true_iff, !orb_true_iff. intros [H1 H2] [H|H].
  - left. by destruct (decide ("run_id" = k)) as [<-|].
  - right. by destruct (decide ("dispatch_ambiguous" = k)) as [<-|].
Qed.
Lemma bound_dmerge p values : forallb harmless values = true → bound p = true → bound (dmerge p values) = true.
Proof.
  revert p. induction values as [|[k v] values IH]; intros p; [done|]. cbn [forallb]. intros [Hv Hr]%andb_prop Hp.
  unfold dmerge. cbn. apply IH; [done|]. by apply bound_dset.
Qed.
Lemma bound_recorded p phase values :
  forallb harmless values = true → bound p = true → bound (recorded_progress p phase values) = true.
Proof. intros Hv Hp. unfold recorded_progress. apply bound_dset; [done|]. by apply bound_dmerge. Qed.
Lemma in_phase_recorded p phase values : in_phase phase (recorded_progress p phase values) = true.
Proof. unfold in_phase, recorded_progress. rewrite dget_dset, decide_True by done. by apply bool_decide_true. Qed.
Lemma dlookup_aside k p values :
  forallb aside values = true → k ∈ ["phase"; "dispatch_package"; "reserved"] → dlookup k (dmerge p values) = dlookup k p.
Proof.
  intros Hv Hk. revert p. induction values as [|[k' v] values IH]; intros p; [done|]. cbn [forallb] in Hv.
  apply andb_prop in Hv as [Ha Hr]. unfold dmerge. cbn. fold (dmerge (dset k' v p) values). rewrite (IH Hr), dlookup_dset.
  rewrite decide_False; [done|]. intros <-. unfold aside in Ha. cbn in Ha.
  rewrite bool_decide_true in Ha by done. by rewrite andb_false_r in Ha.
Qed.
Lemma dlookup_recorded k p phase values :
  forallb aside values = true → k ∈ ["dispatch_package"; "reserved"] → dlookup k (recorded_progress p phase values) = dlookup k p.
Proof.
  intros Hv Hk. unfold recorded_progress. rewrite dlookup_dset, decide_False.
  - apply dlookup_aside; [done|]. by constructor.
  - intros ->. by rewrite !elem_of_cons, elem_of_nil in Hk; naive_solver.
Qed.
Lemma aside_harmless values : forallb aside values = true → forallb harmless values = true.
Proof. induction values as [|kv values IH]; [done|]. cbn. unfold aside at 1. rewrite !andb_true_iff. intuition. Qed.
(** Values that bind the row by themselves. *)
Definition binding (kv : string * pyval) : bool :=
  (bool_decide (kv.1 = "run_id") && negb (is_none kv.2)) || (bool_decide (kv.1 = "dispatch_ambiguous") && py_truthy kv.2).
Lemma bound_binding p values : forallb harmless values = true → existsb binding values = true → bound (dmerge p values) = true.
Proof.
  revert p. induction values as [|[k v] values IH]; intros p; [done|]. cbn [forallb existsb]. unfold dmerge. cbn.
  intros [Hv Hr]%andb_prop Hb. apply orb_prop in Hb as [Hb|Hb]; [|by apply IH].
  apply bound_dmerge; [done|]. unfold binding in Hb. cbn in Hb. unfold bound. rewrite !dget_dset.
  apply orb_true_iff in Hb as [[->%bool_decide_eq_true Hn]%andb_prop|[->%bool_decide_eq_true Ht]%andb_prop].
  - rewrite (decide_True (P := "run_id" = "run_id")) by done. by rewrite Hn.
  - rewrite (decide_True (P := "dispatch_ambiguous" = "dispatch_ambiguous")) by done. by rewrite Ht, orb_true_r.
Qed.
(** A record after which the row is spent, whatever it was. *)
Definition commits (phase : string) (values : dict) : bool :=
  bool_decide (phase ∈ ["cleanup-required"; "discard-reporting"]) || existsb binding values.

Lemma spent_recorded r phase values until :
  forallb harmless values = true → commits phase values = true →
  spent (progress_row (recorded_progress (rq_progress r) phase values) until r) = true.
Proof.
  intros Hv [Hp|Hb]%orb_true_iff; unfold spent, closed, firm; cbn [rq_progress progress_row].
  - apply bool_decide_eq_true in Hp. rewrite elem_of_cons, list_elem_of_singleton in Hp.
    destruct Hp as [->| ->]; rewrite in_phase_recorded; by rewrite ?orb_true_r.
  - unfold recorded_progress. rewrite (bound_dset "phase" _ _ eq_refl (bound_binding _ _ Hv Hb)). by rewrite !orb_true_r.
Qed.

Lemma phase_or_in p phase other : in_phase phase p = true → phase ≠ "" → phase_or p other = phase.
Proof.
  unfold in_phase. intros Hp%bool_decide_eq_true Hne. unfold phase_or. rewrite Hp.
  by destruct phase.
Qed.
Lemma spent_repeated r other values until :
  forallb aside values = true → spent r = true →
  spent (progress_row (recorded_progress (rq_progress r) (phase_or (rq_progress r) other) values) until r) = true.
Proof.
  intros Hv. set (p := rq_progress r).
  assert (∀ phase, phase ≠ "" → in_phase phase p = true → in_phase phase (recorded_progress p (phase_or p other) values) = true) as Hsame.
  { intros phase Hne Hp. rewrite (phase_or_in _ _ _ Hp Hne). apply in_phase_recorded. }
  unfold spent, closed, firm. cbn [rq_progress progress_row]. fold p. rewrite !orb_true_iff. unfold dispatching.
  intros [[[[Hs|Hb]|Hd]|Hc]|Hr].
  - by left; left; left; left.
  - left; left; left; right. apply bound_recorded; [by apply aside_harmless|done].
  - left; left; right. apply andb_prop in Hd as [[Hd Hpk]%andb_prop Hrs]. rewrite (Hsame "dispatching") by done.
    unfold dget in *. by rewrite !(dlookup_recorded _ _ _ _ Hv), Hpk, Hrs by (repeat constructor || done).
  - left; right. by apply Hsame.
  - right. by apply Hsame.
Qed.

(** ** Movements of the table *)
Section table.
Context (key : string).

(** The row of the request, if any, is [P]. *)
Definition row_is (P : RequestRow → bool) (t : Requests) : Prop :=
  match request_row key t with Some r => P r = true | None => False end.
(** The rows of a request: one at most, the key being unique. *)
Definition rows_of (k : string) (t : list RequestRow) : list RequestRow := filter (λ r, rq_id r = k) t.
#[export] Instance row_is_dec P t : Decision (row_is P t).
Proof. unfold row_is. destruct (request_row key t); apply _. Defined.
Definition others_kept (t t' : Requests) : Prop := ∀ k, k ≠ key → rows_of k t' = rows_of k t.
Definition sole (t : Requests) : Prop := (length (rows_of key t) ≤ 1)%nat.
(** Nothing binds the row less; ... *)
Definition row_drifts (t t' : Requests) : Prop := others_kept t t' ∧ (sole t → sole t') ∧ (row_is firm t → row_is firm t').
(** ... and a row that is spent stays so. *)
Definition row_steps (t t' : Requests) : Prop := row_drifts t t' ∧ (sole t → row_is spent t → row_is spent t').
#[export] Instance row_drifts_preorder : PreOrder row_drifts.
Proof.
  split; [done|]. intros a b c (O1 & U1 & F1) (O2 & U2 & F2). split; [|by auto]. intros k Hk. by rewrite O2, O1.
Qed.
#[export] Instance row_steps_preorder : PreOrder row_steps.
Proof.
  split; [done|]. intros a b c [D1 S1] [D2 S2]. split; [by etrans|]. intros Hu Hs. apply S2; [by apply D1|by apply S1].
Qed.

Lemma request_row_head k t : request_row k t = head (rows_of k t).
Proof.
  unfold request_row, rows_of. induction t as [|r t IH]; [done|]. cbn [List.find]. rewrite filter_cons.
  by case_bool_decide; [rewrite decide_True|rewrite decide_False].
Qed.
Lemma rows_of_id k t r : r ∈ rows_of k t → rq_id r = k.
Proof. by intros [? _]%list_elem_of_filter. Qed.
Lemma rows_updated k p f t :
  (∀ r, rq_id (f r) = rq_id r) →
  rows_of k ((λ r, if bool_decide (rq_id r = key) && p r then f r else r) <$> t) =
  (λ r, if bool_decide (rq_id r = key) && p r then f r else r) <$> rows_of k t.
Proof.
  intros Hid. unfold rows_of. induction t as [|r t IH]; [done|]. rewrite fmap_cons, !filter_cons.
  assert (rq_id (if bool_decide (rq_id r = key) && p r then f r else r) = rq_id r) as -> by (by case_match; rewrite ?Hid).
  case_decide; [by rewrite fmap_cons, IH|exact IH].
Qed.
Lemma rows_kept k p f (rows : list RequestRow) :
  k ≠ key → (∀ r, r ∈ rows → rq_id r = k) → (λ r, if bool_decide (rq_id r = key) && p r then f r else r) <$> rows = rows.
Proof.
  intros Hk. induction rows as [|r rows IH]; intros Hid; [done|]. rewrite fmap_cons, IH by (intros; apply Hid; by right).
  rewrite bool_decide_false; [done|]. rewrite (Hid r) by left. done.
Qed.
Lemma find_updated k p f t :
  (∀ r, rq_id (f r) = rq_id r) →
  request_row k ((λ r, if bool_decide (rq_id r = key) && p r then f r else r) <$> t) =
  (λ r, if bool_decide (rq_id r = key) && p r then f r else r) <$> request_row k t.
Proof. intros Hid. rewrite !request_row_head, rows_updated by done. by destruct (rows_of k t). Qed.
Lemma request_row_id k t r : request_row k t = Some r → rq_id r = k.
Proof. intros [_ H]%List.find_some. by apply bool_decide_eq_true in H. Qed.

(** An update of the row, by what it does to a firm and to a spent one. *)
Lemma update_drifts_at p f t :
  (∀ r, rq_id (f r) = rq_id r) → (∀ r, request_row key t = Some r → p r = true → firm r = true → firm (f r) = true) →
  row_drifts t (update_request key p f t).2.
Proof.
  intros Hid Hf. unfold update_request. cbn. split; [|split].
  - intros k Hk. rewrite rows_updated by done. apply (rows_kept k); [done|]. apply rows_of_id.
  - unfold sole. rewrite rows_updated by done. by rewrite length_fmap.
  - unfold row_is. rewrite find_updated by done. destruct (request_row key t) as [r|] eqn:E; [|done]. cbn. intros Hr.
    destruct (_ && p r) eqn:Ep; [|done]. apply andb_prop in Ep as [_ Ep]. by apply Hf.
Qed.
Lemma update_steps_at p f t :
  (∀ r, rq_id (f r) = rq_id r) → (∀ r, request_row key t = Some r → p r = true → firm r = true → firm (f r) = true) →
  (∀ r, request_row key t = Some r → p r = true → spent r = true → spent (f r) = true) →
  row_steps t (update_request key p f t).2.
Proof.
  intros Hid Hf Hs. split; [by apply update_drifts_at|]. intros _. unfold update_request. cbn. unfold row_is.
  rewrite find_updated by done. destruct (request_row key t) as [r|] eqn:E; [|done]. cbn. intros Hr.
  destruct (_ && p r) eqn:Ep; [|done]. apply andb_prop in Ep as [_ Ep]. by apply Hs.
Qed.
Lemma update_settles p f :
  (∀ r, rq_id (f r) = rq_id r) → (∀ r, is_settled (f r) = true) → moves row_steps (update_request key p f).
Proof.
  intros Hid Hs t. apply update_steps_at; [done|..]; intros r _ _ _; unfold spent, closed, firm; by rewrite Hs.
Qed.

(** ** The operations of the table *)
Lemma release_steps : moves row_steps (release_request key).
Proof.
  unfold release_request. moving. intros t.
  apply update_steps_at; [done|..]; intros r _ Hr%bool_decide_eq_true; unfold spent, closed, firm, is_settled; by rewrite Hr.
Qed.
#[local] Hint Extern 2 (moves row_steps (update_request _ _ _)) => by apply update_settles : moves.
Lemma abort_steps reason : moves row_steps (abort_request key reason).
Proof. unfold abort_request. moving. Qed.
Lemma finish_steps result : moves row_steps (finish_request key result).
Proof. unfold finish_request. moving. Qed.
Lemma deliver_steps : moves row_steps (deliver_request key).
Proof. unfold deliver_request. moving. Qed.
Lemma progress_steps : moves row_steps (request_progress key).
Proof. unfold request_progress. moving. Qed.
#[local] Hint Resolve progress_steps : moves.
Lemma done_steps : moves row_steps (request_done key).
Proof. unfold request_done. moving. Qed.
Lemma terminate_steps phase reason : moves row_steps (terminate_request key phase reason).
Proof. unfold terminate_request. moving. Qed.
Lemma recoverable_steps : moves row_steps recoverable.
Proof. unfold recoverable. moving. Qed.

Lemma append_drifts t r : rq_id r = key → request_row key t = None → row_steps t (t ++ [r]).
Proof.
  intros Hid Hn. unfold row_steps, row_drifts, row_is. rewrite Hn.
  assert (∀ k, rows_of k (t ++ [r]) = rows_of k t ++ rows_of k [r]) as Happ by (intros k; apply filter_app).
  rewrite request_row_head in Hn. split_and!; [| |done|done].
  - intros k Hk. rewrite Happ. unfold rows_of at 2. rewrite filter_cons, decide_False by congruence. apply app_nil_r.
  - intros _. unfold sole. rewrite Happ. destruct (rows_of key t) eqn:Et; [|done]. unfold rows_of. rewrite filter_cons, decide_True by done. done.
Qed.
Lemma claim_steps request now lease : moves row_steps (claim_request key request now lease).
Proof.
  apply moves_transaction; [exact _|]. intros t. apply moves_from_bind; [exact _|done|]. intros row s'. intros [= <- <-].
  destruct (request_row key t) as [r|] eqn:E.
  2: { cbn. by apply append_drifts. }
  destruct (rq_state r) eqn:Es; [..|done|done|done].
  all: apply moves_from_bind; [exact _|reflexivity|]; intros ? s' [_ <-]%raise_if_ok.
  all: destruct (_ && _); [done|]; apply moves_from_bind; [exact _| |reflexivity].
  all: apply update_steps_at; [done|..]; intros r' Hr' _; assert (r' = r) as -> by congruence.
  all: unfold spent, closed, firm, is_settled; by rewrite Es.
Qed.
(** What a record does: nothing, or the update of a running row. *)
Lemma record_cases phase values now t :
  (record_request key phase values now t).2 = t ∨
  ∃ r, request_row key t = Some r ∧ (record_request key phase values now t).2 =
    (update_request key (in_state RqRunning) (progress_row (recorded_progress (rq_progress r) phase values) (now + 300000000)) t).2.
Proof.
  unfold record_request, request_progress, mbind, M_bind, gets. destruct (request_row key t) as [r|]; [|by left].
  right. by exists r.
Qed.
Lemma record_moves_at phase values now t :
  (∀ r until, request_row key t = Some r → firm r = true → firm (progress_row (recorded_progress (rq_progress r) phase values) until r) = true) →
  (∀ r until, request_row key t = Some r → spent r = true → spent (progress_row (recorded_progress (rq_progress r) phase values) until r) = true) →
  row_steps t (record_request key phase values now t).2.
Proof.
  intros Hf Hs. destruct (record_cases phase values now t) as [->|(r & Hr & ->)]; [done|].
  apply update_steps_at; [done|..]; intros r' Hr' _; assert (r' = r) as -> by congruence; by auto.
Qed.
Lemma firm_recorded r phase values until :
  forallb harmless values = true → firm r = true → firm (progress_row (recorded_progress (rq_progress r) phase values) until r) = true.
Proof.
  intros Hv. unfold firm. cbn [rq_progress progress_row]. rewrite !orb_true_iff. intros [Hs|Hb]; [by left|right].
  by apply bound_recorded.
Qed.
Lemma record_drifts phase values now : forallb harmless values = true → moves row_drifts (record_request key phase values now).
Proof.
  intros Hv t. destruct (record_cases phase values now t) as [->|(r & Hr & ->)]; [done|].
  apply update_drifts_at; [done|]. intros r' Hr' _. assert (r' = r) as -> by congruence. by apply firm_recorded.
Qed.
Lemma record_steps phase values now :
  forallb harmless values = true → commits phase values = true → moves row_steps (record_request key phase values now).
Proof.
  intros Hv Hc t. apply record_moves_at; intros r until _ Hr; [by apply firm_recorded|by apply spent_recorded].
Qed.
(** A record of the phase the row is in. *)
Lemma record_repeated p other values now t :
  (∀ r, request_row key t = Some r → rq_progress r = p) → forallb aside values = true →
  row_steps t (record_request key (phase_or p other) values now t).2.
Proof.
  intros Hp Hv. apply record_moves_at; intros r until Hr Hb.
  - apply firm_recorded; [by apply aside_harmless|done].
  - rewrite <- (Hp r Hr). by apply spent_repeated.
Qed.
Lemma record_ok phase values now t t' :
  sole t → record_request key phase values now t = (Ok tt, t') →
  ∃ r, request_row key t = Some r ∧ request_row key t' = Some (progress_row (recorded_progress (rq_progress r) phase values) (now + 300000000) r).
Proof.
  unfold record_request, request_progress, mbind, M_bind, gets. intros Hu. destruct (request_row key t) as [r|] eqn:E; [|by intros [= ]].
  intros H. exists r. split; [done|]. revert H. unfold update_request. cbn.
  match goal with |- context [existsb ?h t] => destruct (existsb h t) eqn:Ex end; [|by intros [= ]]. intros [= <-].
  rewrite find_updated, E by done. cbn. apply List.existsb_exists in Ex as (r' & Hin & [Hid%bool_decide_eq_true Hrun]%andb_prop).
  apply list_elem_of_In in Hin. assert (r' ∈ rows_of key t) as Hr' by (by apply list_elem_of_filter).
  rewrite request_row_head in E. unfold sole in Hu. destruct (rows_of key t) as [|r1 [|r2 rows]]; [done| |cbn in Hu; lia].
  injection E as ->. apply list_elem_of_singleton in Hr' as ->. by rewrite Hrun, bool_decide_true.
Qed.
End table.

(** ** What the gate App and the monitor move *)
Section publishing.
Context {G : Type} {T : HTTPTransport G} {L : JobLog G} {D : Digest} (authority : GateAppAuthorityV1).
Context (R : relation G) `{!PreOrder R}.
Hypothesis sends : ∀ method url headers body, moves R (http_request method url headers body).
Hypothesis reads_clock : moves R http_clock.
Hypothesis signs : ∀ text, moves R (rs256_sign text).
Hypothesis reads_log : ∀ job_id, moves R (job_log job_id).
#[local] Hint Resolve sends reads_clock signs reads_log : moves.

Lemma gate_get_moves method path headers body status : moves R (gate_get method path headers body status).
Proof. unfold gate_get, gate_request. moving. Qed.
#[local] Hint Resolve gate_get_moves : moves.
Lemma gate_authenticate_moves : moves R (gate_authenticate authority).
Proof. unfold gate_authenticate, app_jwt. moving. Qed.
Lemma gate_token_json_moves method path token status body : moves R (gate_token_json authority method path token status body).
Proof. unfold gate_token_json. moving. Qed.
#[local] Hint Resolve gate_authenticate_moves gate_token_json_moves : moves.
Lemma create_moves name head_sha details_url text token external :
  moves R (create_in_progress authority name head_sha details_url text token external).
Proof. unfold create_in_progress. moving. Qed.
Lemma find_moves name head_sha external token : moves R (find_by_external_id authority name head_sha external token).
Proof. unfold find_by_external_id. moving. Qed.
Lemma conclude_moves id verdict details_url token : moves R (conclude_check authority id verdict details_url token).
Proof. unfold conclude_check. moving. Qed.
#[local] Hint Resolve create_moves find_moves conclude_moves : moves.
Lemma start_each_moves phases head_sha details_url token : moves R (start_each authority phases head_sha details_url token).
Proof. induction phases as [|[phase name] phases IH]; cbn [start_each]; moving. Qed.
Lemma apply_each_moves phases checks verdicts details_url token :
  moves R (apply_each authority phases checks verdicts details_url token).
Proof. induction phases as [|[phase name] phases IH]; cbn [apply_each]; moving. Qed.
Lemma discard_each_moves verdicts phases checks details_url token :
  moves R (discard_each authority verdicts phases checks details_url token).
Proof. induction phases as [|[phase name] phases IH]; cbn [discard_each]; moving. Qed.
#[local] Hint Resolve start_each_moves apply_each_moves discard_each_moves : moves.
Lemma start_moves head_sha details_url : moves R (publisher_start authority head_sha details_url).
Proof. unfold publisher_start. moving. Qed.
Lemma publisher_conclude_moves checks job_id conclusion details_url :
  moves R (publisher_conclude authority checks job_id conclusion details_url).
Proof. unfold publisher_conclude, read_verdicts, publisher_apply. moving. apply moves_attempt. moving. Qed.
Lemma abandon_moves checks reason details_url : moves R (publisher_abandon authority checks reason details_url).
Proof. unfold publisher_abandon, publisher_apply. moving. Qed.
Lemma discard_moves checks reason details_url : moves R (publisher_discard authority checks reason details_url).
Proof. unfold publisher_discard. moving. Qed.
Lemma publish_moves pending created completed head_sha reason details_url scope checks finished :
  (∀ name, moves R (pending name)) → (∀ name id, moves R (created name id)) → (∀ name, moves R (completed name)) →
  moves R (publish_discarded authority pending created completed head_sha reason details_url scope checks finished).
Proof.
  intros Hp Hc Hd. unfold publish_discarded. moving.
  generalize PHASE_CHECK_NAMES. intros phases. induction phases as [|[phase name] phases IH]; cbn [publish_each]; unfold discard_identifier; moving.
Qed.
End publishing.

Section monitoring.
Context {G : Type} {Ops : PilotOps G} (R : relation G) `{!PreOrder R}.
Hypothesis runs : ∀ run_id, moves R (pilot_run run_id).
Hypothesis lists : ∀ run_id, moves R (pilot_jobs run_id).
Hypothesis finishes : ∀ allocation_id outcome, moves R (pilot_finish allocation_id outcome).
Hypothesis proves : ∀ allocation_id label, moves R (pilot_prove_clean allocation_id label).
Hypothesis sleeps : ∀ t, moves R (pilot_sleep t).
Hypothesis supersedes : ∀ m, pilot_supersession = Some m → moves R m.
Hypothesis cancels : ∀ m run_id, pilot_cancel_run = Some m → moves R (m run_id).
Hypothesis prepares : ∀ m conclusion, pilot_before_finish = Some m → moves R (m conclusion).
#[local] Hint Resolve runs lists finishes proves sleeps supersedes cancels prepares : moves.

Lemma turn_moves poll label run_id job_id deadline prior : moves R (observe_turn poll label run_id job_id deadline prior).
Proof. unfold observe_turn, completed_job, running_job, poll_again, pilot_now. moving. Qed.
Lemma monitor_moves timeout poll allocation_id label run_id job_id fuel prior :
  moves R (monitor timeout poll allocation_id label run_id job_id fuel prior).
Proof.
  unfold monitor, pilot_now. moving. match goal with |- moves _ (monitor_loop _ _ _ _ _ ?d _) => generalize d end. intros deadline.
  induction fuel as [|fuel IH]; [by intros s|]. cbn [monitor_loop]. pose proof turn_moves. moving.
Qed.
End monitoring.

(** ** What the worker moves *)
Section worker.
Context {G : Type} {S : WorkSource G} {B : WorkerBroker G} {GH : WorkerGitHub G} {H : WorkerHost G}.
Context {T : HTTPTransport G} {L : JobLog G} {D : Digest} {Log : DispatchLog G}.
Context (config : PilotConfig) (key : string).
Implicit Types w : Worker G.

(** A movement of the table, and no dispatch. *)
Definition over (R : relation Requests) (w w' : Worker G) : Prop :=
  R (wk_requests w) (wk_requests w') ∧ unsent dispatches (wk_outside w) (wk_outside w').
#[local] Instance over_preorder R `{!PreOrder R} : PreOrder (over R).
Proof. split; [by intros w|]. intros a b c [H1 H2] [H3 H4]. split; by etrans. Qed.
Abbreviation idle := (over eq).
Abbreviation drifts := (over (row_drifts key)).
Abbreviation steps := (over (row_steps key)).

Lemma beyond_moves {A} R `{!PreOrder R} (m : M G A) : moves (unsent dispatches) m → moves (over R) (beyond m).
Proof. intros Hm w. unfold beyond. specialize (Hm (wk_outside w)). by destruct (m (wk_outside w)) as [r g]. Qed.
Lemma on_requests_moves {A} R (m : M Requests A) : moves R m → moves (over R) (on_requests m).
Proof. intros Hm w. unfold on_requests. specialize (Hm (wk_requests w)). by destruct (m (wk_requests w)) as [r t]. Qed.
Lemma set_reason_moves R `{!PreOrder R} reason : moves (over R) (set_reason reason).
Proof. by intros w. Qed.
Lemma idle_moves {A} R `{!PreOrder R} (m : M (Worker G) A) : moves idle m → moves (over R) m.
Proof. apply moves_weaken. intros w w' [Heq Hs]. split; [by rewrite Heq|done]. Qed.
Lemma steps_drifts {A} (m : M (Worker G) A) : moves steps m → moves drifts m.
Proof. apply moves_weaken. intros w w' [[Hd _] Hs]. by split. Qed.
Lemma moves_lift_bind {A C} R `{!PreOrder R} (r : result A) (k : A → M (Worker G) C) :
  (∀ a, r = Ok a → moves R (k a)) → moves R (lift r ≫= k).
Proof. intros Hk w. unfold mbind, M_bind, lift. destruct r as [a|e]; [by apply Hk|done]. Qed.

#[local] Hint Resolve set_reason_moves : moves.
#[local] Hint Extern 1 (moves (over _) (beyond _)) => apply beyond_moves; [exact _|] : moves.
#[local] Hint Extern 1 (moves (over _) (on_requests _)) => apply on_requests_moves : moves.
#[local] Hint Resolve release_steps abort_steps finish_steps deliver_steps progress_steps done_steps terminate_steps
  recoverable_steps claim_steps : moves.
#[local] Hint Extern 1 (moves drifts (on_requests _)) => apply steps_drifts : moves.
#[local] Hint Extern 2 (moves idle (http_request _ _ _ _)) => apply beyond_moves; [exact _|apply http_unsent] : moves.

(** The gate App does not touch the table. *)
Ltac gate_idle := apply idle_moves; [exact _|];
  first [apply start_moves | apply publisher_conclude_moves | apply abandon_moves | apply discard_moves];
  try exact _; intros; apply beyond_moves; try exact _; auto with moves.
Lemma closing_idle gate checks details c : moves idle (apply_closing gate checks details c).
Proof.
  unfold apply_closing. destruct c; moving; gate_idle.
Qed.

(** Through handlers too. *)
Ltac going := repeat
  match goal with
  | |- moves _ (match _ with _ => _ end) => case_match
  | |- moves _ (mbind _ (lift _)) => apply moves_lift_bind; [exact _|intros ? ?]
  | |- moves _ (mbind _ _) => apply moves_bind; [exact _| |intros ?]
  | |- moves _ _ => solve [eauto 3 with moves]
  | |- moves _ (catching _ _ _) => apply moves_catching; [exact _| |intros ?]
  | |- moves _ (attempt _) => apply moves_attempt
  | |- moves _ (fmap _ _) => apply moves_fmap
  end.

Lemma progress_idle : moves idle (assignment_progress key).
Proof.
  unfold assignment_progress. apply on_requests_moves. intros t. unfold request_progress, mbind, M_bind, gets. by case_match.
Qed.
#[local] Hint Resolve progress_idle : moves.
#[local] Hint Extern 4 (moves drifts _) => apply idle_moves; [exact _|] : moves.
#[local] Hint Extern 4 (moves steps _) => apply idle_moves; [exact _|] : moves.
Lemma record_phase_drifts phase values : forallb harmless values = true → moves drifts (record_phase key phase values).
Proof. intros Hv. unfold record_phase. going. apply on_requests_moves. by apply record_drifts. Qed.
Lemma record_phase_steps phase values :
  forallb harmless values = true → commits phase values = true → moves steps (record_phase key phase values).
Proof. intros Hv Hc. unfold record_phase. going. apply on_requests_moves. by apply record_steps. Qed.
#[local] Hint Extern 1 (moves drifts (record_phase _ _ _)) => apply record_phase_drifts; reflexivity : moves.
#[local] Hint Extern 1 (moves steps (record_phase _ _ _)) => apply record_phase_steps; reflexivity : moves.

(** A record made, as the row shows it. *)
Lemma record_phase_ok phase values w w' :
  sole key (wk_requests w) → record_phase key phase values w = (Ok tt, w') →
  ∃ r until, request_row key (wk_requests w) = Some r ∧
    request_row key (wk_requests w') = Some (progress_row (recorded_progress (rq_progress r) phase values) until r).
Proof.
  intros Hu. unfold record_phase. intros (p & w1 & E1 & (now & w2 & E2 & E3)%bind_ok)%bind_ok.
  pose proof (progress_idle w) as [T1 _]. rewrite E1 in T1.
  pose proof (beyond_moves eq host_time time_unsent w1) as [T2 _]. rewrite E2 in T2. cbn in T1, T2.
  unfold on_requests in E3. destruct (record_request _ _ _ _ _) as [r t] eqn:E. injection E3 as -> <-. cbn.
  rewrite <- T2, <- T1 in E. destruct (record_ok _ _ _ _ _ _ Hu E) as (row & Hr & Hr'). by eexists _, _.
Qed.

(** ** Check Runs, outcomes, recovery *)
Lemma supersession_idle request : moves idle (_supersession_reason key request).
Proof. unfold _supersession_reason. going. Qed.
Lemma outcome_idle request o : moves idle (_record_outcome key request o).
Proof. unfold _record_outcome. going. Qed.
Lemma recover_idle allocation_id : moves idle (_recover_exact allocation_id).
Proof. unfold _recover_exact. going. Qed.
#[local] Hint Resolve supersession_idle outcome_idle recover_idle closing_idle : moves.
Lemma recover_assignment_idle request : moves idle (recover_assignment request).
Proof. unfold recover_assignment. going. Qed.
#[local] Hint Resolve recover_assignment_idle : moves.
(** The progress that was read is the row's. *)
Definition reads (p : dict) w : Prop := ∀ r, request_row key (wk_requests w) = Some r → rq_progress r = p.
Lemma reads_idle p w w' : idle w w' → reads p w → reads p w'.
Proof. intros [Heq _]. unfold reads. by rewrite Heq. Qed.
Lemma progress_reads w p w' : assignment_progress key w = (Ok p, w') → reads p w ∧ reads p w'.
Proof.
  intros E. assert (reads p w) as Hr; [|split; [done|]].
  - revert E. unfold assignment_progress, on_requests, request_progress, mbind, M_bind, gets, reads.
    destruct (request_row key (wk_requests w)) as [r|]; [|by intros [= ]]. intros [= <- _]. by intros ? [= <-].
  - apply reads_idle with w; [|done]. pose proof (progress_idle w) as Hi. by rewrite E in Hi.
Qed.
Lemma record_phase_repeated p other values w :
  reads p w → forallb aside values = true → steps w (record_phase key (phase_or p other) values w).2.
Proof.
  intros Hr Hv. unfold record_phase. apply moves_from_bind; [exact _|apply (idle_moves _ _ progress_idle)|]. intros q w1 E1.
  apply moves_from_bind; [exact _|apply (beyond_moves _ _ time_unsent)|]. intros now w2 E2.
  pose proof (progress_idle w) as T1. rewrite E1 in T1.
  pose proof (beyond_moves eq host_time time_unsent w1) as T2. rewrite E2 in T2.
  assert (reads p w2) as Hr2 by (by eapply reads_idle; [exact T2|]; eapply reads_idle).
  unfold on_requests. pose proof (record_repeated key p other values now (wk_requests w2) Hr2 Hv) as Hs.
  destruct (record_request _ _ _ _ _) as [r t]. by split.
Qed.
Lemma try_record_repeated p other values w :
  reads p w → forallb aside values = true → steps w (try_record key (phase_or p other) values w).2.
Proof.
  intros Hr Hv. unfold try_record. pose proof (record_phase_repeated p other values w Hr Hv) as Hs.
  unfold catching, mbind, M_bind. destruct (record_phase _ _ _ w) as [[?|e] w']; [done|]. by case_match.
Qed.
Lemma close_steps closing : moves steps (_close_checks config key closing).
Proof.
  unfold _close_checks. destruct (pw_checks config) as [gate|]; [|going]. intros w.
  apply moves_from_bind; [exact _|revert w; change (moves steps (catching is_worker_error (Some <$> assignment_progress key) (λ _, mret None))); going|].
  intros [p|] w1 E1; [|done].
  assert (reads p w1) as Hr.
  { unfold catching, fmap, M_fmap in E1. destruct (assignment_progress key w) as [[q|e] w2] eqn:E.
    - injection E1 as <- <-. by destruct (progress_reads _ _ _ E).
    - revert E1. unfold mret, M_ret. by case_match; intros [= ]. }
  destruct (dget "checks" p) as [| | | | |[|kv checks]]; try done. destruct (py_truthy _); [done|].
  set (details := _details_url _ _ _).
  assert (moves idle (catching is_publication_error (apply_closing gate (kv :: checks) details closing;; mret None)
    (λ e, mret (Some (exn_name (exn_cls e)))))) as Hc by going.
  apply moves_from_bind; [exact _|apply (idle_moves _ _ Hc)|]. intros failure w2 E2.
  assert (reads p w2) as Hr2.
  { apply reads_idle with w1; [|done]. pose proof (Hc w1) as Hi. by rewrite E2 in Hi. }
  destruct failure as [failure|].
  - apply moves_from_bind; [exact _|by apply try_record_repeated|done].
  - by apply try_record_repeated.
Qed.
#[local] Hint Resolve close_steps : moves.

(** ** Cancellation *)
Lemma firm_steps w w' : row_is key firm (wk_requests w) → drifts w w' → steps w w'.
Proof.
  intros Hf [Hd Hs]. split; [split; [done|]|done]. intros _ _. destruct Hd as (_ & _ & Hk). specialize (Hk Hf).
  unfold row_is in *. destruct (request_row key (wk_requests w')) as [r|]; [|done]. unfold spent, closed. by rewrite Hk.
Qed.
Lemma record_binds phase values w w' :
  sole key (wk_requests w) → forallb harmless values = true → existsb binding values = true →
  record_phase key phase values w = (Ok tt, w') → row_is key firm (wk_requests w').
Proof.
  intros Hu Hv Hb E. destruct (record_phase_ok _ _ _ _ Hu E) as (r & until & _ & Hr). unfold row_is. rewrite Hr.
  unfold firm. cbn [rq_progress progress_row]. apply orb_true_iff. right. unfold recorded_progress. apply bound_dset; [done|].
  by apply bound_binding.
Qed.
(** After a record that binds the row, drifting is enough. *)
Lemma bind_binding {A} phase values (k : unit → M (Worker G) A) :
  forallb harmless values = true → existsb binding values = true → moves drifts (k tt) →
  moves steps (record_phase key phase values ≫= k).
Proof.
  intros Hv Hb Hk w. pose proof (record_phase_steps phase values Hv ltac:(unfold commits; by rewrite Hb, orb_true_r) w) as Hs.
  destruct (record_phase key phase values w) as [[[]|e] w1] eqn:E; unfold mbind, M_bind; rewrite E; [|done].
  pose proof (Hk w1) as Hd. destruct (k tt w1) as [r w2]. cbn [snd] in *.
  split; [|by etrans; [apply Hs|apply Hd]]. split; [by etrans; [apply Hs|apply Hd]|]. intros Hu Hsp.
  eapply (firm_steps w1 w2); [by eapply record_binds|done|by apply Hs|by apply Hs].
Qed.
Lemma cancel_recorded_harmless now accepted error values :
  cancel_recorded config now accepted error = Ok values → forallb harmless values = true.
Proof. unfold cancel_recorded. destruct (dt_add _ _) as [next|e]; [|done]. by intros [= <-]. Qed.
#[local] Hint Extern 1 (moves drifts (record_phase _ _ _)) =>
  apply record_phase_drifts; eapply cancel_recorded_harmless; eassumption : moves.
Lemma try_cancel_idle run_id : moves idle (try_cancel run_id).
Proof. unfold try_cancel. going. Qed.
Lemma now_idle : moves idle pilot_now_seconds.
Proof. unfold pilot_now_seconds. going. Qed.
#[local] Hint Resolve try_cancel_idle now_idle : moves.
Lemma release_moves : moves steps (release key).
Proof. unfold release. going. Qed.
Lemma release_drifts : moves drifts (release key).
Proof. apply steps_drifts, release_moves. Qed.
#[local] Hint Resolve release_moves release_drifts : moves.
Lemma superseded_cancel_steps reason run_id job_id :
  is_none run_id = false → moves steps (_request_superseded_cancel config key reason run_id job_id).
Proof.
  intros Hn. unfold _request_superseded_cancel. apply moves_bind; [exact _|going|intros now].
  apply moves_lift_bind; [exact _|intros deadline _]. apply bind_binding; [by destruct run_id..|]. going.
Qed.
Lemma cancel_pending_drifts run_id accepted error : moves drifts (_cancel_pending config key run_id accepted error).
Proof. unfold _cancel_pending. going. Qed.
#[local] Hint Resolve cancel_pending_drifts : moves.
Lemma retry_later_steps run_id reason : moves steps (retry_later key run_id reason).
Proof. unfold retry_later. going. Qed.
#[local] Hint Resolve retry_later_steps : moves.
Lemma close_drifts closing : moves drifts (_close_checks config key closing).
Proof. apply steps_drifts, close_steps. Qed.
#[local] Hint Resolve close_drifts : moves.
#[local] Hint Extern 3 (moves drifts (retry_later _ _ _)) => apply steps_drifts, retry_later_steps : moves.
Lemma finish_cancel_drifts run_id : moves drifts (finish_cancel_recovery config key run_id).
Proof. unfold finish_cancel_recovery, unless_settled. going. Qed.
#[local] Hint Resolve finish_cancel_drifts : moves.
Lemma continue_recovery_drifts request progress : moves drifts (_continue_cancel_recovery config key request progress).
Proof. unfold _continue_cancel_recovery. going. Qed.
#[local] Hint Resolve continue_recovery_drifts : moves.
Lemma not_converged_drifts request progress : moves drifts (_cancel_not_converged config key request progress).
Proof. unfold _cancel_not_converged. going. Qed.
#[local] Hint Resolve not_converged_drifts : moves.
Lemma deliver_result_steps result complete : moves steps complete → moves steps (deliver_result key result complete).
Proof. intros Hc. unfold deliver_result. going. Qed.
Lemma monitor_over R `{!PreOrder R} ops allocation_id label run_id job_id :
  (∀ id, moves (over R) (pilot_run (PilotOps := ops) id)) → (∀ id, moves (over R) (pilot_jobs (PilotOps := ops) id)) →
  (∀ a o, moves (over R) (pilot_finish (PilotOps := ops) a o)) →
  (∀ a l, moves (over R) (pilot_prove_clean (PilotOps := ops) a l)) → (∀ t, moves (over R) (pilot_sleep (PilotOps := ops) t)) →
  (∀ m, pilot_supersession (PilotOps := ops) = Some m → moves (over R) m) →
  (∀ m id, pilot_cancel_run (PilotOps := ops) = Some m → moves (over R) (m id)) →
  (∀ m c, pilot_before_finish (PilotOps := ops) = Some m → moves (over R) (m c)) →
  moves (over R) (run_monitor ops allocation_id label run_id job_id).
Proof. intros. unfold run_monitor. by apply monitor_moves; try exact _. Qed.
Lemma cancelled_job_drifts request reason label run_id job_id : moves drifts (cancelled_job key request reason label run_id job_id).
Proof.
  unfold cancelled_job. going. apply monitor_over; [exact _|cbn; intros; going..].
  all: match goal with H : Some _ = Some _ |- _ => injection H as <- | H : None = Some _ |- _ => discriminate end; going.
Qed.
#[local] Hint Resolve cancelled_job_drifts : moves.
Lemma close_cancelled_drifts reason outcome run_id job_id : moves drifts (close_cancelled config key reason outcome run_id job_id).
Proof.
  unfold close_cancelled. going. apply steps_drifts, deliver_result_steps. unfold unless_settled. going.
Qed.
#[local] Hint Resolve close_cancelled_drifts : moves.
Lemma not_yet_drifts request progress run_id now deadline run job :
  moves drifts (not_yet_cancelled config key request progress run_id now deadline run job).
Proof. unfold not_yet_cancelled. going. Qed.
#[local] Hint Resolve not_yet_drifts : moves.
Lemma converge_drifts request progress run_id job_id reason now deadline run jobs :
  moves drifts (converge config key request progress run_id job_id reason now deadline run jobs).
Proof. unfold converge, cancelled_unstarted. going. Qed.
#[local] Hint Resolve converge_drifts : moves.
Lemma continue_requested_drifts request progress : moves drifts (_continue_cancel_requested config key request progress).
Proof. unfold _continue_cancel_requested, observe_run. going. Qed.
#[local] Hint Resolve continue_requested_drifts : moves.

(** ** Obsolete, terminated and failed assignments *)
Lemma publish_steps request progress reason : moves steps (publish_obsolete config key request progress reason).
Proof.
  unfold publish_obsolete. going; apply publish_moves; try exact _; intros; unfold record_pending, record_created, record_completed;
    cbn [http_request http_clock rs256_sign worker_transport]; going.
Qed.
#[local] Hint Resolve publish_steps : moves.
Lemma superseded_steps request reason run_id : moves steps (_complete_superseded config key request reason run_id).
Proof.
  unfold _complete_superseded. apply moves_bind; [exact _|going|intros progress].
  match goal with |- context [negb (is_none ?v)] => destruct (is_none v) eqn:Hn end; cbn [negb].
  - going; apply deliver_result_steps; unfold unless_settled; going.
  - apply moves_bind; [exact _|by apply superseded_cancel_steps|intros ?]. going.
Qed.
Lemma terminal_steps request progress reason : moves steps (_terminal_reconcile config key request progress reason).
Proof. unfold _terminal_reconcile, releasing, unless_settled. going. Qed.
#[local] Hint Resolve superseded_steps terminal_steps : moves.
Lemma record_durable_steps request phase values :
  forallb harmless values = true → commits phase values = true → moves steps (record_durable request key phase values).
Proof. intros Hv Hc. unfold record_durable. going. by apply record_phase_steps. Qed.
#[local] Hint Extern 1 (moves steps (record_durable _ _ _ _)) => apply record_durable_steps; reflexivity : moves.
Lemma pilot_failed_steps request package e : moves steps (pilot_failed config key request package e).
Proof. unfold pilot_failed, dispatch_lost, clean_up. going. Qed.
Lemma settled_claim_steps missing claim : moves steps (settled_claim key missing claim).
Proof. unfold settled_claim. going. Qed.
Lemma claim_assignment_steps request lease : moves steps (claim_assignment key request lease).
Proof. unfold claim_assignment. going. Qed.
#[local] Hint Resolve pilot_failed_steps settled_claim_steps claim_assignment_steps : moves.
Lemma own_idle request progress : moves idle (resume_or_claim key request progress).
Proof. unfold resume_or_claim. going. Qed.
#[local] Hint Resolve own_idle : moves.
Lemma contain_steps request e : dget "request_id" request = VStr key → moves steps (contain_failure (pilot_retire config) request e).
Proof.
  intros Hk. unfold contain_failure. rewrite Hk. going; unfold quarantine, retire_assignment, pilot_retire; going.
Qed.
Lemma next_steps : moves steps next_request.
Proof. unfold next_request. going. Qed.

#[local] Hint Extern 5 (moves drifts _) => apply steps_drifts : moves.
(** ** The phases of a cancellation *)
Lemma continue_drifts request progress m : continue_phase config key request progress = Some m → moves drifts m.
Proof.
  unfold continue_phase. destruct (dget "phase" progress); try discriminate.
  repeat (case_bool_decide; [intros [= <-]; going; fail|]). all: try discriminate.
Qed.

(** ** A turn of the assignment *)
Definition row_holds (p : dict) w : Prop := ∃ r, request_row key (wk_requests w) = Some r ∧ rq_progress r = p.
Lemma holds_idle p w w' : idle w w' → row_holds p w → row_holds p w'.
Proof. intros [Heq _]. unfold row_holds. by rewrite Heq. Qed.
Lemma sole_drifts w w' : drifts w w' → sole key (wk_requests w) → sole key (wk_requests w').
Proof. intros [(_ & Hu & _) _]. exact Hu. Qed.
Lemma sole_idle w w' : idle w w' → sole key (wk_requests w) → sole key (wk_requests w').
Proof. intros [-> _]. done. Qed.
(** The state a call that moves nothing ends in. *)
Lemma idle_end {A} (m : M (Worker G) A) w a w' : moves idle m → m w = (a, w') → idle w w'.
Proof. intros Hm E. specialize (Hm w). by rewrite E in Hm. Qed.
Lemma progress_holds w p w' : assignment_progress key w = (Ok p, w') → row_holds p w ∧ idle w w'.
Proof.
  intros E. split; [|by eapply idle_end, E; apply progress_idle].
  revert E. unfold assignment_progress, on_requests, request_progress, mbind, M_bind, gets, row_holds.
  destruct (request_row key (wk_requests w)) as [r|]; [|by intros [= ]]. intros [= <- _]. by exists r.
Qed.
Lemma record_phase_holds p phase values w w' :
  sole key (wk_requests w) → row_holds p w → record_phase key phase values w = (Ok tt, w') →
  row_holds (recorded_progress p phase values) w'.
Proof.
  intros Hu (r0 & Hr0 & <-) E. destruct (record_phase_ok _ _ _ _ Hu E) as (r & until & Hr & Hr').
  rewrite Hr0 in Hr. injection Hr as ->. by eexists.
Qed.
Lemma record_durable_holds p request phase values w w' :
  sole key (wk_requests w) → row_holds p w → record_durable request key phase values w = (Ok tt, w') →
  row_holds (recorded_progress p phase values) w'.
Proof.
  intros Hu Hp ([] & w1 & E1 & E2)%bind_ok. eapply holds_idle; [|by eapply record_phase_holds].
  eapply idle_end, E2. apply beyond_moves; [exact _|apply claim_unsent].
Qed.
Lemma record_durable_drifts request phase values : forallb harmless values = true → moves drifts (record_durable request key phase values).
Proof. intros Hv. unfold record_durable. going. by apply record_phase_drifts. Qed.
#[local] Hint Extern 1 (moves drifts (record_durable _ _ _ _)) => apply record_durable_drifts; reflexivity : moves.

(** At most one package was dispatched, and none unless the row is spent. *)
Definition once w w' : Prop :=
  row_drifts key (wk_requests w) (wk_requests w') ∧
  (unsent dispatches (wk_outside w) (wk_outside w') ∨
   (∃ package, dispatches (wk_outside w') = dispatches (wk_outside w) ++ [package]) ∧ row_is key spent (wk_requests w')).
Lemma drifts_once w w' : drifts w w' → once w w'.
Proof. intros [Hd Hs]. by split; [|left]. Qed.
Lemma once_after w w1 w2 : drifts w w1 → once w1 w2 → once w w2.
Proof.
  intros [D1 S1] [D2 S2]. split; [by etrans|]. destruct S2 as [S2|[[package S2] Hsp]]; [left; by etrans|right].
  split; [|done]. exists package. by rewrite S2, S1.
Qed.
Lemma once_steps w w1 w2 : sole key (wk_requests w) → once w w1 → steps w1 w2 → once w w2.
Proof.
  intros Hu [D1 S1] [[D2 F2] S2]. split; [by etrans|]. destruct S1 as [S1|[[package S1] Hsp]]; [left; by etrans|right].
  split; [exists package; by rewrite S2|]. apply F2; [by apply D1|done].
Qed.
(** A program whose first part moves nothing that matters. *)
Lemma once_bind {A C} (m : M (Worker G) A) (k : A → M (Worker G) C) w :
  moves drifts m → (∀ a w', m w = (Ok a, w') → drifts w w' → once w' (k a w').2) → once w ((m ≫= k) w).2.
Proof.
  intros Hm Hk. specialize (Hm w). unfold mbind, M_bind. destruct (m w) as [[a|e] w1]; cbn in Hm.
  - eapply once_after, Hk; [exact Hm|done|done].
  - by apply drifts_once.
Qed.
Lemma once_catching {A} p (m : M (Worker G) A) h w :
  sole key (wk_requests w) → once w (m w).2 → (∀ e, moves steps (h e)) → once w (catching p m h w).2.
Proof.
  intros Hu Hm Hh. unfold catching. destruct (m w) as [[a|e] w1]; cbn in *; [done|]. destruct (_ && _); [|done].
  eapply once_steps; [done|exact Hm|apply Hh].
Qed.
Lemma row_is_weaken (P Q : RequestRow → bool) t : (∀ r, P r = true → Q r = true) → row_is key P t → row_is key Q t.
Proof. intros Hw. unfold row_is. destruct (request_row key t); [apply Hw|done]. Qed.
Lemma holds_is P p w : row_holds p w → (∀ r, rq_progress r = p → P r = true) → row_is key P (wk_requests w).
Proof. intros (r & Hr & Hp) HP. unfold row_is. rewrite Hr. by apply HP. Qed.
Lemma dispatching_spent p w : row_holds p w → dispatching p = true → row_is key spent (wk_requests w).
Proof.
  intros Hp Hd. eapply holds_is; [done|]. intros r <-. unfold spent, closed. by rewrite Hd, !orb_true_r.
Qed.
Lemma bound_firm p w : row_holds p w → bound p = true → row_is key firm (wk_requests w).
Proof. intros Hp Hb. eapply holds_is; [done|]. intros r <-. unfold firm. by rewrite Hb, orb_true_r. Qed.

(** *** The dispatch itself *)

(** The progress of the cycle and of the row agree on what matters to it. *)
Definition row_agrees (p q : dict) : Prop :=
  dlookup "dispatch_package" q = dlookup "dispatch_package" p ∧ dget "run_id" q = dget "run_id" p ∧ dlookup "reserved" q ≠ None.
(** A program that dispatches once at most, and binds the row when it returns. *)
Definition sends {A} (m : M (Worker G) A) w : Prop :=
  once w (m w).2 ∧ ∀ a w', m w = (Ok a, w') → row_is key firm (wk_requests w').
Lemma sends_bind {A C} (m : M (Worker G) A) (k : A → M (Worker G) C) w :
  moves drifts m → (∀ a w', m w = (Ok a, w') → drifts w w' → sends (k a) w') → sends (m ≫= k) w.
Proof.
  intros Hm Hk. specialize (Hm w). unfold sends, mbind, M_bind. destruct (m w) as [[a|e] w1]; cbn in Hm.
  - destruct (Hk a w1 eq_refl Hm) as [Ho Hf]. split; [by eapply once_after|exact Hf].
  - split; [by apply drifts_once|by intros ?? [= ]].
Qed.
Lemma sends_raise {A} (m : M (Worker G) A) e w : m w = (Raise e, w) → sends m w.
Proof. intros E. unfold sends. rewrite E. split; [by apply drifts_once|by intros ?? [= ]]. Qed.

(** From the call on: the row is spent already. *)
Definition send (request package : dict) : M (Worker G) Z :=
  receipt ← beyond (gh_dispatch_package package);
  match receipt with
  | VInt run_id =>
      raise_if (run_id <? 1) WorkerError "pilot dispatch receipt is invalid";;
      record_durable request key "dispatched" [("run_id", VInt run_id)];;
      mret run_id
  | _ => raise WorkerError "pilot dispatch receipt is invalid"
  end.
Lemma send_once q request package w :
  sole key (wk_requests w) → row_holds q w → dispatching q = true →
  sends (send request package) w.
Proof.
  intros Hu Hq Hd. unfold sends, send, mbind, M_bind, beyond. pose proof (dispatch_logged package (wk_outside w)) as Hl.
  destruct (gh_dispatch_package package (wk_outside w)) as [[receipt|e] g]; cbn in Hl; set (w1 := MkWorker _ _ g).
  all: assert (once w w1) as H1 by
    (split; [done|]; destruct Hl as [Hl|Hl]; [by left|right]; split; [by exists package|by eapply dispatching_spent]).
  2: { split; [exact H1|done]. }
  destruct receipt as [| |run_id| | |]; try (split; [exact H1|by intros ?? [= ]]).
  unfold raise_if, lift, check. destruct (run_id <? 1); [split; [exact H1|by intros ?? [= ]]|].
  pose proof (record_durable_steps request "dispatched" [("run_id", VInt run_id)] eq_refl eq_refl w1) as Hs.
  destruct (record_durable _ _ _ _ w1) as [[[]|e] w2] eqn:E.
  - split; [by eapply once_steps|]. intros n w' [= _ <-].
    pose proof (record_durable_holds q request "dispatched" [("run_id", VInt run_id)] w1 w2 Hu Hq E) as Hq2.
    eapply bound_firm; [exact Hq2|]. unfold recorded_progress. by apply bound_dset, bound_binding.
  - split; [by eapply once_steps|done].
Qed.
Lemma dispatching_recorded q p :
  row_agrees p q → (∃ package, dget "dispatch_package" p = VDict package) → dispatching (recorded_progress q "dispatching" []) = true.
Proof.
  intros (Hpk & _ & Hres) (package & Hp). unfold dispatching. rewrite in_phase_recorded. unfold dget in *.
  rewrite !(dlookup_recorded _ _ _ []) by (repeat constructor || done). rewrite Hpk, Hp. by apply bool_decide_eq_true.
Qed.
Lemma dispatch_once p q request w :
  sole key (wk_requests w) → row_holds q w → row_agrees p q → sends (dispatch_pilot_run key request p) w.
Proof.
  intros Hu Hq Hag. pose proof Hag as (_ & Hrun & _). unfold dispatch_pilot_run.
  destruct (dget "run_id" p) as [| |n| | |]; try by eapply sends_raise.
  2: { split; [by apply drifts_once|]. intros ?? [= _ <-]. eapply bound_firm; [done|]. unfold bound. by rewrite Hrun. }
  apply sends_bind; [going|]. intros [] w0 [_ ->]%raise_if_ok _.
  apply sends_bind; [going|]. intros [] w1 E1 Hd1.
  pose proof (record_durable_holds q request "dispatching" [] w w1 Hu Hq E1) as Hq1.
  apply sends_bind; [going|]. intros package w2 [Hp ->]%lift_ok _.
  apply (send_once (recorded_progress q "dispatching" [])); [by eapply sole_drifts|done|].
  apply dispatching_recorded with p; [done|]. unfold ditem in Hp. unfold dget.
  destruct (dlookup "dispatch_package" p) as [[| | | | |d]|]; try discriminate. by exists d.
Qed.
Lemma dispatch_bound p request w : bound p = true → (dispatch_pilot_run key request p w).2 = w.
Proof.
  unfold bound, dispatch_pilot_run. destruct (dget "run_id" p); try done. cbn. intros ->. by rewrite orb_true_r.
Qed.
Lemma dispatch_refused p request w :
  bound p = false → dispatching p = true → (dispatch_pilot_run key request p w).2 = w ∧ ∀ n w', dispatch_pilot_run key request p w ≠ (Ok n, w').
Proof.
  intros Hb [[Hd%bool_decide_eq_true _]%andb_prop _]%andb_prop. unfold dispatch_pilot_run.
  apply orb_false_iff in Hb as [Hn _]. destruct (dget "run_id" p); try done. by rewrite Hd.
Qed.

(** *** Before it *)
Lemma reserve_drifts request reservation p package : moves drifts (reserve_pilot key request reservation p package).
Proof. unfold reserve_pilot. going. Qed.
Lemma reserve_agrees p request reservation package w w' :
  sole key (wk_requests w) → row_holds p w → reserve_pilot key request reservation p package w = (Ok tt, w') →
  ∃ q, row_holds q w' ∧ row_agrees p q.
Proof.
  intros Hu Hp (reserved & w1 & E1 & (u & w2 & E2 & [_ <-]%raise_if_ok)%bind_ok)%bind_ok.
  assert (idle w w1) as Hi by (eapply idle_end, E1; going). pose proof (holds_idle _ _ _ Hi Hp) as Hp1.
  case_bool_decide as Hres.
  - destruct u. exists (recorded_progress p "reserved" [("reserved", reserved)]).
    split; [by eapply record_durable_holds; [eapply sole_idle| |]|]. unfold row_agrees, recorded_progress, dget.
    cbn [dmerge foldl fst snd]. rewrite !dlookup_dset. split; [reflexivity|split; [reflexivity|discriminate]].
  - apply ret_ok in E2 as [_ <-]. by exists p.
Qed.
Lemma reserve_idle p request reservation package :
  dlookup "reserved" p ≠ None → moves idle (reserve_pilot key request reservation p package).
Proof. intros Hr. unfold reserve_pilot. rewrite (bool_decide_eq_false_2 _ Hr). going. Qed.

Lemma issue_drifts request p : moves drifts (issue_package key request p).
Proof. unfold issue_package. going. Qed.
Lemma issue_holds p request p' w w' :
  sole key (wk_requests w) → row_holds p w → issue_package key request p w = (Ok p', w') →
  row_holds p' w' ∧ (bound p = true → bound p' = true).
Proof.
  intros Hu Hp. unfold issue_package. destruct (_ || _); [by intros [<- <-]%ret_ok|].
  intros (now & w1 & E1 & H1)%bind_ok. pose proof (holds_idle _ _ _ (idle_end _ _ _ _ now_idle E1) Hp) as Hp1.
  repeat apply bind_ok in H1 as (? & ? & [_ <-]%lift_ok & H1). apply bind_ok in H1 as ([] & w2 & E2 & E3).
  pose proof (record_phase_holds _ _ _ _ _ (sole_idle _ _ (idle_end _ _ _ _ now_idle E1) Hu) Hp1 E2) as Hp2.
  destruct (progress_holds _ _ _ E3) as [(r & Hr & <-) Hi]. destruct Hp2 as (r' & Hr' & Hq). rewrite Hr in Hr'. injection Hr' as <-.
  split; [eapply holds_idle; [exact Hi|]; by exists r|]. intros Hb. rewrite Hq. by apply bound_recorded.
Qed.
Lemma prepare_drifts request : moves drifts (prepare_package key request).
Proof. pose proof issue_drifts. unfold prepare_package, _package. going. Qed.
Lemma prepare_holds p request p' package w w' :
  sole key (wk_requests w) → row_holds p w → prepare_package key request w = (Ok (p', package), w') →
  row_holds p' w' ∧ (bound p = true → bound p' = true) ∧ (is_dict (dget "dispatch_package" p) = true → p' = p ∧ idle w w').
Proof.
  intros Hu Hp (p0 & w1 & E1 & (p1 & w2 & E2 & (pk & w3 & E3 & [[= -> ->] ->]%ret_ok)%bind_ok)%bind_ok)%bind_ok.
  destruct (progress_holds _ _ _ E1) as [Hp0 I1].
  assert (p0 = p) as -> by (destruct Hp as (r & Hr & <-), Hp0 as (r' & Hr' & <-); congruence).
  assert (idle w2 w') as I3 by (eapply idle_end, E3; unfold _package; going).
  destruct (issue_holds _ _ _ _ _ (sole_idle _ _ I1 Hu) (holds_idle _ _ _ I1 Hp) E2) as [Hp2 Hb].
  split; [by eapply holds_idle|]. split; [done|]. intros Hd. unfold issue_package in E2. rewrite Hd in E2.
  apply ret_ok in E2 as [-> ->]. split; [done|]. by etrans.
Qed.

(** *** After it *)
Lemma observe_drifts request progress package run_id : moves drifts (observe_pilot_job key request progress package run_id).
Proof. unfold observe_pilot_job. going. Qed.
Lemma window_drifts request reservation : moves drifts (open_window config key request reservation).
Proof. unfold open_window. going. Qed.
Lemma checks_drifts request progress package run_id job_id :
  moves drifts (_open_checks config request key progress package run_id job_id).
Proof.
  unfold _open_checks. going. apply idle_moves; [exact _|]. apply start_moves; try exact _; intros; apply beyond_moves; try exact _; auto with moves.
Qed.
Lemma finalize_drifts request reservation package progress run_id observed :
  moves drifts (finalize_pilot key request reservation package progress run_id observed).
Proof. unfold finalize_pilot. going. Qed.
Lemma conclude_drifts run_id job_id found : moves drifts (conclude_pilot config key run_id job_id found).
Proof. unfold conclude_pilot. going; apply steps_drifts, deliver_result_steps; unfold unless_settled; going. Qed.
#[local] Hint Resolve observe_drifts window_drifts checks_drifts finalize_drifts conclude_drifts : moves.
Lemma watch_drifts request package run_id job_id : moves drifts (watch_pilot config key request package run_id job_id).
Proof.
  unfold watch_pilot. going. apply monitor_over; [exact _|cbn; intros; going..].
  all: match goal with H : Some _ = Some _ |- _ => injection H as <- end.
  - unfold current_supersession. going.
  - unfold cancel_current. going. by apply steps_drifts, superseded_cancel_steps.
  - unfold record_terminal. going.
Qed.
#[local] Hint Resolve watch_drifts : moves.

(** *** The body of the assignment *)
Lemma drive_once p request reservation package w :
  sole key (wk_requests w) → row_holds p w → once w (drive_pilot config key request reservation p package w).2.
Proof.
  intros Hu Hp. unfold drive_pilot. apply once_bind; [apply reserve_drifts|]. intros [] w1 E1 Hd1.
  destruct (reserve_agrees _ _ _ _ _ _ Hu Hp E1) as (q & Hq & Hag).
  destruct (dispatch_once p q request w1 (sole_drifts _ _ Hd1 Hu) Hq Hag) as [Ho Hf].
  match goal with |- once _ ((_ ≫= ?k) _).2 => assert (∀ n, moves drifts (k n)) as Hk by (intros n; going) end.
  unfold mbind at 1, M_bind at 1. destruct (dispatch_pilot_run key request p w1) as [[n|e] w2]; [|exact Ho].
  eapply once_steps; [by eapply sole_drifts|exact Ho|]. apply firm_steps; [by eapply Hf|apply Hk].
Qed.
Lemma drive_bound p request reservation package w :
  bound p = true → drifts w (drive_pilot config key request reservation p package w).2.
Proof.
  intros Hb. unfold drive_pilot. apply moves_from_bind; [exact _|apply reserve_drifts|]. intros [] w1 _.
  pose proof (dispatch_bound p request w1 Hb) as Hd. apply moves_from_bind; [exact _|by rewrite Hd|]. intros n w2 E.
  rewrite E in Hd. cbn in Hd. subst w2.
  match goal with |- over _ _ (?m _).2 => assert (moves drifts m) as Hm by (cbv beta; going); apply Hm end.
Qed.
Lemma drive_dispatching p request reservation package w :
  bound p = false → dispatching p = true → idle w (drive_pilot config key request reservation p package w).2.
Proof.
  intros Hb Hd. pose proof Hd as [_ Hr%bool_decide_eq_true]%andb_prop. unfold drive_pilot.
  apply moves_from_bind; [exact _|by apply reserve_idle|]. intros [] w1 _.
  destruct (dispatch_refused p request w1 Hb Hd) as [Hw Hn]. apply moves_from_bind; [exact _|by rewrite Hw|].
  intros n w2 E. by apply Hn in E.
Qed.
Lemma prepare_idle p request w :
  row_holds p w → is_dict (dget "dispatch_package" p) = true → idle w (prepare_package key request w).2.
Proof.
  intros Hp Hd. unfold prepare_package. apply moves_from_bind; [exact _|apply progress_idle|]. intros p0 w1 E1.
  destruct (progress_holds _ _ _ E1) as [(r & Hr & <-) Hi]. destruct Hp as (r' & Hr' & Hp').
  assert (rq_progress r = p) as -> by congruence. unfold issue_package. rewrite Hd.
  match goal with |- over _ _ (?m _).2 => assert (moves idle m) as Hm by (cbn [orb]; unfold _package; going); apply Hm end.
Qed.

(** The ways a turn goes: it ends before the package is prepared, while it is,
    or it drives the run. *)
Inductive advanced (w w' : Worker G) : Prop :=
  | advanced_none w1 : idle w w1 → steps w1 w' → advanced w w'
  | advanced_refused request w1 : idle w w1 → steps (prepare_package key request w1).2 w' → advanced w w'
  | advanced_driven request reservation p package w1 w2 :
      idle w w1 → prepare_package key request w1 = (Ok (p, package), w2) →
      w' = (catching (λ c, negb (is_contained c)) (drive_pilot config key request reservation p package)
              (pilot_failed config key request package) w2).2 → advanced w w'.
Lemma advance_cases request p w : advanced w (advance_pilot config key request p w).2.
Proof.
  unfold advance_pilot.
  match goal with |- context [(?m ≫= _) w] => assert (moves idle m) as Hm by going; specialize (Hm w) end.
  unfold mbind at 1, M_bind at 1. match goal with |- context [match ?m w with _ => _ end] => destruct (m w) as [[[request'|failure]|e] w1] end;
    cbn [snd] in Hm |- *.
  2: { eapply advanced_none; [exact Hm|apply terminal_steps]. }
  2: { by eapply advanced_none. }
  unfold mbind at 1, M_bind at 1, lift.
  match goal with |- context [match ?r with Ok _ => _ | Raise _ => _ end] => destruct r as [reservation|e] end; [|by eapply advanced_none].
  unfold mbind at 1, M_bind at 1, catching at 1, fmap, M_fmap.
  destruct (prepare_package key request' w1) as [[[p' package]|e] w2] eqn:E.
  - by eapply advanced_driven.
  - eapply (advanced_refused _ _ request'); [exact Hm|]. rewrite E. cbn.
    destruct (_ && _); [|done]. unfold mret, M_ret.
    match goal with |- over _ _ (?m _).2 => assert (moves steps m) as Ht by going; apply Ht end.
Qed.

Lemma failed_once request reservation p package w :
  sole key (wk_requests w) → row_holds p w →
  once w (catching (λ c, negb (is_contained c)) (drive_pilot config key request reservation p package)
            (pilot_failed config key request package) w).2.
Proof. intros Hu Hp. apply once_catching; [done|by apply drive_once|apply pilot_failed_steps]. Qed.
Lemma steps_drift w w' : steps w w' → drifts w w'.
Proof. by intros [[Hd _] Hs]. Qed.
Lemma idle_any R `{!PreOrder R} w w' : idle w w' → over R w w'.
Proof. intros [Heq Hs]. split; [by rewrite Heq|done]. Qed.
Lemma advance_once request p w : sole key (wk_requests w) → row_holds p w → once w (advance_pilot config key request p w).2.
Proof.
  intros Hu Hp. destruct (advance_cases request p w) as [w1 Hi Hs|request' w1 Hi Hs|request' reservation p' package w1 w2 Hi E ->].
  - apply drifts_once. by etrans; [apply idle_any, Hi; exact _|apply steps_drift].
  - apply drifts_once. etrans; [apply idle_any, Hi; exact _|]. by etrans; [apply prepare_drifts|apply steps_drift].
  - pose proof (prepare_drifts request' w1) as Hd. rewrite E in Hd. cbn in Hd.
    destruct (prepare_holds _ _ _ _ _ _ (sole_idle _ _ Hi Hu) (holds_idle _ _ _ Hi Hp) E) as [Hp2 _].
    eapply once_after; [apply idle_any, Hi; exact _|]. eapply once_after; [exact Hd|].
    apply failed_once; [|done]. eapply sole_drifts; [exact Hd|]. by eapply sole_idle.
Qed.
Lemma advance_bound request p w :
  sole key (wk_requests w) → row_holds p w → bound p = true → drifts w (advance_pilot config key request p w).2.
Proof.
  intros Hu Hp Hb. destruct (advance_cases request p w) as [w1 Hi Hs|request' w1 Hi Hs|request' reservation p' package w1 w2 Hi E ->].
  - by etrans; [apply idle_any, Hi; exact _|apply steps_drift].
  - etrans; [apply idle_any, Hi; exact _|]. by etrans; [apply prepare_drifts|apply steps_drift].
  - pose proof (prepare_drifts request' w1) as Hd. rewrite E in Hd. cbn in Hd.
    destruct (prepare_holds _ _ _ _ _ _ (sole_idle _ _ Hi Hu) (holds_idle _ _ _ Hi Hp) E) as (_ & Hb2 & _).
    etrans; [apply idle_any, Hi; exact _|]. etrans; [exact Hd|].
    pose proof (drive_bound p' request' reservation package w2 (Hb2 Hb)) as Hr. unfold catching.
    destruct (drive_pilot _ _ _ _ _ _ w2) as [[a|e] w3]; cbn in Hr |- *; [done|]. destruct (_ && _); [|done].
    etrans; [exact Hr|]. apply steps_drift, pilot_failed_steps.
Qed.
Lemma advance_dispatching request p w :
  sole key (wk_requests w) → row_holds p w → bound p = false → dispatching p = true →
  steps w (advance_pilot config key request p w).2.
Proof.
  intros Hu Hp Hb Hd. pose proof Hd as [[_ Hpk]%andb_prop _]%andb_prop.
  destruct (advance_cases request p w) as [w1 Hi Hs|request' w1 Hi Hs|request' reservation p' package w1 w2 Hi E ->].
  - by etrans; [apply idle_any, Hi; exact _|].
  - etrans; [apply idle_any, Hi; exact _|]. etrans; [|exact Hs]. apply idle_any; [exact _|].
    by eapply prepare_idle, Hpk; eapply holds_idle.
  - destruct (prepare_holds _ _ _ _ _ _ (sole_idle _ _ Hi Hu) (holds_idle _ _ _ Hi Hp) E) as (_ & _ & Hsame).
    destruct (Hsame Hpk) as [-> Hi2]. etrans; [apply idle_any, Hi; exact _|]. etrans; [apply idle_any, Hi2; exact _|].
    pose proof (drive_dispatching p request' reservation package w2 Hb Hd) as Hr. unfold catching.
    destruct (drive_pilot _ _ _ _ _ _ w2) as [[a|e] w3]; cbn in Hr |- *; [apply (idle_any _ _ _ Hr)|].
    destruct (_ && _); [|apply (idle_any _ _ _ Hr)].
    etrans; [apply idle_any, Hr; exact _|]. apply pilot_failed_steps.
Qed.

(** ** A service cycle *)

(** After the claim: the row is this cycle's, or there is nothing to run. *)
Lemma claim_acquired request lease w w' :
  claim_assignment key request lease w = (Ok Acquired, w') →
  ∃ r, request_row key (wk_requests w') = Some r ∧ rq_state r = RqRunning ∧
    ∀ r0, request_row key (wk_requests w) = Some r0 → is_settled r0 = false ∧ rq_progress r = rq_progress r0.
Proof.
  unfold claim_assignment. intros (now & w1 & E1 & E2)%bind_ok. unfold on_requests in E2.
  pose proof (idle_end _ _ _ _ (beyond_moves eq _ time_unsent) E1) as [-> _].
  destruct (claim_request key request now (seconds lease) (wk_requests w1)) as [r t] eqn:E. injection E2 as -> <-. cbn [wk_requests].
  revert E. unfold claim_request. intros E%transaction_ok_1. apply bind_ok in E as (row & t1 & [-> ->]%gets_ok & E).
  destruct (request_row key (wk_requests w1)) as [r|] eqn:Er.
  - destruct (rq_state r) eqn:Es; try by (apply ret_ok in E as [? _]).
    all: apply bind_ok in E as ([] & t2 & [_ ->]%raise_if_ok & E); destruct (_ && _); [by apply ret_ok in E as [? _]|].
    all: apply bind_ok in E as (b & t3 & E & [_ <-]%ret_ok); apply (f_equal snd) in E; cbn in E; subst t3.
    all: eexists; split; [etrans; [by apply (find_updated key key (λ _, true) (claim_request_row (dumps (VDict request)) (now + seconds lease)))|]|].
    all: rewrite ?Er; cbn; rewrite ?bool_decide_true by (by apply request_row_id in Er).
    all: first [reflexivity | split; [reflexivity|]; intros r0 [= <-]; unfold is_settled; by rewrite Es].
  - apply bind_ok in E as ([] & t2 & E & [_ <-]%ret_ok). apply modify_ok in E as ->.
    exists (MkRequestRow key RqRunning None (Some (dumps (VDict request))) [] (Some (now + seconds lease))).
    split; [|split; [done|]]. 2: done. rewrite request_row_head. unfold rows_of. rewrite filter_app, filter_cons, decide_True by done.
    rewrite request_row_head in Er. unfold rows_of in Er. revert Er.
    match goal with |- head ?l = None → _ => by destruct l end.
Qed.

(** What the claimed request has to do. *)
Definition turn (request progress : dict) : M (Worker G) dict :=
  match continue_phase config key request progress with
  | Some m => m
  | None =>
      reason ← _supersession_reason key request;
      match reason with
      | Some reason => _complete_superseded config key request reason None
      | None => advance_pilot config key request progress
      end
  end.
Lemma turn_once request p w : sole key (wk_requests w) → row_holds p w → once w (turn request p w).2.
Proof.
  intros Hu Hp. unfold turn. destruct (continue_phase _ _ _ _) as [m|] eqn:E.
  - apply drifts_once. by eapply continue_drifts.
  - apply once_bind; [going|]. intros reason w1 E1 Hd. pose proof (idle_end _ _ _ _ (supersession_idle request) E1) as Hi.
    destruct reason as [reason|]; [apply drifts_once, steps_drift, superseded_steps|].
    apply advance_once; [by eapply sole_idle|by eapply holds_idle].
Qed.
Lemma turn_closed request p w :
  sole key (wk_requests w) → row_holds p w → bound p || dispatching p || in_phase "cleanup-required" p = true →
  steps w (turn request p w).2.
Proof.
  intros Hu Hp. unfold turn. destruct (bound p) eqn:Hb.
  { intros _. apply firm_steps; [by eapply bound_firm|]. destruct (continue_phase _ _ _ _) as [m|] eqn:E; [by eapply continue_drifts|].
    apply moves_from_bind; [exact _|apply (idle_any _ _ _ (supersession_idle request w))|]. intros reason w1 E1. pose proof (idle_end _ _ _ _ (supersession_idle request) E1) as Hi.
    destruct reason as [reason|]; [apply steps_drift, superseded_steps|].
    apply advance_bound; [by eapply sole_idle|by eapply holds_idle|done]. }
  cbn [orb]. intros [Hd|Hc]%orb_prop.
  - assert (continue_phase config key request p = None) as ->.
    { pose proof Hd as [[Hph%bool_decide_eq_true _]%andb_prop _]%andb_prop. unfold continue_phase. by rewrite Hph. }
    apply moves_from_bind; [exact _|apply (idle_any _ _ _ (supersession_idle request w))|]. intros reason w1 E1. pose proof (idle_end _ _ _ _ (supersession_idle request) E1) as Hi.
    destruct reason as [reason|]; [apply superseded_steps|].
    apply advance_dispatching; [by eapply sole_idle|by eapply holds_idle|done|done].
  - apply bool_decide_eq_true in Hc. unfold continue_phase. rewrite Hc. cbn. apply terminal_steps.
Qed.

Lemma settled_none missing claim w w' : settled_claim key missing claim w = (Ok None, w') → claim = Acquired ∧ w' = w.
Proof.
  destruct claim; cbn; [by intros [_ <-]%ret_ok|..]; intros E; exfalso.
  all: repeat first [apply bind_ok in E as (? & ? & ? & E) | case_match | apply ret_ok in E as [? _] | discriminate].
Qed.
Lemma assignment_run request (Q : relation (Worker G)) w :
  dget "request_id" request = VStr key → (∀ w', steps w w' → Q w w') →
  (∀ w1 w2 p, claim_assignment key request 7200 w = (Ok Acquired, w1) → idle w1 w2 → row_holds p w2 → Q w (turn request p w2).2) →
  Q w (pilot_assignment config request w).2.
Proof.
  intros Hk Hs Ht. unfold pilot_assignment. rewrite Hk. destruct (same_set _ _); [|by apply Hs].
  pose proof (claim_assignment_steps request 7200 w) as H1. unfold mbind at 1, M_bind at 1.
  destruct (claim_assignment key request 7200 w) as [[claim|e] w1] eqn:E1; [|by apply Hs].
  pose proof (settled_claim_steps "completed pilot result is missing" claim w1) as H2. unfold mbind at 1, M_bind at 1.
  destruct (settled_claim key _ claim w1) as [[[answer|]|e] w2] eqn:E2; cbn in H1, H2; [apply Hs; by etrans| |apply Hs; by etrans].
  destruct (settled_none _ _ _ _ E2) as [-> ->]. pose proof (progress_idle w1) as H3. unfold mbind at 1, M_bind at 1.
  destruct (assignment_progress key w1) as [[p|e] w3] eqn:E3; cbn in H3.
  - apply (Ht w1 w3 p); [done|done|]. destruct (progress_holds _ _ _ E3). by eapply holds_idle.
  - apply Hs. cbn. etrans; [exact H1|]. apply (idle_any _ _ _ H3).
Qed.
Lemma assignment_once request w :
  dget "request_id" request = VStr key → sole key (wk_requests w) → once w (pilot_assignment config request w).2.
Proof.
  intros Hk Hu. apply assignment_run; [done|intros; by apply drifts_once, steps_drift|]. intros w1 w2 p E1 Hi Hp.
  pose proof (claim_assignment_steps request 7200 w) as H1. rewrite E1 in H1. apply steps_drift in H1.
  eapply once_after; [exact H1|]. eapply once_after; [apply idle_any, Hi; exact _|].
  apply turn_once; [|done]. by eapply sole_idle, sole_drifts.
Qed.
Lemma assignment_closed request w :
  dget "request_id" request = VStr key → sole key (wk_requests w) → row_is key closed (wk_requests w) →
  steps w (pilot_assignment config request w).2.
Proof.
  intros Hk Hu Hc. apply assignment_run; [done|done|]. intros w1 w2 p E1 Hi Hp.
  pose proof (claim_assignment_steps request 7200 w) as H1. rewrite E1 in H1. cbn in H1.
  etrans; [exact H1|]. etrans; [apply (idle_any _ _ _ Hi)|].
  apply turn_closed; [by eapply sole_idle, sole_drifts, Hu; [exact Hi|by apply steps_drift]|done|].
  unfold row_is in Hc. destruct (request_row key (wk_requests w)) as [r0|] eqn:E0; [|done].
  destruct (claim_acquired _ _ _ _ E1) as (r & Hr & _ & Hsame). destruct (Hsame r0 E0) as [Hset Hpr].
  destruct Hp as (r2 & Hr2 & <-). assert (r2 = r) as -> by (destruct Hi as [Heq _]; congruence).
  unfold closed, firm in Hc. rewrite Hset in Hc. by rewrite Hpr.
Qed.

(** The request a cycle serves. *)
Definition served w : option string :=
  match (next_request w).1 with Ok (Some request) => text_of (dget "request_id" request) | _ => None end.
Lemma next_idle : moves idle next_request.
Proof.
  unfold next_request. apply moves_bind; [exact _|apply on_requests_moves|].
  - unfold recoverable. moving.
  - intros recovered. going.
Qed.
Lemma served_request w :
  served w = Some key → ∃ request w1, next_request w = (Ok (Some request), w1) ∧ idle w w1 ∧ dget "request_id" request = VStr key.
Proof.
  unfold served. pose proof (next_idle w) as Hi. destruct (next_request w) as [[[request|]|e] w1]; try done. cbn in *.
  intros Hk. exists request, w1. split; [done|]. split; [done|]. destruct (dget "request_id" request); try done. cbn in Hk. congruence.
Qed.
Lemma cycle_once w : sole key (wk_requests w) → served w = Some key → once w (pilot_run_once config w).2.
Proof.
  intros Hu (request & w1 & E & Hi & Hk)%served_request. unfold pilot_run_once, run_once, mbind, M_bind. rewrite E.
  eapply once_after; [apply idle_any, Hi; exact _|]. assert (sole key (wk_requests w1)) as Hu1 by (by eapply sole_idle).
  apply once_catching; [done|by apply assignment_once|]. intros e. by apply contain_steps.
Qed.
Lemma cycle_closed w :
  sole key (wk_requests w) → row_is key closed (wk_requests w) → served w = Some key → steps w (pilot_run_once config w).2.
Proof.
  intros Hu Hc (request & w1 & E & Hi & Hk)%served_request. unfold pilot_run_once, run_once, mbind, M_bind. rewrite E.
  etrans; [apply (idle_any _ _ _ Hi)|].
  assert (steps w1 (pilot_assignment config request w1).2) as Ha.
  { apply assignment_closed; [done|by eapply sole_idle|]. destruct Hi as [<- _]. done. }
  unfold catching. destruct (pilot_assignment config request w1) as [[a|e] w2]; cbn in Ha |- *; [done|].
  destruct (_ && _); [|done]. etrans; [exact Ha|]. by apply contain_steps.
Qed.
Lemma cycle_nothing w : served w = None → idle w (pilot_run_once config w).2.
Proof.
  unfold served, pilot_run_once, run_once, mbind, M_bind. pose proof (next_idle w) as Hi.
  destruct (next_request w) as [[[request|]|e] w1]; cbn in *; [|done|done]. intros Hk. etrans; [exact Hi|].
  unfold pilot_assignment, catching. destruct (same_set _ _).
  all: destruct (dget "request_id" request) eqn:Ek; try discriminate; cbn; unfold contain_failure; by rewrite Ek.
Qed.
End worker.

(** ** The life of a request *)
Section history.
Context {G : Type} {S : WorkSource G} {B : WorkerBroker G} {GH : WorkerGitHub G} {H : WorkerHost G}.
Context {T : HTTPTransport G} {L : JobLog G} {D : Digest} {Log : DispatchLog G}.
Context (config : PilotConfig) (key : string).
Implicit Types w : Worker G.

Definition sent w w' : nat := length (dispatches (wk_outside w')) - length (dispatches (wk_outside w)).
Definition serves w : bool := bool_decide (served w = Some key).
Definition reporting w : bool :=
  match request_row key (wk_requests w) with Some r => in_phase "discard-reporting" (rq_progress r) | None => false end.

(** From [w0], [d] packages were dispatched for the request in [w], and [r] of
    the cycles that served it found it reporting.  Cycles, for this request or
    another, and restarts alternate with whatever happens outside. *)
Inductive history (w0 : Worker G) : nat → nat → Worker G → Prop :=
  | history_start : history w0 0 0 w0
  | history_cycle d r w : history w0 d r w →
      let w' := (pilot_run_once config w).2 in
      history w0 (if serves w then d + sent w w' else d) (if serves w && reporting w then Datatypes.S r else r) w'
  | history_restart d r w : history w0 d r w → history w0 d r (on_requests recover_running w).2
  | history_outside d r w reason g : history w0 d r w → history w0 d r (MkWorker (wk_requests w) reason g).

(** The invariant: the row accounts for the last dispatch. *)
Definition accounted (d r : nat) (t : Requests) : Prop :=
  sole key t ∧ ((d ≤ r)%nat ∨ (d ≤ Datatypes.S r)%nat ∧ row_is key spent t).

(** The request's id is the table's primary key. *)
Definition unique (t : Requests) : Prop := ∀ k, sole k t.

Lemma once_sent w w' : once key w w' → (sent w w' = 0 ∨ sent w w' = 1 ∧ row_is key spent (wk_requests w'))%nat.
Proof.
  unfold sent. intros [_ [->|[[package ->] Hs]]]; [left; lia|right]. split; [|done]. rewrite length_app. cbn. lia.
Qed.
Lemma row_is_same P t t' : rows_of key t' = rows_of key t → row_is key P t → row_is key P t'.
Proof. intros Heq. unfold row_is. rewrite !request_row_head. by rewrite Heq. Qed.
Lemma sole_same t t' : rows_of key t' = rows_of key t → sole key t → sole key t'.
Proof. unfold sole. by intros ->. Qed.
Lemma accounted_same d r t t' : rows_of key t' = rows_of key t → accounted d r t → accounted d r t'.
Proof.
  intros Heq [Hu Hd]. split; [by eapply sole_same|]. destruct Hd as [Hd|[Hd Hs]]; [by left|right].
  split; [done|]. by eapply row_is_same.
Qed.
Lemma rows_restarted k t : rows_of k (recover_running t).2 = (λ r, if in_state RqRunning r then with_request_state RqRetry None r else r) <$> rows_of k t.
Proof.
  unfold recover_running, rows_of. cbn. induction t as [|r t IH]; [done|]. rewrite fmap_cons, !filter_cons.
  assert (rq_id (if in_state RqRunning r then with_request_state RqRetry None r else r) = rq_id r) as -> by (by case_match).
  case_decide; [by rewrite fmap_cons, IH|exact IH].
Qed.
Lemma accounted_restarted d r t : accounted d r t → accounted d r (recover_running t).2.
Proof.
  intros [Hu Hd]. split; [unfold sole; by rewrite rows_restarted, length_fmap|]. destruct Hd as [Hd|[Hd Hs]]; [by left|right].
  split; [done|]. unfold row_is in *. rewrite request_row_head, rows_restarted. rewrite request_row_head in Hs.
  destruct (rows_of key t) as [|row rows]; [done|]. cbn in *. destruct (in_state RqRunning row) eqn:Es; [|done].
  apply bool_decide_eq_true in Es. unfold spent, closed, firm, is_settled in *. by rewrite Es in Hs.
Qed.

(** A cycle that serves the request, ... *)
Lemma served_accounted d r w :
  serves w = true → accounted d r (wk_requests w) →
  let w' := (pilot_run_once config w).2 in
  accounted (d + sent w w') (if reporting w then Datatypes.S r else r) (wk_requests w').
Proof.
  intros Hk%bool_decide_eq_true [Hu Hd]. cbn zeta. set (w' := (pilot_run_once config w).2).
  pose proof (cycle_once config key w Hu Hk) as Ho. fold w' in Ho.
  assert (sole key (wk_requests w')) as Hu' by (by apply Ho). split; [done|].
  destruct (decide (row_is key closed (wk_requests w))) as [Hc|Hc].
  - destruct (cycle_closed config key w Hu Hc Hk) as [[_ Hs] Hun]. fold w' in Hs, Hun.
    assert (sent w w' = 0%nat) as -> by (unfold sent; rewrite Hun; lia). right. split; [case_match; destruct Hd; lia|].
    apply Hs; [done|]. eapply row_is_weaken, Hc. intros row Hrow. unfold spent. by rewrite Hrow.
  - assert (reporting w = true ∨ (d ≤ r)%nat) as Hopen.
    { destruct Hd as [Hd|[_ Hs]]; [by right|left]. unfold row_is, reporting, spent in *.
      destruct (request_row key (wk_requests w)) as [row|]; [|done]. apply orb_prop in Hs as [Hs|Hs]; [by destruct Hc|done]. }
    assert (d ≤ if reporting w then Datatypes.S r else r)%nat as Hle.
    { destruct Hopen as [-> |Hopen]; [destruct Hd; lia|case_match; lia]. }
    destruct (once_sent _ _ Ho) as [-> |[-> Hs]]; [left; lia|right]. split; [lia|done].
Qed.
(** ... and one that does not. *)
Lemma other_kept k w : unique (wk_requests w) → served w = Some k → others_kept k (wk_requests w) (wk_requests (pilot_run_once config w).2) ∧
  sole k (wk_requests (pilot_run_once config w).2).
Proof. intros Hu Hk. destruct (cycle_once config k w (Hu k) Hk) as [(Ho & Hs & _) _]. split; [exact Ho|by apply Hs]. Qed.
Lemma cycle_unique w : unique (wk_requests w) → unique (wk_requests (pilot_run_once config w).2).
Proof.
  intros Hu k. destruct (served w) as [k'|] eqn:Es; [|destruct (cycle_nothing config w Es) as [<- _]; apply Hu].
  destruct (other_kept k' w Hu Es) as [Ho Hs]. destruct (decide (k = k')) as [->|Hne]; [done|]. unfold sole. rewrite (Ho k Hne). apply Hu.
Qed.
Lemma cycle_accounted d r w :
  unique (wk_requests w) → accounted d r (wk_requests w) →
  let w' := (pilot_run_once config w).2 in
  accounted (if serves w then d + sent w w' else d) (if serves w && reporting w then Datatypes.S r else r) (wk_requests w').
Proof.
  intros Hu Ha. cbn zeta. destruct (serves w) eqn:Hk; cbn [andb]; [by apply served_accounted|].
  apply bool_decide_eq_false in Hk. eapply accounted_same, Ha.
  destruct (served w) as [k|] eqn:Es; [|by destruct (cycle_nothing config w Es) as [<- _]].
  destruct (other_kept k w Hu Es) as [Ho _]. apply Ho. congruence.
Qed.

(** C3: a request is dispatched at most once, and once more at most for every
    cycle that finds it in the phase discard-reporting: whatever the approval
    source, the broker, GitHub and the clocks answer or raise, over any sequence
    of service cycles and restarts. *)
Theorem dispatched_once w0 d r w :
  unique (wk_requests w0) → request_row key (wk_requests w0) = None → history w0 d r w → (d ≤ 1 + r)%nat.
Proof.
  intros Hu Hn Hh. enough (unique (wk_requests w) ∧ accounted d r (wk_requests w)) as [_ [_ Ha]] by (destruct Ha; lia).
  induction Hh as [|d r w _ [Hu1 Ha]|d r w _ [Hu1 Ha]|d r w reason g _ IH].
  - split; [done|]. split; [apply Hu|by left].
  - split; [by apply cycle_unique|by apply cycle_accounted].
  - split; [|by apply accounted_restarted]. intros k. unfold sole.
    change (wk_requests (on_requests recover_running w).2) with (recover_running (wk_requests w)).2.
    rewrite rows_restarted, length_fmap. apply Hu1.
  - exact IH.
Qed.
End history.

(** ** A request dispatched twice

    The network and the broker fail while the run is dispatched: the service
    exits with the row dispatching.  After the restart the pull request is
    closed, and GitHub fails again after the gate App has recorded the Check Run
    it is about to create.  Then the pull request is open again. *)
Record ToyOutside := MkToyOutside { to_sent : list dict; to_up : bool; to_closed : bool }.
Definition toy_outside {A} (a : A) : M ToyOutside A := mret a.
Definition when_up {A} (c : exn_class) (a : A) : M ToyOutside A := λ g,
  (if to_up g then Ok a else Raise (Exn c "unreachable"), g).
Definition toy_assignment : dict := match toy_request with VDict d => d | _ => [] end.
#[local] Instance ToySource : WorkSource ToyOutside := {|
  source_poll := toy_outside (Some toy_assignment); source_claim _ _ _ := toy_outside tt;
  source_resume _ request _ := toy_outside request; source_retry _ _ := toy_outside tt;
  source_complete _ _ := toy_outside tt; source_fail _ _ := toy_outside tt;
  source_supersession := Some (λ _ _ g, (Ok (if to_closed g then Some PR_CLOSED else None), g));
  source_clock := toy_outside toy_now |}.
Definition toy_reserved (reservation : dict) : dict :=
  [("allocation_id", dget "allocation_id" reservation); ("scale_set_id", VInt 3);
   ("runner_label", dget "scale_set_name" reservation); ("state", VStr "reserved-disabled")].
#[local] Instance ToyBroker : WorkerBroker ToyOutside := {|
  wb_reserve reservation := toy_outside (toy_reserved reservation);
  wb_finalize _ := when_up OSError []; wb_finish _ _ := when_up OSError []; wb_prove_clean _ _ := when_up OSError [];
  wb_recover allocation_id := toy_outside [("allocation_id", allocation_id); ("state", VStr "absent")];
  wb_record_outcome := Some (λ _, when_up ReserveDefinitelyUnavailable [("recorded", VBool true)]) |}.
(** GitHub dispatches whether its answer arrives or not. *)
#[local] Instance ToyGitHub : WorkerGitHub ToyOutside := {|
  gh_dispatch_package package := λ g,
    (if to_up g then Ok (VInt 99) else Raise (Exn WorkerTransportError "unreachable"), MkToyOutside (to_sent g ++ [package]) (to_up g) (to_closed g));
  gh_observe_exact_job _ _ := when_up OSError {| ow_run_id := 99; ow_run_attempt := 1; ow_job_id := 5; ow_job_name := "local-quality"; ow_dispatch_sha := "" |};
  gh_run _ := toy_outside []; gh_jobs _ := toy_outside []; gh_cancel_exact_run _ := toy_outside true |}.
#[local] Instance ToyWorkerHost : WorkerHost ToyOutside := {|
  host_sign payload := toy_outside payload; host_time := toy_outside toy_now; host_utc_now := toy_outside toy_now;
  host_monotonic _ := 0; host_sleep _ := toy_outside tt |}.
(** The gate App authenticates; nothing else of it answers. *)
Definition toy_gate : GateAppAuthorityV1 :=
  {| ga_app_id := 1; ga_app_slug := "gate"; ga_installation_id := 2; ga_repository := "octo/repo"; ga_repository_id := 42 |}.
Definition toy_gate_answers : list (string * dict) :=
  [("/app", [("id", VInt 1); ("slug", VStr "gate")]);
   ("/repos/octo/repo/installation", gate_installation toy_gate)].
Definition toy_token : dict := [("token", VStr "t"); ("expires_at", VStr (stamp_text (toy_now + hours 1)))].
#[local] Instance ToyTransport : HTTPTransport ToyOutside := {|
  http_request method url _ _ :=
    if bool_decide (method = "POST") && bool_decide (url = API_ROOT +:+ "/app/installations/2/access_tokens")
    then toy_outside {| http_status := 201; http_body := dumps (VDict toy_token) |}
    else match List.find (λ a, bool_decide (url = API_ROOT +:+ a.1)) toy_gate_answers with
         | Some a => toy_outside {| http_status := 200; http_body := dumps (VDict a.2) |}
         | None => raise OSError "unreachable"
         end;
  http_clock := toy_outside (utc toy_now); rs256_sign text := toy_outside text |}.
#[local] Instance ToyJobLog : JobLog ToyOutside := {| job_log _ := toy_outside [] |}.
Lemma toy_unsent {A} (a : A) : moves (unsent to_sent) (toy_outside a).
Proof. by intros g. Qed.
Lemma when_up_unsent {A} c (a : A) : moves (unsent to_sent) (when_up c a).
Proof. by intros g. Qed.
#[local] Instance ToyDispatchLog : DispatchLog ToyOutside.
Proof.
  refine {| dispatches := to_sent |}; try (intros; first [apply toy_unsent | apply when_up_unsent]).
  - intros package g. by right.
  - intros m key request [= <-]. by intros g.
  - intros m event [= <-]. apply when_up_unsent.
  - intros method url headers body. cbn. repeat case_match; first [apply toy_unsent | by intros g].
Defined.
Definition toy_pilot : PilotConfig :=
  {| pw_checks := Some toy_gate; pw_repository := Some "octo/repo"; pw_claim_ttl := minutes 12; pw_cancel_timeout := minutes 3;
     pw_cancel_poll := seconds 15 |}.

Definition toy_start : Worker ToyOutside := MkWorker [] None (MkToyOutside [] false false).
Definition toy_cycle (w : Worker ToyOutside) : Worker ToyOutside := (pilot_run_once (D := ToyDigest) toy_pilot w).2.
Definition toy_outage (up closed : bool) (w : Worker ToyOutside) : Worker ToyOutside :=
  MkWorker (wk_requests w) (wk_reason w) (MkToyOutside (to_sent (wk_outside w)) up closed).
Definition toy_lost : Worker ToyOutside := Eval vm_compute in toy_cycle toy_start.
(** Closed: the phase dispatching is recorded over. *)
Definition toy_restarted : Worker ToyOutside := (on_requests recover_running toy_lost).2.
Definition toy_reporting : Worker ToyOutside := Eval vm_compute in toy_cycle (toy_outage true true toy_restarted).
Definition toy_again : Worker ToyOutside := Eval vm_compute in toy_cycle (toy_outage true false toy_reporting).
Abbreviation toy_history := (history (D := ToyDigest) toy_pilot toy_request_id toy_start).
Lemma toy_twice : toy_history 2 1 toy_again.
Proof.
  assert (toy_history 1 0 toy_lost) as H1 by exact (history_cycle _ _ _ _ _ _ (history_start _ _ _)).
  assert (toy_history 1 0 (toy_outage true true toy_restarted)) as H2
    by exact (history_outside _ _ _ _ _ _ _ _ (history_restart _ _ _ _ _ _ H1)).
  assert (toy_history 1 0 (toy_outage true false toy_reporting)) as H3
    by exact (history_outside _ _ _ _ _ _ _ _ (history_cycle _ _ _ _ _ _ H2)).
  exact (history_cycle _ _ _ _ _ _ H3).
Qed.
(** The bound of [dispatched_once] is reached: a request is dispatched twice. *)
Lemma reopened_redispatches : length (to_sent (wk_outside toy_again)) = 2%nat ∧ toy_history 2 1 toy_again.
Proof. split; [vm_compute; reflexivity|exact toy_twice]. Qed.

Lemma dispatched_once_witness : unique (wk_requests toy_start) ∧ toy_history 2 1 toy_again ∧ (2 ≤ 1 + 1)%nat.
Proof.
  assert (unique (wk_requests toy_start)) as Hu by (intros k; apply Nat.le_0_l).
  split; [exact Hu|]. split; [exact toy_twice|].
  exact (dispatched_once (D := ToyDigest) toy_pilot toy_request_id toy_start 2 1 toy_again Hu eq_refl toy_twice).
Defined.
