(* ===== verification/Registry.v ===== *)
(** * The repository registry (registry.py)

    Reading the registry document, and the configuration of one repository:
    hosted by default, local only with a complete trust policy and authority. *)

From stdpp Require Import gmap.
From S2P Require Import Prelude PyValue PyText Json GitHubHttp.
#[local] Open Scope Z_scope.

Definition unregistrable {A} (msg : string) : result A := throw RegistryError msg.
Definition refuse_if (b : bool) (msg : string) : result unit := check b RegistryError msg.

(** [_REPOSITORY]: an owner of at most 39 letters, digits and inner or final
    dashes, a slash, a name of at most 100. *)
Definition is_registry_name (s : string) : bool :=
  match split_at "/" s with
  | Some (String c owner, name) =>
      is_alnum c && match_between 0 38 (λ c, is_alnum c || Ascii.eqb c "-") owner && match_between 1 100 is_name_char name
  | _ => false
  end.
Definition _validate_repository_name (repository : string) : result unit :=
  refuse_if (negb (lacks "*" repository) || negb (is_registry_name repository)) "invalid exact owner/repo".

Definition _ALLOWED_TOP_LEVEL : list string := ["$schema"; "registry_schema_version"; "repositories"].
Definition _ALLOWED_REPOSITORY : list string := ["ci_runner"; "ai_reviewer"; "execution_trust"; "authority"].
Definition _ALLOWED_TRUST : list string :=
  ["policy_version"; "mode"; "attestation_authority_version"; "key_manifest_version"; "key_manifest_generation";
   "key_manifest_digest"; "offline_root_public_fingerprint"; "public_key_id"; "public_key_fingerprint"; "inventory_drift_guard"].
Definition _ALLOWED_AUTHORITY : list string := ["kind"; "installation_id"; "runner_group"].

Definition _require_mapping (value : pyval) (where_ : string) : result dict :=
  match value with VDict d => Ok d | _ => unregistrable (where_ +:+ " must be an object") end.
Definition _reject_unknown (value : dict) (allowed : list string) (where_ : string) : result unit :=
  refuse_if (negb (subset_of (dkeys value) allowed)) (where_ +:+ ": unknown fields").

Record RepositoryConfig := {
  rc_repository : string;
  ci_runner : string;
  ai_reviewer : string;
  execution_trust : option dict;
  authority : option dict;
}.
Definition hosted (repository : string) : RepositoryConfig :=
  {| rc_repository := repository; ci_runner := "github"; ai_reviewer := "disabled"; execution_trust := None; authority := None |}.
Definition LOCAL_WITH_FALLBACK : string := "local-with-github-fallback".
Definition local_requested (c : RepositoryConfig) : bool := bool_decide (ci_runner c = LOCAL_WITH_FALLBACK).

Definition exact_trust : dict :=
  [("policy_version", VInt 1); ("mode", VStr "exact-sha-attestation"); ("attestation_authority_version", VInt 1);
   ("key_manifest_version", VInt 1); ("inventory_drift_guard", VStr "enabled")].
(** [not value.strip()] *)
Definition blank (s : string) : bool := forallb py_is_space (code_points s).
Definition _validate_trust (repository : string) (trust : dict) : result unit :=
  _reject_unknown trust _ALLOWED_TRUST (repository +:+ ".execution_trust");;
  refuse_if (negb (forallb (λ kv, py_eq (dget kv.1 trust) kv.2) exact_trust)) (repository +:+ ": value is not exact");;
  refuse_if (negb (is_positive_int (dget "key_manifest_generation" trust)))
    (repository +:+ ": key_manifest_generation must be a positive integer");;
  refuse_if (negb (forallb (λ k, is_str_where is_sha256 (dget k trust))
                     ["key_manifest_digest"; "offline_root_public_fingerprint"; "public_key_fingerprint"]))
    (repository +:+ ": value must be lowercase SHA-256");;
  refuse_if (negb (is_str_where (λ s, negb (blank s)) (dget "public_key_id" trust))) (repository +:+ ": public_key_id is required").

Definition _validate_authority (repository : string) (authority : dict) : result unit :=
  _reject_unknown authority _ALLOWED_AUTHORITY (repository +:+ ".authority");;
  refuse_if (negb (is_positive_int (dget "installation_id" authority)))
    (repository +:+ ": installation_id must be a positive integer");;
  if py_eq (dget "kind" authority) (VStr "personal-repository") then
    refuse_if (negb (is_none (dget "runner_group" authority))) (repository +:+ ": personal repository cannot use a runner group")
  else if py_eq (dget "kind" authority) (VStr "organization-runner-group") then
    refuse_if (negb (is_str_where (λ s, negb (blank s) && lacks "*" s) (dget "runner_group" authority)))
      (repository +:+ ": exact organization runner_group is required")
  else unregistrable (repository +:+ ": invalid authority kind").

(** A member of one of two texts, as the text. *)
Definition one_of (v : pyval) (texts : list string) (msg : string) : result string :=
  known ← py_in_set v (text_set texts);
  refuse_if (negb known) msg;;
  match v with VStr s => Ok s | _ => unregistrable msg end.

Definition _parse_repository (repository : string) (value : pyval) : result RepositoryConfig :=
  item ← _require_mapping value repository;
  _reject_unknown item _ALLOWED_REPOSITORY repository;;
  (* both memberships are tested in this order *)
  runner ← one_of (dget "ci_runner" item) ["github"; LOCAL_WITH_FALLBACK] (repository +:+ ": invalid ci_runner");
  reviewer ← one_of (dget "ai_reviewer" item) ["enabled"; "disabled"] (repository +:+ ": invalid ai_reviewer");
  let trust := dget "execution_trust" item in
  let authority := dget "authority" item in
  if bool_decide (runner = "github") then
    refuse_if (negb (is_none trust) || negb (is_none authority)) (repository +:+ ": hosted entries must not carry local authority");;
    Ok {| rc_repository := repository; ci_runner := runner; ai_reviewer := reviewer; execution_trust := None; authority := None |}
  else
    trust ← _require_mapping trust (repository +:+ ".execution_trust");
    authority ← _require_mapping authority (repository +:+ ".authority");
    _validate_trust repository trust;;
    _validate_authority repository authority;;
    Ok {| rc_repository := repository; ci_runner := runner; ai_reviewer := reviewer;
          execution_trust := Some trust; authority := Some authority |}.

Definition Registry := gmap string RepositoryConfig.

Fixpoint parse_entries (entries : dict) (parsed : Registry) : result Registry :=
  match entries with
  | [] => Ok parsed
  | (repository, value) :: entries =>
      _validate_repository_name repository;;
      config ← _parse_repository repository value;
      parse_entries entries (<[repository := config]> parsed)
  end.
Definition registry_of (data : pyval) : result Registry :=
  d ← _require_mapping data "registry";
  _reject_unknown d _ALLOWED_TOP_LEVEL "registry";;
  refuse_if (negb (py_eq (dget "registry_schema_version" d) (VInt 1))) "registry_schema_version must be 1";;
  entries ← _require_mapping (dget "repositories" d) "repositories";
  parse_entries entries ∅.
Definition from_json (raw : string) : result Registry :=
  data ← loads_exact RegistryError "invalid registry JSON: duplicate key" "invalid registry JSON" raw;
  registry_of data.

Definition resolve (registry : Registry) (repository : string) : result RepositoryConfig :=
  _validate_repository_name repository;;
  Ok (default (hosted repository) (registry !! repository)).

(** ** What a configuration is *)

(** The fields the parser lets through. *)
Definition exact_local (trust authority : dict) : Prop :=
  subset_of (dkeys trust) _ALLOWED_TRUST = true ∧
  Forall (λ kv, py_eq (dget kv.1 trust) kv.2 = true) exact_trust ∧
  is_positive_int (dget "key_manifest_generation" trust) = true ∧
  Forall (λ k, is_str_where is_sha256 (dget k trust) = true)
    ["key_manifest_digest"; "offline_root_public_fingerprint"; "public_key_fingerprint"] ∧
  is_positive_int (dget "installation_id" authority) = true ∧
  (dget "kind" authority = VStr "personal-repository" ∧ dget "runner_group" authority = VNone ∨
   dget "kind" authority = VStr "organization-runner-group" ∧
   ∃ group, dget "runner_group" authority = VStr group ∧ blank group = false ∧ lacks "*" group = true).
Definition wf_config (repository : string) (c : RepositoryConfig) : Prop :=
  rc_repository c = repository ∧ is_registry_name repository = true ∧ ai_reviewer c ∈ ["enabled"; "disabled"] ∧
  match execution_trust c, authority c with
  | None, None => ci_runner c = "github"
  | Some trust, Some authority => ci_runner c = LOCAL_WITH_FALLBACK ∧ exact_local trust authority
  | _, _ => False
  end.
Definition wf_registry (r : Registry) : Prop := map_Forall wf_config r.

Lemma one_of_ok v texts msg s : one_of v texts msg = Ok s → v = VStr s ∧ s ∈ texts.
Proof.
  unfold one_of, refuse_if, py_in_set. intros H. apply result_bind_ok in H as (known & H1 & H).
  apply result_bind_ok in H1 as (? & _ & [= <-]). apply result_bind_ok in H as (? & Hk%check_ok & H).
  destruct v; try discriminate. injection H as ->. split; [done|].
  apply negb_false_iff, List.existsb_exists in Hk as (v & Hv & He). apply list_elem_of_In in Hv.
  apply list_elem_of_fmap in Hv as (t & -> & Ht). by apply py_eq_str in He as [= ->].
Qed.
Lemma require_ok v msg d : _require_mapping v msg = Ok d → v = VDict d.
Proof. destruct v; try discriminate. by intros [= ->]. Qed.
Lemma refuse_ok b msg u : refuse_if b msg = Ok u → b = false.
Proof. unfold refuse_if. by intros ?%check_ok. Qed.

Lemma trust_ok repository trust u :
  _validate_trust repository trust = Ok u →
  subset_of (dkeys trust) _ALLOWED_TRUST = true ∧
  Forall (λ kv, py_eq (dget kv.1 trust) kv.2 = true) exact_trust ∧
  is_positive_int (dget "key_manifest_generation" trust) = true ∧
  Forall (λ k, is_str_where is_sha256 (dget k trust) = true)
    ["key_manifest_digest"; "offline_root_public_fingerprint"; "public_key_fingerprint"].
Proof.
  unfold _validate_trust, _reject_unknown. intros H. repeat apply result_bind_ok in H as (? & ?%refuse_ok%negb_false_iff & H).
  rewrite !Forall_forall. setoid_rewrite list_elem_of_In. split_and!; [done| |done|]; by apply List.forallb_forall.
Qed.
Lemma authority_ok repository authority u :
  _validate_authority repository authority = Ok u →
  is_positive_int (dget "installation_id" authority) = true ∧
  (dget "kind" authority = VStr "personal-repository" ∧ dget "runner_group" authority = VNone ∨
   dget "kind" authority = VStr "organization-runner-group" ∧
   ∃ group, dget "runner_group" authority = VStr group ∧ blank group = false ∧ lacks "*" group = true).
Proof.
  unfold _validate_authority, _reject_unknown. intros H. repeat apply result_bind_ok in H as (? & ?%refuse_ok%negb_false_iff & H).
  split; [done|]. destruct (py_eq _ (VStr "personal-repository")) eqn:E1.
  - left. apply py_eq_str in E1. split; [done|]. apply refuse_ok, negb_false_iff in H. by destruct (dget "runner_group" authority).
  - destruct (py_eq _ (VStr "organization-runner-group")) eqn:E2; [|done]. right. apply py_eq_str in E2. split; [done|].
    apply refuse_ok, negb_false_iff in H. destruct (dget "runner_group" authority) as [| | |group| |]; try done.
    cbn in H. apply andb_prop in H as [Hb Hl]. exists group. by apply negb_true_iff in Hb.
Qed.
Lemma parse_repository_wf repository value c :
  is_registry_name repository = true → _parse_repository repository value = Ok c → wf_config repository c.
Proof.
  unfold _parse_repository, _reject_unknown. intros Hr H. apply result_bind_ok in H as (item & Hi & H).
  apply result_bind_ok in H as (? & ?%refuse_ok & H). apply result_bind_ok in H as (runner & [_ Hrun]%one_of_ok & H).
  apply result_bind_ok in H as (reviewer & [_ Hrev]%one_of_ok & H). unfold wf_config. case_bool_decide as Hg.
  - apply result_bind_ok in H as (? & _ & [= <-]). by subst.
  - assert (runner = LOCAL_WITH_FALLBACK) as ->
      by (rewrite elem_of_cons, list_elem_of_singleton in Hrun; by destruct Hrun).
    apply result_bind_ok in H as (trust & _ & H). apply result_bind_ok in H as (authority & _ & H).
    apply result_bind_ok in H as (u & (T1&T2&T3&T4)%trust_ok & H).
    apply result_bind_ok in H as (u' & [A1 A2]%authority_ok & [= <-]).
    cbn. by split_and!.
Qed.
Lemma validate_name_ok repository u : _validate_repository_name repository = Ok u → is_registry_name repository = true.
Proof. unfold _validate_repository_name. intros [_ ?%negb_false_iff]%refuse_ok%orb_false_iff. done. Qed.
Lemma parse_entries_wf entries parsed r : wf_registry parsed → parse_entries entries parsed = Ok r → wf_registry r.
Proof.
  revert parsed. induction entries as [|[repository value] entries IH]; intros parsed Hp; [by intros [= <-]|].
  cbn. intros H. apply result_bind_ok in H as (? & Hn%validate_name_ok & H). apply result_bind_ok in H as (c & Hc & H).
  eapply IH, H. apply map_Forall_insert_2; [by eapply parse_repository_wf|done].
Qed.
Lemma from_mapping_wf data r : registry_of data = Ok r → wf_registry r.
Proof.
  unfold registry_of. intros H. apply result_bind_ok in H as (d & _ & H). apply result_bind_ok in H as (? & _ & H).
  apply result_bind_ok in H as (? & _ & H). apply result_bind_ok in H as (entries & _ & H).
  eapply parse_entries_wf, H. apply map_Forall_empty.
Qed.
(** The configuration of any repository: the default is one too. *)
Lemma resolve_wf r repository c : wf_registry r → resolve r repository = Ok c → wf_config repository c.
Proof.
  intros Hr. unfold resolve. intros H. apply result_bind_ok in H as (? & Hn%validate_name_ok & [= <-]).
  destruct (r !! repository) as [c|] eqn:E; cbn; [by apply (Hr repository)|].
  split_and!; cbn; [done|done|by right; left|done].
Qed.
Lemma from_json_wf raw r : from_json raw = Ok r → wf_registry r.
Proof. unfold from_json. intros H. apply result_bind_ok in H as (data & _ & H). by eapply from_mapping_wf. Qed.
