(* ===== verification/Admission.v ===== *)
(** * Admission to local CI (inventory.py, policy.py, authority_boundary.py)

    The negative-only inventory of effective writers, the routing policy that
    reads it, and what remains permitted once current authority is lost. *)

From stdpp Require Import gmap sorting.
From S2P Require Import Prelude Datetime PyValue PyText Json Digest Jcs Allocation Attestation Protocol Registry.
#[local] Open Scope Z_scope.

(** ** Inventory *)

Record Observation := {
  ob_status : string;
  ob_required : list string;
  ob_missing : list string;
  ob_records : list pyval;          (* normalized_usable_source_records *)
  ob_observed_at : datetime;
  ob_semantic_hash : string;
}.

(** [sorted(set(l))] *)
Definition sorted_ids (l : list string) : list string := merge_sort String.le (remove_dups l).
(** Usable records by source: a mapping, in its insertion order. *)
Definition Usable := list (string * list pyval).
Definition source_record (r : string * list pyval) : pyval := VDict [("source_id", VStr r.1); ("records", VList r.2)].

Definition semantic_inventory_hash {D : Digest} (status : string) (required missing : list string) (records : list pyval) : result string :=
  check (negb (bool_decide (status ∈ ["complete"; "partial"; "unavailable"]))) ValueError "invalid inventory status";;
  Ok (sha256_hex (json_dumps (VDict
    [("status", VStr status); ("required_source_ids", VList (VStr <$> merge_sort String.le required));
     ("missing_source_ids", VList (VStr <$> merge_sort String.le missing)); ("normalized_usable_source_records", VList records)]))).

Definition inventory_status (required usable : list string) : string :=
  if bool_decide (length usable = length required) then "complete"
  else if bool_decide (usable = []) then "unavailable" else "partial".

Definition classify_inventory {D : Digest} (required_source_ids : list string) (usable : Usable) (observed_at : datetime) : result Observation :=
  let required := sorted_ids required_source_ids in
  let sources := usable.*1 in
  check (bool_decide (required = []) || existsb (λ s, negb (nonempty s)) required) ValueError
    "required_source_ids must be a non-empty authenticated set";;
  check (negb (subset_of sources required)) ValueError "records for unknown sources";;
  let missing := sorted_ids (filter (λ s, s ∉ sources) required) in
  let status := inventory_status required sources in
  let records := source_record <$> sort_keys String.leb usable in
  digest ← semantic_inventory_hash status required missing records;
  Ok {| ob_status := status; ob_required := required; ob_missing := missing; ob_records := records;
        ob_observed_at := observed_at; ob_semantic_hash := digest |}.

(** [_require_aware_utc]: every aware datetime passes. *)
Definition _require_aware_utc (value : datetime) : result Z :=
  match value with
  | Aware _ t => Ok t
  | Naive _ => throw ValueError "authoritative timestamps must be timezone-aware"
  end.
Definition is_fresh (o : Observation) (now : datetime) : result bool :=
  t ← _require_aware_utc now;
  observed ← _require_aware_utc (ob_observed_at o);
  Ok ((0 <=? t - observed) && (t - observed <=? minutes 5)).

(** ** Policy *)

Record ExecutionDecision := { backend : string; local_eligible : bool; ed_reason : string }.
Definition on_github (reason : string) : ExecutionDecision := {| backend := "github"; local_eligible := false; ed_reason := reason |}.

(** The relationship signals are accepted and dropped. *)
Definition evaluate_execution_trust (config : RepositoryConfig) (now : datetime) (inventory : option Observation)
    (attestation_valid external_contributor dependabot : bool) (relationship_signals : list string) : result ExecutionDecision :=
  if negb (bool_decide (ci_runner config = LOCAL_WITH_FALLBACK)) then Ok (on_github "registry-default-or-hosted")
  else if external_contributor || dependabot then Ok (on_github "untrusted-event")
  else if match execution_trust config with
          | None => true
          | Some trust => negb (py_eq (dget "mode" trust) (VStr "exact-sha-attestation"))
          end then Ok (on_github "missing-exact-sha-policy")
  else
    match inventory with
    | None => Ok (on_github "inventory-unavailable")
    | Some o =>
        if bool_decide (ob_status o = "unavailable") then Ok (on_github "inventory-unavailable")
        else
          fresh ← is_fresh o now;
          if negb fresh then Ok (on_github "inventory-stale")
          else if negb attestation_valid then Ok (on_github "attestation-invalid-or-absent")
          else Ok {| backend := "local"; local_eligible := true; ed_reason := "exact-sha-attestation-and-fresh-negative-guard" |}
    end.

(** ** Loss of authority *)

Definition CURRENT_BOUNDARIES : list string := ["dispatch"; "claim"; "pre-marker"; "local-success"].
Definition LOSS_REASONS : list string :=
  ["head_drift"; "inventory_drift"; "writer_revoked"; "team_drift"; "expired"; "key_unavailable"; "proof_invalid"].
Record AuthorityBoundaryDecision := {
  route_github : bool; fence_allocation : bool; cancel_allocation : bool; allow_historical_failure : bool; allow_success : bool;
  alert_code : option string;
}.
Definition decide_authority_loss (boundary : string) (admission_exists : bool) (reason : string) : result AuthorityBoundaryDecision :=
  check (negb (bool_decide (boundary ∈ CURRENT_BOUNDARIES))) ValueError "unknown current-authority boundary";;
  check (negb (bool_decide (reason ∈ LOSS_REASONS))) ValueError "unknown authority-loss reason";;
  let before_admission := negb admission_exists in
  Ok {| route_github := before_admission; fence_allocation := negb before_admission; cancel_allocation := negb before_admission;
        allow_historical_failure := admission_exists; allow_success := false;
        alert_code := if bool_decide (reason = "key_unavailable") then Some "signing_authority_unavailable" else None |}.

(** ** The order of sources and records is immaterial *)

Lemma sorted_ids_perm l l' : (∀ s, s ∈ l ↔ s ∈ l') → sorted_ids l = sorted_ids l'.
Proof.
  intros Hl. unfold sorted_ids. apply (StronglySorted_unique String.le); [apply (StronglySorted_merge_sort String.le)..|].
  rewrite !merge_sort_Permutation. apply NoDup_Permutation; [apply NoDup_remove_dups..|].
  intros s. by rewrite !elem_of_remove_dups.
Qed.
Lemma elem_of_sorted_ids s l : s ∈ sorted_ids l ↔ s ∈ l.
Proof. unfold sorted_ids. by rewrite merge_sort_Permutation, elem_of_remove_dups. Qed.
Lemma NoDup_sorted_ids l : NoDup (sorted_ids l).
Proof. unfold sorted_ids. rewrite merge_sort_Permutation. apply NoDup_remove_dups. Qed.
Definition key_le {A} (a b : string * A) : Prop := String.le a.1 b.1.
Lemma leb_le a b : String.leb a b = true ↔ String.le a b.
Proof. unfold String.le. by rewrite Is_true_true. Qed.
Lemma insert_sorted {A} (kv : string * A) d : StronglySorted key_le d → StronglySorted key_le (insert_key String.leb kv d).
Proof.
  induction 1 as [|kv' d Hs IH Ha]; cbn; [by repeat constructor|]. destruct (String.leb kv.1 kv'.1) eqn:E.
  - constructor; [by constructor|]. constructor; [by apply leb_le|]. eapply Forall_impl; [exact Ha|].
    intros x Hx. apply leb_le in E. unfold key_le in *. by etrans.
  - constructor; [done|]. rewrite insert_key_perm. constructor; [|done].
    unfold key_le. destruct (total String.le kv.1 kv'.1) as [H%leb_le|H]; [congruence|done].
Qed.
Lemma sort_keys_sorted {A} (d : list (string * A)) : StronglySorted key_le (sort_keys String.leb d).
Proof. induction d as [|kv d IH]; [constructor|]. by apply insert_sorted. Qed.
Lemma sort_keys_unique {A} (d d' : list (string * A)) :
  NoDup (d.*1) → d ≡ₚ d' → sort_keys String.leb d = sort_keys String.leb d'.
Proof.
  intros Hn Hp. apply (StronglySorted_unique_strong key_le); [|apply sort_keys_sorted..|by rewrite !sort_keys_perm].
  intros [k v] [k' v'] Hv Hv' H1 H2. unfold key_le in *. cbn in *. assert (k = k') as -> by (by apply (anti_symm String.le)).
  rewrite sort_keys_perm in Hv, Hv'. rewrite <- Hp in Hv'. f_equal.
  apply (elem_of_list_to_map_1 (M := gmap string)) in Hv, Hv'; [congruence|done..].
Qed.

Lemma strictly_sorted_strong l : NoDup l → StronglySorted String.le l → strictly_sorted l = true.
Proof.
  induction l as [|a [|b l] IH]; [done..|]. intros [Ha Hn]%NoDup_cons [Hs Hle]%StronglySorted_inv.
  change (String.ltb a b && strictly_sorted (b :: l) = true). rewrite IH, andb_true_r by done. apply Forall_cons in Hle as [Hab _].
  unfold String.ltb. apply leb_le in Hab. unfold String.leb in Hab.
  destruct (String.compare a b) eqn:E; [|done..]. apply String.compare_eq_iff in E as ->. destruct Ha. by left.
Qed.

Section inventory.
Context {D : Digest}.
Implicit Types usable : Usable.

Lemma subset_of_spec (a b : list string) : subset_of a b = true ↔ a ⊆ b.
Proof.
  unfold subset_of. rewrite List.forallb_forall. split; intros H x Hx.
  - by eapply bool_decide_eq_true_1, H, list_elem_of_In.
  - by apply bool_decide_eq_true_2, H, list_elem_of_In.
Qed.
Lemma empty_iff (l : list string) : l = [] ↔ ∀ s, s ∉ l.
Proof. split; [intros ->; apply not_elem_of_nil|]. destruct l as [|s l]; [done|]. intros H. destruct (H s). by left. Qed.
Lemma as_many_is_all (a b : list string) : NoDup a → NoDup b → a ⊆ b → (length a = length b ↔ b ⊆ a).
Proof.
  intros Ha Hb Hs. split.
  - intros Hl. assert (a ≡ₚ b) as Hp.
    { apply submseteq_length_Permutation; [by apply NoDup_submseteq|lia]. }
    intros s. by rewrite Hp.
  - intros Hs'. apply Permutation_length, NoDup_Permutation; [done..|]. intros s. split; [apply Hs|apply Hs'].
Qed.

(** What an observation says: the sources asked for, those that are missing, and
    the status that counts them. *)
Definition describes (o : Observation) (required : list string) (usable : Usable) : Prop :=
  (∀ s, s ∈ ob_required o ↔ s ∈ required) ∧ ob_required o ≠ [] ∧
  (∀ s, s ∈ ob_missing o ↔ s ∈ required ∧ s ∉ usable.*1) ∧
  (ob_status o = "complete" ↔ ob_missing o = []) ∧ (ob_status o = "unavailable" ↔ usable = []).
Lemma classify_ok required usable at_ o :
  classify_inventory required usable at_ = Ok o →
  o = {| ob_status := inventory_status (sorted_ids required) (usable.*1); ob_required := sorted_ids required;
         ob_missing := sorted_ids (filter (λ s, s ∉ usable.*1) (sorted_ids required));
         ob_records := source_record <$> sort_keys String.leb usable; ob_observed_at := at_; ob_semantic_hash := ob_semantic_hash o |} ∧
  sorted_ids required ≠ [] ∧ Forall (λ s, nonempty s = true) (sorted_ids required) ∧ usable.*1 ⊆ sorted_ids required.
Proof.
  unfold classify_inventory. intros H. apply result_bind_ok in H as (? & [He Hn]%check_ok%orb_false_iff & H).
  apply result_bind_ok in H as (? & Hs%check_ok%negb_false_iff%subset_of_spec & H).
  apply result_bind_ok in H as (digest & _ & [= <-]). apply bool_decide_eq_false in He. split_and!; [done|done| |done].
  apply Forall_forall. intros s Hs'%list_elem_of_In. destruct (nonempty s) eqn:E; [done|].
  assert (existsb (λ s, negb (nonempty s)) (sorted_ids required) = true) by (apply List.existsb_exists; exists s; by rewrite E).
  congruence.
Qed.
Lemma classify_describes required usable at_ o :
  NoDup (usable.*1) → classify_inventory required usable at_ = Ok o → describes o required usable.
Proof.
  intros Hn (-> & He & _ & Hs)%classify_ok. unfold describes. cbn.
  assert (∀ s, s ∈ sorted_ids (filter (λ s, s ∉ usable.*1) (sorted_ids required)) ↔ s ∈ required ∧ s ∉ usable.*1) as Hm.
  { intros s. rewrite elem_of_sorted_ids, list_elem_of_filter, elem_of_sorted_ids. naive_solver. }
  split_and!; [intros s; apply elem_of_sorted_ids|done|exact Hm| |].
  - rewrite empty_iff. unfold inventory_status. case_bool_decide as Hl.
    + apply as_many_is_all in Hl; [|done|apply NoDup_sorted_ids|done]. split; [|done]. intros _ s [Hr Hu]%Hm.
      by apply Hu, Hl, elem_of_sorted_ids.
    + split; [case_bool_decide; discriminate|]. intros Hno. destruct Hl. apply as_many_is_all; [done|apply NoDup_sorted_ids|done|].
      intros s Hr. destruct (decide (s ∈ usable.*1)) as [|Hu]; [done|]. destruct (Hno s). apply Hm. split; [by apply elem_of_sorted_ids|done].
  - unfold inventory_status. case_bool_decide as Hl.
    + split; [done|]. intros ->. destruct (sorted_ids required); [done|]. by cbn in Hl.
    + case_bool_decide as Hu; [by apply fmap_nil_inv in Hu|]. split; [done|]. by intros ->.
Qed.
(** Complete and partial observations are what attestations accept. *)
Lemma classify_valid required usable at_ o :
  NoDup (usable.*1) → classify_inventory required usable at_ = Ok o → ob_status o ≠ "unavailable" →
  valid_inventory (ob_status o) (ob_missing o) = true.
Proof.
  intros Hn Hc Hu. destruct (classify_describes _ _ _ _ Hn Hc) as (_ & _ & Hm & Hcomp & _).
  destruct (classify_ok _ _ _ _ Hc) as (Ho & _ & Hne & _). unfold valid_inventory. rewrite !andb_true_iff. split_and!.
  - apply bool_decide_eq_true. rewrite Ho in Hu |- *. cbn in *. unfold inventory_status in *.
    repeat case_bool_decide; [by left|done|by right; left].
  - apply List.forallb_forall. intros s [Hr _]%list_elem_of_In%Hm. rewrite Forall_forall in Hne. by apply Hne, elem_of_sorted_ids.
  - rewrite Ho. cbn. unfold sorted_ids at 1. apply strictly_sorted_strong; [apply (NoDup_sorted_ids _)|apply (StronglySorted_merge_sort String.le)].
  - apply negb_true_iff, andb_false_iff. case_bool_decide; [right|by left]. apply negb_false_iff, bool_decide_eq_true. by apply Hcomp.
  - apply negb_true_iff, andb_false_iff. case_bool_decide as Hp; [right|by left]. apply bool_decide_eq_false.
    intros He%Hcomp. congruence.
Qed.
(** The order the sources, and their records, are given in is immaterial. *)
Lemma classify_order required required' usable usable' at_ :
  NoDup (usable.*1) → (∀ s, s ∈ required ↔ s ∈ required') → usable ≡ₚ usable' →
  classify_inventory required usable at_ = classify_inventory required' usable' at_.
Proof.
  intros Hn Hr Hp. unfold classify_inventory. rewrite (sorted_ids_perm required required' Hr).
  rewrite (sort_keys_unique usable usable' Hn Hp). set (r := sorted_ids required').
  assert (subset_of (usable.*1) r = subset_of (usable'.*1) r) as ->.
  { apply eq_true_iff_eq. rewrite !subset_of_spec. by rewrite Hp. }
  assert (sorted_ids (filter (λ s, s ∉ usable.*1) r) = sorted_ids (filter (λ s, s ∉ usable'.*1) r)) as ->.
  { apply sorted_ids_perm. intros s. rewrite !list_elem_of_filter. by rewrite Hp. }
  assert (inventory_status r (usable.*1) = inventory_status r (usable'.*1)) as ->; [|done].
  unfold inventory_status. rewrite (Permutation_length (fmap_Permutation fst _ _ Hp)).
  assert (bool_decide (usable.*1 = []) = bool_decide (usable'.*1 = [])) as ->; [|done].
  apply bool_decide_ext. rewrite !empty_iff. by setoid_rewrite Hp.
Qed.

(** what a classification reports: the required sources, exactly the missing
    ones, complete when none is missing and unavailable when none is usable, and
    otherwise a status and a missing set the attestation contract accepts;
    neither it nor its semantic hash depends on the order of the sources. *)
Lemma inventory_classified required usable at_ o required' usable' :
  NoDup (usable.*1) → classify_inventory required usable at_ = Ok o →
  describes o required usable ∧ (ob_status o ≠ "unavailable" → valid_inventory (ob_status o) (ob_missing o) = true) ∧
  ((∀ s, s ∈ required ↔ s ∈ required') → usable ≡ₚ usable' → classify_inventory required' usable' at_ = Ok o).
Proof.
  intros Hn Hc. split; [by eapply classify_describes|]. split; [by eapply classify_valid|].
  intros Hr Hp. by rewrite <- (classify_order required required' usable usable').
Qed.
End inventory.

(** C10: local CI is admitted only for a repository the registry names with a
    complete trust policy and authority, for an event that is neither external
    nor Dependabot's, with a valid attestation and an inventory observed at most
    five minutes ago that is not unavailable; everything else, an unknown
    repository first, runs on GitHub. *)
Theorem local_admission raw registry repository config now inventory attested external dependabot signals decision :
  from_json raw = Ok registry → resolve registry repository = Ok config →
  evaluate_execution_trust config now inventory attested external dependabot signals = Ok decision →
  backend decision = (if local_eligible decision then "local" else "github") ∧
  (local_eligible decision = true ↔
   registry !! repository = Some config ∧
   (∃ trust authority, execution_trust config = Some trust ∧ Registry.authority config = Some authority ∧ exact_local trust authority) ∧
   external = false ∧ dependabot = false ∧ attested = true ∧
   ∃ o, inventory = Some o ∧ ob_status o ≠ "unavailable" ∧ is_fresh o now = Ok true).
Proof.
  intros Hj Hres. pose proof (from_json_wf _ _ Hj) as Hwf. pose proof (resolve_wf _ _ _ Hwf Hres) as (_ & _ & _ & Hc).
  unfold resolve in Hres. apply result_bind_ok in Hres as (? & _ & [= Hres]).
  unfold evaluate_execution_trust. case_bool_decide as Hr; cbn [negb].
  2: { intros [= <-]. cbn. split; [done|]. split; [done|]. intros (_ & (trust & authority & Ht & Ha & _) & _).
       rewrite Ht, Ha in Hc. by destruct Hc. }
  destruct (execution_trust config) as [trust|] eqn:Et, (Registry.authority config) as [auth|] eqn:Ea; try done.
  2: { by rewrite Hc in Hr. }
  assert (registry !! repository = Some config) as Hin.
  { destruct (registry !! repository); cbn in Hres; subst; [done|]. by cbn in Et. }
  destruct Hc as [_ Hx]. pose proof Hx as (_ & Hex & _). apply Forall_cons in Hex as [_ Hex]. apply Forall_cons in Hex as [Hmode _].
  cbn [fst snd] in Hmode.
  destruct external, dependabot; cbn [orb]; try by (intros [= <-]; split; [done|]; split; [done|intros (_&_&?&?&_); done]).
  rewrite Hmode. cbn [negb]. destruct inventory as [o|]; [|intros [= <-]; split; [done|]; split; [done|by intros (_&_&_&_&_&?&?&_)]].
  case_bool_decide as Hu; [intros [= <-]; split; [done|]; split; [done|by intros (_&_&_&_&_&?&[= <-]&?&_)]|].
  intros H. apply result_bind_ok in H as (fresh & Hf & H).
  destruct fresh, attested; cbn [negb] in H; injection H as <-; (split; [done|]); split; try done.
  - intros _. split_and!; [done|by eexists _, _|done|done|done|]. by exists o.
  - by intros (_&_&_&_&?&_).
  - intros (_&_&_&_&_&?&[= <-]&_&?). congruence.
  - by intros (_&_&_&_&?&_).
Qed.

(** The semantic hash is of [json.dumps] with sorted keys, which is not the JCS
    text when keys leave the basic plane. *)
Definition high_keys : pyval := VDict [(utf8_encode 65536, VNone); (utf8_encode 57344, VNone)].
Lemma hashed_text_is_not_jcs : canonicalize_jcs high_keys ≠ Ok (json_dumps high_keys).
Proof. vm_compute. discriminate. Qed.

(** ** A toy registry *)
Definition toy_trust : dict :=
  exact_trust ++ [("key_manifest_generation", VInt 1); ("key_manifest_digest", VStr (hex_of "a" 64));
    ("offline_root_public_fingerprint", VStr (hex_of "b" 64)); ("public_key_fingerprint", VStr (hex_of "c" 64));
    ("public_key_id", VStr "alpha")].
Definition toy_registry_authority : dict := [("kind", VStr "personal-repository"); ("installation_id", VInt 7)].
Definition toy_registry_text : string := Eval vm_compute in json_dumps (VDict
  [("registry_schema_version", VInt 1);
   ("repositories", VDict [("octo/repo", VDict [("ci_runner", VStr LOCAL_WITH_FALLBACK); ("ai_reviewer", VStr "disabled");
      ("execution_trust", VDict toy_trust); ("authority", VDict toy_registry_authority)])])]).
Definition toy_registry : Registry := result_or ∅ (from_json toy_registry_text).
Definition toy_local_config : RepositoryConfig := result_or (hosted "octo/repo") (resolve toy_registry "octo/repo").
Definition toy_usable : Usable := [("rulesets", []); ("collaborators", [VDict [("id", VInt 1)]])].
Definition toy_required : list string := ["rulesets"; "teams"; "collaborators"; "rulesets"].
Definition toy_observed : datetime := utc (minutes 1000).
Definition toy_observation : Observation :=
  result_or {| ob_status := ""; ob_required := []; ob_missing := []; ob_records := []; ob_observed_at := toy_observed; ob_semantic_hash := "" |}
    (classify_inventory (D := ToyDigest) toy_required toy_usable toy_observed).
Definition toy_decide (repository : string) (now : datetime) : result ExecutionDecision :=
  config ← resolve toy_registry repository;
  evaluate_execution_trust config now (Some toy_observation) true false false ["collaborates often"].
Example toy_routes :
  (backend <$> toy_decide "octo/repo" (utc (minutes 1005)), backend <$> toy_decide "octo/repo" (utc (minutes 1005 + 1)),
   backend <$> toy_decide "octo/other" (utc (minutes 1005))) = (Ok "local", Ok "github", Ok "github").
Proof. vm_compute. reflexivity. Qed.

Lemma local_admission_witness :
  ∃ config : RepositoryConfig, resolve toy_registry "octo/repo" = Ok config ∧ toy_registry !! "octo/repo" = Some config.
Proof.
  exists toy_local_config. split; [vm_compute; reflexivity|].
  assert (from_json toy_registry_text = Ok toy_registry) as H1 by (vm_compute; reflexivity).
  assert (resolve toy_registry "octo/repo" = Ok toy_local_config) as H2 by (vm_compute; reflexivity).
  assert (evaluate_execution_trust toy_local_config (utc (minutes 1005)) (Some toy_observation) true false false [] =
    Ok {| backend := "local"; local_eligible := true; ed_reason := "exact-sha-attestation-and-fresh-negative-guard" |}) as H3
    by (vm_compute; reflexivity).
  exact (proj1 (proj1 (proj2 (local_admission toy_registry_text toy_registry "octo/repo" toy_local_config (utc (minutes 1005))
    (Some toy_observation) true false false [] _ H1 H2 H3)) eq_refl)).
Defined.

Lemma inventory_classified_witness :
  ob_status toy_observation = "partial" ∧ valid_inventory (ob_status toy_observation) (ob_missing toy_observation) = true ∧
  classify_inventory (D := ToyDigest) ["teams"; "collaborators"; "rulesets"] (reverse toy_usable) toy_observed = Ok toy_observation.
Proof.
  assert (NoDup (toy_usable.*1)) as Hn by (repeat constructor; set_solver).
  assert (classify_inventory (D := ToyDigest) toy_required toy_usable toy_observed = Ok toy_observation) as Hc by (vm_compute; reflexivity).
  destruct (inventory_classified (D := ToyDigest) toy_required toy_usable toy_observed toy_observation
    ["teams"; "collaborators"; "rulesets"] (reverse toy_usable) Hn Hc) as (_ & Hv & Ho).
  split; [vm_compute; reflexivity|]. split.
  - apply Hv. vm_compute. discriminate.
  - apply Ho; [|symmetry; apply reverse_Permutation]. intros s. unfold toy_required. rewrite !elem_of_cons. tauto.
Defined.
