(* ===== verification/SigningRequest.v ===== *)
(** * Bounded signing requests (approval.py)

    What an out-of-repository signing helper may accept, the procedural policy
    over it, the target it resolves to, and the audit record, which projects the
    request on fixed fields. *)

From S2P Require Import Prelude PyValue PyText Json Digest Jcs.
#[local] Open Scope Z_scope.

Definition refuse {A} (msg : string) : result A := throw ApprovalContractError msg.
Definition refuse_when (b : bool) (msg : string) : result unit := check b ApprovalContractError msg.

Record BoundedSigningRequest := {
  sr_repository_id : string;
  sr_repository : string;
  sr_pr_number : Z;
  sr_head_sha : string;
  sr_linkage : string;                        (* request_linkage_hash *)
  sr_expected_generation : option string;     (* expected_head_generation *)
}.

Definition required_fields : list string := ["repository_id"; "repository"; "pr_number"; "head_sha"; "request_linkage_hash"].
Definition optional_fields : list string := ["expected_head_generation"].

(** [BoundedSigningRequest.validate] *)
Definition validate_signing_request (value : pyval) : result BoundedSigningRequest :=
  match value with
  | VDict d =>
      refuse_when (negb (subset_of required_fields (dkeys d)) || negb (subset_of (dkeys d) (required_fields ++ optional_fields)))
        "signing request has missing or forbidden fields";;
      match dget "repository_id" d with
      | VStr repository_id =>
          refuse_when (negb (is_canonical_positive repository_id)) "repository_id must be a canonical positive string";;
          match dget "repository" d with
          | VStr repository =>
              refuse_when (negb (is_repository repository)) "repository must be one exact owner/repo";;
              match dget "pr_number" d with
              | VInt pr_number =>
                  refuse_when (pr_number <? 1) "pr_number must identify one exact PR";;
                  match dget "head_sha" d with
                  | VStr head_sha =>
                      refuse_when (negb (is_sha1 head_sha)) "head_sha must identify one resolved current head";;
                      match dget "request_linkage_hash" d with
                      | VStr linkage =>
                          refuse_when (negb (is_sha256 linkage)) "request linkage must be an opaque SHA-256 value";;
                          expected ← match dget "expected_head_generation" d with
                                     | VNone => Ok None
                                     | VStr g =>
                                         refuse_when (negb (is_canonical_positive g))
                                           "expected_head_generation must be canonical when supplied";;
                                         Ok (Some g)
                                     | _ => refuse "expected_head_generation must be canonical when supplied"
                                     end;
                          Ok {| sr_repository_id := repository_id; sr_repository := repository; sr_pr_number := pr_number;
                                sr_head_sha := head_sha; sr_linkage := linkage; sr_expected_generation := expected |}
                      | _ => refuse "request linkage must be an opaque SHA-256 value"
                      end
                  | _ => refuse "head_sha must identify one resolved current head"
                  end
              | _ => refuse "pr_number must identify one exact PR"
              end
          | _ => refuse "repository must be one exact owner/repo"
          end
      | _ => refuse "repository_id must be a canonical positive string"
      end
  | _ => refuse "signing request must be a typed object"
  end.

Definition opt_str (o : option string) : pyval := match o with Some s => VStr s | None => VNone end.
Definition target_mapping (r : BoundedSigningRequest) : dict :=
  [("repository_id", VStr (sr_repository_id r)); ("repository", VStr (sr_repository r)); ("pr_number", VInt (sr_pr_number r));
   ("head_sha", VStr (sr_head_sha r)); ("expected_head_generation", opt_str (sr_expected_generation r))].

Record ProceduralApprovalContext := {
  explicit_same_thread_request : bool;
  requested_target_count : pyval;
  requested_scope : string;
  references_future_head : bool;
}.
Record ApprovalAuditRecord := {
  au_linkage : option string; au_target : option dict; au_outcome : string; au_reason : string;
}.
Definition audit_mapping (a : ApprovalAuditRecord) : dict :=
  [("request_linkage_hash", opt_str (au_linkage a)); ("target", match au_target a with Some t => VDict t | None => VNone end);
   ("outcome", VStr (au_outcome a)); ("reason", VStr (au_reason a))].
Record ApprovalDecision := { ad_allowed : bool; ad_request : option BoundedSigningRequest; ad_audit : ApprovalAuditRecord }.

(** The first condition of the policy that does not hold. *)
Definition denial (c : ProceduralApprovalContext) : option string :=
  if negb (explicit_same_thread_request c) then Some "no_explicit_same_thread_request"
  else if negb (match requested_target_count c with VInt n => n =? 1 | _ => false end) then Some "request_is_not_one_exact_target"
  else if negb (bool_decide (requested_scope c = "exact-pr-head")) then Some "blanket_or_non_exact_scope"
  else if references_future_head c then Some "future_head_request"
  else None.

Definition raw_linkage (raw : pyval) : option string :=
  match raw with
  | VDict d => match dget "request_linkage_hash" d with VStr s => if is_sha256 s then Some s else None | _ => None end
  | _ => None
  end.
Definition evaluate_signing_request (raw : pyval) (context : ProceduralApprovalContext) : ApprovalDecision :=
  match validate_signing_request raw with
  | Raise _ =>
      {| ad_allowed := false; ad_request := None;
         ad_audit := {| au_linkage := raw_linkage raw; au_target := None; au_outcome := "denied"; au_reason := "invalid_bounded_request" |} |}
  | Ok request =>
      let denied := denial context in
      {| ad_allowed := match denied with None => true | Some _ => false end;
         ad_request := match denied with None => Some request | Some _ => None end;
         ad_audit := {| au_linkage := Some (sr_linkage request); au_target := Some (target_mapping request);
                        au_outcome := match denied with None => "accepted" | Some _ => "denied" end;
                        au_reason := default "bounded_exact_target_accepted" denied |} |}
  end.

Record ResolvedSigningTarget := {
  rt_repository_id : string; rt_repository : string; rt_pr_number : Z; rt_head_sha : string; rt_generation : string;
}.
Definition resolve_signing_target (request : BoundedSigningRequest) (repository_id repository : string) (pr_number : Z)
    (head_sha : string) (generation : pyval) : result ResolvedSigningTarget :=
  refuse_when (negb (bool_decide ((repository_id, repository, pr_number, head_sha)
                = (sr_repository_id request, sr_repository request, sr_pr_number request, sr_head_sha request))))
    "GitHub target changed or did not resolve exactly";;
  match generation with
  | VStr g =>
      refuse_when (negb (is_canonical_positive g)) "GateStore head generation is unavailable or invalid";;
      refuse_when (match sr_expected_generation request with Some e => negb (bool_decide (e = g)) | None => false end)
        "expected head generation does not match GateStore";;
      Ok {| rt_repository_id := repository_id; rt_repository := repository; rt_pr_number := pr_number; rt_head_sha := head_sha;
            rt_generation := g |}
  | _ => refuse "GateStore head generation is unavailable or invalid"
  end.

(** The domain ends in a zero byte. *)
Definition LINKAGE_DOMAIN : string := "github-automation/request-linkage/v1" +:+ String (Ascii.ascii_of_N 0) EmptyString.
Definition opaque_request_linkage_hash {D : Digest} (thread_id turn_id : pyval) : result string :=
  match thread_id, turn_id with
  | VStr thread, VStr turn =>
      refuse_when (negb (nonempty thread) || negb (nonempty turn)) "opaque thread and turn identifiers are required";;
      text ← canonicalize_jcs (VDict [("thread_id", VStr thread); ("turn_id", VStr turn)]);
      Ok (sha256_hex (LINKAGE_DOMAIN +:+ text))
  | _, _ => refuse "opaque thread and turn identifiers are required"
  end.

(** ** What is signed is what was asked, and what is recorded says no more *)

Definition wf_request (r : BoundedSigningRequest) : Prop :=
  is_canonical_positive (sr_repository_id r) = true ∧ is_repository (sr_repository r) = true ∧ 1 ≤ sr_pr_number r ∧
  is_sha1 (sr_head_sha r) = true ∧ is_sha256 (sr_linkage r) = true ∧
  match sr_expected_generation r with Some g => is_canonical_positive g = true | None => True end.
(** The document a request was read from. *)
Definition requests (d : dict) (r : BoundedSigningRequest) : Prop :=
  dget "repository_id" d = VStr (sr_repository_id r) ∧ dget "repository" d = VStr (sr_repository r) ∧
  dget "pr_number" d = VInt (sr_pr_number r) ∧ dget "head_sha" d = VStr (sr_head_sha r) ∧
  dget "request_linkage_hash" d = VStr (sr_linkage r) ∧ dget "expected_head_generation" d = opt_str (sr_expected_generation r).

Lemma refuse_when_ok b msg u : refuse_when b msg = Ok u → b = false.
Proof. unfold refuse_when. by intros ?%check_ok. Qed.
Lemma validate_signing_request_ok value r : validate_signing_request value = Ok r → wf_request r ∧ ∃ d, value = VDict d ∧ requests d r.
Proof.
  unfold validate_signing_request, requests. destruct value as [| | | | |d]; try discriminate. intros H.
  apply result_bind_ok in H as (? & _ & H).
  destruct (dget "repository_id" d) as [| | |id| |] eqn:E1; try discriminate. apply result_bind_ok in H as (? & H1%refuse_when_ok & H).
  destruct (dget "repository" d) as [| | |name| |] eqn:E2; try discriminate. apply result_bind_ok in H as (? & H2%refuse_when_ok & H).
  destruct (dget "pr_number" d) as [| |n| | |] eqn:E3; try discriminate. apply result_bind_ok in H as (? & H3%refuse_when_ok & H).
  destruct (dget "head_sha" d) as [| | |sha| |] eqn:E4; try discriminate. apply result_bind_ok in H as (? & H4%refuse_when_ok & H).
  destruct (dget "request_linkage_hash" d) as [| | |linkage| |] eqn:E5; try discriminate. apply result_bind_ok in H as (? & H5%refuse_when_ok & H).
  apply negb_false_iff in H1, H2, H4, H5. apply Z.ltb_ge in H3. apply result_bind_ok in H as (expected & He & [= <-]).
  assert (dget "expected_head_generation" d = opt_str expected ∧ match expected with Some g => is_canonical_positive g = true | None => True end)
    as [Hexp Hg].
  { destruct (dget "expected_head_generation" d) as [| | |g| |]; try discriminate; [injection He as <-; by split|].
    apply result_bind_ok in He as (? & Hg%refuse_when_ok%negb_false_iff & [= <-]). done. }
  split; [by split_and!|]. exists d. by rewrite E1, E2, E3, E4, E5, Hexp.
Qed.

(** a signing request is allowed exactly when it is well formed and the
    agent asserted an explicit request, in the same thread, for one exact pull
    request head that is not a future one; what is handed on is the request
    itself, and the audit record holds nothing else of the caller's input than
    a SHA-256 linkage and, of a valid request, the five fields of its target. *)
Lemma signing_request_bounded raw context :
  let decision := evaluate_signing_request raw context in
  (ad_allowed decision = true ↔
   (∃ d r, raw = VDict d ∧ validate_signing_request raw = Ok r ∧ requests d r ∧ wf_request r ∧ ad_request decision = Some r) ∧
   explicit_same_thread_request context = true ∧ requested_target_count context = VInt 1 ∧
   requested_scope context = "exact-pr-head" ∧ references_future_head context = false) ∧
  (ad_allowed decision = false → ad_request decision = None ∧ au_outcome (ad_audit decision) = "denied") ∧
  match au_linkage (ad_audit decision) with Some s => is_sha256 s = true | None => True end ∧
  match au_target (ad_audit decision) with
  | Some t => ∃ r, validate_signing_request raw = Ok r ∧ t = target_mapping r
  | None => is_ok (validate_signing_request raw) = false
  end.
Proof.
  cbn zeta. unfold evaluate_signing_request. destruct (validate_signing_request raw) as [r|e] eqn:E; cbn.
  - destruct (validate_signing_request_ok _ _ E) as [Hw (d & -> & Hd)]. split_and!; [|by destruct (denial context)|apply Hw|by exists r].
    unfold denial. destruct (explicit_same_thread_request context); cbn; [|by split; [|intros (_&?&_)]].
    destruct (requested_target_count context) as [| |n| | |]; cbn; try by (split; [|intros (_&_&?&_)]).
    destruct (n =? 1) eqn:En; cbn; [apply Z.eqb_eq in En as ->|by split; [|intros (_&_&[= ->]&_)]].
    case_bool_decide; cbn; [|by split; [|intros (_&_&_&?&_)]].
    destruct (references_future_head context); [by split; [|intros (_&_&_&_&?)]|].
    split; [|done]. intros _. split_and!; try done. by exists d, r.
  - split_and!; [by split; [|intros ((? & ? & _ & ? & _) & _)]|done| |done]. unfold raw_linkage.
    destruct raw as [| | | | |d]; try done. destruct (dget "request_linkage_hash" d) as [| | |s| |]; try done.
    by destruct (is_sha256 s) eqn:Es.
Qed.

(** What is resolved for signing is the requested target, at the generation the
    gate store reports, which the request may only confirm. *)
Lemma resolved_is_requested request id name pr sha generation t :
  resolve_signing_target request id name pr sha generation = Ok t →
  t = {| rt_repository_id := sr_repository_id request; rt_repository := sr_repository request; rt_pr_number := sr_pr_number request;
         rt_head_sha := sr_head_sha request; rt_generation := rt_generation t |} ∧
  generation = VStr (rt_generation t) ∧ is_canonical_positive (rt_generation t) = true ∧
  (sr_expected_generation request = None ∨ sr_expected_generation request = Some (rt_generation t)).
Proof.
  unfold resolve_signing_target. intros H. apply result_bind_ok in H as (? & Hsame%refuse_when_ok%negb_false_iff & H).
  apply bool_decide_eq_true in Hsame as [= -> -> -> ->]. destruct generation as [| | |g| |]; try discriminate.
  apply result_bind_ok in H as (? & Hg%refuse_when_ok%negb_false_iff & H). apply result_bind_ok in H as (? & He%refuse_when_ok & [= <-]).
  cbn. split_and!; [done..|]. destruct (sr_expected_generation request) as [e|]; [right|by left].
  apply negb_false_iff, bool_decide_eq_true in He. by subst.
Qed.
