(* ===== verification/CheckDelivery.v ===== *)
(** * Delivery of a Check Run (check_delivery.py)

    One PATCH whose outcome may stay unknown, and the exact read-back that
    reconciles it.  The transport is a class; the law it keeps is that a write
    is whole or absent and keeps the head of the Check Run, that it is not
    accepted for another head, and that a read tells the state.  GitHubAdapter implements it over HTTP. *)

From S2P Require Import Prelude PyValue.
#[local] Open Scope Z_scope.

Record CheckDelivery := { cd_check_run_id : Z; cd_evidence_digest : string; cd_conclusion : string; cd_target_sha : string }.
Definition delivery_marker (d : CheckDelivery) : string := "github-automation-evidence:" +:+ cd_evidence_digest d.
Definition delivery_payload (d : CheckDelivery) : dict :=
  [("conclusion", VStr (cd_conclusion d)); ("head_sha", VStr (cd_target_sha d)); ("external_id", VStr (delivery_marker d))].

Class CheckTransport (G : Type) := {
  patch_exact : Z → dict → M G unit;
  get_exact : Z → M G dict;
}.

(** The read-back of a write whose outcome is unknown. *)
Definition reconcile_read (d : CheckDelivery) (ambiguous : exn) (observed : dict) : result string :=
  check (negb (py_eq (dget "id" observed) (VInt (cd_check_run_id d)))) CheckDeliveryError "read-back did not return the exact Check Run";;
  if py_eq (dget "external_id" observed) (VStr (delivery_marker d)) then
    check (negb (py_eq (dget "head_sha" observed) (VStr (cd_target_sha d)))
           || negb (py_eq (dget "conclusion" observed) (VStr (cd_conclusion d)))) CheckEvidenceConflict
      "evidence marker matched but Check fields conflict";;
    Ok "reconciled"
  else if py_truthy (dget "external_id" observed) then
    throw CheckEvidenceConflict "exact Check Run contains different evidence"
  else Raise ambiguous.

Definition is_ambiguous (c : exn_class) : bool := bool_decide (c = AmbiguousCheckWrite).
Definition deliver_exact {G} `{CheckTransport G} (d : CheckDelivery) : M G string :=
  catching is_ambiguous
    (patch_exact (cd_check_run_id d) (delivery_payload d);; mret "delivered")
    (λ e, observed ← get_exact (cd_check_run_id d); lift (reconcile_read d e observed)).

(** ** The Check Runs at GitHub *)

(** What is stored under an identifier: conclusion, head and external identity,
    which of a Check Run without evidence is absent. *)
Definition Stored := (pyval * pyval * pyval)%type.
Definition stored_delivery (d : CheckDelivery) : Stored := (VStr (cd_conclusion d), VStr (cd_target_sha d), VStr (delivery_marker d)).
Definition read_fields (observed : dict) : Stored := (dget "conclusion" observed, dget "head_sha" observed, dget "external_id" observed).
(** An update names no head: the one of the Check Run stays. *)
Definition rewritten (payload : dict) (before : Stored) : Stored := (dget "conclusion" payload, before.1.2, dget "external_id" payload).

Class CheckServer (G : Type) `{CheckTransport G} := {
  stored : Z → G → Stored;
  patch_whole id payload g :
    let '(r, g') := patch_exact id payload g in
    (∀ id', id' ≠ id → stored id' g' = stored id' g) ∧
    match r with
    | Ok _ => stored id g' = rewritten payload (stored id g) ∧ py_eq (stored id g).1.2 (dget "head_sha" payload) = true
    | Raise e => stored id g' = stored id g ∨ stored id g' = rewritten payload (stored id g) ∧ exn_cls e = AmbiguousCheckWrite
    end;
  get_tells id g :
    let '(r, g') := get_exact id g in
    (∀ id', stored id' g' = stored id' g) ∧
    match r with Ok observed => read_fields observed = stored id g | Raise _ => True end;
}.

Section delivery.
Context {G : Type} {T : CheckTransport G} {Srv : CheckServer G}.
Implicit Types d : CheckDelivery.

Lemma reconcile_ok d e observed s :
  reconcile_read d e observed = Ok s → s = "reconciled" ∧ read_fields observed = stored_delivery d.
Proof.
  unfold reconcile_read, read_fields, stored_delivery. intros H. apply result_bind_ok in H as (? & _ & H).
  destruct (py_eq (dget "external_id" observed) (VStr (delivery_marker d))) eqn:Em; [|by destruct (py_truthy _)].
  apply result_bind_ok in H as (? & [Hh Hc]%check_ok%orb_false_iff & [= <-]). split; [done|].
  apply negb_false_iff, py_eq_str in Hh, Hc. apply py_eq_str in Em. by rewrite Hh, Hc, Em.
Qed.
(** A write still unknown after the read-back was not made. *)
Lemma reconcile_ambiguous d e observed :
  exn_cls e = AmbiguousCheckWrite → reconcile_read d e observed = Raise e →
  py_truthy (dget "external_id" observed) = false.
Proof.
  intros He. assert (∀ c msg, throw (A := string) c msg = Raise e → c = AmbiguousCheckWrite) as Hne.
  { intros c msg [= <-]. exact He. }
  unfold reconcile_read. destruct (negb (py_eq (dget "id" _) _)); [by intros ?%Hne|].
  cbn [check mbind result_bind]. destruct (py_eq _ (VStr (delivery_marker d))).
  - destruct (_ || _); [by intros ?%Hne|done].
  - destruct (py_truthy (dget "external_id" observed)); [by intros ?%Hne|done].
Qed.

(** A delivery touches only its Check Run, which afterwards is as it was or carries
    exactly the delivered evidence on the head it has; when the delivery succeeds
    that head is the delivered one, and when its outcome is still unknown after
    the read-back nothing was written, so repeating it is safe. *)
Lemma delivery_effectively_once d g r g' :
  deliver_exact d g = (r, g') →
  (∀ id, id ≠ cd_check_run_id d → stored id g' = stored id g) ∧
  (stored (cd_check_run_id d) g' = stored (cd_check_run_id d) g ∨
   stored (cd_check_run_id d) g' = rewritten (delivery_payload d) (stored (cd_check_run_id d) g)) ∧
  match r with
  | Ok s => s ∈ ["delivered"; "reconciled"] ∧ stored (cd_check_run_id d) g' = stored_delivery d
  | Raise e => ∀ g1, patch_exact (cd_check_run_id d) (delivery_payload d) g = (Raise e, g1) → exn_cls e = AmbiguousCheckWrite →
      is_ok (get_exact (cd_check_run_id d) g1).1 = true → stored (cd_check_run_id d) g' = stored (cd_check_run_id d) g
  end.
Proof.
  set (id := cd_check_run_id d). unfold deliver_exact, catching, mbind, M_bind. fold id.
  pose proof (patch_whole id (delivery_payload d) g) as Hp. destruct (patch_exact id (delivery_payload d) g) as [[[]|e] g1] eqn:E1.
  - destruct Hp as [Ho [Hp Hh%py_eq_str]]. unfold mret, M_ret. intros [= <- <-]. split; [done|]. split; [by right|]. split; [by left|].
    rewrite Hp. unfold rewritten. by rewrite Hh.
  - destruct Hp as [Ho Hp]. unfold is_ambiguous. destruct (bool_decide (exn_cls e = AmbiguousCheckWrite)) eqn:Ea; cbn [andb].
    2: { intros [= <- <-]. apply bool_decide_eq_false in Ea. assert (stored id g1 = stored id g) as Hsame by (destruct Hp as [|[_ ?]]; done).
         split_and!; [done|by left|]. intros g2 _ ?. done. }
    apply bool_decide_eq_true in Ea. rewrite bool_decide_false by (intros ->; discriminate). cbn [negb].
    assert (stored id g1 = stored id g ∨ stored id g1 = rewritten (delivery_payload d) (stored id g)) as Hw by (destruct Hp as [|[? _]]; [by left|by right]).
    pose proof (get_tells id g1) as Hg. destruct (get_exact id g1) as [[observed|e'] g2] eqn:E2; destruct Hg as [Hk Hg].
    + unfold lift. intros [= <- <-]. rewrite !Hk. split; [intros id' Hne; rewrite Hk; by apply Ho|]. split; [exact Hw|].
      destruct (reconcile_read d e observed) as [s|e'] eqn:Er.
      * destruct (reconcile_ok _ _ _ _ Er) as [-> Hs]. split; [by right; left|]. by rewrite <- Hg.
      * intros g3 [= -> <-] He _. pose proof (reconcile_ambiguous _ _ _ He Er) as Hf.
        destruct Hw as [Hw|Hw]; [done|]. rewrite Hw in Hg. unfold read_fields, rewritten in Hg. injection Hg as _ _ Hm.
        by rewrite Hm in Hf.
    + intros [= <- <-]. rewrite !Hk. split; [intros id' Hne; rewrite Hk; by apply Ho|]. split; [exact Hw|].
      intros g3 [= -> <-] _. by rewrite E2.
Qed.
End delivery.

(** ** A toy server

    It may lose the answer to a write before or after making it. *)
Inductive Weather := Calm | LostAnswer | LostWrite.
Record ToyServer := { ts_weather : Weather; ts_stored : Stored }.
#[local] Instance ToyCheckTransport : CheckTransport ToyServer := {|
  patch_exact id payload g :=
    if negb (id =? 5) then (throw CheckDeliveryError "no such Check Run", g)
    else match ts_weather g with
         | Calm =>
             (if py_eq (ts_stored g).1.2 (dget "head_sha" payload) then Ok tt else throw AmbiguousCheckWrite "another head",
              {| ts_weather := Calm; ts_stored := rewritten payload (ts_stored g) |})
         | LostAnswer => (throw AmbiguousCheckWrite "timed out", {| ts_weather := LostAnswer; ts_stored := rewritten payload (ts_stored g) |})
         | LostWrite => (throw AmbiguousCheckWrite "timed out", g)
         end;
  get_exact id g :=
    (if negb (id =? 5) then throw CheckDeliveryError "no such Check Run"
     else let '(conclusion, head, external) := ts_stored g in
          Ok [("id", VInt id); ("conclusion", conclusion); ("head_sha", head); ("external_id", external)], g);
|}.
#[local] Instance ToyChecks : CheckServer ToyServer.
Proof.
  refine {| stored id g := if id =? 5 then ts_stored g else (VNone, VNone, VNone) |}.
  - intros id payload g. unfold patch_exact, ToyCheckTransport. destruct (id =? 5) eqn:E; cbn [negb]; [|by split; [|left]].
    apply Z.eqb_eq in E as ->. destruct (ts_weather g); (split; [intros id' Hne; by rewrite (proj2 (Z.eqb_neq id' 5) Hne)|]); cbn; auto.
    destruct (py_eq _ _) eqn:Eh; cbn; auto.
  - intros id g. unfold get_exact, ToyCheckTransport. split; [done|]. destruct (id =? 5) eqn:E; cbn [negb]; [|done].
    destruct (ts_stored g) as [[conclusion head] external]. done.
Defined.

Definition toy_delivery : CheckDelivery :=
  {| cd_check_run_id := 5; cd_evidence_digest := "d"; cd_conclusion := "success"; cd_target_sha := "s" |}.
Definition toy_server (w : Weather) : ToyServer := {| ts_weather := w; ts_stored := (VNone, VStr "s", VNone) |}.
Lemma delivery_effectively_once_witness :
  (deliver_exact toy_delivery (toy_server LostAnswer)).1 = Ok "reconciled" ∧
  stored 5 (deliver_exact toy_delivery (toy_server LostAnswer)).2 = stored_delivery toy_delivery.
Proof.
  assert (deliver_exact toy_delivery (toy_server LostAnswer) =
    (Ok "reconciled", {| ts_weather := LostAnswer; ts_stored := stored_delivery toy_delivery |})) as H by (vm_compute; reflexivity).
  rewrite H. split; [reflexivity|].
  exact (proj2 (proj2 (proj2 (delivery_effectively_once toy_delivery (toy_server LostAnswer) _ _ H)))).
Defined.
