(* ===== verification/Observability.v ===== *)
(** * Redaction, the audit log, alerts and readiness (observability.py) *)

From S2P Require Import Prelude Datetime PyValue PyText Json Digest.
#[local] Open Scope Z_scope.

(** ** Redaction

    Text is matched code point by code point, without regard to case: besides
    the two cases of a letter, [re.IGNORECASE] lets the long s, the dotless and
    the dotted i and the Kelvin sign match s, i and k. *)
Definition REDACTED : string := "[REDACTED]".

Definition fold_case (n : N) : N :=
  if (65 <=? n)%N && (n <=? 90)%N then n + 32
  else if bool_decide (n ∈ [304; 305]%N) then 105
  else if (n =? 383)%N then 115
  else if (n =? 8490)%N then 107
  else n.
Definition is_letter (n : N) : bool := let n := fold_case n in (97 <=? n)%N && (n <=? 122)%N.
(** [[A-Za-z0-9_]] *)
Definition is_token_char (n : N) : bool := is_letter n || ((48 <=? n)%N && (n <=? 57)%N) || (n =? 95)%N.

(** The rest after a word, in lower case. *)
Fixpoint after_word (w t : list N) : option (list N) :=
  match w, t with
  | [], _ => Some t
  | a :: w, b :: t => if (fold_case b =? a)%N then after_word w t else None
  | _, [] => None
  end.
Definition word (s : string) : list N := code_points s.
Fixpoint contains_word (w t : list N) : bool :=
  match after_word w t with
  | Some _ => true
  | None => match t with [] => false | _ :: t => contains_word w t end
  end.

(** [_SECRET_KEY]; [private[_-]?key] is three words. *)
Definition secret_words : list string :=
  ["secret"; "token"; "password"; "privatekey"; "private_key"; "private-key"; "authorization"; "cookie"; "credential"].
Definition is_secret_key (key : string) : bool := existsb (λ w, contains_word (word w) (code_points key)) secret_words.

(** The longest run of a class, and what follows. *)
Fixpoint span_of (p : N → bool) (t : list N) : list N * list N :=
  match t with
  | [] => ([], [])
  | n :: t' => if p n then let '(a, b) := span_of p t' in (n :: a, b) else ([], t)
  end.
(** A prefix and a run of at least twenty token characters. *)
Definition after_token (prefix : string) (t : list N) : option (list N) :=
  t ← after_word (word prefix) t;
  let '(run, rest) := span_of is_token_char t in
  if (20 <=? length run)%nat then Some rest else None.
(** [Bearer\s+\S+] *)
Definition after_bearer (t : list N) : option (list N) :=
  t ← after_word (word "bearer") t;
  let '(blanks, t) := span_of py_is_space t in
  let '(run, rest) := span_of (λ n, negb (py_is_space n)) t in
  if (1 <=? length blanks)%nat && (1 <=? length run)%nat then Some rest else None.
(** [-----BEGIN [A-Z ]*PRIVATE KEY-----]: the run of letters and spaces ends
    before a dash, so what it ends with decides. *)
Definition after_private_key (t : list N) : option (list N) :=
  t ← after_word (word "-----begin ") t;
  let '(run, rest) := span_of (λ n, is_letter n || (n =? 32)%N) t in
  match after_word (rev (word "private key")) (rev run) with
  | Some _ => after_word (word "-----") rest
  | None => None
  end.
Definition token_prefixes : list string := ["gho_"; "ghp_"; "ghu_"; "ghs_"; "ghr_"; "github_pat_"].
Definition first_some {A} (l : list (option A)) : option A := foldr (λ o r, match o with Some a => Some a | None => r end) None l.
(** [_SECRET_VALUE.match] at a position: what follows the match. *)
Definition after_secret (t : list N) : option (list N) :=
  first_some (((λ p, after_token p t) <$> token_prefixes) ++ [after_bearer t; after_private_key t]).
(** [_SECRET_VALUE.search] *)
Fixpoint holds_secret (t : list N) : bool :=
  bool_decide (is_Some (after_secret t)) || match t with [] => false | _ :: t => holds_secret t end.

(** [_SECRET_VALUE.sub(REDACTED, value)]; every match is longer than nothing. *)
Fixpoint sub_secrets (fuel : nat) (t : list N) : list N :=
  match fuel with
  | O => t
  | S fuel =>
      match after_secret t with
      | Some rest => code_points REDACTED ++ sub_secrets fuel rest
      | None => match t with [] => [] | n :: t => n :: sub_secrets fuel t end
      end
  end.
Definition redact_points (t : list N) : list N := sub_secrets (S (length t)) t.
Definition text_of_points (l : list N) : string := foldr (λ n s, utf8_encode n +:+ s) "" l.
Definition redact_text (s : string) : string := text_of_points (redact_points (code_points s)).

Fixpoint redact (v : pyval) : pyval :=
  match v with
  | VDict d => VDict (List.map (λ kv, (kv.1, if is_secret_key kv.1 then VStr REDACTED else redact kv.2)) d)
  | VList l => VList (List.map redact l)
  | VStr s => VStr (redact_text s)
  | _ => v
  end.

(** *** No secret survives *)

Lemma first_some_none {A} (l : list (option A)) : first_some l = None ↔ Forall (λ o, o = None) l.
Proof.
  induction l as [|[a|] l IH]; cbn; [done|split; [done|by inversion 1]|].
  rewrite IH. split; [by constructor|by inversion 1].
Qed.
Lemma first_some_elem {A} (l : list (option A)) a : first_some l = Some a → Some a ∈ l.
Proof. induction l as [|[b|] l IH]; cbn; [done|intros [= ->]; left|intros ?; right; auto]. Qed.
(** A match is a token, a bearer credential or a private key. *)
Lemma after_secret_none t :
  after_secret t = None ↔ Forall (λ p, after_token p t = None) token_prefixes ∧ after_bearer t = None ∧ after_private_key t = None.
Proof.
  unfold after_secret. rewrite first_some_none, Forall_app, Forall_fmap, !Forall_cons. naive_solver.
Qed.
Lemma after_secret_some t r :
  after_secret t = Some r → (∃ p, p ∈ token_prefixes ∧ after_token p t = Some r) ∨ after_bearer t = Some r ∨ after_private_key t = Some r.
Proof.
  intros H%first_some_elem. apply elem_of_app in H as [(p & Hp & Hin)%list_elem_of_fmap|H]; [by left; exists p|].
  rewrite !elem_of_cons, elem_of_nil in H. naive_solver.
Qed.

Lemma after_word_length w t r : after_word w t = Some r → length t = (length w + length r)%nat.
Proof.
  revert t. induction w as [|a w IH]; intros [|b t]; cbn; try (by intros [= <-]); try done.
  destruct (fold_case b =? a)%N; [intros ->%IH; done|done].
Qed.
Lemma span_of_app p t : t = (span_of p t).1 ++ (span_of p t).2.
Proof. induction t as [|n t IH]; [done|]. cbn. destruct (p n); [|done]. destruct (span_of p t). cbn in *. by rewrite <- IH. Qed.
Lemma after_word_head a w t r : after_word (a :: w) t = Some r → ∃ n t', t = n :: t' ∧ fold_case n = a.
Proof. destruct t as [|n t]; cbn; [done|]. destruct (fold_case n =? a)%N eqn:E; [|done]. intros _. exists n, t. by apply N.eqb_eq in E. Qed.

(** A match begins with g, b or a dash, and is not empty. *)
Lemma after_secret_start t r :
  after_secret t = Some r → (length r < length t)%nat ∧ ∃ n t', t = n :: t' ∧ fold_case n ∈ [103; 98; 45]%N.
Proof.
  intros H. assert (∃ a w t', after_word (a :: w) t = Some t' ∧ a ∈ [103; 98; 45]%N ∧ length r ≤ length t')%nat as (a & w & t' & Hw & Ha & Hl).
  { destruct (after_secret_some _ _ H) as [(p & Hp & Ht)|[Hb|Hk]].
    - unfold after_token in Ht. destruct (after_word (word p) t) as [t'|] eqn:E; [|done]. cbn [mbind option_bind] in Ht.
      pose proof (span_of_app is_token_char t') as Hs. destruct (span_of is_token_char t') as [run rest]. destruct (20 <=? _)%nat; [|done].
      injection Ht as ->. apply (f_equal length) in Hs. rewrite length_app in Hs. cbn in Hs.
      assert (∃ w, word p = 103%N :: w) as [w Hw] by (unfold token_prefixes in Hp; rewrite !elem_of_cons, elem_of_nil in Hp;
        destruct Hp as [->|[->|[->|[->|[->|[->|[]]]]]]]; eexists; vm_compute; reflexivity).
      rewrite Hw in E. exists 103%N, w, t'. split_and!; [exact E|left|lia].
    - unfold after_bearer in Hb. change (word "bearer") with (98%N :: word "earer") in Hb.
      destruct (after_word _ t) as [t'|] eqn:E; [|done]. cbn [mbind option_bind] in Hb.
      pose proof (span_of_app py_is_space t') as Hs. destruct (span_of py_is_space t') as [blanks t2].
      pose proof (span_of_app (λ n, negb (py_is_space n)) t2) as Hs2. destruct (span_of _ t2) as [run rest]. destruct (_ && _); [|done].
      injection Hb as ->. apply (f_equal length) in Hs, Hs2. rewrite length_app in Hs, Hs2. cbn in Hs, Hs2.
      exists 98%N, (word "earer"), t'. split_and!; [exact E|right; left|lia].
    - unfold after_private_key in Hk. change (word "-----begin ") with (45%N :: word "----begin ") in Hk.
      destruct (after_word _ t) as [t'|] eqn:E; [|done]. cbn [mbind option_bind] in Hk.
      pose proof (span_of_app (λ n, is_letter n || (n =? 32)%N) t') as Hs. destruct (span_of _ t') as [run rest].
      destruct (after_word _ (rev run)); [|done]. apply after_word_length in Hk. apply (f_equal length) in Hs. rewrite length_app in Hs. cbn in Hs.
      exists 45%N, (word "----begin "), t'. split_and!; [exact E|right; right; left|lia]. }
  pose proof (after_word_length _ _ _ Hw) as Hlen. cbn in Hlen. split; [lia|].
  apply after_word_head in Hw as (n & t2 & -> & <-). by exists n, t2.
Qed.

(** The substitution as a relation, which needs no fuel. *)
Inductive substituted : list N → list N → Prop :=
  | subst_end : substituted [] []
  | subst_char n t o : after_secret (n :: t) = None → substituted t o → substituted (n :: t) (n :: o)
  | subst_match t r o : after_secret t = Some r → substituted r o → substituted t (code_points REDACTED ++ o).

Lemma sub_substituted fuel t : (length t < fuel)%nat → substituted t (sub_secrets fuel t).
Proof.
  revert t. induction fuel as [|fuel IH]; intros t Hf; [lia|]. cbn [sub_secrets]. destruct (after_secret t) as [r|] eqn:E.
  - apply (subst_match t r); [done|]. apply IH. apply after_secret_start in E. lia.
  - destruct t as [|n t]; [constructor|]. constructor; [done|]. apply IH. cbn in Hf. lia.
Qed.
Lemma redact_substituted t : substituted t (redact_points t).
Proof. apply sub_substituted. lia. Qed.
Lemma redacted_head o : ∃ o', code_points REDACTED ++ o = 91%N :: o'.
Proof. eexists. reflexivity. Qed.

(** A word of the output that no bracket can be in is a word of the input. *)
Lemma after_word_subst w t o o' :
  91%N ∉ w → substituted t o → after_word w o = Some o' → ∃ t', after_word w t = Some t' ∧ substituted t' o'.
Proof.
  intros Hw Hs. revert w o' Hw. induction Hs as [|n t o Hn Hs IH|t r o Hr Hs IH]; intros [|a w] o' Hw; cbn [after_word].
  - intros [= <-]. exists []. by split; [|constructor].
  - done.
  - intros [= <-]. exists (n :: t). by split; [|constructor].
  - apply not_elem_of_cons in Hw as [_ Hw]. destruct (fold_case n =? a)%N; [|done]. by apply IH.
  - intros [= <-]. exists t. by split; [|apply (subst_match t r)].
  - destruct (redacted_head o) as [o2 ->]. cbn [after_word]. apply not_elem_of_cons in Hw as [Ha _].
    change (fold_case 91) with 91%N. by rewrite (proj2 (N.eqb_neq _ _) Ha).
Qed.

(** A run of the output is one of the input, unless a substitution ended it. *)
Lemma span_of_subst p t o run rest :
  p 91%N = false → substituted t o → span_of p o = (run, rest) →
  ∃ t', t = run ++ t' ∧ Forall (λ n, p n = true) run ∧ substituted t' rest ∧
    (span_of p t = (run, t') ∨ head rest = Some 91%N ∧ is_Some (after_secret t')).
Proof.
  intros Hp Hs. revert run rest. induction Hs as [|n t o Hn Hs IH|t r o Hr Hs IH]; intros run rest; cbn [span_of].
  - intros [= <- <-]. exists []. split_and!; [done|done|constructor|by left].
  - destruct (p n) eqn:En.
    + destruct (span_of p o) as [a b]. intros [= <- <-]. destruct (IH _ _ eq_refl) as (t' & -> & Ha & Ht & Hsp).
      exists t'. split_and!; [done|by constructor|done|]. destruct Hsp as [Hsp|Hsp]; [left; by rewrite Hsp|by right].
    + intros [= <- <-]. exists (n :: t). split_and!; [done|done|by constructor|by left].
  - destruct (redacted_head o) as [o2 Ho]. rewrite Ho. cbn [span_of]. rewrite Hp. intros [= <- <-]. exists t.
    rewrite <- Ho. split_and!; [done|done|by apply (subst_match t r)|]. right. rewrite Ho. split; [done|by eexists].
Qed.

Lemma span_of_prefix p run t : Forall (λ n, p n = true) run → span_of p (run ++ t) = (run ++ (span_of p t).1, (span_of p t).2).
Proof. induction 1 as [|n run Hn _ IH]; cbn; [by destruct (span_of p t)|]. by rewrite Hn, IH. Qed.

(** What starts a match is neither a space nor a bracket. *)
Lemma secret_start_visible n : fold_case n ∈ [103; 98; 45]%N → py_is_space n = false.
Proof.
  intros Hn. destruct (py_is_space n) eqn:E; [|done]. exfalso. unfold py_is_space in E. apply orb_true_iff in E as [E|E].
  - apply bool_decide_eq_true in E. revert Hn. rewrite !elem_of_cons, elem_of_nil in E.
    repeat (destruct E as [->|E]; [by vm_compute; intros Hn; repeat (apply elem_of_cons in Hn as [?|Hn]; [done|]); apply elem_of_nil in Hn|]). done.
  - apply andb_true_iff in E as [E1 E2]. apply N.leb_le in E1, E2. unfold fold_case in Hn.
    rewrite (proj2 (andb_false_iff _ _)) in Hn by (right; apply N.leb_gt; lia).
    rewrite bool_decide_false in Hn by (rewrite !elem_of_cons, elem_of_nil; lia).
    rewrite !(proj2 (N.eqb_neq _ _)) in Hn by lia. rewrite !elem_of_cons, elem_of_nil in Hn. lia.
Qed.

Lemma token_subst p t o :
  91%N ∉ word p → substituted t o → after_token p t = None → after_token p o = None.
Proof.
  intros Hp Hs Ht. unfold after_token in *. destruct (after_word (word p) o) as [o'|] eqn:E; [|done].
  destruct (after_word_subst _ _ _ _ Hp Hs E) as (t' & Et & Hs'). rewrite Et in Ht. cbn [mbind option_bind] in *.
  destruct (span_of is_token_char o') as [run rest] eqn:Eo. destruct (span_of_subst is_token_char _ _ _ _ eq_refl Hs' Eo) as (t2 & -> & Hr & _ & _).
  rewrite span_of_prefix in Ht by done. destruct (Nat.leb_spec 20 (length run)); [|done].
  rewrite (proj2 (Nat.leb_le _ _)) in Ht by (rewrite length_app; lia). done.
Qed.
Ltac no_bracket := apply (bool_decide_eq_true_1 (91%N ∉ _)); vm_compute; reflexivity.
Lemma bearer_subst t o : substituted t o → after_bearer t = None → after_bearer o = None.
Proof.
  intros Hs Ht. unfold after_bearer in *. destruct (after_word (word "bearer") o) as [o'|] eqn:E; [|done].
  destruct (after_word_subst (word "bearer") _ _ _ ltac:(no_bracket) Hs E) as (t' & Et & Hs'). rewrite Et in Ht. cbn [mbind option_bind] in *.
  destruct (span_of py_is_space o') as [blanks o2] eqn:Eo.
  destruct (span_of_subst py_is_space _ _ _ _ eq_refl Hs' Eo) as (t2 & -> & Hb & Hs2 & _).
  rewrite span_of_prefix in Ht by done. destruct o2 as [|n o2]; [cbn [span_of length]; by rewrite andb_false_r|]. cbn [span_of] in *.
  destruct (py_is_space n) eqn:En; cbn [negb]; [by rewrite andb_false_r|].
  destruct (span_of (λ m, negb (py_is_space m)) o2) as [run rest] eqn:Er.
  assert (∃ m t3, t2 = m :: t3 ∧ py_is_space m = false) as (m & t3 & -> & Hm).
  { inversion Hs2 as [|n' t3 o3 Hn' Ht3|t3 r o3 Hr Ho3]; subst; [by exists n, t3|].
    destruct (after_secret_start _ _ Hr) as (_ & m & t4 & -> & Hm). exists m, t4. split; [done|]. by apply secret_start_visible. }
  cbn [span_of] in Ht. rewrite Hm in Ht. cbn [negb fst snd] in Ht. rewrite app_nil_r in Ht. cbn [span_of] in Ht. rewrite Hm in Ht. cbn [negb] in Ht.
  destruct (span_of (λ m, negb (py_is_space m)) t3) as [run' rest']. cbn [length] in *.
  destruct (1 <=? length blanks)%nat; done.
Qed.

Lemma private_key_subst t o : substituted t o → after_private_key t = None → after_private_key o = None.
Proof.
  intros Hs Ht. unfold after_private_key in *. destruct (after_word (word "-----begin ") o) as [o'|] eqn:E; [|done].
  destruct (after_word_subst (word "-----begin ") _ _ _ ltac:(no_bracket) Hs E) as (t' & Et & Hs'). rewrite Et in Ht. cbn [mbind option_bind] in *.
  destruct (span_of (λ n, is_letter n || (n =? 32)%N) o') as [run rest] eqn:Eo.
  destruct (span_of_subst _ _ _ _ _ eq_refl Hs' Eo) as (t2 & -> & Hr & Hs2 & [Hsp|[Hh _]]).
  - rewrite Hsp in Ht. destruct (after_word _ (rev run)); [|done]. destruct (after_word (word "-----") rest) as [o3|] eqn:E3; [|done].
    destruct (after_word_subst (word "-----") _ _ _ ltac:(no_bracket) Hs2 E3) as (t3 & Et3 & _). congruence.
  - destruct (after_word _ (rev run)); [|done]. destruct rest as [|n rest]; [done|]. injection Hh as ->. reflexivity.
Qed.

Lemma substituted_clean t o : substituted t o → after_secret o = None.
Proof.
  intros Hs. destruct Hs as [|n t o Hn Hs|t r o Hr Hs].
  - reflexivity.
  - apply after_secret_none in Hn as (Ht & Hb & Hk). assert (substituted (n :: t) (n :: o)) as Hs'.
    { constructor; [by apply after_secret_none|done]. }
    apply after_secret_none. split_and!; [|by eapply bearer_subst|by eapply private_key_subst].
    apply Forall_forall. intros p Hp. eapply token_subst; [|done|by eapply Forall_forall in Ht].
    revert p Hp. apply Forall_forall. unfold token_prefixes. repeat (apply Forall_cons; split; [no_bracket|]); constructor.
  - destruct (redacted_head o) as [o2 ->]. vm_compute. reflexivity.
Qed.
Lemma redacted_tail k t o : substituted t o → after_secret (drop k (code_points REDACTED) ++ o) = None.
Proof.
  intros Hs. destruct (decide (k < 10)%nat) as [Hk|Hk].
  - do 10 (destruct k as [|k]; [vm_compute; reflexivity|]). lia.
  - rewrite drop_ge by (change (length (code_points REDACTED)) with 10%nat; lia). by eapply substituted_clean.
Qed.
Lemma holds_secret_app l o :
  (∀ k, after_secret (drop k l ++ o) = None) → holds_secret o = false → holds_secret (l ++ o) = false.
Proof.
  induction l as [|n l IH]; intros Hk Ho; [done|]. cbn [app holds_secret].
  rewrite IH; [|intros k; exact (Hk (S k))|done]. rewrite orb_false_r. apply bool_decide_eq_false.
  pose proof (Hk 0%nat : after_secret (n :: l ++ o) = None) as ->. by intros [? ?].
Qed.
(** The output of the substitution has no match left. *)
Lemma redact_points_clean t : holds_secret (redact_points t) = false.
Proof.
  pose proof (redact_substituted t) as Hs. induction Hs as [|n t o Hn Hs IH|t r o Hr Hs IH].
  - reflexivity.
  - cbn [holds_secret]. rewrite IH, orb_false_r. apply bool_decide_eq_false. rewrite (substituted_clean (n :: t) (n :: o)); [|by constructor].
    by intros [? ?].
  - apply holds_secret_app; [|done]. intros k. by eapply redacted_tail.
Qed.
(** A text without a match is left as it is. *)
Lemma redact_points_id t : holds_secret t = false → redact_points t = t.
Proof.
  unfold redact_points. intros Ht. assert (∀ fuel t, (length t < fuel)%nat → holds_secret t = false → sub_secrets fuel t = t) as H; [|apply H; [lia|done]].
  clear. intros fuel. induction fuel as [|fuel IH]; intros t Hf Ht; [lia|]. cbn [sub_secrets].
  destruct t as [|n t]; [reflexivity|]. cbn [holds_secret] in Ht. apply orb_false_iff in Ht as [Hn Ht].
  apply bool_decide_eq_false, eq_None_not_Some in Hn. rewrite Hn. f_equal. apply IH; [cbn in Hf; lia|done].
Qed.

(** What a document may show: under a key that names a secret only the mark, and
    nowhere a text in which the pattern matches. *)
#[warnings="-register-all"]
Inductive shows_no_secret : pyval → Prop :=
  | clean_none : shows_no_secret VNone
  | clean_bool b : shows_no_secret (VBool b)
  | clean_int n : shows_no_secret (VInt n)
  | clean_str t : holds_secret t = false → shows_no_secret (VStr (text_of_points t))
  | clean_list l : Forall shows_no_secret l → shows_no_secret (VList l)
  | clean_dict d : Forall (λ kv, is_secret_key kv.1 = true ∧ kv.2 = VStr REDACTED ∨ is_secret_key kv.1 = false ∧ shows_no_secret kv.2) d →
      shows_no_secret (VDict d).

(** C35: at every depth of a redacted document a member whose key names a secret
    is the mark, and no text has a token, a bearer credential or a private key
    header left in it; the keys and the shape are those of the document. *)
Theorem redaction_complete v : shows_no_secret (redact v) ∧ match v, redact v with
  | VDict d, VDict d' => d'.*1 = d.*1
  | VList l, VList l' => length l' = length l
  | VStr s, VStr s' => holds_secret (code_points s) = false → s' = text_of_points (code_points s)
  | VDict _, _ | VList _, _ | VStr _, _ => False
  | _, w => w = v
  end.
Proof.
  split.
  - induction v as [|b|n|s|l IH|d IH] using pyval_ind'; cbn [redact].
    + constructor.
    + constructor.
    + constructor.
    + apply clean_str, redact_points_clean.
    + apply clean_list, Forall_fmap. exact IH.
    + apply clean_dict, (Forall_fmap (A := string * pyval) (B := string * pyval)). eapply Forall_impl; [exact IH|].
      intros [k w] Hw. cbn [fst snd compose] in *. destruct (is_secret_key k); auto.
  - destruct v as [|b|n|s|l|d]; [reflexivity|reflexivity|reflexivity| | |]; cbn [redact].
    + intros Hs. unfold redact_text. by rewrite redact_points_id.
    + apply length_map.
    + induction d as [|kv d IH]; [reflexivity|]. cbn [List.map fmap list_fmap fst]. f_equal. exact IH.
Qed.

(** ** The audit log *)

Definition audit_timestamp (value : datetime) : result string :=
  match value with
  | Aware _ t => Ok (timestamp_text t)
  | Naive _ => throw ValueError "timestamp must be timezone-aware"
  end.

Definition canonical_json (v : pyval) : string := json_dumps v.

Record AuditRecord := {
  ar_sequence : pyval; ar_occurred_at : pyval; ar_event : pyval; ar_subject : pyval; ar_details : pyval;
  ar_previous : pyval; ar_digest : string;
}.
(** What the digest is of. *)
Definition audit_payload (sequence occurred_at event subject details previous : pyval) : dict :=
  [("sequence", sequence); ("occurred_at", occurred_at); ("event", event); ("subject", subject); ("details", details);
   ("previous_digest", previous)].
Definition record_payload (r : AuditRecord) : dict :=
  audit_payload (ar_sequence r) (ar_occurred_at r) (ar_event r) (ar_subject r) (ar_details r) (ar_previous r).
Definition audit_text (payload : dict) : string := canonical_json (VDict payload).

Definition AuditLog := list AuditRecord.
Definition next_sequence (log : AuditLog) : pyval := VInt (Z.of_nat (length log) + 1).
Definition last_digest (log : AuditLog) : pyval := match last log with Some r => VStr (ar_digest r) | None => VNone end.

Section audit.
Context {D : Digest}.

Definition audit_append (event subject : string) (details : dict) (occurred_at : datetime) : M AuditLog AuditRecord :=
  raise_if (negb (nonempty event) || negb (nonempty subject)) ValueError "event and subject are required";;
  log ← get;
  stamp ← lift (audit_timestamp occurred_at);
  let r digest := {| ar_sequence := next_sequence log; ar_occurred_at := VStr stamp; ar_event := VStr event; ar_subject := VStr subject;
                     ar_details := redact (VDict details); ar_previous := last_digest log; ar_digest := digest |} in
  let record := r (sha256_hex (audit_text (record_payload (r "")))) in
  modify (λ log, log ++ [record]);;
  mret record.

(** [_append_imported] *)
Definition append_imported (raw : dict) : M AuditLog unit :=
  log ← get;
  let r digest := {| ar_sequence := dget "sequence" raw; ar_occurred_at := dget "occurred_at" raw; ar_event := dget "event" raw;
                     ar_subject := dget "subject" raw; ar_details := dget "details" raw; ar_previous := dget "previous_digest" raw;
                     ar_digest := digest |} in
  let expected := sha256_hex (audit_text (record_payload (r ""))) in
  raise_if (negb (py_eq (dget "sequence" raw) (next_sequence log)) || negb (py_eq (dget "previous_digest" raw) (last_digest log)))
    ValueError "audit chain sequence/predecessor mismatch";;
  raise_if (negb (py_eq (dget "digest" raw) (VStr expected))) ValueError "audit record digest mismatch";;
  modify (λ log, log ++ [r expected]).
(** [__init__] *)
Fixpoint import_all (raws : list dict) : M AuditLog unit :=
  match raws with
  | [] => mret tt
  | raw :: raws => append_imported raw;; import_all raws
  end.
Definition import_log (raws : list dict) : result AuditLog :=
  match import_all raws [] with (Ok _, log) => Ok log | (Raise e, _) => Raise e end.

(** [asdict] of a record, and [as_dict]. *)
Definition record_dict (r : AuditRecord) : dict := record_payload r ++ [("digest", VStr (ar_digest r))].
Definition log_dict (log : AuditLog) : dict :=
  [("audit_schema_version", VInt 1); ("records", VList ((λ r, VDict (record_dict r)) <$> log))].
(** *** The chain *)

(** Logs as the operations build them. *)
Inductive audited : AuditLog → Prop :=
  | audited_new : audited []
  | audited_append log log' event subject details occurred_at r :
      audited log → audit_append event subject details occurred_at log = (r, log') → audited log'
  | audited_import log log' raw r : audited log → append_imported raw log = (r, log') → audited log'.

(** A record that fits behind a log. *)
Definition links (log : AuditLog) (r : AuditRecord) : Prop :=
  py_eq (ar_sequence r) (next_sequence log) = true ∧ ar_previous r = last_digest log ∧
  ar_digest r = sha256_hex (audit_text (record_payload r)).
Inductive chained : AuditLog → Prop :=
  | chained_nil : chained []
  | chained_snoc log r : chained log → links log r → chained (log ++ [r]).

Lemma py_eq_last v log : py_eq v (last_digest log) = true ↔ v = last_digest log.
Proof. unfold last_digest. destruct (last log); [apply py_eq_str|apply py_eq_none]. Qed.

Lemma append_links event subject details occurred_at log r log' :
  audit_append event subject details occurred_at log = (r, log') →
  log' = log ∨ ∃ rec, r = Ok rec ∧ log' = log ++ [rec] ∧ links log rec ∧ ar_details rec = redact (VDict details).
Proof.
  unfold audit_append, raise_if, lift, throw, get, modify, mret, M_ret, mbind, M_bind. destruct (_ || _); [intros [= <- <-]; by left|].
  destruct (audit_timestamp occurred_at) as [stamp|e]; intros [= <- <-]; [right|by left].
  eexists. split_and!; [reflexivity|reflexivity| |reflexivity]. split_and!; [apply Z.eqb_refl|reflexivity|reflexivity].
Qed.
Lemma import_links raw log r log' :
  append_imported raw log = (r, log') →
  log' = log ∧ is_ok r = false ∨ r = Ok tt ∧ ∃ rec, log' = log ++ [rec] ∧ links log rec ∧ dget "digest" raw = VStr (ar_digest rec) ∧
    record_payload rec = audit_payload (dget "sequence" raw) (dget "occurred_at" raw) (dget "event" raw) (dget "subject" raw) (dget "details" raw)
      (dget "previous_digest" raw).
Proof.
  unfold append_imported, raise_if, get, modify, mbind, M_bind.
  destruct (negb _ || negb _) eqn:E; [intros [= <- <-]; by left|].
  apply orb_false_iff in E as [E1%negb_false_iff E2%negb_false_iff%py_eq_last].
  destruct (negb _) eqn:E3; [intros [= <- <-]; by left|].
  apply negb_false_iff, py_eq_str in E3. intros [= <- <-]. right. split; [done|]. eexists. split_and!; [reflexivity| |exact E3|reflexivity].
  unfold links. by split_and!.
Qed.
Lemma audited_chained log : audited log → chained log.
Proof.
  induction 1 as [|log log' event subject details at_ r _ IH Hop|log log' raw r _ IH Hop].
  - constructor.
  - destruct (append_links _ _ _ _ _ _ _ Hop) as [->|(rec & _ & -> & Hl & _)]; [done|by constructor].
  - destruct (import_links _ _ _ _ Hop) as [[-> _]|(_ & rec & -> & Hl & _)]; [done|by constructor].
Qed.

(** The records written out are read back, into any log they fit behind. *)
Lemma import_record log r : links log r → append_imported (record_dict r) log = (Ok tt, log ++ [r]).
Proof.
  intros (Hs & Hp & Hd). destruct r as [sq oc ev su de pr di]. unfold ar_sequence in Hs. unfold ar_previous in Hp. subst pr.
  unfold append_imported, raise_if, get, modify, mbind, M_bind. cbv zeta.
  change (dget "sequence" (record_dict _)) with sq. change (dget "previous_digest" (record_dict _)) with (last_digest log).
  rewrite Hs, (proj2 (py_eq_last _ _) eq_refl). cbn [negb orb].
  change (dget "digest" (record_dict _)) with (VStr di). unfold ar_digest in Hd. rewrite Hd.
  match goal with |- context [py_eq (VStr ?a) (VStr ?b)] => replace (py_eq (VStr a) (VStr b)) with true by (symmetry; by apply py_eq_str) end. reflexivity.
Qed.
Lemma import_all_app raws raws' log :
  import_all (raws ++ raws') log = match import_all raws log with (Ok _, log') => import_all raws' log' | (Raise e, log') => (Raise e, log') end.
Proof.
  revert log. induction raws as [|raw raws IH]; intros log; [reflexivity|]. cbn [app import_all]. unfold mbind, M_bind.
  destruct (append_imported raw log) as [[[]|e] log']; [apply IH|reflexivity].
Qed.
Lemma import_chained log : chained log → import_all (record_dict <$> log) [] = (Ok tt, log).
Proof.
  induction 1 as [|log r _ IH Hl]; [reflexivity|]. rewrite fmap_app, import_all_app, IH. cbn [fmap list_fmap import_all].
  unfold mbind, M_bind. by rewrite import_record.
Qed.

(** Two records with the same payload document, up to the order of keys. *)
Definition same_record (r r' : AuditRecord) : Prop :=
  normal String.leb (VDict (record_payload r)) = normal String.leb (VDict (record_payload r')) ∧ ar_digest r = ar_digest r'.
(** Two records, one of each log, whose texts differ while SHA-256 gives them the one
    digest that both carry. *)
Definition collide (r r' : AuditRecord) : Prop :=
  audit_text (record_payload r) ≠ audit_text (record_payload r') ∧
  ar_digest r = sha256_hex (audit_text (record_payload r)) ∧ ar_digest r' = sha256_hex (audit_text (record_payload r')) ∧
  ar_digest r = ar_digest r'.
Definition collision_in (log log' : AuditLog) : Prop := ∃ r r', r ∈ log ∧ r' ∈ log' ∧ collide r r'.
Lemma collision_in_app log log' more more' : collision_in log log' → collision_in (log ++ more) (log' ++ more').
Proof. intros (r & r' & Hr & Hr' & Hc). exists r, r'. split_and!; [apply elem_of_app; by left..|done]. Qed.
Lemma collision_in_last log log' r r' : collide r r' → collision_in (log ++ [r]) (log' ++ [r']).
Proof. intros Hc. exists r, r'. split_and!; [apply elem_of_app; right; left..|done]. Qed.

Lemma normal_payload sq oc ev su de pr :
  normal String.leb (VDict (audit_payload sq oc ev su de pr))
  = VDict [("details", normal String.leb de); ("event", normal String.leb ev); ("occurred_at", normal String.leb oc);
           ("previous_digest", normal String.leb pr); ("sequence", normal String.leb sq); ("subject", normal String.leb su)].
Proof. reflexivity. Qed.
Lemma py_eq_int_normal v w n m :
  py_eq v (VInt n) = true → py_eq w (VInt m) = true → normal String.leb v = normal String.leb w → n = m.
Proof. destruct v, w; cbn; try done; intros ?%Z.eqb_eq ?%Z.eqb_eq [=]; by subst. Qed.
Lemma last_digest_snoc log r : last_digest (log ++ [r]) = VStr (ar_digest r).
Proof. unfold last_digest. by rewrite last_snoc. Qed.

(** Equal digests behind two logs: the records agree, and so do their places. *)
Lemma same_digest log log' r r' :
  links log r → links log' r' → ar_digest r = ar_digest r' →
  collide r r' ∨ same_record r r' ∧ length log = length log' ∧ last_digest log = last_digest log'.
Proof.
  intros (Hs & Hp & Hd) (Hs' & Hp' & Hd') He.
  destruct (decide (audit_text (record_payload r) = audit_text (record_payload r'))) as [Ht|Ht].
  - right. apply json_print_inj in Ht. split; [by split|]. unfold record_payload in Ht. rewrite !normal_payload in Ht.
    injection Ht as _ _ _ Hpr Hsq _. pose proof (py_eq_int_normal _ _ _ _ Hs Hs' Hsq) as Hn. split; [lia|].
    rewrite Hp, Hp' in Hpr. revert Hpr. unfold last_digest. by destruct (last log), (last log').
  - by left.
Qed.
Lemma chained_same log log' :
  chained log → chained log' → length log = length log' → last_digest log = last_digest log' →
  collision_in log log' ∨ Forall2 same_record log log'.
Proof.
  intros Hc. revert log'. induction Hc as [|log r Hc IH Hl]; intros log' Hc' Hn Hd.
  - destruct log'; [by right|done].
  - destruct Hc' as [|log' r' Hc' Hl']; [by rewrite length_app in Hn; cbn in Hn; lia|].
    rewrite !last_digest_snoc in Hd. injection Hd as Hd. destruct (same_digest _ _ _ _ Hl Hl' Hd) as [|(Hr & Hn' & Hd')]; [left; by apply collision_in_last|].
    destruct (IH log' Hc' Hn' Hd') as [|Hall]; [left; by apply collision_in_app|]. right. apply Forall2_app; [done|]. constructor; [exact Hr|constructor].
Qed.
Lemma chained_length log log' :
  chained log → chained log' → last_digest log = last_digest log' → collision_in log log' ∨ length log = length log'.
Proof.
  intros Hc Hc' Hd. destruct Hc as [|log r Hc Hl], Hc' as [|log' r' Hc' Hl'].
  - by right.
  - by rewrite last_digest_snoc in Hd.
  - by rewrite last_digest_snoc in Hd.
  - rewrite !last_digest_snoc in Hd. injection Hd as Hd. destruct (same_digest _ _ _ _ Hl Hl' Hd) as [|(_ & Hn & _)]; [left; by apply collision_in_last|].
    right. rewrite !length_app. cbn. lia.
Qed.

(** An accepted record is what the log then holds. *)
Definition tells (raw : dict) (r : AuditRecord) : Prop :=
  record_payload r = audit_payload (dget "sequence" raw) (dget "occurred_at" raw) (dget "event" raw) (dget "subject" raw)
                       (dget "details" raw) (dget "previous_digest" raw) ∧ dget "digest" raw = VStr (ar_digest r).
Lemma import_all_ok raws log log' : import_all raws log = (Ok tt, log') →
  ∃ more, log' = log ++ more ∧ Forall2 tells raws more ∧ (chained log → chained log').
Proof.
  revert log. induction raws as [|raw raws IH]; intros log; cbn [import_all].
  - intros [_ <-]%ret_ok. exists []. split_and!; [by rewrite app_nil_r|constructor|done].
  - intros ([] & l1 & Hi & H)%bind_ok. apply import_links in Hi as [[_ ?]|(_ & rec & -> & Hl & Hd & Hp)]; [done|].
    apply IH in H as (more & -> & Hm & Hc). exists (rec :: more). split_and!; [by rewrite <- app_assoc|by constructor|].
    intros Hlog. apply Hc. by constructor.
Qed.

(** C36: a log built by appends and imports reads back, from the records it writes
    out, as itself.  Whatever list of records is accepted becomes a log of exactly
    those records, and if its last digest is that of another log the two tell the
    same history, record by record, unless two records, one in each, have different
    texts with the same SHA-256 digest. *)
Theorem audit_tamper_evident log :
  audited log →
  import_log (record_dict <$> log) = Ok log ∧
  ∀ raws log', import_log raws = Ok log' →
    Forall2 tells raws log' ∧ (last_digest log' = last_digest log → Forall2 same_record log log' ∨ collision_in log log').
Proof.
  intros Ha. pose proof (audited_chained log Ha) as Hc. split; [unfold import_log; by rewrite import_chained|].
  intros raws log' Hi. unfold import_log in Hi. destruct (import_all raws []) as [[[]|e] l] eqn:E; [injection Hi as ->|done].
  apply import_all_ok in E as (more & -> & Ht & Hc'). specialize (Hc' chained_nil). split; [exact Ht|]. intros Hd.
  destruct (chained_length log more Hc Hc' (eq_sym Hd)) as [|Hn]; [by right|].
  destruct (chained_same log more Hc Hc' Hn (eq_sym Hd)); auto.
Qed.
End audit.

(** A history of two records, the details of one of which held a credential. *)
#[local] Existing Instance Sha256.
Definition toy_instant (n : Z) : datetime := Aware UTC n.
Definition toy_first : AuditLog := (audit_append "enabled" "acme/app" [("api_token", VStr "hunter2")] (toy_instant 0) []).2.
Definition toy_second : AuditLog := (audit_append "checked" "acme/app" [("note", VStr "Bearer abc rest")] (toy_instant 5) toy_first).2.
Lemma audit_tamper_evident_witness :
  (ar_details <$> toy_second) = [VDict [("api_token", VStr REDACTED)]; VDict [("note", VStr "[REDACTED] rest")]] ∧
  import_log (record_dict <$> toy_second) = Ok toy_second.
Proof.
  assert (audited toy_second) as Ha.
  { apply (audited_append toy_first toy_second "checked" "acme/app" [("note", VStr "Bearer abc rest")] (toy_instant 5)
      (audit_append "checked" "acme/app" [("note", VStr "Bearer abc rest")] (toy_instant 5) toy_first).1).
    - apply (audited_append [] toy_first "enabled" "acme/app" [("api_token", VStr "hunter2")] (toy_instant 0)
        (audit_append "enabled" "acme/app" [("api_token", VStr "hunter2")] (toy_instant 0) []).1); [constructor|apply surjective_pairing].
    - apply surjective_pairing. }
  split; [vm_compute; reflexivity|]. exact (proj1 (audit_tamper_evident toy_second Ha)).
Defined.

(** ** Alerts *)

Record Alert := { al_code : string; al_severity : string; al_message : string }.
Definition critical (code message : string) : Alert := {| al_code := code; al_severity := "critical"; al_message := message |}.
Definition list_field (k : string) (snapshot : dict) : result (list pyval) :=
  match default (VList []) (dlookup k snapshot) with
  | VList l => Ok l
  | _ => throw TypeError "object has no len()"
  end.
Definition drift_codes : list string :=
  ["network_policy_failure"; "runner_manager_drift"; "app_authority_drift"; "timing_oracle_divergence"; "cleanup_residue"].
(** [code.replace("_", " ")] *)
Definition spaced (code : string) : string :=
  String.string_of_list_ascii ((λ c, if Ascii.eqb c "_" then " "%char else c) <$> String.list_ascii_of_string code).
Definition invariant_alerts (snapshot : dict) : result (list Alert) :=
  winners ← list_field "winner_records" snapshot;
  terminals ← list_field "terminal_records" snapshot;
  outbox ← list_field "outbox_records" snapshot;
  let some (l : list pyval) := negb (bool_decide (l = [])) in
  let set k := py_truthy (dget k snapshot) in
  let alert (b : bool) a : list Alert := if b then [a] else [] in
  Ok (alert (2 <=? length winners)%nat (critical "multiple_winners" "more than one winner record")
      ++ alert (some terminals && negb (some outbox)) (critical "terminal_without_outbox" "terminal exists without outbox")
      ++ alert (some outbox && negb (some terminals)) (critical "outbox_without_terminal" "outbox exists without terminal")
      ++ alert (set "admission_exists" && negb (set "pre_marker_verified"))
           (critical "admission_without_verification" "admission lacks successful pre-marker verification")
      ++ alert (set "terminal_after_deadline_won") (critical "late_terminal_won" "terminal_at>D became winner")
      ++ alert (py_eq (dget "success_proof_role" snapshot) (VStr "historical_admission_for_failure"))
           (critical "success_from_historical_admission" "success used failure-only historical admission")
      ++ alert (set "different_evidence_retry") (critical "different_evidence_retry" "retry changed immutable evidence")
      ++ alert (set "wrong_app_source") (critical "wrong_app_source" "ci-gate source differs from pinned App")
      ++ alert (set "stale_heartbeat" || set "gate_without_live_owner")
           {| al_code := "stale_owner"; al_severity := "warning"; al_message := "gate has no live owner" |}
      ++ alert (set "fallback_sla_breached") (critical "fallback_sla_breached" "fallback missed deadline plus tolerance")
      ++ concat ((λ code, alert (set code) (critical code (spaced code))) <$> drift_codes)).

(** ** Readiness *)

Definition READINESS_STATUSES : list string := ["pass"; "fail"; "unverified"; "not_applicable"].
Record ReadinessCriterion := { cr_id : string; cr_status : string; cr_evidence : list string; cr_blocker : option string }.
(** [__post_init__] *)
Definition criterion (id status : string) (evidence : list string) (blocker : option string) : result ReadinessCriterion :=
  check (negb (nonempty id) || negb (bool_decide (status ∈ READINESS_STATUSES))) ValueError "invalid readiness criterion";;
  check (bool_decide (status = "pass") && bool_decide (evidence = [])) ValueError "pass requires concrete evidence";;
  check (bool_decide (status ∈ ["fail"; "unverified"]) && negb (match blocker with Some b => nonempty b | None => false end)) ValueError
    "fail/unverified requires an explicit blocker";;
  Ok {| cr_id := id; cr_status := status; cr_evidence := evidence; cr_blocker := blocker |}.
Record ReadinessMatrix := { rm_repository : string; rm_criteria : list ReadinessCriterion }.
Definition is_met (c : ReadinessCriterion) : bool := bool_decide (cr_status c ∈ ["pass"; "not_applicable"]).
Definition matrix_ready (m : ReadinessMatrix) : bool := negb (bool_decide (rm_criteria m = [])) && forallb is_met (rm_criteria m).
Definition opt_value (o : option string) : pyval := match o with Some s => VStr s | None => VNone end.
Definition criterion_dict (c : ReadinessCriterion) : dict :=
  [("criterion_id", VStr (cr_id c)); ("status", VStr (cr_status c)); ("evidence", VList (VStr <$> cr_evidence c));
   ("blocker", opt_value (cr_blocker c))].
Definition matrix_dict (m : ReadinessMatrix) : dict :=
  [("readiness_schema_version", VInt 1); ("repository", VStr (rm_repository m)); ("ready", VBool (matrix_ready m));
   ("criteria", VList ((λ c, VDict (criterion_dict c)) <$> rm_criteria m));
   ("external_blockers", VList ((λ c, VDict [("criterion_id", VStr (cr_id c)); ("reason", opt_value (cr_blocker c))])
                                  <$> List.filter (λ c, bool_decide (cr_status c = "unverified")) (rm_criteria m)))].

Definition evidence_bundle (repository : string) (audit : AuditLog) (readiness : ReadinessMatrix) (artifacts : dict)
    (generated_at : datetime) : result dict :=
  generated ← audit_timestamp generated_at;
  Ok [("evidence_bundle_schema_version", VInt 1); ("repository", VStr repository); ("generated_at", VStr generated);
      ("audit", VDict (log_dict audit)); ("readiness", VDict (matrix_dict readiness)); ("artifacts", redact (VDict artifacts))].
