(* ===== verification/Operator.v ===== *)
(** * The rollout planner and snapshot freshness (operator.py, health_snapshot.py)

    The planner is pure: it names the next step from verified facts, and its
    caller persists the step.  [rollout] is that caller. *)

From S2P Require Import Prelude Datetime PyValue PyText LocalApproval PilotWorker Observability.
#[local] Open Scope Z_scope.

Definition ENABLE_ORDER : list string :=
  ["prove_authority"; "install_pr_workflow"; "github_smoke"; "allowlist_or_runner_group"; "local_smoke"; "fallback_smoke"].
Definition DISABLE_ORDER : list string :=
  ["set_github_first"; "fence_and_cancel_local"; "github_smoke"; "revoke_exact_authority"; "reconcile"].

Inductive Operation := ENABLE | DISABLE.
Definition operation_text (o : Operation) : string := match o with ENABLE => "enable" | DISABLE => "disable" end.

Record OperatorState := {
  os_repository : string; os_ci_mode : string; os_enable_completed : list string; os_disable_completed : list string;
  os_external_facts : option dict; os_bootstrap_repository_created : bool;
}.
Record OperatorDecision := {
  od_operation : Operation; od_status : string; od_next_step : option string; od_completed : list string;
  od_blockers : list string; od_warnings : list string;
}.
Definition decision_dict (d : OperatorDecision) : dict :=
  [("operator_contract_version", VInt 1); ("operation", VStr (operation_text (od_operation d))); ("status", VStr (od_status d));
   ("next_step", opt_value (od_next_step d)); ("completed", VList (VStr <$> od_completed d));
   ("blockers", VList (VStr <$> od_blockers d)); ("warnings", VList (VStr <$> od_warnings d))].

Definition _validate_prefix (completed order : list string) : result unit :=
  check (bool_decide (¬ NoDup completed) || negb (bool_decide (completed = take (length completed) order))) ValueError
    "completed steps must be an exact, duplicate-free prefix".

Definition completed_of (operation : Operation) (st : OperatorState) : list string :=
  match operation with ENABLE => os_enable_completed st | DISABLE => os_disable_completed st end.
(** [(state.external_facts or {}).get(step)] *)
Definition fact_of (st : OperatorState) (step : string) : pyval := dget step (default [] (os_external_facts st)).
Definition state_warnings (st : OperatorState) : list string :=
  if os_bootstrap_repository_created st then [] else ["private github-automation bootstrap repository is not externally verified"].

Definition _plan (operation : Operation) (st : OperatorState) (order : list string) : result OperatorDecision :=
  let completed := completed_of operation st in
  _validate_prefix completed order;;
  let decide_on status next blockers :=
    {| od_operation := operation; od_status := status; od_next_step := next; od_completed := completed; od_blockers := blockers;
       od_warnings := state_warnings st |} in
  match order !! length completed with
  | None => Ok (decide_on "complete" None [])
  | Some step =>
      match fact_of st step with
      | VBool true => Ok (decide_on "ready" (Some step) [])
      | VBool false => Ok (decide_on "blocked" (Some step) ["external verification failed for " +:+ step])
      | _ => Ok (decide_on "blocked" (Some step) ["external verification required for " +:+ step])
      end
  end.

(** [item.blocker or item.status] *)
Definition blocker_text (c : ReadinessCriterion) : string :=
  cr_id c +:+ ": " +:+ match cr_blocker c with Some b => if nonempty b then b else cr_status c | None => cr_status c end.
Definition plan_enable (st : OperatorState) (readiness : ReadinessMatrix) : result OperatorDecision :=
  check (negb (bool_decide (os_ci_mode st = "github")) && bool_decide (os_enable_completed st = [])) ValueError
    "enable must start with GitHub-hosted CI";;
  if negb (matrix_ready readiness) then
    Ok {| od_operation := ENABLE; od_status := "blocked"; od_next_step := None; od_completed := os_enable_completed st;
          od_blockers := blocker_text <$> List.filter (λ c, negb (is_met c)) (rm_criteria readiness); od_warnings := [] |}
  else _plan ENABLE st ENABLE_ORDER.
Definition plan_disable (st : OperatorState) : result OperatorDecision := _plan DISABLE st DISABLE_ORDER.

Definition compatibility_labels : list (string * string) :=
  [("dedicated_app_required_check", "pinned-source ci-gate ruleset proof");
   ("supply_chain_independent", "independent supply-chain proof");
   ("push_main_ci", "GitHub-hosted push-main CI proof");
   ("verify_release", "verify-release.sh compatibility proof");
   ("railway_isolated", "Railway deploy isolation proof")].
Definition compatibility_criterion (facts : dict) (label : string * string) : result ReadinessCriterion :=
  match dget label.1 facts with
  | VBool true => criterion label.1 "pass" [label.2] None
  | VBool false => criterion label.1 "fail" [] (Some (label.2 +:+ " is failed"))
  | _ => criterion label.1 "unverified" [] (Some (label.2 +:+ " is not externally verified"))
  end.
Fixpoint map_result {A B} (f : A → result B) (l : list A) : result (list B) :=
  match l with [] => Ok [] | a :: l => b ← f a; bs ← map_result f l; Ok (b :: bs) end.
(** The facts are texts, truth values or absent, so [str] is [py_str]. *)
Definition compatibility_readiness (facts : dict) : result ReadinessMatrix :=
  criteria ← map_result (compatibility_criterion facts) compatibility_labels;
  Ok {| rm_repository := text_or_none (default (VStr "unknown") (dlookup "repository" facts)); rm_criteria := criteria |}.

(** ** The rollout *)

(** One invocation: the facts it saw and the step it persisted. *)
Record Taken := { tk_step : string; tk_state : OperatorState; tk_compatibility : dict }.
Definition with_step (st : OperatorState) (step : string) : OperatorState :=
  {| os_repository := os_repository st; os_ci_mode := os_ci_mode st; os_enable_completed := os_enable_completed st ++ [step];
     os_disable_completed := os_disable_completed st; os_external_facts := os_external_facts st;
     os_bootstrap_repository_created := os_bootstrap_repository_created st |}.

(** Between two invocations everything but the completed steps may change. *)
Inductive rollout : list string → list Taken → Prop :=
  | rollout_start : rollout [] []
  | rollout_step completed history st facts matrix d step :
      rollout completed history → os_enable_completed st = completed →
      compatibility_readiness facts = Ok matrix → plan_enable st matrix = Ok d →
      od_status d = "ready" → od_next_step d = Some step →
      rollout (os_enable_completed (with_step st step)) (history ++ [{| tk_step := step; tk_state := st; tk_compatibility := facts |}]).

(** What must have been verified for a step to be taken. *)
Definition verified (facts : dict) : Prop := Forall (λ label, dget label.1 facts = VBool true) compatibility_labels.
Definition justified (t : Taken) : Prop :=
  fact_of (tk_state t) (tk_step t) = VBool true ∧ verified (tk_compatibility t) ∧
  (os_enable_completed (tk_state t) = [] → os_ci_mode (tk_state t) = "github").

Lemma map_result_forall2 {A B} (f : A → result B) l bs : map_result f l = Ok bs → Forall2 (λ a b, f a = Ok b) l bs.
Proof.
  revert bs. induction l as [|a l IH]; cbn; intros bs; [intros [= <-]; constructor|].
  intros (b & Hb & (bs' & Hbs & [= <-])%result_bind_ok)%result_bind_ok. constructor; auto.
Qed.

Lemma criterion_status id status evidence blocker c :
  criterion id status evidence blocker = Ok c → cr_status c = status ∧ cr_id c = id.
Proof.
  unfold criterion. intros (? & _ & (? & _ & (? & _ & [= <-])%result_bind_ok)%result_bind_ok)%result_bind_ok. done.
Qed.

Lemma criterion_met facts label c :
  compatibility_criterion facts label = Ok c → is_met c = true ↔ dget label.1 facts = VBool true.
Proof.
  unfold compatibility_criterion, is_met. intros H.
  destruct (dget label.1 facts) as [|[]| | | |]; apply criterion_status in H as [-> _]; split; done.
Qed.
Lemma compatibility_total facts : is_ok (compatibility_readiness facts) = true.
Proof.
  unfold compatibility_readiness.
  assert (∀ l, Forall (λ label, nonempty label.1 = true ∧ nonempty label.2 = true) l →
    is_ok (map_result (compatibility_criterion facts) l) = true) as H.
  { induction 1 as [|label l [H1 H2] _ IH]; [done|]. cbn [map_result].
    assert (∃ c, compatibility_criterion facts label = Ok c) as [c ->].
    { unfold compatibility_criterion. destruct label as [i t]. cbn in *. destruct t as [|a t]; [done|]. destruct i as [|b i]; [done|].
      destruct (dget _ facts) as [|[]| | | |]; by eexists. }
    cbn. destruct (map_result _ l); [done|done]. }
  pose proof (H compatibility_labels) as Hl. destruct (map_result _ _); [done|]. discriminate Hl. repeat constructor.
Qed.
Lemma ready_verified facts matrix :
  compatibility_readiness facts = Ok matrix → matrix_ready matrix = true ↔ verified facts.
Proof.
  unfold compatibility_readiness. intros (criteria & Hm%map_result_forall2 & [= <-])%result_bind_ok.
  unfold matrix_ready, verified. cbn [rm_criteria]. rewrite andb_true_iff.
  assert (forallb is_met criteria = true ↔ Forall (λ label, dget label.1 facts = VBool true) compatibility_labels) as ->.
  { revert Hm. generalize compatibility_labels as labels. intros labels. induction 1 as [|label c labels criteria Hc _ IH]; [done|].
    cbn. rewrite andb_true_iff, Forall_cons, IH, (criterion_met _ _ _ Hc). done. }
  split; [tauto|]. intros Hv. split; [|done]. destruct criteria; [by inversion Hm|done].
Qed.

(** The decisions of the planner, by what it has verified. *)
Lemma plan_ready operation st order d :
  _plan operation st order = Ok d → od_status d = "ready" → ∃ step, od_next_step d = Some step ∧
    order !! length (completed_of operation st) = Some step ∧ fact_of st step = VBool true ∧
    completed_of operation st = take (length (completed_of operation st)) order.
Proof.
  unfold _plan, _validate_prefix. intros (? & [_ Hp%negb_false_iff%bool_decide_eq_true]%check_ok%orb_false_iff & H)%result_bind_ok.
  destruct (order !! _) as [step|] eqn:Es; [|by injection H as <-]. exists step.
  destruct (fact_of st step) as [|[]| | | |] eqn:Ef; injection H as <-; done.
Qed.

(** whatever the facts do between invocations, the steps a rollout has
    completed are a prefix of the enable order, in order and none twice; each was
    taken when its own fact was verified and all five compatibility facts were,
    and the first from GitHub-hosted CI; and the planner always answers such a
    rollout (it raises only for one that has completed nothing and does not start
    from GitHub-hosted CI), with a ready step exactly when the next step has those
    facts. *)
Lemma rollout_gated completed history :
  rollout completed history →
  completed = take (length completed) ENABLE_ORDER ∧ completed = tk_step <$> history ∧ Forall justified history ∧
  ∀ st facts matrix, os_enable_completed st = completed → compatibility_readiness facts = Ok matrix →
    (completed = [] → os_ci_mode st = "github") →
    ∃ d, plan_enable st matrix = Ok d ∧
      ∀ step, od_status d = "ready" ∧ od_next_step d = Some step ↔
        ENABLE_ORDER !! length completed = Some step ∧ fact_of st step = VBool true ∧ verified facts.
Proof.
  intros Hr. assert (completed = take (length completed) ENABLE_ORDER ∧ completed = tk_step <$> history ∧ Forall justified history) as (Hp & Hh & Hj).
  { induction Hr as [|completed history st facts matrix d step _ (Hp & Hh & Hj) Hc Hf Hd Hs Hn]; [done|].
    unfold plan_enable in Hd. apply result_bind_ok in Hd as (? & Hm%check_ok & Hd).
    destruct (matrix_ready matrix) eqn:Er; cbn [negb] in Hd; [|by injection Hd as <-].
    destruct (plan_ready _ _ _ _ Hd Hs) as (step' & Hn' & Hl & Hfact & _). rewrite Hn in Hn'. injection Hn' as <-.
    cbn [with_step os_enable_completed completed_of] in *. rewrite Hc in *. split_and!.
    - rewrite length_app. cbn. rewrite Nat.add_1_r, (take_S_r _ _ _ Hl). by rewrite <- Hp.
    - by rewrite fmap_app, <- Hh.
    - apply Forall_app. split; [done|]. constructor; [|constructor]. unfold justified. cbn. split_and!; [done|by eapply ready_verified|].
      intros He. rewrite Hc in He. rewrite He in Hm. cbn in Hm. rewrite andb_true_r in Hm. by apply negb_false_iff, bool_decide_eq_true in Hm. }
  split_and!; [done|done|done|]. intros st facts matrix Hst Hf Hg. unfold plan_enable. rewrite Hst.
  assert (negb (bool_decide (os_ci_mode st = "github")) && bool_decide (completed = []) = false) as ->.
  { apply andb_false_iff. destruct (decide (completed = [])) as [He|He]; [left|right; by apply bool_decide_eq_false].
    apply negb_false_iff, bool_decide_eq_true. auto. }
  cbn [check mbind result_bind]. pose proof (ready_verified _ _ Hf) as Hv. destruct (matrix_ready matrix) eqn:Er; cbn [negb].
  2: { eexists. split; [reflexivity|]. intros step. cbn. split; [by intros [??]|]. intros (_ & _ & Hver). by apply Hv in Hver. }
  unfold _plan, _validate_prefix, completed_of. rewrite Hst.
  rewrite (bool_decide_eq_false_2 (¬ NoDup completed)), (bool_decide_eq_true_2 (completed = _)); [|done|].
  2: { intros Hd. apply Hd. assert (NoDup ENABLE_ORDER) as Ho by (apply (bool_decide_eq_true_1 (NoDup ENABLE_ORDER)); vm_compute; reflexivity).
       rewrite <- (take_drop (length completed)), NoDup_app, <- Hp in Ho. apply Ho. }
  cbn [orb negb check mbind result_bind]. destruct (ENABLE_ORDER !! length completed) as [step0|] eqn:El.
  2: { eexists. split; [reflexivity|]. intros step. cbn. split; [by intros [??]|by intros [??]]. }
  assert (verified facts) as Hver by by apply Hv.
  destruct (fact_of st step0) as [|[]| | | |] eqn:Ef; (eexists; split; [reflexivity|]); intros step; cbn;
    (split; [by intros [? [= <-]]|intros ([= <-] & ? & _)]); first [done|congruence].
Qed.

(** The first step of a rollout, and the second one held back. *)
Definition toy_facts : dict := (λ label : string * string, (label.1, VBool true)) <$> compatibility_labels.
Definition toy_matrix : ReadinessMatrix :=
  {| rm_repository := "unknown";
     rm_criteria := (λ label : string * string, {| cr_id := label.1; cr_status := "pass"; cr_evidence := [label.2]; cr_blocker := None |}) <$> compatibility_labels |}.
Definition toy_state (completed : list string) : OperatorState :=
  {| os_repository := "octo/repo"; os_ci_mode := "github"; os_enable_completed := completed; os_disable_completed := [];
     os_external_facts := Some [("prove_authority", VBool true)]; os_bootstrap_repository_created := true |}.
Lemma rollout_gated_witness :
  ∃ d : OperatorDecision, plan_enable (toy_state ["prove_authority"]) toy_matrix = Ok d ∧ od_status d = "blocked" ∧
    od_next_step d = Some "install_pr_workflow" ∧ ["prove_authority"] = take 1 ENABLE_ORDER.
Proof.
  assert (compatibility_readiness toy_facts = Ok toy_matrix) as Hf by reflexivity.
  assert (rollout ["prove_authority"] [{| tk_step := "prove_authority"; tk_state := toy_state []; tk_compatibility := toy_facts |}]) as Hr.
  { pose proof (rollout_step [] [] (toy_state []) toy_facts toy_matrix
      {| od_operation := ENABLE; od_status := "ready"; od_next_step := Some "prove_authority"; od_completed := []; od_blockers := []; od_warnings := [] |}
      "prove_authority" rollout_start eq_refl Hf eq_refl eq_refl eq_refl) as Hr. exact Hr. }
  destruct (rollout_gated _ _ Hr) as (Hp & _ & _ & Hn).
  destruct (Hn (toy_state ["prove_authority"]) toy_facts toy_matrix eq_refl Hf (λ _, eq_refl)) as (d & Hd & _).
  exists d. split; [exact Hd|]. assert (plan_enable (toy_state ["prove_authority"]) toy_matrix = Ok
    {| od_operation := ENABLE; od_status := "blocked"; od_next_step := Some "install_pr_workflow"; od_completed := ["prove_authority"];
       od_blockers := ["external verification required for install_pr_workflow"]; od_warnings := [] |}) as E by reflexivity.
  rewrite E in Hd. injection Hd as <-. split_and!; [reflexivity|reflexivity|exact Hp].
Defined.

(** ** Freshness of a health snapshot

    An age is a number of microseconds here, of seconds in the code. *)

(** [timestamp]: only UTC, only with a zone; [astimezone] gives an instant of the
    supported years or raises. *)
Definition timestamp (value : pyval) : result Z :=
  match value with
  | VStr s =>
      match chop_z s with
      | None => throw ValueError "timestamp must be UTC"
      | Some body =>
          parsed ← fromisoformat (body +:+ "+00:00");
          match parsed with
          | Naive _ => throw ValueError "timestamp requires timezone"
          | Aware _ t => dt_add t 0
          end
      end
  | _ => throw ValueError "timestamp must be UTC"
  end.
(** [now - generated], which a naive [now] refuses. *)
Definition age_of (now : datetime) (generated : Z) : result Z :=
  match now with Aware _ t => Ok (t - generated) | Naive _ => throw TypeError "can't subtract offset-naive and offset-aware datetimes" end.
Definition is_contract_error (c : exn_class) : bool := bool_decide (c ∈ [TypeError; ValueError; OverflowError]).

Definition Freshness := (Z * string * option Z)%type.
Definition snapshot_freshness (payload : dict) (now : datetime) (expiry_skew_seconds : Z) : result Freshness :=
  let invalid age (e : exn) := if is_contract_error (exn_cls e) then Ok (5, "invalid_snapshot_contract", age) else Raise e in
  match (generated ← timestamp (dget "generated_at" payload); age ← age_of now generated; Ok (generated, age)) with
  | Raise e => invalid None e
  | Ok (generated, age) =>
      match (expires ← timestamp (dget "expires_at" payload);
             check ((expires <=? generated) || (seconds 300 <? expires - generated)) ValueError "invalid snapshot lifetime";;
             Ok expires) with
      | Raise e => invalid (Some age) e
      | Ok expires =>
          latest ← dt_add (instant now) (seconds 30);
          if latest <? generated then Ok (5, "snapshot_from_future", Some age)
          else
            end_ ← dt_add expires (seconds expiry_skew_seconds);
            if end_ <=? instant now then Ok (4, "snapshot_expired", Some age)
            else Ok (0, "healthy", Some age)
      end
  end.

Lemma timestamp_error v e : timestamp v = Raise e → is_contract_error (exn_cls e) = true.
Proof.
  unfold timestamp, fromisoformat, throw. destruct v; try by intros [= <-].
  destruct (chop_z s) as [body|]; [|by intros [= <-]]. destruct (parse_iso _) as [[w|tz t]|]; cbn; [by intros [= <-]| |by intros [= <-]].
  unfold dt_add. destruct (decide _); by intros [= <-].
Qed.
Lemma timestamp_valid v t : timestamp v = Ok t → valid_instant t.
Proof.
  unfold timestamp. destruct v; try done. destruct (chop_z s) as [body|]; [|done].
  intros ([w|tz u] & _ & H)%result_bind_ok; [done|]. revert H. unfold dt_add. rewrite Z.add_0_r. destruct (decide _); [by intros [= <-]|done].
Qed.
Lemma age_error now g e : age_of now g = Raise e → is_contract_error (exn_cls e) = true.
Proof. destruct now; cbn; by intros [= <-]. Qed.

(** What makes a snapshot healthy at an instant. *)
Definition fresh (payload : dict) (t skew : Z) : Prop := ∃ generated expires,
  timestamp (dget "generated_at" payload) = Ok generated ∧ timestamp (dget "expires_at" payload) = Ok expires ∧
  generated < expires ≤ generated + seconds 300 ∧ generated - seconds 30 ≤ t < expires + seconds skew.

(** a snapshot is reported healthy exactly when both its timestamps are UTC
    texts, its lifetime is positive and at most five minutes, it is at most thirty
    seconds from the future and has not expired; so a healthy snapshot is less than
    five minutes and the allowed skew old.  Every answer is one of the three codes,
    and up to the last minutes of the year 9999 there is an answer. *)
Lemma snapshot_freshness_exact payload tz t skew :
  0 ≤ skew ≤ 30 → 0 ≤ t → t + seconds 360 < MAX_INSTANT →
  ∃ code reason age, snapshot_freshness payload (Aware tz t) skew = Ok (code, reason, age) ∧
    code ∈ [0; 4; 5] ∧ (code = 0 ↔ fresh payload t skew) ∧
    (code = 0 → ∃ a, age = Some a ∧ - seconds 30 ≤ a < seconds (300 + skew)).
Proof.
  unfold seconds, US_SECOND. intros Hk Ht Hm. unfold snapshot_freshness, fresh, seconds, US_SECOND. cbn [instant age_of mbind result_bind].
  destruct (timestamp (dget "generated_at" payload)) as [g|e] eqn:Eg; cbn [mbind result_bind].
  2: { rewrite (timestamp_error _ _ Eg). do 3 eexists. split_and!; [reflexivity|set_solver|split; [done|naive_solver]|done]. }
  destruct (timestamp (dget "expires_at" payload)) as [ex|e] eqn:Ee; cbn [mbind result_bind].
  2: { rewrite (timestamp_error _ _ Ee). do 3 eexists. split_and!; [reflexivity|set_solver|split; [done|naive_solver]|done]. }
  unfold check. destruct ((ex <=? g) || (300 * 1000000 <? ex - g)) eqn:El; cbn [throw mbind result_bind].
  { do 3 eexists. split_and!; [reflexivity|set_solver| |done]. split; [done|]. intros (g' & ex' & [= <-] & [= <-] & ? & ?). lia. }
  assert (dt_add t (30 * 1000000) = Ok (t + 30 * 1000000)) as -> by (unfold dt_add; rewrite decide_True; [done|unfold valid_instant; lia]). cbn [mbind result_bind].
  destruct (t + 30 * 1000000 <? g) eqn:Ef.
  { do 3 eexists. split_and!; [reflexivity|set_solver| |done]. split; [done|]. intros (g' & ex' & [= <-] & [= <-] & ? & ?). lia. }
  assert (dt_add ex (skew * 1000000) = Ok (ex + skew * 1000000)) as ->.
  { pose proof (timestamp_valid _ _ Ee) as [? ?]. unfold dt_add. rewrite decide_True; [done|unfold valid_instant; lia]. }
  cbn [mbind result_bind]. destruct (ex + skew * 1000000 <=? t) eqn:En.
  - do 3 eexists. split_and!; [reflexivity|set_solver| |done]. split; [done|]. intros (g' & ex' & [= <-] & [= <-] & ? & ?). lia.
  - do 3 eexists. split_and!; [reflexivity|set_solver| |].
    + split; [intros _|done]. exists g, ex. split_and!; [done|done|lia..].
    + intros _. exists (t - g). split; [done|lia].
Qed.

(** A snapshot of a minute, seen after ten seconds. *)
Definition toy_snapshot : dict := [("generated_at", VStr "2026-01-02T03:04:05Z"); ("expires_at", VStr "2026-01-02T03:05:05Z")].
Definition toy_seen_at : Z := Eval vm_compute in match timestamp (VStr "2026-01-02T03:04:15Z") with Ok t => t | Raise _ => 0 end.
Lemma snapshot_freshness_exact_witness :
  snapshot_freshness toy_snapshot (Aware UTC toy_seen_at) 30 = Ok (0, "healthy", Some (seconds 10)) ∧ fresh toy_snapshot toy_seen_at 30.
Proof.
  destruct (snapshot_freshness_exact toy_snapshot UTC toy_seen_at 30 ltac:(lia) ltac:(unfold toy_seen_at; lia)
    ltac:(unfold toy_seen_at, seconds, US_SECOND, MAX_INSTANT; lia)) as (code & reason & age & He & _ & Hf & _).
  assert (snapshot_freshness toy_snapshot (Aware UTC toy_seen_at) 30 = Ok (0, "healthy", Some (seconds 10))) as E by (vm_compute; reflexivity).
  split; [exact E|]. rewrite E in He. injection He as <- <- <-. apply Hf. reflexivity.
Defined.

