(* ===== verification/CanaryBoundary.v ===== *)
(** * Authorization of the runner lifecycle canaries (canary_boundary.py)

    A signed document that permits six one-job allocations and nothing else.
    Validation collects every blocker; verification adds the pinned signer. *)

From S2P Require Import Prelude Datetime PyValue PyText Json Digest Jcs Signatures Allocation.
#[local] Open Scope Z_scope.

Definition CANARY_ATTESTATION_DOMAIN : string := "self-hosted-ci/jit-canary-authorization/v1".
Definition CANARY_SCENARIOS : list string := ["success"; "failure"; "cancel"; "timeout"; "force-cancel"; "reboot"].
Definition MAX_AUTHORIZATION_TTL_SECONDS : Z := 120 * 60.
Definition _WORKFLOW : string := ".github/workflows/ci-jit-canary-child.yml".
Definition _UNSIGNED_FIELDS : list string :=
  ["schema_version"; "purpose"; "production_activation_authorized"; "outbound_worker_authorized"; "required_check_authorized";
   "github_contact_authorized"; "runner_registration_authorized"; "repository"; "repository_id"; "pull_request"; "base_sha";
   "head_sha"; "tested_merge_sha"; "workflow_ref"; "dispatch_sha"; "garm_entity"; "image_alias"; "image_fingerprint";
   "allocation_signer_fingerprint"; "github_app_config_digest"; "live_job_verifier_digest"; "network_policy_digest";
   "bootstrap_install_receipt_digest"; "scenarios"; "max_allocations"; "max_concurrency"; "max_jobs_per_allocation"; "issued_at";
   "expires_at"; "nonce"].

Record CanaryAuthorizationDecision := {
  ca_authorized : bool; ca_blockers : list string; ca_nonce : option string; ca_repository : option string;
  ca_scenarios : list pyval; ca_issued_at : option Z; ca_expires_at : option Z;
}.

Definition canary_refuse {A} (msg : string) : result A := throw CanaryBoundaryError msg.
Definition canary_refuse_if (b : bool) (msg : string) : result unit := check b CanaryBoundaryError msg.

(** ** Blockers *)

(** A SHA-256 with its name before it. *)
Definition is_named_digest (s : string) : bool := match strip_prefix "sha256:" s with Some h => is_sha256 h | None => false end.

Definition block_if (b : bool) (text : string) : list string := if b then [text] else [].
(** [tuple(dict.fromkeys(blockers))] *)
Definition first_occurrences (l : list string) : list string := rev (remove_dups (rev l)).

(** [_timestamp]: what [isoformat] writes with Z is UTC in whole seconds. *)
Definition canary_timestamp (value : pyval) (field : string) : result Z :=
  let msg := field +:+ " must be canonical UTC seconds" in
  match value with
  | VStr s =>
      match chop_z s with
      | None => canary_refuse msg
      | Some body =>
          parsed ← rewrap (λ c, bool_decide (c = ValueError)) CanaryBoundaryError msg (fromisoformat (body +:+ "+00:00"));
          match parsed with
          | Aware UTC t => canary_refuse_if (negb (bool_decide (stamp_text t = s))) msg;; Ok t
          | _ => canary_refuse msg
          end
      end
  | _ => canary_refuse msg
  end.
Definition _uuid (value : pyval) : bool :=
  match value with
  | VStr s => match uuid_parse s with Ok n => bool_decide (uuid_text n = s) | Raise _ => false end
  | _ => false
  end.

Definition _unsigned (value : dict) : dict := dremove "attestation" value.

(** The text after the last occurrence; the whole text without one. *)
Fixpoint after_last (sep s : string) : option string :=
  match s with
  | EmptyString => None
  | String _ s' => match after_last sep s' with Some t => Some t | None => strip_prefix sep s end
  end.
Definition is_ref_char (c : ascii) : bool := is_name_char c || Ascii.eqb c "/".
Definition is_workflow_of (workflow repository : string) : bool :=
  match strip_prefix (repository +:+ "/" +:+ _WORKFLOW +:+ "@refs/heads/") workflow with
  | Some _ => match_some is_ref_char (default workflow (after_last "@refs/heads/" workflow))
  | None => false
  end.

(** [repository.split("/", 1)[0]] *)
Definition owner_part (repository : string) : string :=
  match split_at "/" repository with Some (owner, _) => owner | None => repository end.
Definition is_exact_group (s : string) : bool :=
  stripped s && (1 <=? py_len s)%nat && (py_len s <=? 100)%nat && lacks "*" s && lacks "013" s && lacks "010" s.
Definition ENTITY_FIELDS : list string := ["authority_kind"; "entity_id"; "entity_name"; "runner_group"].

Definition entity_blockers (repository : pyval) (entity : pyval) : result (list string) :=
  match entity with
  | VDict e =>
      if negb (same_set (dkeys e) ENTITY_FIELDS) then Ok ["canary-authorization:garm_entity"]
      else
        let kind := dget "authority_kind" e in
        let group := dget "runner_group" e in
        let kind_is k := py_eq kind (VStr k) in
        known ← py_in_set kind (text_set ["personal-repository"; "organization-runner-group"]);
        let expected := if kind_is "personal-repository" then repository
                        else match repository with VStr r => VStr (owner_part r) | _ => VNone end in
        Ok (block_if (negb known) "canary-authorization:garm_authority"
            ++ block_if (negb (_uuid (dget "entity_id" e)) || negb (is_nonempty_str (dget "entity_name" e)))
                 "canary-authorization:garm_identity"
            ++ block_if (negb (py_eq (dget "entity_name" e) expected)) "canary-authorization:garm_identity"
            ++ block_if (kind_is "personal-repository" && negb (is_none group)
                         || kind_is "organization-runner-group" && negb (is_str_where is_exact_group group))
                 "canary-authorization:runner_group")
  | _ => Ok ["canary-authorization:garm_entity"]
  end.

Definition clock_blockers (d : dict) (now : option datetime) : list string :=
  match canary_timestamp (dget "issued_at" d) "issued_at" with
  | Raise e => [exn_msg e]
  | Ok issued =>
      match canary_timestamp (dget "expires_at" d) "expires_at" with
      | Raise e => [exn_msg e]
      | Ok expires =>
          block_if ((expires <=? issued) || (seconds MAX_AUTHORIZATION_TTL_SECONDS <? expires - issued)) "canary-authorization:lifetime"
          ++ match now with
             | None => []
             | Some (Naive _) => ["canary verification clock must be timezone-aware"]
             | Some (Aware _ current) =>
                 if current <? issued then ["canary-authorization:not-yet-valid"]
                 else block_if (expires <=? current) "canary-authorization:expired"
             end
      end
  end.

(** One blocker for every field of a list that fails its test. *)
Definition field_blockers (test : pyval → bool) (d : dict) (fields : list string) : list string :=
  concat ((λ f, block_if (negb (test (dget f d))) ("canary-authorization:" +:+ f)) <$> fields).
Definition FORBIDDEN : list string := ["production_activation_authorized"; "outbound_worker_authorized"; "required_check_authorized"].
Definition PERMITTED : list string := ["github_contact_authorized"; "runner_registration_authorized"].
Definition CANARY_SHA_FIELDS : list string := ["base_sha"; "head_sha"; "tested_merge_sha"; "dispatch_sha"].
Definition DIGEST_FIELDS : list string :=
  ["image_fingerprint"; "allocation_signer_fingerprint"; "github_app_config_digest"; "live_job_verifier_digest";
   "network_policy_digest"; "bootstrap_install_receipt_digest"].
Definition is_false (v : pyval) : bool := match v with VBool false => true | _ => false end.
Definition is_int_of (n : Z) (v : pyval) : bool := match v with VInt m => m =? n | _ => false end.
Definition is_canary_nonce : string → bool := match_exactly 32 is_lower_hex.

Definition validate_canary_authorization (value : pyval) (now : option datetime) : result (list string) :=
  match value with
  | VDict d =>
      if negb (same_set (dkeys d) _UNSIGNED_FIELDS) then Ok ["canary-authorization-schema"]
      else
        let repository := dget "repository" d in
        entity ← entity_blockers repository (dget "garm_entity" d);
        Ok (first_occurrences
          (block_if (negb (py_eq (dget "schema_version" d) (VInt 1)) || negb (py_eq (dget "purpose" d) (VStr "runner-lifecycle-proof-only")))
             "canary-authorization-purpose"
           ++ field_blockers is_false d FORBIDDEN ++ field_blockers is_true d PERMITTED
           ++ field_blockers (is_str_where is_repository) d ["repository"]
           ++ field_blockers is_positive_int d ["repository_id"; "pull_request"]
           ++ field_blockers (is_str_where is_sha1) d CANARY_SHA_FIELDS
           ++ block_if (negb (match dget "workflow_ref" d, repository with
                              | VStr w, VStr r => is_workflow_of w r
                              | _, _ => false
                              end)) "canary-authorization:workflow_ref"
           ++ entity
           ++ field_blockers is_nonempty_str d ["image_alias"]
           ++ field_blockers (is_str_where is_sha256) d DIGEST_FIELDS
           ++ field_blockers (λ v, py_eq v (VList (VStr <$> CANARY_SCENARIOS))) d ["scenarios"]
           ++ field_blockers (is_int_of 6) d ["max_allocations"]
           ++ field_blockers (is_int_of 1) d ["max_concurrency"; "max_jobs_per_allocation"]
           ++ field_blockers (is_str_where is_canary_nonce) d ["nonce"]
           ++ clock_blockers d now))
  | _ => Ok ["canary-authorization-schema"]
  end.

(** [", ".join(blockers)] *)
Fixpoint join_blockers (l : list string) : string :=
  match l with [] => "" | [s] => s | s :: l => s +:+ ", " +:+ join_blockers l end.

Section boundary.
Context {D : Digest} {K : KeyLibrary}.

Definition authorization_digest (value : dict) : result string :=
  let payload := _unsigned value in
  blockers ← validate_canary_authorization (VDict payload) None;
  canary_refuse_if (negb (bool_decide (blockers = []))) (join_blockers blockers);;
  sha256_hex <$> canonicalize_jcs (VDict payload).

Definition sign_canary_authorization (value : dict) (k : private_key) : result dict :=
  canary_refuse_if (bool_decide ("attestation" ∈ dkeys value)) "canary authorization must be unsigned before attestation";;
  blockers ← validate_canary_authorization (VDict value) None;
  canary_refuse_if (negb (bool_decide (blockers = []))) (join_blockers blockers);;
  signature ← sign_detached (VDict value) k CANARY_ATTESTATION_DOMAIN;
  Ok (value ++ [("attestation", VDict [("attestation_version", VInt 1);
    ("signer_fingerprint", VStr (spki_fingerprint (public_of k))); ("signature", VStr signature)])]).

Definition stamp_or_none (v : pyval) : option Z := match canary_timestamp v "" with Ok t => Some t | Raise _ => None end.
Definition verify_canary_authorization (value : pyval) (k : public_key) (pinned : string) (now : option datetime)
    : result CanaryAuthorizationDecision :=
  match value with
  | VDict d =>
      canary_refuse_if (negb (same_set (dkeys d) (_UNSIGNED_FIELDS ++ ["attestation"]))) "signed canary authorization requires exact fields";;
      match dget "attestation" d with
      | VDict a =>
          canary_refuse_if (negb (same_set (dkeys a) ["attestation_version"; "signer_fingerprint"; "signature"])
                            || negb (py_eq (dget "attestation_version" a) (VInt 1)))
            "canary authorization attestation requires exact v1 fields";;
          canary_refuse_if (negb (is_sha256 pinned) || negb (bool_decide (spki_fingerprint k = pinned))
                            || negb (py_eq (dget "signer_fingerprint" a) (VStr pinned)))
            "canary authorization signer does not match pinned reviewer key";;
          let payload := _unsigned d in
          rewrap is_value_error CanaryBoundaryError "canary authorization signature is invalid"
            (verify_detached (VDict payload) (dget "signature" a) k CANARY_ATTESTATION_DOMAIN);;
          blockers ← validate_canary_authorization (VDict payload) now;
              (* the second time is read only after the first *)
          let issued := stamp_or_none (dget "issued_at" payload) in
          let expires := issued ≫= λ _, stamp_or_none (dget "expires_at" payload) in
          Ok {| ca_authorized := bool_decide (blockers = []); ca_blockers := blockers;
                ca_nonce := text_of (dget "nonce" payload); ca_repository := text_of (dget "repository" payload);
                ca_scenarios := match dget "scenarios" payload with VList l => l | _ => [] end;
                ca_issued_at := issued; ca_expires_at := expires |}
      | _ => canary_refuse "canary authorization attestation requires exact v1 fields"
      end
  | _ => canary_refuse "signed canary authorization requires exact fields"
  end.
End boundary.

(** ** Facts about blockers *)

Lemma first_occurrences_nil l : first_occurrences l = [] ↔ l = [].
Proof.
  unfold first_occurrences. split; [|by intros ->]. intros H%(f_equal (@rev string)). rewrite rev_involutive in H. cbn in H.
  destruct (rev l) as [|s r] eqn:E; [by rewrite <- (rev_involutive l), E|]. exfalso.
  assert (s ∈ remove_dups (s :: r)) as Hs by (apply elem_of_remove_dups; left). rewrite H in Hs. by apply elem_of_nil in Hs.
Qed.
Lemma app_nil_iff {A} (l l' : list A) : l ++ l' = [] ↔ l = [] ∧ l' = [].
Proof. split; [apply app_eq_nil|by intros [-> ->]]. Qed.
Lemma block_if_nil b text : block_if b text = [] ↔ b = false.
Proof. by destruct b. Qed.
Lemma negb_block_nil b text : block_if (negb b) text = [] ↔ b = true.
Proof. by destruct b. Qed.
Lemma concat_nil {A B} (f : A → list B) (l : list A) : concat (f <$> l) = [] ↔ Forall (λ a, f a = []) l.
Proof. induction l as [|a l IH]; cbn; [done|]. by rewrite app_nil_iff, IH, Forall_cons. Qed.
Lemma field_blockers_nil test d fields : field_blockers test d fields = [] ↔ Forall (λ f, test (dget f d) = true) fields.
Proof. unfold field_blockers. rewrite concat_nil. apply Forall_proper; [|done]. intros f. apply negb_block_nil. Qed.

Lemma is_false_ok v : is_false v = true → v = VBool false.
Proof. by destruct v as [|[]| | | |]. Qed.
Lemma is_true_ok v : is_true v = true → v = VBool true.
Proof. by destruct v as [|[]| | | |]. Qed.
Lemma is_int_of_ok n v : is_int_of n v = true → v = VInt n.
Proof. destruct v; try done. by intros ->%Z.eqb_eq. Qed.
Lemma py_eq_texts v l : py_eq v (VList (VStr <$> l)) = true → v = VList (VStr <$> l).
Proof.
  destruct v as [| | | |w|]; try done. cbn. intros H. f_equal. revert l H.
  induction w as [|x w IH]; intros [|s l]; cbn; try done. intros [Hx Hw]%andb_true_iff. apply py_eq_str in Hx. rewrite Hx. f_equal. auto.
Qed.
Lemma canary_timestamp_ok v field t : canary_timestamp v field = Ok t → v = VStr (stamp_text t).
Proof.
  unfold canary_timestamp. destruct v as [| | |s| |]; try done. destruct (chop_z s) as [body|]; [|done].
  intros ([w|[] u] & _ & H)%result_bind_ok; try done. apply result_bind_ok in H as (? & Hc%check_ok & [= ->]).
  by apply negb_false_iff, bool_decide_eq_true in Hc as <-.
Qed.

(** What a valid authorization permits, and what it never does. *)
Record narrow (d : dict) : Prop := {
  nw_fields : same_set (dkeys d) _UNSIGNED_FIELDS = true;
  nw_purpose : dget "purpose" d = VStr "runner-lifecycle-proof-only";
  nw_forbidden : Forall (λ f, dget f d = VBool false) FORBIDDEN;
  nw_permitted : Forall (λ f, dget f d = VBool true) PERMITTED;
  nw_budget : dget "max_allocations" d = VInt 6 ∧ dget "max_concurrency" d = VInt 1 ∧ dget "max_jobs_per_allocation" d = VInt 1;
  nw_scenarios : dget "scenarios" d = VList (VStr <$> CANARY_SCENARIOS);
  nw_shas : Forall (λ f, is_str_where is_sha1 (dget f d) = true) CANARY_SHA_FIELDS;
  nw_digests : Forall (λ f, is_str_where is_sha256 (dget f d) = true) DIGEST_FIELDS;
  nw_workflow : ∃ workflow repository, dget "workflow_ref" d = VStr workflow ∧ dget "repository" d = VStr repository ∧
    is_repository repository = true ∧ is_workflow_of workflow repository = true;
  nw_entity : ∃ e, dget "garm_entity" d = VDict e ∧
    (dget "authority_kind" e = VStr "personal-repository" ∧ dget "entity_name" e = dget "repository" d ∧ dget "runner_group" e = VNone ∨
     dget "authority_kind" e = VStr "organization-runner-group" ∧ ∃ repository group, dget "repository" d = VStr repository ∧
       dget "entity_name" e = VStr (owner_part repository) ∧ dget "runner_group" e = VStr group ∧ is_exact_group group = true);
}.
(** Its window, and the instant it was judged at. *)
Definition within (d : dict) (now : option datetime) : Prop := ∃ issued expires,
  dget "issued_at" d = VStr (stamp_text issued) ∧ dget "expires_at" d = VStr (stamp_text expires) ∧
  issued < expires ≤ issued + seconds MAX_AUTHORIZATION_TTL_SECONDS ∧
  match now with None => True | Some (Aware _ t) => issued ≤ t < expires | Some (Naive _) => False end.

Lemma clock_within d now : clock_blockers d now = [] → within d now.
Proof.
  unfold clock_blockers, within. destruct (canary_timestamp (dget "issued_at" d) _) as [i|e] eqn:Ei; [|done].
  destruct (canary_timestamp (dget "expires_at" d) _) as [x|e] eqn:Ex; [|done].
  intros [Hl Hn]%app_nil_iff. apply block_if_nil in Hl. apply canary_timestamp_ok in Ei, Ex. exists i, x.
  split_and!; [done|done|lia|lia|]. destruct now as [[w|tz t]|]; [done| |done].
  destruct (t <? i) eqn:Et; [done|]. apply block_if_nil in Hn. lia.
Qed.

Lemma entity_ok repository entity l :
  entity_blockers repository entity = Ok l → l = [] → is_str_where is_repository repository = true →
  ∃ e, entity = VDict e ∧
    (dget "authority_kind" e = VStr "personal-repository" ∧ dget "entity_name" e = repository ∧ dget "runner_group" e = VNone ∨
     dget "authority_kind" e = VStr "organization-runner-group" ∧ ∃ r group, repository = VStr r ∧
       dget "entity_name" e = VStr (owner_part r) ∧ dget "runner_group" e = VStr group ∧ is_exact_group group = true).
Proof.
  unfold entity_blockers. destruct entity as [| | | | |e]; try by intros [= <-]. destruct (negb (same_set _ _)); [by intros [= <-]|].
  intros (known & Hk & [= <-])%result_bind_ok. rewrite !app_nil_iff, !block_if_nil. intros (Hkn & _ & Hn & Hg) Hr. exists e. split; [done|].
  apply negb_false_iff in Hkn, Hn. subst known. unfold py_in_set in Hk. apply result_bind_ok in Hk as (? & _ & [= Hk]).
  cbn [text_set fmap list_fmap existsb] in Hk. rewrite orb_false_r in Hk. apply orb_false_iff in Hg as [Hg1 Hg2].
  destruct repository as [| | |r| |]; try done. apply orb_true_iff in Hk as [Hk|Hk]; [left|right]; apply py_eq_str in Hk; rewrite Hk in *.
  - cbn in Hg1, Hn. apply negb_false_iff in Hg1. apply py_eq_str in Hn. split_and!; [done|done|by destruct (dget "runner_group" e)].
  - cbn in Hg2, Hn. apply negb_false_iff in Hg2. apply py_eq_str in Hn. split; [done|].
    destruct (dget "runner_group" e) as [| | |group| |]; try done. by exists r, group.
Qed.

Lemma validate_narrow value now :
  validate_canary_authorization value now = Ok [] → ∃ d, value = VDict d ∧ narrow d ∧ within d now.
Proof.
  unfold validate_canary_authorization. destruct value as [| | | | |d]; try done. destruct (negb (same_set _ _)) eqn:Ef; [done|].
  intros (ent & He & [= H])%result_bind_ok. apply (proj1 (first_occurrences_nil _)) in H. rewrite !app_nil_iff, !block_if_nil, !field_blockers_nil in H.
  destruct H as (Hp & Hf & Ht & Hr & _ & Hs & Hw & Hent & _ & Hd & Hsc & H6 & H1 & _ & Hc). exists d. split; [done|].
  split; [|by apply clock_within]. apply orb_false_iff in Hp as [_ Hp]. apply negb_false_iff in Ef, Hw, Hp. apply py_eq_str in Hp.
  rewrite Forall_singleton in Hr, Hsc, H6. rewrite !Forall_cons in H1. destruct H1 as (H1 & H1' & _). constructor; try done.
  - eapply Forall_impl; [exact Hf|]. intros f. apply is_false_ok.
  - eapply Forall_impl; [exact Ht|]. intros f. apply is_true_ok.
  - auto using is_int_of_ok.
  - by apply (py_eq_texts _ CANARY_SCENARIOS).
  - destruct (dget "workflow_ref" d) as [| | |w| |]; try done. destruct (dget "repository" d) as [| | |r| |]; try done. by exists w, r.
  - by eapply entity_ok.
Qed.

(** ** Signed authorizations *)

Section signed.
Context {D : Digest} {K : KeyLibrary}.

(** The document carries a signature of the pinned key over everything else. *)
Definition attested_by (domain : string) (d : dict) (k : public_key) (pinned : string) : Prop := ∃ a,
  dget "attestation" d = VDict a ∧ is_sha256 pinned = true ∧ spki_fingerprint k = pinned ∧ dget "signer_fingerprint" a = VStr pinned ∧
  verify_detached (VDict (_unsigned d)) (dget "signature" a) k domain = Ok tt.

Lemma authorization_verified value k pinned now dec :
  verify_canary_authorization value k pinned now = Ok dec → ca_authorized dec = true →
  ∃ d, value = VDict d ∧ attested_by CANARY_ATTESTATION_DOMAIN d k pinned ∧ narrow (_unsigned d) ∧ within (_unsigned d) now ∧
    ca_nonce dec = text_of (dget "nonce" (_unsigned d)).
Proof.
  unfold verify_canary_authorization. destruct value as [| | | | |d]; try done. intros (? & _ & H)%result_bind_ok.
  destruct (dget "attestation" d) as [| | | | |a] eqn:Ea; try done. apply result_bind_ok in H as (? & _ & H).
  apply result_bind_ok in H as (? & Hp%check_ok & H). apply result_bind_ok in H as ([] & Hv%rewrap_ok & H).
  apply result_bind_ok in H as (blockers & Hb & [= <-]). cbn [ca_authorized ca_nonce]. intros ->%bool_decide_eq_true.
  destruct (validate_narrow _ _ Hb) as (d' & [= <-] & Hn & Hw). exists d. split; [done|]. split_and!; [|done|done|done].
  apply orb_false_iff in Hp as [[Hp1%negb_false_iff Hp2%negb_false_iff%bool_decide_eq_true]%orb_false_iff Hp3%negb_false_iff%py_eq_str].
  exists a. by split_and!.
Qed.

Lemma unsigned_signed d v : "attestation" ∉ dkeys d → _unsigned (d ++ [("attestation", v)]) = d.
Proof.
  unfold _unsigned, dremove, dkeys. induction d as [|[k w] d IH]; cbn.
  - intros _. by rewrite decide_False by naive_solver.
  - rewrite not_elem_of_cons. intros [Hk Hd]. rewrite decide_True by (cbn; congruence). f_equal. auto.
Qed.
Lemma dget_signed d v : "attestation" ∉ dkeys d → dget "attestation" (d ++ [("attestation", v)]) = v.
Proof.
  unfold dget, dkeys. induction d as [|[k w] d IH]; cbn; [done|]. rewrite not_elem_of_cons. intros [Hk Hd].
  rewrite decide_False by done. auto.
Qed.
Lemma dkeys_signed d v : dkeys (d ++ [("attestation", v)]) = dkeys d ++ ["attestation"].
Proof. unfold dkeys. induction d as [|kv d IH]; [done|]. cbn. by f_equal. Qed.
Lemma same_set_app a b c : same_set a b = true → same_set (a ++ c) (b ++ c) = true.
Proof.
  unfold same_set, subset_of. rewrite !andb_true_iff, !forallb_forall. intros [H1 H2]. split; intros x Hx.
  - apply bool_decide_eq_true, list_elem_of_In. apply in_app_or in Hx as [Hx|Hx]; apply in_or_app; [left|by right].
    apply H1, bool_decide_eq_true, list_elem_of_In in Hx. done.
  - apply bool_decide_eq_true, list_elem_of_In. apply in_app_or in Hx as [Hx|Hx]; apply in_or_app; [left|by right].
    apply H2, bool_decide_eq_true, list_elem_of_In in Hx. done.
Qed.

(** C37: an authorization that verifies was signed by the pinned reviewer key over
    exactly what it says, and says only this: six single-job allocations, one at a
    time, one for each scenario, on one repository's canary workflow, with
    production, the worker and the required check ruled out, for at most two
    hours, within which the clock was, if one was given.  And what the signing
    function signs does verify under its key. *)
Theorem canary_authorization_narrow {L : KeyLaws} value k pinned now dec :
  verify_canary_authorization value k pinned now = Ok dec →
  (ca_authorized dec = true → ∃ d, value = VDict d ∧ attested_by CANARY_ATTESTATION_DOMAIN d k pinned ∧
     narrow (_unsigned d) ∧ within (_unsigned d) now) ∧
  ∀ unsigned key signed, sign_canary_authorization unsigned key = Ok signed →
    ∃ dec', verify_canary_authorization (VDict signed) (public_of key) (spki_fingerprint (public_of key)) None = Ok dec' ∧
      ca_authorized dec' = true ∧ _unsigned signed = unsigned.
Proof.
  intros Hver. split; [intros Ha; destruct (authorization_verified _ _ _ _ _ Hver Ha) as (d & ? & ? & ? & ? & _); eauto|].
  intros unsigned key signed. unfold sign_canary_authorization.
  intros (? & Hno%check_ok%bool_decide_eq_false & (blockers & Hb & (? & Hnil%check_ok & (text & Ht & [= <-])%result_bind_ok)%result_bind_ok)%result_bind_ok)%result_bind_ok.
  apply negb_false_iff, bool_decide_eq_true in Hnil. subst blockers. destruct (validate_narrow _ _ Hb) as (d & [= <-] & Hn & _).
  pose proof (detached_verifies _ _ _ _ Ht) as Hs. pose proof (sha256_hex_shape (public_key_spki (public_of key))) as Hsha.
  unfold verify_canary_authorization. rewrite dkeys_signed, unsigned_signed, dget_signed by done.
  rewrite (same_set_app _ _ ["attestation"] (nw_fields _ Hn)). set (fp := spki_fingerprint (public_of key)) in *.
  cbn [negb check mbind result_bind canary_refuse_if dkeys fmap list_fmap fst].
  change (negb (same_set ["attestation_version"; "signer_fingerprint"; "signature"] _) || _) with false. cbn [check mbind result_bind].
  change (dget "signer_fingerprint" _) with (VStr fp). change (dget "signature" _) with (VStr text).
  rewrite (proj2 (py_eq_str (VStr fp) fp) eq_refl), (bool_decide_eq_true_2 (fp = fp) eq_refl).
  change (is_sha256 fp) with (is_sha256 (sha256_hex (public_key_spki (public_of key)))). rewrite Hsha. cbn [negb orb check mbind result_bind].
  rewrite Hs. cbn [rewrap mbind result_bind]. rewrite Hb. cbn [mbind result_bind]. eexists. split_and!; reflexivity.
Qed.
End signed.

(** ** A signed authorization *)

#[local] Existing Instance ToyDigest.
#[local] Existing Instance ToyKeys.
Definition toy_canary_key : @private_key ToyKeys := (Ed25519Key, "reviewer").
Definition toy_canary_pin : string := spki_fingerprint (public_of toy_canary_key).
Definition all_of (value : pyval) (fields : list string) : dict := (λ f, (f, value)) <$> fields.
Definition toy_canary : dict :=
  [("schema_version", VInt 1); ("purpose", VStr "runner-lifecycle-proof-only")]
  ++ all_of (VBool false) FORBIDDEN ++ all_of (VBool true) PERMITTED
  ++ [("repository", VStr "octo/app"); ("repository_id", VInt 5); ("pull_request", VInt 7)]
  ++ all_of (VStr "0123456789abcdef0123456789abcdef01234567") CANARY_SHA_FIELDS
  ++ [("workflow_ref", VStr "octo/app/.github/workflows/ci-jit-canary-child.yml@refs/heads/main");
      ("garm_entity", VDict [("authority_kind", VStr "organization-runner-group"); ("entity_id", VStr "01234567-89ab-4def-8123-456789abcdef");
                             ("entity_name", VStr "octo"); ("runner_group", VStr "canaries")]);
      ("image_alias", VStr "overworld")]
  ++ all_of (VStr "0123456789abcdef0123456789abcdef0123456789abcdef0123456789abcdef") DIGEST_FIELDS
  ++ [("scenarios", VList (VStr <$> CANARY_SCENARIOS)); ("max_allocations", VInt 6); ("max_concurrency", VInt 1);
      ("max_jobs_per_allocation", VInt 1); ("issued_at", VStr "2026-01-02T03:00:00Z"); ("expires_at", VStr "2026-01-02T05:00:00Z");
      ("nonce", VStr "0123456789abcdef0123456789abcdef")].
Definition toy_signed_canary : dict := Eval vm_compute in result_or [] (sign_canary_authorization toy_canary toy_canary_key).
Definition toy_canary_clock : datetime := Eval vm_compute in
  match canary_timestamp (VStr "2026-01-02T04:00:00Z") "" with Ok t => Aware UTC t | Raise _ => Naive 0 end.
Definition toy_canary_decision : CanaryAuthorizationDecision := Eval vm_compute in
  result_or {| ca_authorized := false; ca_blockers := []; ca_nonce := None; ca_repository := None; ca_scenarios := []; ca_issued_at := None; ca_expires_at := None |}
    (verify_canary_authorization (VDict toy_signed_canary) (public_of toy_canary_key) toy_canary_pin (Some toy_canary_clock)).
Lemma canary_authorization_narrow_witness :
  ca_authorized toy_canary_decision = true ∧
  ∃ d : dict, VDict toy_signed_canary = VDict d ∧ narrow (_unsigned d) ∧ within (_unsigned d) (Some toy_canary_clock).
Proof.
  assert (verify_canary_authorization (VDict toy_signed_canary) (public_of toy_canary_key) toy_canary_pin (Some toy_canary_clock)
    = Ok toy_canary_decision) as Hv by (vm_compute; reflexivity).
  split; [reflexivity|].
  destruct (proj1 (canary_authorization_narrow (L := ToyLaws) _ _ _ _ _ Hv) eq_refl) as (d & Hd & _ & Hn & Hw).
  exists d. split; [exact Hd|]. split; [exact Hn|exact Hw].
Defined.
