(* ===== verification/HostSecurity.v ===== *)
(** * Host security evidence (host_security.py)

    The preflight over evidence collected outside: the WSL configuration read
    with [configparser], checks, the network policy and the lifecycle runs. *)

From stdpp Require Import sorting.
From S2P Require Import Prelude PyValue PyText CanaryBoundary.
#[local] Open Scope Z_scope.

(** ** [ConfigParser(interpolation=None).read_string]

    Text is a list of code points.  The parser is strict: a second section or
    option of the same name is an error; an error of syntax is raised at the end
    of the text.  Option names are folded as far as the required names can be
    told apart: A to Z, and the Kelvin sign. *)
Definition Text := list N.
Definition strip_left (t : Text) : Text := (fix go t := match t with n :: t' => if py_is_space n then go t' else t | [] => [] end) t.
Definition strip_right (t : Text) : Text := rev (strip_left (rev t)).
Definition strip_text (t : Text) : Text := strip_right (strip_left t).
Definition lower_point (n : N) : N :=
  if (65 <=? n)%N && (n <=? 90)%N then (n + 32)%N else if (n =? 8490)%N then 107%N else n.
Definition lower_text (t : Text) : Text := lower_point <$> t.
(** The lines, without their ends. *)
Fixpoint lines_of (t : Text) : list Text :=
  match t with
  | [] => []
  | n :: t' =>
      if (n =? 10)%N then [] :: lines_of t'
      else match lines_of t' with [] => [[n]] | l :: ls => (n :: l) :: ls end
  end.
Fixpoint indent_of (t : Text) : nat := match t with n :: t => if py_is_space n then S (indent_of t) else 0%nat | [] => 0%nat end.

(** [\[(?P<header>.+)\]]: up to the last bracket. *)
Fixpoint before_last (n : N) (t : Text) : option Text :=
  match t with
  | [] => None
  | m :: t' => match before_last n t' with Some u => Some (m :: u) | None => if (m =? n)%N then Some [] else None end
  end.
Definition section_header (value : Text) : option Text :=
  match value with
  | n :: m :: t => if (n =? 91)%N then (λ u, m :: u) <$> before_last 93 t else None
  | _ => None
  end.
(** The pattern of an option: its name ends at the first equals sign or colon. *)
Fixpoint split_delimiter (t : Text) : option (Text * Text) :=
  match t with
  | [] => None
  | n :: t => if (n =? 61)%N || (n =? 58)%N then Some ([], t) else (λ p, (n :: p.1, p.2)) <$> split_delimiter t
  end.

Inductive ConfigError := MissingSectionHeaderError | DuplicateSectionError | DuplicateOptionError | ParsingError.
Definition config_error_name (e : ConfigError) : string :=
  match e with
  | MissingSectionHeaderError => "MissingSectionHeaderError" | DuplicateSectionError => "DuplicateSectionError"
  | DuplicateOptionError => "DuplicateOptionError" | ParsingError => "ParsingError"
  end.

(** Lines of the value of an option of a section, the last one first. *)
Definition Options := list (Text * Text * list Text).
Record Config := {
  cf_options : Options; cf_sections : list Text; cf_section : option Text; cf_option : option Text; cf_indent : nat; cf_broken : bool;
}.
Definition no_config : Config :=
  {| cf_options := []; cf_sections := []; cf_section := None; cf_option := None; cf_indent := 0; cf_broken := false |}.
Definition DEFAULT_SECTION : Text := code_points "DEFAULT".
Definition is_option (section option : Text) (o : Text * Text * list Text) : bool := bool_decide (o.1 = (section, option)).
Definition has_option (section option : Text) (os : Options) : bool := existsb (is_option section option) os.
Definition add_line (section option line : Text) (os : Options) : Options :=
  List.map (λ o, if is_option section option o then (o.1, line :: o.2) else o) os.
Definition continue_with (c : Config) (section option line : Text) : Config :=
  {| cf_options := add_line section option line (cf_options c); cf_sections := cf_sections c; cf_section := cf_section c;
     cf_option := cf_option c; cf_indent := cf_indent c; cf_broken := cf_broken c |}.
(** An option is set, and continued, only while its name is not empty. *)
Definition open_option (c : Config) : option (Text * Text) :=
  match cf_section c, cf_option c with Some s, Some (n :: o) => Some (s, n :: o) | _, _ => None end.

Definition read_section (c : Config) (indent : nat) (name : Text) : Config + ConfigError :=
  let enter sections := inl {| cf_options := cf_options c; cf_sections := sections; cf_section := Some name; cf_option := None;
                               cf_indent := indent; cf_broken := cf_broken c |} in
  if bool_decide (name = DEFAULT_SECTION) then enter (cf_sections c)
  else if bool_decide (name ∈ cf_sections c) then inr DuplicateSectionError
  else enter (name :: cf_sections c).
Definition read_option (c : Config) (indent : nat) (section value : Text) : Config + ConfigError :=
  match split_delimiter value with
  | None =>
      inl {| cf_options := cf_options c; cf_sections := cf_sections c; cf_section := cf_section c; cf_option := cf_option c;
             cf_indent := indent; cf_broken := true |}
  | Some (name, rest) =>
      let name := lower_text (strip_right name) in
      if has_option section name (cf_options c) then inr DuplicateOptionError
      else inl {| cf_options := (section, name, [strip_text rest]) :: cf_options c; cf_sections := cf_sections c; cf_section := cf_section c;
                  cf_option := Some name; cf_indent := indent; cf_broken := cf_broken c || bool_decide (name = []) |}
  end.
Definition read_line (c : Config) (line : Text) : Config + ConfigError :=
  let value := strip_text line in
  let comment := match value with n :: _ => (n =? 35)%N || (n =? 59)%N | [] => false end in
  match value, comment, open_option c with
  | [], _, Some (section, option) => inl (continue_with c section option [])
  | [], _, None | _, true, _ => inl c
  | _, false, Some (section, option) =>
      if (cf_indent c <? indent_of line)%nat then inl (continue_with c section option value)
      else match section_header value with
           | Some name => read_section c (indent_of line) name
           | None => read_option c (indent_of line) section value
           end
  | _, false, None =>
      match section_header value, cf_section c with
      | Some name, _ => read_section c (indent_of line) name
      | None, None => inr MissingSectionHeaderError
      | None, Some section => read_option c (indent_of line) section value
      end
  end.
Fixpoint read_lines (c : Config) (lines : list Text) : Config + ConfigError :=
  match lines with
  | [] => if cf_broken c then inr ParsingError else inl c
  | line :: lines => match read_line c line with inl c => read_lines c lines | inr e => inr e end
  end.
Definition read_string (text : string) : Config + ConfigError := read_lines no_config (lines_of (code_points text)).

(** ["\n".join(value).rstrip()] *)
Fixpoint join_lines (ls : list Text) : Text := match ls with [] => [] | [l] => l | l :: ls => l ++ 10%N :: join_lines ls end.
Definition option_value (section name : Text) (c : Config) : option Text :=
  (λ o, strip_right (join_lines (rev o.2))) <$> List.find (is_option section name) (cf_options c).
(** [parser.get(section, option, fallback=None)]: the defaults stand behind every
    section that exists. *)
Definition config_get (section name : string) (c : Config) : option Text :=
  let s := code_points section in
  let o := lower_text (code_points name) in
  if bool_decide (s ∈ cf_sections c) || bool_decide (s = DEFAULT_SECTION)
  then match option_value s o c with Some v => Some v | None => option_value DEFAULT_SECTION o c end
  else None.

(** ** The WSL configuration *)

Definition REQUIRED_WSL_SETTINGS : list (string * string * string) :=
  [("automount", "enabled", "false"); ("automount", "mountfstab", "false"); ("interop", "enabled", "false");
   ("interop", "appendwindowspath", "false")].
Definition has_setting (c : Config) (setting : string * string * string) : bool :=
  let '(section, option, expected) := setting in
  match config_get section option c with
  | Some actual => bool_decide (lower_text (strip_text actual) = code_points expected)
  | None => false
  end.
(** The text of a blocker ends before the representation of the value found. *)
Definition validate_wsl_conf (text : pyval) : list string :=
  let read s :=
    match read_string s with
    | inr e => ["wsl-config-unparseable:" +:+ config_error_name e]
    | inl c => concat ((λ setting, block_if (negb (has_setting c setting))
                          ("wsl-config:" +:+ setting.1.1 +:+ "." +:+ setting.1.2 +:+ "=")) <$> REQUIRED_WSL_SETTINGS)
    end in
  match text with
  | VStr s => read s
  | VNone => read ""
  | _ => ["wsl-config-unparseable:TypeError"]
  end.

(** ** Network policy and lifecycle runs *)

Definition BLOCKED_NETWORK_CIDRS : list string :=
  ["10.0.0.0/8"; "100.64.0.0/10"; "169.254.0.0/16"; "172.16.0.0/12"; "192.168.0.0/16"; "fc00::/7"; "fe80::/10"].
Definition NETWORK_FLAGS : list string :=
  ["default_deny"; "management_separated"; "proxy_only_egress"; "private_dns_fail_closed"; "loaded_before_registration";
   "windows_reboot_verified"; "wsl_reboot_verified"].
Definition REQUIRED_SERVICES : list string :=
  ["windows-host"; "management"; "reviewer"; "control"; "deploy"; "local-sockets"; "container-api"].
(** A list of texts that holds all the required ones. *)
Definition text_list (v : pyval) : option (list string) :=
  match v with VList l => mapM text_of l | _ => None end.
Definition lists_all (required : list string) (v : pyval) : bool :=
  match text_list v with Some l => subset_of required l | None => false end.
(** [value[field] is not True], blocked under a prefix. *)
Definition untrue_blockers (prefix : string) (d : dict) (fields : list string) : list string :=
  concat ((λ f, block_if (negb (is_true (dget f d))) (prefix +:+ f)) <$> fields).

Definition evaluate_network_policy (value : pyval) : list string :=
  match value with
  | VDict d =>
      if negb (same_set (dkeys d) (NETWORK_FLAGS ++ ["denied_cidrs"; "denied_service_classes"])) then ["network-policy-schema"]
      else untrue_blockers "network-policy:" d NETWORK_FLAGS
           ++ block_if (negb (lists_all BLOCKED_NETWORK_CIDRS (dget "denied_cidrs" d))) "network-policy:blocked-cidrs"
           ++ block_if (negb (lists_all REQUIRED_SERVICES (dget "denied_service_classes" d))) "network-policy:service-canaries"
  | _ => ["network-policy-schema"]
  end.

Definition REMOVALS : list string :=
  ["registration_removed"; "workspace_removed"; "token_removed"; "container_removed"; "allocation_removed"].
Definition LIFECYCLE_FIELDS : list string :=
  ["jit"; "ephemeral_registration"; "jobs_started"] ++ REMOVALS
  ++ ["normal_cancel_attempted_before_force"; "terminal_mode"; "orphan_registrations"].
Definition TERMINAL_MODES : list string := ["success"; "failure"; "cancel"; "timeout"; "force-cancel"; "reboot"].
Definition evaluate_runner_lifecycle (value : pyval) : result (list string) :=
  match value with
  | VDict d =>
      if negb (same_set (dkeys d) LIFECYCLE_FIELDS) then Ok ["runner-lifecycle-schema"]
      else
        let mode := dget "terminal_mode" d in
        known ← py_in_set mode (text_set TERMINAL_MODES);
        Ok (block_if (negb (is_true (dget "jit" d)) || negb (is_true (dget "ephemeral_registration" d))) "runner-lifecycle:not-jit-ephemeral"
            ++ block_if (negb (py_eq (dget "jobs_started" d) (VInt 1))) "runner-lifecycle:not-exactly-one-job"
            ++ untrue_blockers "runner-lifecycle:" d REMOVALS
            ++ block_if (negb known) "runner-lifecycle:terminal-mode"
            ++ block_if (py_eq mode (VStr "force-cancel") && negb (is_true (dget "normal_cancel_attempted_before_force" d)))
                 "runner-lifecycle:force-without-normal-cancel"
            ++ block_if (negb (py_eq (dget "orphan_registrations" d) (VInt 0))) "runner-lifecycle:orphan-registration")
  | _ => Ok ["runner-lifecycle-schema"]
  end.

(** ** Checks *)

Definition REQUIRED_CHECKS : list string :=
  ["blocked-network-ranges"; "cleanup-cancel"; "cleanup-failure"; "cleanup-force-cancel"; "cleanup-reboot"; "cleanup-success";
   "cleanup-timeout"; "dedicated-ci-distro"; "dedicated-linux-account"; "dedicated-windows-account"; "default-deny-egress";
   "jit-one-job"; "management-workload-separated"; "no-orphan-registration"; "non-admin-windows-account";
   "policy-loaded-before-registration"; "policy-persists-windows-reboot"; "policy-persists-wsl-reboot"; "prohibited-mounts-absent";
   "prohibited-secrets-absent"; "prohibited-sockets-absent"; "proxy-allowlist-dns-fail-closed"; "windows-acl-deny"; "wsl-config"].
Definition PROHIBITED_ARTIFACT_KINDS : list string :=
  ["container-engine-socket"; "control-plane-credential"; "deploy-credential"; "docker-desktop-socket"; "fstab-windows-mount";
   "personal-distro-mount"; "reviewer-credential"; "ssh-agent"; "windows-drive"; "windows-executable"; "windows-path"; "wsl-interop"].
(** Both sets are written in sorted order. *)
Example required_in_order : merge_sort String.le REQUIRED_CHECKS = REQUIRED_CHECKS.
Proof. vm_compute. reflexivity. Qed.
Example prohibited_in_order : merge_sort String.le PROHIBITED_ARTIFACT_KINDS = PROHIBITED_ARTIFACT_KINDS.
Proof. vm_compute. reflexivity. Qed.

Record EvidenceCheck := { check_id : string; check_status : string; check_refs : list string; check_notes : string }.
Definition host_refuse {A} (msg : string) : result A := throw HostSecurityError msg.
Definition host_refuse_if (b : bool) (msg : string) : result unit := check b HostSecurityError msg.
Definition CHECK_FIELDS : list string := ["id"; "status"; "evidence_refs"].
(** [set(value) < fields]: a proper subset. *)
Definition below (a b : list string) : bool := subset_of a b && negb (subset_of b a).

(** [EvidenceCheck.from_mapping] *)
Definition check_from_mapping (value : pyval) : result EvidenceCheck :=
  match value with
  | VDict d =>
      host_refuse_if (negb (subset_of (dkeys d) (CHECK_FIELDS ++ ["notes"])) || below (dkeys d) CHECK_FIELDS)
        "host check has missing or unknown fields";;
      status ← ditem "status" d;
      refs ← ditem "evidence_refs" d;
      id ← ditem "id" d;
      host_refuse_if (negb (is_nonempty_str id)) "host check id must be a non-empty string";;
      known ← py_in_set status (text_set ["pass"; "fail"; "unverified"]);
      host_refuse_if (negb known) "invalid host check status";;
      match text_list refs with
      | Some texts =>
          host_refuse_if (negb (forallb nonempty texts)) "evidence_refs must be a list of non-empty strings";;
          host_refuse_if (py_eq status (VStr "pass") && bool_decide (texts = [])) "a passing host check requires evidence";;
          match default (VStr "") (dlookup "notes" d), id, status with
          | VStr notes, VStr id, VStr status => Ok {| check_id := id; check_status := status; check_refs := texts; check_notes := notes |}
          | _, _, _ => host_refuse "host check notes must be a string"
          end
      | None => host_refuse "evidence_refs must be a list of non-empty strings"
      end
  | _ => host_refuse "host check must be an object"
  end.

(** ** The decision *)

Record HostSecurityResult := { hs_enabled : bool; hs_status : string; hs_blockers : list string }.
Definition HOST_FIELDS : list string :=
  ["host_security_schema_version"; "platform"; "distro_name"; "personal_distro_names"; "wsl_conf"; "checks"; "observed_artifact_kinds";
   "network_policy"; "runner_lifecycle_runs"].

Fixpoint collect {A B} (f : A → result B) (l : list A) : result (list B) :=
  match l with [] => Ok [] | a :: l => b ← f a; bs ← collect f l; Ok (b :: bs) end.

(** The runs in order: their blockers and terminal modes, which a set holds. *)
Definition run_mode (run : pyval) : option pyval := match run with VDict d => Some (dget "terminal_mode" d) | _ => None end.
Definition run_report (index : nat) (run : pyval) : result (list string) :=
  check (match run_mode run with Some mode => negb (hashable mode) | None => false end) TypeError "unhashable type";;
  reasons ← evaluate_runner_lifecycle run;
  Ok (List.map (λ reason, "run-" +:+ str_of_Z (Z.of_nat index) +:+ ":" +:+ reason) reasons).
Fixpoint run_reports (index : nat) (runs : list pyval) : result (list string) :=
  match runs with
  | [] => Ok []
  | run :: runs => a ← run_report index run; b ← run_reports (S index) runs; Ok (a ++ b)
  end.
Definition MODES_IN_ORDER : list string := ["cancel"; "failure"; "force-cancel"; "reboot"; "success"; "timeout"].
Definition has_mode (runs : list pyval) (mode : string) : bool :=
  existsb (λ run, match run_mode run with Some m => py_eq m (VStr mode) | None => false end) runs.

Definition distro_blockers (d : dict) : list string :=
  block_if (negb (is_nonempty_str (dget "distro_name" d)
                  && match dget "personal_distro_names" d with
                     | VList personal => negb (existsb (λ p, py_eq p (dget "distro_name" d)) personal)
                     | _ => false
                     end)) "distro-not-dedicated".
Definition artifact_blockers (observed : pyval) : list string :=
  match text_list observed with
  | None => ["observed-artifacts-schema"]
  | Some kinds => (λ kind, "prohibited-artifact:" +:+ kind) <$> filter (λ kind, kind ∈ kinds) PROHIBITED_ARTIFACT_KINDS
  end.
Definition check_blockers (checks : list EvidenceCheck) : list string :=
  ((λ c, "missing-check:" +:+ c) <$> filter (λ c, c ∉ check_id <$> checks) REQUIRED_CHECKS)
  ++ ((λ c, "check-" +:+ check_status c +:+ ":" +:+ check_id c) <$> filter (λ c, check_status c ≠ "pass") checks).

Definition evaluate_host_security (value : pyval) : result HostSecurityResult :=
  match value with
  | VDict d =>
      host_refuse_if (negb (same_set (dkeys d) HOST_FIELDS) || negb (py_eq (dget "host_security_schema_version" d) (VInt 1)))
        "host evidence schema v1 requires exact fields";;
      match dget "checks" d with
      | VList raw =>
          checks ← collect check_from_mapping raw;
          host_refuse_if (bool_decide (¬ NoDup (check_id <$> checks))) "duplicate host check id";;
          match dget "runner_lifecycle_runs" d with
          | VList runs =>
              reports ← run_reports 0 runs;
              let blockers := first_occurrences
                (block_if (negb (py_eq (dget "platform" d) (VStr "wsl2"))) "platform-unverified-not-wsl2"
                 ++ distro_blockers d ++ validate_wsl_conf (dget "wsl_conf" d) ++ artifact_blockers (dget "observed_artifact_kinds" d)
                 ++ check_blockers checks ++ evaluate_network_policy (dget "network_policy" d) ++ reports
                 ++ ((λ mode, "missing-lifecycle-mode:" +:+ mode) <$> List.filter (λ mode, negb (has_mode runs mode)) MODES_IN_ORDER)) in
              let enabled := bool_decide (blockers = []) in
              Ok {| hs_enabled := enabled; hs_status := if enabled then "verified" else "unverified"; hs_blockers := blockers |}
          | _ => host_refuse "runner_lifecycle_runs must be a list"
          end
      | _ => host_refuse "checks must be a list"
      end
  | _ => host_refuse "host evidence must be an object"
  end.

Definition inert_host_evidence (platform : string) : dict :=
  [("host_security_schema_version", VInt 1); ("platform", VStr platform); ("distro_name", VStr ""); ("personal_distro_names", VList []);
   ("wsl_conf", VStr ""); ("checks", VList []); ("observed_artifact_kinds", VList []); ("network_policy", VDict []);
   ("runner_lifecycle_runs", VList [])].

(** ** What enabled evidence proves *)

Lemma untrue_blockers_nil prefix d fields : untrue_blockers prefix d fields = [] ↔ Forall (λ f, dget f d = VBool true) fields.
Proof.
  unfold untrue_blockers. rewrite concat_nil. apply Forall_proper; [|done]. intros f. rewrite negb_block_nil.
  split; [apply is_true_ok|by intros ->].
Qed.
Lemma collect_forall2 {A B} (f : A → result B) l bs : collect f l = Ok bs → Forall2 (λ a b, f a = Ok b) l bs.
Proof.
  revert bs. induction l as [|a l IH]; cbn; intros bs; [intros [= <-]; constructor|].
  intros (b & Hb & (bs' & Hbs & [= <-])%result_bind_ok)%result_bind_ok. constructor; auto.
Qed.
Lemma text_list_ok v l : text_list v = Some l → v = VList (VStr <$> l).
Proof.
  destruct v as [| | | |w|]; try done. cbn. intros H. f_equal. revert l H. induction w as [|x w IH]; intros l; cbn; [by intros [= <-]|].
  destruct x as [| | |s| |]; try done. cbn. destruct (mapM text_of w) as [ls|] eqn:E; [|done]. intros [= <-]. cbn. f_equal. auto.
Qed.
Lemma lists_all_ok required v : lists_all required v = true → ∃ l, v = VList (VStr <$> l) ∧ required ⊆ l.
Proof.
  unfold lists_all. destruct (text_list v) as [l|] eqn:E; [|done]. intros Hs. exists l. split; [by apply text_list_ok|].
  intros s Hin. unfold subset_of in Hs. rewrite forallb_forall in Hs. apply list_elem_of_In in Hin. by apply Hs, bool_decide_eq_true in Hin.
Qed.

(** The four switches of the configuration text are off. *)
Definition isolated_conf (conf : pyval) : Prop := ∃ text c,
  conf = VStr text ∧ read_string text = inl c ∧
  Forall (λ setting : string * string * string, ∃ value, config_get setting.1.1 setting.1.2 c = Some value ∧
            lower_text (strip_text value) = code_points setting.2) REQUIRED_WSL_SETTINGS.
Lemma wsl_conf_ok conf : validate_wsl_conf conf = [] → isolated_conf conf.
Proof.
  assert (∀ s, match read_string s with
    | inr e => ["wsl-config-unparseable:" +:+ config_error_name e]
    | inl c => concat ((λ setting, block_if (negb (has_setting c setting))
                          ("wsl-config:" +:+ setting.1.1 +:+ "." +:+ setting.1.2 +:+ "=")) <$> REQUIRED_WSL_SETTINGS)
    end = [] → isolated_conf (VStr s)) as H.
  { intros s. destruct (read_string s) as [c|e] eqn:E; [|done]. rewrite concat_nil. intros Hall. exists s, c. split_and!; [done|done|].
    eapply Forall_impl; [exact Hall|]. intros [[section name] expected] Hb. apply negb_block_nil in Hb. unfold has_setting in Hb. cbn [fst snd].
    destruct (config_get section name c) as [v|]; [|done]. exists v. by apply bool_decide_eq_true in Hb. }
  destruct conf as [| | |s| |]; try done. exact (H s).
Qed.

Definition isolated_network (policy : pyval) : Prop := ∃ n denied services, policy = VDict n ∧
  Forall (λ f, dget f n = VBool true) NETWORK_FLAGS ∧
  dget "denied_cidrs" n = VList (VStr <$> denied) ∧ BLOCKED_NETWORK_CIDRS ⊆ denied ∧
  dget "denied_service_classes" n = VList (VStr <$> services) ∧ REQUIRED_SERVICES ⊆ services.
Lemma network_policy_ok policy : evaluate_network_policy policy = [] → isolated_network policy.
Proof.
  unfold evaluate_network_policy. destruct policy as [| | | | |n]; try done. destruct (negb (same_set _ _)); [done|].
  rewrite !app_nil_iff, untrue_blockers_nil, !negb_block_nil. intros (Hf & (denied & Hd & Hs)%lists_all_ok & (services & Hv & Hr)%lists_all_ok).
  by exists n, denied, services.
Qed.

(** A run that is one job of one registration, all removed. *)
Definition clean_run (run : pyval) : Prop := ∃ r, run = VDict r ∧
  dget "jit" r = VBool true ∧ dget "ephemeral_registration" r = VBool true ∧ py_eq (dget "jobs_started" r) (VInt 1) = true ∧
  Forall (λ f, dget f r = VBool true) REMOVALS ∧ py_eq (dget "orphan_registrations" r) (VInt 0) = true ∧
  (dget "terminal_mode" r = VStr "force-cancel" → dget "normal_cancel_attempted_before_force" r = VBool true).
Lemma lifecycle_ok run : evaluate_runner_lifecycle run = Ok [] → clean_run run.
Proof.
  unfold evaluate_runner_lifecycle. destruct run as [| | | | |r]; try done. destruct (negb (same_set _ _)); [done|].
  intros (known & _ & [= H])%result_bind_ok. rewrite !app_nil_iff, untrue_blockers_nil, !negb_block_nil, !block_if_nil in H.
  destruct H as (Hj & H1 & Hr & _ & Hf & Ho). apply orb_false_iff in Hj as [Hj%negb_false_iff He%negb_false_iff]. exists r.
  split_and!; [done|by apply is_true_ok|by apply is_true_ok|done|done|done|]. intros Hm. rewrite Hm in Hf. cbn in Hf. by apply is_true_ok, negb_false_iff.
Qed.
Lemma run_reports_ok index runs : run_reports index runs = Ok [] → Forall clean_run runs.
Proof.
  revert index. induction runs as [|run runs IH]; intros index; cbn [run_reports]; [constructor|].
  intros (a & Ha & (b & Hb & [= Hn])%result_bind_ok)%result_bind_ok. apply app_nil_iff in Hn as [-> ->]. constructor; [|by eapply IH].
  unfold run_report in Ha. apply result_bind_ok in Ha as (? & _ & (reasons & Hr & [= Hn])%result_bind_ok).
  apply map_eq_nil in Hn. subst reasons. by apply lifecycle_ok.
Qed.

(** Evidence of the host, and the required checks in it. *)
Record host_proven (d : dict) : Prop := {
  hp_platform : dget "platform" d = VStr "wsl2";
  hp_distro : ∃ name personal, dget "distro_name" d = VStr name ∧ name ≠ "" ∧ dget "personal_distro_names" d = VList personal ∧ VStr name ∉ personal;
  hp_conf : isolated_conf (dget "wsl_conf" d);
  hp_artifacts : ∃ kinds, dget "observed_artifact_kinds" d = VList (VStr <$> kinds) ∧ ∀ kind, kind ∈ PROHIBITED_ARTIFACT_KINDS → kind ∉ kinds;
  hp_checks : ∃ raw checks, dget "checks" d = VList raw ∧ Forall2 (λ v c, check_from_mapping v = Ok c) raw checks ∧
    NoDup (check_id <$> checks) ∧ Forall (λ c, check_status c = "pass" ∧ check_refs c ≠ []) checks ∧ REQUIRED_CHECKS ⊆ check_id <$> checks;
  hp_network : isolated_network (dget "network_policy" d);
  hp_runs : ∃ runs, dget "runner_lifecycle_runs" d = VList runs ∧ Forall clean_run runs ∧ Forall (λ mode, has_mode runs mode = true) MODES_IN_ORDER;
}.

Lemma check_refs_ok v c : check_from_mapping v = Ok c → check_status c = "pass" → check_refs c ≠ [].
Proof.
  unfold check_from_mapping. destruct v as [| | | | |d]; try done.
  intros (? & _ & (status & _ & (refs & _ & (id & _ & (? & _ & (known & _ & (? & _ & H)%result_bind_ok)%result_bind_ok)%result_bind_ok)%result_bind_ok)%result_bind_ok)%result_bind_ok)%result_bind_ok.
  destruct (text_list refs) as [texts|]; [|done]. apply result_bind_ok in H as (? & _ & (? & Hp%check_ok & H)%result_bind_ok).
  destruct (default (VStr "") (dlookup "notes" d)) as [| | |notes| |]; try done. destruct id as [| | |i| |]; try done. destruct status as [| | |st| |]; try done.
  injection H as <-. cbn. intros ->. by apply bool_decide_eq_false in Hp.
Qed.
Lemma distro_ok d : distro_blockers d = [] →
  ∃ name personal, dget "distro_name" d = VStr name ∧ name ≠ "" ∧ dget "personal_distro_names" d = VList personal ∧ VStr name ∉ personal.
Proof.
  unfold distro_blockers. rewrite negb_block_nil. intros [Hn Hp]%andb_true_iff.
  destruct (dget "distro_name" d) as [| | |name| |]; try done. destruct (dget "personal_distro_names" d) as [| | | |personal|]; try done.
  exists name, personal. split_and!; [done| |done|].
  - intros ->. done.
  - intros Hin. apply negb_true_iff in Hp. assert (existsb (λ p, py_eq p (VStr name)) personal = true); [|congruence].
    apply existsb_exists. exists (VStr name). split; [by apply list_elem_of_In|by apply py_eq_str].
Qed.
Lemma artifacts_ok observed : artifact_blockers observed = [] →
  ∃ kinds, observed = VList (VStr <$> kinds) ∧ ∀ kind, kind ∈ PROHIBITED_ARTIFACT_KINDS → kind ∉ kinds.
Proof.
  unfold artifact_blockers. destruct (text_list observed) as [kinds|] eqn:E; [|done]. intros Hf%fmap_nil_inv. exists kinds.
  split; [by apply text_list_ok|]. intros kind Hk Hin. assert (kind ∈ filter (λ k, k ∈ kinds) PROHIBITED_ARTIFACT_KINDS) as Hx by by apply list_elem_of_filter.
  rewrite Hf in Hx. by apply elem_of_nil in Hx.
Qed.
Lemma checks_ok checks : check_blockers checks = [] → REQUIRED_CHECKS ⊆ check_id <$> checks ∧ Forall (λ c, check_status c = "pass") checks.
Proof.
  unfold check_blockers. intros [Hm%fmap_nil_inv Hs%fmap_nil_inv]%app_nil_iff. split.
  - intros c Hc. destruct (decide (c ∈ check_id <$> checks)) as [|Hno]; [done|]. exfalso.
    assert (c ∈ filter (λ c, c ∉ check_id <$> checks) REQUIRED_CHECKS) as Hx by by apply list_elem_of_filter. rewrite Hm in Hx. by apply elem_of_nil in Hx.
  - apply Forall_forall. intros c Hc. destruct (decide (check_status c = "pass")) as [|Hno]; [done|]. exfalso.
    assert (c ∈ filter (λ c, check_status c ≠ "pass") checks) as Hx by by apply list_elem_of_filter. rewrite Hs in Hx. by apply elem_of_nil in Hx.
Qed.

Lemma host_enabled d host : evaluate_host_security (VDict d) = Ok host → hs_blockers host = [] → host_proven d.
Proof.
  unfold evaluate_host_security. intros (? & _ & H)%result_bind_ok. destruct (dget "checks" d) as [| | | |raw|] eqn:Er; try done.
  apply result_bind_ok in H as (checks & Hc%collect_forall2 & (? & Hnd%check_ok%bool_decide_eq_false & H)%result_bind_ok).
  destruct (dget "runner_lifecycle_runs" d) as [| | | |runs|] eqn:Eruns; try done. apply result_bind_ok in H as (reports & Hr & [= <-]).
  cbn [hs_blockers]. intros H. apply (proj1 (first_occurrences_nil _)) in H. rewrite !app_nil_iff, negb_block_nil in H.
  destruct H as (Hp%py_eq_str & Hd & Hw & Ha & Hk & Hn & -> & Hm%fmap_nil_inv). destruct (checks_ok _ Hk) as [Hreq Hpass]. constructor.
  - done.
  - by apply distro_ok.
  - by apply wsl_conf_ok.
  - by apply artifacts_ok.
  - exists raw, checks. split_and!; [done|done|by apply dec_stable| |done]. apply Forall_forall. intros c Hin.
    split; [by eapply Forall_forall in Hpass|]. apply list_elem_of_lookup in Hin as (i & Hi). destruct (Forall2_lookup_r _ _ _ _ _ Hc Hi) as (v & _ & Hv).
    eapply check_refs_ok; [exact Hv|]. eapply Forall_lookup in Hpass; [|exact Hi]. done.
  - by apply network_policy_ok.
  - exists runs. split_and!; [done|by eapply run_reports_ok|]. apply Forall_forall. intros mode Hin. destruct (has_mode runs mode) eqn:E; [done|]. exfalso.
    assert (In mode (List.filter (λ mode, negb (has_mode runs mode)) MODES_IN_ORDER)) as Hx by (apply filter_In; split; [by apply list_elem_of_In|by rewrite E]).
    assert (List.filter (λ mode, negb (has_mode runs mode)) MODES_IN_ORDER = []) as Hnone by exact Hm. by rewrite Hnone in Hx.
Qed.
