(* ===== verification/RunnerBoundary.v ===== *)
(** * The runner boundary (runner_boundary.py)

    The decision that lets the host dispatch to its own runners: a document
    signed by the pinned reviewer, whose artifacts are measured again on the
    host, whose components, host evidence and network policy are complete, and
    with one proof of each canary scenario. *)

From stdpp Require Import sorting.
From S2P Require Import Prelude Datetime PyValue PyText Json Digest Jcs Signatures Allocation CanaryBoundary HostSecurity.
#[local] Open Scope Z_scope.

Definition REQUIRED_COMPONENTS : list string :=
  ["garm"; "incus"; "network-policy"; "runner-image"; "windows-account"; "wsl-distro"].
Definition BOUNDARY_ATTESTATION_DOMAIN : string := "self-hosted-ci/wsl-jit-boundary-attestation/v1".
Definition _PROOF_SET_SHARED : list string :=
  ["repository"; "repository_id"; "head_sha"; "tested_merge_sha"; "dispatch_sha"; "image_fingerprint"; "network_policy_digest";
   "github_app_config_digest"; "allocation_signer_fingerprint"].
Definition _LIFECYCLE_PROOF_FIELDS : list string :=
  ["authorization_digest"; "nonce"; "scenario"; "allocation_id"; "scale_set_id"; "scale_set_name"; "run_id"; "run_attempt"; "job_id";
   "runner_name"; "repository"; "repository_id"; "dispatch_sha"; "head_sha"; "tested_merge_sha"; "image_fingerprint";
   "network_policy_digest"; "github_app_config_digest"; "allocation_signer_fingerprint"; "reserved_at"; "started_at"; "finished_at";
   "jobs_started"; "conclusion"; "normal_cancel_receipt"; "force_cancel_receipt"; "cleanup_record"; "garm_inventory_post";
   "incus_inventory_post"; "github_inventory_post"; "proof_digest"].
Definition SET_FIELDS : list string := ["schema_version"; "authorization_digest"; "nonce"; "proofs"] ++ _PROOF_SET_SHARED.

Record RunnerBoundaryDecision := { rb_enabled : bool; rb_status : string; rb_blockers : list string }.

Definition bound_refuse {A} (msg : string) : result A := throw RunnerBoundaryError msg.
Definition bound_refuse_if (b : bool) (msg : string) : result unit := check b RunnerBoundaryError msg.

(** The same value under every key. *)
Definition agree (fields : list string) (a b : dict) : bool := forallb (λ f, py_eq (dget f a) (dget f b)) fields.

Section boundary.
Context {D : Digest} {K : KeyLibrary}.

(** ** One proof of the lifecycle *)

Definition is_clean (cleanup : pyval) : bool :=
  match cleanup with VDict c => forallb (λ f, is_true (dget f c)) REMOVALS | _ => false end.
Definition is_empty_inventory (inventory : pyval) : bool :=
  match inventory with VDict i => py_eq (dget "remaining" i) (VInt 0) | _ => false end.
(** What a proof reports in the form of [evaluate_runner_lifecycle]. *)
Definition legacy_run (jobs_started scenario : pyval) : pyval :=
  VDict [("jit", VBool true); ("ephemeral_registration", VBool true); ("jobs_started", jobs_started);
         ("registration_removed", VBool true); ("workspace_removed", VBool true); ("token_removed", VBool true);
         ("container_removed", VBool true); ("allocation_removed", VBool true);
         ("normal_cancel_attempted_before_force", VBool (py_eq scenario (VStr "force-cancel")));
         ("terminal_mode", scenario); ("orphan_registrations", VInt 0)].

Definition verify_proof (authorization : dict) (digest : string) (proof : pyval) : result dict :=
  match proof with
  | VDict p =>
      bound_refuse_if (negb (same_set (dkeys p) _LIFECYCLE_PROOF_FIELDS)) "lifecycle proof requires exact fields";;
      expected ← sha256_hex <$> canonicalize_jcs (VDict (dremove "proof_digest" p));
      bound_refuse_if (negb (py_eq (dget "proof_digest" p) (VStr expected)) || negb (is_str_where is_sha256 (dget "proof_digest" p)))
        "lifecycle proof digest is invalid";;
      bound_refuse_if (negb (py_eq (dget "authorization_digest" p) (VStr digest))
                       || negb (py_eq (dget "nonce" p) (dget "nonce" authorization))) "lifecycle proof crossed signed authorization";;
      bound_refuse_if (negb (agree _PROOF_SET_SHARED p authorization)) "lifecycle proof crossed signed runtime binding";;
      let scenario := dget "scenario" p in
      bound_refuse_if (negb (py_eq (dget "conclusion" p) scenario)) "lifecycle proof conclusion crossed scenario";;
      bound_refuse_if (negb (is_str_where is_canonical_positive (dget "scale_set_id" p))) "lifecycle proof scale set ID is invalid";;
      bound_refuse_if (negb (forallb (λ f, is_positive_int (dget f p)) ["run_id"; "run_attempt"; "job_id"]))
        "lifecycle proof GitHub IDs are invalid";;
      bound_refuse_if (negb (py_eq (dget "jobs_started" p) (VInt 1))) "lifecycle proof jobs_started is invalid";;
      bound_refuse_if (negb (is_clean (dget "cleanup_record" p))) "lifecycle proof cleanup is incomplete";;
      bound_refuse_if (negb (forallb (λ f, is_empty_inventory (dget f p))
                               ["garm_inventory_post"; "incus_inventory_post"; "github_inventory_post"]))
        "lifecycle proof global cleanup is incomplete";;
      let normal := negb (is_none (dget "normal_cancel_receipt" p)) in
      let forced := negb (is_none (dget "force_cancel_receipt" p)) in
      let is_scenario s := py_eq scenario (VStr s) in
      bound_refuse_if (is_scenario "force-cancel" && (negb normal || negb forced)) "force-cancel proof lacks ordered cancel receipts";;
      bound_refuse_if (is_scenario "cancel" && negb normal) "cancel proof lacks normal cancel receipt";;
      bound_refuse_if (negb (is_scenario "cancel" || is_scenario "force-cancel") && normal)
        "lifecycle proof has an unexpected cancel receipt";;
      bound_refuse_if (negb (is_scenario "force-cancel") && forced) "lifecycle proof has an unexpected force receipt";;
      check (negb (hashable (dget "allocation_id" p))) TypeError "unhashable type";;
      Ok p
  | _ => bound_refuse "lifecycle proof requires exact fields"
  end.

(** Six different values: as many as there are, none equal to a later one. *)
Fixpoint all_different (l : list pyval) : bool :=
  match l with [] => true | v :: l => negb (existsb (py_eq v) l) && all_different l end.
Definition scenario_of (proof : pyval) : pyval := match proof with VDict p => dget "scenario" p | _ => VNone end.

Definition _verify_lifecycle_proof_set (authorization proof_set : pyval) (k : public_key) (fingerprint : string) : result (list pyval) :=
  decision ← verify_canary_authorization authorization k fingerprint None;
  bound_refuse_if (negb (ca_authorized decision)) ("lifecycle authorization is not valid: " +:+ join_blockers (ca_blockers decision));;
  match authorization, proof_set with
  | VDict auth, VDict set =>
      bound_refuse_if (negb (same_set (dkeys set) SET_FIELDS) || negb (py_eq (dget "schema_version" set) (VInt 1)))
        "lifecycle proof set requires exact v1 fields";;
      digest ← authorization_digest auth;
      bound_refuse_if (negb (py_eq (dget "authorization_digest" set) (VStr digest)) || negb (py_eq (dget "nonce" set) (dget "nonce" auth)))
        "lifecycle proof set crossed signed authorization";;
      bound_refuse_if (negb (agree _PROOF_SET_SHARED set auth)) "lifecycle proof set crossed signed repository/runtime binding";;
      match dget "proofs" set with
      | VList proofs =>
          bound_refuse_if (negb (py_eq (VList (scenario_of <$> proofs)) (VList (VStr <$> CANARY_SCENARIOS))))
            "lifecycle proof set must contain six canonical scenarios";;
          verified ← collect (verify_proof auth digest) proofs;
          bound_refuse_if (negb (forallb (λ f, all_different (dget f <$> verified)) ["allocation_id"; "run_id"; "job_id"]))
            "lifecycle allocation/run/job identities must be unique";;
          Ok ((λ p, legacy_run (dget "jobs_started" p) (dget "scenario" p)) <$> verified)
      | _ => bound_refuse "lifecycle proof set must contain six canonical scenarios"
      end
  | _, _ => bound_refuse "lifecycle proof set requires exact v1 fields"
  end.

(** ** The attestation *)

Definition sign_runner_boundary (value : dict) (k : private_key) : result dict :=
  bound_refuse_if (bool_decide ("attestation" ∈ dkeys value)) "boundary must be unsigned before attestation";;
  canonicalize_jcs (VDict value);;
  signature ← sign_detached (VDict value) k BOUNDARY_ATTESTATION_DOMAIN;
  Ok (value ++ [("attestation", VDict [("attestation_version", VInt 1);
    ("signer_fingerprint", VStr (spki_fingerprint (public_of k))); ("signature", VStr signature)])]).

Definition verify_runner_boundary_attestation (value : dict) (k : public_key) (pinned : string) : result unit :=
  match dget "attestation" value with
  | VDict a =>
      bound_refuse_if (negb (same_set (dkeys a) ["attestation_version"; "signer_fingerprint"; "signature"])
                       || negb (py_eq (dget "attestation_version" a) (VInt 1)))
        "runner boundary attestation requires exact v1 fields";;
      bound_refuse_if (negb (is_sha256 pinned) || negb (py_eq (dget "signer_fingerprint" a) (VStr pinned))
                       || negb (bool_decide (spki_fingerprint k = pinned)))
        "runner boundary signer does not match pinned reviewer key";;
      rewrap is_value_error RunnerBoundaryError "runner boundary attestation signature is invalid"
        (verify_detached (VDict (_unsigned value)) (dget "signature" a) k BOUNDARY_ATTESTATION_DOMAIN)
  | _ => bound_refuse "runner boundary attestation requires exact v1 fields"
  end.

Definition _aggregate_digest (records : list pyval) : result string :=
  (λ text, "sha256:" +:+ sha256_hex text) <$> canonicalize_jcs (VList records).
End boundary.

(** ** Measurements of the host *)

(** [PurePosixPath(ref).parts], of a path that is not absolute. *)
Fixpoint path_split (s : string) : list string :=
  match s with
  | EmptyString => [""]
  | String c s => match path_split s with
                  | p :: ps => if Ascii.eqb c "/" then "" :: p :: ps else String c p :: ps
                  | [] => [String c ""]
                  end
  end.
Definition path_parts (ref : string) : list string := filter (λ p, p ≠ "" ∧ p ≠ ".") (path_split ref).
Definition is_absolute (ref : string) : bool := match ref with String c _ => Ascii.eqb c "/" | EmptyString => false end.

Record HostFile := { hf_data : string; hf_mode : Z; hf_uid : Z; hf_gid : Z }.
(** The file under the evidence root at a relative path, as it stands: nothing for
    a symbolic link, what is no regular file, or what resolves outside the root;
    reading may fail. *)
Class EvidenceRoot := evidence_file : list string → result (option HostFile).

(** [f"{mode & 0o7777:04o}"] *)
Definition octal_text (mode : Z) : string :=
  String.string_of_list_ascii ((λ k, digit_char (mode / 8 ^ k mod 8)) <$> [3; 2; 1; 0]).
Definition is_octal4 : string → bool := match_exactly 4 (in_range "0" "7").
(** [isinstance(v, int) and v >= 0]: a bool is an int. *)
Definition is_natural (v : pyval) : bool := match v with VInt n => 0 <=? n | VBool _ => true | _ => false end.
Definition is_os_error (c : exn_class) : bool := bool_decide (c = OSError).

Definition Observed := list (string * pyval).
Record Measuring := { ms_blockers : list string; ms_observed : Observed }.
Definition blocked_by (m : Measuring) (text : string) : Measuring := {| ms_blockers := ms_blockers m ++ [text]; ms_observed := ms_observed m |}.

Section measurements.
Context {D : Digest} {Root : EvidenceRoot}.

Definition ARTIFACT_FIELDS : list string := ["ref"; "sha256"; "size"; "mode"; "uid"; "gid"].
Definition actual_record (ref : string) (f : HostFile) : dict :=
  [("ref", VStr ref); ("sha256", VStr (sha256_hex (hf_data f))); ("size", VInt (Z.of_nat (String.length (hf_data f))));
   ("mode", VStr (octal_text (hf_mode f))); ("uid", VInt (hf_uid f)); ("gid", VInt (hf_gid f))].
Definition has_metadata (item : dict) : bool :=
  is_str_where is_sha256 (dget "sha256" item) && is_natural (dget "size" item) && is_str_where is_octal4 (dget "mode" item)
  && is_natural (dget "uid" item) && is_natural (dget "gid" item).
Definition is_relative_ref (ref : string) : bool := nonempty ref && negb (is_absolute ref) && bool_decide (".." ∉ path_parts ref).

(** One artifact; the order of the records is that of the references. *)
Definition measure_artifact (m : Measuring) (item : pyval) : result Measuring :=
  match item with
  | VDict d =>
      if negb (same_set (dkeys d) ARTIFACT_FIELDS) then Ok (blocked_by m "host-measurement-artifact-schema")
      else
        match dget "ref" d with
        | VStr ref =>
            if negb (is_relative_ref ref) then Ok (blocked_by m "host-measurement-ref-invalid")
            else if bool_decide (ref ∈ (ms_observed m).*1) then Ok (blocked_by m ("host-measurement-ref-duplicate:" +:+ ref))
            else
              match evidence_file (path_parts ref) with
              | Raise e => if is_os_error (exn_cls e) then Ok (blocked_by m ("host-measurement-file-unreadable:" +:+ ref)) else Raise e
              | Ok None => Ok (blocked_by m ("host-measurement-file-invalid:" +:+ ref))
              | Ok (Some f) =>
                  let actual := VDict (actual_record ref f) in
                  Ok {| ms_blockers := ms_blockers m
                          ++ (if negb (has_metadata d) then ["host-measurement-metadata-invalid:" +:+ ref]
                              else block_if (negb (py_eq item actual)) ("host-measurement-drift:" +:+ ref));
                        ms_observed := ms_observed m ++ [(ref, actual)] |}
              end
        | _ => Ok (blocked_by m "host-measurement-ref-invalid")
        end
  | _ => Ok (blocked_by m "host-measurement-artifact-schema")
  end.
Fixpoint measure_artifacts (m : Measuring) (items : list pyval) : result Measuring :=
  match items with [] => Ok m | item :: items => m ← measure_artifact m item; measure_artifacts m items end.

(** [ref in observed], which hashes the reference. *)
Definition measured (observed : Observed) (ref : pyval) : result bool := py_in_set ref (text_set observed.*1).
(** [any(ref not in observed for ref in refs)] *)
Fixpoint some_unmeasured (observed : Observed) (refs : list pyval) : result bool :=
  match refs with
  | [] => Ok false
  | ref :: refs => known ← measured observed ref; if negb known then Ok true else some_unmeasured observed refs
  end.
Definition refs_unmeasured (observed : Observed) (refs : pyval) : result bool :=
  match refs with VList refs => some_unmeasured observed refs | _ => Ok true end.
Definition records_of (observed : Observed) (refs : list string) : list pyval := (λ r, default VNone (dlookup r observed)) <$> refs.

Definition with_digest (id digest : string) (l : list (string * string)) : list (string * string) :=
  filter (λ kv, kv.1 ≠ id) l ++ [(id, digest)].
(** The digest of the measured artifacts of a component. *)
Fixpoint component_digests (observed : Observed) (components : list pyval) (digests : list (string * string)) (blockers : list string)
    : result (list (string * string) * list string) :=
  match components with
  | [] => Ok (digests, blockers)
  | component :: components =>
      match component with
      | VDict c =>
          match dget "id" c with
          | VStr id =>
              missing ← refs_unmeasured observed (dget "evidence_refs" c);
              if (missing : bool) then component_digests observed components digests (blockers ++ ["component-measurement-missing:" +:+ id])
              else
                digest ← _aggregate_digest (records_of observed (merge_sort String.le (default [] (text_list (dget "evidence_refs" c)))));
                component_digests observed components (with_digest id digest digests) blockers
          | _ => component_digests observed components digests blockers
          end
      | _ => component_digests observed components digests blockers
      end
  end.

(** Every passing check of the host evidence names measured artifacts; an
    identifier that is a container has no text here. *)
Definition unmeasured_check (observed : Observed) (c : pyval) : result (list string) :=
  match c with
  | VDict d =>
      if py_eq (dget "status" d) (VStr "pass") then
        missing ← refs_unmeasured observed (dget "evidence_refs" d);
        let id := match default (VStr "unknown") (dlookup "id" d) with VStr s => s | _ => "" end in
        Ok (block_if missing ("host-check-measurement-missing:" +:+ id))
      else Ok []
  | _ => Ok []
  end.
Fixpoint check_measurements (observed : Observed) (checks : list pyval) : result (list string) :=
  match checks with
  | [] => Ok []
  | c :: checks =>
      here ← unmeasured_check observed c;
      rest ← check_measurements observed checks;
      Ok (here ++ rest)
  end.

(** [for x in v] *)
Definition iterate (v : pyval) : result (list pyval) :=
  match v with
  | VList l => Ok l
  | VStr s => Ok ((λ n, VStr (utf8_encode n)) <$> code_points s)
  | VDict d => Ok (VStr <$> dkeys d)
  | _ => throw TypeError "object is not iterable"
  end.
Definition network_component_refs (component : pyval) : result (list pyval) :=
  match component with
  | VDict c => if py_eq (dget "id" c) (VStr "network-policy") then iterate (default (VList []) (dlookup "evidence_refs" c)) else Ok []
  | _ => Ok []
  end.
Fixpoint network_refs (components : list pyval) : result (list pyval) :=
  match components with
  | [] => Ok []
  | component :: components =>
      here ← network_component_refs component;
      rest ← network_refs components;
      Ok (here ++ rest)
  end.
(** [any(...)] over the references: the file of one holds the policy's text. *)
Definition holds_text (text : string) (ref : pyval) : result bool :=
  match ref with
  | VStr r =>
      file ← evidence_file (path_parts r);
      match file with Some f => Ok (bool_decide (hf_data f = text)) | None => throw OSError "no such file" end
  | _ => Ok false
  end.
Fixpoint holds_policy (observed : Observed) (policy : string) (refs : list pyval) : result bool :=
  match refs with
  | [] => Ok false
  | ref :: refs =>
      known ← measured observed ref;
      found ← (if (known : bool) then holds_text policy ref else Ok false);
      if (found : bool) then Ok true else holds_policy observed policy refs
  end.

Definition host_checks (host : pyval) : list pyval :=
  match host with VDict host => match dget "checks" host with VList l => l | _ => [] end | _ => [] end.
Definition MEASUREMENT_FIELDS : list string := ["host_measurement_version"; "measurement_set_digest"; "artifacts"].
Definition verify_host_measurements (value : dict) : result (list (string * string) * list string) :=
  match dget "measurements" value with
  | VDict ms =>
      if negb (same_set (dkeys ms) MEASUREMENT_FIELDS) || negb (py_eq (dget "host_measurement_version" ms) (VInt 1))
      then Ok ([], ["host-measurement-schema"])
      else
        match dget "artifacts" ms with
        | VList ((_ :: _) as artifacts) =>
            m ← measure_artifacts {| ms_blockers := []; ms_observed := [] |} artifacts;
            let observed := ms_observed m in
            set_digest ← _aggregate_digest (records_of observed (merge_sort String.le observed.*1));
            let components := dget "components" value in
            '(digests, missing) ← component_digests observed (match components with VList l => l | _ => [] end) [] [];
            unchecked ← check_measurements observed (host_checks (dget "host_security" value));
            policy ← canonicalize_jcs (dget "network_policy" value);
            listed ← (if py_truthy components then iterate components else Ok []);
            refs ← network_refs listed;
            held ← holds_policy observed policy refs;
            Ok (digests, first_occurrences
              (ms_blockers m
               ++ block_if (negb (py_eq (dget "measurement_set_digest" ms) (VStr set_digest))) "host-measurement-set-digest-mismatch"
               ++ missing ++ unchecked ++ block_if (negb held) "network-policy-host-measurement-mismatch"))
        | _ => Ok ([], ["host-measurement-artifacts-empty"])
        end
  | _ => Ok ([], ["host-measurement-schema"])
  end.
End measurements.

(** ** The decision *)

Section decision.
Context {D : Digest} {K : KeyLibrary}.

Definition BOUNDARY_FIELDS : list string :=
  ["runner_boundary_version"; "activation_requested"; "components"; "host_security"; "network_policy"; "measurements";
   "jit_canary_authorization"; "runner_lifecycle_proof_set"; "attestation"].
Definition COMPONENT_FIELDS : list string := ["id"; "status"; "artifact_digest"; "evidence_refs"].
Definition digest_of (id : string) (digests : list (string * string)) : pyval :=
  match List.find (λ kv, bool_decide (kv.1 = id)) digests with Some kv => VStr kv.2 | None => VNone end.
Definition component_blockers (digests : list (string * string)) (id : string) (item : dict) : list string :=
  block_if (negb (py_eq (dget "status" item) (VStr "verified")) || negb (is_str_where is_named_digest (dget "artifact_digest" item)))
    ("component-unverified:" +:+ id)
  ++ block_if (negb (match text_list (dget "evidence_refs" item) with Some ((_ :: _) as refs) => forallb nonempty refs | _ => false end))
       ("component-evidence-missing:" +:+ id)
  ++ block_if (negb (py_eq (digest_of id digests) (dget "artifact_digest" item))) ("component-host-measurement-digest-mismatch:" +:+ id).
(** The components in order; the known identifiers are texts. *)
Fixpoint evaluate_components (digests : list (string * string)) (seen : list string) (items : list pyval)
    : result (list string * list string) :=
  match items with
  | [] => Ok (seen, [])
  | item :: items =>
      match item with
      | VDict c =>
          bound_refuse_if (negb (same_set (dkeys c) COMPONENT_FIELDS)) "component evidence requires exact fields";;
          known ← py_in_set (dget "id" c) (text_set REQUIRED_COMPONENTS);
          match dget "id" c with
          | VStr id =>
              bound_refuse_if (bool_decide (id ∈ seen) || negb known) "component id is duplicate or unknown";;
              '(seen, blockers) ← evaluate_components digests (id :: seen) items;
              Ok (seen, component_blockers digests id c ++ blockers)
          | _ => bound_refuse "component id is duplicate or unknown"
          end
      | _ => bound_refuse "component evidence requires exact fields"
      end
  end.

Definition NETWORK_POLICY_FIELDS : list string :=
  ["network_policy_version"; "enabled"; "default_egress"; "blocked_cidrs"; "blocked_endpoints"; "allowed_destinations";
   "dns_private_or_rebound_resolution"; "must_load_before_runner_registration"; "must_survive_reboot";
   "on_install_or_verification_failure"].
Definition REQUIRED_ENDPOINTS : list string :=
  ["windows-host"; "windows-gateway"; "metadata"; "management-plane"; "reviewer"; "control-plane"; "deploy";
   "container-engine-sockets"; "incus-api"].
(** [required.issubset(v)], which hashes the members of the list. *)
Definition covers (required : list string) (v : pyval) : result bool :=
  match v with
  | VList l =>
      check (negb (forallb hashable l)) TypeError "unhashable type";;
      Ok (forallb (λ r, existsb (py_eq (VStr r)) l) required)
  | _ => Ok false
  end.
Definition network_blockers (value : pyval) : result (list string) :=
  match value with
  | VDict n =>
      if negb (same_set (dkeys n) NETWORK_POLICY_FIELDS) || negb (py_eq (dget "network_policy_version" n) (VInt 2))
      then Ok ["network-policy-v2-invalid"]
      else
        ranges ← covers BLOCKED_NETWORK_CIDRS (dget "blocked_cidrs" n);
        endpoints ← covers REQUIRED_ENDPOINTS (dget "blocked_endpoints" n);
        Ok (block_if (negb (is_true (dget "enabled" n)) || negb (py_eq (dget "default_egress" n) (VStr "deny")))
              "network-policy-not-enabled-default-deny"
            ++ block_if (negb ranges) "network-policy-private-ranges-incomplete"
            ++ block_if (negb endpoints) "network-policy-blocked-endpoints-incomplete"
            ++ block_if (negb (py_eq (dget "allowed_destinations" n) (VList [VStr "github-actions-egress-proxy"])))
                 "network-policy-egress-not-proxy-only"
            ++ block_if (negb (py_eq (dget "dns_private_or_rebound_resolution" n) (VStr "deny"))) "network-policy-dns-not-fail-closed"
            ++ block_if (negb (is_true (dget "must_load_before_runner_registration" n)) || negb (is_true (dget "must_survive_reboot" n)))
                 "network-policy-order-or-persistence-unverified"
            ++ block_if (negb (py_eq (dget "on_install_or_verification_failure" n) (VStr "block-local-dispatch")))
                 "network-policy-failure-not-blocking")
  | _ => Ok ["network-policy-v2-invalid"]
  end.

(** [except (RunnerBoundaryError, CanaryBoundaryError, ValueError, TypeError)] *)
Definition is_proof_error (c : exn_class) : bool :=
  is_value_error c || bool_decide (c ∈ [RunnerBoundaryError; CanaryBoundaryError; TypeError]).
Definition lifecycle_runs (value : dict) (reviewer : option (public_key * string)) : result (list pyval * list string) :=
  match reviewer with
  | None => Ok ([], ["lifecycle-proof-signature-not-verified"])
  | Some (k, pinned) =>
      match _verify_lifecycle_proof_set (dget "jit_canary_authorization" value) (dget "runner_lifecycle_proof_set" value) k pinned with
      | Ok runs => Ok (runs, [])
      | Raise e => if is_proof_error (exn_cls e) then Ok ([], ["lifecycle-proof-invalid:" +:+ exn_msg e]) else Raise e
      end
  end.

(** The reviewer's key and its pinned fingerprint come together or not at all:
    without one of the two nothing is verified. *)
Definition evaluate_runner_boundary (value : pyval) (digests : option (list (string * string))) (measurement_blockers : list string)
    (reviewer : option (public_key * string)) : result RunnerBoundaryDecision :=
  match value with
  | VDict d =>
      bound_refuse_if (negb (same_set (dkeys d) BOUNDARY_FIELDS) || negb (py_eq (dget "runner_boundary_version" d) (VInt 2)))
        "runner boundary requires exact v2 fields";;
      match reviewer with Some (k, pinned) => verify_runner_boundary_attestation d k pinned | None => Ok tt end;;
      match dget "components" d with
      | VList components =>
          '(seen, component_reasons) ← evaluate_components (default [] digests) [] components;
          '(runs, lifecycle_reasons) ← lifecycle_runs d reviewer;
          match dget "host_security" d with
          | VDict host_value =>
              host ← evaluate_host_security (VDict (dset "runner_lifecycle_runs" (VList runs) host_value));
              network_reasons ← network_blockers (dget "network_policy" d);
              let blockers := first_occurrences
                (block_if (bool_decide (reviewer = None)) "boundary-attestation-not-verified"
                 ++ block_if (bool_decide (digests = None)) "host-measurement-not-verified"
                 ++ measurement_blockers
                 ++ block_if (negb (is_true (dget "activation_requested" d))) "activation-not-requested"
                 ++ component_reasons
                 ++ ((λ c, "component-missing:" +:+ c) <$> filter (λ c, c ∉ seen) REQUIRED_COMPONENTS)
                 ++ lifecycle_reasons
                 ++ ((λ b, "host:" +:+ b) <$> hs_blockers host)
                 ++ block_if (negb (py_eq (dget "distro_name" host_value) (VStr "Ubuntu-24.04-CI"))) "host:unexpected-dedicated-distro-name"
                 ++ network_reasons) in
              let enabled := bool_decide (blockers = []) in
              Ok {| rb_enabled := enabled; rb_status := if enabled then "verified" else "blocked"; rb_blockers := blockers |}
          | _ => throw TypeError "host evidence is not an object"
          end
      | _ => bound_refuse "components must be a list"
      end
  | _ => bound_refuse "runner boundary requires exact v2 fields"
  end.
End decision.

(** ** What an enabled boundary proves *)

Lemma py_eq_scalar v : hashable v = true → py_eq v v = true.
Proof. destruct v; cbn; try done; intros _; [by destruct b|apply Z.eqb_refl|by apply bool_decide_eq_true]. Qed.
Lemma all_different_nodup l : all_different l = true → Forall (λ v, hashable v = true) l → NoDup l.
Proof.
  induction l as [|v l IH]; cbn; [constructor|]. intros [Hv Hl]%andb_true_iff Hh. apply Forall_cons in Hh as [Hh Hhl].
  constructor; [|auto]. intros Hin. apply negb_true_iff in Hv. assert (existsb (py_eq v) l = true); [|congruence].
  apply existsb_exists. exists v. split; [by apply list_elem_of_In|by apply py_eq_scalar].
Qed.
Lemma forallb_Forall {A} (p : A → bool) l : forallb p l = true → Forall (λ a, p a = true) l.
Proof. rewrite forallb_forall, Forall_forall. intros H a Ha. by apply H, list_elem_of_In. Qed.

Section proven.
Context {D : Digest} {K : KeyLibrary} {Root : EvidenceRoot}.

(** The proof of one scenario, bound to the authorization. *)
Record proof_of (auth : dict) (digest scenario : string) (p : dict) : Prop := {
  po_scenario : dget "scenario" p = VStr scenario ∧ dget "conclusion" p = VStr scenario;
  po_binding : dget "authorization_digest" p = VStr digest ∧ py_eq (dget "nonce" p) (dget "nonce" auth) = true ∧
    Forall (λ f, py_eq (dget f p) (dget f auth) = true) _PROOF_SET_SHARED;
  po_sealed : ∃ text, canonicalize_jcs (VDict (dremove "proof_digest" p)) = Ok text ∧ dget "proof_digest" p = VStr (sha256_hex text);
  po_ids : Forall (λ f, is_positive_int (dget f p) = true) ["run_id"; "run_attempt"; "job_id"] ∧ hashable (dget "allocation_id" p) = true;
  po_one_job : py_eq (dget "jobs_started" p) (VInt 1) = true;
  po_clean : is_clean (dget "cleanup_record" p) = true ∧
    Forall (λ f, is_empty_inventory (dget f p) = true) ["garm_inventory_post"; "incus_inventory_post"; "github_inventory_post"];
  po_cancelled : (scenario ∈ ["cancel"; "force-cancel"] ↔ dget "normal_cancel_receipt" p ≠ VNone) ∧
    (scenario = "force-cancel" ↔ dget "force_cancel_receipt" p ≠ VNone);
}.

Lemma is_none_iff v : is_none v = true ↔ v = VNone.
Proof. by destruct v. Qed.
Lemma receipts_ok (scenario : string) normal forced :
  (bool_decide (scenario = "force-cancel") && (negb (negb (is_none normal)) || negb (negb (is_none forced)))) = false →
  (bool_decide (scenario = "cancel") && negb (negb (is_none normal))) = false →
  (negb (bool_decide (scenario = "cancel") || bool_decide (scenario = "force-cancel")) && negb (is_none normal)) = false →
  (negb (bool_decide (scenario = "force-cancel")) && negb (is_none forced)) = false →
  (scenario ∈ ["cancel"; "force-cancel"] ↔ normal ≠ VNone) ∧ (scenario = "force-cancel" ↔ forced ≠ VNone).
Proof.
  rewrite !elem_of_cons, elem_of_nil, <- !is_none_iff.
  destruct (decide (scenario = "force-cancel")) as [->|H1]; [|destruct (decide (scenario = "cancel")) as [->|H2]];
    repeat first [rewrite (bool_decide_eq_true_2 _ eq_refl)|rewrite bool_decide_eq_false_2 by done];
    destruct (is_none normal), (is_none forced); cbn; try done; intros _ _ _ _; split; naive_solver.
Qed.

Lemma verify_proof_ok auth digest v p scenario :
  verify_proof auth digest v = Ok p → scenario_of v = VStr scenario → v = VDict p ∧ proof_of auth digest scenario p.
Proof.
  unfold verify_proof. destruct v as [| | | | |d]; try done. intros H Hsc. cbn [scenario_of] in Hsc. rewrite Hsc in H.
  apply result_bind_ok in H as (? & _ & (x & Hx & H)%result_bind_ok).
  apply result_bind_ok in H as (? & [Hpd%negb_false_iff%py_eq_str _]%check_ok%orb_false_iff & H).
  apply result_bind_ok in H as (? & [Hau%negb_false_iff%py_eq_str Hno%negb_false_iff]%check_ok%orb_false_iff & H).
  apply result_bind_ok in H as (? & Hag%check_ok%negb_false_iff%forallb_Forall & H).
  apply result_bind_ok in H as (? & Hco%check_ok%negb_false_iff%py_eq_str & H).
  apply result_bind_ok in H as (? & _ & (? & Hid%check_ok%negb_false_iff%forallb_Forall & H)%result_bind_ok).
  apply result_bind_ok in H as (? & Hone%check_ok%negb_false_iff & (? & Hcl%check_ok%negb_false_iff & H)%result_bind_ok).
  apply result_bind_ok in H as (? & Hin%check_ok%negb_false_iff%forallb_Forall & (? & H1%check_ok & H)%result_bind_ok).
  apply result_bind_ok in H as (? & H2%check_ok & (? & H3%check_ok & (? & H4%check_ok & H)%result_bind_ok)%result_bind_ok).
  apply result_bind_ok in H as (? & Hh%check_ok%negb_false_iff & [= <-]). split; [done|].
  assert (∃ text, canonicalize_jcs (VDict (dremove "proof_digest" d)) = Ok text ∧ x = sha256_hex text) as (text & Ht & ->).
  { destruct (canonicalize_jcs _) as [text|e]; [|done]. injection Hx as <-. by exists text. }
  constructor; try done.
  - by exists text.
  - exact (receipts_ok scenario _ _ H1 H2 H3 H4).
Qed.

(** The whole set: the authorization signed by the same key, one proof of every
    scenario in order, no identity used twice. *)
Definition lifecycle_proven (authorization proof_set : pyval) (k : public_key) (pinned : string) (runs : list pyval) : Prop := ∃ auth set ps digest text,
  authorization = VDict auth ∧ proof_set = VDict set ∧ attested_by CANARY_ATTESTATION_DOMAIN auth k pinned ∧ narrow (_unsigned auth) ∧
  canonicalize_jcs (VDict (_unsigned auth)) = Ok text ∧ digest = sha256_hex text ∧
  dget "proofs" set = VList (VDict <$> ps) ∧ Forall2 (λ scenario p, proof_of auth digest scenario p) CANARY_SCENARIOS ps ∧
  NoDup (dget "allocation_id" <$> ps) ∧ NoDup (dget "run_id" <$> ps) ∧ NoDup (dget "job_id" <$> ps) ∧
  runs = (λ p, legacy_run (dget "jobs_started" p) (dget "scenario" p)) <$> ps.

Lemma digest_ok auth digest : authorization_digest auth = Ok digest →
  ∃ text, canonicalize_jcs (VDict (_unsigned auth)) = Ok text ∧ digest = sha256_hex text.
Proof.
  unfold authorization_digest. intros (? & _ & (? & _ & H)%result_bind_ok)%result_bind_ok.
  destruct (canonicalize_jcs _) as [text|e]; [|done]. injection H as <-. by exists text.
Qed.
Lemma proofs_ok auth digest proofs ps :
  collect (verify_proof auth digest) proofs = Ok ps → VList (scenario_of <$> proofs) = VList (VStr <$> CANARY_SCENARIOS) →
  proofs = VDict <$> ps ∧ Forall2 (λ scenario p, proof_of auth digest scenario p) CANARY_SCENARIOS ps.
Proof.
  intros Hc%collect_forall2 [= Hs]. change (scenario_of <$> proofs = VStr <$> CANARY_SCENARIOS) in Hs. revert Hs. generalize CANARY_SCENARIOS.
  induction Hc as [|v p proofs ps Hv _ IH]; intros [|s scenarios]; try done. cbn. intros [= Hs Hr].
  destruct (verify_proof_ok _ _ _ _ _ Hv Hs) as [-> Hp]. destruct (IH scenarios Hr) as [-> Hall]. split; [done|by constructor].
Qed.
Lemma ids_hashable auth digest scenarios ps :
  Forall2 (λ scenario p, proof_of auth digest scenario p) scenarios ps →
  Forall (λ f, Forall (λ v, hashable v = true) (dget f <$> ps)) ["allocation_id"; "run_id"; "job_id"].
Proof.
  intros Hps. assert (∀ v, is_positive_int v = true → hashable v = true) as Hi by (by intros []).
  repeat (apply Forall_cons; split); [..|constructor];
    apply Forall_fmap; (induction Hps as [|scenario p scenarios ps Hp _ IH]; constructor; [|exact IH]); cbn; destruct Hp as [_ _ _ [Hids Hal] _ _ _].
  - done.
  - apply Forall_cons in Hids as [H _]. auto.
  - do 2 apply Forall_cons in Hids as [_ Hids]. apply Forall_cons in Hids as [H _]. auto.
Qed.
Lemma lifecycle_set_ok authorization proof_set k pinned runs :
  _verify_lifecycle_proof_set authorization proof_set k pinned = Ok runs → lifecycle_proven authorization proof_set k pinned runs.
Proof.
  unfold _verify_lifecycle_proof_set. intros (decision & Hv & (? & Ha%check_ok%negb_false_iff & H)%result_bind_ok)%result_bind_ok.
  destruct (authorization_verified _ _ _ _ _ Hv Ha) as (auth & -> & Hatt & Hn & _).
  destruct proof_set as [| | | | |set]; try done. apply result_bind_ok in H as (? & _ & (digest & Hd & H)%result_bind_ok).
  apply result_bind_ok in H as (? & _ & (? & _ & H)%result_bind_ok). destruct (dget "proofs" set) as [| | | |proofs|] eqn:Ep; try done.
  apply result_bind_ok in H as (? & Hs%check_ok%negb_false_iff & (ps & Hc & H)%result_bind_ok).
  apply result_bind_ok in H as (? & Hdiff%check_ok%negb_false_iff & [= <-]).
  destruct (digest_ok _ _ Hd) as (text & Ht & ->). apply (py_eq_texts _ CANARY_SCENARIOS) in Hs.
  destruct (proofs_ok _ _ _ _ Hc Hs) as [-> Hps]. pose proof (ids_hashable _ _ _ _ Hps) as Hh.
  rewrite !Forall_cons in Hh. destruct Hh as (Hha & Hhr & Hhj & _). cbn [forallb] in Hdiff. rewrite !andb_true_iff in Hdiff. destruct Hdiff as (Hda & Hdr & Hdj & _).
  exists auth, set, ps, (sha256_hex text), text. split_and!; try done; by apply all_different_nodup.
Qed.

(** *** Measurements *)

(** A record is of the file as it stands. *)
Definition measured_file (ref : string) (record : pyval) : Prop :=
  ∃ f, evidence_file (path_parts ref) = Ok (Some f) ∧ record = VDict (actual_record ref f).
(** An artifact of the document is exactly what is measured of its file. *)
Definition artifact_measured (item : pyval) : Prop := ∃ i ref f, item = VDict i ∧ dget "ref" i = VStr ref ∧ is_relative_ref ref = true ∧
  evidence_file (path_parts ref) = Ok (Some f) ∧ py_eq item (VDict (actual_record ref f)) = true.
Definition all_measured (observed : Observed) : Prop := Forall (λ kv, measured_file kv.1 kv.2) observed.

Lemma app_singleton_nil {A} (l : list A) a : l ++ [a] = [] ↔ False.
Proof. split; [|done]. intros H. by apply app_eq_nil in H as [_ ?]. Qed.
Lemma measure_artifact_ok m item m' :
  measure_artifact m item = Ok m' → all_measured (ms_observed m) →
  all_measured (ms_observed m') ∧ (ms_blockers m' = [] → ms_blockers m = [] ∧ artifact_measured item).
Proof.
  assert (∀ text, Ok (blocked_by m text) = Ok m' → all_measured (ms_observed m) →
    all_measured (ms_observed m') ∧ (ms_blockers m' = [] → ms_blockers m = [] ∧ artifact_measured item)) as Hblocked.
  { intros text [= <-] Hm. split; [done|]. cbn. by intros []%app_singleton_nil. }
  unfold measure_artifact. destruct item as [| | | | |d]; try by apply Hblocked. destruct (negb (same_set _ _)); [by apply Hblocked|].
  destruct (dget "ref" d) as [| | |ref| |] eqn:Er; try by apply Hblocked. destruct (negb (is_relative_ref ref)) eqn:Erel; [by apply Hblocked|].
  destruct (bool_decide (ref ∈ _)); [by apply Hblocked|].
  destruct (evidence_file (path_parts ref)) as [[f|]|e] eqn:Ef; [|by apply Hblocked|by destruct (is_os_error _); [apply Hblocked|]].
  intros [= <-] Hm. cbn [ms_observed ms_blockers]. split.
  - apply Forall_app. split; [done|]. constructor; [|constructor]. by exists f.
  - intros [Hb Hi]%app_nil_iff. split; [done|]. destruct (negb (has_metadata d)); [done|]. apply negb_block_nil in Hi.
    apply negb_false_iff in Erel. by exists d, ref, f.
Qed.
Lemma measure_artifacts_ok items m m' :
  measure_artifacts m items = Ok m' → all_measured (ms_observed m) →
  all_measured (ms_observed m') ∧ (ms_blockers m' = [] → ms_blockers m = [] ∧ Forall artifact_measured items).
Proof.
  revert m. induction items as [|item items IH]; intros m; cbn [measure_artifacts]; [intros [= <-]; auto|].
  intros (m1 & H1 & H)%result_bind_ok Hm. destruct (measure_artifact_ok _ _ _ H1 Hm) as [Hm1 Hb1].
  destruct (IH m1 H Hm1) as [Hm' Hb']. split; [done|]. intros Hn. destruct (Hb' Hn) as [Hn1 Hall]. destruct (Hb1 Hn1) as [Hn0 Hi]. auto.
Qed.

Lemma measured_text observed ref b : measured observed ref = Ok b → b = true → ∃ r, ref = VStr r ∧ r ∈ observed.*1.
Proof.
  unfold measured, py_in_set. intros (? & _ & [= <-])%result_bind_ok. intros (v & Hin & Hv)%existsb_exists. unfold text_set in Hin.
  apply list_elem_of_In, list_elem_of_fmap in Hin as (r & -> & Hr). apply py_eq_str in Hv. eauto.
Qed.
Lemma some_unmeasured_ok observed refs : some_unmeasured observed refs = Ok false → ∃ rs, refs = VStr <$> rs ∧ rs ⊆ observed.*1.
Proof.
  induction refs as [|ref refs IH]; cbn [some_unmeasured]; [intros _; exists []; split; [done|set_solver]|].
  intros (known & Hk & H)%result_bind_ok. destruct known; [|done]. cbn in H. destruct (measured_text _ _ _ Hk eq_refl) as (r & -> & Hr).
  destruct (IH H) as (rs & -> & Hrs). exists (r :: rs). split; [done|set_solver].
Qed.
Lemma record_measured observed ref :
  all_measured observed → ref ∈ observed.*1 → measured_file ref (default VNone (dlookup ref observed)).
Proof.
  induction 1 as [|[r v] observed Hv _ IH]; cbn; [by intros ?%elem_of_nil|]. rewrite elem_of_cons.
  destruct (decide (ref = r)) as [->|Hne]; [done|]. intros [?|Hin]; [done|auto].
Qed.

(** The digest of files of the host, read now, in the order of their names. *)
Definition digest_of_files (refs : list string) (digest : string) : Prop := ∃ records,
  Forall2 measured_file refs records ∧ _aggregate_digest records = Ok digest.
Lemma digest_of_files_ok observed refs digest :
  all_measured observed → refs ⊆ observed.*1 → _aggregate_digest (records_of observed refs) = Ok digest → digest_of_files refs digest.
Proof.
  intros Hm Hr Hd. exists (records_of observed refs). split; [|done]. unfold records_of. clear Hd.
  induction refs as [|ref refs IH]; [constructor|]. constructor; [apply record_measured; [done|set_solver]|apply IH; set_solver].
Qed.

(** Every digest handed to the decision is of the files its component names. *)
Definition digests_measured (components : list pyval) (digests : list (string * string)) : Prop :=
  Forall (λ kv, ∃ c refs, VDict c ∈ components ∧ dget "id" c = VStr kv.1 ∧ dget "evidence_refs" c = VList (VStr <$> refs) ∧
            digest_of_files (merge_sort String.le refs) kv.2) digests.
Lemma text_list_texts l : text_list (VList (VStr <$> l)) = Some l.
Proof. cbn. induction l as [|s l IH]; [done|]. cbn. by rewrite IH. Qed.
Lemma component_digests_ok observed all components digests blockers digests' blockers' :
  all_measured observed → component_digests observed components digests blockers = Ok (digests', blockers') →
  components ⊆ all → digests_measured all digests → digests_measured all digests'.
Proof.
  intros Hm. revert digests blockers. induction components as [|v components IH]; intros digests blockers; cbn [component_digests]; [by intros [= <- <-]|].
  intros H Hsub Hd. assert (components ⊆ all) as Hsub' by set_solver.
  destruct v as [| | | | |c]; try (by eapply IH). destruct (dget "id" c) as [| | |id| |] eqn:Ei; try (by eapply IH).
  apply result_bind_ok in H as (missing & Hmi & H). destruct missing; [by eapply IH|]. unfold refs_unmeasured in Hmi.
  destruct (dget "evidence_refs" c) as [| | | |refs|] eqn:Er; try done. destruct (some_unmeasured_ok _ _ Hmi) as (rs & -> & Hrs).
  apply result_bind_ok in H as (digest & Hdig & H). rewrite text_list_texts in Hdig. cbn [default] in Hdig.
  eapply IH; [exact H|done|]. unfold with_digest, digests_measured. apply Forall_app. split.
  { apply Forall_forall. intros kv [_ Hin]%list_elem_of_filter. by eapply Forall_forall in Hd. }
  constructor; [|constructor]. exists c, rs. split_and!; [set_solver|done|done|]. eapply digest_of_files_ok; [done| |exact Hdig]. cbn.
  intros r Hr. apply Hrs. by rewrite (merge_sort_Permutation String.le rs) in Hr.
Qed.
Lemma holds_policy_ok observed policy refs :
  holds_policy observed policy refs = Ok true → ∃ ref f, evidence_file (path_parts ref) = Ok (Some f) ∧ hf_data f = policy.
Proof.
  induction refs as [|ref refs IH]; cbn [holds_policy]; [done|]. intros (known & Hk & (found & Hf & H)%result_bind_ok)%result_bind_ok.
  destruct found; [|auto]. destruct known; [|done]. unfold holds_text in Hf. destruct ref as [| | |r| |]; try done.
  apply result_bind_ok in Hf as ([f|] & Hr & [= Hd]). apply bool_decide_eq_true in Hd. eauto.
Qed.

Definition components_of (d : dict) : list pyval := match dget "components" d with VList l => l | _ => [] end.
(** What the host confirms of the document. *)
Definition measurements_proven (d : dict) (digests : list (string * string)) : Prop :=
  (∃ ms artifacts, dget "measurements" d = VDict ms ∧ dget "artifacts" ms = VList artifacts ∧ artifacts ≠ [] ∧ Forall artifact_measured artifacts) ∧
  digests_measured (components_of d) digests ∧
  ∃ ref f, evidence_file (path_parts ref) = Ok (Some f) ∧ canonicalize_jcs (dget "network_policy" d) = Ok (hf_data f).
Lemma measurements_ok d digests : verify_host_measurements d = Ok (digests, []) → measurements_proven d digests.
Proof.
  unfold verify_host_measurements, measurements_proven. destruct (dget "measurements" d) as [| | | | |ms] eqn:Em; try done.
  destruct (_ || _); [done|]. destruct (dget "artifacts" ms) as [| | | |[|a artifacts]|] eqn:Ea; try done.
  intros (m & Hm & (set_digest & _ & ([digests' missing] & Hc & (unchecked & _ & H)%result_bind_ok)%result_bind_ok)%result_bind_ok)%result_bind_ok.
  apply result_bind_ok in H as (policy & Hp & (listed & _ & (refs & _ & (held & Hh & [= -> Hn])%result_bind_ok)%result_bind_ok)%result_bind_ok).
  apply (proj1 (first_occurrences_nil _)) in Hn. rewrite !app_nil_iff, !negb_block_nil in Hn. destruct Hn as (Hb & _ & _ & _ & ->).
  destruct (measure_artifacts_ok _ _ _ Hm) as [Hall Hblock]; [constructor|]. split_and!.
  - exists ms, (a :: artifacts). split_and!; [done|done|done|by apply Hblock].
  - eapply component_digests_ok; [exact Hall|exact Hc|set_solver|constructor].
  - destruct (holds_policy_ok _ _ _ Hh) as (ref & f & Hf & Hd). exists ref, f. by rewrite Hd.
Qed.

(** *** The components *)

Definition component_proven (digests : list (string * string)) (id : string) (c : dict) : Prop :=
  dget "id" c = VStr id ∧ dget "status" c = VStr "verified" ∧ (∃ digest, dget "artifact_digest" c = VStr digest ∧ (id, digest) ∈ digests) ∧
  ∃ refs, dget "evidence_refs" c = VList (VStr <$> refs) ∧ refs ≠ [].
Lemma digest_of_ok id digests digest : digest_of id digests = VStr digest → (id, digest) ∈ digests.
Proof.
  unfold digest_of. destruct (List.find _ digests) as [[k v]|] eqn:E; [|done]. apply find_some in E as [Hin Hk%bool_decide_eq_true].
  cbn in *. intros [= <-]. subst k. by apply list_elem_of_In.
Qed.
Lemma component_blockers_ok digests id c : dget "id" c = VStr id → component_blockers digests id c = [] → component_proven digests id c.
Proof.
  unfold component_blockers. rewrite !app_nil_iff, !negb_block_nil, block_if_nil. intros Hid (H1 & H2 & H3).
  apply orb_false_iff in H1 as [Hs%negb_false_iff%py_eq_str Ha%negb_false_iff].
  destruct (dget "artifact_digest" c) as [| | |digest| |] eqn:Ed; try done. apply py_eq_str in H3.
  split_and!; [done|done|exists digest; split; [done|by apply digest_of_ok]|].
  destruct (text_list (dget "evidence_refs" c)) as [[|r refs]|] eqn:Er; try done. apply text_list_ok in Er. by exists (r :: refs).
Qed.
Lemma evaluate_components_ok digests seen items seen' :
  evaluate_components digests seen items = Ok (seen', []) →
  ∀ id, id ∈ seen' → id ∈ seen ∨ ∃ c, VDict c ∈ items ∧ component_proven digests id c.
Proof.
  revert seen seen'. induction items as [|v items IH]; intros seen seen'; cbn [evaluate_components]; [intros [= <-]; auto|].
  destruct v as [| | | | |c]; try done. intros (? & _ & (known & _ & H)%result_bind_ok)%result_bind_ok.
  destruct (dget "id" c) as [| | |i| |] eqn:Ei; try done. apply result_bind_ok in H as (? & _ & ([seen1 b1] & H1 & H)%result_bind_ok).
  injection H as -> Hb. apply app_nil_iff in Hb as [Hc ->]. intros id Hid. destruct (IH _ _ H1 id Hid) as [Hin|(c' & Hin & Hp)].
  - apply elem_of_cons in Hin as [->|Hin]; [|by left]. right. exists c. split; [left|by apply component_blockers_ok].
  - right. exists c'. split; [by right|done].
Qed.

(** *** The network *)

Definition lists_texts (required : list string) (v : pyval) : Prop := ∃ l, v = VList l ∧ Forall (λ r, VStr r ∈ l) required.
Lemma covers_ok required v : covers required v = Ok true → lists_texts required v.
Proof.
  unfold covers. destruct v as [| | | |l|]; try done. intros (? & _ & [= H])%result_bind_ok. exists l. split; [done|].
  apply forallb_Forall in H. eapply Forall_impl; [exact H|]. intros r (w & Hin & Hw)%existsb_exists. apply list_elem_of_In in Hin.
  by destruct w; cbn in Hw; try done; apply bool_decide_eq_true in Hw as ->.
Qed.
Definition closed_network (policy : pyval) : Prop := ∃ n, policy = VDict n ∧
  dget "enabled" n = VBool true ∧ dget "default_egress" n = VStr "deny" ∧
  lists_texts BLOCKED_NETWORK_CIDRS (dget "blocked_cidrs" n) ∧ lists_texts REQUIRED_ENDPOINTS (dget "blocked_endpoints" n) ∧
  dget "allowed_destinations" n = VList [VStr "github-actions-egress-proxy"] ∧ dget "dns_private_or_rebound_resolution" n = VStr "deny" ∧
  dget "must_load_before_runner_registration" n = VBool true ∧ dget "must_survive_reboot" n = VBool true ∧
  dget "on_install_or_verification_failure" n = VStr "block-local-dispatch".
Lemma network_ok policy : network_blockers policy = Ok [] → closed_network policy.
Proof.
  unfold network_blockers. destruct policy as [| | | | |n]; try done. destruct (_ || _); [done|].
  intros (ranges & Hr & (endpoints & He & [= H])%result_bind_ok)%result_bind_ok. rewrite !app_nil_iff, !negb_block_nil, !block_if_nil in H.
  destruct H as (H1 & -> & -> & H4 & H5 & H6 & H7). apply orb_false_iff in H1 as [H1 H1'], H6 as [H6 H6'].
  apply negb_false_iff in H1, H1', H6, H6'. apply py_eq_str in H1', H5, H7. apply (py_eq_texts _ ["github-actions-egress-proxy"]) in H4.
  exists n. split_and!; try done; try (by apply is_true_ok); by apply covers_ok.
Qed.

(** *** The boundary *)

Record boundary_proven (d : dict) (digests : list (string * string)) (k : public_key) (pinned : string) : Prop := {
  bp_signed : attested_by BOUNDARY_ATTESTATION_DOMAIN d k pinned;
  bp_requested : dget "activation_requested" d = VBool true;
  bp_measured : measurements_proven d digests;
  bp_components : Forall (λ id, ∃ c, VDict c ∈ components_of d ∧ component_proven digests id c) REQUIRED_COMPONENTS;
  bp_lifecycle : ∃ runs, lifecycle_proven (dget "jit_canary_authorization" d) (dget "runner_lifecycle_proof_set" d) k pinned runs ∧
    ∃ host, dget "host_security" d = VDict host ∧ dget "distro_name" host = VStr "Ubuntu-24.04-CI" ∧
      host_proven (dset "runner_lifecycle_runs" (VList runs) host);
  bp_network : closed_network (dget "network_policy" d);
}.

Lemma attestation_ok d k pinned u : verify_runner_boundary_attestation d k pinned = Ok u → attested_by BOUNDARY_ATTESTATION_DOMAIN d k pinned.
Proof.
  unfold verify_runner_boundary_attestation. destruct (dget "attestation" d) as [| | | | |a] eqn:Ea; try done.
  intros (? & _ & (? & Hp%check_ok & Hv%rewrap_ok)%result_bind_ok)%result_bind_ok. destruct u.
  apply orb_false_iff in Hp as [[Hp1%negb_false_iff Hp2%negb_false_iff%py_eq_str]%orb_false_iff Hp3%negb_false_iff%bool_decide_eq_true].
  exists a. by split_and!.
Qed.
Lemma filter_nil_all (ids seen : list string) : filter (λ c, c ∉ seen) ids = [] → Forall (λ id, id ∈ seen) ids.
Proof.
  intros Hf. apply Forall_forall. intros id Hid. destruct (decide (id ∈ seen)) as [|Hno]; [done|]. exfalso.
  assert (id ∈ filter (λ c, c ∉ seen) ids) as Hx by by apply list_elem_of_filter. rewrite Hf in Hx. by apply elem_of_nil in Hx.
Qed.

(** C12: when the host measures the evidence and the boundary is enabled under the
    reviewer's key, then the pinned key signed the document; activation was asked
    for; every artifact it lists is, byte for byte and with owner and mode, the
    file now on the host, and the file of the network policy is its canonical
    text; every required component is verified with the digest of its measured
    files; the same key authorized the canaries, narrowly, and there is one sealed
    and clean proof of each of the six scenarios, no allocation, run or job used
    twice; the host evidence has every required check passing and the WSL switches
    off; and the network denies by default. *)
Theorem boundary_enabled d digests blockers k pinned decision :
  verify_host_measurements d = Ok (digests, blockers) →
  evaluate_runner_boundary (VDict d) (Some digests) blockers (Some (k, pinned)) = Ok decision →
  rb_enabled decision = true → boundary_proven d digests k pinned.
Proof.
  intros Hm. unfold evaluate_runner_boundary. intros (? & _ & (u & Ha & H)%result_bind_ok)%result_bind_ok.
  destruct (dget "components" d) as [| | | |components|] eqn:Ec; try done.
  apply result_bind_ok in H as ([seen reasons] & Hcomp & ([runs lifecycle] & Hlife & H)%result_bind_ok).
  destruct (dget "host_security" d) as [| | | | |host] eqn:Eh; try done.
  apply result_bind_ok in H as (result & Hhost & (network & Hn & [= <-])%result_bind_ok). cbn [rb_enabled]. intros Hen%bool_decide_eq_true.
  apply (proj1 (first_occurrences_nil _)) in Hen. rewrite !app_nil_iff, !negb_block_nil in Hen.
  destruct Hen as (-> & Hreq & -> & Hmiss%fmap_nil_inv & -> & Hhb%fmap_nil_inv & Hdist%py_eq_str & ->).
  constructor.
  - by eapply attestation_ok.
  - by apply is_true_ok.
  - by apply measurements_ok.
  - eapply Forall_impl; [exact (filter_nil_all _ _ Hmiss)|]. intros id Hid. unfold components_of. rewrite Ec.
    destruct (evaluate_components_ok _ _ _ _ Hcomp id Hid) as [Hno|Hc]; [by apply elem_of_nil in Hno|exact Hc].
  - exists runs. split.
    + cbn [lifecycle_runs] in Hlife. destruct (_verify_lifecycle_proof_set _ _ k pinned) as [r|e] eqn:Ev.
      * injection Hlife as ->. by apply lifecycle_set_ok.
      * by destruct (is_proof_error _).
    + exists host. split_and!; [done|done|]. by eapply host_enabled.
  - by apply network_ok.
Qed.
End proven.

(** ** A boundary that is enabled *)

#[local] Existing Instance ToyDigest.
#[local] Existing Instance ToyKeys.
Definition toy_authorization_digest : string := Eval vm_compute in result_or "" (authorization_digest toy_signed_canary).

Definition shared_values : dict := (λ f, (f, dget f toy_canary)) <$> _PROOF_SET_SHARED.
Definition toy_proof (n : Z) (scenario : string) : pyval :=
  let p :=
    [("authorization_digest", VStr toy_authorization_digest); ("nonce", dget "nonce" toy_canary); ("scenario", VStr scenario);
     ("allocation_id", VInt (100 + n)); ("scale_set_id", VStr "9"); ("scale_set_name", VStr "wsl-jit"); ("run_id", VInt (200 + n));
     ("run_attempt", VInt 1); ("job_id", VInt (300 + n)); ("runner_name", VStr "r")] ++ shared_values
    ++ [("reserved_at", VNone); ("started_at", VNone); ("finished_at", VNone); ("jobs_started", VInt 1); ("conclusion", VStr scenario);
        ("normal_cancel_receipt", if bool_decide (scenario ∈ ["cancel"; "force-cancel"]) then VStr "accepted" else VNone);
        ("force_cancel_receipt", if bool_decide (scenario = "force-cancel") then VStr "accepted" else VNone);
        ("cleanup_record", VDict (all_of (VBool true) REMOVALS))]
    ++ all_of (VDict [("remaining", VInt 0)]) ["garm_inventory_post"; "incus_inventory_post"; "github_inventory_post"] in
  VDict (p ++ [("proof_digest", VStr (sha256_hex (result_or "" (canonicalize_jcs (VDict p)))))]).
Definition toy_proof_set : pyval := VDict
  ([("schema_version", VInt 1); ("authorization_digest", VStr toy_authorization_digest); ("nonce", dget "nonce" toy_canary)]
   ++ shared_values ++ [("proofs", VList (zip_with toy_proof [1; 2; 3; 4; 5; 6] CANARY_SCENARIOS))]).

Definition line_feed : string := String "010" "".
Definition toy_wsl_conf : string :=
  "[automount]" +:+ line_feed +:+ "enabled = false" +:+ line_feed +:+ "mountFsTab=false" +:+ line_feed +:+ "# drives" +:+ line_feed
  +:+ "[interop]" +:+ line_feed +:+ "enabled: False" +:+ line_feed +:+ "appendWindowsPath = false" +:+ line_feed.
Definition toy_host : dict :=
  [("host_security_schema_version", VInt 1); ("platform", VStr "wsl2"); ("distro_name", VStr "Ubuntu-24.04-CI");
   ("personal_distro_names", VList [VStr "Ubuntu"]); ("wsl_conf", VStr toy_wsl_conf);
   ("checks", VList ((λ c, VDict [("id", VStr c); ("status", VStr "pass"); ("evidence_refs", VList [VStr "host/report"])]) <$> REQUIRED_CHECKS));
   ("observed_artifact_kinds", VList []);
   ("network_policy", VDict (all_of (VBool true) NETWORK_FLAGS
      ++ [("denied_cidrs", VList (VStr <$> BLOCKED_NETWORK_CIDRS)); ("denied_service_classes", VList (VStr <$> REQUIRED_SERVICES))]));
   ("runner_lifecycle_runs", VList [])].
Definition toy_network : pyval := VDict
  [("network_policy_version", VInt 2); ("enabled", VBool true); ("default_egress", VStr "deny");
   ("blocked_cidrs", VList (VStr <$> BLOCKED_NETWORK_CIDRS)); ("blocked_endpoints", VList (VStr <$> REQUIRED_ENDPOINTS));
   ("allowed_destinations", VList [VStr "github-actions-egress-proxy"]); ("dns_private_or_rebound_resolution", VStr "deny");
   ("must_load_before_runner_registration", VBool true); ("must_survive_reboot", VBool true);
   ("on_install_or_verification_failure", VStr "block-local-dispatch")].

(** Two files under the evidence root. *)
Definition toy_file (data : string) : HostFile := {| hf_data := data; hf_mode := 416; hf_uid := 0; hf_gid := 10 |}.
Definition toy_policy_file : HostFile := Eval vm_compute in toy_file (result_or "" (canonicalize_jcs toy_network)).
#[local] Instance ToyRoot : EvidenceRoot := λ parts,
  if bool_decide (parts = ["host"; "report"]) then Ok (Some (toy_file "measured"))
  else if bool_decide (parts = ["policy.json"]) then Ok (Some toy_policy_file) else Ok None.
Definition toy_refs : list string := ["host/report"; "policy.json"].
Definition toy_records : list pyval :=
  [VDict (actual_record "host/report" (toy_file "measured")); VDict (actual_record "policy.json" toy_policy_file)].
Definition toy_digest : string := Eval vm_compute in result_or "" (_aggregate_digest toy_records).
Definition toy_unsigned_boundary : dict :=
  [("runner_boundary_version", VInt 2); ("activation_requested", VBool true);
   ("components", VList ((λ c, VDict [("id", VStr c); ("status", VStr "verified"); ("artifact_digest", VStr toy_digest);
                                      ("evidence_refs", VList (VStr <$> toy_refs))]) <$> REQUIRED_COMPONENTS));
   ("host_security", VDict toy_host); ("network_policy", toy_network);
   ("measurements", VDict [("host_measurement_version", VInt 1); ("measurement_set_digest", VStr toy_digest); ("artifacts", VList toy_records)]);
   ("jit_canary_authorization", VDict toy_signed_canary); ("runner_lifecycle_proof_set", toy_proof_set)].
Definition toy_boundary : dict := Eval vm_compute in result_or [] (sign_runner_boundary toy_unsigned_boundary toy_canary_key).
Definition toy_digests : list (string * string) := (λ c, (c, toy_digest)) <$> REQUIRED_COMPONENTS.
Definition toy_decision : RunnerBoundaryDecision := {| rb_enabled := true; rb_status := "verified"; rb_blockers := [] |}.
Lemma toy_boundary_measured : verify_host_measurements toy_boundary = Ok
  ([("garm", toy_digest); ("incus", toy_digest); ("network-policy", toy_digest); ("runner-image", toy_digest);
    ("windows-account", toy_digest); ("wsl-distro", toy_digest)], []).
Proof. vm_compute. reflexivity. Qed.
Lemma toy_evaluated :
  evaluate_runner_boundary (VDict toy_boundary) (Some toy_digests) [] (Some (public_of toy_canary_key, toy_canary_pin)) = Ok toy_decision.
Proof. vm_compute. reflexivity. Qed.
(** The same document on a host where nothing was measured is blocked. *)
Lemma toy_unmeasured :
  rb_enabled <$> evaluate_runner_boundary (VDict toy_boundary) None [] (Some (public_of toy_canary_key, toy_canary_pin)) = Ok false.
Proof. vm_compute. reflexivity. Qed.

Lemma boundary_enabled_witness :
  rb_enabled toy_decision = true ∧ boundary_proven toy_boundary toy_digests (public_of toy_canary_key) toy_canary_pin.
Proof.
  split; [reflexivity|].
  exact (boundary_enabled toy_boundary toy_digests [] (public_of toy_canary_key) toy_canary_pin toy_decision toy_boundary_measured toy_evaluated eq_refl).
Defined.
