(* ===== verification/Bakeoff.v ===== *)
(** * Selection of the runner manager (bakeoff.py)

    The evaluator recomputes eligibility, scores and the winner from the evidence
    and refuses a document whose stored results differ. *)

From stdpp Require Import sorting.
From S2P Require Import Prelude Datetime PyValue PyText Json Registry CanaryBoundary.
#[local] Open Scope Z_scope.

Definition bake_fail {A} (msg : string) : result A := throw BakeoffError msg.
Definition bake_fail_if (b : bool) (msg : string) : result unit := check b BakeoffError msg.

Definition CANDIDATE_IDS : list string := ["fireactions"; "garm-incus"; "myoung34-docker-github-actions-runner"].
Definition UPSTREAMS : list (string * string) :=
  [("fireactions", "https://github.com/hostinger/fireactions"); ("garm-incus", "https://github.com/cloudbase/garm");
   ("myoung34-docker-github-actions-runner", "https://github.com/myoung34/docker-github-actions-runner")].
(** In sorted order. *)
Definition HARD_GATES : list string :=
  ["immutable-pin-provenance"; "jit-one-job-disposal"; "maintenance-security-threshold"; "no-host-container-socket"; "no-network-bypass";
   "target-authority-capability"; "terminal-reboot-cleanup"; "wsl-compatibility"].
Example gates_in_order : merge_sort String.le HARD_GATES = HARD_GATES.
Proof. vm_compute. reflexivity. Qed.
Definition SCOPED_WEIGHTS : list (string * Z) :=
  [("rootless", 30); ("personal-jit", 20); ("org-restricted-groups", 15); ("fit-4c-16gib", 15); ("observability", 10); ("reboot-recovery", 10)].
Definition CRITERION_STATUSES : list string := ["pass"; "fail"; "not_applicable"].

Record CandidateResult := { cd_id : string; cd_eligible : bool; cd_score : Z; cd_blockers : list string }.
Record BakeoffResult := { bo_result : string; bo_candidate : option string; bo_candidates : list CandidateResult }.

(** [astimezone] leaves the supported years by an exception. *)
Definition bake_time (value : pyval) (field : string) : result Z :=
  match value with
  | VStr s =>
      parsed ← rewrap (λ c, bool_decide (c = ValueError)) BakeoffError (field +:+ " must be an RFC3339 timestamp")
                 (fromisoformat (str_replace "Z" "+00:00" s));
      match parsed with
      | Naive _ => bake_fail (field +:+ " must include a timezone")
      | Aware _ t => dt_add t 0
      end
  | _ => bake_fail (field +:+ " must be an RFC3339 timestamp")
  end.
(** [except BakeoffError: return False] *)
Definition or_false (r : result bool) : result bool :=
  match r with Raise e => if bool_decide (exn_cls e = BakeoffError) then Ok false else Raise e | Ok b => Ok b end.

(** ** Waivers *)

Fixpoint has_text (needle s : string) : bool :=
  match strip_prefix needle s with
  | Some _ => true
  | None => match s with EmptyString => false | String _ s => has_text needle s end
  end.
(** No key at any depth has the word in it. *)
Fixpoint free_of_waivers (v : pyval) : bool :=
  match v with
  | VDict d => forallb (λ kv, negb (has_text "waiver" (lower_ascii kv.1)) && free_of_waivers kv.2) d
  | VList l => forallb free_of_waivers l
  | _ => true
  end.
Definition _reject_waivers (v : pyval) : result unit := bake_fail_if (negb (free_of_waivers v)) "waiver field forbidden".

(** ** Criteria *)

(** The statuses by criterion. *)
Definition Criteria := list (string * string).
Definition expected_class (identifier : string) : option string :=
  if bool_decide (identifier ∈ HARD_GATES) then Some "hard_gate"
  else if bool_decide (identifier ∈ SCOPED_WEIGHTS.*1) then Some "scoped_capability" else None.
Definition text_refs (v : pyval) : option (list string) := match v with VList l => mapM text_of l | _ => None end.

Definition read_criterion (known : list string) (criterion : pyval) : result (string * string) :=
  match criterion with
  | VDict c =>
      bake_fail_if (negb (same_set (dkeys c) ["id"; "class"; "status"; "evidence_refs"; "notes"])) "criterion v1 requires exact fields";;
      match dget "id" c with
      | VStr identifier =>
          bake_fail_if (bool_decide (identifier ∈ known)) "criterion ids must be unique strings";;
          bake_fail_if (negb (match expected_class identifier with Some k => py_eq (dget "class" c) (VStr k) | None => false end))
            "unexpected criterion or class";;
          valid ← py_in_set (dget "status" c) (text_set CRITERION_STATUSES);
          bake_fail_if (negb valid) "invalid criterion status";;
          match text_refs (dget "evidence_refs" c), dget "status" c with
          | Some refs, VStr status =>
              bake_fail_if (negb (forallb nonempty refs)) "invalid evidence refs";;
              bake_fail_if (bool_decide (status = "pass") && bool_decide (refs = [])) "pass without evidence";;
              Ok (identifier, status)
          | _, _ => bake_fail "invalid evidence refs"
          end
      | _ => bake_fail "criterion ids must be unique strings"
      end
  | _ => bake_fail "criterion v1 requires exact fields"
  end.
Fixpoint read_criteria (known : Criteria) (raw : list pyval) : result Criteria :=
  match raw with
  | [] => Ok known
  | criterion :: raw => one ← read_criterion known.*1 criterion; read_criteria (known ++ [one]) raw
  end.
Definition _criterion_map (raw : pyval) : result Criteria :=
  match raw with
  | VList raw =>
      criteria ← read_criteria [] raw;
      bake_fail_if (negb (same_set criteria.*1 (HARD_GATES ++ SCOPED_WEIGHTS.*1))) "criteria set mismatch";;
      Ok criteria
  | _ => bake_fail "criteria must be a list"
  end.
Definition passes (criteria : Criteria) (identifier : string) : bool :=
  existsb (λ kv, bool_decide (kv = (identifier, "pass"))) criteria.

(** ** The proofs behind two of the gates, and the risk decision *)

Definition has_digest (v : pyval) : bool := is_str_where is_named_digest v.
Definition _artifact_valid (value : pyval) : bool :=
  match value with
  | VDict a =>
      same_set (dkeys a) ["version"; "tag"; "image_digest"; "evidence_digest"; "signature_verified"; "sbom_ref"; "provenance_ref"]
      && forallb (λ f, is_nonempty_str (dget f a)) ["version"; "tag"; "sbom_ref"; "provenance_ref"]
      && has_digest (dget "image_digest" a) && has_digest (dget "evidence_digest" a) && is_true (dget "signature_verified" a)
  | _ => false
  end.

Definition MAINTENANCE_FIELDS : list string :=
  ["archived"; "selected_version_supported"; "last_release_or_maintenance_at"; "unmitigated_critical"; "oldest_unmitigated_high_at";
   "upstream_fixed_pin_available"].
Definition _maintenance_security_valid (value : pyval) (evaluated_at : Z) : result bool :=
  match value with
  | VDict m =>
      if negb (same_set (dkeys m) MAINTENANCE_FIELDS) then Ok false
      else
        match bake_time (dget "last_release_or_maintenance_at" m) "last_release_or_maintenance_at" with
        | Raise e => or_false (Raise e)
        | Ok activity =>
            if negb (is_false (dget "archived" m)) || negb (is_true (dget "selected_version_supported" m)) then Ok false
            else
              oldest ← dt_add evaluated_at (- days 365);
              if activity <? oldest then Ok false
              else if negb (is_false (dget "unmitigated_critical" m)) then Ok false
              else
                match dget "oldest_unmitigated_high_at" m with
                | VNone => Ok true
                | high =>
                    match bake_time high "oldest_unmitigated_high_at" with
                    | Raise e => or_false (Raise e)
                    | Ok high_at =>
                        grace ← dt_add evaluated_at (- days 30);
                        Ok (negb ((high_at <? grace) && negb (is_true (dget "upstream_fixed_pin_available" m))))
                    end
                end
        end
  | _ => Ok false
  end.

Definition RISK_FIELDS : list string := ["decision_id"; "approver"; "candidate_id"; "repositories"; "mitigations"; "expires_at"; "revoked"].
Definition is_one_repository (v : pyval) : bool := is_str_where (λ s, negb (lacks "/" s) && lacks "*" s) v.
Definition _rootful_accepted (decision : pyval) (candidate_id target_repository required_approver : string) (evaluated_at : Z) : result bool :=
  match decision with
  | VDict r =>
      if negb (same_set (dkeys r) RISK_FIELDS) then Ok false
      else
        match bake_time (dget "expires_at" r) "rootful expires_at" with
        | Raise e => or_false (Raise e)
        | Ok expires_at =>
            Ok (py_eq (dget "decision_id" r) (VStr "rootful-runner-risk-v1") && py_eq (dget "approver" r) (VStr required_approver)
                && py_eq (dget "candidate_id" r) (VStr candidate_id)
                && match dget "repositories" r with
                   | VList repositories => existsb (py_eq (VStr target_repository)) repositories && forallb is_one_repository repositories
                   | _ => false
                   end
                && match dget "mitigations" r with
                   | VList mitigations => negb (bool_decide (mitigations = [])) && forallb is_nonempty_str mitigations
                   | _ => false
                   end
                && (evaluated_at <? expires_at) && is_false (dget "revoked" r))
        end
  | _ => Ok false
  end.

(** ** Candidates *)

Definition CANDIDATE_FIELDS : list string :=
  ["candidate_id"; "upstream"; "selected_artifact"; "rootful"; "rootful_risk_decision"; "maintenance_security"; "criteria"; "eligible";
   "scoped_score"].
Definition scoped_score (criteria : Criteria) : Z :=
  foldr (λ kw n, (if passes criteria kw.1 then kw.2 else 0) + n) 0 SCOPED_WEIGHTS.
Inductive Rootful := RootfulYes | RootfulNo | RootfulUnknown.
Definition read_rootful (v : pyval) : result Rootful :=
  match v with
  | VBool true => Ok RootfulYes | VBool false => Ok RootfulNo | VNone => Ok RootfulUnknown
  | _ => bake_fail "rootful must be true, false, or null"
  end.
Definition rootful_blockers (rootful : Rootful) (accepted rootless undecided : bool) : list string :=
  match rootful with
  | RootfulYes => block_if (negb accepted) "rootful-risk-decision-invalid" ++ block_if rootless "rootful-cannot-claim-rootless"
  | RootfulUnknown => ["rootful-mode-unresolved"] ++ block_if (negb undecided) "unexpected-rootful-risk-decision"
  | RootfulNo => block_if (negb undecided) "unexpected-rootful-risk-decision"
  end.

Section candidates.
Context (target_repository required_approver : string) (evaluated_at : Z).

(** A candidate of a known identifier. *)
Definition judge_candidate (id : string) (c : dict) : result CandidateResult :=
  bake_fail_if (negb (existsb (λ kv, bool_decide (kv.1 = id) && py_eq (dget "upstream" c) (VStr kv.2)) UPSTREAMS)) "unexpected upstream";;
  criteria ← _criterion_map (dget "criteria" c);
  let gates := List.filter (λ g, negb (passes criteria g)) HARD_GATES in
  maintained ← (if passes criteria "maintenance-security-threshold"
                then _maintenance_security_valid (dget "maintenance_security" c) evaluated_at else Ok true);
  rootful ← read_rootful (dget "rootful" c);
  accepted ← match rootful with
             | RootfulYes => _rootful_accepted (dget "rootful_risk_decision" c) id target_repository required_approver evaluated_at
             | _ => Ok false
             end;
  let blockers :=
    gates
    ++ block_if (passes criteria "immutable-pin-provenance" && negb (_artifact_valid (dget "selected_artifact" c))) "immutable-artifact-proof-invalid"
    ++ block_if (negb maintained) "maintenance-security-threshold-invalid"
    ++ rootful_blockers rootful accepted (passes criteria "rootless") (is_none (dget "rootful_risk_decision" c)) in
  let score := scoped_score criteria in
  let eligible := bool_decide (blockers = []) in
  match dget "eligible" c, dget "scoped_score" c with
  | VBool stored, VInt stored_score =>
      bake_fail_if (negb (Bool.eqb stored eligible) || negb (stored_score =? score)) "stored result mismatch";;
      Ok {| cd_id := id; cd_eligible := eligible; cd_score := score; cd_blockers := blockers |}
  | VBool _, _ => bake_fail "scoped_score must be an integer"
  | _, _ => bake_fail "eligible must be boolean"
  end.
Definition evaluate_candidate (seen : list string) (candidate : pyval) : result CandidateResult :=
  match candidate with
  | VDict c =>
      bake_fail_if (negb (same_set (dkeys c) CANDIDATE_FIELDS)) "candidate schema v1 requires exact fields";;
      match dget "candidate_id" c with
      | VStr id =>
          bake_fail_if (negb (bool_decide (id ∈ CANDIDATE_IDS)) || bool_decide (id ∈ seen)) "candidate ids must be the three stable ids";;
          judge_candidate id c
      | _ => bake_fail "candidate id must be a string"
      end
  | _ => bake_fail "candidate schema v1 requires exact fields"
  end.
Fixpoint evaluate_candidates (seen : list string) (candidates : list pyval) : result (list CandidateResult) :=
  match candidates with
  | [] => Ok []
  | candidate :: candidates =>
      r ← evaluate_candidate seen candidate;
      rs ← evaluate_candidates (cd_id r :: seen) candidates;
      Ok (r :: rs)
  end.
End candidates.

(** ** Selection *)

(** [(-score, id)] does not come after. *)
Definition ahead (a b : CandidateResult) : bool :=
  (cd_score b <? cd_score a) || (cd_score a =? cd_score b) && bool_decide (String.le (cd_id a) (cd_id b)).
(** [min] keeps the first of equals. *)
Definition better (best : option CandidateResult) (r : CandidateResult) : option CandidateResult :=
  match best with Some b => if ahead b r then best else Some r | None => Some r end.
Definition winner (results : list CandidateResult) : option CandidateResult := foldl better None (List.filter cd_eligible results).

Definition signoff_valid (signoff : pyval) (evaluated_at : Z) : result bool :=
  match signoff with
  | VDict s =>
      if same_set (dkeys s) ["verifier"; "signed_at"; "evidence_digest"] && is_nonempty_str (dget "verifier" s)
         && has_digest (dget "evidence_digest" s)
      then signed_at ← bake_time (dget "signed_at" s) "signed_at"; Ok (signed_at <=? evaluated_at)
      else Ok false
  | _ => Ok false
  end.
Definition select (results : list CandidateResult) (selection : pyval) (evaluated_at : Z) : result BakeoffResult :=
  match selection with
  | VDict s =>
      bake_fail_if (negb (same_set (dkeys s) ["result"; "candidate_id"; "reason"; "independent_verifier_signoff"]))
        "selection schema v1 requires exact fields";;
      valid ← signoff_valid (dget "independent_verifier_signoff" s) evaluated_at;
      let selected := if (valid : bool) then cd_id <$> winner results else None in
      let outcome := match selected with Some _ => "selected" | None => "none-pass" end in
      bake_fail_if (negb (py_eq (dget "result" s) (VStr outcome))
                    || negb (py_eq (dget "candidate_id" s) (match selected with Some id => VStr id | None => VNone end)))
        "stored selection does not match deterministic result";;
      Ok {| bo_result := outcome; bo_candidate := selected; bo_candidates := results |}
  | _ => bake_fail "selection schema v1 requires exact fields"
  end.

Definition count_char (c : ascii) (s : string) : nat := length (List.filter (Ascii.eqb c) (String.list_ascii_of_string s)).
Definition DOCUMENT_FIELDS : list string :=
  ["runner_bakeoff_schema_version"; "selection_policy_version"; "evaluated_at"; "candidates"; "selection"].
Definition evaluate_bakeoff (document target_repository required_approver : pyval) : result BakeoffResult :=
  match document with
  | VDict d =>
      match target_repository, required_approver with
      | VStr target, VStr approver =>
          bake_fail_if (negb (count_char "/" target =? 1)%nat || negb (lacks "*" target)) "target_repository must be one exact owner/repo";;
          bake_fail_if (blank approver) "required_approver must be configured explicitly";;
          _reject_waivers document;;
          bake_fail_if (negb (same_set (dkeys d) DOCUMENT_FIELDS)) "bake-off schema v1 requires exact top-level fields";;
          bake_fail_if (negb (py_eq (dget "runner_bakeoff_schema_version" d) (VInt 1))
                        || negb (py_eq (dget "selection_policy_version" d) (VInt 1))) "unsupported bake-off schema or policy version";;
          evaluated_at ← bake_time (dget "evaluated_at" d) "evaluated_at";
          match dget "candidates" d with
          | VList candidates =>
              bake_fail_if (negb (length candidates =? length CANDIDATE_IDS)%nat) "all three candidates are required exactly once";;
              results ← evaluate_candidates target approver evaluated_at [] candidates;
              select results (dget "selection" d) evaluated_at
          | _ => bake_fail "all three candidates are required exactly once"
          end
      | VStr _, _ => bake_fail "required_approver must be configured explicitly"
      | _, _ => bake_fail "target_repository must be one exact owner/repo"
      end
  | _ => bake_fail "bake-off evidence must be an object"
  end.

(** ** The winner does not depend on the order *)

Lemma ahead_refl a : ahead a a = true.
Proof. unfold ahead. rewrite Z.eqb_refl, bool_decide_eq_true_2; [by rewrite orb_true_r|done]. Qed.
Lemma ahead_total a b : ahead a b = false → ahead b a = true.
Proof.
  unfold ahead. intros H. apply orb_false_iff in H as [Hs Hid]. apply orb_true_iff. destruct (cd_score a =? cd_score b) eqn:E.
  - right. apply andb_true_iff. split; [lia|]. cbn in Hid. apply bool_decide_eq_false in Hid. apply bool_decide_eq_true.
    by destruct (total String.le (cd_id a) (cd_id b)).
  - left. lia.
Qed.
Lemma ahead_trans a b c : ahead a b = true → ahead b c = true → ahead a c = true.
Proof.
  unfold ahead. rewrite !orb_true_iff, !andb_true_iff, !bool_decide_eq_true. intros [H1|[H1 L1]] [H2|[H2 L2]]; try (left; lia).
  right. split; [lia|]. by etrans.
Qed.
Lemma ahead_antisym a b : ahead a b = true → ahead b a = true → cd_id a = cd_id b.
Proof.
  unfold ahead. rewrite !orb_true_iff, !andb_true_iff, !bool_decide_eq_true. intros [H1|[H1 L1]] [H2|[H2 L2]]; try lia.
  by apply (anti_symm String.le).
Qed.

(** A member ahead of all the others. *)
Definition best_of (l : list CandidateResult) (w : CandidateResult) : Prop := w ∈ l ∧ Forall (λ r, ahead w r = true) l.
Lemma better_best seen best l : best_of seen best → ∃ w, foldl better (Some best) l = Some w ∧ best_of (seen ++ l) w.
Proof.
  revert seen best. induction l as [|r l IH]; intros seen best [Hin Hb]; cbn [foldl]; [exists best; by rewrite app_nil_r|].
  cbn [better]. replace (seen ++ r :: l) with ((seen ++ [r]) ++ l) by by rewrite <- app_assoc. destruct (ahead best r) eqn:E; apply IH.
  - split; [set_solver|]. apply Forall_app. split; [done|by constructor].
  - split; [set_solver|]. apply Forall_app. split; [|constructor; [apply ahead_refl|constructor]].
    eapply Forall_impl; [exact Hb|]. intros x Hx. eapply ahead_trans; [by apply ahead_total|exact Hx].
Qed.
Lemma winner_best results :
  match winner results with
  | Some w => best_of (List.filter cd_eligible results) w
  | None => List.filter cd_eligible results = []
  end.
Proof.
  unfold winner. destruct (List.filter cd_eligible results) as [|r l] eqn:E; [done|]. cbn [foldl better].
  destruct (better_best [r] r l) as (w & -> & Hw); [split; [left|constructor; [apply ahead_refl|constructor]]|]. exact Hw.
Qed.
Lemma filter_perm (l l' : list CandidateResult) : l ≡ₚ l' → List.filter cd_eligible l ≡ₚ List.filter cd_eligible l'.
Proof. induction 1; cbn; repeat case_match; eauto using Permutation, Permutation_refl, perm_trans. Qed.
Lemma winner_perm results results' : results ≡ₚ results' → cd_id <$> winner results = cd_id <$> winner results'.
Proof.
  intros Hp%filter_perm. pose proof (winner_best results) as H. pose proof (winner_best results') as H'.
  destruct (winner results) as [w|], (winner results') as [w'|]; cbn; [|..|done].
  - f_equal. destruct H as [Hin Hall], H' as [Hin' Hall']. rewrite Hp in Hin. rewrite <- Hp in Hin'.
    apply ahead_antisym; [by eapply Forall_forall in Hall|by eapply Forall_forall in Hall'].
  - exfalso. destruct H as [Hin _]. rewrite Hp, H' in Hin. by apply elem_of_nil in Hin.
  - exfalso. destruct H' as [Hin _]. rewrite <- Hp, H in Hin. by apply elem_of_nil in Hin.
Qed.

(** ** Candidates, one at a time *)

Section judged.
Context (target approver : string) (at_ : Z).

(** What makes a candidate eligible. *)
Record candidate_proven (id : string) (c : dict) (criteria : Criteria) : Prop := {
  cp_upstream : ∃ url, (id, url) ∈ UPSTREAMS ∧ dget "upstream" c = VStr url;
  cp_gates : Forall (λ g, passes criteria g = true) HARD_GATES;
  cp_artifact : _artifact_valid (dget "selected_artifact" c) = true;
  cp_maintained : _maintenance_security_valid (dget "maintenance_security" c) at_ = Ok true;
  cp_rootful : dget "rootful" c = VBool false ∧ dget "rootful_risk_decision" c = VNone ∨
    dget "rootful" c = VBool true ∧ passes criteria "rootless" = false ∧
    _rootful_accepted (dget "rootful_risk_decision" c) id target approver at_ = Ok true;
}.
Definition judged (candidate : pyval) (r : CandidateResult) : Prop := ∃ c criteria,
  candidate = VDict c ∧ dget "candidate_id" c = VStr (cd_id r) ∧ cd_id r ∈ CANDIDATE_IDS ∧ _criterion_map (dget "criteria" c) = Ok criteria ∧
  cd_score r = scoped_score criteria ∧ 0 ≤ cd_score r ≤ 100 ∧
  dget "eligible" c = VBool (cd_eligible r) ∧ dget "scoped_score" c = VInt (cd_score r) ∧
  (cd_eligible r = true ↔ cd_blockers r = []) ∧ (cd_eligible r = true → candidate_proven (cd_id r) c criteria).

Lemma score_range criteria : 0 ≤ scoped_score criteria ≤ 100.
Proof. unfold scoped_score. cbn. repeat case_match; lia. Qed.
Lemma gates_pass criteria : List.filter (λ g, negb (passes criteria g)) HARD_GATES = [] → Forall (λ g, passes criteria g = true) HARD_GATES.
Proof.
  generalize HARD_GATES as gates. induction gates as [|g gates IH]; cbn; [constructor|]. destruct (passes criteria g) eqn:E; cbn; [|done].
  intros ?. constructor; auto.
Qed.
Lemma read_rootful_ok v rootful : read_rootful v = Ok rootful →
  match rootful with RootfulYes => v = VBool true | RootfulNo => v = VBool false | RootfulUnknown => v = VNone end.
Proof. unfold read_rootful. destruct v as [|[]| | | |]; try done; by intros [= <-]. Qed.

Lemma judge_ok id c r :
  judge_candidate target approver at_ id c = Ok r → ∃ criteria, cd_id r = id ∧ _criterion_map (dget "criteria" c) = Ok criteria ∧
    cd_score r = scoped_score criteria ∧ dget "eligible" c = VBool (cd_eligible r) ∧ dget "scoped_score" c = VInt (cd_score r) ∧
    (cd_eligible r = true ↔ cd_blockers r = []) ∧ (cd_eligible r = true → candidate_proven id c criteria).
Proof.
  unfold judge_candidate. intros (? & Hup%check_ok%negb_false_iff & (criteria & Hc & (maintained & Hm & (rootful & Hr & (accepted & Ha & H)%result_bind_ok)%result_bind_ok)%result_bind_ok)%result_bind_ok)%result_bind_ok.
  set (blockers := _ ++ _ ++ _ ++ _) in H. destruct (dget "eligible" c) as [|stored| | | |] eqn:Ee; try done.
  destruct (dget "scoped_score" c) as [| |score| | |] eqn:Es; try done. apply result_bind_ok in H as (? & Hst%check_ok & [= <-]).
  apply orb_false_iff in Hst as [Hst%negb_false_iff Hsc%negb_false_iff]. apply Z.eqb_eq in Hsc. apply eqb_prop in Hst. subst stored score.
  exists criteria. cbn [cd_id cd_score cd_eligible cd_blockers]. split_and!; try done; [apply bool_decide_eq_true|].
  intros Hb%bool_decide_eq_true. unfold blockers in Hb. rewrite !app_nil_iff, !block_if_nil in Hb. destruct Hb as (Hg%gates_pass & Hart & Hmt & Hro).
  assert (passes criteria "immutable-pin-provenance" = true ∧ passes criteria "maintenance-security-threshold" = true) as [H1 H2].
  { split; eapply (Forall_forall (λ g, passes criteria g = true)); try exact Hg; unfold HARD_GATES; set_solver. }
  rewrite H1 in Hart. rewrite H2 in Hm. cbn in Hart. apply negb_false_iff in Hart, Hmt. subst maintained. apply read_rootful_ok in Hr. constructor.
  - apply existsb_exists in Hup as ([i url] & Hin & [Hi%bool_decide_eq_true Hu%py_eq_str]%andb_true_iff). cbn in *. subst i.
    exists url. split; [by apply list_elem_of_In|done].
  - done.
  - done.
  - done.
  - destruct rootful; cbn in Hro; [right|left|done].
    + apply app_nil_iff in Hro as [Hac%negb_block_nil Hrl%block_if_nil]. subst accepted. by split_and!.
    + apply negb_block_nil in Hro. split; [done|]. by destruct (dget "rootful_risk_decision" c).
Qed.

Lemma evaluate_seen seen v r :
  evaluate_candidate target approver at_ seen v = Ok r ↔ evaluate_candidate target approver at_ [] v = Ok r ∧ cd_id r ∉ seen.
Proof.
  unfold evaluate_candidate. destruct v as [| | | | |c]; try (split; [done|by intros [? _]]).
  destruct (bake_fail_if (negb (same_set _ _)) _) as [[]|e]; cbn [mbind result_bind]; [|split; [done|by intros [? _]]].
  destruct (dget "candidate_id" c) as [| | |id| |]; try (split; [done|by intros [? _]]).
  unfold bake_fail_if, check. rewrite (bool_decide_eq_false_2 (id ∈ [])) by apply not_elem_of_nil.
  destruct (bool_decide (id ∈ CANDIDATE_IDS)); cbn [negb orb throw mbind result_bind]; [|split; [done|by intros [? _]]].
  destruct (decide (id ∈ seen)) as [Hs|Hs].
  - rewrite bool_decide_eq_true_2 by done. cbn. split; [done|]. intros [(criteria & <- & _)%judge_ok Hno]. done.
  - rewrite bool_decide_eq_false_2 by done. cbn. split; [|by intros [? _]]. intros H. split; [done|].
    by apply judge_ok in H as (criteria & -> & _).
Qed.
Lemma evaluate_judged v r : evaluate_candidate target approver at_ [] v = Ok r → judged v r.
Proof.
  unfold evaluate_candidate. destruct v as [| | | | |c]; try done. intros (? & _ & H)%result_bind_ok.
  destruct (dget "candidate_id" c) as [| | |id| |] eqn:Ei; try done.
  apply result_bind_ok in H as (? & [Hin%negb_false_iff%bool_decide_eq_true _]%check_ok%orb_false_iff & Hj).
  destruct (judge_ok _ _ _ Hj) as (criteria & Hid & Hc & Hs & He & Hsc & Hb & Hp). subst id. exists c, criteria.
  split_and!; try done; rewrite Hs; apply score_range.
Qed.

(** The candidates are judged apart; only their identifiers are compared. *)
Lemma evaluate_candidates_iff seen l rs :
  evaluate_candidates target approver at_ seen l = Ok rs ↔
  Forall2 (λ v r, evaluate_candidate target approver at_ [] v = Ok r) l rs ∧ NoDup (cd_id <$> rs) ∧ Forall (λ r, cd_id r ∉ seen) rs.
Proof.
  revert seen rs. induction l as [|v l IH]; intros seen rs; cbn [evaluate_candidates].
  - split; [intros [= <-]; split_and!; constructor|intros (H & _); by inversion H].
  - split.
    + intros (r & [Hr Hs]%evaluate_seen & (rs' & (Hall & Hnd & Hn)%IH & [= <-])%result_bind_ok)%result_bind_ok.
      split_and!; [by constructor|cbn; constructor; [|done]|constructor; [done|]].
      * intros (r' & Heq & Hin)%list_elem_of_fmap. eapply Forall_forall in Hn; [|exact Hin]. set_solver.
      * eapply Forall_impl; [exact Hn|]. intros r' Hr'. set_solver.
    + intros (Hall & Hnd & Hn). inversion Hall as [|? r ? rs' Hr Hall']; subst. cbn in Hnd. apply NoDup_cons in Hnd as [Hno Hnd].
      apply Forall_cons in Hn as [Hs Hn]. rewrite (proj2 (evaluate_seen seen v r)) by done. cbn [mbind result_bind].
      rewrite (proj2 (IH (cd_id r :: seen) rs')); [done|]. split_and!; [done|done|]. apply Forall_forall. intros r' Hin.
      apply not_elem_of_cons. split; [|by eapply Forall_forall in Hn]. intros Heq. apply Hno. rewrite <- Heq. by apply list_elem_of_fmap_2.
Qed.
Lemma evaluate_candidates_perm l l' rs :
  l ≡ₚ l' → evaluate_candidates target approver at_ [] l = Ok rs →
  ∃ rs', evaluate_candidates target approver at_ [] l' = Ok rs' ∧ rs ≡ₚ rs'.
Proof.
  intros Hp (Hall & Hnd & Hn)%evaluate_candidates_iff. destruct (Permutation_Forall2 Hp Hall) as (rs' & Hp' & Hall').
  exists rs'. split; [|done]. apply evaluate_candidates_iff. split_and!; [done| |apply Forall_forall; intros r _; apply not_elem_of_nil].
  assert (cd_id <$> rs ≡ₚ cd_id <$> rs') as Hids by by apply fmap_Permutation. by apply (NoDup_Permutation_proper _ _ Hids).
Qed.
End judged.

(** ** The selection *)

(** The same document with its candidates in another order. *)
Definition with_candidates (candidates : list pyval) (d : dict) : dict :=
  List.map (λ kv, (kv.1, if bool_decide (kv.1 = "candidates") then VList candidates else kv.2)) d.
Lemma keys_with_candidates candidates d : dkeys (with_candidates candidates d) = dkeys d.
Proof. unfold dkeys, with_candidates. induction d as [|kv d IH]; [done|]. cbn. by f_equal. Qed.
Lemma dlookup_with_candidates k candidates d :
  dlookup k (with_candidates candidates d) = (λ v, if bool_decide (k = "candidates") then VList candidates else v) <$> dlookup k d.
Proof. induction d as [|[k' v] d IH]; [done|]. cbn. destruct (decide (k = k')) as [->|]; [done|exact IH]. Qed.
Lemma dget_with_other k candidates d : k ≠ "candidates" → dget k (with_candidates candidates d) = dget k d.
Proof. intros Hk. unfold dget. rewrite dlookup_with_candidates, bool_decide_eq_false_2 by done. by destruct (dlookup k d). Qed.
Lemma dget_with_candidates candidates d l :
  dget "candidates" d = VList l → dget "candidates" (with_candidates candidates d) = VList candidates.
Proof. unfold dget. rewrite dlookup_with_candidates. by destruct (dlookup "candidates" d). Qed.
Lemma waivers_with_candidates candidates l d :
  dget "candidates" d = VList l → candidates ≡ₚ l → free_of_waivers (VDict d) = true → free_of_waivers (VDict (with_candidates candidates d)) = true.
Proof.
  intros Hd Hp Hw. assert (free_of_waivers (VList candidates) = true) as Hc.
  { assert (free_of_waivers (VList l) = true) as Hl.
    { revert Hd Hw. unfold dget. cbn [free_of_waivers]. induction d as [|[k v] d IH]; cbn; [done|].
      intros Hd [[_ Hv]%andb_true_iff Hw]%andb_true_iff. destruct (decide ("candidates" = k)); [cbn in Hd; by subst v|auto]. }
    cbn in *. rewrite forallb_forall in *. intros x Hx. apply Hl. apply list_elem_of_In. rewrite <- Hp. by apply list_elem_of_In. }
  cbn [free_of_waivers] in *. unfold with_candidates. clear Hd Hp. induction d as [|[k v] d IH]; [done|]. cbn in *.
  apply andb_true_iff in Hw as [[Hk Hv]%andb_true_iff Hw]. rewrite Hk, (IH Hw). destruct (bool_decide (k = "candidates")); cbn; [by rewrite Hc|by rewrite Hv].
Qed.

Lemma select_ok results selection at_ r : select results selection at_ = Ok r →
  bo_candidates r = results ∧ bo_result r = match bo_candidate r with Some _ => "selected" | None => "none-pass" end ∧
  (bo_candidate r = cd_id <$> winner results ∨ bo_candidate r = None) ∧
  ∀ results', results ≡ₚ results' → ∃ r', select results' selection at_ = Ok r' ∧ bo_candidate r' = bo_candidate r ∧ bo_candidates r' = results'.
Proof.
  unfold select. destruct selection as [| | | | |s]; try done. intros (u & -> & (valid & -> & H)%result_bind_ok)%result_bind_ok.
  cbn [mbind result_bind]. apply result_bind_ok in H as (? & Hst & [= <-]). cbn [bo_candidates bo_result bo_candidate]. split_and!; [done|done|by destruct valid; [left|right]|].
  intros results' Hp. rewrite <- (winner_perm _ _ Hp), Hst. cbn [mbind result_bind]. by eexists.
Qed.

(** C38: the result of an accepted bake-off is recomputed, not believed: its three
    candidates are the known ones, each with the score of its passed criteria and
    eligible only with every hard gate passed, valid artifact and maintenance
    proofs and an accepted risk if it runs as root; a selected candidate is
    eligible and ahead of every eligible one, by score and then by name; and the
    order in which the candidates are listed changes nothing. *)
Theorem bakeoff_selects d target approver r :
  evaluate_bakeoff (VDict d) (VStr target) (VStr approver) = Ok r →
  ∃ candidates at_, dget "candidates" d = VList candidates ∧ bake_time (dget "evaluated_at" d) "evaluated_at" = Ok at_ ∧
    cd_id <$> bo_candidates r ≡ₚ CANDIDATE_IDS ∧ Forall2 (judged target approver at_) candidates (bo_candidates r) ∧
    match bo_candidate r with
    | None => bo_result r = "none-pass"
    | Some id => bo_result r = "selected" ∧ ∃ w, cd_id w = id ∧ best_of (List.filter cd_eligible (bo_candidates r)) w
    end ∧
    ∀ candidates', candidates' ≡ₚ candidates → ∃ r',
      evaluate_bakeoff (VDict (with_candidates candidates' d)) (VStr target) (VStr approver) = Ok r' ∧
      bo_candidate r' = bo_candidate r ∧ bo_candidates r' ≡ₚ bo_candidates r.
Proof.
  unfold evaluate_bakeoff. intros (? & Ht & (? & Hap & (? & Hw & (? & Hf & (? & Hv & (at_ & Hat & H)%result_bind_ok)%result_bind_ok)%result_bind_ok)%result_bind_ok)%result_bind_ok)%result_bind_ok.
  destruct (dget "candidates" d) as [| | | |candidates|] eqn:Ec; try done.
  apply result_bind_ok in H as (? & Hlen & (results & Hres & Hsel)%result_bind_ok).
  destruct (select_ok _ _ _ _ Hsel) as (Hbc & Hbr & Hbw & Hperm). destruct (proj1 (evaluate_candidates_iff _ _ _ _ _ _) Hres) as (Hall & Hnd & _).
  exists candidates, at_. assert (Forall2 (judged target approver at_) candidates results) as Hj by (eapply Forall2_impl; [exact Hall|apply evaluate_judged]).
  assert (length results = length CANDIDATE_IDS) as Hl.
  { rewrite <- (Forall2_length _ _ _ Hj). by apply check_ok, negb_false_iff, Nat.eqb_eq in Hlen. }
  split_and!; [done|done| |by rewrite Hbc| |].
  - rewrite Hbc. apply submseteq_length_Permutation; [apply NoDup_submseteq; [done|]|by rewrite length_fmap, Hl].
    intros id (c0 & -> & Hx)%list_elem_of_fmap. apply list_elem_of_lookup in Hx as (i & Hx).
    destruct (Forall2_lookup_r _ _ _ _ _ Hj Hx) as (v & _ & c & criteria & _ & _ & Hin & _). exact Hin.
  - destruct (bo_candidate r) as [id|]; [|done]. split; [done|]. destruct Hbw as [Hbw|Hbw]; [|done]. rewrite Hbc.
    pose proof (winner_best results) as Hbest. destruct (winner results) as [w|]; [|done]. injection Hbw as ->. by exists w.
  - intros candidates' Hp. destruct (evaluate_candidates_perm _ _ _ _ _ _ (symmetry Hp) Hres) as (results' & Hres' & Hpr).
    destruct (Hperm results' Hpr) as (r' & Hs' & Hc' & Hb'). exists r'. split; [|split; [done|rewrite Hb', Hbc; by symmetry]].
    unfold _reject_waivers, bake_fail_if in Hw. apply check_ok, negb_false_iff in Hw. 
    rewrite Ht, Hap. cbn [mbind result_bind]. unfold _reject_waivers. rewrite (waivers_with_candidates _ _ _ Ec Hp Hw).
    rewrite keys_with_candidates, Hf, (dget_with_candidates _ _ _ Ec), !dget_with_other by done. cbn [negb bake_fail_if check mbind result_bind]. rewrite Hv. cbn [mbind result_bind].
    rewrite Hat. cbn [mbind result_bind]. rewrite Hp, Hlen. cbn [mbind result_bind]. by rewrite Hres'.
Qed.

(** ** A bake-off won by GARM *)

Definition toy_hex (c : ascii) : string := String.string_of_list_ascii (replicate 64 c).
Definition toy_criterion (identifier status : string) : pyval :=
  VDict [("id", VStr identifier); ("class", VStr (default "" (expected_class identifier))); ("status", VStr status);
         ("evidence_refs", VList [VStr "evidence/log.json"]); ("notes", VStr "")].
Definition toy_candidate (id upstream : string) (passed : list string) (eligible : bool) (score : Z) : pyval :=
  VDict [("candidate_id", VStr id); ("upstream", VStr upstream);
         ("selected_artifact",
          VDict [("version", VStr "1.0"); ("tag", VStr "v1.0"); ("image_digest", VStr ("sha256:" +:+ toy_hex "a"));
                 ("evidence_digest", VStr ("sha256:" +:+ toy_hex "b")); ("signature_verified", VBool true); ("sbom_ref", VStr "sbom");
                 ("provenance_ref", VStr "provenance")]);
         ("rootful", VBool false); ("rootful_risk_decision", VNone);
         ("maintenance_security",
          VDict [("archived", VBool false); ("selected_version_supported", VBool true);
                 ("last_release_or_maintenance_at", VStr "2026-06-01T00:00:00Z"); ("unmitigated_critical", VBool false);
                 ("oldest_unmitigated_high_at", VNone); ("upstream_fixed_pin_available", VBool false)]);
         ("criteria", VList (List.map (λ c, toy_criterion c (if bool_decide (c ∈ passed) then "pass" else "fail")) (HARD_GATES ++ SCOPED_WEIGHTS.*1)));
         ("eligible", VBool eligible); ("scoped_score", VInt score)].
Definition toy_document : dict :=
  [("runner_bakeoff_schema_version", VInt 1); ("selection_policy_version", VInt 1); ("evaluated_at", VStr "2026-07-01T00:00:00Z");
   ("candidates",
    VList [toy_candidate "fireactions" "https://github.com/hostinger/fireactions" (HARD_GATES ++ ["observability"]) true 10;
           toy_candidate "garm-incus" "https://github.com/cloudbase/garm" (HARD_GATES ++ ["rootless"; "personal-jit"]) true 50;
           toy_candidate "myoung34-docker-github-actions-runner" "https://github.com/myoung34/docker-github-actions-runner" (SCOPED_WEIGHTS.*1)
             false 100]);
   ("selection",
    VDict [("result", VStr "selected"); ("candidate_id", VStr "garm-incus"); ("reason", VStr "score");
           ("independent_verifier_signoff",
            VDict [("verifier", VStr "ops"); ("signed_at", VStr "2026-06-30T00:00:00Z");
                   ("evidence_digest", VStr ("sha256:" +:+ toy_hex "c"))])])].
Example toy_selected :
  (λ r, (bo_result r, bo_candidate r, cd_score <$> bo_candidates r)) <$> evaluate_bakeoff (VDict toy_document) (VStr "o/r") (VStr "sec") =
  Ok ("selected", Some "garm-incus", [10; 50; 100]).
Proof. vm_compute. reflexivity. Qed.
Lemma bakeoff_selects_witness :
  ∃ r, evaluate_bakeoff (VDict toy_document) (VStr "o/r") (VStr "sec") = Ok r ∧
    ∀ candidates', (∃ candidates, dget "candidates" toy_document = VList candidates ∧ candidates' ≡ₚ candidates) → ∃ r',
      evaluate_bakeoff (VDict (with_candidates candidates' toy_document)) (VStr "o/r") (VStr "sec") = Ok r' ∧
      bo_candidate r' = Some "garm-incus".
Proof.
  destruct (evaluate_bakeoff (VDict toy_document) (VStr "o/r") (VStr "sec")) as [r|e] eqn:E; [|exfalso; revert E; vm_compute; discriminate].
  exists r. split; [reflexivity|]. intros candidates' (l & Hl & Hp).
  destruct (bakeoff_selects _ _ _ _ E) as (l' & at_ & Hl' & _ & _ & _ & _ & Hany). rewrite Hl in Hl'. injection Hl' as <-.
  destruct (Hany candidates' Hp) as (r' & H1 & H2 & _). exists r'. split; [exact H1|]. rewrite H2.
  revert E. vm_compute. intros [= <-]. reflexivity.
Defined.
