(* ===== verification/GitHubAdapter.v ===== *)
(** * The two GitHub authorities of the control plane (github_adapter.py)

    The workflow's own token dispatches and observes; the checks-only App mints
    an installation token and writes Check Runs with it.  Each credential has a
    type of its own.  Requests go through [HTTPTransport], which also signs and
    tells the time; the monotonic clock of the observation is a class here.  The
    delivery of check_delivery.py runs over the Check Run transport. *)

From stdpp Require Import gmap.
From S2P Require Import Prelude Datetime PyValue PyText Json Protocol GitHubHttp CheckDelivery.
#[local] Open Scope Z_scope.

Definition GITHUB_API : string := "https://api.github.com".
Definition ACTIONS_TOKEN_PERMISSIONS : gmap string string := {["actions" := "write"]}.
Definition INSTALLATION_TOKEN_MAX_TTL : Z := hours 1.
Definition INSTALLATION_TOKEN_CLOCK_SKEW : Z := minutes 2.
Definition INSTALLATION_TOKEN_SAFETY_MARGIN : Z := seconds 30.

(** [except GitHubAdapterError], which [GitHubHTTPError] is. *)
Definition is_adapter_error (c : exn_class) : bool := bool_decide (c ∈ [GitHubAdapterError; GitHubHTTPError]).
Definition http_error {A} (status : Z) : result A := throw GitHubHTTPError ("GitHub API request failed: HTTP " +:+ str_of_Z status).

(** ** Credentials *)

(** [not value or any(character.isspace() ...)] *)
Definition is_malformed (value : string) : bool := negb (nonempty value) || existsb py_is_space (code_points value).

Record GitHubActionsToken := {
  at_value : string; at_repository : string; at_workflow_identity : string; at_workflow_ref : string; at_permissions : gmap string string;
}.
Definition actions_token (t : GitHubActionsToken) : result GitHubActionsToken :=
  control_if (is_malformed (at_value t)) "GITHUB_TOKEN is empty or malformed";;
  control_if (negb (bool_decide (at_permissions t = ACTIONS_TOKEN_PERMISSIONS))) "GITHUB_TOKEN permissions must be exactly actions:write";;
  Ok t.

Record InstallationToken := {
  it_value : string; it_expires_at : datetime; it_repository : string; it_repository_id : Z; it_installation_id : Z;
  it_permissions : gmap string string;
}.
Definition is_aware (d : datetime) : bool := match d with Aware _ _ => true | Naive _ => false end.
Definition installation_token (t : InstallationToken) : result InstallationToken :=
  control_if (is_malformed (it_value t)) "installation token is empty or malformed";;
  control_if (negb (is_aware (it_expires_at t))) "installation token expiry must be timezone-aware";;
  control_if (negb (bool_decide (it_permissions t = MINIMUM_APP_PERMISSIONS))) "installation token permissions are not exactly checks-only";;
  control_if (it_repository_id t <? 1) "installation token repository_id must be positive";;
  control_if (it_installation_id t <? 1) "installation token installation_id must be positive";;
  Ok t.
(** [InstallationToken.assert_current] *)
Definition installation_current (t : InstallationToken) (authority : AppAuthorityV1) (now : datetime) : result unit :=
  control_if (negb (is_aware now)) "current time must be timezone-aware";;
  c ← dt_compare (it_expires_at t) now;
  control_if (negb (bool_decide (c = Gt)) || negb (bool_decide (it_repository t = au_repository authority))
              || negb (it_repository_id t =? au_repository_id authority)
              || negb (it_installation_id t =? au_installation_id authority)
              || negb (bool_decide (it_permissions t = au_permissions authority)) || negb (au_key_active authority))
    "installation token is expired or outside exact authority".

Definition _check_id (value : pyval) : result Z :=
  match value with
  | VInt n => control_if (n <? 1) "check_run_id must be a positive integer";; Ok n
  | _ => control_failure "check_run_id must be a positive integer"
  end.
Definition _exact_api_url (value : string) : result string :=
  control_if (negb (bool_decide (value = GITHUB_API))) "GitHub API URL must be exactly https://api.github.com";; Ok value.

(** ** Reading a response *)

Definition _json_mapping (raw : string) : result dict :=
  let ambiguous := "GitHub API response is not unambiguous JSON" in
  value ← loads_exact GitHubAdapterError ambiguous ambiguous raw;
  match value with VDict d => Ok d | _ => throw GitHubAdapterError "GitHub API response must be a JSON object" end.
Definition _expected_json (response : HTTPResponse) (status : Z) : result dict :=
  if http_status response =? status then _json_mapping (http_body response) else http_error (http_status response).
(** [_parse_timestamp] *)
Definition token_expiry (value : pyval) : result Z :=
  match value with
  | VStr s =>
      parsed ← rewrap (λ c, bool_decide (c = ValueError)) GitHubControlFailure "installation token expiry is invalid"
                 (fromisoformat (str_replace "Z" "+00:00" s));
      match parsed with Aware _ t => Ok t | Naive _ => control_failure "installation token expiry must be timezone-aware" end
  | _ => control_failure "installation token expiry is missing"
  end.
Definition api_headers (token : string) : dict :=
  [("Accept", VStr "application/vnd.github+json"); ("Authorization", VStr ("Bearer " +:+ token));
   ("X-GitHub-Api-Version", VStr PINNED_GITHUB_API_VERSION)].
Definition permissions_value (permissions : gmap string string) : pyval :=
  VDict ((λ kv, (kv.1, VStr kv.2)) <$> map_to_list permissions).

(** ** Minting *)

Section authenticator.
Context {G : Type} {T : HTTPTransport G} (authority : AppAuthorityV1).

Definition _b64json (value : dict) : string := b64url (json_dumps (VDict value)).
Definition _app_jwt (now : datetime) : M G string :=
  match now with
  | Naive _ => raise GitHubControlFailure "JWT clock must be timezone-aware"
  | Aware _ t =>
      let issued_at := unix_time t - 60 in
      let header := _b64json [("alg", VStr "RS256"); ("typ", VStr "JWT")] in
      let claims := _b64json [("exp", VInt (issued_at + 600)); ("iat", VInt issued_at); ("iss", VStr (str_of_Z (au_app_id authority)))] in
      let signing_input := header +:+ "." +:+ claims in
      raw ← rs256_sign signing_input;
      let signature := b64url raw in
      raise_if (negb (nonempty signature)) GitHubControlFailure "GitHub App JWT signature is empty";;
      mret (signing_input +:+ "." +:+ signature)
  end.

(** The owner is looked at only when the numbers agree. *)
Definition _validate_app (app : dict) : result unit :=
  let mismatch := "authenticated GitHub App authority mismatch" in
  control_if (negb (py_eq (dget "id" app) (VInt (au_app_id authority))) || negb (py_eq (dget "slug" app) (VStr (au_app_slug authority)))) mismatch;;
  match default (VDict []) (dlookup "owner" app) with
  | VDict owner =>
      control_if (negb (py_eq (dget "login" owner) (VStr (au_owner authority)))
                  || negb (py_eq (dget "permissions" app) (permissions_value MINIMUM_APP_PERMISSIONS))) mismatch
  | _ => throw AttributeError "object has no attribute 'get'"
  end.
Definition _validate_installation (installation : dict) : result unit :=
  control_if (negb (py_eq (dget "id" installation) (VInt (au_installation_id authority)))
              || negb (py_eq (dget "app_id" installation) (VInt (au_app_id authority)))
              || negb (py_eq (dget "repository_selection" installation) (VStr "selected"))
              || negb (py_eq (dget "permissions" installation) (permissions_value MINIMUM_APP_PERMISSIONS))
              || negb (is_none (dget "suspended_at" installation))) "GitHub App installation authority mismatch".
Definition is_own_repository (v : pyval) : bool :=
  match v with
  | VDict r => py_eq (dget "id" r) (VInt (au_repository_id authority)) && py_eq (dget "full_name" r) (VStr (au_repository authority))
  | _ => false
  end.

(** Only the instant of the expiry matters, so it is kept in UTC. *)
Definition parse_token (response : dict) (request : MintRequest) (now : Z) : result InstallationToken :=
  control_if (negb (py_eq (dget "permissions" response) (permissions_value MINIMUM_APP_PERMISSIONS)))
    "minted installation token permissions drifted";;
  match dget "repositories" response with
  | VList [repository] =>
      control_if (negb (is_own_repository repository)) "minted installation token repository scope mismatch";;
      server_expires_at ← token_expiry (dget "expires_at" response);
      match dget "token" response with
      | VStr value =>
          soonest ← dt_add now INSTALLATION_TOKEN_SAFETY_MARGIN;
          control_if (server_expires_at <=? soonest) "minted installation token value or TTL is invalid";;
          latest ← dt_add now (INSTALLATION_TOKEN_MAX_TTL + INSTALLATION_TOKEN_CLOCK_SKEW);
          control_if (latest <? server_expires_at) "minted installation token value or TTL is invalid";;
          requested ← dt_add now (seconds (mr_ttl_seconds request));
          let usable_expires_at := Z.min (server_expires_at - INSTALLATION_TOKEN_SAFETY_MARGIN) requested in
          control_if (usable_expires_at <=? now) "minted installation token has no safe usable lifetime";;
          installation_token {| it_value := value; it_expires_at := utc usable_expires_at; it_repository := au_repository authority;
                                it_repository_id := au_repository_id authority; it_installation_id := au_installation_id authority;
                                it_permissions := MINIMUM_APP_PERMISSIONS |}
      | _ => control_failure "minted installation token value or TTL is invalid"
      end
  | _ => control_failure "minted installation token repository scope is not exact"
  end.

Definition app_request (method path : string) (headers : dict) (body : option dict) (status : Z) : M G dict :=
  response ← http_request method (GITHUB_API +:+ path) headers body;
  lift (_expected_json response status).
Definition token_scope : dict :=
  [("repository_ids", VList [VInt (au_repository_id authority)]); ("permissions", permissions_value MINIMUM_APP_PERMISSIONS)].
(** [GitHubAppAuthenticator.mint] *)
Definition mint_token (identity : RuntimeIdentity) (request : MintRequest) : M G InstallationToken :=
  lift (mint authority identity request);;
  now ← http_clock;
  jwt ← _app_jwt now;
  app ← app_request "GET" "/app" (api_headers jwt) None 200;
  lift (_validate_app app);;
  installation ← app_request "GET" ("/repos/" +:+ au_repository authority +:+ "/installation") (api_headers jwt) None 200;
  lift (_validate_installation installation);;
  response ← app_request "POST" ("/app/installations/" +:+ str_of_Z (au_installation_id authority) +:+ "/access_tokens")
               (api_headers jwt) (Some token_scope) 201;
  token ← lift (parse_token response request (instant now));
  repository ← app_request "GET" ("/repos/" +:+ au_repository authority) (api_headers (it_value token)) None 200;
  raise_if (negb (is_own_repository (VDict repository))) GitHubControlFailure "installation token repository identity mismatch";;
  mret token.
End authenticator.

(** ** Dispatching with the workflow's token *)

Record ActionsTransport := { ac_token : GitHubActionsToken; ac_timeout : Z; ac_poll : Z }.
Definition actions_transport (token : GitHubActionsToken) (identity : RuntimeIdentity) (api_url : string) (timeout poll : Z)
    : result ActionsTransport :=
  _exact_api_url api_url;;
  control_if (negb (bool_decide (ri_role identity ∈ ALLOWED_CONTROL_ROLES))
              || negb (bool_decide (ri_workflow_identity identity = at_workflow_identity token))
              || negb (bool_decide (ri_workflow_ref identity = at_workflow_ref token))
              || negb (ri_reviewed_default_branch_code identity)) "Actions transport runtime identity mismatch";;
  check ((timeout <=? 0) || (poll <=? 0)) ValueError "job observation timing must be positive";;
  Ok {| ac_token := token; ac_timeout := timeout; ac_poll := poll |}.

Class PollClock (G : Type) := { monotonic : G → Z; sleeper : Z → M G unit }.

Section actions.
Context {G : Type} {T : HTTPTransport G} {Clock : PollClock G} (self : ActionsTransport).

Definition is_text_mapping (v : pyval) : bool :=
  match v with VDict d => forallb (λ kv, match kv.2 with VStr _ => true | _ => false end) d | _ => false end.
Definition dispatch_url (request : DispatchRequest) : string :=
  GITHUB_API +:+ "/repos/" +:+ dr_repository request +:+ "/actions/workflows/" +:+ url_quote (dr_workflow_id request) +:+ "/dispatches".
Definition actions_body (request : DispatchRequest) (inputs : pyval) : dict :=
  [("ref", VStr (dr_ref request)); ("inputs", inputs); ("return_run_details", VBool true)].
(** [dispatch] *)
Definition actions_dispatch (request : DispatchRequest) (inputs : pyval) : M G Z :=
  raise_if (negb (bool_decide (at_permissions (ac_token self) = ACTIONS_TOKEN_PERMISSIONS))) GitHubControlFailure
    "GITHUB_TOKEN permissions drifted";;
  raise_if (negb (bool_decide (dr_repository request = at_repository (ac_token self)))) GitHubControlFailure
    "dispatch repository is outside GITHUB_TOKEN authority";;
  raise_if (negb (is_text_mapping inputs)) ProtocolFailure "workflow dispatch inputs must be a string mapping";;
  response ← http_request "POST" (dispatch_url request) (api_headers (at_value (ac_token self))) (Some (actions_body request inputs));
  raise_if (negb (http_status response =? 200)) ProtocolFailure "dispatch must return HTTP 200";;
  body ← lift (_json_mapping (http_body response));
  lift (parse_dispatch_response request (http_status response) body).

Definition run_path (request : DispatchRequest) (run_id : Z) : string :=
  GITHUB_API +:+ "/repos/" +:+ dr_repository request +:+ "/actions/runs/" +:+ str_of_Z run_id.
Definition may_come (status : Z) : bool := bool_decide (status ∈ [200; 404; 409; 422]).
(** One look at the run and its jobs: nothing while the job is pending. *)
Definition read_job (run_id : Z) (label : string) (run jobs : HTTPResponse) : result (option ObservedWorkflowJob) :=
  if (http_status run =? 200) && (http_status jobs =? 200) then
    match
      run ← _json_mapping (http_body run);
      jobs ← _json_mapping (http_body jobs);
      parse_observed_workflow_job (VInt run_id) (VStr label) (VDict run) jobs (VStr "local-quality")
    with
    | Ok job => Ok (Some job)
    | Raise e => if bool_decide (exn_cls e = WorkflowJobPending) then Ok None else Raise e
    end
  else
    control_if (negb (may_come (http_status run)) || negb (may_come (http_status jobs)))
      "exact workflow run/job observation is unavailable";;
    Ok None.
Definition look_at_job (request : DispatchRequest) (run_id : Z) (label : string) : M G (option ObservedWorkflowJob) :=
  let headers := api_headers (at_value (ac_token self)) in
  run ← http_request "GET" (run_path request run_id) headers None;
  jobs ← http_request "GET" (run_path request run_id +:+ "/jobs?filter=latest&per_page=100") headers None;
  lift (read_job run_id label run jobs).
Fixpoint observe_loop (fuel : nat) (request : DispatchRequest) (run_id : Z) (label : string) (deadline : Z) : M G ObservedWorkflowJob :=
  match fuel with
  | O => reraise OUT_OF_FUEL
  | S fuel =>
      found ← look_at_job request run_id label;
      match found with
      | Some job => mret job
      | None =>
          now ← gets monotonic;
          raise_if (deadline <=? now) GitHubControlFailure "exact workflow job observation adapter_timed out";;
          sleeper (ac_poll self);;
          observe_loop fuel request run_id label deadline
      end
  end.
(** A turn for every poll the timeout leaves, and two more. *)
Definition observation_turns : nat := S (S (Z.to_nat (ac_timeout self / ac_poll self))).
Definition observe_exact_job (request : DispatchRequest) (run_id : Z) (label : string) : M G ObservedWorkflowJob :=
  raise_if (negb (bool_decide (dr_repository request = at_repository (ac_token self)))) GitHubControlFailure
    "job observation repository is outside GITHUB_TOKEN authority";;
  started ← gets monotonic;
  observe_loop observation_turns request run_id label (started + ac_timeout self).
End actions.

(** ** Check Runs with the App's token *)

Section checks.
Context {G : Type} {T : HTTPTransport G} (token : InstallationToken) (authority : AppAuthorityV1).

(** [GitHubCheckTransport.__init__] *)
Definition check_transport (api_url : string) : M G unit :=
  lift (_exact_api_url api_url);;
  now ← http_clock;
  lift (installation_current token authority now).

Definition _authorize (operation : string) : M G unit :=
  now ← http_clock;
  lift (installation_current token authority now);;
  raise_if (negb (permits authority operation (it_repository token) (it_installation_id token))) GitHubControlFailure
    "GitHub App operation is outside exact authority".
Definition check_url (path : string) : string := GITHUB_API +:+ "/repos/" +:+ au_repository authority +:+ path.
Definition check_path (check_run_id : Z) : string := "/check-runs/" +:+ str_of_Z check_run_id.
Definition _write (method path : string) (payload : dict) (expected_status : Z) : M G dict :=
  _authorize (if bool_decide (method = "POST") then "checks:create" else "checks:update");;
  response ← http_request method (check_url path) (api_headers (it_value token)) (Some payload);
  lift (_expected_json response expected_status).

Definition create_exact (payload : dict) : M G dict :=
  observed ← _write "POST" "/check-runs" payload 201;
  lift (_check_id (dget "id" observed));;
  mret observed.

Definition UPDATE_FIELDS : list string := ["conclusion"; "head_sha"; "external_id"].
Definition wire_payload (payload : dict) : dict := [("external_id", dget "external_id" payload); ("conclusion", dget "conclusion" payload)].
Definition shows_update (check_run_id : Z) (payload observed : dict) : bool :=
  py_eq (dget "id" observed) (VInt check_run_id) && forallb (λ f, py_eq (dget f observed) (dget f payload)) UPDATE_FIELDS.
Definition update_exact (check_run_id : Z) (payload : dict) : M G unit :=
  raise_if (negb (same_set (dkeys payload) UPDATE_FIELDS)) GitHubControlFailure "Check Run update payload fields are not exact";;
  check_run_id ← lift (_check_id (VInt check_run_id));
  observed ← catching is_adapter_error (_write "PATCH" (check_path check_run_id) (wire_payload payload) 200)
               (λ _, raise AmbiguousCheckWrite "Check Run update outcome is ambiguous");
  raise_if (negb (shows_update check_run_id payload observed)) AmbiguousCheckWrite
    "Check Run update response did not match exact evidence".

Definition read_exact (check_run_id : Z) : M G dict :=
  _authorize "metadata:read";;
  check_run_id ← lift (_check_id (VInt check_run_id));
  response ← http_request "GET" (check_url (check_path check_run_id)) (api_headers (it_value token)) None;
  observed ← lift (_expected_json response 200);
  raise_if (negb (py_eq (dget "id" observed) (VInt check_run_id))) GitHubAdapterError "Check Run read returned a different ID";;
  mret observed.

Definition github_checks : CheckTransport G := {| patch_exact := update_exact; get_exact := read_exact |}.
End checks.

(** ** Reading a response exactly *)

Lemma expected_ok response status d : _expected_json response status = Ok d → http_status response = status ∧ _json_mapping (http_body response) = Ok d.
Proof. unfold _expected_json. destruct (http_status response =? status) eqn:E; [|done]. by apply Z.eqb_eq in E. Qed.
Lemma expected_adapter response status e : _expected_json response status = Raise e → is_adapter_error (exn_cls e) = true ∧ e ≠ OUT_OF_FUEL.
Proof.
  unfold _expected_json, http_error, throw. destruct (http_status response =? status); [|by intros [= <-]].
  unfold _json_mapping, loads_exact, check, throw. destruct (json_parse (http_body response)) as [v|]; [|by intros [= <-]].
  destruct (negb (distinct_keys v)); [by intros [= <-]|]. cbn [mbind result_bind]. destruct v; cbn; try done; by intros [= <-].
Qed.

(** ** Check Runs at GitHub *)

(** What GitHub's documentation says of its Check Runs: an update of one Check Run
    writes the conclusion and the external identity if its body names them, keeps
    the head, and answers with what is stored; a read tells it.  Any other answer,
    and no answer, leaves open whether the update was made. *)
Definition github_check_run (repository : string) (id : Z) : string :=
  "https://api.github.com/repos/" +:+ repository +:+ "/check-runs/" +:+ str_of_Z id.
Definition updated (body : dict) (before : Stored) : Stored :=
  (default before.1.1 (dlookup "conclusion" body), before.1.2, default before.2 (dlookup "external_id" body)).
Class CheckRunsApi (G : Type) `{HTTPTransport G} (authority : AppAuthorityV1) := {
  runs : Z → G → Stored;
  clock_keeps g id : runs id (http_clock g).2 = runs id g;
  api_update id body headers g :
    let '(r, g') := http_request "PATCH" (github_check_run (au_repository authority) id) headers (Some body) g in
    (∀ id', id' ≠ id → runs id' g' = runs id' g) ∧ (runs id g' = runs id g ∨ runs id g' = updated body (runs id g)) ∧
    match r with
    | Ok response => http_status response = 200 → runs id g' = updated body (runs id g) ∧
                       ∀ d, _json_mapping (http_body response) = Ok d → read_fields d = runs id g'
    | Raise e => is_adapter_error (exn_cls e) = true
    end;
  api_read id headers g :
    let '(r, g') := http_request "GET" (github_check_run (au_repository authority) id) headers None g in
    (∀ id', runs id' g' = runs id' g) ∧
    match r with
    | Ok response => http_status response = 200 → ∀ d, _json_mapping (http_body response) = Ok d → read_fields d = runs id g
    | Raise _ => True
    end;
}.

Section served.
Context {G : Type} {T : HTTPTransport G} (token : InstallationToken) (authority : AppAuthorityV1) {Api : CheckRunsApi G authority}.

Lemma current_refused now e : installation_current token authority now = Raise e → exn_cls e ∈ [GitHubControlFailure; TypeError].
Proof.
  unfold installation_current, control_if, check, throw. destruct (negb (is_aware now)); [intros [= <-]; left|]. cbn [mbind result_bind].
  destruct (dt_compare (it_expires_at token) now) as [c|e'] eqn:E; cbn [mbind result_bind].
  - destruct (_ || _); [intros [= <-]; left|done].
  - intros [= ->]. destruct (it_expires_at token), now; cbn in E; try done; injection E as <-; right; left.
Qed.
(** Authorizing a request is reading the clock. *)
Lemma authorize_keeps operation id g : runs id (_authorize token authority operation g).2 = runs id g.
Proof.
  unfold _authorize, mbind, M_bind. pose proof (clock_keeps g id) as Hk. destruct (http_clock g) as [[now|e] g1]; [|exact Hk].
  cbn. destruct (installation_current token authority now); [|exact Hk]. cbn. unfold raise_if, lift. exact Hk.
Qed.
Lemma authorized_keeps operation g r g1 : _authorize token authority operation g = (r, g1) → ∀ id, runs id g1 = runs id g.
Proof. intros E id. rewrite <- (authorize_keeps operation id g). by rewrite E. Qed.
(** A token that is not current, or a key that was revoked, sends nothing. *)
Lemma authorize_current operation g now g1 :
  http_clock g = (Ok now, g1) → installation_current token authority now ≠ Ok tt →
  ∃ e, _authorize token authority operation g = (Raise e, g1) ∧ exn_cls e ∈ [GitHubControlFailure; TypeError].
Proof.
  intros Hc Hno. unfold _authorize, mbind, M_bind. rewrite Hc. cbn. unfold lift.
  destruct (installation_current token authority now) as [[]|e] eqn:E; [done|]. exists e. split; [done|].
  by eapply current_refused.
Qed.

(** The outcome of the PATCH, whatever became of it. *)
Lemma update_outcome id payload g :
  let '(r, g') := _write token authority "PATCH" (check_path id) (wire_payload payload) 200 g in
  let written := rewritten payload (runs id g) in
  (∀ id', id' ≠ id → runs id' g' = runs id' g) ∧
  match r with
  | Ok d => runs id g' = written ∧ read_fields d = written
  | Raise e => runs id g' = runs id g ∨ runs id g' = written ∧ is_adapter_error (exn_cls e) = true ∧ e ≠ OUT_OF_FUEL
  end.
Proof.
  unfold _write, mbind at 1, M_bind at 1. destruct (_authorize token authority _ g) as [[[]|e] g1] eqn:Ea.
  2: { pose proof (authorized_keeps _ _ _ _ Ea) as Hk. by split; [|left]. }
  pose proof (authorized_keeps _ _ _ _ Ea) as Hk.
  unfold mbind, M_bind. pose proof (api_update id (wire_payload payload) (api_headers (it_value token)) g1) as Hu.
  change (github_check_run (au_repository authority) id) with (check_url authority (check_path id)) in Hu.
  change (updated (wire_payload payload)) with (rewritten payload) in Hu.
  destruct (http_request _ _ _ _ g1) as [[response|e] g2]; destruct Hu as (Ho & Hw & Hr); rewrite Hk in *.
  - unfold lift. split; [intros id' Hne; rewrite Ho, Hk; done|]. destruct (_expected_json response 200) as [d|e] eqn:Ex.
    + apply expected_ok in Ex as [Hs Hj]. destruct (Hr Hs) as [-> Hd]. by rewrite (Hd _ Hj).
    + apply expected_adapter in Ex as [? ?]. destruct Hw as [Hw|Hw]; [by left|by right].
  - split; [intros id' Hne; rewrite Ho, Hk; done|]. destruct Hw as [Hw|Hw]; [by left|right]. split_and!; [done|done|].
    by intros ->.
Qed.

Lemma update_whole id payload g :
  let '(r, g') := update_exact token authority id payload g in
  (∀ id', id' ≠ id → runs id' g' = runs id' g) ∧
  match r with
  | Ok _ => runs id g' = rewritten payload (runs id g) ∧ py_eq (runs id g).1.2 (dget "head_sha" payload) = true
  | Raise e => runs id g' = runs id g ∨ runs id g' = rewritten payload (runs id g) ∧ exn_cls e = AmbiguousCheckWrite
  end.
Proof.
  unfold update_exact, mbind at 1, M_bind at 1, raise_if at 1, lift at 1, check at 1.
  destruct (negb (same_set _ _)); [by split; [|left]|]. unfold mbind at 1, M_bind at 1, lift at 1, _check_id, control_if, check, throw.
  destruct (id <? 1); cbn [mbind result_bind]; [by split; [|left]|]. unfold mbind, M_bind, catching.
  pose proof (update_outcome id payload g) as Hu.
  destruct (_write token authority "PATCH" _ _ 200 g) as [[d|e] g1]; destruct Hu as [Ho Hu].
  - destruct Hu as [Hw Hd]. unfold raise_if, lift, check, throw. destruct (shows_update id payload d) eqn:Es; cbn [negb]; (split; [done|]); [|by right].
    split; [done|]. unfold shows_update, UPDATE_FIELDS in Es. cbn [forallb] in Es. bool_inv. unfold read_fields, rewritten in Hd. by injection Hd as _ <- _.
  - destruct (is_adapter_error (exn_cls e)) eqn:Ee; cbn [andb]; [|by split; [|destruct Hu as [|(_ & ? & _)]; [left|]]].
    case_bool_decide as Hf; cbn [negb]; [subst e; by split; [|destruct Hu as [|(_ & _ & ?)]; [left|]]|]. split; [done|].
    unfold raise, lift, throw. cbn. destruct Hu as [|(Hw & _)]; [by left|by right].
Qed.
Lemma read_tells id g :
  let '(r, g') := read_exact token authority id g in
  (∀ id', runs id' g' = runs id' g) ∧ match r with Ok observed => read_fields observed = runs id g | Raise _ => True end.
Proof.
  unfold read_exact, mbind at 1, M_bind at 1. destruct (_authorize token authority _ g) as [[[]|e] g1] eqn:Ea.
  2: { split; [|done]. exact (authorized_keeps _ _ _ _ Ea). }
  pose proof (authorized_keeps _ _ _ _ Ea) as Hk.
  unfold mbind at 1, M_bind at 1, lift at 1, _check_id, control_if, check, throw. destruct (id <? 1); cbn [mbind result_bind]; [done|].
  unfold mbind at 1, M_bind at 1. pose proof (api_read id (api_headers (it_value token)) g1) as Hr.
  change (github_check_run (au_repository authority) id) with (check_url authority (check_path id)) in Hr.
  destruct (http_request _ _ _ _ g1) as [[response|e] g2]; destruct Hr as [Ho Hr]; [|split; [intros id'; by rewrite Ho|done]].
  unfold mbind, M_bind, lift. destruct (_expected_json response 200) as [d|e] eqn:Ex; [|split; [intros id'; by rewrite Ho|done]].
  apply expected_ok in Ex as [Hs Hj]. unfold raise_if, lift, check, throw. rewrite Hk in Hr.
  destruct (negb _); (split; [intros id'; by rewrite Ho|]); [done|]. by rewrite (Hr Hs _ Hj).
Qed.

(** The transport keeps what a delivery relies on. *)
#[export] Instance github_server : @CheckServer G (github_checks token authority).
Proof.
  refine {| stored := runs |}; [exact update_whole|exact read_tells].
Defined.
End served.

(** ** The minted token *)

Section minted.
Context (authority : AppAuthorityV1).

(** A token of exactly the App's one repository and its two permissions. *)
Definition minted_for (t : InstallationToken) : Prop :=
  it_repository t = au_repository authority ∧ it_repository_id t = au_repository_id authority ∧
  it_installation_id t = au_installation_id authority ∧ it_permissions t = MINIMUM_APP_PERMISSIONS ∧ is_malformed (it_value t) = false.

Lemma installation_token_ok t u : installation_token t = Ok u → u = t ∧ is_malformed (it_value t) = false.
Proof. unfold installation_token, control_if. intros H. by run_inv. Qed.
Lemma dt_add_sum t d u : dt_add t d = Ok u → u = t + d.
Proof. unfold dt_add. case_decide; [|done]. by intros [= <-]. Qed.
(** What GitHub granted: the two permissions on the one repository, and a text. *)
Definition own_repository (d : dict) : Prop :=
  py_eq (dget "id" d) (VInt (au_repository_id authority)) = true ∧ dget "full_name" d = VStr (au_repository authority).
Record granted (scope : dict) (value : string) (server : Z) : Prop := {
  gr_permissions : py_eq (dget "permissions" scope) (permissions_value MINIMUM_APP_PERMISSIONS) = true;
  gr_repository : ∃ repository, dget "repositories" scope = VList [VDict repository] ∧ own_repository repository;
  gr_token : dget "token" scope = VStr value;
  gr_expiry : token_expiry (dget "expires_at" scope) = Ok server;
}.
Lemma own_repository_ok d : is_own_repository authority (VDict d) = true → own_repository d.
Proof. cbn. intros [Hi Hn%py_eq_str]%andb_true_iff. by split. Qed.
(** It expires with the request, or half a minute before GitHub's token does. *)
Lemma parse_token_ok response request now t : parse_token authority response request now = Ok t →
  minted_for t ∧ ∃ server, granted response (it_value t) server ∧
    let e := Z.min (server - INSTALLATION_TOKEN_SAFETY_MARGIN) (now + seconds (mr_ttl_seconds request)) in
    it_expires_at t = utc e ∧ now < e ∧ server ≤ now + INSTALLATION_TOKEN_MAX_TTL + INSTALLATION_TOKEN_CLOCK_SKEW.
Proof.
  unfold parse_token. intros (? & Hp%check_ok%negb_false_iff & H)%result_bind_ok. destruct (dget "repositories" response) as [| | | |[|r []]|] eqn:Er; try done.
  apply result_bind_ok in H as (? & Ho%check_ok%negb_false_iff & (server & Hs & H)%result_bind_ok). destruct (dget "token" response) eqn:Et; try done.
  apply result_bind_ok in H as (soonest & _ & (? & _ & (latest & ->%dt_add_sum & (? & Hlate%check_ok & (requested & ->%dt_add_sum & (? & Hu%check_ok & H)%result_bind_ok)
    %result_bind_ok)%result_bind_ok)%result_bind_ok)%result_bind_ok).
  apply installation_token_ok in H as [-> Hm]. cbn in *. split; [done|]. exists server. split; [|split; [done|lia]].
  constructor; [done| |done|done]. destruct r as [| | | | |r]; try done. exists r. split; [done|by apply own_repository_ok].
Qed.
End minted.

(** ** Where each credential may go *)

Section confinement.
Context {G : Type} {T : HTTPTransport G} {Clock : PollClock G} (authority : AppAuthorityV1) (actions : ActionsTransport)
  (token : InstallationToken).

(** The App's key signs a web token that reads the App's own identity and asks for
    a token of the one repository; the token held by the Check Run transport
    creates, updates and reads Check Runs there; the workflow's token dispatches to
    its own repository and watches runs there.  A minted token is sent once, as
    [reads_back] says. *)
Definition tokens_url : string := GITHUB_API +:+ "/app/installations/" +:+ str_of_Z (au_installation_id authority) +:+ "/access_tokens".
Inductive may_send : string → string → dict → option dict → Prop :=
  | Send_identity path header claims signature :
      path ∈ ["/app"; "/repos/" +:+ au_repository authority +:+ "/installation"] →
      may_send "GET" (GITHUB_API +:+ path) (api_headers (_b64json header +:+ "." +:+ _b64json claims +:+ "." +:+ signature)) None
  | Send_scope header claims signature :
      may_send "POST" tokens_url
        (api_headers (_b64json header +:+ "." +:+ _b64json claims +:+ "." +:+ signature)) (Some (token_scope authority))
  | Send_create payload :
      may_send "POST" (check_url authority "/check-runs") (api_headers (it_value token)) (Some payload)
  | Send_update id payload :
      1 ≤ id → may_send "PATCH" (check_url authority (check_path id)) (api_headers (it_value token)) (Some (wire_payload payload))
  | Send_read id :
      1 ≤ id → may_send "GET" (check_url authority (check_path id)) (api_headers (it_value token)) None
  | Send_dispatch request inputs :
      dr_repository request = at_repository (ac_token actions) → is_text_mapping inputs = true →
      may_send "POST" (dispatch_url request) (api_headers (at_value (ac_token actions))) (Some (actions_body request inputs))
  | Send_watch request run_id query :
      dr_repository request = at_repository (ac_token actions) → query ∈ [""; "/jobs?filter=latest&per_page=100"] →
      may_send "GET" (run_path request run_id +:+ query) (api_headers (at_value (ac_token actions))) None.

(** Everything the three objects can be asked to do. *)
Inductive AdapterCall :=
  | CallMint (identity : RuntimeIdentity) (request : MintRequest)
  | CallActionsDispatch (request : DispatchRequest) (inputs : pyval)
  | CallObserve (request : DispatchRequest) (run_id : Z) (label : string)
  | CallCreate (payload : dict)
  | CallUpdate (check_run_id : Z) (payload : dict)
  | CallRead (check_run_id : Z).
Definition adapter_call (call : AdapterCall) : M G unit :=
  match call with
  | CallMint identity request => mint_token authority identity request;; mret tt
  | CallActionsDispatch request inputs => actions_dispatch actions request inputs;; mret tt
  | CallObserve request run_id label => observe_exact_job actions request run_id label;; mret tt
  | CallCreate payload => create_exact token authority payload;; mret tt
  | CallUpdate check_run_id payload => update_exact token authority check_run_id payload
  | CallRead check_run_id => read_exact token authority check_run_id;; mret tt
  end.

Context (R : relation G) `{!PreOrder R}.
Hypothesis sends : ∀ method url headers body, may_send method url headers body → moves R (http_request method url headers body).
(** The token in GitHub's answer to the request for one is the credential of the
    next request, which reads the one repository. *)
Hypothesis reads_back : ∀ headers response request now minted g g1,
  may_send "POST" tokens_url headers (Some (token_scope authority)) →
  http_request "POST" tokens_url headers (Some (token_scope authority)) g = (Ok response, g1) →
  (scope ← _expected_json response 201; parse_token authority scope request now) = Ok minted →
  R g1 (http_request "GET" (GITHUB_API +:+ "/repos/" +:+ au_repository authority) (api_headers (it_value minted)) None g1).2.
Hypothesis reads_clock : moves R http_clock.
Hypothesis signs : ∀ text, moves R (rs256_sign text).
Hypothesis sleeps : ∀ d, moves R (sleeper d).

Lemma moves_after {A B} (r : result A) (k : A → M G B) : (∀ a, r = Ok a → moves R (k a)) → moves R (lift r ≫= k).
Proof. intros Hk s. unfold mbind, M_bind, lift. destruct r as [a|e]; [by apply Hk|done]. Qed.
Lemma moves_unless {B} b c msg (k : M G B) : (b = false → moves R k) → moves R (raise_if b c msg;; k).
Proof. intros Hk. apply moves_after. intros [] Hb%check_ok. by apply Hk. Qed.

Lemma app_request_moves method path headers body status :
  may_send method (GITHUB_API +:+ path) headers body → moves R (app_request method path headers body status).
Proof. intros Hs. unfold app_request. apply moves_bind; [exact _|by apply sends|]. intros response. apply moves_lift. exact _. Qed.

Ltac go := repeat match goal with
  | |- moves R (lift _ ≫= _) => apply moves_after; intros ? ?
  | |- moves R (raise_if _ _ _ ≫= _) => apply moves_unless; intros ?
  | |- moves R (mbind _ _) => apply moves_bind; [exact _| |intros ?]
  | |- moves R (lift _) => apply moves_lift; exact _
  | |- moves R (raise_if _ _ _) => apply moves_raise_if; exact _
  | |- moves R (raise _ _) => apply moves_raise; exact _
  | |- moves R (mret _) => apply moves_ret; exact _
  | |- moves R http_clock => exact reads_clock
  | |- moves R (gets _) => apply moves_gets; exact _
  | |- moves R (app_request _ _ _ _ _) => apply app_request_moves
  | |- moves R (http_request _ _ _ _) => apply sends
  end.
(** What follows the making of a web token. *)
Lemma jwt_moves {B} now (k : string → M G B) :
  (∀ header claims signature, moves R (k (_b64json header +:+ "." +:+ _b64json claims +:+ "." +:+ signature))) →
  moves R (_app_jwt authority now ≫= k).
Proof.
  intros Hk s. unfold mbind at 1, M_bind at 1. destruct now as [|zone t]; [done|]. cbn [_app_jwt]. unfold mbind at 1, M_bind at 1.
  match goal with |- context [rs256_sign ?text s] => pose proof (signs text s) as Hs; destruct (rs256_sign text s) as [[raw|e] s1] end; [|done].
  unfold mbind, M_bind, raise_if, lift, check. destruct (negb _); [done|]. cbn [fst snd] in *. etrans; [exact Hs|]. rewrite !str_app_assoc. exact (Hk _ _ _ s1).
Qed.
(** From the request for a token on. *)
Lemma scope_moves headers request now :
  may_send "POST" tokens_url headers (Some (token_scope authority)) →
  moves R (response ← app_request "POST" ("/app/installations/" +:+ str_of_Z (au_installation_id authority) +:+ "/access_tokens")
                        headers (Some (token_scope authority)) 201;
           token ← lift (parse_token authority response request now);
           repository ← app_request "GET" ("/repos/" +:+ au_repository authority) (api_headers (it_value token)) None 200;
           raise_if (negb (is_own_repository authority (VDict repository))) GitHubControlFailure "installation token repository identity mismatch";;
           mret token).
Proof.
  intros Hs g. pose proof (sends _ _ _ _ Hs g) as H1. pose proof (reads_back headers) as Hb. unfold app_request, mbind, M_bind.
  change (GITHUB_API +:+ "/app/installations/" +:+ str_of_Z (au_installation_id authority) +:+ "/access_tokens") with tokens_url.
  specialize (λ response, Hb response request now) as Hb.
  destruct (http_request "POST" tokens_url headers (Some (token_scope authority)) g) as [[response|e] g1] eqn:E; [|exact H1].
  unfold lift. destruct (_expected_json response 201) as [scope|e] eqn:Ex; [|exact H1].
  destruct (parse_token authority scope request now) as [minted|e] eqn:Ep; [|exact H1].
  specialize (Hb response minted g g1 Hs E). rewrite Ex in Hb. specialize (Hb Ep). etrans; [exact H1|]. etrans; [exact Hb|].
  destruct (http_request "GET" _ _ _ g1) as [[answer|e] g2]; [|done]. cbn [fst snd]. destruct (_expected_json answer 200) as [repository|e]; [|done].
  unfold raise_if, lift, check. by destruct (negb _).
Qed.
Lemma mint_moves identity request : moves R (mint_token authority identity request).
Proof.
  unfold mint_token. apply moves_after. intros _ _. apply moves_bind; [exact _|exact reads_clock|intros now]. apply jwt_moves. intros header claims signature.
  apply moves_bind; [exact _|apply app_request_moves; constructor; by left|intros app]. apply moves_after. intros _ _.
  apply moves_bind; [exact _|apply app_request_moves; constructor; by right; left|intros installation]. apply moves_after. intros _ _.
  apply scope_moves. constructor.
Qed.
Lemma authorize_moves operation : moves R (_authorize token authority operation).
Proof. unfold _authorize. go. Qed.
Lemma observe_moves fuel request run_id label deadline :
  dr_repository request = at_repository (ac_token actions) → moves R (observe_loop actions fuel request run_id label deadline).
Proof.
  intros Hr. induction fuel as [|fuel IH]; cbn [observe_loop]; [apply moves_reraise; exact _|]. apply moves_bind; [exact _| |intros found].
  - unfold look_at_job. go; [rewrite <- (str_app_nil (run_path request run_id))|]; apply Send_watch; set_solver.
  - destruct found; go; [apply sleeps|exact IH].
Qed.
Lemma actions_dispatch_moves request inputs : moves R (actions_dispatch actions request inputs).
Proof. unfold actions_dispatch. go. apply Send_dispatch; bool_inv; done. Qed.
Lemma check_id_ok id n : _check_id (VInt id) = Ok n → n = id ∧ 1 ≤ id.
Proof. cbn. unfold control_if. intros H. run_inv. bool_inv. by split. Qed.
Lemma check_update_moves id payload : moves R (update_exact token authority id payload).
Proof.
  unfold update_exact. apply moves_unless. intros _. apply moves_after. intros n [-> Hid]%check_id_ok. apply moves_bind; [exact _| |intros; go].
  apply moves_catching; [exact _| |intros; go]. unfold _write. apply moves_bind; [exact _|apply authorize_moves|intros _]. go. by apply Send_update.
Qed.
Lemma check_read_moves id : moves R (read_exact token authority id).
Proof.
  unfold read_exact. apply moves_bind; [exact _|apply authorize_moves|intros _]. apply moves_after. intros n [-> Hid]%check_id_ok. go.
  by apply Send_read.
Qed.
Lemma check_create_moves payload : moves R (create_exact token authority payload).
Proof.
  unfold create_exact, _write. apply moves_bind; [exact _| |intros; go]. apply moves_bind; [exact _|apply authorize_moves|intros _]. go.
  apply Send_create.
Qed.

(** C24: whatever is asked of the two authorities and whatever GitHub answers, no
    credential leaves its own place: the App's key signs only what reads the App
    and asks for a token of its one repository and two permissions, the token that
    GitHub answers with goes next to that repository, the one the Check Run
    transport holds only to the repository's Check Runs, and the workflow's token
    only to dispatches and runs of its own repository.  [R] is any account of the
    world that composes, for instance what may be added to a log of requests. *)
Theorem credentials_confined call : moves R (adapter_call call).
Proof.
  destruct call; cbn [adapter_call]; [apply moves_bind; [exact _| |intros; go]..| |apply moves_bind; [exact _| |intros; go]].
  - apply mint_moves.
  - apply actions_dispatch_moves.
  - unfold observe_exact_job. apply moves_unless. intros Hr. bool_inv. go. by apply observe_moves.
  - apply check_create_moves.
  - apply check_update_moves.
  - apply check_read_moves.
Qed.
End confinement.

(** ** The lifetime of a token *)

Section lifetime.
Context {G : Type} {T : HTTPTransport G} (authority : AppAuthorityV1).

(** Asked in one world, GitHub answered with a document and left another world. *)
Definition answers (method path bearer : string) (body : option dict) (status : Z) (g : G) (d : dict) (g' : G) : Prop := ∃ response,
  http_request method (GITHUB_API +:+ path) (api_headers bearer) body g = (Ok response, g') ∧ http_status response = status ∧
  _json_mapping (http_body response) = Ok d.
Lemma app_request_ok method path bearer body status d g g' :
  app_request method path (api_headers bearer) body status g = (Ok d, g') → answers method path bearer body status g d g'.
Proof. unfold app_request. intros (response & g1 & H & [Hd%expected_ok <-]%lift_ok)%bind_ok. by exists response. Qed.
(** The App and its installation, as the documents of a run show them. *)
Record app_confirmed (app : dict) : Prop := {
  af_id : py_eq (dget "id" app) (VInt (au_app_id authority)) = true;
  af_slug : dget "slug" app = VStr (au_app_slug authority);
  af_owner : ∃ owner, dget "owner" app = VDict owner ∧ dget "login" owner = VStr (au_owner authority);
  af_permissions : py_eq (dget "permissions" app) (permissions_value MINIMUM_APP_PERMISSIONS) = true;
}.
Record installation_confirmed (installation : dict) : Prop := {
  if_id : py_eq (dget "id" installation) (VInt (au_installation_id authority)) = true;
  if_app : py_eq (dget "app_id" installation) (VInt (au_app_id authority)) = true;
  if_selected : dget "repository_selection" installation = VStr "selected";
  if_permissions : py_eq (dget "permissions" installation) (permissions_value MINIMUM_APP_PERMISSIONS) = true;
  if_active : dget "suspended_at" installation = VNone;
}.
Lemma validate_app_ok app u : _validate_app authority app = Ok u → app_confirmed app.
Proof.
  unfold _validate_app, control_if. intros (? & [Hi%negb_false_iff Hs%negb_false_iff%py_eq_str]%check_ok%orb_false_iff & H)%result_bind_ok.
  destruct (dlookup "owner" app) as [o|] eqn:Eo; [|done]. cbn [default] in H. destruct o as [| | | | |owner]; try done.
  apply check_ok, orb_false_iff in H as [Hl%negb_false_iff%py_eq_str Hp%negb_false_iff]. constructor; try done.
  exists owner. split; [|done]. unfold dget. by rewrite Eo.
Qed.
Lemma validate_installation_ok installation u : _validate_installation authority installation = Ok u → installation_confirmed installation.
Proof.
  unfold _validate_installation, control_if. intros H%check_ok. rewrite !orb_false_iff, !negb_false_iff in H.
  destruct H as [[[[Hi Ha] Hs%py_eq_str] Hp] Hn]. constructor; try done. by destruct (dget "suspended_at" installation).
Qed.
Lemma app_jwt_aware now jwt g g' : _app_jwt authority now g = (Ok jwt, g') → is_aware now = true.
Proof. destruct now; [|done]. cbn. by intros H%raise_ok. Qed.
Lemma current_iff t now : au_key_active authority = true → au_permissions authority = MINIMUM_APP_PERMISSIONS → minted_for authority t →
  ∀ e, it_expires_at t = utc e → installation_current t authority (utc now) = Ok tt ↔ now < e.
Proof.
  intros Hk Hp (Hr & Hri & Hi & Hperm & _) e He. unfold installation_current, control_if, check. rewrite He, Hr, Hri, Hi, Hperm, Hp, Hk.
  cbn [is_aware negb mbind result_bind dt_compare utc]. rewrite !(bool_decide_eq_true_2 (_ = _) eq_refl), !Z.eqb_refl. cbn [negb orb]. rewrite !orb_false_r.
  case_bool_decide as Hc; cbn; rewrite Z.compare_gt_iff in Hc; by split.
Qed.

(** C39: minting needs the active key of the pinned control plane and a request
    of at most an hour.  In the run that mints, with one web token, GitHub has
    answered with the authority's App and with its installation, not suspended and
    on selected repositories; the token is the text of GitHub's next answer, which
    grants the two permissions on the authority's one repository and is not good
    for more than an hour and two minutes; and, asked with that token, GitHub has
    answered with that repository.  The token can be used exactly until the end of
    the requested lifetime or half a minute before GitHub's expiry, whichever is
    first, and that is after now; once the key is revoked it can never be used. *)
Theorem minted_token_bounded identity request g t g' :
  au_permissions authority = MINIMUM_APP_PERMISSIONS → mint_token authority identity request g = (Ok t, g') →
  au_key_active authority = true ∧ 0 < mr_ttl_seconds request ≤ 3600 ∧
  ri_role identity ∈ ALLOWED_CONTROL_ROLES ∧ ri_reviewed_default_branch_code identity = true ∧ minted_for authority t ∧
  ∃ zone now g1 jwt g2 app g3 installation g4 scope server g5 repository,
    http_clock g = (Ok (Aware zone now), g1) ∧ _app_jwt authority (Aware zone now) g1 = (Ok jwt, g2) ∧
    answers "GET" "/app" jwt None 200 g2 app g3 ∧ app_confirmed app ∧
    answers "GET" ("/repos/" +:+ au_repository authority +:+ "/installation") jwt None 200 g3 installation g4 ∧
    installation_confirmed installation ∧
    answers "POST" ("/app/installations/" +:+ str_of_Z (au_installation_id authority) +:+ "/access_tokens") jwt
      (Some (token_scope authority)) 201 g4 scope g5 ∧
    granted authority scope (it_value t) server ∧ server ≤ now + hours 1 + minutes 2 ∧
    answers "GET" ("/repos/" +:+ au_repository authority) (it_value t) None 200 g5 repository g' ∧ own_repository authority repository ∧
    let e := Z.min (server - seconds 30) (now + seconds (mr_ttl_seconds request)) in
    now < e ∧ ∀ later, (installation_current t authority (utc later) = Ok tt ↔ later < e) ∧
                       installation_current t (revoked authority) (utc later) ≠ Ok tt.
Proof.
  intros Hp. unfold mint_token. intros (? & ? & [Hm <-]%lift_ok & (now & g1 & Hc & H)%bind_ok)%bind_ok.
  apply bind_ok in H as (jwt & g2 & Hj & (app & g3 & Happ%app_request_ok & ([] & ? & [Ha%validate_app_ok <-]%lift_ok & H)%bind_ok)%bind_ok).
  apply bind_ok in H as (installation & g4 & Hinst%app_request_ok & ([] & ? & [Hi%validate_installation_ok <-]%lift_ok & H)%bind_ok).
  apply bind_ok in H as (scope & g5 & Hscope%app_request_ok & (token & ? & [Ht <-]%lift_ok & H)%bind_ok).
  apply bind_ok in H as (repository & g6 & Hrepo%app_request_ok & (? & ? & [Hr%negb_false_iff%own_repository_ok ->]%raise_if_ok & [-> ->]%ret_ok)%bind_ok).
  apply parse_token_ok in Ht as (Hmint & server & Hg & He & Hlo & Hhi). pose proof (app_jwt_aware _ _ _ _ Hj) as Haw.
  destruct now as [|zone now]; [done|]. cbn [instant] in *.
  unfold mint, control_if in Hm. apply result_bind_ok in Hm as (? & Hkey%check_ok%negb_false_iff & Hm).
  apply result_bind_ok in Hm as (? & Hid%check_ok & (? & _ & (? & _ & (? & Httl%check_ok & _)%result_bind_ok)%result_bind_ok)%result_bind_ok).
  bool_inv. split_and!; try done. exists zone, now, g1, jwt, g2, app, g3, installation, g4, scope, server, g5, repository.
  split_and!; try done. intros later. split; [by apply current_iff|].
  unfold installation_current. rewrite He. cbn. unfold control_if, check. rewrite !orb_true_r. done.
Qed.
End lifetime.

(** ** Delivery over HTTP *)

Section delivered.
Context {G : Type} {T : HTTPTransport G} (token : InstallationToken) (authority : AppAuthorityV1) {Api : CheckRunsApi G authority}.

Lemma expired_delivers_nothing d g now g1 :
  http_clock g = (Ok now, g1) → installation_current token authority now ≠ Ok tt →
  let '(r, g') := deliver_exact (H := github_checks token authority) d g in is_ok r = false ∧ ∀ id, runs id g' = runs id g.
Proof.
  intros Hc Hno. destruct (authorize_current token authority "checks:update" _ _ _ Hc Hno) as (e & Ha & He).
  assert (∀ id, runs id g1 = runs id g) as Hk by exact (authorized_keeps _ _ _ _ _ _ Ha).
  unfold deliver_exact, patch_exact, github_checks, update_exact. cbn [raise_if]. unfold catching, mbind, M_bind, raise_if, lift, check.
  change (negb (same_set (dkeys (delivery_payload d)) UPDATE_FIELDS)) with false. cbn [_check_id]. unfold control_if, check, throw.
  destruct (cd_check_run_id d <? 1); cbn; [done|]. unfold _write. change (bool_decide ("PATCH" = "POST")) with false.
  unfold mbind, M_bind. cbn iota. rewrite Ha. unfold is_adapter_error, is_ambiguous.
  destruct e as [c msg]. cbn in He. by apply elem_of_cons in He as [->|[->|?%elem_of_nil]%elem_of_cons].
Qed.

(** C23: over GitHub's API a delivery changes its Check Run only, which afterwards
    is as it was or has exactly the delivered conclusion and evidence, on the head
    it had; success means the evidence is there and that head is the delivered one,
    an outcome still unknown after the read-back that nothing was written; and with
    a token that has expired, or a key that was revoked, nothing is written. *)
Theorem github_delivery_once d g r g' :
  let id := cd_check_run_id d in
  deliver_exact (H := github_checks token authority) d g = (r, g') →
  (∀ other, other ≠ id → runs other g' = runs other g) ∧
  (runs id g' = runs id g ∨ runs id g' = (VStr (cd_conclusion d), (runs id g).1.2, VStr (delivery_marker d))) ∧
  match r with
  | Ok s => s ∈ ["delivered"; "reconciled"] ∧ runs id g' = (VStr (cd_conclusion d), VStr (cd_target_sha d), VStr (delivery_marker d))
  | Raise e => ∀ g1, update_exact token authority id (delivery_payload d) g = (Raise e, g1) → exn_cls e = AmbiguousCheckWrite →
      is_ok (read_exact token authority id g1).1 = true → runs id g' = runs id g
  end ∧
  ∀ now g1, http_clock g = (Ok now, g1) → installation_current token authority now ≠ Ok tt → is_ok r = false ∧ runs id g' = runs id g.
Proof.
  intros id E. destruct (delivery_effectively_once (Srv := github_server token authority) d g r g' E) as (H1 & H2 & H3). split_and!; [done..|].
  intros now g1 Hc Hno. pose proof (expired_delivers_nothing d g now g1 Hc Hno) as H. rewrite E in H. destruct H as [? Hk]. by split.
Qed.
End delivered.

(** ** Watching ends *)

Section watching.
Context {G : Type} {T : HTTPTransport G} {Clock : PollClock G} (self : ActionsTransport).

(** Requests take time or none, and a sleep takes as long as it says; neither is
    out of fuel. *)
Record adapter_timed : Prop := {
  td_request method url headers body g : monotonic g ≤ monotonic (http_request method url headers body g).2 ∧
    (http_request method url headers body g).1 ≠ Raise OUT_OF_FUEL;
  td_sleep d g : monotonic g + d ≤ monotonic (sleeper d g).2 ∧ (sleeper d g).1 ≠ Raise OUT_OF_FUEL;
}.

Lemma json_mapping_fuel text : _json_mapping text ≠ Raise OUT_OF_FUEL.
Proof.
  intros H. assert (_expected_json {| http_status := 0; http_body := text |} 0 = Raise OUT_OF_FUEL) as [_ Hne]%expected_adapter by exact H. done.
Qed.
Lemma parse_observed_fuel rid label run jobs name : parse_observed_workflow_job rid label run jobs name ≠ Raise OUT_OF_FUEL.
Proof.
  unfold parse_observed_workflow_job, _positive_int, fail_protocol, fail_if. 
  repeat first [apply result_bind_fuel; [|intros]|apply check_fuel|apply throw_fuel|done|case_match|discriminate].
Qed.
Lemma read_job_fuel run_id label run jobs : read_job run_id label run jobs ≠ Raise OUT_OF_FUEL.
Proof.
  unfold read_job, control_if. destruct (_ && _).
  - match goal with |- match ?m with _ => _ end ≠ _ => assert (m ≠ Raise OUT_OF_FUEL) as Hm; [|destruct m as [job|e]; [done|]] end.
    { apply result_bind_fuel; [apply json_mapping_fuel|intros r]. apply result_bind_fuel; [apply json_mapping_fuel|intros j].
      apply parse_observed_fuel. }
    destruct (bool_decide _); [done|]. intros [= ->]. by apply Hm.
  - apply result_bind_fuel; [by apply check_fuel|done].
Qed.

Lemma observe_fuel_enough fuel request run_id label deadline g :
  adapter_timed → 0 < ac_poll self → fuel ≠ O → deadline - monotonic g < (Z.of_nat fuel - 1) * ac_poll self →
  (observe_loop self fuel request run_id label deadline g).1 ≠ Raise OUT_OF_FUEL.
Proof.
  intros Ht Hp. revert g. induction fuel as [|fuel IH]; intros g Hne Hf; [done|]. cbn [observe_loop]. unfold look_at_job.
  unfold mbind at 1, M_bind at 1, mbind at 1, M_bind at 1.
  match goal with |- context [http_request ?m ?u ?h ?b g] =>
    destruct (td_request Ht m u h b g) as [Hm Hr]; destruct (http_request m u h b g) as [[run|e] g1]; [|by intros [= ->]] end.
  unfold mbind at 1, M_bind at 1.
  match goal with |- context [http_request ?m ?u ?h ?b g1] =>
    destruct (td_request Ht m u h b g1) as [Hm1 Hr1]; destruct (http_request m u h b g1) as [[jobs|e] g2]; [|by intros [= ->]] end.
  cbn [snd] in *. unfold lift. pose proof (read_job_fuel run_id label run jobs) as Hj. destruct (read_job run_id label run jobs) as [[job|]|e]; [done| |by intros [= ->]].
  unfold mbind at 1, M_bind at 1, gets. unfold mbind at 1, M_bind at 1, raise_if, lift, check. destruct (deadline <=? monotonic g2) eqn:Ed; [done|].
  apply Z.leb_gt in Ed. unfold mbind, M_bind. destruct (td_sleep Ht (ac_poll self) g2) as [Hs Hsr]. destruct (sleeper (ac_poll self) g2) as [[[]|e] g3]; [|by intros [= ->]].
  cbn [snd] in *. apply IH; [intros ->; lia|nia].
Qed.

(** The wait for the job ends: a turn for every poll and two more are enough. *)
Lemma observation_ends request run_id label g :
  adapter_timed → 0 < ac_poll self → (observe_exact_job self request run_id label g).1 ≠ Raise OUT_OF_FUEL.
Proof.
  intros Ht Hp. unfold observe_exact_job, mbind at 1, M_bind at 1, raise_if, lift, check. destruct (negb _); [done|].
  unfold mbind, M_bind, gets. apply observe_fuel_enough; [done..|]. unfold observation_turns. rewrite !Nat2Z.inj_succ.
  pose proof (Z.mul_succ_div_gt (ac_timeout self) (ac_poll self) Hp). nia.
Qed.
End watching.

(** ** A toy GitHub

    It keeps a log of requests and one Check Run; the answer to an update may be
    lost.  Other Check Runs answer 404, and a body shows only what the toy can
    write. *)

Definition toy_app : AppAuthorityV1 := {|
  au_owner := "octo"; au_app_id := 11; au_app_slug := "ci-app"; au_repository := "octo/repo"; au_repository_id := 77; au_installation_id := 12;
  au_control_workflow_identity := "control"; au_control_workflow_ref := "refs/heads/main"; au_key_fingerprint := "f"; au_key_version := 1;
  au_rotated_at := 0; au_permissions := MINIMUM_APP_PERMISSIONS; au_version := 1; au_key_active := true |}.
Definition toy_installation : InstallationToken := {|
  it_value := "ghs_t"; it_expires_at := utc (days (ymd2day 2000 1 1) + hours 1); it_repository := "octo/repo"; it_repository_id := 77;
  it_installation_id := 12; it_permissions := MINIMUM_APP_PERMISSIONS |}.
Definition toy_evidence : CheckDelivery :=
  {| cd_check_run_id := 5; cd_evidence_digest := "d"; cd_conclusion := "success"; cd_target_sha := "s" |}.

Record ToyHub := { th_log : list (string * string * dict * option dict); th_run : Stored; th_lost : bool }.
Definition toy_show (run : Stored) : string :=
  let body conclusion head external :=
    json_dumps (VDict [("id", VInt 5); ("conclusion", conclusion); ("head_sha", head); ("external_id", external)]) in
  if bool_decide (run = stored_delivery toy_evidence) then body (VStr "success") (VStr "s") (VStr (delivery_marker toy_evidence))
  else if bool_decide (run = (VNone, VStr "s", VNone)) then body VNone (VStr "s") VNone else "".
Definition toy_scope : pyval := permissions_value MINIMUM_APP_PERMISSIONS.
Definition toy_answers : list (string * (Z * pyval)) :=
  [("/app", (200, VDict [("id", VInt 11); ("slug", VStr "ci-app"); ("owner", VDict [("login", VStr "octo")]); ("permissions", toy_scope)]));
   ("/repos/octo/repo/installation",
    (200, VDict [("id", VInt 12); ("app_id", VInt 11); ("repository_selection", VStr "selected"); ("permissions", toy_scope); ("suspended_at", VNone)]));
   ("/app/installations/12/access_tokens",
    (201, VDict [("token", VStr "ghs_t"); ("expires_at", VStr "2000-01-01T01:00:00Z"); ("permissions", toy_scope);
                 ("repositories", VList [VDict [("id", VInt 77); ("full_name", VStr "octo/repo")]])]));
   ("/repos/octo/repo", (200, VDict [("id", VInt 77); ("full_name", VStr "octo/repo")]))].
Definition toy_answer (url : string) : HTTPResponse :=
  match List.find (λ kv, bool_decide (url = GITHUB_API +:+ kv.1)) toy_answers with
  | Some (_, (status, v)) => {| http_status := status; http_body := json_dumps v |}
  | None => {| http_status := 404; http_body := "" |}
  end.
Definition toy_run_url : string := check_url toy_app (check_path 5).
Definition toy_hub_now : Z := days (ymd2day 2000 1 1).
#[local] Instance ToyHTTP : HTTPTransport ToyHub := {|
  http_request method url headers body := λ g,
    let log := (method, url, headers, body) :: th_log g in
    if bool_decide (url = toy_run_url) then
      match method, body with
      | "GET", _ => (Ok {| http_status := 200; http_body := toy_show (th_run g) |}, {| th_log := log; th_run := th_run g; th_lost := th_lost g |})
      | _, Some payload =>
          let run := updated payload (th_run g) in
          (Ok {| http_status := if th_lost g then 502 else 200; http_body := toy_show run |},
           {| th_log := log; th_run := run; th_lost := th_lost g |})
      | _, None => (Ok {| http_status := 404; http_body := "" |}, {| th_log := log; th_run := th_run g; th_lost := th_lost g |})
      end
    else (Ok (toy_answer url), {| th_log := log; th_run := th_run g; th_lost := th_lost g |});
  http_clock := mret (utc toy_hub_now);
  rs256_sign text := mret "signature";
|}.
#[local] Instance ToyPoll : PollClock ToyHub := {| monotonic _ := 0; sleeper _ := mret tt |}.

Definition toy_runs (id : Z) (g : ToyHub) : Stored := if id =? 5 then th_run g else (VNone, VNone, VNone).
Lemma toy_show_reads run d : _json_mapping (toy_show run) = Ok d → read_fields d = run.
Proof.
  unfold toy_show. case_bool_decide as H1; [subst run; vm_compute; by intros [= <-]|].
  case_bool_decide as H2; [subst run; vm_compute; by intros [= <-]|]. vm_compute. done.
Qed.
Lemma toy_run_url_iff id : github_check_run "octo/repo" id = toy_run_url ↔ id = 5.
Proof.
  split; [|by intros ->]. change toy_run_url with (github_check_run "octo/repo" 5). unfold github_check_run. intros H.
  do 3 apply (inj (String.append _)) in H. by apply str_of_Z_inj.
Qed.
Lemma toy_answer_none id : http_status (toy_answer (github_check_run "octo/repo" id)) = 404.
Proof.
  unfold toy_answer, toy_answers, github_check_run. cbn [List.find].
  rewrite !bool_decide_eq_false_2 by (cbn; discriminate). done.
Qed.
#[local] Instance ToyRuns : CheckRunsApi ToyHub toy_app.
Proof.
  refine {| runs := toy_runs |}.
  - done.
  - intros id body headers g. cbn [http_request ToyHTTP au_repository toy_app]. unfold toy_runs. case_bool_decide as Hu.
    + apply toy_run_url_iff in Hu as ->. cbn [th_run Z.eqb]. split_and!; [|by right|].
      * intros id' Hne. by rewrite (proj2 (Z.eqb_neq id' 5) Hne).
      * intros _. split; [done|]. apply toy_show_reads.
    + cbn [th_run]. split_and!; [done|by left|]. rewrite toy_answer_none. done.
  - intros id headers g. cbn [http_request ToyHTTP au_repository toy_app]. unfold toy_runs. case_bool_decide as Hu.
    + apply toy_run_url_iff in Hu as ->. cbn [th_run Z.eqb]. split; [done|]. intros _. apply toy_show_reads.
    + cbn [th_run]. split; [done|]. rewrite toy_answer_none. done.
Defined.

Definition toy_hub (lost : bool) : ToyHub := {| th_log := []; th_run := (VNone, VStr "s", VNone); th_lost := lost |}.
Lemma github_delivery_once_witness :
  (deliver_exact (H := github_checks toy_installation toy_app) toy_evidence (toy_hub true)).1 = Ok "reconciled" ∧
  runs 5 (deliver_exact (H := github_checks toy_installation toy_app) toy_evidence (toy_hub true)).2 = stored_delivery toy_evidence.
Proof.
  destruct (deliver_exact (H := github_checks toy_installation toy_app) toy_evidence (toy_hub true)) as [r g'] eqn:E.
  destruct (github_delivery_once (Api := ToyRuns) toy_installation toy_app toy_evidence (toy_hub true) r g' E) as (_ & _ & Hr & _).
  assert (r = Ok "reconciled") as -> by (revert E; vm_compute; intros [= <- _]; reflexivity). exact (conj eq_refl (proj2 Hr)).
Defined.

(** The evidence of one head reaches the Check Run of another before the answer
    shows it: the update names no head. *)
Definition toy_other_head : CheckDelivery :=
  {| cd_check_run_id := 5; cd_evidence_digest := "d"; cd_conclusion := "success"; cd_target_sha := "t" |}.
Example other_head_written :
  let '(r, g) := deliver_exact (H := github_checks toy_installation toy_app) toy_other_head (toy_hub false) in
  is_ok r = false ∧ runs 5 g = (VStr "success", VStr "s", VStr (delivery_marker toy_other_head)).
Proof. vm_compute. by split. Qed.

Definition toy_identity : RuntimeIdentity :=
  {| ri_role := "coordinator"; ri_workflow_identity := "control"; ri_workflow_ref := "refs/heads/main"; ri_reviewed_default_branch_code := true |}.
Definition toy_mint : MintRequest := {|
  mr_app_id := 11; mr_installation_id := 12; mr_repository := "octo/repo"; mr_repository_id := 77; mr_permissions := MINIMUM_APP_PERMISSIONS;
  mr_ttl_seconds := 600; mr_memory_only := true; mr_masked := true; mr_export_to_children := false; mr_persist := false |}.
Lemma minted_token_bounded_witness : ∃ t,
  (mint_token toy_app toy_identity toy_mint (toy_hub false)).1 = Ok t ∧ it_value t = "ghs_t" ∧
  installation_current t toy_app (utc toy_hub_now) = Ok tt ∧ installation_current t toy_app (utc (toy_hub_now + minutes 10)) ≠ Ok tt.
Proof.
  destruct (mint_token toy_app toy_identity toy_mint (toy_hub false)) as [[t|e] g'] eqn:E; [|exfalso; revert E; vm_compute; discriminate].
  destruct (minted_token_bounded toy_app toy_identity toy_mint (toy_hub false) t g' eq_refl E)
    as (_ & _ & _ & _ & _ & zone & now & g1 & jwt & g2 & app & g3 & inst & g4 & scope & server & g5 & repo & Hc & _ & _ & _ & _ & _ & _ & Hg & _ & _ & _ & Hlo & Hl).
  exists t. split; [reflexivity|]. injection Hc as _ <- _. split; [revert E; vm_compute; intros [= <- _]; reflexivity|].
  split; [apply (proj1 (Hl toy_hub_now)); lia|]. intros H. apply (proj1 (Hl _)) in H. cbn [mr_ttl_seconds toy_mint] in H.
  unfold minutes, seconds in *. lia.
Defined.

Definition toy_actions_transport : ActionsTransport := {|
  ac_token := {| at_value := "gha"; at_repository := "octo/repo"; at_workflow_identity := "control"; at_workflow_ref := "refs/heads/main";
                 at_permissions := ACTIONS_TOKEN_PERMISSIONS |};
  ac_timeout := seconds 30; ac_poll := seconds 1 |}.
Lemma toy_minted request now minted :
  (scope ← _expected_json (toy_answer (GITHUB_API +:+ "/app/installations/12/access_tokens")) 201; parse_token toy_app scope request now) = Ok minted →
  it_value minted = "ghs_t".
Proof.
  intros (scope & Hs & Hp)%result_bind_ok. revert Hs. vm_compute (_expected_json _ _). intros [= <-].
  apply parse_token_ok in Hp as (_ & server & Hg & _). pose proof (gr_token _ _ _ _ Hg) as Ht. 
  assert (VStr "ghs_t" = VStr (it_value minted)) as [= <-] by exact Ht. done.
Qed.
(** What may be added to the log. *)
Definition hub_may (entry : string * string * dict * option dict) : Prop :=
  let '(method, url, headers, body) := entry in
  may_send toy_app toy_actions_transport toy_installation method url headers body ∨
  entry = ("GET", "https://api.github.com/repos/octo/repo", api_headers "ghs_t", None).
Definition hub_lawful (g g' : ToyHub) : Prop := ∃ more, th_log g' = more ++ th_log g ∧ Forall hub_may more.
#[local] Instance hub_lawful_preorder : PreOrder hub_lawful.
Proof.
  split; [by intros g; exists [] |]. intros a b c (m & Hb & Hm) (n & Hc & Hn). exists (n ++ m).
  by rewrite Hc, Hb, <- app_assoc, Forall_app.
Qed.
Lemma credentials_confined_witness :
  let g := (adapter_call toy_app toy_actions_transport toy_installation (CallMint toy_identity toy_mint) (toy_hub false)).2 in
  length (th_log g) = 4%nat ∧ hub_lawful (toy_hub false) g.
Proof.
  split; [vm_compute; reflexivity|]. apply (credentials_confined toy_app toy_actions_transport toy_installation hub_lawful).
  - intros method url headers body H g. cbn [http_request ToyHTTP]. exists [(method, url, headers, body)]. split; [|by apply Forall_singleton; left].
    case_bool_decide; [|done]. repeat case_match; done.
  - intros headers response request now minted g g1 _ Ha Hm.
    assert (response = toy_answer (GITHUB_API +:+ "/app/installations/12/access_tokens")) as ->.
    { revert Ha. cbn [http_request ToyHTTP]. rewrite bool_decide_eq_false_2 by (vm_compute; discriminate). by intros [= <- _]. }
    exists [("GET", "https://api.github.com/repos/octo/repo", api_headers "ghs_t", None)]. split; [|by apply Forall_singleton; right].
    rewrite (toy_minted _ _ _ Hm). reflexivity.
  - intros g. reflexivity.
  - intros text g. reflexivity.
  - intros d g. reflexivity.
Defined.
