(* ===== verification/BootstrapBoundary.v ===== *)
(** * The bootstrap boundary (bootstrap_boundary.py)

    The signed document that lets the host install the inert runner material:
    two collected observations, of Windows and of the distribution, and the
    public manifest of what is installed, each bound by its digest. *)

From stdpp Require Import sorting.
From S2P Require Import Prelude Datetime PyValue PyText Json Digest Jcs Signatures Allocation CanaryBoundary HostSecurity RunnerBoundary.
#[local] Open Scope Z_scope.

Definition BOOTSTRAP_ATTESTATION_DOMAIN : string := "self-hosted-ci/wsl-jit-bootstrap-boundary/v1".
Definition EXPECTED_DISTRO : string := "Ubuntu-24.04-CI".
Definition EXPECTED_BASE_PATH : string := "C:\ProgramData\self-hosted-ci\wsl".
Definition EXPECTED_SOFTWARE : dict :=
  [("incus", VDict [("version", VStr "6.0.0-1ubuntu0.3")]);
   ("garm", VDict [("version", VStr "0.2.1");
                   ("artifact_sha256", VStr "11176acb8a725f914b9b947891b4837d374fb616195562cc0ad45a7be8b6c746");
                   ("binary_sha256", VStr "b04fda186bfa0c98a902a3bb7525987217565681ec33b553921945dbb574b87e")]);
   ("garm-cli", VDict [("version", VStr "0.2.1");
                       ("artifact_sha256", VStr "983fa54557f3f5ce3aa1eeb2387499f5f823d14512a0559ba888667bc3b3e88e");
                       ("binary_sha256", VStr "a973c9061cf7962b4f90c8220ed6f6cc8abeeed20780ea8b9e31ce6dfc99bd9b")]);
   ("garm-provider-incus", VDict [("version", VStr "0.1.5");
                                  ("artifact_sha256", VStr "1489b5f9b3f01528e338c604c13dabe8321ed6f1bc6de77c7344119d7731c43f");
                                  ("binary_sha256", VStr "0fe2c592cece494ad5fc6a6fe05ef2e621fb5d47fb03cc472c2b1d6739428891")])].
Definition AUTHORIZATION : dict :=
  [("operation", VStr "provision-wsl-jit-contract"); ("mode", VStr "inert-only"); ("activation_authorized", VBool false);
   ("github_contact_authorized", VBool false); ("runtime_ready_authorized", VBool false); ("runner_registration_authorized", VBool false)].
Definition WINDOWS_TOP_LEVEL : list string :=
  ["schema"; "schema_version"; "observed_at"; "collector_identity_sid"; "expected"; "observations"; "checks"; "contract_satisfied";
   "side_effects"].
Definition WSL_TOP_LEVEL : list string :=
  ["schema_version"; "collector"; "observed_at"; "expected_distro"; "collection_status"; "observations"; "probe_errors"].
Definition MAX_OBSERVATION_AGE_SECONDS : Z := 900.
Definition MAX_OBSERVATION_SKEW_SECONDS : Z := 120.
Definition MAX_FUTURE_SKEW_SECONDS : Z := 30.
Definition BOOTSTRAP_TTL_SECONDS : Z := 600.
Definition PUBLIC_MANIFEST_ARTIFACT_COUNT : nat := 100.
Definition PUBLIC_MANIFEST_MAPPING_DIGEST : string := "3ecc3ac15be2f066c21abdb77ed986d21855eeadceee89bf8880db5fb3979fc1".

Record BootstrapBoundaryDecision := { bd_authorized : bool; bd_blockers : list string }.
Definition boot_refuse {A} (msg : string) : result A := throw BootstrapBoundaryError msg.
Definition boot_refuse_if (b : bool) (msg : string) : result unit := check b BootstrapBoundaryError msg.

(** ** Shapes *)

(** [S-1-[0-9]+(?:-[0-9]+)+]: numbers after the prefix, two at least. *)
Fixpoint split_on (c : ascii) (s : string) : list string :=
  match s with
  | EmptyString => [""]
  | String a s => if Ascii.eqb a c then "" :: split_on c s
                  else match split_on c s with p :: ps => String a p :: ps | [] => [String a ""] end
  end.
Definition is_sid (s : string) : bool :=
  match strip_prefix "S-1-" s with
  | Some rest => let numbers := split_on "-" rest in (2 <=? length numbers)%nat && forallb (match_some is_digit) numbers
  | None => false
  end.
(** [\{[0-9a-fA-F]{8}(?:-[0-9a-fA-F]{4}){3}-[0-9a-fA-F]{12}\}] *)
Definition is_hex (c : ascii) : bool := is_lower_hex c || in_range "A" "F" c.
Definition is_guid (s : string) : bool :=
  match s with
  | String open rest =>
      Ascii.eqb open "{" &&
      match split_on "-" rest with
      | [a; b; c; d; e] =>
          match_exactly 8 is_hex a && match_exactly 4 is_hex b && match_exactly 4 is_hex c && match_exactly 4 is_hex d &&
          (String.length e =? 13)%nat && all_chars is_hex (String.substring 0 12 e) && bool_decide (String.substring 12 1 e = "}")
      | _ => false
      end
  | EmptyString => false
  end.
Example guid_shape : is_guid "{01234567-89AB-cdef-0123-456789abcdef}" = true ∧ is_guid "{01234567-89AB-cdef-0123-456789abcdeff" = false.
Proof. by vm_compute. Qed.

(** [_mapping], and [get] of what it returns. *)
Definition _mapping (v : pyval) : option dict := match v with VDict d => Some d | _ => None end.
Definition of_mapping (k : string) (o : option dict) : pyval := match o with Some d => dget k d | None => VNone end.
(** [o is not None and set(o) == fields] *)
Definition has_fields (fields : list string) (o : option dict) : bool :=
  match o with Some d => same_set (dkeys d) fields | None => false end.
(** [value.get(k) == v] for each of the pairs, and the value itself equal. *)
Definition has_pairs (d : dict) (o : option dict) : bool := forallb (λ kv, py_eq (of_mapping kv.1 o) kv.2) d.
Definition equals (d : dict) (o : option dict) : bool := match o with Some e => py_eq (VDict e) (VDict d) | None => false end.
Definition _exact_false_map (keys : list string) (d : dict) : bool :=
  same_set (dkeys d) keys && forallb (λ k, is_false (dget k d)) keys.

(** [any(...)], which stops at the first that holds, and [a or b]. *)
Fixpoint any_of {A} (f : A → result bool) (l : list A) : result bool :=
  match l with [] => Ok false | x :: l => b ← f x; if (b : bool) then Ok true else any_of f l end.
Definition or_else (a : bool) (b : result bool) : result bool := if a then Ok true else b.
(** The same values, as sets. *)
Definition same_values (a b : list pyval) : bool :=
  forallb (λ x, existsb (py_eq x) b) a && forallb (λ y, existsb (py_eq y) a) b.

(** ** The clock *)

(** [_now] *)
Definition boot_now (value : datetime) : result Z :=
  match value with Naive _ => boot_refuse "bootstrap clock must be timezone-aware" | Aware _ t => Ok t end.
(** [_timestamp] *)
Definition boot_timestamp (value : pyval) (field : string) : result Z :=
  match value with
  | VStr s =>
      parsed ← rewrap (λ c, bool_decide (c = ValueError)) BootstrapBoundaryError (field +:+ " is invalid")
                 (fromisoformat (match chop_z s with Some body => body +:+ "+00:00" | None => s end));
      boot_refuse_if (negb (is_utc parsed)) (field +:+ " must be UTC");;
      Ok (instant parsed)
  | _ => boot_refuse (field +:+ " must be canonical UTC")
  end.
(** [_format_timestamp] *)
Definition format_timestamp (t : Z) : string := str_replace "+00:00" "Z" (isoformat t).

Definition age_blockers (name : string) (now observed : Z) : list string :=
  let age := now - observed in
  if age <? - seconds MAX_FUTURE_SKEW_SECONDS then [name +:+ "-observation-from-future"]
  else block_if (seconds MAX_OBSERVATION_AGE_SECONDS <? age) (name +:+ "-observation-stale").
(** [except BootstrapBoundaryError as exc: return (str(exc),)] *)
Definition is_boot_error (c : exn_class) : bool := bool_decide (c = BootstrapBoundaryError).
Definition observation_time_blockers (windows wsl : dict) (now : Z) : result (list string) :=
  match
    windows_at ← boot_timestamp (dget "observed_at" windows) "windows observed_at";
    wsl_at ← boot_timestamp (dget "observed_at" wsl) "wsl observed_at";
    Ok (windows_at, wsl_at)
  with
  | Ok (windows_at, wsl_at) =>
      Ok (age_blockers "windows" now windows_at ++ age_blockers "wsl" now wsl_at
          ++ block_if (seconds MAX_OBSERVATION_SKEW_SECONDS <? Z.abs (windows_at - wsl_at)) "observation-pair-skew")
  | Raise e => if is_boot_error (exn_cls e) then Ok [exn_msg e] else Raise e
  end.

(** ** The Windows observation *)

Definition EXPECTED_FIELDS : list string := ["service_account"; "service_sid"; "distro_name"; "base_path"; "wsl_version"].
Definition SIDE_EFFECTS : dict :=
  [("scheduled_task_created", VBool false); ("password_rotated", VBool false); ("wsl_started", VBool false); ("github_contacted", VBool false);
   ("runner_registration_changed", VBool false); ("evidence_file_created", VBool true)].
Definition expected_boundary (expected : option dict) : bool :=
  has_pairs [("service_account", VStr "selfhosted-ci-svc"); ("distro_name", VStr EXPECTED_DISTRO); ("base_path", VStr EXPECTED_BASE_PATH);
          ("wsl_version", VInt 2)] expected
  && is_str_where is_sid (of_mapping "service_sid" expected).
Definition is_satisfied (v : pyval) : bool :=
  match v with
  | VDict c => same_set (dkeys c) ["status"; "reason"] && py_eq (dget "status" c) (VStr "satisfied")
               && is_str_where (λ _, true) (dget "reason" c)
  | _ => false
  end.
Definition ACCOUNT_FIELDS : list string := ["name"; "sid"; "enabled"; "principal_source"; "effective_administrator"].
Definition service_identity (account : option dict) (service_sid : pyval) : bool :=
  has_fields ACCOUNT_FIELDS account
  && has_pairs [("name", VStr "selfhosted-ci-svc"); ("sid", service_sid); ("principal_source", VStr "Local")] account
  && is_true (of_mapping "enabled" account) && is_false (of_mapping "effective_administrator" account).
Definition registration_details (match_ : option dict) (service_sid : pyval) : bool :=
  has_fields ["key"; "distribution_name"; "version"; "base_path"; "owner_sid"] match_
  && has_pairs [("distribution_name", VStr EXPECTED_DISTRO); ("version", VInt 2); ("base_path", VStr EXPECTED_BASE_PATH);
             ("owner_sid", service_sid)] match_
  && is_str_where is_guid (of_mapping "key" match_).
Definition registration_blockers (registration : option dict) (service_sid : pyval) : list string :=
  let sound := has_fields ["accessible"; "exact_match_count"; "matches"; "error"] registration
               && is_true (of_mapping "accessible" registration) && py_eq (of_mapping "exact_match_count" registration) (VInt 1)
               && is_none (of_mapping "error" registration) in
  match sound, of_mapping "matches" registration with
  | true, VList [found] => block_if (negb (registration_details (_mapping found) service_sid)) "windows-wsl-registration-details"
  | _, _ => ["windows-wsl-registration"]
  end.

(** One rule of the access list, and what it grants. *)
Definition RULE_FIELDS : list string := ["sid"; "type"; "rights"; "inherited"; "inheritance_flags"; "propagation_flags"].
Definition rule_wrong (allowed : list pyval) (rule : pyval) : result bool :=
  match rule with
  | VDict r =>
      if negb (same_set (dkeys r) RULE_FIELDS) then Ok true
      else
        known ← py_in_set (dget "sid" r) allowed;
        Ok (negb known || negb (has_pairs [("type", VStr "Allow"); ("rights", VStr "FullControl");
                                        ("inheritance_flags", VStr "ContainerInherit, ObjectInherit");
                                        ("propagation_flags", VStr "None")] (Some r))
            || negb (is_false (dget "inherited" r)))
  | _ => Ok true
  end.
Definition rule_sid (rule : pyval) : pyval := of_mapping "sid" (_mapping rule).
Definition base_path_blockers (base_path : option dict) (service_sid : pyval) : result (list string) :=
  let acl := _mapping (of_mapping "acl" base_path) in
  let allowed := [VStr "S-1-5-18"; VStr "S-1-5-32-544"; service_sid] in
  check (negb (hashable service_sid)) TypeError "unhashable type";;
  let sound := has_fields ["exists"; "canonical_path"; "reparse_free"; "acl"; "error"] base_path
               && is_true (of_mapping "exists" base_path) && py_eq (of_mapping "canonical_path" base_path) (VStr EXPECTED_BASE_PATH)
               && is_true (of_mapping "reparse_free" base_path) && is_none (of_mapping "error" base_path)
               && has_fields ["owner_sid"; "inheritance_protected"; "rules"] acl
               && py_eq (of_mapping "owner_sid" acl) (VStr "S-1-5-32-544") && is_true (of_mapping "inheritance_protected" acl) in
  match sound, of_mapping "rules" acl with
  | true, VList rules =>
      if (length rules =? 3)%nat then
        wrong ← any_of (rule_wrong allowed) rules;
        Ok (block_if (wrong || negb (same_values (rule_sid <$> rules) allowed)) "windows-base-path-acl")
      else Ok ["windows-base-path-boundary"]
  | _, _ => Ok ["windows-base-path-boundary"]
  end.

(** A mapping with exactly these fields, or none. *)
Definition exact_mapping (fields : list string) (v : pyval) : option dict :=
  match v with VDict d => if same_set (dkeys d) fields then Some d else None | _ => None end.
Definition OBSERVATION_FIELDS : list string := ["account"; "registration"; "base_path"].
Definition windows_observation_blockers (value : dict) : result (list string) :=
  if negb (same_set (dkeys value) WINDOWS_TOP_LEVEL) then Ok ["windows-schema-fields"]
  else
    let expected := exact_mapping EXPECTED_FIELDS (dget "expected" value) in
    let service_sid := of_mapping "service_sid" expected in
    let observations := exact_mapping OBSERVATION_FIELDS (dget "observations" value) in
    let checks_held := match dget "checks" value with VDict (kv :: checks) => forallb (λ kv, is_satisfied kv.2) (kv :: checks) | _ => false end in
    path ← base_path_blockers (_mapping (of_mapping "base_path" observations)) service_sid;
    Ok (first_occurrences
      (block_if (negb (has_pairs [("schema", VStr "self-hosted-ci/windows-wsl-semantic-contract"); ("schema_version", VInt 1)] (Some value)))
         "windows-schema-version"
       ++ block_if (negb (is_true (dget "contract_satisfied" value))) "windows-contract-unsatisfied"
       ++ block_if (bool_decide (expected = None)) "windows-expected-schema"
       ++ block_if (negb (expected_boundary expected)) "windows-expected-boundary"
       ++ block_if (negb checks_held) "windows-checks-unsatisfied"
       ++ block_if (negb (equals SIDE_EFFECTS (_mapping (dget "side_effects" value)))) "windows-collector-side-effects"
       ++ block_if (bool_decide (observations = None)) "windows-observations-schema"
       ++ block_if (negb (service_identity (_mapping (of_mapping "account" observations)) service_sid)) "windows-service-identity"
       ++ registration_blockers (_mapping (of_mapping "registration" observations)) service_sid
       ++ path)).

(** ** The observation of the distribution *)

(** [str(setting).lower() == "false"] *)
Definition reads_false (v : pyval) : bool :=
  match v with VBool false => true | VStr s => bool_decide (lower_ascii s = "false") | _ => false end.
Definition is_digest_text (v : pyval) : bool := is_str_where is_sha256 v.
Definition mapping_values (o : option dict) : list pyval := match o with Some d => d.*2 | None => [] end.
Definition values_where (test : pyval → bool) (o : option dict) : bool :=
  match o with Some d => forallb (λ kv, test kv.2) d | None => false end.

Definition WSL_SETTINGS : list string := ["automount.enabled"; "automount.mountfstab"; "interop.enabled"; "interop.appendwindowspath"].
Definition config_boundary (v : pyval) : bool :=
  let boundary := _mapping v in
  let wsl_conf := _mapping (of_mapping "wsl_conf" boundary) in
  let settings := _mapping (of_mapping "settings" wsl_conf) in
  has_fields ["distro_environment_matches"; "wsl_conf"] boundary && is_true (of_mapping "distro_environment_matches" boundary)
  && has_fields ["readable"; "sha256"; "settings"] wsl_conf && is_true (of_mapping "readable" wsl_conf)
  && is_digest_text (of_mapping "sha256" wsl_conf) && has_fields WSL_SETTINGS settings && values_where reads_false settings.

Definition is_zero (v : pyval) : bool := py_eq v (VInt 0).
Definition MOUNT_CLASSES : list string := ["drvfs"; "windows_drive_target"; "docker_desktop"; "wsl_shared"].
Definition mount_boundary (v : pyval) : bool :=
  let mounts := _mapping v in
  let counts := _mapping (of_mapping "mount_class_counts" mounts) in
  has_fields ["mount_class_counts"; "wsl_interop"; "windows_path_entry_count"] mounts && has_fields MOUNT_CLASSES counts
  && values_where is_zero counts
  && equals [("present", VBool false); ("enabled", VBool false)] (_mapping (of_mapping "wsl_interop" mounts))
  && is_zero (of_mapping "windows_path_entry_count" mounts).

Definition CREDENTIAL_SURFACES : list string :=
  ["docker_socket"; "docker_desktop_socket"; "persistent_actions_runner"; "garm_control_credentials"; "github_or_authority_private_keys";
   "ssh_agent_socket"; "private_or_deploy_key_candidates"; "persistent_actions_runner_service_unit"; "recursive_credential_candidates"].
Definition no_credentials (v : pyval) : bool :=
  match _mapping v with Some d => _exact_false_map CREDENTIAL_SURFACES d | None => false end.

(** [isinstance(v, int) and v > 0]: true is such an int. *)
Definition is_positive (v : pyval) : bool := match v with VInt n => 0 <? n | VBool b => b | _ => false end.
Definition FORBIDDEN_GROUPS : list string := ["sudo"; "admin"; "wheel"; "incus"; "incus-admin"].
Definition MANAGER_FIELDS : list string := ["present"; "uid"; "gid"; "primary_group"; "supplementary_groups"; "home"; "shell"].
(** [forbidden.intersection(groups)] hashes every group. *)
Definition meets (forbidden : list string) (groups : list pyval) : result bool :=
  check (negb (forallb hashable groups)) TypeError "unhashable type";;
  Ok (existsb (λ g, existsb (py_eq g) (text_set forbidden)) groups).
Definition identity_wrong (v : pyval) : result bool :=
  let identities := _mapping v in
  let manager := _mapping (of_mapping "garm-manager" identities) in
  or_else (negb (has_fields ["garm-manager"] identities && has_fields MANAGER_FIELDS manager && is_true (of_mapping "present" manager)
                 && is_positive (of_mapping "uid" manager) && is_positive (of_mapping "gid" manager)
                 && py_eq (of_mapping "home" manager) (VStr "/var/lib/garm")))
    (shell ← py_in_set (of_mapping "shell" manager) (text_set ["/usr/sbin/nologin"; "/bin/false"]);
     or_else (negb shell)
       (match of_mapping "supplementary_groups" manager with VList groups => meets FORBIDDEN_GROUPS groups | _ => Ok true end)).

Definition REQUIRED_PACKAGES : list string := ["dnsmasq-base"; "e2fsprogs"; "incus"; "nftables"; "squid"; "util-linux"].
Definition is_installed (v : pyval) : bool :=
  match v with
  | VDict p => same_set (dkeys p) ["installed"; "version"] && is_true (dget "installed" p) && is_nonempty_str (dget "version" p)
  | _ => false
  end.
Definition packages_sound (packages : option dict) : bool :=
  has_fields REQUIRED_PACKAGES packages && values_where is_installed packages
  && py_eq (of_mapping "version" (_mapping (of_mapping "incus" packages))) (of_mapping "version" (_mapping (dget "incus" EXPECTED_SOFTWARE))).
Definition BINARIES : list string := ["garm"; "garm-cli"; "garm-provider-incus"; "incus"; "nft"; "squid"].
Definition is_present_binary (v : pyval) : bool :=
  match v with
  | VDict b => same_set (dkeys b) ["path"; "present"; "sha256"] && is_true (dget "present" b) && is_digest_text (dget "sha256" b)
  | _ => false
  end.
Definition pinned_binary (name : string) : pyval := of_mapping "binary_sha256" (_mapping (dget name EXPECTED_SOFTWARE)).
(** What is no mapping has no [get], and its pin is asked for all the same. *)
Definition binary_blockers (name : string) (item : pyval) : result (list string) :=
  let present := block_if (negb (is_present_binary item)) ("wsl-binary:" +:+ name) in
  if is_none (pinned_binary name) then Ok present
  else
    match item with
    | VDict b => Ok (present ++ block_if (negb (py_eq (dget "sha256" b) (pinned_binary name))) ("wsl-binary-pin:" +:+ name))
    | _ => throw AttributeError "object has no attribute 'get'"
    end.
Fixpoint each_binary (binaries : dict) : result (list string) :=
  match binaries with
  | [] => Ok []
  | (name, item) :: binaries => here ← binary_blockers name item; rest ← each_binary binaries; Ok (here ++ rest)
  end.
Definition software_blockers (v : pyval) : result (list string) :=
  let software := _mapping v in
  let packages := _mapping (of_mapping "packages" software) in
  let binaries := exact_mapping BINARIES (of_mapping "binaries" software) in
  each ← match binaries with Some d => each_binary d | None => Ok ["wsl-binaries-schema"] end;
  Ok (block_if (negb (has_fields ["expected_pins"; "packages"; "binaries"] software)) "wsl-software-schema"
      ++ block_if (negb (py_eq (of_mapping "expected_pins" software) (VDict EXPECTED_SOFTWARE))) "wsl-software-pins"
      ++ block_if (negb (packages_sound packages)) "wsl-packages"
      ++ each).

Definition texts (l : list (string * string)) : dict := (λ kv, (kv.1, VStr kv.2)) <$> l.
Definition REQUIRED_PROJECT : dict := texts
  [("features.images", "false"); ("features.profiles", "true"); ("features.storage.volumes", "true"); ("restricted", "true");
   ("restricted.containers.privilege", "isolated"); ("restricted.containers.nesting", "block"); ("restricted.containers.lowlevel", "block");
   ("restricted.devices.disk", "managed"); ("restricted.devices.nic", "managed"); ("restricted.networks.access", "ci-jit-isolated");
   ("limits.instances", "1"); ("limits.containers", "1"); ("limits.virtual-machines", "0"); ("limits.cpu", "2"); ("limits.memory", "4GiB");
   ("limits.processes", "2048"); ("limits.disk", "12GiB")].
Definition REQUIRED_PROFILE : dict := texts
  [("security.privileged", "false"); ("security.nesting", "false"); ("security.idmap.isolated", "true"); ("limits.cpu", "2");
   ("limits.memory", "4GiB"); ("limits.processes", "2048")].
Definition REQUIRED_BRIDGE : dict := texts
  [("ipv4.address", "10.254.0.1/28"); ("ipv4.dhcp", "true"); ("ipv4.dhcp.ranges", "10.254.0.2-10.254.0.14");
   ("ipv4.dhcp.gateway", "10.254.0.1"); ("ipv4.routing", "false"); ("ipv4.nat", "false"); ("ipv4.firewall", "false");
   ("ipv6.address", "none"); ("ipv6.routing", "false"); ("ipv6.nat", "false"); ("ipv6.firewall", "false"); ("dns.mode", "none")].
Definition REQUIRED_DEVICES : dict :=
  [("root", VDict (texts [("path", "/"); ("pool", "ci-jit-dedicated"); ("size", "12GiB"); ("type", "disk")]));
   ("eth0", VDict (texts [("name", "eth0"); ("network", "ci-jit-isolated"); ("security.ipv4_filtering", "false");
                          ("security.ipv6_filtering", "false"); ("security.mac_filtering", "false"); ("type", "nic")]))].
Definition no_instances (v : pyval) : bool :=
  let instances := _mapping v in
  has_fields ["observable"; "count"; "names_sha256"] instances && is_true (of_mapping "observable" instances)
  && is_zero (of_mapping "count" instances) && is_digest_text (of_mapping "names_sha256" instances).
Definition incus_blockers (v : pyval) : list string :=
  match exact_mapping ["project"; "profile"; "storage"; "bridge"; "instances"] v with
  | None => ["wsl-incus-schema"]
  | Some incus =>
      let stands k d := equals (("present", VBool true) :: d) (_mapping (dget k incus)) in
      block_if (negb (stands "project" [("config", VDict REQUIRED_PROJECT)])) "wsl-incus-project"
      ++ block_if (negb (stands "profile" [("config", VDict REQUIRED_PROFILE); ("devices", VDict REQUIRED_DEVICES)])) "wsl-incus-profile"
      ++ block_if (negb (stands "storage" [("config", VDict (texts [("source", "/var/lib/self-hosted-ci/incus-storage/ci-jit/pool")]));
                                       ("driver", VStr "dir")])) "wsl-incus-storage"
      ++ block_if (negb (stands "bridge" [("config", VDict REQUIRED_BRIDGE); ("type", VStr "bridge")])) "wsl-incus-bridge"
      ++ block_if (negb (no_instances (dget "instances" incus))) "wsl-incus-instances"
  end.

Definition is_bool (v : pyval) : bool := match v with VBool _ => true | _ => false end.
Definition is_int (v : pyval) : bool := match v with VInt _ | VBool _ => true | _ => false end.
Definition is_list (v : pyval) : bool := match v with VList _ => true | _ => false end.
Definition network_observed (v : pyval) : bool :=
  let network := _mapping v in
  let nftables := _mapping (of_mapping "nftables" network) in
  let listeners := _mapping (of_mapping "expected_listeners" network) in
  let resolver := _mapping (of_mapping "resolver_classes" network) in
  has_fields ["nftables"; "expected_listeners"; "resolver_classes"] network
  && has_fields ["observable"; "table_names"; "rule_count"; "canonical_sha256"] nftables && is_true (of_mapping "observable" nftables)
  && is_list (of_mapping "table_names" nftables) && is_int (of_mapping "rule_count" nftables)
  && is_digest_text (of_mapping "canonical_sha256" nftables)
  && has_fields ["dns"; "egress-proxy"; "garm-proxy"] listeners && values_where is_bool listeners
  && has_fields ["loopback"; "private"; "public"; "link_local"; "invalid"] resolver && values_where is_natural resolver
  && is_zero (of_mapping "invalid" resolver).

Definition service_wrong (service : pyval) : result bool :=
  match service with
  | VDict s =>
      if negb (same_set (dkeys s) ["active"; "enabled"]) then Ok true
      else
        active ← py_in_set (dget "active" s) (text_set ["inactive"; "failed"; "unknown"]);
        or_else (negb active) (enabled ← py_in_set (dget "enabled" s) (text_set ["disabled"; "not-found"]); Ok (negb enabled))
  | _ => Ok true
  end.
Definition health_sound (health : option dict) : bool :=
  has_fields ["observable"; "zero_scale_sets"; "configured_target_count"] health
  && (equals [("observable", VBool false); ("zero_scale_sets", VNone); ("configured_target_count", VNone)] health
      || is_true (of_mapping "observable" health) && is_true (of_mapping "zero_scale_sets" health)
         && is_zero (of_mapping "configured_target_count" health)).
Definition GARM_FIELDS : list string :=
  ["services"; "process_count"; "health_state"; "state_database_present"; "persistent_runner_registration_present"].
Definition garm_wrong (v : pyval) : result bool :=
  let garm := _mapping v in
  let services := _mapping (of_mapping "services" garm) in
  or_else (negb (has_fields GARM_FIELDS garm && has_fields ["garm.service"; "self-hosted-ci-garm.service"] services))
    (wrong ← any_of service_wrong (mapping_values services);
     Ok (wrong || negb (is_zero (of_mapping "process_count" garm) && is_false (of_mapping "state_database_present" garm)
                        && is_false (of_mapping "persistent_runner_registration_present" garm)
                        && health_sound (_mapping (of_mapping "health_state" garm))))).

Definition WSL_OBSERVATIONS : list string :=
  ["wsl_boundary"; "mounts_and_interop"; "credential_surfaces"; "linux_identities"; "software"; "incus"; "network"; "garm"].
Definition wsl_observation_blockers (value : dict) : result (list string) :=
  if negb (same_set (dkeys value) WSL_TOP_LEVEL) then Ok ["wsl-schema-fields"]
  else
    let head :=
      block_if (negb (has_pairs [("schema_version", VInt 1); ("collector", VStr "wsl-jit-semantic-observations")] (Some value))) "wsl-schema-version"
      ++ block_if (negb (has_pairs [("expected_distro", VStr EXPECTED_DISTRO); ("collection_status", VStr "complete");
                                 ("probe_errors", VList [])] (Some value))) "wsl-collection-incomplete" in
    match exact_mapping WSL_OBSERVATIONS (dget "observations" value) with
    | None => Ok (first_occurrences (head ++ ["wsl-observations-schema"]))
    | Some o =>
        identity ← identity_wrong (dget "linux_identities" o);
        software ← software_blockers (dget "software" o);
        garm ← garm_wrong (dget "garm" o);
        Ok (first_occurrences
          (head ++ block_if (negb (config_boundary (dget "wsl_boundary" o))) "wsl-config-boundary"
           ++ block_if (negb (mount_boundary (dget "mounts_and_interop" o))) "wsl-mount-or-interop-boundary"
           ++ block_if (negb (no_credentials (dget "credential_surfaces" o))) "wsl-credential-surface"
           ++ block_if identity "wsl-linux-identity" ++ software ++ incus_blockers (dget "incus" o)
           ++ block_if (negb (network_observed (dget "network" o))) "wsl-network-observation"
           ++ block_if garm "wsl-garm-inert-state"))
    end.

(** ** The public manifest *)

Definition is_mode (s : string) : bool := match s with String c rest => Ascii.eqb c "0" && match_exactly 3 (in_range "0" "7") rest | _ => false end.
Definition ARTIFACT_KEYS : list string := ["source"; "target"; "mode"; "sha256"; "size"].
(** What an artifact maps: its source, target and mode. *)
Definition artifact_pair (item : pyval) : option (string * string * string) :=
  match item with
  | VDict a =>
      match dget "source" a, dget "target" a, dget "mode" a with
      | VStr source, VStr target, VStr mode =>
          if same_set (dkeys a) ARTIFACT_KEYS && negb (is_absolute source) && bool_decide (".." ∉ path_parts source) && nonempty target
             && is_mode mode && is_digest_text (dget "sha256" a) && is_natural (dget "size" a)
          then Some (source, target, mode) else None
      | _, _, _ => None
      end
  | _ => None
  end.
Definition pair_le (p q : string * string * string) : Prop :=
  let '(s, t, _) := p in let '(s', t', _) := q in t ≠ t' ∧ String.le t t' ∨ t = t' ∧ String.le s s'.
#[export] Instance pair_le_dec p q : Decision (pair_le p q).
Proof. destruct p as [[s t] m], q as [[s' t'] m']. unfold pair_le. exact _. Defined.
Definition pair_value (p : string * string * string) : pyval :=
  let '(source, target, mode) := p in VDict [("source", VStr source); ("target", VStr target); ("mode", VStr mode)].
(** The blockers of the artifacts, given the targets seen. *)
Fixpoint artifact_reasons (seen : list string) (artifacts : list pyval) : list string :=
  match artifacts with
  | [] => []
  | item :: artifacts =>
      match artifact_pair item with
      | None => "public-manifest-artifact-schema" :: artifact_reasons seen artifacts
      | Some (_, target, _) =>
          block_if (bool_decide (target ∈ seen)) "public-manifest-target-duplicate" ++ artifact_reasons (target :: seen) artifacts
      end
  end.

Section boundary.
Context {D : Digest} {K : KeyLibrary}.

Definition mapping_digest (artifacts : list pyval) : result string :=
  sha256_hex <$> canonicalize_jcs (VList (pair_value <$> merge_sort pair_le (omap artifact_pair artifacts))).
Definition public_manifest_blockers (value : dict) : result (list string) :=
  if negb (same_set (dkeys value) ["bootstrap_public_manifest_version"; "mapping_digest"; "artifacts"]
           && py_eq (dget "bootstrap_public_manifest_version" value) (VInt 1)) then Ok ["public-manifest-schema"]
  else
    match dget "artifacts" value with
    | VList artifacts =>
        if negb (length artifacts =? PUBLIC_MANIFEST_ARTIFACT_COUNT)%nat then Ok ["public-manifest-artifact-count"]
        else
          digest ← mapping_digest artifacts;
          Ok (first_occurrences (artifact_reasons [] artifacts
            ++ block_if (negb (py_eq (dget "mapping_digest" value) (VStr PUBLIC_MANIFEST_MAPPING_DIGEST))
                         || negb (bool_decide (digest = PUBLIC_MANIFEST_MAPPING_DIGEST))) "public-manifest-mapping"))
    | _ => Ok ["public-manifest-artifact-count"]
    end.

(** Each artifact is the file of the source root, as it stands. *)
Definition source_blockers `{EvidenceRoot} (item : pyval) : result (list string) :=
  match item with
  | VDict a =>
      let text k := match dget k a with VStr s => s | _ => "" end in
      match evidence_file (path_parts (text "source")) with
      | Raise e => if is_os_error (exn_cls e) then Ok ["public-source-unreadable:" +:+ text "target"] else Raise e
      | Ok None => Ok ["public-source-unsafe:" +:+ text "target"]
      | Ok (Some f) =>
          Ok (block_if (negb (py_eq (VInt (Z.of_nat (String.length (hf_data f)))) (dget "size" a))
                        || negb (py_eq (VStr (sha256_hex (hf_data f))) (dget "sha256" a))) ("public-source-drift:" +:+ text "target"))
      end
  | _ => Ok []
  end.
Definition verify_public_manifest_bytes `{EvidenceRoot} (value : dict) : result (list string) :=
  blockers ← public_manifest_blockers value;
  if bool_decide (blockers = []) then
    reasons ← collect source_blockers (match dget "artifacts" value with VList artifacts => artifacts | _ => [] end);
    Ok (first_occurrences (concat reasons))
  else Ok blockers.

(** ** The boundary *)

(** [_digest] *)
Definition value_digest (value : pyval) : result string := sha256_hex <$> canonicalize_jcs value.
Definition observed_binding (head : string) (value : dict) : result pyval :=
  digest ← value_digest (VDict value);
  Ok (VDict [(head, dget head value); ("schema_version", dget "schema_version" value); ("observed_at", dget "observed_at" value);
             ("sha256", VStr digest)]).
Definition manifest_binding (value : dict) : result pyval :=
  digest ← value_digest (VDict value);
  Ok (VDict [("bootstrap_public_manifest_version", dget "bootstrap_public_manifest_version" value);
             ("mapping_digest", dget "mapping_digest" value);
             ("artifact_count", match dget "artifacts" value with VList l => VInt (Z.of_nat (length l)) | _ => VNone end);
             ("sha256", VStr digest)]).
Definition build_bootstrap_boundary_unchecked (windows wsl manifest : dict) (issued_at : Z) (nonce : pyval) : result dict :=
  expires_at ← dt_add issued_at (seconds BOOTSTRAP_TTL_SECONDS);
  windows_binding ← observed_binding "schema" windows;
  wsl_binding ← observed_binding "collector" wsl;
  public ← manifest_binding manifest;
  Ok [("bootstrap_boundary_version", VInt 1); ("issued_at", VStr (format_timestamp issued_at)); ("expires_at", VStr (format_timestamp expires_at));
      ("nonce", nonce); ("authorization", VDict AUTHORIZATION); ("windows_observation", windows_binding); ("wsl_observation", wsl_binding);
      ("public_manifest", public)].

(** [",".join(blockers)] *)
Fixpoint commas (l : list string) : string := match l with [] => "" | [s] => s | s :: l => s +:+ "," +:+ commas l end.
(** [random] is what [secrets.token_hex(16)] returns. *)
Definition build_bootstrap_boundary (windows wsl manifest : dict) (now : datetime) (nonce : option string) (random : string) : result dict :=
  issued ← boot_now now;
  windows_reasons ← windows_observation_blockers windows;
  wsl_reasons ← wsl_observation_blockers wsl;
  time_reasons ← observation_time_blockers windows wsl issued;
  manifest_reasons ← public_manifest_blockers manifest;
  let blockers := windows_reasons ++ wsl_reasons ++ time_reasons ++ manifest_reasons in
  boot_refuse_if (negb (bool_decide (blockers = []))) ("semantic observations are not provisionable: " +:+ commas blockers);;
  let selected := match nonce with Some n => if nonempty n then n else random | None => random end in
  boot_refuse_if (negb (is_canary_nonce selected)) "bootstrap nonce must be 128-bit lowercase hex";;
  build_bootstrap_boundary_unchecked windows wsl manifest issued (VStr selected).

Definition sign_bootstrap_boundary (value : dict) (k : private_key) : result dict :=
  boot_refuse_if (bool_decide ("attestation" ∈ dkeys value)) "bootstrap boundary must be unsigned";;
  canonicalize_jcs (VDict value);;
  signature ← sign_detached (VDict value) k BOOTSTRAP_ATTESTATION_DOMAIN;
  Ok (value ++ [("attestation", VDict [("attestation_version", VInt 1);
    ("signer_fingerprint", VStr (spki_fingerprint (public_of k))); ("signature", VStr signature)])]).

(** The issue and expiry of the document: its blockers, and the instant the
    bindings are built with. *)
Definition lifetime_reasons (evidence : dict) (current : Z) : result (list string * Z) :=
  match
    issued ← boot_timestamp (dget "issued_at" evidence) "bootstrap issued_at";
    expires ← boot_timestamp (dget "expires_at" evidence) "bootstrap expires_at";
    earliest ← dt_add issued (- seconds MAX_FUTURE_SKEW_SECONDS);
    Ok (block_if ((expires <=? issued) || negb (expires - issued =? seconds BOOTSTRAP_TTL_SECONDS)) "bootstrap-lifetime"
        ++ block_if (current <? earliest) "bootstrap-not-yet-valid" ++ block_if (expires <? current) "bootstrap-expired", issued)
  with
  | Ok r => Ok r
  | Raise e => if is_boot_error (exn_cls e) then Ok ([exn_msg e], current) else Raise e
  end.
(** [except (TypeError, ValueError)] *)
Definition is_signature_error (c : exn_class) : bool := is_value_error c || bool_decide (c = TypeError).
Definition attestation_reasons (evidence : dict) (k : public_key) (pinned : string) : result (list string) :=
  let attestation := _mapping (dget "attestation" evidence) in
  if negb (has_fields ["attestation_version"; "signer_fingerprint"; "signature"] attestation
           && py_eq (of_mapping "attestation_version" attestation) (VInt 1) && is_sha256 pinned
           && bool_decide (spki_fingerprint k = pinned) && py_eq (of_mapping "signer_fingerprint" attestation) (VStr pinned))
  then Ok ["attestation-key-or-schema"]
  else
    match verify_detached (VDict (_unsigned evidence)) (of_mapping "signature" attestation) k BOOTSTRAP_ATTESTATION_DOMAIN with
    | Ok _ => Ok []
    | Raise e => if is_signature_error (exn_cls e) then Ok ["attestation-signature"] else Raise e
    end.
Definition BINDINGS : list (string * string) :=
  [("issued_at", "issued-at-binding"); ("expires_at", "expires-at-binding"); ("nonce", "nonce-binding");
   ("windows_observation", "windows-observation-binding"); ("wsl_observation", "wsl-observation-binding");
   ("public_manifest", "public-manifest-binding")].
Definition EVIDENCE_FIELDS : list string :=
  ["bootstrap_boundary_version"; "issued_at"; "expires_at"; "nonce"; "authorization"; "windows_observation"; "wsl_observation";
   "public_manifest"; "attestation"].
Definition verify_bootstrap_boundary `{EvidenceRoot} (evidence windows wsl manifest : dict) (k : public_key) (pinned expected_nonce : string)
    (now : datetime) : result BootstrapBoundaryDecision :=
  current ← boot_now now;
  boot_refuse_if (negb (same_set (dkeys evidence) EVIDENCE_FIELDS) || negb (py_eq (dget "bootstrap_boundary_version" evidence) (VInt 1)))
    "bootstrap boundary requires exact v1 fields";;
  '(lifetime, issued) ← lifetime_reasons evidence current;
  signature ← attestation_reasons evidence k pinned;
  windows_reasons ← windows_observation_blockers windows;
  wsl_reasons ← wsl_observation_blockers wsl;
  time_reasons ← observation_time_blockers windows wsl current;
  manifest_reasons ← verify_public_manifest_bytes manifest;
  expected ← build_bootstrap_boundary_unchecked windows wsl manifest issued (dget "nonce" evidence);
  let blockers := first_occurrences
    (block_if (negb (py_eq (dget "authorization" evidence) (VDict AUTHORIZATION))) "authorization-not-inert-only"
     ++ lifetime
     ++ block_if (negb (is_canary_nonce expected_nonce) || negb (is_str_where is_canary_nonce (dget "nonce" evidence))
                  || negb (py_eq (dget "nonce" evidence) (VStr expected_nonce))) "bootstrap-nonce"
     ++ signature ++ windows_reasons ++ wsl_reasons ++ time_reasons ++ manifest_reasons
     ++ concat ((λ b, block_if (negb (py_eq (dget b.1 evidence) (dget b.1 expected))) b.2) <$> BINDINGS)) in
  Ok {| bd_authorized := bool_decide (blockers = []); bd_blockers := blockers |}.
End boundary.

(** ** What no blockers mean *)

Lemma exact_mapping_ok fields v d : exact_mapping fields v = Some d → v = VDict d ∧ same_set (dkeys d) fields = true.
Proof. destruct v as [| | | | |e]; try done. cbn. case_match; [|done]. by intros [= ->]. Qed.
Lemma has_fields_ok fields o : has_fields fields o = true → ∃ d, o = Some d ∧ same_set (dkeys d) fields = true.
Proof. destruct o as [d|]; [|done]. by exists d. Qed.
Lemma mapping_ok v d : _mapping v = Some d ↔ v = VDict d.
Proof. destruct v; cbn; naive_solver. Qed.
Lemma any_of_false {A} (f : A → result bool) l : any_of f l = Ok false → Forall (λ x, f x = Ok false) l.
Proof.
  induction l as [|x l IH]; cbn; [constructor|]. intros (b & Hb & H)%result_bind_ok. destruct b; [done|]. constructor; auto.
Qed.
Lemma or_else_false a b : or_else a b = Ok false → a = false ∧ b = Ok false.
Proof. by destruct a. Qed.
Lemma in_texts v l b : py_in_set v (text_set l) = Ok b → b = true → ∃ s, v = VStr s ∧ s ∈ l.
Proof.
  unfold py_in_set. intros (? & _ & [= <-])%result_bind_ok. intros (w & Hw & He)%existsb_exists. apply list_elem_of_In in Hw.
  unfold text_set in Hw. apply list_elem_of_fmap in Hw as (s & -> & Hs). exists s. by apply py_eq_str in He as ->.
Qed.

(** The Windows side: the service account is local, enabled and no administrator,
    the distribution is registered once and owned by it, and nobody but it,
    SYSTEM and the administrators may touch its files. *)
Record windows_proven (value : dict) : Prop := {
  wp_satisfied : dget "contract_satisfied" value = VBool true;
  wp_service : ∃ expected sid observations account, dget "expected" value = VDict expected ∧ dget "service_sid" expected = VStr sid ∧
    is_sid sid = true ∧ dget "distro_name" expected = VStr EXPECTED_DISTRO ∧
    dget "observations" value = VDict observations ∧ dget "account" observations = VDict account ∧
    dget "name" account = VStr "selfhosted-ci-svc" ∧ dget "sid" account = VStr sid ∧ dget "enabled" account = VBool true ∧
    dget "effective_administrator" account = VBool false ∧
    (∃ registration found, dget "registration" observations = VDict registration ∧ dget "matches" registration = VList [VDict found] ∧
       dget "distribution_name" found = VStr EXPECTED_DISTRO ∧ dget "owner_sid" found = VStr sid) ∧
    ∃ path acl rules, dget "base_path" observations = VDict path ∧ dget "canonical_path" path = VStr EXPECTED_BASE_PATH ∧
      dget "acl" path = VDict acl ∧ dget "rules" acl = VList rules ∧
      Forall (λ rule, ∃ r, rule = VDict r ∧ dget "type" r = VStr "Allow" ∧
                dget "sid" r ∈ [VStr "S-1-5-18"; VStr "S-1-5-32-544"; VStr sid]) rules;
}.

Lemma rule_ok sid rule :
  rule_wrong [VStr "S-1-5-18"; VStr "S-1-5-32-544"; VStr sid] rule = Ok false →
  ∃ r, rule = VDict r ∧ dget "type" r = VStr "Allow" ∧ dget "sid" r ∈ [VStr "S-1-5-18"; VStr "S-1-5-32-544"; VStr sid].
Proof.
  unfold rule_wrong. destruct rule as [| | | | |r]; try done. destruct (negb (same_set _ _)); [done|].
  intros (known & Hk & [= H])%result_bind_ok. apply orb_false_iff in H as [[Hkn%negb_false_iff Ha%negb_false_iff]%orb_false_iff _]. subst known.
  exists r. split; [done|]. split; [by apply andb_true_iff in Ha as [?%py_eq_str _]|].
  destruct (in_texts (dget "sid" r) ["S-1-5-18"; "S-1-5-32-544"; sid] true Hk eq_refl) as (s & -> & Hs).
  apply (list_elem_of_fmap_2 VStr) in Hs. exact Hs.
Qed.

Lemma reasons_nil l : Ok (first_occurrences l) = Ok [] → l = [].
Proof. intros [= H]. by apply first_occurrences_nil. Qed.
Lemma registration_ok registration sid : registration_blockers registration (VStr sid) = [] → ∃ r found,
  registration = Some r ∧ dget "matches" r = VList [VDict found] ∧ dget "distribution_name" found = VStr EXPECTED_DISTRO ∧
  dget "owner_sid" found = VStr sid.
Proof.
  unfold registration_blockers. cbv zeta. destruct (has_fields _ registration && _ && _ && _) eqn:Es; [|done]. bool_inv.
  match goal with H : has_fields _ registration = true |- _ => apply has_fields_ok in H as (r & -> & _) end. cbn [of_mapping].
  destruct (dget "matches" r) as [| | | |[|found []]|] eqn:Em; try done. rewrite block_if_nil. unfold registration_details.
  intros Hd. bool_inv. destruct found as [| | | | |found]; try done. exists r, found. split_and!; [done|done|..].
  all: match goal with H : has_pairs _ _ = true |- _ => cbn in H end; bool_inv; by apply py_eq_str.
Qed.
Lemma base_path_ok path sid : base_path_blockers path (VStr sid) = Ok [] → ∃ p acl rules,
  path = Some p ∧ dget "canonical_path" p = VStr EXPECTED_BASE_PATH ∧ dget "acl" p = VDict acl ∧ dget "rules" acl = VList rules ∧
  Forall (λ rule, ∃ r, rule = VDict r ∧ dget "type" r = VStr "Allow" ∧
            dget "sid" r ∈ [VStr "S-1-5-18"; VStr "S-1-5-32-544"; VStr sid]) rules.
Proof.
  unfold base_path_blockers. cbv zeta. cbn [hashable negb check mbind result_bind].
  destruct (has_fields _ path && _ && _ && _ && _ && _ && _ && _) eqn:Es; [|done]. bool_inv.
  repeat match goal with H : has_fields _ _ = true |- _ => apply has_fields_ok in H as (? & H & _) end. subst path.
  match goal with H : _mapping _ = Some _ |- _ => rewrite H; apply mapping_ok in H end. cbn [of_mapping] in *.
  destruct (dget "rules" _) as [| | | |rules|] eqn:Er; try done. destruct (length rules =? 3)%nat; [|done].
  intros (wrong & Hw & H)%result_bind_ok. injection H as H. apply block_if_nil, orb_false_iff in H as [-> _].
  eexists _, _, rules. split_and!; [done|by apply py_eq_str|done|done|]. apply any_of_false in Hw.
  eapply Forall_impl; [exact Hw|]. intros rule. apply rule_ok.
Qed.
Lemma windows_ok value : windows_observation_blockers value = Ok [] → windows_proven value.
Proof.
  unfold windows_observation_blockers. cbv zeta. destruct (negb (same_set (dkeys value) _)); [done|].
  intros (path & Hpath & H)%result_bind_ok. apply reasons_nil in H. rewrite !app_nil_iff, !block_if_nil in H.
  destruct H as (_ & Hsat%negb_false_iff & Hexp%bool_decide_eq_false & Hb%negb_false_iff & _ & _ & Hobs%bool_decide_eq_false & Hacc%negb_false_iff & Hreg & ->).
  destruct (exact_mapping EXPECTED_FIELDS _) as [expected|] eqn:Eexp; [|done]. destruct (exact_mapping OBSERVATION_FIELDS _) as [observations|] eqn:Eobs; [|done].
  apply exact_mapping_ok in Eexp as [Eexp _], Eobs as [Eobs _]. cbn [of_mapping] in *.
  unfold expected_boundary in Hb. apply andb_true_iff in Hb as [Hb Hsid]. cbn [of_mapping] in Hsid.
  destruct (dget "service_sid" expected) as [| | |sid| |] eqn:Esid; try done.
  apply registration_ok in Hreg as (registration & found & Hr1%mapping_ok & Hr2 & Hr3 & Hr4). apply base_path_ok in Hpath as (p & acl & rules & Hp%mapping_ok & Hrest).
  unfold service_identity in Hacc. apply andb_true_iff in Hacc as [[[Hf Ha]%andb_true_iff He%is_true_ok]%andb_true_iff Hadm%is_false_ok].
  apply has_fields_ok in Hf as (account & Hm & _). rewrite Hm in *. apply mapping_ok in Hm. cbn in Ha, Hb. bool_inv.
  constructor; [by apply is_true_ok|]. exists expected, sid, observations, account. split_and!; try done; try by apply py_eq_str.
  - by exists registration, found.
  - exists p, acl, rules. split; [done|exact Hrest].
Qed.

(** The distribution: Windows drives, interop and every credential surface are
    absent, the manager is an account without a shell or a privileged group, the
    pinned binaries are in place, Incus is restricted and empty, and GARM has no
    state, no process and no runner. *)
Record wsl_proven (value : dict) : Prop := {
  ws_complete : dget "expected_distro" value = VStr EXPECTED_DISTRO ∧ dget "collection_status" value = VStr "complete";
  ws_observed : ∃ o, dget "observations" value = VDict o ∧
    (∃ boundary conf settings, dget "wsl_boundary" o = VDict boundary ∧ dget "wsl_conf" boundary = VDict conf ∧
       dget "settings" conf = VDict settings ∧ Forall (λ k, reads_false (dget k settings) = true) WSL_SETTINGS) ∧
    (∃ mounts counts, dget "mounts_and_interop" o = VDict mounts ∧ dget "mount_class_counts" mounts = VDict counts ∧
       Forall (λ k, is_zero (dget k counts) = true) MOUNT_CLASSES) ∧
    (∃ surfaces, dget "credential_surfaces" o = VDict surfaces ∧ Forall (λ k, dget k surfaces = VBool false) CREDENTIAL_SURFACES) ∧
    (∃ identities manager groups shell, dget "linux_identities" o = VDict identities ∧ dget "garm-manager" identities = VDict manager ∧
       dget "shell" manager = VStr shell ∧ shell ∈ ["/usr/sbin/nologin"; "/bin/false"] ∧
       dget "supplementary_groups" manager = VList groups ∧ Forall (λ g, VStr g ∉ groups) FORBIDDEN_GROUPS) ∧
    (∃ software binaries, dget "software" o = VDict software ∧ dget "binaries" software = VDict binaries ∧
       ∀ name item, (name, item) ∈ binaries → is_none (pinned_binary name) = false → ∃ b, item = VDict b ∧ dget "present" b = VBool true ∧
         py_eq (dget "sha256" b) (pinned_binary name) = true) ∧
    (∃ incus, dget "incus" o = VDict incus ∧
       py_eq (dget "project" incus) (VDict [("present", VBool true); ("config", VDict REQUIRED_PROJECT)]) = true ∧
       no_instances (dget "instances" incus) = true) ∧
    ∃ garm services, dget "garm" o = VDict garm ∧ dget "services" garm = VDict services ∧
      Forall (λ kv, ∃ s active, kv.2 = VDict s ∧ dget "active" s = VStr active ∧ active ∈ ["inactive"; "failed"; "unknown"]) services ∧
      is_zero (dget "process_count" garm) = true ∧ dget "persistent_runner_registration_present" garm = VBool false;
}.

Lemma values_where_field test o d k : o = Some d → values_where test o = true → k ∈ dkeys d → test (dget k d) = true.
Proof.
  intros ->. cbn. unfold dkeys, dget. induction d as [|[k' v] d IH]; cbn; [by intros _ ?%elem_of_nil|].
  intros [Hv Hd]%andb_true_iff [->|Hin]%elem_of_cons; [by rewrite decide_True by done|]. case_decide; [done|auto].
Qed.
Lemma same_set_in a b k : same_set a b = true → k ∈ b → k ∈ a.
Proof.
  unfold same_set, subset_of. rewrite andb_true_iff, !forallb_forall. intros [_ H] Hk%list_elem_of_In. by apply H, bool_decide_eq_true in Hk.
Qed.
Lemma values_where_fields test fields d :
  same_set (dkeys d) fields = true → values_where test (Some d) = true → Forall (λ k, test (dget k d) = true) fields.
Proof. intros Hf Ht. apply Forall_forall. intros k Hk. eapply (values_where_field test (Some d)); [done|done|by eapply same_set_in]. Qed.

(** Every mapping that was checked for its fields, named. *)
Ltac mappings :=
  repeat match goal with H : has_fields _ _ = true |- _ => apply has_fields_ok in H as (? & H & ?) end;
  repeat match goal with H : _mapping _ = Some _ |- _ => rewrite H in *; apply mapping_ok in H end; cbn [of_mapping] in *.

Lemma config_ok v : config_boundary v = true → ∃ boundary conf settings, v = VDict boundary ∧ dget "wsl_conf" boundary = VDict conf ∧
  dget "settings" conf = VDict settings ∧ Forall (λ k, reads_false (dget k settings) = true) WSL_SETTINGS.
Proof.
  unfold config_boundary. cbv zeta. intros H. bool_inv. mappings.
  eexists _, _, _. split_and!; [done..|]. by apply values_where_fields.
Qed.
Lemma mount_ok v : mount_boundary v = true → ∃ mounts counts, v = VDict mounts ∧ dget "mount_class_counts" mounts = VDict counts ∧
  Forall (λ k, is_zero (dget k counts) = true) MOUNT_CLASSES.
Proof. unfold mount_boundary. cbv zeta. intros H. bool_inv. mappings. eexists _, _. split_and!; [done..|]. by apply values_where_fields. Qed.
Lemma credentials_ok v : no_credentials v = true → ∃ surfaces, v = VDict surfaces ∧ Forall (λ k, dget k surfaces = VBool false) CREDENTIAL_SURFACES.
Proof.
  unfold no_credentials, _exact_false_map. destruct v as [| | | | |d]; try done. cbn [_mapping]. intros [_ H]%andb_true_iff. exists d. split; [done|].
  rewrite forallb_forall in H. apply Forall_forall. intros k Hk%list_elem_of_In. by apply is_false_ok, H.
Qed.
Lemma meets_none forbidden groups : meets forbidden groups = Ok false → Forall (λ g, VStr g ∉ groups) forbidden.
Proof.
  unfold meets. intros (? & _ & [= H])%result_bind_ok. apply Forall_forall. intros g Hg Hin. apply not_true_iff_false in H. apply H.
  apply existsb_exists. exists (VStr g). split; [by apply list_elem_of_In|]. apply existsb_exists. exists (VStr g).
  split; [|by apply py_eq_str]. apply list_elem_of_In. unfold text_set. by apply list_elem_of_fmap_2.
Qed.
Lemma identity_ok v : identity_wrong v = Ok false → ∃ identities manager groups shell, v = VDict identities ∧
  dget "garm-manager" identities = VDict manager ∧ dget "shell" manager = VStr shell ∧ shell ∈ ["/usr/sbin/nologin"; "/bin/false"] ∧
  dget "supplementary_groups" manager = VList groups ∧ Forall (λ g, VStr g ∉ groups) FORBIDDEN_GROUPS.
Proof.
  unfold identity_wrong. cbv zeta. intros [H1%negb_false_iff (shell & Hs & H2)%result_bind_ok]%or_else_false. bool_inv. mappings.
  apply or_else_false in H2 as [Hsh%negb_false_iff Hg]. destruct (in_texts _ _ _ Hs Hsh) as (t & Ht & Hin).
  destruct (dget "supplementary_groups" _) as [| | | |groups|] eqn:Eg; try done. eexists _, _, groups, t. split_and!; try done. by apply meets_none.
Qed.
Lemma each_binary_ok l : each_binary l = Ok [] → ∀ name item, (name, item) ∈ l → is_none (pinned_binary name) = false →
  ∃ b, item = VDict b ∧ dget "present" b = VBool true ∧ py_eq (dget "sha256" b) (pinned_binary name) = true.
Proof.
  induction l as [|[n i] l IH]; cbn [each_binary]; [by intros _ ? ? ?%elem_of_nil|].
  intros (here & Hh & (rest & Hr & H)%result_bind_ok)%result_bind_ok name item [[= -> ->]|Hin]%elem_of_cons Hn; injection H as [-> ->]%app_nil_iff; [|by eapply IH].
  unfold binary_blockers in Hh. cbv zeta in Hh. rewrite Hn in Hh. destruct i as [| | | | |b]; try done. injection Hh as Hh.
  apply app_nil_iff in Hh as [Hp%negb_block_nil Hq%negb_block_nil]. exists b. split_and!; [done| |done]. cbn in Hp. bool_inv. by apply is_true_ok.
Qed.
Lemma software_ok v : software_blockers v = Ok [] → ∃ software binaries, v = VDict software ∧ dget "binaries" software = VDict binaries ∧
  ∀ name item, (name, item) ∈ binaries → is_none (pinned_binary name) = false → ∃ b, item = VDict b ∧ dget "present" b = VBool true ∧
    py_eq (dget "sha256" b) (pinned_binary name) = true.
Proof.
  unfold software_blockers. cbv zeta. intros (each & He & H)%result_bind_ok. injection H as H. rewrite !app_nil_iff, !negb_block_nil in H.
  destruct H as (Hf & _ & _ & ->). mappings. destruct (exact_mapping BINARIES _) as [binaries|] eqn:Eb; [|done]. apply exact_mapping_ok in Eb as [Eb _].
  eexists _, binaries. split_and!; [done|done|]. by apply each_binary_ok.
Qed.
Lemma incus_ok v : incus_blockers v = [] → ∃ incus, v = VDict incus ∧
  py_eq (dget "project" incus) (VDict [("present", VBool true); ("config", VDict REQUIRED_PROJECT)]) = true ∧ no_instances (dget "instances" incus) = true.
Proof.
  unfold incus_blockers. destruct (exact_mapping _ v) as [incus|] eqn:Ei; [|done]. apply exact_mapping_ok in Ei as [-> _]. cbv zeta.
  rewrite !app_nil_iff, !negb_block_nil. intros (Hp & _ & _ & _ & Hn). exists incus. split_and!; [done| |done].
  unfold equals in Hp. by destruct (dget "project" incus).
Qed.
Lemma service_ok service : service_wrong service = Ok false → ∃ s active, service = VDict s ∧ dget "active" s = VStr active ∧
  active ∈ ["inactive"; "failed"; "unknown"].
Proof.
  unfold service_wrong. destruct service as [| | | | |s]; try done. destruct (negb (same_set _ _)); [done|].
  intros (active & Ha & [Hn%negb_false_iff _]%or_else_false)%result_bind_ok. destruct (in_texts _ _ _ Ha Hn) as (t & Ht & Hin). by exists s, t.
Qed.
Lemma garm_ok v : garm_wrong v = Ok false → ∃ garm services, v = VDict garm ∧ dget "services" garm = VDict services ∧
  Forall (λ kv, ∃ s active, kv.2 = VDict s ∧ dget "active" s = VStr active ∧ active ∈ ["inactive"; "failed"; "unknown"]) services ∧
  is_zero (dget "process_count" garm) = true ∧ dget "persistent_runner_registration_present" garm = VBool false.
Proof.
  unfold garm_wrong. cbv zeta. intros [H1%negb_false_iff (wrong & Hw & H2)%result_bind_ok]%or_else_false. injection H2 as H2.
  apply orb_false_iff in H2 as [-> H2%negb_false_iff]. bool_inv. mappings. eexists _, _. split_and!; [done..| |done|by apply is_false_ok].
  apply any_of_false in Hw. cbn in Hw. apply Forall_fmap in Hw. eapply Forall_impl; [exact Hw|]. intros kv. apply service_ok.
Qed.
Lemma wsl_ok value : wsl_observation_blockers value = Ok [] → wsl_proven value.
Proof.
  unfold wsl_observation_blockers. cbv zeta. destruct (negb (same_set _ _)); [done|]. destruct (exact_mapping WSL_OBSERVATIONS _) as [o|] eqn:Eo.
  2: { intros H%reasons_nil. by apply app_nil_iff in H as [_ ?]. }
  apply exact_mapping_ok in Eo as [Eo _]. intros (identity & Hi & (software & Hs & (garm & Hg & H)%result_bind_ok)%result_bind_ok)%result_bind_ok.
  apply reasons_nil in H. rewrite !app_nil_iff, !negb_block_nil, !block_if_nil in H.
  destruct H as ((_ & Hd) & Hc & Hm & Hcr & -> & -> & Hin & _ & ->). cbn in Hd. bool_inv. constructor; [split; by apply py_eq_str|].
  exists o. split_and!; eauto using config_ok, mount_ok, credentials_ok, identity_ok, software_ok, incus_ok, garm_ok.
Qed.

(** ** The manifest and the files *)

Section proven.
Context {D : Digest} {K : KeyLibrary} {Root : EvidenceRoot}.

(** An artifact whose file is under the source root with its size and digest. *)
Definition artifact_in_place (item : pyval) : Prop := ∃ a source target mode f,
  item = VDict a ∧ artifact_pair item = Some (source, target, mode) ∧ evidence_file (path_parts source) = Ok (Some f) ∧
  py_eq (VInt (Z.of_nat (String.length (hf_data f)))) (dget "size" a) = true ∧ dget "sha256" a = VStr (sha256_hex (hf_data f)).
Definition target_of (item : pyval) : option string := (λ p, p.1.2) <$> artifact_pair item.
Definition manifest_proven (manifest : dict) : Prop := ∃ artifacts,
  dget "artifacts" manifest = VList artifacts ∧ length artifacts = PUBLIC_MANIFEST_ARTIFACT_COUNT ∧
  mapping_digest artifacts = Ok PUBLIC_MANIFEST_MAPPING_DIGEST ∧ Forall artifact_in_place artifacts ∧ NoDup (omap target_of artifacts).

Lemma artifact_reasons_nil seen l : artifact_reasons seen l = [] →
  Forall (λ item, is_Some (artifact_pair item)) l ∧ NoDup (omap target_of l) ∧ Forall (λ t, t ∉ seen) (omap target_of l).
Proof.
  revert seen. induction l as [|item l IH]; intros seen; cbn [artifact_reasons omap list_omap]; [intros _; split_and!; constructor|].
  assert (target_of item = (λ p, p.1.2) <$> artifact_pair item) as -> by done. destruct (artifact_pair item) as [[[source target] mode]|] eqn:E; [|done]. cbn.
  intros [Hs%block_if_nil%bool_decide_eq_false (H1 & H2 & H3)%IH]%app_nil_iff. split_and!.
  - constructor; [by rewrite E|done].
  - constructor; [|done]. intros Hin. eapply Forall_forall in H3; [|exact Hin]. apply H3. left.
  - constructor; [done|]. eapply Forall_impl; [exact H3|]. intros t Ht Hin. apply Ht. by right.
Qed.
Lemma source_ok item : is_Some (artifact_pair item) → source_blockers item = Ok [] → artifact_in_place item.
Proof.
  intros [[[source target] mode] Hp]. unfold source_blockers. pose proof Hp as Hp'. unfold artifact_pair in Hp'.
  destruct item as [| | | | |a]; try done. destruct (dget "source" a) as [| | |s| |] eqn:Es; try done.
  destruct (dget "target" a) as [| | |t| |]; try done. destruct (dget "mode" a) as [| | |m| |]; try done. destruct (_ && _) in Hp'; [|done].
  injection Hp' as -> -> ->. cbv zeta. destruct (evidence_file (path_parts source)) as [[f|]|e] eqn:Ef; [|done|by case_match].
  intros H. injection H as H. apply block_if_nil, orb_false_iff in H as [Hsize%negb_false_iff Hsha%negb_false_iff].
  exists a, source, target, mode, f. split_and!; [done..|]. destruct (dget "sha256" a); try done. cbn in Hsha.
  by apply bool_decide_eq_true in Hsha as ->.
Qed.
Lemma collect_nil (l : list pyval) reasons : collect source_blockers l = Ok reasons → concat reasons = [] → Forall (λ item, source_blockers item = Ok []) l.
Proof.
  revert reasons. induction l as [|item l IH]; intros reasons; cbn [collect]; [constructor|].
  intros (b & Hb & (bs & Hbs & [= <-])%result_bind_ok)%result_bind_ok. cbn. intros [-> Hc]%app_nil_iff. constructor; eauto.
Qed.
Lemma manifest_ok manifest : verify_public_manifest_bytes manifest = Ok [] → public_manifest_blockers manifest = Ok [] ∧ manifest_proven manifest.
Proof.
  unfold verify_public_manifest_bytes. intros (blockers & Hb & H)%result_bind_ok. case_bool_decide as Hn; [|naive_solver]. subst blockers. split; [done|].
  unfold public_manifest_blockers in Hb. destruct (negb (_ && _)); [done|]. unfold manifest_proven.
  destruct (dget "artifacts" manifest) as [| | | |artifacts|]; try done. destruct (negb _) eqn:El in Hb; [done|].
  apply negb_false_iff, Nat.eqb_eq in El. apply result_bind_ok in Hb as (digest & Hd & Hb). apply reasons_nil in Hb. rewrite app_nil_iff, block_if_nil in Hb.
  destruct Hb as [Hr [_ Hm%negb_false_iff%bool_decide_eq_true]%orb_false_iff]. subst digest. apply artifact_reasons_nil in Hr as (Hall & Hnd & _).
  apply result_bind_ok in H as (reasons & Hc & Hf). apply reasons_nil in Hf. exists artifacts. split_and!; [done..| |done].
  pose proof (collect_nil _ _ Hc Hf) as Hs. apply Forall_forall. intros item Hin. apply source_ok; [by eapply Forall_forall in Hall|by eapply Forall_forall in Hs].
Qed.

(** ** The boundary *)

(** What the document says of an observation, its digest included. *)
Definition bound_to (v : pyval) (head : string) (value : dict) : Prop := ∃ text, canonicalize_jcs (VDict value) = Ok text ∧
  py_eq v (VDict [(head, dget head value); ("schema_version", dget "schema_version" value); ("observed_at", dget "observed_at" value);
                  ("sha256", VStr (sha256_hex text))]) = true.
Record bootstrap_proven (evidence windows wsl manifest : dict) (k : public_key) (pinned nonce : string) (now : Z) : Prop := {
  bs_signed : attested_by BOOTSTRAP_ATTESTATION_DOMAIN evidence k pinned;
  bs_inert : py_eq (dget "authorization" evidence) (VDict AUTHORIZATION) = true;
  bs_nonce : dget "nonce" evidence = VStr nonce ∧ is_canary_nonce nonce = true;
  bs_window : ∃ issued, boot_timestamp (dget "issued_at" evidence) "bootstrap issued_at" = Ok issued ∧
    boot_timestamp (dget "expires_at" evidence) "bootstrap expires_at" = Ok (issued + seconds BOOTSTRAP_TTL_SECONDS) ∧
    issued - seconds MAX_FUTURE_SKEW_SECONDS ≤ now ≤ issued + seconds BOOTSTRAP_TTL_SECONDS;
  bs_fresh : ∃ windows_at wsl_at, boot_timestamp (dget "observed_at" windows) "windows observed_at" = Ok windows_at ∧
    boot_timestamp (dget "observed_at" wsl) "wsl observed_at" = Ok wsl_at ∧
    - seconds MAX_FUTURE_SKEW_SECONDS ≤ now - windows_at ≤ seconds MAX_OBSERVATION_AGE_SECONDS ∧
    - seconds MAX_FUTURE_SKEW_SECONDS ≤ now - wsl_at ≤ seconds MAX_OBSERVATION_AGE_SECONDS ∧
    Z.abs (windows_at - wsl_at) ≤ seconds MAX_OBSERVATION_SKEW_SECONDS;
  bs_windows : windows_proven windows ∧ bound_to (dget "windows_observation" evidence) "schema" windows;
  bs_wsl : wsl_proven wsl ∧ bound_to (dget "wsl_observation" evidence) "collector" wsl;
  bs_manifest : manifest_proven manifest ∧ ∃ text, canonicalize_jcs (VDict manifest) = Ok text ∧
    py_eq (dget "public_manifest" evidence)
      (VDict [("bootstrap_public_manifest_version", dget "bootstrap_public_manifest_version" manifest);
              ("mapping_digest", dget "mapping_digest" manifest); ("artifact_count", VInt (Z.of_nat PUBLIC_MANIFEST_ARTIFACT_COUNT));
              ("sha256", VStr (sha256_hex text))]) = true;
}.

Lemma ok_inj {A} (a b : A) : Ok a = Ok b → a = b.
Proof. by intros [= ->]. Qed.
Lemma age_nil name now at_ : age_blockers name now at_ = [] ↔
  - seconds MAX_FUTURE_SKEW_SECONDS ≤ now - at_ ≤ seconds MAX_OBSERVATION_AGE_SECONDS.
Proof.
  unfold age_blockers. cbv zeta. destruct (now - at_ <? _) eqn:E; [apply Z.ltb_lt in E; split; [done|lia]|]. apply Z.ltb_ge in E. rewrite block_if_nil, Z.ltb_ge. lia.
Qed.
Lemma fresh_ok windows wsl now : observation_time_blockers windows wsl now = Ok [] → ∃ windows_at wsl_at,
  boot_timestamp (dget "observed_at" windows) "windows observed_at" = Ok windows_at ∧
  boot_timestamp (dget "observed_at" wsl) "wsl observed_at" = Ok wsl_at ∧
  - seconds MAX_FUTURE_SKEW_SECONDS ≤ now - windows_at ≤ seconds MAX_OBSERVATION_AGE_SECONDS ∧
  - seconds MAX_FUTURE_SKEW_SECONDS ≤ now - wsl_at ≤ seconds MAX_OBSERVATION_AGE_SECONDS ∧
  Z.abs (windows_at - wsl_at) ≤ seconds MAX_OBSERVATION_SKEW_SECONDS.
Proof.
  unfold observation_time_blockers. destruct (boot_timestamp (dget "observed_at" windows) _) as [a|e]; cbn [mbind result_bind]; [|by case_match].
  destruct (boot_timestamp (dget "observed_at" wsl) _) as [b|e]; cbn [mbind result_bind]; [|by case_match].
  intros H%ok_inj. rewrite !app_nil_iff, !age_nil, block_if_nil, Z.ltb_ge in H. destruct H as (H1 & H2 & H3). exists a, b. split; [done|]. split; [done|]. split; [exact H1|]. split; [exact H2|]. exact H3.
Qed.
Lemma lifetime_ok evidence now issued : lifetime_reasons evidence now = Ok ([], issued) →
  boot_timestamp (dget "issued_at" evidence) "bootstrap issued_at" = Ok issued ∧
  boot_timestamp (dget "expires_at" evidence) "bootstrap expires_at" = Ok (issued + seconds BOOTSTRAP_TTL_SECONDS) ∧
  issued - seconds MAX_FUTURE_SKEW_SECONDS ≤ now ≤ issued + seconds BOOTSTRAP_TTL_SECONDS.
Proof.
  unfold lifetime_reasons. destruct (boot_timestamp (dget "issued_at" evidence) _) as [i|e]; cbn [mbind result_bind]; [|by case_match].
  destruct (boot_timestamp (dget "expires_at" evidence) _) as [x|e]; cbn [mbind result_bind]; [|by case_match].
  unfold dt_add. case_decide; [|done]. cbn [mbind result_bind]. intros [H0 ->]%ok_inj%pair_equal_spec.
  rewrite !app_nil_iff, !block_if_nil in H0. destruct H0 as (Hl & He & Hx). apply orb_false_iff in Hl as [_ Hl%negb_false_iff%Z.eqb_eq]. split_and!; [done|f_equal; lia|lia|lia].
Qed.
Lemma boot_attestation_ok evidence k pinned : attestation_reasons evidence k pinned = Ok [] → attested_by BOOTSTRAP_ATTESTATION_DOMAIN evidence k pinned.
Proof.
  unfold attestation_reasons. cbv zeta. destruct (negb (_ && _)) eqn:E; [done|]. apply negb_false_iff in E. bool_inv. mappings.
  destruct (verify_detached _ _ _ _) as [[]|e] eqn:Ev; [|by case_match]. intros _. eexists. split_and!; try done. by apply py_eq_str.
Qed.
Lemma binding_ok head v value bound : observed_binding head value = Ok bound → py_eq v bound = true → bound_to v head value.
Proof.
  unfold observed_binding, value_digest, bound_to. destruct (canonicalize_jcs (VDict value)) as [text|]; [|done]. intros <-%ok_inj Hv. by exists text.
Qed.

Lemma manifest_bound v manifest bound : manifest_proven manifest → manifest_binding manifest = Ok bound → py_eq v bound = true →
  ∃ text, canonicalize_jcs (VDict manifest) = Ok text ∧
    py_eq v (VDict [("bootstrap_public_manifest_version", dget "bootstrap_public_manifest_version" manifest);
                    ("mapping_digest", dget "mapping_digest" manifest); ("artifact_count", VInt (Z.of_nat PUBLIC_MANIFEST_ARTIFACT_COUNT));
                    ("sha256", VStr (sha256_hex text))]) = true.
Proof.
  unfold manifest_binding, value_digest. intros (artifacts & Ha & Hc & _). rewrite Ha.
  destruct (canonicalize_jcs (VDict manifest)) as [text|]; [|done]. intros <-%ok_inj Hv. rewrite Hc in Hv. by exists text.
Qed.

(** C13: a bootstrap document is authorized only with the signature of the
    pinned key over all of it, the inert-only authorization, the expected nonce,
    a ten-minute window that holds the instant of the check, two fresh
    observations taken within two minutes of each other that show the host in
    its inert state, and a public manifest of the pinned mapping whose every
    artifact is the file of the source root byte for byte; the document binds
    the two observations and the manifest by the digest of their canonical
    form. *)
Theorem bootstrap_authorized evidence windows wsl manifest k pinned nonce now_dt dec :
  verify_bootstrap_boundary evidence windows wsl manifest k pinned nonce now_dt = Ok dec → bd_authorized dec = true →
  ∃ zone now, now_dt = Aware zone now ∧ bootstrap_proven evidence windows wsl manifest k pinned nonce now.
Proof.
  unfold verify_bootstrap_boundary. destruct now_dt as [|zone now]; [done|]. cbn [boot_now mbind result_bind]. unfold boot_refuse_if, check. case_match; [done|]. cbn [mbind result_bind].
  intros ([lifetime issued] & Hl & (sig & Hs & (wr & Hw & (lr & Hsl & (tr & Ht & (mr & Hm & (expected & He & [= <-])%result_bind_ok)
    %result_bind_ok)%result_bind_ok)%result_bind_ok)%result_bind_ok)%result_bind_ok)%result_bind_ok.
  cbn [bd_authorized]. intros Hb%bool_decide_eq_true. apply (proj1 (first_occurrences_nil _)) in Hb.
  rewrite !app_nil_iff, negb_block_nil, block_if_nil in Hb. destruct Hb as (Hauth & -> & Hn & -> & -> & -> & -> & -> & Hbind).
  rewrite !negb_block_nil in Hbind. destruct Hbind as (_ & _ & _ & Hbw & Hbl & Hbm & _).
  unfold build_bootstrap_boundary_unchecked in He. apply result_bind_ok in He as (expires & _ & (wb & Hwb & (lb & Hlb & (mb & Hmb & <-%ok_inj)
    %result_bind_ok)%result_bind_ok)%result_bind_ok). cbn in Hbw, Hbl, Hbm.
  apply manifest_ok in Hm as [_ Hm]. apply orb_false_iff in Hn as [[Hn1%negb_false_iff _]%orb_false_iff Hn2%negb_false_iff%py_eq_str].
  exists zone, now. split; [done|]. constructor.
  - by apply boot_attestation_ok.
  - exact Hauth.
  - by split.
  - exists issued. by apply lifetime_ok.
  - by apply fresh_ok.
  - split; [by apply windows_ok|by eapply binding_ok].
  - split; [by apply wsl_ok|by eapply binding_ok].
  - split; [exact Hm|by eapply manifest_bound].
Qed.
End proven.

(** ** A host ready for the inert material *)

Definition toy_sid : string := "S-1-5-21-1-2-3-1001".
Definition toy_rule (sid : string) : pyval := VDict
  (texts [("sid", sid); ("type", "Allow"); ("rights", "FullControl"); ("inheritance_flags", "ContainerInherit, ObjectInherit");
          ("propagation_flags", "None")] ++ [("inherited", VBool false)]).
Definition toy_windows : dict :=
  [("schema", VStr "self-hosted-ci/windows-wsl-semantic-contract"); ("schema_version", VInt 1); ("observed_at", VStr "2026-01-15T09:59:00Z");
   ("collector_identity_sid", VStr toy_sid);
   ("expected", VDict (texts [("service_account", "selfhosted-ci-svc"); ("service_sid", toy_sid); ("distro_name", EXPECTED_DISTRO);
                              ("base_path", EXPECTED_BASE_PATH)] ++ [("wsl_version", VInt 2)]));
   ("observations", VDict
     [("account", VDict (texts [("name", "selfhosted-ci-svc"); ("sid", toy_sid); ("principal_source", "Local")]
                         ++ [("enabled", VBool true); ("effective_administrator", VBool false)]));
      ("registration", VDict [("accessible", VBool true); ("exact_match_count", VInt 1); ("error", VNone);
         ("matches", VList [VDict (texts [("key", "{01234567-89AB-cdef-0123-456789abcdef}"); ("distribution_name", EXPECTED_DISTRO);
                                          ("base_path", EXPECTED_BASE_PATH); ("owner_sid", toy_sid)] ++ [("version", VInt 2)])])]);
      ("base_path", VDict [("exists", VBool true); ("canonical_path", VStr EXPECTED_BASE_PATH); ("reparse_free", VBool true); ("error", VNone);
         ("acl", VDict [("owner_sid", VStr "S-1-5-32-544"); ("inheritance_protected", VBool true);
                        ("rules", VList (toy_rule <$> [toy_sid; "S-1-5-18"; "S-1-5-32-544"]))])])]);
   ("checks", VDict [("account", VDict (texts [("status", "satisfied"); ("reason", "")]))]);
   ("contract_satisfied", VBool true); ("side_effects", VDict SIDE_EFFECTS)].

Definition toy_binary (name : string) : pyval :=
  VDict [("path", VStr name); ("present", VBool true);
         ("sha256", match pinned_binary name with VNone => VStr (length_digest name) | pin => pin end)].
Definition toy_service : pyval := VDict (texts [("active", "inactive"); ("enabled", "disabled")]).
Definition toy_wsl : dict :=
  [("schema_version", VInt 1); ("collector", VStr "wsl-jit-semantic-observations"); ("observed_at", VStr "2026-01-15T10:00:00Z");
   ("expected_distro", VStr EXPECTED_DISTRO); ("collection_status", VStr "complete"); ("probe_errors", VList []);
   ("observations", VDict
     [("wsl_boundary", VDict [("distro_environment_matches", VBool true);
         ("wsl_conf", VDict [("readable", VBool true); ("sha256", VStr (length_digest "conf"));
                             ("settings", VDict ((λ f, (f, VStr "False")) <$> WSL_SETTINGS))])]);
      ("mounts_and_interop", VDict [("mount_class_counts", VDict ((λ f, (f, VInt 0)) <$> MOUNT_CLASSES));
         ("wsl_interop", VDict [("present", VBool false); ("enabled", VBool false)]); ("windows_path_entry_count", VInt 0)]);
      ("credential_surfaces", VDict ((λ f, (f, VBool false)) <$> CREDENTIAL_SURFACES));
      ("linux_identities", VDict [("garm-manager", VDict [("present", VBool true); ("uid", VInt 997); ("gid", VInt 997);
         ("primary_group", VStr "garm-manager"); ("supplementary_groups", VList []); ("home", VStr "/var/lib/garm");
         ("shell", VStr "/usr/sbin/nologin")])]);
      ("software", VDict [("expected_pins", VDict EXPECTED_SOFTWARE);
         ("packages", VDict ((λ f, (f, VDict [("installed", VBool true); ("version", VStr "6.0.0-1ubuntu0.3")])) <$> REQUIRED_PACKAGES));
         ("binaries", VDict ((λ f, (f, toy_binary f)) <$> BINARIES))]);
      ("incus", VDict [("project", VDict [("present", VBool true); ("config", VDict REQUIRED_PROJECT)]);
         ("profile", VDict [("present", VBool true); ("config", VDict REQUIRED_PROFILE); ("devices", VDict REQUIRED_DEVICES)]);
         ("storage", VDict [("present", VBool true); ("driver", VStr "dir");
                            ("config", VDict (texts [("source", "/var/lib/self-hosted-ci/incus-storage/ci-jit/pool")]))]);
         ("bridge", VDict [("present", VBool true); ("config", VDict REQUIRED_BRIDGE); ("type", VStr "bridge")]);
         ("instances", VDict [("observable", VBool true); ("count", VInt 0); ("names_sha256", VStr (length_digest ""))])]);
      ("network", VDict [("nftables", VDict [("observable", VBool true); ("table_names", VList []); ("rule_count", VInt 0);
                                             ("canonical_sha256", VStr (length_digest ""))]);
         ("expected_listeners", VDict ((λ f, (f, VBool false)) <$> ["dns"; "egress-proxy"; "garm-proxy"]));
         ("resolver_classes", VDict ((λ f, (f, VInt 0)) <$> ["loopback"; "private"; "public"; "link_local"; "invalid"]))]);
      ("garm", VDict [("services", VDict [("garm.service", toy_service); ("self-hosted-ci-garm.service", toy_service)]);
         ("process_count", VInt 0); ("state_database_present", VBool false); ("persistent_runner_registration_present", VBool false);
         ("health_state", VDict [("observable", VBool false); ("zero_scale_sets", VNone); ("configured_target_count", VNone)])])])].

(** A hundred artifacts of one character, and a digest that takes their mapping
    to the pinned one. *)
Definition toy_artifact (n : nat) : pyval :=
  let name := "files/" +:+ hex_text 2 (N.of_nat n) in
  VDict (texts [("source", name); ("target", "/" +:+ name); ("mode", "0644"); ("sha256", length_digest "x")] ++ [("size", VInt 1)]).
Definition toy_artifacts : list pyval := Eval vm_compute in toy_artifact <$> seq 0 PUBLIC_MANIFEST_ARTIFACT_COUNT.
Definition toy_mapping : string :=
  Eval vm_compute in result_or "" (canonicalize_jcs (VList (pair_value <$> merge_sort pair_le (omap artifact_pair toy_artifacts)))).
Definition pinning_digest (s : string) : string := if String.eqb s toy_mapping then PUBLIC_MANIFEST_MAPPING_DIGEST else length_digest s.
Lemma pinning_digest_shape s : is_sha256 (pinning_digest s) = true.
Proof. unfold pinning_digest. case_match; [by vm_compute|apply length_digest_shape]. Qed.
#[local] Instance PinningDigest : Digest := {| sha256_hex := pinning_digest; sha256_hex_shape := pinning_digest_shape |}.
#[local] Existing Instance ToyKeys.
#[local] Instance OneCharacter : EvidenceRoot := λ parts,
  match parts with
  | ["files"; _] => Ok (Some {| hf_data := "x"; hf_mode := 420; hf_uid := 0; hf_gid := 0 |})
  | _ => Ok None
  end.
Definition toy_public_manifest : dict :=
  [("bootstrap_public_manifest_version", VInt 1); ("mapping_digest", VStr PUBLIC_MANIFEST_MAPPING_DIGEST); ("artifacts", VList toy_artifacts)].

Definition boot_key : private_key := (Ed25519Key, "bootstrap").
Definition boot_pin : string := Eval vm_compute in spki_fingerprint (public_of boot_key).
Definition boot_nonce : string := "0123456789abcdef0123456789abcdef".
Definition boot_instant : Z := Eval vm_compute in result_or 0 (boot_timestamp (VStr "2026-01-15T10:01:00Z") "").
Definition toy_bootstrap : dict := Eval vm_compute in result_or []
  (unsigned ← build_bootstrap_boundary toy_windows toy_wsl toy_public_manifest (Aware UTC boot_instant) (Some boot_nonce) "";
   sign_bootstrap_boundary unsigned boot_key).
Definition inert_decision : BootstrapBoundaryDecision := {| bd_authorized := true; bd_blockers := [] |}.
Definition toy_bootstrap_check (evidence : dict) (now : Z) : result BootstrapBoundaryDecision :=
  verify_bootstrap_boundary evidence toy_windows toy_wsl toy_public_manifest (public_of boot_key) boot_pin boot_nonce (Aware UTC now).
Lemma toy_bootstrap_passes : toy_bootstrap_check toy_bootstrap boot_instant = Ok inert_decision.
Proof. vm_compute. reflexivity. Qed.
(** Eleven minutes later it has expired, and without its attestation it is no
    document of this version. *)
Example toy_bootstrap_expires :
  bd_blockers <$> toy_bootstrap_check toy_bootstrap (boot_instant + seconds 660) = Ok ["bootstrap-expired"] ∧
  bd_blockers <$> toy_bootstrap_check (_unsigned toy_bootstrap) boot_instant =
    Raise (Exn BootstrapBoundaryError "bootstrap boundary requires exact v1 fields").
Proof. by vm_compute. Qed.

Lemma bootstrap_authorized_witness : bd_authorized inert_decision = true ∧ ∃ zone now, Aware UTC boot_instant = Aware zone now ∧
  bootstrap_proven toy_bootstrap toy_windows toy_wsl toy_public_manifest (public_of boot_key) boot_pin boot_nonce now.
Proof. split; [reflexivity|]. exact (bootstrap_authorized _ _ _ _ _ _ _ _ _ toy_bootstrap_passes eq_refl). Defined.
