(* ===== verification/RepositoryProfile.v ===== *)
(** * The repository profile (repository_profile.py)

    A pinned profile names the one script the checks of a repository run, on the
    image and against the base workflow it was reviewed for; the script runs in a
    process group of its own, to which the signals of the job are passed on. *)

From stdpp Require Import gmap strings.
From S2P Require Import Prelude PyValue PyText Json Digest Datetime GitHubHttp RunnerBoundary Bakeoff.
#[local] Open Scope Z_scope.

(** ** The pinned profile *)

Definition MARKER_PATH : list string := ["etc"; "self-hosted-ci"; "repository-profile-image-v1.json"].
(** [PROFILE_PATHS.get((repository, profile_id))] *)
Definition PROFILE_PATHS (repository profile_id : string) : option string :=
  if bool_decide ((repository, profile_id) = ("alethia-earth/Overworld", "overworld-ci-v1"))
  then Some "repository_profiles/overworld/profile.json" else None.
Definition PROFILE_FIELDS : list string :=
  ["repository_command_profile_version"; "profile_id"; "repository"; "image_marker"; "runner_memory_bytes"; "source_workflow_path";
   "source_workflow_sha256"; "dependency_snapshots"; "runner_script"; "runner_script_sha256"; "phases"; "toolchain"].
Definition TOOLCHAIN_FIELDS : list string :=
  ["bun"; "garm"; "minio"; "node"; "playwright"; "postgresql_backend"; "postgis_backend"; "postgresql_e2e"; "postgis_e2e"; "python"; "uv";
   "waterfall_revision"].
Definition MARKER_FIELDS : list string :=
  ["repository_profile_image_marker_version"; "repository"; "profile_id"; "profile_digest"; "image_marker"; "runner_memory_bytes";
   "toolchain"; "dependency_snapshots"].
Definition FORBIDDEN_SCRIPT_FRAGMENTS : list string :=
  ["docker"; "/var/run/docker.sock"; "sudo"; "apt-get"; "apt "; "npm "; "npx "; "bunx "; "eval "; "source "; "bash -c"; "sh -c"].
Definition EXPECTED_TOOLCHAIN : dict :=
  (λ kv, (kv.1, VStr kv.2)) <$>
  [("bun", "1.4.0"); ("garm", "0.2.1"); ("minio", "RELEASE.2025-09-07T16-13-09Z"); ("node", "22.23.2"); ("playwright", "1.64.1");
   ("postgresql_backend", "16"); ("postgis_backend", "3.4"); ("postgresql_e2e", "17"); ("postgis_e2e", "3.5"); ("python", "3.12");
   ("uv", "0.8.22"); ("waterfall_revision", "a5834a2f7665f956297c03cc32e5601b097bffbe")].
Definition EXPECTED_SNAPSHOTS : dict :=
  [("backend", VDict [("lock_path", VStr "backend/bun.lock");
                      ("lock_sha256", VStr "5e99b30664687cf49dc142e65739c49f31213d9faa5477aeff37d4ab9bf795a8");
                      ("node_modules_path", VStr "/opt/self-hosted-ci/overworld-deps/backend-node_modules")]);
   ("frontend", VDict [("lock_path", VStr "frontend/bun.lock");
                       ("lock_sha256", VStr "8941c2bb73910448c2c835526ea26a3a52d37a010f496cd28c8ef5fec196e351");
                       ("node_modules_path", VStr "/opt/self-hosted-ci/overworld-deps/frontend-node_modules")])].
Definition RUNNER_SCRIPT : string := "repository_profiles/overworld/run-overworld-ci.sh".

Definition profile_refuse {A} (msg : string) : result A := throw RepositoryProfileError msg.
Definition profile_refuse_if (b : bool) (msg : string) : result unit := check b RepositoryProfileError msg.

(** [^[a-z0-9][a-z0-9-]{0,63}$] *)
Definition is_slug_char (c : ascii) : bool := is_digit c || in_range "a" "z" c.
Definition is_profile_id (s : string) : bool :=
  match s with
  | String c rest => is_slug_char c && match_between 0 63 (λ c, is_slug_char c || Ascii.eqb c "-") rest
  | EmptyString => false
  end.

(** ** Bytes as text *)

(** [bytes.decode("utf-8")] succeeds: what follows a first byte, and the bounds
    of the second one. *)
Definition utf8_lead (n : N) : option (nat * N * N) :=
  if (n <? 128)%N then Some (0%nat, 0%N, 0%N)
  else if (n <? 194)%N then None
  else if (n <? 224)%N then Some (1%nat, 128%N, 191%N)
  else if (n =? 224)%N then Some (2%nat, 160%N, 191%N)
  else if (n =? 237)%N then Some (2%nat, 128%N, 159%N)
  else if (n <? 240)%N then Some (2%nat, 128%N, 191%N)
  else if (n =? 240)%N then Some (3%nat, 144%N, 191%N)
  else if (n <? 244)%N then Some (3%nat, 128%N, 191%N)
  else if (n =? 244)%N then Some (3%nat, 128%N, 143%N)
  else None.
Fixpoint utf8_from (more : nat) (lo hi : N) (s : string) : bool :=
  match s with
  | EmptyString => (more =? 0)%nat
  | String c s =>
      let n := N_of_ascii c in
      match more with
      | O => match utf8_lead n with Some (more, lo, hi) => utf8_from more lo hi s | None => false end
      | S more => (lo <=? n)%N && (n <=? hi)%N && utf8_from more 128 191 s
      end
  end.
Definition is_utf8 (s : string) : bool := utf8_from 0 0 0 s.
Example utf8_shapes : is_utf8 (utf8_encode 233 +:+ utf8_encode 8490 +:+ utf8_encode 65536) = true ∧ is_utf8 (String "255" "") = false ∧
  is_utf8 (String "192" (String "128" "")) = false.
Proof. by vm_compute. Qed.

(** [str.lower], as far as a search for ASCII text can tell: beside the capitals,
    the Kelvin sign becomes [k] and the dotted capital I an [i] and a combining
    dot; no other letter becomes an ASCII one. *)
Fixpoint lower_script (s : string) : string :=
  match s with
  | EmptyString => EmptyString
  | String c s' =>
      match s' with
      | String d r =>
          if bool_decide ((c, d) = ("196", "176")%char) then String "i" (String "204" (String "135" (lower_script r)))
          else match r with
               | String e t => if bool_decide ((c, d, e) = ("226", "132", "170")%char) then String "k" (lower_script t)
                               else String (lower_char c) (lower_script s')
               | EmptyString => String (lower_char c) (lower_script s')
               end
      | EmptyString => String (lower_char c) EmptyString
      end
  end.
Definition script_text (raw : string) : string :=
  str_replace "privilege_helper=/usr/bin/sudo" "privilege_helper=<verified-non-executable>" (lower_script raw).
Definition is_forbidden (raw : string) : bool := existsb (λ fragment, has_text fragment (script_text raw)) FORBIDDEN_SCRIPT_FRAGMENTS.
Example forbidden_script : is_forbidden ("exec do" +:+ utf8_encode 8490 +:+ "er run") = false ∧ is_forbidden ("exec doc" +:+ utf8_encode 8490 +:+ "ER run") = true ∧
  is_forbidden "readonly PRIVILEGE_HELPER=/usr/bin/SUDO" = false ∧ is_forbidden "SUDO -n true" = true.
Proof. by vm_compute. Qed.

(** ** The host *)

(** Paths are their parts below the root of the file system. [git_show] is
    [git show object] in a directory: the exit status and the output. *)
Class ProfileHost := {
  resolve_path : string → result (list string);
  read_file : list string → result string;
  git_show : list string → string → result (Z * string);
}.

(** [_strict_json] *)
Definition _strict_json (raw : string) : result pyval :=
  profile_refuse_if (negb (is_utf8 raw)) "invalid profile JSON";;
  loads_exact RepositoryProfileError "duplicate JSON key" "invalid profile JSON" raw.
Definition exact_object (fields : list string) (msg : string) (v : pyval) : result dict :=
  match v with
  | VDict d => if same_set (dkeys d) fields then Ok d else profile_refuse msg
  | _ => profile_refuse msg
  end.
Definition _exact_toolchain (v : pyval) : result dict :=
  d ← exact_object TOOLCHAIN_FIELDS "toolchain fields are not exact" v;
  profile_refuse_if (negb (py_eq (VDict d) (VDict EXPECTED_TOOLCHAIN))) "toolchain values are not the pinned Overworld contract";;
  Ok d.
(** [SHA256.fullmatch(str(v))]: an integer may have 64 digits. *)
Definition reads_sha256 (v : pyval) : bool :=
  match v with VStr s => is_sha256 s | VInt n => is_sha256 (str_of_Z n) | _ => false end.
(** [PurePosixPath(s).as_posix()], for a path that is not absolute. *)
Definition as_posix (s : string) : string := match path_parts s with [] => "." | parts => String.concat "/" parts end.
(** [str(v)] of what is no string is no path of the profile. *)
Definition exact_script (v : pyval) : bool :=
  match v with
  | VStr s => negb (is_absolute s) && bool_decide (".." ∉ path_parts s) && bool_decide (as_posix s = s)
              && bool_decide (path_parts s = path_parts RUNNER_SCRIPT)
  | _ => false
  end.

Section profile.
Context {D : Digest} {Host : ProfileHost}.

Definition load_profile (root : list string) (repository profile_id expected_digest : string) : result (dict * list string) :=
  profile_refuse_if (negb (is_repository repository) || negb (is_profile_id profile_id)) "repository/profile identity is invalid";;
  relative ← match PROFILE_PATHS repository profile_id with Some p => Ok p | None => profile_refuse "repository/profile is not allowlisted" end;
  profile_refuse_if (negb (is_sha256 expected_digest)) "profile digest is invalid";;
  raw ← read_file (root ++ path_parts relative);
  profile_refuse_if (negb (bool_decide (sha256_hex raw = expected_digest))) "profile digest mismatch";;
  document ← _strict_json raw;
  value ← exact_object PROFILE_FIELDS "profile fields are not exact" document;
  profile_refuse_if
    (negb (py_eq (dget "repository_command_profile_version" value) (VInt 1)) || negb (py_eq (dget "repository" value) (VStr repository))
     || negb (py_eq (dget "profile_id" value) (VStr profile_id)) || negb (py_eq (dget "image_marker" value) (VStr "overworld-ci-jit-v1"))
     || negb (py_eq (dget "runner_memory_bytes" value) (VInt 4294967296))
     || negb (py_eq (dget "source_workflow_path" value) (VStr ".github/workflows/ci.yml"))
     || negb (reads_sha256 (dget "source_workflow_sha256" value))
     || negb (py_eq (dget "phases" value) (VList [VStr "backend"; VStr "frontend"; VStr "e2e"])))
    "profile identity, image, memory, workflow or phases mismatch";;
  _exact_toolchain (dget "toolchain" value);;
  profile_refuse_if (negb (py_eq (dget "dependency_snapshots" value) (VDict EXPECTED_SNAPSHOTS)))
    "dependency snapshots are not the pinned lock contract";;
  profile_refuse_if (negb (exact_script (dget "runner_script" value))) "runner script path is not exact";;
  let script_path := root ++ path_parts RUNNER_SCRIPT in
  script_raw ← read_file script_path;
  profile_refuse_if (negb (py_eq (VStr (sha256_hex script_raw)) (dget "runner_script_sha256" value))) "runner script digest mismatch";;
  check (negb (is_utf8 script_raw)) ValueError "'utf-8' codec can't decode";;
  profile_refuse_if (is_forbidden script_raw) "runner script contains a forbidden execution surface";;
  Ok (value, script_path).

Definition marker_binding (profile : dict) (profile_digest : string) : dict :=
  [("repository_profile_image_marker_version", VInt 1); ("repository", dget "repository" profile); ("profile_id", dget "profile_id" profile);
   ("profile_digest", VStr profile_digest); ("image_marker", dget "image_marker" profile);
   ("runner_memory_bytes", dget "runner_memory_bytes" profile); ("toolchain", dget "toolchain" profile);
   ("dependency_snapshots", dget "dependency_snapshots" profile)].
Definition verify_image_marker (marker_path : list string) (profile : dict) (profile_digest : string) : result unit :=
  raw ← read_file marker_path;
  document ← _strict_json raw;
  value ← exact_object MARKER_FIELDS "image marker fields are not exact" document;
  profile_refuse_if (negb (py_eq (VDict value) (VDict (marker_binding profile profile_digest)))) "image marker does not bind the exact profile".

Definition verify_source_workflow (profile : dict) (base_sha : string) (workspace : list string) : result unit :=
  profile_refuse_if (negb (is_sha1 base_sha)) "base SHA is invalid";;
  let path := match dget "source_workflow_path" profile with VStr path => path | _ => "" end in
  '(returncode, stdout) ← git_show workspace (base_sha +:+ ":" +:+ path);
  profile_refuse_if (negb (returncode =? 0) || negb (py_eq (VStr (sha256_hex stdout)) (dget "source_workflow_sha256" profile)))
    "base workflow differs from the reviewed profile source".

(** [env.get(k, "")] and [env[k]] *)
Definition environ_get (env : gmap string string) (k : string) : string := default "" (env !! k).
Definition environ_item (env : gmap string string) (k : string) : result string :=
  match env !! k with Some v => Ok v | None => throw KeyError k end.
(** [path.parents[1]] *)
Definition grandparent (path : list string) : result (list string) :=
  check (length path <? 2)%nat IndexError "1";; Ok (take (length path - 2) path).

(** What is run, in which directory and environment. *)
Record Launch := { ln_argv : list (list string); ln_cwd : list string; ln_env : gmap string string }.
(** [run_from_environment] up to the call of [_run_profile]. *)
Definition prepare (env : gmap string string) : result Launch :=
  let repository := environ_get env "PROFILE_REPOSITORY" in
  profile_refuse_if (negb (bool_decide (environ_get env "GITHUB_REPOSITORY" = repository)))
    "GitHub repository differs from literal profile repository";;
  action_path ← environ_item env "GITHUB_ACTION_PATH";
  action ← resolve_path action_path;
  action_root ← grandparent action;
  workspace_path ← environ_item env "GITHUB_WORKSPACE";
  workspace ← resolve_path workspace_path;
  let digest := environ_get env "PROFILE_DIGEST" in
  '(profile, script) ← load_profile action_root repository (environ_get env "PROFILE_ID") digest;
  profile_refuse_if (negb (py_eq (VStr (environ_get env "PROFILE_IMAGE_MARKER")) (dget "image_marker" profile)))
    "workflow image marker differs from profile";;
  verify_image_marker MARKER_PATH profile digest;;
  verify_source_workflow profile (environ_get env "PROFILE_BASE_SHA") workspace;;
  profile_refuse_if (negb (is_sha1 (environ_get env "PROFILE_TESTED_MERGE_SHA"))) "tested merge SHA is invalid";;
  Ok {| ln_argv := [script]; ln_cwd := workspace; ln_env := env |}.
End profile.

(** ** The supervised process

    The supervisor runs one step at a time, [Proceeds] with what the system
    answers; a signal [Arrives] between any two of them and runs its handler, with
    what the system answers should the handler pass it on. Times are in
    milliseconds of the monotonic clock. *)

Inductive kill_answer := Delivered | NoSuchGroup | NotPermitted.
Inductive os_answer :=
  | Done
  | Started (pid : Z) | StartFails
  | Kills (a : kill_answer)
  | Exited (returncode : Z)
  | Elapsed (d : Z).
Inductive event := Arrives (signum : Z) (a : kill_answer) | Proceeds (o : os_answer).

(** Where the supervisor stands: [Reaping] is [_kill_residual_process_group], from
    its first probe to its loop, [Leaving] is [finally]. *)
Inductive point :=
  | Installing (todo : list Z)
  | Spawning
  | Binding (pid : Z)                (* the process runs, [child] is not assigned *)
  | Forwarding (i : nat)
  | Waiting
  | Judging (returncode : Z)
  | Reaping_probe | Reaping_kill | Reaping_clock
  | Reaping_loop (deadline : Z) | Reaping_check (deadline : Z) | Reaping_sleep (deadline : Z)
  | Leaving (outcome : result Z) (todo : list Z)
  | Left (outcome : result Z).

Record Supervisor := {
  sv_point : point;
  sv_child : option Z;
  sv_pending : list Z;               (* pending_signals *)
  sv_cancel : option Z;              (* cancellation_signal *)
  sv_installed : list Z;             (* signals whose handler is forward_signal *)
  sv_now : Z;
  sv_launched : option Launch;
  sv_handled : list Z;               (* signals the handler was run for, in order *)
  sv_forwarded : list Z;             (* signals passed to the group, in order *)
  sv_absent : bool;                  (* the group was seen gone after the child ended *)
}.

Definition SIGINT : Z := 2.
Definition SIGTERM : Z := 15.
Definition HANDLED_SIGNALS : list Z := [SIGINT; SIGTERM].
Definition at_point (p : point) (s : Supervisor) : Supervisor :=
  {| sv_point := p; sv_child := sv_child s; sv_pending := sv_pending s; sv_cancel := sv_cancel s; sv_installed := sv_installed s;
     sv_now := sv_now s; sv_launched := sv_launched s; sv_handled := sv_handled s; sv_forwarded := sv_forwarded s; sv_absent := sv_absent s |}.
Definition with_child (c : option Z) (s : Supervisor) : Supervisor :=
  {| sv_point := sv_point s; sv_child := c; sv_pending := sv_pending s; sv_cancel := sv_cancel s; sv_installed := sv_installed s;
     sv_now := sv_now s; sv_launched := sv_launched s; sv_handled := sv_handled s; sv_forwarded := sv_forwarded s; sv_absent := sv_absent s |}.
Definition with_installed (l : list Z) (s : Supervisor) : Supervisor :=
  {| sv_point := sv_point s; sv_child := sv_child s; sv_pending := sv_pending s; sv_cancel := sv_cancel s; sv_installed := l;
     sv_now := sv_now s; sv_launched := sv_launched s; sv_handled := sv_handled s; sv_forwarded := sv_forwarded s; sv_absent := sv_absent s |}.
Definition with_launched (l : Launch) (s : Supervisor) : Supervisor :=
  {| sv_point := sv_point s; sv_child := sv_child s; sv_pending := sv_pending s; sv_cancel := sv_cancel s; sv_installed := sv_installed s;
     sv_now := sv_now s; sv_launched := Some l; sv_handled := sv_handled s; sv_forwarded := sv_forwarded s; sv_absent := sv_absent s |}.
Definition at_time (t : Z) (s : Supervisor) : Supervisor :=
  {| sv_point := sv_point s; sv_child := sv_child s; sv_pending := sv_pending s; sv_cancel := sv_cancel s; sv_installed := sv_installed s;
     sv_now := t; sv_launched := sv_launched s; sv_handled := sv_handled s; sv_forwarded := sv_forwarded s; sv_absent := sv_absent s |}.
Definition with_absent (s : Supervisor) : Supervisor :=
  {| sv_point := sv_point s; sv_child := sv_child s; sv_pending := sv_pending s; sv_cancel := sv_cancel s; sv_installed := sv_installed s;
     sv_now := sv_now s; sv_launched := sv_launched s; sv_handled := sv_handled s; sv_forwarded := sv_forwarded s; sv_absent := true |}.
Definition handles (signum : Z) (s : Supervisor) : Supervisor :=
  {| sv_point := sv_point s; sv_child := sv_child s;
     sv_pending := match sv_child s with None => sv_pending s ++ [signum] | Some _ => sv_pending s end;
     sv_cancel := match sv_cancel s with None => Some signum | Some c => Some c end; sv_installed := sv_installed s;
     sv_now := sv_now s; sv_launched := sv_launched s; sv_handled := sv_handled s ++ [signum]; sv_forwarded := sv_forwarded s;
     sv_absent := sv_absent s |}.
Definition forwards (signum : Z) (s : Supervisor) : Supervisor :=
  {| sv_point := sv_point s; sv_child := sv_child s; sv_pending := sv_pending s; sv_cancel := sv_cancel s; sv_installed := sv_installed s;
     sv_now := sv_now s; sv_launched := sv_launched s; sv_handled := sv_handled s; sv_forwarded := sv_forwarded s ++ [signum];
     sv_absent := sv_absent s |}.

Definition supervisor_init (now : Z) : Supervisor :=
  {| sv_point := Installing HANDLED_SIGNALS; sv_child := None; sv_pending := []; sv_cancel := None; sv_installed := []; sv_now := now;
     sv_launched := None; sv_handled := []; sv_forwarded := []; sv_absent := false |}.

Definition os_error : exn := Exn OSError "".
Definition STILL_RUNNING : exn := Exn RepositoryProfileError "repository profile process group did not terminate".
(** An exception where the supervisor stands: [finally] is next, or its rest is
    not done. *)
Definition interrupts (e : exn) (s : Supervisor) : Supervisor :=
  match sv_point s with
  | Leaving _ _ | Left _ => at_point (Left (Raise e)) s
  | _ => at_point (Leaving (Raise e) HANDLED_SIGNALS) s
  end.
(** [forward_signal] *)
Definition forward_signal (signum : Z) (a : kill_answer) (s : Supervisor) : Supervisor :=
  let s' := handles signum s in
  match sv_child s with
  | None => s'
  | Some _ => match a with NotPermitted => interrupts os_error s' | _ => forwards signum s' end
  end.
(** [_process_group_exists]: what may not be signalled is there. *)
Definition group_exists (a : kill_answer) : bool := match a with NoSuchGroup => false | _ => true end.

Section supervisor.
Context (launch : Launch).

Definition leave (outcome : result Z) (s : Supervisor) : Supervisor := at_point (Leaving outcome HANDLED_SIGNALS) s.
(** [return 128 + cancellation_signal], once the group is gone. *)
Definition reaped (s : Supervisor) : Supervisor := leave (Ok (128 + default 0 (sv_cancel s))) s.
Definition proceed (o : os_answer) (s : Supervisor) : option Supervisor :=
  match sv_point s, o with
  | Installing (signum :: todo), Done => Some (at_point (Installing todo) (with_installed (signum :: sv_installed s) s))
  | Installing [], Done => Some (at_point Spawning s)
  | Spawning, Started pid => Some (at_point (Binding pid) (with_launched launch s))
  | Spawning, StartFails => Some (leave (Raise os_error) s)
  | Binding pid, Done => Some (at_point (Forwarding 0) (with_child (Some pid) s))
  | Forwarding i, Kills a =>
      match sv_pending s !! i, a with
      | Some _, NotPermitted => Some (leave (Raise os_error) s)
      | Some signum, _ => Some (at_point (Forwarding (S i)) (forwards signum s))
      | None, _ => None
      end
  | Forwarding i, Done => match sv_pending s !! i with None => Some (at_point Waiting s) | Some _ => None end
  | Waiting, Exited returncode => Some (at_point (Judging returncode) s)
  | Judging returncode, Done =>
      Some (match sv_cancel s with
            | Some _ => at_point Reaping_probe s
            | None => leave (Ok (if returncode <? 0 then 128 - returncode else returncode)) s
            end)
  | Reaping_probe, Kills a => Some (if group_exists a then at_point Reaping_kill s else reaped (with_absent s))
  | Reaping_kill, Kills a =>
      Some (match a with
            | Delivered => at_point Reaping_clock s
            | NoSuchGroup => reaped (with_absent s)
            | NotPermitted => leave (Raise os_error) s
            end)
  | Reaping_clock, Elapsed d => if 0 <=? d then Some (at_point (Reaping_loop (sv_now s + d + 5000)) (at_time (sv_now s + d) s)) else None
  | Reaping_loop deadline, Kills a => Some (if group_exists a then at_point (Reaping_check deadline) s else reaped (with_absent s))
  | Reaping_check deadline, Elapsed d =>
      if 0 <=? d then
        Some (if deadline <=? sv_now s + d then leave (Raise STILL_RUNNING) (at_time (sv_now s + d) s)
              else at_point (Reaping_sleep deadline) (at_time (sv_now s + d) s))
      else None
  | Reaping_sleep deadline, Elapsed d => if 10 <=? d then Some (at_point (Reaping_loop deadline) (at_time (sv_now s + d) s)) else None
  | Leaving outcome (signum :: todo), Done =>
      Some (at_point (Leaving outcome todo) (with_installed (filter (λ n, n ≠ signum) (sv_installed s)) s))
  | Leaving outcome [], Done => Some (at_point (Left outcome) s)
  | _, _ => None
  end.
(** A signal that is not handled here, or after the call has returned, is not of
    this run. *)
Definition happens (e : event) (s : Supervisor) : option Supervisor :=
  match e with
  | Proceeds o => proceed o s
  | Arrives signum a =>
      match sv_point s with
      | Left _ => None
      | _ => if bool_decide (signum ∈ sv_installed s) then Some (forward_signal signum a s) else None
      end
  end.
Fixpoint drive (schedule : list event) (s : Supervisor) : option Supervisor :=
  match schedule with [] => Some s | e :: schedule => s ← happens e s; drive schedule s end.
(** [_run_profile], under a schedule that takes it to its end. *)
Definition _run_profile (now : Z) (schedule : list event) : option (result Z * Supervisor) :=
  s ← drive schedule (supervisor_init now);
  match sv_point s with Left outcome => Some (outcome, s) | _ => None end.
End supervisor.

(** [except (KeyError, OSError, RepositoryProfileError)] *)
Definition is_rejection (c : exn_class) : bool := bool_decide (c ∈ [KeyError; OSError; RepositoryProfileError]).
Definition or_rejected (r : result Z) : result Z :=
  match r with Ok code => Ok code | Raise e => if is_rejection (exn_cls e) then Ok 2 else Raise e end.
(** What the call returns or raises, and what was launched. *)
Definition run_from_environment {D : Digest} {Host : ProfileHost} (env : gmap string string) (now : Z) (schedule : list event)
  : option (result Z * option Supervisor) :=
  match prepare env with
  | Raise e => Some (or_rejected (Raise e), None)
  | Ok launch => '(outcome, s) ← _run_profile launch now schedule; Some (or_rejected outcome, Some s)
  end.

(** ** What is run *)

Section pinned.
Context {D : Digest} {Host : ProfileHost}.

Record launch_pinned (env : gmap string string) (l : Launch) : Prop := {
  lp_env : ln_env l = env;
  lp_identity : env !! "PROFILE_REPOSITORY" = Some "alethia-earth/Overworld" ∧ env !! "GITHUB_REPOSITORY" = Some "alethia-earth/Overworld" ∧
    env !! "PROFILE_ID" = Some "overworld-ci-v1" ∧ is_sha1 (environ_get env "PROFILE_BASE_SHA") = true ∧
    is_sha1 (environ_get env "PROFILE_TESTED_MERGE_SHA") = true;
  lp_workspace : ∃ text, env !! "GITHUB_WORKSPACE" = Some text ∧ resolve_path text = Ok (ln_cwd l);
  lp_profile : ∃ root raw profile script,
    read_file (root ++ ["repository_profiles"; "overworld"; "profile.json"]) = Ok raw ∧
    env !! "PROFILE_DIGEST" = Some (sha256_hex raw) ∧ _strict_json raw = Ok (VDict profile) ∧
    py_eq (dget "toolchain" profile) (VDict EXPECTED_TOOLCHAIN) = true ∧ dget "runner_script" profile = VStr RUNNER_SCRIPT ∧
    ln_argv l = [root ++ ["repository_profiles"; "overworld"; "run-overworld-ci.sh"]] ∧
    read_file (root ++ ["repository_profiles"; "overworld"; "run-overworld-ci.sh"]) = Ok script ∧
    dget "runner_script_sha256" profile = VStr (sha256_hex script) ∧ is_forbidden script = false ∧
    (∃ marker value, read_file MARKER_PATH = Ok marker ∧ _strict_json marker = Ok (VDict value) ∧
       py_eq (VDict value) (VDict (marker_binding profile (sha256_hex raw))) = true) ∧
    ∃ workflow, git_show (ln_cwd l) (environ_get env "PROFILE_BASE_SHA" +:+ ":.github/workflows/ci.yml") = Ok (0, workflow) ∧
      dget "source_workflow_sha256" profile = VStr (sha256_hex workflow);
}.

Lemma refuse_if_ok {A} b msg (k : unit → result A) a : (profile_refuse_if b msg ≫= k) = Ok a ↔ b = false ∧ k tt = Ok a.
Proof. unfold profile_refuse_if. destruct b; cbn; naive_solver. Qed.
Lemma exact_object_ok fields msg v d : exact_object fields msg v = Ok d → v = VDict d.
Proof. destruct v as [| | | | |e]; try done. cbn. case_match; [|done]. by intros [= ->]. Qed.
Lemma eq_str s v : py_eq (VStr s) v = true → v = VStr s.
Proof. destruct v; try done. cbn. by intros ->%bool_decide_eq_true. Qed.
Lemma environ_get_some env k s : environ_get env k = s → s ≠ "" → env !! k = Some s.
Proof. unfold environ_get. by destruct (env !! k); cbn; intros <-. Qed.
Lemma exact_script_ok v : exact_script v = true → v = VStr RUNNER_SCRIPT.
Proof.
  destruct v as [| | |s| |]; try done. cbn -[path_parts as_posix RUNNER_SCRIPT]. intros H. bool_inv.
  repeat match goal with H : bool_decide _ = true |- _ => apply bool_decide_eq_true in H end. f_equal.
  match goal with H : as_posix s = s, H' : path_parts s = _ |- _ => rewrite <- H; unfold as_posix; by rewrite H' end.
Qed.

(** What a loaded profile is. *)
Record profile_loaded (root : list string) (repository profile_id digest : string) (profile : dict) (script_path : list string) : Prop := {
  pl_identity : repository = "alethia-earth/Overworld" ∧ profile_id = "overworld-ci-v1";
  pl_raw : ∃ raw, read_file (root ++ ["repository_profiles"; "overworld"; "profile.json"]) = Ok raw ∧ digest = sha256_hex raw ∧
    _strict_json raw = Ok (VDict profile);
  pl_tools : py_eq (dget "toolchain" profile) (VDict EXPECTED_TOOLCHAIN) = true;
  pl_workflow : dget "source_workflow_path" profile = VStr ".github/workflows/ci.yml";
  pl_script : dget "runner_script" profile = VStr RUNNER_SCRIPT ∧
    script_path = root ++ ["repository_profiles"; "overworld"; "run-overworld-ci.sh"] ∧
    ∃ script, read_file script_path = Ok script ∧ dget "runner_script_sha256" profile = VStr (sha256_hex script) ∧ is_forbidden script = false;
}.
Lemma load_profile_ok root repository profile_id digest profile script_path :
  load_profile root repository profile_id digest = Ok (profile, script_path) →
  profile_loaded root repository profile_id digest profile script_path.
Proof.
  unfold load_profile. intros [_ (relative & Hp & [_ (raw & Hraw & [Hd (document & Hj & (value & Hv & H)%result_bind_ok)%result_bind_ok]%refuse_if_ok)
    %result_bind_ok]%refuse_if_ok)%result_bind_ok]%refuse_if_ok.
  apply negb_false_iff, bool_decide_eq_true in Hd as <-. unfold PROFILE_PATHS in Hp. case_bool_decide as Hi; [|done]. injection Hp as <-. injection Hi as -> ->.
  apply exact_object_ok in Hv as ->.
  apply refuse_if_ok in H as [Hf (tools & Ht & [_ [Hs (script & Hsc & H)%result_bind_ok]%refuse_if_ok]%refuse_if_ok)%result_bind_ok].
  apply refuse_if_ok in H as [Hsd (u & _ & [Hforb Hend]%refuse_if_ok)%result_bind_ok]. injection Hend as -> <-. bool_inv.
  unfold _exact_toolchain in Ht. apply result_bind_ok in Ht as (d & Hd & [Ht%negb_false_iff [= ->]]%refuse_if_ok). apply exact_object_ok in Hd.
  constructor; [done|by exists raw|by rewrite Hd|by apply py_eq_str|].
  split; [by apply exact_script_ok|]. split; [done|]. exists script. split_and!; [done|by apply eq_str|done].
Qed.
Lemma prepare_ok env l : prepare env = Ok l → launch_pinned env l.
Proof.
  unfold prepare. cbv zeta. intros [Hg (ap & _ & (action & _ & (root & _ & (wt & Hwt & (workspace & Hw & H)%result_bind_ok)%result_bind_ok)%result_bind_ok)
    %result_bind_ok)%result_bind_ok]%refuse_if_ok.
  apply negb_false_iff, bool_decide_eq_true in Hg. unfold environ_item in Hwt. destruct (env !! "GITHUB_WORKSPACE") as [wt'|] eqn:Ewt; [|done]. injection Hwt as ->.
  apply result_bind_ok in H as ([profile script_path] & Hl & [_ (u & Hm & (u' & Hwf & [Hms Hend]%refuse_if_ok)%result_bind_ok)%result_bind_ok]%refuse_if_ok).
  cbn in Hend. injection Hend as <-.
  apply load_profile_ok in Hl as [[Hrep Hid] (raw & Hraw & Hdig & Hj) Htools Hpath (Hrs & -> & script & Hsc & Hsd & Hforb)].
  unfold verify_image_marker in Hm. apply result_bind_ok in Hm as (marker & Hmr & (doc & Hmj & (value & Hv & Hm)%result_bind_ok)%result_bind_ok).
  apply exact_object_ok in Hv as ->. apply check_ok, negb_false_iff in Hm.
  unfold verify_source_workflow in Hwf. apply refuse_if_ok in Hwf as [Hbase H]. rewrite Hpath in H. cbv zeta in H.
  apply result_bind_ok in H as ([rc out] & Hgit & [Hrc Hout]%check_ok%orb_false_iff). apply negb_false_iff, Z.eqb_eq in Hrc as ->.
  apply negb_false_iff in Hbase, Hms, Hout. rewrite Hrep in Hg. constructor; cbn.
  - done.
  - split_and!; [by apply environ_get_some|by apply environ_get_some|by apply environ_get_some|done|done].
  - by exists wt.
  - exists root, raw, profile, script. split_and!; try done.
    + apply environ_get_some; [done|]. intros Hn. pose proof (sha256_hex_shape raw) as Hsh. by rewrite Hn in Hsh.
    + exists marker, value. by rewrite <- Hdig.
    + exists out. split; [done|by apply eq_str].
Qed.
End pinned.

(** ** What the supervisor keeps *)

Section supervision.
Context (launch : Launch).

(** The exit code of the script, as a shell gives it. *)
Definition shell_code (returncode : Z) : Z := if returncode <? 0 then 128 - returncode else returncode.
(** The signals of a schedule, and its other events. *)
Definition arrived (schedule : list event) : list Z := omap (λ e, match e with Arrives signum _ => Some signum | Proceeds _ => None end) schedule.
Definition turns (schedule : list event) : list os_answer := omap (λ e, match e with Proceeds o => Some o | Arrives _ _ => None end) schedule.
(** What a code that is returned says: the first signal, with the group seen
    gone, or how the script ended before any signal. *)
Definition code_meant (past : list event) (s : Supervisor) (code : Z) : Prop :=
  (∃ signum rest, sv_handled s = signum :: rest ∧ code = 128 + signum ∧ sv_absent s = true) ∨
  ∃ before returncode after, past = before ++ Proceeds (Exited returncode) :: after ∧ arrived before = [] ∧ code = shell_code returncode.
Definition all_forwarded (s : Supervisor) : Prop := is_Some (sv_child s) ∧ sv_launched s = Some launch ∧ sv_forwarded s ≡ₚ sv_handled s.
Definition not_started (s : Supervisor) : Prop := sv_child s = None ∧ sv_pending s = sv_handled s ∧ sv_forwarded s = [].
(** The system refused nothing for want of permission. *)
Definition refused (e : event) : bool := match e with Arrives _ NotPermitted | Proceeds (Kills NotPermitted) => true | _ => false end.
Definition unrefused (past : list event) : Prop := existsb refused past = false.
(** An exception left no script behind that missed a signal. *)
Definition raised_holds (past : list event) (s : Supervisor) : Prop :=
  unrefused past → (sv_launched s = None ∧ sv_child s = None) ∨ all_forwarded s.
Definition point_holds (past : list event) (s : Supervisor) : Prop :=
  match sv_point s with
  | Installing _ | Spawning => not_started s ∧ sv_launched s = None
  | Binding _ => not_started s ∧ sv_launched s = Some launch
  | Forwarding i => is_Some (sv_child s) ∧ sv_launched s = Some launch ∧ ∃ later, sv_handled s = sv_pending s ++ later ∧
      sv_forwarded s ≡ₚ take i (sv_pending s) ++ later
  | Waiting => all_forwarded s
  | Judging returncode => all_forwarded s ∧ ∃ before after, past = before ++ Proceeds (Exited returncode) :: after
  | Reaping_probe | Reaping_kill | Reaping_clock | Reaping_loop _ | Reaping_check _ | Reaping_sleep _ =>
      all_forwarded s ∧ is_Some (sv_cancel s)
  | Leaving (Ok code) _ | Left (Ok code) => all_forwarded s ∧ code_meant past s code
  | Leaving (Raise _) _ | Left (Raise _) => raised_holds past s
  end.
Definition installed_at (past : list event) (s : Supervisor) : Prop :=
  match sv_point s with
  | Leaving _ todo => ∀ n, n ∈ sv_installed s → n ∈ todo
  | Left (Ok _) => sv_installed s = []
  | Left (Raise _) => unrefused past → sv_installed s = []
  | Installing todo => ∀ n, n ∈ sv_installed s ∨ n ∈ todo → n ∈ HANDLED_SIGNALS
  | _ => ∀ n, n ∈ sv_installed s → n ∈ HANDLED_SIGNALS
  end.
Record supervised (past : list event) (s : Supervisor) : Prop := {
  su_cancel : sv_cancel s = head (sv_handled s);
  su_launched : sv_launched s = None ∨ sv_launched s = Some launch;
  su_point : point_holds past s;
  su_installed : installed_at past s;
}.

Lemma code_meant_later past e s code : code_meant past s code → code_meant (past ++ [e]) s code.
Proof.
  intros [H|(before & rc & after & -> & Hb & Hc)]; [by left|right]. exists before, rc, (after ++ [e]). by rewrite <- app_assoc.
Qed.
Lemma exit_later past e rc : (∃ before after, past = before ++ Proceeds (Exited rc) :: after) →
  ∃ before after, past ++ [e] = before ++ Proceeds (Exited rc) :: after.
Proof. intros (before & after & ->). exists before, (after ++ [e]). by rewrite <- app_assoc. Qed.
Lemma unrefused_later past e : unrefused (past ++ [e]) → unrefused past ∧ refused e = false.
Proof. unfold unrefused. rewrite existsb_app, orb_false_iff. change (existsb refused [e]) with (refused e || false). by rewrite orb_false_r. Qed.
Lemma raised_later past e s : raised_holds past s → raised_holds (past ++ [e]) s.
Proof. intros H [Hu _]%unrefused_later. exact (H Hu). Qed.
Lemma installed_later past e s : installed_at past s → installed_at (past ++ [e]) s.
Proof. unfold installed_at. destruct (sv_point s) as [| | | | | | | | | | | | |[|]]; try done. intros H [Hu _]%unrefused_later. exact (H Hu). Qed.
Lemma head_snoc {A} (l : list A) x : head (l ++ [x]) = match head l with None => Some x | Some y => Some y end.
Proof. by destruct l. Qed.
Lemma code_meant_signal past e signum s code : code_meant past s code → code_meant (past ++ [e]) (forwards signum (handles signum s)) code.
Proof.
  intros H%(code_meant_later _ e). destruct H as [(first & rest & Hh & Hc)|H]; [left|by right].
  exists first, (rest ++ [signum]). cbn. by rewrite Hh.
Qed.
Lemma all_forwarded_signal signum s : all_forwarded s → all_forwarded (forwards signum (handles signum s)).
Proof. intros (Hc & Hl & Hp). split_and!; [done..|]. cbn. by rewrite Hp. Qed.

(** What a signal does, by whether there is a process and what the system says. *)
Lemma forward_signal_child signum a s : is_Some (sv_child s) →
  (a = NotPermitted ∧ forward_signal signum a s = interrupts os_error (handles signum s)) ∨
  forward_signal signum a s = forwards signum (handles signum s).
Proof. intros [c Hc]. unfold forward_signal. rewrite Hc. destruct a; [by right|by right|by left]. Qed.
Lemma handles_cancel signum s : sv_cancel s = head (sv_handled s) → sv_cancel (handles signum s) = head (sv_handled (handles signum s)).
Proof. intros H. cbn. by rewrite head_snoc, H. Qed.
Lemma interrupts_supervised past e s : ¬ unrefused past → sv_cancel s = head (sv_handled s) → sv_launched s = None ∨ sv_launched s = Some launch →
  (∀ n, n ∈ sv_installed s → n ∈ HANDLED_SIGNALS) ∨ (∃ r, sv_point s = Left r) ∨ (∃ r todo, sv_point s = Leaving r todo) →
  supervised past (interrupts e s).
Proof.
  intros Hno Hc Hl Hi. unfold interrupts. destruct (sv_point s) eqn:Ep;
    (constructor; [done|done|by intros ?|]); unfold installed_at; cbn; try done; destruct Hi as [Hi|[[? [=]]|(? & ? & [=])]]; exact Hi.
Qed.
Lemma child_arrives past signum a s : is_Some (sv_child s) → supervised past s →
  (point_holds past s → point_holds (past ++ [Arrives signum a]) (forwards signum (handles signum s))) →
  supervised (past ++ [Arrives signum a]) (forward_signal signum a s).
Proof.
  intros Hchild [Hc Hl Hp Hi] Hnext. destruct (forward_signal_child signum a s Hchild) as [[-> ->]| ->].
  - apply interrupts_supervised; [by intros [_ ?]%unrefused_later|by apply handles_cancel|done|]. unfold installed_at in Hi. cbn.
    destruct (sv_point s) as [| | | | | | | | | | | |r todo|r]; eauto 10.
  - constructor; [by apply (handles_cancel signum) in Hc|done|by apply Hnext|exact (installed_later _ _ _ Hi)].
Qed.
Lemma early_arrives past signum a s : not_started s → supervised past s → sv_point s = Spawning ∨ (∃ t, sv_point s = Installing t) ∨ (∃ p, sv_point s = Binding p) →
  supervised (past ++ [Arrives signum a]) (forward_signal signum a s).
Proof.
  intros (Hn & Hpe & Hf) [Hc Hl Hp Hi] Hpoint. unfold forward_signal. rewrite Hn.
  assert (not_started (handles signum s)) as Hns by (split_and!; cbn; [done|by rewrite Hn, Hpe|done]).
  constructor; [by apply handles_cancel|done| |exact (installed_later _ _ _ Hi)]. unfold point_holds in *. cbn.
  destruct Hpoint as [Hpt|[[? Hpt]|[? Hpt]]]; rewrite Hpt in *; split; try done; tauto.
Qed.
Definition is_reaping (p : point) : bool :=
  match p with
  | Reaping_probe | Reaping_kill | Reaping_clock | Reaping_loop _ | Reaping_check _ | Reaping_sleep _ => true
  | _ => false
  end.
Lemma reaping_holds past s : is_reaping (sv_point s) = true → point_holds past s ↔ all_forwarded s ∧ is_Some (sv_cancel s).
Proof. unfold point_holds. by destruct (sv_point s). Qed.
Lemma reaping_arrives past signum a s : is_reaping (sv_point s) = true → supervised past s →
  supervised (past ++ [Arrives signum a]) (forward_signal signum a s).
Proof.
  intros Hr Hs. pose proof (proj1 (reaping_holds _ _ Hr) (su_point _ _ Hs)) as [Hp [c Hm]]. apply child_arrives; [by destruct Hp|done|].
  intros _. apply reaping_holds; [done|]. split; [by apply all_forwarded_signal|]. cbn. by rewrite Hm.
Qed.
Lemma arrives_supervised past signum a s s' :
  supervised past s → happens launch (Arrives signum a) s = Some s' → supervised (past ++ [Arrives signum a]) s'.
Proof.
  intros Hs H. pose proof (su_point _ _ Hs) as Hp. cbn in H. unfold point_holds in Hp.
  destruct (sv_point s) as [t| |pid|i| |rc| | | |d|d|d|[code|e] todo|r] eqn:Ep; try done; case_bool_decide; try done; injection H as <-;
    try (apply early_arrives; [tauto|done|eauto]; fail).
  { destruct Hp as (Hch & Hl & later & Hh & Hf). apply child_arrives; [done..|]. intros _. unfold point_holds. cbn. rewrite Ep.
    destruct Hch as [c Hch]. rewrite Hch. split_and!; [done..|]. exists (later ++ [signum]). rewrite Hh, Hf, !app_assoc. done. }
  - apply child_arrives; [by destruct Hp|done|]. intros _. unfold point_holds. cbn. rewrite Ep. by apply all_forwarded_signal.
  - destruct Hp as [Hp Hm]. apply child_arrives; [by destruct Hp|done|]. intros _. unfold point_holds. cbn. rewrite Ep.
    split; [by apply all_forwarded_signal|by apply exit_later].
  - apply reaping_arrives; [by rewrite Ep|done].
  - apply reaping_arrives; [by rewrite Ep|done].
  - apply reaping_arrives; [by rewrite Ep|done].
  - apply reaping_arrives; [by rewrite Ep|done].
  - apply reaping_arrives; [by rewrite Ep|done].
  - apply reaping_arrives; [by rewrite Ep|done].
  - destruct Hp as [Hp Hm]. apply child_arrives; [by destruct Hp|done|]. intros _. unfold point_holds. cbn. rewrite Ep.
    split; [by apply all_forwarded_signal|by apply code_meant_signal].
  - destruct (sv_child s) eqn:Ech; [apply child_arrives; [by rewrite Ech|done|]; intros _; unfold point_holds; cbn; rewrite Ep|].
    { intros [Hu _]%unrefused_later. destruct (Hp Hu) as [[_ Hn]|Ha]; [by rewrite Hn in Ech|right; by apply all_forwarded_signal]. }
    destruct Hs as [Hc Hl _ Hi]. unfold forward_signal. rewrite Ech. constructor; [by apply handles_cancel|done| |exact (installed_later _ _ _ Hi)].
    unfold point_holds. cbn. rewrite Ep. intros [Hu _]%unrefused_later. left. destruct (Hp Hu) as [Hn|([c Hch] & _)]; [done|by rewrite Hch in Ech].
Qed.
Lemma leave_holds past outcome s : sv_cancel s = head (sv_handled s) → sv_launched s = None ∨ sv_launched s = Some launch →
  (∀ n, n ∈ sv_installed s → n ∈ HANDLED_SIGNALS) →
  match outcome with Ok code => all_forwarded s ∧ code_meant past s code | Raise _ => raised_holds past s end → supervised past (leave outcome s).
Proof. intros Hc Hl Hi Hp. constructor; [done|done| |exact Hi]. unfold point_holds. cbn. by destruct outcome. Qed.
Lemma reaped_holds past s : sv_cancel s = head (sv_handled s) → is_Some (sv_cancel s) → all_forwarded s →
  (∀ n, n ∈ sv_installed s → n ∈ HANDLED_SIGNALS) → supervised past (reaped (with_absent s)).
Proof.
  intros Hc [c Hs] Hf Hi. assert (sv_launched s = Some launch) as Hl by apply Hf. apply leave_holds; [done|by right|done|]. split; [done|]. left. cbn.
  rewrite Hs in *. destruct (sv_handled s) as [|first rest]; [done|]. injection Hc as ->. by exists first, rest.
Qed.
(** A step that only moves on keeps what the next point asks for. *)
Lemma moves_on past p s : supervised past s → point_holds past (at_point p s) → installed_at past (at_point p s) → supervised past (at_point p s).
Proof. intros [Hc Hl _ _] Hp Hi. by constructor. Qed.
Lemma supervised_later past e s : supervised past s → supervised (past ++ [e]) s.
Proof.
  intros [Hc Hl Hp Hi]. constructor; [done..| |by apply installed_later]. unfold point_holds in *.
  destruct (sv_point s) as [| | | | | | | | | | | |[|] ?|[|]]; try done; try (by apply raised_later);
    (destruct Hp as [Hp Hm]; split; [done|]); [by apply exit_later|by apply code_meant_later..].
Qed.
Lemma proceeds_supervised past o s s' :
  supervised past s → sv_handled s = arrived past → proceed launch o s = Some s' → supervised (past ++ [Proceeds o]) s'.
Proof.
  intros Hs%(supervised_later _ (Proceeds o)) Harr H. set (now := past ++ [Proceeds o]) in *. pose proof Hs as [Hc Hl Hp Hi]. unfold proceed in H.
  unfold point_holds in Hp. unfold installed_at in Hi.
  destruct (sv_point s) as [[|n t]| |pid|i| |rc| | | |d|d|d|r [|n t]|r] eqn:Ep; destruct o as [|pid'| |a|rc'|el]; try done.
  - injection H as <-. apply moves_on; [done|done|]. intros m Hm. apply Hi. by left.
  - injection H as <-. destruct Hp as [(Hn & Hpe & Hf) Hla]. constructor; [done|by left|done|].
    intros m [[->|Hm]%elem_of_cons|Hm]; apply Hi; [right; left|by left|right; by right].
  - injection H as <-. destruct Hp as [(Hn & Hpe & Hf) Hla]. constructor; [done|by right|done|exact Hi].
  - injection H as <-. destruct Hp as [(Hn & _) Hla]. apply leave_holds; [done..|]. intros _. by left.
  - injection H as <-. destruct Hp as [(Hn & Hpe & Hf) Hla]. constructor; [done|by right| |exact Hi].
    split; [by eexists|]. split; [done|]. exists []. cbn. by rewrite Hpe, Hf, app_nil_r.
  - destruct Hp as (Hch & Hla & later & Hh & Hf). destruct (sv_pending s !! i) eqn:Ei; [done|]. injection H as <-.
    apply moves_on; [done| |exact Hi]. split_and!; [done..|]. cbn. rewrite Hf, Hh, take_ge; [done|]. by apply lookup_ge_None.
  - destruct Hp as (Hch & Hla & later & Hh & Hf). destruct (sv_pending s !! i) as [signum|] eqn:Ei; [|done].
    assert (point_holds now (at_point (Forwarding (S i)) (forwards signum s))) as Hnext.
    { split_and!; [done..|]. exists later. split; [done|]. cbn. rewrite Hf, (take_S_r _ _ _ Ei), <- !app_assoc. f_equiv. apply Permutation_app_comm. }
    destruct a; injection H as <-; [by constructor|by constructor|]. apply leave_holds; [done..|]. by intros [_ ?]%unrefused_later.
  - injection H as <-. apply moves_on; [done| |exact Hi]. split; [done|]. by exists past, [].
  - injection H as <-. destruct Hp as [Hp Hm]. destruct (sv_cancel s) eqn:Ec; [apply moves_on; [done| |exact Hi]; apply reaping_holds; [done|]; split; [done|cbn; by rewrite Ec]|].
    apply leave_holds; [by rewrite Ec|done|done|]. split; [done|]. right.
    destruct Hm as (before & after & Heq). exists before, rc, after. split; [done|]. split; [|done].
    assert (arrived (before ++ Proceeds (Exited rc) :: after) = []) as Hno.
    { rewrite <- Heq. unfold now, arrived. rewrite omap_app, app_nil_r. fold (arrived past). rewrite <- Harr. by destruct (sv_handled s). }
    unfold arrived in Hno. rewrite omap_app in Hno. by apply app_nil in Hno as [? _].
  - destruct Hp as [Hp Hm]. injection H as <-. destruct (group_exists a); [|by apply reaped_holds]. by apply moves_on.
  - destruct Hp as [Hp Hm]. injection H as <-. destruct a; [by apply moves_on|by apply reaped_holds|]. apply leave_holds; [done..|]. by intros [_ ?]%unrefused_later.
  - destruct (0 <=? el); [|done]. injection H as <-. by constructor.
  - destruct Hp as [Hp Hm]. injection H as <-. destruct (group_exists a); [|by apply reaped_holds]. by apply moves_on.
  - destruct (0 <=? el); [|done]. injection H as <-. case_match; [|by constructor]. apply leave_holds; [done..|]. intros _. right. by destruct Hp.
  - destruct (10 <=? el); [|done]. injection H as <-. by constructor.
  - injection H as <-. apply moves_on; [done|by destruct r|]. assert (sv_installed s = []) as Hno by (apply elem_of_nil_inv; intros n Hn; by apply Hi, elem_of_nil in Hn).
    destruct r; [exact Hno|intros _; exact Hno].
  - injection H as <-. constructor; [done|done|by destruct r|]. intros m [Hne Hm]%list_elem_of_filter. apply Hi, elem_of_cons in Hm as [->|Hm]; done.
Qed.
Lemma happens_handled e s s' : happens launch e s = Some s' → sv_handled s' = sv_handled s ++ arrived [e].
Proof.
  destruct e as [signum a|o]; cbn.
  - destruct (sv_point s); intros H; try done; case_bool_decide; try done; injection H as <-; unfold forward_signal, interrupts;
      repeat case_match; done.
  - rewrite app_nil_r. unfold proceed. intros H. repeat (case_match; try done); injection H as <-; try done; repeat case_match; done.
Qed.
Lemma drive_supervised now schedule s : drive launch schedule (supervisor_init now) = Some s →
  supervised schedule s ∧ sv_handled s = arrived schedule.
Proof.
  assert (∀ past from, supervised past from → sv_handled from = arrived past → drive launch schedule from = Some s →
    supervised (past ++ schedule) s ∧ sv_handled s = arrived (past ++ schedule)) as Hgen.
  { induction schedule as [|e schedule IH]; intros past from Hf Hh; cbn; [intros [= <-]; by rewrite app_nil_r|].
    destruct (happens launch e from) as [next|] eqn:En; [|done]. cbn. intros Hd. rewrite cons_middle, app_assoc. apply (IH _ next); [| |done].
    - destruct e; [by eapply arrives_supervised|by eapply proceeds_supervised].
    - apply happens_handled in En. rewrite En, Hh. unfold arrived. by rewrite omap_app. }
  intros Hd. apply (Hgen [] (supervisor_init now)); [|done|done]. constructor; [done|by left|done|].
  intros n [Hn|Hn]; [by apply elem_of_nil in Hn|done].
Qed.

(** How many turns are left until the call ends, but for new signals. *)
Definition rounds (deadline now : Z) : Z := Z.max 0 ((deadline - now + 9) / 10).
Definition count {A} (l : list A) : Z := Z.of_nat (length l).
Definition turns_left (s : Supervisor) : Z :=
  match sv_point s with
  | Installing todo => 1514 + count todo + count (sv_pending s)
  | Spawning => 1513 + count (sv_pending s)
  | Binding _ => 1512 + count (sv_pending s)
  | Forwarding i => 1511 + Z.max 0 (count (sv_pending s) - Z.of_nat i)
  | Waiting => 1510
  | Judging _ => 1509
  | Reaping_probe => 1508
  | Reaping_kill => 1507
  | Reaping_clock => 1506
  | Reaping_loop deadline => 3 * rounds deadline (sv_now s) + 5
  | Reaping_check deadline => 3 * rounds deadline (sv_now s) + 4
  | Reaping_sleep deadline => 3 * rounds deadline (sv_now s + 10) + 6
  | Leaving _ todo => count todo + 1
  | Left _ => 0
  end.
Lemma rounds_later deadline now d : 0 ≤ d → rounds deadline (now + d) ≤ rounds deadline now.
Proof. intros Hd. unfold rounds. assert ((deadline - (now + d) + 9) / 10 ≤ (deadline - now + 9) / 10) by (apply Z.div_le_mono; lia). lia. Qed.
Lemma rounds_sleep deadline now : now < deadline → rounds deadline now = rounds deadline (now + 10) + 1.
Proof.
  intros H. unfold rounds. replace (deadline - now + 9) with (deadline - (now + 10) + 9 + 1 * 10) by lia. rewrite Z.div_add by done.
  assert (0 ≤ (deadline - (now + 10) + 9) / 10) by (apply Z.div_pos; lia). lia.
Qed.
Lemma rounds_all now : rounds (now + 5000) now = 500.
Proof. unfold rounds. replace (now + 5000 - now + 9) with 5009 by lia. done. Qed.
Lemma rounds_nonneg deadline now : 0 ≤ rounds deadline now.
Proof. unfold rounds. lia. Qed.
Lemma count_cons {A} (x : A) l : count (x :: l) = count l + 1.
Proof. unfold count. cbn. lia. Qed.
Lemma count_nonneg {A} (l : list A) : 0 ≤ count l.
Proof. unfold count. lia. Qed.
Ltac rounds_bound := repeat match goal with |- context [rounds ?d ?n] => generalize (rounds_nonneg d n); generalize (rounds d n); intros ?? end.
Lemma proceed_turns o s s' : proceed launch o s = Some s' → 0 ≤ turns_left s' < turns_left s.
Proof.
  unfold proceed. intros H. pose proof (count_nonneg (sv_pending s)) as Hpend.
  destruct (sv_point s) as [[|n t]| |pid|i| |rc| | | |d|d|d|r [|n t]|r] eqn:Ep; destruct o as [|pid'| |a|rc'|el]; try done.
  all: repeat (case_match; try done); injection H as <-; unfold turns_left; rewrite Ep;
    cbn [sv_point sv_pending sv_now at_point with_installed with_launched with_child forwards at_time with_absent leave reaped]; rewrite ?count_cons.
  all: try (unfold HANDLED_SIGNALS, count in *; cbn [length] in *; lia).
  all: try match goal with H : sv_pending ?x !! _ = Some _ |- _ => apply lookup_lt_Some in H; unfold count; lia end.
  - rewrite rounds_all. lia.
  - rounds_bound. lia.
  - unfold HANDLED_SIGNALS, count. cbn [length]. rounds_bound. lia.
  - unfold HANDLED_SIGNALS, count. cbn [length]. rounds_bound. lia.
  - pose proof (rounds_later d (sv_now s) el). pose proof (rounds_sleep d (sv_now s + el)). pose proof (rounds_nonneg d (sv_now s + el + 10)). lia.
  - pose proof (rounds_later d (sv_now s + 10) (el - 10)). replace (sv_now s + 10 + (el - 10)) with (sv_now s + el) in * by lia.
    pose proof (rounds_nonneg d (sv_now s + el)). lia.
Qed.
Lemma turns_left_nonneg s : 0 ≤ turns_left s.
Proof.
  unfold turns_left, count.
  destruct (sv_point s) as [| | | | | | | | |d|d|d| |]; rounds_bound; lia.
Qed.
Lemma arrive_turns signum a s s' : happens launch (Arrives signum a) s = Some s' → turns_left s' ≤ turns_left s + 1.
Proof.
  intros H. pose proof (turns_left_nonneg s) as H0.
  assert (turns_left (handles signum s) ≤ turns_left s + 1) as Hh.
  { unfold turns_left, handles. cbn [sv_point sv_pending sv_now]. destruct (sv_point s), (sv_child s); rewrite ?length_app; unfold count; rewrite ?length_app; cbn [length]; lia. }
  assert (turns_left (interrupts os_error (handles signum s)) ≤ turns_left s + 1) as Hi.
  { unfold turns_left, interrupts, handles, HANDLED_SIGNALS, count in *. cbn [sv_point] in *.
    destruct (sv_point s) as [| | | | | | | | |d|d|d| |] eqn:Ep; cbn [sv_point at_point length] in *;
      rounds_bound; lia. }
  cbn in H. destruct (sv_point s) eqn:Ep; try done; case_bool_decide; try done; injection H as <-; unfold forward_signal;
    destruct (sv_child s); try exact Hh; destruct a; try exact Hi; exact Hh.
Qed.
Lemma drive_turns schedule s s' : drive launch schedule s = Some s' → count (turns schedule) ≤ turns_left s + count (arrived schedule).
Proof.
  revert s. induction schedule as [|e schedule IH]; intros s; cbn [drive]; [intros _; pose proof (turns_left_nonneg s); unfold count, turns, arrived; cbn [omap list_omap length]; lia|].
  destruct (happens launch e s) as [next|] eqn:En; [|done]. cbn [mbind option_bind]. intros Hd%IH. destruct e as [signum a|o].
  - apply arrive_turns in En. change (arrived (Arrives signum a :: schedule)) with (signum :: arrived schedule).
    change (turns (Arrives signum a :: schedule)) with (turns schedule). rewrite count_cons. lia.
  - apply proceed_turns in En. change (turns (Proceeds o :: schedule)) with (o :: turns schedule).
    change (arrived (Proceeds o :: schedule)) with (arrived schedule). rewrite count_cons. lia.
Qed.
Lemma proceeds_somehow s : (∀ outcome, sv_point s ≠ Left outcome) → ∃ o s', proceed launch o s = Some s'.
Proof.
  intros Hn. unfold proceed. destruct (sv_point s) as [[|n t]| |pid|i| |rc| | | |d|d|d|r [|n t]|r]; try (by exists Done; eexists).
  - by exists (Started 0); eexists.
  - destruct (sv_pending s !! i); [by exists (Kills Delivered); eexists|by exists Done; eexists].
  - by exists (Exited 0); eexists.
  - by exists (Kills Delivered); eexists.
  - by exists (Kills Delivered); eexists.
  - by exists (Elapsed 10); eexists.
  - by exists (Kills Delivered); eexists.
  - by exists (Elapsed 10); eexists.
  - by exists (Elapsed 10); eexists.
  - by destruct (Hn r).
Qed.
End supervision.

(** C18: where the call returns a code, every signal that arrived while the script
    was supervised has been passed to its process group; if any came before the end
    of the script was taken notice of, the code is that of the first and the group
    was seen gone before the call returned, and otherwise the code is the script's
    own; and the handlers are put back. Where it raises, and the system refused it
    no signal for want of permission, the handlers are put back too, and either
    nothing was launched or every signal was passed on; after such a refusal the
    script may be left behind. *)
Theorem signals_reach_group launch now schedule outcome s :
  _run_profile launch now schedule = Some (outcome, s) →
  (∀ code, outcome = Ok code →
    sv_launched s = Some launch ∧ sv_forwarded s ≡ₚ arrived schedule ∧ sv_installed s = [] ∧
    ((∃ signum rest, arrived schedule = signum :: rest ∧ code = 128 + signum ∧ sv_absent s = true) ∨
     ∃ before returncode after, schedule = before ++ Proceeds (Exited returncode) :: after ∧ arrived before = [] ∧ code = shell_code returncode)) ∧
  (∀ e, outcome = Raise e → unrefused schedule →
    sv_installed s = [] ∧ (sv_launched s = None ∨ (sv_launched s = Some launch ∧ sv_forwarded s ≡ₚ arrived schedule))).
Proof.
  unfold _run_profile. destruct (drive launch schedule _) as [s'|] eqn:Ed; [|done]. cbn [mbind option_bind].
  destruct (sv_point s') as [| | | | | | | | | | | | |r] eqn:Ep; try done. intros [= -> ->].
  apply drive_supervised in Ed as [[_ _ Hp Hi] Hh]. unfold point_holds in Hp. unfold installed_at in Hi. rewrite Ep in Hp, Hi.
  split; [intros code ->|intros e -> Hu].
  - destruct Hp as [(_ & Hl & Hf) Hm]. rewrite <- Hh. by split_and!.
  - split; [by apply Hi|]. rewrite <- Hh. destruct (Hp Hu) as [[Hn _]|(_ & Hl & Hf)]; [by left|by right].
Qed.

(** C40: the supervision ends: each turn can be taken until the call returns or
    raises, and no schedule has more than 1516 turns and one for each signal, the
    wait for a group that does not go included, provided a sleep of ten
    milliseconds takes that long. *)
Theorem supervision_ends launch now schedule s :
  drive launch schedule (supervisor_init now) = Some s →
  count (turns schedule) ≤ 1516 + count (arrived schedule) ∧
  ((∀ outcome, sv_point s ≠ Left outcome) → ∃ o s', proceed launch o s = Some s').
Proof. intros Hd. split; [apply (drive_turns _ _ _ _ Hd)|apply proceeds_somehow]. Qed.

(** C14: the only thing that is ever launched is the pinned script: of the one
    listed repository and profile, from the profile whose digest the workflow
    gives, with the digest the profile gives and without a forbidden fragment, on
    an image that binds the profile and against a base workflow of the reviewed
    digest. A code other than that of a refusal is of such a launch. *)
Theorem profile_runs_pinned {D : Digest} {Host : ProfileHost} env now schedule r s :
  run_from_environment env now schedule = Some (r, s) →
  (∀ sv l, s = Some sv → sv_launched sv = Some l → launch_pinned env l) ∧
  (∀ code, r = Ok code → code ≠ 2 → ∃ sv l, s = Some sv ∧ sv_launched sv = Some l ∧ launch_pinned env l ∧ code_meant schedule sv code).
Proof.
  unfold run_from_environment. destruct (prepare env) as [l|e] eqn:Ep.
  - apply prepare_ok in Ep. unfold _run_profile. destruct (drive l schedule _) as [sv|] eqn:Ed; [|done]. cbn [mbind option_bind].
    apply drive_supervised in Ed as [[_ Hl Hp _] _]. unfold point_holds in Hp. destruct (sv_point sv) as [| | | | | | | | | | | | |outcome]; try done.
    cbn. intros [= <- <-]. split.
    + intros sv' l' [= <-] Hl'. destruct Hl as [Hl|Hl]; rewrite Hl in Hl'; by simplify_eq.
    + intros code Hr Hne. destruct outcome as [code'|e]; cbn in Hr; [|by case_match; simplify_eq]. injection Hr as ->.
      destruct Hp as [(_ & Hla & _) Hm]. by exists sv, l.
  - intros [= <- <-]. split; [done|]. intros code Hr Hne. cbn in Hr. by case_match; simplify_eq.
Qed.

(** ** A cancelled run *)

#[local] Existing Instance ToyDigest.
Definition ci_script : string := "exec ./ci --all".
Definition base_commit : string := "0123456789abcdef0123456789abcdef01234567".
Definition ci_workflow : string := "on: pull_request".
Definition toy_profile : dict :=
  [("repository_command_profile_version", VInt 1); ("profile_id", VStr "overworld-ci-v1"); ("repository", VStr "alethia-earth/Overworld");
   ("image_marker", VStr "overworld-ci-jit-v1"); ("runner_memory_bytes", VInt 4294967296); ("source_workflow_path", VStr ".github/workflows/ci.yml");
   ("source_workflow_sha256", VStr (length_digest ci_workflow)); ("dependency_snapshots", VDict EXPECTED_SNAPSHOTS);
   ("runner_script", VStr RUNNER_SCRIPT); ("runner_script_sha256", VStr (length_digest ci_script));
   ("phases", VList [VStr "backend"; VStr "frontend"; VStr "e2e"]); ("toolchain", VDict EXPECTED_TOOLCHAIN)].
Definition toy_raw : string := Eval vm_compute in json_dumps (VDict toy_profile).
Definition toy_marker : string := Eval vm_compute in json_dumps (VDict (marker_binding toy_profile (length_digest toy_raw))).
#[local] Instance ToyProfileHost : ProfileHost := {|
  resolve_path path := Ok (path_parts path);
  read_file path :=
    if bool_decide (path = ["srv"; "action"; "repository_profiles"; "overworld"; "profile.json"]) then Ok toy_raw
    else if bool_decide (path = ["srv"; "action"; "repository_profiles"; "overworld"; "run-overworld-ci.sh"]) then Ok ci_script
    else if bool_decide (path = MARKER_PATH) then Ok toy_marker else throw OSError "no such file";
  git_show _ object := Ok (0, if String.eqb object (base_commit +:+ ":.github/workflows/ci.yml") then ci_workflow else "");
|}.
Definition toy_env : gmap string string := list_to_map
  [("PROFILE_REPOSITORY", "alethia-earth/Overworld"); ("GITHUB_REPOSITORY", "alethia-earth/Overworld");
   ("GITHUB_ACTION_PATH", "/srv/action/actions/run"); ("GITHUB_WORKSPACE", "/work/./repo"); ("PROFILE_ID", "overworld-ci-v1");
   ("PROFILE_DIGEST", length_digest toy_raw); ("PROFILE_IMAGE_MARKER", "overworld-ci-jit-v1"); ("PROFILE_BASE_SHA", base_commit);
   ("PROFILE_TESTED_MERGE_SHA", base_commit)].
(** A SIGTERM before the process is known and a SIGINT after; the script fails,
    its group has to be killed and goes within one sleep. *)
Definition toy_schedule : list event :=
  [Proceeds Done; Proceeds Done; Proceeds Done; Proceeds (Started 77); Arrives SIGTERM Delivered; Proceeds Done; Arrives SIGINT Delivered;
   Proceeds (Kills Delivered); Proceeds Done; Proceeds (Exited 1); Proceeds Done; Proceeds (Kills Delivered); Proceeds (Kills Delivered);
   Proceeds (Elapsed 0); Proceeds (Kills Delivered); Proceeds (Elapsed 1); Proceeds (Elapsed 12); Proceeds (Kills NoSuchGroup);
   Proceeds Done; Proceeds Done; Proceeds Done].
Definition toy_launch : Launch :=
  {| ln_argv := [["srv"; "action"; "repository_profiles"; "overworld"; "run-overworld-ci.sh"]]; ln_cwd := ["work"; "repo"]; ln_env := toy_env |}.
Definition toy_end : Supervisor :=
  {| sv_point := Left (Ok 143); sv_child := Some 77; sv_pending := [SIGTERM]; sv_cancel := Some SIGTERM; sv_installed := []; sv_now := 13;
     sv_launched := Some toy_launch; sv_handled := [SIGTERM; SIGINT]; sv_forwarded := [SIGINT; SIGTERM]; sv_absent := true |}.
Lemma toy_supervised : _run_profile toy_launch 0 toy_schedule = Some (Ok 143, toy_end).
Proof. vm_compute. reflexivity. Qed.
Lemma toy_prepared : prepare toy_env = Ok toy_launch.
Proof. vm_compute. reflexivity. Qed.
Lemma toy_run_from : run_from_environment toy_env 0 toy_schedule = Some (Ok 143, Some toy_end).
Proof. unfold run_from_environment. rewrite toy_prepared, toy_supervised. done. Qed.
(** Without the marker of the image nothing is launched. *)
Example toy_wrong_image : run_from_environment (<["PROFILE_DIGEST" := length_digest ""]> toy_env) 0 [] = Some (Ok 2, None).
Proof. vm_compute. reflexivity. Qed.
(** A group that may not be signalled: the call is refused while its process is
    left behind. *)
Example toy_left_behind : ∃ s, run_from_environment toy_env 0
    [Proceeds Done; Proceeds Done; Proceeds Done; Proceeds (Started 77); Proceeds Done; Proceeds Done; Arrives SIGTERM NotPermitted;
     Proceeds Done; Proceeds Done; Proceeds Done] = Some (Ok 2, Some s) ∧ sv_child s = Some 77 ∧ sv_forwarded s = [].
Proof. unfold run_from_environment. rewrite toy_prepared. eexists. split; [vm_compute; reflexivity|]. done. Qed.

Lemma signals_reach_group_witness : _run_profile toy_launch 0 toy_schedule = Some (Ok 143, toy_end) ∧
  sv_forwarded toy_end ≡ₚ arrived toy_schedule ∧ sv_installed toy_end = [].
Proof.
  split; [exact toy_supervised|]. destruct (signals_reach_group toy_launch 0 toy_schedule (Ok 143) toy_end toy_supervised) as [H _].
  destruct (H 143 eq_refl) as (_ & Hf & Hi & _). by split.
Defined.
Lemma supervision_ends_witness : count (turns toy_schedule) ≤ 1516 + count (arrived toy_schedule).
Proof. exact (proj1 (supervision_ends toy_launch 0 toy_schedule toy_end eq_refl)). Defined.
Lemma profile_runs_pinned_witness : launch_pinned toy_env toy_launch ∧ code_meant toy_schedule toy_end 143.
Proof.
  destruct (profile_runs_pinned toy_env 0 toy_schedule (Ok 143) (Some toy_end) toy_run_from) as [_ H].
  destruct (H 143 eq_refl) as (sv & l & Hs & Hl & Hp & Hc); [done|]. injection Hs as <-. injection Hl as <-. by split.
Defined.
