(* ===== verification/CanaryState.v ===== *)
(** * The canary's durable state (canary_worker.py: CanaryStateStore)

    One matrix of canary scenarios is authorized by a nonce. Its progress, the
    budget of allocations shared by all authorizations of one scope, and the proof
    of each finished scenario are JSON files that are replaced atomically; a write
    may fail before or after the replacement. *)

From stdpp Require Import gmap strings.
From S2P Require Import Prelude Datetime PyValue PyText Json Digest Jcs Signatures CanaryBoundary RunnerBoundary Observability.
#[local] Open Scope Z_scope.

Definition SCENARIOS : list string := ["success"; "failure"; "cancel"; "timeout"; "force-cancel"; "reboot"].
Definition PROOF_FIELDS : list string :=
  ["authorization_digest"; "nonce"; "scenario"; "allocation_id"; "scale_set_id"; "scale_set_name"; "run_id"; "run_attempt"; "job_id";
   "runner_name"; "repository"; "repository_id"; "dispatch_sha"; "head_sha"; "tested_merge_sha"; "image_fingerprint";
   "network_policy_digest"; "github_app_config_digest"; "allocation_signer_fingerprint"; "reserved_at"; "started_at"; "finished_at";
   "jobs_started"; "conclusion"; "normal_cancel_receipt"; "force_cancel_receipt"; "cleanup_record"; "garm_inventory_post";
   "incus_inventory_post"; "github_inventory_post"; "proof_digest"].
Definition BUDGET : Z := 6.

(** [[0-9a-f]{8}-[0-9a-f]{4}-[1-5][0-9a-f]{3}-[89ab][0-9a-f]{3}-[0-9a-f]{12}] *)
Definition is_uuid_text (s : string) : bool :=
  (String.length s =? 36)%nat
  && forallb (λ i, match String.get i s with
                   | Some c => if bool_decide (i ∈ [8; 13; 18; 23]%nat) then Ascii.eqb c "-"
                               else if (i =? 14)%nat then in_range "1" "5" c
                               else if (i =? 19)%nat then bool_decide (c ∈ ["8"; "9"; "a"; "b"]%char) else is_lower_hex c
                   | None => false
                   end) (seq 0 36).
(** [_DISTRO_BOOT_IDENTITY_V2] *)
Definition is_boot_identity (s : string) : bool :=
  match strip_prefix "v2:" s with
  | Some rest => is_uuid_text (String.substring 0 36 rest)
                 && match String.substring 36 (String.length rest - 36) rest with
                    | String c digits => Ascii.eqb c ":" && match_some is_digit digits
                    | EmptyString => false
                    end
  | None => false
  end.
Example boot_identity_shape : is_boot_identity "v2:01234567-89ab-4def-8123-456789abcdef:4711" = true ∧
  is_boot_identity "v2:01234567-89ab-4def-8123-456789abcdef:" = false ∧ is_boot_identity "01234567-89ab-4def-8123-456789abcdef" = false.
Proof. by vm_compute. Qed.

(** ** Files *)

(** What a run of the canaries leaves behind in order: a scenario started under a
    configuration and an authorization, one resumed after a reboot, the runtime proved empty. *)
Inductive canary_event :=
  | Ran (nonce scenario : string) (config authorization : dict)
  | Resumed (nonce : string)
  | Emptied (nonce : string).

Record CanaryWorld {G : Type} := {
  cw_states : gmap string dict;               (* <nonce>/state.json *)
  cw_budget : option dict;                    (* .allocation-budget-v1.json *)
  cw_proofs : gmap (string * string) dict;    (* <nonce>/proofs/<scenario>.json *)
  cw_sentinel : option dict;                  (* CANARY_APPROVED *)
  cw_secrets : bool;                          (* the directory of secrets *)
  cw_trace : list canary_event;
  cw_outside : G;
}.
Arguments CanaryWorld : clear implicits.

Inductive write_outcome := Written | Failed_before (e : exn) | Failed_after (e : exn).
(** The disk: how a replacement of a file goes, and whether a file that is there
    can be read; [uuid4]. *)
Class CanaryDisk (G : Type) := {
  disk_write : G → write_outcome * G;
  disk_read : G → result unit * G;
  new_uuid : G → string * G;
}.

Section store.
Context {G : Type} {Disk : CanaryDisk G} {D : Digest}.
#[local] Abbreviation World := (CanaryWorld G).

Definition ask_host {A} (f : G → A * G) : M World A := λ w,
  let '(a, g) := f (cw_outside w) in
  (Ok a, {| cw_states := cw_states w; cw_budget := cw_budget w; cw_proofs := cw_proofs w; cw_sentinel := cw_sentinel w;
            cw_secrets := cw_secrets w; cw_trace := cw_trace w; cw_outside := g |}).
Definition ask_host_or {A} (f : G → result A * G) : M World A := r ← ask_host f; lift r.
Definition with_states (f : gmap string dict → gmap string dict) (w : World) : World :=
  {| cw_states := f (cw_states w); cw_budget := cw_budget w; cw_proofs := cw_proofs w; cw_sentinel := cw_sentinel w;
     cw_secrets := cw_secrets w; cw_trace := cw_trace w; cw_outside := cw_outside w |}.
Definition with_budget (d : dict) (w : World) : World :=
  {| cw_states := cw_states w; cw_budget := Some d; cw_proofs := cw_proofs w; cw_sentinel := cw_sentinel w;
     cw_secrets := cw_secrets w; cw_trace := cw_trace w; cw_outside := cw_outside w |}.
Definition with_proof (k : string * string) (d : dict) (w : World) : World :=
  {| cw_states := cw_states w; cw_budget := cw_budget w; cw_proofs := <[k := d]> (cw_proofs w); cw_sentinel := cw_sentinel w;
     cw_secrets := cw_secrets w; cw_trace := cw_trace w; cw_outside := cw_outside w |}.
Definition with_sentinel (d : option dict) (w : World) : World :=
  {| cw_states := cw_states w; cw_budget := cw_budget w; cw_proofs := cw_proofs w; cw_sentinel := d;
     cw_secrets := cw_secrets w; cw_trace := cw_trace w; cw_outside := cw_outside w |}.
Definition with_secrets (b : bool) (w : World) : World :=
  {| cw_states := cw_states w; cw_budget := cw_budget w; cw_proofs := cw_proofs w; cw_sentinel := cw_sentinel w;
     cw_secrets := b; cw_trace := cw_trace w; cw_outside := cw_outside w |}.
Definition record_event (e : canary_event) : M World unit :=
  modify (λ w, {| cw_states := cw_states w; cw_budget := cw_budget w; cw_proofs := cw_proofs w; cw_sentinel := cw_sentinel w;
                  cw_secrets := cw_secrets w; cw_trace := cw_trace w ++ [e]; cw_outside := cw_outside w |}).

(** [_atomic_json] *)
Definition _atomic_json (replace : World → World) : M World unit :=
  o ← ask_host disk_write;
  match o with
  | Written => modify replace
  | Failed_before e => reraise e
  | Failed_after e => modify replace;; reraise e
  end.
(** [_read_json] of a file this program wrote, and of one that may not be there. *)
Definition read_back (d : dict) : M World dict := ask_host_or disk_read;; mret d.
Definition read_if_there (file : World → option dict) : M World (option dict) :=
  o ← gets file;
  match o with Some d => d ← read_back d; mret (Some d) | None => mret None end.

Definition canary_fail {A} (msg : string) : M World A := raise CanaryRuntimeError msg.
Definition canary_fail_if (b : bool) (msg : string) : M World unit := raise_if b CanaryRuntimeError msg.

(** ** The store of one nonce *)

(** [CanaryStateStore(root, nonce)] *)
Definition state_store (nonce : pyval) : M World string :=
  match nonce with
  | VStr s => canary_fail_if (negb (is_canary_nonce s)) "canary nonce is invalid";; mret s
  | _ => canary_fail "canary nonce is invalid"
  end.

Section nonce.
Context (nonce : string).

Definition load : M World (option dict) := read_if_there (λ w, cw_states w !! nonce).
(** [self.load() or {}] *)
Definition load_or_empty : M World dict := default [] <$> load.
Definition save_state (d : dict) : M World unit := _atomic_json (with_states <[nonce := d]>).

Definition texts_value (l : list string) : pyval := VList (VStr <$> l).
(** The state waits for the start after a reboot: all but the last scenario are
    done, and it was started under [stored], which is another boot. *)
Definition awaits_reboot (current : dict) (boot_id : string) : bool :=
  py_eq (dget "state" current) (VStr "running") && py_eq (dget "current_scenario" current) (VStr "reboot")
  && py_eq (dget "completed_scenarios" current) (texts_value (take 5 SCENARIOS))
  && match dget "boot_id" current with VStr stored => is_boot_identity stored && negb (bool_decide (stored = boot_id)) | _ => false end.
Definition CLOSED_STATES : list string := ["terminal"; "failed-quarantined"; "failed-quarantined-clean"].
Definition initialize (digest boot_id : string) : M World dict :=
  canary_fail_if (negb (is_sha256 digest)) "authorization digest is invalid";;
  o ← load;
  match o with
  | Some current =>
      let reboot_resume := awaits_reboot current boot_id && is_boot_identity boot_id in
      closed_state ← (if negb (py_eq (dget "authorization_digest" current) (VStr digest))
                   || negb (py_eq (dget "boot_id" current) (VStr boot_id)) && negb reboot_resume
                then mret true else lift (py_in_set (dget "state" current) (text_set CLOSED_STATES)));
      canary_fail_if closed_state "canary nonce cannot resume a different or terminal matrix";;
      if reboot_resume then
        let current := dset "boot_id" (VStr boot_id) (dset "rebooted_from_boot_id" (dget "boot_id" current) current) in
        save_state current;; mret current
      else mret current
  | None =>
      let value := [("schema_version", VInt 1); ("authorization_digest", VStr digest); ("boot_id", VStr boot_id);
                    ("state", VStr "authorized"); ("completed_scenarios", VList []); ("current_scenario", VNone);
                    ("runtime_empty", VBool false)] in
      save_state value;; mret value
  end.

(** [_budget_scope] *)
Definition _budget_scope (authorization : dict) : result string :=
  let stable := filter (λ kv, kv.1 ∉ ["attestation"; "nonce"; "issued_at"; "expires_at"]) authorization in
  sha256_hex <$> canonicalize_jcs (VDict stable).

Definition new_entry : dict := [("max_allocations", VInt BUDGET); ("claims", VList [])].
(** [dict(v)], of what is no list of pairs. *)
Definition json_object (v : pyval) : result dict := match v with VDict d => Ok d | _ => throw TypeError "object is not a mapping" end.
(** The entry of a scope, and the budget with another entry there. *)
Definition budget_entry (ledger : dict) (scope : string) : result (dict * dict) :=
  if negb (same_set (dkeys ledger) ["schema_version"; "scopes"]) || negb (py_eq (dget "schema_version" ledger) (VInt 1))
  then throw CanaryRuntimeError "durable canary allocation budget is invalid"
  else
    match dget "scopes" ledger with
    | VDict scopes => entry ← (match dlookup scope scopes with Some v => json_object v | None => Ok new_entry end); Ok (scopes, entry)
    | _ => throw CanaryRuntimeError "durable canary allocation budget is invalid"
    end.
Definition entry_claims (entry : dict) : result (list pyval) :=
  check (negb (same_set (dkeys entry) ["max_allocations"; "claims"]) || negb (py_eq (dget "max_allocations" entry) (VInt BUDGET)))
    CanaryRuntimeError "durable canary allocation scope is invalid";;
  match dget "claims" entry with
  | VList claims => Ok claims
  | _ => throw CanaryRuntimeError "durable canary allocation scope is invalid"
  end.
Definition claim_list (current : dict) : result (list pyval) :=
  match dlookup "allocation_claims" current with Some v => iterate v | None => Ok [] end.
Definition consume_allocation (authorization : dict) (scenario : string) : M World dict :=
  canary_fail_if (negb (bool_decide (scenario ∈ SCENARIOS)) || negb (py_eq (dget "max_allocations" authorization) (VInt BUDGET)))
    "canary allocation budget contract drifted";;
  scope ← lift (_budget_scope authorization);
  stored ← read_if_there cw_budget;
  let ledger := default [("schema_version", VInt 1); ("scopes", VDict [])] stored in
  '(scopes, entry) ← lift (budget_entry ledger scope);
  claims ← lift (entry_claims entry);
  canary_fail_if (BUDGET <=? Z.of_nat (length claims)) "signed canary allocation budget is exhausted";;
  id ← ask_host new_uuid;
  of_nonce ← lift (ditem "nonce" authorization);
  digest ← lift (authorization_digest authorization);
  let claim := [("claim_id", VStr id); ("nonce", of_nonce); ("scenario", VStr scenario); ("authorization_digest", VStr digest)] in
  let entry := dset "claims" (VList (claims ++ [VDict claim])) entry in
  _atomic_json (with_budget (dset "scopes" (VDict (dset scope (VDict entry) scopes)) ledger));;
  current ← load_or_empty;
  canary_fail_if (negb (py_eq (dget "schema_version" current) (VInt 1))) "canary durable state is absent";;
  earlier ← lift (claim_list current);
  save_state (dset "allocation_claims" (VList (earlier ++ [VDict claim])) current);;
  mret claim.

Definition canary_transition (state : string) (updates : dict) : M World dict :=
  current ← load_or_empty;
  canary_fail_if (negb (py_eq (dget "schema_version" current) (VInt 1))) "canary durable state is absent";;
  let current := dset "state" (VStr state) (dmerge current updates) in
  save_state current;; mret current.

(** [value.get("cleanup_record", {}).get("allocation_removed")] *)
Definition allocation_removed (value : dict) : result pyval :=
  match dlookup "cleanup_record" value with
  | Some (VDict record) => Ok (dget "allocation_removed" record)
  | Some _ => throw AttributeError "object has no attribute 'get'"
  | None => Ok VNone
  end.
Definition proof (scenario : string) (value : dict) : M World unit :=
  canary_fail_if (negb (bool_decide (scenario ∈ SCENARIOS))) "unknown canary scenario";;
  canary_fail_if (negb (same_set (dkeys value) PROOF_FIELDS) || negb (py_eq (dget "scenario" value) (VStr scenario)))
    "canary proof fields are not exact";;
  canary_fail_if (negb (py_eq (dget "conclusion" value) (VStr scenario))) "canary proof outcome crossed scenario";;
  canary_fail_if (negb (py_eq (dget "jobs_started" value) (VInt 1))) "canary proof did not prove one-job lifecycle";;
  removed ← lift (allocation_removed value);
  canary_fail_if (negb (is_true removed)) "canary cleanup proof is not exact";;
  stored ← read_if_there (λ w, cw_proofs w !! (nonce, scenario));
  canary_fail_if (match stored with Some d => negb (py_eq (VDict d) (VDict value)) | None => false end)
    "canary proof identity changed on resume";;
  _atomic_json (with_proof (nonce, scenario) value).
End nonce.
End store.
