(* ===== verification/CanaryRuntime.v ===== *)
(** * The canary runtime (canary_worker.py: CanaryRuntime)

    One authorized matrix: the checks before it, the scenarios in order, each
    against the durable budget, and the way back to quarantine; and the fence that
    keeps production off while any matrix is not closed and clean. *)

From stdpp Require Import gmap strings.
From S2P Require Import Prelude Datetime PyValue PyText Json Digest Jcs Signatures Allocation CanaryBoundary RunnerBoundary Observability GitHubAdapter CanaryState.
#[local] Open Scope Z_scope.

Definition CANARY_UNITS : list string :=
  ["self-hosted-ci-canary-network-policy.service"; "self-hosted-ci-canary-egress-proxy.service"; "self-hosted-ci-canary-garm.service";
   "self-hosted-ci-canary-broker.service"].
Definition PRODUCTION_UNITS : list string :=
  ["self-hosted-ci-outbound-worker.service"; "self-hosted-ci-allocation-broker.service"; "self-hosted-ci-garm.service";
   "self-hosted-ci-egress-proxy.service"; "self-hosted-ci-network-policy.service"].
Definition QUARANTINE : string := "self-hosted-ci-network-quarantine.service".
Definition BROKER : string := "/usr/local/lib/self-hosted-ci/garm-allocation-broker.py".
Definition ACTIVATION_SENTINEL : string := "/etc/self-hosted-ci/ACTIVATION_APPROVED".
Definition RUNTIME_READY_SENTINEL : string := "/etc/self-hosted-ci/outbound-worker.runtime-ready".
Definition BROKER_RECOVERY_TIMEOUT_SECONDS : Z := 600 + 20 * 30 + 60.

(** How a scenario of the driver ends: with its proof, or at the reboot. *)
Inductive scenario_end := Proved (value : dict) | Reboot_required (allocation_id runner_label : string) (evidence : dict).
Class CanaryDriver (G : Type) := {
  drv_run : string → G → result scenario_end * G;
  drv_recover_all : G → result (list string) * G;
  drv_prove_runtime_empty : G → result dict * G;
  drv_resume_reboot : pyval → pyval → pyval → G → result dict * G;
}.
(** What the runtime asks of the host beside its own files. [lock_host] takes the
    lock of production and canary without waiting; [connect] opens and closes a
    connection to the loopback port of GARM within a time. *)
Class CanaryHost (G : Type) `{KeyLibrary} := {
  run_command : list string → Z → G → result (Z * string) * G;
  is_root : G → bool * G;
  lock_host : G → result bool * G;
  path_exists : string → G → bool * G;
  canary_now : G → datetime * G;
  read_ascii : string → G → result string * G;
  file_digest : string → G → result string * G;
  file_object : string → G → result dict * G;
  file_public_key : string → G → result public_key * G;
  connect : Z → G → result unit * G;
  make_secrets : G → result unit * G;
  remove_tree : G → result unit * G;
}.

(** [str.strip] *)
Fixpoint drop_spaces (l : list N) : list N :=
  match l with c :: rest => if py_is_space c then drop_spaces rest else l | [] => [] end.
Definition py_strip (s : string) : string := text_of_points (rev (drop_spaces (rev (drop_spaces (code_points s))))).
(** [text.split()] of ASCII text *)
Fixpoint split_words_from (word : string) (s : string) : list string :=
  match s with
  | EmptyString => if nonempty word then [word] else []
  | String c s =>
      if py_is_space (N_of_ascii c) then (if nonempty word then word :: split_words_from "" s else split_words_from "" s)
      else split_words_from (word +:+ String c "") s
  end.
Definition split_words (s : string) : list string := split_words_from "" s.

Section runtime.
Context {G : Type} {Disk : CanaryDisk G} {D : Digest} {K : KeyLibrary} {Host : CanaryHost G} {Driver : CanaryDriver G} {Clock : PollClock G}.
Context (config authorization : dict).
#[local] Abbreviation World := (CanaryWorld G).

Definition command (argv : list string) (timeout : Z) : M World (Z * string) := ask_host_or (run_command argv timeout).
(** [_run] *)
Definition _run (argv : list string) (timeout : Z) : M World string :=
  '(returncode, stdout) ← command argv timeout;
  canary_fail_if (negb (returncode =? 0)) ("canary command failed: " +:+ default "" (head argv));;
  mret (py_strip stdout).
Definition systemctl (verb unit : string) (timeout : Z) : M World string := _run ["systemctl"; verb; unit] timeout.
Definition _inactive (unit : string) : M World bool :=
  '(returncode, stdout) ← command ["systemctl"; "is-active"; unit] 10;
  mret (negb (returncode =? 0) && bool_decide (py_strip stdout ∈ ["inactive"; "failed"; "unknown"; ""])).
(** [any(not self._inactive(unit) for unit in units)] *)
Fixpoint some_active (units : list string) : M World bool :=
  match units with
  | [] => mret false
  | unit :: units => inactive ← _inactive unit; if (inactive : bool) then some_active units else mret true
  end.
Fixpoint each {A B} (f : A → M World B) (l : list A) : M World unit :=
  match l with [] => mret tt | x :: l => f x;; each f l end.

Definition _distro_boot_identity : M World string :=
  id_text ← ask_host_or (read_ascii "/proc/sys/kernel/random/boot_id");
  stat_text ← ask_host_or (read_ascii "/proc/1/stat");
  let kernel_boot_id := py_strip id_text in
  let proc1_stat := py_strip stat_text in
  let fields := match after_last ")" proc1_stat with
                | Some rest => if (String.length rest + 1 <? String.length proc1_stat)%nat then split_words rest else []
                | None => []
                end in
  match fields !! 19%nat with
  | Some ticks =>
      canary_fail_if (negb (is_uuid_text kernel_boot_id) || negb (match_some is_digit ticks)) "WSL distro boot identity is invalid";;
      mret ("v2:" +:+ kernel_boot_id +:+ ":" +:+ ticks)
  | None => canary_fail "WSL distro boot identity is invalid"
  end.

(** [_wait_for_garm_listener], with times in microseconds and a turn for each
    attempt. *)
Definition LISTENER_TIMEOUT : Z := 90000000.
Definition LISTENER_PAUSE : Z := 250000.
Definition now_outside : M World Z := gets (λ w, monotonic (cw_outside w)).
Definition pause (d : Z) : M World unit := ask_host_or (sleeper d).
Definition listener_failed {A} : M World A := canary_fail "GARM loopback listener readiness timed out".
Fixpoint listener_loop (fuel : nat) (deadline : Z) : M World unit :=
  match fuel with
  | O => reraise OUT_OF_FUEL
  | S fuel =>
      now ← now_outside;
      if deadline - now <=? 0 then listener_failed
      else
        r ← attempt (ask_host_or (connect (Z.min LISTENER_PAUSE (deadline - now))));
        match r with
        | Ok _ => mret tt
        | Raise e =>
            if is_os_error (exn_cls e) then
              now ← now_outside;
              if deadline - now <=? 0 then listener_failed
              else pause (Z.min LISTENER_PAUSE (deadline - now));; listener_loop fuel deadline
            else reraise e
        end
  end.
Definition listener_turns : nat := 362.
Definition _wait_for_garm_listener : M World unit := now ← now_outside; listener_loop listener_turns (now + LISTENER_TIMEOUT).

Definition canary_acquire : M World unit :=
  taken ← ask_host_or lock_host; canary_fail_if (negb taken) "production or canary transaction is active".

(** ** The authorization *)

Definition CONFIG_FIELDS : list string :=
  ["schema_version"; "reviewer_public_key_file"; "reviewer_fingerprint"; "digested_files"; "garm_health_file"; "broker_config_file";
   "allocation_signer_private_key_file"; "broker_executable"; "request_timeout_seconds"].
Definition BROKER_FIELDS : list string :=
  ["allocation_signer_fingerprint"; "garm_cli_home"; "provider_name"; "image_alias"; "image_fingerprint"; "live_job_verifier";
   "outcome_retention_days"; "targets"].
(** [Path(v)] *)
Definition path_of (v : pyval) : M World string := match v with VStr s => mret s | _ => raise TypeError "expected str or os.PathLike" end.
(** [str(v)] of an identifier *)
Definition id_text (v : pyval) : string := match v with VStr s => s | VInt n => str_of_Z n | _ => "" end.
Definition in_bounds (lo hi : Z) (v : pyval) : bool := match v with VInt n => (lo <=? n) && (n <=? hi) | _ => false end.
(** [SHA256.fullmatch(str(v))] *)
Definition text_is_sha256 (v : pyval) : bool := match v with VStr s => is_sha256 s | VInt n => is_sha256 (str_of_Z n) | _ => false end.
(** [set(v) == {...}] *)
Definition has_elements (v : pyval) (texts : list string) : result bool :=
  elements ← iterate v;
  check (negb (forallb hashable elements)) TypeError "unhashable type";;
  Ok (forallb (is_str_where (λ _, true)) elements && same_set (omap text_of elements) texts).
Definition DIGESTED_FILES : list (string * string) :=
  [("github_app_config", "github_app_config_digest"); ("live_job_verifier", "live_job_verifier_digest");
   ("network_policy", "network_policy_digest"); ("bootstrap_install_receipt", "bootstrap_install_receipt_digest")].
Definition check_file (configured : dict) (f : string * string) : M World unit :=
  path ← path_of (dget f.1 configured);
  canary_fail_if (negb (is_str_where is_sha256 (dget f.2 authorization))) ("canary " +:+ f.1 +:+ " digest drifted");;
  digest ← ask_host_or (file_digest path);
  canary_fail_if (negb (py_eq (VStr digest) (dget f.2 authorization))) ("canary " +:+ f.1 +:+ " digest drifted").
Definition expected_entity : M World dict :=
  match dget "garm_entity" authorization with
  | VDict entity =>
      mret (dset "entity_flag" (VStr (if py_eq (dget "authority_kind" entity) (VStr "personal-repository") then "--repo" else "--org")) entity)
  | _ => raise TypeError "object is not a mapping"
  end.
Definition expected_health (broker : dict) (entity : dict) : dict :=
  [("schema_version", VInt 3); ("garm_cli_home", dget "garm_cli_home" broker); ("manager_configured", VBool true);
   ("provider_configured", VBool true); ("image_configured", VBool true); ("broker_configured", VBool true);
   ("zero_scale_sets", VBool true);
   ("image", VDict [("alias", dget "image_alias" authorization); ("fingerprint", dget "image_fingerprint" authorization)]);
   ("targets", VDict [(id_text (dget "repository_id" authorization), VDict entity)])].
Definition verify_authorization : M World (CanaryAuthorizationDecision * string) :=
  canary_fail_if (negb (same_set (dkeys config) CONFIG_FIELDS) || negb (py_eq (dget "schema_version" config) (VInt 1)))
    "canary runtime config fields are not exact";;
  canary_fail_if (negb (py_eq (dget "broker_executable" config) (VStr BROKER)) || negb (in_bounds 30 3600 (dget "request_timeout_seconds" config)))
    "canary runtime executable/timeout is not exact";;
  key_path ← path_of (dget "reviewer_public_key_file" config);
  k ← ask_host_or (file_public_key key_path);
  canary_fail_if (match public_kind k with Ed25519Key => false | _ => true end) "canary reviewer key is not Ed25519";;
  now ← ask_host canary_now;
  pinned ← lift (match dget "reviewer_fingerprint" config with VStr s => Ok s | _ => throw TypeError "expected string" end);
  decision ← lift (verify_canary_authorization (VDict authorization) k pinned (Some now));
  canary_fail_if (negb (ca_authorized decision)) "signed canary authorization was rejected";;
  digest ← lift (authorization_digest authorization);
  configured ← (match dget "digested_files" config with
                | VDict d => canary_fail_if (negb (same_set (dkeys d) DIGESTED_FILES.*1)) "canary digested-file config is not exact";; mret d
                | _ => canary_fail "canary digested-file config is not exact"
                end);
  each (check_file configured) DIGESTED_FILES;;
  output ← _run ["/usr/local/lib/self-hosted-ci/verify-bootstrap-install.py"] 60;
  measured ← lift (json_loads output);
  exact ← lift (has_elements measured ["status"; "receipt_digest"; "installed_targets_digest"]);
  canary_fail_if (negb exact) "bootstrap live remeasurement is not exact";;
  document ← lift (match measured with VDict d => Ok d | _ => throw AttributeError "object has no attribute 'get'" end);
  canary_fail_if (negb (py_eq (dget "status" document) (VStr "verified")) || negb (text_is_sha256 (dget "receipt_digest" document))
                  || negb (text_is_sha256 (dget "installed_targets_digest" document))) "bootstrap live remeasurement is not exact";;
  health_path ← path_of (dget "garm_health_file" config);
  health ← ask_host_or (file_object health_path);
  broker_path ← path_of (dget "broker_config_file" config);
  stored ← ask_host_or (file_object broker_path);
  let retention := default (VInt 30) (dlookup "outcome_retention_days" stored) in
  canary_fail_if (negb (in_bounds 1 365 retention)) "canary broker outcome retention is invalid";;
  let broker := dset "outcome_retention_days" retention stored in
  entity ← expected_entity;
  canary_fail_if (negb (py_eq (VDict health) (VDict (expected_health broker entity)))) "canary GARM health/entity/image contract drifted";;
  canary_fail_if
    (negb (py_eq (dget "allocation_signer_fingerprint" broker) (dget "allocation_signer_fingerprint" authorization))
     || negb (py_eq (dget "image_alias" broker) (dget "image_alias" authorization))
     || negb (py_eq (dget "image_fingerprint" broker) (dget "image_fingerprint" authorization))
     || negb (py_eq (dget "targets" broker) (VDict [(id_text (dget "repository_id" authorization), VDict entity)]))
     || negb (same_set (dkeys broker) BROKER_FIELDS)) "canary broker signer/image/entity contract drifted";;
  mret (decision, digest).

(** ** Before and after the matrix *)

Definition is_text_prefix (p s : string) : bool := match strip_prefix p s with Some _ => true | None => false end.
(** [len(instances) == 1] and [instances[0]] is an object with this name. *)
Definition only_instance (runner : string) (instances : pyval) : result bool :=
  match instances with
  | VList [VDict instance] => Ok (py_eq (dget "name" instance) (VStr runner))
  | VList _ | VStr _ => Ok false
  | VDict [_] => throw KeyError "0"
  | VDict _ => Ok false
  | _ => throw TypeError "object has no len()"
  end.
(** The one instance left is the runner of the allocation the reboot interrupted. *)
Definition resume_inventory (current : dict) (instances : pyval) : result bool :=
  match dget "reboot_runner_label" current, dget "reboot_allocation_id" current, dget "reboot_evidence" current with
  | VStr label, VStr id, VDict evidence =>
      match dget "reservation" evidence with
      | VDict reservation =>
          if negb (py_eq (dget "allocation_id" reservation) (VStr id)) || negb (py_eq (dget "scale_set_name" reservation) (VStr label)) then Ok false
          else
            name ← allocation_scale_set_name reservation;
            if negb (bool_decide (name = label)) then Ok false
            else
              match dget "runner_name" evidence with
              | VStr runner => if is_text_prefix (label +:+ "-") runner then only_instance runner instances else Ok false
              | _ => Ok false
              end
      | _ => Ok false
      end
  | _, _, _ => Ok false
  end.
Definition no_production : M World unit :=
  active ← ask_host (path_exists ACTIVATION_SENTINEL);
  ready ← (if (active : bool) then mret true else ask_host (path_exists RUNTIME_READY_SENTINEL));
  canary_fail_if ready "production activation is present".
Definition preflight : M World (CanaryAuthorizationDecision * string) :=
  root ← ask_host is_root;
  canary_fail_if (negb root) "canary runtime must run as root";;
  canary_acquire;;
  no_production;;
  sentinel ← gets cw_sentinel;
  canary_fail_if (bool_decide (sentinel ≠ None)) "stale canary approval sentinel is present";;
  active ← some_active PRODUCTION_UNITS;
  canary_fail_if active "a production runtime unit is active";;
  '(decision, digest) ← verify_authorization;
  canary_fail_if (negb (bool_decide (ca_scenarios decision = VStr <$> SCENARIOS))) "canary authorization scenario matrix drifted";;
  canary_fail_if (negb (py_eq (dget "max_allocations" authorization) (VInt 6)) || negb (py_eq (dget "max_concurrency" authorization) (VInt 1))
                  || negb (py_eq (dget "max_jobs_per_allocation" authorization) (VInt 1))) "canary authorization allocation bounds drifted";;
  boot_id ← _distro_boot_identity;
  nonce ← state_store (match ca_nonce decision with Some n => VStr n | None => VNone end);
  current ← load nonce;
  output ← _run ["incus"; "--project"; "ci-jit"; "list"; "--format"; "json"] 60;
  instances ← lift (json_loads output);
  match current with
  | Some current =>
      if awaits_reboot current boot_id then
        whole ← lift (resume_inventory current instances);
        canary_fail_if (negb whole) "reboot resume inventory crossed the durable allocation"
      else canary_fail_if (negb (py_eq instances (VList []))) "initial canary runtime inventory is not empty"
  | None => canary_fail_if (negb (py_eq instances (VList []))) "initial canary runtime inventory is not empty"
  end;;
  initialize nonce digest boot_id;;
  mret (decision, nonce).

Definition sentinel_value (digest : string) : dict := [("authorization_digest", VStr digest); ("purpose", VStr "canary-only")].
Definition verify_prepared : M World (CanaryAuthorizationDecision * string) :=
  root ← ask_host is_root;
  canary_fail_if (negb root) "canary runtime must run as root";;
  no_production;;
  active ← some_active PRODUCTION_UNITS;
  canary_fail_if active "a production runtime unit is active";;
  '(decision, digest) ← verify_authorization;
  stored ← gets cw_sentinel;
  sentinel ← (match stored with Some d => read_back d | None => raise OSError "no such file" end);
  canary_fail_if (negb (py_eq (VDict sentinel) (VDict (sentinel_value digest)))) "canary approval sentinel crossed authorization";;
  nonce ← state_store (match ca_nonce decision with Some n => VStr n | None => VNone end);
  state ← load nonce;
  match state with
  | Some state =>
      canary_fail_if (negb (py_eq (dget "authorization_digest" state) (VStr digest))) "prepared canary durable state is not authorized";;
      open ← lift (py_in_set (dget "state" state) (text_set ["services-starting"; "ready"; "running"; "teardown"]));
      canary_fail_if (negb open) "prepared canary durable state is not authorized"
  | None => canary_fail "prepared canary durable state is not authorized"
  end;;
  mret (decision, nonce).

Section store.
Context (nonce : string).

Definition units_but_last : list string := take 3 CANARY_UNITS.
Definition last_unit : string := "self-hosted-ci-canary-broker.service".
Definition prepare_lane (digest : string) : M World unit :=
  initial ← load_or_empty nonce;
  let interrupted := if bool_decide ("rebooted_from_boot_id" ∈ dkeys initial) then dget "reboot_allocation_id" initial else VNone in
  systemctl "start" QUARANTINE 60;;
  _atomic_json (with_sentinel (Some (sentinel_value digest)));;
  ask_host_or make_secrets;;
  modify (with_secrets true);;
  canary_transition nonce "services-starting" [];;
  (if is_none interrupted then systemctl "start" "self-hosted-ci-canary.target" 180;; mret tt
   else each (λ unit, systemctl "start" unit 180) units_but_last;; _wait_for_garm_listener);;
  output ← _run [BROKER; "recover"] BROKER_RECOVERY_TIMEOUT_SECONDS;
  inventory ← lift (json_loads output);
  let recovered := if is_none interrupted then [] else [interrupted] in
  canary_fail_if (negb (py_eq inventory (VDict [("recovered", VList recovered); ("runtime_empty", VBool true)])))
    "prepared canary runtime inventory is not empty";;
  (if is_none interrupted then mret tt else systemctl "start" last_unit 180;; mret tt);;
  canary_transition nonce "ready" [];;
  mret tt.

(** One scenario that is not done; what it returns is the list of those done. *)
Definition run_scenario (completed : list pyval) (scenario : string) : M World (list pyval) :=
  current ← load_or_empty nonce;
  let done := completed ++ [VStr scenario] in
  if bool_decide (scenario = "reboot") && py_eq (dget "current_scenario" current) (VStr "reboot")
     && bool_decide ("rebooted_from_boot_id" ∈ dkeys current) then
    id ← lift (ditem "reboot_allocation_id" current);
    label ← lift (ditem "reboot_runner_label" current);
    evidence ← lift (ditem "reboot_evidence" current);
    record_event (Resumed nonce);;
    value ← ask_host_or (drv_resume_reboot id label evidence);
    proof nonce scenario value;;
    canary_transition nonce "ready" [("completed_scenarios", VList done); ("current_scenario", VNone)];;
    mret done
  else
    canary_transition nonce "running" [("current_scenario", VStr scenario)];;
    consume_allocation nonce authorization scenario;;
    record_event (Ran nonce scenario config authorization);;
    ended ← ask_host_or (drv_run scenario);
    match ended with
    | Proved value =>
        proof nonce scenario value;;
        canary_transition nonce "ready" [("completed_scenarios", VList done); ("current_scenario", VNone)];;
        mret done
    | Reboot_required id label evidence =>
        canary_transition nonce "running" [("current_scenario", VStr "reboot"); ("completed_scenarios", VList completed);
                                    ("reboot_allocation_id", VStr id); ("reboot_runner_label", VStr label); ("reboot_evidence", VDict evidence)];;
        raise CanaryRebootRequired "canary WSL reboot checkpoint is durable"
    end.
Fixpoint run_scenarios (completed : list pyval) (scenarios : list string) : M World (list pyval) :=
  match scenarios with
  | [] => mret completed
  | scenario :: scenarios =>
      if existsb (py_eq (VStr scenario)) completed then run_scenarios completed scenarios
      else completed ← run_scenario completed scenario; run_scenarios completed scenarios
  end.
Definition run_matrix : M World unit :=
  current ← load_or_empty nonce;
  completed ← lift (match dlookup "completed_scenarios" current with Some v => iterate v | None => Ok [] end);
  canary_fail_if (negb (forallb (λ v, is_str_where (λ s, bool_decide (s ∈ SCENARIOS)) v) completed)
                  || negb (bool_decide (NoDup (omap text_of completed)))) "durable canary scenario state is invalid";;
  run_scenarios completed SCENARIOS;; mret tt.

Definition EMPTY_RUNTIME : dict := [("scale_sets", VInt 0); ("instances", VInt 0); ("runners", VInt 0); ("registrations", VInt 0)].
Definition prove_empty (msg : string) : M World unit :=
  empty ← ask_host_or drv_prove_runtime_empty;
  canary_fail_if (negb (py_eq (VDict empty) (VDict EMPTY_RUNTIME))) msg;;
  record_event (Emptied nonce).
Definition stop_units : M World unit := each (λ unit, command ["systemctl"; "stop"; unit] 60) (rev CANARY_UNITS).
(** [if self.secret_root.exists(): shutil.rmtree(self.secret_root)] *)
Definition remove_secrets : M World unit :=
  there ← gets cw_secrets; if (there : bool) then ask_host_or remove_tree;; modify (with_secrets false) else mret tt.
(** and with [ignore_errors=True] *)
Definition discard_secrets : M World unit :=
  there ← gets cw_secrets;
  if (there : bool) then r ← ask_host remove_tree; match r with Ok _ => modify (with_secrets false) | Raise _ => mret tt end else mret tt.
Definition teardown : M World unit :=
  canary_transition nonce "teardown" [];;
  recovery ← ask_host_or drv_recover_all;
  prove_empty "final canary runtime inventory is not empty";;
  stop_units;;
  systemctl "start" QUARANTINE 60;;
  modify (with_sentinel None);;
  remove_secrets;;
  canary_transition nonce "terminal" [("current_scenario", VNone); ("runtime_empty", VBool true); ("recovered_allocations", texts_value recovery)];;
  mret tt.
Definition close_lane : M World unit :=
  stop_units;; command ["systemctl"; "start"; QUARANTINE] 60;; modify (with_sentinel None);; discard_secrets.
Definition recover_before_quarantine : M World unit :=
  command ["systemctl"; "stop"; last_unit] 60;;
  each (λ unit, systemctl "start" unit 180) units_but_last;;
  recovered ← ask_host_or drv_recover_all;
  prove_empty "failed canary runtime inventory is not empty";;
  close_lane;;
  canary_transition nonce "failed-quarantined-clean" [("runtime_empty", VBool true); ("recovered_allocations", texts_value recovered)];;
  mret tt.
End store.

(** [quarantine_after_failure] *)
Definition quarantine_after_failure (store : option string) : M World unit :=
  close_lane;;
  match store with
  | Some nonce => canary_transition nonce "failed-quarantined" [("runtime_empty", VBool false)];; mret tt
  | None => mret tt
  end.

(** ** The whole run *)

(** [except Exception]: an interrupt, as the death of the process, runs none. *)
Definition is_exception (c : exn_class) : bool := negb (bool_decide (c = KeyboardInterrupt)).
Definition receipt (nonce : string) : dict :=
  [("status", VStr "terminal"); ("nonce", VStr nonce); ("scenarios", texts_value SCENARIOS); ("runtime_empty", VBool true);
   ("production_activation_changed", VBool false); ("outbound_worker_started", VBool false)].
Definition matrix (nonce : string) : M World dict :=
  state ← load_or_empty nonce;
  match dget "authorization_digest" state with
  | VStr digest => prepare_lane nonce digest;; run_matrix nonce;; teardown nonce;; mret (receipt nonce)
  | _ => canary_fail "canary authorization digest was not persisted"
  end.
Definition fail_with (store : option string) (e : exn) : M World dict :=
  (if bool_decide (exn_cls e = CanaryRebootRequired) then close_lane
   else match store with
        | Some nonce => catching is_exception (recover_before_quarantine nonce) (λ _, mret tt)
        | None => quarantine_after_failure None
        end);;
  reraise e.
Definition execute : M World dict :=
  r ← attempt preflight;
  match r with
  | Raise e => if is_exception (exn_cls e) && negb (bool_decide (e = OUT_OF_FUEL)) then fail_with None e else reraise e
  | Ok (_, nonce) => catching is_exception (matrix nonce) (fail_with (Some nonce))
  end.

(** [assert_production_fence] *)
Fixpoint units_stopped (units : list string) : M World unit :=
  match units with
  | [] => mret tt
  | unit :: units =>
      '(returncode, _) ← command ["systemctl"; "is-active"; unit] 10;
      canary_fail_if (returncode =? 0) "a canary runtime unit is active";;
      units_stopped units
  end.
Definition state_closed (state : dict) : M World unit :=
  state ← read_back state;
  closed_state ← lift (py_in_set (dget "state" state) (text_set ["terminal"; "failed-quarantined-clean"]));
  canary_fail_if (negb closed_state || negb (is_true (dget "runtime_empty" state))) "a canary matrix is nonterminal or unclean".
Definition assert_production_fence : M World unit :=
  sentinel ← gets cw_sentinel;
  canary_fail_if (bool_decide (sentinel ≠ None)) "canary approval sentinel is present";;
  units_stopped CANARY_UNITS;;
  states ← gets (λ w, (map_to_list (cw_states w)).*2);
  each state_closed states.
End runtime.
