(* ===== verification/CanaryProps.v ===== *)
(** * The canary matrix: theorems

    Over any number of runs, of any authorizations, on a host that answers and
    fails as it likes: the budget, what a closed state and a passed fence mean, and
    what a run that returns has done. *)

From stdpp Require Import gmap strings.
From S2P Require Import Prelude Datetime PyValue PyText Json Digest Jcs Signatures Allocation CanaryBoundary RunnerBoundary Observability GitHubAdapter CanaryState CanaryRuntime.
#[local] Open Scope Z_scope.

(** ** Books

    What a run keeps on disk but for the sentinel, and the trace of what it did. *)

Record Books := {
  bk_states : gmap string dict;
  bk_budget : option dict;
  bk_proofs : gmap (string * string) dict;
  bk_trace : list canary_event;
}.
Definition set_state (n : string) (d : dict) (b : Books) : Books :=
  {| bk_states := <[n := d]> (bk_states b); bk_budget := bk_budget b; bk_proofs := bk_proofs b; bk_trace := bk_trace b |}.
Definition set_budget (d : dict) (b : Books) : Books :=
  {| bk_states := bk_states b; bk_budget := Some d; bk_proofs := bk_proofs b; bk_trace := bk_trace b |}.
Definition set_proof (k : string * string) (d : dict) (b : Books) : Books :=
  {| bk_states := bk_states b; bk_budget := bk_budget b; bk_proofs := <[k := d]> (bk_proofs b); bk_trace := bk_trace b |}.
Definition add_event (e : canary_event) (b : Books) : Books :=
  {| bk_states := bk_states b; bk_budget := bk_budget b; bk_proofs := bk_proofs b; bk_trace := bk_trace b ++ [e] |}.

Section specs.
Context {G : Type} {Disk : CanaryDisk G}.
#[local] Abbreviation World := (CanaryWorld G).

Definition books (w : World) : Books :=
  {| bk_states := cw_states w; bk_budget := cw_budget w; bk_proofs := cw_proofs w; bk_trace := cw_trace w |}.
Definition same_books : relation World := λ w w', books w' = books w.
#[export] Instance same_books_preorder : PreOrder same_books.
Proof. split; [by intros w|]. intros w1 w2 w3 H1 H2. unfold same_books in *. by rewrite H2, H1. Qed.

(** [spec P m Q E]: from books where [P] holds, [m] returns with [Q] or raises with
    [E]. *)
Definition spec {A} (P : Books → Prop) (m : M World A) (Q : A → Books → Prop) (E : Books → Prop) : Prop :=
  ∀ w, P (books w) → match m w with (Ok a, w') => Q a (books w') | (Raise _, w') => E (books w') end.

Lemma spec_conseq {A} (P P' : Books → Prop) (m : M World A) (Q Q' : A → Books → Prop) (E E' : Books → Prop) :
  spec P' m Q' E' → (∀ b, P b → P' b) → (∀ a b, Q' a b → Q a b) → (∀ b, E' b → E b) → spec P m Q E.
Proof. intros H HP HQ HE w Hw. specialize (H w (HP _ Hw)). destruct (m w) as [[a|e] w']; auto. Qed.
Lemma spec_bind {A B} P (m : M World A) (k : A → M World B) R Q E : spec P m R E → (∀ a, spec (R a) (k a) Q E) → spec P (m ≫= k) Q E.
Proof.
  intros Hm Hk w Hw. specialize (Hm w Hw). unfold mbind, M_bind. destruct (m w) as [[a|e] w']; [|done]. by apply (Hk a w').
Qed.
Lemma spec_quiet {A} P (m : M World A) : moves same_books m → spec P m (λ _, P) P.
Proof. intros Hm w Hw. specialize (Hm w). unfold same_books in Hm. destruct (m w) as [[a|e] w']; cbn in Hm; by rewrite Hm. Qed.
Lemma spec_ret {A} (P : Books → Prop) (a : A) (Q : A → Books → Prop) E : (∀ b, P b → Q a b) → spec P (mret a) Q E.
Proof. intros H w Hw. by apply H. Qed.
Lemma spec_pure {A} P (H : Prop) (m : M World A) Q E : (H → spec P m Q E) → spec (λ b, P b ∧ H) m Q E.
Proof. intros Hs w [Hw Hh]. by apply Hs. Qed.
Lemma spec_raise {A} (P : Books → Prop) c msg (Q : A → Books → Prop) (E : Books → Prop) : (∀ b, P b → E b) → spec P (raise (A := A) c msg) Q E.
Proof. intros H w Hw. by apply H. Qed.
Lemma spec_raise_if (P E : Books → Prop) b c msg : (∀ b, P b → E b) → spec P (raise_if b c msg) (λ _ k, P k ∧ b = false) E.
Proof. intros H w Hw. destruct b; cbn; [by apply H|done]. Qed.
Lemma spec_lift {A} (P E : Books → Prop) (r : result A) : (∀ b, P b → E b) → spec P (lift r) (λ a b, P b ∧ r = Ok a) E.
Proof. intros H w Hw. destruct r; cbn; [done|by apply H]. Qed.
(** A file is replaced, or not, or is and the write fails all the same. *)
Lemma spec_atomic (P P' E : Books → Prop) (replace : World → World) :
  (∀ w, P (books w) → P' (books (replace w))) → (∀ b, P b → E b) → (∀ b, P' b → E b) → spec P (_atomic_json replace) (λ _, P') E.
Proof.
  intros Hr HE HE' w Hw. unfold _atomic_json, ask_host, mbind, M_bind. destruct (disk_write (cw_outside w)) as [o g]. destruct o; cbn.
  - by apply (Hr {| cw_outside := g |}).
  - by apply HE.
  - apply HE'. by apply (Hr {| cw_outside := g |}).
Qed.
Lemma spec_record (P Q E : Books → Prop) e : (∀ b, P b → Q (add_event e b)) → spec P (record_event e) (λ _, Q) E.
Proof. intros H w Hw. by apply (H _ Hw). Qed.

(** ** Steps that leave the books alone *)

Lemma quiet_outside {A} (f : G → A * G) : moves same_books (ask_host f).
Proof. intros w. unfold ask_host. by destruct (f (cw_outside w)). Qed.
Lemma quiet_outside_or {A} (f : G → result A * G) : moves same_books (ask_host_or f).
Proof. apply moves_bind; [exact _|apply quiet_outside|]. intros r. apply moves_lift. exact _. Qed.
Lemma quiet_sentinel d : moves same_books (modify (with_sentinel d)).
Proof. by intros w. Qed.
Lemma quiet_secrets x : moves same_books (modify (with_secrets x)).
Proof. by intros w. Qed.
End specs.

Create HintDb quiet.
#[export] Hint Resolve quiet_outside quiet_outside_or quiet_sentinel quiet_secrets : quiet.
Ltac quiet :=
  repeat first
    [ solve [eauto with quiet]
    | progress intros
    | match goal with
      | |- moves _ (mbind _ _) => apply moves_bind; [exact _| |intros ?]
      | |- moves _ (fmap _ _) => apply moves_fmap
      | |- moves _ (mret _) => apply moves_ret; exact _
      | |- moves _ (lift _) => apply moves_lift; exact _
      | |- moves _ (raise _ _) => apply moves_raise; exact _
      | |- moves _ (raise_if _ _ _) => apply moves_raise_if; exact _
      | |- moves _ (reraise _) => apply moves_reraise; exact _
      | |- moves _ (gets _) => apply moves_gets; exact _
      | |- moves _ (attempt _) => apply moves_attempt
      | |- moves _ (if ?b then _ else _) => destruct b
      | |- moves _ (match ?x with _ => _ end) => destruct x
      | |- moves _ ((λ _, _) _) => cbn beta
      end ].

Section quiet.
Context {G : Type} {Disk : CanaryDisk G} {D : Digest} {K : KeyLibrary} {Host : CanaryHost G} {Driver : CanaryDriver G} {Clock : PollClock G}.
Context (config authorization : dict).
#[local] Abbreviation World := (CanaryWorld G).
#[local] Abbreviation quietly := (moves (same_books (G := G))).

Lemma quiet_read_back d : quietly (read_back d).
Proof. unfold read_back. quiet. Qed.
Lemma quiet_read_if_there file : quietly (read_if_there file).
Proof. unfold read_if_there, read_back. quiet. Qed.
Lemma quiet_each {A B} (f : A → M World B) l : (∀ a, quietly (f a)) → quietly (each f l).
Proof. intros Hf. induction l; cbn; quiet. Qed.
Lemma quiet_run argv t : quietly (_run argv t).
Proof. unfold _run, command, canary_fail_if. quiet. Qed.
Lemma quiet_systemctl verb unit t : quietly (systemctl verb unit t).
Proof. apply quiet_run. Qed.
Lemma quiet_some_active units : quietly (some_active units).
Proof. induction units; cbn; unfold _inactive, command; quiet. Qed.
Lemma quiet_units_stopped units : quietly (units_stopped units).
Proof. induction units; cbn; unfold command, canary_fail_if; quiet. Qed.
Lemma quiet_identity : quietly _distro_boot_identity.
Proof. unfold _distro_boot_identity, canary_fail_if, canary_fail. quiet. Qed.
Lemma quiet_listener fuel deadline : quietly (listener_loop fuel deadline).
Proof.
  induction fuel; cbn; unfold now_outside, listener_failed, canary_fail, pause; quiet.
Qed.
Lemma quiet_stop_units : quietly stop_units.
Proof. apply quiet_each. intros unit. unfold command. quiet. Qed.
Lemma quiet_remove_secrets : quietly remove_secrets.
Proof. unfold remove_secrets. quiet. Qed.
Lemma quiet_close_lane : quietly close_lane.
Proof. unfold close_lane, discard_secrets, command. pose proof quiet_stop_units. quiet. Qed.
Lemma quiet_no_production : quietly no_production.
Proof. unfold no_production, canary_fail_if. quiet. Qed.
Lemma quiet_verify : quietly (verify_authorization config authorization).
Proof.
  unfold verify_authorization, canary_fail_if, canary_fail, path_of, expected_entity.
  assert (∀ d, quietly (each (check_file authorization d) DIGESTED_FILES)).
  { intros d. apply quiet_each. intros f. unfold check_file, path_of, canary_fail_if. quiet. }
  pose proof quiet_run. quiet.
Qed.
Lemma quiet_sentinel_write d : quietly (_atomic_json (with_sentinel d)).
Proof. unfold _atomic_json. quiet. Qed.
End quiet.
#[export] Hint Resolve quiet_read_back quiet_read_if_there quiet_run quiet_systemctl quiet_some_active quiet_units_stopped quiet_identity
  quiet_listener quiet_stop_units quiet_remove_secrets quiet_close_lane quiet_no_production quiet_verify quiet_sentinel_write : quiet.

(** ** What the books say *)

Section books.
Context {D : Digest} {K : KeyLibrary} {G : Type} {Host : CanaryHost G}.

Definition ran_in (scope : string) (e : canary_event) : bool :=
  match e with Ran _ _ _ authorization => bool_decide (_budget_scope authorization = Ok scope) | _ => false end.
Definition runs_of (scope : string) (trace : list canary_event) : Z := Z.of_nat (length (List.filter (ran_in scope) trace)).
Definition empty_budget : dict := [("schema_version", VInt 1); ("scopes", VDict [])].
(** The claims of a scope, as [consume_allocation] reads them. *)
Definition claims_of (budget : option dict) (scope : string) : Z :=
  match budget_entry (default empty_budget budget) scope with
  | Ok (_, entry) => match entry_claims entry with Ok claims => Z.of_nat (length claims) | Raise _ => 0 end
  | Raise _ => 0
  end.

Definition starts (nonce : string) (e : canary_event) : Prop :=
  match e with Ran n _ _ _ | Resumed n => n = nonce | Emptied _ => False end.
(** The runtime was proved empty after whatever was started. *)
Definition calm (nonce : string) (trace : list canary_event) : Prop :=
  ∀ pre e post, trace = pre ++ e :: post → starts nonce e → Emptied nonce ∈ post.
(** The authorization verified for [nonce] under an Ed25519 key with the fingerprint
    that the configuration pins, at an instant that the host's clock told. *)
Definition signed (nonce : string) (config authorization : dict) : Prop :=
  ∃ k pinned now g decision, public_kind k = Ed25519Key ∧ dget "reviewer_fingerprint" config = VStr pinned ∧ spki_fingerprint k = pinned ∧
    (canary_now g).1 = now ∧ verify_canary_authorization (VDict authorization) k pinned (Some now) = Ok decision ∧
    ca_authorized decision = true ∧ ca_nonce decision = Some nonce.
Record exact_proof (scenario : string) (p : dict) : Prop := {
  ep_fields : same_set (dkeys p) PROOF_FIELDS = true;
  ep_scenario : dget "scenario" p = VStr scenario;
  ep_conclusion : dget "conclusion" p = VStr scenario;
  ep_one_job : py_eq (dget "jobs_started" p) (VInt 1) = true;
  ep_removed : allocation_removed p = Ok (VBool true);
}.
Definition proven (nonce scenario : string) (b : Books) : Prop := ∃ p, bk_proofs b !! (nonce, scenario) = Some p ∧ exact_proof scenario p.
Definition proven_value (nonce : string) (b : Books) (v : pyval) : Prop := ∃ scenario, v = VStr scenario ∧ proven nonce scenario b.
Definition closed_state (d : dict) : Prop := dget "state" d ∈ [VStr "terminal"; VStr "failed-quarantined-clean"].
Definition lists_proven (nonce : string) (b : Books) (d : dict) : Prop :=
  ∃ l, dget "completed_scenarios" d = VList l ∧ Forall (proven_value nonce b) l.

Record kept (b : Books) : Prop := {
  kp_budget scope : runs_of scope (bk_trace b) ≤ claims_of (bk_budget b) scope ≤ BUDGET;
  kp_signed nonce scenario config authorization : Ran nonce scenario config authorization ∈ bk_trace b → signed nonce config authorization;
  kp_seen nonce e : e ∈ bk_trace b → starts nonce e → is_Some (bk_states b !! nonce);
  kp_closed nonce d : bk_states b !! nonce = Some d → closed_state d → calm nonce (bk_trace b);
  kp_done nonce d : bk_states b !! nonce = Some d → lists_proven nonce b d;
}.
(** The matrix of [nonce] is under way. *)
Definition under_way (nonce : string) (b : Books) : Prop := kept b ∧ ∃ d, bk_states b !! nonce = Some d ∧ ¬ closed_state d.

Lemma calm_snoc nonce trace e : calm nonce trace → ¬ starts nonce e → calm nonce (trace ++ [e]).
Proof.
  intros Hc He pre e' post Heq Hs. destruct post as [|x post _] using rev_ind.
  - apply app_inj_tail in Heq as [_ ->]. done.
  - rewrite app_comm_cons, app_assoc in Heq. apply app_inj_tail in Heq as [-> _]. apply elem_of_app. left. by eapply Hc.
Qed.
Lemma calm_emptied nonce trace : calm nonce (trace ++ [Emptied nonce]).
Proof.
  intros pre e post Heq Hs. destruct post as [|x post _] using rev_ind.
  - by apply app_inj_tail in Heq as [_ <-].
  - rewrite app_comm_cons, app_assoc in Heq. apply app_inj_tail in Heq as [_ <-]. apply elem_of_app. right. left.
Qed.
Lemma runs_snoc scope trace e : runs_of scope (trace ++ [e]) = runs_of scope trace + (if ran_in scope e then 1 else 0).
Proof. unfold runs_of. rewrite List.filter_app, length_app. cbn. destruct (ran_in scope e); cbn; lia. Qed.
Lemma same_set_elem a b k : same_set a b = true → k ∈ b → k ∈ a.
Proof.
  unfold same_set, subset_of. intros [_ H]%andb_true_iff Hk. apply (proj1 (forallb_forall _ _)) with (x := k) in H; [|by apply list_elem_of_In].
  by apply bool_decide_eq_true in H.
Qed.

(** ** The budget *)

Lemma budget_entry_ok ledger scope scopes entry : budget_entry ledger scope = Ok (scopes, entry) →
  same_set (dkeys ledger) ["schema_version"; "scopes"] = true ∧ py_eq (dget "schema_version" ledger) (VInt 1) = true ∧
  dget "scopes" ledger = VDict scopes ∧ (match dlookup scope scopes with Some v => json_object v | None => Ok new_entry end) = Ok entry.
Proof.
  unfold budget_entry. destruct (_ || _) eqn:E; [done|]. apply orb_false_iff in E as [H1%negb_false_iff H2%negb_false_iff].
  destruct (dget "scopes" ledger) as [| | | | |scopes']; try done. intros (e & He & [= -> ->])%result_bind_ok. done.
Qed.
Lemma entry_claims_ok entry claims : entry_claims entry = Ok claims →
  same_set (dkeys entry) ["max_allocations"; "claims"] = true ∧ py_eq (dget "max_allocations" entry) (VInt BUDGET) = true ∧
  dget "claims" entry = VList claims.
Proof.
  unfold entry_claims. intros (u & [H1%negb_false_iff H2%negb_false_iff]%check_ok%orb_false_iff & H)%result_bind_ok.
  destruct (dget "claims" entry); try done. by injection H as ->.
Qed.
(** The budget with one more claim of a scope. *)
Definition claimed (ledger scopes entry : dict) (scope : string) (claims : list pyval) (claim : pyval) : dict :=
  dset "scopes" (VDict (dset scope (VDict (dset "claims" (VList (claims ++ [claim])) entry)) scopes)) ledger.
Lemma budget_entry_claimed ledger scope scopes entry claims claim other :
  budget_entry ledger scope = Ok (scopes, entry) → entry_claims entry = Ok claims →
  budget_entry (claimed ledger scopes entry scope claims claim) other =
    (e ← (match dlookup other (dset scope (VDict (dset "claims" (VList (claims ++ [claim])) entry)) scopes) with
          | Some v => json_object v | None => Ok new_entry end);
     Ok (dset scope (VDict (dset "claims" (VList (claims ++ [claim])) entry)) scopes, e)).
Proof.
  intros (Hk & Hv & Hs & _)%budget_entry_ok _. unfold budget_entry, claimed.
  assert ("scopes" ∈ dkeys ledger) as Hin by (eapply same_set_elem; [exact Hk|right; left]).
  rewrite dkeys_dset by done. rewrite Hk, !dget_dset. rewrite decide_False by done. rewrite decide_True by done. by rewrite Hv.
Qed.
Lemma claims_of_claimed budget scope scopes entry claims claim other :
  budget_entry (default empty_budget budget) scope = Ok (scopes, entry) → entry_claims entry = Ok claims →
  claims_of (Some (claimed (default empty_budget budget) scopes entry scope claims claim)) other =
    claims_of budget other + (if decide (other = scope) then 1 else 0) ∧ claims_of budget scope = Z.of_nat (length claims).
Proof.
  intros Hb Hc. pose proof (budget_entry_ok _ _ _ _ Hb) as (_ & _ & Hs & _). pose proof (entry_claims_ok _ _ Hc) as (Hk & Hm & Hcl).
  split; [|unfold claims_of; by rewrite Hb, Hc].
  unfold claims_of. cbn [default from_option id]. rewrite (budget_entry_claimed _ _ _ _ _ _ other Hb Hc), dlookup_dset.
  destruct (decide (scope = other)) as [<-|Hne].
  - rewrite decide_True by done. rewrite Hb, Hc. cbn [json_object mbind result_bind].
    unfold entry_claims. assert ("claims" ∈ dkeys entry) as Hin by (eapply same_set_elem; [exact Hk|right; left]).
    rewrite dkeys_dset, Hk, (dget_dset "max_allocations"), (dget_dset "claims") by done. rewrite (decide_False (P := "max_allocations" = "claims")), !decide_True, Hm by done. cbn.
    rewrite length_app. cbn. lia.
  - rewrite decide_False by done.
    unfold budget_entry in *. destruct (_ || _) in *; [done|]. rewrite Hs in *. rewrite (decide_False (P := other = scope)), Z.add_0_r by congruence.
    by destruct (match dlookup other scopes with Some v => json_object v | None => Ok new_entry end).
Qed.
End books.

(** ** Keeping the books *)

Section keeping.
Context {D : Digest} {K : KeyLibrary} {G : Type} {Host : CanaryHost G}.

Lemma proven_later n s k p b : exact_proof k.2 p → proven n s b → proven n s (set_proof k p b).
Proof.
  intros Hp (q & Hq & Hex). destruct (decide (k = (n, s))) as [->|Hne]; [exists p|exists q]; cbn.
  - by rewrite lookup_insert, decide_True.
  - by rewrite lookup_insert_ne.
Qed.
Lemma kept_set_state n d b : kept b → lists_proven n b d → (closed_state d → calm n (bk_trace b)) → kept (set_state n d b).
Proof.
  intros [H1 H2 H3 H4 H5] Hl Hc. constructor; cbn; [done|done|..].
  - intros n' e He Hs. destruct (decide (n = n')) as [->|Hne]; [rewrite lookup_insert, decide_True by done; by eexists|rewrite lookup_insert_ne by done; eauto].
  - intros n' d' Hd. destruct (decide (n = n')) as [->|Hne]; [rewrite lookup_insert, decide_True in Hd by done; by simplify_eq|rewrite lookup_insert_ne in Hd by done; eauto].
  - intros n' d' Hd. destruct (decide (n = n')) as [->|Hne]; [rewrite lookup_insert, decide_True in Hd by done; by simplify_eq|].
    rewrite lookup_insert_ne in Hd by done. by apply H5.
Qed.
Lemma kept_set_budget d b : kept b → (∀ scope, runs_of scope (bk_trace b) ≤ claims_of (Some d) scope ≤ BUDGET) → kept (set_budget d b).
Proof. intros [H1 H2 H3 H4 H5] Hd. by constructor. Qed.
Lemma kept_set_proof k p b : kept b → exact_proof k.2 p → kept (set_proof k p b).
Proof.
  intros [H1 H2 H3 H4 H5] Hp. constructor; cbn; [done..|]. intros n d Hd. destruct (H5 n d Hd) as (l & Hl & Hf). exists l. split; [done|].
  eapply Forall_impl; [exact Hf|]. intros v (s & -> & Hs). exists s. split; [done|]. by apply proven_later.
Qed.
Lemma kept_emptied n b : kept b → kept (add_event (Emptied n) b).
Proof.
  intros [H1 H2 H3 H4 H5]. constructor; cbn; [|intros n' s c a [H|H%list_elem_of_singleton]%elem_of_app|intros n' e [H|H%list_elem_of_singleton]%elem_of_app|..|exact H5].
  - intros scope. rewrite runs_snoc. cbn. rewrite Z.add_0_r. apply H1.
  - by apply (H2 n' s).
  - done.
  - by apply H3.
  - by subst.
  - intros n' d Hd Hc. apply calm_snoc; [by eapply H4|intros []].
Qed.
(** A start is on the books of an open matrix, with a claim if it is a run. *)
Lemma kept_start n e b : under_way n b → starts n e →
  (∀ scope, ran_in scope e = true → runs_of scope (bk_trace b) + 1 ≤ claims_of (bk_budget b) scope) →
  (∀ s c a, e = Ran n s c a → signed n c a) → under_way n (add_event e b).
Proof.
  intros [[H1 H2 H3 H4 H5] (d & Hd & Hopen)] Hs Hclaim Hsigned. split; [|by exists d].
  constructor; cbn; [|intros n' s c a [H|H%list_elem_of_singleton]%elem_of_app|intros n' e' [H|H%list_elem_of_singleton]%elem_of_app|..|exact H5].
  - intros scope. rewrite runs_snoc. specialize (H1 scope). destruct (ran_in scope e) eqn:E; [specialize (Hclaim scope E)|]; lia.
  - by apply (H2 n' s).
  - subst. cbn in Hs. subst. by apply (Hsigned s).
  - by apply H3.
  - subst e'. intros Hs'. assert (n' = n) as -> by (destruct e; cbn in *; by subst). by eexists.
  - intros n' d' Hd' Hc. destruct (decide (n = n')) as [->|Hne]; [by simplify_eq|]. apply calm_snoc; [by eapply H4|].
    intros Hs'. apply Hne. destruct e; cbn in *; by subst.
Qed.
Lemma under_way_state n d b : under_way n b → lists_proven n b d → ¬ closed_state d → under_way n (set_state n d b).
Proof.
  intros [Hk _] Hl Hc. split; [by apply kept_set_state|]. exists d. cbn. by rewrite lookup_insert, decide_True.
Qed.
Lemma under_way_budget n d b : under_way n b → (∀ scope, runs_of scope (bk_trace b) ≤ claims_of (Some d) scope ≤ BUDGET) →
  under_way n (set_budget d b).
Proof. intros [Hk Ho] Hd. split; [by apply kept_set_budget|exact Ho]. Qed.
Lemma under_way_proof n k p b : under_way n b → exact_proof k.2 p → under_way n (set_proof k p b).
Proof. intros [Hk Ho] Hp. split; [by apply kept_set_proof|exact Ho]. Qed.
End keeping.

(** ** The store *)

Section store.
Context {G : Type} {Disk : CanaryDisk G} {D : Digest} {K : KeyLibrary}.
#[local] Abbreviation World := (CanaryWorld G).
Context (nonce : string).

Lemma spec_read_if_there P (file : World → option dict) (file' : Books → option dict) : (∀ w, file w = file' (books w)) →
  spec P (read_if_there file) (λ o b, P b ∧ o = file' b) P.
Proof.
  intros Hf w Hw. unfold read_if_there, read_back, ask_host_or, ask_host, gets, lift, mbind, M_bind, mret, M_ret. rewrite Hf.
  destruct (file' (books w)) as [d|] eqn:E; [|by split]. destruct (disk_read (cw_outside w)) as [[u|e] g]; cbn; [|done]. by split.
Qed.
Lemma spec_load P : spec P (load (G := G) nonce) (λ o b, P b ∧ o = bk_states b !! nonce) P.
Proof. by apply spec_read_if_there. Qed.
Lemma spec_load_or_empty P : spec P (load_or_empty (G := G) nonce) (λ d b, P b ∧ d = default [] (bk_states b !! nonce)) P.
Proof.
  intros w Hw. pose proof (spec_load P w Hw) as H. unfold load_or_empty, fmap, M_fmap. destruct (load nonce w) as [[o|e] w']; [|done].
  destruct H as [H ->]. done.
Qed.
(** A transition writes the state there is, updated. *)
Lemma spec_transition (P P' E : Books → Prop) state updates :
  (∀ b d, P b → bk_states b !! nonce = Some d → P' (set_state nonce (dset "state" (VStr state) (dmerge d updates)) b)) →
  (∀ b, P b → E b) → (∀ b, P' b → E b) → spec P (canary_transition (G := G) nonce state updates) (λ _, P') E.
Proof.
  intros Hn HE HE'. unfold canary_transition. eapply spec_bind; [eapply spec_conseq; [apply (spec_load_or_empty P)|done|exact (λ _ _ H, H)|exact HE]|].
  intros d. cbn beta. eapply spec_bind; [apply spec_raise_if; intros b [Hb _]; by apply HE|]. intros []. cbn beta. apply spec_pure. intros Hd%negb_false_iff.
  eapply spec_bind; [|intros u; apply spec_ret; intros b Hb; exact Hb]. unfold save_state. apply spec_atomic; [|intros b [Hb _]; by apply HE|exact HE'].
  intros w [Hw ->]. destruct (bk_states (books w) !! nonce) as [d|] eqn:Ed; [|done]. by apply (Hn (books w)).
Qed.
End store.

(** ** The matrix *)

Section matrix.
Context {G : Type} {Disk : CanaryDisk G} {D : Digest} {K : KeyLibrary} {Host : CanaryHost G} {Driver : CanaryDriver G} {Clock : PollClock G}.
Context (config authorization : dict) (nonce : string).
#[local] Abbreviation World := (CanaryWorld G).

(** Under way, with the proofs of these scenarios on disk. *)
Definition going (l : list pyval) (b : Books) : Prop := under_way nonce b ∧ Forall (proven_value nonce b) l.
Lemma going_kept l b : going l b → kept b.
Proof. by intros [[Hk _] _]. Qed.
Lemma spec_still {A} P (m : M World A) (E : Books → Prop) : moves same_books m → (∀ b, P b → E b) → spec P m (λ _, P) E.
Proof. intros Hm HE. eapply spec_conseq; [by apply (spec_quiet P)|done|done|done]. Qed.
Lemma spec_load_empty P (E : Books → Prop) : (∀ b, P b → E b) →
  spec P (load_or_empty (G := G) nonce) (λ d b, P b ∧ d = default [] (bk_states b !! nonce)) E.
Proof. intros HE. eapply spec_conseq; [by apply (spec_load_or_empty nonce P)|done|done|done]. Qed.
(** A transition to a state that is not closed. *)
Definition open_name (s : string) : bool := bool_decide (s ∉ ["terminal"; "failed-quarantined-clean"]).
Lemma not_closed s d : open_name s = true → ¬ closed_state (dset "state" (VStr s) d).
Proof.
  unfold open_name, closed_state. rewrite bool_decide_eq_true, dget_dset, decide_True by done. intros Hn H. apply Hn.
  rewrite !elem_of_cons in *. destruct H as [[= ->]|[[= ->]|H]]; [tauto..|by apply elem_of_nil in H].
Qed.
Lemma under_way_lists b d : under_way nonce b → bk_states b !! nonce = Some d → lists_proven nonce b d.
Proof. intros [[_ _ _ _ Hd] _]. apply Hd. Qed.
Lemma going_transition state updates l : open_name state = true → "completed_scenarios" ∉ updates.*1 →
  spec (going l) (canary_transition (G := G) nonce state updates) (λ _, going l) kept.
Proof.
  intros Hs Hu. apply spec_transition; [|apply going_kept|apply going_kept]. intros b d [Hw Hl] Hd. split; [|exact Hl].
  apply under_way_state; [done| |by apply not_closed]. destruct (under_way_lists b d Hw Hd) as (c & Hc & Hf). exists c. split; [|done].
  rewrite dget_dset, decide_False by done. unfold dget in *. by rewrite dlookup_dmerge_fresh.
Qed.
Lemma going_completed state l more : open_name state = true → "completed_scenarios" ∉ more.*1 →
  spec (going l) (canary_transition (G := G) nonce state (("completed_scenarios", VList l) :: more)) (λ _, going l) kept.
Proof.
  intros Hs Hm. apply spec_transition; [|apply going_kept|apply going_kept]. intros b d [Hw Hl] Hd. split; [|exact Hl].
  apply under_way_state; [done| |by apply not_closed]. exists l. split; [|done].
  rewrite dget_dset, decide_False by done. unfold dget. by rewrite dlookup_dmerge_head.
Qed.

(** ** The budget *)

Definition slack (b : Books) : Prop :=
  ∀ scope, _budget_scope authorization = Ok scope → runs_of scope (bk_trace b) + 1 ≤ claims_of (bk_budget b) scope.
Lemma claim_going l b scope scopes entry claims claim : going l b → _budget_scope authorization = Ok scope →
  budget_entry (default empty_budget (bk_budget b)) scope = Ok (scopes, entry) → entry_claims entry = Ok claims →
  Z.of_nat (length claims) < BUDGET →
  let b' := set_budget (claimed (default empty_budget (bk_budget b)) scopes entry scope claims claim) b in going l b' ∧ slack b'.
Proof.
  intros [Hw Hl] Hscope Hentry Hclaims Hroom. pose proof (λ o, claims_of_claimed (bk_budget b) scope scopes entry claims claim o Hentry Hclaims) as Hcl.
  pose proof (kp_budget _ (proj1 Hw)) as Hb. cbv zeta. split; [split; [|exact Hl]|].
  - apply under_way_budget; [done|]. intros other. destruct (Hcl other) as [-> Hs]. specialize (Hb other).
    unfold BUDGET in *. case_decide; [subst other|]; lia.
  - intros scope' Hscope'. rewrite Hscope in Hscope'. injection Hscope' as <-. destruct (Hcl scope) as [Ho Hs]. specialize (Hb scope).
    cbn [set_budget bk_trace bk_budget]. rewrite Ho, decide_True by done. lia.
Qed.
Lemma going_set l b k v : going l b → k ≠ "completed_scenarios" → k ≠ "state" →
  going l (set_state nonce (dset k v (default [] (bk_states b !! nonce))) b).
Proof.
  intros [Hw Hl] Hc Hs. split; [|exact Hl]. pose proof Hw as [_ (d & Hd & Hopen)].
  assert (default [] (bk_states b !! nonce) = d) as -> by (unfold dict in *; by rewrite Hd). apply under_way_state; [done|..].
  - destruct (under_way_lists _ _ Hw Hd) as (c & Hcl & Hf). exists c. split; [|done]. by rewrite dget_dset, decide_False.
  - unfold closed_state. by rewrite dget_dset, decide_False.
Qed.
Lemma consume_spec l scenario :
  spec (going l) (consume_allocation (G := G) nonce authorization scenario) (λ _ b, going l b ∧ slack b) kept.
Proof.
  pose proof (going_kept l) as Hk. unfold consume_allocation, canary_fail_if.
  eapply spec_bind; [by apply spec_raise_if|intros []]. apply spec_pure. intros _.
  eapply spec_bind; [by apply spec_lift|intros scope]. apply spec_pure. intros Hscope.
  eapply spec_bind; [eapply spec_conseq; [apply (spec_read_if_there (going l) _ bk_budget); done|done|done|done]|intros stored].
  eapply spec_bind; [apply spec_lift; intros b [Hb _]; by apply Hk|intros [scopes entry]]. apply spec_pure. intros Hentry.
  eapply spec_bind; [apply spec_lift; intros b [Hb _]; by apply Hk|intros claims]. apply spec_pure. intros Hclaims.
  eapply spec_bind; [apply spec_raise_if; intros b [Hb _]; by apply Hk|intros []]. apply spec_pure. intros Hroom%Z.leb_gt.
  eapply spec_bind; [apply spec_still; [by quiet|intros b [Hb _]; by apply Hk]|intros id].
  eapply spec_bind; [apply spec_lift; intros b [Hb _]; by apply Hk|intros of_nonce]. apply spec_pure. intros _.
  eapply spec_bind; [apply spec_lift; intros b [Hb _]; by apply Hk|intros digest]. apply spec_pure. intros _.
  eapply spec_bind; [apply (spec_atomic _ (λ b, going l b ∧ slack b)); [|intros b [Hb _]; by apply Hk..]|intros []].
  { intros w [Hg ->]. by apply (claim_going l (books w) scope scopes entry claims). }
  eapply spec_bind; [apply spec_load_empty; intros b [Hb _]; by apply Hk|intros current].
  eapply spec_bind; [apply spec_raise_if; intros b [[Hb _] _]; by apply Hk|intros []]. apply spec_pure. intros _.
  eapply spec_bind; [apply spec_lift; intros b [[Hb _] _]; by apply Hk|intros earlier]. apply spec_pure. intros _.
  eapply spec_bind; [|intros u; apply spec_ret; intros b Hb; exact Hb].
  apply (spec_atomic _ (λ b, going l b ∧ slack b)); [|intros b [[Hb _] _]; by apply Hk|intros b [Hb _]; by apply Hk].
  intros w [[Hg Hs] ->]. split; [|exact Hs]. by apply (going_set l (books w)).
Qed.

(** ** Scenarios *)

Lemma proof_spec l scenario value :
  spec (going l) (proof (G := G) nonce scenario value) (λ _ b, going l b ∧ proven nonce scenario b) kept.
Proof.
  pose proof (going_kept l) as Hk. unfold proof, canary_fail_if.
  eapply spec_bind; [by apply spec_raise_if|intros []]. apply spec_pure. intros _.
  eapply spec_bind; [by apply spec_raise_if|intros []]. apply spec_pure. intros [Hf%negb_false_iff Hs%negb_false_iff]%orb_false_iff.
  eapply spec_bind; [by apply spec_raise_if|intros []]. apply spec_pure. intros Hc%negb_false_iff.
  eapply spec_bind; [by apply spec_raise_if|intros []]. apply spec_pure. intros Hj%negb_false_iff.
  eapply spec_bind; [by apply spec_lift|intros removed]. apply spec_pure. intros Hr.
  eapply spec_bind; [by apply spec_raise_if|intros []]. apply spec_pure. intros Ht%negb_false_iff.
  assert (exact_proof scenario value) as Hp.
  { constructor; [done|by apply py_eq_str|by apply py_eq_str|done|]. by destruct removed as [|[]| | | |]. }
  eapply spec_bind; [apply spec_still; [quiet|exact Hk]|intros stored].
  eapply spec_bind; [by apply spec_raise_if|intros []]. apply spec_pure. intros _.
  apply spec_atomic; [|exact Hk|intros b [Hb _]; by apply Hk]. intros w [Hw Hl]. split; [split|].
  - by apply (under_way_proof nonce (nonce, scenario) value (books w)).
  - eapply Forall_impl; [exact Hl|]. intros v (s & -> & Hv). exists s. split; [done|]. by apply (proven_later nonce s (nonce, scenario) value (books w)).
  - exists value. split; [|done]. cbn. by rewrite lookup_insert, decide_True.
Qed.
Lemma going_more l scenario b : going l b → proven nonce scenario b → going (l ++ [VStr scenario]) b.
Proof. intros [Hw Hl] Hp. split; [done|]. apply Forall_app. split; [done|]. constructor; [by exists scenario|constructor]. Qed.
(** What follows the proof of a scenario. *)
Lemma finish_spec l scenario value :
  spec (going l)
    (proof nonce scenario value;;
     canary_transition (G := G) nonce "ready" [("completed_scenarios", VList (l ++ [VStr scenario])); ("current_scenario", VNone)];;
     mret (l ++ [VStr scenario]))
    (λ l' b, going l' b ∧ l' = l ++ [VStr scenario]) kept.
Proof.
  eapply spec_bind; [apply proof_spec|intros []].
  eapply spec_bind; [eapply spec_conseq; [by apply (going_completed "ready" (l ++ [VStr scenario]) [("current_scenario", VNone)]);
    [..|intros ?%list_elem_of_singleton]|intros b [Hb Hp]; by apply going_more|exact (λ _ _ H, H)|done]|intros u].
  apply spec_ret. by intros b Hb.
Qed.
Lemma run_scenario_spec l scenario : signed nonce config authorization →
  spec (going l) (run_scenario config authorization nonce l scenario) (λ l' b, going l' b ∧ l' = l ++ [VStr scenario]) kept.
Proof.
  intros Hsigned. pose proof (going_kept l) as Hk. unfold run_scenario. cbv zeta.
  eapply spec_bind; [by apply spec_load_empty|intros current]. eapply spec_conseq with (P' := going l) (Q' := λ l' b, going l' b ∧ l' = l ++ [VStr scenario]) (E' := kept);
    [|by intros b [Hb _]|done|done].
  destruct (_ && _).
  - do 3 (eapply spec_bind; [by apply spec_lift|intros ?]; apply spec_pure; intros _).
    eapply spec_bind; [apply (spec_record (going l) (going l)); intros b [Hw Hl]; split; [|exact Hl]; by apply kept_start|intros []].
    eapply spec_bind; [apply spec_still; [quiet|exact Hk]|intros value]. apply finish_spec.
  - eapply spec_bind; [by apply going_transition; [|intros ?%list_elem_of_singleton]|intros u].
    eapply spec_bind; [apply consume_spec|intros claim].
    eapply spec_bind; [apply (spec_record _ (going l))|intros []].
    { intros b [[Hw Hl] Hs]. split; [|exact Hl]. apply kept_start; [done|done| |by intros s c a [= <- <- <-]].
      intros scope Hscope%bool_decide_eq_true. by apply Hs. }
    eapply spec_bind; [apply spec_still; [quiet|exact Hk]|intros [value|id label evidence]]; [apply finish_spec|].
    apply spec_bind with (R := λ _, kept); [|intros u'; by apply spec_raise].
    apply spec_transition; [|exact Hk|done]. intros b d [Hw Hl] Hd. apply under_way_state; [done| |by apply not_closed].
    exists l. split; [|done]. unfold dmerge. cbn [foldl fst snd]. rewrite !dget_dset. repeat (rewrite decide_False by done). by rewrite decide_True.
Qed.
Lemma run_scenarios_spec l scenarios : signed nonce config authorization →
  spec (going l) (run_scenarios config authorization nonce l scenarios)
    (λ l' b, going l' b ∧ ∀ s, s ∈ scenarios → VStr s ∈ l') kept.
Proof.
  intros Hsigned.
  assert (∀ l, spec (going l) (run_scenarios config authorization nonce l scenarios)
    (λ l' b, going l' b ∧ (∀ v, v ∈ l → v ∈ l') ∧ ∀ s, s ∈ scenarios → VStr s ∈ l') kept) as H.
  { clear l. induction scenarios as [|scenario scenarios IH]; intros l; cbn [run_scenarios].
    - apply spec_ret. intros b Hb. split_and!; [done|done|by intros s ?%elem_of_nil].
    - destruct (existsb _ l) eqn:E.
      + eapply spec_conseq; [apply (IH l)|done| |done]. intros l' b (Hg & Hm & Hs). split_and!; [done..|].
        intros s [->|Hin]%elem_of_cons; [|by apply Hs]. apply Hm. apply existsb_exists in E as (v & Hv%list_elem_of_In & He).
        destruct v; try done. cbn in He. by apply bool_decide_eq_true in He as ->.
      + eapply spec_bind; [by apply run_scenario_spec|intros l1]. apply spec_pure. intros ->.
        eapply spec_conseq; [apply (IH (l ++ [VStr scenario]))|done| |done]. intros l' b (Hg & Hm & Hs). split_and!; [done| |].
        * intros v Hv. apply Hm, elem_of_app. by left.
        * intros s [->|Hin]%elem_of_cons; [|by apply Hs]. apply Hm, elem_of_app. right. left. }
  eapply spec_conseq; [apply H|done| |done]. by intros l' b (? & _ & ?).
Qed.
(** All scenarios are proven when the matrix returns. *)
Definition all_proven (b : Books) : Prop := ∀ s, s ∈ SCENARIOS → proven nonce s b.
Lemma run_matrix_spec : signed nonce config authorization →
  spec (under_way nonce) (run_matrix config authorization nonce) (λ _ b, under_way nonce b ∧ all_proven b) kept.
Proof.
  intros Hsigned. unfold run_matrix, canary_fail_if. assert (∀ b, under_way nonce b → kept b) as Hk by by intros b [? _].
  eapply spec_bind; [by apply spec_load_empty|intros current].
  eapply spec_bind; [apply spec_lift; intros b [Hb _]; by apply Hk|intros completed].
  eapply spec_bind; [apply spec_raise_if; intros b [[Hb _] _]; by apply Hk|intros []].
  eapply spec_bind; [eapply spec_conseq; [by apply (run_scenarios_spec completed)| |exact (λ _ _ H, H)|done]|intros l'].
  - intros b [[[Hw ->] Hc] _]. split; [done|]. pose proof Hw as [_ (d & Hd & _)]. destruct (under_way_lists _ _ Hw Hd) as (c & Hcl & Hf).
    assert (default [] (bk_states b !! nonce) = d) as Heq by (unfold dict in *; by rewrite Hd). rewrite Heq in Hc. unfold dget in Hcl.
    destruct (dlookup "completed_scenarios" d) as [v|]; [|done]. cbn in Hcl. subst v. by injection Hc as <-.
  - apply spec_ret. intros b [[Hw Hl] Hs]. split; [done|]. intros s Hin. apply Hs in Hin. eapply Forall_forall in Hl; [|exact Hin].
    by destruct Hl as (s' & [= <-] & Hp).
Qed.
End matrix.

(** ** Before and after the matrix *)

Section runs.
Context {G : Type} {Disk : CanaryDisk G} {D : Digest} {K : KeyLibrary} {Host : CanaryHost G} {Driver : CanaryDriver G} {Clock : PollClock G}.
Context (config authorization : dict).
#[local] Abbreviation World := (CanaryWorld G).

Lemma fresh_calm n b : kept b → bk_states b !! n = None → calm n (bk_trace b).
Proof.
  intros [_ _ Hs _ _] Hn pre e post Heq He. destruct (Hs n e) as [d Hd]; [|done|by rewrite Hn in Hd]. rewrite Heq. apply elem_of_app. right. left.
Qed.
Lemma state_of_awaiting current boot_id : awaits_reboot current boot_id = true → dget "state" current = VStr "running".
Proof. unfold awaits_reboot. rewrite !andb_true_iff. intros [[[H _] _] _]. by apply py_eq_str. Qed.
Lemma open_of_state d : dget "state" d = VStr "running" → ¬ closed_state d.
Proof. unfold closed_state. intros ->. rewrite !elem_of_cons. intros [[=]|[[=]|H]]. by apply elem_of_nil in H. Qed.
Lemma initialize_spec n digest boot_id : spec kept (initialize (G := G) n digest boot_id) (λ _, under_way n) kept.
Proof.
  unfold initialize, canary_fail_if. eapply spec_bind; [by apply spec_raise_if|intros []]. apply spec_pure. intros _.
  eapply spec_bind; [apply spec_load|intros [current|]]; cbv zeta.
  - apply spec_bind with (R := λ c b, (kept b ∧ Some current = bk_states b !! n) ∧
      (c = false → py_in_set (dget "state" current) (text_set CLOSED_STATES) = Ok false)).
    { destruct (_ || _); [by apply spec_ret|]. eapply spec_conseq; [apply (spec_lift (λ b, kept b ∧ Some current = bk_states b !! n) kept); by intros b [Hb _]|done| |done].
      intros [] b [Hb Hc]; by split. }
    intros c. eapply spec_bind; [apply spec_raise_if; by intros b [[Hb _] _]|intros []].
    eapply spec_conseq with (P' := λ b, under_way n b ∧ bk_states b !! n = Some current) (E' := kept); [| |exact (λ _ _ H, H)|done].
    + destruct (awaits_reboot current boot_id && is_boot_identity boot_id) eqn:Ea; [|by apply spec_ret; intros b [Hb _]].
      eapply spec_bind; [|intros u; apply spec_ret; intros b Hb; exact Hb]. apply andb_true_iff in Ea as [Ha%state_of_awaiting _].
      apply spec_atomic; [|by intros b [[Hb _] _]|by intros b [Hb _]]. intros w [Hw Hd].
      apply (under_way_state n _ (books w)); [done|..].
      * pose proof (kp_done _ (proj1 Hw) n current Hd) as (l & Hl & Hf). exists l. split; [|done]. by rewrite !dget_dset, !decide_False.
      * apply open_of_state. by rewrite !dget_dset, !decide_False.
    + intros b [[[Hb Hs] Hc] ->]. specialize (Hc eq_refl). split; [|done]. split; [done|]. exists current. split; [done|].
      intros Hcl. unfold closed_state in Hcl. rewrite !elem_of_cons in Hcl. destruct Hcl as [He|[He|He]]; [..|by apply elem_of_nil in He]; by rewrite He in Hc.
  - eapply spec_bind; [|intros u; apply spec_ret; intros b Hb; exact Hb].
    apply spec_atomic; [|by intros b [Hb _]|by intros b [Hb _]]. intros w [Hw Hn]. split.
    + apply (kept_set_state n _ (books w)); [done|by exists []|]. intros _. by apply fresh_calm.
    + eexists. cbn. rewrite lookup_insert, decide_True by done. split; [done|]. unfold closed_state. cbn. rewrite !elem_of_cons. intros [[=]|[[=]|H]]. by apply elem_of_nil in H.
Qed.
Lemma ask_host_ok {A} (f : G → A * G) w a w' : ask_host f w = (Ok a, w') → (f (cw_outside w)).1 = a.
Proof. unfold ask_host. destruct (f (cw_outside w)). by intros [= -> _]. Qed.
Lemma verify_signed w decision digest w' : verify_authorization config authorization w = (Ok (decision, digest), w') →
  ∀ n, ca_nonce decision = Some n → signed n config authorization.
Proof.
  unfold verify_authorization, canary_fail_if. intros (? & w1 & _ & (? & w2 & _ & (path & w3 & _ & (k & w4 & _ & H)%bind_ok)%bind_ok)%bind_ok)%bind_ok.
  apply bind_ok in H as (? & w5 & [Hk _]%raise_if_ok & (now & w6 & Hnow%ask_host_ok & (pinned & w7 & [Hp _]%lift_ok & H)%bind_ok)%bind_ok).
  apply bind_ok in H as (decision' & w8 & [Hv _]%lift_ok & (? & w9 & [Ha%negb_false_iff _]%raise_if_ok & H)%bind_ok).
  apply bind_ok in H as (digest' & w10 & _ & H). intros n Hn. assert (decision' = decision) as ->.
  { do 10 (apply bind_ok in H as (? & ? & _ & H)). revert H. generalize w10. intros. by monad_inv. }
  exists k, pinned, now, (cw_outside w5), decision.
  destruct (authorization_verified _ _ _ _ _ Hv Ha) as (d & [= <-] & (a & _ & _ & Hfp & _) & _).
  split_and!; try done; [by destruct (public_kind k)|].
  destruct (dget "reviewer_fingerprint" config); try done. by injection Hp as ->.
Qed.
Lemma spec_outcome {A} (P E : Books → Prop) (m : M World A) : moves same_books m → (∀ b, P b → E b) →
  spec P m (λ a b, P b ∧ ∃ w w', m w = (Ok a, w')) E.
Proof.
  intros Hm HE w Hw. specialize (Hm w). unfold same_books in Hm. destruct (m w) as [[a|e] w'] eqn:Em; cbn in Hm; rewrite Hm; [|by apply HE].
  split; [done|]. by exists w, w'.
Qed.
Lemma state_store_ok n w s w' : state_store (G := G) n w = (Ok s, w') → n = VStr s.
Proof. unfold state_store, canary_fail_if, canary_fail. destruct n; intros H; monad_inv; by subst. Qed.
Lemma preflight_spec : spec kept (preflight config authorization) (λ r b, under_way r.2 b ∧ signed r.2 config authorization) kept.
Proof.
  unfold preflight, canary_acquire, canary_fail_if.
  eapply spec_bind; [apply spec_still; [quiet|done]|intros root].
  eapply spec_bind; [apply spec_still; [quiet|done]|intros []].
  eapply spec_bind; [apply spec_still; [quiet|done]|intros []].
  eapply spec_bind; [apply spec_still; [quiet|done]|intros []].
  eapply spec_bind; [apply spec_still; [quiet|done]|intros sentinel].
  eapply spec_bind; [apply spec_still; [quiet|done]|intros []].
  eapply spec_bind; [apply spec_still; [quiet|done]|intros active].
  eapply spec_bind; [apply spec_still; [quiet|done]|intros []].
  eapply spec_bind; [apply (spec_outcome kept kept); [quiet|done]|intros [decision digest]]. apply spec_pure. intros (w1 & w2 & Hv).
  pose proof (verify_signed _ _ _ _ Hv) as Hsigned.
  eapply spec_bind; [apply spec_still; [quiet|done]|intros []].
  eapply spec_bind; [apply spec_still; [quiet|done]|intros []].
  eapply spec_bind; [apply spec_still; [quiet|done]|intros boot_id].
  eapply spec_bind; [apply (spec_outcome kept kept); [unfold state_store, canary_fail_if, canary_fail; quiet|done]|intros n]. apply spec_pure.
  intros (w3 & w4 & Hn%state_store_ok). destruct (ca_nonce decision) as [n'|] eqn:En; [|done]. injection Hn as ->. specialize (Hsigned n eq_refl).
  eapply spec_bind; [apply spec_still; [unfold load; quiet|done]|intros current].
  eapply spec_bind; [apply spec_still; [quiet|done]|intros output].
  eapply spec_bind; [apply spec_still; [quiet|done]|intros instances].
  eapply spec_bind; [apply spec_still; [quiet|done]|intros u].
  eapply spec_bind; [apply initialize_spec|intros state]. by apply spec_ret.
Qed.

Section store.
Context (n : string).
Lemma under_way_transition state updates : open_name state = true → "completed_scenarios" ∉ updates.*1 →
  spec (under_way n) (canary_transition (G := G) n state updates) (λ _, under_way n) kept.
Proof.
  intros Hs Hu. eapply spec_conseq; [by apply (going_transition n state updates [])|by intros b Hb; split|by intros a b [Hb _]|done].
Qed.
Lemma still_going {A} (m : M World A) : moves same_books m → spec (under_way n) m (λ _, under_way n) kept.
Proof. intros Hm. apply spec_still; [done|]. by intros b [Hb _]. Qed.
Lemma prepare_spec digest : spec (under_way n) (prepare_lane n digest) (λ _, under_way n) kept.
Proof.
  unfold prepare_lane, canary_fail_if. pose proof (λ (f : string → M World string) l, quiet_each f l) as Heach.
  eapply spec_bind; [apply still_going; unfold load_or_empty, load; quiet|intros initial]. cbv zeta.
  eapply spec_bind; [apply still_going; quiet|intros started].
  eapply spec_bind; [apply still_going; quiet|intros []].
  eapply spec_bind; [apply still_going; quiet|intros made].
  eapply spec_bind; [apply still_going; quiet|intros []].
  eapply spec_bind; [by apply under_way_transition; [|intros ?%elem_of_nil]|intros d].
  eapply spec_bind; [apply still_going; destruct (is_none _); [quiet|]|intros u].
  { apply moves_bind; [exact _|apply quiet_each; intros; apply quiet_systemctl|intros []]. unfold _wait_for_garm_listener, now_outside. quiet. }
  eapply spec_bind; [apply still_going; quiet|intros output].
  eapply spec_bind; [apply still_going; quiet|intros inventory].
  eapply spec_bind; [apply still_going; quiet|intros []].
  eapply spec_bind; [apply still_going; destruct (is_none _); quiet|intros u'].
  eapply spec_bind; [by apply under_way_transition; [|intros ?%elem_of_nil]|intros d']. by apply spec_ret.
Qed.

(** Closed: the runtime was proved empty since anything was started. *)
Record closed_as (name : string) (b : Books) : Prop := {
  cl_kept : kept b;
  cl_calm : calm n (bk_trace b);
  cl_state : ∃ d, bk_states b !! n = Some d ∧ dget "state" d = VStr name ∧ dget "runtime_empty" d = VBool true;
}.
Lemma prove_empty_spec (P Q : Books → Prop) msg : (∀ b, P b → kept b) → (∀ b, P b → Q (add_event (Emptied n) b)) →
  spec P (prove_empty n msg) (λ _ b, Q b ∧ kept b ∧ calm n (bk_trace b)) kept.
Proof.
  intros Hk Hp. unfold prove_empty, canary_fail_if.
  eapply spec_bind; [apply spec_still; [quiet|exact Hk]|intros empty].
  eapply spec_bind; [apply spec_still; [quiet|exact Hk]|intros []].
  apply spec_record. intros b Hb. split_and!; [by apply Hp|by apply kept_emptied, Hk|apply calm_emptied].
Qed.
Lemma closing_transition (P : Books → Prop) name updates :
  (∀ b d, P b → P (set_state n d b)) → "completed_scenarios" ∉ updates.*1 → (∀ d, dget "runtime_empty" (dmerge d updates) = VBool true) →
  spec (λ b, P b ∧ kept b ∧ calm n (bk_trace b)) (canary_transition (G := G) n name updates) (λ _ b, P b ∧ closed_as name b) kept.
Proof.
  intros Hp Hm Hr. apply spec_transition; [|by intros b (_ & Hb & _)|by intros b (_ & [Hb _ _])]. intros b d (HP & Hb & Hc) Hd.
  split; [by apply Hp|]. constructor.
  - apply kept_set_state; [done| |done]. destruct (kp_done _ Hb n d Hd) as (l & Hl & Hf). exists l. split; [|done].
    rewrite dget_dset, decide_False by done. unfold dget in *. by rewrite dlookup_dmerge_fresh.
  - exact Hc.
  - eexists. cbn. rewrite lookup_insert, decide_True by done. split; [done|]. rewrite !dget_dset, decide_True, decide_False by done. by split.
Qed.
Lemma dget_last_two k v d a b : k ≠ b.1 → dget k (dmerge d [a; (k, v); b]) = v.
Proof. intros Hb. destruct b as [kb vb]. unfold dmerge. cbn [foldl fst snd]. by rewrite !dget_dset, decide_False, decide_True. Qed.
Lemma dget_last_two' k v d b : k ≠ b.1 → dget k (dmerge d [(k, v); b]) = v.
Proof. intros Hb. destruct b as [kb vb]. unfold dmerge. cbn [foldl fst snd]. by rewrite !dget_dset, decide_False, decide_True. Qed.
Lemma not_completed l : forallb (λ k, negb (String.eqb k "completed_scenarios")) l = true → "completed_scenarios" ∉ l.
Proof. intros H Hin. eapply forallb_forall in H; [|by apply list_elem_of_In]. done. Qed.
Lemma teardown_spec : spec (λ b, under_way n b ∧ all_proven n b) (teardown n) (λ _ b, all_proven n b ∧ closed_as "terminal" b) kept.
Proof.
  set (P := λ b, under_way n b ∧ all_proven n b). assert (∀ b, P b → kept b) as Hk by by intros b [[Hb _] _]. unfold teardown.
  set (P' := λ b, kept b ∧ all_proven n b).
  eapply spec_bind; [apply (spec_transition n P P'); [|exact Hk|by intros b [Hb _]]|intros d]; cbn beta.
  { intros b d [Hw Hall] Hd. split; [|exact Hall]. apply kept_set_state; [by destruct Hw| |intros []%not_closed; done].
    destruct (under_way_lists n b d Hw Hd) as (l & Hl & Hf). exists l. split; [|done]. by rewrite dget_dset, decide_False. }
  eapply spec_bind; [apply (spec_still P' _ kept); [quiet|by intros b [Hb _]]|intros recovery].
  eapply spec_bind; [apply (prove_empty_spec P' (all_proven n)); [by intros b [Hb _]|by intros b [_ Hb]]|intros []].
  assert (∀ b, all_proven n b ∧ kept b ∧ calm n (bk_trace b) → kept b) as Hk' by by intros b (_ & Hb & _).
  eapply spec_bind; [apply spec_still; [quiet|exact Hk']|intros []].
  eapply spec_bind; [apply spec_still; [quiet|exact Hk']|intros started].
  eapply spec_bind; [apply spec_still; [quiet|exact Hk']|intros []].
  eapply spec_bind; [apply spec_still; [quiet|exact Hk']|intros []].
  eapply spec_bind; [|intros d'; apply spec_ret; intros b Hb; exact Hb].
  apply (closing_transition (all_proven n)); [done|by apply not_completed|]. intros d'. by apply dget_last_two.
Qed.
Lemma recover_spec : spec kept (recover_before_quarantine n) (λ _, kept) kept.
Proof.
  unfold recover_before_quarantine.
  eapply spec_bind; [apply spec_still; [unfold command; quiet|done]|intros stopped].
  eapply spec_bind; [apply spec_still; [apply quiet_each; intros; apply quiet_systemctl|done]|intros []].
  eapply spec_bind; [apply spec_still; [quiet|done]|intros recovered].
  eapply spec_bind; [by apply (prove_empty_spec kept (λ _, True))|intros []].
  eapply spec_bind; [apply spec_still; [quiet|by intros b (_ & Hb & _)]|intros []].
  eapply spec_bind; [apply (closing_transition (λ _, True)); [done|by apply not_completed|]|intros d; apply spec_ret; by intros b [_ [Hb _ _]]].
  intros d. by apply dget_last_two'.
Qed.
Lemma matrix_spec : signed n config authorization →
  spec (under_way n) (matrix config authorization n) (λ r b, r = receipt n ∧ all_proven n b ∧ closed_as "terminal" b) kept.
Proof.
  intros Hsigned. unfold matrix, canary_fail.
  eapply spec_bind; [apply still_going; unfold load_or_empty, load; quiet|intros state].
  destruct (dget "authorization_digest" state); try (by apply spec_raise; intros ? [? _]).
  eapply spec_bind; [apply prepare_spec|intros []].
  eapply spec_bind; [by apply run_matrix_spec|intros []].
  eapply spec_bind; [apply teardown_spec|intros []]. by apply spec_ret.
Qed.
End store.

Lemma fail_spec store e : spec kept (fail_with store e) (λ _ _, False) kept.
Proof.
  unfold fail_with. apply spec_bind with (R := λ _, kept); [|by intros u w Hw].
  destruct (bool_decide _); [by apply spec_still; [quiet|]|]. destruct store as [n|].
  - intros w Hw. pose proof (recover_spec n w Hw) as H. unfold catching. destruct (recover_before_quarantine n w) as [[[]|e'] w']; [done|].
    by destruct (_ && _).
  - unfold quarantine_after_failure. eapply spec_bind; [by apply spec_still; [quiet|]|intros []]. by apply spec_ret.
Qed.
Lemma execute_spec : spec kept (execute config authorization)
  (λ r b, ∃ n, r = receipt n ∧ signed n config authorization ∧ all_proven n b ∧ closed_as n "terminal" b) kept.
Proof.
  unfold execute. intros w Hw. pose proof (preflight_spec w Hw) as Hp. unfold attempt, mbind, M_bind.
  destruct (preflight config authorization w) as [[[decision n]|e] w1]; cbn in Hp.
  - destruct Hp as [Hu Hs]. pose proof (matrix_spec n Hs w1 Hu) as Hm. unfold catching. destruct (matrix config authorization n w1) as [[r|e] w2].
    + exists n. tauto.
    + destruct (_ && _); [|done]. pose proof (fail_spec (Some n) e w2 Hm) as Hf. by destruct (fail_with (Some n) e w2) as [[r|e'] w3].
  - destruct (_ && _); [|done]. pose proof (fail_spec None e w1 Hp) as Hf. by destruct (fail_with None e w1) as [[r|e'] w3].
Qed.
End runs.

(** ** Reachable worlds and the theorems *)

Section theorems.
Context {G : Type} {Disk : CanaryDisk G} {D : Digest} {K : KeyLibrary} {Host : CanaryHost G} {Driver : CanaryDriver G} {Clock : PollClock G}.
#[local] Abbreviation World := (CanaryWorld G).

Definition fresh_world (g : G) : World :=
  {| cw_states := ∅; cw_budget := None; cw_proofs := ∅; cw_sentinel := None; cw_secrets := false; cw_trace := []; cw_outside := g |}.
Definition on_host (g : G) (w : World) : World :=
  {| cw_states := cw_states w; cw_budget := cw_budget w; cw_proofs := cw_proofs w; cw_sentinel := cw_sentinel w;
     cw_secrets := cw_secrets w; cw_trace := cw_trace w; cw_outside := g |}.
(** Runs of any configurations and authorizations, whatever happens on the host
    between them, and boots, which empty /run. A run may end anywhere: what it asks
    of the host may raise, [KeyboardInterrupt] included, which no clause catches. *)
Inductive canary_reaches : World → Prop :=
  | Reach_fresh g : canary_reaches (fresh_world g)
  | Reach_execute config authorization w : canary_reaches w → canary_reaches (execute config authorization w).2
  | Reach_host g w : canary_reaches w → canary_reaches (on_host g w)
  | Reach_boot w : canary_reaches w → canary_reaches (with_secrets false (with_sentinel None w)).

Lemma kept_fresh g : kept (books (fresh_world g)).
Proof.
  constructor; cbn.
  - intros scope. split; by vm_compute.
  - by intros n s c a ?%elem_of_nil.
  - by intros n e ?%elem_of_nil.
  - intros n d H. by rewrite lookup_empty in H.
  - intros n d H. by rewrite lookup_empty in H.
Qed.
Lemma kept_reached w : canary_reaches w → kept (books w).
Proof.
  induction 1 as [g|config authorization w _ IH|g w _ IH|w _ IH]; [apply kept_fresh| |exact IH|exact IH].
  pose proof (execute_spec config authorization w IH) as H. destruct (execute config authorization w) as [[r|e] w']; [|done].
  by destruct H as (n & _ & _ & _ & [Hk _ _]).
Qed.

(** *** The lane *)

Definition lane (w : World) : option dict * bool := (cw_sentinel w, cw_secrets w).
Definition same_lane : relation World := λ w w', lane w' = lane w.
#[local] Instance same_lane_preorder : PreOrder same_lane.
Proof. split; [by intros w|]. intros w1 w2 w3 H1 H2. unfold same_lane in *. by rewrite H2, H1. Qed.
Lemma lane_outside {A} (f : G → A * G) : moves same_lane (ask_host f).
Proof. intros w. unfold ask_host. by destruct (f (cw_outside w)). Qed.
Lemma lane_transition n state updates : moves same_lane (canary_transition n state updates).
Proof.
  unfold canary_transition, load_or_empty, load, read_if_there, read_back, ask_host_or, save_state, _atomic_json, canary_fail_if.
  assert (∀ f : gmap string dict → gmap string dict, moves same_lane (modify (with_states f))) by by intros f w.
  pose proof (@lane_outside). quiet.
Qed.
Lemma teardown_lane n w w' : teardown n w = (Ok tt, w') → cw_sentinel w' = None ∧ cw_secrets w' = false.
Proof.
  unfold teardown. intros (d & w1 & _ & (r & w2 & _ & (u3 & w3 & _ & (u4 & w4 & _ & (s & w5 & _ & (u6 & w6 & Hsent & (u7 & w7 & Hsec & H)
    %bind_ok)%bind_ok)%bind_ok)%bind_ok)%bind_ok)%bind_ok)%bind_ok.
  apply modify_ok in Hsent as ->. apply bind_ok in H as (d' & w8 & Ht & [_ <-]%ret_ok).
  pose proof (lane_transition n "terminal" [("current_scenario", VNone); ("runtime_empty", VBool true); ("recovered_allocations", texts_value r)] w7) as Hl.
  unfold same_lane in Hl. rewrite Ht in Hl. cbn in Hl. injection Hl as Hs1 Hs2. rewrite Hs1, Hs2.
  unfold remove_secrets, gets, mbind, M_bind in Hsec. cbn in Hsec. destruct (cw_secrets w5) eqn:Es; [|injection Hsec as <- <-; by cbn].
  unfold ask_host_or, ask_host, lift, mbind, M_bind in Hsec. cbn in Hsec. destruct (remove_tree (cw_outside w5)) as [[[]|e] g]; cbn in Hsec; [|done].
  by injection Hsec as <- <-.
Qed.
Lemma execute_lane config authorization w r w' : execute config authorization w = (Ok r, w') → cw_sentinel w' = None ∧ cw_secrets w' = false.
Proof.
  assert (∀ s e w, (fail_with s e w).1 ≠ Ok r) as Hno.
  { intros s e w0 H. destruct (fail_with s e w0) as [x w1] eqn:Ef. cbn in H. subst x. unfold fail_with in Ef. apply bind_ok in Ef as (u & w2 & _ & Ef).
    unfold reraise in Ef. done. }
  unfold execute, attempt, mbind, M_bind. destruct (preflight config authorization w) as [[[decision n]|e] w1].
  - unfold catching. destruct (matrix config authorization n w1) as [[r'|e] w2] eqn:Em.
    + intros [= -> ->]. unfold matrix, canary_fail in Em. apply bind_ok in Em as (state & w3 & _ & Em).
      destruct (dget "authorization_digest" state); try by apply raise_ok in Em.
      apply bind_ok in Em as (u1 & w4 & _ & (u2 & w5 & _ & ([] & w6 & Ht & [_ <-]%ret_ok)%bind_ok)%bind_ok). by eapply teardown_lane.
    + destruct (_ && _); [|done]. intros H. destruct (Hno (Some n) e w2). by rewrite H.
  - destruct (_ && _); [|done]. intros H. destruct (Hno None e w1). by rewrite H.
Qed.

(** *** The fence *)

Lemma each_ok {A B} (f : A → M World B) l w w' : each f l w = (Ok tt, w') → ∀ a, a ∈ l → ∃ w1 b w2, f a w1 = (Ok b, w2).
Proof.
  revert w. induction l as [|x l IH]; intros w; cbn; [by intros _ a ?%elem_of_nil|].
  intros (b & w1 & Hb & H)%bind_ok a [->|Ha]%elem_of_cons; [by exists w, b, w1|by eapply IH].
Qed.
Lemma text_in v l : py_in_set v (text_set l) = Ok true → ∃ s, v = VStr s ∧ s ∈ l.
Proof.
  unfold py_in_set. intros (? & _ & [= H])%result_bind_ok. apply existsb_exists in H as (u & Hu%list_elem_of_In & He).
  apply list_elem_of_fmap in Hu as (s & -> & Hs). exists s. by apply py_eq_str in He as ->.
Qed.
Lemma state_closed_ok d w u w' : state_closed d w = (Ok u, w') → closed_state d ∧ dget "runtime_empty" d = VBool true.
Proof.
  unfold state_closed, read_back, canary_fail_if. intros (d' & w1 & (o & w2 & _ & [<- <-]%ret_ok)%bind_ok & (c & w3 & [Hc _]%lift_ok & H)%bind_ok)%bind_ok.
  apply raise_if_ok in H as [[Hcl%negb_false_iff He%negb_false_iff]%orb_false_iff _]. subst c. apply text_in in Hc as (s & Hs & Hin). split.
  - unfold closed_state. rewrite Hs. by apply (list_elem_of_fmap_2 VStr) in Hin.
  - unfold is_true in He. by destruct (dget "runtime_empty" d) as [|[]| | | |].
Qed.

(** C15: of one scope of authorizations, which is all of it but nonce, times and
    signature, no more than six scenarios are ever started, however many runs there
    are and wherever they fail or die; and each is started under an authorization
    that verified for its nonce, under an Ed25519 key with the fingerprint that the
    configuration of the run pins. *)
Theorem canary_budget w : canary_reaches w →
  (∀ scope, runs_of scope (cw_trace w) ≤ 6) ∧
  ∀ nonce scenario config authorization, Ran nonce scenario config authorization ∈ cw_trace w → signed nonce config authorization.
Proof.
  intros Hw%kept_reached. split; [|apply (kp_signed _ Hw)]. intros scope. pose proof (kp_budget _ Hw scope) as Hb.
  change (bk_trace (books w)) with (cw_trace w) in Hb. unfold BUDGET in Hb. lia.
Qed.

(** C17: a run that returns leaves every scenario proven on disk, each proof exact:
    its own scenario, one job, the allocation removed; the matrix of the nonce it
    was authorized for is terminal, with the runtime proved empty since the last
    scenario, and the sentinel and the secrets are gone. *)
Theorem canary_completes config authorization w r w' :
  canary_reaches w → execute config authorization w = (Ok r, w') → ∃ nonce, r = receipt nonce ∧ signed nonce config authorization ∧
    (∀ scenario, scenario ∈ SCENARIOS → ∃ p, cw_proofs w' !! (nonce, scenario) = Some p ∧ exact_proof scenario p) ∧
    (∃ d, cw_states w' !! nonce = Some d ∧ dget "state" d = VStr "terminal" ∧ dget "runtime_empty" d = VBool true) ∧
    calm nonce (cw_trace w') ∧ cw_sentinel w' = None ∧ cw_secrets w' = false.
Proof.
  intros Hw%kept_reached He. pose proof (execute_spec config authorization w Hw) as H. rewrite He in H.
  destruct H as (n & Hr & Hs & Hall & [_ Hc Hst]). exists n. split_and!; try done; by apply execute_lane in He as [??].
Qed.

(** Asked in turn from one world on, the host said of every unit that it is not
    active. *)
Fixpoint found_stopped (units : list string) (g g' : G) : Prop :=
  match units with
  | [] => g' = g
  | unit :: units => ∃ returncode stdout g1,
      run_command ["systemctl"; "is-active"; unit] 10 g = (Ok (returncode, stdout), g1) ∧ returncode ≠ 0 ∧ found_stopped units g1 g'
  end.
Lemma units_stopped_ok units w w' : units_stopped units w = (Ok tt, w') → found_stopped units (cw_outside w) (cw_outside w').
Proof.
  revert w. induction units as [|unit units IH]; intros w; cbn [units_stopped found_stopped]; [by intros [_ <-]%ret_ok|].
  intros ([code out] & w1 & H & (? & w2 & [Hc ->]%raise_if_ok & Hu)%bind_ok)%bind_ok. unfold command, ask_host_or in H.
  apply bind_ok in H as (r & w2 & H & [-> <-]%lift_ok). unfold ask_host in H.
  destruct (run_command _ 10 (cw_outside w)) as [a g1] eqn:E. injection H as -> <-. exists code, out, g1. split_and!; [done|by apply Z.eqb_neq|].
  by apply IH in Hu.
Qed.

(** C16: where the fence lets production start, no canary approval is left, the host
    has said of every canary unit that it is not active, and whatever canary was
    ever started or resumed belongs to a matrix that is closed, with the runtime
    proved empty after it. *)
Theorem production_fenced w w' :
  canary_reaches w → assert_production_fence w = (Ok tt, w') →
  cw_sentinel w = None ∧ (∃ g, found_stopped CANARY_UNITS (cw_outside w) g) ∧
  ∀ nonce e, e ∈ cw_trace w → starts nonce e → calm nonce (cw_trace w) ∧
    ∃ d, cw_states w !! nonce = Some d ∧ closed_state d ∧ dget "runtime_empty" d = VBool true.
Proof.
  intros Hw%kept_reached. unfold assert_production_fence, canary_fail_if.
  intros (s & w1 & [-> ->]%gets_ok & ([] & w2 & [Hs ->]%raise_if_ok & ([] & w3 & Hu & (l & w4 & [-> ->]%gets_ok & He)%bind_ok)%bind_ok)%bind_ok)%bind_ok.
  apply bool_decide_eq_false in Hs. split; [by destruct (cw_sentinel w); [destruct Hs|]|].
  split; [exists (cw_outside w3); by apply units_stopped_ok|].
  pose proof (quiet_units_stopped CANARY_UNITS w) as Hq. unfold same_books in Hq. rewrite Hu in Hq. cbn in Hq. injection Hq as Hst _ _ _.
  intros n e Hin Hstart. destruct (kp_seen _ Hw n e Hin Hstart) as [d Hd]. change (cw_states w !! n = Some d) in Hd.
  assert (d ∈ (map_to_list (cw_states w3)).*2) as Hl.
  { rewrite Hst. apply list_elem_of_fmap. exists (n, d). split; [done|]. by apply elem_of_map_to_list. }
  destruct (each_ok _ _ _ _ He d Hl) as (w5 & u & w6 & [Hc Hr]%state_closed_ok). split; [by apply (kp_closed _ Hw n d)|by exists d].
Qed.
End theorems.

(** ** A host where all goes well, or where recovery is down *)

#[local] Existing Instance ToyDigest.
#[local] Existing Instance ToyKeys.
Definition toy_digest_text : string := "0123456789abcdef0123456789abcdef0123456789abcdef0123456789abcdef".
Definition toy_entity : dict :=
  match dget "garm_entity" toy_signed_canary with VDict e => dset "entity_flag" (VStr "--org") e | _ => [] end.
Definition toy_broker : dict :=
  [("allocation_signer_fingerprint", VStr toy_digest_text); ("garm_cli_home", VStr "/var/lib/garm"); ("provider_name", VStr "incus");
   ("image_alias", VStr "overworld"); ("image_fingerprint", VStr toy_digest_text); ("live_job_verifier", VStr "/usr/local/bin/verify");
   ("targets", VDict [("5", VDict toy_entity)])].
Definition toy_canary_config : dict :=
  [("schema_version", VInt 1); ("reviewer_public_key_file", VStr "reviewer.pem"); ("reviewer_fingerprint", VStr toy_canary_pin);
   ("digested_files", VDict ((λ f, (f.1, VStr (f.1 +:+ ".json"))) <$> DIGESTED_FILES)); ("garm_health_file", VStr "health.json");
   ("broker_config_file", VStr "broker.json"); ("allocation_signer_private_key_file", VStr "signer.pem"); ("broker_executable", VStr BROKER);
   ("request_timeout_seconds", VInt 60)].
Definition toy_command (argv : list string) : Z * string :=
  if bool_decide (argv !! 1%nat = Some "is-active") then (3, "inactive")
  else if bool_decide (argv !! 1%nat = Some "recover") then (0, json_dumps (VDict [("recovered", VList []); ("runtime_empty", VBool true)]))
  else if bool_decide (head argv = Some "incus") then (0, "[]")
  else if bool_decide (head argv = Some "systemctl") then (0, "")
  else (0, json_dumps (VDict [("status", VStr "verified"); ("receipt_digest", VStr toy_digest_text); ("installed_targets_digest", VStr toy_digest_text)])).
#[local] Instance ToyDisk : CanaryDisk bool :=
  {| disk_write g := (Written, g); disk_read g := (Ok tt, g); new_uuid g := ("01234567-89ab-4def-8123-456789abcdef", g) |}.
#[local] Instance ToyCanaryHost : CanaryHost bool := {|
  run_command argv _ g := (Ok (toy_command argv), g);
  is_root g := (true, g);
  lock_host g := (Ok true, g);
  path_exists _ g := (false, g);
  canary_now g := (toy_canary_clock, g);
  read_ascii path g :=
    (Ok (if bool_decide (path = "/proc/1/stat") then "1 (init) S 0 1 1 0 -1 4194560 0 0 0 0 0 0 0 0 20 0 1 0 4711 0 0"
         else "01234567-89ab-4def-8123-456789abcdef"), g);
  file_digest _ g := (Ok toy_digest_text, g);
  file_object path g := (Ok (if bool_decide (path = "broker.json") then toy_broker else expected_health toy_signed_canary toy_broker toy_entity), g);
  file_public_key _ g := (Ok (public_of toy_canary_key), g);
  connect _ g := (Ok tt, g);
  make_secrets g := (Ok tt, g);
  remove_tree g := (Ok tt, g);
|}.
Definition toy_canary_proof (scenario : string) : dict :=
  dset "cleanup_record" (VDict [("allocation_removed", VBool true)])
    (dset "jobs_started" (VInt 1) (dset "conclusion" (VStr scenario) (dset "scenario" (VStr scenario) ((λ f, (f, VStr "")) <$> PROOF_FIELDS)))).
(** While it is down, the driver raises on every call. *)
#[local] Instance ToyCanaryDriver : CanaryDriver bool := {|
  drv_run scenario (down : bool) := (if down then throw RuntimeError "down" else Ok (Proved (toy_canary_proof scenario)), down);
  drv_recover_all (down : bool) := (if down then throw RuntimeError "down" else Ok [], down);
  drv_prove_runtime_empty down := (Ok EMPTY_RUNTIME, down);
  drv_resume_reboot _ _ _ down := (throw RuntimeError "down", down);
|}.
#[local] Instance ToyClock : PollClock bool := {| monotonic _ := 0; sleeper _ := mret tt |}.

Definition toy_nonce : string := "0123456789abcdef0123456789abcdef".
Definition toy_canary_run (down : bool) : result dict * CanaryWorld bool := execute toy_canary_config toy_signed_canary (fresh_world down).
Definition toy_done : CanaryWorld bool := Eval vm_compute in (toy_canary_run false).2.
Definition toy_left : CanaryWorld bool := Eval vm_compute in (toy_canary_run true).2.
Lemma toy_ran : execute toy_canary_config toy_signed_canary (fresh_world false) = (Ok (receipt toy_nonce), toy_done).
Proof. vm_cast_no_check (eq_refl (Ok (receipt toy_nonce), toy_done)). Qed.
Lemma toy_passes : assert_production_fence toy_done = (Ok tt, toy_done).
Proof. vm_cast_no_check (eq_refl (Ok tt, toy_done)). Qed.
Lemma toy_reached : canary_reaches toy_done.
Proof.
  replace toy_done with (execute toy_canary_config toy_signed_canary (fresh_world false)).2 by (by rewrite toy_ran).
  apply Reach_execute, Reach_fresh.
Qed.
Lemma toy_cancelled : Ran toy_nonce "cancel" toy_canary_config toy_signed_canary ∈ cw_trace toy_done.
Proof.
  assert (cw_trace toy_done = ((λ s, Ran toy_nonce s toy_canary_config toy_signed_canary) <$> SCENARIOS) ++ [Emptied toy_nonce]) as -> by (vm_compute; reflexivity).
  do 2 right. left.
Qed.

Lemma canary_budget_witness :
  (∀ scope, runs_of scope (cw_trace toy_done) ≤ 6) ∧
  Ran toy_nonce "cancel" toy_canary_config toy_signed_canary ∈ cw_trace toy_done ∧ signed toy_nonce toy_canary_config toy_signed_canary.
Proof.
  destruct (canary_budget toy_done toy_reached) as [Hb Hs].
  split; [exact Hb|]. split; [exact toy_cancelled|]. exact (Hs _ _ _ _ toy_cancelled).
Defined.
Lemma canary_completes_witness :
  ∃ nonce, receipt toy_nonce = receipt nonce ∧ signed nonce toy_canary_config toy_signed_canary ∧
    (∀ scenario, scenario ∈ SCENARIOS → ∃ p, cw_proofs toy_done !! (nonce, scenario) = Some p ∧ exact_proof scenario p) ∧
    calm nonce (cw_trace toy_done) ∧ cw_sentinel toy_done = None.
Proof.
  destruct (canary_completes toy_canary_config toy_signed_canary (fresh_world false) (receipt toy_nonce) toy_done (Reach_fresh false) toy_ran)
    as (n & Hn & Hs & Hp & _ & Hc & Hl & _).
  exists n. split_and!; [exact Hn|exact Hs|exact Hp|exact Hc|exact Hl].
Defined.
Lemma production_fenced_witness :
  cw_sentinel toy_done = None ∧ calm toy_nonce (cw_trace toy_done) ∧
  ∃ d, cw_states toy_done !! toy_nonce = Some d ∧ closed_state d ∧ dget "runtime_empty" d = VBool true.
Proof.
  destruct (production_fenced toy_done toy_done toy_reached toy_passes) as (Hs & _ & H).
  split; [exact Hs|]. exact (H toy_nonce (Ran toy_nonce "cancel" toy_canary_config toy_signed_canary) toy_cancelled eq_refl).
Defined.

(** When recovery fails as well, [execute] ends with the approval in place and the
    state still running; the fence refuses what is left. *)
Lemma failed_recovery_stays_open :
  toy_canary_run true = (Raise {| exn_cls := RuntimeError; exn_msg := "down" |}, toy_left) ∧ is_Some (cw_sentinel toy_left) ∧
  cw_secrets toy_left = true ∧ (dget "state" <$> cw_states toy_left !! toy_nonce) = Some (VStr "running") ∧
  (assert_production_fence toy_left).1 = Raise {| exn_cls := CanaryRuntimeError; exn_msg := "canary approval sentinel is present" |}.
Proof.
  split; [vm_cast_no_check (eq_refl (@Raise dict {| exn_cls := RuntimeError; exn_msg := "down" |}, toy_left))|].
  vm_compute. split_and!; try reflexivity. by eexists.
Qed.
